(* ===== verification/_CoqProject ===== *)
-Q . S2P
Prelude.v
Effects.v
Buffer.v
Heap.v
HeapSpec.v
HeapProof.v
HeapTheorems.v
Multiboot.v
HeapBoot.v
Display.v
Log.v
Service.v
ServiceTheorems.v
Panic.v
PanicTheorems.v
Ports.v
Mini64Ata.v
Mini64Fat.v
Mini64FatProof.v
Mini64FatStore.v
Mini64FatTheorems.v
Mini64FatFormat.v
Font.v
Mini64Console.v
Mini64ConsoleTheorems.v
Mini64Boot.v
Mini64Line.v
Mini64LineTheorems.v
Mini64Shell.v
Mini64ShellTheorems.v
TuiScreen.v
TuiDraw.v
TuiWidgets.v
TuiRender.v
TuiTheorems.v
Net.v
NetTcp.v
NetTheorems.v
Rtc.v
RtcTheorems.v
Timed.v
Calendar.v
TimedTheorems.v
Ps2.v
Ps2Theorems.v
Tmpfs.v
Vfs.v
VfsTheorems.v
Elf.v
Ramdisk.v
Crypto.v
Auth.v
AuthTheorems.v
Session.v
SessionTheorems.v
Pstore.v
Bootopts.v
Tty.v
Keyboard.v
VideoMemory.v
FbDisplay.v
FbScreen.v
FbTheorems.v
FbBoot.v
Ansi.v
AnsiTheorems.v
Ext2.v
Ext2Blocks.v
Ext2Dir.v
Ext2Files.v
Ext2Tree.v
Ext2Ops.v
Ext2Store.v
KernelDisk.v
Ext2Theorems.v
Varfs.v
