(* ===== verification/Prelude.v ===== *)
(** * OS64 verification library

    OS64 is a small x86-64 operating system: a monolithic kernel
    (src/kernel), a rescue system that boots on its own and repairs the disk
    (src/mini64), and a text user interface library with applications
    (src/user).  This library models its core in Rocq and proves what makes each
    part correct.

    ** How the code is modelled

    An integer of [w] bits is a [Z] with its wrap-around written out ([u8],
    [u16], [u32], [u64], [s8], [s32], [s64] below).  A C string is the list of its
    characters; a buffer is a list, and a store or load outside it is the outcome
    [Undefined].  A function that may loop, or hit undefined behaviour, returns an
    [outcome]; loops that are not structural take fuel, and running out of it is
    the outcome [OutOfFuel], which the theorems exclude.  Static variables are
    records, passed explicitly or through the state monad of Effects.v.  Hardware
    and parts that are not modelled are type classes: the port functions ([Ports]),
    the network card ([NetDev]), the disk, the terminal, the subsystems a service
    polls, the environment of the time service.

    ** Files and sources

    - Prelude.v, Effects.v, Buffer.v: widths, outcomes, text, tactics and hint
      databases; the state monad; fixed-size text buffers.
    - Heap.v (src/kernel/mm/memory.c: kmalloc, kfree, kcalloc, krealloc), with the
      abstract heap of HeapSpec.v, the refinement lemmas of HeapProof.v and the
      theorems of HeapTheorems.v; Multiboot.v and HeapBoot.v (memory_init and the
      boot information).
    - Display.v, Log.v (src/kernel/drivers/display/log.c): the message ring.
    - Service.v, ServiceTheorems.v (src/kernel/core/service.c and the boot order
      of kernel.c): the service table as a state machine.
    - Panic.v, PanicTheorems.v (src/kernel/core/panic.c): the panic screen and the
      saved log.
    - Ports.v; Rtc.v, RtcTheorems.v (src/kernel/drivers/rtc/rtc.c); Ps2.v,
      Ps2Theorems.v (src/kernel/drivers/keyboard/ps2.c).
    - Net.v, NetTcp.v, NetTheorems.v (src/kernel/net/net.c): ARP, IPv4, ICMP, UDP,
      DNS, NTP, TCP and HTTP over the card.
    - Timed.v, Calendar.v, TimedTheorems.v (src/kernel/core/timed.c): calendar,
      configuration, clocks and NTP synchronisation; [system_env] runs the service
      on the models of the clock driver and the network stack.
    - Ramdisk.v (src/kernel/fs/fs.c), Tmpfs.v (src/kernel/fs/tmpfs.c), Vfs.v and VfsTheorems.v
      (src/kernel/fs/vfs.c and vfs_access.c): the file tree and its permissions.
    - Ext2.v (src/kernel/fs/ext2.c) over KernelDisk.v (the sector operations of
      src/kernel/drivers/disk/disk.c): volumes, inodes, directories and files, with
      the lemmas on blocks (Ext2Blocks.v), directory records (Ext2Dir.v), the
      blocks of files (Ext2Files.v), the invariant of a volume (Ext2Tree.v), the
      operations (Ext2Ops.v) and stores (Ext2Store.v), and Ext2Theorems.v; Varfs.v
      (src/kernel/fs/varfs.c and ext_variant.c): the data partition on top of it.
    - Elf.v (src/kernel/core/elf.c): the program loader.
    - Crypto.v (src/kernel/security/crypto.c): SHA-256, HMAC and PBKDF2; Auth.v,
      AuthTheorems.v (src/kernel/security/auth.c): accounts; Session.v,
      SessionTheorems.v: the account commands of src/kernel/core/kernel.c.
    - Pstore.v (src/kernel/core/pstore.c): the crash record; Bootopts.v
      (src/kernel/core/bootopts.c): boot options; Tty.v (src/kernel/core/tty.c):
      terminals; Keyboard.v (src/kernel/drivers/keyboard/keyboard.c): scan codes.
    - VideoMemory.v, FbDisplay.v (src/kernel/drivers/display/display.c and
      bochs_vbe.c) with FbScreen.v, FbTheorems.v and FbBoot.v: the console on text
      and pixel screens and on the serial line; Ansi.v, AnsiTheorems.v
      (src/kernel/drivers/display/ansi_terminal.c): escape sequences on top of it.
    - Mini64Ata.v, Mini64Fat.v with its proofs, Font.v, Mini64Console.v,
      Mini64Boot.v, Mini64Line.v, Mini64Shell.v and their theorem files
      (src/mini64/kernel.c): the rescue system's disk driver, FAT32 file system,
      console, boot information, line editor and command loop.
    - TuiScreen.v, TuiWidgets.v (src/user/libtui) with TuiDraw.v, TuiRender.v and
      TuiTheorems.v: screen buffers, windows, widgets, events and dialogs.

    ** What the theorems show

    - Heap: every operation refines an abstract list of blocks and returns; blocks
      handed out are fresh, aligned and disjoint, their contents survive, the
      counters add up, and every sequence of calls keeps the heap well formed.
    - Log, services, panic: the ring gives the last 64 messages in order; a service
      starts only on a ready dependency and a healthy boot brings all of them up;
      saving the log never leaves its buffer.
    - Rescue system: reads and writes of the drive, storing a file (new or in place
      of an old one, which frees exactly the old one's chain and leaves the other
      files as they were, also when the disk is full), deleting files, formatting and mounting again, the screen after any text, the edit keys,
      the boot information parsers, and that erasing touches exactly the sectors
      asked for.
    - Network: whatever arrives, the stack stays inside its packets and buffers,
      with the lengths it computes wrapping as in C; the TCP receiver delivers the stream that was sent, whatever the order and
      repetition of its segments; the checksum is RFC 1071's.
    - Time: a reading of the clock is never torn, though the registers hold
      anything during an update; dates and seconds convert into
      each other without loss; a synchronisation moves the clock by the server's
      offset up to half the round trip; settings stay within their limits.
    - Files and programs: the files of the ram disk are found, by index and by
      path; the temporary file system implements a bounded map; on an ext2 volume in
      order a store returns, succeeds when there is room, and is loaded back, also
      after a restart, with every other file as it was, also when it fails (for
      paths with only directories on the way, no dots in the part to be created and
      a last name of at most 255 characters), and formatting the data partition
      gives such a volume; a user, of the same group or not, cannot change or read
      another user's file against its mode, whatever the calls; loading a program
      does what its headers say and, also when it fails, stays in the memory of
      programs.
    - Accounts: the password hash is the standard's; every sequence of account
      operations keeps the table well formed, saved accounts are restored, and
      exactly the right passwords are accepted; the commands, mkuser among them,
      give an ordinary user no way to change other accounts.
    - Consoles: any sequence of display calls shows what an abstract terminal
      shows, and the display comes up from every well-formed boot information, in
      the first frame buffer it can use or else in text mode; the
      escape-sequence terminal stays within its buffers and shows them; a terminal
      keeps its last 64 lines; keys pressed and released in any order, with
      modifiers held, are decoded to their characters (right control and alt, print
      screen and pause apart); boot options are the words of the command line; a crash record survives a restart.
    - Mouse: packets are found in the byte stream and reported in order.
    - Text interface: UTF-8 text lands in its cells; after rendering the terminal
      shows the back buffer; text boxes, focus and lists follow their abstract
      behaviour.
    - Behaviours that are defects (a heap map loop that never ends, rows of the
      panic screen that are too wide, dialogs that run out of windows, program
      headers whose sums wrap, owners looked up two letters too far, a session that
      becomes another account when one is deleted, names added to regular files,
      and buffers that overflow) are proved as such.

    ** Bounds

    Fuel is always a quantity of the state the loop runs over: the number of
    blocks of the heap, the characters left to read, the entries of a table, the
    fragments of a connection, the days divided by 365, the length of a command
    line or path, the tags of the boot information and two more, the bytes of a
    file being written.  A directory block of 4096 bytes has at most 512 records
    (fuel 513) and a file at most 1036 blocks.  Polling loops use the bound the
    code has (100000 status reads, a million on the disk and the serial line, the
    caller's number of spins).  The depth to which ext2 directories are listed is
    a parameter.
    Network polls can nest, since answering needs an address that is waited for by
    polling: the depth is a parameter and safety holds for every depth.

    ** Not modelled

    The shell and start-up of src/kernel/core/kernel.c apart from its boot order
    and account commands, since most commands only print; the process file system
    (procfs.c), the FAT32 volume of disk.c (the rescue system's version of it is
    modelled), and the PCI and network card drivers, which work on rings in
    memory shared with the device; random numbers, the TLS client and program
    signatures, whose primitives are the vendored BearSSL library's; the desktop,
    the window manager and the image viewer, which draw pixels; the applications
    under src/user/apps and the SDK.  Their calls are interfaces where modelled
    code needs them.  The certificate store (ca_store.c) is generated data;
    assembly, linker scripts and build scripts are not C.  Of the ext2 operations
    the theorems cover formatting, storing, loading and status; changing modes and
    owners, removing, listing and checking are modelled without theorems of their
    own. *)

From Stdlib Require Import Ascii String.
From Stdlib Require Import ZArith Lia.
From stdpp Require Import base numbers list gmap strings.

#[global] Open Scope Z_scope.

Declare Scope os64_scope.
Delimit Scope os64_scope with os64.

(** ** Machine integers

    A [w]-bit unsigned integer is a [Z] in [0 .. 2^w - 1]; the wrap-around of
    C's unsigned arithmetic is written out at every operation that has it. *)

Definition u8 (x : Z) : Z := x mod 2 ^ 8.
Definition u16 (x : Z) : Z := x mod 2 ^ 16.
Definition u32 (x : Z) : Z := x mod 2 ^ 32.
Definition u64 (x : Z) : Z := x mod 2 ^ 64.

(** [int8_t] and [int] conversions (two's complement). *)
Definition s8 (x : Z) : Z := (x + 2 ^ 7) mod 2 ^ 8 - 2 ^ 7.
Definition s32 (x : Z) : Z := (x + 2 ^ 31) mod 2 ^ 32 - 2 ^ 31.
Definition s64 (x : Z) : Z := (x + 2 ^ 63) mod 2 ^ 64 - 2 ^ 63.

Definition is_u8 (x : Z) : Prop := 0 <= x < 2 ^ 8.
Definition is_u16 (x : Z) : Prop := 0 <= x < 2 ^ 16.
Definition is_u32 (x : Z) : Prop := 0 <= x < 2 ^ 32.
Definition is_u64 (x : Z) : Prop := 0 <= x < 2 ^ 64.

(** C's truth value of an integer. *)
Definition b2z (b : bool) : Z := if b then 1 else 0.
Definition z2b (x : Z) : bool := negb (x =? 0).

(** ** Outcomes

    [Ok] is a normal return; [Undefined] is an access the C program has no
    meaning for (a read of an address that holds no object, a write past the
    end of an array); [OutOfFuel] is a loop cut short by the model's bound.
    Theorems that the code returns are stated as equalities with [Ok]. *)

Inductive outcome (A : Type) : Type :=
| Ok (a : A)
| Undefined
| OutOfFuel.
Arguments Ok {A} a.
Arguments Undefined {A}.
Arguments OutOfFuel {A}.

Definition obind {A B} (m : outcome A) (f : A -> outcome B) : outcome B :=
  match m with
  | Ok a => f a
  | Undefined => Undefined
  | OutOfFuel => OutOfFuel
  end.

Notation "'do' x '<-' m ; k" := (obind m (fun x => k))
  (at level 10, x name, m at level 100, k at level 200) : os64_scope.
Notation "'do' ' p '<-' m ; k" := (obind m (fun x => match x with p => k end))
  (at level 10, p pattern, m at level 100, k at level 200) : os64_scope.

#[global] Open Scope os64_scope.

Definition of_option {A} (o : option A) : outcome A :=
  match o with Some a => Ok a | None => Undefined end.

(** ** Bytes and text *)

Definition byte_of_ascii (a : ascii) : Z := Z.of_N (N_of_ascii a).
Definition text (s : string) : list Z := map byte_of_ascii (list_ascii_of_string s).
Arguments text s%_string.

(** ** Memory read through a pointer, least significant byte first *)

Definition memory := Z -> Z.

Definition rd16 (m : memory) (a : Z) : Z := m a + m (a + 1) * 2 ^ 8.
Definition rd32 (m : memory) (a : Z) : Z := rd16 m a + rd16 m (a + 2) * 2 ^ 16.
Definition rd64 (m : memory) (a : Z) : Z := rd32 m a + rd32 m (a + 4) * 2 ^ 32.

(** ** Tactics and hints *)

Create HintDb os64.
Create HintDb tui.

(** Unfolds the width definitions and calls [lia] with division and modulo
    turned into equations. *)
Ltac width_lia :=
  unfold u8, u16, u32, u64, is_u8, is_u16, is_u32, is_u64 in *;
  Z.div_mod_to_equations; lia.

(** Splits on every [if] or [match] of the goal. *)
Ltac split_cases :=
  repeat (case_match; simplify_eq/=; try done).

(** Turns boolean comparisons in the context into propositions. *)
Ltac breflect :=
  repeat match goal with
  | H : (_ && _)%bool = true |- _ => apply andb_true_iff in H as [? ?]
  | H : (_ || _)%bool = false |- _ => apply orb_false_iff in H as [? ?]
  | H : negb _ = true |- _ => apply negb_true_iff in H
  | H : negb _ = false |- _ => apply negb_false_iff in H
  | H : (_ =? _) = true |- _ => apply Z.eqb_eq in H
  | H : (_ =? _) = false |- _ => apply Z.eqb_neq in H
  | H : (_ <? _) = true |- _ => apply Z.ltb_lt in H
  | H : (_ <? _) = false |- _ => apply Z.ltb_ge in H
  | H : (_ <=? _) = true |- _ => apply Z.leb_le in H
  | H : (_ <=? _) = false |- _ => apply Z.leb_gt in H
  end.

Lemma u64_small (x : Z) : 0 <= x < 2 ^ 64 -> u64 x = x.
Proof. intros. by apply Z.mod_small. Qed.

Lemma u32_small (x : Z) : 0 <= x < 2 ^ 32 -> u32 x = x.
Proof. intros. by apply Z.mod_small. Qed.

Lemma u8_small (x : Z) : 0 <= x < 2 ^ 8 -> u8 x = x.
Proof. intros. by apply Z.mod_small. Qed.

Lemma obind_ok {A B} (m : outcome A) (f : A -> outcome B) (b : B) :
  obind m f = Ok b -> exists a, m = Ok a /\ f a = Ok b.
Proof. destruct m; simpl; naive_solver. Qed.

Lemma obind_assoc {A B C} (m : outcome A) (f : A -> outcome B) (g : B -> outcome C) :
  obind (obind m f) g = obind m (fun a => obind (f a) g).
Proof. by destruct m. Qed.

(** [x & ~(2^k - 1)] rounds down to a multiple of [2^k]. *)
Lemma land_lnot_ones (x k : Z) : 0 <= k -> Z.land x (Z.lnot (2 ^ k - 1)) = x - x mod 2 ^ k.
Proof.
  intros Hk. replace (2 ^ k - 1) with (Z.ones k) by (rewrite Z.ones_equiv; lia).
  rewrite <- Z.ldiff_land, Z.ldiff_ones_r by lia.
  rewrite Z.shiftl_mul_pow2, Z.shiftr_div_pow2 by lia.
  pose proof (Z.div_mod x (2 ^ k)). lia.
Qed.

(** Bits of disjoint positions add up. *)
Lemma lor_shift a b k : 0 <= a < 2 ^ k -> 0 <= k -> Z.lor a (Z.shiftl b k) = a + b * 2 ^ k.
Proof.
  intros Ha Hk. rewrite <- Z.add_nocarry_lor; [by rewrite Z.shiftl_mul_pow2|].
  apply Z.bits_inj'. intros i Hi. rewrite Z.land_spec, Z.shiftl_spec, Z.bits_0 by lia.
  destruct (Z.ltb_spec i k); [rewrite (Z.testbit_neg_r b) by lia; apply andb_false_r|].
  assert (Z.testbit a i = false) as ->; [|done]. apply Z.testbit_false; [lia|].
  rewrite Z.div_small; [done|]. split; [lia|]. pose proof (Z.pow_le_mono_r 2 k i). lia.
Qed.

(** ** C strings

    A NUL-terminated string is the list of its non-NUL bytes; index [length]
    reads the terminator. *)

Definition char_at (s : list Z) (i : nat) : Z := nth i s 0.

(** The string stored in a buffer: the bytes before the first NUL. *)
Fixpoint cstring (buf : list Z) : list Z :=
  match buf with
  | [] => []
  | c :: buf => if c =? 0 then [] else c :: cstring buf
  end.

Definition is_cstr (s : list Z) : Prop := Forall (fun c => 0 < c < 256) s.

Lemma text_is_cstr_dec (s : list Z) :
  forallb (fun c => (0 <? c) && (c <? 256)) s = true -> is_cstr s.
Proof.
  intros H. apply Forall_forall. intros x Hx. rewrite forallb_forall in H.
  specialize (H x (proj1 (list_elem_of_In _ _) Hx)). breflect. lia.
Qed.

Lemma cstring_app_nul (s rest : list Z) : is_cstr s -> cstring (s ++ 0 :: rest) = s.
Proof.
  induction 1 as [|c s Hc _ IH]; simpl; [done|].
  rewrite (proj2 (Z.eqb_neq c 0)) by lia. by rewrite IH.
Qed.

(** A [str]-prefix copy loop bounded by [cap - 1], as used all over the code:
    [while (s[n] && n + 1 < cap) { d[n] = s[n]; n++; } d[n] = 0;] *)
Definition bounded (cap : nat) (s : list Z) : list Z := take (pred cap) s.

(** ** Decimal output

    The digit loop [while (n) { b[i++] = '0' + n % 10; n /= 10; }] and the
    reversal that prints it; twenty digits are enough for 64 bits. *)

Fixpoint digits_rev (fuel : nat) (n : Z) : list Z :=
  match fuel with
  | O => []
  | S fuel => if n =? 0 then [] else (48 + n mod 10) :: digits_rev fuel (n / 10)
  end.

Definition decimal (n : Z) : list Z := if n =? 0 then [48] else rev (digits_rev 20 n).

Definition decimal_value (ds : list Z) : Z := fold_left (fun acc d => acc * 10 + (d - 48)) ds 0.

Lemma digits_rev_value (fuel : nat) (n : Z) :
  0 <= n < 10 ^ Z.of_nat fuel -> decimal_value (rev (digits_rev fuel n)) = n.
Proof.
  revert n. induction fuel as [|fuel IH]; intros n Hn.
  - simpl in *. unfold decimal_value. simpl. lia.
  - cbn [digits_rev]. destruct (n =? 0) eqn:E; breflect; [unfold decimal_value; simpl; lia|].
    cbn [rev]. unfold decimal_value. rewrite fold_left_app. cbn [fold_left].
    fold (decimal_value (rev (digits_rev fuel (n / 10)))).
    rewrite Nat2Z.inj_succ, Z.pow_succ_r in Hn by lia.
    rewrite IH by (Z.div_mod_to_equations; lia). Z.div_mod_to_equations; lia.
Qed.

(** Printing a 64-bit number and reading it back gives the number. *)
Lemma decimal_roundtrip (n : Z) : is_u64 n -> decimal_value (decimal n) = n.
Proof.
  intros Hn. unfold decimal. destruct (n =? 0) eqn:E; breflect; [by subst|].
  apply digits_rev_value. unfold is_u64 in Hn. simpl. lia.
Qed.

Lemma digits_rev_range (fuel : nat) (n : Z) :
  0 <= n -> Forall (fun d => 48 <= d <= 57) (digits_rev fuel n).
Proof.
  revert n. induction fuel as [|fuel IH]; intros n Hn; simpl; [done|].
  destruct (n =? 0); [done|]. constructor; [Z.div_mod_to_equations; lia|].
  apply IH. Z.div_mod_to_equations; lia.
Qed.

Lemma digits_rev_length (fuel : nat) (n : Z) : (length (digits_rev fuel n) <= fuel)%nat.
Proof.
  revert n. induction fuel as [|fuel IH]; intros n; simpl; [lia|].
  destruct (n =? 0); simpl; [lia|]. specialize (IH (n / 10)). lia.
Qed.

Lemma digits_rev_small (k fuel : nat) (n : Z) :
  0 <= n < 10 ^ Z.of_nat k -> (length (digits_rev fuel n) <= k)%nat.
Proof.
  revert k n. induction fuel as [|fuel IH]; intros k n Hn; simpl; [lia|].
  destruct (n =? 0) eqn:E; breflect; simpl; [lia|]. destruct k as [|k]; [simpl in Hn; lia|].
  rewrite Nat2Z.inj_succ, Z.pow_succ_r in Hn by lia.
  specialize (IH k (n / 10)). assert (0 <= n / 10 < 10 ^ Z.of_nat k) by (Z.div_mod_to_equations; lia).
  lia.
Qed.
