(* ===== verification/Effects.v ===== *)
(** * A state monad with undefined behaviour and bounded loops

    Code that threads a state, may return early, and may hit undefined
    behaviour or the model's loop bound is a function from a state to an
    [outcome] of a result and a new state. *)

From stdpp Require Import base numbers list.
From Stdlib Require Import ZArith Lia.
From S2P Require Import Prelude.

Definition M (S A : Type) : Type := S -> outcome (A * S).

Definition ret {S A} (a : A) : M S A := fun s => Ok (a, s).
Definition bind {S A B} (m : M S A) (f : A -> M S B) : M S B :=
  fun s => match m s with
           | Ok (a, s) => f a s
           | Undefined => Undefined
           | OutOfFuel => OutOfFuel
           end.
Definition get {S} : M S S := fun s => Ok (s, s).
Definition modify {S} (f : S -> S) : M S unit := fun s => Ok (tt, f s).
Definition undefined {S A} : M S A := fun _ => Undefined.
Definition out_of_fuel {S A} : M S A := fun _ => OutOfFuel.

Notation "'let!' x := m 'in' k" := (bind m (fun x => k))
  (at level 10, x name, m at level 100, k at level 200) : os64_scope.
Notation "'let!' ' p := m 'in' k" := (bind m (fun x => match x with p => k end))
  (at level 10, p pattern, m at level 100, k at level 200) : os64_scope.
Notation "m ';;' k" := (bind m (fun _ => k))
  (at level 100, right associativity) : os64_scope.

(** A loop body run on each element in turn; [Some r] leaves the loop (and the
    function) with [r]. *)
Fixpoint for_each {S A R} (l : list A) (body : A -> M S (option R)) : M S (option R) :=
  match l with
  | [] => ret None
  | x :: l => let! r := body x in match r with Some r => ret (Some r) | None => for_each l body end
  end.

(** A loop without early exit, and a conditional statement. *)
Fixpoint each {S A} (l : list A) (f : A -> M S unit) : M S unit :=
  match l with [] => ret tt | a :: l => f a ;; each l f end.

Definition when {S} (b : bool) (m : M S unit) : M S unit := if b then m else ret tt.

Lemma bind_ok {S A B} (m : M S A) (f : A -> M S B) (s s' : S) (a : A) :
  m s = Ok (a, s') -> bind m f s = f a s'.
Proof. unfold bind. by intros ->. Qed.
