(* ===== verification/Buffer.v ===== *)
(** * Byte buffers edited in place

    Reads and writes by index, undefined outside the buffer, and the two
    shifting loops both line editors of the repository use to open and close a
    gap (src/mini64/kernel.c readline, src/user/libtui/widgets.c edit). *)

From stdpp Require Import base numbers list.
From Stdlib Require Import ZArith Lia.
From S2P Require Import Prelude.

Definition rd (i : nat) (b : list Z) : outcome Z := of_option (b !! i).
Definition wr (i : nat) (v : Z) (b : list Z) : outcome (list Z) :=
  if Nat.ltb i (length b) then Ok (<[i := v]> b) else Undefined.

(** [for (i = p; i < p + n; i++) b[i] = b[i + 1];] *)
Fixpoint shift_left (n p : nat) (b : list Z) : outcome (list Z) :=
  match n with
  | O => Ok b
  | S n => do v <- rd (p + 1) b; do b <- wr p v b; shift_left n (p + 1) b
  end.

(** [for (i = p + n; i > p; i--) b[i] = b[i - 1];] *)
Fixpoint shift_right (n p : nat) (b : list Z) : outcome (list Z) :=
  match n with
  | O => Ok b
  | S n => do v <- rd (p + n) b; do b <- wr (p + S n) v b; shift_right n p b
  end.

Lemma rd_app l x r : rd (length l) (l ++ x :: r) = Ok x.
Proof. unfold rd. by rewrite lookup_app_r, Nat.sub_diag by lia. Qed.

Lemma wr_app l x y r : wr (length l) y (l ++ x :: r) = Ok (l ++ y :: r).
Proof.
  unfold wr. rewrite (proj2 (Nat.ltb_lt _ _)) by (rewrite length_app; cbn [length]; lia).
  by rewrite insert_app_r_alt, Nat.sub_diag by lia.
Qed.

(** Making room for a character and writing it. *)
Lemma insert_char l r x rest c :
  obind (shift_right (length r) (length l) (l ++ r ++ x :: rest)) (wr (length l) c)
  = Ok (l ++ c :: r ++ rest).
Proof.
  revert x rest. induction r as [|y r IH] using rev_ind; intros x rest.
  - cbn [length shift_right obind app]. apply wr_app.
  - rewrite length_app, Nat.add_1_r. cbn [shift_right]. rewrite <- (app_assoc r [y]). cbn [app].
    replace (length l + length r)%nat with (length (l ++ r)) by (rewrite length_app; lia).
    rewrite (app_assoc l r (y :: x :: rest)), rd_app. cbn [obind].
    replace (length l + S (length r))%nat with (length ((l ++ r) ++ [y])) by (rewrite !length_app; cbn [length]; lia).
    replace ((l ++ r) ++ y :: x :: rest) with (((l ++ r) ++ [y]) ++ x :: rest) by (by rewrite <- app_assoc).
    rewrite wr_app. cbn [obind]. rewrite <- !app_assoc. cbn [app]. by rewrite IH.
Qed.

(** Closing the gap of a removed character. *)
Lemma remove_char l c r x rest :
  shift_left (S (length r)) (length l) (l ++ c :: r ++ x :: rest) = Ok (l ++ r ++ x :: x :: rest).
Proof.
  revert l c. induction r as [|y r IH]; intros l c; cbn [length].
  - cbn [shift_left app]. replace (length l + 1)%nat with (length (l ++ [c])) by (rewrite length_app; done).
    replace (l ++ c :: x :: rest) with ((l ++ [c]) ++ x :: rest) by (by rewrite <- app_assoc).
    rewrite rd_app. cbn [obind]. rewrite <- app_assoc. cbn [app]. by rewrite wr_app.
  - cbn [shift_left] in *. cbn [app].
    replace (rd (length l + 1) (l ++ c :: y :: r ++ x :: rest)) with (Ok y : outcome Z).
    2:{ replace (length l + 1)%nat with (length (l ++ [c])) by (rewrite length_app; done).
        replace (l ++ c :: y :: r ++ x :: rest) with ((l ++ [c]) ++ y :: r ++ x :: rest) by (by rewrite <- app_assoc).
        by rewrite rd_app. }
    cbn [obind]. rewrite wr_app. cbn [obind].
    replace (l ++ y :: y :: r ++ x :: rest) with ((l ++ [y]) ++ y :: r ++ x :: rest) by (by rewrite <- app_assoc).
    replace (length l + 1)%nat with (length (l ++ [y])) by (rewrite length_app; done).
    rewrite IH. by rewrite <- app_assoc.
Qed.
