(* ===== verification/Heap.v ===== *)
(** * The kernel heap (src/kernel/mm/memory.c)

    A first-fit allocator over one static array.  Block headers form a doubly
    linked list that tiles the array; the model keeps the headers in a finite
    map from addresses ([blocks]) and the payload bytes in another ([bytes]).
    The two views alias the way the array does: storing a header destroys the
    payload bytes it covers, and storing a payload byte destroys any header it
    falls in, so a walk that met such a header would be [Undefined]. *)

From stdpp Require Import base numbers list gmap.
From Stdlib Require Import ZArith Lia.
From S2P Require Import Prelude.

Definition HEAP_MAX_BYTES : Z := 2 * 1024 * 1024.
Definition BLOCK_MAGIC : Z := 0x4f5336344d454d31.
Definition ALIGNMENT : Z := 16.
Definition MIN_PAYLOAD : Z := 16.

(** [sizeof(block_t)]: five fields of 36 bytes, padded to the 16-byte
    alignment of the structure. *)
Definition SIZEOF_BLOCK : Z := 48.

Record block_t := Block {
  magic : Z;
  size : Z;
  previous : Z;
  next : Z;
  free : bool
}.

Definition set_size (v : Z) (b : block_t) : block_t :=
  Block (magic b) v (previous b) (next b) (free b).
Definition set_previous (v : Z) (b : block_t) : block_t :=
  Block (magic b) (size b) v (next b) (free b).
Definition set_next (v : Z) (b : block_t) : block_t :=
  Block (magic b) (size b) (previous b) v (free b).
Definition set_free (v : bool) (b : block_t) : block_t :=
  Block (magic b) (size b) (previous b) (next b) v.

(** The file's static variables. *)
Record heap_state := HeapState {
  total_kib : Z;
  heap_bytes : Z;
  used : Z;
  allocations : Z;
  first : Z;
  blocks : gmap Z block_t;
  bytes : gmap Z Z
}.

Definition with_used (v : Z) (s : heap_state) : heap_state :=
  HeapState (total_kib s) (heap_bytes s) v (allocations s) (first s) (blocks s) (bytes s).
Definition with_allocations (v : Z) (s : heap_state) : heap_state :=
  HeapState (total_kib s) (heap_bytes s) (used s) v (first s) (blocks s) (bytes s).
Definition with_memory (bl : gmap Z block_t) (by_ : gmap Z Z) (s : heap_state) : heap_state :=
  HeapState (total_kib s) (heap_bytes s) (used s) (allocations s) (first s) bl by_.

(** Is address [a] inside the header stored at [p]? *)
Definition in_header (p a : Z) : bool := (p <=? a) && (a <? p + SIZEOF_BLOCK).

Definition load (s : heap_state) (p : Z) : outcome block_t := of_option (blocks s !! p).

Definition store (p : Z) (b : block_t) (s : heap_state) : heap_state :=
  with_memory (<[p := b]> (blocks s))
              (filter (fun kv => in_header p (fst kv) = false) (bytes s)) s.

(** A field assignment through a pointer. *)
Definition modify (p : Z) (f : block_t -> block_t) (s : heap_state) : outcome heap_state :=
  do b <- load s p;
  Ok (store p (f b) s).

Definition store_byte (a v : Z) (s : heap_state) : heap_state :=
  with_memory (filter (fun kv => in_header (fst kv) a = false) (blocks s))
              (<[a := v]> (bytes s)) s.

(** Copies a byte, or the absence of a known value. *)
Definition copy_byte (dst src : Z) (s : heap_state) : heap_state :=
  match bytes s !! src with
  | Some v => store_byte dst v s
  | None => with_memory (filter (fun kv => in_header (fst kv) dst = false) (blocks s))
                        (delete dst (bytes s)) s
  end.

Definition align_up (value : Z) : Z :=
  if (2 ^ 64 - 1) - (ALIGNMENT - 1) <? value then 0
  else Z.land (u64 (value + ALIGNMENT - 1)) (Z.lnot (ALIGNMENT - 1)).

(** Fuel of a walk along the [next] pointers: a walk that visits distinct
    headers visits at most as many as have been stored. *)
Definition walk_fuel (s : heap_state) : nat := S (base.size (blocks s)).

Section heap.

(** The address the linker gives the static array [heap]. *)
Context (heap : Z).

(** memory_init, from the point where the boot map's byte count is known
    (memory_init's first lines are in HeapBoot.v). *)
Definition heap_init (available : Z) (s : heap_state) : heap_state :=
  let hb := if z2b available && (available / 8 <? HEAP_MAX_BYTES)
            then available / 8 else HEAP_MAX_BYTES in
  let hb := Z.land hb (Z.lnot (ALIGNMENT - 1)) in
  let s := HeapState (available / 1024) hb 0 0 0 (blocks s) (bytes s) in
  if hb <=? SIZEOF_BLOCK + MIN_PAYLOAD then s
  else
    let s := HeapState (total_kib s) hb 0 0 heap (blocks s) (bytes s) in
    store heap (Block BLOCK_MAGIC (hb - SIZEOF_BLOCK) 0 0 true) s.

Definition memory_total_kib (s : heap_state) : Z := total_kib s.
Definition memory_used_bytes (s : heap_state) : Z := used s.
Definition memory_allocation_count (s : heap_state) : Z := allocations s.

Definition memory_heap_bytes (s : heap_state) : Z :=
  if SIZEOF_BLOCK <? heap_bytes s then heap_bytes s - SIZEOF_BLOCK else 0.

Fixpoint free_bytes_walk (fuel : nat) (s : heap_state) (block acc : Z) : outcome Z :=
  match fuel with
  | O => OutOfFuel
  | S fuel =>
    if block =? 0 then Ok acc else
    do b <- load s block;
    if negb (magic b =? BLOCK_MAGIC) then Ok 0 else
    let acc := if free b then u64 (acc + size b) else acc in
    free_bytes_walk fuel s (next b) acc
  end.

Definition memory_free_bytes (s : heap_state) : outcome Z :=
  free_bytes_walk (walk_fuel s) s (first s) 0.

(** The part of kmalloc's loop body after the block has been chosen. *)
Definition kmalloc_take (wanted block : Z) (s : heap_state) : outcome (Z * heap_state) :=
  do b <- load s block;
  do s <-
    (if u64 (wanted + SIZEOF_BLOCK + MIN_PAYLOAD) <=? size b then
       let remainder := u64 (block + SIZEOF_BLOCK + wanted) in
       let s := store remainder
                  (Block BLOCK_MAGIC (u64 (size b - wanted - SIZEOF_BLOCK)) block (next b) true) s in
       do r <- load s remainder;
       do s <- (if z2b (next r) then modify (next r) (set_previous remainder) s else Ok s);
       do s <- modify block (set_next remainder) s;
       modify block (set_size wanted) s
     else Ok s);
  do s <- modify block (set_free false) s;
  do b <- load s block;
  let s := with_used (u64 (used s + size b)) s in
  let s := with_allocations (u64 (allocations s + 1)) s in
  Ok (u64 (block + SIZEOF_BLOCK), s).

Fixpoint kmalloc_walk (fuel : nat) (wanted block : Z) (s : heap_state)
  : outcome (Z * heap_state) :=
  match fuel with
  | O => OutOfFuel
  | S fuel =>
    if block =? 0 then Ok (0, s) else
    do b <- load s block;
    if negb (magic b =? BLOCK_MAGIC) then Ok (0, s)
    else if negb (free b) || (size b <? wanted) then kmalloc_walk fuel wanted (next b) s
    else kmalloc_take wanted block s
  end.

Definition kmalloc (sz : Z) (s : heap_state) : outcome (Z * heap_state) :=
  if (sz =? 0) || (first s =? 0) then Ok (0, s) else
  let wanted := align_up sz in
  if wanted =? 0 then Ok (0, s)
  else kmalloc_walk (walk_fuel s) wanted (first s) s.

(** The [while] loop shared by kfree and krealloc: the block whose payload is
    at [pointer], [0] when the walk runs off the list, [None] when it meets a
    bad magic number. *)
Fixpoint find_block (fuel : nat) (pointer : Z) (block : Z) (s : heap_state)
  : outcome (option Z) :=
  match fuel with
  | O => OutOfFuel
  | S fuel =>
    if block =? 0 then Ok (Some 0)
    else if u64 (block + SIZEOF_BLOCK) =? pointer then Ok (Some block)
    else
      do b <- load s block;
      if negb (magic b =? BLOCK_MAGIC) then Ok None
      else find_block fuel pointer (next b) s
  end.

(** kfree's merge with the following block. *)
Definition merge_next (block : Z) (s : heap_state) : outcome heap_state :=
  do b <- load s block;
  if next b =? 0 then Ok s else
  do n <- load s (next b);
  if (magic n =? BLOCK_MAGIC) && free n then
    do s <- modify block (fun b => set_size (u64 (size b + (SIZEOF_BLOCK + size n))) b) s;
    do s <- modify block (set_next (next n)) s;
    do b <- load s block;
    if z2b (next b) then modify (next b) (set_previous block) s else Ok s
  else Ok s.

(** kfree's merge into the preceding block. *)
Definition merge_previous (block : Z) (s : heap_state) : outcome heap_state :=
  do b <- load s block;
  if previous b =? 0 then Ok s else
  do p <- load s (previous b);
  if (magic p =? BLOCK_MAGIC) && free p then
    let prev := previous b in
    do s <- modify prev (fun q => set_size (u64 (size q + (SIZEOF_BLOCK + size b))) q) s;
    do s <- modify prev (set_next (next b)) s;
    do q <- load s prev;
    if z2b (next q) then modify (next q) (set_previous prev) s else Ok s
  else Ok s.

Definition kfree (pointer : Z) (s : heap_state) : outcome heap_state :=
  if pointer =? 0 then Ok s
  else if (pointer <? heap + SIZEOF_BLOCK) || (heap + heap_bytes s <=? pointer) then Ok s
  else
    do found <- find_block (walk_fuel s) pointer (first s) s;
    match found with
    | None => Ok s
    | Some block =>
      if block =? 0 then Ok s else
      do b <- load s block;
      if negb (magic b =? BLOCK_MAGIC) || free b then Ok s
      else
        do s <- modify block (set_free true) s;
        let s := with_used (u64 (used s - size b)) s in
        let s := if z2b (allocations s)
                 then with_allocations (u64 (allocations s - 1)) s else s in
        do s <- merge_next block s;
        merge_previous block s
    end.

(** [for (i = 0; i < n; i++) result[i] = 0] *)
Fixpoint zero_bytes (n : nat) (p : Z) (s : heap_state) : heap_state :=
  match n with
  | O => s
  | S n => zero_bytes n (p + 1) (store_byte p 0 s)
  end.

Definition kcalloc (count sz : Z) (s : heap_state) : outcome (Z * heap_state) :=
  if z2b sz && ((2 ^ 64 - 1) / sz <? count) then Ok (0, s) else
  let n := u64 (count * sz) in
  do '(result, s) <- kmalloc n s;
  if result =? 0 then Ok (0, s)
  else Ok (result, zero_bytes (Z.to_nat n) result s).

Fixpoint copy_bytes (n : nat) (dst src : Z) (s : heap_state) : heap_state :=
  match n with
  | O => s
  | S n => copy_bytes n (dst + 1) (src + 1) (copy_byte dst src s)
  end.

Definition krealloc (pointer sz : Z) (s : heap_state) : outcome (Z * heap_state) :=
  if pointer =? 0 then kmalloc sz s
  else if sz =? 0 then do s <- kfree pointer s; Ok (0, s)
  else
    do found <- find_block (walk_fuel s) pointer (first s) s;
    match found with
    | None => Ok (0, s)
    | Some block =>
      if block =? 0 then Ok (0, s) else
      do b <- load s block;
      if free b || negb (magic b =? BLOCK_MAGIC) then Ok (0, s)
      else if sz <=? size b then Ok (pointer, s)
      else
        do '(replacement, s) <- kmalloc sz s;
        if replacement =? 0 then Ok (0, s)
        else
          do b <- load s block;
          let s := copy_bytes (Z.to_nat (size b)) replacement pointer s in
          do s <- kfree pointer s;
          Ok (replacement, s)
    end.

End heap.
