(* ===== verification/HeapSpec.v ===== *)
(** * Specification and proof of the kernel heap

    The abstract heap is the list of blocks in address order, each with its
    payload size and whether it is free.  [wf] relates a concrete state to it;
    every operation of Heap.v is shown to return ([Ok]) and to implement the
    list operation [alloc] or [dealloc]. *)

From stdpp Require Import base numbers list gmap.
From Stdlib Require Import ZArith Lia.
From S2P Require Import Prelude Heap.

Record ablock := AB { asize : Z; afree : bool }.

(** Bytes taken by a list of blocks, headers included. *)
Fixpoint extent (l : list ablock) : Z :=
  match l with
  | [] => 0
  | b :: l => SIZEOF_BLOCK + asize b + extent l
  end.

Definition used_bytes (l : list ablock) : Z :=
  foldr (fun b acc => (if afree b then 0 else asize b) + acc) 0 l.
Definition free_bytes (l : list ablock) : Z :=
  foldr (fun b acc => (if afree b then asize b else 0) + acc) 0 l.
Definition used_count (l : list ablock) : Z :=
  foldr (fun b acc => (if afree b then 0 else 1) + acc) 0 l.

(** ** Abstract operations *)

Definition fits (wanted : Z) (b : ablock) : bool := afree b && (wanted <=? asize b).

(** The first free block that is large enough, with what precedes and follows it. *)
Fixpoint first_fit (wanted : Z) (l : list ablock) : option (list ablock * ablock * list ablock) :=
  match l with
  | [] => None
  | b :: l =>
    if fits wanted b then Some ([], b, l) else
    match first_fit wanted l with
    | Some (l1, c, l2) => Some (b :: l1, c, l2)
    | None => None
    end
  end.

Definition carve (wanted : Z) (b : ablock) : list ablock :=
  if wanted + SIZEOF_BLOCK + MIN_PAYLOAD <=? asize b
  then [AB wanted false; AB (asize b - wanted - SIZEOF_BLOCK) true]
  else [AB (asize b) false].

Fixpoint locate (p a : Z) (l : list ablock) : option (list ablock * ablock * list ablock) :=
  match l with
  | [] => None
  | b :: l =>
    if a + SIZEOF_BLOCK =? p then Some ([], b, l) else
    match locate p (a + SIZEOF_BLOCK + asize b) l with
    | Some (l1, c, l2) => Some (b :: l1, c, l2)
    | None => None
    end
  end.

Definition glue (b : ablock) (l : list ablock) : list ablock :=
  match l with
  | n :: l' => if afree b && afree n
               then AB (asize b + SIZEOF_BLOCK + asize n) true :: l' else b :: l
  | [] => [b]
  end.

(** Merges every run of adjacent free blocks. *)
Fixpoint coalesce (l : list ablock) : list ablock :=
  match l with
  | [] => []
  | b :: l => glue b (coalesce l)
  end.

Fixpoint coalesced (l : list ablock) : Prop :=
  match l with
  | b :: l' => match l' with
               | n :: _ => (afree b && afree n = false)%bool
               | [] => True
               end /\ coalesced l'
  | [] => True
  end.

(** ** The concrete list *)

Definition link (a : Z) (l : list ablock) (nxt : Z) : Z :=
  match l with [] => nxt | _ :: _ => a end.

(** The headers from [a] on are those of [l], linked both ways; [nxt] is the
    last one's [next] field. *)
Fixpoint chain (m : gmap Z block_t) (prev a : Z) (l : list ablock) (nxt : Z) : Prop :=
  match l with
  | [] => True
  | b :: l =>
    let a' := a + SIZEOF_BLOCK + asize b in
    m !! a = Some (Block BLOCK_MAGIC (asize b) prev (link a' l nxt) (afree b))
    /\ chain m a a' l nxt
  end.

Definition ok_block (b : ablock) : Prop := MIN_PAYLOAD <= asize b /\ asize b mod ALIGNMENT = 0.

Definition last_addr (prev a : Z) (l : list ablock) : Z :=
  match l with
  | [] => prev
  | _ => a + extent (removelast l)
  end.

(** [x] is a byte of the payload of an allocated block; [a] is the address of
    the first header. *)
Fixpoint live (a : Z) (l : list ablock) (x : Z) : Prop :=
  match l with
  | [] => False
  | b :: l =>
    (afree b = false /\ a + SIZEOF_BLOCK <= x < a + SIZEOF_BLOCK + asize b)
    \/ live (a + SIZEOF_BLOCK + asize b) l x
  end.

(** The allocated block whose header is at [q] has payload size [sz]. *)
Fixpoint used_block (a : Z) (l : list ablock) (q sz : Z) : Prop :=
  match l with
  | [] => False
  | b :: l =>
    (a = q /\ asize b = sz /\ afree b = false)
    \/ used_block (a + SIZEOF_BLOCK + asize b) l q sz
  end.

Section spec.

Context (heap : Z).

Record wf_core (s : heap_state) (l : list ablock) : Prop := {
  wf_first : first s = link heap l 0;
  wf_chain : chain (blocks s) 0 heap l 0;
  wf_blocks : Forall ok_block l;
  wf_extent : l = [] \/ extent l = heap_bytes s;
  wf_size : 0 <= heap_bytes s <= HEAP_MAX_BYTES /\ heap_bytes s mod ALIGNMENT = 0;
  wf_used : used s = used_bytes l;
  wf_allocations : allocations s = used_count l
}.

Definition wf (s : heap_state) (l : list ablock) : Prop := wf_core s l /\ coalesced l.

(** What kmalloc promises: the first free block that fits, carved. *)
Definition alloc (sz : Z) (l : list ablock) : Z * list ablock :=
  if (sz =? 0) then (0, l) else
  let wanted := align_up sz in
  if wanted =? 0 then (0, l) else
  match first_fit wanted l with
  | Some (l1, b, l2) => (heap + extent l1 + SIZEOF_BLOCK, l1 ++ carve wanted b ++ l2)
  | None => (0, l)
  end.

(** What kfree promises: the block at [p] becomes free and is merged with its
    free neighbours; anything that is not an allocated payload is ignored. *)
Definition dealloc (p : Z) (l : list ablock) : list ablock :=
  match locate p heap l with
  | Some (l1, b, l2) => if afree b then l else coalesce (l1 ++ AB (asize b) true :: l2)
  | None => l
  end.

End spec.

(** ** List lemmas *)

Lemma extent_app (l1 l2 : list ablock) : extent (l1 ++ l2) = extent l1 + extent l2.
Proof. induction l1; simpl; lia. Qed.

Lemma extent_nonneg (l : list ablock) : Forall ok_block l -> 0 <= extent l.
Proof.
  induction 1 as [|b l [Hb _] _ IH]; simpl; [lia|].
  unfold MIN_PAYLOAD, SIZEOF_BLOCK in *. lia.
Qed.

Lemma used_bytes_app (l1 l2 : list ablock) :
  used_bytes (l1 ++ l2) = used_bytes l1 + used_bytes l2.
Proof. induction l1; simpl; [lia|]. unfold used_bytes in *. simpl. lia. Qed.

Lemma used_count_app (l1 l2 : list ablock) :
  used_count (l1 ++ l2) = used_count l1 + used_count l2.
Proof. induction l1; simpl; [lia|]. unfold used_count in *. simpl. lia. Qed.

Lemma free_bytes_app (l1 l2 : list ablock) :
  free_bytes (l1 ++ l2) = free_bytes l1 + free_bytes l2.
Proof. induction l1; simpl; [lia|]. unfold free_bytes in *. simpl. lia. Qed.

Lemma extent_split (l : list ablock) :
  extent l = used_bytes l + free_bytes l + SIZEOF_BLOCK * Z.of_nat (length l).
Proof.
  induction l as [|b l IH]; simpl; [unfold SIZEOF_BLOCK; lia|].
  rewrite IH. unfold SIZEOF_BLOCK. destruct (afree b); lia.
Qed.

Lemma used_bytes_bounds (l : list ablock) :
  Forall ok_block l -> 0 <= used_bytes l <= extent l.
Proof.
  induction 1 as [|b l [Hb _] _ IH]; simpl; [lia|].
  unfold MIN_PAYLOAD, SIZEOF_BLOCK in *. destruct (afree b); lia.
Qed.

Lemma free_bytes_bounds (l : list ablock) :
  Forall ok_block l -> 0 <= free_bytes l <= extent l.
Proof.
  induction 1 as [|b l [Hb _] _ IH]; simpl; [lia|].
  unfold MIN_PAYLOAD, SIZEOF_BLOCK in *. destruct (afree b); lia.
Qed.

Lemma used_count_bounds (l : list ablock) :
  Forall ok_block l -> 0 <= used_count l <= extent l.
Proof.
  induction 1 as [|b l [Hb _] _ IH]; simpl; [lia|].
  unfold MIN_PAYLOAD, SIZEOF_BLOCK in *. destruct (afree b); lia.
Qed.

Lemma first_fit_split (wanted : Z) (l l1 l2 : list ablock) (b : ablock) :
  first_fit wanted l = Some (l1, b, l2) ->
  l = l1 ++ b :: l2 /\ afree b = true /\ wanted <= asize b.
Proof.
  revert l1. induction l as [|c l IH]; intros l1; simpl; [done|].
  destruct (fits wanted c) eqn:Hf.
  - intros [= <- <- <-]. unfold fits in Hf. breflect. auto.
  - destruct (first_fit wanted l) as [[[k1 d] k2]|]; [|done].
    intros [= <- -> ->]. destruct (IH _ eq_refl) as (-> & ? & ?). auto.
Qed.

Lemma locate_split (p a : Z) (l l1 l2 : list ablock) (b : ablock) :
  locate p a l = Some (l1, b, l2) ->
  l = l1 ++ b :: l2 /\ p = a + extent l1 + SIZEOF_BLOCK.
Proof.
  revert a l1. induction l as [|c l IH]; intros a l1; simpl; [done|].
  destruct (a + SIZEOF_BLOCK =? p) eqn:Hp.
  - intros [= <- <- <-]. breflect. simpl. split; [done|lia].
  - destruct (locate p _ l) as [[[k1 d] k2]|] eqn:E; [|done].
    intros [= <- -> ->]. destruct (IH _ _ E) as (-> & ?). simpl. split; [done|lia].
Qed.

Lemma coalesced_app_inv (l1 l2 : list ablock) :
  coalesced (l1 ++ l2) -> coalesced l1 /\ coalesced l2.
Proof.
  induction l1 as [|b l1 IH]; [done|]. destruct l1 as [|c l1].
  - simpl. intros [_ H]. auto.
  - intros [Hb H]. destruct (IH H) as [H1 H2]. split; [by split|done].
Qed.

Lemma coalesced_app (l1 l2 : list ablock) :
  coalesced l1 -> coalesced l2 ->
  (forall b n, last l1 = Some b -> head l2 = Some n -> afree b && afree n = false)%bool ->
  coalesced (l1 ++ l2).
Proof.
  induction l1 as [|b l1 IH]; intros H1 H2 Hj; [done|].
  destruct l1 as [|c l1]; simpl.
  - split; [|done]. destruct l2; [done|]. by apply Hj.
  - destruct H1 as [Hb H1]. split; [done|]. apply IH; [done..|].
    intros x n Hx. apply Hj. simpl in *. by rewrite <- Hx.
Qed.

Lemma coalesced_mid (l1 l2 : list ablock) (b : ablock) :
  coalesced (l1 ++ b :: l2) ->
  (forall c, last l1 = Some c -> afree c && afree b = false)%bool.
Proof.
  induction l1 as [|d l1 IH]; [done|]. destruct l1 as [|e l1]; simpl.
  - intros [H _] c [= <-]. done.
  - intros [_ H] c Hc. apply (IH H). done.
Qed.

Lemma glue_coalesced (b : ablock) (l : list ablock) : coalesced l -> coalesced (glue b l).
Proof.
  destruct l as [|n l]; simpl; [done|]. intros [Hn Hl].
  destruct (afree b && afree n)%bool eqn:E; simpl.
  - split; [|done]. destruct l as [|m l]; [done|].
    destruct (afree b), (afree n); done.
  - rewrite E. auto.
Qed.

Lemma coalesce_coalesced (l : list ablock) : coalesced (coalesce l).
Proof. induction l; simpl; [done|]. by apply glue_coalesced. Qed.

Lemma coalesce_id (l : list ablock) : coalesced l -> coalesce l = l.
Proof.
  induction l as [|b l IH]; [done|]. intros [Hb Hl]. simpl. rewrite (IH Hl).
  destruct l; simpl; [done|]. by rewrite Hb.
Qed.

Lemma coalesce_app (l1 l2 : list ablock) :
  coalesce (l1 ++ l2) = foldr glue (coalesce l2) l1.
Proof. induction l1; simpl; congruence. Qed.

(** Gluing a coalesced prefix whose last block cannot merge is appending. *)
Lemma foldr_glue_app (l1 l2 : list ablock) :
  coalesced l1 ->
  (forall b n, last l1 = Some b -> head l2 = Some n -> afree b && afree n = false)%bool ->
  foldr glue l2 l1 = l1 ++ l2.
Proof.
  induction l1 as [|b l1 IH]; intros H1 Hj; [done|]. simpl.
  destruct l1 as [|c l1].
  - destruct l2; simpl; [done|]. by rewrite Hj.
  - destruct H1 as [Hb H1]. rewrite IH; [|done|]; [simpl; by rewrite Hb|].
    intros x n Hx. apply Hj. simpl in *. by rewrite <- Hx.
Qed.

Lemma glue_sums (b : ablock) (l : list ablock) :
  extent (glue b l) = extent (b :: l) /\
  used_bytes (glue b l) = used_bytes (b :: l) /\
  used_count (glue b l) = used_count (b :: l).
Proof.
  destruct l as [|n l]; simpl; [done|].
  destruct (afree b) eqn:Eb, (afree n) eqn:En; simpl; rewrite ?Eb, ?En; lia.
Qed.

Lemma coalesce_sums (l : list ablock) :
  extent (coalesce l) = extent l /\ used_bytes (coalesce l) = used_bytes l /\
  used_count (coalesce l) = used_count l.
Proof.
  induction l as [|b l (IH1 & IH2 & IH3)]; simpl; [done|].
  destruct (glue_sums b (coalesce l)) as (H1 & H2 & H3).
  rewrite H1, H2, H3. simpl. lia.
Qed.

Lemma glue_ok (b : ablock) (l : list ablock) :
  ok_block b -> Forall ok_block l -> Forall ok_block (glue b l).
Proof.
  intros Hb Hl. destruct l as [|n l]; simpl; [by constructor|].
  inversion Hl as [|? ? Hn Hl']; subst.
  destruct (afree b && afree n)%bool; [|by constructor].
  constructor; [|done]. unfold ok_block, MIN_PAYLOAD, ALIGNMENT, SIZEOF_BLOCK in *. simpl.
  Z.div_mod_to_equations; lia.
Qed.

Lemma coalesce_ok (l : list ablock) : Forall ok_block l -> Forall ok_block (coalesce l).
Proof. induction 1; simpl; [done|]. by apply glue_ok. Qed.

(** ** Lemmas on chains *)

Lemma last_addr_cons (prev a : Z) (b : ablock) (l : list ablock) :
  last_addr prev a (b :: l) = last_addr a (a + SIZEOF_BLOCK + asize b) l.
Proof. destruct l; simpl; lia. Qed.

Lemma link_app (a nxt : Z) (l1 l2 : list ablock) :
  link a (l1 ++ l2) nxt = link a l1 (link a l2 nxt).
Proof. by destruct l1. Qed.

Lemma chain_app (m : gmap Z block_t) (prev a nxt : Z) (l1 l2 : list ablock) :
  chain m prev a (l1 ++ l2) nxt <->
  chain m prev a l1 (link (a + extent l1) l2 nxt) /\
  chain m (last_addr prev a l1) (a + extent l1) l2 nxt.
Proof.
  revert prev a. induction l1 as [|b l1 IH]; intros prev a.
  - simpl. rewrite Z.add_0_r. tauto.
  - rewrite last_addr_cons. cbn [app chain extent]. rewrite IH.
    replace (a + SIZEOF_BLOCK + asize b + extent l1)
      with (a + (SIZEOF_BLOCK + asize b + extent l1)) by lia.
    rewrite link_app. replace (a + SIZEOF_BLOCK + asize b + extent l1)
      with (a + (SIZEOF_BLOCK + asize b + extent l1)) by lia.
    destruct l1; simpl; [|tauto].
    replace (a + (SIZEOF_BLOCK + asize b + 0)) with (a + SIZEOF_BLOCK + asize b) by lia. tauto.
Qed.

Lemma chain_frame (m m' : gmap Z block_t) (prev a nxt : Z) (l : list ablock) :
  Forall ok_block l ->
  (forall p, a <= p < a + extent l -> m' !! p = m !! p) ->
  chain m prev a l nxt -> chain m' prev a l nxt.
Proof.
  intros Hok. revert prev a. induction Hok as [|b l [Hb _] Hl IH]; intros prev a Hm; [done|].
  pose proof (extent_nonneg l Hl). unfold MIN_PAYLOAD, SIZEOF_BLOCK in *. simpl in *.
  intros [H1 H2]. split; [rewrite Hm by (unfold SIZEOF_BLOCK; lia); done|].
  apply IH; [|done]. intros p Hp. apply Hm. unfold SIZEOF_BLOCK in *. lia.
Qed.

Lemma chain_length (m : gmap Z block_t) (prev a nxt : Z) (l : list ablock) :
  Forall ok_block l -> chain m prev a l nxt -> (length l <= base.size m)%nat.
Proof.
  intros Hok. revert m prev a. induction Hok as [|b l [Hb _] Hl IH]; intros m prev a; [simpl; lia|].
  intros [H1 H2]. cbn [length].
  assert (chain (delete a m) a (a + SIZEOF_BLOCK + asize b) l nxt) as H3.
  { eapply chain_frame; [done| |done]. intros p Hp. apply lookup_delete_ne.
    unfold MIN_PAYLOAD, SIZEOF_BLOCK in *. lia. }
  apply IH in H3.
  rewrite (map_size_delete_Some a m) in H3 by eauto.
  assert (base.size m <> 0%nat).
  { intros E. apply map_size_empty_inv in E. subst. by rewrite lookup_empty in H1. }
  lia.
Qed.

(** Changing the [previous] field of the first block. *)
Lemma chain_set_previous (m : gmap Z block_t) (prev q a nxt : Z) (b : ablock) (l : list ablock)
    (h : block_t) :
  Forall ok_block (b :: l) -> chain m prev a (b :: l) nxt -> m !! a = Some h ->
  chain (<[a := set_previous q h]> m) q a (b :: l) nxt.
Proof.
  intros Hok [H1 H2] Hh. inversion Hok as [|? ? [Hb _] Hl]; subst. split.
  - rewrite lookup_insert_eq. rewrite H1 in Hh. by simplify_eq.
  - eapply chain_frame; [done| |done]. intros p Hp. apply lookup_insert_ne.
    unfold MIN_PAYLOAD, SIZEOF_BLOCK in *. lia.
Qed.

Lemma last_addr_nonempty (p p' a : Z) (l : list ablock) :
  l <> [] -> last_addr p a l = last_addr p' a l.
Proof. by destruct l. Qed.

(** Replacing a run of blocks by another run of the same extent: it is enough
    that the new run is a chain, that the block after it points back to its
    last block, and that nothing else moved. *)
Lemma chain_replace (m m' : gmap Z block_t) (prev a nxt : Z) (l1 k k' l2 : list ablock) :
  Forall ok_block l1 -> Forall ok_block l2 -> k <> [] -> k' <> [] -> extent k' = extent k ->
  chain m prev a (l1 ++ k ++ l2) nxt ->
  let q := a + extent l1 in
  let q' := q + extent k in
  chain m' (last_addr prev a l1) q k' (link q' l2 nxt) ->
  (forall p, a <= p < q -> m' !! p = m !! p) ->
  (l2 <> [] -> m' !! q' = set_previous (last_addr 0 q k') <$> m !! q') ->
  (forall p, q' < p -> m' !! p = m !! p) ->
  chain m' prev a (l1 ++ k' ++ l2) nxt.
Proof.
  intros H1 H2 Hk Hk' He Hc q q' Hn Hlo Hq' Hhi.
  rewrite !chain_app in Hc. destruct Hc as (Hc1 & Hc2 & Hc3).
  rewrite !chain_app. rewrite He. fold q q'.
  rewrite (last_addr_nonempty _ 0 _ k) in Hc3 by done.
  rewrite (last_addr_nonempty _ 0 _ k') by done. split; [|split; [done|]].
  - rewrite link_app in Hc1 |- *.
    destruct k as [|kb k]; [done|]. destruct k' as [|kb' k']; [done|].
    eapply chain_frame; [done| |exact Hc1]. intros p Hp. by apply Hlo.
  - destruct l2 as [|c l2]; [done|]. destruct Hc3 as [H3 H4]. fold q q' in H3, H4 |- *.
    inversion H2 as [|? ? [Hcs _] Hl2]; subst. split.
    + rewrite (Hq' ltac:(done)), H3. done.
    + eapply chain_frame; [done| |done]. intros p Hp. apply Hhi.
      unfold MIN_PAYLOAD, SIZEOF_BLOCK in *. lia.
Qed.

(** ** Lemmas on live bytes *)

Lemma live_app (a x : Z) (l1 l2 : list ablock) :
  live a (l1 ++ l2) x <-> live a l1 x \/ live (a + extent l1) l2 x.
Proof.
  revert a. induction l1 as [|b l1 IH]; intros a; simpl.
  - rewrite Z.add_0_r. tauto.
  - rewrite IH. replace (a + SIZEOF_BLOCK + asize b + extent l1)
      with (a + (SIZEOF_BLOCK + asize b + extent l1)) by lia. tauto.
Qed.

Lemma live_range (a x : Z) (l : list ablock) :
  Forall ok_block l -> live a l x -> a + SIZEOF_BLOCK <= x < a + extent l.
Proof.
  intros Hok. revert a. induction Hok as [|b l [Hb _] Hl IH]; intros a; simpl; [done|].
  pose proof (extent_nonneg l Hl). unfold MIN_PAYLOAD, SIZEOF_BLOCK in *.
  intros [?|Hx]; [lia|]. apply IH in Hx. lia.
Qed.

(** The header of a block of the list covers no live byte. *)
Lemma live_not_header (a x : Z) (l1 l2 : list ablock) :
  Forall ok_block l1 -> Forall ok_block l2 ->
  live a (l1 ++ l2) x -> in_header (a + extent l1) x = false.
Proof.
  intros H1 H2 Hx. apply live_app in Hx. unfold in_header.
  destruct Hx as [Hx|Hx]; apply live_range in Hx; try done;
    apply andb_false_iff; rewrite Z.leb_gt, Z.ltb_ge; unfold SIZEOF_BLOCK in *; lia.
Qed.

(** A header written inside the payload of a free block covers no live byte. *)
Lemma live_not_inside (a x off : Z) (l1 l2 : list ablock) (b : ablock) :
  Forall ok_block l1 -> Forall ok_block l2 -> afree b = true ->
  0 <= off -> off + SIZEOF_BLOCK <= SIZEOF_BLOCK + asize b ->
  live a (l1 ++ b :: l2) x -> in_header (a + extent l1 + off) x = false.
Proof.
  intros H1 H2 Hb Ho Ho' Hx. apply live_app in Hx. unfold in_header.
  apply andb_false_iff; rewrite Z.leb_gt, Z.ltb_ge. simpl in Hx.
  destruct Hx as [Hx|[[? ?]|Hx]]; [|congruence|]; apply live_range in Hx; try done;
    unfold SIZEOF_BLOCK in *; lia.
Qed.

(** ** Lemmas on allocated blocks *)

Lemma used_block_app (a q sz : Z) (l1 l2 : list ablock) :
  used_block a (l1 ++ l2) q sz <-> used_block a l1 q sz \/ used_block (a + extent l1) l2 q sz.
Proof.
  revert a. induction l1 as [|b l1 IH]; intros a; simpl.
  - rewrite Z.add_0_r. tauto.
  - rewrite IH. replace (a + SIZEOF_BLOCK + asize b + extent l1)
      with (a + (SIZEOF_BLOCK + asize b + extent l1)) by lia. tauto.
Qed.

Lemma used_block_live (a q sz x : Z) (l : list ablock) :
  used_block a l q sz -> q + SIZEOF_BLOCK <= x < q + SIZEOF_BLOCK + sz -> live a l x.
Proof.
  revert a. induction l as [|b l IH]; intros a; simpl; [done|].
  intros [(-> & <- & Hb)|H] Hx; [auto|right; eauto].
Qed.

Lemma used_block_range (a q sz : Z) (l : list ablock) :
  Forall ok_block l -> used_block a l q sz ->
  a <= q /\ MIN_PAYLOAD <= sz /\ q + SIZEOF_BLOCK + sz <= a + extent l.
Proof.
  intros Hok. revert a. induction Hok as [|b l [Hb _] Hl IH]; intros a; simpl; [done|].
  pose proof (extent_nonneg l Hl). unfold MIN_PAYLOAD, SIZEOF_BLOCK in *.
  intros [(-> & <- & _)|H']; [lia|]. apply IH in H'. lia.
Qed.

Lemma used_block_locate (a q sz : Z) (l : list ablock) :
  Forall ok_block l -> used_block a l q sz ->
  exists l1 b l2, l = l1 ++ b :: l2 /\ q = a + extent l1 /\ asize b = sz /\ afree b = false
    /\ locate (q + SIZEOF_BLOCK) a l = Some (l1, b, l2).
Proof.
  intros Hok. revert a. induction Hok as [|b l [Hb _] Hl IH]; intros a; [done|].
  cbn [used_block locate]. intros [(<- & <- & Hf)|H].
  - rewrite Z.eqb_refl. exists [], b, l. simpl. split_and!; try done. lia.
  - pose proof (used_block_range _ _ _ _ Hl H) as (Hr & _ & _).
    destruct (IH _ H) as (l1 & c & l2 & -> & Hq & Hs & Hc & Hloc).
    rewrite (proj2 (Z.eqb_neq _ _)) by (unfold MIN_PAYLOAD, SIZEOF_BLOCK in *; lia).
    rewrite Hloc. exists (b :: l1), c, l2. simpl. split_and!; try done. lia.
Qed.

Lemma chain_filter (m : gmap Z block_t) (x prev a nxt : Z) (l : list ablock) :
  (forall l1 l2, l = l1 ++ l2 -> in_header (a + extent l1) x = false) ->
  chain m prev a l nxt ->
  chain (filter (fun kv => in_header (fst kv) x = false) m) prev a l nxt.
Proof.
  revert prev a. induction l as [|b l IH]; intros prev a Hx; [done|].
  cbn [chain]. intros [H1 H2]. split.
  - apply map_lookup_filter_Some_2; [done|]. simpl.
    specialize (Hx [] (b :: l) eq_refl). simpl in Hx. by rewrite Z.add_0_r in Hx.
  - apply IH; [|done]. intros l1 l2 ->. specialize (Hx (b :: l1) l2 eq_refl).
    simpl in Hx. by rewrite !Z.add_assoc in Hx.
Qed.

Lemma live_used_block (a x : Z) (l : list ablock) :
  live a l x ->
  exists q n, used_block a l q n /\ q + SIZEOF_BLOCK <= x < q + SIZEOF_BLOCK + n.
Proof.
  revert a. induction l as [|b l IH]; intros a; simpl; [done|].
  intros [[Hb Hx]|Hx]; [by exists a, (asize b); auto|].
  destruct (IH _ Hx) as (q & n & Hq & Hr). eauto.
Qed.

Lemma used_block_unique (a q n m : Z) (l : list ablock) :
  Forall ok_block l -> used_block a l q n -> used_block a l q m -> n = m.
Proof.
  intros Hok H1 H2.
  destruct (used_block_locate _ _ _ _ Hok H1) as (? & ? & ? & _ & _ & <- & _ & L1).
  destruct (used_block_locate _ _ _ _ Hok H2) as (? & ? & ? & _ & _ & <- & _ & L2).
  congruence.
Qed.

(** A refused allocation leaves the list alone. *)
Lemma alloc_null (heap sz : Z) (l : list ablock) :
  0 < heap -> Forall ok_block l -> fst (alloc heap sz l) = 0 -> snd (alloc heap sz l) = l.
Proof.
  intros Hp Hok. unfold alloc. destruct (_ =? 0); [done|]. destruct (_ =? 0); [done|].
  destruct (first_fit _ l) as [[[l1 b] l2]|] eqn:Hfit; [|done]. simpl.
  destruct (first_fit_split _ _ _ _ _ Hfit) as (-> & _).
  apply Forall_app in Hok as [Hok _]. pose proof (extent_nonneg _ Hok).
  unfold SIZEOF_BLOCK. lia.
Qed.
