(* ===== verification/HeapProof.v ===== *)
(** * The kernel heap implements its specification *)

From stdpp Require Import base numbers list gmap.
From Stdlib Require Import ZArith Lia.
From S2P Require Import Prelude Heap HeapSpec.

Create HintDb heap.

Lemma load_ok (s : heap_state) (p : Z) (b : block_t) :
  blocks s !! p = Some b -> load s p = Ok b.
Proof. unfold load. by intros ->. Qed.

Lemma modify_ok (s : heap_state) (p : Z) (b : block_t) (f : block_t -> block_t) :
  blocks s !! p = Some b -> modify p f s = Ok (store p (f b) s).
Proof. unfold modify. intros H. by rewrite (load_ok _ _ _ H). Qed.

Lemma bytes_store (s : heap_state) (p x : Z) (b : block_t) :
  in_header p x = false -> bytes (store p b s) !! x = bytes s !! x.
Proof.
  intros H. simpl. destruct (bytes s !! x) as [v|] eqn:E.
  - by apply map_lookup_filter_Some_2.
  - apply map_lookup_filter_None_2. by left.
Qed.

Lemma align_up_spec (sz : Z) :
  0 < sz < 2 ^ 64 -> align_up sz = 0 \/
  (align_up sz mod ALIGNMENT = 0 /\ MIN_PAYLOAD <= align_up sz /\
   sz <= align_up sz < sz + ALIGNMENT /\ align_up sz < 2 ^ 64).
Proof.
  intros H. unfold align_up. destruct (_ <? sz) eqn:E; [by left|right]. breflect.
  unfold ALIGNMENT, MIN_PAYLOAD in *. rewrite u64_small by lia.
  change (Z.lnot (16 - 1)) with (Z.lnot (2 ^ 4 - 1)). rewrite land_lnot_ones by lia.
  change (2 ^ 4) with 16. Z.div_mod_to_equations; lia.
Qed.

Section proof.

Context (heap : Z).
Context (heap_pos : 0 < heap).
Context (heap_fits : heap + HEAP_MAX_BYTES < 2 ^ 64).

Implicit Types (s : heap_state) (l : list ablock).

Lemma kmalloc_walk_spec fuel (wanted : Z) s (prev a : Z) l :
  0 < a -> Forall ok_block l -> chain (blocks s) prev a l 0 -> (length l < fuel)%nat ->
  kmalloc_walk fuel wanted (link a l 0) s =
  match first_fit wanted l with
  | Some (l1, _, _) => kmalloc_take wanted (a + extent l1) s
  | None => Ok (0, s)
  end.
Proof.
  intros Ha Hok. revert prev a fuel Ha.
  induction Hok as [|b l [Hb _] Hl IH]; intros prev a fuel Ha Hc Hf.
  - destruct fuel; [simpl in Hf; lia|done].
  - destruct fuel as [|fuel]; [simpl in Hf; lia|]. destruct Hc as [H1 H2].
    cbn [link kmalloc_walk first_fit].
    rewrite (proj2 (Z.eqb_neq a 0)) by lia. rewrite (load_ok _ _ _ H1). cbn.
    unfold fits. destruct (afree b); cbn.
    + destruct (asize b <? wanted) eqn:E; breflect.
      * rewrite (proj2 (Z.leb_gt _ _)) by lia. erewrite IH; [|unfold MIN_PAYLOAD, SIZEOF_BLOCK in *; lia|done|simpl in Hf; lia].
        destruct (first_fit wanted l) as [[[l1 c] l2]|]; [|done]. f_equal. simpl. lia.
      * rewrite (proj2 (Z.leb_le _ _)) by lia. f_equal. simpl. lia.
    + erewrite IH; [|unfold MIN_PAYLOAD, SIZEOF_BLOCK in *; lia|done|simpl in Hf; lia].
      destruct (first_fit wanted l) as [[[l1 c] l2]|]; [|done]. f_equal. simpl. lia.
Qed.

(** Facts about one block of a well-formed heap. *)
Lemma wf_block s l1 b l2 :
  wf_core heap s (l1 ++ b :: l2) ->
  Forall ok_block l1 /\ ok_block b /\ Forall ok_block l2 /\
  0 <= extent l1 /\ 0 <= extent l2 /\ MIN_PAYLOAD <= asize b /\
  extent l1 + SIZEOF_BLOCK + asize b + extent l2 = heap_bytes s /\
  heap_bytes s <= HEAP_MAX_BYTES /\
  blocks s !! (heap + extent l1) =
    Some (Block BLOCK_MAGIC (asize b) (last_addr 0 heap l1)
      (link (heap + extent l1 + SIZEOF_BLOCK + asize b) l2 0) (afree b)).
Proof.
  intros [_ Hc Hb He [Hs _] _ _]. apply Forall_app in Hb as [Hb1 Hb2].
  inversion Hb2 as [|? ? Hb3 Hb4]; subst. split_and!; try done.
  - by apply extent_nonneg.
  - by apply extent_nonneg.
  - apply Hb3.
  - destruct He as [He|He]; [by destruct l1|]. rewrite extent_app in He. simpl in He. lia.
  - lia.
  - apply chain_app in Hc as [_ [Hc _]]. done.
Qed.

(** The header that follows a block points back to it. *)
Lemma wf_next s l1 b l2 :
  wf_core heap s (l1 ++ b :: l2) -> l2 <> [] ->
  exists h, blocks s !! (heap + extent l1 + SIZEOF_BLOCK + asize b) = Some h
    /\ previous h = heap + extent l1 /\ magic h = BLOCK_MAGIC.
Proof.
  intros Hwf Hne. destruct l2 as [|c l2]; [done|].
  pose proof (wf_chain _ _ _ Hwf) as Hc. apply chain_app in Hc as [_ [_ [Hc _]]].
  eexists. split; [exact Hc|done].
Qed.

Lemma set_previous_id (h : block_t) : set_previous (previous h) h = h.
Proof. by destruct h. Qed.

Lemma wf_counters s l :
  wf_core heap s l -> 0 <= used s <= HEAP_MAX_BYTES /\ 0 <= allocations s <= HEAP_MAX_BYTES.
Proof.
  intros [_ _ Hb He [Hs _] -> ->].
  pose proof (used_bytes_bounds l Hb). pose proof (used_count_bounds l Hb).
  destruct He as [->|He]; simpl; [unfold HEAP_MAX_BYTES; lia|lia].
Qed.

Lemma carve_sums (wanted : Z) (b : ablock) :
  afree b = true -> wanted <= asize b ->
  extent (carve wanted b) = SIZEOF_BLOCK + asize b /\
  used_bytes (carve wanted b) = asize (default b (head (carve wanted b))) /\
  used_count (carve wanted b) = 1.
Proof. intros Hb Hw. unfold carve. destruct (_ <=? _); simpl; lia. Qed.

Lemma carve_ok (wanted : Z) (b : ablock) :
  ok_block b -> MIN_PAYLOAD <= wanted -> wanted mod ALIGNMENT = 0 ->
  Forall ok_block (carve wanted b).
Proof.
  intros [H1 H2] Hw Hm. unfold carve. destruct (_ <=? _) eqn:E; breflect; repeat constructor; simpl;
    unfold MIN_PAYLOAD, SIZEOF_BLOCK, ALIGNMENT in *; Z.div_mod_to_equations; lia.
Qed.

Lemma carve_coalesced (wanted : Z) l1 b l2 :
  afree b = true -> coalesced (l1 ++ b :: l2) -> coalesced (l1 ++ carve wanted b ++ l2).
Proof.
  intros Hb Hc. pose proof (coalesced_mid _ _ _ Hc) as Hm.
  apply coalesced_app_inv in Hc as [H1 H2]. apply coalesced_app; [done| |].
  - unfold carve. destruct (_ <=? _); destruct l2 as [|n l2]; simpl in *; try done;
      rewrite Hb in H2; simpl in H2; tauto.
  - intros c n Hc Hn. unfold carve in Hn.
    assert (afree n = false) as ->; [|by rewrite andb_false_r].
    destruct (_ <=? _); simpl in Hn; by simplify_eq/=.
Qed.

(** A step that replaces a run of blocks by a run of the same extent. *)
Lemma wf_replace s s' l1 k k' l2 :
  wf_core heap s (l1 ++ k ++ l2) -> k <> [] -> k' <> [] -> extent k' = extent k ->
  Forall ok_block k' ->
  first s' = first s -> heap_bytes s' = heap_bytes s ->
  used s' = used s - used_bytes k + used_bytes k' ->
  allocations s' = allocations s - used_count k + used_count k' ->
  let q := heap + extent l1 in
  let q' := q + extent k in
  chain (blocks s') (last_addr 0 heap l1) q k' (link q' l2 0) ->
  (forall p, heap <= p < q -> blocks s' !! p = blocks s !! p) ->
  (l2 <> [] -> blocks s' !! q' = set_previous (last_addr 0 q k') <$> blocks s !! q') ->
  (forall p, q' < p -> blocks s' !! p = blocks s !! p) ->
  wf_core heap s' (l1 ++ k' ++ l2).
Proof.
  intros [Hf Hc Hb He Hs Hu Ha] Hk Hk' Hext Hok' Hf' Hh Hu' Ha' q q' C1 C2 C3 C4.
  apply Forall_app in Hb as [Hb1 Hb2]. apply Forall_app in Hb2 as [Hb2 Hb3].
  constructor; rewrite ?Hh; try done.
  - rewrite Hf', Hf. destruct l1; [|done]. by destruct k, k'.
  - by apply (chain_replace (blocks s) _ 0 heap 0 l1 k).
  - by repeat (apply Forall_app; split).
  - right. destruct He as [He|He]; [by destruct l1, k|].
    rewrite !extent_app in *. lia.
  - rewrite Hu', Hu, !used_bytes_app. lia.
  - rewrite Ha', Ha, !used_count_app. lia.
Qed.

(** The counters of a state, which stores do not touch. *)
Definition same_counters s s' : Prop :=
  first s' = first s /\ heap_bytes s' = heap_bytes s /\
  used s' = used s /\ allocations s' = allocations s.

Section take.

Context (wanted : Z) (s : heap_state) (l1 l2 : list ablock) (b : ablock).
Context (Hwf : wf_core heap s (l1 ++ b :: l2)) (Hcoal : coalesced (l1 ++ b :: l2)) (Hfree : afree b = true) (Hw : wanted <= asize b).
Context (Hmin : MIN_PAYLOAD <= wanted) (Hal : wanted mod ALIGNMENT = 0).

Let q : Z := heap + extent l1.
Let q' : Z := q + SIZEOF_BLOCK + asize b.
Let r : Z := q + SIZEOF_BLOCK + wanted.
Let R : block_t := Block BLOCK_MAGIC (asize b - wanted - SIZEOF_BLOCK) q (link q' l2 0) true.

Ltac facts :=
  destruct (wf_block _ _ _ _ Hwf) as (O1 & Ob & O2 & E1 & E2 & Ms & Hext & Hmax & Hq);
  pose proof (wf_counters _ _ Hwf) as [Hu Ha];
  assert (HEAP_MAX_BYTES = 2097152 /\ SIZEOF_BLOCK = 48 /\ MIN_PAYLOAD = 16)
    as (K1 & K2 & K3) by done;
  fold q q' in Hq.

(** The new free block is written and the block after the chosen one, if any,
    points back to it. *)
Lemma link_remainder :
  wanted + SIZEOF_BLOCK + MIN_PAYLOAD <= asize b ->
  exists s2, (if z2b (next R) then modify (next R) (set_previous r) (store r R s)
              else Ok (store r R s)) = Ok s2
    /\ same_counters s s2
    /\ (l2 <> [] -> blocks s2 !! q' = set_previous r <$> blocks s !! q')
    /\ (forall p, p <> r -> p <> q' -> blocks s2 !! p = blocks s !! p)
    /\ blocks s2 !! r = Some R
    /\ forall x, live heap (l1 ++ b :: l2) x -> bytes s2 !! x = bytes s !! x.
Proof.
  intros Hsplit. facts.
  assert (forall x, live heap (l1 ++ b :: l2) x -> in_header r x = false) as Hr.
  { intros x Hx. unfold r, q. rewrite <- Z.add_assoc.
    eapply live_not_inside; [exact O1|exact O2|done| | |exact Hx]; lia. }
  assert (r <> q' /\ q' <> 0) as [Hrq Hq0] by (unfold q', r, q; lia).
  destruct l2 as [|c l3]; simpl.
  - eexists; split; [reflexivity|]. split_and!; try done.
    + intros p Hp _. by apply lookup_insert_ne.
    + apply lookup_insert_eq.
    + intros x Hx. apply bytes_store. auto.
  - destruct (wf_next _ _ _ _ Hwf ltac:(done)) as (h & Hh & _ & _). fold q q' in Hh.
    unfold z2b. rewrite (proj2 (Z.eqb_neq q' 0)) by done. cbn [negb].
    erewrite modify_ok by (simpl; rewrite lookup_insert_ne by done; exact Hh).
    eexists; split; [reflexivity|]. split_and!; try done.
    + intros _. simpl. rewrite lookup_insert_eq, Hh. done.
    + intros p Hp Hp'. simpl. rewrite !lookup_insert_ne by done. done.
    + simpl. rewrite lookup_insert_ne by done. apply lookup_insert_eq.
    + intros x Hx. rewrite !bytes_store; [done|auto|].
      replace q' with (heap + extent (l1 ++ [b])) by (rewrite extent_app; simpl; lia).
      eapply live_not_header with (l2 := c :: l3);
        [by apply Forall_app; split; [|constructor]|done|by rewrite <- app_assoc].
Qed.

Definition take_result : Prop :=
  exists s', kmalloc_take wanted q s = Ok (q + SIZEOF_BLOCK, s')
    /\ wf heap s' (l1 ++ carve wanted b ++ l2)
    /\ heap_bytes s' = heap_bytes s
    /\ forall x, live heap (l1 ++ b :: l2) x -> bytes s' !! x = bytes s !! x.

Lemma kmalloc_take_split : wanted + SIZEOF_BLOCK + MIN_PAYLOAD <= asize b -> take_result.
Proof.
  intros Hsplit. facts. unfold take_result, kmalloc_take.
  rewrite (load_ok _ _ _ Hq). cbn [obind size next].
  rewrite (u64_small (wanted + SIZEOF_BLOCK + MIN_PAYLOAD)), (proj2 (Z.leb_le _ _)) by lia.
  rewrite (u64_small (q + SIZEOF_BLOCK + wanted)) by lia. fold r.
  rewrite (u64_small (asize b - wanted - SIZEOF_BLOCK)) by lia. fold R.
  erewrite (load_ok _ r) by (simpl; apply lookup_insert_eq). cbn [obind].
  destruct (link_remainder Hsplit) as (s2 & -> & (F2 & HB2 & U2 & A2) & Q2 & P2 & R2 & L2).
  assert (q < r < q') as Hord by (unfold q', r; lia).
  cbn [obind]. assert (blocks s2 !! q = blocks s !! q) as Hq2 by (apply P2; lia).
  rewrite Hq in Hq2. rewrite (modify_ok _ _ _ _ Hq2). cbn [obind].
  do 2 (erewrite modify_ok by (simpl; apply lookup_insert_eq); cbn [obind]).
  erewrite load_ok by (simpl; apply lookup_insert_eq). cbn [obind].
  rewrite u64_small by lia. eexists; split; [reflexivity|]. split_and!; try done.
  - split; [|by apply carve_coalesced].
    pose proof (carve_ok wanted b Ob Hmin Hal) as Hco.
    unfold carve in *. rewrite (proj2 (Z.leb_le _ _)) in * by done.
    eapply (wf_replace s _ l1 [b] _ l2 Hwf); try done; simpl; rewrite ?Hfree, ?U2, ?A2; try lia;
      fold q; replace (q + (SIZEOF_BLOCK + asize b + 0)) with q' by lia.
    + rewrite u64_small; lia.
    + rewrite u64_small; lia.
    + rewrite lookup_insert_eq, !lookup_insert_ne by lia. done.
    + intros p Hp. rewrite !lookup_insert_ne by lia. apply P2; lia.
    + intros Hne. rewrite !lookup_insert_ne by lia.
      replace (q + (SIZEOF_BLOCK + wanted + 0)) with r by lia. auto.
    + intros p Hp. rewrite !lookup_insert_ne by lia. apply P2; lia.
  - intros x Hx. assert (in_header q x = false) as Hqx.
    { by eapply live_not_header; [..|exact Hx]; [|constructor]. }
    etransitivity; [|apply (L2 x Hx)].
    cbn [bytes with_allocations with_used]. by rewrite !bytes_store.
Qed.

Lemma kmalloc_take_whole : asize b < wanted + SIZEOF_BLOCK + MIN_PAYLOAD -> take_result.
Proof.
  intros Hsplit. facts. unfold take_result, kmalloc_take.
  rewrite (load_ok _ _ _ Hq). cbn [obind size next].
  rewrite (u64_small (wanted + SIZEOF_BLOCK + MIN_PAYLOAD)), (proj2 (Z.leb_gt _ _)) by lia.
  cbn [obind]. rewrite (modify_ok _ _ _ _ Hq). cbn [obind].
  erewrite load_ok by (simpl; apply lookup_insert_eq). cbn [obind].
  rewrite u64_small by lia. eexists; split; [reflexivity|]. split_and!; try done.
  - split; [|by apply carve_coalesced].
    unfold carve in *. rewrite (proj2 (Z.leb_gt _ _)) in * by done.
    assert (q < q') as Hord by (unfold q'; lia).
    eapply (wf_replace s _ l1 [b] [AB (asize b) false] l2 Hwf); try done;
      [by constructor|..]; simpl; rewrite ?Hfree; fold q;
      replace (q + (SIZEOF_BLOCK + asize b + 0)) with q' by lia.
    + rewrite u64_small; lia.
    + rewrite u64_small; lia.
    + rewrite lookup_insert_eq. done.
    + intros p Hp. apply lookup_insert_ne. lia.
    + intros Hne. destruct (wf_next _ _ _ _ Hwf Hne) as (h & Hh & Hp & _). fold q q' in Hh, Hp.
      rewrite Z.add_0_r, lookup_insert_ne, Hh by lia. simpl. by rewrite <- Hp, set_previous_id.
    + intros p Hp. apply lookup_insert_ne. lia.
  - intros x Hx. apply bytes_store.
    by eapply live_not_header; [..|exact Hx]; [|constructor].
Qed.

Lemma kmalloc_take_spec : take_result.
Proof.
  destruct (Z_le_gt_dec (wanted + SIZEOF_BLOCK + MIN_PAYLOAD) (asize b));
    [by apply kmalloc_take_split|apply kmalloc_take_whole; lia].
Qed.

End take.

Lemma wf_fuel s l : wf_core heap s l -> (length l < walk_fuel s)%nat.
Proof.
  intros [_ Hc Hb _ _ _ _]. pose proof (chain_length _ _ _ _ _ Hb Hc).
  unfold walk_fuel. lia.
Qed.

Lemma first_zero s l : wf_core heap s l -> (first s =? 0) = true -> l = [].
Proof.
  intros Hwf H. breflect. rewrite (wf_first _ _ _ Hwf) in H. destruct l; [done|simpl in H; lia].
Qed.

(** kmalloc implements [alloc] and leaves every live byte alone. *)
Lemma kmalloc_refines s l (sz : Z) :
  wf heap s l -> 0 <= sz < 2 ^ 64 ->
  exists s', kmalloc sz s = Ok (fst (alloc heap sz l), s')
    /\ wf heap s' (snd (alloc heap sz l))
    /\ heap_bytes s' = heap_bytes s
    /\ forall x, live heap l x -> bytes s' !! x = bytes s !! x.
Proof.
  intros Hwf Hsz. unfold kmalloc, alloc.
  destruct (sz =? 0) eqn:E0; [simpl; eauto|]. pose proof Hwf as [Hcore Hcoal].
  destruct (first s =? 0) eqn:Ef; cbn [orb].
  { apply (first_zero _ _ Hcore) in Ef. subst l. simpl.
    destruct (align_up sz =? 0); simpl; eauto. }
  destruct (align_up sz =? 0) eqn:Ew; [simpl; eauto|]. breflect.
  destruct (align_up_spec sz) as [?|(Ha & Hm & _ & _)]; [lia|done|].
  rewrite (wf_first _ _ _ Hcore).
  rewrite (kmalloc_walk_spec _ _ _ 0 heap l);
    [|done|apply (wf_blocks _ _ _ Hcore)|apply (wf_chain _ _ _ Hcore)|by apply wf_fuel].
  destruct (first_fit (align_up sz) l) as [[[l1 b] l2]|] eqn:Hfit; [|simpl; eauto].
  destruct (first_fit_split _ _ _ _ _ Hfit) as (-> & Hb & Hle).
  destruct (kmalloc_take_spec (align_up sz) s l1 l2 b) as (s' & Hk & Hrest); try done.
  simpl. eauto.
Qed.

(** ** kfree *)

Lemma find_block_spec fuel (p : Z) s (prev a : Z) l :
  0 < a -> a + extent l < 2 ^ 64 -> Forall ok_block l ->
  chain (blocks s) prev a l 0 -> (length l < fuel)%nat ->
  find_block fuel p (link a l 0) s =
  Ok (Some (match locate p a l with Some (l1, _, _) => a + extent l1 | None => 0 end)).
Proof.
  intros Ha Hlt Hok. revert prev a fuel Ha Hlt.
  induction Hok as [|b l [Hb _] Hl IH]; intros prev a fuel Ha Hlt Hc Hf.
  - destruct fuel; [simpl in Hf; lia|done].
  - destruct fuel as [|fuel]; [simpl in Hf; lia|]. destruct Hc as [H1 H2].
    pose proof (extent_nonneg l Hl). unfold MIN_PAYLOAD, SIZEOF_BLOCK in *.
    cbn [link find_block locate extent] in *. unfold SIZEOF_BLOCK in *.
    rewrite (proj2 (Z.eqb_neq a 0)), u64_small by lia.
    destruct (a + 48 =? p) eqn:E; [simpl; do 2 f_equal; lia|].
    rewrite (load_ok _ _ _ H1). cbn [obind magic next]. rewrite Z.eqb_refl. cbn [negb].
    erewrite IH; [|lia|lia|done|simpl in Hf; lia]. do 2 f_equal.
    destruct (locate p _ l) as [[[l1 c] l2]|]; [|done]. cbn [extent]. unfold SIZEOF_BLOCK. lia.
Qed.

(** Absorbing the second of two adjacent blocks: the shared core of kfree's
    two merges, as a fact about the chain. *)
Lemma absorb_spec s l1 b n l2 :
  wf_core heap s (l1 ++ b :: n :: l2) -> afree b = true -> afree n = true ->
  let q := heap + extent l1 in
  let q3 := q + extent [b; n] in
  exists s',
    (do s <- modify q (fun b' => set_size (u64 (size b' + (SIZEOF_BLOCK + asize n))) b') s;
     do s <- modify q (set_next (link q3 l2 0)) s;
     do b' <- load s q;
     if z2b (next b') then modify (next b') (set_previous q) s else Ok s) = Ok s'
    /\ wf_core heap s' (l1 ++ AB (asize b + SIZEOF_BLOCK + asize n) true :: l2)
    /\ heap_bytes s' = heap_bytes s
    /\ forall x, live heap (l1 ++ b :: n :: l2) x -> bytes s' !! x = bytes s !! x.
Proof.
  intros Hwf Hb Hn q q3.
  destruct (wf_block _ _ _ _ Hwf) as (O1 & Ob & O2 & E1 & E2 & Ms & Hext & Hmax & Hq).
  assert (l1 ++ b :: n :: l2 = (l1 ++ [b]) ++ n :: l2) as Hl by by rewrite <- app_assoc.
  inversion O2 as [|? ? On O3]; subst.
  assert (HEAP_MAX_BYTES = 2097152 /\ SIZEOF_BLOCK = 48 /\ MIN_PAYLOAD = 16)
    as (K1 & K2 & K3) by done.
  pose proof (extent_nonneg _ O3). pose proof (proj1 On). simpl in Hext, E2.
  assert (q3 = q + SIZEOF_BLOCK + asize b + SIZEOF_BLOCK + asize n) as Hq3
    by (unfold q3; simpl; lia).
  fold q in Hq. rewrite (modify_ok _ _ _ _ Hq). cbn [obind].
  erewrite modify_ok by (simpl; apply lookup_insert_eq). cbn [obind].
  erewrite load_ok by (simpl; apply lookup_insert_eq). cbn [obind next set_next set_size size].
  rewrite u64_small by lia.
  assert (forall x, live heap (l1 ++ b :: n :: l2) x -> in_header q x = false) as Hqx.
  { intros x Hx. eapply live_not_header; [exact O1| |exact Hx]. by constructor. }
  assert (Forall ok_block [AB (asize b + SIZEOF_BLOCK + asize n) true]) as Hok.
  { pose proof (glue_ok b [n] Ob (Forall_cons_2 _ _ _ On (Forall_nil_2 _))) as Hg.
    simpl in Hg. by rewrite Hb, Hn in Hg. }
  destruct l2 as [|c l2].
  - eexists; split; [reflexivity|]. split_and!; try done.
    + apply (wf_replace s _ l1 [b; n] [AB (asize b + SIZEOF_BLOCK + asize n) true] []);
        try done; simpl; rewrite ?Hb, ?Hn; try lia.
      * rewrite lookup_insert_eq. fold q. rewrite Z.add_assoc. done.
      * intros p Hp. rewrite !lookup_insert_ne by lia. done.
      * intros p Hp. rewrite !lookup_insert_ne by lia. done.
    + intros x Hx. rewrite !bytes_store; auto.
  - pose proof (wf_chain _ _ _ Hwf) as Hc. apply chain_app in Hc as [_ [_ [_ [Hh _]]]].
    replace (heap + extent l1 + SIZEOF_BLOCK + asize b + SIZEOF_BLOCK + asize n)
      with q3 in Hh by lia.
    cbn [link]. unfold z2b. rewrite (proj2 (Z.eqb_neq q3 0)) by lia. cbn [negb].
    erewrite modify_ok by (simpl; rewrite !lookup_insert_ne by lia; exact Hh).
    eexists; split; [reflexivity|]. split_and!; try done.
    + apply (wf_replace s _ l1 [b; n] [AB (asize b + SIZEOF_BLOCK + asize n) true] (c :: l2));
        try done; simpl; rewrite ?Hb, ?Hn; try lia; fold q;
        replace (q + (SIZEOF_BLOCK + asize b + (SIZEOF_BLOCK + asize n + 0))) with q3 by lia.
      * rewrite lookup_insert_ne, lookup_insert_eq by lia. rewrite Z.add_assoc. done.
      * intros p Hp. rewrite !lookup_insert_ne by lia. done.
      * intros _. rewrite lookup_insert_eq, Hh, Z.add_0_r. done.
      * intros p Hp. rewrite !lookup_insert_ne by lia. done.
    + intros x Hx. rewrite !bytes_store; auto.
      replace q3 with (heap + extent (l1 ++ [b; n])) by (rewrite extent_app; simpl; lia).
      eapply live_not_header with (l2 := c :: l2); [|done|].
      * apply Forall_app; split; [done|]. by repeat (constructor; [done|]).
      * rewrite <- app_assoc. done.
Qed.

Lemma merge_next_spec s l1 b l2 :
  wf_core heap s (l1 ++ b :: l2) -> afree b = true ->
  exists s', merge_next (heap + extent l1) s = Ok s'
    /\ wf_core heap s' (l1 ++ glue b l2)
    /\ heap_bytes s' = heap_bytes s
    /\ forall x, live heap (l1 ++ b :: l2) x -> bytes s' !! x = bytes s !! x.
Proof.
  intros Hwf Hb.
  destruct (wf_block _ _ _ _ Hwf) as (O1 & _ & O2 & E1 & E2 & Ms & _ & _ & Hq).
  unfold merge_next. rewrite (load_ok _ _ _ Hq). cbn [obind next].
  destruct l2 as [|n l2]; [simpl; eauto|]. cbn [link glue]. rewrite Hb.
  set (q2 := heap + extent l1 + SIZEOF_BLOCK + asize b).
  rewrite (proj2 (Z.eqb_neq q2 0)) by (unfold q2, SIZEOF_BLOCK, MIN_PAYLOAD in *; lia).
  pose proof (wf_chain _ _ _ Hwf) as Hc. apply chain_app in Hc as [_ [_ [Hn _]]].
  fold q2 in Hn. rewrite (load_ok _ _ _ Hn). cbn [obind magic free size next].
  rewrite Z.eqb_refl. cbn [andb]. destruct (afree n) eqn:En; [|eauto].
  destruct (absorb_spec s l1 b n l2 Hwf Hb En) as (s' & Hs' & Hrest).
  exists s'. split; [|done]. rewrite <- Hs'. simpl extent.
  replace (heap + extent l1 + (SIZEOF_BLOCK + asize b + (SIZEOF_BLOCK + asize n + 0)))
    with (q2 + SIZEOF_BLOCK + asize n) by (unfold q2; lia). done.
Qed.

Lemma last_addr_snoc (prev a : Z) l (c : ablock) : last_addr prev a (l ++ [c]) = a + extent l.
Proof. unfold last_addr. destruct (l ++ [c]) eqn:E; [by destruct l|]. by rewrite <- E, removelast_last. Qed.

(** What kfree's second merge makes of the list. *)
Definition glue_last l1 (b : ablock) l2 : list ablock :=
  match last l1 with
  | None => b :: l2
  | Some c => removelast l1 ++ glue c (b :: l2)
  end.

Lemma merge_previous_spec s l1 b l2 :
  wf_core heap s (l1 ++ b :: l2) -> afree b = true ->
  exists s', merge_previous (heap + extent l1) s = Ok s'
    /\ wf_core heap s' (glue_last l1 b l2)
    /\ heap_bytes s' = heap_bytes s
    /\ forall x, live heap (l1 ++ b :: l2) x -> bytes s' !! x = bytes s !! x.
Proof.
  intros Hwf Hb.
  destruct (wf_block _ _ _ _ Hwf) as (O1 & _ & O2 & E1 & E2 & Ms & _ & _ & Hq).
  unfold merge_previous. rewrite (load_ok _ _ _ Hq). cbn [obind previous].
  destruct l1 as [|c k _] using rev_ind; [simpl; eauto|]. clear Hq.
  unfold glue_last. rewrite last_snoc, removelast_last, last_addr_snoc.
  rewrite <- app_assoc in Hwf |- *.
  destruct (wf_block _ _ _ _ Hwf) as (O3 & _ & _ & E3 & _ & Mc & _ & _ & Hc).
  rewrite (proj2 (Z.eqb_neq (heap + extent k) 0)) by lia.
  rewrite (load_ok _ _ _ Hc). cbn [obind magic free].
  rewrite Z.eqb_refl. cbn [andb glue app]. rewrite Hb, andb_true_r.
  destruct (afree c) eqn:Ec; [|eauto].
  destruct (absorb_spec s k c b l2 Hwf Ec Hb) as (s' & Hs' & Hrest).
  exists s'. split; [|done]. rewrite <- Hs'. simpl extent. cbn [size next].
  rewrite extent_app. cbn [extent].
  replace (heap + (extent k + (SIZEOF_BLOCK + asize c + 0)) + SIZEOF_BLOCK + asize b)
    with (heap + extent k + (SIZEOF_BLOCK + asize c + (SIZEOF_BLOCK + asize b + 0))) by lia.
  done.
Qed.

(** The two merges together are [coalesce]. *)
Lemma glue_both l1 b l2 (b' : ablock) :
  coalesced (l1 ++ b :: l2) -> afree b' = true ->
  coalesce (l1 ++ b' :: l2) =
  match glue b' l2 with
  | [] => []
  | c :: l3 => glue_last l1 c l3
  end.
Proof.
  intros Hc Hb'. apply coalesced_app_inv in Hc as [H1 H2].
  assert (coalesced l2) as H3 by (destruct l2; [done|apply H2]).
  rewrite coalesce_app. simpl. rewrite (coalesce_id l2) by done.
  assert (exists c l3, glue b' l2 = c :: l3 /\ afree c = true) as (c & l3 & -> & Hcf).
  { destruct l2 as [|n l2]; simpl; [eauto|]. rewrite Hb'. destruct (afree n); simpl; eauto. }
  unfold glue_last. destruct l1 as [|d k _] using rev_ind; [done|].
  rewrite last_snoc, removelast_last, foldr_app. cbn [foldr].
  apply coalesced_app_inv in H1 as Hk. destruct Hk as [Hk _].
  apply foldr_glue_app; [done|]. intros x n Hx Hn.
  pose proof (coalesced_mid _ _ _ H1 _ Hx) as Hxd.
  assert (afree n = afree d) as ->; [|done].
  simpl in Hn. rewrite Hcf, andb_true_r in Hn.
  destruct (afree d) eqn:Ed; simpl in Hn; simplify_eq; done.
Qed.

Lemma live_glue (a x : Z) (b : ablock) l : live a (glue b l) x <-> live a (b :: l) x.
Proof.
  destruct l as [|n l]; [done|]. simpl.
  destruct (afree b) eqn:Eb, (afree n) eqn:En; simpl; rewrite ?Eb, ?En; try done.
  replace (a + SIZEOF_BLOCK + (asize b + SIZEOF_BLOCK + asize n))
    with (a + SIZEOF_BLOCK + asize b + SIZEOF_BLOCK + asize n) by lia.
  split; [intros [[? _]|?]; [done|auto]|]. intros [[? _]|[[? _]|?]]; [done|done|auto].
Qed.

Lemma live_coalesce (a x : Z) l : live a (coalesce l) x <-> live a l x.
Proof.
  revert a. induction l as [|b l IH]; intros a; [done|]. simpl.
  rewrite live_glue. simpl. by rewrite IH.
Qed.

(** Marking a block free, before any merge. *)
Lemma mark_free_spec s l1 b l2 :
  wf_core heap s (l1 ++ b :: l2) -> afree b = false ->
  let q := heap + extent l1 in
  exists s1, modify q (set_free true) s = Ok s1 /\
    let s2 := with_used (u64 (used s1 - asize b)) s1 in
    let s3 := if z2b (allocations s2) then with_allocations (u64 (allocations s2 - 1)) s2 else s2 in
    wf_core heap s3 (l1 ++ AB (asize b) true :: l2)
    /\ heap_bytes s3 = heap_bytes s
    /\ forall x, live heap (l1 ++ b :: l2) x -> bytes s3 !! x = bytes s !! x.
Proof.
  intros Hwf Hb q.
  destruct (wf_block _ _ _ _ Hwf) as (O1 & Ob & O2 & E1 & E2 & Ms & Hext & Hmax & Hq).
  pose proof (wf_counters _ _ Hwf) as [Hu Ha].
  assert (asize b <= used s /\ 1 <= allocations s) as [Hbu Hba].
  { rewrite (wf_used _ _ _ Hwf), (wf_allocations _ _ _ Hwf), used_bytes_app, used_count_app. simpl.
    rewrite Hb. pose proof (used_bytes_bounds _ O1). pose proof (used_bytes_bounds _ O2).
    pose proof (used_count_bounds _ O1). pose proof (used_count_bounds _ O2). lia. }
  unfold HEAP_MAX_BYTES, SIZEOF_BLOCK, MIN_PAYLOAD in *.
  rewrite (modify_ok _ _ _ _ Hq). eexists; split; [reflexivity|]. cbn zeta.
  assert (z2b (allocations s) = true) as Hz
    by (unfold z2b; rewrite (proj2 (Z.eqb_neq _ _)) by lia; done).
  simpl. rewrite Hz. split_and!; [|done|].
  - apply (wf_replace s _ l1 [b] [AB (asize b) true] l2); try done;
      [by constructor|..]; simpl; rewrite ?Hb, ?Z.add_0_r, ?Z.add_assoc; fold q.
    + rewrite u64_small; lia.
    + rewrite u64_small; lia.
    + rewrite lookup_insert_eq. done.
    + intros p Hp. apply lookup_insert_ne. lia.
    + intros Hne. destruct (wf_next _ _ _ _ Hwf Hne) as (h & Hh & Hp & _). fold q in Hh, Hp.
      unfold SIZEOF_BLOCK in *. rewrite lookup_insert_ne, Hh by lia.
      simpl. by rewrite <- Hp, set_previous_id.
    + intros p Hp. apply lookup_insert_ne. unfold SIZEOF_BLOCK in *. lia.
  - intros x Hx. apply (bytes_store s q x).
    by eapply live_not_header; [..|exact Hx]; [|constructor].
Qed.

(** kfree implements [dealloc] and leaves the bytes of every block that stays
    allocated alone. *)
Lemma kfree_refines s l (p : Z) :
  wf heap s l ->
  exists s', kfree heap p s = Ok s'
    /\ wf heap s' (dealloc heap p l)
    /\ heap_bytes s' = heap_bytes s
    /\ (forall x, live heap (dealloc heap p l) x -> bytes s' !! x = bytes s !! x)
    /\ ((forall l1 b l2, locate p heap l = Some (l1, b, l2) -> afree b = true) -> s' = s).
Proof.
  intros [Hwf Hco]. unfold kfree, dealloc.
  destruct (locate p heap l) as [[[l1 b] l2]|] eqn:Hloc.
  2: { destruct (p =? 0); [eexists; split_and!; done|]. destruct ((p <? _) || _)%bool; [eexists; split_and!; done|].
       rewrite (wf_first _ _ _ Hwf). erewrite find_block_spec; try done.
       - rewrite Hloc. simpl. eexists; split_and!; done.
       - destruct (wf_extent _ _ _ Hwf) as [-> | ->]; [simpl; unfold HEAP_MAX_BYTES in *; lia|].
         pose proof (wf_size _ _ _ Hwf). lia.
       - apply (wf_blocks _ _ _ Hwf).
       - apply (wf_chain _ _ _ Hwf).
       - by apply wf_fuel. }
  destruct (locate_split _ _ _ _ _ _ Hloc) as [-> Hp].
  destruct (wf_block _ _ _ _ Hwf) as (O1 & Ob & O2 & E1 & E2 & Ms & Hext & Hmax & Hq).
  assert (HEAP_MAX_BYTES = 2097152 /\ SIZEOF_BLOCK = 48 /\ MIN_PAYLOAD = 16)
    as (K1 & K2 & K3) by done.
  rewrite (proj2 (Z.eqb_neq p 0)), (proj2 (Z.ltb_ge p _)), (proj2 (Z.leb_gt _ p)) by lia.
  cbn [orb]. rewrite (wf_first _ _ _ Hwf).
  erewrite find_block_spec; [|done| |apply (wf_blocks _ _ _ Hwf)|apply (wf_chain _ _ _ Hwf)|by apply wf_fuel].
  2: { rewrite extent_app. simpl. lia. }
  rewrite Hloc. cbn [obind]. rewrite (proj2 (Z.eqb_neq (heap + extent l1) 0)) by lia.
  rewrite (load_ok _ _ _ Hq). cbn [obind magic free size]. rewrite Z.eqb_refl. cbn [negb orb].
  destruct (afree b) eqn:Hb; [eexists; split_and!; try done|].
  destruct (mark_free_spec _ _ _ _ Hwf Hb) as (s1 & -> & Hm). cbn [obind]. cbv zeta in Hm.
  destruct Hm as (W3 & B3 & L3).
  edestruct (merge_next_spec _ _ _ _ W3) as (s4 & -> & W4 & B4 & L4); [done|]. cbn [obind].
  pose proof (glue_both l1 b l2 (AB (asize b) true) Hco eq_refl) as Hg.
  destruct (glue (AB (asize b) true) l2) as [|c l3] eqn:Eg.
  { destruct l2; simpl in Eg; [done|]. by destruct (afree a). }
  assert (afree c = true) as Hc.
  { destruct l2 as [|n l2]; simpl in Eg; [by simplify_eq|]. destruct (afree n); by simplify_eq. }
  edestruct (merge_previous_spec _ _ _ _ W4 Hc) as (s5 & -> & W5 & B5 & L5).
  exists s5. rewrite Hg. split_and!; [done| | congruence | |];
    [| |intros Hno; specialize (Hno _ _ _ eq_refl); congruence].
  - split; [done|]. rewrite <- Hg. apply coalesce_coalesced.
  - intros x Hx. rewrite <- Hg in Hx. apply (proj1 (live_coalesce _ _ _)) in Hx.
    assert (live heap (l1 ++ c :: l3) x) as Hx4.
    { rewrite <- Eg, live_app, live_glue, <- live_app. done. }
    rewrite L5, L4 by done. apply L3.
    apply live_app in Hx. apply live_app. simpl in *. destruct Hx as [?|[[? _]|?]]; [auto|done|auto].
Qed.

(** ** Writing payload bytes *)

Lemma clobber_wf s l (x : Z) (bs : gmap Z Z) :
  wf heap s l -> live heap l x ->
  wf heap (with_memory (filter (fun kv => in_header (fst kv) x = false) (blocks s)) bs s) l.
Proof.
  intros [[Hf Hc Hb He Hs Hu Ha] Hco] Hx. split; [|done]. constructor; try done.
  simpl. apply chain_filter; [|done]. intros l1 l2 ->.
  apply Forall_app in Hb as [Hb1 Hb2]. by apply (live_not_header heap x l1 l2).
Qed.

Lemma zero_bytes_spec (n : nat) (p : Z) s l :
  wf heap s l -> (forall x, p <= x < p + Z.of_nat n -> live heap l x) ->
  wf heap (zero_bytes n p s) l /\ heap_bytes (zero_bytes n p s) = heap_bytes s /\
  (forall x, p <= x < p + Z.of_nat n -> bytes (zero_bytes n p s) !! x = Some 0) /\
  (forall x, ~ p <= x < p + Z.of_nat n -> bytes (zero_bytes n p s) !! x = bytes s !! x).
Proof.
  revert p s. induction n as [|n IH]; intros p s Hwf Hl; simpl.
  { split_and!; try done. lia. }
  destruct (IH (p + 1) (store_byte p 0 s)) as (I1 & I2 & I3 & I4).
  - apply clobber_wf; [done|]. apply Hl. lia.
  - intros x Hx. apply Hl. lia.
  - split_and!; try done.
    + intros x Hx. destruct (decide (x = p)) as [->|Hne]; [|apply I3; lia].
      rewrite I4 by lia. simpl. apply lookup_insert_eq.
    + intros x Hx. rewrite I4 by lia. simpl. apply lookup_insert_ne. lia.
Qed.

Lemma copy_byte_bytes s (dst src x : Z) :
  bytes (copy_byte dst src s) !! x =
  if decide (x = dst) then bytes s !! src else bytes s !! x.
Proof.
  unfold copy_byte. destruct (bytes s !! src) as [v|] eqn:E; simpl; case_decide; subst.
  - apply lookup_insert_eq.
  - by apply lookup_insert_ne.
  - apply lookup_delete_eq.
  - by apply lookup_delete_ne.
Qed.

(** Copying between ranges that do not overlap. *)
Lemma copy_bytes_spec (n : nat) (dst src : Z) s l :
  wf heap s l -> (forall x, dst <= x < dst + Z.of_nat n -> live heap l x) ->
  (dst + Z.of_nat n <= src \/ src + Z.of_nat n <= dst) ->
  let s' := copy_bytes n dst src s in
  wf heap s' l /\ heap_bytes s' = heap_bytes s /\
  (forall i, 0 <= i < Z.of_nat n -> bytes s' !! (dst + i) = bytes s !! (src + i)) /\
  (forall x, ~ dst <= x < dst + Z.of_nat n -> bytes s' !! x = bytes s !! x).
Proof.
  revert dst src s. induction n as [|n IH]; intros dst src s Hwf Hl Hd; simpl.
  { split_and!; try done. lia. }
  destruct (IH (dst + 1) (src + 1) (copy_byte dst src s)) as (I1 & I2 & I3 & I4).
  - unfold copy_byte, store_byte. destruct (bytes s !! src);
      apply clobber_wf; try done; apply Hl; lia.
  - intros x Hx. apply Hl. lia.
  - lia.
  - split_and!; try done.
    + rewrite I2. unfold copy_byte. by destruct (bytes s !! src).
    + intros i Hi. destruct (decide (i = 0)) as [->|Hne].
      * rewrite I4 by lia. rewrite copy_byte_bytes, decide_True by lia. f_equal. lia.
      * replace (dst + i) with (dst + 1 + (i - 1)) by lia. rewrite I3 by lia.
        rewrite copy_byte_bytes, decide_False by lia. f_equal. lia.
    + intros x Hx. rewrite I4 by lia. rewrite copy_byte_bytes, decide_False by lia. done.
Qed.

(** ** What a successful allocation gives *)

Lemma alloc_success s l (sz : Z) :
  wf heap s l -> 0 <= sz < 2 ^ 64 -> fst (alloc heap sz l) <> 0 ->
  let p := fst (alloc heap sz l) in
  let l' := snd (alloc heap sz l) in
  (exists n, align_up sz <= n /\ used_block heap l' (p - SIZEOF_BLOCK) n) /\ sz <= align_up sz /\
  (forall x, p - SIZEOF_BLOCK <= x < p + align_up sz -> ~ live heap l x) /\
  (forall q n, used_block heap l q n -> used_block heap l' q n).
Proof.
  intros [Hwf Hco] Hsz. unfold alloc. destruct (sz =? 0) eqn:E0; [done|].
  destruct (align_up sz =? 0) eqn:Ew; [done|]. breflect.
  destruct (first_fit _ l) as [[[l1 b] l2]|] eqn:Hfit; [|done]. intros _. simpl.
  destruct (first_fit_split _ _ _ _ _ Hfit) as (-> & Hb & Hle).
  destruct (wf_block _ _ _ _ Hwf) as (O1 & Ob & O2 & E1 & E2 & Ms & Hext & Hmax & Hq).
  destruct (align_up_spec sz) as [?|(Ha & Hm & Hs & _)]; [lia|done|].
  unfold SIZEOF_BLOCK, MIN_PAYLOAD in *.
  split_and!; [|lia| |].
  - exists (if align_up sz + 48 + 16 <=? asize b then align_up sz else asize b).
    split; [destruct (_ <=? asize b); lia|].
    rewrite !used_block_app. right. left. unfold carve, SIZEOF_BLOCK, MIN_PAYLOAD.
    destruct (_ <=? asize b); simpl; left; split_and!; try done; lia.
  - intros x Hx Hlive. apply live_app in Hlive as [Hl|[[? _]|Hl]]; [|congruence|];
      apply live_range in Hl; try done; unfold SIZEOF_BLOCK in *; lia.
  - intros q n. rewrite !used_block_app. simpl. rewrite Hb.
    destruct (carve_sums (align_up sz) b Hb Hle) as (-> & _ & _).
    rewrite !Z.add_assoc. intros [?|[(_ & _ & ?)|?]]; [auto|done|auto].
Qed.

Lemma used_block_glue (a q n : Z) (b : ablock) l :
  used_block a (glue b l) q n <-> used_block a (b :: l) q n.
Proof.
  destruct l as [|c l]; [done|]. simpl.
  destruct (afree b) eqn:Eb, (afree c) eqn:Ec; simpl; rewrite ?Eb, ?Ec; try done.
  replace (a + SIZEOF_BLOCK + (asize b + SIZEOF_BLOCK + asize c))
    with (a + SIZEOF_BLOCK + asize b + SIZEOF_BLOCK + asize c) by lia.
  split; [intros [(_ & _ & ?)|?]; [done|auto]|].
  intros [(_ & _ & ?)|[(_ & _ & ?)|?]]; [done|done|auto].
Qed.

Lemma used_block_coalesce (a q n : Z) l :
  used_block a (coalesce l) q n <-> used_block a l q n.
Proof.
  revert a. induction l as [|b l IH]; intros a; [done|]. simpl.
  rewrite used_block_glue. simpl. by rewrite IH.
Qed.

(** kfree keeps every other allocated block. *)
Lemma dealloc_keeps l (p q n : Z) :
  Forall ok_block l -> q + SIZEOF_BLOCK <> p ->
  used_block heap l q n -> used_block heap (dealloc heap p l) q n.
Proof.
  intros Hok Hne Hu. unfold dealloc.
  destruct (locate p heap l) as [[[l1 b] l2]|] eqn:Hloc; [|done].
  destruct (afree b) eqn:Hb; [done|].
  destruct (locate_split _ _ _ _ _ _ Hloc) as [-> Hp].
  rewrite used_block_coalesce. rewrite used_block_app in Hu |- *. simpl in *.
  destruct Hu as [?|[(? & _ & _)|?]]; [auto|lia|auto].
Qed.

Lemma dealloc_ignores l (p : Z) :
  Forall ok_block l -> (forall n, ~ used_block heap l (p - SIZEOF_BLOCK) n) ->
  dealloc heap p l = l.
Proof.
  intros Hok Hno. unfold dealloc.
  destruct (locate p heap l) as [[[l1 b] l2]|] eqn:Hloc; [|done].
  destruct (afree b) eqn:Hb; [done|].
  destruct (locate_split _ _ _ _ _ _ Hloc) as [-> Hp].
  destruct (Hno (asize b)). rewrite used_block_app. right. left. split_and!; try done. lia.
Qed.

(** The freed block is no longer allocated. *)
Lemma dealloc_gone l (p n : Z) :
  Forall ok_block l -> ~ used_block heap (dealloc heap p l) (p - SIZEOF_BLOCK) n.
Proof.
  intros Hok Hu. unfold dealloc in Hu.
  destruct (locate p heap l) as [[[l1 b] l2]|] eqn:Hloc.
  - destruct (afree b) eqn:Hb.
    + destruct (used_block_locate _ _ _ _ Hok Hu) as (k1 & c & k2 & _ & _ & _ & Hc & Hl).
      rewrite Z.sub_add, Hloc in Hl. congruence.
    + destruct (locate_split _ _ _ _ _ _ Hloc) as [-> Hp].
      apply Forall_app in Hok as [H1 H2]. inversion H2 as [|? ? [Hbs _] H3]; subst.
      apply used_block_coalesce, used_block_app in Hu. unfold MIN_PAYLOAD, SIZEOF_BLOCK in *.
      destruct Hu as [Hu|[(_ & _ & ?)|Hu]]; [|done|];
        apply used_block_range in Hu; try done; unfold MIN_PAYLOAD, SIZEOF_BLOCK in *;
        simpl in *; lia.
  - destruct (used_block_locate _ _ _ _ Hok Hu) as (k1 & c & k2 & _ & _ & _ & _ & Hl).
    rewrite Z.sub_add, Hloc in Hl. done.
Qed.

(** Freeing what was just allocated gives back the same list of blocks. *)
Lemma alloc_dealloc s l (sz : Z) :
  wf heap s l -> 0 <= sz < 2 ^ 64 -> fst (alloc heap sz l) <> 0 ->
  dealloc heap (fst (alloc heap sz l)) (snd (alloc heap sz l)) = l.
Proof.
  intros Hwf Hsz Hne. pose proof (alloc_success _ _ _ Hwf Hsz Hne) as ((n & _ & Hu) & _).
  destruct (kmalloc_refines _ _ _ Hwf Hsz) as (s' & _ & [Hwf' _] & _).
  pose proof (wf_blocks _ _ _ Hwf') as Hok'.
  destruct Hwf as [Hwf Hco]. unfold alloc in *.
  destruct (sz =? 0); [done|]. destruct (align_up sz =? 0); [done|].
  destruct (first_fit _ l) as [[[l1 b] l2]|] eqn:Hfit; [|done]. cbn [fst snd] in *.
  destruct (first_fit_split _ _ _ _ _ Hfit) as (-> & Hb & Hle).
  destruct (used_block_locate _ _ _ _ Hok' Hu) as (k1 & c & k2 & Hl & Hq & Hn & Hc & Hloc).
  rewrite Z.sub_add in Hloc.
  assert (locate (heap + extent l1 + SIZEOF_BLOCK) heap (l1 ++ carve (align_up sz) b ++ l2)
    = Some (l1, default b (head (carve (align_up sz) b)), tail (carve (align_up sz) b) ++ l2)) as Hl1.
  { clear -Hwf. destruct (wf_block _ _ _ _ Hwf) as (O1 & _).
    revert O1. generalize heap. clear Hwf. induction l1 as [|d l1 IH]; intros h O1; simpl.
    - rewrite Z.add_0_r. unfold carve. destruct (_ <=? _); simpl; by rewrite Z.eqb_refl.
    - inversion O1 as [|? ? [Hd _] O1']; subst. pose proof (extent_nonneg _ O1').
      rewrite (proj2 (Z.eqb_neq _ _)) by (unfold MIN_PAYLOAD, SIZEOF_BLOCK in *; lia).
      replace (h + (SIZEOF_BLOCK + asize d + extent l1) + SIZEOF_BLOCK)
        with (h + SIZEOF_BLOCK + asize d + extent l1 + SIZEOF_BLOCK) by lia.
      by rewrite IH. }
  unfold dealloc. rewrite Hl1.
  assert (afree (default b (head (carve (align_up sz) b))) = false) as ->
    by (unfold carve; destruct (_ <=? _); done).
  assert (coalesce (l1 ++ AB (asize (default b (head (carve (align_up sz) b)))) true
            :: tail (carve (align_up sz) b) ++ l2) = coalesce (l1 ++ b :: l2)) as ->;
    [|by apply coalesce_id].
  rewrite !coalesce_app. f_equal. destruct b as [bs bf]. simpl in Hb. subst bf.
  apply coalesced_app_inv in Hco as [_ Hco2].
  assert (coalesce l2 = l2) as E2 by (apply coalesce_id; destruct l2; [done|apply Hco2]).
  unfold carve. cbn [asize]. destruct (_ <=? bs) eqn:Es; breflect; cbn [head tail default app coalesce asize].
  - rewrite E2. destruct l2 as [|d l2]; simpl.
    + do 2 f_equal. lia.
    + destruct Hco2 as [Hd _]. simpl in Hd. rewrite Hd. simpl. do 2 f_equal. lia.
  - done.
Qed.

Lemma free_bytes_walk_spec fuel s (prev a acc : Z) l :
  0 < a -> Forall ok_block l -> chain (blocks s) prev a l 0 -> (length l < fuel)%nat ->
  0 <= acc -> acc + free_bytes l < 2 ^ 64 ->
  free_bytes_walk fuel s (link a l 0) acc = Ok (acc + free_bytes l).
Proof.
  intros Ha Hok. revert prev a acc fuel Ha.
  induction Hok as [|b l [Hb _] Hl IH]; intros prev a acc fuel Ha Hc Hf Hacc Hlt.
  - destruct fuel; [simpl in Hf; lia|]. simpl. by rewrite Z.add_0_r.
  - destruct fuel as [|fuel]; [simpl in Hf; lia|]. destruct Hc as [H1 H2].
    cbn [link free_bytes_walk]. rewrite (proj2 (Z.eqb_neq a 0)) by lia.
    rewrite (load_ok _ _ _ H1). cbn [obind magic free size next]. rewrite Z.eqb_refl. cbn [negb].
    pose proof (free_bytes_bounds l Hl) as [Hfb _].
    unfold MIN_PAYLOAD, SIZEOF_BLOCK in *. simpl in Hlt, Hf.
    destruct (afree b) eqn:Eb.
    + rewrite u64_small by lia. erewrite IH; [|lia|done|lia|lia|lia].
      simpl. rewrite Eb. f_equal. lia.
    + erewrite IH; [|lia|done|lia|lia|lia]. simpl. rewrite Eb. f_equal.
Qed.

Definition init_blocks (available : Z) : list ablock :=
  let hb := heap_bytes (heap_init heap available (HeapState 0 0 0 0 0 ∅ ∅)) in
  if hb <=? SIZEOF_BLOCK + MIN_PAYLOAD then [] else [AB (hb - SIZEOF_BLOCK) true].

Lemma heap_init_bytes (available : Z) s s' :
  heap_bytes (heap_init heap available s) = heap_bytes (heap_init heap available s').
Proof. unfold heap_init. cbv zeta. by destruct (_ <=? SIZEOF_BLOCK + MIN_PAYLOAD). Qed.

Lemma heap_init_wf s (available : Z) :
  0 <= available < 2 ^ 64 -> wf heap (heap_init heap available s) (init_blocks available).
Proof.
  intros Hav. unfold init_blocks. rewrite (heap_init_bytes _ _ s).
  unfold heap_init.
  set (hb0 := if (z2b available && _)%bool then available / 8 else HEAP_MAX_BYTES).
  cbv zeta. set (hb := Z.land hb0 (Z.lnot (ALIGNMENT - 1))).
  assert (0 <= hb0 <= HEAP_MAX_BYTES) as H0.
  { subst hb0. destruct (_ && _)%bool eqn:E; [breflect|unfold HEAP_MAX_BYTES; lia].
    split; [apply Z.div_pos; lia|lia]. }
  assert (hb = hb0 - hb0 mod 16) as Hhb by (apply (land_lnot_ones hb0 4); lia).
  assert (0 <= hb <= HEAP_MAX_BYTES /\ hb mod ALIGNMENT = 0) as Hs.
  { rewrite Hhb. unfold ALIGNMENT. Z.div_mod_to_equations; lia. }
  clearbody hb. destruct (hb <=? SIZEOF_BLOCK + MIN_PAYLOAD) eqn:E; simpl; rewrite E; breflect.
  - split; [|done]. constructor; simpl; auto.
  - unfold SIZEOF_BLOCK, MIN_PAYLOAD, ALIGNMENT in *.
    split; [|done]. constructor; simpl; auto.
    + split; [|done]. by rewrite lookup_insert_eq.
    + constructor; [|done]. unfold ok_block, ALIGNMENT, MIN_PAYLOAD. simpl.
      Z.div_mod_to_equations; lia.
    + right. unfold SIZEOF_BLOCK. lia.
Qed.

(** ** kcalloc and krealloc *)

Lemma kcalloc_refines s l (count sz : Z) :
  wf heap s l -> is_u64 count -> is_u64 sz ->
  exists p s' l', kcalloc count sz s = Ok (p, s') /\ wf heap s' l'
    /\ (forall q n, used_block heap l q n -> used_block heap l' q n)
    /\ (forall x, live heap l x -> bytes s' !! x = bytes s !! x)
    /\ (p <> 0 -> count * sz < 2 ^ 64 /\ (p, l') = alloc heap (count * sz) l
         /\ forall x, p <= x < p + count * sz -> bytes s' !! x = Some 0).
Proof.
  intros Hwf Hc Hs. unfold kcalloc. destruct (z2b sz && _)%bool eqn:Hov.
  { exists 0, s, l. split_and!; done. }
  assert (0 <= count * sz < 2 ^ 64) as Hn.
  { unfold z2b in Hov. apply andb_false_iff in Hov as [Hov|Hov]; breflect; unfold is_u64 in *.
    - subst sz. rewrite Z.mul_0_r. lia.
    - destruct (decide (sz = 0)) as [->|?]; [rewrite Z.mul_0_r; lia|].
      pose proof (Z.mul_div_le (2 ^ 64 - 1) sz ltac:(lia)). nia. }
  rewrite (u64_small (count * sz)) by lia.
  destruct (kmalloc_refines s l (count * sz) Hwf Hn) as (s1 & -> & Hwf1 & _ & Hl1). cbn [obind].
  destruct (alloc heap (count * sz) l) as [p l'] eqn:Ea. cbn [fst snd] in *.
  destruct (p =? 0) eqn:Ep; breflect.
  { pose proof (alloc_null heap (count * sz) l heap_pos (wf_blocks _ _ _ (proj1 Hwf))) as Hnull.
    rewrite Ea in Hnull. cbn [fst snd] in Hnull. rewrite (Hnull Ep) in *.
    exists 0, s1, l. split_and!; done. }
  assert (fst (alloc heap (count * sz) l) <> 0) as Hne by by rewrite Ea.
  pose proof (alloc_success s l _ Hwf Hn Hne) as ((n & Hn1 & Hu) & Hle & Hfresh & Hkeep).
  rewrite Ea in *. cbn [fst snd] in *.
  assert (forall x, p <= x < p + Z.of_nat (Z.to_nat (count * sz)) -> live heap l' x) as Hlive.
  { intros x Hx. eapply used_block_live; [exact Hu|]. lia. }
  destruct (zero_bytes_spec _ p s1 l' Hwf1 Hlive) as (Z1 & Z2 & Z3 & Z4).
  exists p, (zero_bytes (Z.to_nat (count * sz)) p s1), l'. split_and!; try done.
  - intros x Hx. rewrite Z4; [by apply Hl1|].
    intros Hr. apply (Hfresh x); [unfold SIZEOF_BLOCK; lia|done].
  - intros _. split_and!; [lia|done|]. intros x Hx. apply Z3. lia.
Qed.

(** An allocated block seen from the pointer handed out for it. *)
Lemma find_used s l (pointer : Z) :
  wf_core heap s l ->
  find_block (walk_fuel s) pointer (first s) s =
  Ok (Some (match locate pointer heap l with Some (l1, _, _) => heap + extent l1 | None => 0 end)).
Proof.
  intros Hwf. rewrite (wf_first _ _ _ Hwf). eapply find_block_spec; [done| | | |].
  - pose proof (wf_size _ _ _ Hwf). destruct (wf_extent _ _ _ Hwf) as [-> | ->];
      unfold HEAP_MAX_BYTES in *; simpl; lia.
  - apply (wf_blocks _ _ _ Hwf).
  - apply (wf_chain _ _ _ Hwf).
  - by apply wf_fuel.
Qed.

(** The header of an allocated block. *)
Lemma used_block_header s l (q n : Z) :
  wf_core heap s l -> used_block heap l q n ->
  (exists h, blocks s !! q = Some h /\ magic h = BLOCK_MAGIC /\ size h = n /\ free h = false)
  /\ (exists l1 b l2, locate (q + SIZEOF_BLOCK) heap l = Some (l1, b, l2) /\ q = heap + extent l1)
  /\ heap <= q /\ MIN_PAYLOAD <= n.
Proof.
  intros Hwf Hu. pose proof (wf_blocks _ _ _ Hwf) as Hok.
  pose proof (used_block_range _ _ _ _ Hok Hu) as (R1 & R2 & R3).
  destruct (used_block_locate _ _ _ _ Hok Hu) as (l1 & b & l2 & -> & Hq & Hn & Hb & Hloc).
  destruct (wf_block _ _ _ _ Hwf) as (_ & _ & _ & _ & _ & _ & _ & _ & Hh).
  rewrite <- Hq in Hh. split_and!; try done.
  - eexists. split; [exact Hh|]. done.
  - by exists l1, b, l2.
Qed.

(** krealloc's last steps, once the replacement [r] exists: copy, then free. *)
Lemma copy_and_free s l (q n r m : Z) :
  wf heap s l -> used_block heap l q n -> used_block heap l (r - SIZEOF_BLOCK) m ->
  n <= m -> r <> q + SIZEOF_BLOCK ->
  let pointer := q + SIZEOF_BLOCK in
  exists s', kfree heap pointer (copy_bytes (Z.to_nat n) r pointer s) = Ok s'
    /\ wf heap s' (dealloc heap pointer l)
    /\ (forall x, live heap (dealloc heap pointer l) x -> ~ r <= x < r + n ->
          bytes s' !! x = bytes s !! x)
    /\ (forall i, 0 <= i < n -> bytes s' !! (r + i) = bytes s !! (pointer + i)).
Proof.
  intros Hwf Hu Hr Hnm Hne pointer. pose proof (wf_blocks _ _ _ (proj1 Hwf)) as Hok.
  pose proof (used_block_range _ _ _ _ Hok Hu) as (R1 & R2 & R3).
  assert (forall x, r <= x < r + Z.of_nat (Z.to_nat n) -> live heap l x) as Hlive.
  { intros x Hx. eapply used_block_live; [exact Hr|]. unfold MIN_PAYLOAD in *. lia. }
  assert (used_block heap (dealloc heap pointer l) (r - SIZEOF_BLOCK) m) as Hr'.
  { apply dealloc_keeps; [done|lia|done]. }
  assert (r + n <= pointer \/ pointer + n <= r) as Hdisj.
  { destruct (used_block_locate _ _ _ _ Hok Hu) as (l1 & b & l2 & E & Hq & Hn & _ & _).
    rewrite E in Hr, Hok. apply Forall_app in Hok as [O1 O2].
    inversion O2 as [|? ? [Ob _] O3]; subst.
    apply used_block_app in Hr as [Hr|[(? & _ & _)|Hr]]; [| |];
      try apply used_block_range in Hr; try done;
      unfold pointer, MIN_PAYLOAD, SIZEOF_BLOCK in *; lia. }
  destruct (copy_bytes_spec (Z.to_nat n) r pointer s l Hwf Hlive) as (C1 & C2 & C3 & C4).
  { unfold MIN_PAYLOAD in *. lia. }
  destruct (kfree_refines _ _ pointer C1) as (s3 & -> & Hwf3 & _ & Hl3 & _).
  unfold MIN_PAYLOAD in *. exists s3. split_and!; try done.
  - intros x Hx Hnr. rewrite Hl3 by done. apply C4. lia.
  - intros i Hi. rewrite Hl3, C3 by (try (eapply used_block_live; [exact Hr'|]); lia). done.
Qed.

(** Growing a block: a new block is allocated, the old contents are copied and
    the old block is freed. *)
Lemma krealloc_grow s l (q n sz : Z) :
  wf heap s l -> used_block heap l q n -> n < sz < 2 ^ 64 ->
  let pointer := q + SIZEOF_BLOCK in
  exists r s' l', krealloc heap pointer sz s = Ok (r, s') /\ wf heap s' l'
    /\ (forall x, live heap l x -> ~ pointer <= x < pointer + n ->
          live heap l' x /\ bytes s' !! x = bytes s !! x)
    /\ (r = 0 -> l' = l /\ forall x, live heap l x -> bytes s' !! x = bytes s !! x)
    /\ (r <> 0 -> (exists m, sz <= m /\ used_block heap l' (r - SIZEOF_BLOCK) m)
         /\ forall i, 0 <= i < n -> bytes s' !! (r + i) = bytes s !! (pointer + i)).
Proof.
  intros Hwf Hu Hsz pointer. pose proof Hwf as [Hcore _].
  pose proof (wf_blocks _ _ _ Hcore) as Hok.
  destruct (used_block_header _ _ _ _ Hcore Hu)
    as ((h & Hh & Hm & Hn & Hf) & (l1 & b & l2 & Hloc & Hq) & R1 & R2).
  unfold MIN_PAYLOAD in R2. assert (0 <= sz < 2 ^ 64) as Hsz' by lia.
  unfold krealloc. rewrite !(proj2 (Z.eqb_neq _ 0)) by (unfold pointer, SIZEOF_BLOCK; lia).
  rewrite (find_used _ _ _ Hcore). fold pointer in Hloc. rewrite Hloc, <- Hq. cbn [obind].
  rewrite (proj2 (Z.eqb_neq q 0)), (load_ok _ _ _ Hh) by lia. cbn [obind].
  rewrite Hf, Hm, Hn, Z.eqb_refl, (proj2 (Z.leb_gt _ _)) by lia. cbn [negb orb].
  destruct (kmalloc_refines s l sz Hwf Hsz') as (s1 & -> & Hwf1 & _ & Hl1). cbn [obind].
  destruct (decide (fst (alloc heap sz l) = 0)) as [Hz|Hne].
  { rewrite (alloc_null _ _ _ heap_pos Hok Hz) in Hwf1. rewrite Hz. cbn.
    exists 0, s1, l. split_and!; try done; auto. }
  rewrite (proj2 (Z.eqb_neq _ 0)) by done.
  destruct (alloc_success s l sz Hwf Hsz' Hne) as ((m & Hm' & Hu') & Hle & Hfresh & Hkeep).
  set (r := fst (alloc heap sz l)) in *. set (l' := snd (alloc heap sz l)) in *.
  destruct (used_block_header _ _ _ _ (proj1 Hwf1) (Hkeep _ _ Hu)) as ((h1 & Hh1 & _ & Hn1 & _) & _).
  rewrite (load_ok _ _ _ Hh1). cbn [obind]. rewrite Hn1.
  assert (r <> pointer) as Hrp.
  { intros Hr. apply (Hfresh pointer); [unfold SIZEOF_BLOCK; lia|].
    eapply used_block_live; [exact Hu|]. unfold pointer. lia. }
  destruct (copy_and_free s1 l' q n r m) as (s3 & Hk & Hwf3 & Hl3 & Hc); try done; [auto|lia|].
  fold pointer in Hk, Hwf3, Hl3, Hc. rewrite Hk. cbn [obind].
  exists r, s3, (dealloc heap pointer l'). split_and!; try done.
  - intros x Hx Hnp. destruct (live_used_block _ _ _ Hx) as (q' & n' & Hq' & Hr').
    assert (q' <> q) as Hqq.
    { intros ->. pose proof (used_block_unique _ _ _ _ _ Hok Hu Hq'). unfold pointer in *. lia. }
    assert (live heap (dealloc heap pointer l') x) as Hlx.
    { eapply used_block_live; [|exact Hr']. apply dealloc_keeps; [|unfold pointer; lia|auto].
      apply (wf_blocks _ _ _ (proj1 Hwf1)). }
    split; [done|]. rewrite Hl3; [by apply Hl1|done|].
    intros Hr. apply (Hfresh x); [unfold SIZEOF_BLOCK in *; lia|done].
  - intros _. split.
    + exists m. split; [lia|]. apply dealloc_keeps; [|unfold pointer in *; lia|done].
      apply (wf_blocks _ _ _ (proj1 Hwf1)).
    + intros i Hi. rewrite Hc by done. apply Hl1.
      eapply used_block_live; [exact Hu|]. unfold pointer. lia.
Qed.

(** krealloc of anything returns and keeps the heap well formed. *)
Lemma krealloc_wf s l (pointer sz : Z) :
  wf heap s l -> is_u64 sz ->
  exists r s' l', krealloc heap pointer sz s = Ok (r, s') /\ wf heap s' l'.
Proof.
  intros Hwf Hsz. pose proof Hwf as [Hcore _]. unfold krealloc.
  destruct (pointer =? 0) eqn:Ep.
  { destruct (kmalloc_refines s l sz Hwf Hsz) as (s1 & -> & ? & _). eauto. }
  destruct (sz =? 0) eqn:Ez.
  { destruct (kfree_refines s l pointer Hwf) as (s1 & -> & ? & _). cbn. eauto. }
  rewrite (find_used _ _ _ Hcore).
  destruct (locate pointer heap l) as [[[l1 b] l2]|] eqn:Hloc; [|cbn; eauto]. cbn [obind].
  destruct (locate_split _ _ _ _ _ _ Hloc) as [E Hp]. pose proof Hcore as Hc'. rewrite E in Hc'.
  destruct (wf_block _ _ _ _ Hc') as (_ & _ & _ & ? & _ & ? & _ & _ & Hh).
  rewrite (proj2 (Z.eqb_neq (heap + extent l1) 0)), (load_ok _ _ _ Hh) by lia.
  cbn [obind free magic size]. rewrite Z.eqb_refl. cbn [negb]. rewrite orb_false_r.
  destruct (afree b) eqn:Hb; [eauto|]. destruct (sz <=? asize b) eqn:Es; [eauto|]. breflect.
  destruct (krealloc_grow s l (heap + extent l1) (asize b) sz Hwf) as (r & s' & l' & Hk & Hwf' & _).
  - rewrite E, used_block_app. right. by left.
  - unfold is_u64 in *. lia.
  - exists r, s', l'. split; [|done]. rewrite <- Hk, <- Hp. unfold krealloc.
    rewrite (proj2 (Z.eqb_neq pointer 0)), (proj2 (Z.eqb_neq sz 0)) by done.
    rewrite (find_used _ _ _ Hcore), Hloc. cbn [obind].
    rewrite (proj2 (Z.eqb_neq (heap + extent l1) 0)), (load_ok _ _ _ Hh) by lia.
    cbn [obind free magic size]. rewrite ?Z.eqb_refl, ?Hb. cbn [negb orb].
    by rewrite (proj2 (Z.leb_gt _ _)).
Qed.

End proof.
