(* ===== verification/HeapTheorems.v ===== *)
(** * Properties of the kernel heap

    The theorems about kmalloc, kfree, kcalloc and krealloc, for any placement
    of the static array that is non-null, 16-aligned and below the top of the
    address space.  Each is about every well-formed state ([wf]), and
    [heap_calls_safe] shows that initialisation and every sequence of calls
    stays among those. *)

From stdpp Require Import base numbers list gmap.
From Stdlib Require Import ZArith Lia.
From S2P Require Import Prelude Heap HeapSpec HeapProof.

(** Where the linker may place the array. *)
Definition heap_placed (heap : Z) : Prop :=
  0 < heap /\ heap mod ALIGNMENT = 0 /\ heap + HEAP_MAX_BYTES < 2 ^ 64.

Lemma extent_aligned (l : list ablock) : Forall ok_block l -> extent l mod ALIGNMENT = 0.
Proof.
  induction 1 as [|b l [_ Hb] _ IH]; [done|]. simpl.
  unfold ALIGNMENT, SIZEOF_BLOCK in *. Z.div_mod_to_equations; lia.
Qed.

(** C1. kmalloc returns for every size, never reading a header that is not
    there, and implements the first-fit specification [alloc]: the heap stays
    well formed, a non-null result is 16-aligned, lies with its [sz] bytes
    inside the array, overlaps no byte that was allocated before, and no byte
    of an allocated block changes. *)
Theorem kmalloc_correct (heap : Z) (s : heap_state) (l : list ablock) (sz : Z) :
  heap_placed heap -> wf heap s l -> is_u64 sz ->
  exists p s', kmalloc sz s = Ok (p, s') /\ (p, snd (alloc heap sz l)) = alloc heap sz l
    /\ wf heap s' (snd (alloc heap sz l))
    /\ (forall x, live heap l x -> bytes s' !! x = bytes s !! x)
    /\ (p <> 0 -> p mod ALIGNMENT = 0
         /\ heap + SIZEOF_BLOCK <= p /\ p + sz <= heap + heap_bytes s
         /\ forall x, p <= x < p + sz -> live heap (snd (alloc heap sz l)) x /\ ~ live heap l x).
Proof.
  intros (Hp & Hal & Hf) Hwf Hsz.
  destruct (kmalloc_refines heap Hp Hf s l sz Hwf Hsz) as (s' & Hk & Hwf' & Hb & Hl).
  exists (fst (alloc heap sz l)), s'. split_and!; try done; [by destruct (alloc heap sz l)|].
  intros Hne. destruct (alloc_success heap s l sz Hwf Hsz Hne) as ((n & Hn & Hu) & Hs & Hfresh & _).
  destruct Hwf' as [Hcore _]. pose proof (wf_blocks _ _ _ Hcore) as Hok.
  pose proof (used_block_range _ _ _ _ Hok Hu) as (R1 & R2 & R3).
  assert (extent (snd (alloc heap sz l)) = heap_bytes s) as Hext.
  { destruct (wf_extent _ _ _ Hcore) as [E|E]; [rewrite E in Hu; done|congruence]. }
  split_and!; try lia.
  - destruct (used_block_locate _ _ _ _ Hok Hu) as (k1 & c & k2 & E & Hq & _).
    rewrite E in Hok. apply Forall_app in Hok as [Hok1 _].
    pose proof (extent_aligned _ Hok1). unfold ALIGNMENT, SIZEOF_BLOCK in *.
    Z.div_mod_to_equations; lia.
  - intros x Hx. split.
    + eapply used_block_live; [exact Hu|]. lia.
    + apply Hfresh. unfold SIZEOF_BLOCK in *. lia.
Qed.

(** C2. kfree returns for every pointer and implements [dealloc]: an allocated
    block becomes free and is merged with its free neighbours, every other
    allocated block keeps its place, size and contents, and a pointer that is
    not the payload of an allocated block (null, wild, already freed) changes
    nothing at all. *)
Theorem kfree_correct (heap : Z) (s : heap_state) (l : list ablock) (p : Z) :
  heap_placed heap -> wf heap s l ->
  exists s', kfree heap p s = Ok s' /\ wf heap s' (dealloc heap p l)
    /\ (forall x, live heap (dealloc heap p l) x -> bytes s' !! x = bytes s !! x)
    /\ (forall q n, q + SIZEOF_BLOCK <> p -> used_block heap l q n ->
          used_block heap (dealloc heap p l) q n)
    /\ (forall n, ~ used_block heap (dealloc heap p l) (p - SIZEOF_BLOCK) n)
    /\ ((forall n, ~ used_block heap l (p - SIZEOF_BLOCK) n) -> s' = s).
Proof.
  intros (Hp & Hal & Hf) Hwf. pose proof (wf_blocks _ _ _ (proj1 Hwf)) as Hok.
  destruct (kfree_refines heap Hp Hf s l p Hwf) as (s' & Hk & Hwf' & _ & Hl & Hno).
  exists s'. split_and!; try done.
  - intros q n Hne. by apply dealloc_keeps.
  - intros n. by apply dealloc_gone.
  - intros H. apply Hno. intros l1 b l2 Hloc. destruct (afree b) eqn:Hb; [done|exfalso].
    destruct (locate_split _ _ _ _ _ _ Hloc) as [-> ->].
    apply (H (asize b)). rewrite used_block_app. right. left. split_and!; try done. lia.
Qed.

(** C3. First fit is complete: kmalloc refuses a request only when its size is
    zero or not representable after rounding, or when no free block is large
    enough for the rounded size. *)
Theorem kmalloc_null_means_full (heap : Z) (s s' : heap_state) (l : list ablock) (sz : Z) :
  heap_placed heap -> wf heap s l -> is_u64 sz -> sz <> 0 -> align_up sz <> 0 ->
  kmalloc sz s = Ok (0, s') ->
  Forall (fun b => afree b = true -> asize b < align_up sz) l.
Proof.
  intros (Hp & Hal & Hf) Hwf Hsz Hz Hw Hk.
  destruct (kmalloc_refines heap Hp Hf s l sz Hwf Hsz) as (s1 & Hk1 & _).
  rewrite Hk in Hk1. injection Hk1 as Hp0 _. unfold alloc in Hp0.
  rewrite (proj2 (Z.eqb_neq _ _) Hz), (proj2 (Z.eqb_neq _ _) Hw) in Hp0.
  assert (first_fit (align_up sz) l = None) as Hnone.
  { destruct (first_fit _ l) as [[[l1 b] l2]|] eqn:Hfit; [|done].
    destruct (first_fit_split _ _ _ _ _ Hfit) as (-> & _).
    destruct Hwf as [Hc _]. apply wf_block in Hc as (_ & _ & _ & ? & _).
    simpl in Hp0. unfold SIZEOF_BLOCK in *. lia. }
  clear -Hnone. induction l as [|b l IH]; [done|]. simpl in Hnone. unfold fits in Hnone.
  constructor.
  - intros Hb. rewrite Hb in Hnone. destruct (_ <=? _) eqn:E; [done|]. by breflect.
  - apply IH. destruct (afree b && _)%bool; [done|]. by destruct (first_fit _ l) as [[[? ?] ?]|].
Qed.

(** kmalloc followed by kfree of the result is the identity on the heap's
    layout: splitting and merging are inverse, so no fragmentation is left
    behind. *)
Theorem kmalloc_kfree_roundtrip (heap : Z) (s s1 : heap_state) (l : list ablock) (sz p : Z) :
  heap_placed heap -> wf heap s l -> is_u64 sz ->
  kmalloc sz s = Ok (p, s1) ->
  exists s2, kfree heap p s1 = Ok s2 /\ wf heap s2 l.
Proof.
  intros (Hp & Hal & Hf) Hwf Hsz Hk.
  destruct (kmalloc_refines heap Hp Hf s l sz Hwf Hsz) as (s1' & Hk1 & Hwf1 & _).
  rewrite Hk in Hk1. injection Hk1 as -> <-.
  destruct (kfree_refines heap Hp Hf s1 _ (fst (alloc heap sz l)) Hwf1) as (s2 & Hf2 & Hwf2 & _).
  exists s2. split; [done|]. destruct (decide (fst (alloc heap sz l) = 0)) as [Hz|Hne].
  - rewrite Hz in Hf2. injection Hf2 as <-.
    rewrite <- (alloc_null heap sz l Hp (wf_blocks _ _ _ (proj1 Hwf)) Hz). done.
  - by rewrite (alloc_dealloc heap Hp Hf s l sz) in Hwf2.
Qed.

(** The accounting adds up: memory_free_bytes returns, and together with
    memory_used_bytes and one header per block it is exactly the size of the
    array; both counters are those of the allocated blocks. *)
Theorem heap_accounting (heap : Z) (s : heap_state) (l : list ablock) :
  heap_placed heap -> wf heap s l -> l <> [] ->
  exists fb, memory_free_bytes s = Ok fb
    /\ memory_used_bytes s + fb + SIZEOF_BLOCK * Z.of_nat (length l) = heap_bytes s
    /\ memory_used_bytes s = used_bytes l /\ memory_allocation_count s = used_count l.
Proof.
  intros (Hp & Hal & Hf) [Hwf _] Hne. exists (free_bytes l).
  pose proof (wf_blocks _ _ _ Hwf) as Hok.
  destruct (wf_extent _ _ _ Hwf) as [?|He]; [done|]. split_and!.
  - unfold memory_free_bytes. rewrite (wf_first _ _ _ Hwf).
    erewrite free_bytes_walk_spec; [done|done|done|apply (wf_chain _ _ _ Hwf)| |done|].
    + by apply (wf_fuel heap).
    + pose proof (free_bytes_bounds l Hok). pose proof (wf_size _ _ _ Hwf).
      unfold HEAP_MAX_BYTES in *. lia.
  - unfold memory_used_bytes. rewrite (wf_used _ _ _ Hwf).
    rewrite <- He, extent_split. lia.
  - apply (wf_used _ _ _ Hwf).
  - apply (wf_allocations _ _ _ Hwf).
Qed.

(** kcalloc returns; a non-null result means the product of its arguments
    did not overflow, the block holds that many bytes and every one of them
    is zero, while the bytes allocated before are unchanged. *)
Theorem kcalloc_zeroes (heap : Z) (s : heap_state) (l : list ablock) (count sz : Z) :
  heap_placed heap -> wf heap s l -> is_u64 count -> is_u64 sz ->
  exists p s' l', kcalloc count sz s = Ok (p, s') /\ wf heap s' l'
    /\ (forall x, live heap l x -> bytes s' !! x = bytes s !! x)
    /\ (p <> 0 -> count * sz < 2 ^ 64
         /\ forall x, p <= x < p + count * sz -> live heap l' x /\ bytes s' !! x = Some 0).
Proof.
  intros (Hp & Hal & Hf) Hwf Hc Hs.
  destruct (kcalloc_refines heap Hp Hf s l count sz Hwf Hc Hs)
    as (p & s' & l' & Hk & Hwf' & _ & Hl & Hz).
  exists p, s', l'. split_and!; try done. intros Hne.
  destruct (Hz Hne) as (Hov & Ha & Hzero). split; [done|]. intros x Hx. split; [|auto].
  assert (fst (alloc heap (count * sz) l) = p) as Hfst by by rewrite <- Ha.
  destruct (alloc_success heap s l (count * sz) Hwf) as ((n & Hn & Hu) & Hle & _);
    [unfold is_u64 in *; nia|congruence|].
  rewrite <- Ha in Hu. cbn [fst snd] in Hu.
  eapply used_block_live; [exact Hu|]. lia.
Qed.

(** C7. krealloc to a larger size returns; when it succeeds the new block is at
    least as large as asked and starts with the old contents, when it fails
    the old block and its contents are intact, and in both cases every other
    allocated byte is unchanged and still allocated. *)
Theorem krealloc_preserves (heap : Z) (s : heap_state) (l : list ablock) (q n sz : Z) :
  heap_placed heap -> wf heap s l -> used_block heap l q n -> n < sz < 2 ^ 64 ->
  let pointer := q + SIZEOF_BLOCK in
  exists r s' l', krealloc heap pointer sz s = Ok (r, s') /\ wf heap s' l'
    /\ (forall x, live heap l x -> ~ pointer <= x < pointer + n ->
          live heap l' x /\ bytes s' !! x = bytes s !! x)
    /\ (r = 0 -> l' = l /\ forall x, live heap l x -> bytes s' !! x = bytes s !! x)
    /\ (r <> 0 -> (exists m, sz <= m /\ used_block heap l' (r - SIZEOF_BLOCK) m)
         /\ forall i, 0 <= i < n -> bytes s' !! (r + i) = bytes s !! (pointer + i)).
Proof. intros (Hp & Hal & Hf). by apply krealloc_grow. Qed.

(** ** Sequences of calls *)

Inductive heap_call :=
| CMalloc (sz : Z)
| CCalloc (count sz : Z)
| CRealloc (pointer sz : Z)
| CFree (pointer : Z).

Definition call_ok (c : heap_call) : Prop :=
  match c with
  | CMalloc sz | CRealloc _ sz => is_u64 sz
  | CCalloc count sz => is_u64 count /\ is_u64 sz
  | CFree _ => True
  end.

Definition run_call (heap : Z) (c : heap_call) (s : heap_state) : outcome heap_state :=
  match c with
  | CMalloc sz => do '(_, s) <- kmalloc sz s; Ok s
  | CCalloc count sz => do '(_, s) <- kcalloc count sz s; Ok s
  | CRealloc p sz => do '(_, s) <- krealloc heap p sz s; Ok s
  | CFree p => kfree heap p s
  end.

Fixpoint run_calls (heap : Z) (cs : list heap_call) (s : heap_state) : outcome heap_state :=
  match cs with
  | [] => Ok s
  | c :: cs => do s <- run_call heap c s; run_calls heap cs s
  end.

Lemma run_call_wf (heap : Z) (c : heap_call) (s : heap_state) (l : list ablock) :
  heap_placed heap -> call_ok c -> wf heap s l ->
  exists s' l', run_call heap c s = Ok s' /\ wf heap s' l'.
Proof.
  intros (Hp & Hal & Hf) Hc Hwf. destruct c as [sz|n sz|p sz|p]; simpl in *.
  - destruct (kmalloc_refines heap Hp Hf s l sz Hwf Hc) as (s' & -> & ? & _). cbn. eauto.
  - destruct (kcalloc_refines heap Hp Hf s l n sz Hwf) as (p & s' & l' & -> & ? & _);
      [tauto|tauto|]. cbn. eauto.
  - destruct (krealloc_wf heap Hp Hf s l p sz Hwf Hc) as (r & s' & l' & -> & ?). cbn. eauto.
  - destruct (kfree_refines heap Hp Hf s l p Hwf) as (s' & -> & ? & _). eauto.
Qed.

(** C8. From memory_init on, every sequence of calls with 64-bit sizes and any
    pointers at all returns normally, never touches memory that holds no
    header, and leaves a well-formed, fully merged heap. *)
Theorem heap_calls_safe (heap available : Z) (s : heap_state) (cs : list heap_call) :
  heap_placed heap -> is_u64 available -> Forall call_ok cs ->
  exists s' l', run_calls heap cs (heap_init heap available s) = Ok s' /\ wf heap s' l'.
Proof.
  intros Hpl Hav Hcs.
  assert (exists l, wf heap (heap_init heap available s) l) as [l Hl].
  { exists (init_blocks heap available). destruct Hpl as (Hp & _ & Hf). by apply heap_init_wf. }
  revert Hl. generalize (heap_init heap available s). clear s. revert l.
  induction Hcs as [|c cs Hc _ IH]; intros l s Hwf; simpl; [eauto|].
  destruct (run_call_wf heap c s l Hpl Hc Hwf) as (s' & l' & -> & Hwf'). cbn. eauto.
Qed.

(** ** Witnesses

    A heap at 0x200000 with 4096 bytes of usable memory: 512 bytes of heap. *)

Definition wheap : Z := 0x200000.
Definition s0 : heap_state := heap_init wheap 4096 (HeapState 0 0 0 0 0 ∅ ∅).

Lemma wheap_placed : heap_placed wheap.
Proof. done. Qed.

Lemma s0_wf : wf wheap s0 [AB 464 true].
Proof. by apply (heap_init_wf wheap). Qed.

Definition get_state {A} (d : heap_state) (o : outcome (A * heap_state)) : heap_state :=
  match o with Ok (_, s) => s | _ => d end.

Definition s1 : heap_state := get_state s0 (kmalloc 100 s0).

Lemma s1_wf : wf wheap s1 [AB 112 false; AB 304 true].
Proof.
  destruct (kmalloc_refines wheap eq_refl eq_refl s0 _ 100 s0_wf) as (s' & Hk & Hwf & _); [done|].
  unfold s1. rewrite Hk. exact Hwf.
Qed.

Lemma kmalloc_correct_witness :
  exists p s', kmalloc 100 s0 = Ok (p, s') /\ p = 0x200030.
Proof.
  destruct (kmalloc_correct wheap s0 [AB 464 true] 100 wheap_placed s0_wf) as (p & s' & H & E & _).
  - done.
  - exists p, s'. split; [exact H|]. by injection E.
Defined.

Lemma kfree_correct_witness : exists s', kfree wheap 0x200030 s1 = Ok s' /\ wf wheap s' [AB 464 true].
Proof.
  destruct (kfree_correct wheap s1 _ 0x200030 wheap_placed s1_wf) as (s' & H & W & _).
  exists s'. split; [exact H|exact W].
Defined.

Lemma kmalloc_null_witness : Forall (fun b => afree b = true -> asize b < align_up 1000) [AB 464 true].
Proof.
  apply (kmalloc_null_means_full wheap s0 s0 [AB 464 true] 1000 wheap_placed s0_wf); done.
Defined.

Lemma roundtrip_witness : exists s2, kfree wheap 0x200030 s1 = Ok s2 /\ wf wheap s2 [AB 464 true].
Proof.
  apply (kmalloc_kfree_roundtrip wheap s0 s1 [AB 464 true] 100 0x200030 wheap_placed s0_wf);
    [done|vm_compute; reflexivity].
Defined.

Lemma accounting_witness : exists fb, memory_free_bytes s1 = Ok fb /\ 112 + fb + 96 = 512.
Proof.
  destruct (heap_accounting wheap s1 _ wheap_placed s1_wf) as (fb & H & E & _); [done|].
  exists fb. split; [exact H|exact E].
Defined.

Lemma kcalloc_witness : exists p s' l', kcalloc 4 8 s1 = Ok (p, s') /\ wf wheap s' l'.
Proof.
  destruct (kcalloc_zeroes wheap s1 _ 4 8 wheap_placed s1_wf) as (p & s' & l' & H & W & _); [done|done|].
  exists p, s', l'. split; assumption.
Defined.

Lemma krealloc_witness : exists r s' l', krealloc wheap 0x200030 200 s1 = Ok (r, s') /\ wf wheap s' l'.
Proof.
  destruct (krealloc_preserves wheap s1 _ 0x200000 112 200 wheap_placed s1_wf)
    as (r & s' & l' & H & W & _); [by left|done|].
  exists r, s', l'. split; assumption.
Defined.

Lemma heap_calls_witness :
  exists s' l', run_calls wheap [CMalloc 100; CCalloc 4 8; CFree 0x200030; CFree 0x200030; CFree 12345]
                  (heap_init wheap 4096 s0) = Ok s' /\ wf wheap s' l'.
Proof. apply heap_calls_safe; [done|done|]. repeat constructor; done. Defined.
