(* ===== verification/Multiboot.v ===== *)
(** * The Multiboot2 information structure

    The boot information GRUB passes to the kernel and to Mini64: a total size,
    then 8-aligned tags.  This file holds an encoder of well-formed structures
    into bytes and the lemmas that read the bytes back; the parsers themselves
    are modelled in HeapBoot.v (src/kernel/mm/memory.c), Mini64Boot.v
    (src/mini64/kernel.c). *)

From stdpp Require Import base numbers list.
From Stdlib Require Import ZArith Lia.
From S2P Require Import Prelude.

(** ** Little-endian bytes *)

Definition le16 (v : Z) : list Z := [v mod 256; v / 256 mod 256].
Definition le32 (v : Z) : list Z := le16 v ++ le16 (v / 2 ^ 16).
Definition le64 (v : Z) : list Z := le32 v ++ le32 (v / 2 ^ 32).

(** The bytes [bs] lie in memory from address [a] on. *)
Fixpoint holds (m : memory) (a : Z) (bs : list Z) : Prop :=
  match bs with
  | [] => True
  | b :: bs => m a = b /\ holds m (a + 1) bs
  end.

Definition blen (bs : list Z) : Z := Z.of_nat (length bs).

Lemma blen_app (x y : list Z) : blen (x ++ y) = blen x + blen y.
Proof. unfold blen. rewrite length_app. lia. Qed.

Lemma blen_nonneg (x : list Z) : 0 <= blen x.
Proof. unfold blen. lia. Qed.

Lemma holds_app (m : memory) (a : Z) (x y : list Z) :
  holds m a (x ++ y) <-> holds m a x /\ holds m (a + blen x) y.
Proof.
  revert a. induction x as [|b x IH]; intros a; simpl.
  - unfold blen. simpl. rewrite Z.add_0_r. tauto.
  - rewrite IH. unfold blen. cbn [length]. rewrite Nat2Z.inj_succ.
    replace (a + 1 + Z.of_nat (length x)) with (a + Z.succ (Z.of_nat (length x))) by lia. tauto.
Qed.

Lemma rd32_holds (m : memory) (a v : Z) : holds m a (le32 v) -> is_u32 v -> rd32 m a = v.
Proof.
  unfold le32, le16, rd32, rd16. simpl. intros (H0 & H1 & H2 & H3 & _) Hv.
  replace (a + 2 + 1) with (a + 1 + 1 + 1) by lia. replace (a + 2) with (a + 1 + 1) by lia.
  rewrite H0, H1, H2, H3. unfold is_u32 in Hv. Z.div_mod_to_equations; lia.
Qed.

Lemma rd64_holds (m : memory) (a v : Z) : holds m a (le64 v) -> is_u64 v -> rd64 m a = v.
Proof.
  unfold le64. rewrite holds_app. change (blen (le32 v)) with 4. intros [H1 H2] Hv.
  assert (holds m a (le32 (v mod 2 ^ 32))) as H1'.
  { unfold le32, le16 in *. cbn [holds app] in *. destruct H1 as (-> & -> & -> & -> & _).
    split_and!; try done; Z.div_mod_to_equations; lia. }
  unfold rd64. rewrite (rd32_holds _ _ _ H1'), (rd32_holds _ _ _ H2);
    unfold is_u32, is_u64 in *; Z.div_mod_to_equations; lia.
Qed.

(** ** Tags *)

Record mmap_entry := Entry { e_address : Z; e_length : Z; e_type : Z }.

Inductive mb_tag :=
| TMemoryMap (entry_size version : Z) (entries : list mmap_entry)
| TModule (start stop : Z) (name : list Z)
| TOther (type : Z) (payload : list Z).

Definition pad8 (n : Z) : list Z := replicate (Z.to_nat ((- n) mod 8)) 0.

Definition enc_entry (entry_size : Z) (e : mmap_entry) : list Z :=
  le64 (e_address e) ++ le64 (e_length e) ++ le32 (e_type e) ++ le32 0
  ++ replicate (Z.to_nat (entry_size - 24)) 0.

Definition tag_type (t : mb_tag) : Z :=
  match t with TMemoryMap _ _ _ => 6 | TModule _ _ _ => 3 | TOther ty _ => ty end.

(** What follows the type and size words. *)
Definition tag_body (t : mb_tag) : list Z :=
  match t with
  | TMemoryMap es v entries => le32 es ++ le32 v ++ concat (map (enc_entry es) entries)
  | TModule a b name => le32 a ++ le32 b ++ name ++ [0]
  | TOther _ payload => payload
  end.

Definition tag_size (t : mb_tag) : Z := 8 + blen (tag_body t).

Definition enc_tag (t : mb_tag) : list Z :=
  le32 (tag_type t) ++ le32 (tag_size t) ++ tag_body t ++ pad8 (tag_size t).

Definition end_tag : list Z := le32 0 ++ le32 8.

Definition enc_tags (ts : list mb_tag) : list Z := concat (map enc_tag ts).

Definition enc_info (ts : list mb_tag) : list Z :=
  le32 (16 + blen (enc_tags ts)) ++ le32 0 ++ enc_tags ts ++ end_tag.

Definition entry_ok (e : mmap_entry) : Prop :=
  is_u64 (e_address e) /\ is_u64 (e_length e) /\ is_u32 (e_type e).

(** Well-formed tags; a memory map has at least one entry. *)
Definition tag_ok (t : mb_tag) : Prop :=
  match t with
  | TMemoryMap es v entries =>
      24 <= es < 2 ^ 32 /\ is_u32 v /\ Forall entry_ok entries /\ entries <> []
  | TModule a b name => is_u32 a /\ is_u32 b /\ Forall (fun c => 0 < c < 256) name
  | TOther ty payload => 0 < ty < 2 ^ 32 /\ ty <> 6 /\ ty <> 3
  end.

Lemma tag_size_pos (t : mb_tag) : 8 <= tag_size t.
Proof. unfold tag_size. pose proof (blen_nonneg (tag_body t)). lia. Qed.

Lemma blen_replicate (n : Z) (x : Z) : 0 <= n -> blen (replicate (Z.to_nat n) x) = n.
Proof. intros. unfold blen. rewrite length_replicate. lia. Qed.

(** The rounding of the parsers, [(size + 7) & ~7], is the encoded length. *)
Lemma enc_tag_length (t : mb_tag) :
  blen (enc_tag t) = tag_size t + (- tag_size t) mod 8 /\ blen (enc_tag t) mod 8 = 0.
Proof.
  unfold enc_tag, pad8. rewrite !blen_app, blen_replicate by (apply Z.mod_pos_bound; lia).
  change (blen (le32 _)) with 4. unfold tag_size.
  pose proof (blen_nonneg (tag_body t)). Z.div_mod_to_equations; lia.
Qed.

Lemma enc_entry_length (es : Z) (e : mmap_entry) : 24 <= es -> blen (enc_entry es e) = es.
Proof.
  intros. unfold enc_entry. rewrite !blen_app, blen_replicate by lia.
  change (blen (le64 _)) with 8. change (blen (le32 _)) with 4. lia.
Qed.

Lemma entries_length (es : Z) (l : list mmap_entry) :
  24 <= es -> blen (concat (map (enc_entry es) l)) = es * Z.of_nat (length l).
Proof.
  intros He. induction l as [|e l IH]; [simpl; unfold blen; simpl; lia|].
  cbn [map concat length]. rewrite blen_app, IH, enc_entry_length by done. lia.
Qed.

Lemma round8 (x : Z) : 0 <= x < 2 ^ 32 - 7 ->
  Z.land (u32 (x + 7)) (Z.lnot 7) = x + (- x) mod 8.
Proof.
  intros. rewrite u32_small by lia. change (Z.lnot 7) with (Z.lnot (2 ^ 3 - 1)).
  rewrite land_lnot_ones by lia. change (2 ^ 3) with 8. Z.div_mod_to_equations; lia.
Qed.

Lemma enc_tags_cons (t : mb_tag) (ts : list mb_tag) :
  blen (enc_tags (t :: ts)) = blen (enc_tag t) + blen (enc_tags ts).
Proof. unfold enc_tags. cbn [map concat]. apply blen_app. Qed.

(** Reading the type and size words of an encoded tag. *)
Lemma tag_header (m : memory) (a : Z) (t : mb_tag) (rest : list Z) :
  holds m a (enc_tag t ++ rest) -> is_u32 (tag_type t) -> is_u32 (tag_size t) ->
  rd32 m a = tag_type t /\ rd32 m (a + 4) = tag_size t /\
  holds m (a + 8) (tag_body t) /\ holds m (a + blen (enc_tag t)) rest.
Proof.
  intros H Ht Hs. apply holds_app in H as [H Hr]. unfold enc_tag in H.
  apply holds_app in H as [H1 H]. change (blen (le32 _)) with 4 in H.
  apply holds_app in H as [H2 H]. change (blen (le32 _)) with 4 in H.
  apply holds_app in H as [H3 _]. split_and!; [by apply rd32_holds..| |done].
  by replace (a + 8) with (a + 4 + 4) by lia.
Qed.

Lemma tag_type_u32 (t : mb_tag) : tag_ok t -> is_u32 (tag_type t).
Proof. destruct t; simpl; unfold is_u32; intros; lia. Qed.

Lemma tag_type_nonzero (t : mb_tag) : tag_ok t -> tag_type t <> 0.
Proof. destruct t; simpl; intros; lia. Qed.

(** Reading one entry back. *)
Lemma enc_entry_read (m : memory) (a es : Z) (e : mmap_entry) (rest : list Z) :
  holds m a (enc_entry es e ++ rest) -> entry_ok e -> 24 <= es ->
  rd64 m (a + 8) = e_length e /\ rd32 m (a + 16) = e_type e /\ holds m (a + es) rest.
Proof.
  intros H (Ha & Hl & Ht) He. apply holds_app in H as [H Hr].
  rewrite enc_entry_length in Hr by done. unfold enc_entry in H.
  apply holds_app in H as [_ H]. change (blen (le64 _)) with 8 in H.
  apply holds_app in H as [H1 H]. change (blen (le64 _)) with 8 in H.
  apply holds_app in H as [H2 _]. split_and!; [by apply rd64_holds| |done].
  replace (a + 16) with (a + 8 + 8) by lia. by apply rd32_holds.
Qed.

(** The total size, and where the tags are. *)
Lemma enc_info_total (m : memory) (base : Z) (ts : list mb_tag) :
  holds m base (enc_info ts) -> 16 + blen (enc_tags ts) < 2 ^ 32 ->
  rd32 m base = 16 + blen (enc_tags ts) /\ holds m (base + 8) (enc_tags ts ++ end_tag).
Proof.
  intros H Hlt. unfold enc_info in H. apply holds_app in H as [H1 H].
  change (blen (le32 _)) with 4 in H. apply holds_app in H as [_ H].
  change (blen (le32 _)) with 4 in H. pose proof (blen_nonneg (enc_tags ts)). split.
  - apply rd32_holds; [done|]. unfold is_u32. lia.
  - by replace (base + 8) with (base + 4 + 4) by lia.
Qed.
