(* ===== verification/HeapBoot.v ===== *)
(** * Sizing the heap from the boot information (src/kernel/mm/memory.c)

    multiboot_available_bytes, multiboot_basic_bytes and memory_init.  Loops
    take fuel; [bytes_correct] and [init_correct] give the fuel that is enough
    (the structure's own size), and [empty_map_diverges] exhibits a structure
    on which no amount is. *)

From stdpp Require Import base numbers list gmap.
From Stdlib Require Import ZArith Lia.
From S2P Require Import Prelude Multiboot Heap HeapSpec HeapProof.

(** The inner loop over the entries of a memory-map tag. *)
Fixpoint mmap_loop (fuel : nat) (m : memory) (tag size entry_size position available : Z)
  : outcome Z :=
  match fuel with
  | O => OutOfFuel
  | S fuel =>
    if position <=? u32 (size - entry_size) then
      let length := rd64 m (tag + position + 8) in
      let type := rd32 m (tag + position + 16) in
      let available :=
        if (type =? 1) && (length <=? 2 ^ 64 - 1 - available)
        then available + length else available in
      mmap_loop fuel m tag size entry_size (u32 (position + entry_size)) available
    else Ok available
  end.

Fixpoint available_loop (fuel : nat) (m : memory) (base total_size offset available : Z)
  : outcome Z :=
  match fuel with
  | O => OutOfFuel
  | S fuel' =>
    if offset + 8 <=? total_size then
      let type := rd32 m (base + offset) in
      let size := rd32 m (base + offset + 4) in
      let next := u32 (offset + Z.land (u32 (size + 7)) (Z.lnot 7)) in
      if type =? 0 then Ok available
      else if (size <? 8) || (u32 (total_size - offset) <? size) then Ok available
      else if (type =? 6) && (16 <=? size) then
        let entry_size := rd32 m (base + offset + 8) in
        if entry_size <? 24 then Ok available
        else
          do available <- mmap_loop fuel m (base + offset) size entry_size 16 available;
          available_loop fuel' m base total_size next available
      else available_loop fuel' m base total_size next available
    else Ok available
  end.

Definition multiboot_available_bytes (fuel : nat) (m : memory) (base : Z) : outcome Z :=
  if base =? 0 then Ok 0 else
  let total_size := rd32 m base in
  if total_size <? 16 then Ok 0
  else available_loop fuel m base total_size 8 0.

Fixpoint basic_loop (fuel : nat) (m : memory) (base total_size offset : Z) : outcome Z :=
  match fuel with
  | O => OutOfFuel
  | S fuel =>
    if offset + 8 <=? total_size then
      let type := rd32 m (base + offset) in
      let size := rd32 m (base + offset + 4) in
      if type =? 0 then Ok 0
      else if (size <? 8) || (u32 (total_size - offset) <? size) then Ok 0
      else if (type =? 4) && (16 <=? size) then
        let upper_kib := rd32 m (base + offset + 12) in
        Ok (u64 ((upper_kib + 1024) * 1024))
      else basic_loop fuel m base total_size (u32 (offset + Z.land (u32 (size + 7)) (Z.lnot 7)))
    else Ok 0
  end.

Definition multiboot_basic_bytes (fuel : nat) (m : memory) (base : Z) : outcome Z :=
  if base =? 0 then Ok 0 else basic_loop fuel m base (rd32 m base) 8.

Definition memory_init (fuel : nat) (heap : Z) (m : memory) (address : Z) (s : heap_state)
  : outcome heap_state :=
  do available <- multiboot_available_bytes fuel m address;
  do available <- (if available =? 0 then multiboot_basic_bytes fuel m address else Ok available);
  Ok (heap_init heap available s).

(** ** What the parsers should compute *)

(** Usable bytes of a memory map, dropping an entry that would overflow. *)
Definition add_entry (acc : Z) (e : mmap_entry) : Z :=
  if (e_type e =? 1) && (e_length e <=? 2 ^ 64 - 1 - acc) then acc + e_length e else acc.

Definition add_tag (acc : Z) (t : mb_tag) : Z :=
  match t with
  | TMemoryMap _ _ entries => fold_left add_entry entries acc
  | _ => acc
  end.

Definition usable_bytes (ts : list mb_tag) : Z := fold_left add_tag ts 0.

Lemma add_entry_u64 (acc : Z) (e : mmap_entry) :
  entry_ok e -> is_u64 acc -> is_u64 (add_entry acc e).
Proof.
  intros (_ & He & _) Ha. unfold add_entry, is_u64 in *.
  destruct (_ && _)%bool eqn:E; breflect; lia.
Qed.

Lemma add_entries_u64 (l : list mmap_entry) (acc : Z) :
  Forall entry_ok l -> is_u64 acc -> is_u64 (fold_left add_entry l acc).
Proof. intros H. revert acc. induction H; intros; simpl; auto using add_entry_u64. Qed.

Lemma usable_bytes_u64 (ts : list mb_tag) : Forall tag_ok ts -> is_u64 (usable_bytes ts).
Proof.
  unfold usable_bytes. assert (is_u64 0) as H0 by done. revert H0. generalize 0. intros acc Ha H.
  revert acc Ha. induction H as [|t ts Ht _ IH]; intros acc Ha; simpl; [done|].
  apply IH. destruct t; simpl in *; [|done..]. apply add_entries_u64; tauto.
Qed.

Lemma mmap_loop_spec (m : memory) (tag es : Z) (all l : list mmap_entry) (fuel : nat) (acc : Z) :
  Forall entry_ok l -> 24 <= es -> (length l <= length all)%nat -> all <> [] ->
  16 + es * Z.of_nat (length all) < 2 ^ 32 ->
  let position := 16 + es * (Z.of_nat (length all) - Z.of_nat (length l)) in
  holds m (tag + position) (concat (map (enc_entry es) l)) -> (length l < fuel)%nat ->
  mmap_loop fuel m tag (16 + es * Z.of_nat (length all)) es position acc
  = Ok (fold_left add_entry l acc).
Proof.
  intros Hok Hes Hle Hne Hmax. revert fuel acc Hle.
  induction Hok as [|e l He Hl IH]; intros fuel acc Hle position Hh Hf;
    (destruct fuel as [|fuel]; [simpl in Hf; lia|]); cbn [mmap_loop fold_left].
  - rewrite (u32_small (_ - es)) by (destruct all; [done|cbn [length] in *; nia]).
    rewrite (proj2 (Z.leb_gt _ _)); [done|]. subst position. cbn [length]. nia.
  - cbn [length] in *. assert (0 < Z.of_nat (length all)) by lia.
    rewrite (u32_small (_ - es)) by nia.
    rewrite (proj2 (Z.leb_le _ _)) by (subst position; nia).
    cbn [map concat] in Hh. apply enc_entry_read in Hh as (H1 & H2 & H3); [|done|done].
    rewrite H1, H2. fold (add_entry acc e).
    rewrite u32_small by (subst position; nia).
    replace (position + es)
      with (16 + es * (Z.of_nat (length all) - Z.of_nat (length l))) by (subst position; lia).
    apply IH; [lia| |lia]. replace (tag + _) with (tag + position + es); [done|].
    subst position. lia.
Qed.

(** The tag loop on an encoded list of tags followed by the end tag. *)
Lemma available_loop_spec (m : memory) (base total offset acc : Z) (ts : list mb_tag) (fuel : nat) :
  Forall tag_ok ts -> 8 <= offset -> total = offset + blen (enc_tags ts) + 8 ->
  total < 2 ^ 32 - 8 -> holds m (base + offset) (enc_tags ts ++ end_tag) ->
  blen (enc_tags ts) < Z.of_nat fuel ->
  available_loop fuel m base total offset acc = Ok (fold_left add_tag ts acc).
Proof.
  intros Hok. revert offset acc fuel.
  induction Hok as [|t ts Ht Hts IH]; intros offset acc fuel Ho Htot Hmax Hh Hf.
  - destruct fuel as [|fuel]; [unfold blen in Hf; simpl in Hf; lia|].
    cbn [available_loop]. unfold blen in Htot. simpl in Htot.
    rewrite (proj2 (Z.leb_le _ _)) by lia.
    cbn [enc_tags map concat app] in Hh. unfold end_tag in Hh. apply holds_app in Hh as [Hh _].
    rewrite (rd32_holds _ _ _ Hh) by done. done.
  - rewrite enc_tags_cons in *. pose proof (tag_size_pos t).
    destruct (enc_tag_length t) as [Hlen Hmod].
    pose proof (blen_nonneg (enc_tags ts)). pose proof (Z.mod_pos_bound (- tag_size t) 8 ltac:(lia)).
    destruct fuel as [|fuel]; [lia|]. cbn [available_loop].
    rewrite (proj2 (Z.leb_le _ _)) by lia.
    unfold enc_tags in Hh. cbn [map concat] in Hh. rewrite <- app_assoc in Hh.
    apply tag_header in Hh as (-> & -> & Hbody & Hrest);
      [|by apply tag_type_u32|unfold is_u32; lia].
    rewrite (proj2 (Z.eqb_neq _ _) (tag_type_nonzero t Ht)).
    rewrite (u32_small (total - offset)) by lia.
    rewrite (proj2 (Z.ltb_ge _ _)), (proj2 (Z.ltb_ge _ _)) by lia. cbn [orb].
    rewrite round8, <- Hlen, u32_small by lia. cbn [fold_left].
    assert (forall acc', available_loop fuel m base total (offset + blen (enc_tag t)) acc'
      = Ok (fold_left add_tag ts acc')) as Hnext.
    { intros acc'. apply IH; [lia|lia|done| |lia]. by rewrite Z.add_assoc. }
    destruct t as [es v entries|a b name|ty payload]; cbn [tag_type add_tag].
    + destruct Ht as (Hes & Hv & He & Hne). unfold tag_size in *. cbn [tag_body] in *.
      rewrite !blen_app, entries_length in * by lia. change (blen (le32 _)) with 4 in *.
      replace (8 + (4 + (4 + es * Z.of_nat (length entries))))
        with (16 + es * Z.of_nat (length entries)) in * by lia.
      rewrite (proj2 (Z.leb_le 16 _)) by nia. cbn [Z.eqb Pos.eqb andb].
      apply holds_app in Hbody as [Hw Hbody]. apply holds_app in Hbody as [_ Hbody].
      change (blen (le32 _)) with 4 in Hbody.
      rewrite (rd32_holds _ _ _ Hw), (proj2 (Z.ltb_ge es 24)) by (unfold is_u32; lia).
      pose proof (mmap_loop_spec m (base + offset) es entries entries (S fuel) acc He) as Hm.
      cbv zeta in Hm. rewrite Z.sub_diag, Z.mul_0_r, Z.add_0_r in Hm. rewrite Hm; [apply Hnext|..]; try done.
      * lia.
      * lia.
      * by replace (base + offset + 16) with (base + offset + 8 + 4 + 4) by lia.
      * nia.
    + cbn [Z.eqb Pos.eqb andb]. apply Hnext.
    + rewrite (proj2 (Z.eqb_neq ty 6)) by (simpl in Ht; lia). cbn [andb]. apply Hnext.
Qed.

Lemma available_spec (m : memory) (base : Z) (ts : list mb_tag) (fuel : nat) :
  base <> 0 -> Forall tag_ok ts -> 16 + blen (enc_tags ts) < 2 ^ 32 - 8 ->
  holds m base (enc_info ts) -> blen (enc_info ts) <= Z.of_nat fuel ->
  multiboot_available_bytes fuel m base = Ok (usable_bytes ts).
Proof.
  intros Hb Hok Hlt Hh Hf. apply enc_info_total in Hh as [Ht Hh]; [|lia].
  pose proof (blen_nonneg (enc_tags ts)).
  unfold multiboot_available_bytes. rewrite (proj2 (Z.eqb_neq base 0)) by done. rewrite Ht.
  rewrite (proj2 (Z.ltb_ge _ 16)) by lia.
  apply available_loop_spec; [done|lia|lia|lia|done|].
  unfold enc_info in Hf. rewrite !blen_app in Hf. change (blen (le32 _)) with 4 in Hf.
  change (blen end_tag) with 8 in Hf. lia.
Qed.

(** ** Properties *)

(** On every well-formed boot structure whose memory map is not empty,
    memory_init returns and sizes the heap from the usable memory: the
    reported total is the sum of the available ranges, the array is used up to
    an eighth of it but never more than 2 MiB and in whole 16-byte units, and
    the resulting heap is one free block. *)
Theorem memory_init_correct (fuel : nat) (heap : Z) (m : memory) (address : Z)
    (ts : list mb_tag) (s : heap_state) :
  0 < heap -> address <> 0 -> Forall tag_ok ts -> 16 + blen (enc_tags ts) < 2 ^ 32 - 8 ->
  holds m address (enc_info ts) -> blen (enc_info ts) <= Z.of_nat fuel ->
  0 < usable_bytes ts ->
  exists s', memory_init fuel heap m address s = Ok s'
    /\ wf heap s' (init_blocks heap (usable_bytes ts))
    /\ memory_total_kib s' = usable_bytes ts / 1024
    /\ heap_bytes s' = Z.min (usable_bytes ts / 8) HEAP_MAX_BYTES / 16 * 16
    /\ memory_used_bytes s' = 0.
Proof.
  intros Hheap Ha Hok Hlt Hh Hf Hu. pose proof (usable_bytes_u64 ts Hok) as H64.
  unfold memory_init. rewrite (available_spec m address ts) by done. cbn [obind].
  rewrite (proj2 (Z.eqb_neq _ _)) by lia. cbn [obind]. eexists. split; [reflexivity|].
  pose proof (heap_init_wf heap s _ H64) as Hwf. split; [done|].
  unfold heap_init in *. cbv zeta in *.
  set (hb0 := if (z2b (usable_bytes ts) && _)%bool then _ else HEAP_MAX_BYTES) in *.
  assert (hb0 = Z.min (usable_bytes ts / 8) HEAP_MAX_BYTES) as Hhb.
  { subst hb0. unfold z2b. rewrite (proj2 (Z.eqb_neq _ _)) by lia. cbn [negb andb].
    destruct (_ <? _) eqn:E; breflect; lia. }
  assert (Z.land hb0 (Z.lnot (ALIGNMENT - 1)) = hb0 / 16 * 16) as Hr.
  { change (ALIGNMENT - 1) with (2 ^ 4 - 1). rewrite land_lnot_ones by lia.
    change (2 ^ 4) with 16. Z.div_mod_to_equations; lia. }
  rewrite Hr, Hhb in *. destruct (_ <=? SIZEOF_BLOCK + MIN_PAYLOAD); simpl; done.
Qed.

Lemma mmap_loop_diverges (fuel : nat) (m : memory) (tag position acc : Z) :
  position mod 8 = 0 -> 0 <= position < 2 ^ 32 ->
  mmap_loop fuel m tag 16 24 position acc = OutOfFuel.
Proof.
  revert position acc. induction fuel as [|fuel IH]; intros position acc Hm Hr; [done|].
  cbn [mmap_loop]. change (u32 (16 - 24)) with (2 ^ 32 - 8).
  rewrite (proj2 (Z.leb_le _ _)) by (Z.div_mod_to_equations; lia).
  apply IH; unfold u32; Z.div_mod_to_equations; lia.
Qed.

(** The entry loop does not terminate on a memory map with no entries: the
    bound [tag->size - map->entry_size] wraps around, so the parser walks the
    whole address space forever, whatever the rest of memory holds. *)
Theorem empty_map_diverges (fuel : nat) (m : memory) (base : Z) (ts : list mb_tag) :
  base <> 0 -> Forall tag_ok ts ->
  24 + blen (enc_tags (TMemoryMap 24 0 [] :: ts)) < 2 ^ 32 ->
  holds m base (enc_info (TMemoryMap 24 0 [] :: ts)) ->
  multiboot_available_bytes fuel m base = OutOfFuel.
Proof.
  intros Hb Hok Hlt Hh. apply enc_info_total in Hh as [Ht Hh]; [|lia].
  rewrite enc_tags_cons in *. pose proof (blen_nonneg (enc_tags ts)).
  change (blen (enc_tag (TMemoryMap 24 0 []))) with 16 in *.
  unfold multiboot_available_bytes. rewrite (proj2 (Z.eqb_neq base 0)) by done. rewrite Ht.
  rewrite (proj2 (Z.ltb_ge _ 16)) by lia. destruct fuel as [|fuel]; [done|].
  cbn [available_loop]. rewrite (proj2 (Z.leb_le _ _)) by lia.
  unfold enc_tags in Hh. cbn [map concat] in Hh. rewrite <- app_assoc in Hh.
  apply tag_header in Hh as (-> & -> & Hbody & _); [|done|done].
  change (tag_type (TMemoryMap 24 0 [])) with 6. change (tag_size (TMemoryMap 24 0 [])) with 16.
  rewrite (u32_small (16 + _ - 8)) by lia.
  rewrite (proj2 (Z.ltb_ge (_ - 8) 16)) by lia. cbn [Z.eqb Pos.eqb Z.ltb Z.compare Pos.compare Pos.compare_cont orb andb Z.leb].
  cbn [tag_body] in Hbody. apply holds_app in Hbody as [Hes _].
  rewrite (rd32_holds _ _ _ Hes) by done. cbn [Z.ltb Z.compare Pos.compare Pos.compare_cont].
  by rewrite mmap_loop_diverges.
Qed.

(** ** Witnesses *)

(** A memory that holds the given bytes from address 0x1000 on. *)
Definition mem_of (bs : list Z) : memory := fun a => nth (Z.to_nat (a - 0x1000)) bs 0.

Definition demo_tags : list mb_tag :=
  [TOther 1 [0x6f; 0x73; 0]; TMemoryMap 24 0 [Entry 0 0x9fc00 1; Entry 0x100000 0x7ee0000 1; Entry 0xfffc0000 0x40000 2]].

Lemma demo_holds : holds (mem_of (enc_info demo_tags)) 0x1000 (enc_info demo_tags).
Proof. vm_compute. repeat split. Qed.

Lemma memory_init_witness :
  exists s', memory_init 200 0x200000 (mem_of (enc_info demo_tags)) 0x1000 (HeapState 0 0 0 0 0 ∅ ∅)
    = Ok s' /\ heap_bytes s' = 2097152.
Proof.
  destruct (memory_init_correct 200 0x200000 (mem_of (enc_info demo_tags)) 0x1000 demo_tags
    (HeapState 0 0 0 0 0 ∅ ∅)) as (s' & H & _ & _ & Hb & _); try done.
  - repeat constructor; try done.
  - exists s'. split; [exact H|exact Hb].
Defined.

Lemma empty_map_witness :
  multiboot_available_bytes 50 (mem_of (enc_info [TMemoryMap 24 0 []])) 0x1000 = OutOfFuel.
Proof.
  by apply (empty_map_diverges 50 _ 0x1000 []).
Defined.
