(* ===== verification/Display.v ===== *)
(** * The console as its callers see it (src/kernel/drivers/display/display.c)

    Kernel code writes through display_putc, display_puts, display_number,
    display_color and display_clear.  A caller's effect on the console is the
    sequence of these calls; display_puts and display_number are loops over
    display_putc. *)

From stdpp Require Import base numbers list.
From Stdlib Require Import ZArith Lia.
From S2P Require Import Prelude.

Inductive display_call :=
| Putc (c : Z)
| Color (c : Z)
| Clear.

Definition display_puts (s : list Z) : list display_call := map Putc s.
Definition display_number (n : Z) : list display_call := map Putc (decimal n).

(** The characters of a sequence of calls. *)
Fixpoint shown (cs : list display_call) : list Z :=
  match cs with
  | [] => []
  | Putc c :: cs => c :: shown cs
  | _ :: cs => shown cs
  end.

Lemma shown_app (a b : list display_call) : shown (a ++ b) = shown a ++ shown b.
Proof. induction a as [|[c|c|] a IH]; simpl; by rewrite ?IH. Qed.

Lemma shown_puts (s : list Z) : shown (map Putc s) = s.
Proof. induction s; simpl; congruence. Qed.

Create Rewrite HintDb display.

#[export] Hint Rewrite shown_app shown_puts : display.
