(* ===== verification/Log.v ===== *)
(** * The kernel log (src/kernel/drivers/display/log.c)

    A ring of [LOG_MAX_ENTRIES] entries of fixed-size messages.  The clock
    (timed_monotonic_ns) is an argument of log_submit.  [log_reads_last]
    refines the ring to the plain list of everything that was submitted. *)

From stdpp Require Import base numbers list strings.
From Stdlib Require Import ZArith Lia.
From S2P Require Import Prelude Display.

Definition LOG_DEBUG : Z := 0.
Definition LOG_INFO : Z := 1.
Definition LOG_WARN : Z := 2.
Definition LOG_ERROR : Z := 3.
Definition LOG_MAX_ENTRIES : nat := 64.
Definition LOG_MSG_SIZE : nat := 56.

Definition level_names : list (list Z) := [text "DEBUG"; text "INFO "; text "WARN "; text "ERROR"].

(** [subsystem] is the caller's string; [msg] is the entry's own 56 bytes. *)
Record log_entry_t := LogEntry {
  timestamp : Z;
  level : Z;
  subsystem : list Z;
  msg : list Z
}.

Record log_state := LogState {
  log_initialized : bool;
  buffer : list log_entry_t;
  head : nat;
  count : nat;
  current_level : Z
}.

(** The static variables before log_init. *)
Definition log_static : log_state :=
  LogState false (replicate LOG_MAX_ENTRIES (LogEntry 0 0 [] (replicate LOG_MSG_SIZE 0))) 0 0 0.

Definition inc (v : nat) : nat := ((v + 1) mod LOG_MAX_ENTRIES)%nat.

(** [while (msg[i] && i + 1 < LOG_MSG_SIZE) { e->msg[i] = msg[i]; i++; } e->msg[i] = 0;]
    run on the bytes the entry already holds; [fuel] bounds the index. *)
Fixpoint copy_msg (fuel : nat) (i : nat) (src dst : list Z) : list Z :=
  match fuel with
  | O => <[i := 0]> dst
  | S fuel =>
    if z2b (char_at src i) && (Nat.ltb (i + 1) LOG_MSG_SIZE)
    then copy_msg fuel (i + 1) src (<[i := char_at src i]> dst)
    else <[i := 0]> dst
  end.

Definition log_submit (now lv : Z) (sub m : list Z) (s : log_state) : log_state :=
  if lv <? current_level s then s else
  let old := nth (head s) (buffer s) (LogEntry 0 0 [] (replicate LOG_MSG_SIZE 0)) in
  let e := LogEntry now lv sub (copy_msg LOG_MSG_SIZE 0 m (msg old)) in
  LogState (log_initialized s) (<[head s := e]> (buffer s)) (inc (head s))
    (if Nat.ltb (count s) LOG_MAX_ENTRIES then S (count s) else count s) (current_level s).

Definition log_init (now : Z) (s : log_state) : log_state :=
  log_submit now LOG_INFO (text "logd") (text "logging service initialized")
    (LogState true (buffer s) 0 0 LOG_DEBUG).

(** [None] is the return value 0; the strings are read out of the buffers. *)
Definition log_read (index : nat) (s : log_state) : option (Z * Z * list Z * list Z) :=
  if Nat.leb (count s) index then None else
  let pos := if Nat.ltb (count s) LOG_MAX_ENTRIES then index
             else ((head s + index) mod LOG_MAX_ENTRIES)%nat in
  match buffer s !! pos with
  | Some e => Some (timestamp e, level e, subsystem e, cstring (msg e))
  | None => None
  end.

Definition log_count (s : log_state) : nat := count s.
Definition log_level (s : log_state) : Z := current_level s.
Definition log_set_level (lv : Z) (s : log_state) : log_state :=
  LogState (log_initialized s) (buffer s) (head s) (count s) lv.
Definition log_poll (s : log_state) : log_state := s.

(** One line of log_dump. *)
Definition dump_line (ts lv : Z) (sub m : list Z) : list display_call :=
  let sec := ts / 1000000000 in
  let ms := (ts mod 1000000000) / 1000000 in
  let l := if (0 <=? lv) && (lv <=? 3) then lv else 1 in
  [Color 0x07] ++ display_number sec ++ [Putc 46]
  ++ (if ms <? 100 then [Putc 48] else []) ++ (if ms <? 10 then [Putc 48] else [])
  ++ display_number ms ++ [Putc 32] ++ [Putc 91]
  ++ [Color (if 2 <=? l then 0x0c else if l =? 1 then 0x07 else 0x08)]
  ++ display_puts (nth (Z.to_nat l) level_names []) ++ [Color 0x07]
  ++ display_puts (text "] ") ++ display_puts sub ++ display_puts (text ": ")
  ++ display_puts m ++ [Putc 10].

Fixpoint dump_from (n i : nat) (s : log_state) : list display_call :=
  match n with
  | O => []
  | S n =>
    match log_read i s with
    | Some (ts, lv, sub, m) => dump_line ts lv sub m
    | None => []
    end ++ dump_from n (S i) s
  end.

Definition log_dump (s : log_state) : list display_call := dump_from (count s) 0 s.

(** ** The message copy *)

Lemma copy_msg_length (fuel i : nat) (src dst : list Z) :
  length (copy_msg fuel i src dst) = length dst.
Proof.
  revert i dst. induction fuel as [|fuel IH]; intros i dst; simpl; [apply length_insert|].
  destruct (_ && _)%bool; rewrite ?IH; apply length_insert.
Qed.

Lemma copy_msg_spec (fuel i : nat) (src dst : list Z) :
  is_cstr src -> length dst = LOG_MSG_SIZE -> (i < LOG_MSG_SIZE)%nat ->
  (LOG_MSG_SIZE <= i + fuel)%nat -> (i <= length src)%nat -> take i dst = take i src ->
  cstring (copy_msg fuel i src dst) = bounded LOG_MSG_SIZE src.
Proof.
  intros Hs. revert i dst. induction fuel as [|fuel IH]; intros i dst Hd Hi Hf Hl Ht; [lia|].
  cbn [copy_msg]. destruct (z2b (char_at src i)) eqn:Hz; cbn [andb].
  - assert (i < length src)%nat as Hlt.
    { destruct (Nat.lt_ge_cases i (length src)); [done|].
      unfold char_at in Hz. by rewrite nth_overflow in Hz. }
    assert (src !! i = Some (char_at src i)) as Hsi.
    { apply lookup_lt_is_Some_2 in Hlt as [c Hc]. rewrite Hc. f_equal. unfold char_at.
      symmetry. by apply nth_lookup_Some. }
    destruct (Nat.ltb_spec (i + 1) LOG_MSG_SIZE) as [Hb|Hb].
    + apply IH; rewrite ?length_insert; try lia.
      rewrite !Nat.add_1_r. rewrite (take_S_r src i _ Hsi).
      rewrite (take_S_r _ i (char_at src i)) by (apply list_lookup_insert_eq; lia).
      by rewrite take_insert_ge, Ht by lia.
    + assert (i = 55)%nat as -> by (unfold LOG_MSG_SIZE in *; lia).
      unfold bounded. change (pred LOG_MSG_SIZE) with 55%nat. rewrite insert_take_drop by lia.
      rewrite Ht. apply cstring_app_nul. by apply Forall_take.
  - assert (i = length src) as ->.
    { destruct (decide (i = length src)) as [|Hne]; [done|].
      assert (i < length src)%nat as Hlt by lia. unfold z2b, char_at in Hz. breflect.
      apply lookup_lt_is_Some_2 in Hlt as [c Hc]. rewrite (nth_lookup_Some _ _ _ _ Hc) in Hz.
      eapply Forall_lookup_1 in Hc; [|exact Hs]. simpl in Hc. lia. }
    rewrite insert_take_drop, Ht, take_ge by lia. rewrite cstring_app_nul by done.
    unfold bounded. rewrite take_ge by lia. done.
Qed.

(** ** The ring as a list *)

(** What was accepted so far, oldest first, as log_read reports it. *)
#[local] Abbreviation item := (Z * Z * list Z * list Z)%type.

Definition stored (now lv : Z) (sub m : list Z) : item := (now, lv, sub, bounded LOG_MSG_SIZE m).

Definition read_entry (e : log_entry_t) : item := (timestamp e, level e, subsystem e, cstring (msg e)).

(** The ring holds the last [LOG_MAX_ENTRIES] items of the history [h]: slot
    [k mod 64] holds item [k]. *)
Record ring (s : log_state) (h : list item) : Prop := {
  ring_length : length (buffer s) = LOG_MAX_ENTRIES;
  ring_msgs : Forall (fun e => length (msg e) = LOG_MSG_SIZE) (buffer s);
  ring_head : head s = (length h mod LOG_MAX_ENTRIES)%nat;
  ring_count : count s = Nat.min (length h) LOG_MAX_ENTRIES;
  ring_slots : forall k x, h !! k = Some x -> (length h <= k + LOG_MAX_ENTRIES)%nat ->
    read_entry <$> (buffer s !! (k mod LOG_MAX_ENTRIES)%nat) = Some x
}.

Lemma ring_reset (s : log_state) (h : list item) (i : bool) (lv : Z) :
  ring s h -> ring (LogState i (buffer s) 0 0 lv) [].
Proof. intros [Hl Hm _ _ _]. constructor; try done. Qed.

Lemma slots_distinct (k n : nat) :
  (k < n)%nat -> (n < k + LOG_MAX_ENTRIES)%nat ->
  (k mod LOG_MAX_ENTRIES <> n mod LOG_MAX_ENTRIES)%nat.
Proof.
  unfold LOG_MAX_ENTRIES. intros H1 H2 E.
  pose proof (Nat.div_mod_eq k 64). pose proof (Nat.div_mod_eq n 64). lia.
Qed.

(** One accepted message extends the history by one item. *)
Lemma log_submit_ring (now lv : Z) (sub m : list Z) (s : log_state) (h : list item) :
  ring s h -> is_cstr m ->
  ring (log_submit now lv sub m s)
    (if lv <? current_level s then h else h ++ [stored now lv sub m]).
Proof.
  intros Hr Hm. unfold log_submit. destruct (lv <? current_level s); [done|].
  destruct Hr as [Hl Hms Hh Hc Hs].
  assert (head s < LOG_MAX_ENTRIES)%nat as Hlt by (rewrite Hh; apply Nat.mod_upper_bound; done).
  set (old := nth (head s) (buffer s) _).
  assert (length (msg old) = LOG_MSG_SIZE) as Hold.
  { destruct (lookup_lt_is_Some_2 (buffer s) (head s)) as [e He]; [lia|].
    unfold old. rewrite (nth_lookup_Some _ _ _ _ He).
    eapply Forall_lookup_1 in Hms; [|exact He]. done. }
  set (e := LogEntry now lv sub _).
  assert (read_entry e = stored now lv sub m) as He.
  { unfold read_entry, stored, e. cbn [timestamp level subsystem msg].
    rewrite copy_msg_spec; try done; unfold LOG_MSG_SIZE; lia. }
  assert (length (msg e) = LOG_MSG_SIZE) as Hme by (unfold e; cbn [msg]; by rewrite copy_msg_length).
  clearbody e old.
  constructor; cbn [buffer head count]; rewrite ?length_app, ?length_insert; cbn [length].
  - done.
  - by apply Forall_insert.
  - unfold inc. rewrite Hh. rewrite Nat.Div0.add_mod_idemp_l. done.
  - rewrite Hc. unfold LOG_MAX_ENTRIES. destruct (Nat.ltb_spec (Nat.min (length h) 64) 64); lia.
  - intros k x Hk Hrec. apply lookup_app_Some in Hk as [Hk|[Hk1 Hk]].
    + pose proof (lookup_lt_Some _ _ _ Hk). rewrite list_lookup_insert_ne.
      * apply Hs; [done|lia].
      * rewrite Hh. apply not_eq_sym, slots_distinct; lia.
    + destruct (k - length h)%nat as [|j] eqn:E; [|by destruct j]. simpl in Hk. simplify_eq.
      assert (k = length h) as -> by lia. rewrite <- Hh, list_lookup_insert_eq by lia.
      simpl. by rewrite He.
Qed.

(** Reading the ring is indexing the last items of the history. *)
Lemma log_read_ring (s : log_state) (h : list item) (i : nat) :
  ring s h -> log_read i s = drop (length h - count s) h !! i.
Proof.
  intros [Hl Hms Hh Hc Hs]. unfold log_read. rewrite lookup_drop.
  destruct (Nat.leb_spec (count s) i) as [Hi|Hi].
  { symmetry. apply lookup_ge_None_2. lia. }
  set (k := (length h - count s + i)%nat).
  destruct (lookup_lt_is_Some_2 h k) as [x Hx]; [unfold k; lia|].
  rewrite Hx. assert (length h <= k + LOG_MAX_ENTRIES)%nat as Hk by (unfold k; lia).
  pose proof (Hs k x Hx Hk) as Hslot.
  assert ((if Nat.ltb (count s) LOG_MAX_ENTRIES then i
           else (head s + i) mod LOG_MAX_ENTRIES) = k mod LOG_MAX_ENTRIES)%nat as ->.
  { destruct (Nat.ltb_spec (count s) LOG_MAX_ENTRIES) as [Hlt|Hge].
    - unfold k. assert (length h = count s) as -> by lia.
      rewrite Nat.sub_diag, Nat.mod_small by lia. done.
    - assert (count s = LOG_MAX_ENTRIES) as Hcm by lia. unfold k. rewrite Hh, Hcm.
      rewrite Nat.Div0.add_mod_idemp_l. assert (LOG_MAX_ENTRIES <= length h)%nat by lia.
      replace (length h + i)%nat
        with (length h - LOG_MAX_ENTRIES + i + 1 * LOG_MAX_ENTRIES)%nat by lia.
      by rewrite Nat.Div0.mod_add. }
  destruct (buffer s !! _) as [e|]; simpl in Hslot; [|done]. by simplify_eq/=.
Qed.

(** ** Sequences of operations *)

Inductive log_op :=
| OInit (now : Z)
| OSubmit (now lv : Z) (sub m : list Z)
| OSetLevel (lv : Z).

Definition op_ok (o : log_op) : Prop :=
  match o with OSubmit _ _ _ m => is_cstr m | _ => True end.

Definition run_op (o : log_op) (s : log_state) : log_state :=
  match o with
  | OInit now => log_init now s
  | OSubmit now lv sub m => log_submit now lv sub m s
  | OSetLevel lv => log_set_level lv s
  end.

(** The abstract log: the level in force and every item accepted since the
    last initialisation. *)
Definition spec_op (o : log_op) (a : Z * list item) : Z * list item :=
  let '(cur, h) := a in
  match o with
  | OInit now => (LOG_DEBUG, [stored now LOG_INFO (text "logd") (text "logging service initialized")])
  | OSubmit now lv sub m => if lv <? cur then a else (cur, h ++ [stored now lv sub m])
  | OSetLevel lv => (lv, h)
  end.

Lemma run_op_ring (o : log_op) (s : log_state) (h : list item) :
  ring s h -> op_ok o ->
  ring (run_op o s) (snd (spec_op o (current_level s, h))) /\
  current_level (run_op o s) = fst (spec_op o (current_level s, h)).
Proof.
  intros Hr Ho. destruct o as [now|now lv sub m|lv]; simpl in *.
  - split; [|done]. unfold log_init.
    apply (log_submit_ring now LOG_INFO (text "logd") (text "logging service initialized")
      (LogState true (buffer s) 0 0 LOG_DEBUG) []).
    + by apply (ring_reset s h).
    + by apply text_is_cstr_dec.
  - pose proof (log_submit_ring now lv sub m s h Hr Ho) as H.
    unfold log_submit in *. destruct (lv <? current_level s); by split.
  - destruct Hr as [H1 H2 H3 H4 H5]. by split.
Qed.

Lemma run_ops_ring (os : list log_op) (s : log_state) (h : list item) :
  ring s h -> Forall op_ok os ->
  ring (fold_left (fun s o => run_op o s) os s)
    (snd (fold_left (fun a o => spec_op o a) os (current_level s, h))).
Proof.
  intros Hr Hos. revert s h Hr. induction Hos as [|o os Ho _ IH]; intros s h Hr; [done|].
  cbn [fold_left]. destruct (run_op_ring o s h Hr Ho) as [Hr' Hl'].
  specialize (IH _ _ Hr'). by rewrite Hl', <- surjective_pairing in IH.
Qed.

Lemma static_ring : ring log_static [].
Proof.
  constructor; try done. by apply Forall_replicate.
Qed.

(** C11. The ring refines the list of submissions: after any sequence of
    initialisations, submissions and level changes, log_read returns exactly
    the last 64 accepted messages since the last initialisation, oldest first
    and each cut to 55 characters, and nothing beyond; log_count is how many
    that is. *)
Theorem log_reads_last (os : list log_op) (i : nat) :
  Forall op_ok os ->
  let s := fold_left (fun s o => run_op o s) os log_static in
  let h := snd (fold_left (fun a o => spec_op o a) os (0, [])) in
  log_read i s = drop (length h - LOG_MAX_ENTRIES) h !! i
  /\ log_count s = Nat.min (length h) LOG_MAX_ENTRIES.
Proof.
  intros Hos s h. pose proof (run_ops_ring os log_static [] static_ring Hos) as Hr.
  fold s in Hr. change (current_level log_static) with 0 in Hr. fold h in Hr.
  split; [|apply (ring_count _ _ Hr)].
  rewrite (log_read_ring s h i Hr), (ring_count _ _ Hr). do 2 f_equal. lia.
Qed.

Lemma log_reads_last_witness :
  log_read 1 (fold_left (fun s o => run_op o s)
    [OInit 5; OSubmit 7 LOG_WARN (text "disk") (text "slow")] log_static)
  = Some (7, 2, text "disk", text "slow").
Proof.
  pose proof (log_reads_last [OInit 5; OSubmit 7 LOG_WARN (text "disk") (text "slow")] 1) as H.
  destruct H as [H _]; [repeat constructor; by apply text_is_cstr_dec|].
  rewrite H. vm_compute. reflexivity.
Defined.

(** The decimal digits of a number below 1000, padded as log_dump pads them. *)
Lemma ms_three_digits (ms : Z) :
  0 <= ms < 1000 ->
  length ((if ms <? 100 then [48] else []) ++ (if ms <? 10 then [48] else []) ++ decimal ms) = 3%nat
  /\ decimal_value ((if ms <? 100 then [48] else []) ++ (if ms <? 10 then [48] else []) ++ decimal ms)
     = ms.
Proof.
  intros H.
  assert (Forall (fun n : nat =>
    let ms := Z.of_nat n in let t := (if ms <? 100 then [48] else []) ++ (if ms <? 10 then [48] else []) ++ decimal ms in
    length t = 3%nat /\ decimal_value t = ms) (seq 0 1000)) as Hall.
  { apply Forall_forall. intros n Hn. revert n Hn.
    assert (forallb (fun n : nat =>
      let ms := Z.of_nat n in let t := (if ms <? 100 then [48] else []) ++ (if ms <? 10 then [48] else []) ++ decimal ms in
      Nat.eqb (length t) 3 && (decimal_value t =? ms)) (seq 0 1000) = true) as Hb by (vm_compute; reflexivity).
    rewrite forallb_forall in Hb. intros n Hn. apply list_elem_of_In in Hn.
    specialize (Hb n Hn). cbv zeta in *. apply andb_true_iff in Hb as [H1 H2].
    apply Nat.eqb_eq in H1. apply Z.eqb_eq in H2. done. }
  rewrite Forall_forall in Hall. specialize (Hall (Z.to_nat ms)). rewrite Z2Nat.id in Hall by lia.
  apply Hall. apply elem_of_seq. lia.
Qed.

(** The text log_dump should print for one retained message. *)
Definition line_text (x : item) : list Z :=
  let '(ts, lv, sub, m) := x in
  let ms := (ts mod 1000000000) / 1000000 in
  decimal (ts / 1000000000) ++ text "."
  ++ ((if ms <? 100 then [48] else []) ++ (if ms <? 10 then [48] else []) ++ decimal ms)
  ++ text " [" ++ nth (Z.to_nat (if (0 <=? lv) && (lv <=? 3) then lv else 1)) level_names []
  ++ text "] " ++ sub ++ text ": " ++ m ++ [10].

Lemma shown_dump_line (ts lv : Z) (sub m : list Z) :
  shown (dump_line ts lv sub m) = line_text (ts, lv, sub, m).
Proof.
  unfold dump_line, display_number, display_puts, line_text.
  repeat (rewrite shown_app || rewrite shown_puts).
  destruct (_ <? 100), (_ <? 10); cbn [shown app]; rewrite ?app_nil_l, <- ?app_assoc; done.
Qed.

Lemma shown_dump_from (s : log_state) (h : list item) (n i : nat) :
  ring s h -> (i + n = count s)%nat ->
  shown (dump_from n i s) = concat (map line_text (drop i (drop (length h - count s) h))).
Proof.
  intros Hr. revert i. induction n as [|n IH]; intros i Hi; cbn [dump_from].
  - rewrite drop_ge; [done|]. rewrite length_drop. pose proof (ring_count _ _ Hr). lia.
  - rewrite shown_app, IH by lia. rewrite (log_read_ring s h i Hr).
    assert (i < length (drop (length h - count s) h))%nat as Hlt.
    { rewrite length_drop. pose proof (ring_count _ _ Hr). lia. }
    apply lookup_lt_is_Some_2 in Hlt as [x Hx]. rewrite Hx, (drop_S _ x i Hx).
    destruct x as [[[ts lv] sub] m]. cbn [map concat]. by rewrite shown_dump_line.
Qed.

(** log_dump prints every retained message on its own line, oldest first,
    as SECONDS.MMM [LEVEL] subsystem: message; the seconds read back as the
    whole seconds of the time stamp and the fraction is always three digits
    that read back as its milliseconds. *)
Theorem log_dump_lines (os : list log_op) :
  Forall op_ok os ->
  let s := fold_left (fun s o => run_op o s) os log_static in
  let h := snd (fold_left (fun a o => spec_op o a) os (0, [])) in
  shown (log_dump s) = concat (map line_text (drop (length h - LOG_MAX_ENTRIES) h))
  /\ forall ts, is_u64 ts ->
       let ms := (ts mod 1000000000) / 1000000 in
       let frac := (if ms <? 100 then [48] else []) ++ (if ms <? 10 then [48] else []) ++ decimal ms in
       decimal_value (decimal (ts / 1000000000)) = ts / 1000000000
       /\ length frac = 3%nat /\ decimal_value frac = ms.
Proof.
  intros Hos s h. pose proof (run_ops_ring os log_static [] static_ring Hos) as Hr.
  fold s in Hr. change (current_level log_static) with 0 in Hr. fold h in Hr. split.
  - unfold log_dump. rewrite (shown_dump_from s h _ 0 Hr) by lia. rewrite drop_0.
    rewrite (ring_count _ _ Hr). do 3 f_equal. lia.
  - intros ts Hts ms frac. unfold is_u64 in Hts. split.
    + apply decimal_roundtrip. unfold is_u64. Z.div_mod_to_equations; lia.
    + apply ms_three_digits. unfold ms. Z.div_mod_to_equations; lia.
Qed.

Lemma log_dump_witness :
  shown (log_dump (fold_left (fun s o => run_op o s)
    [OInit 1002003004; OSetLevel LOG_WARN; OSubmit 0 LOG_INFO (text "x") (text "dropped")] log_static))
  = text "1.002 [INFO ] logd: logging service initialized" ++ [10].
Proof.
  destruct (log_dump_lines
    [OInit 1002003004; OSetLevel LOG_WARN; OSubmit 0 LOG_INFO (text "x") (text "dropped")]) as [H _].
  - repeat constructor; by apply text_is_cstr_dec.
  - rewrite H. vm_compute. reflexivity.
Defined.
