(* ===== verification/Service.v ===== *)
(** * The service manager (src/kernel/core/service.c)

    Ten cooperative services, each a small state machine, with a dependency
    per service.  What the manager calls in other subsystems is the class
    [ServiceEnv] over an environment state [E]; start_boot_services of
    src/kernel/core/kernel.c is the client that brings the system up. *)

From stdpp Require Import base numbers list strings.
From Stdlib Require Import ZArith Lia.
From S2P Require Import Prelude.

Inductive service_state_t := SERVICE_STOPPED | SERVICE_STARTING | SERVICE_READY | SERVICE_FAILED.

#[export] Instance service_state_t_eq_dec : EqDecision service_state_t.
Proof. solve_decision. Defined.

Record service_t := Svc {
  name : list Z;
  description : list Z;
  dependency : Z;
  state : service_state_t;
  exit_code : Z;
  generation : Z;
  cycles : Z;
  errors : Z;
  metric : Z
}.

Definition with_state (v : service_state_t) (s : service_t) : service_t :=
  Svc (name s) (description s) (dependency s) v (exit_code s) (generation s) (cycles s) (errors s) (metric s).
Definition with_exit (v : Z) (s : service_t) : service_t :=
  Svc (name s) (description s) (dependency s) (state s) v (generation s) (cycles s) (errors s) (metric s).
Definition with_generation (v : Z) (s : service_t) : service_t :=
  Svc (name s) (description s) (dependency s) (state s) (exit_code s) v (cycles s) (errors s) (metric s).
Definition with_cycles (v : Z) (s : service_t) : service_t :=
  Svc (name s) (description s) (dependency s) (state s) (exit_code s) (generation s) v (errors s) (metric s).
Definition with_errors (v : Z) (s : service_t) : service_t :=
  Svc (name s) (description s) (dependency s) (state s) (exit_code s) (generation s) (cycles s) v (metric s).
Definition with_metric (v : Z) (s : service_t) : service_t :=
  Svc (name s) (description s) (dependency s) (state s) (exit_code s) (generation s) (cycles s) (errors s) v.

Definition svc0 (n d : string) (dep : Z) : service_t :=
  Svc (text n) (text d) dep SERVICE_STOPPED 0 0 0 0 0.

(** The static table. *)
Definition services0 : list service_t := [
  svc0 "fsd" "VFS and mount coordinator" (-1);
  svc0 "memoryd" "memory accounting service" (-1);
  svc0 "timed" "CMOS real-time clock service" 1;
  svc0 "diskd" "disk synchronization service" 0;
  svc0 "userd" "account database service" 3;
  svc0 "acpid" "ACPI power and reboot service" 2;
  svc0 "netd" "PCI Ethernet, ARP, IPv4 and ICMP" 3;
  svc0 "displayd" "console display service" 1;
  svc0 "graphicsd" "VGA framebuffer compositor" 7;
  svc0 "logd" "kernel message logger" 2 ].

(** What service.c calls elsewhere in the kernel. *)
Class ServiceEnv (E : Type) := {
  fs_count : E -> Z;
  memory_free_bytes : E -> Z;
  memory_heap_bytes : E -> Z;
  timed_init : E -> E;
  timed_start : E -> E;
  timed_stop : E -> E;
  timed_poll : E -> E;
  timed_updates : E -> Z;
  disk_sync : E -> bool * E;
  auth_user_count : E -> Z;
  network_init : E -> bool * E;
  network_poll : E -> E;
  network_rx_packets : E -> Z;
  network_tx_packets : E -> Z;
  network_ready : E -> bool;
  display_characters : E -> Z;
  display_ready : E -> bool;
  graphics_init : E -> bool * E;
  graphics_stop : E -> E;
  graphics_poll : E -> E;
  graphics_frames : E -> Z;
  graphics_ready : E -> bool;
  log_init : E -> E;
  log_poll : E -> E;
  log_count : E -> Z
}.

Section service.

Context {E : Type} `{ServiceEnv E}.

Definition sys : Type := list service_t * E.

Definition no_service : service_t := Svc [] [] (-1) SERVICE_FAILED 127 0 0 0 0.
Definition svc (l : list service_t) (i : nat) : service_t := nth i l no_service.
Definition put (i : nat) (s : service_t) (l : list service_t) : list service_t := <[i := s]> l.

Definition service_count (l : list service_t) : nat := length l.

(** [id >= 0 && (size_t) id < service_count()] *)
Definition valid_id (l : list service_t) (id : Z) : bool :=
  (0 <=? id) && (id <? Z.of_nat (service_count l)).

Definition service_init (y : sys) : sys :=
  let '(l, e) := y in
  let l := map (fun s => with_metric 0 (with_errors 0 (with_cycles 0 (with_generation 0
             (with_exit 0 (with_state SERVICE_STOPPED s)))))) l in
  (l, timed_stop (timed_init e)).

Definition fail (code : Z) (s : service_t) : service_t :=
  with_errors (u64 (errors s + 1)) (with_exit code (with_state SERVICE_FAILED s)).

Definition running (s : service_t) : bool :=
  match state s with SERVICE_STARTING | SERVICE_READY => true | _ => false end.

Definition poll_one (i : nat) (y : sys) : sys :=
  let '(l, e) := y in
  let s := svc l i in
  if negb (running s) then (l, e) else
  let s := with_cycles (u64 (cycles s + 1)) s in
  let '(s, e) :=
    match i with
    | 0%nat =>
      let s := with_metric (fs_count e) s in
      (if z2b (metric s) then with_state SERVICE_READY s else s, e)
    | 1%nat =>
      let s := with_metric (memory_free_bytes e) s in
      (if z2b (memory_heap_bytes e) then with_state SERVICE_READY s else fail 12 s, e)
    | 2%nat =>
      let e := timed_poll e in
      let s := with_metric (timed_updates e) s in
      (if z2b (metric s) then with_state SERVICE_READY s else s, e)
    | 3%nat =>
      if decide (state s = SERVICE_STARTING) then
        let '(ok, e) := disk_sync e in
        (if negb ok then fail 5 s
         else with_state SERVICE_READY (with_metric (u64 (metric s + 1)) s), e)
      else (with_metric (u64 (metric s + 1)) s, e)
    | 4%nat =>
      let s := with_metric (auth_user_count e) s in
      (if z2b (metric s) then with_state SERVICE_READY s else fail 2 s, e)
    | 5%nat => (with_state SERVICE_READY (with_metric 1 s), e)
    | 6%nat =>
      let e := network_poll e in
      let s := with_metric (u64 (network_rx_packets e + network_tx_packets e)) s in
      (if network_ready e then with_state SERVICE_READY s else fail 19 s, e)
    | 7%nat =>
      let s := with_metric (display_characters e) s in
      (if display_ready e then with_state SERVICE_READY s else fail 6 s, e)
    | 9%nat =>
      let e := log_poll e in
      let s := with_metric (log_count e) s in
      (if z2b (log_count e) then with_state SERVICE_READY s
       else with_metric 1 (with_state SERVICE_READY s), e)
    | _ =>
      let e := graphics_poll e in
      let s := with_metric (graphics_frames e) s in
      (if graphics_ready e then with_state SERVICE_READY s else fail 6 s, e)
    end in
  (put i s l, e).

Definition service_poll_all (y : sys) : sys :=
  fold_left (fun y i => poll_one i y) (seq 0 (service_count (fst y))) y.

Fixpoint find_from (n : list Z) (i : Z) (l : list service_t) : Z :=
  match l with
  | [] => -1
  | s :: l => if decide (n = name s) then i else find_from n (i + 1) l
  end.

Definition service_find (n : list Z) (l : list service_t) : Z := find_from n 0 l.

Definition service_start (id : Z) (y : sys) : bool * sys :=
  let '(l, e) := y in
  if negb (valid_id l id) then (false, y) else
  let i := Z.to_nat id in
  let s := svc l i in
  if running s then (true, y)
  else if (0 <=? dependency s) &&
          bool_decide (state (svc l (Z.to_nat (dependency s))) <> SERVICE_READY)
  then (false, (put i (fail 69 s) l, e))
  else
    let s := with_generation (u64 (generation s + 1)) (with_exit 0 (with_state SERVICE_STARTING s)) in
    let e := if id =? 2 then timed_start e else e in
    let '(up, e) := if id =? 6 then network_init e else (true, e) in
    if negb up then (false, (put i (fail 19 s) l, e)) else
    let '(up, e) := if id =? 8 then graphics_init e else (true, e) in
    if negb up then (false, (put i (fail 6 s) l, e)) else
    let e := if id =? 9 then log_init e else e in
    (true, (put i s l, e)).

Definition service_stop (id : Z) (y : sys) : bool * sys :=
  let '(l, e) := y in
  if negb (valid_id l id) then (false, y) else
  let i := Z.to_nat id in
  let l := put i (with_exit 0 (with_state SERVICE_STOPPED (svc l i))) l in
  let e := if id =? 2 then timed_stop e else e in
  let e := if id =? 8 then graphics_stop e else e in
  (true, (l, e)).

(** [while (polls-- && services[id].state == SERVICE_STARTING) poll_one(id);] *)
Fixpoint poll_until (polls : nat) (i : nat) (y : sys) : sys :=
  match polls with
  | O => y
  | S polls =>
    if decide (state (svc (fst y) i) = SERVICE_STARTING)
    then poll_until polls i (poll_one i y) else y
  end.

Definition service_wait_ready (id : Z) (polls : nat) (y : sys) : bool * sys :=
  let '(ok, y) := service_start id y in
  if negb ok then (false, y) else
  let i := Z.to_nat id in
  let '(l, e) := poll_until polls i y in
  let l := if decide (state (svc l i) = SERVICE_STARTING) then put i (fail 110 (svc l i)) l else l in
  (bool_decide (state (svc l i) = SERVICE_READY), (l, e)).

Definition service_running (id : Z) (l : list service_t) : bool :=
  valid_id l id && running (svc l (Z.to_nat id)).
Definition service_ready (id : Z) (l : list service_t) : bool :=
  valid_id l id && bool_decide (state (svc l (Z.to_nat id)) = SERVICE_READY).
Definition service_state (id : Z) (l : list service_t) : service_state_t :=
  if valid_id l id then state (svc l (Z.to_nat id)) else SERVICE_FAILED.
Definition service_exit_code (id : Z) (l : list service_t) : Z :=
  if valid_id l id then exit_code (svc l (Z.to_nat id)) else 127.
Definition service_state_name (id : Z) (l : list service_t) : list Z :=
  match service_state id l with
  | SERVICE_STOPPED => text "stopped"
  | SERVICE_STARTING => text "starting"
  | SERVICE_READY => text "ready"
  | SERVICE_FAILED => text "failed"
  end.
Definition service_generation (id : Z) (l : list service_t) : Z :=
  if valid_id l id then generation (svc l (Z.to_nat id)) else 0.
Definition service_cycles (id : Z) (l : list service_t) : Z :=
  if valid_id l id then cycles (svc l (Z.to_nat id)) else 0.
Definition service_errors (id : Z) (l : list service_t) : Z :=
  if valid_id l id then errors (svc l (Z.to_nat id)) else 0.
Definition service_metric (id : Z) (l : list service_t) : Z :=
  if valid_id l id then metric (svc l (Z.to_nat id)) else 0.
Definition service_description (id : Z) (l : list service_t) : list Z :=
  if valid_id l id then description (svc l (Z.to_nat id)) else text "unknown".
Definition service_name (id : Z) (l : list service_t) : list Z :=
  if valid_id l id then name (svc l (Z.to_nat id)) else text "unknown".

(** The boot sequence of kernel.c: the number of services that came up and the
    resulting state; the report lines it prints are not modelled. *)
Definition boot_order : list (list Z) :=
  [text "fsd"; text "memoryd"; text "displayd"; text "graphicsd"; text "timed";
   text "diskd"; text "userd"; text "acpid"; text "netd"; text "logd"].

Definition skipped (recovery : bool) (n : list Z) : bool :=
  recovery && (bool_decide (n = text "diskd") || bool_decide (n = text "userd")
               || bool_decide (n = text "netd")).

Definition start_boot_services (recovery : bool) (y : sys) : Z * sys :=
  fold_left (fun acc n =>
    let '(started, y) := acc in
    if skipped recovery n then (started, y) else
    let '(ok, y) := service_wait_ready (service_find n (fst y)) 8 y in
    (if ok then started + 1 else started, y)) boot_order (0, y).

End service.
