(* ===== verification/ServiceTheorems.v ===== *)
(** * What the service manager guarantees

    Steps of the manager as a relation, the invariant of every reachable
    table, the dependency discipline, the contract of service_wait_ready and
    the boot sequence on a healthy machine. *)

From stdpp Require Import base numbers list strings relations.
From Stdlib Require Import ZArith Lia.
From S2P Require Import Prelude Service.

(** The fields no operation changes. *)
Definition static (s : service_t) : list Z * list Z * Z := (name s, description s, dependency s).

Definition counters_ok (s : service_t) : Prop :=
  is_u64 (generation s) /\ is_u64 (cycles s) /\ is_u64 (errors s).

(** A service failed exactly when its exit code says so. *)
Definition svc_ok (s : service_t) : Prop :=
  (state s = SERVICE_FAILED <-> exit_code s <> 0) /\ counters_ok s.

Definition table_ok (l : list service_t) : Prop :=
  map static l = map static services0 /\ Forall svc_ok l.

Section steps.

Context {E : Type} `{ServiceEnv E}.

(** One step of the kernel as the manager sees it: a call into it, or any
    change of the rest of the machine. *)
Inductive step : sys (E := E) -> sys -> Prop :=
| step_init y : step y (service_init y)
| step_poll y : step y (service_poll_all y)
| step_start id y : step y (snd (service_start id y))
| step_stop id y : step y (snd (service_stop id y))
| step_wait id polls y : step y (snd (service_wait_ready id polls y))
| step_env l e e' : step (l, e) (l, e').

Definition reachable (y : sys (E := E)) : Prop := exists e, rtc step (services0, e) y.

(** ** Access to the table *)

Lemma svc_put_eq l i s : (i < length l)%nat -> svc (put i s l) i = s.
Proof. intros Hi. unfold svc, put. rewrite nth_lookup, list_lookup_insert_eq; done. Qed.

Lemma svc_put_ne l i j s : i <> j -> svc (put i s l) j = svc l j.
Proof. intros Hi. unfold svc, put. by rewrite !nth_lookup, list_lookup_insert_ne. Qed.

Lemma put_length l i s : length (put i s l) = length l.
Proof. apply length_insert. Qed.

Lemma svc_lookup l i : (i < length l)%nat -> l !! i = Some (svc l i).
Proof. intros Hi. apply lookup_lt_is_Some in Hi as [s Hs]. unfold svc. by rewrite nth_lookup, Hs. Qed.

Lemma put_static l i s : static s = static (svc l i) -> map static (put i s l) = map static l.
Proof.
  intros Hs. change (static <$> put i s l = static <$> l). unfold put. rewrite list_fmap_insert.
  destruct (decide (i < length l)%nat) as [Hi|Hi].
  - apply list_insert_id. by rewrite list_lookup_fmap, svc_lookup, Hs.
  - apply list_insert_ge. rewrite length_fmap. lia.
Qed.

Lemma put_state l i s : map state (put i s l) = <[i := state s]> (map state l).
Proof. apply (list_fmap_insert state). Qed.

Lemma table_length l : table_ok l -> length l = 10%nat.
Proof. intros [Hl _]. apply (f_equal length) in Hl. by rewrite !length_map in Hl. Qed.

Lemma valid_id_iff l id : valid_id l id = true <-> (0 <= id /\ (Z.to_nat id < length l)%nat).
Proof.
  unfold valid_id, service_count. split.
  - intros Hv. breflect. lia.
  - intros [? ?]. apply andb_true_iff. split; [apply Z.leb_le|apply Z.ltb_lt]; lia.
Qed.

Lemma put_ok l i s :
  table_ok l -> (i < length l)%nat -> static s = static (svc l i) -> svc_ok s -> table_ok (put i s l).
Proof.
  intros [Hst Hok] Hi Hs Hsok. split; [by rewrite put_static|]. by apply Forall_insert.
Qed.

Lemma svc_ok_at l i : table_ok l -> (i < length l)%nat -> svc_ok (svc l i).
Proof. intros [_ Hok] Hi. eapply Forall_lookup_1; [done|by apply svc_lookup]. Qed.

(** ** One service at a time *)

Lemma u64_range x : is_u64 (u64 x).
Proof. apply Z.mod_pos_bound. lia. Qed.

#[local] Opaque is_u64.

Lemma fail_ok c s : c <> 0 -> svc_ok s -> svc_ok (fail c s).
Proof. intros Hc [Hf (?&?&?)]. split; [done|]. split_and!; simpl; try done; apply u64_range. Qed.

(** A service that is starting or ready, and the updates that keep it so. *)
Definition live (s : service_t) : Prop :=
  state s <> SERVICE_FAILED /\ exit_code s = 0 /\ counters_ok s.

Lemma live_ok s : live s -> svc_ok s.
Proof. intros (?&?&?). split; [|done]. split; intros; congruence. Qed.

Lemma live_running s : svc_ok s -> running s = true -> live s.
Proof.
  intros [Hf Hc] Hr. unfold running, live in *. split; [by destruct (state s)|]. split; [|done].
  destruct (decide (exit_code s = 0)) as [|Hn]; [done|]. apply Hf in Hn. by rewrite Hn in Hr.
Qed.

Lemma live_ready s : live s -> live (with_state SERVICE_READY s).
Proof. by intros (?&?&?&?&?). Qed.
Lemma live_metric v s : live s -> live (with_metric v s).
Proof. by intros (?&?&?&?&?). Qed.
Lemma live_cycles v s : live s -> live (with_cycles (u64 v) s).
Proof. intros (?&?&?&?&?). unfold live, counters_ok. split_and!; simpl; try done. apply u64_range. Qed.
Lemma live_start v s : svc_ok s ->
  live (with_generation (u64 v) (with_exit 0 (with_state SERVICE_STARTING s))).
Proof. intros [_ (?&?&?)]. unfold live, counters_ok. split_and!; simpl; try done. apply u64_range. Qed.
Lemma live_fail c s : c <> 0 -> live s -> svc_ok (fail c s).
Proof. intros Hc ?. by apply fail_ok, live_ok. Qed.

#[local] Hint Resolve live_ok live_ready live_metric live_cycles live_start live_fail : os64.

(** What [poll_one] does to the service it polls. *)
Lemma poll_one_shape i l e :
  (i < length l)%nat ->
  exists s e', poll_one i (l, e) = (put i s l, e') /\ static s = static (svc l i) /\
    (svc_ok (svc l i) -> svc_ok s) /\
    (running (svc l i) = false -> s = svc l i) /\
    (i <> 0%nat -> i <> 2%nat -> state s <> SERVICE_STARTING) /\
    (running (svc l i) = true -> state s <> SERVICE_STOPPED) /\
    (exit_code (svc l i) <> 110 -> exit_code s <> 110).
Proof.
  intros Hi. unfold poll_one. destruct (running (svc l i)) eqn:Hr; cbn [negb].
  - assert (Hns : state (svc l i) <> SERVICE_STOPPED) by (unfold running in Hr; by destruct (state _)).
    assert (Hl := fun Hok => live_cycles (cycles (svc l i) + 1) _ (live_running _ Hok Hr)).
    destruct i as [|[|[|[|[|[|[|[|[|[|i]]]]]]]]]];
      repeat case_match; simplify_eq; (eexists _, _; split; [reflexivity|]); split_and!;
      try done; try (intros; by auto 6 with os64 lia).
  - exists (svc l i), e. split_and!; try done.
    + f_equal. symmetry. by apply list_insert_id, svc_lookup.
    + unfold running in Hr. by destruct (state (svc l i)).
Qed.

(** ** Updates of one entry *)

(** [l'] is [l] with entry [i] replaced by a legal successor. *)
Definition touch (i : nat) (l l' : list service_t) : Prop :=
  exists s, l' = put i s l /\ static s = static (svc l i) /\ (svc_ok (svc l i) -> svc_ok s).

Lemma touch_refl i l : (i < length l)%nat -> touch i l l.
Proof. intros Hi. exists (svc l i). split_and!; [|done..]. symmetry. by apply list_insert_id, svc_lookup. Qed.

Lemma touch_length i l l' : touch i l l' -> length l' = length l.
Proof. intros (s&->&_). apply put_length. Qed.

Lemma touch_trans i l l' l'' :
  (i < length l)%nat -> touch i l l' -> touch i l' l'' -> touch i l l''.
Proof.
  intros Hi (s&->&Hs&Hok) (s'&->&Hs'&Hok'). rewrite svc_put_eq in * by done.
  exists s'. split_and!; [|congruence|auto]. apply list_insert_insert_eq.
Qed.

Lemma touch_ok i l l' : (i < length l)%nat -> touch i l l' -> table_ok l -> table_ok l'.
Proof. intros Hi (s&->&Hs&Hok) Ht. apply put_ok; auto. by apply Hok, svc_ok_at. Qed.

Lemma touch_ne i j l l' : i <> j -> touch i l l' -> svc l' j = svc l j.
Proof. intros Hij (s&->&_). by apply svc_put_ne. Qed.

Lemma touch_static i l l' : touch i l l' -> map static l' = map static l.
Proof. intros (s&->&Hs&_). by apply put_static. Qed.

Lemma poll_one_touch i l e : (i < length l)%nat -> touch i l (fst (poll_one i (l, e))).
Proof. intros Hi. destruct (poll_one_shape i l e Hi) as (s&e'&->&?&?&_). by exists s. Qed.

Lemma poll_until_touch n i l e : (i < length l)%nat -> touch i l (fst (poll_until n i (l, e))).
Proof.
  revert l e. induction n as [|n IH]; intros l e Hi; cbn [poll_until]; [by apply touch_refl|].
  case_decide; [|by apply touch_refl].
  pose proof (poll_one_touch i l e Hi) as Ht. destruct (poll_one i (l, e)) as [l' e'] eqn:Hp.
  eapply touch_trans; [done|done|]. apply IH. simpl in Ht. by rewrite (touch_length _ _ _ Ht).
Qed.

(** The four outcomes of [service_start] on a valid id. *)
Lemma service_start_cases id l e :
  valid_id l id = true ->
  let i := Z.to_nat id in let s := svc l i in
  let started := with_generation (u64 (generation s + 1)) (with_exit 0 (with_state SERVICE_STARTING s)) in
  let blocked := (0 <=? dependency s) &&
    bool_decide (state (svc l (Z.to_nat (dependency s))) <> SERVICE_READY) in
  (running s = true /\ service_start id (l, e) = (true, (l, e))) \/
  (running s = false /\ blocked = true /\ service_start id (l, e) = (false, (put i (fail 69 s) l, e))) \/
  (running s = false /\ blocked = false /\ exists c e', 0 < c < 20 /\ (id = 6 \/ id = 8) /\
     service_start id (l, e) = (false, (put i (fail c started) l, e'))) \/
  (running s = false /\ blocked = false /\ exists e', service_start id (l, e) = (true, (put i started l, e'))).
Proof.
  intros Hv i s started blocked. unfold service_start. rewrite Hv. cbn [negb].
  fold i s started blocked. destruct (running s); [by left|]. destruct blocked; [by right; left|].
  right; right.
  destruct (id =? 6) eqn:H6; breflect; [|destruct (id =? 8) eqn:H8; breflect].
  - subst id. destruct (network_init _) as [[] e1]; cbn.
    + right; split_and!; [done..|by eexists].
    + left; split_and!; [done..|]. eexists _, _; split_and!; [| |by left|reflexivity]; lia.
  - subst id. cbn. destruct (graphics_init _) as [[] e1]; cbn.
    + right; split_and!; [done..|by eexists].
    + left; split_and!; [done..|]. eexists _, _; split_and!; [| |by right|reflexivity]; lia.
  - right; split_and!; [done..|by eexists].
Qed.

Lemma service_start_touch id l e :
  valid_id l id = true -> touch (Z.to_nat id) l (fst (snd (service_start id (l, e)))).
Proof.
  intros Hv. pose proof (proj1 (valid_id_iff _ _) Hv) as [_ Hi].
  destruct (service_start_cases id l e Hv) as [[_ ->]|[(_&_&->)|[(_&_&c&e'&?&_&->)|(_&_&e'&->)]]]; simpl.
  - by apply touch_refl.
  - eexists; split_and!; [done..|]. by apply fail_ok.
  - eexists; split_and!; [done..|]. eauto with os64 lia.
  - eexists; split_and!; [done..|]. eauto with os64.
Qed.

Lemma service_start_invalid id l e : valid_id l id = false -> service_start id (l, e) = (false, (l, e)).
Proof. intros Hv. unfold service_start. by rewrite Hv. Qed.

(** [service_wait_ready] on a service that could be started. *)
Lemma service_wait_unfold id polls l e l1 e1 :
  service_start id (l, e) = (true, (l1, e1)) ->
  let i := Z.to_nat id in let l2 := fst (poll_until polls i (l1, e1)) in
  let l3 := if decide (state (svc l2 i) = SERVICE_STARTING) then put i (fail 110 (svc l2 i)) l2 else l2 in
  service_wait_ready id polls (l, e) =
    (bool_decide (state (svc l3 i) = SERVICE_READY), (l3, snd (poll_until polls i (l1, e1)))).
Proof.
  intros Hs i l2 l3. unfold service_wait_ready. rewrite Hs. cbn [negb]. fold i.
  unfold l3, l2. by destruct (poll_until polls i (l1, e1)).
Qed.

Lemma service_start_valid id l e y : service_start id (l, e) = (true, y) -> valid_id l id = true.
Proof. destruct (valid_id l id) eqn:Hv; [done|]. by rewrite service_start_invalid. Qed.

Lemma service_wait_touch id polls l e :
  valid_id l id = true -> touch (Z.to_nat id) l (fst (snd (service_wait_ready id polls (l, e)))).
Proof.
  intros Hv. pose proof (proj1 (valid_id_iff _ _) Hv) as [_ Hi].
  pose proof (service_start_touch id l e Hv) as Ht.
  destruct (service_start id (l, e)) as [[] [l1 e1]] eqn:Hs; [|by unfold service_wait_ready; rewrite Hs].
  rewrite (service_wait_unfold _ _ _ _ _ _ Hs). cbn [fst snd] in *.
  assert (Hi1 : (Z.to_nat id < length l1)%nat) by (rewrite (touch_length _ _ _ Ht); done).
  pose proof (poll_until_touch polls _ l1 e1 Hi1) as Ht2.
  eapply touch_trans; [done|done|]. destruct (decide _); [|exact Ht2].
  eapply touch_trans; [done|exact Ht2|].
  eexists; split_and!; [done..|]. by apply fail_ok.
Qed.

(** ** The invariant *)

Lemma poll_all_ind (P : list service_t -> Prop) l e :
  (forall i l e, (i < length l)%nat -> P l -> length l = length (fst (poll_one i (l, e))) ->
     P (fst (poll_one i (l, e)))) ->
  P l -> P (fst (service_poll_all (l, e))).
Proof.
  intros Hstep HP. unfold service_poll_all, service_count. cbn [fst].
  assert (Hall : Forall (fun i => (i < length l)%nat) (seq 0 (length l))).
  { apply Forall_forall. intros i ?%elem_of_seq. lia. }
  revert Hall HP. generalize (seq 0 (length l)). intros ks. generalize (eq_refl (length l)).
  generalize (length l) at 2 3. intros n. revert l e.
  induction ks as [|i ks IH]; intros l e Hn Hall HP; [done|]. cbn [fold_left].
  apply Forall_cons in Hall as [Hi Hall].
  assert (Hlen : length l = length (fst (poll_one i (l, e))))
    by (symmetry; apply (touch_length i), poll_one_touch; lia).
  pose proof (Hstep i l e ltac:(lia) HP Hlen) as HP'.
  destruct (poll_one i (l, e)) as [l' e']. cbn [fst] in *. apply IH; [lia|done|done].
Qed.

Lemma poll_all_ok l e : table_ok l -> table_ok (fst (service_poll_all (l, e))).
Proof.
  apply poll_all_ind. clear. intros i l e Hi Ht _. eapply touch_ok; [exact Hi| |done].
  by apply poll_one_touch.
Qed.

Lemma poll_all_not_running i l e :
  (i < length l)%nat -> running (svc l i) = false ->
  running (svc (fst (service_poll_all (l, e))) i) = false.
Proof.
  intros Hi Hr. apply (poll_all_ind (fun l => (i < length l)%nat /\ running (svc l i) = false)); [|done].
  clear. intros j l e Hj [Hi Hr] Hlen. split; [lia|].
  destruct (poll_one_shape j l e Hj) as (s&e'&->&_&_&Hs&_&_). cbn [fst].
  destruct (decide (j = i)) as [->|Hne]; [rewrite svc_put_eq by done|by rewrite svc_put_ne].
  by rewrite (Hs Hr).
Qed.

Lemma init_ok l e : table_ok l -> table_ok (fst (service_init (l, e))).
Proof.
  intros [Hst Hok]. unfold service_init. cbn [fst]. split; [rewrite <- Hst, map_map; done|].
  apply Forall_fmap, Forall_forall. intros s _. unfold svc_ok, counters_ok. simpl.
  split; [split; congruence|]. split_and!; apply (u64_range 0).
Qed.

Lemma stop_ok id l e : table_ok l -> table_ok (fst (snd (service_stop id (l, e)))).
Proof.
  intros Ht. unfold service_stop. destruct (valid_id l id) eqn:Hv; [|done].
  apply valid_id_iff in Hv as [_ Hi]. cbn [negb fst snd]. apply put_ok; [done..|].
  destruct (svc_ok_at _ _ Ht Hi) as [_ ?]. split; [simpl; split; congruence|done].
Qed.

Lemma step_table_ok y y' : step y y' -> table_ok (fst y) -> table_ok (fst y').
Proof.
  destruct 1 as [[l e]|[l e]|id [l e]|id [l e]|id polls [l e]|l e e']; cbn [fst]; intros Ht.
  - by apply init_ok.
  - by apply poll_all_ok.
  - destruct (valid_id l id) eqn:Hv; [|by rewrite service_start_invalid].
    pose proof (proj1 (valid_id_iff _ _) Hv) as [_ Hi].
    eapply touch_ok; [exact Hi|by apply service_start_touch|done].
  - by apply stop_ok.
  - destruct (valid_id l id) eqn:Hv;
      [|by unfold service_wait_ready; rewrite service_start_invalid].
    pose proof (proj1 (valid_id_iff _ _) Hv) as [_ Hi].
    eapply touch_ok; [exact Hi|by apply service_wait_touch|done].
  - done.
Qed.

Lemma services0_ok : table_ok services0.
Proof.
  split; [done|]. repeat constructor; simpl; try congruence; try lia.
Qed.

Lemma reachable_ok y : reachable y -> table_ok (fst y).
Proof.
  intros [e Hr]. remember (services0, e) as y0 eqn:Hy.
  assert (Ht : table_ok (fst y0)) by (subst; apply services0_ok). clear Hy.
  induction Hr as [|y0 y1 y2 Hs _ IH]; [done|]. apply IH. by eapply step_table_ok.
Qed.

(** Whatever sequence of service calls and of changes elsewhere in the
    kernel has run since the table was linked in, the table still has its ten
    entries with their names, descriptions and dependencies, a service is in
    state FAILED exactly when its exit code is non-zero, and the counters are
    64-bit values. *)
Theorem service_table_invariant y : reachable y -> table_ok (fst y).
Proof. apply reachable_ok. Qed.

(** ** Dependencies *)

Definition dep_ready (l : list service_t) (s : service_t) : Prop :=
  0 <= dependency s -> state (svc l (Z.to_nat (dependency s))) = SERVICE_READY.

(** No service of the table depends on itself. *)
Lemma no_self_dependency l i :
  table_ok l -> (i < length l)%nat -> 0 <= dependency (svc l i) -> Z.to_nat (dependency (svc l i)) <> i.
Proof.
  intros Ht Hi. pose proof (table_length _ Ht) as Hlen. destruct Ht as [Hst _].
  assert (Hs : map static l !! i = Some (static (svc l i))) by (change (map ?f ?l) with (f <$> l); by rewrite list_lookup_fmap, svc_lookup).
  rewrite Hst in Hs. rewrite Hlen in Hi.
  do 10 (destruct i as [|i]; [injection Hs as _ _ Hd; rewrite <- Hd; simpl; lia|]). lia.
Qed.

Lemma start_dep_ready id l e :
  valid_id l id = true -> running (svc l (Z.to_nat id)) = false ->
  fst (service_start id (l, e)) = true -> dep_ready l (svc l (Z.to_nat id)).
Proof.
  intros Hv Hr Hok Hdep.
  destruct (service_start_cases id l e Hv) as [[? _]|[(_&_&Hs)|[(_&_&c&e'&_&_&Hs)|(_&Hb&_)]]];
    [congruence|by rewrite Hs in Hok..|].
  apply andb_false_iff in Hb as [Hb|Hb]; [breflect; lia|]. by apply bool_decide_eq_false, dec_stable in Hb.
Qed.

Lemma failed_not_running c s : running (fail c s) = false.
Proof. done. Qed.

Lemma start_false_not_running id l e :
  valid_id l id = true -> fst (service_start id (l, e)) = false ->
  running (svc (fst (snd (service_start id (l, e)))) (Z.to_nat id)) = false.
Proof.
  intros Hv Hf. pose proof (proj1 (valid_id_iff _ _) Hv) as [_ Hi].
  destruct (service_start_cases id l e Hv) as [[_ Hs]|[(_&_&Hs)|[(_&_&c&e'&_&_&Hs)|(_&_&e'&Hs)]]];
    rewrite Hs in *; try done; cbn [fst snd]; by rewrite svc_put_eq.
Qed.

(** A call on service [id] that leaves it not running when service_start
    refuses, and touches nothing else, respects the dependency. *)
Lemma call_dep id i l e l' :
  table_ok l -> valid_id l id = true -> touch (Z.to_nat id) l l' ->
  (fst (service_start id (l, e)) = false -> running (svc l' (Z.to_nat id)) = false) ->
  running (svc l i) = false -> running (svc l' i) = true ->
  dep_ready l (svc l i) /\ dep_ready l' (svc l i).
Proof.
  intros Ht Hv Htouch Hf Hr Hr'. pose proof (proj1 (valid_id_iff _ _) Hv) as [_ Hi].
  destruct (decide (Z.to_nat id = i)) as [<-|Hne]; [|rewrite (touch_ne _ _ _ _ Hne Htouch) in Hr'; congruence].
  destruct (fst (service_start id (l, e))) eqn:Hok; [|rewrite Hf in Hr' by done; done].
  pose proof (start_dep_ready id l e Hv Hr Hok) as Hd. split; [done|]. intros Hdep.
  rewrite (touch_ne (Z.to_nat id) _ l l'); [by apply Hd| |done].
  intros Heq. by apply (no_self_dependency l (Z.to_nat id)).
Qed.

Lemma wait_false_not_running id polls l e :
  valid_id l id = true -> fst (service_start id (l, e)) = false ->
  running (svc (fst (snd (service_wait_ready id polls (l, e)))) (Z.to_nat id)) = false.
Proof.
  intros Hv Hf. pose proof (start_false_not_running id l e Hv Hf) as Hn. unfold service_wait_ready.
  destruct (service_start id (l, e)) as [b [l1 e1]]. cbn [fst snd] in *. by subst b.
Qed.

Lemma init_not_running i l e :
  (i < length l)%nat -> running (svc (fst (service_init (l, e))) i) = false.
Proof.
  intros Hi. unfold service_init, svc. cbn [fst]. rewrite nth_lookup. change (map ?f ?l) with (f <$> l).
  rewrite list_lookup_fmap, svc_lookup by done. done.
Qed.

Lemma stop_not_running id i l e :
  (i < length l)%nat -> running (svc l i) = false ->
  running (svc (fst (snd (service_stop id (l, e)))) i) = false.
Proof.
  intros Hi Hr. unfold service_stop. destruct (valid_id l id) eqn:Hv; [|done]. cbn [negb fst snd].
  destruct (decide (Z.to_nat id = i)) as [->|Hne]; [by rewrite svc_put_eq|by rewrite svc_put_ne].
Qed.

(** C14. A service only ever begins to run when its dependency is READY: if a
    step of the kernel takes service [i] from not running to running, the
    service it depends on was READY before the step and still is after it. *)
Theorem service_dependency_respected y y' i :
  reachable y -> step y y' -> (i < length (fst y))%nat ->
  running (svc (fst y) i) = false -> running (svc (fst y') i) = true ->
  dep_ready (fst y) (svc (fst y) i) /\ dep_ready (fst y') (svc (fst y) i).
Proof.
  intros Ht%reachable_ok Hst Hi Hr Hr'.
  destruct Hst as [[l e]|[l e]|id [l e]|id [l e]|id polls [l e]|l e e']; cbn [fst] in *.
  - by rewrite init_not_running in Hr'.
  - by rewrite poll_all_not_running in Hr'.
  - destruct (valid_id l id) eqn:Hv; [|rewrite service_start_invalid in Hr' by done; cbn [fst snd negb] in Hr'; congruence].
    eapply call_dep; eauto using service_start_touch, start_false_not_running.
  - by rewrite stop_not_running in Hr'.
  - destruct (valid_id l id) eqn:Hv;
      [|unfold service_wait_ready in Hr'; rewrite service_start_invalid in Hr' by done; cbn [fst snd negb] in Hr'; congruence].
    eapply call_dep; eauto using service_wait_touch, wait_false_not_running.
  - congruence.
Qed.

(** ** Waiting *)

Lemma running_not_stopped s : running s = true -> state s <> SERVICE_STOPPED.
Proof. unfold running. by destruct (state s). Qed.

Lemma start_true_live id l e l1 e1 :
  table_ok l -> service_start id (l, e) = (true, (l1, e1)) ->
  (Z.to_nat id < length l1)%nat /\ running (svc l1 (Z.to_nat id)) = true /\
  exit_code (svc l1 (Z.to_nat id)) = 0.
Proof.
  intros Ht Hs. pose proof (service_start_valid _ _ _ _ Hs) as Hv.
  pose proof (proj1 (valid_id_iff _ _) Hv) as [_ Hi].
  destruct (service_start_cases id l e Hv) as [[Hr Hc]|[(_&_&Hc)|[(_&_&c&e'&_&_&Hc)|(_&_&e'&Hc)]]];
    rewrite Hc in Hs; simplify_eq.
  - split_and!; [done..|]. destruct (live_running _ (svc_ok_at _ _ Ht Hi) Hr) as (_&?&_). done.
  - rewrite put_length, svc_put_eq by done. done.
Qed.

Lemma start_false_failed id l e l1 e1 :
  valid_id l id = true -> service_start id (l, e) = (false, (l1, e1)) ->
  state (svc l1 (Z.to_nat id)) = SERVICE_FAILED /\ exit_code (svc l1 (Z.to_nat id)) <> 110.
Proof.
  intros Hv Hs. pose proof (proj1 (valid_id_iff _ _) Hv) as [_ Hi].
  destruct (service_start_cases id l e Hv) as [[Hr Hc]|[(_&_&Hc)|[(_&_&c&e'&?&_&Hc)|(_&_&e'&Hc)]]];
    rewrite Hc in Hs; simplify_eq; rewrite svc_put_eq by done; (split; [done|simpl; lia]).
Qed.

Lemma poll_until_settles n i l e :
  (i < length l)%nat -> state (svc l i) <> SERVICE_STOPPED -> exit_code (svc l i) <> 110 ->
  let s := svc (fst (poll_until n i (l, e))) i in
  state s <> SERVICE_STOPPED /\ exit_code s <> 110 /\
  (n <> 0%nat -> i <> 0%nat -> i <> 2%nat -> state s <> SERVICE_STARTING).
Proof.
  revert l e. induction n as [|n IH]; intros l e Hi Hs Hx; cbn [poll_until]; [done|].
  cbn [fst]. case_decide as Hst; [|done].
  destruct (poll_one_shape i l e Hi) as (s&e'&->&_&_&_&Hq&Hz&He).
  assert (Hr : running (svc l i) = true) by (unfold running; by rewrite Hst).
  destruct (IH (put i s l) e') as (?&?&?); rewrite ?put_length, ?svc_put_eq; auto.
  split_and!; [done..|]. intros _ Hn0 Hn2. specialize (Hq Hn0 Hn2). destruct n; [|auto].
  cbn [poll_until]. cbn [fst]. by rewrite svc_put_eq.
Qed.

(** service_wait_ready settles the service it is asked for: afterwards
    the service is READY and the result is 1, or it is FAILED and the result
    is 0, never STARTING; no other service changes; and with at least one poll
    every service but fsd and timed settles by itself, so exit code 110 (the
    timeout) can only be theirs. *)
Theorem service_wait_ready_settles id polls l e :
  table_ok l -> valid_id l id = true ->
  let '(ok, (l', _)) := service_wait_ready id polls (l, e) in
  let s' := svc l' (Z.to_nat id) in
  state s' = (if ok then SERVICE_READY else SERVICE_FAILED) /\
  (forall j, j <> Z.to_nat id -> svc l' j = svc l j) /\
  (polls <> 0%nat -> id <> 0 -> id <> 2 -> exit_code s' <> 110).
Proof.
  intros Ht Hv. pose proof (proj1 (valid_id_iff _ _) Hv) as [Hid Hi].
  pose proof (service_wait_touch id polls l e Hv) as Htw.
  pose proof (service_start_touch id l e Hv) as Hts.
  destruct (service_wait_ready id polls (l, e)) as [ok [l' e']] eqn:Hw. cbn [fst snd] in *.
  split_and!; [| intros j ?; by apply (touch_ne (Z.to_nat id)) |].
  all: destruct (service_start id (l, e)) as [[] [l1 e1]] eqn:Hs.
  all: try (destruct (start_true_live id l e l1 e1 Ht Hs) as (Hi1&Hst&Hx);
    rewrite (service_wait_unfold _ _ _ _ _ _ Hs) in Hw; injection Hw as <- <- _;
    destruct (poll_until_settles polls _ l1 e1 Hi1 (running_not_stopped _ Hst) ltac:(lia)) as (Hns&Hnx&Hq);
    pose proof (poll_until_touch polls _ l1 e1 Hi1) as Hlen%touch_length).
  all: try (unfold service_wait_ready in Hw; rewrite Hs in Hw; injection Hw as <- <- _;
    destruct (start_false_failed id l e l1 e1 Hv Hs) as [Hf Hx]; by auto).
  - destruct (decide _) as [Hd|Hd]; [rewrite !svc_put_eq by lia; done|].
    case_bool_decide as Hb; [done|]. by destruct (state _).
  - intros Hp Hn0 Hn2. rewrite decide_False by (apply Hq; lia). done.
Qed.

(** ** Booting a healthy machine *)

(** [P b] describes states of a healthy machine whose clock service is running
    when [b]: every facility answers, the clock ticks while it runs, and no
    call breaks the machine. *)
Class Healthy (P : bool -> E -> Prop) : Prop := {
  h_fs b e : P b e -> fs_count e <> 0;
  h_heap b e : P b e -> memory_heap_bytes e <> 0;
  h_users b e : P b e -> auth_user_count e <> 0;
  h_display b e : P b e -> display_ready e = true;
  h_timed_init b e : P b e -> P false (timed_init e);
  h_timed_start b e : P b e -> P true (timed_start e);
  h_timed_stop b e : P b e -> P false (timed_stop e);
  h_timed_poll e : P true e -> P true (timed_poll e) /\ timed_updates (timed_poll e) <> 0;
  h_disk b e : P b e -> fst (disk_sync e) = true /\ P b (snd (disk_sync e));
  h_net_init b e : P b e -> fst (network_init e) = true /\ P b (snd (network_init e));
  h_net_poll b e : P b e -> P b (network_poll e) /\ network_ready (network_poll e) = true;
  h_gfx_init b e : P b e -> fst (graphics_init e) = true /\ P b (snd (graphics_init e));
  h_gfx_poll b e : P b e -> P b (graphics_poll e) /\ graphics_ready (graphics_poll e) = true;
  h_log_init b e : P b e -> P b (log_init e);
  h_log_poll b e : P b e -> P b (log_poll e)
}.

Context {P : bool -> E -> Prop} `{!Healthy P}.

Lemma z2b_nz x : x <> 0 -> z2b x = true.
Proof. intros ?. unfold z2b. by apply negb_true_iff, Z.eqb_neq. Qed.

(** One poll of a STARTING service of a healthy machine makes it READY. *)
Lemma poll_one_healthy b i l e :
  (i < 10)%nat -> (i < length l)%nat -> state (svc l i) = SERVICE_STARTING ->
  P b e -> (i = 2%nat -> b = true) ->
  exists s e', poll_one i (l, e) = (put i s l, e') /\ state s = SERVICE_READY /\
    static s = static (svc l i) /\ P b e'.
Proof.
  intros H10 Hi Hst HP Hb. unfold poll_one, running. rewrite Hst. cbn [negb].
  destruct i as [|[|[|[|[|[|[|[|[|[|i]]]]]]]]]]; [..|lia].
  1: rewrite z2b_nz by (cbn; by eapply h_fs).
  2: rewrite z2b_nz by (by eapply h_heap).
  3: rewrite (Hb eq_refl) in *; destruct (h_timed_poll _ HP); rewrite z2b_nz by done.
  4: rewrite decide_True by done; destruct (h_disk _ _ HP) as [Hd HP']; destruct (disk_sync e) as [ok e1]; cbn in Hd, HP'; subst ok.
  5: rewrite z2b_nz by (cbn; by eapply h_users).
  7: destruct (h_net_poll _ _ HP) as [? ->].
  8: rewrite (h_display _ _ HP).
  9: destruct (h_gfx_poll _ _ HP) as [? ->].
  10: pose proof (h_log_poll _ _ HP); destruct (z2b _).
  all: eexists _, _; split; [reflexivity|done].
Qed.

Lemma poll_until_done n i y : state (svc (fst y) i) <> SERVICE_STARTING -> poll_until n i y = y.
Proof. intros Hs. destruct n; [done|]. cbn [poll_until]. by rewrite decide_False. Qed.

Lemma poll_until_step n i y :
  state (svc (fst y) i) = SERVICE_STARTING -> poll_until (S n) i y = poll_until n i (poll_one i y).
Proof. intros Hs. cbn [poll_until]. by rewrite decide_True. Qed.

(** Starting a stopped service of a healthy machine whose dependency is up. *)
Lemma start_healthy b id l e :
  valid_id l id = true -> P b e ->
  state (svc l (Z.to_nat id)) = SERVICE_STOPPED -> dep_ready l (svc l (Z.to_nat id)) ->
  exists s e', service_start id (l, e) = (true, (put (Z.to_nat id) s l, e')) /\
    state s = SERVICE_STARTING /\ P (if id =? 2 then true else b) e'.
Proof.
  intros Hv HP Hst Hd. unfold service_start. rewrite Hv. cbn [negb]. unfold running. rewrite Hst.
  replace (_ && _) with false
    by (symmetry; apply andb_false_iff; unfold dep_ready in Hd;
        destruct (0 <=? _) eqn:?; [right; breflect; apply bool_decide_eq_false; tauto|by left]).
  destruct (id =? 2) eqn:H2; breflect; [subst id; cbn; eexists _, _; split_and!; [done..|by eapply h_timed_start]|].
  destruct (id =? 6) eqn:H6; breflect; [subst id|].
  { destruct (h_net_init _ _ HP) as [Hn HP']. destruct (network_init e) as [ok e1]. cbn in *. subst ok.
    by eexists _, _. }
  destruct (id =? 8) eqn:H8; breflect; [subst id|].
  { destruct (h_gfx_init _ _ HP) as [Hn HP']. destruct (graphics_init e) as [ok e1]. cbn in *. subst ok.
    by eexists _, _. }
  destruct (id =? 9); cbn; (eexists _, _; split_and!; [done..|]); [by eapply h_log_init|done].
Qed.

(** What waiting for a stopped service does on a healthy machine. *)
Lemma wait_healthy b id l e :
  table_ok l -> valid_id l id = true -> P b e ->
  state (svc l (Z.to_nat id)) = SERVICE_STOPPED -> dep_ready l (svc l (Z.to_nat id)) ->
  exists l' e', service_wait_ready id 8 (l, e) = (true, (l', e')) /\
    map state l' = <[Z.to_nat id := SERVICE_READY]> (map state l) /\ table_ok l' /\
    P (if id =? 2 then true else b) e'.
Proof.
  intros Ht Hv HP Hst Hd. pose proof (proj1 (valid_id_iff _ _) Hv) as [Hid Hi].
  pose proof (table_length _ Ht) as Hlen.
  destruct (start_healthy b id l e Hv HP Hst Hd) as (s1&e1&Hs&Hs1&HP1).
  pose proof (service_wait_touch id 8 l e Hv) as Hto.
  set (b1 := if id =? 2 then true else b) in *. set (i := Z.to_nat id) in *.
  destruct (poll_one_healthy b1 i (put i s1 l) e1) as (s2&e2&Hp&Hr&Hs2&HP2);
    rewrite ?put_length, ?svc_put_eq; auto; [lia|intros; unfold b1; replace id with 2 by lia; done|].
  assert (Hpu : poll_until 8 i (put i s1 l, e1) = (put i s2 (put i s1 l), e2)).
  { rewrite poll_until_step, Hp by (cbn [fst]; by rewrite svc_put_eq).
    apply poll_until_done. cbn [fst]. rewrite svc_put_eq by (by rewrite put_length). congruence. }
  rewrite (service_wait_unfold _ _ _ _ _ _ Hs) in *. fold i in Hto |- *. rewrite Hpu in *. cbn [fst snd] in *.
  rewrite svc_put_eq, decide_False in Hto by (rewrite ?put_length; congruence).
  rewrite svc_put_eq, decide_False by (rewrite ?put_length; congruence).
  rewrite svc_put_eq by (by rewrite put_length). eexists _, _. split_and!.
  - by rewrite bool_decide_true.
  - rewrite !put_state, Hr. apply list_insert_insert_eq.
  - by eapply touch_ok.
  - done.
Qed.

(** Names and dependencies can be read off the static table. *)
Lemma find_static n l : table_ok l -> service_find n l = service_find n services0.
Proof.
  intros [Hst _]. assert (Hn : map name l = map name services0).
  { apply (f_equal (map (fun x => fst (fst x)))) in Hst. by rewrite !map_map in Hst. }
  clear Hst. unfold service_find. generalize 0. revert Hn. generalize services0.
  induction l as [|s l IH]; intros [|s' l'] Hn k; try done. cbn [map] in Hn. injection Hn as Hh Ht.
  cbn [find_from]. rewrite Hh. by rewrite (IH l').
Qed.

Lemma svc_dependency l i : table_ok l -> dependency (svc l i) = dependency (svc services0 i).
Proof.
  intros Ht. pose proof (table_length _ Ht) as Hlen. destruct Ht as [Hst _].
  destruct (decide (i < 10)%nat) as [Hi|Hi].
  - assert (Hs : (static <$> l) !! i = (static <$> services0) !! i) by (change (map static l !! i = map static services0 !! i); by rewrite Hst).
    rewrite !list_lookup_fmap, !svc_lookup in Hs by (done || lia). injection Hs as _ _ Hd. exact Hd.
  - unfold svc. rewrite !nth_overflow by (simpl; lia). done.
Qed.

Lemma svc_state l i : state (svc l i) = nth i (map state l) SERVICE_FAILED.
Proof. unfold svc. by rewrite <- (map_nth state). Qed.

(** One entry of the boot order. *)
Definition boot_step (recovery : bool) (acc : Z * sys (E := E)) (n : list Z) : Z * sys :=
  let '(started, y) := acc in
  if skipped recovery n then (started, y) else
  let '(ok, y) := service_wait_ready (service_find n (fst y)) 8 y in
  (if ok then started + 1 else started, y).

(** The boot of a healthy machine in the abstract: how many services are up,
    whether the clock runs, and the states. *)
Definition plan : Type := Z * bool * list service_state_t.

Definition plan_step (recovery : bool) (p : plan) (n : list Z) : option plan :=
  let '(k, b, st) := p in
  if skipped recovery n then Some p else
  let id := service_find n services0 in
  let i := Z.to_nat id in
  let d := dependency (svc services0 i) in
  if (0 <=? id) && (id <? 10) && bool_decide (nth i st SERVICE_FAILED = SERVICE_STOPPED) &&
     ((d <? 0) || bool_decide (nth (Z.to_nat d) st SERVICE_FAILED = SERVICE_READY))
  then Some (k + 1, (if id =? 2 then true else b), <[i := SERVICE_READY]> st) else None.

Fixpoint plan_run (recovery : bool) (p : plan) (ns : list (list Z)) : option plan :=
  match ns with
  | [] => Some p
  | n :: ns => match plan_step recovery p n with Some p => plan_run recovery p ns | None => None end
  end.

Definition booting (p : plan) (acc : Z * sys (E := E)) : Prop :=
  let '(k, b, st) := p in
  fst acc = k /\ table_ok (fst (snd acc)) /\ map state (fst (snd acc)) = st /\ P b (snd (snd acc)).

(** The manager follows the plan. *)
Lemma boot_step_plan recovery p p' acc n :
  booting p acc -> plan_step recovery p n = Some p' -> booting p' (boot_step recovery acc n).
Proof.
  destruct p as [[k b] st], acc as [k' [l e]]. intros (Hk&Ht&Hst&HP) Hp. cbn [fst snd] in *. subst k' st.
  unfold plan_step, boot_step in *. destruct (skipped recovery n); [by simplify_eq|]. cbn [fst].
  rewrite (find_static n l Ht). case_match eqn:Hc; [|done]. injection Hp as <-.
  apply andb_true_iff in Hc as [Hc Hd]. apply andb_true_iff in Hc as [Hid Hi].
  apply bool_decide_eq_true in Hi.
  destruct (wait_healthy b (service_find n services0) l e Ht) as (l'&e'&->&Hst'&Ht'&HP');
    [| done | by rewrite svc_state | | done].
  - unfold valid_id, service_count. by rewrite (table_length _ Ht).
  - intros Hge. rewrite (svc_dependency l _ Ht) in *. rewrite svc_state.
    apply orb_true_iff in Hd as [Hd|Hd]; [breflect; lia|]. by apply bool_decide_eq_true in Hd.
Qed.

Lemma boot_plan recovery ns p p' acc :
  booting p acc -> plan_run recovery p ns = Some p' -> booting p' (fold_left (boot_step recovery) ns acc).
Proof.
  revert p acc. induction ns as [|n ns IH]; intros p acc Hb Hp; cbn in *; [by simplify_eq|].
  destruct (plan_step recovery p n) as [p1|] eqn:Hs; [|done]. eapply IH; [|done]. by eapply boot_step_plan.
Qed.

(** The states a boot ends in. *)
Definition booted (recovery : bool) : list service_state_t :=
  map (fun id => if recovery && bool_decide (id ∈ [3; 4; 6]) then SERVICE_STOPPED else SERVICE_READY)
      [0; 1; 2; 3; 4; 5; 6; 7; 8; 9].

Lemma boot_plan_ends recovery :
  plan_run recovery (0, false, replicate 10 SERVICE_STOPPED) boot_order =
    Some ((if recovery then 7 else 10), true, booted recovery).
Proof. destruct recovery; vm_compute; reflexivity. Qed.

(** C16. On a healthy machine the boot sequence brings every service up: from
    the initialised table all ten services end READY and the report counts
    ten; in recovery mode diskd, userd and netd are left STOPPED, the other
    seven end READY and the report counts seven.  In particular the boot order
    is compatible with the dependencies. *)
Theorem boot_brings_services_up b e (recovery : bool) :
  P b e ->
  let '(started, (l, e')) := start_boot_services recovery (service_init (services0, e)) in
  started = (if recovery then 7 else 10) /\ map state l = booted recovery /\ table_ok l /\ P true e'.
Proof.
  intros HP.
  assert (H0 : booting (0, false, replicate 10 SERVICE_STOPPED) (0, service_init (services0, e))).
  { split_and!; [done|apply init_ok, services0_ok|done|]. cbn. eapply h_timed_stop, h_timed_init, HP. }
  pose proof (boot_plan recovery boot_order _ _ _ H0 (boot_plan_ends recovery)) as Hb.
  change (start_boot_services recovery (service_init (services0, e))) with
    (fold_left (boot_step recovery) boot_order (0, service_init (services0, e))).
  destruct (fold_left _ _ _) as [k [l e']]. destruct Hb as (?&?&?&?). done.
Qed.

End steps.

(** ** A concrete machine *)

(** Every facility present; the clock counts one update per poll while it runs. *)
Record lab := Lab { clock_on : bool; ticks : Z }.

#[export] Instance lab_env : ServiceEnv lab := {
  fs_count _ := 4; memory_free_bytes _ := 4096; memory_heap_bytes _ := 65536;
  timed_init _ := Lab false 0;
  timed_start e := Lab true (ticks e);
  timed_stop e := Lab false (ticks e);
  timed_poll e := if clock_on e then Lab true 1 else e;
  timed_updates e := ticks e;
  disk_sync e := (true, e); auth_user_count _ := 1;
  network_init e := (true, e); network_poll e := e;
  network_rx_packets _ := 0; network_tx_packets _ := 0; network_ready _ := true;
  display_characters _ := 80; display_ready _ := true;
  graphics_init e := (true, e); graphics_stop e := e; graphics_poll e := e;
  graphics_frames _ := 1; graphics_ready _ := true;
  log_init e := e; log_poll e := e; log_count _ := 3 }.

Definition lab_P (b : bool) (e : lab) : Prop := b = true -> clock_on e = true.

#[export] Instance lab_healthy : Healthy lab_P.
Proof. split; unfold lab_P; simpl; try done. intros [on t] Hon. simpl in *. by rewrite (Hon eq_refl). Qed.

Definition lab0 : lab := Lab false 0.

Lemma service_table_witness : table_ok (fst (snd (service_start 1 (services0, lab0)))).
Proof.
  apply service_table_invariant. exists lab0. eapply rtc_once. apply step_start.
Defined.

Lemma service_dependency_witness :
  dep_ready (fst (snd (service_wait_ready 1 8 (services0, lab0))))
    (svc (fst (snd (service_wait_ready 1 8 (services0, lab0)))) 7).
Proof.
  refine (proj1 (service_dependency_respected _
    (snd (service_start 7 (snd (service_wait_ready 1 8 (services0, lab0))))) 7 _ _ _ _ _)).
  - exists lab0. eapply rtc_once. apply step_wait.
  - apply step_start.
  - simpl. lia.
  - reflexivity.
  - reflexivity.
Defined.

Lemma service_wait_witness :
  fst (service_wait_ready 1 8 (services0, lab0)) = true /\
  let '(ok, (l', _)) := service_wait_ready 1 8 (services0, lab0) in
  state (svc l' 1) = (if ok then SERVICE_READY else SERVICE_FAILED) /\
  (forall j, j <> 1%nat -> svc l' j = svc services0 j) /\
  (8%nat <> 0%nat -> 1 <> 0 -> 1 <> 2 -> exit_code (svc l' 1) <> 110).
Proof.
  split; [reflexivity|].
  apply (service_wait_ready_settles 1 8 services0 lab0); [apply services0_ok|reflexivity].
Defined.

Lemma boot_witness :
  let '(started, (l, e')) := start_boot_services true (service_init (services0, lab0)) in
  started = 7 /\ map state l = booted true /\ table_ok l /\ lab_P true e'.
Proof. apply (boot_brings_services_up (P := lab_P) false lab0 true). intros ?. done. Defined.
