(* ===== verification/Panic.v ===== *)
(** * The panic screen (src/kernel/core/panic.c)

    kernel_panic saves the kernel log under a name made from the panic id,
    hands it to the persistent store, draws a boxed report and halts.  Its
    effects are a trace of [panic_event]s.  The machine it reports on
    (registers, cpuid, memory) is the record [machine]; the build's name,
    version and architecture strings are parameters. *)

From stdpp Require Import base numbers list strings.
From Stdlib Require Import ZArith Lia.
From S2P Require Import Prelude Display Log.

(** ** Box drawing characters and the attribute *)

Definition H : Z := 0xCD.
Definition V : Z := 0xBA.
Definition TL : Z := 0xC9.
Definition TR : Z := 0xBB.
Definition BL : Z := 0xC8.
Definition BR : Z := 0xBC.
Definition LS : Z := 0xCC.
Definition RS : Z := 0xB9.
Definition LC : Z := 0xC7.
Definition RC : Z := 0xB6.
Definition ATTR : Z := 0x4F.

(** ** Output helpers *)

Definition pch (c : Z) : list display_call := [Putc c].
Definition pst (s : list Z) : list display_call := display_puts s.

Definition hex_digits : list Z := text "0123456789ABCDEF".
Definition hex_digit (v : Z) : Z := nth (Z.to_nat (Z.land v 0x0F)) hex_digits 0.

(** The digits of nibbles [n-1 .. 0], most significant first. *)
Fixpoint hex (n : nat) (v : Z) : list Z :=
  match n with
  | O => []
  | S n => hex_digit (Z.shiftr v (Z.of_nat n * 4)) :: hex n v
  end.

Definition ph8 (v : Z) : list display_call := map Putc (hex 16 v).
Definition ph4 (v : Z) : list display_call := map Putc (hex 4 v).
Definition ph2 (v : Z) : list display_call := pch (hex_digit (Z.shiftr v 4)) ++ pch (hex_digit v).
Definition ph1 (v : Z) : list display_call := pch (hex_digit v).
Definition sp (n : Z) : list display_call := replicate (Z.to_nat n) (Putc 32).

Definition btop : list display_call := pch TL ++ replicate 78 (Putc H) ++ pch TR ++ pch 10.
Definition bbot : list display_call := pch BL ++ replicate 78 (Putc H) ++ pch BR ++ pch 10.
Definition bsep : list display_call := pch LS ++ replicate 78 (Putc H) ++ pch RS ++ pch 10.
Definition bdiv : list display_call := pch LC ++ replicate 78 (Putc 0xC4) ++ pch RC ++ pch 10.

Definition vline (s : list Z) : list display_call :=
  pch V ++ pch 32 ++ pst s ++ sp (76 - Z.of_nat (length s)) ++ pch V ++ pch 10.

(** A null pointer is [None]. *)
Definition bounded_text (s : option (list Z)) (limit : nat) : Z * list display_call :=
  let s := default (text "UNSPECIFIED_KERNEL_FAILURE") s in
  let shown := take limit s in
  (Z.of_nat (length shown), map Putc shown).

Definition canonical (address : Z) : bool :=
  let upper := Z.shiftr address 48 in (upper =? 0x0000) || (upper =? 0xFFFF).

Fixpoint rhash_from (hash : Z) (s : list Z) : Z :=
  match s with
  | [] => hash
  | c :: s => rhash_from (u64 (Z.lxor hash c * 1099511628211)) s
  end.

Definition rhash (reason : option (list Z)) : Z :=
  match reason with
  | None => 1469598103934665603
  | Some s => rhash_from 1469598103934665603 s
  end.

(** ** Saving the log *)

Definition LOG_SAVE_SIZE : nat := Z.to_nat 6144.

(** log_save_buf and the write position; a write past the end is [Undefined]. *)
Definition save : Type := list Z * nat.

Definition emit (c : Z) (s : save) : outcome save :=
  let '(buf, pos) := s in
  if Nat.ltb pos LOG_SAVE_SIZE then Ok (<[pos := c]> buf, S pos) else Undefined.

Fixpoint emit_all (cs : list Z) (s : save) : outcome save :=
  match cs with
  | [] => Ok s
  | c :: cs => do s <- emit c s; emit_all cs s
  end.

(** The loops that copy a string while [pos + 1 < sizeof log_save_buf]. *)
Fixpoint emit_while (cs : list Z) (s : save) : outcome save :=
  match cs with
  | [] => Ok s
  | c :: cs =>
    if Nat.ltb (snd s + 1) LOG_SAVE_SIZE then do s <- emit c s; emit_while cs s else Ok s
  end.

(** [if (pos + room < sizeof log_save_buf) { ... }] *)
Definition emit_if (room : nat) (cs : list Z) (s : save) : outcome save :=
  if Nat.ltb (snd s + room) LOG_SAVE_SIZE then emit_all cs s else Ok s.

Definition level_text (lv : Z) : list Z :=
  if lv =? LOG_ERROR then text "ERROR" else if lv =? LOG_WARN then text "WARN "
  else if lv =? LOG_INFO then text "INFO " else text "DEBUG".

Definition save_frac (ts : Z) : list Z :=
  let frac := (ts mod 1000000000) / 1000000 in
  [46; hex_digit (Z.shiftr frac 8); hex_digit (Z.shiftr frac 4); hex_digit frac].

Definition save_entry (ts lv : Z) (sub m : list Z) (s : save) : outcome save :=
  do s <- emit_while (decimal (ts / 1000000000)) s;
  do s <- emit_if 4 (save_frac ts) s;
  do s <- emit_if 8 ([32; 91] ++ level_text lv ++ [93; 32]) s;
  do s <- emit_while sub s;
  do s <- emit_if 3 [58; 32] s;
  do s <- emit_while m s;
  emit_if 1 [10] s.

(** The entry loop from index [i]; [fuel] is the number of entries left. *)
Fixpoint save_loop (fuel i : nat) (log : log_state) (s : save) : outcome save :=
  match fuel with
  | O => Ok s
  | S fuel =>
    if Nat.ltb i (log_count log) && Nat.ltb (snd s + 100) LOG_SAVE_SIZE then
      match log_read i log with
      | None => save_loop fuel (S i) log s
      | Some (ts, lv, sub, m) =>
        do s <- save_entry ts lv sub m s; save_loop fuel (S i) log s
      end
    else Ok s
  end.

Definition panic_fname (id : Z) : list Z :=
  text "/mnt/logs/log-" ++ hex 16 id ++ text ".log".

Inductive panic_event :=
| VarfsStore (path data : list Z)
| PstorePanic (reason : option (list Z)) (data : list Z)
| Show (c : display_call).

(** The buffer, log_save_size, and the store it makes unless the log is empty. *)
Definition panic_log_save (id : Z) (log : log_state) (buf : list Z) :
    outcome (list Z * nat * list panic_event) :=
  do '(buf, pos) <- save_loop (log_count log) 0 log (buf, 0%nat);
  let buf := if Nat.ltb (pos + 1) LOG_SAVE_SIZE then <[pos := 0]> buf else buf in
  Ok (buf, pos, if Nat.eqb pos 0 then [] else [VarfsStore (panic_fname id) (take pos buf)]).

(** ** The machine *)

Record machine := Machine {
  rax : Z; rbx : Z; rcx : Z; rdx : Z; rsi : Z; rdi : Z; r8 : Z; r9 : Z;
  r10 : Z; r11 : Z; r12 : Z; r13 : Z; r14 : Z; r15 : Z;
  rsp : Z; rbp : Z; rip : Z;
  cr0 : Z; cr2 : Z; cr3 : Z; cr4 : Z; rflags : Z;
  cs : Z; ss : Z; ds : Z; es : Z; fs : Z; gs : Z;
  cpuid : Z -> Z * Z * Z * Z;  (* eax, ebx, ecx, edx of leaf (sub-leaf 0) *)
  mem : memory
}.

(** Family, model and stepping. *)
Definition cpu_signature (m : machine) : Z * Z * Z :=
  let '(cpuid_max, _, _, _) := cpuid m 0 in
  if 1 <=? cpuid_max then
    let '(eax1, _, _, _) := cpuid m 1 in
    let stepping := Z.land eax1 0xF in
    let model := Z.land (Z.shiftr eax1 4) 0xF in
    let family := Z.land (Z.shiftr eax1 8) 0xF in
    if (family =? 6) || (family =? 15)
    then (family + Z.land (Z.shiftr eax1 20) 0xFF, Z.lor model (Z.land (Z.shiftr eax1 16) 0xF0), stepping)
    else (family, model, stepping)
  else (0, 0, 0).

Definition four_bytes (v : Z) : list display_call :=
  map (fun i => Putc (u8 (Z.shiftr v (i * 8)))) [0; 1; 2; 3].

(** The return addresses found along the frame pointers, at most [fuel]. *)
Fixpoint walk_frames (fuel : nat) (m : memory) (walk : Z) : list Z :=
  match fuel with
  | O => []
  | S fuel =>
    if z2b walk && canonical walk
    then rd64 m (walk + 8) :: walk_frames fuel m (rd64 m walk)
    else []
  end.

(** ** The screen, row by row *)

Definition row : Type := list display_call.

(** [pch(V) ... pch(V); pch('\n')] *)
Definition boxed (r : row) : row := pch V ++ r ++ pch V ++ pch 10.

Section screen.

(** OS64_NAME, OS64_KERNEL_VERSION and OS64_ARCHITECTURE are set by the build. *)
Context (OS64_NAME OS64_KERNEL_VERSION OS64_ARCHITECTURE : list Z).

Definition reason_row (reason : option (list Z)) : row :=
  let r := match reason with Some (c :: s) => Some (c :: s) | _ => None end in
  let '(rl, calls) := bounded_text r 60 in
  boxed (pst (text "  Reason:    ") ++ calls ++ sp (60 - rl)).

Definition rows_head (reason : option (list Z)) : list row :=
  [ btop;
    boxed (pst (text "                         ***  OS64 KERNEL PANIC  ***                        "));
    bsep;
    vline (text "OS64 encountered an unrecoverable kernel fault and stopped safely.");
    vline (text "User-program and filesystem errors must not reach this screen.");
    vline (text "Record the panic ID and attach the saved kernel log when reporting it.");
    boxed (pst (text "  Stop code: OS64_KERNEL_PANIC                                               "));
    reason_row reason;
    bsep;
    vline (text "Recovery: reboot into OS64 Recovery Mode and inspect /mnt/logs.");
    vline (text "Do not continue using the machine after an unrecoverable kernel fault.");
    bsep ].

Definition three (a : string) (va : Z) (b : string) (vb : Z) (c : string) (vc : Z) : row :=
  boxed (pst (text a) ++ ph8 va ++ pst (text b) ++ ph8 vb ++ pst (text c) ++ ph8 vc ++ sp 10).

Definition rows_registers (m : machine) : list row :=
  [ three "  RAX " (rax m) "  RBX " (rbx m) "  RCX " (rcx m);
    three "  RDX " (rdx m) "  RSI " (rsi m) "  RDI " (rdi m);
    three "  RBP " (rbp m) "  RSP " (rsp m) "  R8  " (r8 m);
    three "  R9  " (r9 m) "  R10 " (r10 m) "  R11 " (r11 m);
    three "  R12 " (r12 m) "  R13 " (r13 m) "  R14 " (r14 m);
    three "  R15 " (r15 m) "  RIP " (rip m) "  RFL " (rflags m);
    bsep;
    three "  CR0 " (cr0 m) "  CR2 " (cr2 m) "  CR3 " (cr3 m);
    boxed (pst (text "  CR4 ") ++ ph8 (cr4 m) ++ pst (text "  CS:") ++ ph4 (cs m)
           ++ pst (text " SS:") ++ ph4 (ss m) ++ pst (text " DS:") ++ ph4 (ds m)
           ++ pst (text " ES:") ++ ph4 (es m) ++ pst (text " FS:") ++ ph4 (fs m)
           ++ pst (text " GS:") ++ ph4 (gs m) ++ sp 14);
    bdiv ].

Definition rows_cpu (m : machine) : list row :=
  let '(_, vendor0, vendor2, vendor1) := cpuid m 0 in
  let '(family, model, stepping) := cpu_signature m in
  [ boxed (pst (text "  Vendor: ") ++ four_bytes vendor0 ++ four_bytes vendor1 ++ four_bytes vendor2
           ++ pst (text "  Family: ") ++ ph2 family ++ pst (text "  Model: ") ++ ph2 model
           ++ pst (text "  Step: ") ++ ph1 stepping ++ sp 26);
    bdiv ].

(** Frames [i .. i + 2] of the trace, numbered. *)
Definition trace_row (i : nat) (fs : list Z) : row :=
  let part := take 3 (drop i fs) in
  boxed (concat (imap (fun k f => pch 32 ++ pch 35 ++ ph1 (Z.of_nat (i + k)) ++ pch 32 ++ ph8 f) part)
         ++ sp (77 - (1 + 20 * Z.of_nat (length part)))).

Definition rows_trace (m : machine) : list row :=
  let frames := walk_frames 6 (mem m) (rbp m) in
  [ boxed (pst (text "  Call trace:") ++ sp 64) ]
  ++ (if Nat.eqb (length frames) 0
      then [ boxed (pst (text "  (unavailable - RBP chain invalid)                                         ")) ]
      else trace_row 0 frames :: (if Nat.ltb 3 (length frames) then [trace_row 3 frames] else []))
  ++ [ bdiv ].

Definition stack_row (m : machine) (r : nat) : row :=
  boxed (concat (map (fun col => let idx := Z.of_nat (r * 4 + col) in
           pch 32 ++ ph2 (idx * 8) ++ pch 32 ++ ph8 (rd64 (mem m) (rsp m + idx * 8)) ++ pch 32)
         (seq 0 4)) ++ sp (78 - (1 + 21 * 4))).

Definition rows_stack (m : machine) : list row :=
  [ boxed (pst (text "  Stack dump:") ++ sp 65) ]
  ++ (if negb (z2b (rsp m)) || negb (canonical (rsp m))
      then [ boxed (pst (text "  Stack pointer unavailable                                                    ")) ]
      else [ stack_row m 0; stack_row m 1 ])
  ++ [ bsep ].

Definition rows_foot (panic_id : Z) : list row :=
  [ boxed (pst (text "  Panic ID: 0x") ++ ph8 panic_id
           ++ pst (text "    System halted    " ++ OS64_NAME ++ [32] ++ OS64_KERNEL_VERSION
                   ++ [32] ++ OS64_ARCHITECTURE) ++ sp 4);
    bbot ].

Definition panic_rows (reason : option (list Z)) (m : machine) (panic_id : Z) : list row :=
  rows_head reason ++ rows_registers m ++ rows_cpu m ++ rows_trace m ++ rows_stack m ++ rows_foot panic_id.

Definition panic_id (reason : option (list Z)) (m : machine) : Z :=
  Z.lxor (Z.lxor (Z.lxor (rhash reason) (rsp m)) (cr2 m)) (rip m).

Record panic_state := PanicState {
  panic_active : bool;
  log_save_buf : list Z;
  log_save_size : nat
}.

(** The trace up to the final halt loop, from which it does not return. *)
Definition kernel_panic (reason : option (list Z)) (m : machine) (log : log_state) (p : panic_state) :
    outcome (panic_state * list panic_event) :=
  if panic_active p then Ok (p, []) else
  let id := panic_id reason m in
  do '(buf, size, stores) <- panic_log_save id log (log_save_buf p);
  Ok (PanicState true buf size,
      stores ++ [PstorePanic reason (take size buf); Show (Color ATTR); Show Clear]
      ++ map Show (concat (panic_rows reason m id))).

End screen.
