(* ===== verification/PanicTheorems.v ===== *)
(** * The panic report: no overflow, what is saved, where, and its geometry *)

From stdpp Require Import base numbers list strings.
From Stdlib Require Import ZArith Lia.
From S2P Require Import Prelude Display Log Panic.

(** ** Writing into the save buffer *)

Definition save_ok (s : save) : Prop := length (fst s) = LOG_SAVE_SIZE /\ (snd s <= LOG_SAVE_SIZE)%nat.
Definition content (s : save) : list Z := take (snd s) (fst s).

Lemma content_length s : save_ok s -> length (content s) = snd s.
Proof. intros [Hl Hp]. unfold content. rewrite length_take. lia. Qed.

(** [s'] is [s] with [cs] appended. *)
Definition appended (cs : list Z) (s s' : save) : Prop :=
  save_ok s' /\ content s' = content s ++ cs /\ snd s' = (snd s + length cs)%nat.

Lemma appended_nil s : save_ok s -> appended [] s s.
Proof. intros Hs. split_and!; [done|by rewrite app_nil_r|simpl; lia]. Qed.

Lemma appended_trans cs ds s1 s2 s3 :
  appended cs s1 s2 -> appended ds s2 s3 -> appended (cs ++ ds) s1 s3.
Proof.
  intros (_&H1&H2) (H3&H4&H5). split_and!; [done|by rewrite H4, H1, app_assoc|rewrite length_app; lia].
Qed.

Lemma emit_ok c s : save_ok s -> (snd s < LOG_SAVE_SIZE)%nat -> exists s', emit c s = Ok s' /\ appended [c] s s'.
Proof.
  destruct s as [buf pos]. intros [Hl Hp] Hlt. cbn [fst snd] in *. unfold emit.
  rewrite (proj2 (Nat.ltb_lt _ _) Hlt). eexists. split; [done|]. split_and!; cbn [fst snd length].
  - split; cbn [fst snd]; [by rewrite length_insert|lia].
  - unfold content. cbn [fst snd]. rewrite (take_S_r _ _ c) by (apply list_lookup_insert_eq; lia).
    by rewrite take_insert_ge by lia.
  - lia.
Qed.

Lemma emit_all_ok cs s :
  save_ok s -> (snd s + length cs <= LOG_SAVE_SIZE)%nat ->
  exists s', emit_all cs s = Ok s' /\ appended cs s s'.
Proof.
  revert s. induction cs as [|c cs IH]; intros s Hs Hf; cbn [emit_all length] in *.
  { exists s. auto using appended_nil. }
  destruct (emit_ok c s Hs) as (s1&->&Ha); [lia|]. cbn [obind].
  destruct Ha as (Hs1&Hc1&Hp1). cbn [length] in Hp1.
  destruct (IH s1 Hs1) as (s2&->&Ha2); [lia|]. exists s2. split; [done|].
  change (c :: cs) with ([c] ++ cs). by eapply appended_trans.
Qed.

(** A guarded write whose guard leaves room for it. *)
Lemma emit_if_ok room cs s :
  save_ok s -> (length cs <= room + 1)%nat ->
  exists s' cs', emit_if room cs s = Ok s' /\ appended cs' s s' /\
    ((snd s + room < LOG_SAVE_SIZE)%nat -> cs' = cs).
Proof.
  intros Hs Hr. unfold emit_if. destruct (Nat.ltb_spec (snd s + room) LOG_SAVE_SIZE).
  - destruct (emit_all_ok cs s Hs) as (s'&->&?); [lia|]. by exists s', cs.
  - exists s, []. split_and!; [done|by apply appended_nil|lia].
Qed.

Lemma emit_while_ok cs s :
  save_ok s ->
  exists s' cs', emit_while cs s = Ok s' /\ appended cs' s s' /\
    ((snd s + length cs < LOG_SAVE_SIZE)%nat -> cs' = cs).
Proof.
  revert s. induction cs as [|c cs IH]; intros s Hs; cbn [emit_while].
  { exists s, []. split_and!; [done|by apply appended_nil|done]. }
  destruct (Nat.ltb_spec (snd s + 1) LOG_SAVE_SIZE).
  - destruct (emit_ok c s Hs) as (s1&->&Ha); [lia|]. cbn [obind]. pose proof Ha as (Hs1&_&Hp1).
    destruct (IH s1 Hs1) as (s2&cs'&->&Ha2&Hfull). exists s2, (c :: cs'). split_and!; [done| |].
    + change (c :: cs') with ([c] ++ cs'). by eapply appended_trans.
    + cbn [length] in *. intros. f_equal. apply Hfull. lia.
  - exists s, []. split_and!; [done|by apply appended_nil|cbn [length]; lia].
Qed.

(** ** One entry *)

(** The text saved for one retained message. *)
Definition save_line (x : Z * Z * list Z * list Z) : list Z :=
  let '(ts, lv, sub, m) := x in
  decimal (ts / 1000000000) ++ save_frac ts ++ ([32; 91] ++ level_text lv ++ [93; 32])
  ++ sub ++ [58; 32] ++ m ++ [10].

(** A 64-bit time stamp, a subsystem name of at most 16 characters, and a
    message as the ring stores it. *)
Definition item_ok (x : Z * Z * list Z * list Z) : Prop :=
  let '(ts, lv, sub, m) := x in is_u64 ts /\ (length sub <= 16)%nat /\ (length m <= 55)%nat.

Lemma decimal_seconds_length ts : is_u64 ts -> (1 <= length (decimal (ts / 1000000000)) <= 11)%nat.
Proof.
  intros Hts. unfold is_u64 in Hts. unfold decimal. destruct (_ =? 0) eqn:Hz; [cbn [length]; lia|]. breflect.
  rewrite length_rev. split.
  - cbn [digits_rev]. rewrite (proj2 (Z.eqb_neq _ _) Hz). cbn [length]. lia.
  - apply digits_rev_small. change (Z.of_nat 11) with 11. Z.div_mod_to_equations; lia.
Qed.

Lemma level_text_length lv : length (level_text lv) = 5%nat.
Proof. unfold level_text. by repeat case_match. Qed.

Lemma save_entry_ok ts lv sub m s :
  save_ok s ->
  exists s' cs, save_entry ts lv sub m s = Ok s' /\ appended cs s s' /\
    ((snd s + 100 < LOG_SAVE_SIZE)%nat -> item_ok (ts, lv, sub, m) -> cs = save_line (ts, lv, sub, m)).
Proof.
  intros Hs. unfold save_entry.
  destruct (emit_while_ok (decimal (ts / 1000000000)) s Hs) as (s1&c1&->&A1&F1). cbn [obind].
  destruct (emit_if_ok 4 (save_frac ts) s1) as (s2&c2&->&A2&F2); [apply A1|cbn; lia|]. cbn [obind].
  destruct (emit_if_ok 8 ([32; 91] ++ level_text lv ++ [93; 32]) s2) as (s3&c3&->&A3&F3);
    [apply A2|rewrite !length_app, level_text_length; cbn; lia|]. cbn [obind].
  destruct (emit_while_ok sub s3) as (s4&c4&->&A4&F4); [apply A3|]. cbn [obind].
  destruct (emit_if_ok 3 [58; 32] s4) as (s5&c5&->&A5&F5); [apply A4|cbn; lia|]. cbn [obind].
  destruct (emit_while_ok m s5) as (s6&c6&->&A6&F6); [apply A5|]. cbn [obind].
  destruct (emit_if_ok 1 [10] s6) as (s7&c7&->&A7&F7); [apply A6|cbn; lia|].
  eexists s7, _. split_and!; [done|do 6 (eapply appended_trans; [eassumption|]); eassumption|].
  intros Hroom (Hts&Hsub&Hm). pose proof (decimal_seconds_length ts Hts).
  destruct A1 as (_&_&P1), A2 as (_&_&P2), A3 as (_&_&P3), A4 as (_&_&P4), A5 as (_&_&P5), A6 as (_&_&P6).
  rewrite F1 in * by lia. rewrite F2 in * by lia. change (length (save_frac ts)) with 4%nat in P2.
  rewrite F3 in * by lia. rewrite !length_app, level_text_length in P3. cbn [length] in P3.
  rewrite F4 in * by lia. rewrite F5 in * by lia. cbn [length] in P5.
  rewrite F6 in * by lia. rewrite F7 by lia. done.
Qed.

(** ** The loop over the ring *)

Definition recent (h : list (Z * Z * list Z * list Z)) (log : log_state) := drop (length h - count log) h.

Lemma save_loop_ok log h fuel i s :
  ring log h -> save_ok s -> (i + fuel = count log)%nat ->
  exists s' cs, save_loop fuel i log s = Ok s' /\ appended cs s s' /\
    (Forall item_ok (recent h log) ->
     exists k, (k <= fuel)%nat /\ cs = concat (map save_line (take k (drop i (recent h log)))) /\
       ((k < fuel)%nat -> (LOG_SAVE_SIZE <= snd s' + 100)%nat)).
Proof.
  intros Hr. revert i s. induction fuel as [|fuel IH]; intros i s Hs Hi; cbn [save_loop].
  { exists s, []. split_and!; [done|by apply appended_nil|]. intros _. exists 0%nat. split_and!; [lia|done|lia]. }
  destruct (Nat.ltb_spec (snd s + 100) LOG_SAVE_SIZE) as [Hroom|Hroom].
  2:{ rewrite andb_false_r. exists s, []. split_and!; [done|by apply appended_nil|]. intros _.
      exists 0%nat. split_and!; [lia|done|lia]. }
  rewrite andb_true_r. unfold log_count. rewrite (proj2 (Nat.ltb_lt i (count log))) by lia.
  rewrite (log_read_ring log h i Hr). fold (recent h log).
  assert (Hlt : (i < length (recent h log))%nat).
  { unfold recent. rewrite length_drop. pose proof (ring_count _ _ Hr). lia. }
  apply lookup_lt_is_Some_2 in Hlt as [x Hx]. rewrite Hx, (drop_S _ x i Hx).
  destruct x as [[[ts lv] sub] m].
  destruct (save_entry_ok ts lv sub m s Hs) as (s1&c1&->&A1&F1). cbn [obind].
  destruct (IH (S i) s1) as (s2&c2&->&A2&F2); [apply A1|lia|].
  exists s2, (c1 ++ c2). split_and!; [done|by eapply appended_trans|]. intros Hall.
  destruct (F2 Hall) as (k&Hk&->&Hstop). exists (S k). split_and!; [lia| |intros; apply Hstop; lia].
  rewrite F1; [done|done|]. by eapply Forall_lookup_1 in Hall.
Qed.

(** C17. Saving the log at panic time never writes outside its 6144-byte
    buffer, whatever the log holds.  When subsystem names have at most 16
    characters, what it saves is exactly the full lines of the oldest retained
    messages, in order, none cut short; it stops before the last message only
    when less than 101 bytes are left; and a non-empty log is stored, with
    that content, under the name of the panic id. *)
Theorem panic_log_save_correct id log h buf :
  ring log h -> length buf = LOG_SAVE_SIZE ->
  exists buf' pos events, panic_log_save id log buf = Ok (buf', pos, events) /\
    (pos <= LOG_SAVE_SIZE)%nat /\ length buf' = LOG_SAVE_SIZE /\
    events = (if Nat.eqb pos 0 then [] else [VarfsStore (panic_fname id) (take pos buf')]) /\
    (Forall item_ok (recent h log) ->
     exists k, take pos buf' = concat (map save_line (take k (recent h log))) /\
       (k = count log \/ (LOG_SAVE_SIZE <= pos + 100)%nat)).
Proof.
  intros Hr Hb. unfold panic_log_save.
  destruct (save_loop_ok log h (log_count log) 0 (buf, 0%nat) Hr) as ([buf1 pos]&cs&->&(Hs&Hc&Hp)&Hk);
    [split; cbn [fst snd]; [done|lia]|done|].
  cbn [obind fst snd] in *. destruct Hs as [Hl Hpos]. cbn [fst snd] in *.
  set (buf2 := if Nat.ltb (pos + 1) LOG_SAVE_SIZE then <[pos := 0]> buf1 else buf1).
  assert (Ht : take pos buf2 = take pos buf1)
    by (unfold buf2; destruct (Nat.ltb _ _); [by rewrite take_insert_ge by lia|done]).
  exists buf2, pos, (if Nat.eqb pos 0 then [] else [VarfsStore (panic_fname id) (take pos buf2)]).
  split_and!; [done|done|by unfold buf2; destruct (Nat.ltb _ _); rewrite ?length_insert|done|].
  intros Hall. destruct (Hk Hall) as (k&Hle&->&Hstop). exists k. rewrite Ht.
  unfold content in Hc. cbn [fst snd take app] in Hc. rewrite drop_0 in Hc. split; [done|].
  unfold log_count in *. destruct (decide (k = count log)); [by left|right; apply Hstop; lia].
Qed.

Lemma panic_log_save_witness :
  exists buf' pos events,
    panic_log_save 5 (fold_left (fun s o => run_op o s) [OInit 7] log_static) (replicate LOG_SAVE_SIZE 0)
      = Ok (buf', pos, events) /\ (pos <= LOG_SAVE_SIZE)%nat.
Proof.
  destruct (panic_log_save_correct 5 (fold_left (fun s o => run_op o s) [OInit 7] log_static)
    (snd (fold_left (fun a o => spec_op o a) [OInit 7] (0, []))) (replicate LOG_SAVE_SIZE 0))
    as (b&p&ev&H1&H2&_).
  - apply (run_ops_ring [OInit 7] log_static []); [apply static_ring|]. repeat constructor.
  - apply length_replicate.
  - exists b, p, ev. split; assumption.
Defined.

(** ** Hexadecimal *)

Definition hex_digit_value (d : Z) : Z := if d <=? 57 then d - 48 else d - 55.
Definition hex_value (ds : list Z) : Z := fold_left (fun acc d => acc * 16 + hex_digit_value d) ds 0.

Lemma hex_length n v : length (hex n v) = n.
Proof. induction n; simpl; congruence. Qed.

Lemma hex_digit_back v : hex_digit_value (hex_digit v) = v mod 16.
Proof.
  unfold hex_digit. change 0x0F with (Z.ones 4). rewrite Z.land_ones by lia. change (2 ^ 4) with 16.
  pose proof (Z.mod_pos_bound v 16 ltac:(lia)) as Hb. remember (v mod 16) as d eqn:Hd. clear Hd v.
  assert (Hc : d = 0 \/ d = 1 \/ d = 2 \/ d = 3 \/ d = 4 \/ d = 5 \/ d = 6 \/ d = 7 \/ d = 8 \/ d = 9
    \/ d = 10 \/ d = 11 \/ d = 12 \/ d = 13 \/ d = 14 \/ d = 15) by lia.
  repeat (destruct Hc as [->|Hc]; [reflexivity|]). by subst.
Qed.

Lemma hex_fold n v acc :
  fold_left (fun acc d => acc * 16 + hex_digit_value d) (hex n v) acc =
  acc * 16 ^ Z.of_nat n + v mod 16 ^ Z.of_nat n.
Proof.
  revert acc. induction n as [|n IH]; intros acc; [simpl; rewrite Z.mod_1_r; lia|].
  cbn [hex fold_left]. rewrite IH, hex_digit_back, Z.shiftr_div_pow2 by lia.
  replace (2 ^ (Z.of_nat n * 4)) with (16 ^ Z.of_nat n)
    by (rewrite Z.mul_comm, Z.pow_mul_r by lia; reflexivity).
  rewrite Nat2Z.inj_succ, Z.pow_succ_r by lia.
  assert (Hp : 0 < 16 ^ Z.of_nat n) by lia. remember (16 ^ Z.of_nat n) as p eqn:Hpe. clear Hpe.
  rewrite (Z.mul_comm 16 p), Z.rem_mul_r by lia. lia.
Qed.

(** The file a panic saves its log to is named after the panic id and
    nothing else: the sixteen hexadecimal digits in the name read back as the
    id, so two panics share a file exactly when their ids are equal, and the
    name with its terminator fits the 64-byte buffer it is built in. *)
Theorem panic_fname_roundtrip id id' :
  is_u64 id -> is_u64 id' ->
  hex_value (take 16 (drop 14 (panic_fname id))) = id /\
  (panic_fname id = panic_fname id' <-> id = id') /\
  (length (panic_fname id) + 1 <= 64)%nat.
Proof.
  assert (Hback : forall v, is_u64 v -> hex_value (take 16 (drop 14 (panic_fname v))) = v).
  { intros v Hv. unfold panic_fname. rewrite drop_app_length' by reflexivity.
    rewrite take_app_length' by (by rewrite hex_length). unfold hex_value. rewrite hex_fold.
    unfold is_u64 in Hv. change (16 ^ Z.of_nat 16) with (2 ^ 64). rewrite Z.mod_small by lia. lia. }
  intros Hid Hid'. split_and!; [by apply Hback| |].
  - split; [|congruence]. intros He. by rewrite <- (Hback id), <- (Hback id'), He.
  - unfold panic_fname. rewrite !length_app, hex_length. simpl. lia.
Qed.

Lemma panic_fname_witness :
  hex_value (take 16 (drop 14 (panic_fname 0xDEADBEEF))) = 0xDEADBEEF /\
  panic_fname 0xDEADBEEF = text "/mnt/logs/log-00000000DEADBEEF.log".
Proof.
  split; [|reflexivity].
  apply (panic_fname_roundtrip 0xDEADBEEF 1); unfold is_u64; lia.
Defined.

(** ** The geometry of the screen *)

Lemma sp_length n : length (sp n) = Z.to_nat n.
Proof. apply length_replicate. Qed.

Lemma puts_length s : length (pst s) = length s.
Proof. apply length_map. Qed.

Lemma ph8_length v : length (ph8 v) = 16%nat.
Proof. unfold ph8. by rewrite length_map, hex_length. Qed.

Lemma ph4_length v : length (ph4 v) = 4%nat.
Proof. unfold ph4. by rewrite length_map, hex_length. Qed.

(** The columns a row takes, its line feed aside. *)
Definition columns (r : row) : nat := pred (length r).

Lemma boxed_columns r : columns (boxed r) = (length r + 2)%nat.
Proof. unfold columns, boxed. rewrite !length_app. simpl. lia. Qed.

Lemma reason_row_columns reason : columns (reason_row reason) = 75%nat.
Proof.
  unfold reason_row, bounded_text. generalize (default (text "UNSPECIFIED_KERNEL_FAILURE")
    match reason with Some (c :: s) => Some (c :: s) | _ => None end). intros t.
  rewrite boxed_columns, !length_app, puts_length, length_map, sp_length, length_take.
  change (length (text _)) with 13%nat. lia.
Qed.

Lemma three_columns a va b vb c vc :
  length (text a) = 6%nat -> length (text b) = 6%nat -> length (text c) = 6%nat ->
  columns (three a va b vb c vc) = 78%nat.
Proof.
  intros Ha Hb Hc. unfold three. rewrite boxed_columns, !length_app, !puts_length, !ph8_length, sp_length. lia.
Qed.

Lemma concat_length_const {A} (k : nat) (l : list (list A)) :
  Forall (fun x => length x = k) l -> length (concat l) = (length l * k)%nat.
Proof. induction 1 as [|x l Hx _ IH]; [done|]. cbn [concat length]. rewrite length_app. lia. Qed.

Lemma trace_row_columns i fs : columns (trace_row i fs) = 78%nat.
Proof.
  unfold trace_row. set (part := take 3 (drop i fs)).
  assert (Hp : (length part <= 3)%nat) by (unfold part; rewrite length_take; lia).
  rewrite boxed_columns, length_app, sp_length, (concat_length_const 20), length_imap; [lia|].
  apply Forall_forall. intros x Hx. apply elem_of_lookup_imap in Hx as (k&f&->&_).
  rewrite !length_app, ph8_length. done.
Qed.

Lemma stack_row_columns m r : columns (stack_row m r) = 86%nat.
Proof.
  unfold stack_row. rewrite boxed_columns, length_app, sp_length, (concat_length_const 21); [done|].
  repeat (constructor; [rewrite !length_app, ph8_length; done|]). constructor.
Qed.

Lemma rows_head_columns reason :
  map columns (rows_head reason) = [80; 78; 80; 79; 79; 79; 79; 75; 80; 79; 79; 80]%nat.
Proof. unfold rows_head. cbn [map]. rewrite reason_row_columns. reflexivity. Qed.

Lemma rows_registers_columns m :
  map columns (rows_registers m) = [78; 78; 78; 78; 78; 78; 80; 78; 87; 80]%nat.
Proof.
  unfold rows_registers. cbn [map]. rewrite !three_columns by reflexivity.
  rewrite boxed_columns, !length_app, !puts_length, !ph4_length, ph8_length, sp_length. reflexivity.
Qed.

Lemma rows_cpu_columns m : map columns (rows_cpu m) = [82; 80]%nat.
Proof.
  unfold rows_cpu. destruct (cpuid m 0) as [[[a b] c] d], (cpu_signature m) as [[f mo] st]. cbn [map].
  rewrite boxed_columns, !length_app, !puts_length, sp_length. reflexivity.
Qed.

(** Rows of the call trace: one for none to three frames, two for more. *)
Definition trace_rows (m : machine) : nat :=
  if Nat.ltb 3 (length (walk_frames 6 (mem m) (rbp m))) then 2 else 1.

Lemma rows_trace_columns m : map columns (rows_trace m) = [79%nat] ++ replicate (trace_rows m) 78%nat ++ [80%nat].
Proof.
  unfold rows_trace, trace_rows. destruct (walk_frames 6 (mem m) (rbp m)) as [|f fs] eqn:Hw.
  - rewrite !map_app. cbn [map]. rewrite boxed_columns, length_app, puts_length, sp_length. reflexivity.
  - cbn [length Nat.eqb]. destruct (Nat.ltb 3 _); rewrite !map_app; cbn [map];
      rewrite !trace_row_columns, boxed_columns, length_app, puts_length, sp_length; reflexivity.
Qed.

Definition stack_columns (m : machine) : list nat :=
  if negb (z2b (rsp m)) || negb (canonical (rsp m)) then [81%nat] else [86%nat; 86%nat].

Lemma rows_stack_columns m : map columns (rows_stack m) = [80%nat] ++ stack_columns m ++ [80%nat].
Proof.
  unfold rows_stack, stack_columns. rewrite !map_app. cbn [map].
  rewrite boxed_columns, length_app, puts_length, sp_length.
  destruct (negb _ || negb _); cbn [map]; rewrite ?stack_row_columns, ?boxed_columns, ?puts_length; reflexivity.
Qed.

(** The geometry of the panic screen.  For every machine state, reason and
    build, the row widths are those listed: the rules are 80 columns wide,
    but the other rows range from 75 to 87, and the CR4, vendor and stack rows
    exceed the 80 columns of the text screen for every machine state, so they
    wrap and break the frame. *)
Theorem panic_screen_geometry name version arch reason m id :
  map columns (panic_rows name version arch reason m id) =
    ([80; 78; 80; 79; 79; 79; 79; 75; 80; 79; 79; 80] ++ [78; 78; 78; 78; 78; 78; 80; 78; 87; 80] ++
     [82; 80] ++ ([79] ++ replicate (trace_rows m) 78 ++ [80]) ++ ([80] ++ stack_columns m ++ [80]) ++
     [14 + 16 + 21 + length name + 1 + length version + 1 + length arch + 4 + 2; 80])%nat.
Proof.
  unfold panic_rows. rewrite !map_app, rows_head_columns, rows_registers_columns, rows_cpu_columns,
    rows_trace_columns, rows_stack_columns. do 9 f_equal.
  unfold rows_foot. cbn [map]. rewrite boxed_columns, !length_app, !puts_length, ph8_length, sp_length, !length_app.
  f_equal. simpl. lia.
Qed.
