(* ===== verification/Ports.v ===== *)
(** * Port input and output

    The [in] and [out] instructions as an interface over a device state: what
    the drivers of both kernels (the port functions of src/mini64/kernel.c and
    of src/kernel/include/os64/io.h) use of the hardware. *)

From Stdlib Require Import ZArith.
From S2P Require Import Prelude.

Class Ports (D : Type) := {
  inb : Z -> D -> Z * D;
  outb : Z -> Z -> D -> D;
  inw : Z -> D -> Z * D;
  outw : Z -> Z -> D -> D
}.
