(* ===== verification/Mini64Ata.v ===== *)
(** * The rescue system's disk driver (src/mini64/kernel.c, lines 162 to 254)

    Programmed I/O on the primary ATA channel.  [ata] is the driver's state:
    the device behind the ports and pending_writes.  [AtaDrive] is a model of
    the drive (command block, data phase, write cache aside) for which the
    driver is proved to read and write the addressed sector. *)

From stdpp Require Import base numbers list.
From Stdlib Require Import ZArith Lia.
From S2P Require Import Prelude Ports.

Record ata (D : Type) := Ata { port : D; pending_writes : Z }.
Arguments Ata {D}.
Arguments port {D}.
Arguments pending_writes {D}.

Section driver.

Context {D : Type} `{Ports D}.

(** The bound of the polling loops. *)
Definition POLLS : nat := Z.to_nat 1000000.

Fixpoint wait_ready (n : nat) (d : D) : bool * D :=
  match n with
  | O => (false, d)
  | S n =>
    let '(s, d) := inb 0x1F7 d in
    if negb (z2b (Z.land s 0x80)) then (true, d) else wait_ready n d
  end.

Definition disk_wait_ready (d : D) : bool * D := wait_ready POLLS d.

Fixpoint wait_data (n : nat) (d : D) : bool * D :=
  match n with
  | O => (false, d)
  | S n =>
    let '(s, d) := inb 0x1F7 d in
    if z2b (Z.land s 1) then (false, d) else
    if z2b (Z.land s 8) then (true, d) else wait_data n d
  end.

Definition disk_wait_data (d : D) : bool * D := wait_data POLLS d.

Definition disk_flush (a : ata D) : bool * ata D :=
  if negb (z2b (pending_writes a)) then (true, a) else
  let '(ok, d) := disk_wait_ready (port a) in
  if negb ok then (false, Ata d (pending_writes a)) else
  let d := outb 0x1F7 0xE7 d in
  let '(ok, d) := disk_wait_ready d in
  if negb ok then (false, Ata d (pending_writes a)) else
  (true, Ata d 0).

Definition disk_select (lba cmd : Z) (d : D) : bool * D :=
  let '(ok, d) := disk_wait_ready d in
  if negb ok then (false, d) else
  let d := outb 0x1F6 (u8 (Z.lor 0xE0 (Z.land (Z.shiftr lba 24) 15))) d in
  let d := outb 0x1F2 1 d in
  let d := outb 0x1F3 (u8 lba) d in
  let d := outb 0x1F4 (u8 (Z.shiftr lba 8)) d in
  let d := outb 0x1F5 (u8 (Z.shiftr lba 16)) d in
  let d := outb 0x1F7 cmd d in
  (true, d).

Fixpoint read_words (n : nat) (d : D) : list Z * D :=
  match n with
  | O => ([], d)
  | S n =>
    let '(w, d) := inw 0x1F0 d in
    let '(ws, d) := read_words n d in (w :: ws, d)
  end.

Definition bytes_of_words (ws : list Z) : list Z :=
  concat (map (fun w => [u8 w; u8 (Z.shiftr w 8)]) ws).

(** [None] is failure; the 512 bytes are what the caller's buffer holds after. *)
Definition disk_read (lba : Z) (a : ata D) : option (list Z) * ata D :=
  let '(ok, d) := disk_select lba 0x20 (port a) in
  if negb ok then (None, Ata d (pending_writes a)) else
  let '(ok, d) := disk_wait_data d in
  if negb ok then (None, Ata d (pending_writes a)) else
  let '(ws, d) := read_words 256 d in
  (Some (bytes_of_words ws), Ata d (pending_writes a)).

Fixpoint write_words (n : nat) (buf : list Z) (d : D) : D :=
  match n, buf with
  | S n, lo :: hi :: buf => write_words n buf (outw 0x1F0 (u16 (Z.lor lo (Z.shiftl hi 8))) d)
  | _, _ => d
  end.

Definition disk_write (lba : Z) (buf : list Z) (a : ata D) : bool * ata D :=
  let '(ok, d) := disk_select lba 0x30 (port a) in
  if negb ok then (false, Ata d (pending_writes a)) else
  let '(ok, d) := disk_wait_data d in
  if negb ok then (false, Ata d (pending_writes a)) else
  let d := write_words 256 buf d in
  let '(ok, d) := disk_wait_ready d in
  if negb ok then (false, Ata d (pending_writes a)) else
  let a := Ata d (u32 (pending_writes a + 1)) in
  if pending_writes a <? 128 then (true, a) else disk_flush a.

(** [while (n && model[n - 1] == ' ') n--;] *)
Fixpoint strip_spaces (rev_model : list Z) : list Z :=
  match rev_model with
  | c :: r => if c =? 32 then strip_spaces r else rev_model
  | [] => []
  end.

(** The model string and the number of sectors. *)
Definition disk_identify (a : ata D) : option (list Z * Z) * ata D :=
  let '(ok, d) := disk_wait_ready (port a) in
  if negb ok then (None, Ata d (pending_writes a)) else
  let d := outb 0x1F6 0xA0 d in
  let d := outb 0x1F2 0 d in
  let d := outb 0x1F3 0 d in
  let d := outb 0x1F4 0 d in
  let d := outb 0x1F5 0 d in
  let d := outb 0x1F7 0xEC d in
  let '(s, d) := inb 0x1F7 d in
  if negb (z2b s) then (None, Ata d (pending_writes a)) else
  let '(ok, d) := disk_wait_data d in
  if negb ok then (None, Ata d (pending_writes a)) else
  let '(words, d) := read_words 256 d in
  let model := concat (map (fun i => let w := nth i words 0 in [u8 (Z.shiftr w 8); u8 w]) (seq 27 20)) in
  let sectors := Z.lor (nth 60 words 0) (Z.shiftl (nth 61 words 0) 16) in
  (Some (cstring (rev (strip_spaces (rev model))), sectors), Ata d (pending_writes a)).

End driver.

(** ** A drive *)

Inductive phase :=
| Idle
| DataIn (words : list Z)
| DataOut (lba : Z) (got : list Z).

(** [busy] is how many more status reads show BSY; every command and every
    completed sector sets it to [latency]. *)
Record drive := Drive {
  sectors : Z -> list Z;
  identity : list Z;
  latency : nat;
  busy : nat;
  r_head : Z; r_lba0 : Z; r_lba1 : Z; r_lba2 : Z;
  ph : phase
}.

Fixpoint words_of_bytes (bs : list Z) : list Z :=
  match bs with
  | lo :: hi :: bs => (lo + hi * 2 ^ 8) :: words_of_bytes bs
  | _ => []
  end.

Definition set_sector (lba : Z) (b : list Z) (f : Z -> list Z) : Z -> list Z :=
  fun l => if l =? lba then b else f l.

Definition addressed (d : drive) : Z :=
  r_lba0 d + r_lba1 d * 2 ^ 8 + r_lba2 d * 2 ^ 16 + Z.land (r_head d) 15 * 2 ^ 24.

Definition with_ph (p : phase) (d : drive) : drive :=
  Drive (sectors d) (identity d) (latency d) (busy d) (r_head d) (r_lba0 d) (r_lba1 d) (r_lba2 d) p.

Definition command (cmd : Z) (d : drive) : drive :=
  Drive (sectors d) (identity d) (latency d) (latency d) (r_head d) (r_lba0 d) (r_lba1 d) (r_lba2 d)
    (if cmd =? 0x20 then DataIn (words_of_bytes (sectors d (addressed d)))
     else if cmd =? 0x30 then DataOut (addressed d) []
     else if cmd =? 0xEC then DataIn (identity d)
     else Idle).

Definition drive_status (d : drive) : Z * drive :=
  match busy d with
  | S k => (0x80, Drive (sectors d) (identity d) (latency d) k (r_head d) (r_lba0 d) (r_lba1 d) (r_lba2 d) (ph d))
  | O => (match ph d with Idle => 0x50 | _ => 0x58 end, d)
  end.

Definition drive_outb (p v : Z) (d : drive) : drive :=
  if p =? 0x1F7 then command v d
  else if p =? 0x1F6 then Drive (sectors d) (identity d) (latency d) (busy d) v (r_lba0 d) (r_lba1 d) (r_lba2 d) (ph d)
  else if p =? 0x1F3 then Drive (sectors d) (identity d) (latency d) (busy d) (r_head d) v (r_lba1 d) (r_lba2 d) (ph d)
  else if p =? 0x1F4 then Drive (sectors d) (identity d) (latency d) (busy d) (r_head d) (r_lba0 d) v (r_lba2 d) (ph d)
  else if p =? 0x1F5 then Drive (sectors d) (identity d) (latency d) (busy d) (r_head d) (r_lba0 d) (r_lba1 d) v (ph d)
  else d.

Definition drive_inw (d : drive) : Z * drive :=
  match ph d with
  | DataIn [w] => (w, with_ph Idle d)
  | DataIn (w :: ws) => (w, with_ph (DataIn ws) d)
  | _ => (0xFFFF, d)
  end.

Definition drive_outw (w : Z) (d : drive) : drive :=
  match ph d with
  | DataOut lba got =>
    let got := got ++ [u8 w; u8 (Z.shiftr w 8)] in
    if Nat.eqb (length got) 512
    then Drive (set_sector lba got (sectors d)) (identity d) (latency d) (latency d)
           (r_head d) (r_lba0 d) (r_lba1 d) (r_lba2 d) Idle
    else with_ph (DataOut lba got) d
  | _ => d
  end.

#[export] Instance drive_ports : Ports drive := {
  inb p d := if p =? 0x1F7 then drive_status d else (0xFF, d);
  outb := drive_outb;
  inw p d := if p =? 0x1F0 then drive_inw d else (0xFFFF, d);
  outw p w d := if p =? 0x1F0 then drive_outw w d else d
}.

Definition sector_ok (b : list Z) : Prop := length b = 512%nat /\ Forall is_u8 b.

(** A drive between commands that answers in time. *)
Record idle (d : drive) : Prop := {
  idle_ph : ph d = Idle;
  idle_busy : (busy d < POLLS)%nat;
  idle_latency : (latency d < POLLS)%nat;
  idle_sectors : forall lba, sector_ok (sectors d lba);
  idle_identity : length (identity d) = 256%nat
}.

(** The waits end when BSY clears, with the data phase unchanged. *)
Definition settled (d : drive) : drive :=
  Drive (sectors d) (identity d) (latency d) 0 (r_head d) (r_lba0 d) (r_lba1 d) (r_lba2 d) (ph d).

Lemma wait_ready_settles n d : (busy d < n)%nat -> wait_ready n d = (true, settled d).
Proof.
  destruct d as [se id la bu rh r0 r1 r2 p]. unfold settled. cbn [busy]. revert bu.
  induction n as [|n IH]; intros bu Hb; [lia|]. cbn [wait_ready inb drive_ports].
  unfold drive_status. cbn [Z.eqb Pos.eqb busy]. destruct bu as [|k].
  - destruct p; reflexivity.
  - cbn -[wait_ready]. rewrite IH by lia. done.
Qed.

Lemma wait_data_settles n d : (busy d < n)%nat -> ph d <> Idle -> wait_data n d = (true, settled d).
Proof.
  destruct d as [se id la bu rh r0 r1 r2 p]. unfold settled. cbn [busy ph]. intros Hb Hp. revert bu Hb.
  induction n as [|n IH]; intros bu Hb; [lia|]. cbn [wait_data inb drive_ports].
  unfold drive_status. cbn [Z.eqb Pos.eqb busy]. destruct bu as [|k].
  - by destruct p.
  - cbn -[wait_data]. rewrite IH by lia. done.
Qed.

Lemma shiftr_land_high lba : Z.land (Z.shiftr lba 24) 15 = (lba / 2 ^ 24) mod 16.
Proof. change 15 with (Z.ones 4). rewrite Z.land_ones, Z.shiftr_div_pow2 by lia. done. Qed.

(** The command block addresses the low 28 bits. *)
Lemma addressed_select lba :
  u8 lba + u8 (Z.shiftr lba 8) * 2 ^ 8 + u8 (Z.shiftr lba 16) * 2 ^ 16 +
  Z.land (u8 (Z.lor 0xE0 (Z.land (Z.shiftr lba 24) 15))) 15 * 2 ^ 24 = lba mod 2 ^ 28.
Proof.
  replace (Z.land (u8 (Z.lor 0xE0 (Z.land (Z.shiftr lba 24) 15))) 15) with ((lba / 2 ^ 24) mod 16).
  - rewrite !Z.shiftr_div_pow2 by lia. unfold u8. Z.div_mod_to_equations. lia.
  - rewrite shiftr_land_high. pose proof (Z.mod_pos_bound (lba / 2 ^ 24) 16 ltac:(lia)) as Hb.
    remember ((lba / 2 ^ 24) mod 16) as x eqn:Hx. clear Hx.
    assert (Hc : In x [0;1;2;3;4;5;6;7;8;9;10;11;12;13;14;15]) by (simpl; lia).
    repeat (destruct Hc as [<-|Hc]; [reflexivity|]). done.
Qed.

Lemma polls_pos : (0 < POLLS)%nat.
Proof. unfold POLLS. lia. Qed.

Lemma polls_enough : (3 < POLLS)%nat.
Proof. unfold POLLS. lia. Qed.

#[local] Opaque POLLS.
#[local] Hint Resolve polls_pos polls_enough : os64.

(** After disk_select the drive has taken the command on the addressed sector. *)
Lemma disk_select_command lba cmd d :
  (busy d < POLLS)%nat ->
  exists d', disk_select lba cmd d = (true, command cmd d') /\ addressed d' = lba mod 2 ^ 28 /\
    sectors d' = sectors d /\ latency d' = latency d /\ identity d' = identity d.
Proof.
  intros Hb. unfold disk_select, disk_wait_ready. rewrite wait_ready_settles by done. cbn [negb].
  eexists. split; [cbn; reflexivity|]. split_and!; try reflexivity. unfold addressed. cbn. apply addressed_select.
Qed.

Lemma read_words_all ws d :
  ph d = DataIn ws -> ws <> [] -> read_words (length ws) d = (ws, with_ph Idle d).
Proof.
  revert d. induction ws as [|w ws IH]; intros d Hp Hn; [done|]. clear Hn.
  cbn [length read_words inw drive_ports]. cbn [Z.eqb Pos.eqb]. unfold drive_inw. rewrite Hp.
  destruct ws as [|w' ws].
  - reflexivity.
  - rewrite (IH (with_ph (DataIn (w' :: ws)) d)) by done. reflexivity.
Qed.

Lemma words_of_bytes_ind (P : list Z -> Prop) :
  P [] -> (forall b, P [b]) -> (forall lo hi bs, P bs -> P (lo :: hi :: bs)) -> forall bs, P bs.
Proof.
  intros H0 H1 H2. fix self 1. intros [|lo [|hi bs]]; [apply H0|apply H1|apply H2, self].
Qed.

Lemma words_length bs : length (words_of_bytes bs) = (length bs / 2)%nat.
Proof.
  induction bs as [| |lo hi bs IH] using words_of_bytes_ind; [done..|].
  cbn [words_of_bytes length]. rewrite IH. change (S (S (length bs))) with (2 + length bs)%nat.
  replace (2 + length bs)%nat with (length bs + 1 * 2)%nat by lia. rewrite Nat.div_add by lia. lia.
Qed.

Lemma bytes_words bs :
  Forall is_u8 bs -> Nat.Even (length bs) -> bytes_of_words (words_of_bytes bs) = bs.
Proof.
  induction bs as [|b|lo hi bs IH] using words_of_bytes_ind; intros Hb He; [done| |].
  - destruct He as [k Hk]. simpl in Hk. lia.
  - inversion Hb as [|? ? Hlo Hb']; inversion Hb' as [|? ? Hhi Hb'']; subst.
    unfold bytes_of_words in *. cbn [words_of_bytes map concat].
    rewrite IH; [|done|destruct He as [k Hk]; exists (k - 1)%nat; simpl in Hk; lia].
    rewrite Z.shiftr_div_pow2 by lia. unfold is_u8 in *. cbn [app].
    f_equal; [|f_equal]; unfold u8; Z.div_mod_to_equations; lia.
Qed.

Lemma word_bytes lo hi :
  is_u8 lo -> is_u8 hi ->
  let w := u16 (Z.lor lo (Z.shiftl hi 8)) in u8 w = lo /\ u8 (Z.shiftr w 8) = hi.
Proof.
  intros Hlo Hhi w. unfold is_u8 in Hlo, Hhi.
  assert (w = lo + hi * 2 ^ 8) as ->.
  { unfold w. rewrite <- Z.add_nocarry_lor.
    - rewrite Z.shiftl_mul_pow2 by lia. unfold u16. apply Z.mod_small. lia.
    - apply Z.bits_inj'. intros i Hi. rewrite Z.land_spec, Z.shiftl_spec, Z.bits_0 by lia.
      destruct (Z.ltb_spec i 8); [rewrite (Z.testbit_neg_r hi) by lia; apply andb_false_r|].
      assert (Z.testbit lo i = false) as ->; [|done]. apply Z.testbit_false; [lia|].
      rewrite Z.div_small; [done|]. split; [lia|]. pose proof (Z.pow_le_mono_r 2 8 i). lia. }
  rewrite Z.shiftr_div_pow2 by lia. unfold u8. Z.div_mod_to_equations. lia.
Qed.

(** Feeding the rest of a sector to a drive that has [got] so far. *)
Lemma write_words_all bs n d lba got :
  ph d = DataOut lba got -> bs <> [] -> Forall is_u8 bs -> length bs = (2 * n)%nat ->
  (length got + length bs = 512)%nat ->
  write_words n bs d =
    Drive (set_sector lba (got ++ bs) (sectors d)) (identity d) (latency d) (latency d)
      (r_head d) (r_lba0 d) (r_lba1 d) (r_lba2 d) Idle.
Proof.
  revert n d got. induction bs as [|b|lo hi bs IH] using words_of_bytes_ind;
    intros n d got Hp Hn Hb Hl Hs; [done|simpl in Hl; lia|].
  destruct n as [|n]; [simpl in Hl; lia|]. cbn [write_words outw drive_ports]. cbn [Z.eqb Pos.eqb].
  inversion Hb as [|? ? Hlo Hb']; inversion Hb' as [|? ? Hhi Hb'']; subst.
  destruct (word_bytes lo hi Hlo Hhi) as [Hw1 Hw2]. unfold drive_outw. rewrite Hp. cbv zeta.
  rewrite Hw1, Hw2. rewrite length_app. cbn [length] in *.
  destruct (Nat.eqb_spec (length got + 2) 512) as [He|He].
  - destruct bs; [|simpl in *; lia]. destruct n; [done|simpl in Hl; lia].
  - rewrite (IH n _ (got ++ [lo; hi])); try done.
    + cbn. by rewrite <- app_assoc.
    + intros ->. simpl in *. lia.
    + lia.
    + rewrite length_app. cbn [length]. lia.
Qed.

(** A driver between operations: the drive idle, fewer than 128 writes since
    the last flush. *)
Definition disk_ok (a : ata drive) : Prop := idle (port a) /\ 0 <= pending_writes a < 128.

Definition store (a : ata drive) : Z -> list Z := sectors (port a).

Lemma idle_intro d :
  ph d = Idle -> (busy d < POLLS)%nat -> (latency d < POLLS)%nat ->
  (forall lba, sector_ok (sectors d lba)) -> length (identity d) = 256%nat -> idle d.
Proof. by constructor. Qed.

Lemma disk_flush_ok a :
  disk_ok a -> exists a', disk_flush a = (true, a') /\ store a' = store a /\ disk_ok a' /\ pending_writes a' = 0.
Proof.
  intros [[Hp Hb Hl Hs Hi] Hw]. unfold disk_flush. destruct (z2b (pending_writes a)) eqn:Hz; cbn [negb].
  - unfold disk_wait_ready. rewrite wait_ready_settles by done. cbn [negb].
    rewrite wait_ready_settles by done. cbn [negb]. eexists. split_and!; [done..| |done].
    split; [|cbn; lia]. apply idle_intro; cbn; auto with os64.
  - exists a. unfold z2b in Hz. breflect. split_and!; try done.
Qed.

Lemma disk_read_ok lba a :
  disk_ok a ->
  exists a', disk_read lba a = (Some (store a (lba mod 2 ^ 28)), a') /\ store a' = store a /\ disk_ok a'.
Proof.
  intros [[Hp Hb Hl Hs Hi] Hw]. unfold disk_read.
  destruct (disk_select_command lba 0x20 (port a) Hb) as (d&->&Ha&Hse&Hla&Hid0). cbn [negb].
  unfold disk_wait_data. rewrite wait_data_settles by (cbn; congruence || lia). cbn [negb].
  set (d1 := settled _). destruct (Hs (lba mod 2 ^ 28)) as [Hlen Hu8].
  assert (Hph1 : ph d1 = DataIn (words_of_bytes (sectors (port a) (lba mod 2 ^ 28))))
    by (cbn; by rewrite Hse, Ha).
  assert (H256 : length (words_of_bytes (sectors (port a) (lba mod 2 ^ 28))) = 256%nat)
    by (rewrite words_length, Hlen; reflexivity).
  rewrite <- H256, (read_words_all _ d1 Hph1) by (intros Hn; rewrite Hn in H256; done).
  rewrite bytes_words by (done || (exists 256%nat; by rewrite Hlen)).
  eexists. split_and!; [done|exact Hse|]. split; [|done].
  apply idle_intro; cbn; rewrite ?Hla, ?Hse, ?Hid0; auto with os64.
Qed.

Lemma disk_write_ok lba b a :
  disk_ok a -> sector_ok b ->
  exists a', disk_write lba b a = (true, a') /\ store a' = set_sector (lba mod 2 ^ 28) b (store a) /\ disk_ok a'.
Proof.
  intros [[Hp Hb Hl Hs Hi] Hw] [Hlen Hu8]. unfold disk_write.
  destruct (disk_select_command lba 0x30 (port a) Hb) as (d&->&Ha&Hse&Hla&Hid0). cbn [negb].
  unfold disk_wait_data. rewrite wait_data_settles by (cbn; congruence || lia). cbn [negb].
  rewrite (write_words_all b 256 _ (lba mod 2 ^ 28) []);
    [|cbn; by rewrite Ha|by intros ->|done|by rewrite Hlen|by rewrite Hlen].
  unfold disk_wait_ready. rewrite wait_ready_settles by (cbn; lia). cbn [negb].
  set (a1 := Ata _ _). assert (Hst : store a1 = set_sector (lba mod 2 ^ 28) b (store a)) by (cbn; by rewrite Hse).
  assert (Hid : idle (port a1)).
  { apply idle_intro; cbn; rewrite ?Hla, ?Hid0; auto with os64. intros l. rewrite Hse. unfold set_sector.
    destruct (l =? _); [done|apply Hs]. }
  assert (Hpw : pending_writes a1 = pending_writes a + 1) by (cbn; apply u32_small; lia).
  destruct (Z.ltb_spec (pending_writes a1) 128).
  - exists a1. split_and!; [done..|]. split; [done|lia].
  - clear Hb Hl. unfold disk_flush. unfold z2b. rewrite (proj2 (Z.eqb_neq _ 0)) by lia. cbn [negb].
    destruct Hid as [Hp1 Hb1 Hl1 Hs1 Hi1]. unfold disk_wait_ready. rewrite wait_ready_settles by done. cbn [negb].
    rewrite wait_ready_settles by done. cbn [negb]. eexists. split_and!; [done|exact Hst|].
    split; [|cbn; lia]. apply idle_intro; cbn in *; auto with os64.
Qed.

(** Identification reads the 256 words of the drive's identity. *)
Lemma disk_identify_ok a :
  disk_ok a -> exists r a', disk_identify a = (Some r, a') /\ store a' = store a /\ disk_ok a'.
Proof.
  intros [[Hp Hb Hl Hs Hi] Hw]. unfold disk_identify, disk_wait_ready. rewrite wait_ready_settles by done. cbn [negb].
  set (d1 := outb 0x1F7 0xEC _).
  assert (Hst : exists s d2, inb 0x1F7 d1 = (s, d2) /\ z2b s = true /\ (busy d2 < POLLS)%nat /\
    ph d2 = DataIn (identity (port a)) /\ sectors d2 = sectors (port a) /\ latency d2 = latency (port a) /\
    identity d2 = identity (port a)).
  { unfold d1. cbn. unfold drive_status. cbn. destruct (latency (port a)) as [|k] eqn:Hk; eexists _, _;
      (split; [reflexivity|]); cbn; split_and!; try done; lia. }
  destruct Hst as (s&d2&->&Hz&Hb2&Hp2&Hs2&Hl2&Hi2). rewrite Hz. cbn [negb].
  unfold disk_wait_data. rewrite wait_data_settles by (done || congruence). cbn [negb].
  rewrite <- Hi. rewrite (read_words_all (identity (port a)) (settled d2)) by (done || (intros Hn; rewrite Hn in Hi; done)).
  eexists _, _. split_and!; [reflexivity|exact Hs2|]. split; [|done].
  apply idle_intro; cbn; rewrite ?Hl2, ?Hs2, ?Hi2; auto with os64.
Qed.

(** C20. On a drive that answers within a million status reads, the disk
    driver is a block store: disk_read returns the 512 bytes of the addressed
    sector and changes nothing, disk_write changes that sector to the given
    bytes and no other, both on the low 28 bits of the address, flushing
    after every 128 writes succeeds, and each leaves the driver ready for the
    next operation. *)
Theorem ata_driver_correct lba b a :
  disk_ok a -> sector_ok b ->
  (exists a', disk_read lba a = (Some (store a (lba mod 2 ^ 28)), a') /\ store a' = store a /\ disk_ok a') /\
  (exists a', disk_write lba b a = (true, a') /\
     store a' = set_sector (lba mod 2 ^ 28) b (store a) /\ disk_ok a' /\ pending_writes a' < 128) /\
  (exists a', disk_flush a = (true, a') /\ store a' = store a /\ disk_ok a' /\ pending_writes a' = 0).
Proof.
  intros Ha Hb. split_and!; [by apply disk_read_ok| |by apply disk_flush_ok].
  destruct (disk_write_ok lba b a Ha Hb) as (a'&?&?&Hok). exists a'. split_and!; try done. apply Hok.
Qed.

(** An empty drive that is busy for three status reads after each command. *)
Definition blank_drive : drive :=
  Drive (fun _ => replicate 512 0) (replicate 256 0) 3 0 0 0 0 0 Idle.
Definition blank_disk : ata drive := Ata blank_drive 0.

Lemma blank_disk_ok : disk_ok blank_disk.
Proof.
  split; [|cbn; lia]. apply idle_intro; cbn [blank_disk blank_drive port ph busy latency sectors identity]; auto with os64.
  intros _. split; [done|]. apply Forall_replicate. unfold is_u8. lia.
Qed.

Lemma ata_driver_witness :
  exists a', disk_write 7 (replicate 512 9) blank_disk = (true, a') /\
    store a' = set_sector 7 (replicate 512 9) (store blank_disk).
Proof.
  destruct (ata_driver_correct 7 (replicate 512 9) blank_disk) as (_&(a'&H1&H2&_)&_).
  - exact blank_disk_ok.
  - split; [reflexivity|]. apply Forall_replicate. unfold is_u8. lia.
  - exists a'. split; [exact H1|exact H2].
Defined.
