(* ===== verification/Mini64Fat.v ===== *)
(** * The rescue system's FAT32 volume (src/mini64/kernel.c, lines 256 to 712)

    Written over the interface [Disk], which the ATA driver implements.  The
    globals of the volume are the record [volume]; console output is the list
    of characters handed to putc. *)

From stdpp Require Import base numbers list strings.
From Stdlib Require Import ZArith Lia.
From S2P Require Import Prelude Ports Mini64Ata Effects.

(** ** The disk interface *)

Class Disk (D : Type) := {
  blk_read : Z -> D -> option (list Z) * D;
  blk_write : Z -> list Z -> D -> bool * D;
  blk_flush : D -> bool * D
}.

#[export] Instance ata_disk {D : Type} `{Ports D} : Disk (ata D) := {
  blk_read := disk_read; blk_write := disk_write; blk_flush := disk_flush
}.

(** ** State *)

Record volume := Volume {
  vol_start : Z; reserved : Z; fat_sectors : Z; data_start : Z; root_cluster : Z;
  next_free_cluster : Z; sectors_per_cluster : Z; fat_count : Z; fat_mounted : bool
}.

(** The globals as the program starts with them. *)
Definition volume0 : volume := Volume 0 0 0 0 0 3 0 0 false.

Record st (D : Type) := St { disk : D; vol : volume; out : list Z }.
Arguments St {D}.
Arguments disk {D}.
Arguments vol {D}.
Arguments out {D}.

Definition with_next (n : Z) (v : volume) : volume :=
  Volume (vol_start v) (reserved v) (fat_sectors v) (data_start v) (root_cluster v) n
    (sectors_per_cluster v) (fat_count v) (fat_mounted v).
Definition with_mounted (b : bool) (v : volume) : volume :=
  Volume (vol_start v) (reserved v) (fat_sectors v) (data_start v) (root_cluster v)
    (next_free_cluster v) (sectors_per_cluster v) (fat_count v) b.
Definition with_vol_start (n : Z) (v : volume) : volume :=
  Volume n (reserved v) (fat_sectors v) (data_start v) (root_cluster v)
    (next_free_cluster v) (sectors_per_cluster v) (fat_count v) (fat_mounted v).

(** ** Sector buffers *)

Definition byte_at (b : list Z) (o : nat) : Z := nth o b 0.
Definition r16 (b : list Z) (o : nat) : Z := Z.lor (byte_at b o) (Z.shiftl (byte_at b (o + 1)) 8).
Definition r32 (b : list Z) (o : nat) : Z := Z.lor (r16 b o) (Z.shiftl (r16 b (o + 2)) 16).
Definition w8 (o : nat) (v : Z) (b : list Z) : list Z := <[o := u8 v]> b.
Definition w16 (o : nat) (v : Z) (b : list Z) : list Z := w8 (o + 1) (Z.shiftr v 8) (w8 o v b).
Definition w32 (o : nat) (v : Z) (b : list Z) : list Z := w16 (o + 2) (Z.shiftr v 16) (w16 o v b).
Definition zero (n : nat) : list Z := replicate n 0.

(** [for (i = 0; i < n; i++) b[o + i] = s[i];] *)
Fixpoint wtext (o : nat) (s : list Z) (b : list Z) : list Z :=
  match s with
  | [] => b
  | c :: s => wtext (o + 1) s (<[o := c]> b)
  end.

Definition HOME_START : Z := 2048.
Definition HOME_SECTORS : Z := 129024.

(** ** Names *)

Definition upper (c : Z) : Z := u8 (if (97 <=? c) && (c <=? 122) then c - 32 else c).

(** The base name: at most [n] characters up to NUL, '.' or '/'; and the rest. *)
Fixpoint name_base (n : nat) (s : list Z) : list Z * list Z :=
  match n, s with
  | S n, c :: s' =>
    if (c =? 46) || (c =? 47) then ([], s)
    else let '(b, r) := name_base n s' in (upper c :: b, r)
  | _, _ => ([], s)
  end.

(** [while ( *n && *n != '.') n++;] *)
Fixpoint skip_to_dot (s : list Z) : list Z :=
  match s with
  | [] => []
  | c :: s' => if c =? 46 then s else skip_to_dot s'
  end.

Definition pad (n : nat) (s : list Z) : list Z := s ++ replicate (n - length s) 32.

Definition name83 (n : list Z) : list Z :=
  let '(base, r) := name_base 8 n in
  let ext := match skip_to_dot r with
             | _ :: r => map upper (take 3 r)
             | [] => []
             end in
  pad 8 base ++ pad 3 ext.

(** The 32-byte directory entry of slot [i]. *)
Definition entry (root : list Z) (i : nat) : list Z := take 32 (drop (i * 32) root).

Definition entry_cluster (e : list Z) : Z := Z.lor (r16 e 26) (Z.shiftl (r16 e 20) 16).

(** The first slot at or after [i] holding a live entry named [key]. *)
Fixpoint match_slot (n i : nat) (key root : list Z) : option nat :=
  match n with
  | O => None
  | S n =>
    let e := entry root i in
    if z2b (byte_at e 0) && negb (byte_at e 0 =? 0xE5) && bool_decide (take 11 e = key)
    then Some i else match_slot n (S i) key root
  end.

(** [for (slot = 0; slot < 16; slot++) if (!root[slot * 32] || root[slot * 32] == 0xE5) break;] *)
Fixpoint free_slot (n i : nat) (root : list Z) : option nat :=
  match n with
  | O => None
  | S n => if negb (z2b (byte_at root (i * 32))) || (byte_at root (i * 32) =? 0xE5)
           then Some i else free_slot n (S i) root
  end.

(** The characters before the first space. *)
Fixpoint until_space (s : list Z) : list Z :=
  match s with
  | [] => []
  | c :: s => if c =? 32 then [] else c :: until_space s
  end.

Definition dir_name (e : list Z) : list Z :=
  until_space (take 8 e) ++
  (if negb (byte_at e 8 =? 32) then 46 :: until_space (take 3 (drop 8 e)) else []).

(** Writing [bs] at [pos] of a buffer; past its end is undefined. *)
Definition blit (pos : nat) (bs buf : list Z) : outcome (list Z) :=
  if Nat.leb (pos + length bs) (length buf)
  then Ok (take pos buf ++ bs ++ drop (pos + length bs) buf) else Undefined.

(** The value after "set os64_bootmode=", cut at the end of the line, moved to
    the front of the buffer; any other contents stay as they are. *)
Definition bootmode_prefix : list Z := text "set os64_bootmode=".

Fixpoint until_eol (n : nat) (s : list Z) : list Z :=
  match n, s with
  | S n, c :: s => if negb (z2b c) || (c =? 13) || (c =? 10) then [] else c :: until_eol n s
  | _, _ => []
  end.

Definition bootmode_value (max : nat) (buf : list Z) : list Z :=
  if bool_decide (take (length bootmode_prefix) buf = bootmode_prefix)
  then until_eol (max - 1) (drop (length bootmode_prefix) buf)
  else cstring buf.

(** A module handed over by the boot loader: [None] is a null pointer. *)
Record payload := Payload { ptr : option (Z -> Z); psize : Z }.

Section fat.

Context {D : Type} `{Disk D}.

#[local] Abbreviation F := (M (st D)).

Definition disk_read_ (lba : Z) : F (option (list Z)) :=
  fun s => let '(r, d) := blk_read lba (disk s) in Ok (r, St d (vol s) (out s)).
Definition disk_write_ (lba : Z) (b : list Z) : F bool :=
  fun s => let '(r, d) := blk_write lba b (disk s) in Ok (r, St d (vol s) (out s)).
Definition disk_flush_ : F bool :=
  fun s => let '(r, d) := blk_flush (disk s) in Ok (r, St d (vol s) (out s)).
Definition get_vol : F volume := fun s => Ok (vol s, s).
Definition set_vol (f : volume -> volume) : F unit := fun s => Ok (tt, St (disk s) (f (vol s)) (out s)).
Definition puts (t : list Z) : F unit := fun s => Ok (tt, St (disk s) (vol s) (out s ++ t)).
Definition putc (c : Z) : F unit := puts [c].
Definition pnum (n : Z) : F unit := puts (decimal n).

(** [while (pbar < want) { putc('#'); pbar++; }] *)
Definition bar (pbar want : Z) : F Z :=
  puts (replicate (Z.to_nat (want - pbar)) 35) ;; ret (Z.max pbar want).

(** ** The file allocation table *)

Definition cluster_lba (v : volume) (c : Z) : Z :=
  u32 (vol_start v + data_start v + (c - 2) * sectors_per_cluster v).

Definition fat_get (c : Z) : F Z :=
  let! v := get_vol in
  let off := u32 (c * 4) in
  let! r := disk_read_ (u32 (vol_start v + reserved v + off / 512)) in
  match r with
  | None => ret 0x0FFFFFFF
  | Some b => ret (Z.land (r32 b (Z.to_nat (off mod 512))) 0x0FFFFFFF)
  end.

(** Copies [f .. f + n - 1] of the table. *)
Fixpoint fat_set_copies (n : nat) (f c x : Z) : F bool :=
  match n with
  | O => ret true
  | S n =>
    let! v := get_vol in
    let off := u32 (c * 4) in
    let lba := u32 (vol_start v + reserved v + f * fat_sectors v + off / 512) in
    let! r := disk_read_ lba in
    match r with
    | None => ret false
    | Some b =>
      let! ok := disk_write_ lba (w32 (Z.to_nat (off mod 512)) x b) in
      if negb ok then ret false else fat_set_copies n (f + 1) c x
    end
  end.

Definition fat_set (c x : Z) : F bool :=
  let! v := get_vol in fat_set_copies (Z.to_nat (fat_count v)) 0 c x.

(** ** Mounting *)

Definition signed (b : list Z) : bool := (byte_at b 510 =? 0x55) && (byte_at b 511 =? 0xAA).

Definition fat_init : F bool :=
  let! r := disk_read_ 0 in
  match r with None => ret false | Some b =>
  if negb (signed b) then ret false else
  let type := byte_at b 450 in
  if negb (type =? 0x0C) && negb (type =? 0x0B) then ret false else
  set_vol (with_vol_start (r32 b 454)) ;;
  let! v := get_vol in
  let! r := disk_read_ (vol_start v) in
  match r with None => ret false | Some b =>
  if negb (signed b) then ret false else
  if negb (r16 b 11 =? 512) || negb (r32 b 82 =? 0x33544146) then ret false else
  set_vol (fun v => Volume (vol_start v) (r16 b 14) (r32 b 36)
    (u32 (r16 b 14 + byte_at b 16 * r32 b 36)) (r32 b 44) 3 (byte_at b 13) (byte_at b 16) (fat_mounted v)) ;;
  let! r := disk_read_ (u32 (vol_start v + 1)) in
  match r with
  | Some b => let hint := r32 b 492 in if 3 <=? hint then set_vol (with_next hint) else ret tt
  | None => ret tt
  end ;;
  set_vol (with_mounted true) ;;
  disk_flush_
  end end.

Definition fat_check : F bool :=
  let! ok := fat_init in
  if negb ok then ret false else
  let! v := get_vol in
  let! r := disk_read_ (u32 (vol_start v + 1)) in
  match r with None => ret false | Some b =>
  if negb (r32 b 0 =? 0x41615252) || negb (r32 b 484 =? 0x61417272) || negb (r32 b 508 =? 0xAA550000)
  then ret false else
  let! root := fat_get (root_cluster v) in
  ret (negb (root =? 0) && negb (root =? 0x0FFFFFF7))
  end.

(** ** Formatting *)

(** A sector built by successive writes into a zeroed buffer. *)
Definition built (ws : list (list Z -> list Z)) : list Z := fold_left (fun b w => w b) ws (zero 512).

Definition format_mbr : list Z := built [
  w8 (446 + 4) 0x0C; w32 (446 + 8) HOME_START; w32 (446 + 12) HOME_SECTORS;
  w8 (462 + 4) 0x7F; w32 (462 + 8) (HOME_START + HOME_SECTORS); w32 (462 + 12) 131072;
  w8 510 0x55; w8 511 0xAA ].

Definition label : list Z := text "OS64 HOME  ".

Definition format_bpb : list Z := built [
  w8 0 0xEB; w8 1 0x58; w8 2 0x90; wtext 3 (text "OS64FAT ");
  w16 11 512; w8 13 1; w16 14 32; w8 16 2; w8 21 0xF8; w16 24 63; w16 26 16;
  w32 28 HOME_START; w32 32 HOME_SECTORS; w32 36 993; w32 44 2; w16 48 1; w16 50 6;
  w8 64 0x80; w8 66 0x29; w32 67 0x64060001; wtext 71 label; wtext 82 (text "FAT32   ");
  w8 510 0x55; w8 511 0xAA ].

Definition format_fsinfo : list Z := built [
  w32 0 0x41615252; w32 484 0x61417272; w32 488 126997; w32 492 3; w32 508 0xAA550000 ].

Definition format_fat0 : list Z := built [ w32 0 0x0FFFFFF8; w32 4 0xFFFFFFFF; w32 8 0x0FFFFFFF ].

Definition format_label : list Z := built [ wtext 0 label; w8 11 8 ].

(** Sectors [s .. s + n - 1] of copy [f]; the bar is threaded through. *)
Fixpoint format_copy (n : nat) (f s pbar : Z) : F (option Z) :=
  match n with
  | O => ret (Some pbar)
  | S n =>
    let b := if s =? 0 then format_fat0 else zero 512 in
    let! ok := disk_write_ (u32 (HOME_START + 32 + f * 993 + s)) b in
    if negb ok then ret None else
    let! pbar := bar pbar ((f * 993 + s + 1) * 40 / (2 * 993)) in
    format_copy n f (s + 1) pbar
  end.

(** Writes in order until one fails. *)
Fixpoint write_all (l : list (Z * list Z)) : F bool :=
  match l with
  | [] => ret true
  | (lba, b) :: l => let! ok := disk_write_ lba b in if negb ok then ret false else write_all l
  end.

Definition formatted : volume := Volume HOME_START 32 993 2018 2 3 1 2 true.

Definition fat_format : F bool :=
  let! ok := write_all [(0, format_mbr); (HOME_START, format_bpb); (HOME_START + 6, format_bpb);
    (HOME_START + 1, format_fsinfo); (HOME_START + 7, format_fsinfo)] in
  if negb ok then ret false else
  putc 91 ;;
  let! p := format_copy 993 0 0 0 in
  match p with None => ret false | Some p =>
  let! p := format_copy 993 1 0 p in
  match p with None => ret false | Some _ =>
  putc 93 ;; puts (text "100%" ++ [10]) ;;
  let! v := get_vol in
  let! ok := disk_write_ (cluster_lba v 2) format_label in
  if negb ok then ret false else
  set_vol (fun _ => formatted) ;;
  disk_flush_
  end end.

(** ** Files *)

(** [Some (root, slot)] when found; the root sector is read first. *)
Definition find_entry (name : list Z) : F (option (list Z * nat)) :=
  let key := name83 name in
  let! v := get_vol in
  let! r := disk_read_ (cluster_lba v (root_cluster v)) in
  match r with
  | None => ret None
  | Some root => ret (match match_slot 16 0 key root with Some i => Some (root, i) | None => None end)
  end.

(** [(HOME_SECTORS - data_start) / sectors_per_cluster + 2]; division by zero is undefined. *)
Definition cluster_limit : F Z :=
  let! v := get_vol in
  if sectors_per_cluster v =? 0 then undefined
  else ret (u32 (u32 (HOME_SECTORS - data_start v) / sectors_per_cluster v + 2)).

(** The body of both scan loops: clusters [c .. c + n - 1]; [Some r] returns. *)
Fixpoint alloc_scan (n : nat) (c : Z) : F (option Z) :=
  match n with
  | O => ret None
  | S n =>
    let! x := fat_get c in
    if x =? 0 then
      fat_set c 0x0FFFFFFF ;;
      let! v := get_vol in
      let! ok := disk_write_ (cluster_lba v c) (zero 512) in
      if negb ok then ret (Some 0) else
      set_vol (with_next (c + 1)) ;;
      ret (Some c)
    else alloc_scan n (c + 1)
  end.

(** 0 is failure. *)
Definition allocate_cluster : F Z :=
  let! max := cluster_limit in
  let! v := get_vol in
  (if (next_free_cluster v <? 3) || (max <=? next_free_cluster v) then set_vol (with_next 3) else ret tt) ;;
  let! v := get_vol in
  let start := next_free_cluster v in
  let! r := alloc_scan (Z.to_nat (max - start)) start in
  match r with Some c => ret c | None =>
  let! r := alloc_scan (Z.to_nat (start - 3)) 3 in
  match r with Some c => ret c | None => ret 0 end end.

(** Freeing a chain: at most [n] more clusters; [false] is the early return 0. *)
Fixpoint free_chain (n : nat) (cluster limit : Z) : F bool :=
  match n with
  | O => ret true
  | S n =>
    if (2 <=? cluster) && (cluster <? limit) then
      let! next := fat_get cluster in
      let! ok := fat_set cluster 0 in
      if negb ok then ret false else
      if (0x0FFFFFF8 <=? next) || (next <? 2) then ret true
      else free_chain n next limit
    else ret true
  end.

(** One sector of the file, zero padded. *)
Definition chunk (data : Z -> Z) (written size : Z) : list Z :=
  let n := if size - written <? 512 then size - written else 512 in
  map data (map (fun i => written + Z.of_nat i) (seq 0 (Z.to_nat n))) ++ zero (512 - Z.to_nat n).

(** The write loop from [written]; [None] is the early return 0. *)
Fixpoint store_loop (fuel : nat) (data : Z -> Z) (size total tail written pbar : Z) : F (option Z) :=
  if negb (written <? size) then ret (Some pbar) else
  match fuel with
  | O => out_of_fuel
  | S fuel =>
    let! v := get_vol in
    let! ok := disk_write_ (cluster_lba v tail) (chunk data written size) in
    if negb ok then ret None else
    let written := u32 (written + 512) in
    let! pbar := (if z2b total then bar pbar (u32 (written / 512 * 40) / total) else ret pbar) in
    if written <? size then
      let! next := allocate_cluster in
      if next =? 0 then ret None else
      fat_set tail next ;;
      store_loop fuel data size total next written pbar
    else store_loop fuel data size total tail written pbar
  end.

(** Replaces the old file: its chain is freed and its slot marked deleted. *)
Definition drop_old (name : list Z) : F bool :=
  let! found := find_entry name in
  match found with
  | None => ret true
  | Some (root, slot) =>
    let! limit := cluster_limit in
    let! ok := free_chain (Z.to_nat limit) (entry_cluster (entry root slot)) limit in
    if negb ok then ret false else
    let! v := get_vol in
    disk_write_ (cluster_lba v (root_cluster v)) (w8 (slot * 32) 0xE5 root)
  end.

(** The directory entry disk_store_large writes. *)
Definition make_entry (name : list Z) (first size : Z) : list Z :=
  w16 26 first (w16 20 (Z.shiftr first 16) (w32 28 size (w8 11 0x20 (name83 name ++ zero 21)))).

Definition put_entry (slot : nat) (e root : list Z) : list Z :=
  take (slot * 32) root ++ e ++ drop (slot * 32 + 32) root.

Definition disk_store_large (name : list Z) (data : Z -> Z) (size : Z) : F bool :=
  let! ok := drop_old name in
  if negb ok then ret false else
  let! v := get_vol in
  let! r := disk_read_ (cluster_lba v (root_cluster v)) in
  match r with None => ret false | Some root =>
  match free_slot 16 0 root with None => ret false | Some slot =>
  let! first := allocate_cluster in
  if first =? 0 then ret false else
  let total := u32 (size + 511) / 512 in
  putc 91 ;;
  let! r := store_loop (Z.to_nat (size / 512 + 1)) data size total first 0 0 in
  match r with None => ret false | Some pbar =>
  bar pbar 40 ;; putc 93 ;; pnum 100 ;; puts (text "%" ++ [10]) ;;
  let! v := get_vol in
  let! ok := disk_write_ (cluster_lba v (root_cluster v)) (put_entry slot (make_entry name first size) root) in
  if negb ok then ret false else disk_flush_
  end end end.

Definition delete_root_file (name : list Z) : F bool :=
  let! found := find_entry name in
  match found with
  | None => ret false
  | Some (root, slot) =>
    let! v := get_vol in
    let! ok := disk_write_ (cluster_lba v (root_cluster v)) (w8 (slot * 32) 0xE5 root) in
    if negb ok then ret false else disk_flush_
  end.

Definition clear_panic_flag : F bool := delete_root_file (text "PANIC.FLG").

Definition list_dir : F unit :=
  let! v := get_vol in
  let! r := disk_read_ (cluster_lba v (root_cluster v)) in
  match r with
  | None => puts (text "  Cannot read root." ++ [10])
  | Some root =>
    let shown := filter (fun e => negb (negb (z2b (byte_at e 0)) || (byte_at e 0 =? 0xE5)
                                        || z2b (Z.land (byte_at e 11) 8)) = true)
                   (map (entry root) (seq 0 16)) in
    let line e :=
      let dir := z2b (Z.land (byte_at e 11) 0x10) in
      text "  " ++ (if dir then text "[DIR] " else text "[FIL] ")
      ++ cstring (dir_name e) ++ [32]
      ++ (if dir then [] else decimal (r32 e 28) ++ text " bytes") ++ [10] in
    puts (concat (map line shown)) ;;
    match shown with [] => puts (text "  (empty)" ++ [10]) | _ => ret tt end
  end.

(** The read loop of read_bootmode into [buf]; [None] is the early return 0. *)
Fixpoint bootmode_loop (fuel : nat) (cluster size pos : Z) (buf : list Z) : F (option (Z * list Z)) :=
  if negb (pos <? size) then ret (Some (pos, buf)) else
  match fuel with
  | O => out_of_fuel
  | S fuel =>
    let! v := get_vol in
    let! r := disk_read_ (cluster_lba v cluster) in
    match r with
    | None => ret None
    | Some b =>
      match blit (Z.to_nat pos) b buf with
      | Ok buf =>
        let pos := pos + 512 in
        if pos <? size then
          let! cluster := fat_get cluster in
          if 0x0FFFFFF8 <=? cluster then ret (Some (pos, buf))
          else bootmode_loop fuel cluster size pos buf
        else bootmode_loop fuel cluster size pos buf
      | _ => undefined
      end
    end
  end.

(** [Some s] is the string left in the caller's buffer of [max] bytes. *)
Definition read_bootmode (buf : list Z) : F (option (list Z)) :=
  let max := Z.of_nat (length buf) in
  let! found := find_entry (text "BOOTMODE.CFG") in
  match found with
  | None => ret None
  | Some (root, slot) =>
    let e := entry root slot in
    let size := r32 e 28 in
    let size := if max - 1 <? size then max - 1 else size in
    let! r := bootmode_loop (Z.to_nat (size / 512 + 1)) (entry_cluster e) size 0 buf in
    match r with
    | None => ret None
    | Some (pos, buf) =>
      match blit (Z.to_nat pos) [0] buf with
      | Ok buf => ret (Some (bootmode_value (length buf) buf))
      | _ => undefined
      end
    end
  end.

(** ** Recovery *)

(** Writes one payload and reports; the text differs only in the name. *)
Definition recover_file (title name : list Z) (data : Z -> Z) (size : Z) : F bool :=
  puts (text "  Writing " ++ title ++ text "... ") ;;
  let! ok := disk_store_large name data size in
  if ok then pnum size ;; puts (text " bytes written." ++ [10]) ;; ret true
  else puts (text "FAILED." ++ [10]) ;; ret false.

(** The boot loader image, sector by sector from LBA 0. *)
Fixpoint write_boot (n : nat) (i : Z) (data : Z -> Z) (sectors pbar : Z) : F (option Z) :=
  match n with
  | O => ret (Some pbar)
  | S n =>
    let! ok := disk_write_ i (map (fun k => data (i * 512 + Z.of_nat k)) (seq 0 512)) in
    if negb ok then puts (text "FAILED." ++ [10]) ;; ret None else
    let! pbar := bar pbar ((i + 1) * 40 / sectors) in
    write_boot n (i + 1) data sectors pbar
  end.

Definition is_some {A} (o : option A) : bool := match o with Some _ => true | None => false end.

Definition have (name : list Z) : F bool := let! r := find_entry name in ret (is_some r).

(** Mounting or formatting at the start of do_recover. *)
Definition recover_mount : F bool :=
  let! v := get_vol in
  if fat_mounted v then ret true else
  let! ok := fat_init in
  if ok then puts (text "  Existing FAT32 partition mounted." ++ [10]) ;; ret true else
  let! ok := fat_format in
  if negb ok then puts (text "  Failed to format partition." ++ [10]) ;; ret false
  else puts (text "  Partition formatted." ++ [10]) ;; ret true.

(** A payload that is written only when present; [guard] adds "&& size". *)
Definition recover_optional (guard : bool) (p : payload) (title name : list Z) : F bool :=
  match ptr p with
  | Some data => if guard && (psize p =? 0) then ret true else recover_file title name data (psize p)
  | None => ret true
  end.

Definition recover_boot (p : payload) : F bool :=
  match ptr p with
  | Some data =>
    if psize p =? 0 then ret true else
    let sectors := u32 (psize p + 511) / 512 in
    puts (text "  Writing bootloader... ") ;; putc 91 ;;
    let! r := write_boot (Z.to_nat sectors) 0 data sectors 0 in
    match r with
    | None => ret false
    | Some pbar => bar pbar 40 ;; putc 93 ;; puts (text "100%" ++ [10]) ;; ret true
    end
  | None => ret true
  end.

Definition recover_verify (bl : payload) : F bool :=
  let! ok := disk_flush_ in
  if negb ok then puts (text "  Final disk synchronization FAILED." ++ [10]) ;; ret false else
  let! k := have (text "KERNEL.BIN") in
  let! i := (if k then have (text "INITRD.BIN") else ret false) in
  if negb i then puts (text "  Installation verification FAILED." ++ [10]) ;; ret false else
  let! b := (if is_some (ptr bl) then
               let! m := have (text "MINI64.BIN") in if m then have (text "GRUB.CFG") else ret false
             else ret true) in
  if negb b then puts (text "  Boot file verification FAILED." ++ [10]) ;; ret false else
  puts (text "  OS64 recovery complete. Type 'boot' to restart." ++ [10]) ;; ret true.

Definition do_recover (kdata : Z -> Z) (ksize : Z) (i bl cfg m : payload) : F bool :=
  let! ok := recover_mount in if negb ok then ret false else
  let! ok := recover_file (text "KERNEL.BIN") (text "KERNEL.BIN") kdata ksize in if negb ok then ret false else
  let! ok := recover_optional false i (text "INITRD.BIN") (text "INITRD.BIN") in if negb ok then ret false else
  let! ok := recover_optional true m (text "MINI64.BIN") (text "MINI64.BIN") in if negb ok then ret false else
  let! ok := recover_optional true cfg (text "GRUB.CFG") (text "GRUB.CFG") in if negb ok then ret false else
  let! ok := recover_boot bl in if negb ok then ret false else
  recover_verify bl.

End fat.
