(* ===== verification/Mini64FatProof.v ===== *)
(** * The FAT32 volume on a working disk: lemmas

    [DiskLaws] states what the file system expects of the disk; the ATA driver
    on a drive satisfies it.  A volume with sane geometry is an abstract table
    [fat_entry] and an array of clusters; each operation is described by its
    effect on them. *)

From stdpp Require Import base numbers list strings.
From Stdlib Require Import ZArith Lia.
From S2P Require Import Prelude Ports Mini64Ata Effects Mini64Fat.

Class DiskLaws (D : Type) `{Disk D} := {
  view : D -> Z -> list Z;
  good : D -> Prop;
  view_ok d lba : good d -> sector_ok (view d lba);
  read_law d lba : good d -> 0 <= lba < 2 ^ 28 ->
    exists d', blk_read lba d = (Some (view d lba), d') /\ view d' = view d /\ good d';
  write_law d lba b : good d -> 0 <= lba < 2 ^ 28 -> sector_ok b ->
    exists d', blk_write lba b d = (true, d') /\ view d' = set_sector lba b (view d) /\ good d';
  flush_law d : good d -> exists d', blk_flush d = (true, d') /\ view d' = view d /\ good d'
}.

#[export] Instance ata_disk_laws : DiskLaws (ata drive).
Proof.
  refine {| view := store; good := disk_ok |}.
  - intros d lba [[_ _ _ Hs _] _]. apply Hs.
  - intros d lba Hd Hl. destruct (disk_read_ok lba d Hd) as (d'&Hr&?&?).
    rewrite Z.mod_small in Hr by lia. by exists d'.
  - intros d lba b Hd Hl Hb. destruct (disk_write_ok lba b d Hd Hb) as (d'&?&Hw&?).
    rewrite Z.mod_small in Hw by lia. by exists d'.
  - intros d Hd. destruct (disk_flush_ok d Hd) as (d'&?&?&?&_). by exists d'.
Defined.

(** ** Little-endian fields *)

Lemma byte_at_range b o : Forall is_u8 b -> 0 <= byte_at b o < 2 ^ 8.
Proof.
  intros Hb. unfold byte_at. rewrite nth_lookup. destruct (b !! o) eqn:Ho; simpl; [|lia].
  eapply Forall_lookup_1 in Ho; [|done]. done.
Qed.

Lemma r16_value b o : Forall is_u8 b -> r16 b o = byte_at b o + byte_at b (o + 1) * 2 ^ 8.
Proof. intros Hb. unfold r16. apply lor_shift; [by apply byte_at_range|lia]. Qed.

Lemma r16_range b o : Forall is_u8 b -> 0 <= r16 b o < 2 ^ 16.
Proof.
  intros Hb. rewrite r16_value by done. pose proof (byte_at_range b o Hb).
  pose proof (byte_at_range b (o + 1) Hb). lia.
Qed.

Lemma r32_value b o : Forall is_u8 b -> r32 b o = r16 b o + r16 b (o + 2) * 2 ^ 16.
Proof. intros Hb. unfold r32. apply lor_shift; [by apply r16_range|lia]. Qed.

Lemma r32_range b o : Forall is_u8 b -> 0 <= r32 b o < 2 ^ 32.
Proof.
  intros Hb. rewrite r32_value by done. pose proof (r16_range b o Hb).
  pose proof (r16_range b (o + 2) Hb). lia.
Qed.

Lemma w8_length o v b : length (w8 o v b) = length b.
Proof. apply length_insert. Qed.
Lemma w16_length o v b : length (w16 o v b) = length b.
Proof. unfold w16. by rewrite !w8_length. Qed.
Lemma w32_length o v b : length (w32 o v b) = length b.
Proof. unfold w32. by rewrite !w16_length. Qed.

Lemma u8_is_u8 v : is_u8 (u8 v).
Proof. apply Z.mod_pos_bound. lia. Qed.

Lemma w8_bytes o v b : Forall is_u8 b -> Forall is_u8 (w8 o v b).
Proof. intros. apply Forall_insert; [done|apply u8_is_u8]. Qed.
Lemma w16_bytes o v b : Forall is_u8 b -> Forall is_u8 (w16 o v b).
Proof. intros. by apply w8_bytes, w8_bytes. Qed.
Lemma w32_bytes o v b : Forall is_u8 b -> Forall is_u8 (w32 o v b).
Proof. intros. by apply w16_bytes, w16_bytes. Qed.

#[export] Hint Resolve w8_bytes w16_bytes w32_bytes : os64.

Lemma byte_at_w8 o o' v b :
  (o < length b)%nat -> byte_at (w8 o v b) o' = if decide (o' = o) then u8 v else byte_at b o'.
Proof.
  intros Ho. unfold byte_at, w8. rewrite !nth_lookup. case_decide as Heq.
  - subst. by rewrite list_lookup_insert_eq.
  - by rewrite list_lookup_insert_ne.
Qed.

Create Rewrite HintDb bytes.
#[export] Hint Rewrite w8_length w16_length w32_length : bytes.

(** Reading back a field, and reading past one. *)
Lemma r16_w16 o v b :
  (o + 2 <= length b)%nat -> Forall is_u8 b -> r16 (w16 o v b) o = v mod 2 ^ 16.
Proof.
  intros Ho Hb. rewrite r16_value by auto with os64. unfold w16.
  rewrite !byte_at_w8 by (rewrite ?w8_length; lia). rewrite !decide_False by lia.
  rewrite !decide_True by lia. rewrite Z.shiftr_div_pow2 by lia. unfold u8. Z.div_mod_to_equations. lia.
Qed.

Lemma byte_at_w16_ne o o' v b :
  (o + 2 <= length b)%nat -> (o' < o \/ o + 2 <= o')%nat -> byte_at (w16 o v b) o' = byte_at b o'.
Proof.
  intros Ho Hne. unfold w16. rewrite !byte_at_w8 by (rewrite ?w8_length; lia). by rewrite !decide_False by lia.
Qed.

Lemma r16_w16_ne o o' v b :
  (o + 2 <= length b)%nat -> (o' + 2 <= o \/ o + 2 <= o')%nat -> r16 (w16 o v b) o' = r16 b o'.
Proof. intros. unfold r16. by rewrite !byte_at_w16_ne by lia. Qed.

Lemma r32_w32 o v b :
  (o + 4 <= length b)%nat -> Forall is_u8 b -> r32 (w32 o v b) o = v mod 2 ^ 32.
Proof.
  intros Ho Hb. rewrite r32_value by auto with os64. unfold w32.
  rewrite r16_w16_ne, r16_w16, r16_w16 by (rewrite ?w16_length; auto with os64 lia || lia).
  rewrite Z.shiftr_div_pow2 by lia. Z.div_mod_to_equations. lia.
Qed.

Lemma r32_w32_ne o o' v b :
  (o + 4 <= length b)%nat -> (o' + 4 <= o \/ o + 4 <= o')%nat -> r32 (w32 o v b) o' = r32 b o'.
Proof.
  intros. unfold r32, w32. by rewrite !r16_w16_ne by (rewrite ?w16_length; lia).
Qed.

Lemma w32_sector o v b : sector_ok b -> sector_ok (w32 o v b).
Proof. intros [? ?]. split; [by rewrite w32_length|auto with os64]. Qed.

Lemma w8_sector o v b : sector_ok b -> sector_ok (w8 o v b).
Proof. intros [? ?]. split; [by rewrite w8_length|auto with os64]. Qed.

Lemma zero_sector : sector_ok (zero 512).
Proof. split; [done|]. apply Forall_replicate. unfold is_u8. lia. Qed.

#[export] Hint Resolve w32_sector w8_sector zero_sector : os64.

(** ** Geometry *)

(** One past the last cluster number the code uses. *)
Definition limit (v : volume) : Z := (HOME_SECTORS - data_start v) / sectors_per_cluster v + 2.

Record geo_ok (v : volume) : Prop := {
  geo_start : 0 <= vol_start v;
  geo_reserved : 1 <= reserved v;
  geo_count : 1 <= fat_count v <= 255;
  geo_sectors : 1 <= fat_sectors v;
  geo_spc : 1 <= sectors_per_cluster v <= 128;
  geo_data : data_start v = reserved v + fat_count v * fat_sectors v;
  geo_fit : data_start v <= HOME_SECTORS;
  geo_table : limit v * 4 <= fat_sectors v * 512;
  geo_end : vol_start v + HOME_SECTORS <= 2 ^ 28;
  geo_root : root_cluster v = 2;
  geo_room : 3 < limit v
}.

Lemma formatted_geo : geo_ok formatted.
Proof. constructor; vm_compute; try done; split; done. Qed.

(** The sector of copy [f] of the table that holds entry [c]. *)
Definition fat_lba (v : volume) (f c : Z) : Z := vol_start v + reserved v + f * fat_sectors v + c * 4 / 512.

Section geometry.

Context (v : volume) (Hg : geo_ok v).

Lemma limit_bounds : limit v * 4 < 2 ^ 32 /\ limit v <= HOME_SECTORS + 2.
Proof.
  destruct Hg. unfold limit, HOME_SECTORS in *.
  assert ((129024 - data_start v) / sectors_per_cluster v <= 129024 - data_start v)
    by (apply Z.div_le_upper_bound; nia). lia.
Qed.

Lemma cluster_lba_value c :
  2 <= c < limit v ->
  cluster_lba v c = vol_start v + data_start v + (c - 2) * sectors_per_cluster v /\
  vol_start v + data_start v <= cluster_lba v c < 2 ^ 28.
Proof.
  intros Hc. assert (vol_start v + data_start v <= vol_start v + data_start v + (c - 2) * sectors_per_cluster v < 2 ^ 28) as Hb.
  { destruct Hg. unfold limit in Hc.
    assert ((c - 2) * sectors_per_cluster v <= HOME_SECTORS - data_start v - sectors_per_cluster v); [|nia].
    pose proof (Z.mul_div_le (HOME_SECTORS - data_start v) (sectors_per_cluster v)). nia. }
  unfold cluster_lba. destruct Hg. rewrite u32_small by lia. lia.
Qed.

Lemma cluster_lba_inj c c' :
  2 <= c < limit v -> 2 <= c' < limit v -> cluster_lba v c = cluster_lba v c' -> c = c'.
Proof.
  intros H1 H2 He. destruct (cluster_lba_value c H1) as [E1 _], (cluster_lba_value c' H2) as [E2 _].
  destruct Hg. nia.
Qed.

Lemma fat_lba_value f c :
  0 <= f < fat_count v -> 0 <= c < limit v ->
  u32 (vol_start v + reserved v + f * fat_sectors v + u32 (c * 4) / 512) = fat_lba v f c /\
  0 <= fat_lba v f c < vol_start v + data_start v /\ fat_lba v f c < 2 ^ 28.
Proof.
  intros Hf Hc. destruct limit_bounds as [Hl _]. destruct Hg. rewrite (u32_small (c * 4)) by lia.
  assert (c * 4 / 512 < fat_sectors v) by (apply Z.div_lt_upper_bound; lia).
  assert (0 <= c * 4 / 512) by (apply Z.div_pos; lia).
  assert (0 <= fat_lba v f c < vol_start v + data_start v) by (unfold fat_lba; nia).
  split; [|lia]. apply u32_small. unfold fat_lba in *. lia.
Qed.

Lemma fat_lba_0 c :
  0 <= c < limit v ->
  u32 (vol_start v + reserved v + u32 (c * 4) / 512) = fat_lba v 0 c /\
  0 <= fat_lba v 0 c < vol_start v + data_start v /\ fat_lba v 0 c < 2 ^ 28.
Proof.
  intros Hc. destruct (fat_lba_value 0 c) as (He&?&?); [destruct Hg; lia|done|]. split; [|done].
  rewrite <- He. f_equal. lia.
Qed.

(** Distinct copies of the table do not share sectors. *)
Lemma fat_lba_copies f f' c c' :
  0 <= c < limit v -> 0 <= c' < limit v -> fat_lba v f c = fat_lba v f' c' -> f = f'.
Proof.
  intros Hc Hc'. unfold fat_lba. destruct Hg.
  assert (0 <= c * 4 / 512 < fat_sectors v) by (split; [apply Z.div_pos; lia|apply Z.div_lt_upper_bound; lia]).
  assert (0 <= c' * 4 / 512 < fat_sectors v) by (split; [apply Z.div_pos; lia|apply Z.div_lt_upper_bound; lia]).
  nia.
Qed.

Lemma fat_pos c : 0 <= c < limit v -> u32 (c * 4) mod 512 = c * 4 mod 512 /\ 0 <= c * 4 mod 512 <= 508.
Proof.
  intros Hc. destruct limit_bounds as [Hl _]. rewrite u32_small by lia. split; [done|].
  Z.div_mod_to_equations. lia.
Qed.

(** ** The table *)

(** Entry [c] as the code reads it, from the first copy. *)
Definition fat_entry (w : Z -> list Z) (c : Z) : Z :=
  Z.land (r32 (w (fat_lba v 0 c)) (Z.to_nat (c * 4 mod 512))) 0x0FFFFFFF.

(** The sectors after entry [c] of copies [f .. f + n - 1] is set to [x]. *)
Fixpoint fat_write (n : nat) (f c x : Z) (w : Z -> list Z) : Z -> list Z :=
  match n with
  | O => w
  | S n => fat_write n (f + 1) c x
             (set_sector (fat_lba v f c) (w32 (Z.to_nat (c * 4 mod 512)) x (w (fat_lba v f c))) w)
  end.

Lemma set_sector_eq l b w : set_sector l b w l = b.
Proof. unfold set_sector. by rewrite Z.eqb_refl. Qed.
Lemma set_sector_ne l l' b w : l' <> l -> set_sector l b w l' = w l'.
Proof. intros. unfold set_sector. by rewrite (proj2 (Z.eqb_neq l' l)). Qed.

Lemma fat_write_data n f c x w lba :
  0 <= f -> f + Z.of_nat n <= fat_count v -> 0 <= c < limit v ->
  vol_start v + data_start v <= lba -> fat_write n f c x w lba = w lba.
Proof.
  revert f w. induction n as [|n IH]; intros f w Hf Hn Hc Hl; [done|]. cbn [fat_write].
  destruct (fat_lba_value f c) as (_&?&_); [lia|done|]. rewrite IH by lia. apply set_sector_ne. lia.
Qed.

(** Copies other than the first do not matter for reading. *)
Lemma fat_write_entry_pos n f c x w c' :
  1 <= f -> f + Z.of_nat n <= fat_count v -> 0 <= c < limit v -> 0 <= c' < limit v ->
  fat_entry (fat_write n f c x w) c' = fat_entry w c'.
Proof.
  revert f w. induction n as [|n IH]; intros f w Hf Hn Hc Hc'; [done|]. cbn [fat_write].
  rewrite IH by lia. unfold fat_entry. rewrite set_sector_ne; [done|].
  intros He. apply fat_lba_copies in He; lia.
Qed.

Definition fat_store (c x : Z) (w : Z -> list Z) : Z -> list Z :=
  fat_write (Z.to_nat (fat_count v)) 0 c x w.

Lemma mod_512_cases c c' : c * 4 / 512 = c' * 4 / 512 -> c <> c' ->
  (Z.to_nat (c' * 4 mod 512) + 4 <= Z.to_nat (c * 4 mod 512) \/
   Z.to_nat (c * 4 mod 512) + 4 <= Z.to_nat (c' * 4 mod 512))%nat.
Proof. intros. Z.div_mod_to_equations. lia. Qed.

Lemma fat_entry_store c x w c' :
  (forall l, sector_ok (w l)) -> 0 <= c < limit v -> 0 <= c' < limit v -> 0 <= x < 2 ^ 32 ->
  fat_entry (fat_store c x w) c' = if decide (c' = c) then Z.land x 0x0FFFFFFF else fat_entry w c'.
Proof.
  intros Hw Hc Hc' Hx. unfold fat_store. destruct (geo_count v Hg) as [Hct _].
  replace (Z.to_nat (fat_count v)) with (S (Z.to_nat (fat_count v - 1))) by lia. cbn [fat_write].
  rewrite fat_write_entry_pos by lia. unfold fat_entry. destruct (Hw (fat_lba v 0 c)) as [Hlen Hb].
  destruct (fat_pos c Hc) as [_ Hp]. case_decide as He.
  - subst c'. rewrite set_sector_eq. rewrite r32_w32 by (done || lia). by rewrite Z.mod_small by lia.
  - destruct (decide (fat_lba v 0 c' = fat_lba v 0 c)) as [Hl|Hl]; [|by rewrite set_sector_ne].
    rewrite Hl, set_sector_eq. f_equal. rewrite r32_w32_ne; [done|lia|].
    assert (Hq : c * 4 / 512 = c' * 4 / 512) by (unfold fat_lba in Hl; lia).
    pose proof (mod_512_cases c c' Hq). lia.
Qed.

Lemma fat_write_sectors n f c x w l :
  (forall l, sector_ok (w l)) -> sector_ok (fat_write n f c x w l).
Proof.
  revert f w. induction n as [|n IH]; intros f w Hw; [apply Hw|]. cbn [fat_write]. apply IH.
  intros l'. unfold set_sector. destruct (l' =? _); auto with os64.
Qed.

Lemma fat_store_data c x w lba :
  0 <= c < limit v -> vol_start v + data_start v <= lba -> fat_store c x w lba = w lba.
Proof. intros. destruct (geo_count v Hg). apply fat_write_data; try done; lia. Qed.

Lemma fat_store_cluster c x w c' :
  0 <= c < limit v -> 2 <= c' < limit v -> fat_store c x w (cluster_lba v c') = w (cluster_lba v c').
Proof. intros. destruct (cluster_lba_value c') as [_ Hb]; [done|]. apply fat_store_data; [done|lia]. Qed.

(** Writing a cluster leaves the table alone. *)
Lemma fat_entry_cluster c b w c' :
  2 <= c < limit v -> 0 <= c' < limit v -> fat_entry (set_sector (cluster_lba v c) b w) c' = fat_entry w c'.
Proof.
  intros Hc Hc'. unfold fat_entry. rewrite set_sector_ne; [done|].
  destruct (cluster_lba_value c Hc), (fat_lba_0 c' Hc') as (_&?&_). lia.
Qed.

End geometry.

(** ** Running the code on a volume and its sectors *)

Section runs.

Context {D : Type} `{DiskLaws D}.

Definition at_ (v : volume) (w : Z -> list Z) (s : st D) : Prop :=
  good (disk s) /\ view (disk s) = w /\ vol s = v.

(** From volume [v] and sectors [w], [m] returns [a] and leaves [v'] and [w'];
    what it prints is free. *)
Definition runs {A} (v : volume) (w : Z -> list Z) (m : M (st D) A) (a : A) (v' : volume) (w' : Z -> list Z) : Prop :=
  forall s, at_ v w s -> exists s', m s = Ok (a, s') /\ at_ v' w' s'.

Lemma runs_ret {A} v w (a : A) : runs v w (ret a) a v w.
Proof. intros s Hs. by exists s. Qed.

Lemma runs_bind {A B} v w (m : M (st D) A) a v1 w1 (f : A -> M (st D) B) b v2 w2 :
  runs v w m a v1 w1 -> runs v1 w1 (f a) b v2 w2 -> runs v w (bind m f) b v2 w2.
Proof.
  intros Hm Hf s Hs. destruct (Hm s Hs) as (s1&E1&H1). destruct (Hf s1 H1) as (s2&E2&H2).
  exists s2. unfold bind. by rewrite E1.
Qed.

Lemma at_sectors v w s : at_ v w s -> forall l, sector_ok (w l).
Proof. intros (Hg&<-&_) l. by apply view_ok. Qed.

Lemma runs_sectors {A} v w (m : M (st D) A) a v' w' :
  ((forall l, sector_ok (w l)) -> runs v w m a v' w') -> runs v w m a v' w'.
Proof. intros Hm s Hs. exact (Hm (at_sectors v w s Hs) s Hs). Qed.

Lemma runs_get_vol v w : runs v w get_vol v v w.
Proof. intros s Hs. exists s. split; [|done]. destruct Hs as (_&_&<-). done. Qed.

Lemma runs_set_vol f v w : runs v w (set_vol f) tt (f v) w.
Proof. intros s (?&?&<-). eexists. split; [done|]. done. Qed.

Lemma runs_puts t v w : runs v w (puts t) tt v w.
Proof. intros s (?&?&?). eexists. split; [done|]. done. Qed.

Lemma runs_bar p q v w : runs v w (bar p q) (Z.max p q) v w.
Proof. eapply runs_bind; [apply runs_puts|apply runs_ret]. Qed.

Lemma runs_read lba v w : 0 <= lba < 2 ^ 28 -> runs v w (disk_read_ lba) (Some (w lba)) v w.
Proof.
  intros Hl s (Hg&<-&<-). destruct (read_law (disk s) lba Hg Hl) as (d'&E&Hv&Hg').
  unfold disk_read_. rewrite E. eexists. split; [done|]. done.
Qed.

Lemma runs_write lba b v w :
  0 <= lba < 2 ^ 28 -> sector_ok b -> runs v w (disk_write_ lba b) true v (set_sector lba b w).
Proof.
  intros Hl Hb s (Hg&<-&<-). destruct (write_law (disk s) lba b Hg Hl Hb) as (d'&E&Hv&Hg').
  unfold disk_write_. rewrite E. eexists. split; [done|]. done.
Qed.

Lemma runs_flush v w : runs v w disk_flush_ true v w.
Proof.
  intros s (Hg&<-&<-). destruct (flush_law (disk s) Hg) as (d'&E&Hv&Hg').
  unfold disk_flush_. rewrite E. eexists. split; [done|]. done.
Qed.

#[local] Hint Resolve runs_ret runs_get_vol runs_set_vol runs_puts runs_bar runs_flush : os64.

Lemma runs_fat_get v w c : geo_ok v -> 0 <= c < limit v -> runs v w (fat_get c) (fat_entry v w c) v w.
Proof.
  intros Hg Hc. unfold fat_get. eapply runs_bind; [apply runs_get_vol|].
  destruct (fat_lba_0 v Hg c Hc) as (He&Hb&Hlt). destruct (fat_pos v Hg c Hc) as [Hp _]. cbv zeta.
  rewrite He, Hp. eapply runs_bind; [apply runs_read; lia|]. apply runs_ret.
Qed.

Lemma runs_fat_set_copies v w n f c x :
  geo_ok v -> 0 <= c < limit v -> 0 <= f -> f + Z.of_nat n <= fat_count v ->
  runs v w (fat_set_copies n f c x) true v (fat_write v n f c x w).
Proof.
  intros Hg Hc. revert f w.
  induction n as [|n IH]; intros f w Hf Hn; cbn [fat_set_copies fat_write]; [apply runs_ret|].
  apply runs_sectors. intros Hw. eapply runs_bind; [apply runs_get_vol|].
  destruct (fat_lba_value v Hg f c) as (He&Hb&Hlt); [lia|done|].
  destruct (fat_pos v Hg c Hc) as [Hp _]. cbv zeta. rewrite He, Hp.
  eapply runs_bind; [apply runs_read; lia|]. cbv beta.
  eapply runs_bind; [apply runs_write; [lia|auto with os64]|]. cbn [negb]. apply IH; lia.
Qed.

Lemma runs_fat_set v w c x :
  geo_ok v -> 0 <= c < limit v -> runs v w (fat_set c x) true v (fat_store v c x w).
Proof.
  intros Hg Hc. unfold fat_set. eapply runs_bind; [apply runs_get_vol|].
  apply runs_fat_set_copies; [done..|]. destruct Hg; lia.
Qed.

Lemma runs_limit v w : geo_ok v -> runs v w cluster_limit (limit v) v w.
Proof.
  intros Hg. unfold cluster_limit. eapply runs_bind; [apply runs_get_vol|].
  destruct (limit_bounds v Hg). destruct Hg. rewrite (proj2 (Z.eqb_neq _ 0)) by lia.
  unfold HOME_SECTORS in *. rewrite (u32_small (129024 - data_start v)) by lia.
  rewrite u32_small by (unfold limit, HOME_SECTORS in *; lia). apply runs_ret.
Qed.

(** ** Allocation *)

(** The sectors after cluster [c] is taken: marked end of chain and zeroed. *)
Definition claim (v : volume) (c : Z) (w : Z -> list Z) : Z -> list Z :=
  set_sector (cluster_lba v c) (zero 512) (fat_store v c 0x0FFFFFFF w).

Lemma claim_entry v c w c' :
  geo_ok v -> (forall l, sector_ok (w l)) -> 2 <= c < limit v -> 0 <= c' < limit v ->
  fat_entry v (claim v c w) c' = if decide (c' = c) then 0x0FFFFFFF else fat_entry v w c'.
Proof.
  intros Hg Hw Hc Hc'. unfold claim. rewrite fat_entry_cluster by (done || lia).
  rewrite fat_entry_store by (done || lia). by case_decide.
Qed.

Lemma claim_cluster v c w c' :
  geo_ok v -> 2 <= c < limit v -> 2 <= c' < limit v -> c' <> c ->
  claim v c w (cluster_lba v c') = w (cluster_lba v c').
Proof.
  intros Hg Hc Hc' Hne. unfold claim. rewrite set_sector_ne.
  - apply fat_store_cluster; [done|lia|done].
  - intros He. by apply Hne, (cluster_lba_inj v Hg).
Qed.

Lemma with_next_id v : with_next (next_free_cluster v) v = v.
Proof. by destruct v. Qed.

Lemma next_geo n v : geo_ok v -> geo_ok (with_next n v).
Proof. by intros []. Qed.

Lemma alloc_scan_runs v w n c :
  geo_ok v -> 3 <= c -> c + Z.of_nat n <= limit v ->
  (exists c0, c <= c0 < c + Z.of_nat n /\ fat_entry v w c0 = 0 /\
     runs v w (alloc_scan n c) (Some c0) (with_next (c0 + 1) v) (claim v c0 w)) \/
  ((forall c0, c <= c0 < c + Z.of_nat n -> fat_entry v w c0 <> 0) /\ runs v w (alloc_scan n c) None v w).
Proof.
  intros Hg. revert c. induction n as [|n IH]; intros c Hc Hn; cbn [alloc_scan].
  { right. split; [lia|apply runs_ret]. }
  destruct (decide (fat_entry v w c = 0)) as [Hz|Hz].
  - left. exists c. split_and!; [lia..|done|].
    eapply runs_bind; [apply runs_fat_get; [done|lia]|]. rewrite Hz. cbn [Z.eqb].
    eapply runs_bind; [apply runs_fat_set; [done|lia]|]. eapply runs_bind; [apply runs_get_vol|].
    destruct (cluster_lba_value v Hg c) as [_ Hb]; [lia|]. destruct Hg.
    eapply runs_bind; [apply runs_write; [nia|apply zero_sector]|]. cbn [negb].
    eapply runs_bind; [apply runs_set_vol|]. apply runs_ret.
  - assert (Hstep : forall r v' w', runs v w (alloc_scan n (c + 1)) r v' w' ->
      runs v w (let! x := fat_get c in if x =? 0 then
        (fat_set c 0x0FFFFFFF ;; let! v := get_vol in
         let! ok := disk_write_ (cluster_lba v c) (zero 512) in
         if negb ok then ret (Some 0) else set_vol (with_next (c + 1)) ;; ret (Some c))
        else alloc_scan n (c + 1)) r v' w').
    { intros r v' w' Hr. eapply runs_bind; [apply runs_fat_get; [done|lia]|].
      by rewrite (proj2 (Z.eqb_neq _ 0)). }
    destruct (IH (c + 1)) as [(c0&Hr&Hf&Hrun)|[Hall Hrun]]; [lia..| |].
    + left. exists c0. split_and!; [lia..|done|by apply Hstep].
    + right. split; [|by apply Hstep]. intros c0 Hc0. destruct (decide (c0 = c)); [by subst|apply Hall; lia].
Qed.

(** allocate_cluster takes a free cluster, and fails only when there is none. *)
Lemma allocate_runs v w :
  geo_ok v ->
  (exists c, 3 <= c < limit v /\ fat_entry v w c = 0 /\
     runs v w allocate_cluster c (with_next (c + 1) v) (claim v c w)) \/
  ((forall c, 3 <= c < limit v -> fat_entry v w c <> 0) /\
   exists n, runs v w allocate_cluster 0 (with_next n v) w).
Proof.
  intros Hg. pose proof (geo_room v Hg) as Hroom.
  set (start := if (next_free_cluster v <? 3) || (limit v <=? next_free_cluster v) then 3 else next_free_cluster v).
  assert (Hs : 3 <= start < limit v).
  { unfold start. destruct (_ || _) eqn:Ho; [lia|]. breflect. lia. }
  assert (Hstart : exists v1, v1 = with_next start v /\ forall r v' w',
    runs v1 w (let! r := alloc_scan (Z.to_nat (limit v - start)) start in
       match r with Some c => ret c | None =>
       let! r := alloc_scan (Z.to_nat (start - 3)) 3 in
       match r with Some c => ret c | None => ret 0 end end) r v' w' ->
    runs v w allocate_cluster r v' w').
  { eexists. split; [reflexivity|]. intros r v' w' Hr. unfold allocate_cluster.
    eapply runs_bind; [by apply runs_limit|]. eapply runs_bind; [apply runs_get_vol|].
    apply runs_bind with (a := tt) (v1 := with_next start v) (w1 := w).
    - unfold start. destruct (_ || _); [apply runs_set_vol|].
      rewrite with_next_id. apply runs_ret.
    - eapply runs_bind; [apply runs_get_vol|]. exact Hr. }
  destruct Hstart as (v1&Hv1&Hrun). assert (Hg1 : geo_ok v1) by (subst; by apply next_geo).
  assert (Hl1 : limit v1 = limit v) by (by subst).
  destruct (alloc_scan_runs v1 w (Z.to_nat (limit v - start)) start) as [(c&Hc&Hf&Hr)|[Hall Hr]];
    [done|lia|lia| |].
  - left. exists c. split_and!; [lia..|by subst|]. apply Hrun. eapply runs_bind; [exact Hr|].
    subst v1. apply runs_ret.
  - destruct (alloc_scan_runs v1 w (Z.to_nat (start - 3)) 3) as [(c&Hc&Hf&Hr2)|[Hall2 Hr2]];
      [done|lia|lia| |].
    + left. exists c. split_and!; [lia..|by subst|]. apply Hrun. eapply runs_bind; [exact Hr|].
      eapply runs_bind; [exact Hr2|]. subst v1. apply runs_ret.
    + right. split.
      * intros c Hc. subst v1. destruct (Z.lt_ge_cases c start); [apply Hall2; lia|apply Hall; lia].
      * exists start. apply Hrun. eapply runs_bind; [exact Hr|]. eapply runs_bind; [exact Hr2|].
        subst v1. apply runs_ret.
Qed.

End runs.
