(* ===== verification/Mini64FatStore.v ===== *)
(** * Storing a file on the rescue system's volume: lemmas

    The write loop of disk_store_large builds a chain of distinct clusters
    holding the file, and touches no other cluster. *)

From stdpp Require Import base numbers list sets strings.
From Stdlib Require Import ZArith Lia.
From S2P Require Import Prelude Ports Mini64Ata Effects Mini64Fat Mini64FatProof.

(** ** Free clusters *)

Definition free_clusters (v : volume) (w : Z -> list Z) : list Z :=
  filter (fun c => fat_entry v w c = 0) (seqZ 3 (limit v - 3)).

Lemma elem_of_free v w c : c ∈ free_clusters v w <-> 3 <= c < limit v /\ fat_entry v w c = 0.
Proof. unfold free_clusters. rewrite list_elem_of_filter, elem_of_seqZ. lia. Qed.

Lemma filter_same (P Q : Z -> Prop) `{!forall x, Decision (P x)} `{!forall x, Decision (Q x)} l :
  Forall (fun x => P x <-> Q x) l -> filter P l = filter Q l.
Proof.
  induction 1 as [|x l Hx _ IH]; [done|]. rewrite !filter_cons, IH.
  destruct (decide (P x)), (decide (Q x)); tauto.
Qed.

Lemma filter_remove_one (P Q : Z -> Prop) `{!forall x, Decision (P x)} `{!forall x, Decision (Q x)} l c :
  NoDup l -> c ∈ l -> P c -> ~ Q c -> Forall (fun x => x <> c -> P x <-> Q x) l ->
  length (filter P l) = S (length (filter Q l)).
Proof.
  induction 1 as [|x l Hx Hnd IH]; intros Hc HP HQ Hiff; [by apply not_elem_of_nil in Hc|].
  apply Forall_cons in Hiff as [Hxi Hiff]. rewrite !filter_cons. apply elem_of_cons in Hc as [->|Hc].
  - rewrite decide_True, decide_False by done. cbn [length]. do 2 f_equal. apply filter_same.
    eapply Forall_impl; [apply Forall_forall; intros y Hy; exact Hy|]. intros y Hy.
    rewrite Forall_forall in Hiff. apply Hiff; [done|]. by intros ->.
  - assert (Hxc : x <> c) by (by intros ->). specialize (Hxi Hxc). specialize (IH Hc HP HQ Hiff).
    destruct (decide (P x)), (decide (Q x)); try tauto; cbn [length]; lia.
Qed.

Lemma claim_free v w c :
  geo_ok v -> (forall l, sector_ok (w l)) -> 3 <= c < limit v -> fat_entry v w c = 0 ->
  length (free_clusters v w) = S (length (free_clusters v (claim v c w))).
Proof.
  intros Hg Hw Hc Hf. apply (filter_remove_one _ _ _ c).
  - apply NoDup_seqZ.
  - apply elem_of_seqZ. lia.
  - done.
  - rewrite claim_entry by (done || lia). by rewrite decide_True.
  - apply Forall_forall. intros x Hx Hne. apply elem_of_seqZ in Hx. rewrite claim_entry by (done || lia). by rewrite decide_False.
Qed.

(** ** Chains *)

(** [cs] is a chain of the table: each cluster links to the next and the last
    is marked end of chain. *)
Fixpoint chained (v : volume) (w : Z -> list Z) (cs : list Z) : Prop :=
  match cs with
  | [] => True
  | c :: r => fat_entry v w c = hd 0x0FFFFFFF r /\ chained v w r
  end.

(** The clusters [cs] hold the file from offset [written] on. *)
Fixpoint holds_file (v : volume) (w : Z -> list Z) (data : Z -> Z) (size written : Z) (cs : list Z) : Prop :=
  match cs with
  | [] => True
  | c :: r => w (cluster_lba v c) = chunk data written size /\
              holds_file v w data size (written + 512) r
  end.

(** [w'] differs from [w] only in the table entries and contents of clusters [cs]. *)
Definition only_touches (v : volume) (cs : list Z) (w w' : Z -> list Z) : Prop :=
  forall c, 2 <= c < limit v -> c ∉ cs ->
    fat_entry v w' c = fat_entry v w c /\ w' (cluster_lba v c) = w (cluster_lba v c).

Lemma only_touches_trans v cs w1 w2 w3 :
  only_touches v cs w1 w2 -> only_touches v cs w2 w3 -> only_touches v cs w1 w3.
Proof.
  intros H1 H2 c Hc Hn. destruct (H1 c Hc Hn), (H2 c Hc Hn). split; congruence.
Qed.

Lemma only_touches_mono v cs cs' w w' : cs ⊆ cs' -> only_touches v cs w w' -> only_touches v cs' w w'.
Proof. intros Hs H c Hc Hn. apply H; [done|]. set_solver. Qed.

Lemma touch_write v w c b :
  geo_ok v -> 2 <= c < limit v -> only_touches v [c] w (set_sector (cluster_lba v c) b w).
Proof.
  intros Hg Hc c' Hc' Hn. split; [apply fat_entry_cluster; (done || lia)|]. apply set_sector_ne.
  intros He. apply (cluster_lba_inj v Hg) in He; [set_solver|done..].
Qed.

Lemma touch_store v w c x :
  geo_ok v -> (forall l, sector_ok (w l)) -> 2 <= c < limit v -> 0 <= x < 2 ^ 32 ->
  only_touches v [c] w (fat_store v c x w).
Proof.
  intros Hg Hw Hc Hx c' Hc' Hn. split.
  - rewrite fat_entry_store by (done || lia). rewrite decide_False; [done|set_solver].
  - apply fat_store_cluster; (done || lia).
Qed.

Lemma touch_claim v w c :
  geo_ok v -> (forall l, sector_ok (w l)) -> 2 <= c < limit v -> only_touches v [c] w (claim v c w).
Proof.
  intros Hg Hw Hc c' Hc' Hn. split.
  - rewrite claim_entry by (done || lia). rewrite decide_False; [done|set_solver].
  - apply claim_cluster; try done. set_solver.
Qed.

(** Clusters in use, other than [tail], and the root directory are as they were. *)
Definition spares (v : volume) (tail : Z) (w w' : Z -> list Z) : Prop :=
  forall c, 2 <= c < limit v -> c <> tail -> c = 2 \/ fat_entry v w c <> 0 ->
    fat_entry v w' c = fat_entry v w c /\ w' (cluster_lba v c) = w (cluster_lba v c).

Lemma touches_spares v tail w w' : only_touches v [tail] w w' -> spares v tail w w'.
Proof. intros Ht c Hc Hn _. apply Ht; [done|]. set_solver. Qed.

(** Going on with a cluster that was free. *)
Lemma spares_step v tail c w w2 w' :
  3 <= c -> fat_entry v w c = 0 -> only_touches v [tail; c] w w2 -> spares v c w2 w' -> spares v tail w w'.
Proof.
  intros Hc Hf Ht Hs x Hx Hne Hused.
  assert (Hxc : x <> c) by (intros ->; destruct Hused; [lia|done]).
  destruct (Ht x Hx) as [He Hd]; [set_solver|]. rewrite <- He, <- Hd. apply Hs; [done..|]. by rewrite He.
Qed.

Lemma only_touches_next v n cs w w' : only_touches (with_next n v) cs w w' <-> only_touches v cs w w'.
Proof. done. Qed.

Lemma chained_next v n w cs : chained (with_next n v) w cs <-> chained v w cs.
Proof. induction cs as [|c cs IH]; [done|]. cbn [chained]. by rewrite IH. Qed.

Lemma holds_file_next v n w data size written cs :
  holds_file (with_next n v) w data size written cs <-> holds_file v w data size written cs.
Proof. revert written. induction cs as [|c cs IH]; intros; [done|]. cbn [holds_file]. by rewrite IH. Qed.

Lemma holds_file_touch v w w' data size written cs cs' :
  only_touches v cs' w w' -> Forall (fun c => 2 <= c < limit v /\ c ∉ cs') cs ->
  holds_file v w data size written cs -> holds_file v w' data size written cs.
Proof.
  intros Ht Hall. revert written. induction Hall as [|c cs [Hc Hn] _ IH]; intros written Hf; [done|].
  destruct Hf as [Hd Hf]. split; [|by apply IH]. destruct (Ht c Hc Hn) as [_ ->]. done.
Qed.

Lemma set_sector_ok l b (w : Z -> list Z) :
  sector_ok b -> (forall l, sector_ok (w l)) -> forall l', sector_ok (set_sector l b w l').
Proof. intros Hb Hw l'. unfold set_sector. by destruct (l' =? l). Qed.

Lemma fat_store_ok v c x w : (forall l, sector_ok (w l)) -> forall l, sector_ok (fat_store v c x w l).
Proof. intros Hw l. by apply fat_write_sectors. Qed.

Lemma claim_ok v c w : (forall l, sector_ok (w l)) -> forall l, sector_ok (claim v c w l).
Proof. intros Hw. apply set_sector_ok; [apply zero_sector|by apply fat_store_ok]. Qed.

Lemma chunk_sector data written size :
  (forall i, is_u8 (data i)) -> 0 <= written < size -> sector_ok (chunk data written size).
Proof.
  intros Hd Hw. unfold chunk. set (n := Z.to_nat _).
  assert (Hn : (n <= 512)%nat) by (unfold n; destruct (_ <? 512) eqn:?; breflect; lia).
  split.
  - rewrite length_app, !length_map, length_seq. unfold zero. rewrite length_replicate. lia.
  - apply Forall_app. split; [|apply Forall_replicate; unfold is_u8; lia].
    apply Forall_forall. intros x Hx. apply list_elem_of_fmap in Hx as (i&->&_). apply Hd.
Qed.

Lemma land_28 c : 0 <= c < 2 ^ 28 -> Z.land c 0x0FFFFFFF = c.
Proof. intros. change 0x0FFFFFFF with (Z.ones 28). rewrite Z.land_ones by lia. apply Z.mod_small. lia. Qed.

(** ** The write loop *)

(** The sectors still to be written from [written] on. *)
Definition needed (size written : Z) : nat := Z.to_nat ((size - written + 511) / 512).

Lemma needed_last size written : 0 <= written < size -> size <= written + 512 -> needed size written = 1%nat.
Proof.
  intros H1 H2. unfold needed.
  assert ((size - written + 511) / 512 = 1) as -> by (Z.div_mod_to_equations; lia). done.
Qed.

Lemma needed_step size written :
  0 <= written -> written + 512 < size -> needed size written = S (needed size (written + 512)).
Proof.
  intros H1 H2. unfold needed.
  replace (size - written + 511) with (size - (written + 512) + 511 + 1 * 512) by lia.
  rewrite Z.div_add by lia. pose proof (Z.div_pos (size - (written + 512) + 511) 512). lia.
Qed.

Section loop.

Context {D : Type} `{DiskLaws D}.
Context (data : Z -> Z) (size total : Z).
Hypothesis Hdata : forall i, is_u8 (data i).
Hypothesis Hsize : size <= 2 ^ 32 - 512.

(** What a completed write loop leaves behind. *)
Record stored_chain (v : volume) (w w' : Z -> list Z) (written tail : Z) (cs : list Z) : Prop := {
  sc_nodup : NoDup (tail :: cs);
  sc_range : Forall (fun c => 3 <= c < limit v) (tail :: cs);
  sc_free : Forall (fun c => fat_entry v w c = 0) cs;
  sc_length : length (tail :: cs) = needed size written;
  sc_chain : chained v w' (tail :: cs);
  sc_data : holds_file v w' data size written (tail :: cs);
  sc_frame : only_touches v (tail :: cs) w w'
}.

Lemma store_loop_done fuel tail written pbar :
  size <= written -> store_loop (D := D) fuel data size total tail written pbar = ret (Some pbar).
Proof. intros Hw. destruct fuel; cbn [store_loop]; by rewrite (proj2 (Z.ltb_ge _ _)). Qed.

Lemma stored_last v w tail written :
  geo_ok v -> 3 <= tail < limit v -> fat_entry v w tail = 0x0FFFFFFF -> 0 <= written < size ->
  size <= written + 512 ->
  stored_chain v w (set_sector (cluster_lba v tail) (chunk data written size) w) written tail [].
Proof.
  intros Hg Ht He Hw Hlast. constructor.
  - apply NoDup_singleton.
  - by apply Forall_singleton.
  - done.
  - by rewrite needed_last.
  - split; [|done]. cbn [hd]. by rewrite fat_entry_cluster by (done || lia).
  - split; [|done]. by rewrite set_sector_eq.
  - apply touch_write; (done || lia).
Qed.

(** Writing the last cluster of a chain and linking the next one. *)
Lemma touch_link v w tail c written :
  geo_ok v -> (forall l, sector_ok (w l)) -> 3 <= tail < limit v -> 3 <= c < limit v -> 0 <= written < size ->
  only_touches v [tail; c] w (fat_store v tail c (claim v c (set_sector (cluster_lba v tail) (chunk data written size) w))).
Proof.
  intros Hg Hw Ht Hc Hwr. set (w1 := set_sector _ _ w).
  assert (Hw1 : forall l, sector_ok (w1 l)) by (apply set_sector_ok; [apply chunk_sector; (done || lia)|done]).
  destruct (limit_bounds v Hg) as [Hl _].
  apply only_touches_trans with w1; [eapply only_touches_mono; [|apply touch_write; (done || lia)]; clear; set_solver|].
  apply only_touches_trans with (claim v c w1);
    [eapply only_touches_mono; [|apply touch_claim; (done || lia)]; clear; set_solver|].
  eapply only_touches_mono; [|apply touch_store; try done; [by apply claim_ok|lia|lia]]. clear; set_solver.
Qed.

(** Linking the next cluster and going on from there. *)
Lemma stored_link v w tail c written w' cs :
  geo_ok v -> (forall l, sector_ok (w l)) -> 3 <= tail < limit v -> fat_entry v w tail = 0x0FFFFFFF ->
  3 <= c < limit v -> 0 <= written -> written + 512 < size ->
  let w1 := set_sector (cluster_lba v tail) (chunk data written size) w in
  fat_entry v w1 c = 0 ->
  stored_chain v (fat_store v tail c (claim v c w1)) w' (written + 512) c cs ->
  stored_chain v w w' written tail (c :: cs).
Proof.
  intros Hg Hw Ht He Hc Hwr Hlt w1 Hf [Hnd Hrange Hfree Hlen Hch Hd Hfr].
  assert (Hw1 : forall l, sector_ok (w1 l)) by (apply set_sector_ok; [apply chunk_sector; (done || lia)|done]).
  destruct (limit_bounds v Hg) as [Hl _].
  assert (Hlb : limit v <= 2 ^ 28) by (destruct (limit_bounds v Hg); unfold HOME_SECTORS in *; lia).
  assert (E1 : forall x, 0 <= x < limit v -> fat_entry v w1 x = fat_entry v w x)
    by (intros; apply fat_entry_cluster; (done || lia)).
  assert (Htc : tail <> c) by (intros ->; rewrite E1 in Hf by lia; rewrite He in Hf; done).
  assert (E2 : forall x, 0 <= x < limit v -> fat_entry v (fat_store v tail c (claim v c w1)) x =
     if decide (x = tail) then c else if decide (x = c) then 0x0FFFFFFF else fat_entry v w x).
  { intros x Hx. rewrite fat_entry_store by (done || lia || by apply claim_ok). rewrite land_28 by lia.
    case_decide; [done|]. rewrite claim_entry by (done || lia). case_decide; [done|]. by apply E1. }
  assert (Htcs : tail ∉ cs).
  { intros Hin. rewrite Forall_forall in Hfree. specialize (Hfree _ Hin). simpl in Hfree.
    rewrite E2, decide_True in Hfree by (done || lia). lia. }
  assert (Htn : tail ∉ c :: cs) by (apply not_elem_of_cons; done).
  constructor.
  - by apply NoDup_cons.
  - by apply Forall_cons.
  - apply Forall_cons. split; [by rewrite <- E1 by lia|]. apply Forall_cons in Hrange as [_ Hrange].
    apply Forall_forall. intros x Hx. rewrite Forall_forall in Hfree, Hrange.
    specialize (Hfree x Hx). specialize (Hrange x Hx). simpl in *. rewrite E2 in Hfree by lia.
    case_decide; [lia|]. case_decide; [lia|done].
  - cbn [length] in *. rewrite needed_step by done. by rewrite <- Hlen.
  - split; [|done]. cbn [hd]. destruct (Hfr tail) as [-> _]; [lia|done|]. rewrite E2 by lia. by rewrite decide_True.
  - split; [|done]. destruct (Hfr tail) as [_ ->]; [lia|done|].
    rewrite fat_store_cluster by (done || lia). rewrite claim_cluster by (done || lia). apply set_sector_eq.
  - apply only_touches_trans with (fat_store v tail c (claim v c w1)); (eapply only_touches_mono; [|done || by apply touch_link; try done; lia]);
      clear; set_solver.
Qed.

Lemma claim_room v w c n :
  geo_ok v -> (forall l, sector_ok (w l)) -> 3 <= c < limit v -> fat_entry v w c = 0 ->
  (S (length (free_clusters v (claim v c w))) < n)%nat -> (S (length (free_clusters v w)) < S n)%nat.
Proof. intros Hg Hw Hc Hf Hn. rewrite (claim_free v w c) by done. lia. Qed.

(** Cluster contents and non-zero links do not change what is free. *)
Lemma free_clusters_same v w w' :
  (forall c, 3 <= c < limit v -> fat_entry v w' c = 0 <-> fat_entry v w c = 0) ->
  length (free_clusters v w') = length (free_clusters v w).
Proof.
  intros Hs. unfold free_clusters. f_equal. apply filter_same, Forall_forall.
  intros c Hc%elem_of_seqZ. apply Hs. lia.
Qed.

(** What follows the write of one sector. *)
Definition store_rest (fuel : nat) (tail written p : Z) : M (st D) (option Z) :=
  if written <? size then
    let! next := allocate_cluster in
    if next =? 0 then ret None else fat_set tail next ;; store_loop fuel data size total next written p
  else store_loop fuel data size total tail written p.

Lemma store_loop_step fuel v w tail written pbar :
  geo_ok v -> 0 <= written < size -> 3 <= tail < limit v ->
  exists p, forall r v' w',
    runs v (set_sector (cluster_lba v tail) (chunk data written size) w)
      (store_rest fuel tail (written + 512) p) r v' w' ->
    runs v w (store_loop (S fuel) data size total tail written pbar) r v' w'.
Proof.
  intros Hg Hwr Ht. destruct (cluster_lba_value v Hg tail) as [_ Hlba]; [lia|].
  exists (if z2b total then Z.max pbar (u32 ((written + 512) / 512 * 40) / total) else pbar).
  intros r v' w' Hr. cbn [store_loop]. rewrite (proj2 (Z.ltb_lt _ _)) by lia. cbn [negb].
  eapply runs_bind; [apply runs_get_vol|]. destruct Hg.
  eapply runs_bind; [apply runs_write; [nia|by apply chunk_sector]|]. cbn [negb]. cbv zeta.
  rewrite (u32_small (written + 512)) by lia.
  eapply runs_bind; [|exact Hr]. destruct (z2b total); [apply runs_bar|apply runs_ret].
Qed.

Lemma store_rest_link fuel v w c tail written p r v' w' :
  geo_ok v -> written < size -> 3 <= c < limit v -> 3 <= tail < limit v ->
  runs v w allocate_cluster c (with_next (c + 1) v) (claim v c w) ->
  runs (with_next (c + 1) v) (fat_store v tail c (claim v c w))
    (store_loop fuel data size total c written p) r v' w' ->
  runs v w (store_rest fuel tail written p) r v' w'.
Proof.
  intros Hg Hw Hc Ht Hal Hr. unfold store_rest. rewrite (proj2 (Z.ltb_lt _ _)) by lia.
  eapply runs_bind; [exact Hal|]. rewrite (proj2 (Z.eqb_neq c 0)) by lia.
  eapply runs_bind; [|exact Hr]. apply (runs_fat_set (with_next (c + 1) v)); [by apply next_geo|].
  change (limit (with_next (c + 1) v)) with (limit v). lia.
Qed.

(** When a link is made, one free cluster is gone. *)
Lemma link_room v w tail c n :
  geo_ok v -> (forall l, sector_ok (w l)) -> 3 <= c < limit v -> 3 <= tail < limit v ->
  fat_entry v w c = 0 -> fat_entry v w tail = 0x0FFFFFFF ->
  (S (length (free_clusters v (fat_store v tail c (claim v c w)))) < n)%nat ->
  (S (length (free_clusters v w)) < S n)%nat.
Proof.
  intros Hg Hw Hc Ht Hf He Hn. apply (claim_room v w c); try done.
  destruct (limit_bounds v Hg) as [Hl1 Hl2]. unfold HOME_SECTORS in Hl2.
  rewrite (free_clusters_same v (fat_store v tail c (claim v c w))); [exact Hn|].
  intros x Hx. rewrite fat_entry_store by (done || lia || by apply claim_ok).
  case_decide as Hxt; [|done]. subst x. rewrite land_28 by lia.
  rewrite claim_entry, decide_False, He by (done || lia || congruence). lia.
Qed.

Lemma store_loop_runs fuel v w tail written pbar :
  geo_ok v -> (forall l, sector_ok (w l)) -> 0 <= written < size ->
  3 <= tail < limit v -> fat_entry v w tail = 0x0FFFFFFF -> size - written <= 512 * Z.of_nat fuel ->
  (exists cs p n w', runs v w (store_loop fuel data size total tail written pbar) (Some p) (with_next n v) w' /\
     stored_chain v w w' written tail cs) \/
  ((exists n w', runs v w (store_loop fuel data size total tail written pbar) None (with_next n v) w' /\ spares v tail w w') /\
   (S (length (free_clusters v w)) < needed size written)%nat).
Proof.
  revert v w tail written pbar.
  induction fuel as [|fuel IH]; intros v w tail written pbar Hg Hw Hwr Ht He Hfuel; [lia|].
  destruct (store_loop_step fuel v w tail written pbar Hg Hwr Ht) as [p' Hpre].
  set (w1 := set_sector (cluster_lba v tail) (chunk data written size) w) in *.
  assert (Hw1 : forall l, sector_ok (w1 l)) by (apply set_sector_ok; [by apply chunk_sector|done]).
  assert (E1 : forall x, 0 <= x < limit v -> fat_entry v w1 x = fat_entry v w x)
    by (intros; apply fat_entry_cluster; (done || lia)).
  pose proof (limit_bounds v Hg) as [Hl1 _].
  destruct (Z.ltb_spec (written + 512) size) as [Hmore|Hlast].
  2:{ left. exists [], p', (next_free_cluster v), w1. rewrite with_next_id. split; [|by apply stored_last].
      apply Hpre. unfold store_rest. rewrite (proj2 (Z.ltb_ge _ _)) by lia.
      rewrite store_loop_done by lia. apply runs_ret. }
  rewrite needed_step by lia. rewrite (free_clusters_same v w1 w) by (intros; by rewrite E1 by lia).
  destruct (allocate_runs v w1 Hg) as [(c&Hc&Hf&Hal)|[Hnone [n Hal]]].
  - assert (Htc : tail <> c) by (intros ->; rewrite E1 in Hf by lia; rewrite He in Hf; done).
    destruct (IH (with_next (c + 1) v) (fat_store v tail c (claim v c w1)) c (written + 512) p')
      as [(cs&p&n&w'&Hr&[]) | [(n&w'&Hr&Hsp) Hroom]];
      [by apply next_geo|by apply fat_store_ok, claim_ok|lia|done| |lia| |].
    { change (fat_entry (with_next (c + 1) v)) with (fat_entry v). rewrite fat_entry_store by (done || lia || by apply claim_ok).
      rewrite decide_False, claim_entry, decide_True by (done || lia). done. }
    + left. exists (c :: cs), p, n, w'. split; [by apply Hpre, (store_rest_link fuel v w1 c)|].
      apply stored_link; try done; try lia. constructor; try done;
        [by apply (chained_next v (c + 1))|by apply (holds_file_next v (c + 1))].
    + right. split.
      { exists n, w'. split; [by apply Hpre, (store_rest_link fuel v w1 c)|].
        eapply (spares_step v tail c); [lia|by rewrite <- E1 by lia|by apply touch_link; try done; lia|done]. }
      apply (link_room v w1 tail c); try done. by rewrite E1 by lia.
  - right. split.
    + exists n, w1. split; [|by apply touches_spares, touch_write; (done || lia)]. apply Hpre. unfold store_rest. rewrite (proj2 (Z.ltb_lt _ _)) by lia.
      eapply runs_bind; [exact Hal|]. rewrite Z.eqb_refl. apply runs_ret.
    + assert (Hz : free_clusters v w1 = [])
        by (apply elem_of_nil_inv; intros c [Hcr Hc0]%elem_of_free; by apply (Hnone c)).
      rewrite Hz. cbn [length]. unfold needed.
      assert (1 <= (size - (written + 512) + 511) / 512) by (apply Z.div_le_lower_bound; lia). lia.
Qed.

End loop.
