(* ===== verification/Mini64FatTheorems.v ===== *)
(** * Storing a file on the rescue system's volume

    The directory, the removal of an old file of the same name, and the
    theorem about disk_store_large. *)

From stdpp Require Import base numbers list sets strings.
From Stdlib Require Import ZArith Lia.
From S2P Require Import Prelude Ports Mini64Ata Effects Mini64Fat Mini64FatProof Mini64FatStore.

(** ** Names and directory entries *)

Lemma name_base_length n s : (length (fst (name_base n s)) <= n)%nat.
Proof.
  revert s. induction n as [|n IH]; intros [|c s]; cbn [name_base]; simpl; try lia.
  destruct (_ || _); simpl; [lia|]. specialize (IH s). destruct (name_base n s). simpl in *. lia.
Qed.

Lemma name_base_bytes n s : Forall is_u8 (fst (name_base n s)).
Proof.
  revert s. induction n as [|n IH]; intros [|c s]; cbn [name_base]; try done.
  destruct (_ || _); [done|]. specialize (IH s). destruct (name_base n s). simpl in *.
  constructor; [apply u8_is_u8|done].
Qed.

Lemma pad_length n s : (length s <= n)%nat -> length (pad n s) = n.
Proof. intros. unfold pad. rewrite length_app, length_replicate. lia. Qed.

Lemma pad_bytes n s : Forall is_u8 s -> Forall is_u8 (pad n s).
Proof. intros. apply Forall_app. split; [done|]. apply Forall_replicate. unfold is_u8. lia. Qed.

Lemma name83_ok n : length (name83 n) = 11%nat /\ Forall is_u8 (name83 n).
Proof.
  unfold name83. pose proof (name_base_length 8 n) as Hl. pose proof (name_base_bytes 8 n) as Hb.
  destruct (name_base 8 n) as [base r]. simpl in Hl, Hb.
  set (ext := match skip_to_dot r with _ :: r => map upper (take 3 r) | [] => [] end).
  assert (He : (length ext <= 3)%nat /\ Forall is_u8 ext).
  { unfold ext. destruct (skip_to_dot r) as [|d r']; [split; [simpl; lia|done]|]. split.
    - rewrite length_map, length_take. lia.
    - apply Forall_forall. intros x Hx. apply list_elem_of_fmap in Hx as (y&->&_). apply u8_is_u8. }
  destruct He as [He1 He2].
  split; [rewrite length_app, !pad_length by lia; done|]. apply Forall_app. split; by apply pad_bytes.
Qed.

Lemma take_w8 k o v b : (k <= o)%nat -> take k (w8 o v b) = take k b.
Proof. intros. unfold w8. by rewrite take_insert_ge. Qed.

Lemma make_entry_ok name first size :
  0 <= first < 2 ^ 32 -> 0 <= size < 2 ^ 32 ->
  let e := make_entry name first size in
  length e = 32%nat /\ Forall is_u8 e /\ take 11 e = name83 name /\
  byte_at e 0 = byte_at (name83 name) 0 /\ entry_cluster e = first /\ r32 e 28 = size.
Proof.
  intros Hf Hs e. destruct (name83_ok name) as [Hl Hb].
  assert (Hl0 : length (name83 name ++ zero 21) = 32%nat) by (rewrite length_app, Hl; done).
  assert (Hb0 : Forall is_u8 (name83 name ++ zero 21))
    by (apply Forall_app; split; [done|]; apply Forall_replicate; unfold is_u8; lia).
  assert (Ht : take 11 e = name83 name).
  { unfold e, make_entry, w32, w16. rewrite !take_w8 by lia. rewrite <- Hl. apply take_app_length. }
  split_and!; [unfold e, make_entry; autorewrite with bytes; done|unfold e, make_entry; auto 10 with os64|done| | |].
  - rewrite <- Ht. unfold byte_at. by destruct e.
  - unfold entry_cluster, e, make_entry.
    rewrite r16_w16 by (autorewrite with bytes; rewrite ?Hl0; auto 10 with os64 || lia).
    rewrite r16_w16_ne by (autorewrite with bytes; rewrite ?Hl0; lia).
    rewrite r16_w16 by (autorewrite with bytes; rewrite ?Hl0; auto 10 with os64 || lia).
    rewrite Z.shiftr_div_pow2 by lia. rewrite lor_shift by (Z.div_mod_to_equations; lia).
    Z.div_mod_to_equations. lia.
  - unfold e, make_entry, r32. rewrite !r16_w16_ne by (autorewrite with bytes; rewrite ?Hl0; lia).
    fold (r32 (w32 28 size (w8 11 0x20 (name83 name ++ zero 21))) 28).
    rewrite r32_w32 by (autorewrite with bytes; rewrite ?Hl0; auto with os64 || lia). apply Z.mod_small. lia.
Qed.

Section store.

Context {D : Type} `{DiskLaws D}.

Definition root_of (v : volume) (w : Z -> list Z) : list Z := w (cluster_lba v 2).

(** ** The directory *)

Lemma runs_find v w name :
  geo_ok v ->
  runs v w (find_entry name)
    (match match_slot 16 0 (name83 name) (root_of v w) with Some i => Some (root_of v w, i) | None => None end) v w.
Proof.
  intros Hg. unfold find_entry. cbv zeta. eapply runs_bind; [apply runs_get_vol|].
  rewrite (geo_root v Hg). pose proof (geo_room v Hg).
  destruct (cluster_lba_value v Hg 2) as [_ Hb]; [lia|]. destruct Hg.
  eapply runs_bind; [apply runs_read; nia|]. apply runs_ret.
Qed.

(** ** The chain of a file

    The clusters met by following the table from [c]: until a link leaves the
    data area or comes back to a cluster already met. *)
Fixpoint walk (n : nat) (v : volume) (w : Z -> list Z) (c : Z) (seen : list Z) : list Z :=
  match n with
  | O => []
  | S n => if bool_decide (2 <= c < limit v /\ c ∉ seen) then c :: walk n v w (fat_entry v w c) (c :: seen) else []
  end.

(** The clusters of the file a name stands for; none when there is no such file. *)
Definition old_chain (v : volume) (w : Z -> list Z) (name : list Z) : list Z :=
  match match_slot 16 0 (name83 name) (root_of v w) with
  | Some i => walk (Z.to_nat (limit v)) v w (entry_cluster (entry (root_of v w) i)) []
  | None => []
  end.

(** Freeing the clusters [old] clears their table entries and nothing else. *)
Definition released (v : volume) (old : list Z) (w w' : Z -> list Z) : Prop :=
  (forall c, 2 <= c < limit v -> fat_entry v w' c = if decide (c ∈ old) then 0 else fat_entry v w c) /\
  (forall c, 2 <= c < limit v -> w' (cluster_lba v c) = w (cluster_lba v c)).

Lemma released_store v w w1 seen c :
  geo_ok v -> (forall l, sector_ok (w1 l)) -> 2 <= c < limit v -> released v seen w w1 ->
  released v (c :: seen) w (fat_store v c 0 w1).
Proof.
  intros Hg Hw1 Hc [Hs1 Hs2]. split; intros x Hx.
  - rewrite fat_entry_store by (done || lia). case_decide as Hxc; [subst x; by rewrite decide_True by (apply elem_of_cons; by left)|].
    rewrite Hs1 by done. case_decide as H1; case_decide as H2; set_solver.
  - rewrite fat_store_cluster by (done || lia). by apply Hs2.
Qed.

Lemma released_mono v old old' w w' : (forall c, c ∈ old <-> c ∈ old') -> released v old w w' -> released v old' w w'.
Proof.
  intros He [H1 H2]. split; [|done]. intros c Hc. rewrite H1 by done. by rewrite (decide_ext _ _ _ _ (He c)).
Qed.

(** Running from where the clusters [seen] were freed already. *)
Lemma free_chain_walk v w n c w1 seen :
  geo_ok v -> (forall l, sector_ok (w1 l)) -> released v seen w w1 ->
  exists w', runs v w1 (free_chain n c (limit v)) true v w' /\ released v (seen ++ walk n v w c seen) w w' /\
    (forall l, sector_ok (w' l)).
Proof.
  intros Hg. revert c w1 seen. induction n as [|n IH]; intros c w1 seen Hw1 Hrel; cbn [free_chain walk].
  { exists w1. rewrite app_nil_r. split_and!; [apply runs_ret|done|done]. }
  destruct ((2 <=? c) && (c <? limit v)) eqn:Hc.
  2:{ exists w1. rewrite bool_decide_false, app_nil_r; [split_and!; [apply runs_ret|done|done]|].
      intros [? _]. apply andb_false_iff in Hc as [Hc|Hc]; breflect; lia. }
  breflect. assert (Hw2 : forall l, sector_ok (fat_store v c 0 w1 l)) by (by apply fat_store_ok).
  pose proof (released_store v w w1 seen c Hg Hw1 ltac:(lia) Hrel) as Hrel2.
  assert (Hstep : forall w', runs v (fat_store v c 0 w1) (if (0x0FFFFFF8 <=? fat_entry v w1 c) || (fat_entry v w1 c <? 2)
      then ret true else free_chain n (fat_entry v w1 c) (limit v)) true v w' ->
    runs v w1 (let! next := fat_get c in let! ok := fat_set c 0 in if negb ok then ret false else
      if (0x0FFFFFF8 <=? next) || (next <? 2) then ret true else free_chain n next (limit v)) true v w').
  { intros w' Hr. eapply runs_bind; [apply runs_fat_get; (done || lia)|].
    eapply runs_bind; [apply runs_fat_set; (done || lia)|]. exact Hr. }
  rewrite (proj1 Hrel c) in Hstep by lia. destruct (limit_bounds v Hg) as [_ Hlb]. unfold HOME_SECTORS in Hlb.
  case_decide as Hseen.
  - rewrite bool_decide_false, app_nil_r by tauto. exists (fat_store v c 0 w1).
    split_and!; [apply Hstep, runs_ret| |done]. eapply released_mono; [|done]. set_solver.
  - rewrite bool_decide_true by (split; [lia|done]).
    destruct (_ || _) eqn:Hend.
    + exists (fat_store v c 0 w1). split_and!; [apply Hstep, runs_ret| |done].
      assert (Hnil : walk n v w (fat_entry v w c) (c :: seen) = []).
      { destruct n; [done|]. cbn [walk]. rewrite bool_decide_false; [done|]. intros [? _].
        apply orb_true_iff in Hend as [Hend|Hend]; breflect; lia. }
      rewrite Hnil. eapply released_mono; [|done]. set_solver.
    + destruct (IH (fat_entry v w c) _ _ Hw2 Hrel2) as (w'&Hr&Hrel'&Hw'). exists w'.
      split_and!; [by apply Hstep| |done]. eapply released_mono; [|done]. set_solver.
Qed.

Lemma free_chain_runs v w n c :
  geo_ok v -> (forall l, sector_ok (w l)) ->
  exists w', runs v w (free_chain n c (limit v)) true v w' /\ released v (walk n v w c []) w w' /\ (forall l, sector_ok (w' l)).
Proof.
  intros Hg Hw. apply (free_chain_walk v w n c w []); [done|done|]. split; [|done].
  intros x Hx. by rewrite decide_False by set_solver.
Qed.

(** ** Slots *)

Lemma match_slot_bounds n i key root j :
  match_slot n i key root = Some j -> (i <= j < i + n)%nat.
Proof.
  revert i. induction n as [|n IH]; intros i; cbn [match_slot]; [done|].
  destruct (_ && _); intros He; [simplify_eq; lia|]. apply IH in He. lia.
Qed.

Lemma match_slot_before n i key root j :
  match_slot n i key root = Some j ->
  forall k, (i <= k < j)%nat -> match_slot 1 k key root = None.
Proof.
  revert i. induction n as [|n IH]; intros i; cbn [match_slot]; [done|].
  destruct (_ && _) eqn:Hb; intros He k Hk; [simplify_eq; lia|].
  destruct (decide (k = i)) as [->|]; [cbn [match_slot]; by rewrite Hb|]. eapply IH; [done|lia].
Qed.

Lemma match_slot_none n i key root :
  match_slot n i key root = None -> forall k, (i <= k < i + n)%nat -> match_slot 1 k key root = None.
Proof.
  revert i. induction n as [|n IH]; intros i; cbn [match_slot]; [intros; lia|].
  destruct (_ && _) eqn:Hb; intros He k Hk; [done|].
  destruct (decide (k = i)) as [->|]; [cbn [match_slot]; by rewrite Hb|]. eapply IH; [done|lia].
Qed.

Lemma match_slot_at n i key root j :
  (i <= j < i + n)%nat -> (forall k, (i <= k < j)%nat -> match_slot 1 k key root = None) ->
  match_slot 1 j key root = Some j -> match_slot n i key root = Some j.
Proof.
  revert i. induction n as [|n IH]; intros i Hj Hbefore Hat; [lia|]. cbn [match_slot].
  destruct (decide (i = j)) as [->|Hne].
  - cbn [match_slot] in Hat. destruct (_ && _); [done|done].
  - specialize (Hbefore i) as Hi. cbn [match_slot] in Hi. destruct (_ && _); [specialize (Hi ltac:(lia)); done|].
    apply IH; [lia| |done]. intros k Hk. apply Hbefore. lia.
Qed.

Lemma free_slot_bounds n i root j : free_slot n i root = Some j -> (i <= j < i + n)%nat.
Proof.
  revert i. induction n as [|n IH]; intros i; cbn [free_slot]; [done|].
  destruct (_ || _); intros He; [simplify_eq; lia|]. apply IH in He. lia.
Qed.

Lemma free_slot_le n i root k :
  (i <= k < i + n)%nat -> byte_at root (k * 32) = 0xE5 ->
  exists j, free_slot n i root = Some j /\ (j <= k)%nat.
Proof.
  revert i. induction n as [|n IH]; intros i Hk Hb; [lia|]. cbn [free_slot].
  destruct (_ || _) eqn:Ho; [exists i; split; [done|lia]|].
  destruct (decide (i = k)) as [->|Hne]; [rewrite Hb in Ho; by rewrite orb_true_r in Ho|].
  apply IH; [lia|done].
Qed.

(** ** Entries after an update *)

Lemma entry_put slot e root k :
  length root = 512%nat -> length e = 32%nat -> (slot < 16)%nat -> (k < 16)%nat ->
  entry (put_entry slot e root) k = if decide (k = slot) then e else entry root k.
Proof.
  intros Hl He Hs Hk. unfold entry, put_entry. apply list_eq. intros i.
  destruct (decide (i < 32)%nat) as [Hi|Hi].
  2:{ rewrite lookup_take_ge by lia. case_decide; [symmetry; apply lookup_ge_None_2; lia|].
      by rewrite lookup_take_ge by lia. }
  rewrite lookup_take_lt, lookup_drop by lia. rewrite app_assoc. case_decide as Hks.
  - subst k. rewrite lookup_app_l by (rewrite length_app, length_take; lia).
    rewrite lookup_app_r by (rewrite length_take; lia). f_equal. rewrite length_take. lia.
  - rewrite lookup_take_lt, lookup_drop by lia. destruct (Nat.lt_ge_cases k slot).
    + rewrite lookup_app_l by (rewrite length_app, length_take; lia).
      rewrite lookup_app_l by (rewrite length_take; lia). by rewrite lookup_take_lt by lia.
    + rewrite lookup_app_r by (rewrite length_app, length_take; lia). rewrite lookup_drop. f_equal.
      rewrite length_app, length_take. lia.
Qed.

Lemma put_entry_sector slot e root :
  sector_ok root -> length e = 32%nat -> Forall is_u8 e -> (slot < 16)%nat -> sector_ok (put_entry slot e root).
Proof.
  intros [Hl Hb] He Hbe Hs. unfold put_entry. split.
  - rewrite !length_app, length_take, length_drop. lia.
  - apply Forall_app. split; [by apply Forall_take|]. apply Forall_app. split; [done|by apply Forall_drop].
Qed.

Lemma entry_mark slot root k :
  length root = 512%nat -> (slot < 16)%nat -> (k < 16)%nat -> k <> slot ->
  entry (w8 (slot * 32) 0xE5 root) k = entry root k.
Proof.
  intros Hl Hs Hk Hne. unfold entry, w8. apply list_eq. intros i.
  destruct (decide (i < 32)%nat) as [Hi|Hi]; [|by rewrite !lookup_take_ge by lia].
  rewrite !lookup_take_lt, !lookup_drop by lia. apply list_lookup_insert_ne. lia.
Qed.

Lemma match_one_entry k key root root' :
  entry root k = entry root' k -> match_slot 1 k key root = match_slot 1 k key root'.
Proof. intros He. cbn [match_slot]. by rewrite He. Qed.

(** A name whose first byte is that of a live entry. *)
Definition live_name (name : list Z) : Prop :=
  byte_at (name83 name) 0 <> 0 /\ byte_at (name83 name) 0 <> 0xE5.

Lemma match_one_new k name e root :
  live_name name -> entry root k = e -> take 11 e = name83 name -> byte_at e 0 = byte_at (name83 name) 0 ->
  match_slot 1 k (name83 name) root = Some k.
Proof.
  intros [H1 H2] He Ht Hb. cbn [match_slot]. rewrite He, Hb, bool_decide_true by done. unfold z2b.
  by rewrite !(proj2 (Z.eqb_neq _ _)).
Qed.

Lemma match_slot_hit n i key root j : match_slot n i key root = Some j -> match_slot 1 j key root = Some j.
Proof.
  revert i. induction n as [|n IH]; intros i; cbn [match_slot]; [done|].
  destruct (_ && _) eqn:Hb; intros He; [simplify_eq; by rewrite Hb|]. by eapply IH.
Qed.

(** A live entry is found under its own name only. *)
Lemma match_one_key k key root : match_slot 1 k key root = Some k -> take 11 (entry root k) = key.
Proof. cbn [match_slot]. destruct (_ && _) eqn:Hb; [|done]. intros _. by apply andb_prop in Hb as [_ Hb%bool_decide_eq_true]. Qed.

Lemma match_one_other k key key2 root : key2 <> key -> take 11 (entry root k) = key -> match_slot 1 k key2 root = None.
Proof. intros Hne Ht. cbn [match_slot]. rewrite Ht, bool_decide_false by congruence. by rewrite andb_false_r. Qed.

Lemma entry_first root k : (k * 32 < length root)%nat -> byte_at (entry root k) 0 = byte_at root (k * 32).
Proof.
  intros Hk. unfold byte_at, entry. rewrite !nth_lookup, lookup_take_lt, lookup_drop, Nat.add_0_r by lia. done.
Qed.

Lemma match_one_dead k key root : (k * 32 < length root)%nat ->
  byte_at root (k * 32) = 0 \/ byte_at root (k * 32) = 0xE5 -> match_slot 1 k key root = None.
Proof. intros Hk Hd. cbn [match_slot]. rewrite entry_first by done. by destruct Hd as [->| ->]. Qed.

Lemma free_slot_dead n i root j :
  free_slot n i root = Some j -> byte_at root (j * 32) = 0 \/ byte_at root (j * 32) = 0xE5.
Proof.
  revert i. induction n as [|n IH]; intros i; cbn [free_slot]; [done|].
  destruct (_ || _) eqn:Ho; intros He; [simplify_eq|by eapply IH].
  apply orb_true_iff in Ho as [Ho|Ho]; [left|right; by breflect]. unfold z2b in Ho. rewrite negb_involutive in Ho. by breflect.
Qed.

(** The files called [key] are where they were. *)
Definition same_files (key root root' : list Z) : Prop :=
  forall k, (k < 16)%nat -> match_slot 1 k key root' = match_slot 1 k key root /\
    (match_slot 1 k key root = Some k -> entry root' k = entry root k).

Lemma same_files_trans key r1 r2 r3 : same_files key r1 r2 -> same_files key r2 r3 -> same_files key r1 r3.
Proof.
  intros H1 H2 k Hk. destruct (H1 k Hk) as [Ha Hb], (H2 k Hk) as [Hc Hd]. split; [congruence|].
  intros Hm. rewrite Hd by congruence. by apply Hb.
Qed.

Lemma same_files_found key root root' slot :
  same_files key root root' -> match_slot 16 0 key root = Some slot ->
  match_slot 16 0 key root' = Some slot /\ entry root' slot = entry root slot.
Proof.
  intros Hs Hm. pose proof (match_slot_bounds _ _ _ _ _ Hm) as Hb. pose proof (match_slot_hit _ _ _ _ _ Hm) as Hh.
  destruct (Hs slot ltac:(lia)) as [He Hent]. split; [|by apply Hent].
  apply match_slot_at; [lia| |by rewrite He]. intros k Hk. destruct (Hs k ltac:(lia)) as [-> _].
  by apply (match_slot_before _ _ _ _ _ Hm).
Qed.

Lemma same_files_mark key key2 root i :
  length root = 512%nat -> key2 <> key -> match_slot 16 0 key root = Some i ->
  same_files key2 root (w8 (i * 32) 0xE5 root).
Proof.
  intros Hl Hne Hm k Hk. pose proof (match_slot_bounds _ _ _ _ _ Hm) as Hb. destruct (decide (k = i)) as [->|Hki].
  - pose proof (match_one_other i key key2 root Hne (match_one_key _ _ _ (match_slot_hit _ _ _ _ _ Hm))) as Hn.
    rewrite Hn. split; [|done]. apply match_one_dead; [rewrite w8_length; lia|]. right.
    rewrite byte_at_w8 by lia. by rewrite decide_True.
  - pose proof (entry_mark i root k Hl ltac:(lia) Hk Hki) as He. split; [by apply match_one_entry|done].
Qed.

Lemma same_files_put key key2 root slot e :
  length root = 512%nat -> key2 <> key -> length e = 32%nat -> take 11 e = key -> free_slot 16 0 root = Some slot ->
  same_files key2 root (put_entry slot e root).
Proof.
  intros Hl Hne He Ht Hf k Hk. pose proof (free_slot_bounds _ _ _ _ Hf) as Hb.
  pose proof (entry_put slot e root k Hl He ltac:(lia) Hk) as Hent. case_decide as Hks.
  - subst k. rewrite (match_one_dead slot key2 root) by (lia || by eapply free_slot_dead). split; [|done].
    apply (match_one_other _ key); [done|]. by rewrite Hent.
  - split; [by apply match_one_entry|done].
Qed.

(** ** Dropping the old file *)

(** The root directory with the entry of the old file marked as deleted. *)
Definition marked_root (v : volume) (w : Z -> list Z) (name : list Z) : list Z :=
  match match_slot 16 0 (name83 name) (root_of v w) with
  | Some i => w8 (i * 32) 0xE5 (root_of v w)
  | None => root_of v w
  end.

Lemma marked_same v w name key :
  length (root_of v w) = 512%nat -> key <> name83 name -> same_files key (root_of v w) (marked_root v w name).
Proof.
  intros Hl Hne. unfold marked_root. destruct (match_slot _ _ _ _) as [i|] eqn:Hm; [by eapply same_files_mark|].
  by intros k Hk.
Qed.

Record dropped (v : volume) (name : list Z) (w w1 : Z -> list Z) : Prop := {
  dr_sectors : forall l, sector_ok (w1 l);
  dr_table : forall c, 2 <= c < limit v ->
    fat_entry v w1 c = if decide (c ∈ old_chain v w name) then 0 else fat_entry v w c;
  dr_data : forall c, 3 <= c < limit v -> w1 (cluster_lba v c) = w (cluster_lba v c);
  dr_root : root_of v w1 = marked_root v w name;
  dr_first : forall slot, free_slot 16 0 (root_of v w1) = Some slot ->
    forall k, (k < slot)%nat -> match_slot 1 k (name83 name) (root_of v w1) = None
}.

Lemma dropped_none v name w :
  (forall l, sector_ok (w l)) -> match_slot 16 0 (name83 name) (root_of v w) = None -> dropped v name w w.
Proof.
  intros Hw Hm. constructor; auto.
  - intros c Hc. unfold old_chain. rewrite Hm. by rewrite decide_False by set_solver.
  - unfold marked_root. by rewrite Hm.
  - intros slot Hs k Hk. apply free_slot_bounds in Hs. by apply (match_slot_none _ _ _ _ Hm); lia.
Qed.

Lemma dropped_some v name w w1 i :
  geo_ok v -> (forall l, sector_ok (w l)) -> match_slot 16 0 (name83 name) (root_of v w) = Some i ->
  released v (old_chain v w name) w w1 -> (forall l, sector_ok (w1 l)) ->
  dropped v name w (set_sector (cluster_lba v 2) (w8 (i * 32) 0xE5 (root_of v w)) w1).
Proof.
  intros Hg Hw Hm [Hr1 Hr2] Hw1. pose proof (geo_room v Hg). pose proof (match_slot_bounds _ _ _ _ _ Hm) as Hi.
  destruct (Hw (cluster_lba v 2)) as [Hlen _].
  assert (Hroot : root_of v (set_sector (cluster_lba v 2) (w8 (i * 32) 0xE5 (root_of v w)) w1)
    = w8 (i * 32) 0xE5 (root_of v w)) by (unfold root_of at 1; apply set_sector_eq).
  constructor.
  - apply set_sector_ok; [apply w8_sector, Hw|done].
  - intros c Hc. rewrite fat_entry_cluster by (done || lia). by apply Hr1.
  - intros c Hc. rewrite set_sector_ne; [apply Hr2; lia|].
    intros He. apply (cluster_lba_inj v Hg) in He; lia.
  - unfold marked_root. by rewrite Hm.
  - rewrite Hroot. intros slot Hs k Hk.
    assert (Hle : (slot <= i)%nat).
    { destruct (free_slot_le 16 0 (w8 (i * 32) 0xE5 (root_of v w)) i) as (j&Hj&?); [lia| |].
      - rewrite byte_at_w8 by (unfold root_of; lia). by rewrite decide_True.
      - congruence. }
    rewrite (match_one_entry k _ _ (root_of v w)) by (apply entry_mark; (done || lia)).
    apply (match_slot_before _ _ _ _ _ Hm). lia.
Qed.

Lemma drop_old_runs v w name :
  geo_ok v -> (forall l, sector_ok (w l)) ->
  exists w1, runs v w (drop_old name) true v w1 /\ dropped v name w w1.
Proof.
  intros Hg Hw. pose proof (geo_room v Hg). unfold drop_old.
  destruct (match_slot 16 0 (name83 name) (root_of v w)) as [i|] eqn:Hm.
  - pose proof (free_chain_runs v w (Z.to_nat (limit v)) (entry_cluster (entry (root_of v w) i)) Hg Hw)
      as (w1&Hr&Hrel&Hw1).
    assert (Hold : old_chain v w name = walk (Z.to_nat (limit v)) v w (entry_cluster (entry (root_of v w) i)) [])
      by (unfold old_chain; by rewrite Hm).
    rewrite <- Hold in Hrel. eexists. split; [|by apply (dropped_some v name w w1 i)].
    eapply runs_bind; [by apply runs_find|]. rewrite Hm. cbv beta iota.
    eapply runs_bind; [by apply runs_limit|]. eapply runs_bind; [exact Hr|]. cbn [negb].
    eapply runs_bind; [apply runs_get_vol|]. rewrite (geo_root v Hg).
    destruct (cluster_lba_value v Hg 2) as [_ Hb]; [lia|]. destruct Hg.
    apply runs_write; [nia|]. apply w8_sector, Hw.
  - exists w. split; [|by apply dropped_none].
    eapply runs_bind; [by apply runs_find|]. rewrite Hm. apply runs_ret.
Qed.

(** ** Reading a stored file back *)

Definition file_contents (v : volume) (w : Z -> list Z) (cs : list Z) (size : Z) : list Z :=
  take (Z.to_nat size) (concat (map (fun c => w (cluster_lba v c)) cs)).

Lemma chunk_full data written size :
  0 <= written -> written + 512 <= size -> chunk data written size = map data (seqZ written 512).
Proof.
  intros H1 H2. unfold chunk. replace (if _ <? 512 then _ else _) with 512
    by (destruct (Z.ltb_spec (size - written) 512); lia).
  change (Z.to_nat 512) with 512%nat. rewrite Nat.sub_diag. cbn [zero replicate]. rewrite app_nil_r. f_equal.
  unfold seqZ. apply map_ext. intros i. lia.
Qed.

Lemma chunk_last data written size :
  0 <= written -> written <= size <= written + 512 ->
  take (Z.to_nat (size - written)) (chunk data written size) = map data (seqZ written (size - written)).
Proof.
  intros H1 H2. unfold chunk.
  assert (Hn : (if size - written <? 512 then size - written else 512) = size - written)
    by (destruct (Z.ltb_spec (size - written) 512); lia). rewrite Hn.
  rewrite take_app_length' by (rewrite !length_map, length_seq; done). f_equal.
  unfold seqZ. apply map_ext. intros i. lia.
Qed.

Lemma holds_contents v w data size written cs :
  0 <= written <= size -> (needed size written <= length cs)%nat ->
  holds_file v w data size written cs ->
  take (Z.to_nat (size - written)) (concat (map (fun c => w (cluster_lba v c)) cs))
    = map data (seqZ written (size - written)).
Proof.
  revert written. induction cs as [|c cs IH]; intros written Hw Hn Hf.
  - unfold needed in Hn. cbn [length] in Hn.
    assert (size = written) as -> by (Z.div_mod_to_equations; lia). rewrite Z.sub_diag. done.
  - destruct Hf as [Hc Hf]. cbn [map concat]. rewrite Hc. destruct (Z.le_gt_cases size (written + 512)) as [Hle|Hgt].
    + rewrite take_app_le; [apply chunk_last; lia|].
      assert (Hlen : length (chunk data written size) = 512%nat).
      { unfold chunk. rewrite length_app, !length_map, length_seq. unfold zero. rewrite length_replicate.
        destruct (Z.ltb_spec (size - written) 512); lia. }
      lia.
    + rewrite chunk_full by lia. rewrite take_app_ge by (rewrite length_map, length_seqZ; lia).
      rewrite length_map, length_seqZ. replace (Z.to_nat (size - written) - Z.to_nat 512)%nat
        with (Z.to_nat (size - (written + 512))) by lia.
      rewrite IH; [|lia| |done].
      * replace (size - written) with (512 + (size - (written + 512))) by lia.
        rewrite <- map_app. f_equal. rewrite seqZ_app by lia. done.
      * cbn [length] in Hn. rewrite needed_step in Hn by lia. lia.
Qed.

(** ** Allocating and writing the data *)

Record written_file (v : volume) (data : Z -> Z) (size : Z) (w w' : Z -> list Z) (cs : list Z) : Prop := {
  wf_nodup : NoDup cs;
  wf_range : Forall (fun c => 3 <= c < limit v) cs;
  wf_free : Forall (fun c => fat_entry v w c = 0) cs;
  wf_chain : chained v w' cs;
  wf_data : file_contents v w' cs size = map data (seqZ 0 size);
  wf_frame : only_touches v cs w w'
}.

(** The loop as disk_store_large runs it, after the first cluster is taken. *)
Definition whole_loop (data : Z -> Z) (size first : Z) : M (st D) (option Z) :=
  store_loop (Z.to_nat (size / 512 + 1)) data size (u32 (size + 511) / 512) first 0 0.

Lemma empty_file v w first data :
  geo_ok v -> (forall l, sector_ok (w l)) -> 3 <= first < limit v -> fat_entry v w first = 0 ->
  written_file v data 0 w (claim v first w) [first].
Proof.
  intros Hg Hw Hf He. constructor.
  - apply NoDup_singleton.
  - by apply Forall_singleton.
  - by apply Forall_singleton.
  - split; [|done]. rewrite claim_entry by (done || lia). by rewrite decide_True.
  - done.
  - apply touch_claim; (done || lia).
Qed.

Lemma chain_file v w first cs data size w' n :
  geo_ok v -> (forall l, sector_ok (w l)) -> 3 <= first < limit v -> fat_entry v w first = 0 -> 0 < size ->
  stored_chain data size (with_next n v) (claim v first w) w' 0 first cs ->
  written_file v data size w w' (first :: cs).
Proof.
  intros Hg Hw Hf He Hs [Hnd Hr Hfree Hl Hc Hd Hfr]. constructor.
  - done.
  - done.
  - constructor; [done|]. apply NoDup_cons in Hnd as [Hnf _]. apply Forall_cons in Hr as [_ Hr].
    apply Forall_forall. intros c Hc'. rewrite Forall_forall in Hfree, Hr.
    specialize (Hfree c Hc'). specialize (Hr c Hc'). simpl in Hr.
    change (fat_entry (with_next n v)) with (fat_entry v) in Hfree. change (limit (with_next n v)) with (limit v) in Hr.
    rewrite claim_entry in Hfree by (done || lia). by rewrite decide_False in Hfree by (by intros ->).
  - by apply (chained_next v n).
  - unfold file_contents. pose proof (holds_contents v w' data size 0 (first :: cs)) as Hh.
    rewrite Z.sub_0_r in Hh. apply Hh; [lia|lia|]. by apply (holds_file_next v n).
  - apply only_touches_trans with (claim v first w); [|done].
    eapply only_touches_mono; [|apply touch_claim; (done || lia)]. clear; set_solver.
Qed.

Lemma write_file_runs v w data size :
  geo_ok v -> (forall l, sector_ok (w l)) -> (forall i, is_u8 (data i)) -> 0 <= size <= 2 ^ 32 - 512 ->
  (exists n, runs v w allocate_cluster 0 (with_next n v) w /\ free_clusters v w = []) \/
  (exists first n w2, runs v w allocate_cluster first (with_next n v) w2 /\ 3 <= first < limit v /\
    ((exists cs p m w3, runs (with_next n v) w2 (whole_loop data size first) (Some p) (with_next m v) w3 /\
        written_file v data size w w3 (first :: cs)) \/
     (exists m w3, runs (with_next n v) w2 (whole_loop data size first) None (with_next m v) w3 /\
        spares v 0 w w3 /\ (length (free_clusters v w) < needed size 0)%nat))).
Proof.
  intros Hg Hw Hd Hs. destruct (allocate_runs v w Hg) as [(c&Hc&Hf&Hal)|[Hnone [n Hal]]].
  2:{ left. exists n. split; [done|]. apply elem_of_nil_inv. intros c [? ?]%elem_of_free. by apply (Hnone c). }
  right. exists c, (c + 1), (claim v c w). split_and!; [done|lia|lia|]. unfold whole_loop.
  destruct (decide (size = 0)) as [->|Hnz].
  { left. exists [], 0, (c + 1), (claim v c w). split; [|by apply empty_file].
    rewrite store_loop_done by lia. apply runs_ret. }
  destruct (store_loop_runs data size (u32 (size + 511) / 512) Hd ltac:(lia) (Z.to_nat (size / 512 + 1))
    (with_next (c + 1) v) (claim v c w) c 0 0) as [(cs&p&m&w3&Hr&Hsc)|[(m&w3&Hr&Hsp) Hroom]].
  - by apply next_geo.
  - by apply claim_ok.
  - lia.
  - done.
  - change (fat_entry (with_next (c + 1) v)) with (fat_entry v). rewrite claim_entry by (done || lia).
    by rewrite decide_True.
  - Z.div_mod_to_equations. lia.
  - left. exists cs, p, m, w3. split; [done|]. eapply chain_file; (done || lia).
  - right. exists m, w3. split_and!; [done| |by rewrite (claim_free v w c)].
    apply (spares_step v 0 c w (claim v c w)); [lia|done| |done].
    eapply only_touches_mono; [|apply touch_claim; (done || lia)]. clear; set_solver.
Qed.

(** ** disk_store_large *)

(** The file [name] can be found and read back as [data] from the sectors [w]. *)
Definition file_on (v : volume) (w : Z -> list Z) (name : list Z) (slot : nat) (cs : list Z)
    (size : Z) (bytes : list Z) : Prop :=
  match_slot 16 0 (name83 name) (root_of v w) = Some slot /\
  entry_cluster (entry (root_of v w) slot) = hd 0 cs /\ r32 (entry (root_of v w) slot) 28 = size /\
  cs <> [] /\ NoDup cs /\ Forall (fun c => 3 <= c < limit v) cs /\ chained v w cs /\
  file_contents v w cs size = bytes.

(** The clusters [cs] and what they hold are the same. *)
Definition same_clusters (v : volume) (cs : list Z) (w w' : Z -> list Z) : Prop :=
  forall c, c ∈ cs -> fat_entry v w' c = fat_entry v w c /\ w' (cluster_lba v c) = w (cluster_lba v c).

Lemma chained_same v cs w w' : same_clusters v cs w w' -> chained v w cs -> chained v w' cs.
Proof.
  induction cs as [|c cs IH]; intros Hs; [done|]. intros [Hc Hch]. split.
  - destruct (Hs c) as [-> _]; [by apply elem_of_cons; left|done].
  - apply IH; [|done]. intros c' Hc'. apply Hs. apply elem_of_cons. by right.
Qed.

Lemma contents_same v cs w w' size : same_clusters v cs w w' -> file_contents v w' cs size = file_contents v w cs size.
Proof.
  intros Hs. unfold file_contents. f_equal. f_equal. apply map_ext_in. intros c Hc. apply Hs. by apply list_elem_of_In.
Qed.

Lemma file_on_same v w w' name slot cs size bytes :
  same_files (name83 name) (root_of v w) (root_of v w') -> same_clusters v cs w w' ->
  file_on v w name slot cs size bytes -> file_on v w' name slot cs size bytes.
Proof.
  intros Hf Hs (Hm&Hc&Hz&Hne&Hnd&Hr&Hch&Hb). destruct (same_files_found _ _ _ _ Hf Hm) as [Hm' He].
  unfold file_on. rewrite He, (contents_same v cs w w') by done. split_and!; try done. by eapply chained_same.
Qed.

Lemma chained_used v w cs c :
  chained v w cs -> Forall (fun c => 3 <= c < limit v) cs -> c ∈ cs -> fat_entry v w c <> 0.
Proof.
  induction cs as [|x cs IH]; intros Hch Hr Hc; [by apply not_elem_of_nil in Hc|].
  destruct Hch as [Hx Hch]. apply Forall_cons in Hr as [_ Hr]. apply elem_of_cons in Hc as [->|Hc]; [|by apply IH].
  rewrite Hx. destruct cs as [|y cs]; cbn [hd]; [done|]. apply Forall_cons in Hr as [? _]. lia.
Qed.

(** The chain of a proper file is the list of its clusters. *)
Lemma walk_chained n v w cs seen :
  geo_ok v -> chained v w cs -> NoDup cs -> Forall (fun c => 3 <= c < limit v) cs -> (forall c, c ∈ cs -> c ∉ seen) ->
  (length cs <= n)%nat -> walk n v w (hd 0x0FFFFFFF cs) seen = cs.
Proof.
  intros Hg. destruct (limit_bounds v Hg) as [_ Hlb]. unfold HOME_SECTORS in Hlb.
  revert cs seen. induction n as [|n IH]; intros [|c cs] seen Hch Hnd Hr Hs Hl; cbn [walk hd length] in *; [done|lia| |].
  - rewrite bool_decide_false; [done|]. intros [? _]. lia.
  - destruct Hch as [Hc Hch]. apply NoDup_cons in Hnd as [Hnc Hnd]. apply Forall_cons in Hr as [Hrc Hr].
    rewrite bool_decide_true by (split; [lia|apply Hs, elem_of_cons; by left]). f_equal. rewrite Hc.
    apply IH; try done; [|lia]. intros x Hx. apply not_elem_of_cons. split; [by intros ->|].
    apply Hs, elem_of_cons. by right.
Qed.

Lemma clusters_bounded v cs : NoDup cs -> Forall (fun c => 3 <= c < limit v) cs -> (length cs <= Z.to_nat (limit v))%nat.
Proof.
  intros Hnd Hr. transitivity (length (seqZ 3 (limit v - 3))); [|rewrite length_seqZ; lia].
  apply submseteq_length, NoDup_submseteq; [done|]. intros c Hc. apply elem_of_seqZ. rewrite Forall_forall in Hr.
  specialize (Hr c Hc). simpl in Hr. lia.
Qed.

Lemma old_chain_file v w name slot cs size bytes :
  geo_ok v -> file_on v w name slot cs size bytes -> old_chain v w name = cs.
Proof.
  intros Hg (Hm&Hc&_&Hne&Hnd&Hr&Hch&_). unfold old_chain. rewrite Hm, Hc.
  replace (hd 0 cs) with (hd 0x0FFFFFFF cs) by (by destruct cs).
  apply walk_chained; try done; [|by apply clusters_bounded]. intros c _. set_solver.
Qed.

Definition fresh (v : volume) (w : Z -> list Z) (name : list Z) : Prop :=
  match_slot 16 0 (name83 name) (root_of v w) = None.

(** Writing the directory entry completes the file. *)
Lemma entry_completes v w w1 w3 name data size slot first cs :
  geo_ok v -> live_name name -> 0 <= size <= 2 ^ 32 - 512 -> dropped v name w w1 ->
  free_slot 16 0 (root_of v w1) = Some slot -> written_file v data size w1 w3 (first :: cs) ->
  let w4 := set_sector (cluster_lba v 2) (put_entry slot (make_entry name first size) (root_of v w1)) w3 in
  file_on v w4 name slot (first :: cs) size (map data (seqZ 0 size)) /\
  (forall k, (k < 16)%nat -> k <> slot -> entry (root_of v w4) k = entry (root_of v w1) k).
Proof.
  intros Hg Hlive Hs [Hw1 _ _ _ Hfirst] Hslot [Hnd Hr Hfree Hch Hcont Hfr] w4.
  pose proof (geo_room v Hg) as Hroom. apply free_slot_bounds in Hslot as Hsb.
  pose proof (limit_bounds v Hg) as [Hl1 _]. destruct (Hw1 (cluster_lba v 2)) as [Hlen Hb].
  destruct (make_entry_ok name first size) as (He1&He2&He3&He4&He5&He6);
    [apply Forall_cons in Hr as [? _]; lia|lia|].
  assert (Hroot : root_of v w4 = put_entry slot (make_entry name first size) (root_of v w1)) by apply set_sector_eq.
  assert (Hent : forall k, (k < 16)%nat -> entry (root_of v w4) k =
    if decide (k = slot) then make_entry name first size else entry (root_of v w1) k)
    by (intros; rewrite Hroot; apply entry_put; (done || lia)).
  assert (H2 : 2 ∉ first :: cs).
  { intros Hin. rewrite Forall_forall in Hr. specialize (Hr 2 Hin). simpl in Hr. lia. }
  assert (Ht : only_touches v [2] w3 w4) by (apply touch_write; (done || lia)).
  assert (Hsame : same_clusters v (first :: cs) w3 w4).
  { intros c Hc. rewrite Forall_forall in Hr. specialize (Hr c Hc). simpl in Hr.
    apply Ht; [lia|]. intros He%list_elem_of_singleton. by subst. }
  split_and!.
  - split_and!; try done.
    + apply match_slot_at; [lia| |].
      * intros k Hk. rewrite (match_one_entry k _ _ (root_of v w1)) by (rewrite Hent by lia; by rewrite decide_False by lia).
        apply (Hfirst slot); (done || lia).
      * eapply match_one_new; [done|rewrite Hent by lia; by rewrite decide_True|done..].
    + rewrite Hent, decide_True by (done || lia). done.
    + rewrite Hent, decide_True by (done || lia). done.
    + by eapply chained_same.
    + by rewrite (contents_same v _ w3 w4).
  - intros k Hk Hne. rewrite Hent by done. by rewrite decide_False.
Qed.

(** Everything that follows the first read of the root directory, when a slot
    is free. *)
Lemma store_tail_runs v v1 w1 data size name slot first w2 w3 p v3 :
  geo_ok v -> v3 = with_next (next_free_cluster v3) v -> (slot < 16)%nat -> 3 <= first < limit v ->
  0 <= size <= 2 ^ 32 - 512 -> (forall l, sector_ok (w1 l)) ->
  runs v1 w2 (whole_loop data size first) (Some p) v3 w3 ->
  runs v1 w2
    (putc 91 ;;
     let! r := whole_loop data size first in
     match r with None => ret false | Some pbar =>
     bar pbar 40 ;; putc 93 ;; pnum 100 ;; puts (text "%" ++ [10]) ;;
     let! v := get_vol in
     let! ok := disk_write_ (cluster_lba v (root_cluster v)) (put_entry slot (make_entry name first size) (root_of v1 w1)) in
     if negb ok then ret false else disk_flush_
     end) true v3
    (set_sector (cluster_lba v 2) (put_entry slot (make_entry name first size) (root_of v1 w1)) w3).
Proof.
  intros Hg Hv3 Hslot Hf Hs Hw1 Hr. pose proof (geo_room v Hg). pose proof (limit_bounds v Hg) as [? _].
  destruct (make_entry_ok name first size) as (He1&He2&_); [lia|lia|].
  eapply runs_bind; [apply runs_puts|]. eapply runs_bind; [exact Hr|]. cbv beta iota.
  eapply runs_bind; [apply runs_bar|]. eapply runs_bind; [apply runs_puts|].
  eapply runs_bind; [apply runs_puts|]. eapply runs_bind; [apply runs_puts|].
  eapply runs_bind; [apply runs_get_vol|]. rewrite Hv3. cbn [root_cluster with_next].
  rewrite (geo_root v Hg). change (cluster_lba (with_next (next_free_cluster v3) v) 2) with (cluster_lba v 2).
  destruct (cluster_lba_value v Hg 2) as [_ Hb]; [lia|]. destruct Hg.
  eapply runs_bind; [apply runs_write; [nia|]|].
  - apply put_entry_sector; try done. apply Hw1.
  - cbn [negb]. apply runs_flush.
Qed.

Lemma runs_fail_loop v1 w2 data size first v3 w3 (k : Z -> M (st D) bool) :
  runs v1 w2 (whole_loop data size first) None v3 w3 ->
  runs v1 w2 (putc 91 ;; let! r := whole_loop data size first in
    match r with None => ret false | Some pbar => k pbar end) false v3 w3.
Proof.
  intros Hr. eapply runs_bind; [apply runs_puts|]. eapply runs_bind; [exact Hr|]. apply runs_ret.
Qed.

(** The clusters a new file called [name] can be given: the free ones and those
    of the file it replaces. *)
Definition available (v : volume) (w : Z -> list Z) (name : list Z) : list Z :=
  filter (fun c => fat_entry v w c = 0 \/ c ∈ old_chain v w name) (seqZ 3 (limit v - 3)).

(** Clusters in use by anything but the replaced file are as they were, and the
    files they belong to can be found and read as before. *)
Definition others_kept (v : volume) (w : Z -> list Z) (name : list Z) (w' : Z -> list Z) : Prop :=
  (forall c, 3 <= c < limit v -> fat_entry v w c <> 0 -> c ∉ old_chain v w name ->
    fat_entry v w' c = fat_entry v w c /\ w' (cluster_lba v c) = w (cluster_lba v c)) /\
  (forall other slot cs size bytes, name83 other <> name83 name -> file_on v w other slot cs size bytes ->
    Forall (fun c => c ∉ old_chain v w name) cs -> file_on v w' other slot cs size bytes).

(** What a call of disk_store_large ends in. *)
Definition store_outcome (v : volume) (w : Z -> list Z) (name : list Z) (data : Z -> Z) (size : Z)
    (ok : bool) (w' : Z -> list Z) : Prop :=
  others_kept v w name w' /\
  if ok then
    exists slot cs, file_on v w' name slot cs size (map data (seqZ 0 size)) /\
      Forall (fun c => c ∈ available v w name) cs /\
      (forall c, 2 <= c < limit v -> c ∉ cs ->
        fat_entry v w' c = if decide (c ∈ old_chain v w name) then 0 else fat_entry v w c) /\
      (forall c, 3 <= c < limit v -> c ∉ cs -> w' (cluster_lba v c) = w (cluster_lba v c)) /\
      (forall k, (k < 16)%nat -> k <> slot -> entry (root_of v w') k = entry (marked_root v w name) k)
  else
    root_of v w' = marked_root v w name /\
    (fresh v w name /\ free_slot 16 0 (root_of v w) = None \/
     (length (available v w name) < Nat.max 1 (needed size 0))%nat).

Section outcome.

Context (v : volume) (w w1 : Z -> list Z) (name : list Z).
Hypothesis Hg : geo_ok v.
Hypothesis Hw : forall l, sector_ok (w l).
Hypothesis Hdr : dropped v name w w1.

Lemma available_free : available v w name = free_clusters v w1.
Proof.
  unfold available, free_clusters. apply filter_same, Forall_forall. intros c Hc%elem_of_seqZ.
  rewrite (dr_table _ _ _ _ Hdr) by lia. case_decide; tauto.
Qed.

(** Work that leaves alone the clusters in use after the old file is dropped. *)
Lemma others_after w' :
  spares v 0 w1 (set_sector (cluster_lba v 2) (root_of v w1) w') ->
  (forall key, key <> name83 name -> same_files key (root_of v w1) (root_of v w')) -> others_kept v w name w'.
Proof.
  intros Hsp Hroot.
  assert (Hk : forall c, 3 <= c < limit v -> fat_entry v w c <> 0 -> c ∉ old_chain v w name ->
    fat_entry v w' c = fat_entry v w c /\ w' (cluster_lba v c) = w (cluster_lba v c)).
  { intros c Hc Hu Ho. pose proof (dr_table _ _ _ _ Hdr c ltac:(lia)) as Ht. rewrite decide_False in Ht by done.
    destruct (Hsp c) as [He Hd]; [lia|lia|right; by rewrite Ht|].
    rewrite fat_entry_cluster in He by (done || lia).
    rewrite set_sector_ne in Hd by (intros Heq; apply (cluster_lba_inj v Hg) in Heq; lia).
    split; [congruence|]. rewrite Hd. by apply (dr_data _ _ _ _ Hdr). }
  split; [done|]. intros other slot cs size bytes Hne Hon Hout. pose proof Hon as (_&_&_&_&_&Hr&Hch&_).
  apply (file_on_same v w); [| |done].
  - eapply same_files_trans; [|by apply Hroot]. rewrite (dr_root _ _ _ _ Hdr). apply marked_same; [apply Hw|done].
  - intros c Hc. pose proof (chained_used v w cs c Hch Hr Hc) as Hu. rewrite Forall_forall in Hr, Hout.
    specialize (Hr c Hc). simpl in Hr. apply Hk; [lia|done|by apply Hout].
Qed.

Lemma no_slot : free_slot 16 0 (root_of v w1) = None -> fresh v w name /\ free_slot 16 0 (root_of v w) = None.
Proof.
  rewrite (dr_root _ _ _ _ Hdr). unfold marked_root, fresh. destruct (match_slot _ _ _ _) as [i|] eqn:Hm; [|done].
  intros Hf. pose proof (match_slot_bounds _ _ _ _ _ Hm). destruct (Hw (cluster_lba v 2)) as [Hlen _].
  destruct (free_slot_le 16 0 (w8 (i * 32) 0xE5 (root_of v w)) i) as (j&Hj&_); [lia| |congruence].
  rewrite byte_at_w8 by (unfold root_of; lia). by rewrite decide_True.
Qed.

(** A failure before the directory is written. *)
Lemma outcome_failure data size w3 :
  spares v 0 w1 w3 ->
  free_slot 16 0 (root_of v w1) = None \/ (length (free_clusters v w1) < Nat.max 1 (needed size 0))%nat ->
  store_outcome v w name data size false w3.
Proof.
  intros Hsp Hwhy. pose proof (geo_room v Hg).
  assert (Hroot : root_of v w3 = root_of v w1) by (apply Hsp; [lia|done|by left]).
  split; [|split].
  - apply others_after; [|by intros key _; rewrite Hroot].
    intros c Hc Hn Hu. destruct (Hsp c Hc Hn Hu) as [He Hd].
    rewrite fat_entry_cluster by (done || lia). split; [done|]. destruct (decide (c = 2)) as [->|Hc2]; [by rewrite set_sector_eq|].
    rewrite set_sector_ne; [done|]. intros Heq. apply (cluster_lba_inj v Hg) in Heq; lia.
  - rewrite Hroot. apply (dr_root _ _ _ _ Hdr).
  - destruct Hwhy as [Hs|Hs]; [left; by apply no_slot|right; by rewrite available_free].
Qed.

Lemma outcome_success data size slot first cs w3 :
  live_name name -> 0 <= size <= 2 ^ 32 - 512 ->
  free_slot 16 0 (root_of v w1) = Some slot -> written_file v data size w1 w3 (first :: cs) ->
  store_outcome v w name data size true
    (set_sector (cluster_lba v 2) (put_entry slot (make_entry name first size) (root_of v w1)) w3).
Proof.
  intros Hlive Hs Hslot Hwf. pose proof (geo_room v Hg).
  destruct (entry_completes v w w1 w3 name data size slot first cs Hg Hlive Hs Hdr Hslot Hwf) as (Hon&Hents).
  set (w4 := set_sector _ _ w3) in *. destruct Hwf as [_ Hr Hfree _ _ Hfr]. pose proof (free_slot_bounds _ _ _ _ Hslot).
  assert (Hent : forall c, 2 <= c < limit v -> c ∉ first :: cs -> fat_entry v w4 c = fat_entry v w1 c).
  { intros c Hc Hn. unfold w4. rewrite fat_entry_cluster by (done || lia). by apply Hfr. }
  assert (Hdat : forall c, 3 <= c < limit v -> c ∉ first :: cs -> w4 (cluster_lba v c) = w1 (cluster_lba v c)).
  { intros c Hc Hn. unfold w4. rewrite set_sector_ne by (intros Heq; apply (cluster_lba_inj v Hg) in Heq; lia).
    apply Hfr; [lia|done]. }
  assert (Hnew : forall c, c ∈ first :: cs -> 3 <= c < limit v /\ fat_entry v w1 c = 0).
  { intros c Hc. rewrite Forall_forall in Hr, Hfree. split; [by apply Hr|by apply Hfree]. }
  split; [|exists slot, (first :: cs); split_and!].
  - apply others_after.
    + intros c Hc _ Hu. assert (Hn : c ∉ first :: cs) by (intros [? ?]%Hnew; destruct Hu; [lia|done]).
      rewrite fat_entry_cluster by (done || lia). split; [by apply Hent|].
      destruct (decide (c = 2)) as [->|Hc2]; [by rewrite set_sector_eq|].
      rewrite set_sector_ne by (intros Heq; apply (cluster_lba_inj v Hg) in Heq; lia). apply Hdat; [lia|done].
    + intros key Hne. replace (root_of v w4) with (put_entry slot (make_entry name first size) (root_of v w1))
        by (unfold w4, root_of; by rewrite set_sector_eq).
      pose proof (limit_bounds v Hg) as [Hl1 _].
      destruct (make_entry_ok name first size) as (He1&_&He3&_); [destruct (Hnew first); [by apply elem_of_cons; left|lia]|lia|].
      eapply same_files_put; [apply (dr_sectors _ _ _ _ Hdr)|done..].
  - done.
  - rewrite available_free. apply Forall_forall. intros c Hc. apply elem_of_free. by apply Hnew.
  - intros c Hc Hn. rewrite Hent by done. by apply (dr_table _ _ _ _ Hdr).
  - intros c Hc Hn. rewrite Hdat by done. by apply (dr_data _ _ _ _ Hdr).
  - intros k Hk Hne. rewrite Hents by done. by rewrite (dr_root _ _ _ _ Hdr).
Qed.

End outcome.

Lemma store_runs v w name data size :
  geo_ok v -> (forall l, sector_ok (w l)) -> live_name name -> (forall i, is_u8 (data i)) ->
  0 <= size <= 2 ^ 32 - 512 ->
  exists ok n w', runs v w (disk_store_large name data size) ok (with_next n v) w' /\
    store_outcome v w name data size ok w'.
Proof.
  intros Hg Hw Hlive Hd Hs. pose proof (geo_room v Hg) as Hroom.
  destruct (drop_old_runs v w name Hg Hw) as (w1&Hdrop&Hdr). pose proof (dr_sectors _ _ _ _ Hdr) as Hw1.
  destruct (cluster_lba_value v Hg 2) as [_ Hb]; [lia|].
  assert (Hpre : forall ok v' w', runs v w1 (match free_slot 16 0 (root_of v w1) with None => ret false | Some slot =>
      let! first := allocate_cluster in if first =? 0 then ret false else
      putc 91 ;; let! r := whole_loop data size first in
      match r with None => ret false | Some pbar =>
      bar pbar 40 ;; putc 93 ;; pnum 100 ;; puts (text "%" ++ [10]) ;;
      let! u := get_vol in
      let! ok := disk_write_ (cluster_lba u (root_cluster u)) (put_entry slot (make_entry name first size) (root_of v w1)) in
      if negb ok then ret false else disk_flush_ end end) ok v' w' ->
    runs v w (disk_store_large name data size) ok v' w').
  { intros ok v' w' Hr. unfold disk_store_large. eapply runs_bind; [exact Hdrop|]. cbn [negb].
    eapply runs_bind; [apply runs_get_vol|]. rewrite (geo_root v Hg).
    eapply runs_bind; [apply runs_read; destruct Hg; nia|]. exact Hr. }
  destruct (free_slot 16 0 (root_of v w1)) as [slot|] eqn:Hslot.
  2:{ exists false, (next_free_cluster v), w1. rewrite with_next_id. split; [apply Hpre, runs_ret|].
      by apply (outcome_failure v w w1); [..|left]. }
  pose proof (free_slot_bounds _ _ _ _ Hslot) as Hsb.
  destruct (write_file_runs v w1 data size Hg Hw1 Hd Hs)
    as [(n&Hal&Hz)|(first&n&w2&Hal&Hfr&[(cs&p&m&w3&Hr&Hwf)|(m&w3&Hr&Hsp&Hlt)])].
  - exists false, n, w1. split; [apply Hpre; eapply runs_bind; [exact Hal|apply runs_ret]|].
    apply (outcome_failure v w w1); try done. right. rewrite Hz. cbn [length]. lia.
  - exists true, m, (set_sector (cluster_lba v 2) (put_entry slot (make_entry name first size) (root_of v w1)) w3).
    split; [|by apply (outcome_success v w w1) with (cs := cs)].
    apply Hpre. eapply runs_bind; [exact Hal|]. rewrite (proj2 (Z.eqb_neq first 0)) by lia.
    by apply (store_tail_runs v (with_next n v) w1 data size name slot first w2 w3 p (with_next m v)); [|done|lia| | | |].
  - exists false, m, w3. split.
    + apply Hpre. eapply runs_bind; [exact Hal|]. rewrite (proj2 (Z.eqb_neq first 0)) by lia.
      by apply runs_fail_loop.
    + apply (outcome_failure v w w1); try done. right. lia.
Qed.


End store.

(** ** Concrete disks *)

Definition blank_state (v : volume) : st (ata drive) := St blank_disk v [].

Lemma blank_at v : at_ v (store blank_disk) (blank_state v).
Proof. split_and!; [exact blank_disk_ok|done|done]. Qed.


(** A second file under the same name takes the place of the first. *)
Lemma disk_store_large_again :
  match (let! a := disk_store_large (text "KERNEL.BIN") (fun _ => 65) 1000 in
         let! b := disk_store_large (text "KERNEL.BIN") (fun _ => 66) 600 in ret (a, b)) (blank_state formatted) with
  | Ok (r, s) => r = (true, true)
  | _ => False
  end.
Proof. vm_compute. reflexivity. Qed.
