(* ===== verification/Mini64FatFormat.v ===== *)
(** * Formatting, mounting, deleting and the boot mode on the rescue system

    Mounting after formatting, what goes wrong when a disk is formatted before
    any volume was mounted, the boot mode reader and the removal of a file. *)

From stdpp Require Import base numbers list sets strings.
From Stdlib Require Import ZArith Lia.
From S2P Require Import Prelude Ports Mini64Ata Effects Mini64Fat Mini64FatProof Mini64FatStore Mini64FatTheorems.

(** ** Formatting *)

Definition sector_okb (b : list Z) : bool :=
  Nat.eqb (length b) 512 && forallb (fun c => (0 <=? c) && (c <? 2 ^ 8)) b.

Lemma sector_okb_ok b : sector_okb b = true -> sector_ok b.
Proof.
  unfold sector_okb. intros [Hl Hb]%andb_true_iff. apply Nat.eqb_eq in Hl. split; [done|].
  apply Forall_forall. intros x Hx. rewrite forallb_forall in Hb.
  specialize (Hb x (proj1 (list_elem_of_In _ _) Hx)). breflect. unfold is_u8. lia.
Qed.

Section format.

Context {D : Type} `{DiskLaws D}.

Lemma format_copy_runs n f s p v w :
  0 <= f <= 1 -> 0 <= s -> s + Z.of_nat n <= 993 ->
  exists p' w', runs v w (format_copy n f s p) (Some p') v w' /\
    forall l, w' l = if (HOME_START + 32 + f * 993 + s <=? l) && (l <? HOME_START + 32 + f * 993 + s + Z.of_nat n)
                     then (if l =? HOME_START + 32 + f * 993 then format_fat0 else zero 512) else w l.
Proof.
  intros Hf. revert s p w. induction n as [|n IH]; intros s p w Hs Hn; cbn [format_copy].
  { exists p, w. split; [apply runs_ret|]. intros l.
    destruct (HOME_START + 32 + f * 993 + s <=? l) eqn:E1, (l <? HOME_START + 32 + f * 993 + s + Z.of_nat 0) eqn:E2;
      breflect; try done. lia. }
  unfold HOME_START in *.
  set (w1 := set_sector (2048 + 32 + f * 993 + s) (if s =? 0 then format_fat0 else zero 512) w).
  destruct (IH (s + 1) (Z.max p ((f * 993 + s + 1) * 40 / (2 * 993))) w1) as (p'&w'&Hr&Hw'); [lia|lia|].
  exists p', w'. split.
  - rewrite u32_small by lia. eapply runs_bind.
    + apply runs_write; [lia|]. destruct (s =? 0); [by apply sector_okb_ok; vm_compute|apply zero_sector].
    + cbn [negb]. eapply runs_bind; [apply runs_bar|]. exact Hr.
  - intros l. rewrite Hw'. unfold w1, set_sector. clear -Hs Hf.
    destruct (Z.leb_spec (2048 + 32 + f * 993 + (s + 1)) l), (Z.ltb_spec l (2048 + 32 + f * 993 + (s + 1) + Z.of_nat n)),
      (Z.leb_spec (2048 + 32 + f * 993 + s) l), (Z.ltb_spec l (2048 + 32 + f * 993 + s + Z.of_nat (S n)));
      cbn [andb]; try lia; try done;
      destruct (Z.eqb_spec l (2048 + 32 + f * 993 + s)); try lia; try done;
      destruct (Z.eqb_spec s 0), (Z.eqb_spec l (2048 + 32 + f * 993)); try lia; done.
Qed.

(** The sectors fat_format leaves, the label sector at [label_lba]. *)
Definition format_image (label_lba : Z) (w : Z -> list Z) (l : Z) : list Z :=
  if l =? label_lba then format_label
  else if (2080 <=? l) && (l <? 4066) then (if (l =? 2080) || (l =? 3073) then format_fat0 else zero 512)
  else if (l =? 2055) || (l =? 2049) then format_fsinfo
  else if (l =? 2054) || (l =? 2048) then format_bpb
  else if l =? 0 then format_mbr else w l.

Lemma fat_format_runs v w :
  0 <= cluster_lba v 2 < 2 ^ 28 ->
  exists w', runs v w fat_format true formatted w' /\ forall l, w' l = format_image (cluster_lba v 2) w l.
Proof.
  intros Hl.
  set (w1 := set_sector 2055 format_fsinfo (set_sector 2049 format_fsinfo (set_sector 2054 format_bpb
    (set_sector 2048 format_bpb (set_sector 0 format_mbr w))))).
  destruct (format_copy_runs 993 0 0 0 v w1) as (p1&w2&Hr1&Hw2); [lia..|].
  destruct (format_copy_runs 993 1 0 p1 v w2) as (p2&w3&Hr2&Hw3); [lia..|].
  exists (set_sector (cluster_lba v 2) format_label w3). split.
  - unfold fat_format. eapply runs_bind.
    { cbn [write_all]. unfold HOME_START.
      do 5 (eapply runs_bind; [apply runs_write; [lia|by apply sector_okb_ok; vm_compute]|]; cbn [negb]).
      apply runs_ret. }
    cbn [negb]. eapply runs_bind; [apply runs_puts|]. eapply runs_bind; [exact Hr1|]. cbv beta iota.
    eapply runs_bind; [exact Hr2|]. cbv beta iota. eapply runs_bind; [apply runs_puts|].
    eapply runs_bind; [apply runs_puts|]. eapply runs_bind; [apply runs_get_vol|].
    eapply runs_bind; [apply runs_write; [lia|by apply sector_okb_ok; vm_compute]|]. cbn [negb].
    eapply runs_bind; [apply runs_set_vol|]. apply runs_flush.
  - intros l. unfold format_image, set_sector. destruct (l =? cluster_lba v 2); [done|].
    rewrite Hw3, Hw2. unfold w1, set_sector, HOME_START. change (Z.of_nat 993) with 993.
    destruct (Z.leb_spec (2048 + 32 + 1 * 993 + 0) l), (Z.ltb_spec l (2048 + 32 + 1 * 993 + 0 + 993)),
      (Z.leb_spec (2048 + 32 + 0 * 993 + 0) l), (Z.ltb_spec l (2048 + 32 + 0 * 993 + 0 + 993)),
      (Z.leb_spec 2080 l), (Z.ltb_spec l 4066); cbn [andb]; try lia;
      repeat match goal with |- context [l =? ?n] => destruct (Z.eqb_spec l n); cbn [orb]; try lia end; done.
Qed.

(** Mounting what the formatter wrote. *)
Lemma fat_init_formatted v w :
  w 0 = format_mbr -> w 2048 = format_bpb -> w 2049 = format_fsinfo -> runs v w fat_init true formatted w.
Proof.
  intros Hmbr Hbpb Hfsi. unfold fat_init. eapply runs_bind; [apply runs_read; lia|]. rewrite Hmbr. cbv beta iota.
  replace (signed format_mbr) with true by (vm_compute; done). cbn [negb]. cbv zeta.
  replace (byte_at format_mbr 450) with 0x0C by (vm_compute; done). cbn [Z.eqb Pos.eqb negb andb].
  eapply runs_bind; [apply runs_set_vol|]. eapply runs_bind; [apply runs_get_vol|]. cbn [vol_start with_vol_start].
  replace (r32 format_mbr 454) with 2048 by (vm_compute; done).
  eapply runs_bind; [apply runs_read; lia|]. rewrite Hbpb. cbv beta iota.
  replace (signed format_bpb) with true by (vm_compute; done).
  replace (r16 format_bpb 11) with 512 by (vm_compute; done).
  replace (r32 format_bpb 82) with 0x33544146 by (vm_compute; done). cbn [Z.eqb Pos.eqb negb orb].
  eapply runs_bind; [apply runs_set_vol|]. change (u32 (2048 + 1)) with 2049.
  eapply runs_bind; [apply runs_read; lia|]. rewrite Hfsi. cbv beta iota zeta.
  replace (r32 format_fsinfo 492) with 3 by (vm_compute; done). cbn [Z.leb Z.compare Pos.compare Pos.compare_cont].
  eapply runs_bind; [apply runs_set_vol|]. eapply runs_bind; [apply runs_set_vol|].
  eassert (with_mounted true (with_next 3 _) = formatted) as ->; [|apply runs_flush].
  vm_compute. reflexivity.
Qed.

Lemma byte_at_zero n o : byte_at (zero n) o = 0.
Proof.
  unfold byte_at, zero. rewrite nth_lookup. destruct (_ !! o) eqn:He; [|done].
  by apply lookup_replicate in He as [-> _].
Qed.

Lemma r32_zero o : r32 (zero 512) o = 0.
Proof. unfold r32, r16. by rewrite !byte_at_zero. Qed.

(** A fresh table: every data cluster is free. *)
Lemma format_all_free label_lba w c :
  label_lba < 2080 \/ 4066 <= label_lba -> 3 <= c < limit formatted ->
  fat_entry formatted (format_image label_lba w) c = 0.
Proof.
  intros Hl Hc. assert (Hlim : limit formatted = 127008) by (vm_compute; done). rewrite Hlim in Hc.
  unfold fat_entry, fat_lba. cbn [vol_start reserved fat_sectors formatted].
  unfold HOME_START. assert (Hq : 0 <= c * 4 / 512 < 993) by (Z.div_mod_to_equations; lia).
  unfold format_image. rewrite (proj2 (Z.eqb_neq _ label_lba)) by lia.
  rewrite (proj2 (Z.leb_le 2080 _)), (proj2 (Z.ltb_lt _ 4066)) by lia. cbn [andb].
  destruct (Z.eqb_spec (2048 + 32 + 0 * 993 + c * 4 / 512) 2080) as [He|He]; cbn [orb].
  - assert (Hc128 : c < 128) by (Z.div_mod_to_equations; lia).
    assert (Hall : forallb (fun n => Z.land (r32 format_fat0 (Z.to_nat (Z.of_nat n * 4 mod 512))) 0x0FFFFFFF =? 0)
      (seq 3 125) = true) by (vm_compute; done).
    rewrite forallb_forall in Hall. specialize (Hall (Z.to_nat c)). rewrite Z2Nat.id in Hall by lia.
    apply Z.eqb_eq, Hall. apply in_seq. lia.
  - destruct (Z.eqb_spec (2048 + 32 + 0 * 993 + c * 4 / 512) 3073); [lia|]. by rewrite r32_zero.
Qed.

(** Formatting and mounting agree.  When a volume of the standard layout
    is already known to the system (so that the label goes to its root
    directory), fat_format succeeds, the following fat_init succeeds and
    recovers exactly the geometry fat_format put into force, every data
    cluster is free, and the root directory has its second slot free. *)
Theorem format_then_mount v w s :
  at_ v w s -> cluster_lba v 2 = HOME_START + 2018 ->
  exists s1 s2, fat_format s = Ok (true, s1) /\ vol s1 = formatted /\
    fat_init s1 = Ok (true, s2) /\ vol s2 = formatted /\ geo_ok formatted /\
    (forall c, 3 <= c < limit formatted -> fat_entry formatted (view (disk s2)) c = 0) /\
    free_slot 16 0 (root_of formatted (view (disk s2))) = Some 1%nat.
Proof.
  intros Hat Hlba. unfold HOME_START in Hlba. destruct (fat_format_runs v w) as (w'&Hr&Hw'); [lia|].
  rewrite Hlba in Hw'. destruct (Hr s Hat) as (s1&E1&Hat1).
  destruct (fat_init_formatted formatted w') with (s := s1) as (s2&E2&(Hg2&Hv2&Hvol2));
    [by rewrite Hw'..|done|].
  exists s1, s2. rewrite Hv2. destruct Hat1 as (_&_&Hvol1).
  split_and!; [exact E1|exact Hvol1|exact E2|exact Hvol2|exact formatted_geo| |].
  - intros c Hc. rewrite <- (format_all_free (2048 + 2018) w c) by (done || lia).
    unfold fat_entry. by rewrite Hw'.
  - unfold root_of. rewrite Hw'. vm_compute. done.
Qed.

(** Formatting a disk no volume was ever mounted from loses the partition
    table.  From the program's initial globals fat_format reports success,
    but it has put the volume label over sector 0: afterwards the sector
    carries no boot signature, and mounting the disk fails. *)
Theorem format_fresh_disk_unmountable w s :
  at_ volume0 w s ->
  exists s1 s2, fat_format s = Ok (true, s1) /\ vol s1 = formatted /\
    view (disk s1) 0 = format_label /\ fat_init s1 = Ok (false, s2).
Proof.
  intros Hat. destruct (fat_format_runs volume0 w) as (w'&Hr&Hw'); [vm_compute; split; congruence|].
  destruct (Hr s Hat) as (s1&E1&Hat1). pose proof Hat1 as (_&Hv1&Hvol1).
  assert (H0' : w' 0 = format_label) by (by rewrite Hw').
  assert (Hi : runs formatted w' fat_init false formatted w').
  { unfold fat_init. eapply runs_bind; [apply runs_read; lia|]. rewrite H0'. cbv beta iota.
    replace (signed format_label) with false by (vm_compute; done). apply runs_ret. }
  destruct (Hi s1 Hat1) as (s2&E2&_). exists s1, s2. rewrite Hv1. done.
Qed.

End format.

(** ** Reading the boot mode *)

Section bootmode.

Context {D : Type} `{DiskLaws D}.

(** The boot mode reader overruns its buffer: whenever the volume holds a
    BOOTMODE.CFG with at least one byte, read_bootmode with the 64-byte
    buffer its caller passes writes a whole 512-byte sector into it. *)
Theorem read_bootmode_overflows v w s slot buf :
  at_ v w s -> geo_ok v -> match_slot 16 0 (name83 (text "BOOTMODE.CFG")) (root_of v w) = Some slot ->
  0 < r32 (entry (root_of v w) slot) 28 -> 2 <= entry_cluster (entry (root_of v w) slot) < limit v ->
  length buf = 64%nat ->
  read_bootmode buf s = Undefined.
Proof.
  intros Hat Hg Hm Hsz Hc Hbuf. unfold read_bootmode.
  destruct (runs_find v w (text "BOOTMODE.CFG") Hg s Hat) as (s1&E1&Hat1).
  rewrite (bind_ok _ _ _ _ _ E1), Hm. cbv beta iota zeta. rewrite Hbuf. change (Z.of_nat 64) with 64.
  set (size := if 64 - 1 <? _ then _ else _).
  assert (Hs : 0 < size) by (unfold size; destruct (64 - 1 <? _); lia).
  assert (Hfuel : exists n, Z.to_nat (size / 512 + 1) = S n).
  { exists (Z.to_nat (size / 512)). pose proof (Z.div_pos size 512). lia. }
  destruct Hfuel as [n ->]. unfold bind at 1. cbn [bootmode_loop].
  rewrite (proj2 (Z.ltb_lt 0 size)) by lia. cbn [negb].
  destruct (runs_get_vol v w s1 Hat1) as (s2&E2&Hat2). rewrite (bind_ok _ _ _ _ _ E2).
  destruct (cluster_lba_value v Hg _ Hc) as [_ Hb]. pose proof (at_sectors v w s Hat) as Hw.
  destruct (runs_read (cluster_lba v (entry_cluster (entry (root_of v w) slot))) v w) with (s := s2)
    as (s3&E3&_); [destruct Hg; nia|done|].
  rewrite (bind_ok _ _ _ _ _ E3). unfold blit. destruct (Hw (cluster_lba v (entry_cluster (entry (root_of v w) slot)))) as [Hl _].
  rewrite Hl, Hbuf. done.
Qed.

End bootmode.

(** ** Deleting *)

Section delete.

Context {D : Type} `{DiskLaws D}.

Lemma entry_deleted key root i :
  length root = 512%nat -> (i < 16)%nat -> match_slot 1 i key (w8 (i * 32) 0xE5 root) = None.
Proof.
  intros Hl Hi. cbn [match_slot]. set (e := entry _ i).
  assert (He : byte_at e 0 = 0xE5).
  { unfold e, byte_at, entry, w8. rewrite nth_lookup, lookup_take_lt, lookup_drop, Nat.add_0_r by lia.
    rewrite list_lookup_insert_eq by lia. done. }
  rewrite He. by rewrite andb_false_r.
Qed.

(** Deleting a file.  delete_root_file always returns and reports whether
    the name was in the root directory.  If it was, that entry is no longer
    found and every other entry is unchanged; no other sector changes at all,
    so the clusters of the deleted file stay marked as used. *)
Theorem delete_root_file_correct v w s name :
  at_ v w s -> geo_ok v ->
  exists ok s', delete_root_file name s = Ok (ok, s') /\
    let w' := view (disk s') in
    ok = is_some (match_slot 16 0 (name83 name) (root_of v w)) /\
    (forall i, match_slot 16 0 (name83 name) (root_of v w) = Some i ->
       match_slot 1 i (name83 name) (root_of v w') = None /\
       forall k, (k < 16)%nat -> k <> i -> entry (root_of v w') k = entry (root_of v w) k) /\
    (forall l, l <> cluster_lba v 2 -> w' l = w l) /\
    (forall c, 0 <= c < limit v -> fat_entry v w' c = fat_entry v w c).
Proof.
  intros Hat Hg. pose proof (geo_room v Hg) as Hroom. destruct (at_sectors v w s Hat (cluster_lba v 2)) as [Hlen Hu8].
  destruct (match_slot 16 0 (name83 name) (root_of v w)) as [i|] eqn:Hm.
  - pose proof (match_slot_bounds _ _ _ _ _ Hm) as Hi.
    assert (Hr : runs v w (delete_root_file name) true v
      (set_sector (cluster_lba v 2) (w8 (i * 32) 0xE5 (root_of v w)) w)).
    { unfold delete_root_file. eapply runs_bind; [by apply runs_find|]. rewrite Hm. cbv beta iota.
      eapply runs_bind; [apply runs_get_vol|]. rewrite (geo_root v Hg).
      destruct (cluster_lba_value v Hg 2) as [_ Hb]; [lia|]. destruct Hg.
      eapply runs_bind; [apply runs_write; [nia|by apply w8_sector]|]. cbn [negb]. apply runs_flush. }
    destruct (Hr s Hat) as (s'&He&_&Hv&_). exists true, s'. rewrite Hv. split; [done|]. cbv zeta.
    split_and!; [done| | |].
    + intros i' [= <-]. unfold root_of at 1 3. rewrite set_sector_eq. split; [apply entry_deleted; (done || lia)|].
      intros k Hk Hne. apply entry_mark; (done || lia).
    + intros l Hl. by apply set_sector_ne.
    + intros c Hc. apply fat_entry_cluster; (done || lia).
  - assert (Hr : runs v w (delete_root_file name) false v w).
    { unfold delete_root_file. eapply runs_bind; [by apply runs_find|]. rewrite Hm. apply runs_ret. }
    destruct (Hr s Hat) as (s'&He&_&Hv&_). exists false, s'. rewrite Hv. done.
Qed.

End delete.

(** ** Concrete disks *)

Lemma format_then_mount_witness :
  exists s1 s2, fat_format (blank_state formatted) = Ok (true, s1) /\ fat_init s1 = Ok (true, s2) /\ vol s2 = formatted.
Proof.
  destruct (format_then_mount formatted (store blank_disk) (blank_state formatted)) as (s1&s2&H1&_&H2&H3&_).
  - apply blank_at.
  - vm_compute. reflexivity.
  - exists s1, s2. split; [exact H1|split; [exact H2|exact H3]].
Defined.

Lemma format_fresh_witness :
  exists s1 s2, fat_format (blank_state volume0) = Ok (true, s1) /\ fat_init s1 = Ok (false, s2).
Proof.
  destruct (format_fresh_disk_unmountable (store blank_disk) (blank_state volume0)) as (s1&s2&H1&_&_&H2).
  - apply blank_at.
  - exists s1, s2. split; [exact H1|exact H2].
Defined.

(** A volume whose root directory holds a ten-byte BOOTMODE.CFG. *)
Definition bootmode_root : list Z := put_entry 0 (make_entry (text "BOOTMODE.CFG") 3 10) (zero 512).
Definition bootmode_disk : ata drive :=
  Ata (Drive (fun l => if l =? 4066 then bootmode_root else zero 512) (replicate 256 0) 3 0 0 0 0 0 Idle) 0.

Lemma bootmode_disk_ok : disk_ok bootmode_disk.
Proof.
  split; [|cbn; lia]. apply idle_intro; cbn [bootmode_disk port ph busy latency sectors identity].
  - done.
  - apply polls_pos.
  - apply polls_enough.
  - intros l. destruct (l =? 4066); [by apply sector_okb_ok; vm_compute|apply zero_sector].
  - done.
Qed.

Lemma read_bootmode_witness : read_bootmode (zero 64) (St bootmode_disk formatted []) = Undefined.
Proof.
  apply (read_bootmode_overflows formatted (store bootmode_disk) (St bootmode_disk formatted []) 0).
  - split; [exact bootmode_disk_ok|split; reflexivity].
  - exact formatted_geo.
  - vm_compute. reflexivity.
  - vm_compute. reflexivity.
  - split; vm_compute; congruence.
  - reflexivity.
Defined.

Lemma delete_witness :
  exists s', delete_root_file (text "BOOTMODE.CFG") (St bootmode_disk formatted []) = Ok (true, s').
Proof.
  destruct (delete_root_file_correct formatted (store bootmode_disk) (St bootmode_disk formatted []) (text "BOOTMODE.CFG"))
    as (ok&s'&H1&H2&_).
  - split; [exact bootmode_disk_ok|split; reflexivity].
  - exact formatted_geo.
  - assert (Hok : ok = true) by (rewrite H2; vm_compute; reflexivity). exists s'. rewrite Hok in H1. exact H1.
Defined.
