(* ===== verification/Font.v ===== *)
(** * The 8x16 console font (src/kernel/drivers/display/font8x16.h)

    The glyphs of characters 0 to 127, sixteen rows of eight pixels each, most
    significant bit leftmost; shared by the kernel's framebuffer console and
    by Mini64.  A line of the table below is a line of the source's array,
    written as a hexadecimal string. *)

From stdpp Require Import base numbers list strings.
From Stdlib Require Import ZArith Lia.
From S2P Require Import Prelude.

(** Two hexadecimal digits of the table. *)
Definition nibble (c : Z) : Z := if c <? 58 then c - 48 else c - 55.

Fixpoint octets (s : list Z) : list Z :=
  match s with
  | a :: b :: s => nibble a * 16 + nibble b :: octets s
  | _ => []
  end.

Definition os64_font8x16_table : list string := [
  "00000000000000000000000000000000";
  "00000000000000000000000000000000";
  "00000000000000000000000000000000";
  "00000000000000000000000000000000";
  "00000000000000000000000000000000";
  "00000000000000000000000000000000";
  "00000000000000000000000000000000";
  "00000000000000000000000000000000";
  "00000000000000000000000000000000";
  "00000000000000000000000000000000";
  "00000000000000000000000000000000";
  "00000000000000000000000000000000";
  "00000000000000000000000000000000";
  "00000000000000000000000000000000";
  "00000000000000000000000000000000";
  "00000000000000000000000000000000";
  "00000000000000000000000000000000";
  "00000000000000000000000000000000";
  "00000000000000000000000000000000";
  "00000000000000000000000000000000";
  "00000000000000000000000000000000";
  "00000000000000000000000000000000";
  "00000000000000000000000000000000";
  "00000000000000000000000000000000";
  "00000000000000000000000000000000";
  "00000000000000000000000000000000";
  "00000000000000000000000000000000";
  "00000000000000000000000000000000";
  "00000000000000000000000000000000";
  "00000000000000000000000000000000";
  "00000000000000000000000000000000";
  "00000000000000000000000000000000";
  "00000000000000000000000000000000";
  "00001818181818181800181800000000";
  "00666666660000000000000000000000";
  "00006C6CFE6C6C6C6CFE6C6C00000000";
  "00107ED0D0D07C16161616FC10000000";
  "000006666C0C18183036666000000000";
  "0000386C6C6C3870DACCCC7A00000000";
  "00181818180000000000000000000000";
  "000E183030606060603030180E000000";
  "0070180C0C060606060C0C1870000000";
  "00000000663C18FF183C660000000000";
  "000000000018187E1818000000000000";
  "00000000000000000000181830000000";
  "000000000000007E0000000000000000";
  "00000000000000000000181800000000";
  "0006060C0C181830306060C0C0000000";
  "00007CC6C6CEDEF6E6C6C67C00000000";
  "00001838785818181818187E00000000";
  "00007CC606060C183060C6FE00000000";
  "00007CC606063C060606C67C00000000";
  "0000C0C0CCCCCCCCFE0C0C0C00000000";
  "0000FEC6C0C0FC060606C67C00000000";
  "00007CC6C0C0FCC6C6C6C67C00000000";
  "0000FEC606060C183030303000000000";
  "00007CC6C6C67CC6C6C6C67C00000000";
  "00007CC6C6C6C67E0606C67C00000000";
  "00000000001818000000181800000000";
  "00000000001818000000181830000000";
  "0000060C1830606030180C0600000000";
  "00000000007E00007E00000000000000";
  "00006030180C06060C18306000000000";
  "00007CC6060C18303000303000000000";
  "0000007CC2DADADADADEC07C00000000";
  "00007CC6C6C6FEC6C6C6C6C600000000";
  "0000FCC6C6C6FCC6C6C6C6FC00000000";
  "00007EC0C0C0C0C0C0C0C07E00000000";
  "0000FCC6C6C6C6C6C6C6C6FC00000000";
  "00007EC0C0C0F8C0C0C0C07E00000000";
  "00007EC0C0C0F8C0C0C0C0C000000000";
  "00007EC0C0C0DEC6C6C6C67E00000000";
  "0000C6C6C6C6FEC6C6C6C6C600000000";
  "00007E18181818181818187E00000000";
  "00007E1818181818181818F000000000";
  "0000C6C6C6CCF8CCC6C6C6C600000000";
  "0000C0C0C0C0C0C0C0C0C07E00000000";
  "0000C6EEFED6C6C6C6C6C6C600000000";
  "0000C6C6E6E6D6D6CECEC6C600000000";
  "00007CC6C6C6C6C6C6C6C67C00000000";
  "0000FCC6C6C6FCC0C0C0C0C000000000";
  "00007CC6C6C6C6C6C6D6D67C180C0000";
  "0000FCC6C6C6FCC6C6C6C6C600000000";
  "00007EC0C0C07C06060606FC00000000";
  "0000FF18181818181818181800000000";
  "0000C6C6C6C6C6C6C6C6C67E00000000";
  "0000C6C6C6C6C6C6C66C381000000000";
  "0000C6C6C6C6C6C6D6FEEEC600000000";
  "0000C6C6C66C386CC6C6C6C600000000";
  "0000C6C6C6C67E06060606FC00000000";
  "0000FE06060C183060C0C0FE00000000";
  "003E303030303030303030303E000000";
  "00C0C06060303018180C0C0606000000";
  "007C0C0C0C0C0C0C0C0C0C0C7C000000";
  "0010386CC60000000000000000000000";
  "0000000000000000000000000000FE00";
  "0030180C000000000000000000000000";
  "00000000007C067EC6C6C67E00000000";
  "0000C0C0C0FCC6C6C6C6C6FC00000000";
  "00000000007EC0C0C0C0C07E00000000";
  "00000606067EC6C6C6C6C67E00000000";
  "00000000007EC6C6FEC0C07E00000000";
  "00001E3030307C303030303000000000";
  "00000000007EC6C6C6C6C67C0606FC00";
  "0000C0C0C0FCC6C6C6C6C6C600000000";
  "00001818003818181818181C00000000";
  "00001818001818181818181818187000";
  "0000C0C0C0CCD8F0F0D8CCC600000000";
  "00003030303030303030301C00000000";
  "0000000000ECD6D6D6D6C6C600000000";
  "0000000000FCC6C6C6C6C6C600000000";
  "00000000007CC6C6C6C6C67C00000000";
  "0000000000FCC6C6C6C6C6FCC0C0C000";
  "00000000007EC6C6C6C6C67E06060600";
  "00000000007EC6C0C0C0C0C000000000";
  "00000000007EC0C07C0606FC00000000";
  "00003030307C30303030301E00000000";
  "0000000000C6C6C6C6C6C67E00000000";
  "0000000000C6C6C6C66C381000000000";
  "0000000000C6C6D6D6D6D66E00000000";
  "0000000000C66C38386CC6C600000000";
  "0000000000C6C6C6C6C6C67E0606FC00";
  "0000000000FE060C183060FE00000000";
  "000E181818187070181818180E000000";
  "00181818181818181818181818000000";
  "0070181818180E0E1818181870000000";
  "000000000000327E4C00000000000000";
  "00000000000000000000000000000000"
]%string.

Definition os64_font8x16 : list Z :=
  Eval vm_compute in concat (map (fun s => octets (text s)) os64_font8x16_table).

(** Row [gy] of the glyph of character [c]. *)
Definition glyph_row (c : Z) (gy : nat) : Z := nth (Z.to_nat (c * 16) + gy) os64_font8x16 0.
