(* ===== verification/Mini64Console.v ===== *)
(** * The rescue system's console (src/mini64/kernel.c, lines 4 to 160)

    putc on the VGA text buffer and on a linear framebuffer.  The text buffer
    is an array of 2000 cells: a write outside it is [Undefined]. *)

From stdpp Require Import base numbers list strings.
From Stdlib Require Import ZArith Lia.
From S2P Require Import Prelude Font.

Definition VGA_COLS : nat := 80.
Definition VGA_ROWS : nat := 25.

(** The framebuffer: geometry and bytes, by offset from its base. *)
Record framebuffer := Framebuffer {
  fb_w : Z; fb_h : Z; fb_pitch : Z; fb_rows : Z; fb_cols : Z;
  fb_mem : Z -> Z
}.

Record console := Console {
  attr : Z;
  row : Z;
  col : Z;
  vga : list Z;
  fb : option framebuffer
}.

Definition with_cursor (r c : Z) (k : console) : console := Console (attr k) r c (vga k) (fb k).
Definition with_vga (v : list Z) (k : console) : console := Console (attr k) (row k) (col k) v (fb k).
Definition with_fb (f : framebuffer) (k : console) : console := Console (attr k) (row k) (col k) (vga k) (Some f).

(** ** Text mode *)

Definition vga_cell (a c : Z) : Z := Z.lor (Z.shiftl a 8) c.

(** [VGA_BUF[i] = v] *)
Definition vga_set (i v : Z) (buf : list Z) : outcome (list Z) :=
  if (0 <=? i) && (i <? Z.of_nat (length buf)) then Ok (<[Z.to_nat i := v]> buf) else Undefined.

(** The copying loops of the scroll, in their order. *)
Definition scroll_copy (buf : list Z) : list Z :=
  fold_left (fun buf y => fold_left (fun buf x =>
      <[((y - 1) * VGA_COLS + x)%nat := nth (y * VGA_COLS + x) buf 0]> buf) (seq 0 VGA_COLS) buf)
    (seq 1 (VGA_ROWS - 1)) buf.

Definition scroll_blank (a : Z) (buf : list Z) : list Z :=
  fold_left (fun buf x => <[((VGA_ROWS - 1) * VGA_COLS + x)%nat := vga_cell a 32]> buf) (seq 0 VGA_COLS) buf.

Definition vga_putc (c : Z) (k : console) : outcome console :=
  do k <- (if c =? 10 then Ok (with_cursor (row k + 1) 0 k)
           else do v <- vga_set (row k * Z.of_nat VGA_COLS + col k) (vga_cell (attr k) c) (vga k);
                Ok (with_cursor (row k) (col k + 1) (with_vga v k)));
  let k := if col k =? Z.of_nat VGA_COLS then with_cursor (row k + 1) 0 k else k in
  if row k =? Z.of_nat VGA_ROWS
  then Ok (with_cursor (Z.of_nat VGA_ROWS - 1) (col k) (with_vga (scroll_blank (attr k) (scroll_copy (vga k))) k))
  else Ok k.

(** ** Framebuffer *)

Definition set_byte (o v : Z) (m : Z -> Z) : Z -> Z := fun a => if a =? o then v else m a.
Definition set_pixel (o v : Z) (m : Z -> Z) : Z -> Z :=
  set_byte (o + 3) (u8 (Z.shiftr v 24)) (set_byte (o + 2) (u8 (Z.shiftr v 16))
    (set_byte (o + 1) (u8 (Z.shiftr v 8)) (set_byte o (u8 v) m))).

(** [start], [start + 1], ... below [stop]. *)
Definition upto (start stop : Z) : list Z := seqZ start (stop - start).

Definition fb_scroll (f : framebuffer) : framebuffer :=
  let m := fold_left (fun m y => fold_left (fun m x =>
             set_byte (y * fb_pitch f + x) (m ((y + 16) * fb_pitch f + x)) m) (upto 0 (fb_w f * 4)) m)
             (upto 0 ((fb_rows f - 1) * 16)) (fb_mem f) in
  let m := fold_left (fun m y => fold_left (fun m x => set_pixel (y * fb_pitch f + x * 4) 0 m)
             (upto 0 (fb_w f)) m) (upto ((fb_rows f - 1) * 16) (fb_rows f * 16)) m in
  Framebuffer (fb_w f) (fb_h f) (fb_pitch f) (fb_rows f) (fb_cols f) m.

Definition FG : Z := 0x00C0C0C0.
Definition BG : Z := 0x00303030.

Definition draw_pixel (f : framebuffer) (bits bx by' gy gx : Z) (m : Z -> Z) : Z -> Z :=
  let px := bx + gx in
  let py := by' + gy in
  if (px <? fb_w f) && (py <? fb_h f)
  then set_pixel (py * fb_pitch f + px * 4)
         (if z2b (Z.land bits (Z.shiftl 1 (7 - gx))) then FG else BG) m
  else m.

Definition draw_glyph (f : framebuffer) (c bx by' : Z) : Z -> Z :=
  fold_left (fun m gy => fold_left (fun m gx =>
      draw_pixel f (glyph_row c gy) bx by' (Z.of_nat gy) (Z.of_nat gx) m) (seq 0 8) m)
    (seq 0 16) (fb_mem f).

Definition with_mem (m : Z -> Z) (f : framebuffer) : framebuffer :=
  Framebuffer (fb_w f) (fb_h f) (fb_pitch f) (fb_rows f) (fb_cols f) m.

Definition fb_putc (c : Z) (f : framebuffer) (k : console) : console :=
  if c =? 10 then with_cursor (row k + 1) 0 k else
  let c := if (c <? 32) || (127 <? c) then 63 else c in
  let k := with_fb (with_mem (draw_glyph f c (col k * 8) (row k * 16)) f) k in
  let k := with_cursor (row k) (col k + 1) k in
  let k := if col k =? fb_cols f then with_cursor (row k + 1) 0 k else k in
  if row k =? fb_rows f then
    let k := with_cursor (fb_rows f - 1) (col k) k in
    match fb k with Some f => with_fb (fb_scroll f) k | None => k end
  else k.

Definition fb_clear (f : framebuffer) (k : console) : console :=
  let m := fold_left (fun m y => fold_left (fun m x => set_pixel (y * fb_pitch f + x * 4) BG m)
             (upto 0 (fb_w f)) m) (upto 0 (fb_h f)) (fb_mem f) in
  with_cursor 0 0 (with_fb (with_mem m f) k).

(** ** The interface *)

Definition putc (c : Z) (k : console) : outcome console :=
  match fb k with Some f => Ok (fb_putc c f k) | None => vga_putc c k end.

Fixpoint puts (s : list Z) (k : console) : outcome console :=
  match s with
  | [] => Ok k
  | c :: s => do k <- putc c k; puts s k
  end.

Definition pnum (n : Z) (k : console) : outcome console := puts (decimal n) k.

Definition phex_digits : list Z := text "0123456789ABCDEF".
Definition phex (v : Z) (k : console) : outcome console :=
  puts [nth (Z.to_nat (Z.shiftr v 4)) phex_digits 0; nth (Z.to_nat (Z.land v 15)) phex_digits 0] k.

(** The 'clear' command. *)
Definition clear (k : console) : outcome console :=
  match fb k with
  | Some f => Ok (fb_clear f k)
  | None => Ok (Console (attr k) 0 0 (map (fun _ => vga_cell (attr k) 32) (vga k)) None)
  end.

(** ** Scrolling *)

Definition SCREEN : nat := VGA_ROWS * VGA_COLS.

Lemma fold_insert_length {A B} (f : list A -> B -> list A) (l : list B) (buf : list A) :
  (forall buf b, length (f buf b) = length buf) -> length (fold_left f l buf) = length buf.
Proof. intros Hf. revert buf. induction l as [|b l IH]; intros buf; [done|]. cbn. by rewrite IH, Hf. Qed.

(** One row copied up. *)
Lemma copy_row y n buf i :
  length buf = SCREEN -> (1 <= y < VGA_ROWS)%nat -> (n <= VGA_COLS)%nat ->
  fold_left (fun buf x => <[((y - 1) * VGA_COLS + x)%nat := nth (y * VGA_COLS + x) buf 0]> buf) (seq 0 n) buf !! i =
  if decide ((y - 1) * VGA_COLS <= i < (y - 1) * VGA_COLS + n)%nat then buf !! (i + VGA_COLS)%nat else buf !! i.
Proof.
  unfold SCREEN, VGA_ROWS, VGA_COLS. intros Hl Hy. revert i. induction n as [|n IH]; intros i Hn.
  { cbn. rewrite decide_False by lia. done. }
  rewrite seq_S, fold_left_app. cbn [fold_left]. rewrite Nat.add_0_l.
  set (b := fold_left _ (seq 0 n) buf) in *.
  assert (Hlb : length b = (25 * 80)%nat)
    by (unfold b; rewrite fold_insert_length; [done|intros; apply length_insert]).
  assert (Hsrc : nth (y * 80 + n) b 0 = nth (y * 80 + n) buf 0).
  { rewrite !nth_lookup. rewrite IH by lia. by rewrite decide_False by lia. }
  destruct (decide (i = (y - 1) * 80 + n)%nat) as [->|Hne].
  - rewrite list_lookup_insert_eq by lia. rewrite decide_True by lia. rewrite Hsrc, nth_lookup.
    replace ((y - 1) * 80 + n + 80)%nat with (y * 80 + n)%nat by lia.
    destruct (lookup_lt_is_Some_2 buf (y * 80 + n)) as [v Hv]; [lia|]. by rewrite Hv.
  - rewrite list_lookup_insert_ne by lia. rewrite IH by lia.
    repeat case_decide; try lia; done.
Qed.

Lemma scroll_copy_lookup m buf i :
  length buf = SCREEN -> (m < VGA_ROWS)%nat ->
  fold_left (fun buf y => fold_left (fun buf x =>
      <[((y - 1) * VGA_COLS + x)%nat := nth (y * VGA_COLS + x) buf 0]> buf) (seq 0 VGA_COLS) buf) (seq 1 m) buf !! i =
  if decide (i < m * VGA_COLS)%nat then buf !! (i + VGA_COLS)%nat else buf !! i.
Proof.
  intros Hl. revert i. induction m as [|m IH]; intros i Hm; [cbn; done|].
  rewrite seq_S, fold_left_app. cbn [fold_left]. set (b := fold_left _ (seq 1 m) buf) in *.
  assert (Hlb : length b = SCREEN).
  { unfold b. rewrite fold_insert_length; [done|]. intros. apply fold_insert_length. intros. apply length_insert. }
  rewrite copy_row by (done || lia). rewrite !IH by lia. replace (1 + m - 1)%nat with m by lia.
  unfold VGA_COLS in *. repeat case_decide; try lia; done.
Qed.

Lemma scroll_spec a buf :
  length buf = SCREEN ->
  scroll_blank a (scroll_copy buf) = drop VGA_COLS buf ++ replicate VGA_COLS (vga_cell a 32).
Proof.
  intros Hl. assert (Hc : forall i, scroll_copy buf !! i =
    if decide (i < 24 * 80)%nat then buf !! (i + 80)%nat else buf !! i)
    by (intros; apply scroll_copy_lookup; [done|unfold VGA_ROWS; lia]).
  assert (Hlc : length (scroll_copy buf) = SCREEN).
  { unfold scroll_copy. rewrite fold_insert_length; [done|]. intros. apply fold_insert_length. intros. apply length_insert. }
  assert (Hb : forall n b i, (n <= 80)%nat -> length b = SCREEN ->
    fold_left (fun buf x => <[((VGA_ROWS - 1) * VGA_COLS + x)%nat := vga_cell a 32]> buf) (seq 0 n) b !! i =
    if decide (1920 <= i < 1920 + n)%nat then Some (vga_cell a 32) else b !! i).
  { clear. unfold SCREEN, VGA_ROWS, VGA_COLS. induction n as [|n IH]; intros b i Hn Hl; [cbn; rewrite decide_False by lia; done|].
    rewrite seq_S, fold_left_app. cbn [fold_left]. rewrite Nat.add_0_l.
    destruct (decide (i = 1920 + n)%nat) as [->|Hne].
    - rewrite list_lookup_insert_eq; [by rewrite decide_True by lia|].
      rewrite fold_insert_length; [lia|]. intros. apply length_insert.
    - rewrite list_lookup_insert_ne by lia. rewrite IH by (done || lia). repeat case_decide; try lia; done. }
  apply list_eq. intros i. unfold scroll_blank. unfold VGA_COLS at 2. rewrite Hb by (done || lia). rewrite Hc.
  unfold SCREEN, VGA_ROWS, VGA_COLS in *. destruct (decide (i < 1920)%nat) as [Hi|Hi].
  - rewrite decide_False, decide_True by lia. rewrite lookup_app_l by (rewrite length_drop; lia).
    rewrite lookup_drop. f_equal. lia.
  - rewrite lookup_app_r by (rewrite length_drop; lia). rewrite length_drop, Hl. case_decide.
    + symmetry. apply lookup_replicate_2. lia.
    + rewrite decide_False by lia. rewrite !lookup_ge_None_2; [done|rewrite length_replicate; lia|lia].
Qed.
