(* ===== verification/Mini64ConsoleTheorems.v ===== *)
(** * What the rescue console shows

    On the text screen: the last 25 lines of everything printed.  On a
    framebuffer: nothing any more, once two line feeds reach the bottom. *)

From stdpp Require Import base numbers list strings.
From Stdlib Require Import ZArith Lia.
From S2P Require Import Prelude Font Mini64Console.

(** ** Text mode against a transcript *)

(** The transcript: the current line first, then the earlier ones. *)
Definition transcript : Type := list Z * list (list Z).

(** Lines break at a line feed and after the eightieth character. *)
Definition type_char (t : transcript) (c : Z) : transcript :=
  let '(cur, prev) := t in
  if c =? 10 then ([], cur :: prev)
  else if Nat.eqb (length cur + 1) VGA_COLS then ([], (cur ++ [c]) :: prev)
  else (cur ++ [c], prev).

Definition type_text (t : transcript) (s : list Z) : transcript := fold_left type_char s t.

(** The last 25 lines, oldest first. *)
Definition visible (t : transcript) : list (list Z) := rev (take VGA_ROWS (fst t :: snd t)).

Definition blank (a : Z) : Z := vga_cell a 32.

Definition cell_row (a : Z) (l : list Z) : list Z := map (vga_cell a) l ++ replicate (VGA_COLS - length l) (blank a).

(** The cells of a screen showing [t]: its visible lines, blank below. *)
Definition render (a : Z) (t : transcript) : list Z :=
  concat (map (cell_row a) (visible t)) ++ replicate ((VGA_ROWS - length (visible t)) * VGA_COLS) (blank a).

Record shows (t : transcript) (k : console) : Prop := {
  sh_fb : fb k = None;
  sh_row : row k = Z.of_nat (length (visible t)) - 1;
  sh_col : col k = Z.of_nat (length (fst t));
  sh_vga : vga k = render (attr k) t;
  sh_cur : (length (fst t) < VGA_COLS)%nat;
  sh_prev : Forall (fun l => length l <= VGA_COLS)%nat (snd t)
}.

Lemma cell_row_length a l : (length l <= VGA_COLS)%nat -> length (cell_row a l) = VGA_COLS.
Proof. intros. unfold cell_row. rewrite length_app, length_map, length_replicate. lia. Qed.

Lemma rows_length a ls :
  Forall (fun l => length l <= VGA_COLS)%nat ls -> length (concat (map (cell_row a) ls)) = (length ls * VGA_COLS)%nat.
Proof.
  induction 1 as [|l ls Hl _ IH]; [done|]. cbn [map concat length]. rewrite length_app, IH, cell_row_length by done. lia.
Qed.

(** The visible lines: the earlier ones, then the current one. *)
Lemma visible_split t : visible t = rev (take 24 (snd t)) ++ [fst t].
Proof. done. Qed.

Lemma visible_length t : length (visible t) = S (Nat.min 24 (length (snd t))).
Proof. rewrite visible_split, length_app, length_rev, length_take. cbn [length]. lia. Qed.

Lemma visible_narrow t :
  (length (fst t) <= VGA_COLS)%nat -> Forall (fun l => length l <= VGA_COLS)%nat (snd t) ->
  Forall (fun l => length l <= VGA_COLS)%nat (visible t).
Proof.
  intros Hc Hp. rewrite visible_split. apply Forall_app. split; [|by apply Forall_singleton].
  apply Forall_rev, Forall_take, Hp.
Qed.

Lemma render_length a t :
  (length (fst t) <= VGA_COLS)%nat -> Forall (fun l => length l <= VGA_COLS)%nat (snd t) ->
  length (render a t) = SCREEN.
Proof.
  intros Hc Hp. unfold render. rewrite length_app, rows_length, length_replicate by (by apply visible_narrow).
  rewrite visible_length. unfold SCREEN, VGA_ROWS, VGA_COLS. lia.
Qed.

(** Writing the next character of the current line. *)
Lemma render_put a cur prev c :
  (length cur < VGA_COLS)%nat -> Forall (fun l => length l <= VGA_COLS)%nat prev ->
  <[((length (visible (cur, prev)) - 1) * VGA_COLS + length cur)%nat := vga_cell a c]> (render a (cur, prev))
  = render a (cur ++ [c], prev).
Proof.
  intros Hc Hp. unfold render. rewrite !visible_length, !visible_split. cbn [fst snd].
  rewrite !map_app, !concat_app, <- !app_assoc. cbn [map concat]. rewrite !app_nil_r.
  assert (Hr : length (concat (map (cell_row a) (rev (take 24 prev)))) = (Nat.min 24 (length prev) * VGA_COLS)%nat).
  { rewrite rows_length by (apply Forall_rev, Forall_take, Hp). by rewrite length_rev, length_take. }
  rewrite insert_app_r_alt by (rewrite Hr; lia). f_equal.
  replace (_ - length (concat _))%nat with (length cur) by (rewrite Hr; lia).
  rewrite insert_app_l by (rewrite cell_row_length; lia). f_equal.
  unfold cell_row. rewrite length_app. cbn [length].
  replace (VGA_COLS - length cur)%nat with (S (VGA_COLS - (length cur + 1))) by lia. cbn [replicate].
  rewrite map_app, <- app_assoc. cbn [map app].
  rewrite insert_app_r_alt by (rewrite length_map; lia). rewrite length_map, Nat.sub_diag. done.
Qed.

(** Starting a new line while the screen is not full changes no cell. *)
Lemma render_new_line a cur prev :
  (length prev < 24)%nat -> render a ([], cur :: prev) = render a (cur, prev).
Proof.
  intros Hp. unfold render. rewrite !visible_length, !visible_split. cbn [fst snd length].
  rewrite !(take_ge prev), (take_ge (cur :: prev)) by (cbn [length]; lia). cbn [rev].
  rewrite !map_app, !concat_app. cbn [map concat]. rewrite !app_nil_r.
  change (cell_row a []) with (replicate VGA_COLS (blank a)). rewrite <- !app_assoc.
  do 2 apply f_equal. rewrite <- replicate_add. apply (f_equal (fun n => replicate n (blank a))).
  unfold VGA_ROWS, VGA_COLS. lia.
Qed.

(** On a full screen it drops the first row and adds a blank one. *)
Lemma render_scroll a cur prev :
  (24 <= length prev)%nat -> Forall (fun l => length l <= VGA_COLS)%nat prev ->
  render a ([], cur :: prev) = drop VGA_COLS (render a (cur, prev)) ++ replicate VGA_COLS (blank a).
Proof.
  intros Hl Hp. unfold render. rewrite !visible_length, !visible_split. cbn [fst snd length].
  replace (take 24 (cur :: prev)) with (cur :: take 23 prev) by done.
  replace (VGA_ROWS - _)%nat with 0%nat by (unfold VGA_ROWS; lia).
  replace (VGA_ROWS - _)%nat with 0%nat by (unfold VGA_ROWS; lia). cbn [replicate Nat.mul]. rewrite !app_nil_r.
  destruct (lookup_lt_is_Some_2 prev 23) as [old Hold]; [lia|].
  rewrite (take_S_r prev 23 old Hold), rev_app_distr. cbn [rev app]. rewrite !map_app, !concat_app. cbn [map concat].
  rewrite !app_nil_r. rewrite <- app_assoc, drop_app_length'
    by (rewrite cell_row_length; [done|exact (Forall_lookup_1 _ _ _ _ Hp Hold)]).
  rewrite map_app, concat_app. cbn [map concat]. by rewrite app_nil_r, <- app_assoc.
Qed.

(** The end of putc: a new line, scrolling when the screen is full. *)
Lemma new_line_shows k cur prev r :
  fb k = None -> vga k = render (attr k) (cur, prev) -> (length cur <= VGA_COLS)%nat ->
  Forall (fun l => length l <= VGA_COLS)%nat prev ->
  r = Z.of_nat (length (visible (cur, prev))) ->
  shows ([], cur :: prev)
    (if r =? Z.of_nat VGA_ROWS
     then with_cursor (Z.of_nat VGA_ROWS - 1) 0 (with_vga (scroll_blank (attr k) (scroll_copy (vga k))) (with_cursor r 0 k))
     else with_cursor r 0 k).
Proof.
  intros Hfb Hv Hc Hp Hr. rewrite visible_length in Hr. cbn [snd] in Hr. unfold VGA_ROWS in *.
  assert (Hp' : Forall (fun l => length l <= VGA_COLS)%nat (cur :: prev)) by (by constructor).
  destruct (Z.eqb_spec r (Z.of_nat 25)) as [He|He]; constructor;
    cbn [row col vga attr fb with_cursor with_vga fst snd length]; try done; rewrite ?visible_length;
    cbn [snd length]; try (unfold VGA_COLS; lia).
  - rewrite Hv, scroll_spec by (apply render_length; [done|done]). by rewrite render_scroll by (done || lia).
  - by rewrite render_new_line by lia.
Qed.

Lemma vga_putc_shows c t k : shows t k -> exists k', vga_putc c k = Ok k' /\ shows (type_char t c) k' /\ attr k' = attr k.
Proof.
  intros [Hfb Hrow Hcol Hvga Hcur Hprev]. destruct t as [cur prev]. cbn [fst snd] in *.
  unfold vga_putc. pose proof (visible_length (cur, prev)) as Hvl. cbn [snd] in Hvl.
  pose proof (render_length (attr k) (cur, prev)) as Hlen. cbn [fst snd] in Hlen.
  specialize (Hlen ltac:(lia) Hprev). cbn [type_char].
  destruct (Z.eqb_spec c 10) as [->|Hc].
  - cbn [obind]. cbv zeta.
    change (col (with_cursor (row k + 1) 0 k) =? Z.of_nat VGA_COLS) with false. cbv iota.
    change (row (with_cursor (row k + 1) 0 k)) with (row k + 1).
    pose proof (new_line_shows k cur prev (row k + 1) Hfb Hvga ltac:(lia) Hprev ltac:(lia)) as Hn.
    destruct (row k + 1 =? Z.of_nat VGA_ROWS); eexists; (split; [reflexivity|]); (split; [exact Hn|done]).
  - unfold vga_set. rewrite Hvga, Hlen.
    assert (Hidx : row k * Z.of_nat VGA_COLS + col k =
      Z.of_nat ((length (visible (cur, prev)) - 1) * VGA_COLS + length cur)) by (unfold VGA_COLS; lia).
    rewrite Hidx. rewrite (proj2 (Z.leb_le 0 _)), (proj2 (Z.ltb_lt _ _))
      by (unfold SCREEN, VGA_ROWS, VGA_COLS in *; lia). cbn [andb obind].
    rewrite Nat2Z.id, render_put by done.
    set (k1 := with_cursor (row k) (col k + 1) (with_vga (render (attr k) (cur ++ [c], prev)) k)).
    change (col k1) with (col k + 1). rewrite Hcol.
    destruct (Nat.eqb_spec (length cur + 1) VGA_COLS) as [He|He].
    + rewrite (proj2 (Z.eqb_eq (Z.of_nat (length cur) + 1) (Z.of_nat VGA_COLS))) by lia.
      assert (Hl80 : (length (cur ++ [c]) <= VGA_COLS)%nat) by (rewrite length_app; cbn [length]; lia).
      pose proof (new_line_shows k1 (cur ++ [c]) prev (row k + 1) Hfb eq_refl Hl80 Hprev) as Hn.
      rewrite visible_length in Hn. cbn [snd] in Hn. specialize (Hn ltac:(lia)).
      cbn [row with_cursor]. change (row k1) with (row k).
      destruct (row k + 1 =? Z.of_nat VGA_ROWS); eexists; (split; [reflexivity|]); (split; [exact Hn|done]).
    + rewrite (proj2 (Z.eqb_neq (Z.of_nat (length cur) + 1) (Z.of_nat VGA_COLS))) by lia.
      change (row k1) with (row k).
      rewrite (proj2 (Z.eqb_neq (row k) (Z.of_nat VGA_ROWS))) by (unfold VGA_ROWS; lia).
      eexists. split; [reflexivity|]. split; [|done]. constructor; cbn [fst snd k1 with_cursor with_vga row col vga attr fb].
      * done.
      * rewrite Hrow, !visible_length. done.
      * rewrite Hcol, length_app. cbn [length]. lia.
      * done.
      * rewrite length_app. cbn [length]. lia.
      * done.
Qed.

Lemma puts_shows s t k : shows t k -> exists k', puts s k = Ok k' /\ shows (type_text t s) k'.
Proof.
  revert t k. induction s as [|c s IH]; intros t k Hk; [by exists k|].
  cbn [puts]. unfold putc. rewrite (sh_fb _ _ Hk).
  destruct (vga_putc_shows c t k Hk) as (k1&->&H1&_). cbn [obind]. by apply IH.
Qed.

(** C25. The text console shows the transcript.  Starting from a cleared
    screen, whatever text is printed, putc never writes outside the text
    buffer, and the screen holds exactly the last 25 lines of what was
    printed (lines broken at line feeds and after 80 characters), blank
    elsewhere, with the cursor after the last character. *)
Theorem vga_shows_transcript (s : list Z) (k : console) :
  fb k = None -> length (vga k) = SCREEN ->
  exists k0 k', clear k = Ok k0 /\ puts s k0 = Ok k' /\ shows (type_text ([], []) s) k'.
Proof.
  intros Hfb Hl. unfold clear. rewrite Hfb. eexists.
  set (k0 := Console (attr k) 0 0 (map (fun _ => vga_cell (attr k) 32) (vga k)) None).
  assert (H0 : shows ([], []) k0).
  { constructor; try done; [|simpl; unfold VGA_COLS; lia]. cbn [vga attr k0]. unfold render.
    change (visible ([], [])) with [[] : list Z]. cbn [map concat length]. rewrite app_nil_r. change (cell_row (attr k) []) with (replicate VGA_COLS (blank (attr k))).
    rewrite <- replicate_add. apply list_eq. intros i. rewrite list_lookup_fmap.
    destruct (decide (i < SCREEN)%nat) as [Hi|Hi].
    - rewrite lookup_replicate_2 by (unfold SCREEN in Hi; exact Hi).
      destruct (lookup_lt_is_Some_2 (vga k) i) as [x Hx]; [lia|]. by rewrite Hx.
    - rewrite !lookup_ge_None_2; [done|rewrite length_replicate; unfold SCREEN, VGA_ROWS, VGA_COLS in *; lia|lia]. }
  destruct (puts_shows s ([], []) k0 H0) as (k'&Hp&Hs). by exists k'.
Qed.

Lemma vga_shows_witness :
  exists k0 k', clear (Console 0x0F 3 4 (replicate SCREEN 0) None) = Ok k0 /\ puts (text "Mini64") k0 = Ok k' /\
    shows (type_text ([], []) (text "Mini64")) k'.
Proof.
  apply (vga_shows_transcript (text "Mini64") (Console 0x0F 3 4 (replicate SCREEN 0) None)).
  - reflexivity.
  - apply length_replicate.
Defined.

(** ** The framebuffer console at the bottom *)

(** The memory of pixel row [y] of the visible text area. *)
Definition in_text_area (f : framebuffer) (a : Z) : Prop := 0 <= a < fb_rows f * 16 * fb_pitch f.

Definition same_text (f : framebuffer) (m m' : Z -> Z) : Prop := forall a, in_text_area f a -> m' a = m a.

Record fb_sane (f : framebuffer) : Prop := {
  fb_pitch_ok : fb_w f * 4 <= fb_pitch f;
  fb_w_ok : 0 < fb_w f;
  fb_rows_ok : 0 < fb_rows f;
  fb_cols_ok : 0 < fb_cols f
}.

Lemma set_pixel_same f o v m : fb_rows f * 16 * fb_pitch f <= o -> same_text f m (set_pixel o v m).
Proof.
  intros Ho a Ha. unfold in_text_area in Ha. unfold set_pixel, set_byte.
  repeat match goal with |- context [a =? ?n] => rewrite (proj2 (Z.eqb_neq a n)) by lia end. done.
Qed.

Lemma fold_same {A} f (g : (Z -> Z) -> A -> Z -> Z) (l : list A) m :
  (forall m x, In x l -> same_text f m (g m x)) -> same_text f m (fold_left g l m).
Proof.
  revert m. induction l as [|x l IH]; intros m Hg; [done|]. intros a Ha. cbn [fold_left].
  rewrite (IH (g m x)) by (done || (intros; apply Hg; by right)). apply Hg; [by left|done].
Qed.

(** A glyph drawn below the text area leaves it alone. *)
Lemma draw_glyph_same f c bx by' :
  fb_sane f -> 0 <= bx -> fb_rows f * 16 <= by' -> same_text f (fb_mem f) (draw_glyph f c bx by').
Proof.
  intros [Hp Hw Hr Hc] Hx Hy. unfold draw_glyph. apply fold_same. intros m gy _. apply fold_same.
  intros m' gx _. unfold draw_pixel. destruct (_ && _); [|done]. apply set_pixel_same. nia.
Qed.

(** Past the bottom row: the cursor below the area, never to meet it again. *)
Record blind (f0 : framebuffer) (k : console) : Prop := {
  bl_fb : exists f, fb k = Some f /\ fb_sane f /\ fb_rows f = fb_rows f0 /\ fb_pitch f = fb_pitch f0 /\
            fb_cols f = fb_cols f0 /\ same_text f0 (fb_mem f0) (fb_mem f);
  bl_row : fb_rows f0 < row k;
  bl_col : 0 <= col k
}.

Lemma putc_blind f0 c k : blind f0 k -> exists k', putc c k = Ok k' /\ blind f0 k'.
Proof.
  intros [(f&Hf&Hs&Hr&Hp&Hc&Hm) Hrow Hcol]. unfold putc. rewrite Hf. eexists. split; [reflexivity|].
  unfold fb_putc. destruct (c =? 10).
  { constructor; cbn [row col with_cursor fb]; [by exists f|lia|lia]. }
  set (ch := if (c <? 32) || (127 <? c) then 63 else c). set (m := draw_glyph f ch (col k * 8) (row k * 16)).
  assert (Hm' : same_text f0 (fb_mem f0) m).
  { intros a Ha. rewrite <- (Hm a Ha). apply draw_glyph_same; try lia; [done|].
    unfold in_text_area in *. by rewrite Hr, Hp. }
  assert (Hf' : forall r' c', exists g, fb (with_cursor r' c' (with_fb (with_mem m f) k)) = Some g /\ fb_sane g /\
    fb_rows g = fb_rows f0 /\ fb_pitch g = fb_pitch f0 /\ fb_cols g = fb_cols f0 /\ same_text f0 (fb_mem f0) (fb_mem g)).
  { intros. exists (with_mem m f). by destruct Hs. }
  cbv zeta. cbn [row col with_cursor with_fb]. destruct (col k + 1 =? fb_cols f); cbn [row col with_cursor with_fb].
  - rewrite (proj2 (Z.eqb_neq (row k + 1) (fb_rows f))) by lia.
    constructor; [apply Hf'|cbn [row with_cursor]; lia|cbn [col with_cursor]; lia].
  - rewrite (proj2 (Z.eqb_neq (row k) (fb_rows f))) by lia.
    constructor; [apply Hf'|cbn [row with_cursor with_fb]; lia|cbn [col with_cursor with_fb]; lia].
Qed.

(** The framebuffer console goes blind.  With the cursor on the bottom
    row, two consecutive line feeds put it past the row at which fb_putc
    scrolls; whatever is printed after that, the console never scrolls again
    and not one pixel of the text area changes. *)
Theorem fb_console_goes_blind (f : framebuffer) (k : console) (s : list Z) :
  fb k = Some f -> fb_sane f -> row k = fb_rows f - 1 -> 0 <= col k ->
  exists k', puts ([10; 10] ++ s) k = Ok k' /\ blind f k'.
Proof.
  intros Hf Hs Hr Hc. cbn [app puts]. unfold putc at 1. rewrite Hf. cbn [obind].
  set (k1 := fb_putc 10 f k). assert (Hk1 : k1 = with_cursor (row k + 1) 0 k) by done.
  unfold putc at 1. rewrite Hk1. change (fb (with_cursor (row k + 1) 0 k)) with (fb k). rewrite Hf. cbn [obind].
  set (k2 := fb_putc 10 f (with_cursor (row k + 1) 0 k)).
  assert (Hk2 : blind f k2).
  { constructor; [exists f; by split_and!|unfold k2, fb_putc; cbn; lia|done]. }
  clearbody k2. clear -Hk2. revert k2 Hk2. induction s as [|c s IH]; intros k2 Hk2; [by exists k2|].
  cbn [puts]. destruct (putc_blind f c k2 Hk2) as (k3&->&Hk3). cbn [obind]. by apply IH.
Qed.

Definition small_fb : framebuffer := Framebuffer 640 480 2560 30 80 (fun _ => 0).

Lemma fb_blind_witness :
  exists k', puts ([10; 10] ++ text "x") (Console 0x0F 29 0 [] (Some small_fb)) = Ok k' /\ blind small_fb k'.
Proof.
  apply (fb_console_goes_blind small_fb (Console 0x0F 29 0 [] (Some small_fb)) (text "x")).
  - reflexivity.
  - constructor; vm_compute; congruence.
  - reflexivity.
  - vm_compute; congruence.
Defined.
