(* ===== verification/Mini64Boot.v ===== *)
(** * What the rescue system reads from the boot loader
    (src/mini64/kernel.c: memory_kib, fb_init, parse_modules)

    Three walks over the Multiboot2 tags, on 32-bit offsets.  Loops take fuel;
    the structure's own size is enough. *)

From stdpp Require Import base numbers list strings.
From Stdlib Require Import ZArith Lia.
From S2P Require Import Prelude Multiboot Font Mini64Console.

(** [off += (size + 7) & ~7u] *)
Definition next_tag (off size : Z) : Z := u32 (off + Z.land (u32 (size + 7)) (Z.lnot 7)).

(** ** Memory *)

Fixpoint kib_entries (fuel : nat) (m : memory) (p off size entry_size at' usable : Z) : outcome Z :=
  match fuel with
  | O => OutOfFuel
  | S fuel =>
    if (24 <=? entry_size) && (u32 (at' + entry_size) <=? u32 (off + size)) then
      let usable := if rd32 m (p + at' + 16) =? 1 then u64 (usable + rd64 m (p + at' + 8)) else usable in
      kib_entries fuel m p off size entry_size (u32 (at' + entry_size)) usable
    else Ok usable
  end.

Fixpoint kib_tags (fuel : nat) (m : memory) (p total off usable : Z) : outcome Z :=
  match fuel with
  | O => OutOfFuel
  | S fuel' =>
    if u32 (off + 16) <=? total then
      let type := rd32 m (p + off) in
      let size := rd32 m (p + off + 4) in
      if size <? 8 then Ok usable else
      do usable <- (if (type =? 6) && (16 <=? size)
                    then kib_entries fuel m p off size (rd32 m (p + off + 8)) (u32 (off + 16)) usable
                    else Ok usable);
      kib_tags fuel' m p total (next_tag off size) usable
    else Ok usable
  end.

Definition memory_kib (fuel : nat) (m : memory) (mb_info : Z) : outcome Z :=
  if mb_info =? 0 then Ok 0 else
  do usable <- kib_tags fuel m mb_info (rd32 m mb_info) 8 0;
  let usable := usable / 1024 in
  Ok (if 0xFFFFFFFF <? usable then 0xFFFFFFFF else usable).

(** ** Framebuffer *)

(** The framebuffer tag at [off], if it is one the console can use; the bytes
    behind it are those of [m] at its base. *)
Definition fb_tag (m : memory) (p off size : Z) (old : option framebuffer) : option framebuffer :=
  let base := rd64 m (p + off + 8) in
  let kind := m (p + off + 29) in
  let bpp := m (p + off + 28) in
  let pitch := rd32 m (p + off + 16) in
  let w := rd32 m (p + off + 20) in
  let h := rd32 m (p + off + 24) in
  if (kind =? 1) && (bpp =? 32) && (base <? 0x100000000) && (640 <=? w) && (400 <=? h) then
    let cols := w / 8 in
    let rows := h / 16 in
    if z2b base then
      Some (Framebuffer (s32 w) (s32 h) (s32 pitch) (if 30 <? rows then 30 else rows) (if 80 <? cols then 80 else cols)
              (fun a => m (base + a)))
    else None
  else old.

Fixpoint fb_tags (fuel : nat) (m : memory) (p total off : Z) (f : option framebuffer) : outcome (option framebuffer) :=
  match fuel with
  | O => OutOfFuel
  | S fuel =>
    if u32 (off + 8) <=? total then
      let type := rd32 m (p + off) in
      let size := rd32 m (p + off + 4) in
      if size <? 8 then Ok f else
      fb_tags fuel m p total (next_tag off size)
        (if (type =? 8) && (38 <=? size) then fb_tag m p off size f else f)
    else Ok f
  end.

Definition fb_init (fuel : nat) (m : memory) (mb_info : Z) (f : option framebuffer) : outcome (option framebuffer) :=
  if mb_info =? 0 then Ok f else fb_tags fuel m mb_info (rd32 m mb_info) 8 f.

(** ** Modules *)

Record module_t := Module_t { m_start : Z; m_end : Z }.

(** [while (ni < slen && ni < 15 && str[ni])] *)
Fixpoint module_name (n : nat) (m : memory) (a : Z) : list Z :=
  match n with
  | O => []
  | S n => if z2b (m a) then m a :: module_name n m (a + 1) else []
  end.

Fixpoint modules_loop (fuel : nat) (m : memory) (p total off : Z) (max_mods : nat) (acc : list (module_t * list Z)) :
    outcome (list (module_t * list Z)) :=
  match fuel with
  | O => OutOfFuel
  | S fuel =>
    if u32 (off + 8) <=? total then
      let type := rd32 m (p + off) in
      let size := rd32 m (p + off + 4) in
      if type =? 0 then Ok acc else
      let acc :=
        if (type =? 3) && (16 <=? size) && Nat.ltb (length acc) max_mods
        then acc ++ [(Module_t (rd32 m (p + off + 8)) (rd32 m (p + off + 12)),
                      module_name (Nat.min (Z.to_nat (s32 size - 16)) 15) m (p + off + 16))]
        else acc in
      if size <? 8 then Ok acc
      else modules_loop fuel m p total (next_tag off size) max_mods acc
    else Ok acc
  end.

(** The modules found, in order, with their names. *)
Definition parse_modules (fuel : nat) (m : memory) (mb_info : Z) (max_mods : nat) :
    outcome (list (module_t * list Z)) :=
  modules_loop fuel m mb_info (rd32 m mb_info) 8 max_mods [].

(** ** What they should compute *)

Definition kib_entry (acc : Z) (e : mmap_entry) : Z := if e_type e =? 1 then u64 (acc + e_length e) else acc.
Definition kib_tag (acc : Z) (t : mb_tag) : Z :=
  match t with TMemoryMap _ _ entries => fold_left kib_entry entries acc | _ => acc end.

(** The modules of a structure, names cut to fifteen characters. *)
Definition tag_modules (t : mb_tag) : list (module_t * list Z) :=
  match t with TModule a b name => [(Module_t a b, take 15 name)] | _ => [] end.
Definition modules_of (ts : list mb_tag) : list (module_t * list Z) := concat (map tag_modules ts).

Lemma kib_entries_spec m p off es (all l : list mmap_entry) fuel acc :
  Forall entry_ok l -> 24 <= es -> (length l <= length all)%nat -> 0 <= off ->
  off + 16 + es * Z.of_nat (length all) + es < 2 ^ 32 ->
  let at' := off + 16 + es * (Z.of_nat (length all) - Z.of_nat (length l)) in
  holds m (p + at') (concat (map (enc_entry es) l)) -> (length l < fuel)%nat ->
  kib_entries fuel m p off (16 + es * Z.of_nat (length all)) es at' acc = Ok (fold_left kib_entry l acc).
Proof.
  intros Hok Hes Hle Hoff Hmax. revert fuel acc Hle.
  induction Hok as [|e l He Hl IH]; intros fuel acc Hle at' Hh Hf;
    (destruct fuel as [|fuel]; [simpl in Hf; lia|]); cbn [kib_entries fold_left].
  - rewrite !u32_small by (subst at'; cbn [length]; nia). rewrite (proj2 (Z.leb_le 24 es)) by lia.
    rewrite (proj2 (Z.leb_gt _ _)); [done|]. subst at'. cbn [length]. nia.
  - cbn [length] in *. rewrite !u32_small by (subst at'; nia). rewrite (proj2 (Z.leb_le 24 es)) by lia.
    rewrite (proj2 (Z.leb_le _ _)) by (subst at'; nia). cbn [andb].
    cbn [map concat] in Hh. apply enc_entry_read in Hh as (H1 & H2 & H3); [|done|done].
    rewrite H1, H2. fold (kib_entry acc e).
    replace (at' + es) with (off + 16 + es * (Z.of_nat (length all) - Z.of_nat (length l))) by (subst at'; lia).
    apply IH; [lia| |lia]. replace (p + _) with (p + at' + es); [done|]. subst at'. lia.
Qed.

(** What both walks share: the step over one encoded tag. *)
Lemma tag_step m p total off t ts :
  tag_ok t -> 8 <= off -> total = off + blen (enc_tags (t :: ts)) + 8 -> total < 2 ^ 31 ->
  holds m (p + off) (enc_tags (t :: ts) ++ end_tag) ->
  rd32 m (p + off) = tag_type t /\ rd32 m (p + off + 4) = tag_size t /\ holds m (p + off + 8) (tag_body t) /\
  next_tag off (tag_size t) = off + blen (enc_tag t) /\ tag_size t <= blen (enc_tag t) /\
  off + blen (enc_tag t) + 8 <= total /\ u32 (off + 8) <= total /\ u32 (off + 16) <= total /\
  total = off + blen (enc_tag t) + blen (enc_tags ts) + 8 /\
  holds m (p + (off + blen (enc_tag t))) (enc_tags ts ++ end_tag).
Proof.
  intros Ht Ho Htot Hmax Hh. rewrite enc_tags_cons in Htot. pose proof (tag_size_pos t).
  destruct (enc_tag_length t) as [Hlen Hmod]. pose proof (blen_nonneg (enc_tags ts)).
  pose proof (Z.mod_pos_bound (- tag_size t) 8 ltac:(lia)).
  unfold enc_tags in Hh. cbn [map concat] in Hh. rewrite <- app_assoc in Hh.
  apply tag_header in Hh as (Hty & Htsz & Hbody & Hrest); [|by apply tag_type_u32|unfold is_u32; lia].
  split_and!; try done; try lia.
  - unfold next_tag. rewrite round8, <- Hlen, u32_small by lia. done.
  - rewrite u32_small by lia. lia.
  - rewrite u32_small by lia. lia.
  - by rewrite Z.add_assoc.
Qed.

Lemma kib_tags_spec m p total off acc ts fuel :
  Forall tag_ok ts -> 8 <= off -> total = off + blen (enc_tags ts) + 8 -> total < 2 ^ 31 ->
  holds m (p + off) (enc_tags ts ++ end_tag) -> blen (enc_tags ts) < Z.of_nat fuel ->
  kib_tags fuel m p total off acc = Ok (fold_left kib_tag ts acc).
Proof.
  intros Hok. revert off acc fuel. induction Hok as [|t ts Ht Hts IH]; intros off acc fuel Ho Htot Hmax Hh Hf.
  - destruct fuel as [|fuel]; [unfold blen in Hf; simpl in Hf; lia|]. cbn [kib_tags].
    unfold blen in Htot. simpl in Htot. rewrite u32_small by lia. by rewrite (proj2 (Z.leb_gt _ _)) by lia.
  - destruct (tag_step m p total off t ts Ht Ho Htot Hmax Hh)
      as (H1&H2&Hbody&Hnext&Hsz&Hle&_&H16&Htot'&Hrest).
    rewrite enc_tags_cons in *. pose proof (tag_size_pos t). pose proof (blen_nonneg (enc_tags ts)).
    destruct fuel as [|fuel]; [lia|]. cbn [kib_tags]. rewrite (proj2 (Z.leb_le _ _) H16). cbv zeta.
    rewrite H1, H2, (proj2 (Z.ltb_ge _ 8)) by lia. rewrite Hnext. cbn [fold_left].
    assert (Hrec : forall acc', kib_tags fuel m p total (off + blen (enc_tag t)) acc' = Ok (fold_left kib_tag ts acc'))
      by (intros; apply IH; (done || lia)).
    destruct t as [es v entries|a b name|ty payload]; cbn [tag_type kib_tag].
    + destruct Ht as (Hes & Hv & He & Hne). unfold tag_size in *. cbn [tag_body] in *.
      rewrite !blen_app, entries_length in * by lia. change (blen (le32 _)) with 4 in *.
      replace (8 + (4 + (4 + es * Z.of_nat (length entries))))
        with (16 + es * Z.of_nat (length entries)) in * by lia.
      rewrite (proj2 (Z.leb_le 16 _)) by nia. cbn [Z.eqb Pos.eqb andb].
      apply holds_app in Hbody as [Hw Hbody]. apply holds_app in Hbody as [_ Hbody].
      change (blen (le32 _)) with 4 in Hbody. rewrite (rd32_holds _ _ _ Hw) by (unfold is_u32; lia).
      assert (1 <= Z.of_nat (length entries)) by (destruct entries; [done|cbn [length]; lia]).
      pose proof (kib_entries_spec m p off es entries entries (S fuel) acc He) as Hm. cbv zeta in Hm.
      rewrite Z.sub_diag, Z.mul_0_r, Z.add_0_r in Hm. rewrite (u32_small (off + 16)) by lia.
      rewrite Hm; [apply Hrec|lia|lia|lia|nia| |nia].
      by replace (p + (off + 16)) with (p + off + 8 + 4 + 4) by lia.
    + cbn [Z.eqb Pos.eqb andb obind]. apply Hrec.
    + rewrite (proj2 (Z.eqb_neq ty 6)) by (simpl in Ht; lia). cbn [andb obind]. apply Hrec.
Qed.

Lemma module_name_spec m a name n :
  is_cstr name -> holds m a (name ++ [0]) -> (n <= length name + 1)%nat -> module_name n m a = take n name.
Proof.
  intros Hc. revert a n. induction Hc as [|c name Hc _ IH]; intros a n Hh Hn; destruct n as [|n]; try done.
  - cbn [app holds] in Hh. destruct Hh as [H0 _]. cbn [module_name]. by rewrite H0.
  - cbn [app holds length] in *. destruct Hh as [H0 Hh]. cbn [module_name take]. rewrite H0. unfold z2b.
    rewrite (proj2 (Z.eqb_neq c 0)) by lia. cbn [negb]. f_equal. apply IH; [done|lia].
Qed.

Lemma modules_loop_spec m p total off max acc ts fuel :
  Forall tag_ok ts -> 8 <= off -> total = off + blen (enc_tags ts) + 8 -> total < 2 ^ 31 ->
  holds m (p + off) (enc_tags ts ++ end_tag) -> blen (enc_tags ts) < Z.of_nat fuel -> (length acc <= max)%nat ->
  modules_loop fuel m p total off max acc = Ok (take max (acc ++ modules_of ts)).
Proof.
  intros Hok. revert off acc fuel. induction Hok as [|t ts Ht Hts IH]; intros off acc fuel Ho Htot Hmax Hh Hf Hacc.
  - destruct fuel as [|fuel]; [unfold blen in Hf; simpl in Hf; lia|]. cbn [modules_loop].
    unfold blen in Htot. simpl in Htot. rewrite u32_small by lia. rewrite (proj2 (Z.leb_le _ _)) by lia.
    cbn [enc_tags map concat app] in Hh. unfold end_tag in Hh. apply holds_app in Hh as [Hh _].
    rewrite (rd32_holds _ _ _ Hh) by done. cbn [Z.eqb modules_of map concat].
    by rewrite app_nil_r, take_ge by lia.
  - destruct (tag_step m p total off t ts Ht Ho Htot Hmax Hh)
      as (H1&H2&Hbody&Hnext&Hsz&Hle&H8&_&Htot'&Hrest).
    rewrite enc_tags_cons in *. pose proof (tag_size_pos t). pose proof (blen_nonneg (enc_tags ts)).
    destruct fuel as [|fuel]; [lia|]. cbn [modules_loop]. rewrite (proj2 (Z.leb_le _ _) H8). cbv zeta.
    rewrite H1, H2. rewrite (proj2 (Z.eqb_neq _ _) (tag_type_nonzero t Ht)), (proj2 (Z.ltb_ge _ 8)) by lia.
    rewrite Hnext. unfold modules_of. cbn [map concat].
    assert (Hrec : forall acc', (length acc' <= max)%nat ->
      modules_loop fuel m p total (off + blen (enc_tag t)) max acc' = Ok (take max (acc' ++ modules_of ts)))
      by (intros; apply IH; (done || lia)).
    destruct t as [es v entries|a b name|ty payload]; cbn [tag_type tag_modules app].
    + cbn [Z.eqb Pos.eqb andb]. by apply Hrec.
    + destruct Ht as (Ha & Hb & Hc). cbn [tag_body] in *.
      assert (Hts2 : tag_size (TModule a b name) = 17 + Z.of_nat (length name)).
      { unfold tag_size. cbn [tag_body]. rewrite !blen_app. change (blen (le32 _)) with 4. unfold blen. cbn [length]. lia. }
      rewrite Hts2 in *. cbn [Z.eqb Pos.eqb andb]. rewrite (proj2 (Z.leb_le 16 _)) by lia. cbn [andb].
      apply holds_app in Hbody as [Hwa Hbody]. apply holds_app in Hbody as [Hwb Hbody].
      change (blen (le32 _)) with 4 in *. replace (p + off + 8 + 4) with (p + off + 12) in * by lia.
      replace (p + off + 12 + 4) with (p + off + 16) in * by lia.
      rewrite (rd32_holds _ _ _ Hwa), (rd32_holds _ _ _ Hwb) by done.
      replace (s32 (17 + Z.of_nat (length name)) - 16) with (1 + Z.of_nat (length name))
        by (unfold s32; rewrite Z.mod_small by lia; lia).
      rewrite (module_name_spec m _ name) by (done || lia).
      replace (take (Nat.min (Z.to_nat (1 + Z.of_nat (length name))) 15) name) with (take 15 name)
        by (destruct (Nat.le_gt_cases (length name) 14); [rewrite !take_ge by lia; done|f_equal; lia]).
      destruct (Nat.ltb_spec (length acc) max).
      * rewrite Hrec by (rewrite length_app; cbn [length]; lia). by rewrite <- app_assoc.
      * rewrite Hrec by done. do 1 f_equal. assert (length acc = max) as <- by lia.
        by rewrite !take_app_length.
    + simpl in Ht. rewrite (proj2 (Z.eqb_neq ty 3)) by lia. cbn [andb]. by apply Hrec.
Qed.

(** On every well-formed boot structure of less than 2 GiB, the rescue
    system's parsers return and read it correctly: memory_kib is the sum of
    the available ranges (modulo 2^64) in KiB, saturated to 32 bits, and
    parse_modules returns the first [max_mods] modules in order, each with its
    addresses and the first fifteen characters of its name. *)
Theorem boot_parsers_correct m base ts fuel max_mods :
  base <> 0 -> Forall tag_ok ts -> 16 + blen (enc_tags ts) < 2 ^ 31 ->
  holds m base (enc_info ts) -> blen (enc_info ts) <= Z.of_nat fuel ->
  memory_kib fuel m base = Ok (Z.min 0xFFFFFFFF (fold_left kib_tag ts 0 / 1024)) /\
  parse_modules fuel m base max_mods = Ok (take max_mods (modules_of ts)).
Proof.
  intros Hb Hok Hlt Hh Hf. apply enc_info_total in Hh as [Ht Hh]; [|lia].
  pose proof (blen_nonneg (enc_tags ts)).
  assert (Hf' : blen (enc_tags ts) < Z.of_nat fuel).
  { unfold enc_info in Hf. rewrite !blen_app in Hf. change (blen (le32 _)) with 4 in Hf.
    change (blen end_tag) with 8 in Hf. lia. }
  split.
  - unfold memory_kib. rewrite (proj2 (Z.eqb_neq base 0)) by done. rewrite Ht.
    rewrite (kib_tags_spec m base _ 8 0 ts fuel) by (done || lia). cbn [obind]. f_equal.
    destruct (Z.ltb_spec 0xFFFFFFFF (fold_left kib_tag ts 0 / 1024)); lia.
  - unfold parse_modules. rewrite Ht. rewrite (modules_loop_spec m base _ 8 max_mods [] ts fuel) by (done || cbn; lia).
    done.
Qed.

Definition boot_tags : list mb_tag :=
  [TMemoryMap 24 0 [Entry 0 0x9fc00 1; Entry 0x100000 0x7ee0000 1]; TModule 0x200000 0x240000 (text "kernel")].
Definition boot_mem : memory := fun a => nth (Z.to_nat (a - 0x1000)) (enc_info boot_tags) 0.

Lemma boot_parsers_witness :
  memory_kib 200 boot_mem 0x1000 = Ok 130559 /\
  parse_modules 200 boot_mem 0x1000 6 = Ok [(Module_t 0x200000 0x240000, text "kernel")].
Proof.
  destruct (boot_parsers_correct boot_mem 0x1000 boot_tags 200 6) as [H1 H2].
  - lia.
  - repeat constructor; try done.
  - vm_compute. reflexivity.
  - vm_compute. repeat split.
  - vm_compute. congruence.
  - rewrite H1, H2. split; vm_compute; reflexivity.
Defined.
