(* ===== verification/Mini64Line.v ===== *)
(** * The rescue system's keyboard and line editor
    (src/mini64/kernel.c, lines 564 to 566 and 714 to 950)

    kbd_get decodes scancodes read from the keyboard controller; readline
    edits a line in the caller's buffer with cursor keys, completion and
    history.  Buffers are lists of their declared length: an access outside
    is [Undefined]. *)

From stdpp Require Import base numbers list strings.
From Stdlib Require Import ZArith Lia.
From S2P Require Import Prelude Buffer Ports.

(** ** Strings *)

Definition streq (a b : list Z) : bool := bool_decide (a = b).

Definition lower (c : Z) : Z := if (65 <=? c) && (c <=? 90) then c + 32 else c.
Definition streq_ci (a b : list Z) : bool := bool_decide (map lower a = map lower b).

Fixpoint startswith (s pre : list Z) : bool :=
  match pre, s with
  | [], _ => true
  | p :: pre, c :: s => if negb (c =? p) then false else startswith s pre
  | _ :: _, [] => false
  end.

(** ** Keyboard *)

Record kbd := Kbd { left_shift : bool; right_shift : bool; caps_lock : bool }.

Definition kbd_map : list Z :=
  [0;0] ++ text "1234567890-=" ++ [0;0] ++ text "qwertyuiop[]" ++ [0;0] ++
  text "asdfghjkl;'`" ++ [0] ++ text "\zxcvbnm,./" ++ [0] ++ text "*" ++ [0] ++ text " ".

Definition plain : list Z := text "1234567890-=[]\;',./`".
Definition upper_row : list Z := text "!@#$%^&*()_+{}|:" ++ [34] ++ text "<>?~".

(** [for (i = 0; plain[i]; i++) if (c == plain[i]) { c = upper[i]; break; }] *)
Fixpoint shifted (c : Z) (ps us : list Z) : Z :=
  match ps, us with
  | p :: ps, u :: us => if c =? p then u else shifted c ps us
  | _, _ => c
  end.

Definition special (sc : Z) : Z :=
  if sc =? 0x1C then 10 else if sc =? 0x0E then 8 else if sc =? 0x48 then 0x1B else
  if sc =? 0x50 then 0x1A else if sc =? 0x4B then 0x03 else if sc =? 0x4D then 0x04 else
  if sc =? 0x47 then 0x01 else if sc =? 0x4F then 0x02 else if sc =? 0x53 then 0x7F else
  if sc =? 0x0F then 9 else 0.

(** One scancode: [None] continues the loop, [Some c] returns [c]. *)
Definition scan (sc : Z) (k : kbd) : option Z * kbd :=
  if sc =? 0xAA then (None, Kbd false (right_shift k) (caps_lock k)) else
  if sc =? 0xB6 then (None, Kbd (left_shift k) false (caps_lock k)) else
  if z2b (Z.land sc 0x80) then (None, k) else
  if sc =? 0x2A then (None, Kbd true (right_shift k) (caps_lock k)) else
  if sc =? 0x36 then (None, Kbd (left_shift k) true (caps_lock k)) else
  if sc =? 0x3A then (None, Kbd (left_shift k) (right_shift k) (negb (caps_lock k))) else
  let c := nth (Z.to_nat sc) kbd_map 0 in
  if (sc <? Z.of_nat (length kbd_map)) && z2b c then
    let shift := left_shift k || right_shift k in
    let c := if (97 <=? c) && (c <=? 122) then (if xorb shift (caps_lock k) then c - 97 + 65 else c)
             else if shift then shifted c plain upper_row else c in
    (Some c, k)
  else (Some (special sc), k).

Section keyboard.
Context {D : Type} `{Ports D}.

(** Polls until a key is decoded; it waits as long as it takes, so the fuel
    bounds the polls of one call. *)
Fixpoint kbd_get (fuel : nat) (k : kbd) (d : D) : outcome (Z * kbd * D) :=
  match fuel with
  | O => OutOfFuel
  | S fuel =>
    let '(s, d) := inb 0x64 d in
    if negb (z2b (Z.land s 1)) then kbd_get fuel k d else
    let '(sc, d) := inb 0x60 d in
    match scan sc k with
    | (None, k) => kbd_get fuel k d
    | (Some c, k) => Ok (c, k, d)
    end
  end.

End keyboard.

(** ** History *)

Definition HIST_MAX : nat := 8.
Definition LINE_MAX : nat := 128.

Record history_t := History { history : list (list Z); hist_count : nat }.

Definition history0 : history_t := History (replicate HIST_MAX (replicate LINE_MAX 0)) 0.

(** [for (i = n; i > 0; i--) history[i] = history[i - 1]] *)
Fixpoint shift_history (n : nat) (h : list (list Z)) : list (list Z) :=
  match n with
  | O => h
  | S n' => shift_history n' (<[n := nth n' h []]> h)
  end.

(** [for (j = 0; j < 128 && line[j]; j++) history[0][j] = line[j]; history[0][127] = 0;] *)
Definition overwrite (line old : list Z) : list Z :=
  let l := take LINE_MAX line in <[127%nat := 0]> (l ++ drop (length l) old).

Definition hist_add (line : list Z) (h : history_t) : history_t :=
  match line with
  | [] => h
  | _ =>
    if negb (Nat.eqb (hist_count h) 0) && streq (cstring (nth (hist_count h - 1) (history h) [])) line then h else
    let n := if Nat.ltb (hist_count h) HIST_MAX then S (hist_count h) else hist_count h in
    let hs := shift_history (n - 1) (history h) in
    History (<[0%nat := overwrite line (nth 0 hs [])]> hs) n
  end.

(** ** The editor *)

Definition cmd_list : list (list Z) := map text
  ["boot"; "reboot"; "halt"; "install"; "recover"; "recover-with-bl"; "bootmode";
   "status"; "uname"; "version"; "meminfo"; "modules"; "diskinfo";
   "chkfs"; "mount"; "umount"; "sync"; "ls"; "hexdump"; "format";
   "history"; "echo"; "clear"; "help"]%string.

(** [h] is -1 while no history entry is shown; [e_out] is what was printed. *)
Record editor := Editor {
  buf : list Z; pos : nat; len : nat; h : Z; saved : list Z; e_out : list Z
}.

(** Bytes [p .. p + n - 1], as printed by the redraw loops. *)
Definition span (p n : nat) (b : list Z) : list Z := take n (drop p b).

Definition spaces (n : nat) (c : Z) : list Z := replicate n c.
Definition BS : Z := 8.

Definition erase_line (n : nat) : list Z := concat (replicate n [BS; 32; BS]).

(** [for (p = 0; src[p]; p++) b[p] = src[p];] from index [i] on; the index at the end. *)
Fixpoint copy_str (fuel i : nat) (src b : list Z) : outcome (nat * list Z) :=
  match fuel with
  | O => OutOfFuel
  | S fuel =>
    do c <- rd i src;
    if negb (z2b c) then Ok (i, b) else do b <- wr i c b; copy_str fuel (i + 1) src b
  end.

(** How far [cmd] and the buffer agree, and whether one ends there. *)
Fixpoint common (j : nat) (cmd b : list Z) : outcome (nat * bool) :=
  match b with
  | [] => Undefined
  | x :: b =>
    match cmd with
    | [] => Ok (j, true)
    | c :: cmd => if negb (z2b x) then Ok (j, true) else if c =? x then common (S j) cmd b else Ok (j, false)
    end
  end.

(** The commands that match, with the length of the agreement. *)
Fixpoint matches (cmds : list (list Z)) (b : list Z) : outcome (list (list Z * nat)) :=
  match cmds with
  | [] => Ok []
  | cmd :: cmds =>
    do r <- common 0 cmd b;
    do ms <- matches cmds b;
    Ok (if snd r then (cmd, fst r) :: ms else ms)
  end.

(** [while ( *s && pos + 1 < max)] of the completion. *)
Fixpoint complete (s : list Z) (max : nat) (e : editor) : outcome editor :=
  match s with
  | [] => Ok e
  | c :: s =>
    if negb (Nat.ltb (pos e + 1) max) then Ok e else
    do b <- shift_right (len e - pos e) (pos e) (buf e);
    do b <- wr (pos e) c b;
    let p := S (pos e) in
    let l := S (len e) in
    complete s max (Editor b p l (h e) (saved e)
      (e_out e ++ [c] ++ span p (l - p) b ++ spaces (l - p) BS))
  end.

(** Showing an entry (or the saved line) in place of the current line. *)
Definition recall (src : list Z) (h' : Z) (e : editor) : outcome editor :=
  do '(p, b) <- copy_str (S (length src)) 0 src (buf e);
  do b <- wr p 0 b;
  Ok (Editor b p p h' (saved e) (e_out e ++ erase_line (len e) ++ cstring b)).

Definition remove_at (p : nat) (tail : list Z) (e : editor) : outcome editor :=
  do b <- shift_left (len e - p) p (buf e);
  let l := (len e - 1)%nat in
  do b <- wr l 0 b;
  Ok (Editor b p l (h e) (saved e) (e_out e ++ tail ++ span p (l - p) b ++ [32])).

Definition add_out (t : list Z) (e : editor) : editor :=
  Editor (buf e) (pos e) (len e) (h e) (saved e) (e_out e ++ t).
Definition at_pos (p : nat) (t : list Z) (e : editor) : editor :=
  Editor (buf e) p (len e) (h e) (saved e) (e_out e ++ t).

(** One key other than Enter; [max] is the buffer's length as the caller states it. *)
Definition edit (hist : history_t) (max : nat) (c : Z) (e : editor) : outcome editor :=
  if c =? 0 then Ok e else
  if c =? 8 then
    (if Nat.eqb (pos e) 0 then Ok e else
     do e <- remove_at (pos e - 1) [BS] e;
     Ok (add_out (spaces (len e - pos e) BS) e))
  else if c =? 0x7F then
    (if Nat.ltb (pos e) (len e) then
       do e <- remove_at (pos e) [] e;
       Ok (add_out (spaces (len e - pos e + 1) BS) e)
     else Ok e)
  else if c =? 0x01 then Ok (at_pos 0 (spaces (pos e) BS) e)
  else if c =? 0x02 then Ok (at_pos (len e) (span (pos e) (len e - pos e) (buf e)) e)
  else if c =? 0x03 then (if Nat.eqb (pos e) 0 then Ok e else Ok (at_pos (pos e - 1) [BS] e))
  else if c =? 0x04 then
    (if Nat.ltb (pos e) (len e) then Ok (at_pos (pos e + 1) (span (pos e) 1 (buf e)) e) else Ok e)
  else if c =? 9 then
    do ms <- matches cmd_list (buf e);
    match ms with
    | [] => Ok e
    | [(cmd, n)] => complete (drop n cmd) max e
    | _ => Ok (add_out ([10] ++ concat (map (fun m => text "  " ++ fst m ++ [10]) ms)
                        ++ text "  Mini64> " ++ span 0 (len e) (buf e) ++ spaces (len e - pos e) BS) e)
    end
  else if (32 <=? c) && (c <? 127) && Nat.ltb (len e + 1) max then
    do b <- shift_right (len e - pos e) (pos e) (buf e);
    do b <- wr (pos e) c b;
    let p := S (pos e) in
    let l := S (len e) in
    do b <- wr l 0 b;
    Ok (Editor b p l (h e) (saved e) (e_out e ++ [c] ++ span p (l - p) b ++ spaces (l - p) BS))
  else if c =? 0x1B then
    do e <- (if h e =? -1
             then do s <- (if Nat.ltb (len e) LINE_MAX
                           then Ok (span 0 (len e) (buf e) ++ [0] ++ drop (len e + 1) (saved e)) else Undefined);
                  Ok (Editor (buf e) (pos e) (len e) (h e) s (e_out e))
             else Ok e);
    if h e + 1 <? Z.of_nat (hist_count hist)
    then recall (nth (Z.to_nat (h e + 1)) (history hist) []) (h e + 1) e else Ok e
  else if c =? 0x1A then
    if 0 <? h e then recall (nth (Z.to_nat (h e - 1)) (history hist) []) (h e - 1) e
    else if h e =? 0 then recall (saved e) (-1) e else Ok e
  else Ok e.

(** Enter: the line is what stands before the cursor; the buffer and the output. *)
Definition enter (e : editor) : outcome (list Z * list Z) :=
  do b <- wr (pos e) 0 (buf e); Ok (b, e_out e ++ [10]).

(** The keys of one readline: those before the first Enter are edited in turn. *)
Fixpoint edit_keys (hist : history_t) (max : nat) (ks : list Z) (e : editor) : outcome (list Z * list Z) :=
  match ks with
  | [] => OutOfFuel
  | c :: ks => if c =? 10 then enter e else do e <- edit hist max c e; edit_keys hist max ks e
  end.

(** [readline(buf, max)]: the buffer, the history after it, and the output. *)
Definition readline (hist : history_t) (b : list Z) (max : nat) (ks : list Z) : outcome (list Z * history_t * list Z) :=
  do b <- wr 0 0 b;
  do '(b, t) <- edit_keys hist max ks (Editor b 0 0 (-1) (replicate LINE_MAX 0) []);
  Ok (b, hist_add (cstring b) hist, t).

(** ** Numbers *)

Fixpoint parse_digits (n : Z) (s : list Z) : Z * list Z :=
  match s with
  | c :: s' => if (48 <=? c) && (c <=? 57) then parse_digits (u32 (n * 10 + (c - 48))) s' else (n, s)
  | [] => (n, [])
  end.

Definition parse_u32 (s : list Z) : option Z :=
  let '(n, rest) := parse_digits 0 s in
  if (match s with c :: _ => (48 <=? c) && (c <=? 57) | [] => false end)
     && bool_decide (rest = []) then Some n else None.

Definition hex_digit (c : Z) : Z :=
  if (48 <=? c) && (c <=? 57) then c - 48 else
  if (97 <=? c) && (c <=? 102) then c - 97 + 10 else
  if (65 <=? c) && (c <=? 70) then c - 65 + 10 else -1.
