(* ===== verification/Mini64LineTheorems.v ===== *)
(** * What the rescue system's line editor does

    Editing keys act on a zipper; Enter returns the part before the cursor;
    history recall ignores the size of the buffer; a new history entry keeps
    the tail of the one it replaces. *)

From stdpp Require Import base numbers list strings.
From Stdlib Require Import ZArith Lia.
From S2P Require Import Prelude Buffer Ports Mini64Line.

(** ** The zipper *)

Definition zip : Type := list Z * list Z.

(** The keys that edit the line; the others are Tab, the vertical arrows and Enter. *)
Definition editing (c : Z) : bool := negb (c =? 9) && negb (c =? 0x1B) && negb (c =? 0x1A) && negb (c =? 10).

Definition zip_key (max : nat) (z : zip) (c : Z) : zip :=
  let '(l, r) := z in
  if c =? 8 then (removelast l, r)
  else if c =? 0x7F then (l, tl r)
  else if c =? 0x01 then ([], l ++ r)
  else if c =? 0x02 then (l ++ r, [])
  else if c =? 0x03 then (match rev l with x :: _ => (removelast l, x :: r) | [] => z end)
  else if c =? 0x04 then (match r with x :: r => (l ++ [x], r) | [] => z end)
  else if (32 <=? c) && (c <? 127) && Nat.ltb (length l + length r + 1) max then (l ++ [c], r)
  else z.

(** The editor's buffer holds the zipper, terminated, with room to spare. *)
Record edits (max : nat) (z : zip) (e : editor) : Prop := {
  ed_pos : pos e = length (fst z);
  ed_len : len e = (length (fst z) + length (snd z))%nat;
  ed_buf : exists rest, buf e = fst z ++ snd z ++ 0 :: rest;
  ed_size : length (buf e) = max;
  ed_chars : is_cstr (fst z ++ snd z)
}.

Lemma edits_move max l r l' r' e p t :
  edits max (l, r) e -> l ++ r = l' ++ r' -> p = length l' -> edits max (l', r') (at_pos p t e).
Proof.
  intros [Hp Hl [rest Hb] Hs Hc] Heq ->. cbn [fst snd] in *. constructor; cbn [fst snd pos len buf at_pos].
  - done.
  - rewrite Hl. apply (f_equal length) in Heq. rewrite !length_app in Heq. done.
  - exists rest. by rewrite Hb, !app_assoc, Heq.
  - done.
  - by rewrite <- Heq.
Qed.

Lemma edits_out max z e t : edits max z e -> edits max z (add_out t e).
Proof. intros [? ? ? ? ?]. by constructor. Qed.

(** Removing the character after [l]. *)
Lemma remove_at_edits max l c r e tail :
  length (buf e) = max -> (exists rest, buf e = l ++ c :: r ++ 0 :: rest) -> len e = (length l + S (length r))%nat ->
  is_cstr (l ++ c :: r) -> exists e', remove_at (length l) tail e = Ok e' /\ edits max (l, r) e'.
Proof.
  intros Hs [rest Hb] Hl Hc. unfold remove_at. rewrite Hb, Hl.
  replace (length l + S (length r) - length l)%nat with (S (length r)) by lia. rewrite remove_char. cbn [obind].
  replace (length l + S (length r) - 1)%nat with (length (l ++ r)) by (rewrite length_app; lia).
  rewrite app_assoc, wr_app. cbn [obind]. eexists. split; [done|]. constructor; cbn [fst snd pos len buf].
  - done.
  - by rewrite length_app.
  - exists (0 :: rest). by rewrite <- app_assoc.
  - rewrite <- Hs, Hb. rewrite !length_app. cbn [length]. rewrite length_app. cbn [length]. lia.
  - apply Forall_app in Hc as [Hc1 Hc2]. apply Forall_app. split; [done|by inversion Hc2].
Qed.

(** Inserting a printable character where there is room. *)
Lemma insert_edits max l r c e t :
  edits max (l, r) e -> 0 < c < 256 -> (length l + length r + 1 < max)%nat ->
  exists b, obind (obind (shift_right (length r) (length l) (buf e)) (wr (length l) c))
              (wr (S (length l + length r)) 0) = Ok b /\
    edits max (l ++ [c], r) (Editor b (S (length l)) (S (length l + length r)) (h e) (saved e) t).
Proof.
  intros [Hp Hl [rest Hb] Hs Hc] Hch Hroom. cbn [fst snd] in *.
  assert (Hrest : exists y rest', rest = y :: rest').
  { rewrite Hb, !length_app in Hs. cbn [length] in Hs. destruct rest; [simpl in Hs; lia|by eexists _, _]. }
  destruct Hrest as (y&rest'&->). rewrite Hb, insert_char. cbn [obind].
  replace (S (length l + length r)) with (length (l ++ c :: r)) by (rewrite length_app; cbn [length]; lia).
  replace (l ++ c :: r ++ y :: rest') with ((l ++ c :: r) ++ y :: rest') by (by rewrite <- app_assoc).
  rewrite wr_app. eexists. split; [done|]. constructor; cbn [fst snd pos len buf].
  - rewrite length_app. cbn [length]. lia.
  - rewrite !length_app. cbn [length]. lia.
  - exists rest'. by rewrite <- !app_assoc.
  - rewrite <- Hs, Hb. rewrite !length_app. cbn [length]. rewrite ?length_app. cbn [length]. lia.
  - rewrite <- app_assoc. apply Forall_app in Hc as [Hc1 Hc2]. apply Forall_app. split; [done|].
    by constructor.
Qed.

Lemma edit_edits hist max c z e :
  edits max z e -> editing c = true -> exists e', edit hist max c e = Ok e' /\ edits max (zip_key max z c) e'.
Proof.
  intros He Hk. destruct z as [l r]. pose proof He as [Hp Hl [rest Hb] Hs Hc]. cbn [fst snd] in *.
  unfold editing in Hk. apply andb_true_iff in Hk as [Hk Hk4]. apply andb_true_iff in Hk as [Hk Hk3].
  apply andb_true_iff in Hk as [Hk1 Hk2]. apply negb_true_iff in Hk1, Hk2, Hk3, Hk4.
  unfold edit, zip_key. rewrite Hk1, Hk2, Hk3.
  destruct (Z.eqb_spec c 0) as [->|_]; [exists e; by split|].
  destruct (Z.eqb_spec c 8) as [->|_].
  { rewrite Hp. destruct l as [|x l _] using rev_ind; [exists e; by split|].
    rewrite length_app. cbn [length]. rewrite (proj2 (Nat.eqb_neq _ 0)) by lia. rewrite Nat.add_sub, removelast_last.
    destruct (remove_at_edits max l x r e [BS]) as (e'&->&He').
    - done.
    - exists rest. by rewrite Hb, <- app_assoc.
    - rewrite Hl, length_app. cbn [length]. lia.
    - by rewrite <- app_assoc in Hc.
    - cbn [obind]. eexists. split; [done|]. by apply edits_out. }
  destruct (Z.eqb_spec c 0x7F) as [->|_].
  { rewrite Hp, Hl. destruct r as [|x r]; cbn [length tl].
    - rewrite (proj2 (Nat.ltb_ge _ _)) by lia. exists e. by split.
    - rewrite (proj2 (Nat.ltb_lt _ _)) by lia.
      destruct (remove_at_edits max l x r e []) as (e'&->&He'); [done|by exists rest|done|done|].
      cbn [obind]. eexists. split; [done|]. by apply edits_out. }
  destruct (Z.eqb_spec c 1) as [->|_]; [eexists; split; [done|]; by eapply edits_move|].
  destruct (Z.eqb_spec c 2) as [->|_].
  { eexists. split; [done|]. eapply edits_move; [done|by rewrite app_nil_r|by rewrite length_app]. }
  destruct (Z.eqb_spec c 3) as [->|_].
  { rewrite Hp. destruct l as [|x l _] using rev_ind; [exists e; by split|].
    rewrite length_app, rev_app_distr, removelast_last. cbn [length rev app].
    rewrite (proj2 (Nat.eqb_neq _ 0)) by lia. eexists. split; [done|].
    eapply edits_move; [done|by rewrite <- app_assoc|lia]. }
  destruct (Z.eqb_spec c 4) as [->|_].
  { rewrite Hp, Hl. destruct r as [|x r]; cbn [length].
    - rewrite (proj2 (Nat.ltb_ge _ _)) by lia. exists e. by split.
    - rewrite (proj2 (Nat.ltb_lt _ _)) by lia. eexists. split; [done|].
      eapply edits_move; [done|by rewrite <- app_assoc|by rewrite length_app]. }
  rewrite Hl. destruct ((32 <=? c) && (c <? 127)) eqn:Hpr; cbn [andb]; [|exists e; by split].
  destruct (Nat.ltb_spec (length l + length r + 1) max) as [Hroom|Hroom]; [|exists e; by split].
  rewrite Hp. replace (length l + length r - length l)%nat with (length r) by lia.
  destruct (insert_edits max l r c e (e_out e)) as (b&Hi&He'); [done|breflect; lia|done|].
  destruct (shift_right (length r) (length l) (buf e)) as [b1| |]; [|done|done]. cbn [obind] in Hi |- *.
  destruct (wr (length l) c b1) as [b2| |]; [|done|done]. cbn [obind] in Hi |- *. rewrite Hi. cbn [obind].
  eexists. split; [done|]. destruct He' as [? ? ? ? ?]. by constructor.
Qed.

(** ** readline *)

Lemma edit_keys_edits hist max ks z e :
  edits max z e -> forallb editing ks = true ->
  exists b t, edit_keys hist max (ks ++ [10]) e = Ok (b, t) /\
    cstring b = fst (fold_left (zip_key max) ks z) /\ length b = max.
Proof.
  revert z e. induction ks as [|c ks IH]; intros z e He Hk.
  - cbn [app edit_keys fold_left]. rewrite Z.eqb_refl. destruct z as [l r], He as [Hp Hl [rest Hb] Hs Hc].
    cbn [fst snd] in *. unfold enter. rewrite Hp, Hb.
    assert (Hx : exists x rest', r ++ 0 :: rest = x :: rest') by (destruct r; by eexists _, _).
    destruct Hx as (x&rest'&Hx). rewrite Hx, wr_app. cbn [obind]. eexists _, _. split; [done|]. split.
    + apply cstring_app_nul. by apply Forall_app in Hc as [? _].
    + rewrite <- Hs, Hb, Hx. by rewrite !length_app.
  - cbn [forallb] in Hk. apply andb_true_iff in Hk as [Hc Hk]. cbn [app edit_keys fold_left].
    assert (Hn : c =? 10 = false).
    { unfold editing in Hc. apply andb_true_iff in Hc as [_ Hc]. by apply negb_true_iff in Hc. }
    rewrite Hn. destruct (edit_edits hist max c z e He Hc) as (e'&->&He'). cbn [obind]. by apply IH.
Qed.

(** C28. Line editing.  For every sequence of printable characters, Backspace,
    Delete, Home, End and the horizontal arrows ended by Enter, readline stays
    inside a buffer of [max] bytes and behaves as an editor with a cursor: a
    character is inserted at the cursor while the line is shorter than
    [max - 1], Backspace and Delete remove before and after it.  The line it
    returns, and enters into the history, is the text before the cursor. *)
Theorem readline_edits hist b max ks :
  length b = max -> (0 < max)%nat -> forallb editing ks = true ->
  let line := fst (fold_left (zip_key max) ks ([], [])) in
  exists b' t, readline hist b max (ks ++ [10]) = Ok (b', hist_add line hist, t) /\
    cstring b' = line /\ length b' = max.
Proof.
  intros Hb Hm Hk line. unfold readline. destruct b as [|x b]; [simpl in Hb; lia|].
  change (wr 0 0 (x :: b)) with (Ok (0 :: b) : outcome (list Z)). cbn [obind].
  destruct (edit_keys_edits hist max ks ([], []) (Editor (0 :: b) 0 0 (-1) (replicate LINE_MAX 0) [])) as (b'&t&Ht&Hl&Hlen).
  - constructor; [done|done|by exists b|done|by apply Forall_nil].
  - done.
  - rewrite Ht. cbn [obind]. rewrite Hl. by exists b', t.
Qed.

Lemma readline_edits_witness :
  exists b' t, readline history0 (replicate 128 0) 128 ([108; 115; 120; 8] ++ [10]) =
    Ok (b', hist_add (text "ls") history0, t) /\ cstring b' = text "ls" /\ length b' = 128%nat.
Proof. apply (readline_edits history0 (replicate 128 0) 128 [108; 115; 120; 8]); [reflexivity|lia|reflexivity]. Defined.

(** ** History *)

(** Copying and terminating a string that does not fit. *)
Lemma copy_str_overflows src b i fuel :
  (length b <= length (cstring (drop i src)) + i)%nat -> (i <= length b)%nat ->
  (i <= length src < i + fuel)%nat -> obind (copy_str fuel i src b) (fun r => wr (fst r) 0 (snd r)) = Undefined.
Proof.
  revert i b. induction fuel as [|fuel IH]; intros i b Hlen Hi Hf.
  { lia. }
  cbn [copy_str]. unfold rd. destruct (drop i src) as [|c rest] eqn:Hd.
  { cbn [cstring length] in Hlen. rewrite lookup_ge_None_2; [done|].
    apply (f_equal length) in Hd. rewrite length_drop in Hd. cbn [length] in Hd. lia. }
  assert (Hc : src !! i = Some c) by (rewrite <- (Nat.add_0_r i), <- lookup_drop, Hd; done).
  rewrite Hc. cbn [of_option obind cstring] in *. unfold z2b. destruct (Z.eqb_spec c 0) as [->|Hnz].
  { cbn [length negb obind fst snd] in *. unfold wr. by rewrite (proj2 (Nat.ltb_ge _ _)) by lia. }
  cbn [negb]. unfold wr at 1. destruct (Nat.ltb_spec i (length b)); [|done]. cbn [obind].
  pose proof (lookup_lt_Some _ _ _ Hc). apply IH; rewrite ?length_insert; try lia. cbn [length] in Hlen.
  assert (drop (i + 1) src = rest) as ->; [|lia]. rewrite <- drop_drop, Hd. done.
Qed.

(** History recall ignores the size of the caller's buffer: with an entry
    at least as long as the buffer in the history (the confirmation prompts of
    'erase' and 'install' pass 8 and 12 bytes), pressing the up arrow first
    thing makes readline write past the end of the buffer. *)
Theorem recall_overflows hist b max :
  length b = max -> (0 < max)%nat -> (0 < hist_count hist)%nat ->
  (max <= length (cstring (nth 0 (history hist) [])))%nat ->
  readline hist b max [0x1B; 10] = Undefined.
Proof.
  intros Hb Hm Hh Hl. unfold readline. destruct b as [|x b]; [simpl in Hb; lia|].
  change (wr 0 0 (x :: b)) with (Ok (0 :: b) : outcome (list Z)). cbn [obind edit_keys]. cbn [Z.eqb Pos.eqb].
  set (e := Editor _ _ _ _ _ _).
  assert (He : exists e', edit hist max 0x1B e = recall (nth 0 (history hist) []) 0 e' /\ buf e' = 0 :: b).
  { eexists. unfold edit. cbn [Z.eqb Pos.eqb Z.leb Z.ltb Z.compare Pos.compare Pos.compare_cont andb h e len buf].
    cbn [Nat.ltb Nat.leb LINE_MAX obind h]. rewrite (proj2 (Z.ltb_lt _ _)) by lia. split; [reflexivity|done]. }
  destruct He as (e'&->&Hbuf). unfold recall.
  pose proof (copy_str_overflows (nth 0 (history hist) []) (buf e') 0 (S (length (nth 0 (history hist) [])))) as Ho.
  rewrite drop_0, Hbuf, Nat.add_0_r in Ho. specialize (Ho ltac:(cbn [length] in *; lia) ltac:(lia) ltac:(lia)).
  rewrite Hbuf. destruct (copy_str _ 0 _ (0 :: b)) as [[p' b']| |]; [|done|done]. cbn [obind fst snd] in Ho |- *.
  by rewrite Ho.
Qed.

Lemma recall_overflows_witness :
  readline (hist_add (text "recover-with-bl") history0) (replicate 8 0) 8 [0x1B; 10] = Undefined.
Proof. apply recall_overflows; [reflexivity|lia|vm_compute; lia|vm_compute; lia]. Defined.

Lemma cstring_app l r : is_cstr l -> cstring (l ++ r) = l ++ cstring r.
Proof.
  induction 1 as [|c l Hc _ IH]; [done|]. cbn [app cstring]. rewrite (proj2 (Z.eqb_neq c 0)) by lia. by rewrite IH.
Qed.

Lemma shift_history_0 n hs : nth 0 (shift_history n hs) [] = nth 0 hs [].
Proof.
  revert hs. induction n as [|n IH]; intros hs; [done|]. cbn [shift_history]. rewrite IH.
  rewrite !nth_lookup. by rewrite list_lookup_insert_ne by lia.
Qed.

Lemma cstring_zero_at n l : (n < length l)%nat -> cstring (<[n := 0]> l) = cstring (take n l).
Proof.
  revert n. induction l as [|c l IH]; intros n Hn; [simpl in Hn; lia|]. destruct n as [|n]; [done|].
  change (<[S n := 0]> (c :: l)) with (c :: <[n := 0]> l). cbn [cstring take length] in *.
  destruct (c =? 0); [done|]. by rewrite IH by lia.
Qed.

(** What the history remembers.  Unless it repeats the oldest entry, a new
    line becomes entry 0, but its bytes are written over those of the previous
    line without a terminator: entry 0 then reads as the new line followed by
    whatever the previous line's buffer held beyond it.  It is the line itself
    exactly when the previous buffer has a zero byte at that place. *)
Theorem hist_add_keeps_tail line hist :
  is_cstr line -> (0 < length line <= 127)%nat -> (0 < length (history hist))%nat ->
  length (nth 0 (history hist) []) = LINE_MAX ->
  (hist_count hist = 0%nat \/ cstring (nth (hist_count hist - 1) (history hist) []) <> line) ->
  cstring (nth 0 (history (hist_add line hist)) []) =
    line ++ cstring (drop (length line) (take 127 (nth 0 (history hist) []))).
Proof.
  intros Hc [Hl1 Hl2] Hlen Hold Hnew. unfold hist_add. destruct line as [|c0 line0] eqn:Hline; [simpl in Hl1; lia|].
  rewrite <- Hline in *.
  assert (Hcond : negb (Nat.eqb (hist_count hist) 0) && streq (cstring (nth (hist_count hist - 1) (history hist) [])) line = false).
  { destruct Hnew as [->|Hne]; [done|]. apply andb_false_iff. right. by apply bool_decide_eq_false. }
  rewrite Hcond. cbn [history]. set (n := (_ - 1)%nat). set (hs := shift_history n (history hist)).
  assert (Hhl : (0 < length hs)%nat).
  { unfold hs. clear -Hlen. revert Hlen. generalize (history hist). induction n as [|n IH]; intros l Hl; [done|].
    cbn [shift_history]. apply IH. by rewrite length_insert. }
  rewrite nth_lookup, list_lookup_insert_eq by done. cbn [default from_option id].
  unfold hs. rewrite shift_history_0. unfold overwrite. unfold LINE_MAX in *.
  rewrite (take_ge line) by lia.
  rewrite cstring_zero_at by (rewrite length_app, length_drop; lia).
  rewrite take_app_ge by lia. rewrite cstring_app by done. do 2 f_equal.
  symmetry. apply skipn_firstn_comm.
Qed.

Lemma hist_add_witness :
  cstring (nth 0 (history (hist_add (text "ls") (hist_add (text "recover") history0))) []) = text "lscover".
Proof.
  rewrite (hist_add_keeps_tail (text "ls") (hist_add (text "recover") history0)).
  - vm_compute. reflexivity.
  - by apply text_is_cstr_dec.
  - vm_compute. lia.
  - vm_compute. lia.
  - vm_compute. reflexivity.
  - right. vm_compute. congruence.
Defined.
