(* ===== verification/Mini64Shell.v ===== *)
(** * The rescue system's command loop (src/mini64/kernel.c, lines 952 to 1340)

    kernel_main and its commands, over the file system of Mini64Fat.v, the line
    editor of Mini64Line.v and the boot parsers of Mini64Boot.v.  The keyboard
    is the list of keys still to come; [out] of the file system state is what
    was printed since the screen was last cleared. *)

From stdpp Require Import base numbers list strings.
From Stdlib Require Import ZArith Lia.
From S2P Require Import Prelude Multiboot Ports Mini64Ata Effects Font Mini64Console Mini64Boot Mini64Fat Mini64Line.

(** What the shell uses of the machine beyond the disk interface. *)
Class Rescue (D : Type) := {
  rescue_disk :: Disk D;
  identify : D -> option (list Z * Z) * D;
  reset : D -> D
}.

#[export] Instance ata_rescue {P : Type} `{Ports P} : Rescue (ata P) := {
  identify := disk_identify;
  reset a := Ata (outb 0x64 0xFE (port a)) (pending_writes a)
}.

(** The modules kernel_main recognises. *)
Record payloads := Payloads { p_kernel : payload; p_initrd : payload; p_boot : payload; p_cfg : payload; p_mini : payload }.

Definition no_payload : payload := Payload None 0.

Definition named (n : list Z) (names : list string) : bool := existsb (fun s => streq n (text s)) names.

Definition take_module (m : memory) (ps : payloads) (mod_ : module_t * list Z) : payloads :=
  let '(Module_t a b, n) := mod_ in
  let p := Payload (if z2b a then Some (fun i => m (a + i)) else None) (u32 (b - a)) in
  let ps := if named n ["kernel"; "kernel.bin"]%string
            then Payloads p (p_initrd ps) (p_boot ps) (p_cfg ps) (p_mini ps) else ps in
  let ps := if named n ["initrd"; "initrd.tar"; "initrd.bin"]%string
            then Payloads (p_kernel ps) p (p_boot ps) (p_cfg ps) (p_mini ps) else ps in
  let ps := if named n ["bootloader"; "os64-boot.img"]%string
            then Payloads (p_kernel ps) (p_initrd ps) p (p_cfg ps) (p_mini ps) else ps in
  let ps := if named n ["manager"; "grub.cfg"]%string
            then Payloads (p_kernel ps) (p_initrd ps) (p_boot ps) p (p_mini ps) else ps in
  if named n ["mini64"; "mini64.bin"]%string
  then Payloads (p_kernel ps) (p_initrd ps) (p_boot ps) (p_cfg ps) p else ps.

(** How the command loop ends. *)
Inductive stop := Reboot | Halt.

(** ** Erase: its arguments *)

(** Splitting at spaces: at most [n] tokens.  [i] is the index of [s] in the
    buffer; the second result lists the indices where a space became NUL. *)
Fixpoint word (s : list Z) : list Z * list Z :=
  match s with
  | c :: s' => if c =? 32 then ([], s) else let '(w, r) := word s' in (c :: w, r)
  | [] => ([], [])
  end.

Fixpoint drop_spaces (s : list Z) : list Z :=
  match s with c :: s' => if c =? 32 then drop_spaces s' else s | [] => [] end.

Fixpoint tokenize (n : nat) (i : nat) (s : list Z) : list (list Z) * list nat :=
  match n with
  | O => ([], [])
  | S n =>
    let s' := drop_spaces s in
    match s' with
    | [] => ([], [])
    | _ =>
      let '(w, r) := word s' in
      let j := (i + (length s - length r))%nat in
      match r with
      | [] => ([w], [])
      | _ :: r => let '(ws, cuts) := tokenize n (j + 1) r in (w :: ws, j :: cuts)
      end
    end
  end.

Record erase_args := EraseArgs {
  a_lba : Z; a_sectors : Z; a_have_lba : bool; a_have_count : bool;
  a_replace : bool; a_no_confirm : bool; a_kind : Z; a_byte : Z; a_string : list Z
}.

Definition erase_args0 : erase_args := EraseArgs 0 1 false false false false 0 0 [].

(** "00" to "FF" with an optional 0x: the byte. *)
Definition hex_prefix (v : list Z) : list Z :=
  match v with 48 :: x :: r => if (x =? 120) || (x =? 88) then r else v | _ => v end.

Definition parse_byte (v : list Z) : option Z :=
  let v := hex_prefix v in
  let a := hex_digit (char_at v 0) in
  let b := hex_digit (char_at v 1) in
  if (a <? 0) || (b <? 0) || z2b (char_at v 2) then None else Some (u8 (Z.lor (Z.shiftl a 4) b)).

(** The option loop: the error message ([None] for a silent failure) or the arguments. *)
Fixpoint erase_options (fuel : nat) (ts : list (list Z)) (a : erase_args) : option (list Z) + erase_args :=
  match fuel, ts with
  | S fuel, t :: ts =>
    if streq t (text "-r") then
      erase_options fuel ts (EraseArgs (a_lba a) (a_sectors a) (a_have_lba a) (a_have_count a) true
        (a_no_confirm a) (a_kind a) (a_byte a) (a_string a))
    else if streq t (text "-no") then
      erase_options fuel ts (EraseArgs (a_lba a) (a_sectors a) (a_have_lba a) (a_have_count a) (a_replace a)
        true (a_kind a) (a_byte a) (a_string a))
    else if streq t (text "-h") && negb (bool_decide (ts = [])) then
      match ts with
      | v :: ts =>
        match parse_byte v with
        | None => inl (Some (text "  erase: -h expects exactly one byte (00-FF)." ++ [10]))
        | Some b =>
          if z2b (a_kind a) then inl (Some (text "  erase: choose either -h or -s, not both." ++ [10])) else
          erase_options fuel ts (EraseArgs (a_lba a) (a_sectors a) (a_have_lba a) (a_have_count a) (a_replace a)
            (a_no_confirm a) 1 b (a_string a))
        end
      | [] => inr a
      end
    else if streq t (text "-s") && negb (bool_decide (ts = [])) then
      if z2b (a_kind a) then inl (Some (text "  erase: choose either -h or -s, not both." ++ [10])) else
      match ts with
      | v :: ts =>
        if bool_decide (v = []) then inl (Some (text "  erase: empty string pattern." ++ [10])) else
        erase_options fuel ts (EraseArgs (a_lba a) (a_sectors a) (a_have_lba a) (a_have_count a) (a_replace a)
          (a_no_confirm a) 2 (a_byte a) v)
      | [] => inr a
      end
    else if char_at t 0 =? 45 then inl (Some (text "  erase: unknown option." ++ [10]))
    else if negb (a_have_lba a) then
      match parse_u32 t with
      | None => inl None
      | Some n => erase_options fuel ts (EraseArgs n (a_sectors a) true (a_have_count a) (a_replace a)
                    (a_no_confirm a) (a_kind a) (a_byte a) (a_string a))
      end
    else if negb (a_have_count a) then
      match parse_u32 t with
      | None => inl None
      | Some n => erase_options fuel ts (EraseArgs (a_lba a) n (a_have_lba a) true (a_replace a)
                    (a_no_confirm a) (a_kind a) (a_byte a) (a_string a))
      end
    else inl (Some (text "  erase: too many operands." ++ [10]))
  | _, _ => inr a
  end.

Definition erase_usage : list Z :=
  text "  Usage: erase LBA [COUNT] [-no]" ++ [10]
  ++ text "         erase -r LBA [COUNT] (-h BYTE|-s STRING) [-no]" ++ [10].

(** The sector the command fills with. *)
Definition erase_block (a : erase_args) : list Z :=
  let s := take 64 (a_string a) in
  map (fun i => if a_kind a =? 1 then a_byte a
                else if a_kind a =? 2 then u8 (nth (i mod length s) s 0) else 0) (seq 0 512).

Section shell.

Context {D : Type} `{Rescue D}.

(** [line] is kernel_main's buffer; [keys] the keys not yet read. *)
Record sh := Sh { fs : st D; hist : history_t; line : list Z; keys : list Z }.

#[local] Abbreviation S := (M sh).

(** File system code run inside the shell. *)
Definition lift {A} (m : M (st D) A) : S A :=
  fun s => do '(a, f) <- m (fs s); Ok (a, Sh f (hist s) (line s) (keys s)).

Definition say (t : list Z) : S unit := lift (puts t).
Definition sayln (t : string) : S unit := say (text t ++ [10]).
Definition identify_ : S (option (list Z * Z)) :=
  fun s => let '(r, d) := identify (disk (fs s)) in
           Ok (r, Sh (St d (vol (fs s)) (out (fs s))) (hist s) (line s) (keys s)).
Definition reset_ : S unit :=
  fun s => Ok (tt, Sh (St (reset (disk (fs s))) (vol (fs s)) (out (fs s))) (hist s) (line s) (keys s)).
Definition clear_screen : S unit :=
  fun s => Ok (tt, Sh (St (disk (fs s)) (vol (fs s)) []) (hist s) (line s) (keys s)).
Definition set_line (b : list Z) : S unit := fun s => Ok (tt, Sh (fs s) (hist s) b (keys s)).
Definition get_hist : S history_t := fun s => Ok (hist s, s).

(** The keys up to and including the next Enter; without one the machine waits. *)
Fixpoint split_enter (ks : list Z) : option (list Z * list Z) :=
  match ks with
  | [] => None
  | c :: ks => if c =? 10 then Some ([c], ks)
               else match split_enter ks with Some (a, b) => Some (c :: a, b) | None => None end
  end.

(** [readline(b, sizeof b)]: the buffer afterwards. *)
Definition readline_ (b : list Z) : S (list Z) :=
  fun s => match split_enter (keys s) with
           | None => OutOfFuel
           | Some (ks, rest) =>
             do '(b, h, t) <- readline (hist s) b (length b) ks;
             Ok (b, Sh (St (disk (fs s)) (vol (fs s)) (out (fs s) ++ t)) h (line s) rest)
           end.

(** Asking for a word before a dangerous command; [stale] is what the answer
    buffer happens to hold. *)
Definition confirm (stale : list Z) (word : string) : S bool :=
  let! b := readline_ stale in ret (streq_ci (cstring b) (text word)).

Fixpoint fill_sectors (n : nat) (lba : Z) (block : list Z) : S bool :=
  match n with
  | O => ret true
  | Datatypes.S n =>
    let! ok := lift (disk_write_ lba block) in
    if negb ok then ret false else fill_sectors n (u32 (lba + 1)) block
  end.

(** [args] is the command line after "erase ". *)
Definition erase_sectors (answer : list Z) (args : list Z) : S bool :=
  let '(ts, cuts) := tokenize 9 6 args in
  (fun s => Ok (tt, Sh (fs s) (hist s) (foldr (fun i b => <[i := 0]> b) (line s) cuts) (keys s))) ;;
  match erase_options 9 ts erase_args0 with
  | inl (Some msg) => say msg ;; ret false
  | inl None => ret false
  | inr a =>
    if negb (a_have_lba a) || (a_sectors a =? 0) || (negb (a_replace a) && z2b (a_kind a))
       || (a_replace a && negb (z2b (a_kind a)))
    then say erase_usage ;; ret false else
    let! id := identify_ in
    let capacity := match id with Some (_, c) => c | None => 0 end in
    if negb (is_some id) || (capacity <=? a_lba a) || (u32 (capacity - a_lba a) <? a_sectors a)
    then sayln "  erase: range is outside the primary ATA disk." ;; ret false else
    let! go := (if a_no_confirm a then ret true else
      say (text "  WARNING: this permanently overwrites disk sectors." ++ [10] ++ text "  Type erase to continue: ") ;;
      confirm answer "erase") in
    if negb go then sayln "  erase: cancelled." ;; ret false else
    let! ok := fill_sectors (Z.to_nat (a_sectors a)) (a_lba a) (erase_block a) in
    if negb ok then sayln "  erase: ATA write failed." ;; ret false else
    let! ok := lift disk_flush_ in
    if negb ok then sayln "  erase: ATA flush failed." ;; ret false else
    lift (set_vol (with_mounted false)) ;;
    sayln "  erase: overwrite complete; sectors synchronized." ;; ret true
  end.

Definition phex (v : Z) : list Z := [nth (Z.to_nat (Z.shiftr v 4)) phex_digits 0; nth (Z.to_nat (Z.land v 15)) phex_digits 0].

Definition show_partitions : S unit :=
  let! r := lift (disk_read_ 0) in
  match r with
  | None => sayln "  partitions: cannot read MBR."
  | Some b =>
    sayln "  IDX TYPE START-LBA SECTORS" ;;
    say (concat (map (fun i =>
      let e := drop (446 + i * 16) b in
      if byte_at e 4 =? 0 then [] else
      text "  " ++ decimal (Z.of_nat i + 1) ++ text "   0x" ++ phex (byte_at e 4) ++ [32]
      ++ decimal (r32 e 8) ++ [32] ++ decimal (r32 e 12) ++ [10]) (seq 0 4)))
  end.

Definition show_pstore : S unit :=
  let! r := lift (disk_read_ 2039) in
  match r with
  | None => sayln "  pstore: read failed."
  | Some b =>
    if negb (r32 b 0 =? 0x52545350) then sayln "  pstore: no persistent panic record." else
    let n := r32 b 4 in
    if 496 <? n then sayln "  pstore: invalid record length." else
    say (text "  Persistent panic record:" ++ [10] ++ text "  " ++ take (Z.to_nat n) (drop 16 b)
         ++ (if (n =? 0) || negb (byte_at b (15 + Z.to_nat n) =? 10) then [10] else []))
  end.

(** ** Commands of the loop *)

Definition size_or_missing (p : payload) : list Z :=
  match ptr p with Some _ => decimal (psize p) ++ text " bytes" ++ [10] | None => text "missing" ++ [10] end.
Definition loaded_or_missing (p : payload) : list Z :=
  match ptr p with Some _ => text "loaded" ++ [10] | None => text "missing" ++ [10] end.

Definition help_text : list Z := concat (map (fun s => text s ++ [10])
  [""; "  Commands:";
   "    boot                 Restart the system"; "    reboot               Alias for boot";
   "    halt                 Stop the processor";
   "    install [-no]        Install a complete bootable OS64 system";
   "    recover              Install OS64 kernel+initrd to disk";
   "    recover-with-bl      Install kernel+initrd+bootloader";
   "    bootmode [mode]      Read/set boot mode (e.g. minios)";
   "    status               Show rescue and disk status";
   "    uname | version      Show Mini64 release information";
   "    meminfo              Show Multiboot usable memory";
   "    modules              Show recovery payload modules";
   "    diskinfo             Identify the primary ATA disk";
   "    chkfs                Validate FAT32 metadata";
   "    mount | umount       Mount/unmount the FAT32 volume";
   "    sync                 Flush pending ATA writes";
   "    ls                   List files on the FAT32 partition";
   "    hexdump LBA          Dump the first 128 bytes of a sector";
   "    partitions           Show the MBR partition table";
   "    pstore               Show the persistent panic record";
   "    verify LBA BYTE      Verify a sector is filled with hex BYTE";
   "    erase LBA [COUNT]    Zero sectors after confirmation";
   "    erase -r ...         Replace using -h BYTE or -s STRING";
   "    format               Create a new FAT32 partition";
   "    history              Show command history"; "    echo TEXT            Print text";
   "    clear                Clear the display"; "    help                 Show this help"; ""]%string).

Definition get_mounted : S bool := lift (let! v := get_vol in ret (fat_mounted v)).

(** [if (!fat_mounted && !fat_init())] *)
Definition mounted_or_init : S bool :=
  let! m := get_mounted in if m then ret true else lift fat_init.

Definition recover_with (ps : payloads) (bl cfg m : payload) : S bool :=
  match ptr (p_kernel ps) with
  | Some k => lift (do_recover k (psize (p_kernel ps)) (p_initrd ps) bl cfg m)
  | None => ret false
  end.

Definition cmd_install (answer : list Z) (ps : payloads) (no_confirm : bool) : S unit :=
  if negb (is_some (ptr (p_kernel ps)) && is_some (ptr (p_initrd ps)) && is_some (ptr (p_boot ps))
           && is_some (ptr (p_cfg ps)) && is_some (ptr (p_mini ps)))
  then sayln "  install: required kernel, initrd, Mini64, policy, or bootloader payload is missing." else
  let! have := mounted_or_init in
  let! go := (if have || no_confirm then ret true else
    say (text "  WARNING: installation will repartition and format the primary disk." ++ [10]
         ++ text "  Type install to continue: ") ;;
    confirm answer "install") in
  if negb go then sayln "  install: cancelled." else
  sayln "  Installing OS64 to the primary ATA disk..." ;;
  let! ok := recover_with ps (p_boot ps) (p_cfg ps) (p_mini ps) in
  if ok then sayln "  Installation complete." else sayln "  install: installation failed.".

Definition no_kernel_text : list Z := text "  No kernel.bin module available." ++ [10].

Definition cmd_recover (ps : payloads) : S unit :=
  match ptr (p_kernel ps) with
  | None => say no_kernel_text ;; sayln "  GRUB must pass kernel.bin and initrd.tar as modules:" ;;
            sayln "    multiboot2 /boot/mini64/mini64.bin" ;; sayln "    module2 /boot/kernel.bin kernel" ;;
            sayln "    module2 /boot/initrd.tar initrd"
  | Some _ => recover_with ps no_payload no_payload no_payload ;; ret tt
  end.

Definition cmd_recover_with_bl (ps : payloads) : S unit :=
  match ptr (p_kernel ps), ptr (p_boot ps) with
  | None, _ => say no_kernel_text ;; sayln "  GRUB must pass kernel.bin, initrd.tar, and bootloader:" ;;
            sayln "    multiboot2 /boot/mini64/mini64.bin" ;; sayln "    module2 /boot/kernel.bin kernel" ;;
            sayln "    module2 /boot/initrd.tar initrd" ;; sayln "    module2 /boot/os64-boot.img bootloader"
  | Some _, None => sayln "  No bootloader module available (recovering without it)." ;;
            recover_with ps no_payload no_payload no_payload ;; ret tt
  | Some _, Some _ => recover_with ps (p_boot ps) (p_cfg ps) (p_mini ps) ;; ret tt
  end.

Definition cmd_status (ps : payloads) : S unit :=
  say ([10] ++ text "  Rescue environment : ready" ++ [10]) ;;
  say (text "  kernel.bin module  : " ++ loaded_or_missing (p_kernel ps)) ;;
  say (text "  initrd.tar module  : " ++ loaded_or_missing (p_initrd ps)) ;;
  say (text "  bootloader module  : " ++ loaded_or_missing (p_boot ps)) ;;
  say (text "  boot policy module : " ++ loaded_or_missing (p_cfg ps)) ;;
  say (text "  Mini64 module      : " ++ loaded_or_missing (p_mini ps)) ;;
  say (text "  FAT32 volume       : ") ;;
  let! m := mounted_or_init in
  (if m then sayln "mounted" else sayln "not found") ;; say [10].

Definition cmd_modules (ps : payloads) : S unit :=
  say (text "  kernel.bin   " ++ size_or_missing (p_kernel ps)) ;;
  say (text "  initrd.tar   " ++ size_or_missing (p_initrd ps)) ;;
  say (text "  bootloader   " ++ size_or_missing (p_boot ps)) ;;
  say (text "  boot policy  " ++ size_or_missing (p_cfg ps)) ;;
  say (text "  Mini64 image " ++ size_or_missing (p_mini ps)).

Definition cmd_diskinfo : S unit :=
  let! r := identify_ in
  match r with
  | Some (model, sectors) =>
    say (text "  Model: " ++ model ++ [10] ++ text "  Capacity: " ++ decimal (sectors / 2048)
         ++ text " MiB (512-byte sectors)" ++ [10])
  | None => sayln "  No primary ATA disk detected."
  end.

Definition cmd_umount : S unit :=
  let! m := get_mounted in
  if negb m then sayln "  umount: volume is not mounted." else
  let! ok := lift disk_flush_ in
  if negb ok then sayln "  umount: disk flush failed." else
  lift (set_vol (with_mounted false)) ;; sayln "  FAT32 recovery volume unmounted.".

Definition cmd_hexdump (arg : list Z) : S unit :=
  match parse_u32 arg with
  | None => sayln "  Usage: hexdump LBA"
  | Some lba =>
    let! r := lift (disk_read_ lba) in
    match r with
    | None => sayln "  hexdump: sector read failed."
    | Some b =>
      say (concat (map (fun k => let i := (k * 16)%nat in
        phex (u8 (Z.of_nat i / 256)) ++ phex (u8 (Z.of_nat i)) ++ text ": "
        ++ concat (map (fun j => phex (byte_at b (i + j)) ++ [32]) (seq 0 16)) ++ [10]) (seq 0 8)))
    end
  end.

(** [arg] is the line after "verify "; the first space in it becomes NUL. *)
Definition cmd_verify (arg : list Z) : S unit :=
  let '(lba_text, r) := word arg in
  match r with
  | [] => sayln "  Usage: verify LBA BYTE"
  | _ :: r =>
    (fun s => Ok (tt, Sh (fs s) (hist s) (<[(7 + length lba_text)%nat := 0]> (line s)) (keys s))) ;;
    match parse_u32 lba_text, parse_byte (drop_spaces r) with
    | Some lba, Some expected =>
      let! r := lift (disk_read_ lba) in
      match r with
      | None => sayln "  verify: sector read failed."
      | Some b => if forallb (fun x => x =? expected) b then sayln "  verify: sector matches."
                  else sayln "  verify: sector differs."
      end
    | _, _ => sayln "  Usage: verify LBA BYTE"
    end
  end.

Definition cmd_history : S unit :=
  let! h := get_hist in
  say (concat (map (fun k => text "  " ++ decimal (Z.of_nat k + 1) ++ text "  "
    ++ cstring (nth (hist_count h - 1 - k) (history h) []) ++ [10]) (seq 0 (hist_count h)))).

Definition mode_flag (arg : list Z) : option (list Z) :=
  if streq arg (text "desktop") then Some (text "MODEDESK.FLG")
  else if streq arg (text "cli") then Some (text "MODECLI.FLG")
  else if streq arg (text "debug") then Some (text "MODEDBG.FLG")
  else if streq arg (text "recovery") then Some (text "MODERECV.FLG") else None.

Definition of_list (l : list Z) : Z -> Z := fun i => nth (Z.to_nat i) l 0.

(** [stale] is what the mode buffer happens to hold. *)
Definition cmd_bootmode (stale : list Z) (arg : list Z) : S unit :=
  let! ok := mounted_or_init in
  if negb ok then sayln "  No FAT32 partition." else
  match arg with
  | [] =>
    let! r := lift (read_bootmode stale) in
    match r with
    | Some (c :: mode) => say (text "  Boot mode: " ++ (c :: mode) ++ [10])
    | _ => sayln "  Boot mode: normal (default)"
    end
  | _ =>
    if negb (named arg ["normal"; "desktop"; "cli"; "debug"; "recovery"]%string)
    then sayln "  Invalid mode. Use normal, desktop, cli, debug, or recovery." else
    let tmp := bootmode_prefix ++ arg ++ [10] in
    lift (disk_store_large (text "BOOTMODE.CFG") (of_list tmp) (Z.of_nat (length tmp))) ;;
    lift (delete_root_file (text "MODEDESK.FLG")) ;;
    lift (delete_root_file (text "MODECLI.FLG")) ;;
    lift (delete_root_file (text "MODEDBG.FLG")) ;;
    lift (delete_root_file (text "MODERECV.FLG")) ;;
    match mode_flag arg with
    | Some flag => lift (disk_store_large flag (of_list (<[0%nat := 49]> tmp)) 1) ;; ret tt
    | None => ret tt
    end ;;
    say (text "  Boot mode set to: " ++ arg ++ [10])
  end.

(** What the loop needs of its surroundings: the payloads, the memory size and
    the contents of its uninitialised local buffers. *)
Record world := World { w_payloads : payloads; w_kib : Z; w_answer8 : list Z; w_answer12 : list Z; w_mode64 : list Z }.

(** Skips the spaces after "bootmode". *)
Definition bootmode_arg (l : list Z) : list Z := drop_spaces (drop 8 l).

(** One command line; [Some] when the machine stops. *)
Definition dispatch (w : world) (l : list Z) : S (option stop) :=
  let go (m : S unit) : S (option stop) := m ;; ret None in
  if streq l (text "help") then go (say help_text)
  else if streq l (text "boot") || streq l (text "reboot") then
    sayln "  Rebooting..." ;; reset_ ;; ret (Some Reboot)
  else if streq l (text "halt") then sayln "  System halted." ;; ret (Some Halt)
  else if streq l (text "install") || streq l (text "install -no") then
    go (cmd_install (w_answer12 w) (w_payloads w) (streq l (text "install -no")))
  else if streq l (text "recover") then go (cmd_recover (w_payloads w))
  else if streq l (text "recover-with-bl") then go (cmd_recover_with_bl (w_payloads w))
  else if streq l (text "ls") then
    go (let! m := mounted_or_init in if negb m then sayln "  No FAT32 partition." else lift list_dir)
  else if streq l (text "uname") || streq l (text "version") then
    go (sayln "  Mini64 1.0 i386 - OS64 recovery environment")
  else if streq l (text "meminfo") then
    go (say (text "  Usable memory: " ++ decimal (w_kib w) ++ text " KiB (Multiboot memory map)" ++ [10]))
  else if streq l (text "modules") then go (cmd_modules (w_payloads w))
  else if streq l (text "diskinfo") then go cmd_diskinfo
  else if streq l (text "status") then go (cmd_status (w_payloads w))
  else if streq l (text "chkfs") then
    go (say (text "  Checking partition table, FAT32 BPB, FSInfo, and root chain... ") ;;
        let! ok := lift fat_check in if ok then sayln "OK" else sayln "FAILED")
  else if streq l (text "mount") then
    go (let! ok := lift fat_init in
        if ok then sayln "  /dev/hda1 mounted as FAT32 recovery volume." else sayln "  mount: FAT32 volume not found.")
  else if streq l (text "umount") then go cmd_umount
  else if streq l (text "sync") then
    go (let! ok := lift disk_flush_ in
        if ok then sayln "  Disk writes synchronized." else sayln "  sync: ATA flush failed.")
  else if startswith l (text "hexdump ") then go (cmd_hexdump (drop 8 l))
  else if streq l (text "hexdump") then go (sayln "  Usage: hexdump LBA")
  else if streq l (text "partitions") || streq l (text "fdisk -l") then go show_partitions
  else if streq l (text "pstore") then go show_pstore
  else if startswith l (text "verify ") then go (cmd_verify (drop 7 l))
  else if streq l (text "verify") then go (sayln "  Usage: verify LBA BYTE")
  else if startswith l (text "erase ") then go (erase_sectors (w_answer8 w) (drop 6 l) ;; ret tt)
  else if streq l (text "erase") then go (say erase_usage)
  else if streq l (text "history") then go cmd_history
  else if streq l (text "echo") then go (say [10])
  else if startswith l (text "echo ") then go (say (drop 5 l ++ [10]))
  else if streq l (text "format") then
    go (sayln "  Creating FAT32 partition..." ;;
        let! ok := lift fat_format in if ok then sayln "  Format complete." else sayln "  Format failed.")
  else if streq l (text "clear") then go clear_screen
  else if streq l (text "bootmode") || startswith l (text "bootmode ") then
    go (cmd_bootmode (w_mode64 w) (bootmode_arg l))
  else match l with [] => ret None | _ => go (sayln "  Unknown. Type 'help'.") end.

(** One turn of the loop. *)
Definition turn (w : world) : S (option stop) :=
  say (text "  Mini64> ") ;;
  let! b := (fun s => readline_ (line s) s) in
  set_line b ;;
  dispatch w (cstring b).

(** The loop, for at most [fuel] command lines. *)
Fixpoint shell (fuel : nat) (w : world) : S stop :=
  match fuel with
  | O => out_of_fuel
  | Datatypes.S fuel => let! r := turn w in match r with Some x => ret x | None => shell fuel w end
  end.

Definition module_line (title : string) (p : payload) : list Z :=
  match ptr p with Some _ => text title ++ decimal (psize p) ++ text " bytes" ++ [10] | None => [] end.

Definition banner (ps : payloads) : list Z :=
  [10] ++ text "  ============================" ++ [10] ++ text "   Mini64 - OS64 Rescue System" ++ [10]
  ++ text "  ============================" ++ [10] ++ [10]
  ++ module_line "  kernel.bin module: " (p_kernel ps) ++ module_line "  initrd.tar module: " (p_initrd ps)
  ++ module_line "  bootloader module: " (p_boot ps) ++ module_line "  boot policy module: " (p_cfg ps)
  ++ module_line "  Mini64 install module: " (p_mini ps) ++ [10].

(** What is printed and done before the first prompt. *)
Definition start (ps : payloads) : S unit :=
  say (banner ps) ;;
  let! ok := lift fat_init in
  (if ok then
     sayln "  FAT32 partition detected." ;;
     let! c := lift clear_panic_flag in
     if c then sayln "  Panic boot flag consumed; the next boot will be normal." else ret tt
   else sayln "  No FAT32 partition found (format on recover).") ;;
  sayln "  Type 'help' for commands." ;; say [10].

(** The payloads and the memory size from the boot information, then the loop.
    (The framebuffer set up by fb_init is the console's, Mini64Boot.v.) *)
Definition kernel_main (fuel lines : nat) (m : memory) (mb_info : Z) (answer8 answer12 mode64 : list Z) : S stop :=
  fun s =>
    do mods <- parse_modules fuel m mb_info 6;
    do usable_kib <- memory_kib fuel m mb_info;
    let ps := fold_left (take_module m) mods (Payloads no_payload no_payload no_payload no_payload no_payload) in
    (start ps ;; shell lines (World ps usable_kib answer8 answer12 mode64)) s.

End shell.
