(* ===== verification/Mini64ShellTheorems.v ===== *)
(** * The erase command of the rescue system *)

From stdpp Require Import base numbers list strings.
From Stdlib Require Import ZArith Lia.
From S2P Require Import Prelude Multiboot Ports Mini64Ata Effects Font Mini64Console Mini64Boot Mini64Fat.
From S2P Require Import Mini64FatProof Mini64FatTheorems Mini64Line Mini64Shell.

(** The disk laws, and that identifying the drive does not disturb it. *)
Class RescueLaws (D : Type) `{Rescue D} := {
  rescue_laws :: DiskLaws D;
  identify_law d : good d -> exists r d', identify d = (Some r, d') /\ view d' = view d /\ good d'
}.

#[export] Instance ata_rescue_laws : RescueLaws (ata drive).
Proof.
  refine {| rescue_laws := ata_disk_laws |}. intros d Hd.
  destruct (disk_identify_ok d Hd) as (r&d'&?&?&?). by exists r, d'.
Defined.

Section erase.

Context {D : Type} `{RescueLaws D}.

Lemma seq_u8 (a : erase_args) : is_u8 (a_byte a) -> sector_ok (erase_block a).
Proof.
  intros Hb. unfold erase_block. split; [by rewrite length_map, length_seq|].
  apply Forall_forall. intros x Hx. apply list_elem_of_fmap in Hx as (i&->&_).
  destruct (a_kind a =? 1); [done|]. destruct (a_kind a =? 2); [apply u8_is_u8|unfold is_u8; lia].
Qed.

(** The sectors after the fill. *)
Definition filled (lba n : Z) (b : list Z) (w : Z -> list Z) (l : Z) : list Z :=
  if (lba <=? l) && (l <? lba + n) then b else w l.

Lemma fill_runs n lba b v w s :
  at_ v w (fs s) -> sector_ok b -> 0 <= lba -> lba + Z.of_nat n <= 2 ^ 28 ->
  exists s', fill_sectors n lba b s = Ok (true, s') /\ line s' = line s /\ keys s' = keys s /\ hist s' = hist s /\
    exists w', at_ v w' (fs s') /\ forall l, w' l = filled lba (Z.of_nat n) b w l.
Proof.
  revert lba w s. induction n as [|n IH]; intros lba w s Hat Hb Hl Hn; cbn [fill_sectors].
  { exists s. split_and!; [done..|]. exists w. split; [done|]. intros l. unfold filled.
    destruct (Z.leb_spec lba l), (Z.ltb_spec l (lba + Z.of_nat 0)); cbn [andb]; try done. lia. }
  destruct (runs_write lba b v w) with (s := fs s) as (f1&E1&Hat1); [lia|done|done|].
  unfold bind, lift at 1. rewrite E1. cbn [obind negb]. rewrite u32_small by lia.
  destruct (IH (lba + 1) (set_sector lba b w) (Sh f1 (hist s) (line s) (keys s))) as (s'&->&?&?&?&w'&Hat'&Hw');
    [done|done|lia|lia|].
  exists s'. split_and!; try done. exists w'. split; [done|]. intros l. rewrite Hw'. unfold filled, set_sector.
  destruct (Z.leb_spec (lba + 1) l), (Z.ltb_spec l (lba + 1 + Z.of_nat n)), (Z.leb_spec lba l),
    (Z.ltb_spec l (lba + Z.of_nat (S n))), (Z.eqb_spec l lba); cbn [andb]; try done; lia.
Qed.

(** The arguments are complete and consistent. *)
Definition args_ok (a : erase_args) : bool :=
  a_have_lba a && negb (a_sectors a =? 0) && (a_replace a || negb (z2b (a_kind a)))
  && (negb (a_replace a) || z2b (a_kind a)).

Definition in_disk (a : erase_args) (capacity : Z) : bool :=
  (a_lba a <? capacity) && (a_sectors a <=? capacity - a_lba a).

(** Parsed numbers are 32-bit, parsed bytes are bytes. *)
Record args_wf (a : erase_args) : Prop := {
  wf_lba : is_u32 (a_lba a); wf_sectors : is_u32 (a_sectors a); wf_byte : is_u8 (a_byte a)
}.

Lemma parse_digits_u32 n s : is_u32 n -> is_u32 (fst (parse_digits n s)).
Proof.
  revert n. induction s as [|c s IH]; intros n Hn; [done|]. cbn [parse_digits].
  destruct (_ && _); [|done]. apply IH. apply Z.mod_pos_bound. lia.
Qed.

Lemma parse_u32_wf t n : parse_u32 t = Some n -> is_u32 n.
Proof.
  unfold parse_u32. pose proof (parse_digits_u32 0 t ltac:(unfold is_u32; lia)) as Hp.
  destruct (parse_digits 0 t) as [m rest]. destruct (_ && _); [|done]. intros [= <-]. done.
Qed.

Lemma parse_byte_wf t b : parse_byte t = Some b -> is_u8 b.
Proof. unfold parse_byte. destruct (_ || _); [done|]. intros [= <-]. apply u8_is_u8. Qed.

Lemma erase_options_wf fuel ts a r : args_wf a -> erase_options fuel ts a = inr r -> args_wf r.
Proof.
  revert ts a. induction fuel as [|fuel IH]; intros ts a Ha; cbn [erase_options]; [by intros [= <-]|].
  destruct ts as [|t ts]; [by intros [= <-]|].
  destruct (streq t (text "-r")); [by apply IH; destruct Ha|].
  destruct (streq t (text "-no")); [by apply IH; destruct Ha|].
  destruct (streq t (text "-h") && _).
  { destruct ts as [|v ts]; [by intros [= <-]|]. destruct (parse_byte v) as [b|] eqn:Hb; [|done].
    destruct (z2b (a_kind a)); [done|]. apply IH. destruct Ha. constructor; [done..|]. by eapply parse_byte_wf. }
  destruct (streq t (text "-s") && _).
  { destruct (z2b (a_kind a)); [done|]. destruct ts as [|v ts]; [by intros [= <-]|].
    destruct (bool_decide (v = [])); [done|]. by apply IH; destruct Ha. }
  destruct (char_at t 0 =? 45); [done|].
  destruct (negb (a_have_lba a)).
  { destruct (parse_u32 t) as [n|] eqn:Hn; [|done]. apply IH. destruct Ha. constructor; [|done..].
    by eapply parse_u32_wf. }
  destruct (negb (a_have_count a)); [|done]. destruct (parse_u32 t) as [n|] eqn:Hn; [|done].
  apply IH. destruct Ha. constructor; [done| |done]. by eapply parse_u32_wf.
Qed.

Lemma args_ok_guard a :
  negb (a_have_lba a) || (a_sectors a =? 0) || (negb (a_replace a) && z2b (a_kind a))
    || (a_replace a && negb (z2b (a_kind a))) = negb (args_ok a).
Proof. unfold args_ok. by destruct (a_have_lba a), (a_sectors a =? 0), (a_replace a), (z2b (a_kind a)). Qed.

Lemma in_disk_guard a c :
  args_wf a -> is_u32 c -> (c <=? a_lba a) || (u32 (c - a_lba a) <? a_sectors a) = negb (in_disk a c).
Proof.
  intros [Hl Hs _] Hc. unfold in_disk, is_u32 in *. rewrite negb_andb, <- Z.leb_antisym.
  destruct (Z.leb_spec c (a_lba a)); [done|]. cbn [orb]. rewrite u32_small by lia. apply Z.ltb_antisym.
Qed.

(** What the command line asks for. *)
Definition erase_request (args : list Z) : option erase_args :=
  match erase_options 9 (fst (tokenize 9 6 args)) erase_args0 with
  | inr a => if args_ok a then Some a else None
  | inl _ => None
  end.

(** The command refused: nothing on the disk or in the volume changed. *)
Definition refused (answer args : list Z) (s : sh) (v : volume) (w : Z -> list Z) : Prop :=
  exists s', erase_sectors answer args s = Ok (false, s') /\ at_ v w (fs s').

(** erase writes exactly the sectors it was asked to.  On a well behaved
    disk whose capacity is [cap] sectors: a command line with unparsable,
    missing or contradictory arguments, or a range that does not lie inside
    the disk, is refused with every sector and the mounted volume unchanged;
    with a well formed request and -no, the sectors [lba, lba + count) all
    become the block the pattern describes (zeros, the byte of -h, the
    repeated string of -s), every other sector keeps its contents, the cache
    is flushed, and the volume is no longer considered mounted. *)
Theorem erase_exact (answer args : list Z) (s : sh) v w model cap d' :
  at_ v w (fs s) -> identify (disk (fs s)) = (Some (model, cap), d') -> 0 <= cap <= 2 ^ 28 ->
  match erase_request args with
  | None => refused answer args s v w
  | Some a =>
    if in_disk a cap then
      a_no_confirm a = true ->
      exists s', erase_sectors answer args s = Ok (true, s') /\
        exists w', at_ (with_mounted false v) w' (fs s') /\
          forall l, w' l = filled (a_lba a) (a_sectors a) (erase_block a) w l
    else refused answer args s v w
  end.
Proof.
  intros Hat Hid Hcap. unfold erase_request, refused, erase_sectors.
  destruct (tokenize 9 6 args) as [ts cuts]. cbn [fst].
  set (s0 := Sh (fs s) (hist s) (foldr (fun i b => <[i := 0]> b) (line s) cuts) (keys s)).
  destruct (erase_options 9 ts erase_args0) as [[msg|]|a] eqn:Ho.
  { eexists. split; [reflexivity|]. exact Hat. }
  { eexists. split; [reflexivity|]. exact Hat. }
  match goal with |- context [bind ?m ?k s] => rewrite (bind_ok m k s s0 tt eq_refl) end. rewrite args_ok_guard.
  destruct (args_ok a) eqn:Hok; cbn [negb].
  2:{ eexists. split; [reflexivity|]. exact Hat. }
  assert (Hwf : args_wf a).
  { eapply erase_options_wf; [|exact Ho]. by constructor. }
  destruct (identify_law (disk (fs s)) (proj1 Hat)) as (r&d1&Hid'&Hv&Hg). rewrite Hid in Hid'. injection Hid' as <- <-.
  assert (E : identify_ s0 = Ok (Some (model, cap), Sh (St d' (vol (fs s)) (out (fs s))) (hist s0) (line s0) (keys s0))).
  { unfold identify_. change (fs s0) with (fs s). by rewrite Hid. }
  rewrite (bind_ok _ _ _ _ _ E). cbn [is_some negb orb]. rewrite in_disk_guard by (done || (unfold is_u32; lia)).
  set (s1 := Sh (St d' (vol (fs s)) (out (fs s))) _ _ _).
  assert (Hat1 : at_ v w (fs s1)) by (destruct Hat as (?&<-&<-); split_and!; done).
  destruct (in_disk a cap) eqn:Hin; cbn [negb].
  2:{ eexists. split; [reflexivity|]. exact Hat1. }
  intros Hno. rewrite Hno. rewrite (bind_ok _ _ _ _ _ (eq_refl : ret true s1 = Ok (true, s1))). cbn [negb].
  unfold in_disk in Hin. apply andb_prop in Hin as [H1%Z.ltb_lt H2%Z.leb_le]. destruct Hwf as [Hl Hs Hb].
  unfold is_u32 in *.
  destruct (fill_runs (Z.to_nat (a_sectors a)) (a_lba a) (erase_block a) v w s1) as (s2&E2&_&_&_&w'&Hat2&Hw');
    [done|by apply seq_u8|lia|lia|].
  rewrite (bind_ok _ _ _ _ _ E2). cbn [negb].
  destruct (runs_flush v w' (fs s2) Hat2) as (f3&E3&Hat3).
  unfold bind, lift at 1. rewrite E3. cbn [obind negb].
  eexists. split; [reflexivity|]. exists w'. rewrite Z2Nat.id in Hw' by lia.
  destruct Hat3 as (?&?&<-). split; [|done]. split_and!; done.
Qed.

End erase.

(** A drive of 8192 sectors. *)
Definition small_disk : ata drive :=
  Ata (Drive (fun _ => zero 512) (<[60%nat := 8192]> (replicate 256 0)) 3 0 0 0 0 0 Idle) 0.

Lemma small_disk_ok : disk_ok small_disk.
Proof.
  split; [|cbn; lia]. apply idle_intro; cbn [small_disk port ph busy latency sectors identity].
  - done.
  - apply polls_pos.
  - apply polls_enough.
  - intros l. apply zero_sector.
  - done.
Qed.

Definition small_shell : sh := Sh (St small_disk formatted []) history0 (zero 512) [].

Lemma erase_exact_witness :
  exists s', erase_sectors (zero 8) (text "-r 100 3 -h 0xAA -no") small_shell = Ok (true, s') /\
    view (disk (fs s')) 102 = replicate 512 170.
Proof.
  pose proof (erase_exact (zero 8) (text "-r 100 3 -h 0xAA -no") small_shell formatted (store small_disk)
    (fst (default ([], 0) (fst (identify small_disk)))) 8192 (snd (identify small_disk))) as T.
  destruct T as (s'&E&w'&(_&Hv&_)&Hw).
  - split; [exact small_disk_ok|split; reflexivity].
  - vm_compute. reflexivity.
  - lia.
  - vm_compute. reflexivity.
  - exists s'. split; [exact E|]. 
    transitivity (w' 102); [exact (f_equal (fun f => f 102) Hv)|]. rewrite Hw. vm_compute. reflexivity.
Defined.
