(* ===== verification/TuiScreen.v ===== *)
(** * The text user interface: screen and windows (src/user/libtui/screen.c, theme.c, tui.h)

    The two cell buffers, the drawing primitives, and the window table.  A
    pointer to a window or a widget is its index in the static array it points
    into; a store through an index outside a cell buffer is [Undefined].  C
    [int] coordinates are integers without a width: the code adds and
    subtracts screen-sized quantities only.  [children] and [app_windows] hold
    the used part of the C arrays, so child_count and window_count are their
    lengths.  Rendering, which calls the widget code, is in TuiWidgets.v. *)

From stdpp Require Import base numbers list strings.
From Stdlib Require Import ZArith Lia.
From S2P Require Import Prelude Effects.

(** ** tui.h *)

Definition TUI_MAX_WINDOWS : nat := 8.
Definition TUI_MAX_WIDGETS : nat := 64.
Definition TUI_MAX_ITEMS : nat := 64.
Definition TUI_BUTTON_OK : Z := 1.
Definition TUI_BUTTON_YES : Z := 2.
Definition TUI_BUTTON_NO : Z := 4.
Definition TUI_WINDOW_MODAL : Z := 1.
Definition TUI_WINDOW_CENTER : Z := 2.
Definition TUI_WINDOW_DOUBLE_BORDER : Z := 4.

Inductive tui_event_type :=
| TUI_EVENT_NONE | TUI_EVENT_KEY | TUI_EVENT_TIMER | TUI_EVENT_RESIZE | TUI_EVENT_COMMAND | TUI_EVENT_CLOSE.

Inductive tui_widget_type :=
| TUI_LABEL | TUI_BUTTON | TUI_TEXT_INPUT | TUI_PASSWORD_INPUT | TUI_CHECKBOX | TUI_RADIO | TUI_LISTBOX
| TUI_TEXT_VIEW | TUI_MENU_BAR | TUI_DROPDOWN | TUI_STATUS_BAR | TUI_PROGRESS | TUI_TABS | TUI_TABLE
| TUI_HSCROLL | TUI_VSCROLL.

#[export] Instance tui_event_type_eq : EqDecision tui_event_type.
Proof. solve_decision. Defined.
#[export] Instance tui_widget_type_eq : EqDecision tui_widget_type.
Proof. solve_decision. Defined.

Definition TUI_KEY_UP : Z := 0x11.
Definition TUI_KEY_DOWN : Z := 0x12.
Definition TUI_KEY_LEFT : Z := 0x13.
Definition TUI_KEY_RIGHT : Z := 0x14.
Definition TUI_KEY_F1 : Z := 0x81.
Definition TUI_KEY_F5 : Z := 0x85.
Definition TUI_KEY_F10 : Z := 0x8a.
Definition TUI_KEY_BACKTAB : Z := 0x8f.
Definition TUI_KEY_HOME : Z := 0x91.
Definition TUI_KEY_END : Z := 0x92.
Definition TUI_KEY_PAGEUP : Z := 0x93.
Definition TUI_KEY_PAGEDOWN : Z := 0x94.
Definition TUI_KEY_INSERT : Z := 0x95.
Definition TUI_KEY_DELETE : Z := 0x96.

Record tui_theme := Theme {
  desktop_fg : Z; desktop_bg : Z; window_fg : Z; window_bg : Z; title_fg : Z; title_bg : Z;
  selected_fg : Z; selected_bg : Z; disabled_fg : Z; disabled_bg : Z; status_fg : Z; status_bg : Z;
  error_fg : Z; error_bg : Z; border_fg : Z; border_bg : Z; highlight_fg : Z; highlight_bg : Z;
  success_fg : Z; success_bg : Z; warning_fg : Z; warning_bg : Z
}.

Definition tui_theme_dos : tui_theme := Theme 15 1 15 1 15 1 0 7 8 1 0 7 15 4 15 1 0 7 10 1 14 4.
Definition tui_theme_installer : tui_theme := Theme 15 1 15 1 15 9 15 9 8 1 7 4 15 4 15 1 0 7 10 1 14 1.

Record tui_cell := Cell { character : Z; foreground : Z; background : Z; attributes : Z }.
#[export] Instance tui_cell_eq : EqDecision tui_cell.
Proof. solve_decision. Defined.

Record tui_event := Event { e_type : tui_event_type; e_key : Z; e_modifiers : Z; e_timestamp : Z }.

(** [activate] names a callback of the application. *)
Record tui_widget := Widget {
  w_type : tui_widget_type; w_x : Z; w_y : Z; w_width : Z; w_height : Z;
  w_visible : bool; w_enabled : bool; w_focused : bool; w_checked : bool;
  w_value : Z; w_maximum : Z; w_scroll : Z; w_cursor : Z; w_insert : bool;
  w_text : list Z; w_items : list (option (list Z)); w_item_count : Z; w_selected : Z;
  w_parent : option nat; w_activate : option nat; w_custom_fg : Z; w_custom_bg : Z
}.

Record tui_window := Window {
  x : Z; y : Z; width : Z; height : Z; title : list Z; flags : Z;
  visible : bool; focused : bool; double_border : bool; children : list nat; focus_index : nat
}.

Record tui_application := Application { name : list Z; running : bool; redraw : bool; app_windows : list nat }.

(** ** The display: screen, buffers, theme *)

Definition SCREEN_STRIDE : Z := 216.
Definition SCREEN_ROWS : Z := 64.
Definition CELLS : nat := Z.to_nat (SCREEN_STRIDE * SCREEN_ROWS).

Record display := Display {
  scr_width : Z; scr_height : Z; front : list tui_cell; back : list tui_cell;
  theme : tui_theme; ascii_mode : bool; dirty : bool
}.

Definition with_back (b : list tui_cell) (d : display) : display :=
  Display (scr_width d) (scr_height d) (front d) b (theme d) (ascii_mode d) (dirty d).
Definition with_front (f : list tui_cell) (d : display) : display :=
  Display (scr_width d) (scr_height d) f (back d) (theme d) (ascii_mode d) (dirty d).
Definition with_dirty (b : bool) (d : display) : display :=
  Display (scr_width d) (scr_height d) (front d) (back d) (theme d) (ascii_mode d) b.
Definition with_theme (t : tui_theme) (d : display) : display :=
  Display (scr_width d) (scr_height d) (front d) (back d) t (ascii_mode d) (dirty d).
Definition with_ascii (b : bool) (d : display) : display :=
  Display (scr_width d) (scr_height d) (front d) (back d) (theme d) b (dirty d).

(** [for (int i = 0; i < n; i++)] *)
Definition upto (n : Z) : list Z := map Z.of_nat (seq 0 (Z.to_nat n)).

(** The attribute byte of a cell. *)
Definition attr (c : tui_cell) : Z := u8 (Z.lor (Z.shiftl (background c) 4) (Z.land (foreground c) 15)).

(** [copy_text(d, s, cap)] over a buffer of [cap] bytes. *)
Definition copy_text (d : list Z) (s : option (list Z)) : list Z :=
  let t := take (length d - 1) (default [] s) in t ++ [0] ++ drop (length t + 1) d.

Definition text_len (buf : list Z) : Z := Z.of_nat (length (cstring buf)).

(** ** Drawing *)

Definition on_screen (px py : Z) (d : display) : bool :=
  (0 <=? px) && (0 <=? py) && (px <? scr_width d) && (py <? scr_height d).

(** A store through a pointer into [back]. *)
Definition put_cell (i : Z) (f : tui_cell -> tui_cell) : M display unit :=
  fun d => if i <? 0 then Undefined else
           match back d !! Z.to_nat i with
           | Some c => Ok (tt, with_back (<[Z.to_nat i := f c]> (back d)) d)
           | None => Undefined
           end.

Definition plot (px py : Z) (f : tui_cell -> tui_cell) : M display unit :=
  let! d := get in when (on_screen px py d) (put_cell (py * SCREEN_STRIDE + px) f).

Definition set_dirty : M display unit := modify (with_dirty true).

Definition tui_fill (x y w h ch fg bg : Z) : M display unit :=
  each (upto h) (fun yy => each (upto w) (fun xx => plot (x + xx) (y + yy) (fun _ => Cell ch fg bg 0))) ;;
  set_dirty.

(** The next character of a non-empty string: a two- or three-byte UTF-8
    sequence, or one byte. *)
Definition next_cp (c : Z) (s : list Z) : Z * list Z :=
  if (Z.land c 0xe0 =? 0xc0) && (Z.land (char_at s 0) 0xc0 =? 0x80) then
    (Z.lor (Z.shiftl (Z.land c 31) 6) (Z.land (char_at s 0) 63), drop 1 s)
  else if (Z.land c 0xf0 =? 0xe0) && (Z.land (char_at s 0) 0xc0 =? 0x80) && (Z.land (char_at s 1) 0xc0 =? 0x80) then
    (Z.lor (Z.lor (Z.shiftl (Z.land c 15) 12) (Z.shiftl (Z.land (char_at s 0) 63) 6)) (Z.land (char_at s 1) 63),
     drop 2 s)
  else (c, s).

Fixpoint text_loop (fuel : nat) (x y : Z) (s : list Z) (fg bg limit cells : Z) : M display unit :=
  match fuel, s with
  | S fuel, c :: s =>
    if (limit <? 0) || (cells <? limit) then
      let '(cp, s) := next_cp c s in
      plot (x + cells) y (fun c => Cell cp fg bg (attributes c)) ;;
      text_loop fuel x y s fg bg limit (cells + 1)
    else ret tt
  | _, _ => ret tt
  end.

Definition tui_text (x y : Z) (s : option (list Z)) (fg bg limit : Z) : M display unit :=
  match s with
  | None => ret tt
  | Some s => text_loop (length s) x y s fg bg limit 0 ;; set_dirty
  end.

Definition tui_box (x y w h : Z) (dbl : bool) (fg bg : Z) : M display unit :=
  let! d := get in
  let '(tl, tr, bl, br, hz, vt) :=
    if ascii_mode d then (43, 43, 43, 43, 45, 124)
    else if dbl then (0x2554, 0x2557, 0x255a, 0x255d, 0x2550, 0x2551)
    else (0x250c, 0x2510, 0x2514, 0x2518, 0x2500, 0x2502) in
  tui_fill (x + 1) (y + 1) (w - 2) (h - 2) 32 fg bg ;;
  each (upto (w - 2)) (fun i => tui_fill (x + (i + 1)) y 1 1 hz fg bg ;; tui_fill (x + (i + 1)) (y + h - 1) 1 1 hz fg bg) ;;
  each (upto (h - 2)) (fun i => tui_fill x (y + (i + 1)) 1 1 vt fg bg ;; tui_fill (x + w - 1) (y + (i + 1)) 1 1 vt fg bg) ;;
  tui_fill x y 1 1 tl fg bg ;; tui_fill (x + w - 1) y 1 1 tr fg bg ;;
  tui_fill x (y + h - 1) 1 1 bl fg bg ;; tui_fill (x + w - 1) (y + h - 1) 1 1 br fg bg.

Definition titled (w : tui_window) : bool := z2b (char_at (title w) 0).

Definition tui_window_content_x (w : tui_window) : Z := x w + 1.
Definition tui_window_content_y (w : tui_window) : Z :=
  if double_border w && titled w then y w + 3 else y w + 1.

(** The frame of a double-bordered window. *)
Definition double_frame (x y wi he fg bg : Z) : M display unit :=
  each (upto (wi - 2)) (fun i =>
    tui_fill (x + (i + 1)) y 1 1 0x2550 fg bg ;; tui_fill (x + (i + 1)) (y + he - 1) 1 1 0x2550 fg bg) ;;
  each (upto (he - 2)) (fun i =>
    tui_fill x (y + (i + 1)) 1 1 0x2551 fg bg ;; tui_fill (x + wi - 1) (y + (i + 1)) 1 1 0x2551 fg bg) ;;
  tui_fill x y 1 1 0x2554 fg bg ;; tui_fill (x + wi - 1) y 1 1 0x2557 fg bg ;;
  tui_fill x (y + he - 1) 1 1 0x255a fg bg ;; tui_fill (x + wi - 1) (y + he - 1) 1 1 0x255d fg bg.

(** Its title line and the rule below it. *)
Definition double_title (x y wi : Z) (t : list Z) (th : tui_theme) : M display unit :=
  let n := Z.of_nat (length t) in
  let tx := x + Z.quot (wi - n) 2 in
  tui_text tx (y + 1) (Some t) (title_fg th) (title_bg th) n ;;
  tui_fill x (y + 2) 1 1 0x2560 (border_fg th) (border_bg th) ;;
  each (upto (wi - 2)) (fun i => tui_fill (x + (i + 1)) (y + 2) 1 1 0x2550 (border_fg th) (border_bg th)) ;;
  tui_fill (x + wi - 1) (y + 2) 1 1 0x2563 (border_fg th) (border_bg th).

Definition single_title (x y wi : Z) (t : list Z) (th : tui_theme) : M display unit :=
  let n := Z.of_nat (length t) in
  let tx := x + Z.quot (wi - n) 2 - 1 in
  tui_text tx y (Some [32]) (title_fg th) (title_bg th) 1 ;;
  tui_text (tx + 1) y (Some t) (title_fg th) (title_bg th) (wi - 4) ;;
  tui_text (tx + n + 1) y (Some [32]) (title_fg th) (title_bg th) 1.

Definition tui_window_draw (w : tui_window) : M display unit :=
  if negb (visible w) then ret tt else
  let! d := get in
  let th := theme d in
  if double_border w then
    tui_fill (x w + 1) (y w + 1) (width w - 2) (height w - 2) 32 (window_fg th) (window_bg th) ;;
    double_frame (x w) (y w) (width w) (height w) (border_fg th) (border_bg th) ;;
    when (titled w) (double_title (x w) (y w) (width w) (cstring (title w)) th)
  else
    tui_box (x w) (y w) (width w) (height w) false (window_fg th) (window_bg th) ;;
    when (titled w) (single_title (x w) (y w) (width w) (cstring (title w)) th).
