(* ===== verification/TuiDraw.v ===== *)
(** * Drawing on the text user interface's back buffer

    Every drawing routine returns on a well formed display and changes only
    visible cells of the back buffer and the dirty flag; text is decoded from
    UTF-8 into consecutive cells. *)

From stdpp Require Import base numbers list strings.
From Stdlib Require Import ZArith Lia.
From S2P Require Import Prelude Effects TuiScreen.

Record disp_ok (d : display) : Prop := {
  ok_front : length (front d) = CELLS;
  ok_back : length (back d) = CELLS;
  ok_width : 0 <= scr_width d <= SCREEN_STRIDE;
  ok_height : 0 <= scr_height d <= SCREEN_ROWS
}.

(** The index of a cell. *)
Definition idx (px py : Z) : nat := Z.to_nat (py * SCREEN_STRIDE + px).

(** Two displays that differ in visible cells of the back buffer and in the
    dirty flag, which is only ever set. *)
Record drawn (d d' : display) : Prop := {
  drawn_width : scr_width d' = scr_width d;
  drawn_height : scr_height d' = scr_height d;
  drawn_front : front d' = front d;
  drawn_theme : theme d' = theme d;
  drawn_ascii : ascii_mode d' = ascii_mode d;
  drawn_back : length (back d') = length (back d);
  drawn_dirty : dirty d = true -> dirty d' = true;
  drawn_hidden : forall i, (forall px py, on_screen px py d = true -> i <> idx px py) -> back d' !! i = back d !! i
}.

Definition draws (m : M display unit) : Prop :=
  forall d, disp_ok d -> exists d', m d = Ok (tt, d') /\ drawn d d'.

Lemma drawn_refl d : drawn d d.
Proof. by constructor. Qed.

Lemma drawn_on_screen d d' px py : drawn d d' -> on_screen px py d' = on_screen px py d.
Proof. intros [Hw Hh _ _ _ _ _ _]. unfold on_screen. by rewrite Hw, Hh. Qed.

Lemma drawn_trans a b c : drawn a b -> drawn b c -> drawn a c.
Proof.
  intros Hab Hbc. pose proof (fun px py => drawn_on_screen a b px py Hab) as Hs. destruct Hab, Hbc.
  constructor; try congruence; [auto|].
  intros i Hi. rewrite drawn_hidden1, drawn_hidden0; [done|done|]. intros px py. rewrite Hs. apply Hi.
Qed.

Lemma drawn_ok d d' : disp_ok d -> drawn d d' -> disp_ok d'.
Proof. intros [] []. constructor; congruence. Qed.

Lemma on_screen_spec px py d :
  on_screen px py d = true <-> 0 <= px < scr_width d /\ 0 <= py < scr_height d.
Proof. unfold on_screen. rewrite !andb_true_iff, !Z.leb_le, !Z.ltb_lt. lia. Qed.

Lemma idx_bound d px py : disp_ok d -> on_screen px py d = true -> (idx px py < CELLS)%nat.
Proof.
  intros [_ _ Hw Hh] [Hx Hy]%on_screen_spec. unfold idx, CELLS, SCREEN_STRIDE, SCREEN_ROWS in *.
  apply Z2Nat.inj_lt; nia.
Qed.

Lemma idx_inj d px py px' py' :
  disp_ok d -> on_screen px py d = true -> on_screen px' py' d = true -> idx px py = idx px' py' -> px = px' /\ py = py'.
Proof.
  intros [_ _ Hw Hh] [Hx Hy]%on_screen_spec [Hx' Hy']%on_screen_spec He.
  unfold idx, SCREEN_STRIDE, SCREEN_ROWS in *. apply Z2Nat.inj in He; [|nia..]. nia.
Qed.

(** ** Composition *)

Lemma draws_ret : draws (ret tt).
Proof. intros d Hd. exists d. split; [done|apply drawn_refl]. Qed.

Lemma draws_bind m k : draws m -> draws k -> draws (m ;; k).
Proof.
  intros Hm Hk d Hd. destruct (Hm d Hd) as (d1&E1&D1). destruct (Hk d1 (drawn_ok d d1 Hd D1)) as (d2&E2&D2).
  exists d2. rewrite (bind_ok _ _ _ _ _ E1). split; [done|]. by eapply drawn_trans.
Qed.

Lemma draws_get (f : display -> M display unit) : (forall d, draws (f d)) -> draws (let! d := get in f d).
Proof. intros Hf d Hd. exact (Hf d d Hd). Qed.

Lemma draws_each {A} (l : list A) f : (forall a, draws (f a)) -> draws (each l f).
Proof. intros Hf. induction l as [|a l IH]; [apply draws_ret|]. by apply draws_bind. Qed.

Lemma draws_when b m : draws m -> draws (when b m).
Proof. destruct b; [done|]. intros _. apply draws_ret. Qed.

Lemma draws_dirty : draws set_dirty.
Proof. intros d Hd. exists (with_dirty true d). split; [done|]. by constructor. Qed.

#[export] Hint Resolve draws_ret draws_bind draws_get draws_each draws_when draws_dirty : tui.

(** A visible cell stored to. *)
Lemma plot_on px py f d :
  disp_ok d -> on_screen px py d = true ->
  exists c, back d !! idx px py = Some c /\
    plot px py f d = Ok (tt, with_back (<[idx px py := f c]> (back d)) d).
Proof.
  intros Hd Hs. pose proof (idx_bound d px py Hd Hs) as Hi. destruct Hd as [_ Hb _ _].
  destruct (lookup_lt_is_Some_2 (back d) (idx px py)) as [c Hc]; [lia|]. exists c. split; [done|].
  unfold plot. unfold bind at 1, get. rewrite Hs. cbn [when]. unfold put_cell.
  apply on_screen_spec in Hs. rewrite (proj2 (Z.ltb_ge _ _)) by (unfold SCREEN_STRIDE; nia).
  fold (idx px py). by rewrite Hc.
Qed.

Lemma plot_off px py f d : on_screen px py d = false -> plot px py f d = Ok (tt, d).
Proof. intros Hs. unfold plot, bind, get. by rewrite Hs. Qed.

Lemma plot_drawn px py c d :
  on_screen px py d = true -> drawn d (with_back (<[idx px py := c]> (back d)) d).
Proof.
  intros Hs. constructor; try done; [by cbn; rewrite length_insert|]. intros i Hi. cbn.
  rewrite list_lookup_insert_ne; [done|]. intros <-. by apply (Hi px py Hs).
Qed.

Lemma draws_plot px py f : draws (plot px py f).
Proof.
  intros d Hd. destruct (on_screen px py d) eqn:Hs.
  - destruct (plot_on px py f d Hd Hs) as (c&_&->). eexists. split; [done|]. by apply plot_drawn.
  - rewrite plot_off by done. eexists. split; [done|apply drawn_refl].
Qed.
#[export] Hint Resolve draws_plot : tui.

(** ** The routines *)

Lemma draws_fill x y w h ch fg bg : draws (tui_fill x y w h ch fg bg).
Proof. unfold tui_fill. auto 10 with tui. Qed.
#[export] Hint Resolve draws_fill : tui.

Lemma draws_text_loop fuel x y s fg bg limit cells : draws (text_loop fuel x y s fg bg limit cells).
Proof.
  revert s cells. induction fuel as [|fuel IH]; intros [|c s] cells; cbn [text_loop]; try apply draws_ret.
  destruct (_ || _); [|apply draws_ret]. destruct (next_cp c s) as [cp s']. auto with tui.
Qed.

Lemma draws_text x y s fg bg limit : draws (tui_text x y s fg bg limit).
Proof.
  destruct s as [s|]; [|apply draws_ret]. apply draws_bind; [apply draws_text_loop|apply draws_dirty].
Qed.
#[export] Hint Resolve draws_text : tui.

(** Peels a sequence of drawing calls. *)
Ltac draw_all :=
  repeat match goal with
  | |- draws (tui_fill _ _ _ _ _ _ _) => apply draws_fill
  | |- draws (tui_text _ _ _ _ _ _) => apply draws_text
  | |- draws set_dirty => apply draws_dirty
  | |- draws (ret tt) => apply draws_ret
  | |- draws (when _ _) => apply draws_when
  | |- draws (each _ _) => apply draws_each; intros ?
  | |- draws (bind get _) => apply draws_get; intros ?
  | |- draws (bind _ _) => apply draws_bind
  end.

Lemma draws_box x y w h dbl fg bg : draws (tui_box x y w h dbl fg bg).
Proof. unfold tui_box. apply draws_get. intros d. destruct (ascii_mode d), dbl; draw_all. Qed.

Lemma draws_window w : draws (tui_window_draw w).
Proof.
  unfold tui_window_draw, double_frame, double_title, single_title. destruct (visible w); cbn [negb].
  2:{ apply draws_ret. }
  apply draws_get. intros d. cbv zeta. destruct (double_border w); draw_all. apply draws_box.
Qed.
#[export] Hint Resolve draws_box draws_window : tui.

(** ** Text *)

(** UTF-8, for the code points below 2^16. *)
Definition utf8_1 (cp : Z) : list Z :=
  if cp <? 0x80 then [cp]
  else if cp <? 0x800 then [0xc0 + cp / 64; 0x80 + cp mod 64]
  else [0xe0 + cp / 4096; 0x80 + cp / 64 mod 64; 0x80 + cp mod 64].

Definition utf8 (cps : list Z) : list Z := concat (map utf8_1 cps).

(** A fact about small integers, by trying them all. *)
Lemma below (n : nat) (f : Z -> bool) (a : Z) :
  forallb f (upto (Z.of_nat n)) = true -> 0 <= a < Z.of_nat n -> f a = true.
Proof.
  intros Hf Ha. rewrite forallb_forall in Hf. apply Hf. unfold upto. apply in_map_iff.
  exists (Z.to_nat a). split; [lia|]. apply in_seq. lia.
Qed.

Lemma two_byte_lead a : 0 <= a < 32 ->
  (Z.land (0xc0 + a) 0xe0 =? 0xc0) && (Z.land (0xc0 + a) 31 =? a) = true.
Proof. by apply (below 32 (fun a => (Z.land (0xc0 + a) 0xe0 =? 0xc0) && (Z.land (0xc0 + a) 31 =? a))); vm_compute. Qed.

Lemma three_byte_lead a : 0 <= a < 16 ->
  negb (Z.land (0xe0 + a) 0xe0 =? 0xc0) && (Z.land (0xe0 + a) 0xf0 =? 0xe0) && (Z.land (0xe0 + a) 15 =? a) = true.
Proof.
  by apply (below 16 (fun a => negb (Z.land (0xe0 + a) 0xe0 =? 0xc0) && (Z.land (0xe0 + a) 0xf0 =? 0xe0)
                               && (Z.land (0xe0 + a) 15 =? a))); vm_compute.
Qed.

Lemma one_byte a : 0 <= a < 128 -> negb (Z.land a 0xe0 =? 0xc0) && negb (Z.land a 0xf0 =? 0xe0) = true.
Proof. by apply (below 128 (fun a => negb (Z.land a 0xe0 =? 0xc0) && negb (Z.land a 0xf0 =? 0xe0))); vm_compute. Qed.

Lemma continuation a : 0 <= a < 64 -> (Z.land (0x80 + a) 0xc0 =? 0x80) && (Z.land (0x80 + a) 63 =? a) = true.
Proof. by apply (below 64 (fun a => (Z.land (0x80 + a) 0xc0 =? 0x80) && (Z.land (0x80 + a) 63 =? a))); vm_compute. Qed.

Lemma lor_add a b k : 0 <= k -> 0 <= b < 2 ^ k -> Z.lor (Z.shiftl a k) b = a * 2 ^ k + b.
Proof. intros. rewrite Z.lor_comm, lor_shift by done. lia. Qed.

(** Rewrites with the masks known in the context. *)
Ltac masks :=
  repeat match goal with
  | H : Z.land _ _ <> _ |- _ => rewrite (proj2 (Z.eqb_neq _ _) H); clear H
  | H : Z.land _ _ = _ |- _ => rewrite H; clear H
  end; cbn [andb Z.eqb Pos.eqb].

Lemma next_cp_utf8 cp s :
  0 < cp < 0x10000 -> exists c r, utf8_1 cp = c :: r /\ next_cp c (r ++ s) = (cp, s).
Proof.
  intros Hcp. unfold utf8_1. destruct (Z.ltb_spec cp 0x80); [|destruct (Z.ltb_spec cp 0x800)]; eexists _, _;
    (split; [done|]); unfold next_cp; cbn [app char_at nth drop].
  - pose proof (one_byte cp ltac:(lia)). breflect. by masks.
  - pose proof (two_byte_lead (cp / 64) ltac:(width_lia)). pose proof (continuation (cp mod 64) ltac:(width_lia)).
    breflect. masks. rewrite lor_add by width_lia. f_equal. width_lia.
  - pose proof (three_byte_lead (cp / 4096) ltac:(width_lia)).
    pose proof (continuation (cp / 64 mod 64) ltac:(width_lia)). pose proof (continuation (cp mod 64) ltac:(width_lia)).
    breflect. masks. rewrite <- Z.lor_assoc, (lor_add (cp / 64 mod 64)) by width_lia.
    rewrite lor_add by width_lia. f_equal. width_lia.
Qed.

(** How many of [n] characters are drawn from cell [k] on. *)
Definition shown (limit k : Z) (n : nat) : Z :=
  if limit <? 0 then Z.of_nat n else Z.min (Z.of_nat n) (Z.max 0 (limit - k)).

(** The cell at column [px] after the text [cps] was drawn from column [x0]. *)
Definition lettered (cps : list Z) (x0 n fg bg px : Z) (c : tui_cell) : tui_cell :=
  if (x0 <=? px) && (px <? x0 + n) then Cell (nth (Z.to_nat (px - x0)) cps 0) fg bg (attributes c) else c.

Lemma lettered_none cps x0 n fg bg px c : n <= 0 -> lettered cps x0 n fg bg px c = c.
Proof. intros. unfold lettered. destruct (Z.leb_spec x0 px), (Z.ltb_spec px (x0 + n)); cbn [andb]; (done || lia). Qed.

(** Drawing one character and then the rest. *)
Lemma lettered_cons cp cps x0 n fg bg px c :
  0 <= n ->
  lettered (cp :: cps) x0 (n + 1) fg bg px c =
  lettered cps (x0 + 1) n fg bg px (if px =? x0 then Cell cp fg bg (attributes c) else c).
Proof.
  intros Hn. unfold lettered.
  destruct (Z.eqb_spec px x0), (Z.leb_spec x0 px), (Z.ltb_spec px (x0 + (n + 1))), (Z.leb_spec (x0 + 1) px),
    (Z.ltb_spec px (x0 + 1 + n)); cbn [andb]; try lia; try done; f_equal.
  - subst. by rewrite Z.sub_diag.
  - replace (Z.to_nat (px - x0)) with (S (Z.to_nat (px - (x0 + 1)))) by lia. done.
Qed.

Lemma plot_cells x0 y f d :
  disp_ok d -> exists d1, plot x0 y f d = Ok (tt, d1) /\ drawn d d1 /\
    forall px py, on_screen px py d = true ->
      back d1 !! idx px py = (fun c => if (py =? y) && (px =? x0) then f c else c) <$> back d !! idx px py.
Proof.
  intros Hd. destruct (on_screen x0 y d) eqn:Hs.
  - destruct (plot_on x0 y f d Hd Hs) as (c&Hc&->). eexists. split_and!; [done|by apply plot_drawn|].
    intros px py Hp. cbn [with_back back]. destruct (decide (px = x0 /\ py = y)) as [[-> ->]|Hne].
    + rewrite list_lookup_insert_eq by (by eapply lookup_lt_Some). rewrite Hc, !Z.eqb_refl. done.
    + rewrite list_lookup_insert_ne by (intros E; symmetry in E; by apply (idx_inj d) in E).
      assert ((py =? y) && (px =? x0) = false) as ->.
      { destruct (Z.eqb_spec py y), (Z.eqb_spec px x0); try done. naive_solver. }
      by destruct (back d !! idx px py).
  - rewrite plot_off by done. exists d. split_and!; [done|apply drawn_refl|]. intros px py Hp.
    assert ((py =? y) && (px =? x0) = false) as ->.
    { destruct (Z.eqb_spec py y), (Z.eqb_spec px x0); try done. congruence. }
    by destruct (back d !! idx px py).
Qed.

Lemma text_loop_utf8 cps fuel x y fg bg limit k d :
  disp_ok d -> Forall (fun cp => 0 < cp < 0x10000) cps -> (length (utf8 cps) <= fuel)%nat -> 0 <= k ->
  exists d', text_loop fuel x y (utf8 cps) fg bg limit k d = Ok (tt, d') /\ drawn d d' /\
    forall px py, on_screen px py d = true ->
      back d' !! idx px py =
      (fun c => if py =? y then lettered cps (x + k) (shown limit k (length cps)) fg bg px c else c)
      <$> back d !! idx px py.
Proof.
  revert fuel k d. induction cps as [|cp cps IH]; intros fuel k d Hd Hcps Hfuel Hk.
  { exists d. split_and!; [by destruct fuel|apply drawn_refl|]. intros px py _.
    destruct (back d !! idx px py); [|done]. cbn. rewrite lettered_none by (unfold shown; case_match; cbn; lia).
    by destruct (py =? y). }
  apply Forall_cons in Hcps as [Hcp Hcps]. destruct (next_cp_utf8 cp (utf8 cps) Hcp) as (c&r&Hu&Hn).
  change (utf8 (cp :: cps)) with (utf8_1 cp ++ utf8 cps) in *. rewrite Hu in *. cbn [app length] in *.
  destruct fuel as [|fuel]; [lia|]. cbn [text_loop].
  destruct ((limit <? 0) || (k <? limit)) eqn:Hl.
  2:{ exists d. split_and!; [done|apply drawn_refl|]. intros px py _. breflect.
      destruct (back d !! idx px py); [|done]. cbn [fmap option_fmap option_map]. rewrite lettered_none.
      - by destruct (py =? y).
      - unfold shown. rewrite (proj2 (Z.ltb_ge _ _)) by done. lia. }
  rewrite Hn. destruct (plot_cells (x + k) y (fun c => Cell cp fg bg (attributes c)) d Hd) as (d1&E1&D1&B1).
  rewrite (bind_ok _ _ _ _ _ E1).
  destruct (IH fuel (k + 1) d1) as (d'&E'&D'&B'); [by eapply drawn_ok|done| |lia|].
  { rewrite length_app in Hfuel. lia. }
  exists d'. split_and!; [done|by eapply drawn_trans|]. intros px py Hp.
  rewrite B' by (by rewrite (drawn_on_screen d d1)). rewrite B1 by done. rewrite <- option_fmap_compose.
  destruct (back d !! idx px py) as [c0|]; [|done]. cbn. f_equal.
  replace (shown limit k (S (length cps))) with (shown limit (k + 1) (length cps) + 1).
  2:{ unfold shown. destruct (Z.ltb_spec limit 0); [lia|]. apply orb_prop in Hl as [Hl|Hl]; breflect; lia. }
  destruct (Z.eqb_spec py y); cbn [andb]; [|done].
  rewrite lettered_cons by (unfold shown; case_match; lia). by rewrite Z.add_assoc.
Qed.

(** tui_text draws UTF-8.  On a well formed display, drawing the UTF-8
    encoding of the code points [cps] (below 2^16, none zero) at ([x], [y])
    returns; cell [k] of the text, for every [k] below the limit (no limit when
    it is negative), receives code point [k] in the given colours, keeping its
    attributes, if it lies on the screen; every other cell of the buffer,
    visible or not, keeps its contents; the front buffer, the theme and the
    size of the screen are unchanged, and the screen is marked dirty. *)
Theorem tui_text_utf8 cps x y fg bg limit d :
  disp_ok d -> Forall (fun cp => 0 < cp < 0x10000) cps ->
  exists d', tui_text x y (Some (utf8 cps)) fg bg limit d = Ok (tt, d') /\ drawn d d' /\ dirty d' = true /\
    forall px py, on_screen px py d = true ->
      back d' !! idx px py =
      (fun c => if py =? y then lettered cps x (shown limit 0 (length cps)) fg bg px c else c)
      <$> back d !! idx px py.
Proof.
  intros Hd Hcps. destruct (text_loop_utf8 cps (length (utf8 cps)) x y fg bg limit 0 d) as (d'&E&D&B); [done..|lia|].
  rewrite Z.add_0_r in B. exists (with_dirty true d'). unfold tui_text. rewrite (bind_ok _ _ _ _ _ E).
  split_and!; [done| |done|done]. eapply drawn_trans; [done|]. by constructor.
Qed.

(** An 80 by 25 display. *)
Definition small_display : display :=
  Display 80 25 (replicate CELLS (Cell 0 0 0 0)) (replicate CELLS (Cell 32 7 0 0)) tui_theme_dos false false.

Lemma small_display_ok : disp_ok small_display.
Proof. constructor; [by apply length_replicate..|done|done]. Qed.

Lemma tui_text_witness :
  exists d', tui_text 78 3 (Some (utf8 [0x41; 0xe9; 0x2554])) 15 1 (-1) small_display = Ok (tt, d') /\
    back d' !! idx 79 3 = Some (Cell 0xe9 15 1 0).
Proof.
  destruct (tui_text_utf8 [0x41; 0xe9; 0x2554] 78 3 15 1 (-1) small_display small_display_ok) as (d'&E&_&_&B).
  { repeat constructor. }
  exists d'. split; [exact E|]. rewrite B by reflexivity. vm_compute. reflexivity.
Defined.
