(* ===== verification/TuiWidgets.v ===== *)
(** * The text user interface: widgets, rendering and events (src/user/libtui/widgets.c, screen.c)

    The library's whole static state, the window and widget tables with their
    operations, rendering, and event dispatch, composed as in the source.  The
    terminal behind the application interface and the callbacks stored in
    widgets are parameters. *)

From stdpp Require Import base numbers list strings.
From Stdlib Require Import ZArith Lia.
From S2P Require Import Prelude Effects Buffer TuiScreen.

(** ** The terminal

    The members of os64_api_t the library calls.  [read_key] is [None] while
    no key has been pressed. *)

Class Terminal (T : Type) := {
  acquire : T -> bool * T;
  release : T -> T;
  term_width : T -> Z;
  term_height : T -> Z;
  unicode : T -> bool;
  write_cell : Z -> Z -> Z -> Z -> T -> T;
  set_cursor : Z -> Z -> Z -> Z -> T -> T;
  read_key : T -> option (Z * T);
  read_directory : list Z -> Z -> T -> option (list Z * Z)
}.

(** The interface pointer: its version and which optional members are set. *)
Record api_t := Api { version : Z; has_acquire : bool; has_query : bool }.

(** ** State *)

Record tui (T : Type) := Tui {
  term : T; has_api : bool; initialized : bool; disp : display;
  windows : list tui_window; window_used : nat;
  widgets : list tui_widget; used : nat;
  application : tui_application; posted : tui_event; has_posted : bool
}.
Arguments Tui {T}. Arguments term {T}. Arguments has_api {T}. Arguments initialized {T}. Arguments disp {T}.
Arguments windows {T}. Arguments window_used {T}. Arguments widgets {T}. Arguments used {T}.
Arguments application {T}. Arguments posted {T}. Arguments has_posted {T}.

Definition blank_cell : tui_cell := Cell 0 0 0 0.
Definition blank_widget : tui_widget :=
  Widget TUI_LABEL 0 0 0 0 false false false false 0 0 0 0 false (replicate 4096 0) [] 0 0 None None 0 0.
Definition blank_window : tui_window := Window 0 0 0 0 (replicate 64 0) 0 false false false [] 0.
Definition blank_theme : tui_theme := Theme 0 0 0 0 0 0 0 0 0 0 0 0 0 0 0 0 0 0 0 0 0 0.

(** The static initial state. *)
Definition tui0 {T} (t : T) : tui T :=
  Tui t false false (Display 80 25 (replicate CELLS blank_cell) (replicate CELLS blank_cell) blank_theme false false)
    (replicate TUI_MAX_WINDOWS blank_window) 0 (replicate TUI_MAX_WIDGETS blank_widget) 0
    (Application (replicate 64 0) false false []) (Event TUI_EVENT_NONE 0 0 0) false.

Section tui.

Context {T : Type} `{Terminal T}.

#[local] Abbreviation U := (M (tui T)).

Definition with_term (t : T) (s : tui T) : tui T :=
  Tui t (has_api s) (initialized s) (disp s) (windows s) (window_used s) (widgets s) (used s) (application s)
    (posted s) (has_posted s).
Definition with_disp (d : display) (s : tui T) : tui T :=
  Tui (term s) (has_api s) (initialized s) d (windows s) (window_used s) (widgets s) (used s) (application s)
    (posted s) (has_posted s).
Definition with_windows (l : list tui_window) (s : tui T) : tui T :=
  Tui (term s) (has_api s) (initialized s) (disp s) l (window_used s) (widgets s) (used s) (application s)
    (posted s) (has_posted s).
Definition with_widgets (l : list tui_widget) (s : tui T) : tui T :=
  Tui (term s) (has_api s) (initialized s) (disp s) (windows s) (window_used s) l (used s) (application s)
    (posted s) (has_posted s).
Definition with_app (a : tui_application) (s : tui T) : tui T :=
  Tui (term s) (has_api s) (initialized s) (disp s) (windows s) (window_used s) (widgets s) (used s) a
    (posted s) (has_posted s).

(** Drawing code run on the library's display. *)
Definition draw {A} (m : M display A) : U A :=
  fun s => do '(a, d) <- m (disp s); Ok (a, with_disp d s).

(** Reads and writes through window and widget pointers. *)
Definition window (i : nat) : U tui_window :=
  fun s => do w <- of_option (windows s !! i); Ok (w, s).
Definition widget (i : nat) : U tui_widget :=
  fun s => do w <- of_option (widgets s !! i); Ok (w, s).
Definition set_window (i : nat) (f : tui_window -> tui_window) : U unit :=
  fun s => do w <- of_option (windows s !! i); Ok (tt, with_windows (<[i := f w]> (windows s)) s).
Definition set_widget (i : nat) (f : tui_widget -> tui_widget) : U unit :=
  fun s => do w <- of_option (widgets s !! i); Ok (tt, with_widgets (<[i := f w]> (widgets s)) s).

Definition set_app (f : tui_application -> tui_application) : U unit :=
  modify (fun s => with_app (f (application s)) s).

(** ** Field updates *)

Definition with_visible (b : bool) (w : tui_window) : tui_window :=
  Window (x w) (y w) (width w) (height w) (title w) (flags w) b (focused w) (double_border w) (children w) (focus_index w).
Definition with_focused (b : bool) (w : tui_window) : tui_window :=
  Window (x w) (y w) (width w) (height w) (title w) (flags w) (visible w) b (double_border w) (children w) (focus_index w).
Definition with_children (l : list nat) (w : tui_window) : tui_window :=
  Window (x w) (y w) (width w) (height w) (title w) (flags w) (visible w) (focused w) (double_border w) l (focus_index w).
Definition with_focus_index (i : nat) (w : tui_window) : tui_window :=
  Window (x w) (y w) (width w) (height w) (title w) (flags w) (visible w) (focused w) (double_border w) (children w) i.

Definition w_with_type (t : tui_widget_type) (w : tui_widget) : tui_widget :=
  Widget t (w_x w) (w_y w) (w_width w) (w_height w) (w_visible w) (w_enabled w) (w_focused w) (w_checked w) (w_value w)
    (w_maximum w) (w_scroll w) (w_cursor w) (w_insert w) (w_text w) (w_items w) (w_item_count w) (w_selected w)
    (w_parent w) (w_activate w) (w_custom_fg w) (w_custom_bg w).
Definition w_with_flags (vis ena foc chk : bool) (w : tui_widget) : tui_widget :=
  Widget (w_type w) (w_x w) (w_y w) (w_width w) (w_height w) vis ena foc chk (w_value w)
    (w_maximum w) (w_scroll w) (w_cursor w) (w_insert w) (w_text w) (w_items w) (w_item_count w) (w_selected w)
    (w_parent w) (w_activate w) (w_custom_fg w) (w_custom_bg w).
Definition w_with_focused (b : bool) (w : tui_widget) : tui_widget :=
  w_with_flags (w_visible w) (w_enabled w) b (w_checked w) w.
Definition w_with_scroll (n : Z) (w : tui_widget) : tui_widget :=
  Widget (w_type w) (w_x w) (w_y w) (w_width w) (w_height w) (w_visible w) (w_enabled w) (w_focused w) (w_checked w)
    (w_value w) (w_maximum w) n (w_cursor w) (w_insert w) (w_text w) (w_items w) (w_item_count w) (w_selected w)
    (w_parent w) (w_activate w) (w_custom_fg w) (w_custom_bg w).
(** Maximum, cursor, insert mode and text: what the text box code changes. *)
Definition w_with_edit (m c : Z) (ins : bool) (t : list Z) (w : tui_widget) : tui_widget :=
  Widget (w_type w) (w_x w) (w_y w) (w_width w) (w_height w) (w_visible w) (w_enabled w) (w_focused w) (w_checked w)
    (w_value w) m (w_scroll w) c ins t (w_items w) (w_item_count w) (w_selected w)
    (w_parent w) (w_activate w) (w_custom_fg w) (w_custom_bg w).
Definition w_with_items (l : list (option (list Z))) (n sel : Z) (w : tui_widget) : tui_widget :=
  Widget (w_type w) (w_x w) (w_y w) (w_width w) (w_height w) (w_visible w) (w_enabled w) (w_focused w) (w_checked w)
    (w_value w) (w_maximum w) (w_scroll w) (w_cursor w) (w_insert w) (w_text w) l n sel
    (w_parent w) (w_activate w) (w_custom_fg w) (w_custom_bg w).

(** ** screen.c: start, stop, windows *)

Definition tui_widgets_reset (s : tui T) : tui T :=
  Tui (term s) (has_api s) (initialized s) (disp s) (windows s) (window_used s) (widgets s) 0 (application s)
    (posted s) (has_posted s).

Definition tui_initialize (a : option api_t) : U bool :=
  fun s =>
    match a with
    | None => Ok (false, s)
    | Some a =>
      if (version a <? 3) || negb (has_acquire a) then Ok (false, s) else
      let '(ok, t) := acquire (term s) in
      if negb ok then Ok (false, with_term t s) else
      let d := disp s in
      let sw := Z.min (term_width t) SCREEN_STRIDE in
      let sh := Z.min (term_height t) SCREEN_ROWS in
      if (sw <? 40) || (sh <? 15) then
        Ok (false, Tui (release t) true (initialized s)
              (Display sw sh (front d) (back d) (theme d) (ascii_mode d) (dirty d))
              (windows s) (window_used s) (widgets s) (used s) (application s) (posted s) (has_posted s))
      else
      let th := tui_theme_dos in
      let f := map (fun c => Cell 0xffffffff (foreground c) (background c) (attributes c)) (front d) in
      let b := map (fun _ => Cell 32 (desktop_fg th) (desktop_bg th) 0) (back d) in
      Ok (true, tui_widgets_reset (Tui t true true (Display sw sh f b th (has_query a && negb (unicode t)) true)
            (windows s) 0 (widgets s) (used s) (application s) (posted s) (has_posted s)))
    end.

Definition with_initialized (b : bool) (s : tui T) : tui T :=
  Tui (term s) (has_api s) b (disp s) (windows s) (window_used s) (widgets s) (used s) (application s)
    (posted s) (has_posted s).

Definition tui_shutdown : U unit :=
  fun s => if negb (initialized s) then Ok (tt, s) else
           if negb (has_api s) then Undefined else
           Ok (tt, with_initialized false (with_term (release (set_cursor 0 0 0 1 (term s))) s)).

Definition tui_use_ascii (enabled : bool) : U unit := draw (modify (fun d => with_dirty true (with_ascii enabled d))).
Definition tui_set_theme (t : option tui_theme) : U unit :=
  draw (modify (fun d => with_dirty true (match t with Some t => with_theme t d | None => d end))).

Definition tui_app_create (nm : list Z) : U unit :=
  set_app (fun a => Application (copy_text (name a) (Some nm)) true true []).

(** The position a new window gets. *)
Definition place (d : display) (x y w h flags : Z) : Z * Z :=
  let sw := scr_width d in
  let sh := scr_height d in
  let '(x, y) := if z2b (Z.land flags TUI_WINDOW_CENTER) then (Z.quot (sw - w) 2, Z.quot (sh - h) 2) else (x, y) in
  let x := if x + w <? 1 then 1 - w else x in
  let y := if y + h <? 1 then 1 - h else y in
  let x := if sw <=? x then sw - 1 else x in
  let y := if sh <=? y then sh - 1 else y in
  (x, y).

(** Fills the next slot of the window table and lists it in the application. *)
Definition tui_window_create (x y w h : Z) (t : list Z) (flags : Z) : U (option nat) :=
  fun s =>
    if (TUI_MAX_WINDOWS <=? window_used s)%nat || (w <? 4) || (h <? 3) then Ok (None, s) else
    let d := disp s in
    let w := Z.min w (scr_width d) in
    let h := Z.min h (scr_height d) in
    let '(x, y) := place d x y w h flags in
    let i := window_used s in
    do old <- of_option (windows s !! i);
    let v := Window x y w h (copy_text (title old) (Some t)) flags true true
               (z2b (Z.land flags TUI_WINDOW_DOUBLE_BORDER) || z2b (Z.land flags TUI_WINDOW_MODAL)) [] 0 in
    let a := application s in
    let ws := if (length (app_windows a) <? TUI_MAX_WINDOWS)%nat then app_windows a ++ [i] else app_windows a in
    Ok (Some i, Tui (term s) (has_api s) (initialized s) (with_dirty true d) (<[i := v]> (windows s)) (i + 1)
          (widgets s) (used s) (Application (name a) (running a) (redraw a) ws) (posted s) (has_posted s)).

Definition tui_window_hide (w : option nat) : U unit :=
  match w with Some i => set_window i (with_visible false) | None => ret tt end ;; draw set_dirty.
Definition tui_window_destroy (w : option nat) : U unit := tui_window_hide w.
Definition tui_window_show (w : option nat) : U unit :=
  match w with Some i => set_window i (with_visible true) | None => ret tt end ;; draw set_dirty.

Definition tui_window_focus (w : option nat) : U unit :=
  let! s := get in
  each (app_windows (application s)) (fun i => set_window i (with_focused (bool_decide (Some i = w)))) ;;
  draw set_dirty.

Definition tui_request_redraw : U unit :=
  set_app (fun a => Application (name a) (running a) true (app_windows a)) ;; draw set_dirty.
Definition tui_invalidate : U unit := tui_request_redraw.

(** ** widgets.c: creation *)

Definition is_type (w : tui_widget) (ts : list tui_widget_type) : bool := bool_decide (w_type w ∈ ts).

Definition focusable (w : tui_widget) : bool :=
  w_visible w && w_enabled w && negb (is_type w [TUI_LABEL; TUI_STATUS_BAR; TUI_PROGRESS; TUI_TABS]).

Definition cx (p : tui_window) (w : tui_widget) : Z := x p + 1 + w_x w.
Definition cy (p : tui_window) (w : tui_widget) : Z :=
  if double_border p && titled p then y p + 3 + w_y w else y p + 1 + w_y w.

Definition tui_widget_create (t : tui_widget_type) (p : option nat) (x y w h : Z) (txt : option (list Z)) : U (option nat) :=
  fun s =>
    match p with
    | None => Ok (None, s)
    | Some p =>
      do win <- of_option (windows s !! p);
      if (TUI_MAX_WIDGETS <=? used s)%nat || (TUI_MAX_WIDGETS <=? length (children win))%nat then Ok (None, s) else
      let i := used s in
      do old <- of_option (widgets s !! i);
      let v := Widget t x y w h true true false false 0 127 0 0 true (copy_text (w_text old) txt) [] 0 0
                 (Some p) None 0 0 in
      Ok (Some i, Tui (term s) (has_api s) (initialized s) (disp s)
            (<[p := with_children (children win ++ [i]) win]> (windows s)) (window_used s)
            (<[i := v]> (widgets s)) (i + 1) (application s) (posted s) (has_posted s))
    end.

Definition tui_button_create (p : option nat) (x y w : Z) (t : list Z) : U (option nat) :=
  tui_widget_create TUI_BUTTON p x y w 1 (Some t).
Definition tui_label_create (p : option nat) (x y : Z) (t : list Z) : U (option nat) :=
  tui_widget_create TUI_LABEL p x y (Z.of_nat (length t)) 1 (Some t).

(** [if (v) ...] on a new widget. *)
Definition on_new (m : U (option nat)) (f : tui_widget -> tui_widget) : U (option nat) :=
  let! v := m in match v with Some i => set_widget i f ;; ret v | None => ret v end.

Definition tui_textbox_create (p : option nat) (x y w : Z) (initial : option (list Z)) (maximum : Z) (password : bool) :
    U (option nat) :=
  on_new (tui_widget_create (if password then TUI_PASSWORD_INPUT else TUI_TEXT_INPUT) p x y w 1 initial)
    (fun v => w_with_edit (Z.min maximum 127) (text_len (w_text v)) (w_insert v) (w_text v) v).

Definition tui_listbox_create (p : option nat) (x y w h : Z) (items : list (option (list Z))) (count : Z) : U (option nat) :=
  on_new (tui_widget_create TUI_LISTBOX p x y w h (Some [])) (w_with_items items count 0).
Definition tui_table_create (p : option nat) (x y w h : Z) (rows : list (option (list Z))) (count : Z) : U (option nat) :=
  on_new (tui_listbox_create p x y w h rows count) (w_with_type TUI_TABLE).

Definition tui_widget_set_enabled (w : option nat) (b : bool) : U unit :=
  match w with
  | Some i => set_widget i (fun w => w_with_flags (w_visible w) b (w_focused w) (w_checked w) w)
  | None => ret tt
  end ;; tui_request_redraw.
Definition tui_widget_set_visible (w : option nat) (b : bool) : U unit :=
  match w with
  | Some i => set_widget i (fun w => w_with_flags b (w_enabled w) (w_focused w) (w_checked w) w)
  | None => ret tt
  end ;; tui_request_redraw.

(** ** widgets.c: drawing

    [px] and [py] are the widget's screen position, [fg] and [win_bg] its
    colours. *)

Definition colours (t : tui_theme) (w : tui_widget) : Z * Z :=
  if w_enabled w then
    if w_focused w then (highlight_fg t, highlight_bg t) else (window_fg t, window_bg t)
  else (disabled_fg t, window_bg t).

Definition draw_label (t : tui_theme) (w : tui_widget) (px py fg win_bg : Z) : M display unit :=
  let '(lf, lb) :=
    if is_type w [TUI_STATUS_BAR] then (status_fg t, status_bg t)
    else if is_type w [TUI_MENU_BAR] then (title_fg t, title_bg t)
    else if z2b (w_custom_fg w) || z2b (w_custom_bg w) then (w_custom_fg w, w_custom_bg w)
    else (fg, win_bg) in
  tui_fill px py (w_width w) (w_height w) 32 lf lb ;;
  tui_text px py (Some (cstring (w_text w))) lf lb (w_width w).

(** The text view's loop over the text: [line] lines passed so far, [row] and
    [col] on the screen. *)
Fixpoint view_loop (s : list Z) (skip line row col px py w h fg bg : Z) : M display unit :=
  match s with
  | [] => ret tt
  | ch :: s =>
    if negb (row <? h) then ret tt else
    if line <? skip then view_loop s skip (if ch =? 10 then line + 1 else line) row col px py w h fg bg else
    if ch =? 10 then view_loop s skip line (row + 1) 0 px py w h fg bg else
    let '(row, col) := if w <=? col then (row + 1, 0) else (row, col) in
    if h <=? row then ret tt else
    tui_text (px + col) (py + row) (Some [ch]) fg bg 1 ;;
    view_loop s skip line row (col + 1) px py w h fg bg
  end.

Definition draw_view (t : tui_theme) (w : tui_widget) (px py : Z) : M display unit :=
  tui_fill px py (w_width w) (w_height w) 32 (window_fg t) (window_bg t) ;;
  view_loop (cstring (w_text w)) (Z.max 0 (w_scroll w)) 0 0 0 px py (w_width w) (w_height w) (window_fg t) (window_bg t).

Definition draw_button (t : tui_theme) (w : tui_widget) (px py fg win_bg : Z) : M display unit :=
  let '(bfg, bbg) := if w_focused w then (highlight_bg t, highlight_fg t) else (fg, win_bg) in
  tui_fill px py (w_width w) 1 32 bbg bfg ;;
  let txt := text_len (w_text w) in
  let bx := px + Z.quot (w_width w - (txt + 4)) 2 in
  tui_text bx py (Some (text "[  ")) bfg bbg 3 ;;
  tui_text (bx + 3) py (Some (cstring (w_text w))) bfg bbg txt ;;
  tui_text (bx + 3 + txt) py (Some (text "  ]")) bfg bbg 3.

Definition draw_check (w : tui_widget) (px py fg win_bg : Z) : M display unit :=
  tui_fill px py (w_width w) 1 32 fg win_bg ;;
  tui_text px py (Some (if is_type w [TUI_CHECKBOX] then (if w_checked w then text "[x] " else text "[ ] ")
                        else (if w_checked w then text "(*) " else text "( ) "))) fg win_bg 4 ;;
  tui_text (px + 4) py (Some (cstring (w_text w))) fg win_bg (w_width w - 4).

(** The first column shown of a text box. *)
Definition input_start (w : tui_widget) : Z :=
  let start := w_scroll w in
  let start := if w_cursor w <? start then w_cursor w else start in
  if start + w_width w <=? w_cursor w then w_cursor w - w_width w + 1 else start.

Definition draw_input (t : tui_theme) (w : tui_widget) (start px py fg win_bg : Z) : M display unit :=
  let '(bfg, bbg) := if w_focused w then (highlight_bg t, highlight_fg t) else (fg, win_bg) in
  tui_fill px py (w_width w) 1 32 bfg bbg ;;
  let length := text_len (w_text w) in
  each (upto (Z.min (w_width w) (length - start))) (fun i =>
    let! c := (if is_type w [TUI_PASSWORD_INPUT] then ret 42
               else if start + i <? 0 then undefined else ret (char_at (w_text w) (Z.to_nat (start + i)))) in
    let '(cf, cb) := if w_focused w && (start + i =? w_cursor w) then (bbg, bfg) else (bfg, bbg) in
    tui_text (px + i) py (Some [c]) cf cb 1).

(** The first item shown of a list; [selected] is unsigned, [scroll] an int. *)
Definition list_scroll (w : tui_widget) : Z :=
  let sc := if w_selected w <? u64 (w_scroll w) then s32 (w_selected w) else w_scroll w in
  if u64 (sc + w_height w) <=? w_selected w then s32 (w_selected w) - w_height w + 1 else sc.

(** [row] counts up from [h - n]. *)
Fixpoint list_rows (n : nat) (t : tui_theme) (w : tui_widget) (px py fg win_bg row : Z) : M display unit :=
  match n with
  | O => ret tt
  | S n =>
    let index := u64 (w_scroll w + row) in
    if w_item_count w <=? index then ret tt else
    let '(rf, rb) :=
      if index =? w_selected w then
        if w_focused w then (selected_fg t, selected_bg t) else (highlight_bg t, highlight_fg t)
      else (fg, win_bg) in
    tui_fill px (py + row) (w_width w) 1 32 rf rb ;;
    match w_items w !! Z.to_nat index with
    | Some item => tui_text px (py + row) item rf rb (w_width w)
    | None => undefined
    end ;;
    list_rows n t w px py fg win_bg (row + 1)
  end.

Definition draw_list (t : tui_theme) (w : tui_widget) (px py fg win_bg : Z) : M display unit :=
  tui_fill px py (w_width w) (w_height w) 32 fg win_bg ;;
  list_rows (Z.to_nat (w_height w)) t w px py fg win_bg 0.

Definition draw_progress (t : tui_theme) (w : tui_widget) (px py : Z) : M display unit :=
  tui_fill px py (w_width w) 1 32 (window_fg t) (window_bg t) ;;
  let fill := if z2b (w_maximum w) then Z.quot (w_value w * w_width w) (w_maximum w) else 0 in
  tui_fill px py fill 1 219 (success_fg t) (success_bg t) ;;
  tui_fill (px + fill) py (w_width w - fill) 1 176 (disabled_fg t) (window_bg t).

Definition draw_scrollbar (t : tui_theme) (w : tui_widget) (px py : Z) : M display unit :=
  let vertical := is_type w [TUI_VSCROLL] in
  let length := if vertical then w_height w else w_width w in
  tui_fill px py (w_width w) (w_height w) 176 (disabled_fg t) (window_bg t) ;;
  let position := if z2b (w_maximum w) then Z.quot ((length - 1) * w_value w) (w_maximum w) else 0 in
  tui_fill (px + (if vertical then 0 else position)) (py + (if vertical then position else 0)) 1 1 219
    (window_fg t) (window_bg t).

(** The scroll position drawing leaves in the widget. *)
Definition drawn_scroll (w : tui_widget) : Z :=
  if is_type w [TUI_TEXT_INPUT; TUI_PASSWORD_INPUT] then input_start w
  else if is_type w [TUI_LISTBOX; TUI_TABLE; TUI_DROPDOWN] then list_scroll w
  else w_scroll w.

Definition draw_body (t : tui_theme) (w : tui_widget) (px py : Z) : M display unit :=
  let '(fg, win_bg) := colours t w in
  match w_type w with
  | TUI_LABEL | TUI_TABS | TUI_STATUS_BAR | TUI_MENU_BAR => draw_label t w px py fg win_bg
  | TUI_TEXT_VIEW => draw_view t w px py
  | TUI_BUTTON => draw_button t w px py fg win_bg
  | TUI_CHECKBOX | TUI_RADIO => draw_check w px py fg win_bg
  | TUI_TEXT_INPUT | TUI_PASSWORD_INPUT => draw_input t w (w_scroll w) px py fg win_bg
  | TUI_LISTBOX | TUI_TABLE | TUI_DROPDOWN => draw_list t w px py fg win_bg
  | TUI_PROGRESS => draw_progress t w px py
  | TUI_HSCROLL | TUI_VSCROLL => draw_scrollbar t w px py
  end.

Definition tui_draw_one (i : nat) (t : tui_theme) : U unit :=
  let! w := widget i in
  if negb (w_visible w) then ret tt else
  match w_parent w with
  | None => undefined
  | Some p =>
    let! win := window p in
    set_widget i (fun w => w_with_scroll (drawn_scroll w) w) ;;
    draw (draw_body t (w_with_scroll (drawn_scroll w) w) (cx win w) (cy win w))
  end.

Definition tui_draw_widgets (i : nat) (t : tui_theme) : U unit :=
  let! w := window i in each (children w) (fun v => tui_draw_one v t).

Definition tui_widget_repaint (i : nat) : U unit :=
  let! w := widget i in
  if negb (w_visible w) then ret tt else
  match w_parent w with
  | None => ret tt
  | Some p =>
    let! win := window p in
    if negb (visible win) then ret tt else
    let! s := get in
    tui_draw_one i (theme (disp s)) ;; draw set_dirty
  end.

(** The index the focus loop stores: the last child that is [i]. *)
Fixpoint last_index (i : nat) (l : list nat) (k : nat) : option nat :=
  match l with
  | [] => None
  | c :: l => match last_index i l (k + 1) with
              | Some r => Some r
              | None => if bool_decide (c = i) then Some k else None
              end
  end.

Definition tui_widget_set_focus (w : option nat) : U unit :=
  match w with
  | None => ret tt
  | Some i =>
    let! v := widget i in
    match w_parent v with
    | None => ret tt
    | Some p =>
      let! win := window p in
      each (children win) (fun c => set_widget c (w_with_focused false)) ;;
      set_widget i (w_with_focused true) ;;
      match last_index i (children win) 0 with
      | Some k => set_window p (with_focus_index k)
      | None => ret tt
      end ;;
      if negb (w_focused v) then tui_request_redraw else tui_widget_repaint i
    end
  end.

(** ** Rendering *)

(** The focused text box of a window, if it has one. *)
Fixpoint focused_input (cs : list nat) : U (option tui_widget) :=
  match cs with
  | [] => ret None
  | c :: cs =>
    let! v := widget c in
    if w_focused v && is_type v [TUI_TEXT_INPUT; TUI_PASSWORD_INPUT] then ret (Some v) else focused_input cs
  end.

Fixpoint find_cursor (ws : list nat) : U (option (Z * Z)) :=
  match ws with
  | [] => ret None
  | i :: ws =>
    let! w := window i in
    if negb (visible w) || negb (focused w) then find_cursor ws else
    let! v := focused_input (children w) in
    match v with
    | Some v => ret (Some (x w + 1 + w_x v + w_cursor v - w_scroll v, cy w v))
    | None => find_cursor ws
    end
  end.

Definition on_term (f : T -> T) : U unit :=
  fun s => if has_api s then Ok (tt, with_term (f (term s)) s) else Undefined.

Definition tui_update_cursor (ws : list nat) : U unit :=
  let! c := find_cursor (rev ws) in
  match c with
  | Some (cx, cy) => on_term (set_cursor (u32 cx) (u32 cy) 1 1)
  | None => on_term (set_cursor 0 0 0 1)
  end.

(** One cell of the comparison of the two buffers. *)
Definition sync_cell (px py : Z) : U unit :=
  fun s =>
    let d := disp s in
    let i := Z.to_nat (py * SCREEN_STRIDE + px) in
    do a <- of_option (front d !! i);
    do b <- of_option (back d !! i);
    if bool_decide (a = b) then Ok (tt, s) else
    if has_api s then
      Ok (tt, with_term (write_cell px py (character b) (attr b) (term s)) (with_disp (with_front (<[i := b]> (front d)) d) s))
    else Undefined.

Definition sync_cells (w h : Z) : U unit :=
  each (upto h) (fun py => each (upto w) (fun px => sync_cell px py)).

Definition redraw_all : U unit :=
  let! s := get in
  let d := disp s in
  let th := theme d in
  draw (tui_fill 0 0 (scr_width d) (scr_height d) 32 (desktop_fg th) (desktop_bg th)) ;;
  each (app_windows (application s)) (fun i =>
    let! w := window i in
    when (visible w) (draw (tui_window_draw w) ;; tui_draw_widgets i th)) ;;
  set_app (fun a => Application (name a) (running a) false (app_windows a)).

Definition tui_render : U unit :=
  let! s := get in
  if negb (initialized s) then ret tt else
  when (redraw (application s)) redraw_all ;;
  let! s := get in
  if negb (dirty (disp s)) then ret tt else
  sync_cells (scr_width (disp s)) (scr_height (disp s)) ;;
  draw (modify (with_dirty false)) ;;
  tui_update_cursor (app_windows (application s)).

(** ** widgets.c: editing and focus *)

(** [edit], up to the repaint: the widget afterwards. *)
Definition edit_text (w : tui_widget) (key : Z) : outcome tui_widget :=
  let t := w_text w in
  let n := text_len t in
  let c := w_cursor w in
  let put m c ins t := Ok (w_with_edit m c ins t w) in
  if (key =? TUI_KEY_LEFT) && z2b c then put (w_maximum w) (c - 1) (w_insert w) t
  else if (key =? TUI_KEY_RIGHT) && (c <? n) then put (w_maximum w) (c + 1) (w_insert w) t
  else if key =? TUI_KEY_HOME then put (w_maximum w) 0 (w_insert w) t
  else if key =? TUI_KEY_END then put (w_maximum w) n (w_insert w) t
  else if key =? TUI_KEY_INSERT then put (w_maximum w) c (negb (w_insert w)) t
  else if ((key =? 8) || (key =? 127)) && z2b c then
    do t <- (if c <? 1 then Ok t else shift_left (Z.to_nat (n - (c - 1))) (Z.to_nat (c - 1)) t);
    put (w_maximum w) (c - 1) (w_insert w) t
  else if (key =? TUI_KEY_DELETE) && (c <? n) then
    do t <- (if c <? 0 then Ok t else shift_left (Z.to_nat (n - c)) (Z.to_nat c) t);
    put (w_maximum w) c (w_insert w) t
  else if (32 <=? key) && (key <? 127) && (n <? u64 (w_maximum w)) then
    if c <? 0 then Undefined else
    do t <- (if w_insert w then shift_right (Z.to_nat (n + 1 - c)) (Z.to_nat c) t else Ok t);
    do t <- wr (Z.to_nat c) key t;
    do t <- (if negb (w_insert w) && (n <? c + 1) then wr (Z.to_nat (c + 1)) 0 t else Ok t);
    put (w_maximum w) (c + 1) (w_insert w) t
  else Ok w.

Definition edit (i : nat) (key : Z) : U unit :=
  (fun s => do w <- of_option (widgets s !! i); do w' <- edit_text w key;
            Ok (tt, with_widgets (<[i := w']> (widgets s)) s)) ;;
  tui_widget_repaint i.

(** The loop of [focus_move]: [n] children left to try, [at_] the current one;
    [step] is [direction] converted to size_t. *)
Fixpoint focus_loop (n : nat) (cs : list nat) (at_ step : Z) : U unit :=
  match n with
  | O => ret tt
  | S n =>
    let count := Z.of_nat (length cs) in
    let at_ := u64 (at_ + count + step) mod count in
    match cs !! Z.to_nat at_ with
    | None => undefined
    | Some c =>
      let! v := widget c in
      if focusable v then tui_widget_set_focus (Some c) else focus_loop n cs at_ step
    end
  end.

Definition focus_move (i : nat) (direction : Z) : U unit :=
  let! w := window i in
  focus_loop (length (children w)) (children w) (Z.of_nat (focus_index w)) (u64 direction).

(** ** widgets.c: events *)

(** The callback a widget names, run on the widget. *)
Variable call : nat -> nat -> U unit.

Definition activate (i : nat) (v : tui_widget) : U unit :=
  match w_activate v with Some f => call f i | None => ret tt end.

(** The topmost visible window with the focus. *)
Fixpoint top_window (ws : list nat) : U (option nat) :=
  match ws with
  | [] => ret None
  | i :: ws => let! w := window i in if visible w && focused w then ret (Some i) else top_window ws
  end.

(** What a navigation key does to the selection of a list. *)
Definition list_key (v : tui_widget) (key : Z) : Z :=
  let sel := w_selected v in
  let count := w_item_count v in
  if (key =? TUI_KEY_UP) && z2b sel then sel - 1
  else if (key =? TUI_KEY_DOWN) && (u64 (sel + 1) <? count) then sel + 1
  else if key =? TUI_KEY_HOME then 0
  else if (key =? TUI_KEY_END) && z2b count then count - 1
  else if key =? TUI_KEY_PAGEUP then (if u64 (w_height v) <? sel then u64 (sel - w_height v) else 0)
  else if (key =? TUI_KEY_PAGEDOWN) && z2b count then
    let sel := u64 (sel + w_height v) in if count <=? sel then count - 1 else sel
  else sel.

(** Enter runs the callback only when no navigation key was recognised first. *)
Definition list_event (i : nat) (v : tui_widget) (key : Z) : U unit :=
  set_widget i (w_with_items (w_items v) (w_item_count v) (list_key v key)) ;;
  when (key =? 10) (activate i v) ;;
  tui_request_redraw.

(** Events of an application whose windows are [ws]; the result says whether it
    still runs. *)
Definition dispatch (ws : list nat) (e : tui_event) : U bool :=
  if bool_decide (e_type e = TUI_EVENT_CLOSE) then ret false else
  let! w := top_window (rev ws) in
  match w with
  | None => ret true
  | Some w =>
    if (e_key e =? TUI_KEY_F10) || (e_key e =? 27) then ret false else
    if e_key e =? 9 then focus_move w 1 ;; ret true else
    if e_key e =? TUI_KEY_BACKTAB then focus_move w (-1) ;; ret true else
    let! win := window w in
    match children win with
    | [] => ret true
    | _ =>
      match children win !! focus_index win with
      | None => undefined
      | Some i =>
        let! v := widget i in
        if negb (focusable v) then focus_move w 1 ;; ret true else
        if is_type v [TUI_TEXT_INPUT; TUI_PASSWORD_INPUT] then edit i (e_key e) ;; ret true else
        if is_type v [TUI_LISTBOX; TUI_TABLE; TUI_DROPDOWN] then list_event i v (e_key e) ;; ret true else
        if is_type v [TUI_CHECKBOX; TUI_RADIO] && ((e_key e =? 32) || (e_key e =? 10)) then
          set_widget i (fun w => w_with_flags (w_visible w) (w_enabled w) (w_focused w) (negb (w_checked w)) w) ;;
          activate i v ;; tui_request_redraw ;; ret true else
        when (is_type v [TUI_BUTTON] && ((e_key e =? 32) || (e_key e =? 10))) (activate i v) ;; ret true
      end
    end
  end.

Definition with_running (b : bool) (a : tui_application) : tui_application :=
  Application (name a) b (redraw a) (app_windows a).

(** tui_dispatch_event on the library's own application. *)
Definition tui_dispatch_event (e : tui_event) : U unit :=
  let! s := get in
  let! go := dispatch (app_windows (application s)) e in
  when (negb go) (set_app (with_running false)).

Definition tui_next_event : U tui_event :=
  fun s =>
    if has_posted s then
      Ok (posted s, Tui (term s) (has_api s) (initialized s) (disp s) (windows s) (window_used s) (widgets s) (used s)
            (application s) (posted s) false)
    else if negb (has_api s) then Undefined else
    match read_key (term s) with
    | None => OutOfFuel
    | Some (k, t) => Ok (Event (if k =? 3 then TUI_EVENT_CLOSE else TUI_EVENT_KEY) k 0 0, with_term t s)
    end.

Definition tui_post_event (e : tui_event) : U unit :=
  modify (fun s => Tui (term s) (has_api s) (initialized s) (disp s) (windows s) (window_used s) (widgets s) (used s)
                     (application s) e true).

Definition tui_app_stop : U unit := set_app (with_running false).

(** The event loop, for at most [fuel] events. *)
Fixpoint app_loop (fuel : nat) : U unit :=
  match fuel with
  | O => out_of_fuel
  | S fuel =>
    let! s := get in
    if negb (running (application s)) then ret tt else
    let! e := tui_next_event in
    tui_dispatch_event e ;; tui_render ;; app_loop fuel
  end.

Definition tui_app_run (fuel : nat) : U unit := tui_render ;; app_loop fuel.

(** ** dialog.c

    The dialogs run their own event loops, at most [fuel] events long.  An
    input or list that could not be created is a null pointer, read when the
    dialog ends. *)

Fixpoint message_loop (fuel : nat) (w : option nat) (buttons : Z) : U Z :=
  match fuel with
  | O => out_of_fuel
  | S fuel =>
    let! e := tui_next_event in
    if (e_key e =? 10) || (e_key e =? 32) then
      tui_window_destroy w ;; tui_request_redraw ;;
      ret (if z2b (Z.land buttons TUI_BUTTON_YES) then TUI_BUTTON_YES else TUI_BUTTON_OK)
    else if (e_key e =? 27) || (e_key e =? TUI_KEY_F10) then
      tui_window_destroy w ;; tui_request_redraw ;;
      ret (if z2b (Z.land buttons TUI_BUTTON_NO) then TUI_BUTTON_NO else 0)
    else message_loop fuel w buttons
  end.

Definition tui_message_box (fuel : nat) (t message : list Z) (buttons : Z) : U Z :=
  let! w := tui_window_create 0 0 58 7 t (Z.lor TUI_WINDOW_MODAL TUI_WINDOW_CENTER) in
  match w with
  | None => ret 0
  | Some _ =>
    tui_label_create w 2 2 message ;;
    tui_button_create w 22 4 12 (if z2b (Z.land buttons TUI_BUTTON_YES) then text "Yes" else text "OK") ;;
    tui_request_redraw ;; tui_render ;;
    message_loop fuel w buttons
  end.

Definition tui_confirm (fuel : nat) (t message : list Z) : U bool :=
  let! r := tui_message_box fuel t message (Z.lor TUI_BUTTON_YES TUI_BUTTON_NO) in ret (r =? TUI_BUTTON_YES).

(** The widget behind a pointer that may be null. *)
Definition deref (i : option nat) : U tui_widget :=
  match i with Some i => widget i | None => undefined end.

Fixpoint input_loop (fuel : nat) (w : nat) (input : option nat) (buffer : list Z) : U (option (list Z)) :=
  match fuel with
  | O => out_of_fuel
  | S fuel =>
    tui_render ;;
    let! e := tui_next_event in
    if e_key e =? 10 then
      let! v := deref input in
      tui_window_destroy (Some w) ;; ret (Some (copy_text buffer (Some (cstring (w_text v)))))
    else if e_key e =? 27 then tui_window_destroy (Some w) ;; ret None
    else dispatch [w] e ;; input_loop fuel w input buffer
  end.

(** [Some] of the buffer when the dialog was confirmed. *)
Definition tui_input_box (fuel : nat) (t prompt buffer : list Z) : U (option (list Z)) :=
  let! w := tui_window_create 0 0 60 9 t (Z.lor TUI_WINDOW_MODAL TUI_WINDOW_CENTER) in
  match w with
  | None => ret None
  | Some i =>
    tui_label_create w 2 2 prompt ;;
    let! input := tui_textbox_create w 2 4 54 (Some (cstring buffer)) (u64 (Z.of_nat (length buffer) - 1)) false in
    tui_widget_set_focus input ;; tui_request_redraw ;;
    input_loop fuel i input buffer
  end.

(** The first [TUI_MAX_ITEMS] entries of a directory, cut to 95 characters. *)
Fixpoint selector_names (n : nat) (i : Z) (path : list Z) (dirs : bool) (t : T) : list (list Z) :=
  match n with
  | O => []
  | S n =>
    match read_directory path i t with
    | None => []
    | Some (nm, type) =>
      if dirs && negb (type =? 1) then selector_names n (i + 1) path dirs t
      else take 95 nm :: selector_names n (i + 1) path dirs t
    end
  end.

Fixpoint selector_loop (fuel : nat) (w : nat) (l : option nat) (items : list (list Z)) : U (option (list Z)) :=
  match fuel with
  | O => out_of_fuel
  | S fuel =>
    tui_request_redraw ;; tui_render ;;
    let! e := tui_next_event in
    if e_key e =? 10 then
      let! v := deref l in
      match items !! Z.to_nat (w_selected v) with
      | Some it => tui_window_destroy (Some w) ;; ret (Some it)
      | None => undefined
      end
    else if e_key e =? 27 then tui_window_destroy (Some w) ;; ret None
    else dispatch [w] e ;; selector_loop fuel w l items
  end.

Definition tui_file_selector (fuel : nat) (t path out : list Z) (dirs : bool) : U (option (list Z)) :=
  let! s := get in
  let items := selector_names TUI_MAX_ITEMS 0 path dirs (term s) in
  match items with
  | [] => tui_message_box fuel t (text "No matching entries") TUI_BUTTON_OK ;; ret None
  | _ =>
    let! w := tui_window_create 0 0 60 18 t (Z.lor TUI_WINDOW_MODAL TUI_WINDOW_CENTER) in
    match w with
    | None => ret None
    | Some i =>
      let! l := tui_listbox_create w 2 2 54 12 (map Some items) (Z.of_nat (length items)) in
      tui_widget_set_focus l ;;
      let! r := selector_loop fuel i l items in
      ret (match r with Some it => Some (copy_text out (Some it)) | None => None end)
    end
  end.

End tui.
