(* ===== verification/TuiRender.v ===== *)
(** * Rendering the text user interface

    The invariant of the library's tables, and that tui_render brings the
    terminal in line with the back buffer. *)

From stdpp Require Import base numbers list strings.
From Stdlib Require Import ZArith Lia.
From S2P Require Import Prelude Effects Buffer TuiScreen TuiDraw TuiWidgets.

(** What the library expects of the terminal: a cell written inside the screen
    is shown from then on, and the size does not change. *)
Class TerminalLaws (T : Type) `{Terminal T} := {
  shows : T -> Z -> Z -> option (Z * Z);
  write_size px py ch a t :
    term_width (write_cell px py ch a t) = term_width t /\ term_height (write_cell px py ch a t) = term_height t;
  write_shows px py ch a t px' py' :
    0 <= px < term_width t -> 0 <= py < term_height t ->
    shows (write_cell px py ch a t) px' py' = if (px' =? px) && (py' =? py) then Some (ch, a) else shows t px' py';
  cursor_size px py v b t :
    term_width (set_cursor px py v b t) = term_width t /\ term_height (set_cursor px py v b t) = term_height t;
  cursor_shows px py v b t px' py' : shows (set_cursor px py v b t) px' py' = shows t px' py'
}.

Section render.

Context {T : Type} `{TerminalLaws T}.

(** ** The invariant *)

(** A widget that can be drawn: its window exists, its item count is within the
    item array, its cursor and scroll position are not negative. *)
Record widget_ok (n : nat) (v : tui_widget) : Prop := {
  ok_parent : exists p, w_parent v = Some p /\ (p < n)%nat;
  ok_items : w_item_count v <= Z.of_nat (length (w_items v));
  ok_cursor : is_type v [TUI_TEXT_INPUT; TUI_PASSWORD_INPUT] = true -> 0 <= w_cursor v /\ 0 <= w_scroll v
}.

Record tables_ok (ws : list tui_window) (vs : list tui_widget) (app : list nat) : Prop := {
  ok_app : Forall (fun i => (i < length ws)%nat) app;
  ok_children : Forall (fun w => Forall (fun c => (c < length vs)%nat) (children w)) ws;
  ok_widgets : Forall (fun v => w_visible v = true -> widget_ok (length ws) v) vs
}.

Definition objs_ok (s : tui T) : Prop := tables_ok (windows s) (widgets s) (app_windows (application s)).

(** Only the display and the widgets' scroll positions changed. *)
Record redrawn (s s' : tui T) : Prop := {
  rd_disp : drawn (disp s) (disp s');
  rd_term : term s' = term s;
  rd_api : has_api s' = has_api s;
  rd_init : initialized s' = initialized s;
  rd_windows : windows s' = windows s;
  rd_widgets : length (widgets s') = length (widgets s);
  rd_app : application s' = application s;
  rd_focus : w_focused <$> widgets s' = w_focused <$> widgets s;
  rd_ok : objs_ok s'
}.

Definition repaints (m : M (tui T) unit) : Prop :=
  forall s, disp_ok (disp s) -> objs_ok s -> exists s', m s = Ok (tt, s') /\ redrawn s s'.

Lemma redrawn_refl s : objs_ok s -> redrawn s s.
Proof. by constructor. Qed.

Lemma redrawn_trans a b c : redrawn a b -> redrawn b c -> redrawn a c.
Proof. intros [] []. constructor; try congruence. by eapply drawn_trans. Qed.

Lemma repaints_ret : repaints (ret tt).
Proof. intros s Hd Ho. exists s. split; [done|by apply redrawn_refl]. Qed.

Lemma repaints_seq m k s :
  disp_ok (disp s) -> objs_ok s -> repaints m ->
  (forall s1, redrawn s s1 -> disp_ok (disp s1) -> objs_ok s1 -> exists s', k s1 = Ok (tt, s') /\ redrawn s1 s') ->
  exists s', (m ;; k) s = Ok (tt, s') /\ redrawn s s'.
Proof.
  intros Hd Ho Hm Hk. destruct (Hm s Hd Ho) as (s1&E1&R1).
  destruct (Hk s1 R1) as (s2&E2&R2); [apply (drawn_ok (disp s)); [done|apply R1]|apply R1|].
  exists s2. rewrite (bind_ok _ _ _ _ _ E1). split; [done|]. by eapply redrawn_trans.
Qed.

Lemma repaints_draw m : draws m -> repaints (draw m).
Proof.
  intros Hm s Hd Ho. destruct (Hm (disp s) Hd) as (d&E&D). exists (with_disp d s).
  unfold draw. rewrite E. split; [done|]. by constructor.
Qed.

(** ** Drawing a widget *)

Lemma draws_view s skip line row col px py w h fg bg : draws (view_loop s skip line row col px py w h fg bg).
Proof.
  revert line row col. induction s as [|ch s IH]; intros line row col; cbn [view_loop]; [apply draws_ret|].
  repeat (case_match; simplify_eq; try apply draws_ret; try apply IH).
  all: apply draws_bind; [apply draws_text|apply IH].
Qed.

Lemma draws_list_rows n t v px py fg bg row :
  w_item_count v <= Z.of_nat (length (w_items v)) -> draws (list_rows n t v px py fg bg row).
Proof.
  intros Hi. revert row. induction n as [|n IH]; intros row; cbn [list_rows]; [apply draws_ret|]. cbv zeta.
  destruct (Z.leb_spec (w_item_count v) (u64 (w_scroll v + row))); [apply draws_ret|].
  pose proof (Z.mod_pos_bound (w_scroll v + row) (2 ^ 64) ltac:(lia)) as Hb. fold (u64 (w_scroll v + row)) in Hb.
  destruct (lookup_lt_is_Some_2 (w_items v) (Z.to_nat (u64 (w_scroll v + row)))) as [it Hit]; [lia|]. rewrite Hit.
  destruct (if u64 (w_scroll v + row) =? w_selected v then _ else _) as [rf rb]. draw_all. apply IH.
Qed.

Lemma draws_input t v start px py fg bg : 0 <= start -> draws (draw_input t v start px py fg bg).
Proof.
  intros Hs. unfold draw_input. destruct (if w_focused v then _ else _) as [bfg bbg]. cbv zeta.
  apply draws_bind; [apply draws_fill|].
  assert (Hnn : forall i, In i (upto (Z.min (w_width v) (text_len (w_text v) - start))) -> 0 <= i).
  { intros i. unfold upto. rewrite in_map_iff. intros (k&<-&_). lia. }
  revert Hnn. generalize (upto (Z.min (w_width v) (text_len (w_text v) - start))) as l. intros l Hnn.
  induction l as [|i l IH]; [apply draws_ret|]. cbn [each].
  apply draws_bind; [|apply IH; intros j Hj; apply Hnn; by right].
  assert (0 <= i) by (apply Hnn; by left). rewrite (proj2 (Z.ltb_ge _ _)) by lia.
  intros d Hd. destruct (is_type v [TUI_PASSWORD_INPUT]); unfold bind at 1; cbn [ret];
    (destruct (w_focused v && _); exact (draws_text _ _ _ _ _ _ d Hd)).
Qed.

Lemma input_start_nonneg v : 0 <= w_cursor v -> 0 <= w_scroll v -> 0 <= input_start v.
Proof.
  intros. unfold input_start. destruct (Z.ltb_spec (w_cursor v) (w_scroll v)); case_match; breflect; lia.
Qed.

(** Whatever its type, a well formed widget is drawn. *)
Lemma draws_body t v px py :
  w_item_count v <= Z.of_nat (length (w_items v)) ->
  (is_type v [TUI_TEXT_INPUT; TUI_PASSWORD_INPUT] = true -> 0 <= w_scroll v) ->
  draws (draw_body t v px py).
Proof.
  intros Hi Hs. unfold draw_body. destruct (colours t v) as [fg bg]. unfold is_type in Hs.
  destruct (w_type v) eqn:Ht;
    unfold draw_label, draw_view, draw_button, draw_check, draw_list, draw_progress, draw_scrollbar; cbv zeta;
    try (apply draws_input; apply Hs; by vm_compute);
    repeat match goal with |- draws (let '(_, _) := ?e in _) => destruct e end; draw_all;
    (apply draws_view || by apply draws_list_rows).
Qed.

Lemma widget_ok_scroll n v : widget_ok n v -> widget_ok n (w_with_scroll (drawn_scroll v) v).
Proof.
  intros [Hp Hi Hc]. constructor; [done|done|]. intros Ht. change (is_type v [TUI_TEXT_INPUT; TUI_PASSWORD_INPUT] = true) in Ht.
  destruct (Hc Ht). split; [done|]. cbn [w_with_scroll w_scroll]. unfold drawn_scroll. rewrite Ht.
  by apply input_start_nonneg.
Qed.

Lemma draw_one_repaints c t s :
  disp_ok (disp s) -> objs_ok s -> (c < length (widgets s))%nat ->
  exists s', tui_draw_one c t s = Ok (tt, s') /\ redrawn s s'.
Proof.
  intros Hd Ho Hc. destruct (lookup_lt_is_Some_2 (widgets s) c Hc) as [v Hv].
  assert (E0 : widget c s = Ok (v, s)) by (unfold widget; by rewrite Hv).
  unfold tui_draw_one. rewrite (bind_ok _ _ _ _ _ E0).
  destruct (w_visible v) eqn:Hvis; cbn [negb].
  2:{ exists s. split; [done|by apply redrawn_refl]. }
  destruct Ho as [Ha Hch Hws]. pose proof (proj1 (Forall_lookup _ _) Hws c v Hv Hvis) as Hok.
  destruct (ok_parent _ _ Hok) as (p&Hp&Hlt). rewrite Hp.
  destruct (lookup_lt_is_Some_2 (windows s) p Hlt) as [win Hwin].
  assert (E1 : window p s = Ok (win, s)) by (unfold window; by rewrite Hwin).
  rewrite (bind_ok _ _ _ _ _ E1).
  set (s1 := with_widgets (<[c := w_with_scroll (drawn_scroll v) v]> (widgets s)) s).
  assert (E2 : set_widget c (fun w => w_with_scroll (drawn_scroll w) w) s = Ok (tt, s1)).
  { unfold set_widget. by rewrite Hv. }
  rewrite (bind_ok _ _ _ _ _ E2).
  pose proof (widget_ok_scroll _ _ Hok) as [_ Hi Hs].
  destruct (repaints_draw (draw_body t (w_with_scroll (drawn_scroll v) v) (cx win v) (cy win v))) with (s := s1)
    as (s'&E'&R'); [|done| |].
  - apply draws_body; [done|]. intros Ht. by apply Hs.
  - constructor; cbn [s1 with_widgets windows widgets application]; [done|by rewrite length_insert|].
    apply Forall_insert; [done|]. intros _. by apply widget_ok_scroll.
  - exists s'. split; [done|]. destruct R' as [? ? ? ? ? Hl ? Hf ?]. constructor; try done.
    + rewrite Hl. apply length_insert.
    + rewrite Hf. cbn [s1 with_widgets widgets]. rewrite list_fmap_insert. cbn [w_with_scroll w_focused].
      apply list_insert_id. by rewrite list_lookup_fmap, Hv.
Qed.

Lemma each_repaints {A} (l : list A) f s :
  disp_ok (disp s) -> objs_ok s ->
  (forall a s1, a ∈ l -> redrawn s s1 -> disp_ok (disp s1) -> objs_ok s1 -> exists s', f a s1 = Ok (tt, s') /\ redrawn s1 s') ->
  exists s', each l f s = Ok (tt, s') /\ redrawn s s'.
Proof.
  revert s. induction l as [|a l IH]; intros s Hd Ho Hf; [by apply repaints_ret|]. cbn [each].
  destruct (Hf a s) as (s1&E1&R1); [left|by apply redrawn_refl|done|done|].
  destruct (IH s1) as (s2&E2&R2).
  - apply (drawn_ok (disp s)); [done|apply R1].
  - apply R1.
  - intros b s2 Hb R2. apply Hf; [by right|by eapply redrawn_trans].
  - exists s2. rewrite (bind_ok _ _ _ _ _ E1). split; [done|by eapply redrawn_trans].
Qed.

Lemma draw_widgets_repaints i t s :
  disp_ok (disp s) -> objs_ok s -> (i < length (windows s))%nat ->
  exists s', tui_draw_widgets i t s = Ok (tt, s') /\ redrawn s s'.
Proof.
  intros Hd Ho Hi. destruct (lookup_lt_is_Some_2 (windows s) i Hi) as [w Hw].
  unfold tui_draw_widgets. rewrite (bind_ok _ _ s s w) by (unfold window; by rewrite Hw).
  apply each_repaints; [done|done|]. intros c s1 Hc R1 Hd1 Ho1. apply draw_one_repaints; [done|done|].
  rewrite (rd_widgets _ _ R1). destruct Ho as [_ Hch _].
  exact (proj1 (Forall_forall _ _) (proj1 (Forall_lookup _ _) Hch i w Hw) c Hc).
Qed.

(** The whole redraw. *)
Lemma redraw_all_runs s :
  disp_ok (disp s) -> objs_ok s ->
  exists s', redraw_all s = Ok (tt, s') /\ drawn (disp s) (disp s') /\ term s' = term s /\ has_api s' = has_api s /\
    initialized s' = initialized s /\ objs_ok s' /\ redraw (application s') = false /\
    app_windows (application s') = app_windows (application s) /\ dirty (disp s') = true.
Proof.
  intros Hd Ho. unfold redraw_all. rewrite (bind_ok _ _ s s s) by done. cbv zeta.
  set (fill := tui_fill 0 0 _ _ _ _ _). set (body := fun i : nat => _).
  destruct (draws_fill 0 0 (scr_width (disp s)) (scr_height (disp s)) 32 (desktop_fg (theme (disp s)))
    (desktop_bg (theme (disp s))) (disp s) Hd) as (d1&E1&D1).
  assert (Hdirty : dirty d1 = true).
  { unfold tui_fill in E1. unfold bind in E1 at 1. destruct (each _ _ _) as [[[] d0]| |] in E1; try done.
    by injection E1 as <-. }
  assert (E2 : draw fill s = Ok (tt, with_disp d1 s)) by (unfold draw, fill; by rewrite E1).
  rewrite (bind_ok _ _ _ _ _ E2).
  destruct (each_repaints (app_windows (application s)) body (with_disp d1 s)) as (s2&E3&R3).
  - by apply (drawn_ok (disp s)).
  - done.
  - intros i s1 Hi R1 Hd1 Ho1. unfold body.
    assert (Hlt : (i < length (windows s1))%nat).
    { rewrite (rd_windows _ _ R1). exact (proj1 (Forall_forall _ _) (ok_app _ _ _ Ho) i Hi). }
    destruct (lookup_lt_is_Some_2 (windows s1) i Hlt) as [w Hw].
    rewrite (bind_ok _ _ s1 s1 w) by (unfold window; by rewrite Hw).
    destruct (visible w); [|by apply repaints_ret]. cbn [when].
    apply repaints_seq; [done|done|apply repaints_draw, draws_window|].
    intros s3 R3 Hd3 Ho3. apply draw_widgets_repaints; [done|done|]. by rewrite (rd_windows _ _ R3).
  - rewrite (bind_ok _ _ _ _ _ E3). eexists. split; [reflexivity|]. destruct R3 as [Dr Te Ap In Wi Le App _ Ok3].
    cbn in *. unfold objs_ok in Ok3. rewrite App in *. split_and!; try done; [by eapply drawn_trans|].
    by apply (drawn_dirty _ _ Dr).
Qed.

(** ** The terminal follows the front buffer *)

Definition unknown (c : tui_cell) : Prop := character c = 0xffffffff.

(** The terminal shows a buffer's cell, unless it holds the impossible
    character the front buffer starts with. *)
Definition shown_cell (t : T) (px py : Z) (c : tui_cell) : Prop :=
  unknown c \/ shows t px py = Some (character c, attr c).

Record synced (s : tui T) : Prop := {
  sy_disp : disp_ok (disp s);
  sy_api : has_api s = true;
  sy_init : initialized s = true;
  sy_fits : scr_width (disp s) <= term_width (term s) /\ scr_height (disp s) <= term_height (term s);
  sy_front : forall px py c, on_screen px py (disp s) = true -> front (disp s) !! idx px py = Some c ->
    shown_cell (term s) px py c
}.

Definition agree (s : tui T) (px py : Z) : Prop := front (disp s) !! idx px py = back (disp s) !! idx px py.

(** Part of the front buffer was brought up to date. *)
Record synced_to (s s' : tui T) : Prop := {
  st_synced : synced s';
  st_back : back (disp s') = back (disp s);
  st_size : forall px py, on_screen px py (disp s') = on_screen px py (disp s);
  st_dims : scr_width (disp s') = scr_width (disp s) /\ scr_height (disp s') = scr_height (disp s);
  st_windows : windows s' = windows s;
  st_widgets : widgets s' = widgets s;
  st_app : application s' = application s;
  st_agree : forall px py, on_screen px py (disp s) = true -> agree s px py -> agree s' px py
}.

Lemma synced_to_refl s : synced s -> synced_to s s.
Proof. by constructor. Qed.

Lemma synced_to_trans a b c : synced_to a b -> synced_to b c -> synced_to a c.
Proof.
  intros [? ? Hs1 [] ? ? ? Ha] [? ? Hs2 [] ? ? ? Hb]. constructor; try congruence; [split; congruence|].
  intros px py Hp Hq. apply Hb; [by rewrite Hs1|by apply Ha].
Qed.

Lemma sync_cell_runs px py s :
  synced s -> on_screen px py (disp s) = true ->
  exists s', sync_cell px py s = Ok (tt, s') /\ synced_to s s' /\ agree s' px py.
Proof.
  intros Hs Hp. pose proof (idx_bound _ _ _ (sy_disp s Hs) Hp) as Hi. destruct (sy_disp s Hs) as [Hf Hb Hw Hh].
  destruct (lookup_lt_is_Some_2 (front (disp s)) (idx px py)) as [a Ha]; [lia|].
  destruct (lookup_lt_is_Some_2 (back (disp s)) (idx px py)) as [b Hb']; [lia|].
  unfold sync_cell. fold (idx px py). rewrite Ha, Hb'. cbn [of_option obind].
  case_bool_decide as Hab; [exists s; split_and!; [done|by apply synced_to_refl|unfold agree; congruence]|].
  rewrite (sy_api s Hs). eexists. split; [reflexivity|].
  assert (Hl : (idx px py < length (front (disp s)))%nat) by lia.
  destruct (sy_fits s Hs) as [Hfw Hfh]. pose proof (proj1 (on_screen_spec _ _ _) Hp) as [Hx Hy].
  destruct (write_size px py (character b) (attr b) (term s)) as [Ew Eh].
  split; [|unfold agree; cbn; by rewrite list_lookup_insert_eq].
  constructor; try done.
  - constructor; cbn [term disp has_api initialized with_term with_disp with_front scr_width scr_height front back].
    + constructor; cbn; [by rewrite length_insert|done..].
    + apply Hs.
    + apply Hs.
    + by rewrite Ew, Eh.
    + intros qx qy c Hq Hc. change (on_screen qx qy (disp s) = true) in Hq.
      unfold shown_cell. rewrite write_shows by lia.
      destruct (decide (qx = px /\ qy = py)) as [[-> ->]|Hne].
      * rewrite list_lookup_insert_eq in Hc by done. injection Hc as <-. right. by rewrite !Z.eqb_refl.
      * rewrite list_lookup_insert_ne in Hc by (intros E; symmetry in E; by apply (idx_inj (disp s)) in E; [|apply Hs|..]).
        assert ((qx =? px) && (qy =? py) = false) as ->.
        { destruct (Z.eqb_spec qx px), (Z.eqb_spec qy py); try done. naive_solver. }
        by apply Hs.
  - intros qx qy Hq Hag. unfold agree in *. cbn.
    destruct (decide (idx qx qy = idx px py)) as [E|E].
    + rewrite E. by rewrite list_lookup_insert_eq.
    + by rewrite list_lookup_insert_ne.
Qed.

(** A loop that brings one thing after the other up to date. *)
Lemma each_sync {A} (l : list A) f (P : A -> tui T -> Prop) s :
  synced s ->
  (forall a s1, a ∈ l -> synced_to s s1 -> exists s', f a s1 = Ok (tt, s') /\ synced_to s1 s' /\ P a s') ->
  (forall a s1 s2, a ∈ l -> synced_to s s1 -> P a s1 -> synced_to s1 s2 -> P a s2) ->
  exists s', each l f s = Ok (tt, s') /\ synced_to s s' /\ forall a, a ∈ l -> P a s'.
Proof.
  revert s. induction l as [|a l IH]; intros s Hs Hf Hk.
  { exists s. split_and!; [done|by apply synced_to_refl|]. intros a Ha. by apply not_elem_of_nil in Ha. }
  destruct (Hf a s) as (s1&E1&S1&P1); [left|by apply synced_to_refl|].
  destruct (IH s1) as (s2&E2&S2&P2); [apply S1| | |].
  - intros b s2 Hb S2. apply Hf; [by right|by eapply synced_to_trans].
  - intros b s2 s3 Hb S2. apply Hk; [by right|by eapply synced_to_trans].
  - exists s2. cbn [each]. rewrite (bind_ok _ _ _ _ _ E1). split_and!; [done|by eapply synced_to_trans|].
    intros b [->|Hb]%elem_of_cons; [|by apply P2]. by eapply Hk; [left|exact S1|exact P1|].
Qed.

Lemma elem_of_upto a n : a ∈ upto n <-> 0 <= a < n.
Proof.
  unfold upto. rewrite list_elem_of_In, in_map_iff. split.
  - intros (k&<-&Hk%in_seq). lia.
  - intros Ha. exists (Z.to_nat a). split; [lia|]. apply in_seq. lia.
Qed.

Lemma sync_cells_runs s :
  synced s ->
  exists s', sync_cells (scr_width (disp s)) (scr_height (disp s)) s = Ok (tt, s') /\ synced_to s s' /\
    forall px py, on_screen px py (disp s) = true -> agree s' px py.
Proof.
  intros Hs. unfold sync_cells.
  assert (Hon : forall px py, px ∈ upto (scr_width (disp s)) -> py ∈ upto (scr_height (disp s)) ->
    on_screen px py (disp s) = true).
  { intros px py Hx%elem_of_upto Hy%elem_of_upto. by apply on_screen_spec. }
  destruct (each_sync (upto (scr_height (disp s)))
    (fun py => each (upto (scr_width (disp s))) (fun px => sync_cell px py))
    (fun py s' => forall px, px ∈ upto (scr_width (disp s)) -> agree s' px py) s Hs) as (s'&E&S'&A').
  - intros py s1 Hy S1.
    destruct (each_sync (upto (scr_width (disp s))) (fun px => sync_cell px py) (fun px s' => agree s' px py) s1)
      as (s2&E2&S2&A2); [apply S1| | |by exists s2].
    + intros px s2 Hx S2. apply sync_cell_runs; [apply S2|].
      rewrite (st_size _ _ S2), (st_size _ _ S1). by apply Hon.
    + intros px s2 s3 Hx S2 Ha S3. apply (st_agree _ _ S3); [|done].
      rewrite (st_size _ _ S2), (st_size _ _ S1). by apply Hon.
  - intros py s1 s2 Hy S1 Ha S2 px Hx. apply (st_agree _ _ S2); [|by apply Ha].
    rewrite (st_size _ _ S1). by apply Hon.
  - exists s'. split_and!; [done|done|]. intros px py [Hx Hy]%on_screen_spec. apply A'; by apply elem_of_upto.
Qed.

(** ** The cursor *)

Lemma focused_input_total cs (s : tui T) :
  Forall (fun c => (c < length (widgets s))%nat) cs -> exists r, focused_input cs s = Ok (r, s).
Proof.
  induction 1 as [|c cs Hc _ IH]; [by exists None|]. cbn [focused_input].
  destruct (lookup_lt_is_Some_2 (widgets s) c Hc) as [v Hv].
  rewrite (bind_ok _ _ s s v) by (unfold widget; by rewrite Hv).
  destruct (w_focused v && _); [by exists (Some v)|done].
Qed.

Lemma find_cursor_total ws (s : tui T) :
  Forall (fun w => Forall (fun c => (c < length (widgets s))%nat) (children w)) (windows s) ->
  Forall (fun i => (i < length (windows s))%nat) ws -> exists r, find_cursor ws s = Ok (r, s).
Proof.
  intros Hch. induction 1 as [|i ws Hi _ IH]; [by exists None|]. cbn [find_cursor].
  destruct (lookup_lt_is_Some_2 (windows s) i Hi) as [w Hw].
  rewrite (bind_ok _ _ s s w) by (unfold window; by rewrite Hw).
  destruct (negb (visible w) || negb (focused w)); [done|].
  destruct (focused_input_total (children w) s) as [r Hr]; [by apply (proj1 (Forall_lookup _ _) Hch i w)|].
  rewrite (bind_ok _ _ _ _ _ Hr). destruct r; [by eexists|done].
Qed.

Lemma update_cursor_runs s :
  objs_ok s -> synced s ->
  exists s', tui_update_cursor (app_windows (application s)) s = Ok (tt, s') /\ synced s' /\ disp s' = disp s /\
    objs_ok s' /\ application s' = application s /\
    forall px py, shows (term s') px py = shows (term s) px py.
Proof.
  intros [Ha Hc Hw] Hs. unfold tui_update_cursor.
  destruct (find_cursor_total (rev (app_windows (application s))) s Hc) as [r Hr].
  { apply Forall_forall. intros i Hi. apply (proj1 (Forall_forall _ _) Ha). rewrite list_elem_of_In in *.
    by apply in_rev. }
  rewrite (bind_ok _ _ _ _ _ Hr).
  assert (Hsync : forall t, (exists a b c e, t = set_cursor a b c e (term s)) -> synced (with_term t s)).
  { intros t (a&b&c&e&->). destruct Hs as [Hd Hapi Hini [Hfw Hfh] Hf]. destruct (cursor_size a b c e (term s)) as [Ew Eh].
    constructor; cbn; try done; [by rewrite Ew, Eh|]. intros px py ce Hp Hce. unfold shown_cell. rewrite cursor_shows.
    by apply Hf. }
  destruct r as [[cx cy]|]; unfold on_term; rewrite (sy_api s Hs); eexists; (split; [reflexivity|]);
    split_and!; try done; try (apply Hsync; by do 4 eexists); try (intros; cbn; apply cursor_shows).
Qed.

(** The library is ready to draw and the terminal shows its front buffer. *)
Record ready (s : tui T) : Prop := { rd_objs : objs_ok s; rd_synced : synced s }.

(** What was drawn since keeps the terminal in line with the front buffer. *)
Lemma synced_drawn s s' :
  synced s -> drawn (disp s) (disp s') -> term s' = term s -> has_api s' = has_api s ->
  initialized s' = initialized s -> synced s'.
Proof.
  intros [Hd Ha Hi Hf Hs] D Ht Hap Hin. pose proof (drawn_ok _ _ Hd D) as Hd'.
  pose proof (fun px py => drawn_on_screen _ _ px py D) as Hon. destruct D as [Ew Eh Ef _ _ _ _ _].
  constructor; try congruence.
  intros px py c. rewrite Ht, Ef, Hon. apply Hs.
Qed.

Lemma initialize_ready a (s s1 : tui T) :
  objs_ok s -> length (front (disp s)) = CELLS -> length (back (disp s)) = CELLS ->
  tui_initialize a s = Ok (true, s1) -> ready s1.
Proof.
  intros Ho Hf Hb. unfold tui_initialize. destruct a as [a|]; [|done]. destruct (_ || _); [done|].
  destruct (acquire (term s)) as [[] t]; cbn [negb]; [|done].
  destruct (Z.ltb_spec (Z.min (term_width t) SCREEN_STRIDE) 40), (Z.ltb_spec (Z.min (term_height t) SCREEN_ROWS) 15);
    cbn [orb]; try done. intros [= <-]. split; [done|]. constructor; cbn; [|done|done|lia|].
  - constructor; cbn; [by rewrite length_map|by rewrite length_map|lia|lia].
  - intros px py c _ Hc. rewrite list_lookup_fmap in Hc. destruct (front (disp s) !! idx px py); [|done].
    injection Hc as <-. by left.
Qed.

(** The comparison of the buffers and the cursor, once everything is drawn. *)
Lemma flush_runs s :
  ready s ->
  exists s', (sync_cells (scr_width (disp s)) (scr_height (disp s)) ;; draw (modify (with_dirty false)) ;;
              tui_update_cursor (app_windows (application s))) s = Ok (tt, s') /\ ready s' /\
    dirty (disp s') = false /\ application s' = application s /\
    forall px py c, on_screen px py (disp s') = true -> back (disp s') !! idx px py = Some c ->
      front (disp s') !! idx px py = Some c /\ shown_cell (term s') px py c.
Proof.
  intros [Ho Hs]. destruct (sync_cells_runs s Hs) as (s1&E1&S1&A1). rewrite (bind_ok _ _ _ _ _ E1).
  set (s2 := with_disp (with_dirty false (disp s1)) s1).
  rewrite (bind_ok _ _ s1 s2 tt) by done.
  assert (Happ : application s2 = application s) by apply S1. rewrite <- Happ.
  assert (Ho2 : objs_ok s2).
  { unfold objs_ok in *. cbn. by rewrite (st_windows _ _ S1), (st_widgets _ _ S1), (st_app _ _ S1). }
  assert (Hs2 : synced s2).
  { destruct (st_synced _ _ S1) as [[] ? ? ? Hf]. by constructor. }
  destruct (update_cursor_runs s2 Ho2 Hs2) as (s3&E3&S3&D3&O3&A3&T3).
  exists s3. split_and!; [done|by split|by rewrite D3|done|].
  intros px py c. rewrite D3. intros Hon Hc. change (on_screen px py (disp s1) = true) in Hon.
  change (back (disp s1) !! idx px py = Some c) in Hc. change (front (disp s2)) with (front (disp s1)).
  assert (Hf : front (disp s1) !! idx px py = Some c).
  { rewrite <- Hc. apply A1. by rewrite <- (st_size _ _ S1). }
  split; [done|]. unfold shown_cell. rewrite T3. by apply (sy_front _ (st_synced _ _ S1)).
Qed.

(** C34. tui_render brings the screen up to date.  After a successful
    tui_initialize the library is [ready]: its tables are well formed and the
    terminal shows every known cell of the front buffer.  From a ready state
    tui_render always returns, in a ready state; if anything was drawn or a
    redraw was requested, afterwards the terminal shows every visible cell of
    the back buffer (character and attribute byte), both buffers agree on the
    visible area, and neither a redraw nor a flush is pending; otherwise it
    does nothing. *)
Theorem render_shows_back (s : tui T) :
  (forall a s1, objs_ok s -> length (front (disp s)) = CELLS -> length (back (disp s)) = CELLS ->
     tui_initialize a s = Ok (true, s1) -> ready s1) /\
  (ready s ->
   exists s', tui_render s = Ok (tt, s') /\ ready s' /\
     if dirty (disp s) || redraw (application s) then
       dirty (disp s') = false /\ redraw (application s') = false /\
       forall px py c, on_screen px py (disp s') = true -> back (disp s') !! idx px py = Some c ->
         front (disp s') !! idx px py = Some c /\ shown_cell (term s') px py c
     else s' = s).
Proof.
  split; [intros a s1; apply initialize_ready|]. intros [Ho Hs].
  unfold tui_render. rewrite (bind_ok _ _ s s s) by done. rewrite (sy_init s Hs). cbn [negb].
  destruct (redraw (application s)) eqn:Hr; cbn [when].
  - destruct (redraw_all_runs s (sy_disp s Hs) Ho) as (s1&E1&D1&T1&A1&I1&O1&R1&W1&Y1).
    rewrite (bind_ok _ _ _ _ _ E1), (bind_ok _ _ s1 s1 s1) by done. rewrite Y1. cbn [negb].
    destruct (flush_runs s1) as (s'&->&Hrd&Hdi&Hap&Hsh); [split; [done|by eapply synced_drawn]|].
    exists s'. rewrite orb_true_r, Hap. done.
  - rewrite (bind_ok _ _ s s tt) by done. rewrite (bind_ok _ _ s s s) by done.
    destruct (dirty (disp s)) eqn:Hdi; cbn [negb orb]; [|by exists s].
    destruct (flush_runs s) as (s'&->&Hrd&Hdi'&Hap&Hsh); [done|]. exists s'. by rewrite Hap.
Qed.

End render.

(** ** A terminal: a grid of cells and the keys to come *)

Record grid_term := Grid { g_width : Z; g_height : Z; grid : Z -> Z -> option (Z * Z); g_keys : list Z; g_owned : bool }.

#[export] Instance grid_terminal : Terminal grid_term := {
  acquire t := (negb (g_owned t), Grid (g_width t) (g_height t) (grid t) (g_keys t) true);
  release t := Grid (g_width t) (g_height t) (grid t) (g_keys t) false;
  term_width := g_width;
  term_height := g_height;
  unicode _ := true;
  write_cell px py ch a t :=
    Grid (g_width t) (g_height t)
      (fun x y => if (x =? px) && (y =? py) then Some (ch, a) else grid t x y) (g_keys t) (g_owned t);
  set_cursor _ _ _ _ t := t;
  read_key t := match g_keys t with
                | [] => None
                | k :: ks => Some (k, Grid (g_width t) (g_height t) (grid t) ks (g_owned t))
                end;
  read_directory _ _ _ := None
}.

#[export] Instance grid_laws : TerminalLaws grid_term.
Proof. refine {| shows := grid |}; done. Defined.

Definition grid0 (keys : list Z) : grid_term := Grid 80 25 (fun _ _ => None) keys false.

Definition started (keys : list Z) : tui grid_term :=
  match tui_initialize (Some (Api 3 true true)) (tui0 (grid0 keys)) with Ok (_, s) => s | _ => tui0 (grid0 keys) end.

Lemma tui0_objs keys : objs_ok (tui0 (grid0 keys)).
Proof. constructor; cbn [tui0 windows widgets application app_windows]; repeat constructor; done. Qed.

Lemma render_witness :
  exists s', tui_render (started []) = Ok (tt, s') /\ grid (term s') 3 4 = Some (32, 31).
Proof.
  destruct (render_shows_back (tui0 (grid0 []))) as [Hinit _].
  assert (Hr : ready (started [])).
  { apply (Hinit (Some (Api 3 true true))); [apply tui0_objs|by apply length_replicate..|vm_compute; reflexivity]. }
  destruct (render_shows_back (started [])) as [_ Hren]. destruct (Hren Hr) as (s'&E&Hr'&Hc).
  exists s'. split; [exact E|].
  assert (Hd : dirty (disp (started [])) || redraw (application (started [])) = true) by (vm_compute; reflexivity).
  rewrite Hd in Hc. destruct Hc as (_&_&Hc).
  assert (Hb : match tui_render (started []) with
               | Ok (_, s) => on_screen 3 4 (disp s) = true /\ back (disp s) !! idx 3 4 = Some (Cell 32 15 1 0)
               | _ => False
               end) by (vm_compute; split; reflexivity).
  rewrite E in Hb. destruct Hb as [Hon Hb]. destruct (Hc 3 4 (Cell 32 15 1 0) Hon Hb) as [_ [Hu|Hs]].
  - discriminate Hu.
  - exact Hs.
Defined.
