(* ===== verification/TuiTheorems.v ===== *)
(** * What the text user interface's controls do

    Text boxes edit a zipper; Tab moves the focus to the next control that can
    take it; lists keep the selection inside the items and in view; windows are
    never given back. *)

From stdpp Require Import base numbers list strings.
From Stdlib Require Import ZArith Lia.
From S2P Require Import Prelude Effects Buffer TuiScreen TuiDraw TuiWidgets TuiRender.

(** ** Text boxes *)

(** The text before and after the cursor, and the insert mode. *)
Record textbox := Textbox { before : list Z; after : list Z; inserting : bool }.

Definition box_key (max : Z) (b : textbox) (key : Z) : textbox :=
  let '(Textbox l r ins) := b in
  if key =? TUI_KEY_LEFT then
    match rev l with c :: l' => Textbox (rev l') (c :: r) ins | [] => b end
  else if key =? TUI_KEY_RIGHT then match r with c :: r' => Textbox (l ++ [c]) r' ins | [] => b end
  else if key =? TUI_KEY_HOME then Textbox [] (l ++ r) ins
  else if key =? TUI_KEY_END then Textbox (l ++ r) [] ins
  else if key =? TUI_KEY_INSERT then Textbox l r (negb ins)
  else if (key =? 8) || (key =? 127) then Textbox (rev (tl (rev l))) r ins
  else if key =? TUI_KEY_DELETE then Textbox l (tl r) ins
  else if (32 <=? key) && (key <? 127) && (Z.of_nat (length l + length r) <? max) then
    Textbox (l ++ [key]) (if ins then r else tl r) ins
  else b.

(** The widget holds the text, terminated, in its buffer. *)
Record holds_box (b : textbox) (w : tui_widget) : Prop := {
  hb_text : exists rest, w_text w = before b ++ after b ++ 0 :: rest;
  hb_size : length (w_text w) = 4096%nat;
  hb_cursor : w_cursor w = Z.of_nat (length (before b));
  hb_insert : w_insert w = inserting b;
  hb_chars : is_cstr (before b ++ after b)
}.

Lemma holds_len b w : holds_box b w -> text_len (w_text w) = Z.of_nat (length (before b) + length (after b)).
Proof.
  intros [(rest&Ht) _ _ _ Hc]. unfold text_len. rewrite Ht, app_assoc, cstring_app_nul by done.
  by rewrite length_app.
Qed.

(** What an edit leaves alone. *)
Lemma holds_edit b w m c ins t :
  (exists rest, t = before b ++ after b ++ 0 :: rest) -> length t = 4096%nat ->
  c = Z.of_nat (length (before b)) -> ins = inserting b -> is_cstr (before b ++ after b) ->
  holds_box b (w_with_edit m c ins t w).
Proof. by constructor. Qed.

(** A cursor movement keeps the buffer. *)
Lemma holds_move b b' w m c :
  holds_box b w -> before b' ++ after b' = before b ++ after b -> c = Z.of_nat (length (before b')) ->
  inserting b' = inserting b -> holds_box b' (w_with_edit m c (w_insert w) (w_text w) w).
Proof.
  intros [(rest&Ht) Hs Hc Hi Hch] He -> Hin. apply holds_edit; [|done|done|congruence|by rewrite He].
  exists rest. by rewrite Ht, !app_assoc, He.
Qed.

(** Removing the character after [l]. *)
Lemma holds_remove l c r ins w m rest :
  w_text w = l ++ c :: r ++ 0 :: rest -> length (w_text w) = 4096%nat -> is_cstr (l ++ c :: r) -> w_insert w = ins ->
  exists t, shift_left (S (length r)) (length l) (w_text w) = Ok t /\
    holds_box (Textbox l r ins) (w_with_edit m (Z.of_nat (length l)) (w_insert w) t w).
Proof.
  intros Ht Hs Hc Hi. rewrite Ht, remove_char. eexists. split; [done|]. apply holds_edit; cbn [before after inserting].
  - by eexists.
  - rewrite Ht in Hs. rewrite !length_app in *. cbn [length] in *. rewrite length_app in *. cbn [length] in *. lia.
  - done.
  - done.
  - unfold is_cstr in *. rewrite Forall_app, Forall_cons in Hc. rewrite Forall_app. tauto.
Qed.

(** Typing a character, in either mode. *)
Lemma holds_type l r ins w m key rest :
  w_text w = l ++ r ++ 0 :: rest -> length (w_text w) = 4096%nat -> is_cstr (l ++ r) -> w_insert w = ins ->
  32 <= key < 127 -> (length l + length r < 127)%nat ->
  exists t,
    (do t <- (if ins then shift_right (length r + 1) (length l) (w_text w) else Ok (w_text w));
     do t <- wr (length l) key t;
     if negb ins && (Nat.eqb (length r) 0) then wr (length l + 1) 0 t else Ok t) = Ok t /\
    holds_box (Textbox (l ++ [key]) (if ins then r else tl r) ins) (w_with_edit m (Z.of_nat (length l + 1)) (w_insert w) t w).
Proof.
  intros Ht Hs Hc Hi Hk Hn. rewrite Ht in *. rewrite !length_app in Hs. cbn [length] in Hs.
  assert (Hck : is_cstr (l ++ [key])) by (apply Forall_app in Hc as [? ?]; apply Forall_app; repeat constructor; (done || lia)).
  destruct rest as [|z rest]; [cbn [length] in Hs; lia|]. destruct ins; cbn [negb andb].
  - replace (l ++ r ++ 0 :: z :: rest) with (l ++ (r ++ [0]) ++ z :: rest) by (by rewrite <- !app_assoc).
    replace (length r + 1)%nat with (length (r ++ [0])) by (by rewrite length_app). rewrite <- obind_assoc.
    rewrite insert_char. eexists. split; [done|].
    apply holds_edit; cbn [before after inserting]; [|rewrite ?length_app; cbn [length] in *; rewrite ?length_app; cbn; lia..|done|].
    + exists rest. by rewrite <- !app_assoc.
    + apply Forall_app in Hc as [? ?]. by apply Forall_app.
  - cbn [obind]. destruct r as [|c r]; cbn [app tl length Nat.eqb].
    + rewrite wr_app. cbn [obind]. replace (l ++ key :: z :: rest) with ((l ++ [key]) ++ z :: rest) by (by rewrite <- app_assoc).
      replace (length l + 1)%nat with (length (l ++ [key])) by (by rewrite length_app). rewrite wr_app.
      eexists. split; [done|]. apply holds_edit; cbn [before after inserting app];
        [by eexists|rewrite !length_app; cbn [length] in *; lia|by rewrite !length_app|done|by rewrite app_nil_r].
    + rewrite wr_app. cbn [obind]. eexists. split; [done|].
      apply holds_edit; cbn [before after inserting];
        [|rewrite !length_app; cbn [length] in *; rewrite length_app; cbn [length]; lia|by rewrite length_app|done|].
      * exists (z :: rest). by rewrite <- app_assoc.
      * apply Forall_app in Hc as [? Hr]. apply Forall_cons in Hr as [_ ?]. by apply Forall_app.
Qed.

Lemma edit_key b w key :
  holds_box b w -> 0 <= w_maximum w <= 127 ->
  exists c ins t, edit_text w key = Ok (w_with_edit (w_maximum w) c ins t w) /\
    holds_box (box_key (w_maximum w) b key) (w_with_edit (w_maximum w) c ins t w).
Proof.
  intros Hb Hm. pose proof (holds_len b w Hb) as Hn. destruct b as [l r ins]. cbn [before after] in *.
  assert (Hsame : exists c i t, Ok w = Ok (w_with_edit (w_maximum w) c i t w) /\
    holds_box (Textbox l r ins) (w_with_edit (w_maximum w) c i t w)).
  { exists (w_cursor w), (w_insert w), (w_text w). by destruct w. }
  pose proof Hb as [(rest&Ht) Hs Hc Hi Hch]. cbn [before after inserting] in *.
  unfold edit_text, box_key. rewrite Hn, Hc, (u64_small (w_maximum w)) by lia. cbv zeta.
  destruct (Z.eqb_spec key TUI_KEY_LEFT) as [->|HL]; cbn [andb].
  { destruct l as [|c l _] using rev_ind; [exact Hsame|]. rewrite rev_app_distr, length_app. cbn [length rev app].
    unfold z2b. rewrite (proj2 (Z.eqb_neq _ _)) by lia. cbn [negb]. rewrite rev_involutive.
    eexists _, _, _. split; [done|]. eapply holds_move; [done|by cbn; rewrite <- app_assoc|cbn; lia|done]. }
  destruct (Z.eqb_spec key TUI_KEY_RIGHT) as [->|HR]; cbn [andb].
  { destruct r as [|c r]; cbn [length].
    - rewrite (proj2 (Z.ltb_ge _ _)) by lia. exact Hsame.
    - rewrite (proj2 (Z.ltb_lt _ _)) by lia. eexists _, _, _. split; [done|].
      eapply holds_move; [done|by cbn; rewrite <- app_assoc|cbn; rewrite length_app; cbn; lia|done]. }
  destruct (key =? TUI_KEY_HOME).
  { eexists _, _, _. split; [done|]. by eapply holds_move. }
  destruct (key =? TUI_KEY_END).
  { eexists _, _, _. split; [done|]. eapply holds_move; [done|by cbn; rewrite app_nil_r|cbn; rewrite length_app; lia|done]. }
  destruct (key =? TUI_KEY_INSERT).
  { eexists _, _, _. split; [done|]. apply holds_edit; [by exists rest|done|done|by rewrite Hi|done]. }
  destruct ((key =? 8) || (key =? 127)) eqn:Hbs; cbn [andb].
  { destruct l as [|c l _] using rev_ind.
    - cbn [length Z.of_nat z2b Z.eqb negb rev tl]. apply orb_prop in Hbs as [->%Z.eqb_eq| ->%Z.eqb_eq]; exact Hsame.
    - rewrite rev_app_distr, length_app in *. cbn [rev app tl length] in *. rewrite rev_involutive. unfold z2b.
      rewrite (proj2 (Z.eqb_neq _ _)), (proj2 (Z.ltb_ge _ _)) by lia. cbn [negb].
      rewrite <- app_assoc in Ht, Hch. destruct (holds_remove l c r ins w (w_maximum w) rest) as (t&E&Hh); [done..|].
      replace (Z.to_nat _) with (S (length r)) by lia. replace (Z.to_nat (_ - 1)) with (length l) by lia.
      rewrite E. cbn [obind]. eexists _, _, _. split; [done|]. by replace (Z.of_nat (length l + 1) - 1) with (Z.of_nat (length l)) by lia. }
  destruct (Z.eqb_spec key TUI_KEY_DELETE) as [->|HD]; cbn [andb].
  { destruct r as [|c r]; cbn [length tl].
    - rewrite (proj2 (Z.ltb_ge _ _)) by lia. exact Hsame.
    - rewrite (proj2 (Z.ltb_lt _ _)), (proj2 (Z.ltb_ge _ _)) by lia.
      destruct (holds_remove l c r ins w (w_maximum w) rest) as (t&E&Hh); [done..|].
      replace (Z.to_nat (_ - _)) with (S (length r)) by lia. rewrite Nat2Z.id, E. cbn [obind]. by eexists _, _, _. }
  destruct ((32 <=? key) && (key <? 127) && (_ <? w_maximum w)) eqn:Hty; [|exact Hsame]. breflect.
  destruct (holds_type l r ins w (w_maximum w) key rest) as (t&E&Hh); [done|done|done|done|lia|lia|].
  rewrite (proj2 (Z.ltb_ge _ _)) by lia. rewrite Hi.
  replace (Z.to_nat (_ + 1 - _)) with (length r + 1)%nat by lia. rewrite !Nat2Z.id.
  replace (Z.to_nat (Z.of_nat (length l) + 1)) with (length l + 1)%nat by lia.
  replace (_ <? Z.of_nat (length l) + 1) with (Nat.eqb (length r) 0).
  2:{ destruct (Nat.eqb_spec (length r) 0); symmetry; [apply Z.ltb_lt|apply Z.ltb_ge]; lia. }
  exists (Z.of_nat (length l + 1)), ins, t. rewrite Hi in Hh. split; [|exact Hh].
  destruct (if ins then _ else _) as [t1| |]; cbn [obind] in *; [|done|done].
  destruct (wr (length l) key t1) as [t2| |]; cbn [obind] in *; [|done|done]. rewrite E. cbn [obind].
  by rewrite Nat2Z.inj_add.
Qed.

(** A sequence of keys. *)
Fixpoint edit_all (w : tui_widget) (keys : list Z) : outcome tui_widget :=
  match keys with [] => Ok w | k :: keys => do w <- edit_text w k; edit_all w keys end.

Lemma box_key_fits max b key :
  (Z.of_nat (length (before b) + length (after b)) <= max) ->
  Z.of_nat (length (before (box_key max b key)) + length (after (box_key max b key))) <= max.
Proof.
  destruct b as [l r ins]. cbn [before after]. intros Hn. unfold box_key.
  repeat match goal with
  | |- context [if ?b then _ else _] => destruct b eqn:?
  | |- context [match rev l with _ => _ end] => destruct l as [|? l _] using rev_ind; [|rewrite rev_app_distr]
  | |- context [match r with _ => _ end] => destruct r
  | |- context [rev (tl (rev l))] => destruct l as [|? l _] using rev_ind; [|rewrite rev_app_distr; cbn [rev app tl]]
  end; cbn [before after rev app tl length] in *; rewrite ?rev_involutive, ?length_app in *; cbn [length] in *; breflect;
    try lia; destruct r; cbn [tl length] in *; lia.
Qed.

(** C35. A text box edits its text.  For a widget whose buffer holds the text
    [before b ++ after b] with the cursor between the two parts, and whose
    maximum is at most 127, every sequence of keys is handled without leaving
    the 4096-byte buffer, and the widget then holds the text obtained by the
    editing rules [box_key]: arrows, Home and End move the cursor, Insert
    switches the mode, Backspace and Delete remove the character before and
    after the cursor, a printable character is inserted or overwrites while
    the text is shorter than the maximum, every other key is ignored.  Text
    that fits the maximum keeps fitting it, and nothing of the widget but
    cursor, mode and text changes. *)
Theorem textbox_edits b w keys :
  holds_box b w -> 0 <= w_maximum w <= 127 ->
  exists c ins t, let w' := w_with_edit (w_maximum w) c ins t w in
    edit_all w keys = Ok w' /\ holds_box (fold_left (box_key (w_maximum w)) keys b) w' /\
    (Z.of_nat (length (before b) + length (after b)) <= w_maximum w -> text_len (w_text w') <= w_maximum w).
Proof.
  cbv zeta. revert b w. induction keys as [|k keys IH]; intros b w Hb Hm.
  - exists (w_cursor w), (w_insert w), (w_text w). replace (w_with_edit _ _ _ _ w) with w by (by destruct w).
    split_and!; [done|done|]. by rewrite (holds_len b).
  - destruct (edit_key b w k Hb Hm) as (c&ins&t&E&Hb'). cbn [edit_all fold_left]. rewrite E. cbn [obind].
    destruct (IH _ _ Hb') as (c'&ins'&t'&E'&Hb''&Hf); [done|]. exists c', ins', t'. split_and!; [exact E'|exact Hb''|].
    intros Hl. apply Hf. by apply box_key_fits.
Qed.

Definition demo_box : tui_widget := w_with_edit 5 0 true (replicate 4096 0) blank_widget.

Lemma textbox_witness :
  exists c ins t, edit_all demo_box [97; 98; TUI_KEY_LEFT; 99] = Ok (w_with_edit 5 c ins t demo_box) /\
    cstring t = [97; 99; 98] /\ c = 2.
Proof.
  destruct (textbox_edits (Textbox [] [] true) demo_box [97; 98; TUI_KEY_LEFT; 99]) as (c&ins&t&E&Hb&_).
  - constructor; [by exists (replicate 4095 0)|by apply length_replicate|done|done|constructor].
  - cbn. lia.
  - exists c, ins, t. split; [exact E|]. destruct Hb as [(rest&Ht) _ Hc _ Hch]. cbn in Ht, Hc. split; [|exact Hc].
    rewrite Ht. reflexivity.
Defined.

(** ** Focus *)

Section focus.

Context {T : Type} `{TerminalLaws T}.

(** The positions Tab tries, in order. *)
Definition ring (m n : nat) (at_ dir : Z) : list nat :=
  map (fun j => Z.to_nat ((at_ + dir * (Z.of_nat j + 1)) mod Z.of_nat n)) (seq 0 m).

Definition takes_focus (vs : list tui_widget) (cs : list nat) (k : nat) : bool :=
  match cs !! k with
  | Some c => match vs !! c with Some v => focusable v | None => false end
  | None => false
  end.

Definition next_focus (vs : list tui_widget) (cs : list nat) (at_ dir : Z) : option nat :=
  find (takes_focus vs cs) (ring (length cs) (length cs) at_ dir).

Lemma ring_cons m n at_ dir :
  (0 < n)%nat ->
  ring (S m) n at_ dir =
  Z.to_nat ((at_ + dir) mod Z.of_nat n) :: ring m n ((at_ + dir) mod Z.of_nat n) dir.
Proof.
  intros Hn. unfold ring. cbn [seq map]. f_equal; [do 2 f_equal; lia|]. rewrite <- seq_shift, map_map.
  apply map_ext. intros j. f_equal. rewrite Zplus_mod_idemp_l. f_equal. lia.
Qed.

Lemma step_mod at_ n dir :
  dir = 1 \/ dir = -1 -> 0 <= at_ < n -> n < 2 ^ 62 -> u64 (at_ + n + u64 dir) mod n = (at_ + dir) mod n.
Proof.
  intros Hdir Ha Hn. assert (u64 (at_ + n + u64 dir) = at_ + dir + n) as ->.
  { destruct Hdir as [-> | ->]; unfold u64.
    - change (1 mod 2 ^ 64) with 1. rewrite Z.mod_small; lia.
    - change (-1 mod 2 ^ 64) with (2 ^ 64 - 1). replace (at_ + n + (2 ^ 64 - 1)) with (at_ + -1 + n + 1 * 2 ^ 64) by lia.
      rewrite Z.mod_add by lia. apply Z.mod_small. lia. }
  replace (at_ + dir + n) with (at_ + dir + 1 * n) by lia. by rewrite Z.mod_add by lia.
Qed.

Lemma focus_loop_finds m cs at_ dir (s : tui T) :
  dir = 1 \/ dir = -1 -> 0 <= at_ < Z.of_nat (length cs) -> Z.of_nat (length cs) < 2 ^ 62 ->
  Forall (fun c => (c < length (widgets s))%nat) cs ->
  focus_loop m cs at_ (u64 dir) s =
  match find (takes_focus (widgets s) cs) (ring m (length cs) at_ dir) with
  | Some k => tui_widget_set_focus (cs !! k) s
  | None => Ok (tt, s)
  end.
Proof.
  intros Hdir Ha Hn Hcs. revert at_ Ha. induction m as [|m IH]; intros at_ Ha; [done|].
  rewrite ring_cons by lia. cbn [focus_loop find]. cbv zeta. rewrite step_mod by done.
  pose proof (Z.mod_pos_bound (at_ + dir) (Z.of_nat (length cs)) ltac:(lia)) as Hk.
  unfold takes_focus at 1.
  destruct (lookup_lt_is_Some_2 cs (Z.to_nat ((at_ + dir) mod Z.of_nat (length cs)))) as [c Hc]; [lia|]. rewrite Hc.
  destruct (lookup_lt_is_Some_2 (widgets s) c) as [v Hv]; [by apply (proj1 (Forall_lookup _ _) Hcs _ _ Hc)|]. rewrite Hv.
  rewrite (bind_ok _ _ s s v) by (unfold widget; by rewrite Hv).
  destruct (focusable v); [by rewrite Hc|]. by apply IH.
Qed.

Lemma unfocus_all cs (s : tui T) :
  Forall (fun c => (c < length (widgets s))%nat) cs ->
  exists vs, each cs (fun c => set_widget c (w_with_focused false)) s = Ok (tt, with_widgets vs s) /\
    length vs = length (widgets s) /\
    forall i, vs !! i = (fun v => if bool_decide (i ∈ cs) then w_with_focused false v else v) <$> widgets s !! i.
Proof.
  revert s. induction cs as [|c cs IH]; intros s Hcs.
  { exists (widgets s). split_and!; [by destruct s|done|]. intros i. by destruct (widgets s !! i). }
  apply Forall_cons in Hcs as [Hc Hcs]. destruct (lookup_lt_is_Some_2 (widgets s) c Hc) as [v Hv]. cbn [each].
  set (vs1 := <[c := w_with_focused false v]> (widgets s)).
  rewrite (bind_ok _ _ s (with_widgets vs1 s) tt) by (unfold set_widget; by rewrite Hv).
  destruct (IH (with_widgets vs1 s)) as (vs&E&Hl&Hvs); [cbn; unfold vs1; by rewrite length_insert|].
  exists vs. split_and!; [done|rewrite Hl; cbn; unfold vs1; apply length_insert|].
  intros i. rewrite Hvs. cbn [with_widgets widgets]. unfold vs1. destruct (decide (i = c)) as [->|Hne].
  - rewrite list_lookup_insert_eq by done. rewrite Hv. cbn. rewrite (bool_decide_true (c ∈ c :: cs)) by left.
    f_equal. case_bool_decide; by destruct v.
  - rewrite list_lookup_insert_ne by done. destruct (widgets s !! i); [|done]. cbn. f_equal.
    assert (i ∈ c :: cs <-> i ∈ cs) by (rewrite elem_of_cons; naive_solver). repeat case_bool_decide; naive_solver.
Qed.

Lemma last_index_spec i l k :
  NoDup l -> last_index i l k = (fun j => (k + j)%nat) <$> (fst <$> list_find (fun c => c = i) l).
Proof.
  intros Hnd. revert k. induction Hnd as [|c l Hc Hnd IH]; intros k; [done|]. cbn [last_index list_find].
  rewrite IH. destruct (decide (c = i)) as [->|Hne].
  - destruct (list_find (fun c => c = i) l) as [[j x]|] eqn:Hf.
    + apply list_find_Some in Hf as (Hx&->&_). destruct Hc. by eapply list_elem_of_lookup_2.
    + cbn. rewrite bool_decide_true by done. f_equal. lia.
  - destruct (list_find (fun c => c = i) l) as [[j x]|]; cbn; [f_equal; lia|]. by rewrite bool_decide_false.
Qed.

Lemma last_index_at i l k : NoDup l -> l !! k = Some i -> last_index i l 0 = Some k.
Proof.
  intros Hnd Hk. rewrite last_index_spec by done.
  rewrite (proj2 (list_find_Some (fun c => c = i) l k i)); [done|]. split_and!; [done|done|].
  intros j y Hj Hlt ->. assert (j = k) by (by eapply NoDup_lookup). lia.
Qed.

(** The children of window [p] belong to it, each listed once. *)
Record family (s : tui T) (p : nat) (win : tui_window) : Prop := {
  fam_window : windows s !! p = Some win;
  fam_nodup : NoDup (children win);
  fam_parent : forall c, c ∈ children win -> exists v, widgets s !! c = Some v /\ w_parent v = Some p;
  fam_count : Z.of_nat (length (children win)) < 2 ^ 62
}.

(** Exactly the child at position [k] has the focus, and the window knows. *)
Definition focus_at (s : tui T) (p : nat) (win : tui_window) (k : nat) : Prop :=
  windows s !! p = Some (with_focus_index k win) /\
  forall j c, children win !! j = Some c ->
    exists v, widgets s !! c = Some v /\ w_focused v = bool_decide (j = k).

Lemma family_bound (s : tui T) p win :
  family s p win -> Forall (fun c => (c < length (widgets s))%nat) (children win).
Proof.
  intros Hf. apply Forall_forall. intros c Hc. destruct (fam_parent _ _ _ Hf c Hc) as (v&Hv&_).
  by eapply lookup_lt_Some.
Qed.

Lemma set_focused_ok (s : tui T) vs ws p win k :
  objs_ok s -> windows s !! p = Some win -> length vs = length (widgets s) ->
  ws = <[p := with_focus_index k win]> (windows s) ->
  (forall i v, vs !! i = Some v -> exists v0 b, widgets s !! i = Some v0 /\ v = w_with_focused b v0) ->
  objs_ok (with_windows ws (with_widgets vs s)).
Proof.
  intros [Ha Hc Hw] Hp Hl -> Hvs. constructor; cbn.
  - by rewrite length_insert.
  - rewrite Hl. apply Forall_insert; [done|]. by apply (proj1 (Forall_lookup _ _) Hc p win).
  - rewrite length_insert. apply Forall_lookup. intros i v Hi. destruct (Hvs i v Hi) as (v0&b&Hv0&->).
    intros Hvis. destruct (proj1 (Forall_lookup _ _) Hw i v0 Hv0 Hvis) as [? ? ?]. by constructor.
Qed.

(** What repainting a widget or asking for a redraw keeps. *)
Definition same_focus (s s' : tui T) : Prop :=
  windows s' = windows s /\ w_focused <$> widgets s' = w_focused <$> widgets s /\ objs_ok s'.

Lemma request_redraw_same s : objs_ok s -> exists s', tui_request_redraw s = Ok (tt, s') /\ same_focus s s'.
Proof. intros Ho. eexists. split; [reflexivity|]. done. Qed.

Lemma repaint_same c s :
  disp_ok (disp s) -> objs_ok s -> (c < length (widgets s))%nat ->
  exists s', tui_widget_repaint c s = Ok (tt, s') /\ same_focus s s'.
Proof.
  intros Hd Ho Hc. destruct (lookup_lt_is_Some_2 (widgets s) c Hc) as [v Hv]. unfold tui_widget_repaint.
  rewrite (bind_ok _ _ s s v) by (unfold widget; by rewrite Hv).
  destruct (w_visible v) eqn:Hvis; cbn [negb]; [|by exists s].
  destruct (ok_parent _ _ (proj1 (Forall_lookup _ _) (ok_widgets _ _ _ Ho) c v Hv Hvis)) as (p&->&Hlt).
  destruct (lookup_lt_is_Some_2 (windows s) p Hlt) as [win Hwin].
  rewrite (bind_ok _ _ s s win) by (unfold window; by rewrite Hwin).
  destruct (visible win); cbn [negb]; [|by exists s]. rewrite (bind_ok _ _ s s s) by done.
  destruct (draw_one_repaints c (theme (disp s)) s Hd Ho Hc) as (s1&E1&R1). rewrite (bind_ok _ _ _ _ _ E1).
  eexists. split; [reflexivity|]. destruct R1. done.
Qed.

Lemma set_focus_runs s p win k c :
  disp_ok (disp s) -> objs_ok s -> family s p win -> children win !! k = Some c ->
  exists s', tui_widget_set_focus (Some c) s = Ok (tt, s') /\ focus_at s' p win k /\ objs_ok s'.
Proof.
  intros Hd Ho Hf Hk. pose proof (family_bound s p win Hf) as Hb. destruct Hf as [Hwin Hnd Hpar _].
  assert (Hin : c ∈ children win) by (by eapply list_elem_of_lookup_2).
  destruct (Hpar c Hin) as (v&Hv&Hvp). unfold tui_widget_set_focus.
  rewrite (bind_ok _ _ s s v) by (unfold widget; by rewrite Hv). rewrite Hvp.
  rewrite (bind_ok _ _ s s win) by (unfold window; by rewrite Hwin).
  destruct (unfocus_all (children win) s Hb) as (vs&E1&Hl&Hvs). rewrite (bind_ok _ _ _ _ _ E1).
  assert (Hvc : vs !! c = Some (w_with_focused false v)) by (rewrite Hvs, Hv; cbn; by rewrite bool_decide_true).
  set (vs2 := <[c := w_with_focused true (w_with_focused false v)]> vs).
  rewrite (bind_ok _ _ _ (with_widgets vs2 s) tt) by (unfold set_widget; cbn; by rewrite Hvc).
  rewrite (last_index_at c (children win) k Hnd Hk).
  set (s3 := with_windows (<[p := with_focus_index k win]> (windows s)) (with_widgets vs2 s)).
  rewrite (bind_ok _ _ _ s3 tt) by (unfold set_window; cbn; by rewrite Hwin).
  assert (Ho3 : objs_ok s3).
  { apply set_focused_ok with (p := p) (win := win) (k := k); [done|done|by unfold vs2; rewrite length_insert|done|].
    intros i u Hi. unfold vs2 in Hi. destruct (decide (i = c)) as [->|Hne].
    - rewrite list_lookup_insert_eq in Hi by (by eapply lookup_lt_Some). injection Hi as <-. exists v, true. by destruct v.
    - rewrite list_lookup_insert_ne, Hvs in Hi by done. destruct (widgets s !! i) as [u0|]; [|done].
      injection Hi as <-. exists u0. case_bool_decide; [by exists false|exists (w_focused u0); by destruct u0]. }
  assert (Hf3 : focus_at s3 p win k).
  { split; [cbn; by rewrite list_lookup_insert_eq by (by eapply lookup_lt_Some)|]. intros j c' Hj. cbn. unfold vs2.
    destruct (Hpar c') as (u&Hu&_); [by eapply list_elem_of_lookup_2|]. destruct (decide (c' = c)) as [->|Hne].
    - rewrite list_lookup_insert_eq by (by eapply lookup_lt_Some). eexists. split; [done|].
      rewrite bool_decide_true; [done|]. by eapply NoDup_lookup.
    - rewrite list_lookup_insert_ne, Hvs, Hu by done. cbn. rewrite bool_decide_true by (by eapply list_elem_of_lookup_2).
      eexists. split; [done|]. rewrite bool_decide_false; [done|]. intros ->. congruence. }
  assert (Hend : exists s', (if negb (w_focused v) then tui_request_redraw else tui_widget_repaint c) s3 = Ok (tt, s') /\
    same_focus s3 s').
  { destruct (w_focused v); cbn [negb]; [|by apply request_redraw_same].
    apply repaint_same; [done|done|]. cbn. unfold vs2. rewrite length_insert. by eapply lookup_lt_Some. }
  destruct Hend as (s'&E'&Hw'&Hv'&Ho'). exists s'. split_and!; [done| |done].
  destruct Hf3 as [Hf3 Hc3]. split; [by rewrite Hw'|]. intros j c' Hj. destruct (Hc3 j c' Hj) as (u&Hu&Hfu).
  assert (Hm : (w_focused <$> widgets s') !! c' = Some (w_focused u)) by (rewrite Hv', list_lookup_fmap; by rewrite Hu).
  rewrite list_lookup_fmap in Hm. destruct (widgets s' !! c') as [u'|]; [|done]. injection Hm as Hm. exists u'. by rewrite Hm.
Qed.

(** Tab and Shift-Tab move the focus.  In a window with children, of
    which [focus_index] is one, moving the focus forward (direction 1) or back
    (direction -1) returns; going round the children from the current one, the
    first visible, enabled control that is not a label, status bar, progress
    bar or tab row receives the focus, alone among the children, and
    becomes the window's focus index; when there is none nothing changes.  The
    tables stay well formed. *)
Theorem focus_moves_to_next s p win dir :
  disp_ok (disp s) -> objs_ok s -> family s p win -> (focus_index win < length (children win))%nat ->
  dir = 1 \/ dir = -1 ->
  exists s', focus_move p dir s = Ok (tt, s') /\ objs_ok s' /\
    match next_focus (widgets s) (children win) (Z.of_nat (focus_index win)) dir with
    | Some k => takes_focus (widgets s) (children win) k = true /\ focus_at s' p win k
    | None => s' = s
    end.
Proof.
  intros Hd Ho Hf Hi Hdir. unfold focus_move.
  rewrite (bind_ok _ _ s s win) by (unfold window; by rewrite (fam_window _ _ _ Hf)).
  rewrite focus_loop_finds; [|done|lia|apply Hf|by eapply family_bound].
  fold (next_focus (widgets s) (children win) (Z.of_nat (focus_index win)) dir).
  destruct (next_focus _ _ _ _) as [k|] eqn:Hn; [|by exists s].
  apply find_some in Hn as [_ Hk]. pose proof Hk as Hk'. unfold takes_focus in Hk'.
  destruct (children win !! k) as [c|] eqn:Hc; [|done].
  destruct (set_focus_runs s p win k c) as (s'&E&Hfo&Ho'); [done..|]. by exists s'.
Qed.

End focus.

(** Deciding the invariant of a concrete state. *)
Definition widget_okb (n : nat) (v : tui_widget) : bool :=
  match w_parent v with Some p => Nat.ltb p n | None => false end
  && (w_item_count v <=? Z.of_nat (length (w_items v))) && (0 <=? w_cursor v) && (0 <=? w_scroll v).

Definition tables_okb (ws : list tui_window) (vs : list tui_widget) (app : list nat) : bool :=
  forallb (fun i => Nat.ltb i (length ws)) app
  && forallb (fun w => forallb (fun c => Nat.ltb c (length vs)) (children w)) ws
  && forallb (fun v => negb (w_visible v) || widget_okb (length ws) v) vs.

Lemma tables_okb_ok ws vs app : tables_okb ws vs app = true -> tables_ok ws vs app.
Proof.
  unfold tables_okb. rewrite !andb_true_iff, !forallb_forall. intros [[Ha Hc] Hw]. constructor.
  - apply Forall_forall. intros i Hi. apply Nat.ltb_lt, Ha, list_elem_of_In, Hi.
  - apply Forall_forall. intros w Hi. apply Forall_forall. intros c Hcw. apply Nat.ltb_lt.
    pose proof (Hc w (proj1 (list_elem_of_In _ _) Hi)) as Hcs. rewrite forallb_forall in Hcs.
    apply Hcs, list_elem_of_In, Hcw.
  - apply Forall_forall. intros v Hi Hvis. pose proof (Hw v (proj1 (list_elem_of_In _ _) Hi)) as Hv.
    rewrite Hvis in Hv. cbn [negb orb] in Hv. unfold widget_okb in Hv. breflect.
    destruct (w_parent v) as [p|] eqn:Hp; [|done]. constructor; [exists p|done|done]. split; [done|]. by apply Nat.ltb_lt.
Qed.

(** A window with a label and two buttons. *)
Definition form : M (tui grid_term) unit :=
  tui_app_create (text "demo") ;;
  let! w := tui_window_create 0 0 40 10 (text "Form") TUI_WINDOW_CENTER in
  tui_label_create w 1 1 (text "Name") ;;
  tui_button_create w 1 3 10 (text "Yes") ;;
  tui_button_create w 1 4 10 (text "No") ;; ret tt.

Definition form_state : tui grid_term :=
  match form (started []) with Ok (_, s) => s | _ => started [] end.
Definition form_window : tui_window := default blank_window (windows form_state !! 0%nat).

Lemma focus_witness :
  exists s', focus_move 0 1 form_state = Ok (tt, s') /\ focus_at s' 0 form_window 1.
Proof.
  destruct (focus_moves_to_next form_state 0 form_window 1) as (s'&E&_&Hf).
  - constructor; [vm_compute; reflexivity..|split; vm_compute; congruence|split; vm_compute; congruence].
  - apply tables_okb_ok. vm_compute. reflexivity.
  - constructor.
    + vm_compute. reflexivity.
    + change (children form_window) with [0; 1; 2]%nat. by apply (bool_decide_unpack _).
    + change (children form_window) with [0; 1; 2]%nat. intros c Hc.
      apply list_elem_of_In in Hc as [<-|[<-|[<-|[]]]]; eexists; split; reflexivity.
    + vm_compute. reflexivity.
  - vm_compute. lia.
  - by left.
  - exists s'. split; [exact E|].
    assert (Hn : next_focus (widgets form_state) (children form_window) (Z.of_nat (focus_index form_window)) 1 = Some 1%nat)
      by (vm_compute; reflexivity).
    rewrite Hn in Hf. exact (proj2 Hf).
Defined.

(** ** Lists *)

(** What a key does to a selection in [0, count). *)
Definition list_move (count height sel key : Z) : Z :=
  if key =? TUI_KEY_UP then Z.max 0 (sel - 1)
  else if key =? TUI_KEY_DOWN then Z.min (count - 1) (sel + 1)
  else if key =? TUI_KEY_HOME then 0
  else if key =? TUI_KEY_END then count - 1
  else if key =? TUI_KEY_PAGEUP then Z.max 0 (sel - height)
  else if key =? TUI_KEY_PAGEDOWN then Z.min (count - 1) (sel + height)
  else sel.

(** A list after a key and a redraw. *)
Definition list_turn (v : tui_widget) (key : Z) : tui_widget :=
  let v := w_with_items (w_items v) (w_item_count v) (list_key v key) v in
  w_with_scroll (list_scroll v) v.

(** A list with at least one item, of a sensible height, with its selection
    among the items. *)
Record list_ok (v : tui_widget) : Prop := {
  lo_count : 0 < w_item_count v < 2 ^ 31 - 2 ^ 16;
  lo_height : 0 < w_height v < 2 ^ 16;
  lo_selected : 0 <= w_selected v < w_item_count v;
  lo_scroll : 0 <= w_scroll v < w_item_count v
}.

Lemma list_key_moves v key :
  list_ok v -> list_key v key = list_move (w_item_count v) (w_height v) (w_selected v) key.
Proof.
  intros [Hc Hh Hs _]. unfold list_key, list_move, z2b.
  rewrite (u64_small (w_selected v + 1)), (u64_small (w_height v)), (u64_small (w_selected v + w_height v)) by lia.
  destruct (Z.eqb_spec key TUI_KEY_UP) as [->|_]; cbn [andb].
  { destruct (Z.eqb_spec (w_selected v) 0); cbn; lia. }
  destruct (Z.eqb_spec key TUI_KEY_DOWN) as [->|_]; cbn [andb].
  { destruct (Z.ltb_spec (w_selected v + 1) (w_item_count v)); cbn; lia. }
  destruct (key =? TUI_KEY_HOME); [done|]. rewrite (proj2 (Z.eqb_neq (w_item_count v) 0)) by lia. cbn [negb].
  rewrite !andb_true_r. destruct (key =? TUI_KEY_END); [done|].
  destruct (key =? TUI_KEY_PAGEUP).
  { destruct (Z.ltb_spec (w_height v) (w_selected v)); [rewrite u64_small by lia|]; lia. }
  destruct (key =? TUI_KEY_PAGEDOWN); [|done].
  destruct (Z.leb_spec (w_item_count v) (w_selected v + w_height v)); lia.
Qed.

(** Drawing keeps the selection in view. *)
Lemma list_scroll_view v :
  list_ok v -> 0 <= list_scroll v < w_item_count v /\ list_scroll v <= w_selected v < list_scroll v + w_height v.
Proof.
  intros [Hc Hh Hs Hsc]. unfold list_scroll.
  assert (s32 (w_selected v) = w_selected v) as -> by (unfold s32; rewrite Z.mod_small; lia).
  rewrite (u64_small (w_scroll v)) by lia.
  destruct (Z.ltb_spec (w_selected v) (w_scroll v)); cbv zeta; rewrite u64_small by lia;
    match goal with |- context [if ?a <=? ?b then _ else _] => destruct (Z.leb_spec a b) end; lia.
Qed.

Lemma list_turn_ok v key :
  list_ok v -> list_ok (list_turn v key) /\
    w_selected (list_turn v key) = list_move (w_item_count v) (w_height v) (w_selected v) key /\
    w_scroll (list_turn v key) <= w_selected (list_turn v key) < w_scroll (list_turn v key) + w_height v.
Proof.
  intros Hv. unfold list_turn. rewrite list_key_moves by done. cbv zeta.
  set (v1 := w_with_items _ _ _ v).
  assert (H1 : list_ok v1).
  { destruct Hv as [Hc Hh Hs Hsc]. constructor; try done. cbn [v1 w_with_items w_selected w_item_count].
    unfold list_move. repeat case_match; lia. }
  destruct (list_scroll_view v1 H1) as [Hb Hin]. destruct H1. split_and!; [by constructor|done|apply Hin|apply Hin].
Qed.

Lemma list_turns v keys :
  list_ok v -> list_ok (fold_left list_turn keys v) /\
    w_item_count (fold_left list_turn keys v) = w_item_count v /\ w_height (fold_left list_turn keys v) = w_height v /\
    w_selected (fold_left list_turn keys v) = fold_left (list_move (w_item_count v) (w_height v)) keys (w_selected v).
Proof.
  revert v. induction keys as [|k keys IH]; intros v Hv; [done|]. cbn [fold_left].
  destruct (list_turn_ok v k Hv) as (Hv'&<-&_). destruct (IH _ Hv') as (?&?&?&?). done.
Qed.

Section lists.

Context {T : Type} `{TerminalLaws T} (call : nat -> nat -> M (tui T) unit).

Lemma draw_one_widget c t (s s' : tui T) v :
  tui_draw_one c t s = Ok (tt, s') -> widgets s !! c = Some v -> w_visible v = true ->
  widgets s' !! c = Some (w_with_scroll (drawn_scroll v) v).
Proof.
  intros E Hv Hvis. unfold tui_draw_one in E. rewrite (bind_ok _ _ s s v) in E by (unfold widget; by rewrite Hv).
  rewrite Hvis in E. cbn [negb] in E. destruct (w_parent v) as [p|]; [|done]. unfold bind at 1 in E.
  unfold window in E. destruct (windows s !! p) as [win|]; [|done]. cbn [of_option obind] in E.
  unfold bind, set_widget in E. rewrite Hv in E. cbn [of_option obind] in E. unfold draw in E.
  apply obind_ok in E as ([[] d]&_&[= <-]). cbn. apply list_lookup_insert_eq. by eapply lookup_lt_Some.
Qed.

(** Lists keep their selection.  For a list with at least one item, a
    height below 2^16 and the selection among the items: (1) on well formed
    tables, handling a key other than Enter and redrawing the widget returns
    and turns it into [list_turn v key]; (2) after any sequence of keys the
    selection is the one obtained by moving one up or down, a page up or down,
    to the first or to the last item, clamped to the items; (3) the scroll
    position stays within the items, and after each redraw the selected item
    is one of the rows shown. *)
Theorem list_navigation (v : tui_widget) (s : tui T) (i : nat) (th : tui_theme) (key : Z) (keys : list Z) :
  list_ok v -> w_type v = TUI_LISTBOX \/ w_type v = TUI_TABLE \/ w_type v = TUI_DROPDOWN -> w_visible v = true ->
  disp_ok (disp s) -> objs_ok s -> widgets s !! i = Some v -> key <> 10 ->
  (exists s', (list_event call i v key ;; tui_draw_one i th) s = Ok (tt, s') /\ widgets s' !! i = Some (list_turn v key)) /\
  let v' := fold_left list_turn (keys ++ [key]) v in
  w_selected v' = fold_left (list_move (w_item_count v) (w_height v)) (keys ++ [key]) (w_selected v) /\
  0 <= w_selected v' < w_item_count v /\ 0 <= w_scroll v' < w_item_count v /\
  w_scroll v' <= w_selected v' < w_scroll v' + w_height v.
Proof.
  intros Hl Ht Hvis Hd Ho Hv Hk. split.
  - set (v1 := w_with_items (w_items v) (w_item_count v) (list_key v key) v).
    set (s1 := with_widgets (<[i := v1]> (widgets s)) s).
    set (s2 := with_disp (with_dirty true (disp s)) (with_app (Application (name (application s1)) (running (application s1))
      true (app_windows (application s1))) s1)).
    assert (E1 : list_event call i v key s = Ok (tt, s2)).
    { unfold list_event. rewrite (bind_ok _ _ s s1 tt) by (unfold set_widget; by rewrite Hv).
      rewrite (proj2 (Z.eqb_neq _ _)) by done. reflexivity. }
    rewrite (bind_ok _ _ _ _ _ E1). pose proof (lookup_lt_Some _ _ _ Hv) as Hlt.
    assert (Hv1 : widgets s2 !! i = Some v1) by (cbn; by apply list_lookup_insert_eq).
    destruct (draw_one_repaints i th s2) as (s'&E'&_).
    + destruct Hd. by constructor.
    + destruct Ho as [Ha Hc Hw]. constructor; cbn; [done|by rewrite length_insert|]. apply Forall_insert; [done|].
      intros _. destruct (proj1 (Forall_lookup _ _) Hw i v Hv Hvis). by constructor.
    + cbn. by rewrite length_insert.
    + exists s'. split; [done|]. rewrite (draw_one_widget _ _ _ _ _ E' Hv1 Hvis). do 2 f_equal.
      unfold drawn_scroll, is_type. cbn [v1 w_with_items w_type]. destruct Ht as [Ht|[Ht|Ht]]; by rewrite Ht.
  - cbv zeta. rewrite !fold_left_app. cbn [fold_left]. destruct (list_turns v keys Hl) as (Hv1&Hc1&Hh1&<-).
    rewrite <- Hc1, <- Hh1. destruct (list_turn_ok _ key Hv1) as (Hok&Hsel&Hview). destruct Hok as [_ _ Hs2 Hs3].
    split; [exact Hsel|]. split; [exact Hs2|]. split; [exact Hs3|exact Hview].
Qed.

End lists.

(** A window with a list of four items. *)
Definition menu : M (tui grid_term) unit :=
  tui_app_create (text "demo") ;;
  let! w := tui_window_create 0 0 40 10 (text "Menu") TUI_WINDOW_CENTER in
  tui_listbox_create w 1 1 20 2 (map (fun t => Some (text t)) ["one"; "two"; "three"; "four"]%string) 4 ;; ret tt.

Definition menu_state : tui grid_term :=
  match menu (started []) with Ok (_, s) => s | _ => started [] end.
Definition menu_list : tui_widget := default blank_widget (widgets menu_state !! 0%nat).

Lemma list_witness :
  let v' := fold_left list_turn [TUI_KEY_DOWN; TUI_KEY_DOWN; TUI_KEY_DOWN; TUI_KEY_DOWN] menu_list in
  w_selected v' = 3 /\ w_scroll v' <= 3 < w_scroll v' + 2.
Proof.
  destruct (list_navigation (fun _ _ => ret tt) menu_list menu_state 0 tui_theme_dos TUI_KEY_DOWN
    [TUI_KEY_DOWN; TUI_KEY_DOWN; TUI_KEY_DOWN]) as (_&Hs&_&_&Hv).
  - constructor; split; vm_compute; congruence.
  - by left.
  - reflexivity.
  - constructor; [vm_compute; reflexivity..|split; vm_compute; congruence|split; vm_compute; congruence].
  - apply tables_okb_ok. vm_compute. reflexivity.
  - vm_compute. reflexivity.
  - done.
  - cbv zeta. cbn [app] in Hs, Hv.
    assert (Hw : w_selected (fold_left list_turn [TUI_KEY_DOWN; TUI_KEY_DOWN; TUI_KEY_DOWN; TUI_KEY_DOWN] menu_list) = 3)
      by (rewrite Hs; vm_compute; reflexivity).
    rewrite Hw in Hv. split; [exact Hw|exact Hv].
Defined.

(** ** Windows are not given back *)

Section windows.

Context {T : Type} `{Terminal T}.

(** Opening a window and destroying it again. *)
Definition open_close (x y w h : Z) (t : list Z) (flags : Z) : M (tui T) unit :=
  let! win := tui_window_create x y w h t flags in tui_window_destroy win.

Lemma open_close_used x y w h t flags (s : tui T) :
  length (windows s) = TUI_MAX_WINDOWS -> 4 <= w -> 3 <= h -> (window_used s < TUI_MAX_WINDOWS)%nat ->
  exists s', open_close x y w h t flags s = Ok (tt, s') /\ window_used s' = S (window_used s) /\
    length (windows s') = TUI_MAX_WINDOWS.
Proof.
  intros Hl Hw Hh Hu. unfold open_close, tui_window_create. unfold bind at 1.
  rewrite (proj2 (Nat.leb_gt _ _)), (proj2 (Z.ltb_ge _ _)), (proj2 (Z.ltb_ge _ _)) by done. cbn [orb].
  destruct (place _ _ _ _ _ _) as [x' y']. destruct (lookup_lt_is_Some_2 (windows s) (window_used s)) as [old Ho]; [lia|].
  rewrite Ho. cbn [of_option obind]. unfold tui_window_destroy, tui_window_hide, bind, set_window. cbn [windows].
  rewrite list_lookup_insert_eq by lia. cbn [of_option obind]. eexists. split; [reflexivity|]. cbn.
  split; [lia|]. by rewrite !length_insert.
Qed.

Fixpoint repeat_m (n : nat) (m : M (tui T) unit) : M (tui T) unit :=
  match n with O => ret tt | S n => m ;; repeat_m n m end.

(** Destroyed windows keep their slot.  Opening and destroying a window
    of legal size eight times from the initial table uses up the table: from
    then on no window can be created, and a message box or a confirmation
    returns 0, that is "no", at once, without showing anything or reading a
    key.  (tui_window_destroy only hides a window; slots are recycled by
    tui_initialize alone.) *)
Theorem dialogs_run_out (x y w h : Z) (t : list Z) (flags : Z) (s : tui T) :
  length (windows s) = TUI_MAX_WINDOWS -> window_used s = 0%nat -> 4 <= w -> 3 <= h ->
  exists s', repeat_m 8 (open_close x y w h t flags) s = Ok (tt, s') /\
    (forall x y w h t flags, tui_window_create x y w h t flags s' = Ok (None, s')) /\
    (forall fuel t msg b, tui_message_box fuel t msg b s' = Ok (0, s')) /\
    (forall fuel t msg, tui_confirm fuel t msg s' = Ok (false, s')).
Proof.
  intros Hl Hu Hw Hh.
  assert (Hn : forall n (s : tui T), (window_used s + n = TUI_MAX_WINDOWS)%nat -> length (windows s) = TUI_MAX_WINDOWS ->
    exists s', repeat_m n (open_close x y w h t flags) s = Ok (tt, s') /\ window_used s' = TUI_MAX_WINDOWS).
  { induction n as [|n IH]; intros s0 Hs0 Hl0; [exists s0; split; [done|lia]|]. cbn [repeat_m].
    destruct (open_close_used x y w h t flags s0) as (s1&E1&Hu1&Hl1); [done|done|done|lia|].
    rewrite (bind_ok _ _ _ _ _ E1). apply IH; [lia|done]. }
  destruct (Hn 8%nat s) as (s'&E&Hf); [by rewrite Hu|done|]. exists s'. split; [done|].
  assert (Hc : forall x y w h t flags, tui_window_create x y w h t flags s' = Ok (None, s')).
  { intros. unfold tui_window_create. by rewrite Hf. }
  assert (Hm : forall fuel t msg b, tui_message_box fuel t msg b s' = Ok (0, s')).
  { intros. unfold tui_message_box. by rewrite (bind_ok _ _ _ _ _ (Hc _ _ _ _ _ _)). }
  split_and!; [done|done|]. intros. unfold tui_confirm. by rewrite (bind_ok _ _ _ _ _ (Hm _ _ _ _)).
Qed.

End windows.

Lemma dialogs_witness :
  exists s', repeat_m 8 (open_close 0 0 58 7 (text "Hi") 3) (started [10; 10]) = Ok (tt, s') /\
    tui_confirm 9 (text "Delete?") (text "Sure?") s' = Ok (false, s').
Proof.
  destruct (dialogs_run_out 0 0 58 7 (text "Hi") 3 (started [10; 10])) as (s'&E&_&_&Hc).
  - reflexivity.
  - reflexivity.
  - lia.
  - lia.
  - exists s'. split; [exact E|]. apply Hc.
Defined.
