(* ===== verification/Net.v ===== *)
(** * The network stack (src/kernel/net/net.c)

    ARP, IPv4, ICMP, DNS, NTP and the TCP client, over an interface for the
    network device and the cancellation flag.  A received packet is the list of
    its bytes; a read outside it is [Undefined], and so is a store outside one
    of the fixed-size local buffers.  A frame the code fills in field by field
    is the concatenation of its fields.

    Sending resolves the next hop, which polls the device, which processes
    packets, which may send: the code that can end up polling takes [poll] as
    an argument, and [network_poll] ties the knot, [fuel] calls deep. *)

From stdpp Require Import base numbers list strings.
From Stdlib Require Import ZArith Lia.
From S2P Require Import Prelude Effects.

(** ** The device *)

Class NetDev (D : Type) := {
  netdev_init : D -> bool * D;
  netdev_mac : D -> list Z;
  netdev_send : list Z -> D -> bool * D;
  netdev_receive : nat -> D -> option (list Z) * D;
  process_cancel_requested : D -> bool * D
}.

(** ** Constants and state *)

Definition ip : Z := 0x0f02000a.
Definition gateway : Z := 0x0202000a.
Definition dns_server : Z := 0x0302000a.
Definition netmask : Z := 0x00ffffff.

Definition NETWORK_NTP_OK : Z := 1.
Definition NETWORK_NTP_DOWN : Z := -1.
Definition NETWORK_NTP_DNS : Z := -2.
Definition NETWORK_NTP_ROUTE : Z := -3.
Definition NETWORK_NTP_SEND : Z := -4.
Definition NETWORK_NTP_TIMEOUT : Z := -5.
Definition NETWORK_NTP_SHORT : Z := -6.
Definition NETWORK_NTP_MODE : Z := -7.
Definition NETWORK_NTP_LEAP : Z := -8.
Definition NETWORK_NTP_STRATUM : Z := -9.
Definition NETWORK_NTP_ORIGIN : Z := -10.
Definition NETWORK_NTP_TIMESTAMP : Z := -11.

Record neighbor_t := Neighbor { n_ip : Z; n_mac : list Z; n_valid : bool }.

Record ping_t := Ping {
  sequence : Z; reply_sequence : Z; ping_error : bool; ping_error_type : Z; ping_error_code : Z
}.

Record dns_t := Dns { dns_reply_id : Z; dns_reply_status : Z; dns_reply_address : Z }.

Record network_ntp_result_t := NtpResult {
  nr_address : Z; nr_stratum : Z; receive_timestamp : Z; transmit_timestamp : Z
}.

Record ntp_t := Ntp {
  ntp_reply_status : Z; ntp_server_ip : Z; ntp_request_timestamp : Z; ntp_reply : network_ntp_result_t
}.

(** [fr_data] holds the [length] bytes stored. *)
Record tcp_fragment_t := Fragment { fr_sequence : Z; fr_fin : bool; fr_valid : bool; fr_data : list Z }.

(** [tcp_queue] is the used part of the 32768-byte queue. *)
Record tcp_t := Tcp {
  tcp_remote_ip : Z; tcp_local_seq : Z; tcp_remote_seq : Z; tcp_last_ack : Z;
  tcp_local_port : Z; tcp_remote_port : Z; tcp_state : Z;
  tcp_queue : list Z; tcp_fragments : list tcp_fragment_t
}.

Definition TCP_QUEUE : nat := Z.to_nat 32768.

Record net (D : Type) := Net {
  dev : D; ready : bool; neighbors : list neighbor_t; ip_id : Z;
  ping : ping_t; dns : dns_t; ntp : ntp_t; tcp : tcp_t
}.
Arguments Net {D}. Arguments dev {D}. Arguments ready {D}. Arguments neighbors {D}. Arguments ip_id {D}.
Arguments ping {D}. Arguments dns {D}. Arguments ntp {D}. Arguments tcp {D}.

Definition no_neighbor : neighbor_t := Neighbor 0 (replicate 6 0) false.
Definition no_fragment : tcp_fragment_t := Fragment 0 false false [].

(** The static initial state. *)
Definition net0 {D} (d : D) : net D :=
  Net d false (replicate 8 no_neighbor) 0 (Ping 0 0 false 0 0) (Dns 0 0 0) (Ntp 0 0 0 (NtpResult 0 0 0 0))
    (Tcp 0 0 0 0 0 0 0 [] (replicate 8 no_fragment)).

(** ** Bytes *)

Definition be16 (v : Z) : list Z := [u8 (Z.shiftr v 8); u8 v].
Definition be32 (v : Z) : list Z := [u8 (Z.shiftr v 24); u8 (Z.shiftr v 16); u8 (Z.shiftr v 8); u8 v].
Definition be64 (v : Z) : list Z := be32 (u32 (Z.shiftr v 32)) ++ be32 (u32 v).
(** A 32-bit integer as it lies in memory. *)
Definition le32 (v : Z) : list Z := [u8 v; u8 (Z.shiftr v 8); u8 (Z.shiftr v 16); u8 (Z.shiftr v 24)].

Definition byte (p : list Z) (i : nat) : outcome Z := of_option (p !! i).
Definition read16 (p : list Z) (i : nat) : outcome Z :=
  do a <- byte p i; do b <- byte p (i + 1); Ok (Z.lor (Z.shiftl a 8) b).
Definition read32 (p : list Z) (i : nat) : outcome Z :=
  do a <- byte p i; do b <- byte p (i + 1); do c <- byte p (i + 2); do d <- byte p (i + 3);
  Ok (Z.lor (Z.lor (Z.lor (Z.shiftl a 24) (Z.shiftl b 16)) (Z.shiftl c 8)) d).
Definition read64 (p : list Z) (i : nat) : outcome Z :=
  do a <- read32 p i; do b <- read32 p (i + 4); Ok (Z.lor (Z.shiftl a 32) b).
(** Four bytes copied into a [uint32_t]. *)
Definition load32 (p : list Z) (i : nat) : outcome Z :=
  do a <- byte p i; do b <- byte p (i + 1); do c <- byte p (i + 2); do d <- byte p (i + 3);
  Ok (Z.lor (Z.lor (Z.lor a (Z.shiftl b 8)) (Z.shiftl c 16)) (Z.shiftl d 24)).

(** A part of a packet, as a pointer into it and a length.  Lengths are computed
    as in the code, with the wrap-around of unsigned integers: one that is too
    large, or that came from a subtraction below zero, is not in the packet. *)
Definition part (p : list Z) (off : nat) (len : Z) : outcome (list Z) :=
  if (0 <=? len) && (Z.of_nat off + len <=? Z.of_nat (length p)) then Ok (take (Z.to_nat len) (drop off p)) else Undefined.

(** [need] bytes stored in a buffer of [cap]. *)
Definition room (need cap : nat) : outcome unit := if Nat.leb need cap then Ok tt else Undefined.

(** Overwriting bytes of a frame that was filled in before. *)
Definition patch (off : nat) (b f : list Z) : list Z := take off f ++ b ++ drop (off + length b) f.

(** ** The checksum *)

Fixpoint sum16 (d : list Z) (sum : Z) : Z :=
  match d with
  | a :: b :: d => sum16 d (u32 (sum + Z.lor (Z.shiftl a 8) b))
  | [a] => u32 (sum + u16 (Z.shiftl a 8))
  | [] => sum
  end.

(** [while (sum >> 16) ...]: three rounds are enough for 32 bits. *)
Fixpoint carry (fuel : nat) (sum : Z) : Z :=
  match fuel with
  | O => sum
  | S fuel => if Z.shiftr sum 16 =? 0 then sum else carry fuel (u32 (Z.land sum 0xffff + Z.shiftr sum 16))
  end.

Definition checksum (d : list Z) : Z := u16 (Z.lnot (carry 3 (sum16 d 0))).

(** ** Addresses *)

Definition next_hop (destination : Z) : Z :=
  if Z.land destination netmask =? Z.land ip netmask then destination else gateway.

Fixpoint neighbor_index (f : neighbor_t -> bool) (l : list neighbor_t) (i : nat) : option nat :=
  match l with [] => None | n :: l => if f n then Some i else neighbor_index f l (i + 1) end.

Definition neighbor_find (address : Z) (l : list neighbor_t) : option neighbor_t :=
  find (fun n => n_valid n && (n_ip n =? address)) l.

(** Its own slot, else a free one, else one chosen by the address. *)
Definition neighbor_slot (address : Z) (l : list neighbor_t) : nat :=
  match neighbor_index (fun n => n_valid n && (n_ip n =? address)) l 0 with
  | Some i => i
  | None => match neighbor_index (fun n => negb (n_valid n)) l 0 with
            | Some i => i
            | None => Z.to_nat (Z.land address 7)
            end
  end.

Definition neighbor_store (address : Z) (mac : list Z) (l : list neighbor_t) : list neighbor_t :=
  <[neighbor_slot address l := Neighbor address mac true]> l.

(** Dotted decimal, first number in the lowest byte; 0 when malformed. *)
Fixpoint ipv4_number (s : list Z) (n digits : Z) : Z * Z * list Z :=
  match s with
  | c :: s' => if (48 <=? c) && (c <=? 57) then ipv4_number s' (u32 (n * 10 + (c - 48))) (digits + 1) else (n, digits, s)
  | [] => (n, digits, [])
  end.

Fixpoint ipv4_parts (fuel : nat) (part : Z) (s : list Z) (v : Z) : Z :=
  match fuel with
  | O => match s with [] => v | _ => 0 end
  | S fuel =>
    let '(n, digits, s) := ipv4_number s 0 0 in
    if (digits =? 0) || (255 <? n) then 0 else
    let v := Z.lor v (Z.shiftl n (part * 8)) in
    if part <? 3 then
      match s with c :: s => if c =? 46 then ipv4_parts fuel (part + 1) s v else 0 | [] => 0 end
    else ipv4_parts fuel (part + 1) s v
  end.

Definition network_parse_ipv4 (s : list Z) : Z := ipv4_parts 4 0 s 0.

(** ** DNS *)

(** The offset after a name at [p]; 0 when malformed. *)
Fixpoint skip_labels (fuel : nat) (d : list Z) (p : nat) : outcome nat :=
  match fuel with
  | O => Ok 0%nat
  | S fuel =>
    let n := length d in
    if negb (Nat.ltb p n) then Ok 0%nat else
    do z <- byte d p;
    let p := (p + 1)%nat in
    if Z.land z 0xc0 =? 0xc0 then Ok (if Nat.ltb p n then p + 1 else 0)%nat
    else if z =? 0 then Ok p
    else if (63 <? z) || Nat.ltb n (p + Z.to_nat z) then Ok 0%nat
    else skip_labels fuel d (p + Z.to_nat z)
  end.

Definition dns_skip_name (d : list Z) (p : nat) : outcome nat := skip_labels 128 d p.

(** [inl] is the status the code stores before returning. *)
Fixpoint dns_questions (k : nat) (d : list Z) (p : nat) : outcome (Z + nat) :=
  match k with
  | O => Ok (inr p)
  | S k =>
    do p <- dns_skip_name d p;
    if Nat.eqb p 0 || Nat.ltb (length d) (p + 4) then Ok (inl (-10)) else dns_questions k d (p + 4)
  end.

(** Status and, for status 1, the address. *)
Fixpoint dns_answers (k : nat) (d : list Z) (p : nat) : outcome (Z * option Z) :=
  match k with
  | O => Ok (-4, None)
  | S k =>
    do p <- dns_skip_name d p;
    if Nat.eqb p 0 || Nat.ltb (length d) (p + 10) then Ok (-10, None) else
    do type <- read16 d p;
    do class_code <- read16 d (p + 2);
    do len <- read16 d (p + 8);
    let p := (p + 10)%nat in
    if Nat.ltb (length d) (p + Z.to_nat len) then Ok (-10, None) else
    if (type =? 1) && (class_code =? 1) && (len =? 4) then do a <- load32 d p; Ok (1, Some a)
    else dns_answers k d (p + Z.to_nat len)
  end.

Definition dns_receive (d : list Z) (s : dns_t) : outcome dns_t :=
  if Nat.ltb (length d) 12 then Ok s else
  do id <- read16 d 0; do flags <- read16 d 2; do questions <- read16 d 4; do answers <- read16 d 6;
  if negb (id =? dns_reply_id s) || (Z.land flags 0x8000 =? 0) then Ok s else
  let status v := Dns (dns_reply_id s) v (dns_reply_address s) in
  if negb (Z.land flags 15 =? 0) then Ok (status (- Z.land flags 15)) else
  do r <- dns_questions (Z.to_nat questions) d 12;
  match r with
  | inl v => Ok (status v)
  | inr p =>
    do '(v, a) <- dns_answers (Z.to_nat answers) d p;
    Ok (Dns (dns_reply_id s) v (default (dns_reply_address s) a))
  end.

(** ** NTP *)

Definition ntp_receive (d : list Z) (source : Z) (s : ntp_t) : outcome ntp_t :=
  let status v := Ntp v (ntp_server_ip s) (ntp_request_timestamp s) (ntp_reply s) in
  if negb (source =? ntp_server_ip s) then Ok s else
  if Nat.ltb (length d) 48 then Ok (status NETWORK_NTP_SHORT) else
  do d0 <- byte d 0; do stratum <- byte d 1;
  let leap := Z.shiftr d0 6 in
  let mode := Z.land d0 7 in
  if negb (mode =? 4) then Ok (status NETWORK_NTP_MODE) else
  if leap =? 3 then Ok (status NETWORK_NTP_LEAP) else
  if (stratum =? 0) || (16 <=? stratum) then Ok (status NETWORK_NTP_STRATUM) else
  do originate <- read64 d 24; do receive <- read64 d 32; do transmit <- read64 d 40;
  if negb (originate =? ntp_request_timestamp s) then Ok (status NETWORK_NTP_ORIGIN) else
  if (receive =? 0) || (transmit =? 0) || (transmit <? receive) then Ok (status NETWORK_NTP_TIMESTAMP) else
  Ok (Ntp NETWORK_NTP_OK (ntp_server_ip s) (ntp_request_timestamp s) (NtpResult source stratum receive transmit)).

(** ** TCP: the receive queue *)

Definition with_queue (q : list Z) (seq : Z) (t : tcp_t) : tcp_t :=
  Tcp (tcp_remote_ip t) (tcp_local_seq t) seq (tcp_last_ack t) (tcp_local_port t) (tcp_remote_port t)
    (tcp_state t) q (tcp_fragments t).
Definition with_tcp_state (v : Z) (t : tcp_t) : tcp_t :=
  Tcp (tcp_remote_ip t) (tcp_local_seq t) (tcp_remote_seq t) (tcp_last_ack t) (tcp_local_port t) (tcp_remote_port t)
    v (tcp_queue t) (tcp_fragments t).
Definition with_fragments (l : list tcp_fragment_t) (t : tcp_t) : tcp_t :=
  Tcp (tcp_remote_ip t) (tcp_local_seq t) (tcp_remote_seq t) (tcp_last_ack t) (tcp_local_port t) (tcp_remote_port t)
    (tcp_state t) (tcp_queue t) l.
Definition with_local (seq : Z) (t : tcp_t) : tcp_t :=
  Tcp (tcp_remote_ip t) seq (tcp_remote_seq t) (tcp_last_ack t) (tcp_local_port t) (tcp_remote_port t)
    (tcp_state t) (tcp_queue t) (tcp_fragments t).
Definition with_ack (ack : Z) (t : tcp_t) : tcp_t :=
  Tcp (tcp_remote_ip t) (tcp_local_seq t) (tcp_remote_seq t) ack (tcp_local_port t) (tcp_remote_port t)
    (tcp_state t) (tcp_queue t) (tcp_fragments t).

(** What does not fit the queue is dropped, but counted as received. *)
Definition tcp_append (data : list Z) (t : tcp_t) : tcp_t :=
  with_queue (tcp_queue t ++ take (TCP_QUEUE - length (tcp_queue t)) data)
    (u32 (tcp_remote_seq t + Z.of_nat (length data))) t.

Definition fragment_index (f : tcp_fragment_t -> bool) (l : list tcp_fragment_t) : option nat :=
  fst <$> list_find (fun x => f x = true) l.

Definition tcp_store_fragment (seq : Z) (data : list Z) (fin : bool) (t : tcp_t) : tcp_t :=
  if Nat.ltb 1460 (length data) then t else
  match fragment_index (fun f => fr_valid f && (fr_sequence f =? seq)) (tcp_fragments t) with
  | Some _ => t
  | None =>
    match fragment_index (fun f => negb (fr_valid f)) (tcp_fragments t) with
    | Some i => with_fragments (<[i := Fragment seq fin true data]> (tcp_fragments t)) t
    | None => t
    end
  end.

(** The stream ended: its last sequence number is used up. *)
Definition finish (t : tcp_t) : tcp_t :=
  with_tcp_state 4 (with_queue (tcp_queue t) (u32 (tcp_remote_seq t + 1)) t).

(** [while (progress)]: every round but the last uses up a fragment, so one
    round more than there are slots is enough. *)
Fixpoint drain (fuel : nat) (t : tcp_t) : outcome tcp_t :=
  match fuel with
  | O => OutOfFuel
  | S fuel =>
    match list_find (fun f => fr_valid f && (fr_sequence f =? tcp_remote_seq t) = true) (tcp_fragments t) with
    | None => Ok t
    | Some (i, f) =>
      let t := tcp_append (fr_data f) t in
      let t := if fr_fin f then finish t else t in
      drain fuel (with_fragments (<[i := Fragment (fr_sequence f) (fr_fin f) false (fr_data f)]> (tcp_fragments t)) t)
    end
  end.

Definition tcp_drain_fragments (t : tcp_t) : outcome tcp_t := drain (S (length (tcp_fragments t))) t.

Section stack.

Context {D : Type} `{NetDev D}.

#[local] Abbreviation N := (M (net D)).

Definition lift_o {A} (o : outcome A) : N A := fun s => do a <- o; Ok (a, s).
Definition set_dev (d : D) (s : net D) : net D :=
  Net d (ready s) (neighbors s) (ip_id s) (ping s) (dns s) (ntp s) (tcp s).
Definition set_neighbors (l : list neighbor_t) (s : net D) : net D :=
  Net (dev s) (ready s) l (ip_id s) (ping s) (dns s) (ntp s) (tcp s).
Definition set_ping (f : ping_t -> ping_t) : N unit :=
  modify (fun s => Net (dev s) (ready s) (neighbors s) (ip_id s) (f (ping s)) (dns s) (ntp s) (tcp s)).
Definition set_dns (f : dns_t -> dns_t) : N unit :=
  modify (fun s => Net (dev s) (ready s) (neighbors s) (ip_id s) (ping s) (f (dns s)) (ntp s) (tcp s)).
Definition set_ntp (f : ntp_t -> ntp_t) : N unit :=
  modify (fun s => Net (dev s) (ready s) (neighbors s) (ip_id s) (ping s) (dns s) (f (ntp s)) (tcp s)).
Definition set_tcp (f : tcp_t -> tcp_t) : N unit :=
  modify (fun s => Net (dev s) (ready s) (neighbors s) (ip_id s) (ping s) (dns s) (ntp s) (f (tcp s))).

Definition mac : N (list Z) := fun s => Ok (netdev_mac (dev s), s).
Definition send (f : list Z) : N bool :=
  fun s => let '(ok, d) := netdev_send f (dev s) in Ok (ok, set_dev d s).
Definition cancelled : N bool :=
  fun s => let '(c, d) := process_cancel_requested (dev s) in Ok (c, set_dev d s).

Definition ethernet (dst own : list Z) (type : Z) : list Z := dst ++ own ++ be16 type.

(** ** Frames *)

Definition arp_request (target : Z) : N unit :=
  let! own := mac in
  send (ethernet (replicate 6 255) own 0x0806 ++ be16 1 ++ be16 0x0800 ++ [6; 4] ++ be16 1
        ++ own ++ le32 ip ++ replicate 6 0 ++ le32 target) ;; ret tt.

Definition arp_reply (r : list Z) : N unit :=
  let! sender := lift_o (part r 22 6) in
  let! kind := lift_o (part r 14 6) in
  let! who := lift_o (part r 28 4) in
  let! own := mac in
  send (ethernet sender own 0x0806 ++ kind ++ be16 2 ++ own ++ le32 ip ++ sender ++ who) ;; ret tt.

(** The 34 bytes of the Ethernet and IP headers. *)
Definition ip_header (id destination protocol : Z) (payload : nat) : list Z :=
  [0x45; 0] ++ be16 (u16 (Z.of_nat (20 + payload))) ++ be16 id ++ be16 0 ++ [64; protocol] ++ be16 0
  ++ le32 ip ++ le32 destination.

Definition ipv4_begin (destination protocol : Z) (payload : nat) (to : list Z) : N (list Z) :=
  fun s =>
    let id := u16 (ip_id s + 1) in
    let h := ip_header id destination protocol payload in
    Ok (ethernet to (netdev_mac (dev s)) 0x0800 ++ patch 10 (be16 (checksum h)) h,
        Net (dev s) (ready s) (neighbors s) id (ping s) (dns s) (ntp s) (tcp s)).

(** The reply is the request with the addresses swapped and type 0. *)
Definition icmp_reply (r : list Z) : N unit :=
  if Nat.ltb (length r) 42 then ret tt else
  let! _ := lift_o (room (length r) 1514) in
  let! own := mac in
  let! back_to := lift_o (part r 6 6) in
  let! target := lift_o (part r 30 4) in
  let f := patch 0 (back_to ++ own) r in
  let f := patch 26 (target ++ le32 ip) f in
  let f := patch 36 (be16 0) (patch 34 [0] f) in
  let! message := lift_o (part f 34 (u64 (Z.of_nat (length r) - 34))) in
  send (patch 36 (be16 (checksum message)) f) ;; ret tt.

Definition tcp_checksum (destination : Z) (seg : list Z) : Z :=
  checksum (le32 ip ++ le32 destination ++ [0; 6] ++ be16 (u16 (Z.of_nat (length seg))) ++ seg).

(** ** Code that polls *)

Section polling.

Variable poll : N unit.

(** [n] more rounds of waiting for the neighbour. *)
Fixpoint wait_neighbor (n : nat) (hop : Z) : N (option neighbor_t) :=
  match n with
  | O => ret None
  | S n =>
    let! c := cancelled in
    if c then ret None else
    poll ;;
    let! s := get in
    match neighbor_find hop (neighbors s) with Some x => ret (Some x) | None => wait_neighbor n hop end
  end.

Definition resolve_next_hop (destination : Z) (spins : nat) : N (option neighbor_t) :=
  let hop := next_hop destination in
  let! s := get in
  match neighbor_find hop (neighbors s) with
  | Some n => ret (Some n)
  | None => arp_request hop ;; wait_neighbor spins hop
  end.

Definition tcp_segment (t : tcp_t) (flags : Z) (data : list Z) : list Z :=
  let h := be16 (tcp_local_port t) ++ be16 (tcp_remote_port t) ++ be32 (tcp_local_seq t) ++ be32 (tcp_remote_seq t)
           ++ [0x50; flags] ++ be16 4096 ++ be16 0 ++ be16 0 ++ data in
  patch 16 (be16 (tcp_checksum (tcp_remote_ip t) h)) h.

Definition tcp_send (flags : Z) (data : list Z) : N bool :=
  let! s := get in
  let! n := resolve_next_hop (tcp_remote_ip (tcp s)) (Z.to_nat 2000000) in
  match n with
  | None => ret false
  | Some n =>
    if Nat.ltb 1400 (length data) then ret false else
    let! _ := lift_o (room (54 + length data) 1514) in
    let! _ := lift_o (room (32 + length data) 1480) in
    let! s := get in
    let! h := ipv4_begin (tcp_remote_ip (tcp s)) 6 (20 + length data) (n_mac n) in
    let! s := get in
    send (h ++ tcp_segment (tcp s) flags data)
  end.

(** A segment for the connection: [None] when it is not one. *)
Definition tcp_header (seg : list Z) (source : Z) (t : tcp_t) : outcome (option (nat * Z * Z * Z)) :=
  if negb (source =? tcp_remote_ip t) || Nat.ltb (length seg) 20 then Ok None else
  do dport <- read16 seg 2;
  if negb (dport =? tcp_local_port t) then Ok None else
  do sport <- read16 seg 0;
  if negb (sport =? tcp_remote_port t) then Ok None else
  do off <- byte seg 12;
  let header := Z.to_nat (Z.shiftr off 4 * 4) in
  if Nat.ltb header 20 || Nat.ltb (length seg) header then Ok None else
  do flags <- byte seg 13;
  do seq <- read32 seg 4;
  do ack <- read32 seg 8;
  Ok (Some (header, flags, seq, ack)).

(** What the segment does to the connection, and whether it is acknowledged. *)
Definition tcp_input (payload : list Z) (flags seq ack : Z) (t : tcp_t) : outcome (bool * tcp_t) :=
  if negb (Z.land flags 4 =? 0) then Ok (false, with_tcp_state (-2) t) else
  let t := if negb (Z.land flags 0x10 =? 0) then with_ack ack t else t in
  if (Z.land flags 0x12 =? 0x12) && (tcp_state t =? 1) then
    Ok (false, with_tcp_state 2 (with_ack ack (with_local ack (with_queue (tcp_queue t) (u32 (seq + 1)) t))))
  else
  let fin := negb (Z.land flags 1 =? 0) in
  if (negb (Nat.eqb (length payload) 0) || fin) && negb (seq =? tcp_remote_seq t) then
    Ok (true, if 0 <? s32 (seq - tcp_remote_seq t) then tcp_store_fragment seq payload fin t else t)
  else
  let t := match payload with [] => t | _ => tcp_append payload t end in
  let t := if fin then finish t else t in
  do t <- tcp_drain_fragments t; Ok (true, t).

Definition tcp_receive (seg : list Z) (source : Z) : N unit :=
  let! s := get in
  let! h := lift_o (tcp_header seg source (tcp s)) in
  match h with
  | None => ret tt
  | Some (header, flags, seq, ack) =>
    let! payload := lift_o (part seg header (u64 (Z.of_nat (length seg) - Z.of_nat header))) in
    let! '(answer, t) := lift_o (tcp_input payload flags seq ack (tcp s)) in
    set_tcp (fun _ => t) ;;
    when answer (tcp_send 0x10 [] ;; ret tt)
  end.

(** One received frame. *)
Definition process (f : list Z) : N unit :=
  let n := length f in
  if Nat.ltb n 14 then ret tt else
  let! type := lift_o (read16 f 12) in
  if (type =? 0x0806) && Nat.leb 42 n then
    let! op := lift_o (read16 f 20) in
    let! sender := lift_o (load32 f 28) in
    let! target := lift_o (load32 f 38) in
    let! hw := lift_o (part f 22 6) in
    modify (fun s => set_neighbors (neighbor_store sender hw (neighbors s)) s) ;;
    when ((op =? 1) && (target =? ip)) (arp_reply f)
  else if negb (type =? 0x0800) || Nat.ltb n 34 then ret tt else
  let! b14 := lift_o (byte f 14) in
  let ihl := Z.land b14 15 * 4 in
  if (ihl <? 20) || (Z.of_nat n <? 14 + ihl) then ret tt else
  let! total := lift_o (read16 f 16) in
  let total := if (total <? ihl) || (Z.of_nat n <? 14 + total) then u16 (Z.of_nat n - 14) else total in
  let! source := lift_o (load32 f 26) in
  let! target := lift_o (load32 f 30) in
  if negb (target =? ip) then ret tt else
  let! protocol := lift_o (byte f 23) in
  let! p := lift_o (part f (Z.to_nat (14 + ihl)) (u32 (total - ihl))) in
  if (protocol =? 1) && Nat.leb 8 (length p) then
    let! kind := lift_o (byte p 0) in
    if kind =? 8 then let! r := lift_o (part f 0 (14 + total)) in icmp_reply r
    else if kind =? 0 then
      let! q := lift_o (read16 p 6) in
      set_ping (fun x => Ping (sequence x) q (ping_error x) (ping_error_type x) (ping_error_code x))
    else if kind =? 3 then
      let! code := lift_o (byte p 1) in
      set_ping (fun x => Ping (sequence x) (reply_sequence x) true kind code)
    else ret tt
  else if (protocol =? 17) && Nat.leb 8 (length p) then
    let! source_port := lift_o (read16 p 0) in
    let! destination := lift_o (read16 p 2) in
    let! udp_length := lift_o (read16 p 4) in
    if (source_port =? 53) && (destination =? 53000) && (8 <=? udp_length) && (udp_length <=? Z.of_nat (length p)) then
      let! d := lift_o (part p 8 (u64 (udp_length - 8))) in
      let! s := get in
      let! x := lift_o (dns_receive d (dns s)) in set_dns (fun _ => x)
    else if (source_port =? 123) && (destination =? 53001) && (56 <=? udp_length) && (udp_length <=? Z.of_nat (length p)) then
      let! d := lift_o (part p 8 (u64 (udp_length - 8))) in
      let! s := get in
      let! x := lift_o (ntp_receive d source (ntp s)) in set_ntp (fun _ => x)
    else ret tt
  else when (protocol =? 6) (tcp_receive p source).

(** The frames a poll takes from the device. *)
Fixpoint drain_device (k : nat) : N unit :=
  match k with
  | O => ret tt
  | S k =>
    let! r := (fun s => let '(r, d) := netdev_receive 1514 (dev s) in Ok (r, set_dev d s)) in
    match r with Some f => process f ;; drain_device k | None => ret tt end
  end.

End polling.

Fixpoint network_poll (fuel : nat) : N unit :=
  match fuel with
  | O => out_of_fuel
  | S fuel =>
    let! s := get in
    if negb (ready s) then ret tt else drain_device (network_poll fuel) 16
  end.

(** ** The interface

    [fuel] bounds how deep polls nest; [spins] is the number of rounds to wait. *)

Definition network_init : N bool :=
  fun s =>
    let '(ok, d) := netdev_init (dev s) in
    let l := map (fun n => Neighbor (n_ip n) (n_mac n) false) (neighbors s) in
    let p := ping s in
    let s := Net d ok l 0 (Ping 0 0 (ping_error p) (ping_error_type p) (ping_error_code p))
               (Dns 0 0 (dns_reply_address (dns s))) (ntp s) (tcp s) in
    (when ok (arp_request gateway) ;; ret ok) s.

Definition network_ready : N bool := fun s => Ok (ready s, s).

(** [n] rounds of polling while [go] holds of the state; [cancel] says whether
    the loop looks at the cancellation flag.  The result is [None] when
    cancelled, else the number of rounds left. *)
Fixpoint spin (n : nat) (fuel : nat) (cancel : bool) (go : net D -> bool) : N (option nat) :=
  match n with
  | O => ret (Some O)
  | S n' =>
    let! s := get in
    if negb (go s) then ret (Some n) else
    let! c := (if cancel then cancelled else ret false) in
    if c then ret None else network_poll fuel ;; spin n' fuel cancel go
  end.

Definition ping_payload : list Z := map Z.of_nat (seq 8 56).

(** The result, the rounds waited, and the last ICMP error's type and code. *)
Definition network_ping (fuel : nat) (address : Z) (spins : nat) : N (Z * option (nat * option (Z * Z))) :=
  let! s := get in
  if negb (ready s) then ret (-1, None) else
  let! n := resolve_next_hop (network_poll fuel) address spins in
  match n with
  | None => ret (-2, None)
  | Some n =>
    let! h := ipv4_begin address 1 64 (n_mac n) in
    set_ping (fun x => Ping (u16 (sequence x + 1)) (reply_sequence x) (ping_error x) (ping_error_type x) (ping_error_code x)) ;;
    let! s := get in
    let q := sequence (ping s) in
    let m := [8; 0] ++ be16 0 ++ be16 0x6464 ++ be16 q ++ ping_payload in
    set_ping (fun x => Ping (sequence x) 0 false (ping_error_type x) (ping_error_code x)) ;;
    send (h ++ patch 2 (be16 (checksum m)) m) ;;
    let! left := spin spins fuel false (fun s => negb (reply_sequence (ping s) =? sequence (ping s)) && negb (ping_error (ping s))) in
    let rounds := (spins - default 0%nat left)%nat in
    let! s := get in
    let p := ping s in
    ret (if ping_error p then (-3, Some (rounds, Some (ping_error_type p, ping_error_code p)))
         else (if reply_sequence p =? sequence p then 1 else 0, Some (rounds, None)))
  end.

(** ** DNS queries *)

(** A store at the end of the 256-byte query. *)
Definition push (v : Z) (q : list Z) : outcome (list Z) :=
  if Nat.ltb (length q) 256 then Ok (q ++ [v]) else Undefined.
Fixpoint push_all (vs q : list Z) : outcome (list Z) :=
  match vs with [] => Ok q | v :: vs => do q <- push v q; push_all vs q end.

(** The characters up to the next dot. *)
Fixpoint label_of (s : list Z) : list Z :=
  match s with c :: s => if c =? 46 then [] else c :: label_of s | [] => [] end.

(** The labels of the name; [None] when the name is refused. *)
Fixpoint push_labels (fuel : nat) (s q : list Z) : outcome (option (list Z)) :=
  match fuel, s with
  | _, [] => Ok (Some q)
  | O, _ => OutOfFuel
  | S fuel, _ =>
    let l := label_of s in
    if Nat.eqb (length l) 0 || Nat.ltb 63 (length l) || Nat.leb 256 (length q + length l + 1) then Ok None else
    do q <- push (Z.of_nat (length l)) q;
    do q <- push_all l q;
    push_labels fuel (drop (length l + 1) s) q
  end.

(** The query for [name]: header, labels, root, type A, class IN. *)
Definition dns_query (id : Z) (q : list Z) : outcome (list Z) :=
  do q <- push 0 q; do q <- push_all (be16 1) q; do q <- push_all (be16 1) q;
  Ok (patch 0 (be16 id ++ be16 0x0100 ++ be16 1 ++ be16 0 ++ be16 0 ++ be16 0) q).

Definition udp (sport dport : Z) (data : list Z) : list Z :=
  be16 sport ++ be16 dport ++ be16 (u16 (Z.of_nat (8 + length data))) ++ be16 0 ++ data.

(** The result code and the address. *)
Definition network_resolve (fuel : nat) (name : list Z) (spins : nat) : N (Z * Z) :=
  let! s := get in
  if negb (ready s) then ret (-1, 0) else
  let numeric := network_parse_ipv4 name in
  if z2b numeric then ret (1, numeric) else
  let! n := resolve_next_hop (network_poll fuel) dns_server spins in
  match n with
  | None => ret (-2, 0)
  | Some n =>
    if Nat.ltb 253 (length name) then ret (-3, 0) else
    let! q := lift_o (push_labels (length name) name (replicate 12 0)) in
    match q with
    | None => ret (-3, 0)
    | Some q =>
      let! s := get in
      let id := u16 (dns_reply_id (dns s) + 1) in
      let id := if id =? 0 then 1 else id in
      let! q := lift_o (dns_query id q) in
      set_dns (fun x => Dns id (dns_reply_status x) (dns_reply_address x)) ;;
      let! h := ipv4_begin dns_server 17 (8 + length q) (n_mac n) in
      set_dns (fun x => Dns (dns_reply_id x) 0 0) ;;
      send (h ++ udp 53000 53 q) ;;
      let! w := spin spins fuel true (fun s => dns_reply_status (dns s) =? 0) in
      match w with
      | None => ret (0, 0)
      | Some _ => let! s := get in
                  ret (dns_reply_status (dns s), if dns_reply_status (dns s) =? 1 then dns_reply_address (dns s) else 0)
      end
    end
  end.

(** ** NTP queries *)

Definition network_ntp_query (fuel : nat) (server : list Z) (request_timestamp : Z) (spins : nat) :
    N (Z * option network_ntp_result_t) :=
  let! s := get in
  if negb (ready s) || (request_timestamp =? 0) then ret (NETWORK_NTP_DOWN, None) else
  let! '(r, address) := network_resolve fuel server spins in
  if negb (r =? 1) then ret (NETWORK_NTP_DNS, None) else
  let! n := resolve_next_hop (network_poll fuel) address spins in
  match n with
  | None => ret (NETWORK_NTP_ROUTE, None)
  | Some n =>
    let request := [0x23] ++ replicate 39 0 ++ be64 request_timestamp in
    let! h := ipv4_begin address 17 56 (n_mac n) in
    set_ntp (fun x => Ntp 0 address request_timestamp (ntp_reply x)) ;;
    let! ok := send (h ++ udp 53001 123 request) in
    if negb ok then ret (NETWORK_NTP_SEND, None) else
    spin spins fuel false (fun s => ntp_reply_status (ntp s) =? 0) ;;
    let! s := get in
    let st := ntp_reply_status (ntp s) in
    ret (if st =? NETWORK_NTP_OK then (NETWORK_NTP_OK, Some (ntp_reply (ntp s)))
         else (if z2b st then st else NETWORK_NTP_TIMEOUT, None))
  end.

(** ** The TCP client *)

Definition network_tcp_connect (fuel : nat) (address port : Z) (spins : nat) : N Z :=
  let! s := get in
  if negb (ready s) || (address =? 0) || (port =? 0) then ret (-1) else
  let! n := resolve_next_hop (network_poll fuel) address spins in
  match n with
  | None => ret (-2)
  | Some _ =>
    let! s := get in
    let seq := u32 (0x64000000 + ip_id s) in
    set_tcp (fun t => Tcp address seq 0 seq (u16 (49152 + Z.land (ip_id s) 1023)) port 1 []
                        (map (fun f => Fragment (fr_sequence f) (fr_fin f) false (fr_data f)) (tcp_fragments t))) ;;
    let! ok := tcp_send (network_poll fuel) 0x02 [] in
    if negb ok then ret (-2) else
    set_tcp (fun t => with_local (u32 (tcp_local_seq t + 1)) t) ;;
    let! w := spin spins fuel true (fun s => tcp_state (tcp s) =? 1) in
    match w with
    | None => ret (-6)
    | Some _ =>
      let! s := get in
      ret (if tcp_state (tcp s) =? 2 then 1 else if tcp_state (tcp s) =? -2 then -5 else -4)
    end
  end.

(** Waiting for an acknowledgement: [Some] says whether it came, [None] that
    the wait was cancelled. *)
Fixpoint wait_ack (n fuel : nat) (expected : Z) : N (option bool) :=
  match n with
  | O => ret (Some false)
  | S n =>
    let! s := get in
    if negb (tcp_state (tcp s) =? 2) then ret (Some false) else
    let! c := cancelled in
    if c then ret None else
    network_poll fuel ;;
    let! s := get in
    if 0 <=? s32 (tcp_last_ack (tcp s) - expected) then ret (Some true) else wait_ack n fuel expected
  end.

(** At most [k] more attempts at a chunk: 1 when acknowledged, else the code
    the caller returns. *)
Fixpoint send_chunk (k fuel spins : nat) (flags start : Z) (chunk : list Z) : N Z :=
  match k with
  | O => ret (-2)
  | S k =>
    set_tcp (with_local start) ;;
    let! ok := tcp_send (network_poll fuel) flags chunk in
    if negb ok then ret (-2) else
    let expected := u32 (start + Z.of_nat (length chunk)) in
    set_tcp (with_local expected) ;;
    let! a := wait_ack spins fuel expected in
    match a with
    | None => ret (-3)
    | Some true => ret 1
    | Some false => send_chunk k fuel spins flags start chunk
    end
  end.

Fixpoint send_chunks (chunks fuel spins : nat) (data : list Z) : N Z :=
  match chunks, data with
  | _, [] => ret 1
  | O, _ => out_of_fuel
  | S chunks, _ =>
    let chunk := take 1400 data in
    let rest := drop 1400 data in
    let! s := get in
    let! r := send_chunk 3 fuel spins (if bool_decide (rest = []) then 0x18 else 0x10) (tcp_local_seq (tcp s)) chunk in
    if r =? 1 then send_chunks chunks fuel spins rest else ret r
  end.

Definition network_tcp_send (fuel : nat) (data : list Z) (spins : nat) : N Z :=
  let! s := get in
  if negb (tcp_state (tcp s) =? 2) || bool_decide (data = []) then ret (-1)
  else send_chunks (length data) fuel spins data.

(** The result and the bytes received. *)
Definition network_tcp_receive (fuel : nat) (capacity : nat) (spins : nat) : N (Z * list Z) :=
  let! s := get in
  if (tcp_state (tcp s) <? 2) || Nat.eqb capacity 0 then ret (-1, []) else
  let! w := spin spins fuel true (fun s => bool_decide (tcp_queue (tcp s) = []) && (2 <=? tcp_state (tcp s))) in
  match w with
  | None => ret (-3, [])
  | Some _ =>
    let! s := get in
    let got := take capacity (tcp_queue (tcp s)) in
    set_tcp (fun t => with_queue (drop capacity (tcp_queue t)) (tcp_remote_seq t) t) ;;
    ret (match got with [] => if tcp_state (tcp s) =? 4 then 0 else -2 | _ => 1 end, got)
  end.

Definition network_tcp_close (fuel : nat) (spins : nat) : N unit :=
  let! s := get in
  when ((2 <=? tcp_state (tcp s)) && (tcp_state (tcp s) <? 4))
    (tcp_send (network_poll fuel) 0x11 [] ;;
     set_tcp (fun t => with_local (u32 (tcp_local_seq t + 1)) t) ;;
     spin spins fuel false (fun s => tcp_state (tcp s) <? 4) ;; ret tt) ;;
  set_tcp (with_tcp_state 0).

(** ** HTTP *)

(** Stores into the 512-byte request, up to [limit] where the loop has one. *)
Fixpoint request_copy (limit : option nat) (s q : list Z) : outcome (list Z) :=
  match s with
  | [] => Ok q
  | c :: s =>
    if (match limit with Some l => Nat.leb l (length q) | None => false end) then Ok q
    else if Nat.ltb (length q) 512 then request_copy limit s (q ++ [c]) else Undefined
  end.

Definition CRLF : list Z := [13; 10].

Definition http_request (host path : list Z) : outcome (list Z) :=
  do q <- request_copy None (text "GET ") [];
  do q <- request_copy (Some 511%nat) path q;
  do q <- request_copy None (text " HTTP/1.0" ++ CRLF ++ text "Host: ") q;
  do q <- request_copy (Some 511%nat) host q;
  request_copy (Some 512%nat)
    (CRLF ++ text "User-Agent: OS64-curl/0.7" ++ CRLF ++ text "Connection: close" ++ CRLF ++ text "Accept: */*" ++ CRLF ++ CRLF) q.

Fixpoint http_body (calls fuel capacity spins : nat) (used : list Z) : N (list Z) :=
  match calls with
  | O => ret used
  | S calls =>
    if Nat.leb capacity (length used) then ret used else
    let! '(r, got) := network_tcp_receive fuel (capacity - length used) spins in
    if r <=? 0 then ret (used ++ got) else http_body calls fuel capacity spins (used ++ got)
  end.

Definition network_http_get (fuel : nat) (host path : list Z) (capacity spins : nat) : N (Z * list Z) :=
  if Nat.eqb capacity 0 then ret (-1, []) else
  let! '(r, address) := network_resolve fuel host spins in
  if negb (r =? 1) then ret (-2, []) else
  let! c := network_tcp_connect fuel address 80 spins in
  if negb (c =? 1) then ret (if c =? -2 then -3 else c, []) else
  let! q := lift_o (http_request host path) in
  let! r := network_tcp_send fuel q spins in
  if negb (r =? 1) then ret (-3, []) else
  let! body := http_body 32 fuel capacity spins [] in
  network_tcp_close fuel (Z.to_nat 10000) ;;
  ret (match body with [] => -4 | _ => 1 end, body).

End stack.
