(* ===== verification/NetTcp.v ===== *)
(** * The TCP receiver delivers the stream it is sent

    Segments of a byte stream may arrive in any order, repeatedly and in any
    cut; the queue, together with what was read before, is always the part of
    the stream the receiver has acknowledged. *)

From stdpp Require Import base numbers list strings.
From Stdlib Require Import ZArith Lia.
From S2P Require Import Prelude Effects Net.

(** ** Sequence numbers *)

Lemma u32_eq a b : u32 a = u32 b -> - 2 ^ 31 <= a - b < 2 ^ 31 -> a = b.
Proof. unfold u32. intros. Z.div_mod_to_equations. lia. Qed.

Lemma s32_diff a b : - 2 ^ 31 <= a - b < 2 ^ 31 -> s32 (u32 a - u32 b) = a - b.
Proof. unfold s32, u32. intros. Z.div_mod_to_equations. lia. Qed.

Lemma u32_add a b : u32 (u32 a + b) = u32 (a + b).
Proof. unfold u32. by rewrite Zplus_mod_idemp_l. Qed.

(** ** The draining loop ends *)

Definition valid_count (l : list tcp_fragment_t) : nat := length (filter (fun f => fr_valid f = true) l).

Lemma valid_count_used l i f :
  l !! i = Some f -> fr_valid f = true ->
  S (valid_count (<[i := Fragment (fr_sequence f) (fr_fin f) false (fr_data f)]> l)) = valid_count l.
Proof.
  intros Hl Hv. unfold valid_count. rewrite <- (take_drop_middle l i f Hl) at 2.
  rewrite insert_take_drop by (by eapply lookup_lt_Some). rewrite !filter_app, !filter_cons, !length_app. cbn [fr_valid].
  rewrite decide_False by done. rewrite decide_True by done. cbn [length]. lia.
Qed.

Lemma drain_ends fuel t :
  (valid_count (tcp_fragments t) < fuel)%nat -> exists t', drain fuel t = Ok t'.
Proof.
  revert t. induction fuel as [|fuel IH]; intros t Hn; [lia|]. cbn [drain].
  destruct (list_find _ _) as [[i f]|] eqn:Hf; [|by eexists]. apply list_find_Some in Hf as (Hi&Hm&_).
  apply andb_prop in Hm as [Hv _]. apply IH. cbn [with_fragments tcp_fragments].
  assert (Hfr : tcp_fragments (if fr_fin f then finish (tcp_append (fr_data f) t) else tcp_append (fr_data f) t) = tcp_fragments t)
    by (by destruct (fr_fin f)).
  cbv zeta. rewrite Hfr. pose proof (valid_count_used _ _ _ Hi Hv). lia.
Qed.

Lemma drain_returns t : exists t', tcp_drain_fragments t = Ok t'.
Proof.
  apply drain_ends. unfold valid_count. pose proof (length_filter (fun f => fr_valid f = true) (tcp_fragments t)). lia.
Qed.

(** ** The sender's side *)

Section stream.

Context (isn : Z) (stream : list Z).
Hypothesis stream_small : Z.of_nat (length stream) < 2 ^ 31 - 1.

Definition slice (off len : nat) : list Z := take len (drop off stream).

Lemma slice_length off len : (off + len <= length stream)%nat -> length (slice off len) = len.
Proof. intros. unfold slice. rewrite length_take, length_drop. lia. Qed.

Lemma slice_app c k n : (c <= k)%nat -> slice c (k - c) ++ slice k n = slice c (k - c + n).
Proof.
  intros Hk. unfold slice. rewrite <- take_take_drop. f_equal. f_equal. rewrite drop_drop. f_equal. lia.
Qed.

(** [len] bytes at offset [off] of the stream, the last one marked. *)
Record segment (off len : nat) (fin : bool) (seq : Z) (data : list Z) : Prop := {
  seg_fits : (off + len <= length stream)%nat;
  seg_seq : seq = u32 (isn + Z.of_nat off);
  seg_data : data = slice off len;
  seg_fin : fin = true -> (off + len = length stream)%nat
}.

(** ** The receiver's invariant

    [c] bytes were read, [k] were received; [closed] says the end was seen. *)

Definition fragment_ok (c : nat) (f : tcp_fragment_t) : Prop :=
  fr_valid f = true -> exists off len, segment off len (fr_fin f) (fr_sequence f) (fr_data f) /\ (off + len <= c + TCP_QUEUE)%nat.

Record received (c k : nat) (closed : bool) (t : tcp_t) : Prop := {
  rc_order : (c <= k <= length stream)%nat;
  rc_room : (k <= c + TCP_QUEUE)%nat;
  rc_seq : tcp_remote_seq t = u32 (isn + Z.of_nat k + b2z closed);
  rc_queue : tcp_queue t = slice c (k - c);
  rc_closed : closed = true -> k = length stream /\ tcp_state t = 4;
  rc_open : tcp_state t <> 1;
  rc_fragments : Forall (fragment_ok c) (tcp_fragments t)
}.

Lemma append_received c k t len :
  received c k false t -> (k + len <= length stream)%nat -> (k + len <= c + TCP_QUEUE)%nat ->
  received c (k + len) false (tcp_append (slice k len) t).
Proof.
  intros [Ho Hr Hs Hq Hc Hn Hf] Hl Hroom. unfold tcp_append. rewrite Hq, Hs.
  rewrite (slice_length c (k - c)), (slice_length k len) by lia. cbn [b2z] in *. rewrite Z.add_0_r in Hs.
  constructor; cbn [with_queue tcp_remote_seq tcp_queue tcp_state tcp_fragments]; [lia|lia| | |done|done|done].
  - rewrite u32_add. cbn [b2z]. f_equal. lia.
  - rewrite (take_ge (slice k len)) by (rewrite slice_length by lia; lia). rewrite slice_app by lia. f_equal. lia.
Qed.

Lemma finish_received c t :
  received c (length stream) false t -> received c (length stream) true (finish t).
Proof.
  intros [Ho Hr Hs Hq Hc Hn Hf]. constructor; cbn [finish with_tcp_state with_queue tcp_remote_seq tcp_queue tcp_state tcp_fragments];
    [done|done| |done|done|done|done]. rewrite Hs, u32_add. cbn [b2z]. f_equal. lia.
Qed.

(** One segment that starts where the received part ends. *)
Lemma accept_received c k t off len fin seq data :
  received c k false t -> segment off len fin seq data -> seq = tcp_remote_seq t -> (off + len <= c + TCP_QUEUE)%nat ->
  exists k', received c k' fin (let t := tcp_append data t in if fin then finish t else t) /\ (k + len <= k')%nat.
Proof.
  intros Hrc [Hfit -> -> Hfin] Hseq Hroom. pose proof Hrc as [Ho Hr Hs _ _ _ _].
  rewrite Hs in Hseq. cbn [b2z] in Hseq. apply u32_eq in Hseq; [|lia]. assert (off = k) as -> by lia.
  exists (k + len)%nat. split; [|lia]. pose proof (append_received c k t len Hrc Hfit Hroom) as Ha. cbv zeta.
  destruct fin; [|done]. rewrite (Hfin eq_refl) in *. by apply finish_received.
Qed.

(** A closed receiver takes nothing more. *)
Lemma closed_ignores c k t off len fin seq data :
  received c k true t -> segment off len fin seq data -> seq <> tcp_remote_seq t.
Proof.
  intros [Ho _ Hs _ Hc _ _] [Hfit -> _ _] Heq. rewrite Hs in Heq. destruct (Hc eq_refl) as [-> _]. cbn [b2z] in Heq.
  apply u32_eq in Heq; lia.
Qed.

(** ** Draining *)

Lemma drain_received fuel c k closed t :
  received c k closed t -> (valid_count (tcp_fragments t) < fuel)%nat ->
  exists k' closed' t', drain fuel t = Ok t' /\ received c k' closed' t' /\ (k <= k')%nat /\ tcp_remote_ip t' = tcp_remote_ip t.
Proof.
  revert k closed t. induction fuel as [|fuel IH]; intros k closed t Hrc Hn; [lia|]. cbn [drain].
  destruct (list_find _ _) as [[i f]|] eqn:Hf; [|by exists k, closed, t].
  apply list_find_Some in Hf as (Hi&Hm&_). apply andb_prop in Hm as [Hv Hs%Z.eqb_eq].
  pose proof (proj1 (Forall_lookup _ _) (rc_fragments _ _ _ _ Hrc) i f Hi Hv) as (off&len&Hseg&Hroom).
  destruct closed; [by destruct (closed_ignores _ _ _ _ _ _ _ _ Hrc Hseg)|].
  destruct (accept_received c k t off len (fr_fin f) (fr_sequence f) (fr_data f)) as (k'&Hrc'&Hk'); [done..|].
  cbv zeta in *. set (t1 := if fr_fin f then _ else _) in *.
  assert (Hfr : tcp_fragments t1 = tcp_fragments t) by (unfold t1; by destruct (fr_fin f)).
  assert (Hip : tcp_remote_ip t1 = tcp_remote_ip t) by (unfold t1; by destruct (fr_fin f)).
  destruct (IH k' (fr_fin f) (with_fragments (<[i := Fragment (fr_sequence f) (fr_fin f) false (fr_data f)]> (tcp_fragments t1)) t1))
    as (k2&cl&t2&E&Hrc2&Hk2&Hip2).
  - destruct Hrc'. constructor; try done. cbn. apply Forall_insert; [done|]. by intros [=].
  - cbn [with_fragments tcp_fragments]. rewrite Hfr. pose proof (valid_count_used _ _ _ Hi Hv). lia.
  - exists k2, cl, t2. split_and!; [done|done|lia|]. rewrite Hip2. cbn. done.
Qed.

Lemma drain_enough c k closed t :
  received c k closed t ->
  exists k' closed' t', tcp_drain_fragments t = Ok t' /\ received c k' closed' t' /\ (k <= k')%nat /\
    tcp_remote_ip t' = tcp_remote_ip t.
Proof.
  intros Hrc. apply (drain_received _ c k closed); [done|]. unfold valid_count.
  pose proof (length_filter (fun f => fr_valid f = true) (tcp_fragments t)). lia.
Qed.

(** ** Segments and reads *)

(** A segment of the stream the receiver has room for, as it arrives. *)
Record arrives (c : nat) (payload : list Z) (flags seq : Z) : Prop := {
  ar_segment : exists off len, segment off len (negb (Z.land flags 1 =? 0)) seq payload /\ (off + len <= c + TCP_QUEUE)%nat;
  ar_no_reset : Z.land flags 4 = 0
}.

Lemma store_received c k closed t off len fin seq data :
  received c k closed t -> segment off len fin seq data -> (off + len <= c + TCP_QUEUE)%nat ->
  received c k closed (tcp_store_fragment seq data fin t).
Proof.
  intros Hrc Hseg Hroom. unfold tcp_store_fragment. repeat (case_match; try done).
  destruct Hrc. constructor; try done. cbn. apply Forall_insert; [done|]. intros _. by exists off, len.
Qed.

Lemma ack_received c k closed ack t : received c k closed t -> received c k closed (with_ack ack t).
Proof. intros []. by constructor. Qed.

Lemma input_received c k closed t payload flags seq ack :
  received c k closed t -> arrives c payload flags seq ->
  exists k' closed' t', tcp_input payload flags seq ack t = Ok (true, t') /\ received c k' closed' t' /\ (k <= k')%nat /\
    (seq = u32 (isn + Z.of_nat k) -> closed = false -> (k + length payload <= k')%nat).
Proof.
  intros Hrc [(off&len&Hseg&Hroom) Hrst]. unfold tcp_input. rewrite Hrst. cbn [Z.eqb negb].
  set (t1 := if negb (Z.land flags 16 =? 0) then with_ack ack t else t).
  assert (H1 : received c k closed t1) by (unfold t1; destruct (negb (Z.land flags 16 =? 0)); [by apply ack_received|done]).
  rewrite (proj2 (Z.eqb_neq (tcp_state t1) 1)) by apply H1. rewrite andb_false_r.
  set (fin := negb (Z.land flags 1 =? 0)) in *.
  assert (Hlen : length payload = len) by (rewrite (seg_data _ _ _ _ _ Hseg); apply slice_length, Hseg).
  destruct (Z.eqb_spec seq (tcp_remote_seq t1)) as [Heq|Hne]; cbn [negb]; rewrite ?andb_false_r, ?andb_true_r.
  2:{ destruct (negb (Nat.eqb (length payload) 0) || fin) eqn:Hp.
      - exists k, closed. eexists. split_and!; [done| |lia|].
        + case_match; [by eapply store_received|done].
        + intros -> ->. destruct Hne. rewrite (rc_seq _ _ _ _ H1). cbn [b2z]. by rewrite Z.add_0_r.
      - apply orb_false_iff in Hp as [Hp ->]. apply negb_false_iff, Nat.eqb_eq in Hp.
        destruct payload; [|done]. cbn [length] in *.
        destruct (drain_enough c k closed t1 H1) as (k'&cl&t'&->&Hrc'&Hk&_). exists k', cl, t'. split_and!; [done|done|done|lia]. }
  destruct closed; [by destruct (closed_ignores _ _ _ _ _ _ _ _ H1 Hseg)|].
  destruct (accept_received c k t1 off len fin seq payload) as (k1&Hrc1&Hk1); [done..|]. cbv zeta in Hrc1.
  assert (Happ : match payload with [] => t1 | _ => tcp_append payload t1 end = tcp_append payload t1).
  { destruct payload; [|done]. unfold tcp_append. cbn [length]. rewrite take_nil, app_nil_r, Z.add_0_r.
    destruct H1 as [_ _ Hs _ _ _ _]. rewrite Hs. unfold u32. rewrite Z.mod_mod by lia. fold (u32 (isn + Z.of_nat k + b2z false)).
    rewrite <- Hs. by destruct t1. }
  rewrite Happ. destruct (drain_enough _ _ _ _ Hrc1) as (k'&cl&t'&->&Hrc'&Hk&_). exists k', cl, t'.
  split_and!; [done|done|lia|]. intros _ _. lia.
Qed.

(** The application takes up to [n] bytes off the queue. *)
Lemma read_received c k closed t n :
  received c k closed t ->
  received (c + length (take n (tcp_queue t))) k closed (with_queue (drop n (tcp_queue t)) (tcp_remote_seq t) t) /\
  take n (tcp_queue t) = slice c (length (take n (tcp_queue t))).
Proof.
  intros [Ho Hr Hs Hq Hc Hn Hf]. rewrite Hq, length_take, slice_length by lia. split.
  - constructor; cbn [with_queue tcp_remote_seq tcp_queue tcp_state tcp_fragments]; [lia|lia|done| |done|done|].
    + unfold slice. rewrite skipn_firstn_comm, drop_drop. destruct (decide (n <= k - c)%nat).
      * rewrite Nat.min_l by lia. f_equal; lia.
      * rewrite Nat.min_r by lia. replace (k - c - n)%nat with 0%nat by lia. replace (k - (c + (k - c)))%nat with 0%nat by lia. done.
    + eapply Forall_impl; [done|]. intros f Hok Hv. destruct (Hok Hv) as (off&len&?&?). exists off, len. split; [done|lia].
  - unfold slice. by rewrite take_take.
Qed.

(** What happens to the receiver: a segment arrives, or the application reads. *)
Inductive event :=
| Arrive (payload : list Z) (flags seq ack : Z)
| Read (n : nat).

(** The bytes the application read, and the connection afterwards. *)
Fixpoint feed (evs : list event) (t : tcp_t) : outcome (list Z * tcp_t) :=
  match evs with
  | [] => Ok ([], t)
  | Arrive payload flags seq ack :: evs => do '(_, t) <- tcp_input payload flags seq ack t; feed evs t
  | Read n :: evs =>
    do '(out, t') <- feed evs (with_queue (drop n (tcp_queue t)) (tcp_remote_seq t) t);
    Ok (take n (tcp_queue t) ++ out, t')
  end.

(** Every segment is one of the stream's and ends at most a full queue after
    the [c] bytes read so far. *)
Fixpoint fits (evs : list event) (c : nat) (t : tcp_t) : Prop :=
  match evs with
  | [] => True
  | Arrive payload flags seq ack :: evs =>
    arrives c payload flags seq /\ forall b t', tcp_input payload flags seq ack t = Ok (b, t') -> fits evs c t'
  | Read n :: evs =>
    fits evs (c + length (take n (tcp_queue t))) (with_queue (drop n (tcp_queue t)) (tcp_remote_seq t) t)
  end.

Lemma feed_received evs c k closed t :
  received c k closed t -> fits evs c t ->
  exists out t' c' k' closed', feed evs t = Ok (out, t') /\ received c' k' closed' t' /\ (k <= k')%nat /\
    (c' = c + length out)%nat /\ out = slice c (length out).
Proof.
  revert c k closed t. induction evs as [|[payload flags seq ack|n] evs IH]; intros c k closed t Hrc Hfit; cbn [feed fits] in *.
  - exists [], t, c, k, closed. split_and!; [done|done|lia|cbn; lia|done].
  - destruct Hfit as [Har Hfit]. destruct (input_received c k closed t payload flags seq ack Hrc Har) as (k1&cl&t1&E&H1&Hk1&_).
    rewrite E. cbn [obind]. destruct (IH c k1 cl t1 H1 (Hfit _ _ E)) as (out&t'&c'&k'&cl'&E'&H'&Hk'&?&?).
    exists out, t', c', k', cl'. split_and!; [done|done|lia|done|done].
  - destruct (read_received c k closed t n Hrc) as [H1 Hgot]. destruct (IH _ _ _ _ H1 Hfit) as (out&t'&c'&k'&cl'&E'&H'&Hk'&Hc'&Hout).
    rewrite E'. cbn [obind]. exists (take n (tcp_queue t) ++ out), t', c', k', cl'.
    rewrite length_app. split_and!; [done|done|lia|lia|].
    rewrite Hgot at 1. rewrite Hout at 1.
    pose proof (slice_app c (c + length (take n (tcp_queue t))) (length out)) as Hs.
    replace (c + length (take n (tcp_queue t)) - c)%nat with (length (take n (tcp_queue t))) in Hs by lia. apply Hs. lia.
Qed.

(** A connection just established: nothing received, nothing stored. *)
Record connected (t : tcp_t) : Prop := {
  cn_seq : tcp_remote_seq t = u32 isn;
  cn_queue : tcp_queue t = [];
  cn_state : tcp_state t = 2;
  cn_fragments : Forall (fun f => fr_valid f = false) (tcp_fragments t)
}.

Lemma connected_received t : connected t -> received 0 0 false t.
Proof.
  intros [Hs Hq Hst Hf]. constructor; [lia|lia| |done|done|lia|].
  - rewrite Hs. cbn [b2z]. f_equal. lia.
  - eapply Forall_impl; [done|]. intros f Hv. unfold fragment_ok. by rewrite Hv.
Qed.

(** C39. TCP delivers the stream.  Let the peer send a byte stream (shorter
    than 2^31 - 1) from sequence number [isn], cut into segments that arrive in
    any order, any number of times, the last byte carrying FIN; while the
    application reads at any moments.  If every segment ends at most 32768
    bytes after what was read when it arrives, then handling all of them
    returns, and the bytes read so far followed by the queue are exactly a
    prefix of the stream: the [k] bytes the receiver acknowledges
    ([tcp_remote_seq] is [isn + k], plus one once the end was seen, which only
    happens after the whole stream).  A further segment that starts at the
    acknowledged position is taken completely, together with the stored
    fragments that follow it. *)
Theorem tcp_delivers_stream (evs : list event) (t : tcp_t) :
  connected t -> fits evs 0 t ->
  exists out t' k closed, feed evs t = Ok (out, t') /\
    out ++ tcp_queue t' = take k stream /\ (k <= length stream)%nat /\
    tcp_remote_seq t' = u32 (isn + Z.of_nat k + b2z closed) /\
    (closed = true -> k = length stream /\ tcp_state t' = 4) /\
    forall payload flags seq ack, arrives (length out) payload flags seq -> closed = false ->
      seq = u32 (isn + Z.of_nat k) ->
      exists k2 closed2 t2, tcp_input payload flags seq ack t' = Ok (true, t2) /\
        (k + length payload <= k2)%nat /\ out ++ tcp_queue t2 = take k2 stream /\
        tcp_remote_seq t2 = u32 (isn + Z.of_nat k2 + b2z closed2).
Proof.
  intros Hc Hf. destruct (feed_received evs 0 0 false t (connected_received t Hc) Hf)
    as (out&t'&c'&k'&cl'&E&Hrc&_&Hc'&Hout). cbn [Nat.add] in Hc'. subst c'.
  assert (Hpre : forall k cl u, received (length out) k cl u -> out ++ tcp_queue u = take k stream).
  { intros k cl u [Ho _ _ Hq _ _ _]. rewrite Hq, Hout at 1.
    pose proof (slice_app 0 (length out) (k - length out)) as Hs. rewrite Nat.sub_0_r in Hs. rewrite Hs by lia.
    unfold slice. rewrite drop_0. f_equal. lia. }
  exists out, t', k', cl'. split_and!; [done|by eapply Hpre|apply Hrc|apply Hrc|apply Hrc|].
  intros payload flags seq ack Har -> Hseq.
  destruct (input_received _ _ _ _ _ _ _ ack Hrc Har) as (k2&cl2&t2&E2&H2&_&Hk2).
  exists k2, cl2, t2. split_and!; [done|by apply Hk2|by eapply Hpre|apply H2].
Qed.

End stream.

(** Data that finds the queue full is lost, yet acknowledged. *)
Lemma tcp_full_queue_loses data t :
  length (tcp_queue t) = TCP_QUEUE ->
  tcp_queue (tcp_append data t) = tcp_queue t /\
  tcp_remote_seq (tcp_append data t) = u32 (tcp_remote_seq t + Z.of_nat (length data)).
Proof. intros Hl. unfold tcp_append. rewrite Hl, Nat.sub_diag. cbn. by rewrite take_0, app_nil_r. Qed.

(** Three segments of a five-byte stream out of order, the first one twice. *)
Definition demo_stream : list Z := [10; 11; 12; 13; 14].
Definition demo_tcp : tcp_t := Tcp 1 5 1000 5 49152 80 2 [] (replicate 8 no_fragment).
Definition demo_events : list event :=
  [Arrive [12; 13] 0x10 1002 5; Arrive [10; 11] 0x10 1000 5; Read 3; Arrive [10; 11] 0x10 1000 5; Arrive [14] 0x11 1004 5].

Lemma demo_arrives c off len flags seq :
  (off + len <= 5)%nat -> seq = 1000 + Z.of_nat off -> Z.land flags 4 = 0 ->
  (negb (Z.land flags 1 =? 0) = true -> (off + len = 5)%nat) ->
  arrives 1000 demo_stream c (slice demo_stream off len) flags seq.
Proof.
  intros Hf -> Hr Hfin. split; [|done]. exists off, len. split.
  - constructor; [done|rewrite u32_small by lia; done|done|done].
  - pose proof (Z2Nat.id 32768). unfold TCP_QUEUE. lia.
Qed.

Lemma tcp_delivers_witness :
  exists out t', feed demo_events demo_tcp = Ok (out, t') /\ out ++ tcp_queue t' = demo_stream /\ tcp_state t' = 4.
Proof.
  destruct (tcp_delivers_stream 1000 demo_stream ltac:(cbn; lia) demo_events demo_tcp) as (out&t'&k&cl&E&Hp&_&Hs&Hc&_).
  - constructor; [reflexivity|reflexivity|reflexivity|]. repeat constructor.
  - unfold demo_events. cbn [fits].
    split; [apply (demo_arrives 0 2 2); [lia|reflexivity|reflexivity|cbn; (discriminate || lia)]|]. intros b1 t1 [= _ <-].
    split; [apply (demo_arrives 0 0 2); [lia|reflexivity|reflexivity|cbn; (discriminate || lia)]|]. intros b2 t2 [= _ <-].
    split; [apply (demo_arrives 3 0 2); [lia|reflexivity|reflexivity|cbn; (discriminate || lia)]|]. intros b3 t3 [= _ <-].
    split; [apply (demo_arrives 3 4 1); [lia|reflexivity|reflexivity|cbn; (discriminate || lia)]|]. done.
  - exists out, t'. split; [exact E|]. clear Hp Hs Hc. vm_compute in E. injection E as <- <-. split; reflexivity.
Defined.
