(* ===== verification/NetTheorems.v ===== *)
(** * The network stack: packets, checksums, addresses

    No packet makes the stack read outside it; the checksum is the internet
    checksum; addresses are parsed; two request buffers can overflow. *)

From stdpp Require Import base numbers list strings.
From Stdlib Require Import ZArith Lia.
From S2P Require Import Prelude Effects Net NetTcp.

(** ** Reads inside the packet *)

Lemma byte_ok p i : (i < length p)%nat -> exists v, byte p i = Ok v.
Proof. intros Hi. unfold byte. destruct (lookup_lt_is_Some_2 p i Hi) as [v ->]. by exists v. Qed.

Ltac read_bytes :=
  repeat match goal with
  | |- context [byte ?p ?i] => let v := fresh "v" in let E := fresh "E" in
      destruct (byte_ok p i) as [v E]; [lia|]; rewrite E; clear E; cbn [obind]
  end.

Lemma read16_ok p i : (i + 1 < length p)%nat -> exists v, read16 p i = Ok v.
Proof. intros Hi. unfold read16. read_bytes. by eexists. Qed.
Lemma read32_ok p i : (i + 3 < length p)%nat -> exists v, read32 p i = Ok v.
Proof. intros Hi. unfold read32. read_bytes. by eexists. Qed.
Lemma load32_ok p i : (i + 3 < length p)%nat -> exists v, load32 p i = Ok v.
Proof. intros Hi. unfold load32. read_bytes. by eexists. Qed.
Lemma read64_ok p i : (i + 7 < length p)%nat -> exists v, read64 p i = Ok v.
Proof.
  intros Hi. unfold read64. destruct (read32_ok p i) as [a ->]; [lia|]. destruct (read32_ok p (i + 4)) as [b ->]; [lia|].
  by eexists.
Qed.
Lemma part_ok p off len :
  0 <= len -> Z.of_nat off + len <= Z.of_nat (length p) -> part p off len = Ok (take (Z.to_nat len) (drop off p)).
Proof. intros H0 Hl. unfold part. by rewrite (proj2 (Z.leb_le _ _)), (proj2 (Z.leb_le _ _)). Qed.
Lemma room_ok need cap : (need <= cap)%nat -> room need cap = Ok tt.
Proof. intros Hl. unfold room. by rewrite (proj2 (Nat.leb_le _ _)). Qed.
Lemma patch_length off b f : (length f <= length (patch off b f))%nat.
Proof. unfold patch. rewrite !length_app, length_take, length_drop. lia. Qed.

(** Splits the next read of a chain, whose bounds [lia] knows. *)
Ltac read_next :=
  match goal with
  | |- context [byte ?p ?i] => let v := fresh "v" in destruct (byte_ok p i) as [v ->]; [lia|]
  | |- context [read16 ?p ?i] => let v := fresh "v" in destruct (read16_ok p i) as [v ->]; [lia|]
  | |- context [read32 ?p ?i] => let v := fresh "v" in destruct (read32_ok p i) as [v ->]; [lia|]
  | |- context [load32 ?p ?i] => let v := fresh "v" in destruct (load32_ok p i) as [v ->]; [lia|]
  | |- context [read64 ?p ?i] => let v := fresh "v" in destruct (read64_ok p i) as [v ->]; [lia|]
  end; cbn [obind].

(** Every offset a name ends at lies in the packet. *)
Lemma skip_labels_ok fuel d p : exists q, skip_labels fuel d p = Ok q /\ (q <= length d)%nat.
Proof.
  revert p. induction fuel as [|fuel IH]; intros p; cbn [skip_labels]; [exists 0%nat; split; [done|lia]|].
  destruct (Nat.ltb_spec p (length d)); cbn [negb]; [|exists 0%nat; split; [done|lia]]. read_next.
  destruct (_ =? _).
  { destruct (Nat.ltb_spec (p + 1) (length d)); eexists; (split; [done|lia]). }
  destruct (v =? 0); [eexists; split; [done|lia]|]. destruct (_ || _); [exists 0%nat; split; [done|lia]|]. apply IH.
Qed.


Lemma dns_questions_ok k d p : exists r, dns_questions k d p = Ok r.
Proof.
  revert p. induction k as [|k IH]; intros p; cbn [dns_questions]; [by eexists|].
  unfold dns_skip_name. destruct (skip_labels_ok 128 d p) as (q&->&Hq). cbn [obind].
  destruct (_ || _); [by eexists|]. apply IH.
Qed.

Lemma dns_answers_ok k d p : exists r, dns_answers k d p = Ok r.
Proof.
  revert p. induction k as [|k IH]; intros p; cbn [dns_answers]; [by eexists|].
  unfold dns_skip_name. destruct (skip_labels_ok 128 d p) as (q&->&Hq). cbn [obind].
  destruct (Nat.eqb_spec q 0), (Nat.ltb_spec (length d) (q + 10)); cbn [orb]; try (by eexists).
  do 3 read_next. destruct (Nat.ltb_spec (length d) (q + 10 + Z.to_nat v1)); [by eexists|].
  destruct (_ && _) eqn:E; [|apply IH]. breflect. subst v1. change (Z.to_nat 4) with 4%nat in *. read_next. by eexists.
Qed.

Lemma dns_receive_ok d s : exists s', dns_receive d s = Ok s'.
Proof.
  unfold dns_receive. destruct (Nat.ltb_spec (length d) 12); [by eexists|]. do 4 read_next.
  destruct (_ || _); [by eexists|]. destruct (negb _); [by eexists|].
  destruct (dns_questions_ok (Z.to_nat v1) d 12) as [[x|p] ->]; cbn [obind]; [by eexists|].
  destruct (dns_answers_ok (Z.to_nat v2) d p) as [[x a] ->]. by eexists.
Qed.

Lemma ntp_receive_ok d source s : exists s', ntp_receive d source s = Ok s'.
Proof.
  unfold ntp_receive. destruct (negb _); [by eexists|]. destruct (Nat.ltb_spec (length d) 48); [by eexists|].
  do 2 read_next. destruct (negb _); [by eexists|]. destruct (_ =? 3); [by eexists|]. destruct (_ || _); [by eexists|].
  do 3 read_next. destruct (negb _); [by eexists|]. destruct (_ || _); by eexists.
Qed.

Lemma tcp_header_ok seg source t :
  exists r, tcp_header seg source t = Ok r /\
    forall h f q a, r = Some (h, f, q, a) -> (h <= length seg)%nat.
Proof.
  unfold tcp_header. destruct (source =? tcp_remote_ip t); cbn [negb orb]; [|by exists None].
  destruct (Nat.ltb_spec (length seg) 20); [by exists None|].
  do 6 read_next.
  repeat match goal with
  | |- context [negb (?a =? ?b)] => destruct (a =? b); cbn [negb]; [|by exists None]
  end.
  destruct (Nat.ltb _ 20); cbn [orb]; [by exists None|]. destruct (Nat.ltb_spec (length seg) (Z.to_nat (Z.shiftr v 4 * 4)));
    [by exists None|]. eexists. split; [done|]. by intros h f q a [= <- _ _ _].
Qed.

(** ** The TCP buffers

    The queue holds 32768 bytes, each of the saved fragments 1460. *)
Definition tcp_ok (t : tcp_t) : Prop :=
  (length (tcp_queue t) <= TCP_QUEUE)%nat /\ Forall (fun f => (length (fr_data f) <= 1460)%nat) (tcp_fragments t).

Lemma append_ok data t : tcp_ok t -> tcp_ok (tcp_append data t).
Proof.
  intros [Hq Hf]. split; [|done]. unfold tcp_append, with_queue. cbn [tcp_queue]. rewrite length_app, length_take. lia.
Qed.

Lemma fragments_ok l t : tcp_ok t -> Forall (fun f => (length (fr_data f) <= 1460)%nat) l -> tcp_ok (with_fragments l t).
Proof. by intros [Hq _] Hl. Qed.

Lemma store_fragment_ok seq data fin t : tcp_ok t -> tcp_ok (tcp_store_fragment seq data fin t).
Proof.
  intros Ht. unfold tcp_store_fragment. destruct (Nat.ltb_spec 1460 (length data)); [done|].
  destruct (fragment_index _ _); [done|]. destruct (fragment_index _ _) as [i|]; [|done].
  apply fragments_ok; [done|]. apply Forall_insert; [apply Ht|done].
Qed.

Lemma drain_ok fuel t t' : tcp_ok t -> drain fuel t = Ok t' -> tcp_ok t'.
Proof.
  revert t. induction fuel as [|fuel IH]; intros t Ht; cbn [drain]; [done|].
  destruct (list_find _ _) as [[i f]|] eqn:Hf; [|by intros [= <-]]. apply list_find_Some in Hf as (Hi&_&_). cbv zeta.
  intros Hd. refine (IH _ _ Hd). pose proof (append_ok (fr_data f) t Ht) as [Hq Hfs].
  assert (Hl : (length (fr_data f) <= 1460)%nat) by (by apply (Forall_lookup_1 _ _ _ _ (proj2 Ht) Hi)).
  destruct (fr_fin f); (apply fragments_ok; [by split|by apply Forall_insert]).
Qed.

Lemma tcp_input_ok payload flags seq ack t :
  tcp_ok t -> exists b t', tcp_input payload flags seq ack t = Ok (b, t') /\ tcp_ok t'.
Proof.
  intros Ht. unfold tcp_input. destruct (negb _); [by do 2 eexists|]. cbv zeta.
  set (t1 := if negb (Z.land flags 0x10 =? 0) then _ else t). assert (Ht1 : tcp_ok t1) by (unfold t1; by case_match).
  clearbody t1. destruct (_ && (tcp_state t1 =? 1)); [by do 2 eexists|]. destruct (_ && negb _).
  { do 2 eexists. split; [done|]. case_match; [by apply store_fragment_ok|done]. }
  set (t2 := match payload with [] => t1 | _ => tcp_append payload t1 end).
  assert (Ht2 : tcp_ok t2) by (unfold t2; case_match; [done|by apply append_ok]). clearbody t2.
  set (t3 := if negb (Z.land flags 1 =? 0) then finish t2 else t2).
  assert (Ht3 : tcp_ok t3) by (unfold t3; by case_match). clearbody t3.
  destruct (drain_returns t3) as [t' Hd]. rewrite Hd. do 2 eexists. split; [done|]. by eapply drain_ok.
Qed.

(** ** Programs that never touch memory outside a packet *)

Section safety.

Context {D : Type} `{NetDev D}.

(** The program returns; or, where [strict] is false, may run out of fuel.  The
    TCP buffers stay within their bounds. *)
Context (strict : bool).

Definition good {A} (o : outcome (A * net D)) : Prop :=
  match o with Ok (_, s) => tcp_ok (tcp s) | Undefined => False | OutOfFuel => strict = false end.

Definition safe {A} (m : M (net D) A) : Prop := forall s, tcp_ok (tcp s) -> good (m s).

Lemma safe_ret {A} (a : A) : safe (ret a).
Proof. by intros s. Qed.

Lemma safe_bind {A B} (m : M (net D) A) (f : A -> M (net D) B) : safe m -> (forall a, safe (f a)) -> safe (bind m f).
Proof. intros Hm Hf s Hs. unfold bind. specialize (Hm s Hs). destruct (m s) as [[a s1]| |]; [by apply Hf|done|done]. Qed.

Lemma safe_get {A} (f : net D -> M (net D) A) : (forall s, tcp_ok (tcp s) -> safe (f s)) -> safe (let! s := get in f s).
Proof. intros Hf s Hs. exact (Hf s Hs s Hs). Qed.

Lemma safe_modify f : (forall s, tcp_ok (tcp s) -> tcp_ok (tcp (f s))) -> safe (modify f).
Proof. intros Hf s. apply Hf. Qed.

Lemma safe_set f : (forall s, tcp (f s) = tcp s) -> safe (modify f).
Proof. intros Hf. apply safe_modify. intros s. by rewrite Hf. Qed.

Lemma safe_lift {A B} (o : outcome A) (f : A -> M (net D) B) (a : A) : o = Ok a -> safe (f a) -> safe (let! x := lift_o o in f x).
Proof. intros -> Hf s. exact (Hf s). Qed.

Lemma safe_when b (m : M (net D) unit) : safe m -> safe (when b m).
Proof. destruct b; [done|]. intros _. apply safe_ret. Qed.

Lemma safe_send f : safe (send f).
Proof. intros s. unfold send. by destruct (netdev_send f (dev s)). Qed.

Lemma safe_cancelled : safe cancelled.
Proof. intros s. unfold cancelled. by destruct (process_cancel_requested (dev s)). Qed.

Lemma safe_mac {B} (f : list Z -> M (net D) B) : (forall a, safe (f a)) -> safe (let! a := mac in f a).
Proof. intros Hf s. exact (Hf _ s). Qed.

Create HintDb safe.
#[local] Hint Resolve safe_ret safe_bind safe_when safe_send safe_cancelled : safe.

Lemma safe_arp_request target : safe (arp_request target).
Proof. unfold arp_request. apply safe_mac. intros own. auto with safe. Qed.

Lemma safe_arp_reply r : (42 <= length r)%nat -> safe (arp_reply r).
Proof.
  intros Hr. unfold arp_reply. do 3 (eapply safe_lift; [apply part_ok; lia|]). apply safe_mac. intros own. auto with safe.
Qed.

Lemma safe_icmp_reply r : (length r <= 1514)%nat -> safe (icmp_reply r).
Proof.
  intros Hr. unfold icmp_reply. destruct (Nat.ltb_spec (length r) 42); [apply safe_ret|].
  eapply safe_lift; [by apply room_ok|]. apply safe_mac. intros own.
  do 2 (eapply safe_lift; [apply part_ok; lia|]). cbv zeta. eapply safe_lift; [|auto with safe].
  rewrite u64_small by lia. apply part_ok; [lia|].
  do 4 (match goal with |- _ <= Z.of_nat (length (patch ?o ?b ?f)) => pose proof (patch_length o b f) end;
    etrans; [|apply inj_le; eassumption]).
  lia.
Qed.

Lemma safe_ipv4_begin {B} a b c d (f : list Z -> M (net D) B) : (forall h, safe (f h)) -> safe (let! h := ipv4_begin a b c d in f h).
Proof. intros Hf s Hs. by apply Hf. Qed.

Lemma safe_wait poll n hop : safe poll -> safe (wait_neighbor poll n hop).
Proof.
  intros Hp. induction n as [|n IH]; cbn [wait_neighbor]; [apply safe_ret|]. apply safe_bind; [apply safe_cancelled|].
  intros []; [apply safe_ret|]. apply safe_bind; [done|]. intros _. apply safe_get. intros s _.
  destruct (neighbor_find hop (neighbors s)); [apply safe_ret|done].
Qed.

Lemma safe_resolve poll a n : safe poll -> safe (resolve_next_hop poll a n).
Proof.
  intros Hp. unfold resolve_next_hop. apply safe_get. intros s _. destruct (neighbor_find _ _); [apply safe_ret|].
  apply safe_bind; [apply safe_arp_request|]. intros _. by apply safe_wait.
Qed.

Lemma safe_tcp_send poll flags data : safe poll -> safe (tcp_send poll flags data).
Proof.
  intros Hp. unfold tcp_send. apply safe_get. intros s _. apply safe_bind; [by apply safe_resolve|].
  intros [n|]; [|apply safe_ret]. destruct (Nat.ltb_spec 1400 (length data)); [apply safe_ret|].
  do 2 (eapply safe_lift; [apply room_ok; lia|]). apply safe_get. intros s1 _.
  apply safe_ipv4_begin. intros h. apply safe_get. intros s2 _. apply safe_send.
Qed.

Lemma safe_tcp_receive poll seg source : safe poll -> (length seg <= 1514)%nat -> safe (tcp_receive poll seg source).
Proof.
  intros Hp Hl. unfold tcp_receive. apply safe_get. intros s Hs. destruct (tcp_header_ok seg source (tcp s)) as (r&Hr&Hh).
  eapply safe_lift; [exact Hr|]. destruct r as [[[[h f] q] a]|]; [|apply safe_ret].
  specialize (Hh h f q a eq_refl). rewrite u64_small by lia. eapply safe_lift; [apply part_ok; lia|].
  destruct (tcp_input_ok (take (Z.to_nat (Z.of_nat (length seg) - Z.of_nat h)) (drop h seg)) f q a (tcp s) Hs) as (b&t&Hi&Ht).
  eapply safe_lift; [exact Hi|]. apply safe_bind; [by apply safe_modify|]. intros _. apply safe_when.
  apply safe_bind; [by apply safe_tcp_send|]. intros _. apply safe_ret.
Qed.

Lemma safe_icmp p f total :
  (8 <= length p)%nat -> 0 <= total -> 14 + total <= Z.of_nat (length f) -> (length f <= 1514)%nat ->
  safe (let! kind := lift_o (byte p 0) in
    if kind =? 8 then let! r := lift_o (part f 0 (14 + total)) in icmp_reply r
    else if kind =? 0 then
      let! q := lift_o (read16 p 6) in
      set_ping (fun x => Ping (sequence x) q (ping_error x) (ping_error_type x) (ping_error_code x))
    else if kind =? 3 then
      let! code := lift_o (byte p 1) in
      set_ping (fun x => Ping (sequence x) (reply_sequence x) true kind code)
    else ret tt).
Proof.
  intros Hp Ht Hf Hmax. destruct (byte_ok p 0) as [kd Hkd]; [lia|]. eapply safe_lift; [exact Hkd|].
  destruct (kd =? 8).
  { eapply safe_lift; [apply part_ok; lia|]. apply safe_icmp_reply. rewrite length_take. lia. }
  destruct (kd =? 0); [destruct (read16_ok p 6) as [q Hq]; [lia|]; eapply safe_lift; [exact Hq|]; by apply safe_set|].
  destruct (kd =? 3); [|apply safe_ret].
  destruct (byte_ok p 1) as [cd Hcd]; [lia|]. eapply safe_lift; [exact Hcd|]. by apply safe_set.
Qed.

Lemma safe_process poll f : safe poll -> (length f <= 1514)%nat -> safe (process poll f).
Proof.
  intros Hp Hmax. unfold process. destruct (Nat.ltb_spec (length f) 14); [apply safe_ret|].
  destruct (read16_ok f 12) as [type Ht]; [lia|]. eapply safe_lift; [exact Ht|].
  destruct ((type =? 0x0806) && Nat.leb 42 (length f)) eqn:Ha.
  { apply andb_prop in Ha as [_ Ha%Nat.leb_le].
    destruct (read16_ok f 20) as [op Hop]; [lia|]. eapply safe_lift; [exact Hop|].
    destruct (load32_ok f 28) as [sd Hsd]; [lia|]. eapply safe_lift; [exact Hsd|].
    destruct (load32_ok f 38) as [tg Htg]; [lia|]. eapply safe_lift; [exact Htg|].
    eapply safe_lift; [apply part_ok; lia|]. apply safe_bind; [by apply safe_set|]. intros _.
    apply safe_when. by apply safe_arp_reply. }
  destruct (Nat.ltb_spec (length f) 34); [rewrite orb_true_r; apply safe_ret|]. rewrite orb_false_r.
  destruct (negb _); [apply safe_ret|].
  destruct (byte_ok f 14) as [b14 Hb]; [lia|]. eapply safe_lift; [exact Hb|]. cbv zeta.
  set (ihl := Z.land b14 15 * 4).
  destruct (Z.ltb_spec ihl 20), (Z.ltb_spec (Z.of_nat (length f)) (14 + ihl)); cbn [orb]; try apply safe_ret.
  destruct (read16_ok f 16) as [tot Htot]; [lia|]. eapply safe_lift; [exact Htot|].
  set (total := if _ || _ then _ else tot).
  assert (Htl : ihl <= total /\ 14 + total <= Z.of_nat (length f)).
  { unfold total. destruct (Z.ltb_spec tot ihl), (Z.ltb_spec (Z.of_nat (length f)) (14 + tot)); cbn [orb];
      unfold u16; rewrite ?Z.mod_small by lia; lia. }
  clearbody total ihl.
  destruct (load32_ok f 26) as [src Hsrc]; [lia|]. eapply safe_lift; [exact Hsrc|].
  destruct (load32_ok f 30) as [tgt Htgt]; [lia|]. eapply safe_lift; [exact Htgt|].
  destruct (negb _); [apply safe_ret|]. destruct (byte_ok f 23) as [pr Hpr]; [lia|]. eapply safe_lift; [exact Hpr|].
  rewrite u32_small by lia. eapply safe_lift; [apply part_ok; lia|].
  assert (Hpl : (length (take (Z.to_nat (total - ihl)) (drop (Z.to_nat (14 + ihl)) f)) <= 1514)%nat)
    by (rewrite length_take; lia).
  set (p := take _ _) in *. clearbody p.
  destruct ((pr =? 1) && Nat.leb 8 (length p)) eqn:Hi.
  { apply andb_prop in Hi as [_ Hi%Nat.leb_le]. apply safe_icmp; lia. }
  destruct ((pr =? 17) && Nat.leb 8 (length p)) eqn:Hu; [|by apply safe_when, safe_tcp_receive].
  apply andb_prop in Hu as [_ Hu%Nat.leb_le].
  destruct (read16_ok p 0) as [sp Hsp]; [lia|]. eapply safe_lift; [exact Hsp|].
  destruct (read16_ok p 2) as [dp Hdp]; [lia|]. eapply safe_lift; [exact Hdp|].
  destruct (read16_ok p 4) as [ul Hul]; [lia|]. eapply safe_lift; [exact Hul|].
  destruct ((sp =? 53) && (dp =? 53000) && (8 <=? ul) && (ul <=? Z.of_nat (length p))) eqn:Hd.
  { breflect. rewrite u64_small by lia. eapply safe_lift; [apply part_ok; lia|]. apply safe_get. intros s _.
    match goal with |- context [dns_receive ?d ?x] => destruct (dns_receive_ok d x) as [y Hy] end.
    eapply safe_lift; [exact Hy|]. by apply safe_set. }
  destruct ((sp =? 123) && (dp =? 53001) && (56 <=? ul) && (ul <=? Z.of_nat (length p))) eqn:Hn; [|apply safe_ret].
  breflect. rewrite u64_small by lia. eapply safe_lift; [apply part_ok; lia|]. apply safe_get. intros s _.
  match goal with |- context [ntp_receive ?d ?a ?x] => destruct (ntp_receive_ok d a x) as [y Hy] end.
  eapply safe_lift; [exact Hy|]. by apply safe_set.
Qed.

Lemma safe_device poll k :
  safe poll -> (forall d f d', netdev_receive 1514 d = (Some f, d') -> (length f <= 1514)%nat) -> safe (drain_device poll k).
Proof.
  intros Hp Hl. induction k as [|k IH]; cbn [drain_device]; [apply safe_ret|]. intros s Hs. unfold bind at 1.
  destruct (netdev_receive 1514 (dev s)) as [[f|] d] eqn:E; [|done].
  refine (safe_bind _ _ _ _ _ _); [apply safe_process; [done|by eapply Hl]|done|done].
Qed.

End safety.

(** What the stack expects of the device: a frame fits the buffer it is read into. *)
Class NetDevLaws (D : Type) `{NetDev D} := {
  receive_fits cap d f d' : netdev_receive cap d = (Some f, d') -> (length f <= cap)%nat
}.

Section poll.

Context {D : Type} `{NetDevLaws D}.

(** C40. No packet makes the stack leave its buffers.  From a state whose TCP
    queue and saved fragments are within their sizes (as they are when the
    kernel starts), and for every frame of at most 1514 bytes, whatever its
    contents, handling it returns as soon as the polls it may start do; it never
    reads a byte outside the frame, the datagram or the segment it looks at,
    including segments and datagrams whose header or length fields are wrong and
    DNS answers with compressed names; the replies it builds fit their buffers;
    and the queue and the fragments are within their sizes afterwards.  So
    network_poll, however deep its calls nest and whatever the device delivers,
    never leaves its buffers. *)
Theorem packets_stay_inside (poll : M (net D) unit) (f : list Z) (s : net D) (fuel : nat) :
  (length f <= 1514)%nat -> tcp_ok (tcp s) ->
  ((forall s, tcp_ok (tcp s) -> exists s', poll s = Ok (tt, s') /\ tcp_ok (tcp s')) ->
   exists s', process poll f s = Ok (tt, s') /\ tcp_ok (tcp s')) /\
  network_poll fuel s <> Undefined /\
  (forall s', network_poll fuel s = Ok (tt, s') -> tcp_ok (tcp s')).
Proof.
  intros Hf Ht. split.
  - intros Hp. assert (Hs : safe true poll) by (intros s0 Hs0; by destruct (Hp s0 Hs0) as (s'&->&Hs')).
    pose proof (safe_process true poll f Hs Hf s Ht) as Hg.
    destruct (process poll f s) as [[[] s']| |]; [by exists s'|done|done].
  - assert (Hs : forall fuel, safe false (network_poll (D := D) fuel)).
    { clear s Ht fuel. induction fuel as [|fuel IH]; intros s; [done|]. cbn [network_poll]. revert s. apply safe_get. intros s _.
      destruct (ready s); [|apply safe_ret]. cbn [negb]. apply safe_device; [done|]. intros d g d'. apply receive_fits. }
    specialize (Hs fuel s Ht). destruct (network_poll fuel s) as [[[] s1]| |]; [|done|done].
    split; [done|]. by intros s' [= <-].
Qed.

End poll.

(** A device that delivers the frames of its queue, cut to the buffer's size. *)
Record wire := Wire { incoming : list (list Z); outgoing : list (list Z) }.

#[export] Instance wire_dev : NetDev wire := {
  netdev_init w := (true, w);
  netdev_mac _ := [0x52; 0x54; 0; 0x12; 0x34; 0x56];
  netdev_send f w := (true, Wire (incoming w) (outgoing w ++ [f]));
  netdev_receive cap w :=
    match incoming w with [] => (None, w) | f :: l => (Some (take cap f), Wire l (outgoing w)) end;
  process_cancel_requested w := (false, w)
}.

#[export] Instance wire_laws : NetDevLaws wire.
Proof.
  constructor. intros cap [[|f0 l] o] f d'; cbn; [done|]. intros [= <- _]. rewrite length_take. lia.
Qed.

(** An ARP request for the machine's address, answered. *)
Definition arp_frame : list Z :=
  replicate 6 255 ++ [2; 2; 2; 2; 2; 2; 8; 6; 0; 1; 8; 0; 6; 4; 0; 1] ++ [2; 2; 2; 2; 2; 2; 10; 0; 2; 2] ++
  replicate 6 0 ++ [10; 0; 2; 15].

Lemma net0_tcp_ok (w : wire) : tcp_ok (tcp (net0 w)).
Proof. split; [cbn; lia|]. repeat constructor; cbn; lia. Qed.

Lemma packets_witness :
  (exists s', process (ret tt) arp_frame (net0 (Wire [] [])) = Ok (tt, s') /\ tcp_ok (tcp s')) /\
  network_poll 2 (net0 (Wire [arp_frame] [])) <> Undefined /\
  match process (ret tt) arp_frame (net0 (Wire [] [])) with
  | Ok (_, s) => length (outgoing (dev s)) = 1%nat | _ => False
  end.
Proof.
  split; [|split].
  - apply (packets_stay_inside (ret tt) arp_frame (net0 (Wire [] [])) 2); [vm_compute; lia|apply net0_tcp_ok|].
    intros s Hs. by exists s.
  - apply (packets_stay_inside (ret tt) arp_frame (net0 (Wire [arp_frame] [])) 2); [vm_compute; lia|apply net0_tcp_ok].
  - vm_compute. reflexivity.
Defined.

(** ** The internet checksum *)

(** The 16-bit words of a packet, the last one padded with a zero byte. *)
Fixpoint words (d : list Z) : list Z :=
  match d with
  | a :: b :: d => a * 256 + b :: words d
  | [a] => [a * 256]
  | [] => []
  end.

(** One's complement addition: the carry goes back in at the low end. *)
Definition ones_add (a b : Z) : Z := if a + b <? 65536 then a + b else a + b - 65535.

(** The reference: RFC 1071's checksum. *)
Definition internet_checksum (d : list Z) : Z := 65535 - fold_left ones_add (words d) 0.

Definition is_byte (v : Z) : Prop := 0 <= v < 256.
Definition total (l : list Z) : Z := fold_right Z.add 0 l.

(** A sum reduced by end-around carries. *)
Definition around (s : Z) : Z := if s =? 0 then 0 else (s - 1) mod 65535 + 1.

Lemma bytes_ind2 (P : list Z -> Prop) :
  P [] -> (forall a, P [a]) -> (forall a b d, P d -> P (a :: b :: d)) -> forall d, P d.
Proof.
  intros H0 H1 H2 d. enough (P d /\ forall a, P (a :: d)) by tauto.
  induction d as [|a d [IH1 IH2]]; [auto|]. split; [done|]. intros b. by apply H2.
Qed.

Lemma words_range d : Forall is_byte d -> Forall (fun w => 0 <= w < 65536) (words d).
Proof.
  induction d as [|a|a b d IH] using bytes_ind2; cbn [words]; rewrite ?Forall_cons; unfold is_byte;
    [done|intros [Ha _]; split; [lia|done]|]. intros (Ha&Hb&Hd). split; [lia|auto].
Qed.

Lemma total_range l : Forall (fun w => 0 <= w < 65536) l -> 0 <= total l <= 65535 * Z.of_nat (length l).
Proof. induction 1 as [|w l Hw _ IH]; cbn [total fold_right length]; [lia|]. unfold total in IH. lia. Qed.

Lemma sum_words_length d : (2 * length (words d) <= length d + 1)%nat.
Proof. induction d as [|a|a b d IH] using bytes_ind2; cbn [words length]; lia. Qed.

Lemma words_app a d : Nat.Even (length a) -> words (a ++ d) = words a ++ words d.
Proof.
  induction a as [|x|x y a IH] using bytes_ind2; intros He; cbn [words app]; [done| |].
  - destruct He as [k Hk]. cbn in Hk. lia.
  - rewrite IH; [done|]. destruct He as [k Hk]. cbn [length] in Hk. exists (k - 1)%nat. lia.
Qed.

Lemma total_app l1 l2 : total (l1 ++ l2) = total l1 + total l2.
Proof. unfold total. induction l1 as [|x l1 IH]; cbn [fold_right app]; lia. Qed.

Lemma word_of_bytes a b : is_byte a -> is_byte b -> Z.lor (Z.shiftl a 8) b = a * 256 + b.
Proof. unfold is_byte. intros Ha Hb. rewrite Z.lor_comm, lor_shift; lia. Qed.

Lemma sum16_total d s :
  Forall is_byte d -> 0 <= s -> s + total (words d) < 2 ^ 32 -> sum16 d s = s + total (words d).
Proof.
  revert s. induction d as [|a|a b d IH] using bytes_ind2; intros s Hd Hs Hlt.
  - cbn. lia.
  - apply Forall_cons in Hd as [Ha _]. unfold is_byte in Ha. cbn [sum16 words total fold_right] in *.
    rewrite Z.shiftl_mul_pow2 by lia. unfold u16. rewrite Z.mod_small, u32_small by lia. lia.
  - apply Forall_cons in Hd as [Ha [Hb Hd]%Forall_cons]. pose proof (total_range _ (words_range d Hd)) as Hr.
    cbn [sum16 words total fold_right] in *. fold (total (words d)) in *. rewrite word_of_bytes by done.
    unfold is_byte in *. rewrite u32_small by lia. rewrite IH by (auto; lia). lia.
Qed.

Lemma around_small s : 0 <= s < 65536 -> around s = s.
Proof. intros Hs. unfold around. case_match; breflect; [lia|]. rewrite Z.mod_small; lia. Qed.

Lemma around_range s : 0 <= s -> 0 <= around s <= 65535.
Proof. intros Hs. unfold around. case_match; [lia|]. pose proof (Z.mod_pos_bound (s - 1) 65535). lia. Qed.

(** Sums that differ by a multiple of 65535 and are both positive. *)
Lemma around_eq s t k : 0 < s -> 0 < t -> s = t + k * 65535 -> around s = around t.
Proof.
  intros Hs Ht ->. unfold around. rewrite !(proj2 (Z.eqb_neq _ _)) by lia.
  replace (t + k * 65535 - 1) with (t - 1 + k * 65535) by lia. by rewrite Z.mod_add.
Qed.

Lemma carry_around s : 0 <= s < 2 ^ 32 -> carry 3 s = around s.
Proof.
  assert (Hstep : forall x, 0 <= x < 2 ^ 32 -> Z.shiftr x 16 <> 0 ->
    u32 (Z.land x 0xffff + Z.shiftr x 16) = x mod 65536 + x / 65536 /\ around (x mod 65536 + x / 65536) = around x
    /\ 65536 <= x).
  { intros x Hx Hc. change 0xffff with (Z.ones 16). rewrite Z.land_ones, Z.shiftr_div_pow2 in * by lia.
    change (2 ^ 16) with 65536 in *. pose proof (Z.div_mod x 65536). pose proof (Z.mod_pos_bound x 65536).
    assert (0 < x / 65536 < 65536) by (split; [|apply Z.div_lt_upper_bound]; lia).
    split; [apply u32_small; lia|]. split; [apply (around_eq _ _ (- (x / 65536))); lia|]. lia. }
  assert (Hstop : forall x, 0 <= x < 2 ^ 32 -> Z.shiftr x 16 = 0 -> x = around x).
  { intros x Hx Hc. rewrite Z.shiftr_div_pow2 in Hc by lia. rewrite around_small; [done|].
    pose proof (Z.div_mod x 65536). pose proof (Z.mod_pos_bound x 65536). change (2 ^ 16) with 65536 in *. lia. }
  intros Hs. cbn [carry]. case_match eqn:E1; breflect; [by apply Hstop|].
  destruct (Hstep s Hs E1) as (Hu1&Ha1&Hb1). rewrite Hu1, <- Ha1. set (x := s mod 65536 + s / 65536) in *.
  assert (Hx : 0 < x <= 131070).
  { unfold x. pose proof (Z.mod_pos_bound s 65536). assert (0 < s / 65536 < 65536) by (split; [apply Z.div_str_pos|apply Z.div_lt_upper_bound]; lia). lia. }
  case_match eqn:E2; breflect; [by apply Hstop; [lia|]|].
  destruct (Hstep x ltac:(lia) E2) as (Hu2&Ha2&Hb2). rewrite Hu2, <- Ha2.
  replace (x mod 65536 + x / 65536) with (x - 65535) in * by (assert (x / 65536 = 1) as Hq by (symmetry; apply Z.div_unique with (x - 65536); lia);
    pose proof (Z.div_mod x 65536); lia).
  case_match eqn:E3; breflect; [by apply Hstop; [lia|]|]. destruct (Hstep (x - 65535) ltac:(lia) E3) as (_&_&Hb3). lia.
Qed.

Lemma fold_around l s :
  Forall (fun w => 0 <= w < 65536) l -> 0 <= s -> fold_left ones_add l (around s) = around (s + total l).
Proof.
  intros Hl. revert s. induction Hl as [|w l Hw Hl IH]; intros s Hs; cbn [fold_left total fold_right]; [by rewrite Z.add_0_r|].
  assert (Hadd : ones_add (around s) w = around (s + w)).
  { pose proof (around_range s Hs). unfold ones_add. destruct (Z.eq_dec s 0) as [->|Hs0].
    { change (around 0) with 0. rewrite !Z.add_0_l, (proj2 (Z.ltb_lt _ _)), around_small by lia. done. }
    assert (Hk : exists k, s = around s + k * 65535 /\ 0 < around s).
    { unfold around. rewrite (proj2 (Z.eqb_neq _ _)) by done. pose proof (Z.mod_pos_bound (s - 1) 65535).
      exists ((s - 1) / 65535). pose proof (Z.div_mod (s - 1) 65535). lia. }
    destruct Hk as (k&Hk&Hp). case_match; breflect.
    - rewrite <- (around_small (around s + w)) by lia. apply (around_eq _ _ (- k)); lia.
    - rewrite <- (around_small (around s + w - 65535)) by lia. apply (around_eq _ _ (- k - 1)); lia. }
  rewrite Hadd, IH by lia. unfold total. f_equal. lia.
Qed.

(** A packet short enough that the 32-bit sum does not wrap. *)
Definition summable (d : list Z) : Prop := Forall is_byte d /\ Z.of_nat (length d) <= 131072.

Lemma summable_total d : summable d -> 0 <= total (words d) < 2 ^ 32.
Proof.
  intros [Hd Hl]. pose proof (total_range _ (words_range d Hd)). pose proof (sum_words_length d). lia.
Qed.

Lemma checksum_total d : summable d -> checksum d = 65535 - around (total (words d)).
Proof.
  intros Hs. pose proof (summable_total d Hs) as Ht. destruct Hs as [Hd _]. unfold checksum.
  rewrite sum16_total by (auto; lia). rewrite carry_around by lia. rewrite Z.add_0_l.
  pose proof (around_range (total (words d))). set (x := around _) in *. unfold Z.lnot, u16.
  replace (Z.pred (- x)) with (65535 - x + (-1) * 2 ^ 16) by lia. rewrite Z.mod_add by lia. apply Z.mod_small. lia.
Qed.

Lemma checksum_internet d : summable d -> checksum d = internet_checksum d.
Proof.
  intros Hs. rewrite checksum_total by done. unfold internet_checksum. change 0 with (around 0).
  destruct Hs as [Hd _]. by rewrite (fold_around _ 0 (words_range d Hd)).
Qed.

Lemma byte_u8 v : is_byte (u8 v).
Proof. unfold is_byte, u8. pose proof (Z.mod_pos_bound v (2 ^ 8)). lia. Qed.
Lemma bytes_be16 v : Forall is_byte (be16 v).
Proof. repeat constructor; apply byte_u8. Qed.
Lemma bytes_be32 v : Forall is_byte (be32 v).
Proof. repeat constructor; apply byte_u8. Qed.
Lemma bytes_le32 v : Forall is_byte (le32 v).
Proof. repeat constructor; apply byte_u8. Qed.

(** Byte lists by their parts. *)
Ltac bytes := repeat first
  [apply Forall_app; split | apply bytes_be16 | apply bytes_be32 | apply bytes_le32 | assumption
  | (constructor; [unfold is_byte; lia|]) | constructor].

Lemma be16_word v : 0 <= v < 65536 -> words (be16 v) = [v].
Proof.
  intros Hv. unfold be16, u8. cbn [words]. rewrite Z.shiftr_div_pow2 by lia. change (2 ^ 8) with 256. f_equal.
  assert (0 <= v / 256 < 256) by (split; [apply Z.div_pos|apply Z.div_lt_upper_bound]; lia).
  rewrite (Z.mod_small (v / 256)) by lia. pose proof (Z.div_mod v 256). lia.
Qed.

Lemma patch_middle a x b y : length x = length y -> patch (length a) y (a ++ x ++ b) = a ++ y ++ b.
Proof.
  intros Hl. unfold patch. rewrite take_app_length, <- Hl, <- length_app. f_equal. f_equal.
  by rewrite app_assoc, drop_app_length.
Qed.

(** A checksum stored in its zeroed field makes the whole sum come out as zero. *)
Lemma patched_verifies a b :
  Nat.Even (length a) -> summable (a ++ be16 0 ++ b) ->
  internet_checksum (patch (length a) (be16 (checksum (a ++ be16 0 ++ b))) (a ++ be16 0 ++ b)) = 0.
Proof.
  intros He Hs. rewrite patch_middle by done. set (c := checksum _).
  assert (Hc : c = 65535 - around (total (words (a ++ be16 0 ++ b)))) by (by apply checksum_total).
  assert (Hs' : summable (a ++ be16 c ++ b)).
  { destruct Hs as [Hd Hl]. split; [|by rewrite !length_app in *].
    apply Forall_app in Hd as [Ha [_ Hb]%Forall_app]. bytes. }
  pose proof (summable_total _ Hs) as Ht. pose proof (summable_total _ Hs') as Ht'.
  rewrite <- checksum_internet, checksum_total by done.
  assert (Hr := around_range _ (proj1 Ht)).
  rewrite !(words_app a), !(words_app (be16 _)), !be16_word, !total_app in * by (done || lia || by exists 1%nat).
  cbn [total fold_right] in *. fold (total (words b)) in *. set (s := total (words a) + total (words b)) in *.
  replace (total (words a) + (0 + 0 + total (words b))) with s in * by lia.
  replace (total (words a) + (c + 0 + total (words b))) with (s + c) in * by lia.
  enough (around (s + c) = 65535) by lia. destruct (Z.eq_dec s 0) as [H0|H0].
  { rewrite H0 in *. change (around 0) with 0 in Hc. rewrite around_small; lia. }
  rewrite <- (around_small 65535) by lia. unfold around in Hc. rewrite (proj2 (Z.eqb_neq _ _)) in Hc by done.
  pose proof (Z.div_mod (s - 1) 65535). pose proof (Z.mod_pos_bound (s - 1) 65535).
  apply (around_eq _ _ ((s - 1) / 65535)); lia.
Qed.

Lemma ip_header_sums id destination protocol payload :
  0 <= protocol < 256 ->
  let h := ip_header id destination protocol payload in internet_checksum (patch 10 (be16 (checksum h)) h) = 0.
Proof.
  intros Hp. set (pre := [0x45; 0] ++ be16 (u16 (Z.of_nat (20 + payload))) ++ be16 id ++ be16 0 ++ [64; protocol]).
  assert (Hh : ip_header id destination protocol payload = pre ++ be16 0 ++ le32 ip ++ le32 destination) by done.
  rewrite Hh. apply (patched_verifies pre); [by exists 5%nat|]. split; [unfold pre; bytes|]. cbn [length app be16 le32 pre]. lia.
Qed.

Lemma tcp_segment_sums t flags data :
  Forall is_byte data -> 0 <= flags < 256 -> (length data <= 1460)%nat ->
  internet_checksum (le32 ip ++ le32 (tcp_remote_ip t) ++ [0; 6] ++ be16 (u16 (Z.of_nat (20 + length data)))
    ++ tcp_segment t flags data) = 0.
Proof.
  intros Hd Hf Hl. unfold tcp_segment, tcp_checksum.
  set (pre := be16 (tcp_local_port t) ++ be16 (tcp_remote_port t) ++ be32 (tcp_local_seq t) ++ be32 (tcp_remote_seq t)
         ++ [0x50; flags] ++ be16 4096).
  pose (post := be16 0 ++ data).
  assert (Hh : be16 (tcp_local_port t) ++ be16 (tcp_remote_port t) ++ be32 (tcp_local_seq t) ++ be32 (tcp_remote_seq t)
         ++ [0x50; flags] ++ be16 4096 ++ be16 0 ++ be16 0 ++ data = pre ++ be16 0 ++ post) by (unfold pre; by rewrite <- !app_assoc).
  rewrite Hh. cbv zeta. set (pseudo := le32 ip ++ le32 (tcp_remote_ip t) ++ [0; 6] ++ be16 (u16 (Z.of_nat (20 + length data)))).
  assert (Hlen : length (pre ++ be16 0 ++ post) = (20 + length data)%nat) by (unfold post; rewrite !length_app; reflexivity).
  rewrite Hlen.
  assert (Hps : forall x, le32 ip ++ le32 (tcp_remote_ip t) ++ [0; 6] ++ be16 (u16 (Z.of_nat (20 + length data))) ++ x = pseudo ++ x)
    by (intros x; unfold pseudo; by rewrite <- !app_assoc).
  rewrite !Hps. rewrite (patch_middle pre (be16 0) post) by done.
  pose proof (patched_verifies (pseudo ++ pre) post) as Hv.
  rewrite patch_middle, <- !app_assoc in Hv by done. apply Hv; [by exists 14%nat|].
  split; [unfold pseudo, pre, post; bytes|]. rewrite length_app, Hlen. unfold pseudo. cbn [length app le32 be16]. lia.
Qed.

(** C24. The checksum is the internet checksum.  For packets of up to 128 KiB,
    where the 32-bit sum cannot wrap, the code's two-stage sum (add all words,
    then fold the carries) is the one's complement sum of RFC 1071 with the
    carry added back after every word.  A receiver that sums the IP header of
    any packet this machine sends, or any TCP segment with its pseudo header,
    therefore gets zero. *)
Theorem checksum_correct (d : list Z) (id destination protocol flags : Z) (payload : nat) (t : tcp_t) (data : list Z) :
  summable d -> 0 <= protocol < 256 -> 0 <= flags < 256 -> Forall is_byte data -> (length data <= 1400)%nat ->
  checksum d = internet_checksum d /\
  (let h := ip_header id destination protocol payload in internet_checksum (patch 10 (be16 (checksum h)) h) = 0) /\
  internet_checksum (le32 ip ++ le32 (tcp_remote_ip t) ++ [0; 6] ++ be16 (u16 (Z.of_nat (20 + length data)))
    ++ tcp_segment t flags data) = 0.
Proof.
  intros Hd Hp Hf Hb Hl. split; [by apply checksum_internet|]. split; [by apply ip_header_sums|].
  apply tcp_segment_sums; [done..|lia].
Qed.

Lemma checksum_witness :
  checksum [0x45; 0; 0xff; 0xff; 7] = internet_checksum [0x45; 0; 0xff; 0xff; 7] /\ checksum [0x45; 0; 0xff; 0xff; 7] = 0xb3ff.
Proof.
  split; [|reflexivity].
  apply (checksum_correct [0x45; 0; 0xff; 0xff; 7] 1 gateway 6 0x10 40 (Tcp gateway 5 6 0 49152 80 2 [] []) [1; 2; 3]).
  - split; [bytes|cbn; lia].
  - lia.
  - lia.
  - bytes.
  - cbn. lia.
Defined.

(** ** The request buffers *)

Lemma request_copy_all s q :
  request_copy None s q = if Nat.leb (length q + length s) 512 || (match s with [] => true | _ => false end)
                          then Ok (q ++ s) else Undefined.
Proof.
  revert q. induction s as [|c s IH]; intros q; cbn [request_copy]; [by rewrite orb_true_r, app_nil_r|].
  rewrite orb_false_r. cbn [length].
  destruct (Nat.ltb_spec (length q) 512), (Nat.leb_spec (length q + S (length s)) 512); try lia; rewrite ?IH, ?length_app; cbn [length];
    [rewrite (proj2 (Nat.leb_le _ _)) by lia; cbn [orb]; by rewrite <- app_assoc| |done].
  destruct s as [|c' s]; cbn [length] in *; [lia|]. by rewrite (proj2 (Nat.leb_gt _ _)) by lia.
Qed.

Lemma request_copy_limited l s q :
  (l <= 512)%nat -> request_copy (Some l) s q = Ok (q ++ take (l - length q) s).
Proof.
  intros Hl. revert q. induction s as [|c s IH]; intros q; cbn [request_copy]; [by rewrite take_nil, app_nil_r|].
  destruct (Nat.leb_spec l (length q)).
  { replace (l - length q)%nat with 0%nat by lia. by rewrite app_nil_r. }
  rewrite (proj2 (Nat.ltb_lt _ _)), IH, length_app by lia. cbn [length].
  replace (l - length q)%nat with (S (l - (length q + 1))) by lia. cbn [take]. by rewrite <- app_assoc.
Qed.

(** A path that leaves no room for the rest of the request line is stored past
    the end of the buffer; a shorter one gives the request, cut at 512 bytes. *)
Lemma http_request_cases host path :
  (Nat.lt 491 (length path) -> http_request host path = Undefined) /\
  ((length path + length host <= 421)%nat ->
   http_request host path = Ok (text "GET " ++ path ++ text " HTTP/1.0" ++ CRLF ++ text "Host: " ++ host ++ CRLF
     ++ text "User-Agent: OS64-curl/0.7" ++ CRLF ++ text "Connection: close" ++ CRLF ++ text "Accept: */*" ++ CRLF ++ CRLF)).
Proof.
  assert (H0 : request_copy None (text "GET ") [] = Ok (text "GET ")) by reflexivity.
  unfold http_request. rewrite H0. cbn [obind]. rewrite request_copy_limited by lia. cbn [obind].
  change (length (text "GET ")) with 4%nat. set (p := take (511 - 4) path). rewrite request_copy_all.
  assert (Hlen : length p = Nat.min 507 (length path)) by (unfold p; by rewrite length_take).
  rewrite length_app. change (length (text "GET ")) with 4%nat.
  change (length (text " HTTP/1.0" ++ CRLF ++ text "Host: ")) with 17%nat. split; intros Hl.
  - by rewrite (proj2 (Nat.leb_gt _ _)) by lia.
  - rewrite (proj2 (Nat.leb_le _ _)) by lia. cbn [orb obind]. rewrite request_copy_limited by lia. cbn [obind].
    rewrite request_copy_limited by lia. unfold p. rewrite !(take_ge path) by lia.
    rewrite !(take_ge host) by (rewrite !length_app; cbn; lia).
    rewrite take_ge by (rewrite !length_app; cbn; lia). by rewrite <- !app_assoc.
Qed.

(** A name of 239 characters passes the check of every label, and the root
    label and type then go past the end of the 256-byte query. *)
Definition long_name : list Z :=
  replicate 63 97 ++ [46] ++ replicate 63 97 ++ [46] ++ replicate 63 97 ++ [46] ++ replicate 48 97.

Lemma dns_query_overflows :
  (do q <- push_labels (length long_name) long_name (replicate 12 0);
   match q with Some q => dns_query 1 q | None => Ok [] end) = Undefined.
Proof. vm_compute. reflexivity. Qed.

(** A number of an address is taken modulo 2^32 before it is compared with 255. *)
Lemma parse_ipv4_wraps : network_parse_ipv4 (text "4294967297.0.0.1") = network_parse_ipv4 (text "1.0.0.1").
Proof. vm_compute. reflexivity. Qed.
