(* ===== verification/Rtc.v ===== *)
(** * The real-time clock (src/kernel/drivers/rtc/rtc.c)

    The driver reads the CMOS registers through the index and data ports, waits
    for updates to finish, and reads the time until two readings agree. *)

From stdpp Require Import base numbers list.
From Stdlib Require Import ZArith Lia.
From S2P Require Import Prelude Ports.

Record cmos_time_t := Cmos { c_second : Z; c_minute : Z; c_hour : Z; c_day : Z; c_month : Z; c_year : Z; c_century : Z }.

Record rtc_time_t := RtcTime { year : Z; month : Z; day : Z; hour : Z; minute : Z; second : Z }.

Definition same (a b : cmos_time_t) : bool :=
  (c_second a =? c_second b) && (c_minute a =? c_minute b) && (c_hour a =? c_hour b) && (c_day a =? c_day b)
  && (c_month a =? c_month b) && (c_year a =? c_year b) && (c_century a =? c_century b).

Definition from_bcd (value : Z) : Z := u8 (Z.land value 0x0f + 10 * Z.shiftr value 4).

Definition valid_time (t : rtc_time_t) : bool :=
  (2000 <=? year t) && (year t <=? 9999) && (1 <=? month t) && (month t <=? 12) && (1 <=? day t) && (day t <=? 31)
  && (hour t <=? 23) && (minute t <=? 59) && (second t <=? 59).

(** The registers as a time, by the format bits of status register B. *)
Definition decode (status : Z) (b : cmos_time_t) : rtc_time_t :=
  let pm := negb (Z.land (c_hour b) 0x80 =? 0) in
  let num v := if Z.land status 0x04 =? 0 then from_bcd v else v in
  let h := num (Z.land (c_hour b) 0x7f) in
  let h := if Z.land status 0x02 =? 0 then
             let h := if pm && (h <? 12) then u8 (h + 12) else h in
             if negb pm && (h =? 12) then 0 else h
           else h in
  let century := num (c_century b) in
  let century := if (century <? 19) || (99 <? century) then 20 else century in
  RtcTime (u16 (century * 100 + num (c_year b))) (num (c_month b)) (num (c_day b)) h (num (c_minute b)) (num (c_second b)).

Section driver.

Context {D : Type} `{Ports D}.

Definition cmos_read (index : Z) (d : D) : Z * D :=
  let d := outb 0x70 (u8 (Z.lor 0x80 index)) d in
  let '(value, d) := inb 0x71 d in
  (u8 value, outb 0x70 0 d).

Fixpoint wait_update (n : nat) (d : D) : bool * D :=
  match n with
  | O => (false, d)
  | S n =>
    let '(a, d) := cmos_read 0x0a d in
    if Z.land a 0x80 =? 0 then (true, d) else wait_update n d
  end.

Definition wait_update_complete : D -> bool * D := wait_update (Z.to_nat 100000).

Definition snapshot (d : D) : cmos_time_t * D :=
  let '(s, d) := cmos_read 0x00 d in
  let '(mi, d) := cmos_read 0x02 d in
  let '(h, d) := cmos_read 0x04 d in
  let '(da, d) := cmos_read 0x07 d in
  let '(mo, d) := cmos_read 0x08 d in
  let '(y, d) := cmos_read 0x09 d in
  let '(c, d) := cmos_read 0x32 d in
  (Cmos s mi h da mo y c, d).

(** [tries] more readings, each compared with the one before. *)
Fixpoint settle (tries : nat) (a : cmos_time_t) (d : D) : option cmos_time_t * D :=
  match tries with
  | O => (None, d)
  | S tries =>
    let '(ok, d) := wait_update_complete d in
    if negb ok then (None, d) else
    let '(b, d) := snapshot d in
    if same a b then (Some b, d) else settle tries b d
  end.

(** The time is stored even when it is then found out of range. *)
Definition rtc_read (d : D) : bool * option rtc_time_t * D :=
  let '(ok, d) := wait_update_complete d in
  if negb ok then (false, None, d) else
  let '(a, d) := snapshot d in
  match settle 8 a d with
  | (None, d) => (false, None, d)
  | (Some b, d) =>
    let '(status, d) := cmos_read 0x0b d in
    let t := decode status b in
    (valid_time t, Some t, d)
  end.

End driver.
