(* ===== verification/RtcTheorems.v ===== *)
(** * The real-time clock: a reading is never torn

    The clock is an interface.  Between two updates its registers show the time
    of the current second, in the format status register B announces; during an
    update they may hold anything, and the update-in-progress bit is set.  An
    update may begin and end between any two accesses. *)

From stdpp Require Import base numbers list.
From Stdlib Require Import ZArith Lia.
From S2P Require Import Prelude Ports Rtc.

(** ** How a clock stores a time *)

Record rtc_mode := Mode { binary : bool; hours24 : bool }.

Definition mode_of (status : Z) : rtc_mode :=
  Mode (negb (Z.land status 0x04 =? 0)) (negb (Z.land status 0x02 =? 0)).

Definition bcd (v : Z) : Z := v / 10 * 16 + v mod 10.
Definition enc (m : rtc_mode) (v : Z) : Z := if binary m then v else bcd v.
Definition enc_hour (m : rtc_mode) (h : Z) : Z :=
  if hours24 m then enc m h
  else enc m (if h mod 12 =? 0 then 12 else h mod 12) + (if 12 <=? h then 128 else 0).

Definition registers (m : rtc_mode) (t : rtc_time_t) : cmos_time_t :=
  Cmos (enc m (second t)) (enc m (minute t)) (enc_hour m (hour t)) (enc m (day t)) (enc m (month t))
    (enc m (year t mod 100)) (enc m (year t / 100)).

Record proper_time (t : rtc_time_t) : Prop := {
  p_valid : valid_time t = true; p_hour : 0 <= hour t; p_minute : 0 <= minute t; p_second : 0 <= second t
}.

(** Facts about small numbers, by running through them. *)
Lemma checked_below (P : Z -> bool) (k : nat) (v : Z) :
  forallb P (map Z.of_nat (seq 0 k)) = true -> 0 <= v < Z.of_nat k -> P v = true.
Proof.
  intros HP Hv. rewrite forallb_forall in HP. apply HP, in_map_iff. exists (Z.to_nat v).
  rewrite Z2Nat.id by lia. split; [done|]. apply in_seq. lia.
Qed.

Lemma bcd_roundtrip v : 0 <= v < 100 -> from_bcd (bcd v) = v.
Proof. intros Hv. apply Z.eqb_eq. by apply (checked_below (fun v => from_bcd (bcd v) =? v) 100). Qed.

Lemma bcd_inj v w : 0 <= v < 100 -> 0 <= w < 100 -> bcd v = bcd w -> v = w.
Proof. intros Hv Hw E. rewrite <- (bcd_roundtrip v), <- (bcd_roundtrip w) by done. by rewrite E. Qed.

Lemma enc_inj m v w : 0 <= v < 100 -> 0 <= w < 100 -> enc m v = enc m w -> v = w.
Proof. unfold enc. destruct (binary m); [done|]. apply bcd_inj. Qed.

(** A mask of one bit. *)
Lemma land_bit x k : 0 <= k -> Z.land x (2 ^ k) = if Z.testbit x k then 2 ^ k else 0.
Proof.
  intros Hk. apply Z.bits_inj'. intros i Hi. rewrite Z.land_spec, Z.pow2_bits_eqb by lia.
  destruct (Z.eqb_spec k i) as [->|Hne]; rewrite ?andb_true_r, ?andb_false_r.
  - destruct (Z.testbit x i); [by rewrite Z.pow2_bits_true by lia|by rewrite Z.bits_0].
  - destruct (Z.testbit x k); [by rewrite Z.pow2_bits_false by lia|by rewrite Z.bits_0].
Qed.

(** What [decode] makes of the hour register, in each of the four formats. *)
Definition hour_ok (h : Z) : bool :=
  forallb (fun st => hour (decode st (Cmos 0 0 (enc_hour (mode_of st) h) 0 0 0 0)) =? h) [0; 2; 4; 6].

Lemma decode_hour st c h :
  0 <= h < 24 -> c_hour c = enc_hour (mode_of st) h -> hour (decode st c) = h.
Proof.
  intros Hh Hc.
  assert (Hst : exists k, In k [0; 2; 4; 6] /\ Z.land st 4 = Z.land k 4 /\ Z.land st 2 = Z.land k 2).
  { pose proof (land_bit st 2 ltac:(lia)) as H4. pose proof (land_bit st 1 ltac:(lia)) as H2.
    change (2 ^ 2) with 4 in H4. change (2 ^ 1) with 2 in H2. rewrite H4, H2.
    destruct (Z.testbit st 2), (Z.testbit st 1); [exists 6|exists 4|exists 2|exists 0]; cbn; auto 10. }
  destruct Hst as (k&Hk&E4&E2).
  assert (Hok : hour_ok h = true) by (by apply (checked_below hour_ok 24)).
  unfold hour_ok in Hok. rewrite forallb_forall in Hok. specialize (Hok k Hk). apply Z.eqb_eq in Hok.
  refine (eq_trans _ Hok). unfold decode, mode_of in *. cbn [hour c_hour]. by rewrite Hc, E4, E2.
Qed.

Lemma decode_registers st t : proper_time t -> decode st (registers (mode_of st) t) = t.
Proof.
  intros [Hv Hh Hm Hs]. pose proof (decode_hour st (registers (mode_of st) t) (hour t)) as Hhour.
  destruct t as [y mo da h mi s]. unfold valid_time in Hv. cbn [year month day hour minute second] in *. breflect.
  specialize (Hhour ltac:(lia) eq_refl). cbn [hour] in Hhour.
  assert (Hnum : forall v, 0 <= v < 100 ->
    (if Z.land st 4 =? 0 then from_bcd (enc (mode_of st) v) else enc (mode_of st) v) = v).
  { intros v Hr. unfold enc, mode_of. cbn [binary]. destruct (Z.land st 4 =? 0); cbn [negb]; [by apply bcd_roundtrip|done]. }
  assert (0 <= y mod 100 < 100) by (apply Z.mod_pos_bound; lia).
  assert (20 <= y / 100 < 100) by (split; [apply Z.div_le_lower_bound|apply Z.div_lt_upper_bound]; lia).
  unfold decode in *. cbn [registers c_second c_minute c_hour c_day c_month c_year c_century hour] in *.
  cbn [registers year month day hour minute second] in *. rewrite !Hnum by lia.
  rewrite (proj2 (Z.ltb_ge _ _)), (proj2 (Z.ltb_ge _ _)) by lia. cbn [orb]. f_equal; [|done].
  unfold u16. pose proof (Z.div_mod y 100). rewrite Z.mod_small; lia.
Qed.

(** ** The clock *)

Definition reg (c : cmos_time_t) (i : Z) : option Z :=
  if i =? 0x00 then Some (c_second c) else if i =? 0x02 then Some (c_minute c) else if i =? 0x04 then Some (c_hour c)
  else if i =? 0x07 then Some (c_day c) else if i =? 0x08 then Some (c_month c) else if i =? 0x09 then Some (c_year c)
  else if i =? 0x32 then Some (c_century c) else None.

(** [phase] counts how far the clock has come: in phase [2 n] it shows second
    [n], in phase [2 n + 1] it updates to the next.  A register is read at one
    moment of the access.  What it holds in an update is not said; but the
    update-in-progress bit is then set (it may be set a little before, too). *)
Class CmosClock (D : Type) `{Ports D} := {
  phase : D -> nat;
  time_at : nat -> rtc_time_t;
  status_b : Z;
  access i d : exists p, (phase d <= p <= phase (snd (cmos_read i d)))%nat /\
    (forall n v, p = (2 * n)%nat -> reg (registers (mode_of status_b) (time_at n)) i = Some v -> fst (cmos_read i d) = v) /\
    (i = 0x0a -> Z.land (fst (cmos_read i d)) 0x80 = 0 -> exists n, p = (2 * n)%nat);
  shows_status d : fst (cmos_read 0x0b d) = status_b;
  times_proper n : proper_time (time_at n)
}.

Section clock.

Context {D : Type} `{CmosClock D}.

Abbreviation shown n := (registers (mode_of status_b) (time_at n)).

Lemma read_grows i d : (phase d <= phase (snd (cmos_read i d)))%nat.
Proof. destruct (access i d) as (p & ? & _). lia. Qed.

(** A read in one phase shows its second. *)
Lemma read_shows i d n v :
  phase d = (2 * n)%nat -> phase (snd (cmos_read i d)) = (2 * n)%nat -> reg (shown n) i = Some v -> fst (cmos_read i d) = v.
Proof. intros H1 H2 Hv. destruct (access i d) as (p & Hp & Hr & _). apply (Hr n); [lia|done]. Qed.

(** A wait that succeeds has seen a moment outside an update. *)
Lemma wait_spec n d ok d' :
  wait_update n d = (ok, d') ->
  (phase d <= phase d')%nat /\ (ok = true -> exists k, (phase d <= 2 * k <= phase d')%nat).
Proof.
  revert d. induction n as [|n IH]; intros d; cbn [wait_update]; [by intros [= <- <-]|].
  destruct (access 0x0a d) as (p & Hp & _ & Hu). destruct (cmos_read 0x0a d) as [a d1]. cbn [fst snd] in *.
  destruct (Z.eqb_spec (Z.land a 0x80) 0) as [Ha|Ha].
  - intros [= <- <-]. split; [lia|]. intros _. destruct (Hu eq_refl Ha) as [k ->]. exists k. lia.
  - intros [Hg Hk]%IH. split; [lia|]. intros Hok. destruct (Hk Hok) as [k ?]. exists k. lia.
Qed.

(** A snapshot in one phase shows its second. *)
Lemma snapshot_spec d c d' :
  snapshot d = (c, d') ->
  (phase d <= phase d')%nat /\ forall n, phase d = (2 * n)%nat -> phase d' = (2 * n)%nat -> c = shown n.
Proof.
  unfold snapshot. intros E.
  repeat match type of E with context [cmos_read ?i ?x] =>
    pose proof (read_grows i x); pose proof (fun n v => read_shows i x n v);
    let v := fresh "v" in let y := fresh "d" in destruct (cmos_read i x) as [v y]; cbn [fst snd] in *
  end.
  injection E as <- <-. split; [lia|]. intros n Hd Hd'.
  repeat match goal with Hr : forall n v, _ = _ -> _ = _ -> reg _ ?i = Some v -> _ = v |- _ =>
    specialize (Hr n _ ltac:(lia) ltac:(lia) eq_refl) end.
  subst. by destruct (shown n).
Qed.

Lemma same_eq a b : same a b = true -> a = b.
Proof. unfold same. intros Hs. breflect. destruct a, b; cbn in *; by subst. Qed.

Lemma same_refl a : same a a = true.
Proof. unfold same. by rewrite !Z.eqb_refl. Qed.

Lemma settle_grows tries a d : (phase d <= phase (snd (settle tries a d)))%nat.
Proof.
  revert a d. induction tries as [|k IH]; intros a d; cbn [settle]; [done|]. unfold wait_update_complete.
  destruct (wait_update _ d) as [ok d1] eqn:Ew. apply wait_spec in Ew as [? _]. destruct ok; cbn [negb snd]; [|done].
  destruct (snapshot d1) as [b d2] eqn:Eb. apply snapshot_spec in Eb as [? _]. destruct (same a b); cbn [snd]; [lia|].
  specialize (IH b d2). lia.
Qed.

(** Two snapshots that agree are whole: an update can only have disturbed one of
    them, because the clock was seen outside an update before each. *)
Lemma pair_whole k0 d0 a d1 d k1 d2 b d3 :
  (2 * k0 <= phase d0)%nat -> snapshot d0 = (a, d1) -> (phase d1 <= phase d)%nat -> (phase d <= 2 * k1 <= phase d2)%nat ->
  snapshot d2 = (b, d3) -> (phase d3 <= 2 * k0 + 2)%nat -> a = b ->
  exists n, (k0 <= n)%nat /\ (2 * n <= phase d3)%nat /\ b = shown n.
Proof.
  intros Hk0 Ea Hd Hk1 Eb Hlt ->. apply snapshot_spec in Ea as [Ha1 Ha2]. apply snapshot_spec in Eb as [Hb1 Hb2].
  destruct (decide (phase d1 = 2 * k0)%nat).
  - exists k0. split; [lia|]. split; [lia|]. apply Ha2; lia.
  - exists k1. split; [lia|]. split; [lia|]. apply Hb2; lia.
Qed.

Lemma settle_whole tries k0 a d0 d1 d b d' :
  (2 * k0 <= phase d0)%nat -> snapshot d0 = (a, d1) -> (phase d1 <= phase d)%nat -> settle tries a d = (Some b, d') ->
  (phase d' <= 2 * k0 + 2)%nat -> exists n, (k0 <= n)%nat /\ (2 * n <= phase d')%nat /\ b = shown n.
Proof.
  revert k0 a d0 d1 d. induction tries as [|k IH]; intros k0 a d0 d1 d Hk0 Ea Hd E Hlt; cbn [settle] in E; [done|].
  unfold wait_update_complete in E. destruct (wait_update _ d) as [ok d2] eqn:Ew.
  apply wait_spec in Ew as [Hw Hok]. destruct ok; cbn [negb] in E; [|done]. destruct (Hok eq_refl) as [k1 Hk1].
  destruct (snapshot d2) as [b' d3] eqn:Eb. destruct (same a b') eqn:Es.
  - injection E as <- <-. apply same_eq in Es. by apply (pair_whole k0 d0 a d1 d k1 d2 b' d3).
  - pose proof (snapshot_spec _ _ _ Ea) as [? _]. pose proof (snapshot_spec _ _ _ Eb) as [? _].
    destruct (IH k1 b' d2 d3 d3 ltac:(lia) Eb ltac:(lia) E ltac:(lia)) as (n & Hn & ? & ?). exists n. split; [lia|done].
Qed.

(** Updates end before the driver stops waiting for them. *)
Definition short_updates : Prop := forall x : D, fst (wait_update_complete x) = true.

(** Two snapshots that differ take the clock to another phase. *)
Lemma pair_differs d0 a d1 d2 b d3 :
  snapshot d0 = (a, d1) -> wait_update_complete d1 = (true, d2) -> snapshot d2 = (b, d3) -> same a b = false ->
  (phase d0 < phase d3)%nat.
Proof.
  intros Ea Ew Eb Hs. apply snapshot_spec in Ea as [Ha1 Ha2]. apply wait_spec in Ew as [_ Hk]. destruct (Hk eq_refl) as [k Hk'].
  apply snapshot_spec in Eb as [Hb1 Hb2]. destruct (decide (phase d0 < phase d3)%nat); [done|].
  rewrite (Ha2 k), (Hb2 k), same_refl in Hs by lia. done.
Qed.

Lemma settle_fails k a d0 d1 d' :
  short_updates -> snapshot d0 = (a, d1) -> settle (2 * k) a d1 = (None, d') -> (phase d0 + k <= phase d')%nat.
Proof.
  intros Hu. revert a d0 d1. induction k as [|k IH]; intros a d0 d1 Ea E.
  { injection E as <-. apply snapshot_spec in Ea as [? _]. lia. }
  replace (2 * S k)%nat with (S (S (2 * k))) in E by lia. cbn [settle] in E.
  pose proof (Hu d1) as H1. destruct (wait_update_complete d1) as [ok d2] eqn:E2. cbn [fst] in H1. subst ok. cbn [negb] in E.
  destruct (snapshot d2) as [b d3] eqn:E3. destruct (same a b) eqn:Es; [done|].
  pose proof (pair_differs _ _ _ _ _ _ Ea E2 E3 Es) as Hlt.
  pose proof (Hu d3) as H3. destruct (wait_update_complete d3) as [ok d4] eqn:E4. cbn [fst] in H3. subst ok. cbn [negb] in E.
  destruct (snapshot d4) as [c d5] eqn:E5. destruct (same b c); [done|].
  apply wait_spec in E4 as [? _]. specialize (IH c d4 d5 E5 E). lia.
Qed.

(** C29. A reading of the clock is never torn.  Whatever the registers hold
    during an update, and wherever in the call an update begins and ends, a time
    that rtc_read reports was the clock's time at one moment of the call, decoded
    from BCD or binary and from 12 or 24 hours as the clock is set; for calls that
    take less than a second, in which there is at most one update.  When updates
    end before the driver stops waiting for them, such a call succeeds. *)
Theorem rtc_read_whole (d d' : D) (ok : bool) (r : option rtc_time_t) :
  rtc_read d = (ok, r, d') -> (phase d' <= phase d + 2)%nat ->
  (ok = true -> exists n, (phase d <= 2 * n <= phase d')%nat /\ r = Some (time_at n)) /\
  (short_updates -> ok = true).
Proof.
  unfold rtc_read. destruct (wait_update_complete d) as [ok1 d1] eqn:Ew. pose proof (wait_spec _ _ _ _ Ew) as [Hw Hk].
  destruct ok1; cbn [negb]; cycle 1.
  { intros [= <- <- <-] _. split; [done|]. intros Hu. specialize (Hu d). by rewrite Ew in Hu. }
  destruct (Hk eq_refl) as [k Hk']. destruct (snapshot d1) as [a d2] eqn:Ea. pose proof (snapshot_spec _ _ _ Ea) as [Ha _].
  destruct (settle 8 a d2) as [[b|] d3] eqn:Es; cycle 1.
  { intros [= <- <- <-] Hlt. split; [done|]. intros Hu. apply (settle_fails 4 a d1) in Es; [lia|done..]. }
  pose proof (read_grows 0x0b d3) as Hs. pose proof (shows_status d3) as Hst. destruct (cmos_read 0x0b d3) as [st d4].
  cbn [fst snd] in *. subst st. intros [= <- <- <-] Hlt.
  destruct (settle_whole 8 k a d1 d2 d2 b d3 ltac:(lia) Ea ltac:(lia) Es ltac:(lia)) as (n & Hn & Hn' & ->).
  rewrite decode_registers by apply times_proper. split; [|intros _; apply times_proper].
  intros _. exists n. split; [lia|done].
Qed.

End clock.

(** ** A clock for the witness: a second before half past one in the afternoon, in
    BCD and twelve hours.  An update begins in the middle of the first snapshot
    and lasts for twelve accesses. *)

Record demo := Demo { d_index : Z; d_reads : nat }.

Definition demo_time (n : nat) : rtc_time_t :=
  RtcTime 2026 7 20 13 ((30 + (58 + Z.of_nat n) / 60) mod 60) ((58 + Z.of_nat n) mod 60).

Definition demo_phase (d : demo) : nat := if Nat.ltb (d_reads d) 4 then 0 else if Nat.ltb (d_reads d) 16 then 1 else 2.

Definition demo_register (d : demo) : Z :=
  if Nat.eqb (demo_phase d) 1 then if d_index d =? 0x0b then 0 else 0xff
  else default (if d_index d =? 0x0b then 0 else 0x26)
         (reg (registers (Mode false false) (demo_time (Nat.div (demo_phase d) 2))) (d_index d)).

#[export] Instance demo_ports : Ports demo := {
  inb _ d := (demo_register d, Demo (d_index d) (S (d_reads d)));
  outb p v d := if p =? 0x70 then Demo (Z.land v 0x7f) (d_reads d) else d;
  inw _ d := (0, d);
  outw _ _ d := d
}.

Lemma demo_proper n : proper_time (demo_time n).
Proof.
  pose proof (Z.mod_pos_bound (30 + (58 + Z.of_nat n) / 60) 60). pose proof (Z.mod_pos_bound (58 + Z.of_nat n) 60).
  constructor; cbn [demo_time hour minute second]; [|lia..]. unfold valid_time.
  repeat (apply andb_true_intro; split); apply Z.leb_le; cbn [demo_time year month day hour minute second]; lia.
Qed.

Lemma demo_register_byte n i v : reg (registers (Mode false false) (demo_time n)) i = Some v -> 0 <= v < 256.
Proof.
  assert (Hb : forall w, 0 <= w < 100 -> 0 <= bcd w < 256).
  { intros w Hw. unfold bcd. pose proof (Z.div_mod w 10). pose proof (Z.mod_pos_bound w 10). lia. }
  pose proof (Z.mod_pos_bound (30 + (58 + Z.of_nat n) / 60) 60). pose proof (Z.mod_pos_bound (58 + Z.of_nat n) 60).
  unfold reg. repeat case_match; intros [= <-]; cbn [registers c_second c_minute c_hour c_day c_month c_year c_century];
    try (apply Hb; cbn [demo_time second minute]; lia); vm_compute; split; congruence.
Qed.

Lemma demo_read i d :
  cmos_read i d = (u8 (demo_register (Demo (Z.land (u8 (Z.lor 0x80 i)) 0x7f) (d_reads d))), Demo 0 (S (d_reads d))).
Proof. done. Qed.

Lemma demo_grows i j k : (demo_phase (Demo i k) <= demo_phase (Demo j (S k)))%nat.
Proof.
  unfold demo_phase. cbn [d_reads].
  destruct (Nat.ltb_spec k 4), (Nat.ltb_spec (S k) 4), (Nat.ltb_spec k 16), (Nat.ltb_spec (S k) 16); lia.
Qed.

#[export] Instance demo_clock : CmosClock demo.
Proof.
  refine {| phase := demo_phase; time_at := demo_time; status_b := 0 |}.
  - intros i d. exists (demo_phase d). rewrite demo_read. cbn [fst snd]. pose proof (demo_grows (d_index d) 0 (d_reads d)) as Hg.
    change (demo_phase (Demo (d_index d) (d_reads d))) with (demo_phase d) in Hg. split; [lia|]. split.
    + intros n v Hp Hv. pose proof (demo_register_byte _ _ _ Hv) as Hr.
      assert (Hi : Z.land (u8 (Z.lor 128 i)) 127 = i).
      { revert Hv. unfold reg. repeat (case_match; breflect; [by subst|]). done. }
      rewrite Hi. unfold demo_register. change (demo_phase (Demo i (d_reads d))) with (demo_phase d). cbn [d_index]. rewrite Hp.
      rewrite (proj2 (Nat.eqb_neq _ _)) by lia. rewrite Nat.mul_comm, Nat.div_mul by lia.
      change (mode_of 0) with (Mode false false) in Hv. rewrite Hv. by apply u8_small.
    + intros ->. change (Z.land (u8 (Z.lor 0x80 0x0a)) 0x7f) with 10. unfold demo_register.
      change (demo_phase (Demo 10 (d_reads d))) with (demo_phase d). cbn [d_index].
      assert (demo_phase d = 0 \/ demo_phase d = 1 \/ demo_phase d = 2)%nat as [-> | [-> | ->]]
        by (unfold demo_phase; repeat case_match; auto).
      * intros _. by exists 0%nat.
      * intros Hz. vm_compute in Hz. discriminate.
      * intros _. by exists 1%nat.
  - intros d. rewrite demo_read. change (Z.land (u8 (Z.lor 0x80 0x0b)) 0x7f) with 11. unfold demo_register. cbn [d_index fst]. by case_match.
  - apply demo_proper.
Defined.

Lemma rtc_witness :
  exists d', rtc_read (Demo 0 0) = (true, Some (RtcTime 2026 7 20 13 30 59), d') /\
    exists n, (demo_phase (Demo 0 0) <= 2 * n <= demo_phase d')%nat /\ Some (RtcTime 2026 7 20 13 30 59) = Some (demo_time n).
Proof.
  destruct (rtc_read (Demo 0 0)) as [[ok r] d'] eqn:E. pose proof E as Ev. vm_compute in Ev. injection Ev as <- <- <-.
  eexists. split; [exact E|].
  destruct (rtc_read_whole (Demo 0 0) _ true _ E) as [Hw _]; [vm_compute; repeat constructor|]. exact (Hw eq_refl).
Defined.
