(* ===== verification/Timed.v ===== *)
(** * The time service (src/kernel/core/timed.c)

    The calendar, the configuration file, the clocks derived from the time
    stamp counter, and the synchronisation with an NTP server.  What the service
    calls (the processor's counter, the real-time clock, the network, the two
    file systems) is the interface [TimeEnv]. *)

From stdpp Require Import base numbers list strings.
From Stdlib Require Import ZArith Lia.
From S2P Require Import Prelude Effects Ports Rtc Net.

Class TimeEnv (E : Type) := {
  rdtsc : E -> Z * E;
  (** [eax] of a [cpuid] leaf. *)
  cpuid : Z -> E -> Z;
  read_rtc : E -> bool * option rtc_time_t * E;
  network_up : E -> bool;
  ntp_query : list Z -> Z -> Z -> M E (Z * option network_ntp_result_t);
  fs_find : list Z -> E -> option (list Z);
  varfs_mounted : E -> bool;
  varfs_load : list Z -> nat -> E -> option (list Z);
  varfs_store : list Z -> list Z -> E -> bool * E;
  varfs_sync : E -> bool * E
}.

(** ** Constants and state *)

Definition NTP_EPOCH : Z := 2208988800.
Definition NS_SECOND : Z := 1000000000.
Definition DEFAULT_SERVER : list Z := text "time.cloudflare.com".

(** [server] is the string in the 96-byte array. *)
Record config := Config {
  configured : bool; enabled : bool; timeout_ms : Z; retries : nat; sync_interval : Z; server : list Z
}.
Record base := Base { base_tsc : Z; base_utc_ns : Z; tsc_hz : Z }.
Record ntp_sync := Sync {
  synchronized : bool; last_error : Z; realtime_correction_ns : Z; last_offset_ns : Z; last_delay_ns : Z;
  last_sync_epoch : Z; next_attempt_ns : Z; last_address : Z; last_stratum : Z; failures : Z
}.
Record wall := Wall { clock : rtc_time_t; valid : bool; updates : Z; uptime : Z }.

Record timed (E : Type) := Timed {
  env : E; timed_running : bool; cfg : config; tbase : base; sync : ntp_sync; twall : wall
}.
Arguments Timed {E}. Arguments env {E}. Arguments timed_running {E}. Arguments cfg {E}. Arguments tbase {E}.
Arguments sync {E}. Arguments twall {E}.

Definition config0 : config := Config false true 3000 3 3600 DEFAULT_SERVER.

(** The static initial state. *)
Definition timed0 {E} (e : E) : timed E :=
  Timed e false config0 (Base 0 0 0) (Sync false 0 0 0 0 0 0 0 0 0) (Wall (RtcTime 0 0 0 0 0 0) false 0 0).

(** ** The calendar *)

Definition leap (y : Z) : bool := (y mod 4 =? 0) && (negb (y mod 100 =? 0) || (y mod 400 =? 0)).

Definition month_table : list Z := [31; 28; 31; 30; 31; 30; 31; 31; 30; 31; 30; 31].

Definition month_days (y m : Z) : outcome Z :=
  do n <- of_option (if m <? 1 then None else month_table !! Z.to_nat (m - 1));
  Ok (n + (if (m =? 2) && leap y then 1 else 0)).

Definition year_days (y : Z) : Z := if leap y then 366 else 365.

(** The days of the [n] years from [y]. *)
Fixpoint years_from (n : nat) (y : Z) : Z :=
  match n with O => 0 | S n => year_days y + years_from n (y + 1) end.

Fixpoint months_from (n : nat) (y m : Z) : outcome Z :=
  match n with O => Ok 0 | S n => do d <- month_days y m; do r <- months_from n y (m + 1); Ok (d + r) end.

Definition to_epoch (t : rtc_time_t) : outcome Z :=
  do md <- months_from (Z.to_nat (month t - 1)) (year t) 1;
  let days := u64 (years_from (Z.to_nat (year t - 1970)) 1970 + md) in
  Ok (u64 (u64 (days + day t - 1) * 86400 + hour t * 3600 + minute t * 60 + second t)).

Fixpoint count_years (fuel : nat) (days y : Z) : outcome (Z * Z) :=
  if year_days y <=? days then
    match fuel with O => OutOfFuel | S fuel => count_years fuel (days - year_days y) (u32 (y + 1)) end
  else Ok (days, y).

Fixpoint count_months (fuel : nat) (days y m : Z) : outcome (Z * Z) :=
  do n <- month_days y m;
  if n <=? days then
    match fuel with O => OutOfFuel | S fuel => count_months fuel (days - n) y (m + 1) end
  else Ok (days, m).

(** A year has at least 365 days, which bounds the first loop. *)
Definition from_epoch (value : Z) : outcome rtc_time_t :=
  let days := value / 86400 in
  let s := value mod 86400 in
  do '(days, y) <- count_years (Z.to_nat (days / 365)) days 1970;
  do '(days, m) <- count_months 12 days y 1;
  Ok (RtcTime (u16 y) (u8 m) (u8 (days + 1)) (u8 (s / 3600)) (u8 (s mod 3600 / 60)) (u8 (s mod 60))).

Definition same_time (a b : rtc_time_t) : bool :=
  (year a =? year b) && (month a =? month b) && (day a =? day b) && (hour a =? hour b)
  && (minute a =? minute b) && (second a =? second b).

(** ** The configuration file *)

Fixpoint uint_digits (s : list Z) (v : Z) : option Z :=
  match s with
  | [] => Some v
  | c :: s => if (c <? 48) || (57 <? c) || (1000000 <? v) then None else uint_digits s (u32 (v * 10 + (c - 48)))
  end.

Definition parse_uint (s : list Z) : option Z := match s with [] => None | _ => uint_digits s 0 end.

Definition host_char (c : Z) : bool :=
  ((97 <=? c) && (c <=? 122)) || ((65 <=? c) && (c <=? 90)) || ((48 <=? c) && (c <=? 57)) || (c =? 45) || (c =? 46).

Fixpoint host_scan (s : list Z) (n label : Z) : bool :=
  match s with
  | [] => negb (n =? 0) && negb (label =? 0)
  | c :: s =>
    if negb (host_char c) then false else
    if (c =? 46) && (label =? 0) then false else
    let label := if c =? 46 then 0 else label + 1 in
    if (96 <=? n + 1) || (63 <? label) then false else host_scan s (n + 1) label
  end.

Definition hostname_valid (s : list Z) : bool := host_scan s 0 0.

Definition set_text (s : list Z) (cap : nat) : list Z := take (cap - 1) s.

(** The characters before the first one that [stop] accepts, and the rest. *)
Fixpoint scan_to (stop : Z -> bool) (d : list Z) : list Z * list Z :=
  match d with
  | [] => ([], [])
  | c :: d' => if stop c then ([], d) else let '(a, b) := scan_to stop d' in (c :: a, b)
  end.

Definition is_blank (c : Z) : bool := (c =? 32) || (c =? 9) || (c =? 13) || (c =? 10).
Definition is_newline (c : Z) : bool := c =? 10.

(** Past the end of the line. *)
Definition next_line (d : list Z) : list Z := drop 1 (snd (scan_to is_newline d)).

Definition set_server (h : list Z) (c : config) : config :=
  Config (configured c) (enabled c) (timeout_ms c) (retries c) (sync_interval c) (set_text h 96).
Definition set_enabled (b : bool) (c : config) : config :=
  Config (configured c) b (timeout_ms c) (retries c) (sync_interval c) (server c).

Definition in_range (lo hi : Z) (o : option Z) : option Z :=
  match o with Some n => if (lo <=? n) && (n <=? hi) then Some n else None | None => None end.

(** One assignment of the file. *)
Definition apply_setting (key value : list Z) (c : config) : config :=
  let kn := length key in
  let first := default 0 (key !! 0%nat) in
  let number lo hi := in_range lo hi (parse_uint value) in
  if (bool_decide (key = text "server")) && Nat.ltb (length value) 96 then
    if hostname_valid (cstring value) then set_server (cstring value) c else c
  else if bool_decide (key = text "enabled") then set_enabled (bool_decide (value = text "true")) c
  else if Nat.eqb kn 10 && (first =? 116) then
    match number 100 30000 with
    | Some n => Config (configured c) (enabled c) n (retries c) (sync_interval c) (server c) | None => c end
  else if Nat.eqb kn 7 && (first =? 114) then
    match number 1 5 with
    | Some n => Config (configured c) (enabled c) (timeout_ms c) (Z.to_nat n) (sync_interval c) (server c) | None => c end
  else if Nat.eqb kn 13 && (first =? 115) then
    match number 60 86400 with
    | Some n => Config (configured c) (enabled c) (timeout_ms c) (retries c) n (server c) | None => c end
  else c.

(** [while (p < size)]: every round takes at least one character. *)
Fixpoint config_lines (fuel : nat) (d : list Z) (c : config) : outcome config :=
  match fuel with
  | O => OutOfFuel
  | S fuel =>
    match snd (scan_to (fun x => negb (is_blank x)) d) with
    | [] => Ok c
    | (x :: _) as d =>
      if x =? 35 then config_lines fuel (next_line d) c else
      let '(key, rest) := scan_to (fun y => (y =? 61) || (y =? 10)) d in
      match rest with
      | y :: rest' =>
        if y =? 61 then
          let '(value, rest) := scan_to (fun z => (z =? 13) || (z =? 10)) rest' in
          config_lines fuel rest (apply_setting key value c)
        else config_lines fuel (next_line rest) c
      | [] => config_lines fuel [] c
      end
    end
  end.

Definition parse_config (d : list Z) (c : config) : outcome config := config_lines (S (length d)) d c.

(** ** Time arithmetic *)

(** A value of a signed 64-bit expression: overflow has no meaning. *)
Definition int64 (v : Z) : outcome Z := if (- 2 ^ 63 <=? v) && (v <? 2 ^ 63) then Ok v else Undefined.

Definition ntp_from_ns (ns : Z) : Z :=
  let sec := u64 (u64 (Z.quot ns NS_SECOND) + NTP_EPOCH) in
  let frac := u64 (Z.rem ns NS_SECOND) in
  Z.lor (u64 (Z.shiftl sec 32)) (u64 (Z.shiftl frac 32) / NS_SECOND).

Definition fixed_delta_ns (a b : Z) : Z :=
  let d := s64 (u64 (a - b)) in
  Z.quot d 4294967296 * NS_SECOND + Z.quot (Z.rem d 4294967296 * NS_SECOND) 4294967296.

Section service.

Context {E : Type} `{TimeEnv E}.

#[local] Abbreviation T := (M (timed E)).

Definition lift_t {A} (o : outcome A) : T A := fun s => do a <- o; Ok (a, s).
Definition set_env (e : E) (s : timed E) : timed E :=
  Timed e (timed_running s) (cfg s) (tbase s) (sync s) (twall s).
Definition set_cfg (f : config -> config) : T unit :=
  modify (fun s => Timed (env s) (timed_running s) (f (cfg s)) (tbase s) (sync s) (twall s)).
Definition set_sync (f : ntp_sync -> ntp_sync) : T unit :=
  modify (fun s => Timed (env s) (timed_running s) (cfg s) (tbase s) (f (sync s)) (twall s)).
Definition set_wall (f : wall -> wall) : T unit :=
  modify (fun s => Timed (env s) (timed_running s) (cfg s) (tbase s) (sync s) (f (twall s))).
Definition in_env {A} (f : E -> A * E) : T A := fun s => let '(a, e) := f (env s) in Ok (a, set_env e s).

Definition cpu_hz (e : E) : Z :=
  if 0x16 <=? cpuid 0 e then
    let a := cpuid 0x16 e in if a =? 0 then 1000000000 else u64 (a * 1000000)
  else 1000000000.

Definition elapsed_ns (hz ticks : Z) : outcome Z :=
  if hz =? 0 then Undefined else
  Ok (u64 (u64 (ticks / hz * 1000000000) + u64 (ticks mod hz * 1000000000) / hz)).

Definition timed_monotonic_ns : T Z :=
  let! tsc := in_env rdtsc in
  let! s := get in
  lift_t (elapsed_ns (tsc_hz (tbase s)) (u64 (tsc - base_tsc (tbase s)))).

Definition timed_get_realtime_ns : T (option Z) :=
  let! s := get in
  if negb (timed_running s) then ret None else
  let! m := timed_monotonic_ns in
  let! v := lift_t (int64 (s64 (u64 (base_utc_ns (tbase s) + m)) + realtime_correction_ns (sync s))) in
  ret (Some v).

Definition load_config : T unit :=
  let! s := get in
  if configured (cfg s) then ret tt else
  set_cfg (fun c => Config true (enabled c) (timeout_ms c) (retries c) (sync_interval c) (server c)) ;;
  let! s := get in
  let! c := lift_t (match fs_find (text "etc/ntp.conf") (env s) with Some d => parse_config d (cfg s) | None => Ok (cfg s) end) in
  let! c := lift_t (if varfs_mounted (env s) then
                      match varfs_load (text "/var/lib/os64/ntp.conf") 512 (env s) with
                      | Some d => parse_config d c | None => Ok c
                      end
                    else Ok c) in
  set_cfg (fun _ => c).

(** A store past the 192-byte buffer is [Undefined]. *)
Definition config_text (c : config) : outcome (list Z) :=
  let b := text "server=" ++ server c ++ [10] ++ text "enabled=" ++ (if enabled c then text "true" else text "false") ++ [10] in
  if Nat.leb (length b) 192 then Ok b else Undefined.

Definition save_config : T bool :=
  let! s := get in
  let! b := lift_t (config_text (cfg s)) in
  if negb (varfs_mounted (env s)) then ret false else
  let! ok := in_env (varfs_store (text "/var/lib/os64/ntp.conf") b) in
  if negb ok then ret false else in_env varfs_sync.

Definition timed_init : T unit :=
  fun s =>
    let e := env s in
    let hz := cpu_hz e in
    let '(tsc, e) := rdtsc e in
    let c := cfg s in
    let c := Config false (enabled c) (timeout_ms c) (retries c) (sync_interval c) (server c) in
    let y := sync s in
    let y := Sync false 0 0 0 0 0 0 (last_address y) (last_stratum y) 0 in
    let '(ok, raw, e) := read_rtc e in
    match ok, raw with
    | true, Some t =>
      do v <- to_epoch t;
      Ok (tt, Timed e true c (Base tsc (u64 (v * 1000000000)) hz) y (Wall t true 1 0))
    | _, _ => Ok (tt, Timed e true c (Base tsc 0 hz) y (Wall (clock (twall s)) false 0 0))
    end.

Definition set_next (v : Z) (y : ntp_sync) : ntp_sync :=
  Sync (synchronized y) (last_error y) (realtime_correction_ns y) (last_offset_ns y) (last_delay_ns y)
    (last_sync_epoch y) v (last_address y) (last_stratum y) (failures y).

Definition set_running (b : bool) : T unit :=
  modify (fun s => Timed (env s) b (cfg s) (tbase s) (sync s) (twall s)).

Definition timed_start : T unit :=
  set_running true ;;
  load_config ;;
  let! s := get in
  when (enabled (cfg s) && (next_attempt_ns (sync s) =? 0))
    (let! m := timed_monotonic_ns in set_sync (set_next (u64 (m + 1000000000)))).

Definition timed_stop : T unit := set_running false.

(** ** Synchronisation *)

Definition sync_failed (err : Z) : T Z :=
  set_sync (fun y => Sync (synchronized y) err (realtime_correction_ns y) (last_offset_ns y) (last_delay_ns y)
                       (last_sync_epoch y) (next_attempt_ns y) (last_address y) (last_stratum y) (u64 (failures y + 1))) ;;
  ret err.

(** [n] more attempts; the last result when none succeeds. *)
Fixpoint query_retry (n : nat) (name : list Z) (t1 spins last : Z) : M E (Z * option network_ntp_result_t) :=
  match n with
  | O => ret (last, None)
  | S n =>
    let! '(r, reply) := ntp_query name t1 spins in
    if r =? NETWORK_NTP_OK then ret (r, reply) else query_retry n name t1 spins r
  end.

(** The offset and the round-trip delay of an exchange: sent at [t1], received
    by the server at [t2], answered at [t3], received at [t4]. *)
Definition ntp_offset (t1 t2 t3 t4 : Z) : Z := Z.quot (fixed_delta_ns t2 t1 + fixed_delta_ns t3 t4) 2.
Definition ntp_delay (t1 t2 t3 t4 : Z) : Z := fixed_delta_ns t4 t1 - fixed_delta_ns t3 t2.

Definition timed_sync : T Z :=
  load_config ;;
  let! s := get in
  if negb (timed_running s) || negb (network_up (env s)) then sync_failed NETWORK_NTP_DOWN else
  let! t1ns := timed_get_realtime_ns in
  match t1ns with
  | None => ret NETWORK_NTP_TIMESTAMP
  | Some t1ns =>
    let t1 := ntp_from_ns t1ns in
    let! s := get in
    let! '(result, reply) :=
      (fun s => do '(r, e) <- query_retry (retries (cfg s)) (server (cfg s)) t1 (u32 (timeout_ms (cfg s) * 1400)) NETWORK_NTP_TIMEOUT (env s);
                Ok (r, set_env e s)) in
    if negb (result =? NETWORK_NTP_OK) then
      let! r := sync_failed result in
      let! m := timed_monotonic_ns in
      set_sync (set_next (u64 (m + 30000000000))) ;; ret r
    else
    match reply with
    | None => undefined
    | Some reply =>
      let! t4ns := timed_get_realtime_ns in
      match t4ns with
      | None => sync_failed NETWORK_NTP_TIMESTAMP
      | Some t4ns =>
        let t4 := ntp_from_ns t4ns in
        let offset := ntp_offset t1 (receive_timestamp reply) (transmit_timestamp reply) t4 in
        let delay := ntp_delay t1 (receive_timestamp reply) (transmit_timestamp reply) t4 in
        set_sync (fun y => Sync (synchronized y) (last_error y) (realtime_correction_ns y) offset delay (last_sync_epoch y)
                             (next_attempt_ns y) (last_address y) (last_stratum y) (failures y)) ;;
        if (delay <? 0) || (30000000000 <? delay) then sync_failed NETWORK_NTP_TIMESTAMP else
        let! s := get in
        let! corr := lift_t (int64 (realtime_correction_ns (sync s) + offset)) in
        let! at_sync := lift_t (int64 (t4ns + offset)) in
        set_sync (fun y => Sync true 0 corr (last_offset_ns y) (last_delay_ns y) (u64 (Z.quot at_sync NS_SECOND))
                             (next_attempt_ns y) (nr_address reply) (nr_stratum reply) (failures y)) ;;
        let! m := timed_monotonic_ns in
        set_sync (set_next (u64 (m + u64 (sync_interval (cfg s) * 1000000000)))) ;;
        set_wall (fun w => Wall (clock w) (valid w) (u64 (updates w + 1)) (uptime w)) ;;
        ret 1
      end
    end
  end.

(** ** Polling *)

(** The wall clock is eight hours ahead of UTC. *)
Definition refresh_clock : T unit :=
  let! utc := timed_get_realtime_ns in
  match utc with
  | Some utc =>
    if utc <? 0 then ret tt else
    let! sample := lift_t (from_epoch (u64 (Z.quot utc NS_SECOND + 8 * 3600))) in
    set_wall (fun w => if negb (valid w) || negb (same_time (clock w) sample)
                       then Wall sample true (u64 (updates w + 1)) (if valid w then u64 (uptime w + 1) else uptime w)
                       else w)
  | None => ret tt
  end.

Definition timed_poll : T unit :=
  let! s := get in
  if negb (timed_running s) then ret tt else
  load_config ;;
  refresh_clock ;;
  let! s := get in
  if enabled (cfg s) && network_up (env s) && negb (next_attempt_ns (sync s) =? 0) then
    let! m := timed_monotonic_ns in
    let! s := get in
    when (next_attempt_ns (sync s) <=? m) (timed_sync ;; ret tt)
  else ret tt.

Definition timed_now : T (option rtc_time_t) :=
  let! s := get in
  if negb (timed_running s) then ret None else
  timed_poll ;;
  let! s := get in
  ret (if valid (twall s) then Some (clock (twall s)) else None).

(** ** Settings *)

Definition timed_set_server (h : list Z) : T bool :=
  load_config ;;
  if negb (hostname_valid h) then ret false else
  set_cfg (set_server h) ;;
  set_sync (fun y => Sync false (last_error y) (realtime_correction_ns y) (last_offset_ns y) (last_delay_ns y)
                       (last_sync_epoch y) (next_attempt_ns y) (last_address y) (last_stratum y) (failures y)) ;;
  save_config.

Definition timed_set_enabled (value : bool) : T bool :=
  load_config ;;
  set_cfg (set_enabled value) ;;
  when value (let! m := timed_monotonic_ns in set_sync (set_next (u64 (m + 1000000000)))) ;;
  save_config.

Definition timed_enabled : T bool := load_config ;; let! s := get in ret (enabled (cfg s)).
Definition timed_server : T (list Z) := load_config ;; let! s := get in ret (server (cfg s)).

End service.

(** ** The system the service runs in

    The clock and the network are the drivers modelled in [Rtc] and [Net]; the
    rest of the machine stays an interface. *)

Class TimeHost (H : Type) := {
  host_rdtsc : H -> Z * H;
  host_cpuid : Z -> H -> Z;
  host_fs_find : list Z -> H -> option (list Z);
  host_varfs_mounted : H -> bool;
  host_varfs_load : list Z -> nat -> H -> option (list Z);
  host_varfs_store : list Z -> list Z -> H -> bool * H;
  host_varfs_sync : H -> bool * H
}.

Record system (H C D : Type) := System { host : H; cmos : C; network : net D }.
Arguments System {H C D}. Arguments host {H C D}. Arguments cmos {H C D}. Arguments network {H C D}.

Section system.

Context {H C D : Type} `{TimeHost H} `{Ports C} `{NetDev D}.

(** How deep network polls may nest. *)
Variable fuel : nat.

Definition on_host {A} (f : H -> A * H) (s : system H C D) : A * system H C D :=
  let '(a, h) := f (host s) in (a, System h (cmos s) (network s)).

Definition system_env : TimeEnv (system H C D) := {|
  rdtsc := on_host host_rdtsc;
  cpuid leaf s := host_cpuid leaf (host s);
  read_rtc s := let '(r, c) := rtc_read (cmos s) in (r, System (host s) c (network s));
  network_up s := ready (network s);
  ntp_query name t1 spins s :=
    do '(r, n) <- network_ntp_query fuel name t1 (Z.to_nat spins) (network s); Ok (r, System (host s) (cmos s) n);
  fs_find path s := host_fs_find path (host s);
  varfs_mounted s := host_varfs_mounted (host s);
  varfs_load path cap s := host_varfs_load path cap (host s);
  varfs_store path data := on_host (host_varfs_store path data);
  varfs_sync := on_host host_varfs_sync
|}.

End system.
