(* ===== verification/Calendar.v ===== *)
(** * The calendar of the time service

    Seconds since 1970 and calendar dates: the two conversions are inverse, and
    are the Gregorian calendar's. *)

From stdpp Require Import base numbers list.
From Stdlib Require Import ZArith Lia.
From S2P Require Import Prelude Rtc Timed.

(** Leap years up to [y]. *)
Definition leaps (y : Z) : Z := y / 4 - y / 100 + y / 400.

(** Days from 1970-01-01 to January 1st of year [y]. *)
Definition year_start (y : Z) : Z := 365 * (y - 1970) + leaps (y - 1) - leaps 1969.

(** Days of year [y] before month [m]. *)
Definition month_start (y m : Z) : Z :=
  fold_right Z.add 0 (take (Z.to_nat (m - 1)) month_table) + (if (2 <? m) && leap y then 1 else 0).

Record proper_date (t : rtc_time_t) : Prop := {
  pd_year : 1970 <= year t < 65536; pd_month : 1 <= month t <= 12;
  pd_day : 1 <= day t; pd_last : month_start (year t) (month t) + day t <= month_start (year t) (month t + 1);
  pd_hour : 0 <= hour t < 24; pd_minute : 0 <= minute t < 60; pd_second : 0 <= second t < 60
}.

Definition epoch_of (t : rtc_time_t) : Z :=
  86400 * (year_start (year t) + month_start (year t) (month t) + day t - 1) + hour t * 3600 + minute t * 60 + second t.

(** ** Years *)

Lemma leap_step y : leaps y - leaps (y - 1) = if leap y then 1 else 0.
Proof.
  unfold leaps, leap.
  destruct (Z.eqb_spec (y mod 4) 0), (Z.eqb_spec (y mod 100) 0), (Z.eqb_spec (y mod 400) 0); cbn [andb orb negb];
    Z.div_mod_to_equations; lia.
Qed.

Lemma year_start_next y : year_start (y + 1) = year_start y + year_days y.
Proof.
  unfold year_start, year_days. pose proof (leap_step y). replace (y + 1 - 1) with y by lia.
  destruct (leap y); lia.
Qed.

Lemma year_start_1970 : year_start 1970 = 0.
Proof. reflexivity. Qed.

Lemma year_days_range y : 365 <= year_days y <= 366.
Proof. unfold year_days. destruct (leap y); lia. Qed.

Lemma years_from_start n y : years_from n y = year_start (y + Z.of_nat n) - year_start y.
Proof.
  revert y. induction n as [|n IH]; intros y; cbn [years_from]; [rewrite Z.add_0_r; lia|].
  rewrite IH, year_start_next. replace (y + 1 + Z.of_nat n) with (y + Z.of_nat (S n)) by lia. lia.
Qed.

Lemma year_start_mono y k : 0 <= k -> year_start y + 365 * k <= year_start (y + k).
Proof.
  intros Hk. pattern k. apply natlike_ind; [cbv beta; replace (y + 0) with y by lia; lia| |done]. intros x Hx IH.
  replace (y + Z.succ x) with (y + x + 1) by lia. rewrite year_start_next. pose proof (year_days_range (y + x)). lia.
Qed.

Lemma count_years_spec fuel days y k :
  0 <= days -> days / 365 <= Z.of_nat fuel -> 0 <= y -> 0 <= k -> y + k < 2 ^ 32 ->
  year_start (y + k) <= year_start y + days < year_start (y + k + 1) ->
  count_years fuel days y = Ok (year_start y + days - year_start (y + k), y + k).
Proof.
  revert days y k. induction fuel as [|fuel IH]; intros days y k Hd Hf Hy Hk Hb Hr; cbn [count_years];
    pose proof (year_days_range y); pose proof (year_start_next y); destruct (Z.leb_spec (year_days y) days) as [Hle|Hlt].
  - exfalso. assert (1 <= days / 365) by (apply Z.div_le_lower_bound; lia). lia.
  - assert (k = 0) as ->; [|rewrite Z.add_0_r; do 2 f_equal; lia].
    destruct (Z.eq_dec k 0); [done|]. pose proof (year_start_mono (y + 1) (k - 1)). replace (y + 1 + (k - 1)) with (y + k) in * by lia. lia.
  - assert (0 < k).
    { destruct (Z.eq_dec k 0) as [->|]; [|lia]. rewrite Z.add_0_r in Hr. lia. }
    rewrite u32_small by lia. rewrite (IH _ _ (k - 1)); try lia.
    + replace (y + 1 + (k - 1)) with (y + k) by lia. do 2 f_equal. lia.
    + assert (days - year_days y <= days - 1 * 365) by lia.
      pose proof (Z.div_le_mono (days - year_days y) (days + (-1) * 365) 365). rewrite Z.div_add in * by lia. lia.
    + replace (y + 1 + (k - 1)) with (y + k) by lia. lia.
  - assert (k = 0) as ->; [|rewrite Z.add_0_r; do 2 f_equal; lia].
    destruct (Z.eq_dec k 0); [done|]. pose proof (year_start_mono (y + 1) (k - 1)). replace (y + 1 + (k - 1)) with (y + k) in * by lia. lia.
Qed.

(** ** Months *)

Definition months : list Z := [1; 2; 3; 4; 5; 6; 7; 8; 9; 10; 11; 12].

Lemma month_cases m : 1 <= m <= 12 -> In m months.
Proof. intros Hm. unfold months. cbn. lia. Qed.

Lemma month_days_step y m :
  1 <= m <= 12 -> month_days y m = Ok (month_start y (m + 1) - month_start y m).
Proof.
  intros Hm. unfold month_days, month_start. apply month_cases in Hm. cbn in Hm.
  destruct (leap y); repeat destruct Hm as [<-|Hm]; try reflexivity; done.
Qed.

Lemma month_start_first y : month_start y 1 = 0.
Proof. reflexivity. Qed.

Lemma month_start_end y : month_start y 13 = year_days y.
Proof. unfold month_start, year_days. by destruct (leap y). Qed.

Lemma month_start_lt y m : 1 <= m <= 12 -> month_start y m < month_start y (m + 1).
Proof.
  intros Hm. unfold month_start. apply month_cases in Hm. cbn in Hm.
  destruct (leap y); repeat destruct Hm as [<-|Hm]; try reflexivity; done.
Qed.

Lemma month_start_le y m m' : 1 <= m -> m' <= 13 -> m <= m' -> month_start y m <= month_start y m'.
Proof.
  intros Hm Hm' Hle. replace m' with (m + (m' - m)) in * by lia. set (k := m' - m) in *. assert (Hk : 0 <= k) by lia.
  clearbody k. revert Hm'. pattern k. apply natlike_ind; [cbv beta; rewrite Z.add_0_r; lia| |done]. intros x Hx IH Hb.
  pose proof (month_start_lt y (m + x)). replace (m + Z.succ x) with (m + x + 1) by lia. lia.
Qed.

Lemma months_from_spec n y m :
  1 <= m -> m + Z.of_nat n <= 13 -> months_from n y m = Ok (month_start y (m + Z.of_nat n) - month_start y m).
Proof.
  revert m. induction n as [|n IH]; intros m Hm Hn; cbn [months_from]; [rewrite Z.add_0_r, Z.sub_diag; done|].
  rewrite month_days_step by lia. cbn [obind]. rewrite IH by lia. cbn [obind].
  replace (m + 1 + Z.of_nat n) with (m + Z.of_nat (S n)) by lia. f_equal. lia.
Qed.

Lemma count_months_spec fuel days y m m' :
  1 <= m <= m' -> m' <= 12 -> m' - m <= Z.of_nat fuel ->
  month_start y m' <= month_start y m + days < month_start y (m' + 1) ->
  count_months fuel days y m = Ok (month_start y m + days - month_start y m', m').
Proof.
  revert days m. induction fuel as [|fuel IH]; intros days m Hm Hm' Hf Hr; cbn [count_months];
    rewrite month_days_step by lia; cbn [obind];
    destruct (Z.leb_spec (month_start y (m + 1) - month_start y m) days) as [Hle|Hlt].
  - exfalso. assert (m = m') as <- by lia. lia.
  - assert (m = m') as <- by lia. do 2 f_equal. lia.
  - assert (m <> m') by (intros <-; lia). rewrite IH by lia. do 2 f_equal. lia.
  - assert (m = m') as <-; [|do 2 f_equal; lia]. destruct (Z.eq_dec m m'); [done|].
    pose proof (month_start_le y (m + 1) m'). lia.
Qed.

(** ** Both ways *)

(** A sequence that is below a value and later above it crosses it somewhere. *)
Lemma crossing (f : Z -> Z) (a v : Z) (n : nat) :
  f a <= v -> v < f (a + Z.of_nat n) -> exists k, 0 <= k < Z.of_nat n /\ f (a + k) <= v < f (a + k + 1).
Proof.
  intros Ha. induction n as [|n IH]; intros Hn; [rewrite Z.add_0_r in Hn; lia|].
  destruct (Z.lt_ge_cases v (f (a + Z.of_nat n))) as [Hlt|Hge].
  - destruct (IH Hlt) as (k&Hk&Hf). exists k. split; [lia|done].
  - exists (Z.of_nat n). split; [lia|]. replace (a + Z.of_nat n + 1) with (a + Z.of_nat (S n)) by lia. lia.
Qed.

(** Seconds up to the end of the year 65535, the last one [year] can hold. *)
Definition EPOCH_END : Z := 86400 * year_start 65536.

Lemma date_in_year t : proper_date t ->
  0 <= month_start (year t) (month t) /\ month_start (year t) (month t) + day t <= year_days (year t).
Proof.
  intros []. rewrite <- month_start_end, <- (month_start_first (year t)).
  split; [apply month_start_le; lia|]. pose proof (month_start_le (year t) (month t + 1) 13). lia.
Qed.

Lemma date_days t : proper_date t ->
  year_start (year t) <= year_start (year t) + month_start (year t) (month t) + day t - 1 < year_start (year t + 1) /\
  0 <= year_start (year t) /\ year_start (year t + 1) <= year_start 65536.
Proof.
  intros Ht. pose proof (date_in_year t Ht). destruct Ht as [Hy Hm Hd _ _ _ _].
  pose proof (year_start_next (year t)).
  pose proof (year_start_mono 1970 (year t - 1970)). pose proof (year_start_mono (year t + 1) (65536 - (year t + 1))).
  replace (1970 + (year t - 1970)) with (year t) in * by lia.
  replace (year t + 1 + (65536 - (year t + 1))) with 65536 in * by lia.
  rewrite year_start_1970 in *. lia.
Qed.

Lemma epoch_range t : proper_date t -> 0 <= epoch_of t < EPOCH_END.
Proof.
  intros Ht. pose proof (date_days t Ht). destruct Ht. unfold epoch_of, EPOCH_END. lia.
Qed.

Lemma EPOCH_END_value : EPOCH_END = 2005949145600.
Proof. reflexivity. Qed.

Lemma to_epoch_spec t : proper_date t -> to_epoch t = Ok (epoch_of t).
Proof.
  intros Ht. pose proof (date_days t Ht) as Hd. pose proof (date_in_year t Ht) as Hy.
  pose proof (epoch_range t Ht) as Hr. rewrite EPOCH_END_value in Hr. destruct Ht. unfold to_epoch.
  rewrite months_from_spec by lia. cbn [obind]. rewrite years_from_start, year_start_1970, month_start_first.
  rewrite !Z2Nat.id by lia. replace (1970 + (year t - 1970)) with (year t) by lia.
  replace (1 + (month t - 1)) with (month t) by lia. unfold epoch_of in *. f_equal.
  assert (H65 : year_start 65536 = 23217004) by reflexivity.
  rewrite (u64_small (_ - 0 + _)) by lia. rewrite (u64_small (_ + _ - 1)) by lia. rewrite u64_small by lia. lia.
Qed.

Lemma from_epoch_spec t : proper_date t -> from_epoch (epoch_of t) = Ok t.
Proof.
  intros Ht. pose proof (date_days t Ht) as Hd. pose proof (date_in_year t Ht) as Hin. destruct Ht. unfold from_epoch.
  set (n := year_start (year t) + month_start (year t) (month t) + day t - 1) in *.
  set (s := hour t * 3600 + minute t * 60 + second t).
  assert (Hs : 0 <= s < 86400) by lia.
  assert (He : epoch_of t = s + n * 86400) by (unfold epoch_of, n, s; lia).
  rewrite He, Z.div_add, Z.mod_add, (Z.div_small s), (Z.mod_small s), Z.add_0_l by lia.
  rewrite (count_years_spec _ _ 1970 (year t - 1970)); try lia.
  - rewrite year_start_1970. replace (1970 + (year t - 1970)) with (year t) by lia. cbn [obind].
    rewrite (count_months_spec _ _ _ 1 (month t)); [|lia..|rewrite month_start_first; lia]. cbn [obind].
    rewrite month_start_first. unfold u16, u8. destruct t as [y mo da h mi se]. cbn [year month day hour minute second] in *.
    assert (da <= 366) by (pose proof (year_days_range y); lia).
    assert (Hda : month_start y (mo + 1) - month_start y mo <= 31).
    { unfold month_start. pose proof (month_cases mo pd_month0) as Hc. cbn in Hc.
      destruct (leap y); repeat destruct Hc as [<-|Hc]; done. }
    f_equal. f_equal; rewrite Z.mod_small; unfold n, s; try lia; Z.div_mod_to_equations; lia.
  - rewrite year_start_1970. replace (1970 + (year t - 1970)) with (year t) by lia. lia.
Qed.

(** Every second up to the end of 65535 is the second of a date. *)
Lemma epoch_date v : 0 <= v < EPOCH_END -> exists t, proper_date t /\ epoch_of t = v.
Proof.
  intros Hv. unfold EPOCH_END in Hv. set (n := v / 86400). set (s := v mod 86400).
  assert (Hn : v = 86400 * n + s) by (unfold n, s; apply Z.div_mod; lia).
  assert (Hs : 0 <= s < 86400) by (unfold s; apply Z.mod_pos_bound; lia). clearbody n s.
  destruct (crossing year_start 1970 n (Z.to_nat 63566)) as (k&Hk&Hy).
  { rewrite year_start_1970. lia. }
  { rewrite Z2Nat.id by lia. change (1970 + 63566) with 65536. lia. }
  rewrite Z2Nat.id in Hk by lia. set (y := 1970 + k) in *.
  destruct (crossing (month_start y) 1 (n - year_start y) 12) as (j&Hj&Hm).
  { rewrite month_start_first. lia. }
  { change (1 + Z.of_nat 12) with 13. rewrite month_start_end. rewrite year_start_next in Hy. lia. }
  set (m := 1 + j) in *.
  exists (RtcTime y m (n - year_start y - month_start y m + 1) (s / 3600) (s mod 3600 / 60) (s mod 60)).
  split; [|unfold epoch_of; cbn [year month day hour minute second]; Z.div_mod_to_equations; lia].
  constructor; cbn [year month day hour minute second]; try lia; Z.div_mod_to_equations; lia.
Qed.


