(* ===== verification/TimedTheorems.v ===== *)
(** * The time service: configuration and synchronisation

    The settings in use are always within their limits, whatever the files
    contain, and what is saved is read back; the offset and delay computed from
    an NTP exchange, and what a synchronisation changes. *)

From stdpp Require Import base numbers list strings.
From Stdlib Require Import ZArith Lia.
From S2P Require Import Prelude Effects Rtc Net Timed.

(** ** Configuration *)

Record wf_config (c : config) : Prop := {
  wf_server : hostname_valid (server c) = true; wf_retries : (1 <= retries c <= 5)%nat;
  wf_timeout : 100 <= timeout_ms c <= 30000; wf_interval : 60 <= sync_interval c <= 86400
}.

Lemma host_scan_length s n label :
  host_scan s n label = true -> s = [] \/ n + Z.of_nat (length s) <= 95.
Proof.
  revert n label. induction s as [|c s IH]; intros n label; [auto|]. cbn [host_scan length]. intros Hs. right.
  destruct (negb (host_char c)); [done|]. destruct ((c =? 46) && _); [done|].
  destruct (Z.leb_spec 96 (n + 1)); cbn [orb] in Hs; [done|]. destruct (63 <? _); [done|].
  apply IH in Hs as [->|Hs]; cbn [length]; lia.
Qed.

Lemma hostname_length s : hostname_valid s = true -> (length s <= 95)%nat.
Proof. intros [->|Hs]%host_scan_length; cbn [length] in *; lia. Qed.

Lemma host_scan_chars s n label : host_scan s n label = true -> Forall (fun c => host_char c = true) s.
Proof.
  revert n label. induction s as [|c s IH]; intros n label; cbn [host_scan]; [constructor|]. intros Hs.
  destruct (host_char c) eqn:Hc; cbn [negb] in Hs; [|done]. destruct (_ && _); [done|]. destruct (_ || _); [done|].
  constructor; [done|]. by eapply IH.
Qed.

Lemma set_text_host s : hostname_valid s = true -> set_text s 96 = s.
Proof. intros Hs%hostname_length. unfold set_text. apply take_ge. lia. Qed.

Lemma in_range_spec lo hi o n : in_range lo hi o = Some n -> lo <= n <= hi.
Proof. unfold in_range. destruct o as [x|]; [|done]. destruct (_ && _) eqn:E; [|done]. intros [= <-]. breflect. lia. Qed.

Lemma apply_setting_wf key value c : wf_config c -> wf_config (apply_setting key value c).
Proof.
  intros []. unfold apply_setting. repeat case_match; try (by constructor); constructor;
    cbn [server retries timeout_ms sync_interval set_server set_enabled]; try done;
    try (match goal with Hr : in_range _ _ _ = Some _ |- _ => apply in_range_spec in Hr end; lia).
  by rewrite set_text_host.
Qed.

Lemma scan_to_length stop d : (length (snd (scan_to stop d)) <= length d)%nat.
Proof.
  induction d as [|c d IH]; cbn [scan_to]; [done|]. destruct (stop c); [done|].
  destruct (scan_to stop d) as [a b]. cbn [snd length] in *. lia.
Qed.

Lemma next_line_length d : d <> [] -> (length (next_line d) < length d)%nat.
Proof.
  intros Hd. unfold next_line. rewrite length_drop. pose proof (scan_to_length is_newline d).
  destruct d; [done|]. cbn [length] in *. lia.
Qed.

(** Parsing ends, whatever the file holds, and keeps the settings in their limits. *)
Lemma config_lines_wf fuel d c :
  (length d < fuel)%nat -> wf_config c -> exists c', config_lines fuel d c = Ok c' /\ wf_config c'.
Proof.
  revert d c. induction fuel as [|fuel IH]; intros d c Hf Hc; [lia|]. cbn [config_lines].
  pose proof (scan_to_length (fun x => negb (is_blank x)) d) as Hl.
  destruct (snd (scan_to _ d)) as [|x d1]; [by exists c|]. set (d2 := x :: d1) in *.
  assert (Hd2 : d2 <> []) by done.
  pose proof (next_line_length d2 Hd2). destruct (x =? 35); [apply IH; [lia|done]|].
  pose proof (scan_to_length (fun y => (y =? 61) || (y =? 10)) d2) as Hk.
  destruct (scan_to _ d2) as [key rest]. cbn [snd] in Hk.
  destruct rest as [|y rest]; [apply IH; [cbn [length] in *; lia|done]|].
  destruct (y =? 61).
  - pose proof (scan_to_length (fun z => (z =? 13) || (z =? 10)) rest) as Hv. destruct (scan_to _ rest) as [value rest2].
    cbn [snd length] in *. apply IH; [lia|by apply apply_setting_wf].
  - assert (Hn : y :: rest <> []) by done. pose proof (next_line_length _ Hn). apply IH; [lia|done].
Qed.

Lemma parse_config_wf d c : wf_config c -> exists c', parse_config d c = Ok c' /\ wf_config c'.
Proof. apply config_lines_wf. lia. Qed.

(** ** What is saved is read back *)

Lemma scan_to_app stop a b :
  Forall (fun c => stop c = false) a -> (match b with [] => true | x :: _ => stop x end) = true ->
  scan_to stop (a ++ b) = (a, b).
Proof.
  intros Ha Hb. induction Ha as [|c a Hc _ IH]; cbn [scan_to app].
  - destruct b as [|x b]; [done|]. cbn [scan_to]. by rewrite Hb.
  - by rewrite Hc, IH.
Qed.

Lemma host_char_plain c : host_char c = true -> (c =? 13) || (c =? 10) = false.
Proof. unfold host_char. intros Hc. apply orb_false_iff. rewrite !Z.eqb_neq. split; intros ->; done. Qed.

Lemma host_cstring h : Forall (fun c => host_char c = true) h -> cstring h = h.
Proof.
  induction 1 as [|c h Hc _ IH]; cbn [cstring]; [done|]. rewrite IH. destruct (Z.eqb_spec c 0) as [->|]; [done|done].
Qed.

(** One assignment followed by a newline. *)
Lemma config_line fuel key value rest c :
  Forall (fun x => (x =? 61) || (x =? 10) = false) key ->
  (match key with x :: _ => negb (is_blank x) && negb (x =? 35) | [] => false end) = true ->
  Forall (fun x => (x =? 13) || (x =? 10) = false) value ->
  config_lines (S fuel) (key ++ 61 :: value ++ 10 :: rest) c = config_lines fuel (10 :: rest) (apply_setting key value c).
Proof.
  intros Hk Hb Hv. cbn [config_lines]. destruct key as [|k key]; [done|]. apply andb_prop in Hb as [Hb Hh%negb_true_iff].
  assert (Hs : snd (scan_to (fun x => negb (is_blank x)) ((k :: key) ++ 61 :: value ++ 10 :: rest)) = (k :: key) ++ 61 :: value ++ 10 :: rest)
    by (cbn [scan_to app]; by rewrite Hb).
  rewrite Hs. cbn [app]. rewrite Hh, app_comm_cons, (scan_to_app _ (k :: key)) by done.
  rewrite Z.eqb_refl, (scan_to_app _ value) by done. done.
Qed.

Lemma config_roundtrip (c c0 : config) :
  hostname_valid (server c) = true -> exists b, config_text c = Ok b /\ (length b <= 117)%nat /\
    parse_config b c0 = Ok (set_enabled (enabled c) (set_server (server c) c0)).
Proof.
  intros Hh. pose proof (hostname_length _ Hh) as Hl. pose proof (host_scan_chars _ _ _ Hh) as Hchars.
  set (e := if enabled c then text "true" else text "false").
  set (b := text "server" ++ 61 :: server c ++ 10 :: text "enabled" ++ 61 :: e ++ [10]).
  assert (Hb : text "server=" ++ server c ++ [10] ++ text "enabled=" ++ e ++ [10] = b) by reflexivity.
  assert (Hlb : (length b <= 117)%nat).
  { rewrite <- Hb, !length_app. assert (length e <= 5)%nat by (unfold e; destruct (enabled c); cbn; lia). cbn. lia. }
  exists b. split; [|split; [done|]].
  { unfold config_text. fold e. rewrite Hb. by rewrite (proj2 (Nat.leb_le _ _)) by lia. }
  unfold parse_config. assert (exists k, S (length b) = S (S (S k)) /\ (2 <= k)%nat) as (k&->&Hk).
  { exists (length b - 2)%nat. rewrite <- Hb, !length_app. cbn. lia. }
  unfold b. rewrite config_line; [|by repeat constructor|done|].
  2:{ eapply Forall_impl; [exact Hchars|]. intros x. apply host_char_plain. }
  assert (Hskip : forall r c', config_lines (S (S k)) (10 :: text "enabled" ++ r) c' = config_lines (S (S k)) (text "enabled" ++ r) c') by done.
  rewrite Hskip, config_line; [|by repeat constructor|done|unfold e; destruct (enabled c); by repeat constructor].
  cbn [config_lines]. f_equal. unfold apply_setting at 2. rewrite bool_decide_true by done.
  rewrite (proj2 (Nat.ltb_lt _ _)) by lia. cbn [andb]. rewrite host_cstring, Hh by done.
  unfold apply_setting. rewrite bool_decide_false by done. cbn [andb]. rewrite bool_decide_true by done.
  f_equal. unfold e. by destruct (enabled c).
Qed.

(** ** NTP arithmetic *)

Lemma fixed_delta_quot a b : fixed_delta_ns a b = Z.quot (s64 (u64 (a - b)) * NS_SECOND) 4294967296.
Proof.
  unfold fixed_delta_ns. set (d := s64 _). pose proof (Z.quot_rem d 4294967296 ltac:(lia)) as Hq.
  replace (d * NS_SECOND) with (Z.rem d 4294967296 * NS_SECOND + Z.quot d 4294967296 * NS_SECOND * 4294967296)
    by (rewrite Hq at 3; lia).
  rewrite Z.quot_add; [lia|done|].
  replace (Z.rem d 4294967296 * NS_SECOND + Z.quot d 4294967296 * NS_SECOND * 4294967296) with (d * NS_SECOND) by (rewrite Hq at 1; lia).
  replace (d * NS_SECOND * (Z.rem d 4294967296 * NS_SECOND)) with (Z.rem d 4294967296 * d * (NS_SECOND * NS_SECOND)) by lia.
  apply Z.mul_nonneg_nonneg; [apply Z.rem_sign_mul|]; unfold NS_SECOND; lia.
Qed.

Lemma s64_u64 x : - 2 ^ 63 <= x < 2 ^ 63 -> s64 (u64 x) = x.
Proof. intros Hx. unfold s64, u64. rewrite Zplus_mod_idemp_l, Z.mod_small; lia. Qed.

Lemma s64_u64_sub a b x : - 2 ^ 63 <= x < 2 ^ 63 -> u64 a = u64 (b + x) -> s64 (u64 (a - b)) = x.
Proof.
  intros Hx Hab. replace (u64 (a - b)) with (u64 x); [by apply s64_u64|]. unfold u64 in *.
  rewrite <- (Zminus_mod_idemp_l a b), Hab, Zminus_mod_idemp_l. f_equal. lia.
Qed.

Lemma quot_error x k : 0 < k -> - k < k * Z.quot x k - x < k.
Proof.
  intros Hk. pose proof (Z.quot_rem x k ltac:(lia)) as Hq. pose proof (Z.rem_bound_abs x k ltac:(lia)) as Hr.
  rewrite (Z.abs_eq k) in Hr by lia. lia.
Qed.

(** Times in units of 2^-32 seconds: the request is sent at [t1] by the local
    clock, travels [d1], the server, whose clock is [theta] ahead, holds it for
    [p], and the answer travels [d2]. *)
Record exchange (t1 t2 t3 t4 d1 p d2 theta : Z) : Prop := {
  x_bounds : 0 <= d1 /\ 0 <= p /\ 0 <= d2 /\ d1 + p + d2 < 2 ^ 61 /\ - 2 ^ 61 < theta < 2 ^ 61;
  x_t2 : u64 t2 = u64 (t1 + (d1 + theta)); x_t3 : u64 t3 = u64 (t2 + p); x_t4 : u64 t4 = u64 (t3 + (d2 - theta))
}.

Lemma u64_add_cong a b x : u64 a = u64 b -> u64 (a + x) = u64 (b + x).
Proof. unfold u64. intros Hab. by rewrite <- Zplus_mod_idemp_l, Hab, Zplus_mod_idemp_l. Qed.

Lemma ntp_offset_accurate t1 t2 t3 t4 d1 p d2 theta :
  exchange t1 t2 t3 t4 d1 p d2 theta ->
  Z.abs (2 ^ 33 * ntp_offset t1 t2 t3 t4 - NS_SECOND * (2 * theta + d1 - d2)) < 2 ^ 34 /\
  Z.abs (2 ^ 32 * ntp_delay t1 t2 t3 t4 - NS_SECOND * (d1 + d2)) < 2 ^ 33.
Proof.
  intros [Hb H2 H3 H4].
  assert (E21 : s64 (u64 (t2 - t1)) = d1 + theta) by (apply s64_u64_sub; [lia|done]).
  assert (E32 : s64 (u64 (t3 - t2)) = p) by (apply s64_u64_sub; [lia|done]).
  assert (E34 : s64 (u64 (t3 - t4)) = theta - d2).
  { apply s64_u64_sub; [lia|]. rewrite (u64_add_cong _ _ (theta - d2) H4). f_equal. lia. }
  assert (E41 : s64 (u64 (t4 - t1)) = d1 + p + d2).
  { apply s64_u64_sub; [lia|]. rewrite H4, (u64_add_cong _ _ (d2 - theta) H3).
    replace (t2 + p + (d2 - theta)) with (t2 + (p + d2 - theta)) by lia. rewrite (u64_add_cong _ _ (p + d2 - theta) H2).
    f_equal. lia. }
  unfold ntp_offset, ntp_delay. rewrite !fixed_delta_quot, E21, E32, E34, E41.
  pose proof (quot_error ((d1 + theta) * NS_SECOND) 4294967296 ltac:(lia)).
  pose proof (quot_error ((theta - d2) * NS_SECOND) 4294967296 ltac:(lia)).
  pose proof (quot_error (p * NS_SECOND) 4294967296 ltac:(lia)).
  pose proof (quot_error ((d1 + p + d2) * NS_SECOND) 4294967296 ltac:(lia)).
  set (a := Z.quot ((d1 + theta) * NS_SECOND) 4294967296) in *. set (b := Z.quot ((theta - d2) * NS_SECOND) 4294967296) in *.
  pose proof (quot_error (a + b) 2 ltac:(lia)). split; lia.
Qed.

(** ** What the service does to its state *)

Section service.

Context {E : Type} `{TimeEnv E}.

#[local] Abbreviation T := (M (timed E)).

(** [m] changes nothing but the environment. *)
Definition reads_only {A} (m : T A) : Prop := forall s a s', m s = Ok (a, s') -> s' = set_env (env s') s.

Lemma monotonic_reads : reads_only timed_monotonic_ns.
Proof.
  intros s a s'. unfold timed_monotonic_ns, in_env, lift_t, bind, get. destruct (rdtsc (env s)) as [t e].
  destruct (elapsed_ns _ _); cbn; try done. by intros [= _ <-].
Qed.

Lemma realtime_reads : reads_only timed_get_realtime_ns.
Proof.
  intros s a s'. unfold timed_get_realtime_ns, bind at 1, get. destruct (negb _); [intros [= _ <-]; by destruct s|].
  unfold bind at 1. destruct (timed_monotonic_ns s) as [[m s1]| |] eqn:Em; try done. apply monotonic_reads in Em.
  unfold lift_t, bind. destruct (int64 _); cbn; try done. by intros [= _ <-].
Qed.

(** Loading the configuration returns, and changes nothing else. *)
Lemma load_config_wf s :
  wf_config (cfg s) ->
  exists c, load_config s = Ok (tt, Timed (env s) (timed_running s) c (tbase s) (sync s) (twall s)) /\ wf_config c.
Proof.
  intros Hc. unfold load_config, bind at 1, get. destruct (configured (cfg s)); [exists (cfg s); split; [by destruct s|done]|].
  set (c0 := Config true (enabled (cfg s)) (timeout_ms (cfg s)) (retries (cfg s)) (sync_interval (cfg s)) (server (cfg s))).
  assert (Hc0 : wf_config c0) by (by destruct Hc). unfold bind at 1, set_cfg, modify. cbn [cfg env timed_running]. fold c0.
  unfold bind at 1. cbn [cfg env]. unfold bind at 1, lift_t at 1.
  assert (exists c1, (match fs_find (text "etc/ntp.conf") (env s) with Some d => parse_config d c0 | None => Ok c0 end) = Ok c1
    /\ wf_config c1) as (c1&->&Hc1).
  { destruct (fs_find _ _) as [d|]; [by apply parse_config_wf|by exists c0]. }
  cbn [obind]. unfold bind at 1, lift_t.
  assert (exists c2, (if varfs_mounted (env s) then
                      match varfs_load (text "/var/lib/os64/ntp.conf") 512 (env s) with
                      | Some d => parse_config d c1 | None => Ok c1
                      end else Ok c1) = Ok c2 /\ wf_config c2) as (c2&->&Hc2).
  { destruct (varfs_mounted _); [|by exists c1]. destruct (varfs_load _ _ _) as [d|]; [by apply parse_config_wf|by exists c1]. }
  by exists c2.
Qed.

(** [m] keeps the settings within their limits. *)
Definition keeps {A} (m : T A) : Prop := forall s a s', wf_config (cfg s) -> m s = Ok (a, s') -> wf_config (cfg s').

Lemma keeps_ret {A} (a : A) : keeps (ret a).
Proof. by intros s b s' Hs [= _ <-]. Qed.

Lemma keeps_bind {A B} (m : T A) (f : A -> T B) : keeps m -> (forall a, keeps (f a)) -> keeps (bind m f).
Proof.
  intros Hm Hf s b s' Hs. unfold bind. destruct (m s) as [[a s1]| |] eqn:E1; try done. intros E2.
  eapply Hf; [|exact E2]. by eapply Hm.
Qed.

Lemma keeps_get {A} (f : timed E -> T A) : (forall s, wf_config (cfg s) -> keeps (f s)) -> keeps (let! s := get in f s).
Proof. intros Hf s a s' Hs. exact (Hf s Hs s a s' Hs). Qed.

Lemma keeps_reads {A} (m : T A) : reads_only m -> keeps m.
Proof. intros Hm s a s' Hs E1%Hm. by rewrite E1. Qed.

Lemma keeps_lift {A} (o : outcome A) : keeps (lift_t o).
Proof. intros s a s' Hs. unfold lift_t. destruct o; cbn; try done. by intros [= _ <-]. Qed.

Lemma keeps_env {A} (f : E -> A * E) : keeps (in_env f).
Proof. intros s a s' Hs. unfold in_env. destruct (f (env s)) as [x e]. by intros [= _ <-]. Qed.

Lemma keeps_sync f : keeps (set_sync f).
Proof. by intros s a s' Hs [= _ <-]. Qed.

Lemma keeps_wall f : keeps (set_wall f).
Proof. by intros s a s' Hs [= _ <-]. Qed.

Lemma keeps_running b : keeps (set_running b).
Proof. by intros s a s' Hs [= _ <-]. Qed.

Lemma keeps_load : keeps load_config.
Proof. intros s a s' Hs. destruct (load_config_wf s Hs) as (c&->&Hc). by intros [= _ <-]. Qed.

Lemma keeps_when b (m : T unit) : keeps m -> keeps (when b m).
Proof. destruct b; [done|]. intros _. apply keeps_ret. Qed.

Lemma keeps_failed err : keeps (sync_failed err).
Proof. apply keeps_bind; [apply keeps_sync|intros _; apply keeps_ret]. Qed.

Lemma keeps_query n name t1 spins last : forall k : Z * option network_ntp_result_t -> T Z, (forall r, keeps (k r)) ->
  keeps (let! r := (fun s => do '(r, e) <- query_retry n name t1 spins last (env s); Ok (r, set_env e s)) in k r).
Proof.
  intros k Hk. apply keeps_bind; [|done]. intros s a s' Hs. destruct (query_retry _ _ _ _ _ _) as [[r e]| |]; cbn; try done.
  by intros [= _ <-].
Qed.

Create HintDb keeps.
#[local] Hint Resolve keeps_ret keeps_sync keeps_wall keeps_running keeps_load keeps_when keeps_failed keeps_lift keeps_env
  : keeps.
#[local] Hint Resolve monotonic_reads realtime_reads : keeps.
#[local] Hint Extern 1 (keeps timed_monotonic_ns) => apply keeps_reads, monotonic_reads : keeps.
#[local] Hint Extern 1 (keeps timed_get_realtime_ns) => apply keeps_reads, realtime_reads : keeps.

(** One statement of a program. *)
Ltac keep :=
  match goal with
  | |- keeps (let! s := get in _) => apply keeps_get; intros ? ?
  | |- keeps (bind (when _ _) _) => apply keeps_bind; [apply keeps_when|intros ?]
  | |- keeps (bind _ _) => apply keeps_bind; [solve [auto with keeps nocore]|intros ?]
  | |- keeps (when _ _) => apply keeps_when
  | |- keeps (if ?b then _ else _) => destruct b
  | |- keeps (match ?o with Some _ => _ | None => _ end) => destruct o
  | |- keeps _ => solve [auto with keeps nocore]
  end.

Lemma keeps_timed_sync : keeps timed_sync.
Proof.
  unfold timed_sync. apply keeps_bind; [apply keeps_load|intros _]. apply keeps_get. intros s Hs.
  destruct (_ || _); [apply keeps_failed|]. apply keeps_bind; [auto with keeps|]. intros [t1|]; [|apply keeps_ret].
  apply keeps_get. intros s1 Hs1. apply keeps_bind.
  { intros s2 a s3 Hs2. destruct (query_retry _ _ _ _ _ _) as [[r e]| |]; cbn; try done. by intros [= _ <-]. }
  intros [result reply]. destruct (negb _); [repeat keep|]. destruct reply as [reply|]; [|by intros ? ? ? ?]. repeat keep.
Qed.
#[local] Hint Resolve keeps_timed_sync : keeps.

Lemma keeps_timed_poll : keeps timed_poll.
Proof. unfold timed_poll. assert (keeps refresh_clock) by (unfold refresh_clock; repeat keep). repeat keep. Qed.
#[local] Hint Resolve keeps_timed_poll : keeps.

Lemma keeps_set_server h : hostname_valid h = true -> keeps (set_cfg (set_server h)).
Proof.
  intros Hh s a s' [] [= _ <-]. constructor; cbn [cfg server set_server retries timeout_ms sync_interval]; try done.
  by rewrite set_text_host.
Qed.

Lemma keeps_set_enabled b : keeps (set_cfg (set_enabled b)).
Proof. intros s a s' [] [= _ <-]. by constructor. Qed.
#[local] Hint Resolve keeps_set_enabled : keeps.

Lemma keeps_save : keeps save_config.
Proof. unfold save_config. repeat keep. Qed.
#[local] Hint Resolve keeps_save : keeps.

(** ** A synchronisation *)

#[local] Abbreviation correction s := (realtime_correction_ns (sync s)).

Lemma monotonic_returns s : tsc_hz (tbase s) <> 0 -> exists m e, timed_monotonic_ns s = Ok (m, set_env e s).
Proof.
  intros Hz. unfold timed_monotonic_ns, in_env, lift_t, bind, get. destruct (rdtsc (env s)) as [t e]. cbn [tbase set_env].
  unfold elapsed_ns. rewrite (proj2 (Z.eqb_neq _ _)) by done. cbn [obind]. by eexists _, e.
Qed.

(** A program that leaves the correction alone. *)
Definition same_correction {A} (m : T A) : Prop := forall s a s', m s = Ok (a, s') -> correction s' = correction s.

Lemma reads_same {A} (m : T A) : reads_only m -> same_correction m.
Proof. intros Hm s a s' E1%Hm. by rewrite E1. Qed.

Lemma failed_same err (s : timed E) a (s' : timed E) : sync_failed err s = Ok (a, s') -> a = err /\ correction s' = correction s.
Proof. by intros [= <- <-]. Qed.

(** Whatever does not end in success leaves the correction as it was. *)
Lemma sync_failure_keeps s r s' :
  wf_config (cfg s) -> timed_sync s = Ok (r, s') -> r <> 1 -> correction s' = correction s.
Proof.
  intros Hs Hrun Hr. unfold timed_sync in Hrun. destruct (load_config_wf s Hs) as (c&Hl&_).
  rewrite (bind_ok _ _ _ _ _ Hl) in Hrun. set (s1 := Timed _ _ c _ _ _) in *. change (correction s) with (correction s1).
  clearbody s1. clear Hl Hs. unfold bind at 1, get in Hrun. destruct (_ || _); [by apply failed_same in Hrun as [_ ?]|].
  unfold bind at 1 in Hrun. destruct (timed_get_realtime_ns s1) as [[t1 s2]| |] eqn:E1; try done.
  apply (reads_same _ realtime_reads) in E1. rewrite <- E1. clear E1. destruct t1 as [t1|]; [|by injection Hrun as <- <-].
  unfold bind at 1, get in Hrun. unfold bind at 1 in Hrun.
  destruct (query_retry _ _ _ _ _ (env s2)) as [[[result reply] e]| |]; cbn [obind] in Hrun; try done.
  change (correction s2) with (correction (set_env e s2)). set (s3 := set_env e s2) in *. clearbody s3. clear s2.
  destruct (negb _).
  { unfold bind at 1 in Hrun. destruct (sync_failed result s3) as [[x s4]| |] eqn:Ef; try done.
    apply failed_same in Ef as [_ Ef]. rewrite <- Ef. unfold bind at 1 in Hrun.
    destruct (timed_monotonic_ns s4) as [[m s5]| |] eqn:Em; try done. apply (reads_same _ monotonic_reads) in Em.
    rewrite <- Em. by injection Hrun as <- <-. }
  destruct reply as [reply|]; [|done]. unfold bind at 1 in Hrun.
  destruct (timed_get_realtime_ns s3) as [[t4 s4]| |] eqn:E4; try done. apply (reads_same _ realtime_reads) in E4.
  rewrite <- E4. clear E4. destruct t4 as [t4|]; [|by apply failed_same in Hrun as [_ ?]].
  unfold bind at 1, set_sync at 1, modify in Hrun. destruct (_ || _); [by apply failed_same in Hrun as [_ ?]|].
  unfold bind at 1, get in Hrun. unfold bind at 1, lift_t at 1 in Hrun. destruct (int64 _); cbn [obind] in Hrun; try done.
  unfold bind at 1, lift_t at 1 in Hrun. destruct (int64 _); cbn [obind] in Hrun; try done.
  unfold bind at 1, set_sync at 1, modify in Hrun. unfold bind at 1 in Hrun.
  destruct (timed_monotonic_ns _) as [[m s5]| |]; try done. injection Hrun as <- _. done.
Qed.

(** A complete exchange with an answer in time. *)
Lemma sync_success s s1 s2 s3 e t1ns t4ns reply :
  let t1 := ntp_from_ns t1ns in let t4 := ntp_from_ns t4ns in
  let offset := ntp_offset t1 (receive_timestamp reply) (transmit_timestamp reply) t4 in
  let delay := ntp_delay t1 (receive_timestamp reply) (transmit_timestamp reply) t4 in
  load_config s = Ok (tt, s1) -> timed_running s1 = true -> network_up (env s1) = true -> tsc_hz (tbase s1) <> 0 ->
  timed_get_realtime_ns s1 = Ok (Some t1ns, s2) ->
  query_retry (retries (cfg s2)) (server (cfg s2)) t1 (u32 (timeout_ms (cfg s2) * 1400)) NETWORK_NTP_TIMEOUT (env s2)
    = Ok ((NETWORK_NTP_OK, Some reply), e) ->
  timed_get_realtime_ns (set_env e s2) = Ok (Some t4ns, s3) ->
  0 <= delay <= 30000000000 ->
  - 2 ^ 63 <= correction s1 + offset < 2 ^ 63 -> - 2 ^ 63 <= t4ns + offset < 2 ^ 63 ->
  exists s', timed_sync s = Ok (1, s') /\ correction s' = correction s1 + offset /\
    synchronized (sync s') = true /\ last_error (sync s') = 0 /\ last_offset_ns (sync s') = offset /\ last_delay_ns (sync s') = delay.
Proof.
  intros t1 t4 offset delay Hl Hrun Hnet Hz H1 Hq H4 Hd Hc Ha. unfold timed_sync.
  rewrite (bind_ok _ _ _ _ _ Hl). unfold bind at 1, get. rewrite Hrun, Hnet. cbn [negb orb].
  rewrite (bind_ok _ _ _ _ _ H1). unfold bind at 1, get. unfold bind at 1. fold t1. rewrite Hq. cbn [obind].
  rewrite Z.eqb_refl. cbn [negb]. rewrite (bind_ok _ _ _ _ _ H4). fold t4. cbv zeta. fold offset delay.
  apply realtime_reads in H1 as E1. apply realtime_reads in H4 as E4.
  assert (Hs3 : sync s3 = sync s1 /\ tbase s3 = tbase s1) by (rewrite E4; cbn; rewrite E1; done). destruct Hs3 as [Hs3 Hb3].
  unfold bind at 1, set_sync at 1, modify. rewrite (proj2 (Z.ltb_ge _ _)), (proj2 (Z.ltb_ge _ _)) by lia. cbn [orb].
  unfold bind at 1, get. unfold bind at 1, lift_t at 1, int64. cbn [sync realtime_correction_ns]. rewrite Hs3.
  rewrite (proj2 (Z.leb_le _ _)), (proj2 (Z.ltb_lt _ _)) by lia. cbn [andb obind].
  unfold bind at 1, lift_t at 1. rewrite (proj2 (Z.leb_le _ _)), (proj2 (Z.ltb_lt _ _)) by lia. cbn [andb obind].
  unfold bind at 1, set_sync at 1, modify. cbn [env timed_running cfg tbase sync twall].
  match goal with |- context [bind timed_monotonic_ns _ ?x] => destruct (monotonic_returns x) as (m&e'&Hm) end.
  { cbn [tbase]. by rewrite Hb3. }
  rewrite (bind_ok _ _ _ _ _ Hm). eexists. split; [reflexivity|]. done.
Qed.

(** Synchronising the clock.  When the server answers, its clock is [theta]
    ahead and the packets travel [d1] and [d2], the correction grows by an offset
    that is [theta] but for half the difference of the travel times and rounding
    below two nanoseconds, so by at most half the round trip; the delay reported
    is the round trip without the server's time.  Any other result of the call
    leaves the correction as it was. *)
Theorem timed_sync_corrects (s s1 s2 s3 : timed E) (e : E) (t1ns t4ns : Z) (reply : network_ntp_result_t) (d1 p d2 theta : Z) :
  let t1 := ntp_from_ns t1ns in let t4 := ntp_from_ns t4ns in
  let offset := ntp_offset t1 (receive_timestamp reply) (transmit_timestamp reply) t4 in
  let delay := ntp_delay t1 (receive_timestamp reply) (transmit_timestamp reply) t4 in
  wf_config (cfg s) -> load_config s = Ok (tt, s1) -> timed_running s1 = true -> network_up (env s1) = true ->
  tsc_hz (tbase s1) <> 0 -> timed_get_realtime_ns s1 = Ok (Some t1ns, s2) ->
  query_retry (retries (cfg s2)) (server (cfg s2)) t1 (u32 (timeout_ms (cfg s2) * 1400)) NETWORK_NTP_TIMEOUT (env s2)
    = Ok ((NETWORK_NTP_OK, Some reply), e) ->
  timed_get_realtime_ns (set_env e s2) = Ok (Some t4ns, s3) ->
  exchange t1 (receive_timestamp reply) (transmit_timestamp reply) t4 d1 p d2 theta ->
  0 <= delay <= 30000000000 ->
  - 2 ^ 63 <= realtime_correction_ns (sync s1) + offset < 2 ^ 63 -> - 2 ^ 63 <= t4ns + offset < 2 ^ 63 ->
  (exists s', timed_sync s = Ok (1, s') /\ synchronized (sync s') = true /\
     realtime_correction_ns (sync s') = realtime_correction_ns (sync s1) + offset /\
     Z.abs (2 ^ 33 * offset - NS_SECOND * (2 * theta + d1 - d2)) < 2 ^ 34 /\
     Z.abs (2 ^ 32 * last_delay_ns (sync s') - NS_SECOND * (d1 + d2)) < 2 ^ 33) /\
  (forall s0 r s', wf_config (cfg s0) -> timed_sync s0 = Ok (r, s') -> r <> 1 ->
     realtime_correction_ns (sync s') = realtime_correction_ns (sync s0)).
Proof.
  intros t1 t4 offset delay Hwf Hl Hrun Hnet Hz H1 Hq H4 Hx Hd Hc Ha. split; [|apply sync_failure_keeps].
  destruct (sync_success s s1 s2 s3 e t1ns t4ns reply) as (s'&E1&Hcorr&Hsy&_&_&Hdel); try done.
  exists s'. destruct (ntp_offset_accurate _ _ _ _ _ _ _ _ Hx) as [Ho Hdl]. rewrite Hdel. done.
Qed.

(** C23. The settings are always within their limits.  Whatever the two
    configuration files hold, reading them ends and leaves a valid host name of
    at most 95 characters, 1 to 5 retries, a timeout of 0.1 to 30 seconds and an
    interval of a minute to a day; every operation of the service keeps them so;
    and what is saved fits its buffer and is read back. *)
Theorem timed_settings_valid (d : list Z) (c c0 : config) (h : list Z) (b : bool) :
  wf_config c ->
  (exists c', parse_config d c = Ok c' /\ wf_config c') /\
  (exists f, config_text c = Ok f /\ (length f <= 117)%nat /\
     parse_config f c0 = Ok (set_enabled (enabled c) (set_server (server c) c0))) /\
  keeps timed_init /\ keeps timed_start /\ keeps timed_stop /\ keeps timed_sync /\ keeps timed_poll /\ keeps timed_now /\
  keeps (timed_set_server h) /\ keeps (timed_set_enabled b).
Proof.
  intros Hc. split; [by apply parse_config_wf|]. split; [by apply config_roundtrip; destruct Hc|]. split_and!.
  - intros s a s' Hs. unfold timed_init. destruct (rdtsc (env s)) as [t e], (read_rtc e) as [[ok raw] e'].
    destruct ok, raw as [x|]; try (intros [= _ <-]; by destruct Hs).
    destruct (to_epoch x); cbn [obind]; try done. intros [= _ <-]. by destruct Hs.
  - unfold timed_start. repeat keep.
  - apply keeps_running.
  - apply keeps_timed_sync.
  - apply keeps_timed_poll.
  - unfold timed_now. repeat keep.
  - unfold timed_set_server. keep. destruct (hostname_valid h) eqn:Hh; cbn [negb]; [|repeat keep].
    pose proof (keeps_set_server h Hh). repeat keep.
  - unfold timed_set_enabled. repeat keep.
Qed.

End service.

(** ** Witnesses: a counter at 1 GHz that is read every 10 ms, and a server whose
    clock is five seconds ahead *)

Definition lab_reply : network_ntp_result_t :=
  NtpResult 0x01020304 2 (ntp_from_ns 1700000005012000000) (ntp_from_ns 1700000005018000000).

Record lab := Lab { lab_tsc : Z }.

#[export] Instance lab_env : TimeEnv lab := {
  rdtsc e := (lab_tsc e + 10000000, Lab (lab_tsc e + 10000000));
  cpuid _ _ := 0;
  read_rtc e := (false, None, e);
  network_up _ := true;
  ntp_query _ _ _ e := Ok ((NETWORK_NTP_OK, Some lab_reply), e);
  fs_find _ _ := None;
  varfs_mounted _ := false;
  varfs_load _ _ _ := None;
  varfs_store _ _ e := (false, e);
  varfs_sync e := (false, e)
}.

Definition lab_config : config := Config true true 3000 3 3600 DEFAULT_SERVER.

Definition lab_state (tsc : Z) : timed lab :=
  Timed (Lab tsc) true lab_config (Base 0 1700000000000000000 1000000000) (Sync false 0 0 0 0 0 0 0 0 0)
    (Wall (RtcTime 2023 11 14 22 13 20) true 1 0).

Lemma lab_config_wf : wf_config lab_config.
Proof. constructor; cbn; [reflexivity|lia..]. Qed.

Lemma timed_sync_witness :
  exists s', timed_sync (lab_state 0) = Ok (1, s') /\ 4999999990 <= realtime_correction_ns (sync s') <= 5000000010.
Proof.
  pose (t1 := ntp_from_ns 1700000000010000000). pose (t4 := ntp_from_ns 1700000000020000000).
  pose (t2 := receive_timestamp lab_reply). pose (t3 := transmit_timestamp lab_reply). pose (theta := 5 * 2 ^ 32).
  destruct (timed_sync_corrects (lab_state 0) (lab_state 0) (lab_state 10000000) (lab_state 20000000) (Lab 10000000)
    1700000000010000000 1700000000020000000 lab_reply (t2 - t1 - theta) (t3 - t2) (t4 - t3 + theta) theta)
    as [(s'&Hrun&_&Hc&_) _].
  - apply lab_config_wf.
  - reflexivity.
  - reflexivity.
  - reflexivity.
  - cbn. lia.
  - vm_compute. reflexivity.
  - vm_compute. reflexivity.
  - vm_compute. reflexivity.
  - constructor; vm_compute; [repeat split; congruence|reflexivity..].
  - vm_compute. split; congruence.
  - vm_compute. split; congruence.
  - vm_compute. split; congruence.
  - exists s'. split; [exact Hrun|]. rewrite Hc. vm_compute. split; congruence.
Defined.

Lemma timed_settings_witness :
  exists c', parse_config (text "# NTP" ++ [10] ++ text "server=pool.ntp.org" ++ [10] ++ text "retries=9") lab_config = Ok c' /\
    wf_config c' /\ server c' = text "pool.ntp.org" /\ retries c' = 3%nat.
Proof.
  destruct (timed_settings_valid (text "# NTP" ++ [10] ++ text "server=pool.ntp.org" ++ [10] ++ text "retries=9") lab_config
    config0 [] true lab_config_wf) as [(c'&Hp&Hc) _].
  exists c'. split; [exact Hp|]. split; [exact Hc|]. vm_compute in Hp. injection Hp as <-. split; reflexivity.
Defined.
