(* ===== verification/Ps2.v ===== *)
(** * The PS/2 controller, keyboard and mouse (src/kernel/drivers/keyboard/ps2.c)

    The driver polls the controller's status and data ports.  Waits are bounded
    by [PS2_TIMEOUT] reads of the status; a store outside the three-byte mouse
    packet is [Undefined]. *)

From stdpp Require Import base numbers list.
From Stdlib Require Import ZArith Lia.
From S2P Require Import Prelude Effects Ports.

Definition PS2_DATA_PORT : Z := 0x60.
Definition PS2_STATUS_PORT : Z := 0x64.
Definition PS2_COMMAND_PORT : Z := 0x64.
Definition PS2_TIMEOUT : nat := Z.to_nat 100000.

Record ps2 (D : Type) := Ps2 {
  ps2_dev : D; controller_ok : bool; keyboard_ok : bool; mouse_ok : bool; mouse_packet : list Z; mouse_packet_size : nat
}.
Arguments Ps2 {D}. Arguments ps2_dev {D}. Arguments controller_ok {D}. Arguments keyboard_ok {D}. Arguments mouse_ok {D}.
Arguments mouse_packet {D}. Arguments mouse_packet_size {D}.

(** The static initial state. *)
Definition ps2_0 {D} (d : D) : ps2 D := Ps2 d false false false [0; 0; 0] 0.

Section driver.

Context {D : Type} `{Ports D}.

#[local] Abbreviation P := (M (ps2 D)).

Definition on_dev (d : D) (s : ps2 D) : ps2 D :=
  Ps2 d (controller_ok s) (keyboard_ok s) (mouse_ok s) (mouse_packet s) (mouse_packet_size s).
Definition port_in (port : Z) : P Z := fun s => let '(v, d) := inb port (ps2_dev s) in Ok (u8 v, on_dev d s).
Definition port_out (port v : Z) : P unit := fun s => Ok (tt, on_dev (outb port v (ps2_dev s)) s).

(** [if (!m) return 0; k] *)
Definition guard (m k : P bool) : P bool := let! ok := m in if ok then k else ret false.
(** [if (!m(&v)) return 0; k(v)] *)
Definition guard_read (m : P (option Z)) (k : Z -> P bool) : P bool :=
  let! v := m in match v with Some v => k v | None => ret false end.

(** Reads of the status until [ready] holds of it. *)
Fixpoint poll_status (n : nat) (ready : Z -> bool) : P bool :=
  match n with
  | O => ret false
  | S n => let! st := port_in PS2_STATUS_PORT in if ready st then ret true else poll_status n ready
  end.

Definition wait_input_empty : P bool := poll_status PS2_TIMEOUT (fun st => Z.land st 0x02 =? 0).
Definition wait_output_full : P bool := poll_status PS2_TIMEOUT (fun st => negb (Z.land st 0x01 =? 0)).

Definition write_command (value : Z) : P bool :=
  guard wait_input_empty (port_out PS2_COMMAND_PORT value ;; ret true).
Definition write_data (value : Z) : P bool :=
  guard wait_input_empty (port_out PS2_DATA_PORT value ;; ret true).
Definition read_wait : P (option Z) :=
  let! ok := wait_output_full in
  if ok then (let! v := port_in PS2_DATA_PORT in ret (Some v)) else ret None.

Definition set_flags (c k m : bool) : P unit :=
  modify (fun s => Ps2 (ps2_dev s) c k m (mouse_packet s) (mouse_packet_size s)).

(** [for (n = 0; n < 32 && output full; n++) read]. *)
Fixpoint flush (n : nat) : P unit :=
  match n with
  | O => ret tt
  | S n =>
    let! st := port_in PS2_STATUS_PORT in
    if Z.land st 1 =? 0 then ret tt else port_in PS2_DATA_PORT ;; flush n
  end.

Definition ps2_controller_init : P bool :=
  set_flags false false false ;;
  guard (write_command 0xad) (guard (write_command 0xa7) (
  flush 32 ;;
  guard (write_command 0x20) (guard_read read_wait (fun config =>
  let config := u8 (Z.land (Z.lor (Z.lor config 0x40) 0x20) (Z.lnot (Z.lor (Z.lor 0x01 0x02) 0x10))) in
  guard (write_command 0x60) (guard (write_data config) (
  guard (write_command 0xae) (
  set_flags true false false ;; ret true))))))).

(** A command is repeated while the device asks for it, three times in all. *)
Fixpoint command_retry (n : nat) (send : P bool) : P bool :=
  match n with
  | O => ret false
  | S n =>
    guard send (guard_read read_wait (fun response =>
    if response =? 0xfa then ret true else if negb (response =? 0xfe) then ret false else command_retry n send))
  end.

Definition ps2_keyboard_command (value : Z) : P bool := command_retry 3 (write_data value).
Definition mouse_command (value : Z) : P bool := command_retry 3 (guard (write_command 0xd4) (write_data value)).

Definition ps2_keyboard_initialize : P bool :=
  let! s := get in
  if negb (controller_ok s) then ret false else
  guard (write_data 0xff) (guard_read read_wait (fun response =>
  if negb (response =? 0xfa) then ret false else
  guard_read read_wait (fun response =>
  if negb (response =? 0xaa) && negb (response =? 0x00) then ret false else
  guard (ps2_keyboard_command 0xf0) (guard (ps2_keyboard_command 0x02) (guard (ps2_keyboard_command 0xf4) (
  let! s := get in
  set_flags (controller_ok s) true (mouse_ok s) ;; ret true)))))).

Definition ps2_data_available : P bool :=
  let! status := port_in PS2_STATUS_PORT in
  let! s := get in
  ret (controller_ok s && negb (Z.land status 0x01 =? 0) && (Z.land status 0x20 =? 0)).

Definition ps2_read_data : P Z :=
  let! b := ps2_data_available in if b then port_in PS2_DATA_PORT else ret 0.

Definition set_mouse (ok : bool) (n : nat) : P unit :=
  modify (fun s => Ps2 (ps2_dev s) (controller_ok s) (keyboard_ok s) ok (mouse_packet s) n).

Definition ps2_mouse_initialize : P bool :=
  set_mouse false 0 ;;
  let! s := get in
  if negb (controller_ok s) then ret false else
  guard (write_command 0xa8) (
  guard (write_command 0x20) (guard_read read_wait (fun config =>
  let config := u8 (Z.land config (Z.lnot (Z.lor 0x02 0x20))) in
  guard (write_command 0x60) (guard (write_data config) (
  guard (mouse_command 0xff) (guard_read read_wait (fun reply =>
  if negb (reply =? 0xaa) then ret false else
  guard_read read_wait (fun _ =>
  guard (mouse_command 0xf6) (guard (mouse_command 0xf4) (
  set_mouse true 0 ;; ret true)))))))))).

Definition ps2_mouse_shutdown : P unit :=
  let! s := get in
  when (mouse_ok s) (mouse_command 0xf5 ;; ret tt) ;;
  write_command 0xa7 ;;
  set_mouse false 0.

(** What a complete packet reports: nothing when a movement overflowed. *)
Definition packet_event (b0 b1 b2 : Z) : option (Z * Z * Z) :=
  if negb (Z.land b0 0xc0 =? 0) then None else Some (s8 b1, - s8 b2, Z.land b0 7).

(** One byte of the mouse: the packet so far and what it reports. *)
Definition mouse_byte (value : Z) : P (option (Z * Z * Z)) :=
  let! s := get in
  if Nat.eqb (mouse_packet_size s) 0 && (Z.land value 0x08 =? 0) then ret None else
  if negb (Nat.ltb (mouse_packet_size s) 3) then undefined else
  let packet := <[mouse_packet_size s := value]> (mouse_packet s) in
  let size := (mouse_packet_size s + 1)%nat in
  modify (fun s => Ps2 (ps2_dev s) (controller_ok s) (keyboard_ok s) (mouse_ok s) packet size) ;;
  if negb (Nat.eqb size 3) then ret None else
  set_mouse (mouse_ok s) 0 ;;
  match packet with [b0; b1; b2] => ret (packet_event b0 b1 b2) | _ => undefined end.

(** Movement and buttons, when a packet is complete. *)
Definition ps2_mouse_poll : P (option (Z * Z * Z)) :=
  let! s := get in
  if negb (mouse_ok s) then ret None else
  let! status := port_in PS2_STATUS_PORT in
  if (Z.land status 0x01 =? 0) || (Z.land status 0x20 =? 0) then ret None else
  let! value := port_in PS2_DATA_PORT in
  mouse_byte value.

Definition ps2_controller_ready : P bool := let! s := get in ret (controller_ok s).
Definition ps2_keyboard_ready : P bool := let! s := get in ret (keyboard_ok s).
Definition ps2_mouse_ready : P bool := let! s := get in ret (mouse_ok s).

End driver.
