(* ===== verification/Ps2Theorems.v ===== *)
(** * The PS/2 mouse: packets from a stream of bytes *)

From stdpp Require Import base numbers list.
From Stdlib Require Import ZArith Lia.
From S2P Require Import Prelude Effects Ports Ps2.

(** A controller with bytes of the mouse waiting: the status says so, and the
    data port takes the first. *)
Class MouseWire (D : Type) `{Ports D} := {
  mbytes : D -> list Z;
  status_keeps d : mbytes (snd (inb PS2_STATUS_PORT d)) = mbytes d;
  status_full d : mbytes d <> [] ->
    Z.land (u8 (fst (inb PS2_STATUS_PORT d))) 0x01 <> 0 /\ Z.land (u8 (fst (inb PS2_STATUS_PORT d))) 0x20 <> 0;
  data_takes d b l : mbytes d = b :: l -> u8 (fst (inb PS2_DATA_PORT d)) = b /\ mbytes (snd (inb PS2_DATA_PORT d)) = l
}.

Record packet := Packet { p0 : Z; p1 : Z; p2 : Z }.
Definition bytes_of (p : packet) : list Z := [p0 p; p1 p; p2 p].
(** The first byte of a packet has bit 3 set. *)
Definition starts (p : packet) : Prop := Z.land (p0 p) 0x08 <> 0.
Definition report (p : packet) : option (Z * Z * Z) := packet_event (p0 p) (p1 p) (p2 p).

Section mouse.

Context {D : Type} `{Ports D}.

(** The packet buffer is never written outside. *)
Record packet_ok (s : ps2 D) : Prop := {
  ok_size : (mouse_packet_size s <= 2)%nat; ok_length : length (mouse_packet s) = 3%nat
}.

(** What a byte does to the packet. *)
Lemma mouse_byte_step s v :
  packet_ok s ->
  exists r s', mouse_byte v s = Ok (r, s') /\ packet_ok s' /\ ps2_dev s' = ps2_dev s /\ mouse_ok s' = mouse_ok s.
Proof.
  intros [Hn Hl]. unfold mouse_byte, bind at 1, get.
  destruct (_ && _); [by eexists None, s|]. rewrite (proj2 (Nat.ltb_lt _ _)) by lia. cbn [negb].
  unfold bind at 1, modify. destruct (Nat.eqb_spec (mouse_packet_size s + 1) 3) as [He|Hne]; cbn [negb].
  - unfold bind, set_mouse, modify. cbn [mouse_packet ps2_dev controller_ok keyboard_ok mouse_ok mouse_packet_size].
    destruct (mouse_packet s) as [|a [|b [|c [|? ?]]]]; try done. replace (mouse_packet_size s) with 2%nat by lia.
    cbn. eexists _, _. split; [done|]. split; [|done]. by constructor; cbn; [lia|].
  - eexists None, _. split; [done|]. split; [|done]. constructor; cbn; [lia|by rewrite length_insert].
Qed.

Lemma mouse_poll_step s :
  packet_ok s -> exists r s', ps2_mouse_poll s = Ok (r, s') /\ packet_ok s' /\ mouse_ok s' = mouse_ok s.
Proof.
  intros Hok. assert (Hdev : forall d, packet_ok (on_dev d s)) by (intros d; destruct Hok; by constructor).
  unfold ps2_mouse_poll, bind at 1, get. destruct (mouse_ok s) eqn:Hm; cbn [negb]; [|by exists None, s].
  unfold bind at 1, port_in at 1. destruct (inb PS2_STATUS_PORT (ps2_dev s)) as [st d].
  destruct (_ || _); [by exists None, (on_dev d s)|]. unfold bind, port_in.
  destruct (inb PS2_DATA_PORT (ps2_dev (on_dev d s))) as [v d2].
  destruct (mouse_byte_step (on_dev d2 (on_dev d s)) (u8 v)) as (r&s'&E1&Hok'&_&Hm'); [by destruct Hok|].
  exists r, s'. rewrite Hm'. done.
Qed.

(** Polls, and the events they report. *)
Fixpoint polls (n : nat) : M (ps2 D) (list (Z * Z * Z)) :=
  match n with
  | O => ret []
  | S n => let! r := ps2_mouse_poll in let! l := polls n in ret (match r with Some e => e :: l | None => l end)
  end.

Context `{!MouseWire D}.

Record between (l : list Z) (s : ps2 D) : Prop := {
  b_mouse : mouse_ok s = true; b_size : mouse_packet_size s = 0%nat; b_length : length (mouse_packet s) = 3%nat;
  b_bytes : mbytes (ps2_dev s) = l
}.

(** A poll with a byte waiting hands it to the packet. *)
Lemma poll_byte s b l :
  mouse_ok s = true -> mbytes (ps2_dev s) = b :: l ->
  exists d, mbytes d = l /\ ps2_mouse_poll s = mouse_byte b (on_dev d s).
Proof.
  intros Hm Hb. unfold ps2_mouse_poll, bind at 1, get. rewrite Hm. cbn [negb]. unfold bind at 1, port_in at 1.
  pose proof (status_keeps (ps2_dev s)) as Hk. destruct (status_full (ps2_dev s)) as [H1 H2]; [by rewrite Hb|].
  destruct (inb PS2_STATUS_PORT (ps2_dev s)) as [st d]. cbn [fst snd] in *.
  rewrite (proj2 (Z.eqb_neq _ _) H1), (proj2 (Z.eqb_neq _ _) H2). cbn [orb]. unfold bind, port_in. cbn [ps2_dev on_dev].
  destruct (data_takes d b l) as [Hv Hl]; [by rewrite Hk|]. destruct (inb PS2_DATA_PORT d) as [v d2]. cbn [fst snd] in *.
  exists d2. by rewrite Hv.
Qed.

Lemma polls_noise noise rest s n :
  Forall (fun b => Z.land b 0x08 = 0) noise -> between (noise ++ rest) s ->
  exists s', between rest s' /\ polls (length noise + n) s = polls n s'.
Proof.
  intros Hn. revert s. induction Hn as [|b noise Hb _ IH]; intros s Hs; [by exists s|].
  destruct Hs as [Hm H0 Hl Hbs]. destruct (poll_byte s b (noise ++ rest) Hm Hbs) as (d&Hd&Hp).
  destruct (IH (on_dev d s)) as (s'&Hs'&Hrun); [by constructor|]. exists s'. split; [done|].
  cbn [length Nat.add polls]. unfold bind at 1. rewrite Hp. unfold mouse_byte, bind at 1, get. cbn [mouse_packet_size on_dev].
  rewrite H0, Hb. cbn [Nat.eqb andb]. change (0 =? 0) with true. cbn iota. unfold ret at 1. unfold bind at 1. rewrite Hrun.
  by destruct (polls n s') as [[l s2]| |].
Qed.

Lemma polls_packet p rest s n :
  starts p -> between (bytes_of p ++ rest) s ->
  exists s', between rest s' /\
    polls (3 + n) s = (let! l := polls n in ret (match report p with Some e => e :: l | None => l end)) s'.
Proof.
  intros Hp [Hm H0 Hl Hbs]. unfold starts in Hp. unfold bytes_of in Hbs. cbn [app] in Hbs.
  destruct (poll_byte s _ _ Hm Hbs) as (d1&Hd1&Hp1).
  destruct s as [d c k m pk sz]. cbn [on_dev ps2_dev mouse_ok mouse_packet mouse_packet_size controller_ok keyboard_ok] in *. subst m sz.
  destruct pk as [|x [|y [|z [|? ?]]]]; try done.
  destruct (poll_byte (Ps2 d1 c k true [p0 p; y; z] 1) _ _ eq_refl Hd1) as (d2&Hd2&Hp2).
  destruct (poll_byte (Ps2 d2 c k true [p0 p; p1 p; z] 2) _ _ eq_refl Hd2) as (d3&Hd3&Hp3).
  exists (Ps2 d3 c k true [p0 p; p1 p; p2 p] 0). split; [by constructor|].
  assert (E1 : ps2_mouse_poll (Ps2 d c k true [x; y; z] 0) = Ok (None, Ps2 d1 c k true [p0 p; y; z] 1)).
  { rewrite Hp1. unfold mouse_byte, bind, get. cbn. by rewrite (proj2 (Z.eqb_neq _ _) Hp). }
  assert (E2 : ps2_mouse_poll (Ps2 d1 c k true [p0 p; y; z] 1) = Ok (None, Ps2 d2 c k true [p0 p; p1 p; z] 2)) by (by rewrite Hp2).
  assert (E3 : ps2_mouse_poll (Ps2 d2 c k true [p0 p; p1 p; z] 2) = Ok (report p, Ps2 d3 c k true [p0 p; p1 p; p2 p] 0)) by (by rewrite Hp3).
  cbn [Nat.add polls]. unfold bind. rewrite E1, E2, E3. destruct (polls n _) as [[l s2]| |]; done.
Qed.

Lemma polls_packets ps rest s n :
  Forall starts ps -> between (concat (map bytes_of ps) ++ rest) s ->
  exists s', between rest s' /\
    polls (3 * length ps + n) s = (let! l := polls n in ret (omap report ps ++ l)) s'.
Proof.
  intros Hps. revert s n. induction Hps as [|p ps Hp _ IH]; intros s n Hs.
  - exists s. split; [done|]. cbn. unfold bind. by destruct (polls n s) as [[l s2]| |].
  - cbn [map concat] in Hs. rewrite <- app_assoc in Hs.
    destruct (polls_packet p _ s (3 * length ps + n) Hp Hs) as (s1&Hs1&E1).
    destruct (IH s1 n Hs1) as (s2&Hs2&E2). exists s2. split; [done|].
    replace (3 * length (p :: ps) + n)%nat with (3 + (3 * length ps + n))%nat by (cbn [length]; lia). rewrite E1.
    unfold bind. rewrite E2. unfold bind. destruct (polls n s2) as [[l s3]| |]; [|done|done]. cbn [ret omap list_omap].
    by destruct (report p).
Qed.

(** C18. The mouse packets come through.  With the mouse on and a packet not yet
    begun, bytes that cannot start a packet are skipped, and from the first
    packet on every three bytes are reported as one movement with the two's
    complement of the second byte, the negated one of the third and the three
    button bits, in order; packets whose movement overflowed report nothing.
    And whatever the device sends, a poll returns and never writes outside the
    packet buffer. *)
Theorem mouse_reports_packets (noise : list Z) (ps : list packet) (s : ps2 D) :
  Forall (fun b => Z.land b 0x08 = 0) noise -> Forall starts ps -> between (noise ++ concat (map bytes_of ps)) s ->
  (exists s', polls (length noise + 3 * length ps) s = Ok (omap report ps, s') /\ between [] s') /\
  (forall s0, packet_ok s0 -> exists r s', ps2_mouse_poll s0 = Ok (r, s') /\ packet_ok s').
Proof.
  intros Hn Hps Hs. split.
  - destruct (polls_noise noise _ s (3 * length ps) Hn Hs) as (s1&Hs1&->).
    rewrite <- (app_nil_r (concat _)) in Hs1. destruct (polls_packets ps [] s1 0 Hps Hs1) as (s2&Hs2&E2).
    rewrite Nat.add_0_r in E2. exists s2. split; [|done]. rewrite E2. unfold bind. cbn [polls ret]. by rewrite app_nil_r.
  - intros s0 Hs0. destruct (mouse_poll_step s0 Hs0) as (r&s'&?&?&_). by exists r, s'.
Qed.

End mouse.

(** ** A controller for the witness: a queue of mouse bytes *)

Definition wire_byte (l : list Z) : Z := default 0 (head l).

#[export] Instance queue_ports : Ports (list Z) := {
  inb p l := if p =? PS2_STATUS_PORT then (match l with [] => 0 | _ => 0x21 end, l) else (wire_byte l, drop 1 l);
  outb _ _ l := l;
  inw _ l := (0, l);
  outw _ _ l := l
}.

(** The bytes the queue delivers are eight bits wide. *)
#[export] Instance queue_wire : MouseWire (list Z).
Proof.
  refine {| mbytes := map u8 |}.
  - done.
  - by intros [|b l].
  - by intros [|b l] x y [= <- <-].
Defined.

Lemma mouse_witness :
  exists s', polls 7 (Ps2 [0x07; 0x09; 5; 0xfe; 0x48; 1; 1] true true true [0; 0; 0] 0) = Ok ([(5, 2, 1)], s') /\ between [] s'.
Proof.
  apply (mouse_reports_packets [0x07] [Packet 0x09 5 0xfe; Packet 0x48 1 1]).
  - by repeat constructor.
  - repeat constructor; discriminate.
  - by constructor.
Defined.
