(* ===== verification/Tmpfs.v ===== *)
(** * The temporary file system (src/kernel/fs/tmpfs.c)

    A table of 32 files of at most 2048 bytes, as a bounded finite map from
    paths to files: the operations, the map they implement and the refinement. *)

From stdpp Require Import base numbers list gmap strings.
From Stdlib Require Import ZArith Lia.
From S2P Require Import Prelude.

Definition FILES : nat := 32.
Definition DATA : nat := Z.to_nat 2048.

(** [n_path] is the string in the 96-byte array, empty for a free node; [n_data]
    the [size] bytes stored. *)
Record node_t := Node { n_path : list Z; n_data : list Z; n_mode : Z; n_uid : Z; n_gid : Z }.

Abbreviation tmpfs := (list node_t).

Definition no_node : node_t := Node [] [] 0 0 0.
Definition nodes0 : tmpfs := replicate FILES no_node.

Definition used (x : node_t) : bool := match n_path x with [] => false | _ => true end.
Definition named (p : list Z) (x : node_t) : bool := used x && bool_decide (n_path x = p).

(** The index of the first node that [f] accepts. *)
Definition node_index (f : node_t -> bool) (t : tmpfs) : option nat := fst <$> list_find (fun x => f x = true) t.

Definition tmpfs_find (p : list Z) (t : tmpfs) : option nat := node_index (named p) t.

Definition tmpfs_init (t : tmpfs) : tmpfs := map (fun x => Node [] (n_data x) (n_mode x) (n_uid x) (n_gid x)) t.

Definition put_data (d : list Z) (x : node_t) : node_t := Node (n_path x) d (n_mode x) (n_uid x) (n_gid x).

Definition tmpfs_store (p d : list Z) (m u g : Z) (t : tmpfs) : bool * tmpfs :=
  if Nat.ltb DATA (length d) then (false, t) else
  match tmpfs_find p t with
  | Some i => (true, alter (put_data d) i t)
  | None =>
    match node_index (fun x => negb (used x)) t with
    | Some i => (true, <[i := Node (take 95 p) d m u g]> t)
    | None => (false, t)
    end
  end.

Definition tmpfs_load (p : list Z) (cap : nat) (t : tmpfs) : option (list Z) :=
  match tmpfs_find p t ≫= (t !!.) with
  | Some x => if Nat.ltb cap (length (n_data x)) then None else Some (n_data x)
  | None => None
  end.

Definition tmpfs_stat (p : list Z) (t : tmpfs) : option (nat * Z * Z * Z) :=
  match tmpfs_find p t ≫= (t !!.) with
  | Some x => Some (length (n_data x), n_mode x, n_uid x, n_gid x)
  | None => None
  end.

Definition tmpfs_update (p : list Z) (f : node_t -> node_t) (t : tmpfs) : bool * tmpfs :=
  match tmpfs_find p t with Some i => (true, alter f i t) | None => (false, t) end.

Definition tmpfs_remove (p : list Z) : tmpfs -> bool * tmpfs :=
  tmpfs_update p (fun x => Node [] [] (n_mode x) (n_uid x) (n_gid x)).

Definition tmpfs_chmod (p : list Z) (m : Z) : tmpfs -> bool * tmpfs :=
  tmpfs_update p (fun x => Node (n_path x) (n_data x) (Z.land m 0x1ff) (n_uid x) (n_gid x)).

Definition tmpfs_chown (p : list Z) (u g : Z) (su sg : bool) : tmpfs -> bool * tmpfs :=
  tmpfs_update p (fun x => Node (n_path x) (n_data x) (n_mode x) (if su then u else n_uid x) (if sg then g else n_gid x)).

(** The name, cut to the buffer, and size of the [w]th file. *)
Definition tmpfs_at (w cap : nat) (t : tmpfs) : option (list Z * nat) :=
  match filter (fun x => used x = true) t !! w with
  | Some x => Some (take (cap - 1) (n_path x), length (n_data x))
  | None => None
  end.

(** ** The map *)

Record file := File { f_data : list Z; f_mode : Z; f_uid : Z; f_gid : Z }.

Definition file_of (x : node_t) : file := File (n_data x) (n_mode x) (n_uid x) (n_gid x).

Definition entry (x : node_t) : option (list Z * file) := if used x then Some (n_path x, file_of x) else None.
Definition entries (t : tmpfs) : list (list Z * file) := omap entry t.
Definition contents (t : tmpfs) : gmap (list Z) file := list_to_map (entries t).

(** What a call does to the map: storing replaces the data or adds a file while
    there is room. *)
Definition map_store (p d : list Z) (m u g : Z) (M : gmap (list Z) file) : bool * gmap (list Z) file :=
  if Nat.ltb DATA (length d) then (false, M) else
  match M !! p with
  | Some f => (true, <[p := File d (f_mode f) (f_uid f) (f_gid f)]> M)
  | None => if Nat.ltb (size M) FILES then (true, <[p := File d m u g]> M) else (false, M)
  end.

Definition map_update (p : list Z) (f : file -> file) (M : gmap (list Z) file) : bool * gmap (list Z) file :=
  match M !! p with Some x => (true, <[p := f x]> M) | None => (false, M) end.

Record wf_tmpfs (t : tmpfs) : Prop := {
  t_length : length t = FILES;
  t_distinct : NoDup (entries t).*1;
  t_sizes : Forall (fun x => (length (n_path x) <= 95 /\ length (n_data x) <= DATA)%nat) t
}.

Lemma entries_app t1 t2 : entries (t1 ++ t2) = entries t1 ++ entries t2.
Proof. unfold entries. apply omap_app. Qed.

Lemma named_true p x : named p x = true <-> used x = true /\ n_path x = p.
Proof. unfold named. rewrite andb_true_iff, bool_decide_eq_true. done. Qed.

(** A node that was found splits the table. *)
Lemma find_split f t i :
  node_index f t = Some i ->
  exists t1 x t2, t = t1 ++ x :: t2 /\ length t1 = i /\ f x = true /\ Forall (fun y => f y = false) t1.
Proof.
  unfold node_index. destruct (list_find _ t) as [[j x]|] eqn:E; [|done]. cbn. intros [= ->].
  apply list_find_Some in E as (Hi&Hx&Hb). exists (take i t), x, (drop (S i) t).
  split; [symmetry; by apply take_drop_middle|]. split; [apply length_take_le; apply lookup_lt_Some in Hi; lia|].
  split; [done|]. apply Forall_forall. intros y Hy. apply elem_of_take in Hy as (j&Hj&Hlt).
  apply not_true_iff_false. by eapply Hb.
Qed.

Lemma find_none f t : node_index f t = None -> Forall (fun y => f y = false) t.
Proof.
  unfold node_index. destruct (list_find _ t) as [[j x]|] eqn:E; [done|]. intros _.
  apply list_find_None in E. eapply Forall_impl; [exact E|]. intros y Hy. by apply not_true_iff_false.
Qed.

Lemma unnamed p t : Forall (fun y => named p y = false) t -> p ∉ (entries t).*1.
Proof.
  induction 1 as [|x t Hx _ IH]; cbn; [apply not_elem_of_nil|]. unfold entry.
  destruct (used x) eqn:Hu; [|done]. cbn. rewrite not_elem_of_cons. split; [|done].
  intros ->. unfold named in Hx. rewrite Hu, bool_decide_true in Hx by done. done.
Qed.

Lemma contents_none p t : Forall (fun y => named p y = false) t -> contents t !! p = None.
Proof. intros Ht. apply not_elem_of_list_to_map_1. by apply unnamed. Qed.

Lemma contents_split p t1 x t2 :
  NoDup (entries (t1 ++ x :: t2)).*1 -> used x = true -> n_path x = p ->
  contents (t1 ++ x :: t2) = <[p := file_of x]> (contents (t1 ++ t2)) /\ contents (t1 ++ t2) !! p = None.
Proof.
  intros Hd Hu Hp. unfold contents. rewrite !entries_app in *. cbn [entries omap list_omap] in *.
  fold (entries t2) in *. unfold entry in *. rewrite Hu, Hp in *.
  assert (Hperm : entries t1 ++ (p, file_of x) :: entries t2 ≡ₚ (p, file_of x) :: (entries t1 ++ entries t2))
    by (symmetry; apply Permutation_middle).
  assert (Hd' : NoDup ((p, file_of x) :: (entries t1 ++ entries t2)).*1) by (by rewrite <- Hperm).
  split; [by rewrite (list_to_map_proper _ _ Hd Hperm)|]. apply not_elem_of_list_to_map_1.
  cbn in Hd'. by apply NoDup_cons in Hd' as [? _].
Qed.

Lemma free_entries t1 x t2 : used x = false -> entries (t1 ++ x :: t2) = entries (t1 ++ t2).
Proof. intros Hu. rewrite !entries_app. cbn. unfold entry. by rewrite Hu. Qed.

Lemma contents_size t : NoDup (entries t).*1 -> size (contents t) = length (entries t).
Proof. intros Hd. unfold contents. by apply map_size_list_to_map. Qed.

Lemma entries_at_most t : (length (entries t) <= length t)%nat.
Proof. unfold entries. induction t as [|x t IH]; cbn; [done|]. destruct (entry x); cbn; lia. Qed.

Lemma entries_full t : Forall (fun y => negb (used y) = false) t -> length (entries t) = length t.
Proof.
  unfold entries. induction 1 as [|x t Hx _ IH]; [done|]. cbn [omap list_omap]. unfold entry at 1.
  destruct (used x); [|done]. cbn [length]. by rewrite IH.
Qed.

Lemma tmpfs_find_contents p t :
  wf_tmpfs t ->
  match tmpfs_find p t with
  | Some i => exists t1 x t2, t = t1 ++ x :: t2 /\ length t1 = i /\ used x = true /\ n_path x = p /\ contents t !! p = Some (file_of x)
  | None => contents t !! p = None /\ Forall (fun y => named p y = false) t
  end.
Proof.
  intros [Hl Hd _]. unfold tmpfs_find. destruct (node_index (named p) t) as [i|] eqn:E.
  - apply find_split in E as (t1&x&t2&->&Hi&Hx&_). apply named_true in Hx as [Hu Hp]. exists t1, x, t2. split_and!; try done.
    destruct (contents_split p t1 x t2 Hd Hu Hp) as [-> _]. apply lookup_insert_eq.
  - apply find_none in E. split; [by apply contents_none|done].
Qed.

(** A used node replaced by one with the same path. *)
Lemma replace_used t1 x y t2 :
  wf_tmpfs (t1 ++ x :: t2) -> used x = true -> n_path y = n_path x -> (length (n_data y) <= DATA)%nat ->
  wf_tmpfs (t1 ++ y :: t2) /\ contents (t1 ++ y :: t2) = <[n_path x := file_of y]> (contents (t1 ++ x :: t2)).
Proof.
  intros [Hl Hd Hs] Hu Hp Hdat.
  assert (Huy : used y = true) by (unfold used in *; by rewrite Hp).
  assert (Hd' : NoDup (entries (t1 ++ y :: t2)).*1).
  { rewrite entries_app in *. cbn in *. unfold entry in *. rewrite Hu, Huy in *. rewrite fmap_app in *. cbn in *. by rewrite Hp. }
  split.
  - constructor; [by rewrite length_app in *|done|]. apply Forall_app in Hs as [Hs1 [Hsx Hs2]%Forall_cons].
    apply Forall_app. split; [done|]. constructor; [|done]. rewrite Hp. by destruct Hsx.
  - destruct (contents_split (n_path x) t1 x t2 Hd Hu eq_refl) as [-> Hn].
    destruct (contents_split (n_path x) t1 y t2 Hd' Huy Hp) as [-> _]. by rewrite insert_insert_eq.
Qed.

Lemma alter_middle {A} (f : A -> A) t1 x t2 i : length t1 = i -> alter f i (t1 ++ x :: t2) = t1 ++ f x :: t2.
Proof. intros <-. induction t1 as [|y t1 IH]; cbn; [done|]. f_equal. exact IH. Qed.

Lemma insert_middle {A} (y : A) t1 x t2 i : length t1 = i -> <[i := y]> (t1 ++ x :: t2) = t1 ++ y :: t2.
Proof. intros <-. induction t1 as [|z t1 IH]; cbn; [done|]. f_equal. exact IH. Qed.

(** ** The refinement *)

Lemma store_refines p d m u g t :
  wf_tmpfs t -> p <> [] -> (length p <= 95)%nat ->
  let '(ok, t') := tmpfs_store p d m u g t in wf_tmpfs t' /\ map_store p d m u g (contents t) = (ok, contents t').
Proof.
  intros Ht Hp Hlen. unfold tmpfs_store, map_store. destruct (Nat.ltb_spec DATA (length d)) as [Hbig|Hd]; [done|].
  pose proof (tmpfs_find_contents p t Ht) as Hf. destruct (tmpfs_find p t) as [i|].
  - destruct Hf as (t1&x&t2&->&Hi&Hu&Hpx&Hc). rewrite (alter_middle _ _ _ _ _ Hi), Hc.
    destruct (replace_used t1 x (put_data d x) t2 Ht Hu eq_refl) as [Hw Hcont]; [done|]. split; [done|]. by rewrite Hcont, Hpx.
  - destruct Hf as [Hn Hall]. rewrite Hn. rewrite contents_size by apply Ht.
    destruct (node_index _ t) as [i|] eqn:E.
    + apply find_split in E as (t1&x&t2&->&Hi&Hx%negb_true_iff&_). rewrite (insert_middle _ _ _ _ _ Hi).
      set (y := Node (take 95 p) d m u g). assert (Hy : n_path y = p) by (apply take_ge; lia).
      assert (Huy : used y = true) by (unfold used; rewrite Hy; by destruct p).
      destruct Ht as [Hl Hdis Hs]. rewrite free_entries in * by done.
      assert (Hroom : (length (entries (t1 ++ t2)) < FILES)%nat).
      { pose proof (entries_at_most (t1 ++ t2)). rewrite length_app in *. cbn [length] in Hl. lia. }
      rewrite (proj2 (Nat.ltb_lt _ _)) by done.
      apply Forall_app in Hall as [Ha1 [_ Ha2]%Forall_cons].
      assert (Hnew : p ∉ (entries (t1 ++ t2)).*1) by (apply unnamed, Forall_app; done).
      assert (Hd' : NoDup (entries (t1 ++ y :: t2)).*1).
      { rewrite entries_app. cbn. unfold entry. rewrite Huy, Hy. fold (entries t2). rewrite <- Permutation_middle. cbn.
        apply NoDup_cons. split; [by rewrite <- entries_app|by rewrite <- entries_app]. }
      split.
      * constructor; [by rewrite length_app in *|done|]. apply Forall_app in Hs as [Hs1 [_ Hs2]%Forall_cons].
        apply Forall_app. split; [done|]. constructor; [|done]. by rewrite Hy.
      * destruct (contents_split p t1 y t2 Hd' Huy Hy) as [-> _]. unfold contents at 1. by rewrite free_entries.
    + apply find_none in E. rewrite (entries_full t E), (t_length t Ht), Nat.ltb_irrefl. done.
Qed.

Lemma update_refines p f h t :
  wf_tmpfs t -> (forall x, n_path (f x) = n_path x) -> (forall x, n_data (f x) = n_data x) ->
  (forall x, file_of (f x) = h (file_of x)) ->
  let '(ok, t') := tmpfs_update p f t in wf_tmpfs t' /\ map_update p h (contents t) = (ok, contents t').
Proof.
  intros Ht Hfp Hfd Hfh. unfold tmpfs_update, map_update. pose proof (tmpfs_find_contents p t Ht) as Hf.
  destruct (tmpfs_find p t) as [i|]; [|destruct Hf as [-> _]; done].
  destruct Hf as (t1&x&t2&->&Hi&Hu&Hpx&Hc). rewrite (alter_middle _ _ _ _ _ Hi), Hc.
  destruct (replace_used t1 x (f x) t2 Ht Hu (Hfp x)) as [Hw Hcont].
  { rewrite Hfd. destruct Ht as [_ _ Hs]. apply Forall_app in Hs as [_ [[_ ?] _]%Forall_cons]. done. }
  split; [done|]. by rewrite Hcont, Hpx, Hfh.
Qed.

Lemma remove_refines p t :
  wf_tmpfs t ->
  let '(ok, t') := tmpfs_remove p t in
  wf_tmpfs t' /\ (bool_decide (is_Some (contents t !! p)), delete p (contents t)) = (ok, contents t').
Proof.
  intros Ht. unfold tmpfs_remove, tmpfs_update. pose proof (tmpfs_find_contents p t Ht) as Hf.
  destruct (tmpfs_find p t) as [i|].
  - destruct Hf as (t1&x&t2&->&Hi&Hu&Hpx&Hc). rewrite (alter_middle _ _ _ _ _ Hi), Hc.
    rewrite bool_decide_true by done. set (y := Node _ _ _ _ _). destruct Ht as [Hl Hd Hs].
    destruct (contents_split p t1 x t2 Hd Hu Hpx) as [-> Hnone].
    assert (He : entries (t1 ++ y :: t2) = entries (t1 ++ t2)) by (by apply free_entries).
    split.
    + constructor; [by rewrite length_app in *| |].
      * rewrite He. rewrite entries_app in Hd. cbn in Hd. unfold entry in Hd. rewrite Hu in Hd. fold (entries t2) in Hd.
        rewrite <- Permutation_middle in Hd. cbn in Hd. apply NoDup_cons in Hd as [_ Hd]. by rewrite entries_app.
      * apply Forall_app in Hs as [Hs1 [_ Hs2]%Forall_cons]. apply Forall_app. split; [done|]. constructor; [|done].
        cbn. lia.
    + f_equal. rewrite delete_insert_id by done. unfold contents. by rewrite He.
  - destruct Hf as [Hn _]. rewrite bool_decide_false by (rewrite Hn; by intros []). split; [done|]. by rewrite delete_id.
Qed.

Lemma find_lookup p t : wf_tmpfs t -> (file_of <$> (tmpfs_find p t ≫= (t !!.))) = contents t !! p.
Proof.
  intros Ht. pose proof (tmpfs_find_contents p t Ht) as Hf. destruct (tmpfs_find p t) as [i|]; cbn [mbind option_bind].
  - destruct Hf as (t1&x&t2&->&<-&_&_&Hc). by rewrite list_lookup_middle, Hc.
  - by destruct Hf as [-> _].
Qed.

Lemma entries_filter t : entries t = (fun x => (n_path x, file_of x)) <$> filter (fun x => used x = true) t.
Proof.
  unfold entries. induction t as [|x t IH]; [done|]. cbn [omap list_omap]. unfold entry at 1. rewrite filter_cons.
  destruct (used x) eqn:Hu; [rewrite decide_True by done; cbn; by f_equal|by rewrite decide_False].
Qed.

Lemma init_empty t : length t = FILES -> Forall (fun x => (length (n_data x) <= DATA)%nat) t ->
  wf_tmpfs (tmpfs_init t) /\ contents (tmpfs_init t) = ∅.
Proof.
  intros Hl Hd. assert (He : entries (tmpfs_init t) = []) by (unfold entries, tmpfs_init; clear; induction t; [done|done]).
  split; [|unfold contents; by rewrite He]. constructor; [unfold tmpfs_init; by rewrite length_map|rewrite He; constructor|].
  unfold tmpfs_init. apply Forall_map. eapply Forall_impl; [exact Hd|]. cbn. intros x Hx. split; [lia|done].
Qed.

(** C12. The temporary file system is a bounded map.  On a well formed table
    every call with a path of at most 95 characters does to the map from paths to
    files what it should, and leaves the table well formed: storing replaces the
    data of a file and keeps its owner and mode, or adds a file while there are
    fewer than 32, and refuses data over 2048 bytes; removing, changing the mode
    and the owner act on that path alone; loading and stat answer from the map;
    and listing goes through exactly the files of the map. *)
Theorem tmpfs_implements_map (t : tmpfs) (p d : list Z) (m u g : Z) (su sg : bool) (cap : nat) :
  wf_tmpfs t -> p <> [] -> (length p <= 95)%nat ->
  (let '(ok, t') := tmpfs_store p d m u g t in wf_tmpfs t' /\ map_store p d m u g (contents t) = (ok, contents t')) /\
  (let '(ok, t') := tmpfs_remove p t in
   wf_tmpfs t' /\ (bool_decide (is_Some (contents t !! p)), delete p (contents t)) = (ok, contents t')) /\
  (let '(ok, t') := tmpfs_chmod p m t in
   wf_tmpfs t' /\ map_update p (fun f => File (f_data f) (Z.land m 0x1ff) (f_uid f) (f_gid f)) (contents t) = (ok, contents t')) /\
  (let '(ok, t') := tmpfs_chown p u g su sg t in
   wf_tmpfs t' /\ map_update p (fun f => File (f_data f) (f_mode f) (if su then u else f_uid f) (if sg then g else f_gid f))
     (contents t) = (ok, contents t')) /\
  tmpfs_load p cap t = (contents t !! p ≫= fun f => if Nat.ltb cap (length (f_data f)) then None else Some (f_data f)) /\
  tmpfs_stat p t = (fun f => (length (f_data f), f_mode f, f_uid f, f_gid f)) <$> contents t !! p /\
  (exists l, l ≡ₚ map_to_list (contents t) /\
     forall w, tmpfs_at w cap t = (fun e => (take (cap - 1) e.1, length (f_data e.2))) <$> l !! w).
Proof.
  intros Ht Hp Hl. split_and!.
  - by apply store_refines.
  - by apply remove_refines.
  - by apply update_refines.
  - by apply update_refines.
  - rewrite <- find_lookup by done. unfold tmpfs_load. by destruct (_ ≫= _).
  - rewrite <- find_lookup by done. unfold tmpfs_stat. by destruct (_ ≫= _).
  - exists (entries t). split; [symmetry; apply map_to_list_to_map, Ht|]. intros w. unfold tmpfs_at.
    rewrite entries_filter, list_lookup_fmap. by destruct (_ !! w).
Qed.

Definition demo_path : list Z := text "/tmp/a".

Lemma tmpfs_witness :
  match tmpfs_store demo_path [1; 2; 3] 0x1a4 7 8 nodes0 with
  | (ok, t) => ok = true /\ tmpfs_load demo_path 4 t = Some [1; 2; 3] /\ wf_tmpfs t
  end.
Proof.
  assert (Hw : wf_tmpfs nodes0).
  { constructor; [reflexivity|apply (NoDup_nil_2 (A := list Z))|]. apply Forall_replicate. split; [cbn; lia|unfold DATA; cbn [n_data no_node length]; lia]. }
  destruct (tmpfs_implements_map nodes0 demo_path [1; 2; 3] 0x1a4 7 8 false false 4 Hw) as [Hstore _]; [done|cbn; lia|].
  destruct (tmpfs_store demo_path [1; 2; 3] 0x1a4 7 8 nodes0) as [ok t] eqn:E. destruct Hstore as [Ht _].
  vm_compute in E. injection E as <- <-. split; [reflexivity|]. split; [vm_compute; reflexivity|exact Ht].
Defined.

(** A path of 96 characters or more is cut when it is stored, so the file that
    was stored is not found again. *)
Lemma long_path_lost p d m u g t :
  wf_tmpfs t -> Nat.lt 95 (length p) ->
  let '(_, t') := tmpfs_store p d m u g t in forall cap, tmpfs_load p cap t' = None.
Proof.
  intros Ht Hp.
  assert (Hno : forall s, Forall (fun x => (length (n_path x) <= 95)%nat) s -> node_index (named p) s = None).
  { intros s Hs. destruct (node_index (named p) s) as [i|] eqn:E; [|done]. exfalso.
    apply find_split in E as (s1&x&s2&->&_&[_ Hx]%named_true&_). apply Forall_app in Hs as [_ [Hs _]%Forall_cons].
    unfold Nat.lt in Hp. rewrite Hx in Hs. lia. }
  assert (Hs : Forall (fun x => (length (n_path x) <= 95)%nat) t).
  { eapply Forall_impl; [apply Ht|]. by intros x []. }
  unfold tmpfs_store, tmpfs_load, tmpfs_find. rewrite (Hno t Hs).
  destruct (Nat.ltb DATA (length d)); [by rewrite (Hno t Hs)|]. destruct (node_index _ t) as [i|] eqn:E; [|by rewrite (Hno t Hs)].
  rewrite Hno; [done|]. apply Forall_insert; [done|]. cbn. rewrite length_take. lia.
Qed.
