(* ===== verification/Vfs.v ===== *)
(** * The virtual file system (src/kernel/fs/vfs.c and vfs_access.c)

    The tree is put together from the temporary file system, which is modelled in
    Tmpfs.v, and from the backends and the account data of the interface
    [VfsEnv].  Every access goes through [vfs_check_permission].  A pointer moved
    past the end of a path is [Undefined]. *)

From stdpp Require Import base numbers list gmap strings.
From Stdlib Require Import ZArith Lia.
From S2P Require Import Prelude Effects Tmpfs.

Inductive auth_role_t := AUTH_ROOT | AUTH_ADMIN | AUTH_POWER | AUTH_STANDARD | AUTH_GUEST.
Inductive vfs_backend_t := VFS_INITRAMFS | VFS_FAT32 | VFS_RAMFS | VFS_EXT2 | VFS_TMPFS | VFS_PROCFS | VFS_DEVFS.

Definition AUTH_GROUP_ROOT : Z := Z.shiftl 1 0.
Definition AUTH_GROUP_ADMIN : Z := Z.shiftl 1 1.
Definition AUTH_GROUP_USERS : Z := Z.shiftl 1 2.

Definition VFS_TYPE_FILE : Z := 0.
Definition VFS_TYPE_DIRECTORY : Z := 1.
Definition VFS_TYPE_CHAR_DEVICE : Z := 2.
Definition VFS_TYPE_BLOCK_DEVICE : Z := 3.
Definition VFS_WRITE_ERROR : Z := 0.
Definition VFS_WRITE_OK : Z := 1.
Definition VFS_WRITE_NO_SPACE : Z := -1.
Definition VFS_ACCESS_EXECUTE : Z := 1.
Definition VFS_ACCESS_WRITE : Z := 2.
Definition VFS_ACCESS_READ : Z := 4.

Record vfs_stat_t := Stat { st_size : nat; st_mode : Z; st_uid : Z; st_gid : Z; st_type : Z; st_backend : vfs_backend_t }.

Record disk_file_t := DiskFile { df_name : list Z; df_size : nat; df_type : Z }.
Record fs_file_t := FsFile { ff_name : list Z; ff_data : list Z; ff_type : Z }.

(** Accounts, and the backends: [varfs_paths], [disk_files], [fs_files] and
    [procfs_names] are what the functions with an index go through. *)
Class VfsEnv (E : Type) := {
  auth_is_root : E -> bool; auth_getuid : E -> Z; auth_getgid : E -> Z; auth_getgroups : E -> Z;
  auth_current_role : E -> auth_role_t; auth_umask : E -> Z;
  auth_lookup : list Z -> E -> option (Z * Z);
  varfs_type : E -> list Z;
  varfs_paths : E -> list (list Z);
  varfs_stat : list Z -> E -> option (nat * Z * Z * Z);
  varfs_load : list Z -> nat -> E -> option (list Z);
  varfs_store : list Z -> list Z -> E -> bool * E;
  varfs_remove : list Z -> E -> bool * E;
  varfs_chmod : list Z -> Z -> E -> bool * E;
  varfs_chown : list Z -> Z -> Z -> bool -> bool -> E -> bool * E;
  disk_files : E -> list disk_file_t;
  disk_load : list Z -> E -> option (list Z);
  disk_store : list Z -> list Z -> E -> bool * E;
  disk_remove : list Z -> E -> bool * E;
  fs_files : E -> list fs_file_t;
  fs_find : list Z -> E -> option fs_file_t;
  procfs_names : E -> list (list Z);
  procfs_read : list Z -> nat -> E -> option (list Z);
  random_read : nat -> E -> option (list Z) * E;
  random_mix : list Z -> E -> bool * E
}.

Record vfs (E : Type) := VFS { venv : E; vtmp : list node_t }.
Arguments VFS {E}. Arguments venv {E}. Arguments vtmp {E}.

(** ** Paths *)

Fixpoint starts (s p : list Z) : bool :=
  match p, s with [], _ => true | c :: p, x :: s => (x =? c) && starts s p | _ :: _, [] => false end.

Definition equal (a b : list Z) : bool := bool_decide (a = b).
Definition among (p : list Z) (l : list (list Z)) : bool := existsb (equal p) l.

Definition native_path (p : list Z) : bool :=
  starts p (text "/var/") || starts p (text "/root/") || (starts p (text "/mnt/") && negb (starts p (text "/mnt/os64/"))).

(** The characters before the next slash, at most [n]. *)
Fixpoint component (n : nat) (s : list Z) : list Z :=
  match n, s with S n, c :: s => if c =? 47 then [] else c :: component n s | _, _ => [] end.

(** A pointer [n] characters into a string. *)
Definition advance (n : nat) (p : list Z) : outcome (list Z) :=
  if Nat.leb n (length p) then Ok (drop n p) else Undefined.

(** After the last slash. *)
Fixpoint base_name (n : list Z) (p : list Z) : list Z :=
  match p with [] => n | c :: p => if c =? 47 then base_name p p else base_name n p end.

Record vfs_dirent_t := Dirent { de_name : list Z; de_type : Z; de_backend : vfs_backend_t }.

Fixpoint skip_slashes (p : list Z) : list Z :=
  match p with c :: p' => if c =? 47 then skip_slashes p' else p | [] => [] end.

Definition clean (p : list Z) : list Z :=
  match skip_slashes p with 46 :: 47 :: p => p | p => p end.

(** The name in [dir] under which [full] is found, and whether it is a directory. *)
Definition child (dir full : list Z) (source_type : Z) : option (list Z * Z) :=
  let dir := clean dir in
  let full := clean full in
  let rest := match dir with [] => Some full | _ => if starts full (dir ++ [47]) then Some (drop (length dir + 1) full) else None end in
  match rest with
  | None => None
  | Some full =>
    let name := component (length full) full in
    match name with
    | [] => None
    | _ => Some (take 95 name, match full !! length name with Some _ => 1 | None => if source_type =? 53 then 1 else 0 end)
    end
  end.

Definition gid_group (gid : Z) : Z :=
  if gid =? 0 then AUTH_GROUP_ROOT else if gid =? 10 then AUTH_GROUP_ADMIN else if gid =? 100 then AUTH_GROUP_USERS
  else if (101 <=? gid) && (gid <=? 107) then Z.shiftl 1 (gid - 98) else 0.

Definition chr : list (list Z) :=
  map text ["/dev/net0"; "/dev/console"; "/dev/tty"; "/dev/tty0"; "/dev/null"; "/dev/zero"; "/dev/full"; "/dev/empty";
            "/dev/random"; "/dev/urandom"]%string.
Definition blk : list (list Z) := map text ["/dev/sda"; "/dev/sda1"; "/dev/sda2"]%string.
Definition roots : list (list Z) := map text ["/"; "/home"; "/mnt"; "/mnt/os64"; "/var"]%string.

Section vfs.

Context {E : Type} `{VfsEnv E}.

#[local] Abbreviation V := (M (vfs E)).

Definition lift_v {A} (o : outcome A) : V A := fun s => do a <- o; Ok (a, s).
Definition in_env {A} (f : E -> A * E) : V A := fun s => let '(a, e) := f (venv s) in Ok (a, VFS e (vtmp s)).
Definition in_tmp {A} (f : list node_t -> A * list node_t) : V A :=
  fun s => let '(a, t) := f (vtmp s) in Ok (a, VFS (venv s) t).

Definition vfs_init : V unit := modify (fun s => VFS (venv s) (tmpfs_init (vtmp s))).

(** ** Permissions *)

Definition home_owner (p : list Z) (e : E) : outcome (option (Z * Z)) :=
  let lookup s := match component 15 s with [] => None | user => auth_lookup user e end in
  if starts p (text "/home/") then do s <- advance 6 p; Ok (lookup s)
  else if starts p (text "/mnt/os64/") then do s <- advance 12 p; Ok (lookup s)
  else Ok None.

Definition stat_home (p : list Z) (e : E) : outcome (option vfs_stat_t) :=
  do o <- home_owner p e;
  let '(u, g) := default (0, 0) o in
  match find (fun f => equal (base_name p p) (df_name f)) (disk_files e) with
  | Some f =>
    Ok (Some (Stat (df_size f) (if z2b (df_type f) then 0x1c0 else 0x180) u g
      (if z2b (df_type f) then VFS_TYPE_DIRECTORY else VFS_TYPE_FILE) VFS_FAT32))
  | None =>
    match disk_load p e with
    | Some d => Ok (Some (Stat (length d) 0x180 u g VFS_TYPE_FILE VFS_FAT32))
    | None => Ok None
    end
  end.

Definition stat_fs (p : list Z) (e : E) : option vfs_stat_t :=
  match fs_find p e with
  | Some f =>
    let dir := ff_type f =? 53 in
    Some (Stat (length (ff_data f)) (if dir then 0x16d else 0x124) 0 0 (if dir then VFS_TYPE_DIRECTORY else VFS_TYPE_FILE) VFS_INITRAMFS)
  | None => None
  end.

(** The first test that applies and succeeds decides. *)
Definition stat_raw (p : list Z) (s : vfs E) : outcome (option vfs_stat_t) :=
  let e := venv s in
  if among p chr then Ok (Some (Stat 0 0x1b6 0 0 VFS_TYPE_CHAR_DEVICE VFS_DEVFS)) else
  if among p blk then Ok (Some (Stat 0 0x1b0 0 0 VFS_TYPE_BLOCK_DEVICE VFS_DEVFS)) else
  if among p roots then Ok (Some (Stat 0 0x1ed 0 0 VFS_TYPE_DIRECTORY VFS_RAMFS)) else
  if equal p (text "/dev") then Ok (Some (Stat 0 0x1ed 0 0 VFS_TYPE_DIRECTORY VFS_DEVFS)) else
  if equal p (text "/tmp") then Ok (Some (Stat 0 0x3ff 0 0 VFS_TYPE_DIRECTORY VFS_TMPFS)) else
  if equal p (text "/proc") then Ok (Some (Stat 0 0x16d 0 0 VFS_TYPE_DIRECTORY VFS_PROCFS)) else
  match (if starts p (text "/tmp/") then tmpfs_stat p (vtmp s) else None) with
  | Some (z, m, u, g) => Ok (Some (Stat z m u g VFS_TYPE_FILE VFS_TMPFS))
  | None =>
  match (if starts p (text "/proc/") then procfs_read p 512 e else None) with
  | Some d => Ok (Some (Stat (length d) 0x124 0 0 VFS_TYPE_FILE VFS_PROCFS))
  | None =>
  if equal p (text "/root") then Ok (Some (Stat 0 0x1c0 0 0 VFS_TYPE_DIRECTORY VFS_EXT2)) else
  match (if native_path p then varfs_stat p e else None) with
  | Some (z, m, u, g) => Ok (Some (Stat z m u g VFS_TYPE_FILE VFS_EXT2))
  | None =>
    do h <- (if starts p (text "/home/") || starts p (text "/mnt/os64/") then stat_home p e else Ok None);
    match h with Some st => Ok (Some st) | None => Ok (stat_fs p e) end
  end end end.

(** Whether the permission bits of [st] for this user contain [access]. *)
Definition mode_allows (st : vfs_stat_t) (access : Z) (e : E) : bool :=
  let member := (st_gid st =? auth_getgid e) || z2b (Z.land (gid_group (st_gid st)) (auth_getgroups e)) in
  let bits := if st_uid st =? auth_getuid e then Z.shiftr (st_mode st) 6
              else if member then Z.shiftr (st_mode st) 3 else st_mode st in
  Z.land bits access =? access.

Definition role_is (r : auth_role_t) (e : E) : bool :=
  match r, auth_current_role e with
  | AUTH_ROOT, AUTH_ROOT | AUTH_ADMIN, AUTH_ADMIN | AUTH_POWER, AUTH_POWER | AUTH_STANDARD, AUTH_STANDARD | AUTH_GUEST, AUTH_GUEST => true
  | _, _ => false
  end.

Definition vfs_check_permission (p : list Z) (access : Z) (s : vfs E) : outcome bool :=
  let e := venv s in
  if auth_is_root e then Ok true else
  do st <- stat_raw p s;
  match st with
  | Some st => Ok (mode_allows st access e)
  | None =>
    do o <- home_owner p e;
    match o with
    | Some (owner, _) => Ok (owner =? auth_getuid e)
    | None =>
      if starts p (text "/tmp/") || starts p (text "/var/tmp/") then Ok true else
      if role_is AUTH_ADMIN e && (starts p (text "/var/") || starts p (text "/mnt/")) then Ok true else
      Ok (role_is AUTH_POWER e && starts p (text "/var/local/"))
    end
  end.

(** [check(p, access) && k] *)
Definition allowed (p : list Z) (access : Z) : V bool := let! s := get in lift_v (vfs_check_permission p access s).

Definition vfs_stat_path (p : list Z) : V (option vfs_stat_t) :=
  let! s := get in
  let! st := lift_v (stat_raw p s) in
  match st with
  | None => ret None
  | Some st => let! ok := allowed p VFS_ACCESS_READ in ret (if ok then Some st else None)
  end.

Definition vfs_chmod (p : list Z) (mode : Z) : V bool :=
  let! s := get in
  let! st := lift_v (stat_raw p s) in
  match st with
  | None => ret false
  | Some st =>
    if negb (auth_is_root (venv s)) && negb (st_uid st =? auth_getuid (venv s)) then ret false else
    match st_backend st with
    | VFS_EXT2 => in_env (varfs_chmod p (Z.land mode 0x1ff))
    | VFS_TMPFS => in_tmp (tmpfs_chmod p mode)
    | _ => ret false
    end
  end.

Definition vfs_chown (p : list Z) (uid gid : Z) (su sg : bool) : V bool :=
  let! s := get in
  if negb (auth_is_root (venv s)) then ret false else
  let! st := lift_v (stat_raw p s) in
  match st with
  | None => ret false
  | Some st =>
    match st_backend st with
    | VFS_EXT2 => in_env (varfs_chown p uid gid su sg)
    | VFS_TMPFS => in_tmp (tmpfs_chown p uid gid su sg)
    | _ => ret false
    end
  end.

(** ** Reading *)

Definition dev_stat : vfs_stat_t := Stat 0 0x1b6 0 0 VFS_TYPE_CHAR_DEVICE VFS_RAMFS.

Definition vfs_read_raw (p : list Z) (cap : nat) : V (option (list Z * vfs_stat_t)) :=
  if among p (map text ["/dev/null"; "/dev/empty"]%string) then ret (Some ([], dev_stat)) else
  if among p (map text ["/dev/zero"; "/dev/full"]%string) then ret (Some (replicate cap 0, dev_stat)) else
  if among p (map text ["/dev/random"; "/dev/urandom"]%string) then
    let! d := in_env (random_read cap) in ret ((fun d => (d, dev_stat)) <$> d)
  else
  let! s := get in
  let e := venv s in
  if starts p (text "/home/") || starts p (text "/mnt/os64/") then
    ret (if Nat.ltb cap 512 then None
         else (fun d => (d, Stat (length d) 0x1b6 0 0 VFS_TYPE_FILE VFS_FAT32)) <$> disk_load p e)
  else
  match (if native_path p then varfs_load p cap e else None) with
  | Some d => ret (Some (d, Stat (length d) 0x180 0 0 VFS_TYPE_FILE VFS_EXT2))
  | None =>
    ret (match fs_find p e with
         | Some f =>
           if (ff_type f =? 53) || Nat.ltb cap (length (ff_data f)) then None
           else Some (ff_data f, Stat (length (ff_data f)) 0x124 0 0 VFS_TYPE_FILE VFS_INITRAMFS)
         | None => None
         end)
  end.

(** [check && load && stat], for the two backends that answer themselves. *)
Definition read_checked (p : list Z) (d : option (list Z)) : V (option (list Z * vfs_stat_t)) :=
  match d with
  | None => ret None
  | Some d => let! st := vfs_stat_path p in ret ((fun st => (d, st)) <$> st)
  end.

Definition vfs_read (p : list Z) (cap : nat) : V (option (list Z * vfs_stat_t)) :=
  let! ok := allowed p VFS_ACCESS_READ in
  if negb ok then ret None else
  let! s := get in
  if starts p (text "/proc/") then read_checked p (procfs_read p cap (venv s))
  else if starts p (text "/tmp/") then read_checked p (tmpfs_load p cap (vtmp s))
  else vfs_read_raw p cap.

(** ** Writing *)

(** The result code and the bytes written. *)
Definition vfs_write_raw (p d : list Z) : V (Z * nat) :=
  let done := (VFS_WRITE_OK, length d) in
  if equal p (text "/dev/full") then ret (VFS_WRITE_NO_SPACE, 0%nat) else
  if among p (map text ["/dev/null"; "/dev/zero"; "/dev/empty"]%string) then ret done else
  if among p (map text ["/dev/random"; "/dev/urandom"]%string) then
    let! ok := in_env (random_mix d) in ret (if ok then done else (VFS_WRITE_ERROR, 0%nat))
  else
  let! ok := (if (starts p (text "/home/") || starts p (text "/mnt/os64/")) && Nat.leb (length d) 512
              then in_env (disk_store p d) else ret false) in
  if ok then ret done else
  let! ok := (if native_path p then in_env (varfs_store p d) else ret false) in
  ret (if ok then done else (VFS_WRITE_ERROR, 0%nat)).

Definition vfs_write (p d : list Z) : V (Z * option nat) :=
  let! ok := allowed p VFS_ACCESS_WRITE in
  if negb ok then ret (VFS_WRITE_ERROR, None) else
  if starts p (text "/tmp/") then
    let! s := get in
    let e := venv s in
    let! ok := in_tmp (tmpfs_store p d (u16 (Z.land 0x1b6 (Z.lnot (auth_umask e)))) (auth_getuid e) (auth_getgid e)) in
    ret (if ok then (VFS_WRITE_OK, Some (length d)) else (VFS_WRITE_ERROR, None))
  else let! '(r, n) := vfs_write_raw p d in ret (r, Some n).

Definition vfs_remove_raw (p : list Z) : V bool :=
  if starts p (text "/home/") || starts p (text "/mnt/os64/") then in_env (disk_remove p)
  else if native_path p then in_env (varfs_remove p) else ret false.

Definition vfs_remove (p : list Z) : V bool :=
  let! ok := allowed p VFS_ACCESS_WRITE in
  if negb ok then ret false else
  if starts p (text "/tmp/") then in_tmp (tmpfs_remove p) else vfs_remove_raw p.

(** ** Directories *)

Definition mount_source (p : list Z) (e : E) : list Z :=
  if starts p (text "/dev") then text "devfs" else
  if starts p (text "/proc") then text "procfs (ro)" else
  if starts p (text "/tmp") then text "tmpfs" else
  if starts p (text "/home") || starts p (text "/mnt/os64") then text "/dev/sda1 (fat32)" else
  if starts p (text "/var") || starts p (text "/root") || starts p (text "/mnt") then
    match varfs_type e !! 3%nat with
    | Some c => if c =? 52 then text "/dev/sda2 (ext4)" else if c =? 51 then text "/dev/sda2 (ext3)" else text "/dev/sda2 (ext2)"
    | None => text "/dev/sda2 (ext2)"
    end
  else text "initramfs (ro)".

(** The files [l], with their types, that lie in [dir], each name once. *)
Fixpoint children (dir : list Z) (l : list (list Z * Z)) (seen : list (list Z)) : list (list Z * Z) :=
  match l with
  | [] => []
  | (full, ty) :: l =>
    match child dir full ty with
    | Some (name, ty) => if among name seen then children dir l seen else (name, ty) :: children dir l (name :: seen)
    | None => children dir l seen
    end
  end.

Definition dev_names : list (list Z) :=
  map text ["sda"; "sda1"; "sda2"; "net0"; "console"; "null"; "zero"; "full"; "empty"; "random"; "urandom"]%string.
Definition mount_names : list (list Z) := map text ["dev"; "proc"; "home"; "mnt"; "var"; "tmp"]%string.

(** Everything a directory lists, in order: the [wanted]th entry is what a call
    gives. *)
Definition listing (p : list Z) (e : E) : list vfs_dirent_t :=
  if equal p (text "/dev") then
    imap (fun i n => Dirent n (if Nat.ltb i 3 then VFS_TYPE_BLOCK_DEVICE else VFS_TYPE_CHAR_DEVICE) VFS_RAMFS) dev_names
  else if among p (map text ["/home"; "/mnt/os64"]%string) then
    map (fun f => Dirent (take 95 (df_name f)) (df_type f) VFS_FAT32) (disk_files e)
  else if starts p (text "/home/") || starts p (text "/mnt/os64/") then [] else
  let fs := children p (map (fun f => (ff_name f, ff_type f)) (fs_files e)) [] in
  (if among p (map text ["/var"; "/root"; "/tmp"; "/mnt"]%string) then
     map (fun c => Dirent (fst c) (snd c) VFS_EXT2) (children p (map (fun n => (n, 0)) (varfs_paths e)) [])
   else [])
  ++ map (fun c => Dirent (fst c) (snd c) VFS_INITRAMFS) fs
  ++ (if equal p (text "/") then
        map (fun n => Dirent n 1 VFS_RAMFS) (List.filter (fun n => negb (among n (map fst fs))) mount_names)
      else []).

Definition vfs_readdir_raw (p : list Z) (wanted : nat) : V (option vfs_dirent_t) :=
  let! s := get in ret (listing p (venv s) !! wanted).

Definition vfs_readdir (p : list Z) (i : nat) : V (option vfs_dirent_t) :=
  let! s := get in
  if equal p (text "/proc") then
    ret ((fun n => Dirent (take 95 n) VFS_TYPE_FILE VFS_PROCFS) <$> procfs_names (venv s) !! i)
  else if equal p (text "/tmp") then
    ret ((fun e => Dirent (drop 5 (fst e)) VFS_TYPE_FILE VFS_TMPFS) <$> tmpfs_at i 96 (vtmp s))
  else
  let! ok := allowed p (Z.lor VFS_ACCESS_READ VFS_ACCESS_EXECUTE) in
  if ok then vfs_readdir_raw p i else ret None.

End vfs.
