(* ===== verification/VfsTheorems.v ===== *)
(** * The virtual file system: a file is safe from other users

    Whatever a user calls who is neither root nor the owner, a temporary file
    keeps its contents, mode and owner unless its mode lets that user write, by
    the bits for the group when the user is in it and by those for others when
    not; and it is read only when its mode lets that user read. *)

From stdpp Require Import base numbers list gmap strings.
From Stdlib Require Import ZArith Lia.
From S2P Require Import Prelude Effects Tmpfs Vfs.

(** Who is logged in. *)
Definition account {E} `{VfsEnv E} (e : E) : bool * Z * Z * Z := (auth_is_root e, auth_getuid e, auth_getgid e, auth_getgroups e).

(** The backends do not log anybody in. *)
Class VfsLaws (E : Type) `{VfsEnv E} := {
  keep_varfs_store p d e : account (snd (varfs_store p d e)) = account e;
  keep_varfs_remove p e : account (snd (varfs_remove p e)) = account e;
  keep_varfs_chmod p m e : account (snd (varfs_chmod p m e)) = account e;
  keep_varfs_chown p u g su sg e : account (snd (varfs_chown p u g su sg e)) = account e;
  keep_disk_store p d e : account (snd (disk_store p d e)) = account e;
  keep_disk_remove p e : account (snd (disk_remove p e)) = account e;
  keep_random_read n e : account (snd (random_read n e)) = account e;
  keep_random_mix d e : account (snd (random_mix d e)) = account e
}.

(** ** Paths *)

Lemma starts_among p q l :
  starts p q = true -> forallb (fun x => negb (starts x q)) l = true -> among p l = false.
Proof.
  intros Hp Hl. apply not_true_iff_false. unfold among. rewrite existsb_exists. intros (x&Hx&Heq).
  apply bool_decide_eq_true in Heq as <-. rewrite forallb_forall in Hl. specialize (Hl p Hx). by rewrite Hp in Hl.
Qed.

Lemma starts_equal p q x : starts p q = true -> starts x q = false -> equal p x = false.
Proof. intros Hp Hx. apply bool_decide_eq_false. intros ->. congruence. Qed.

Lemma starts_proc p : starts p (text "/tmp/") = true -> starts p (text "/proc/") = false.
Proof.
  destruct p as [|x [|y p]]; [done|intros Hp; cbn in Hp; by rewrite andb_false_r in Hp|]. intros Hp. apply andb_prop in Hp as [_ Hp]. apply andb_prop in Hp as [Hy%Z.eqb_eq _].
  subst y. change (starts (x :: 116 :: p) (text "/proc/")) with ((x =? 47) && false). apply andb_false_r.
Qed.

(** ** The file in the table *)

Definition holds (p : list Z) (f : file) (t : list node_t) : Prop :=
  exists t1 x t2, t = t1 ++ x :: t2 /\ Forall (fun y => named p y = false) t1 /\ named p x = true /\ file_of x = f.

Lemma holds_find p f t : holds p f t -> exists x, (tmpfs_find p t ≫= (t !!.)) = Some x /\ file_of x = f.
Proof.
  intros (t1&x&t2&->&H1&Hx&Hf). exists x. split; [|done]. unfold tmpfs_find.
  destruct (node_index (named p) (t1 ++ x :: t2)) as [i|] eqn:E; cbn [mbind option_bind].
  - apply find_split in E as (u1&y&u2&Heq&Hi&Hy&Hu).
    assert (length u1 = length t1) as Hl.
    { destruct (Nat.lt_trichotomy (length u1) (length t1)) as [Hlt|[?|Hlt]]; [|done|].
      - assert (t1 !! length u1 = Some y) as Hy1.
        { rewrite <- (lookup_app_l t1 (x :: t2)) by done. rewrite Heq. by apply list_lookup_middle. }
        rewrite Forall_lookup in H1. specialize (H1 _ _ Hy1). cbn in H1. congruence.
      - assert (u1 !! length t1 = Some x) as Hx1.
        { rewrite <- (lookup_app_l u1 (y :: u2)) by done. rewrite <- Heq. by apply list_lookup_middle. }
        rewrite Forall_lookup in Hu. specialize (Hu _ _ Hx1). cbn in Hu. congruence. }
    rewrite <- Hi, Hl. by apply list_lookup_middle.
  - apply find_none in E. apply Forall_app in E as [_ [E _]%Forall_cons]. congruence.
Qed.

(** A change to a node that is not the file's. *)
Lemma holds_alter p f (g : node_t -> node_t) t i :
  holds p f t -> (forall y, t !! i = Some y -> named p y = false /\ named p (g y) = false) -> holds p f (alter g i t).
Proof.
  intros (t1&x&t2&->&H1&Hx&Hf) Hi. destruct (Nat.lt_trichotomy i (length t1)) as [Hlt|[->|Hgt]].
  - exists (alter g i t1), x, t2. split_and!; try done; [by rewrite alter_app_l|].
    destruct (lookup_lt_is_Some_2 t1 i Hlt) as [y Hy]. destruct (Hi y) as [_ Hgy]; [by rewrite lookup_app_l|].
    apply Forall_alter; [done|]. intros z Hz _. rewrite Hy in Hz. by injection Hz as <-.
  - destruct (Hi x) as [Hn _]; [by apply list_lookup_middle|]. congruence.
  - assert (exists k, i = (length t1 + S k)%nat) as [k ->] by (exists (i - length t1 - 1)%nat; lia).
    exists t1, x, (alter g k t2). split_and!; try done. by rewrite alter_app_r.
Qed.

Lemma named_other p q x : named q x = true -> q <> p -> named p x = false.
Proof. intros [Hu Hq]%named_true Hne. unfold named. rewrite Hu, bool_decide_false by congruence. done. Qed.

Lemma holds_update p f q g t :
  holds p f t -> q <> p -> (forall x, n_path (g x) = n_path x \/ n_path (g x) = []) -> holds p f (snd (tmpfs_update q g t)).
Proof.
  intros Ht Hne Hg. unfold tmpfs_update, tmpfs_find. destruct (node_index (named q) t) as [i|] eqn:E; [|done]. cbn [snd].
  apply find_split in E as (u1&y&u2&Heq&Hi&Hy&_). apply holds_alter; [done|]. intros z Hz.
  rewrite Heq, list_lookup_middle in Hz by done. injection Hz as <-. split; [by eapply named_other|].
  pose proof (proj1 (named_true _ _) Hy) as [Hu Hq]. unfold named, used. destruct (Hg y) as [-> | ->]; [|done].
  rewrite Hq, bool_decide_false by done. apply andb_false_r.
Qed.

Lemma holds_store p f q d m u g t :
  holds p f t -> q <> p -> Nat.lt (length p) 95 -> holds p f (snd (tmpfs_store q d m u g t)).
Proof.
  intros Ht Hne Hp. unfold tmpfs_store. destruct (Nat.ltb DATA (length d)); [done|].
  destruct (tmpfs_find q t) as [i|] eqn:Ef.
  { pose proof (holds_update p f q (put_data d) t Ht Hne) as Hu. unfold tmpfs_update in Hu. rewrite Ef in Hu. apply Hu. auto. }
  destruct (node_index _ t) as [i|] eqn:E; [|done]. cbn [snd].
  replace (<[i := _]> t) with (alter (fun _ => Node (take 95 q) d m u g) i t); cycle 1.
  { apply find_split in E as (t1&x&t2&->&Hi&_). by rewrite (alter_middle _ _ _ _ _ Hi), (insert_middle _ _ _ _ _ Hi). }
  apply holds_alter; [done|]. apply find_split in E as (t1&x&t2&->&Hi&Hx%negb_true_iff&_). intros y Hy.
  rewrite list_lookup_middle in Hy by done. injection Hy as <-. split; [unfold named; by rewrite Hx|].
  unfold named. cbn [n_path]. rewrite bool_decide_false; [apply andb_false_r|]. intros Heq. unfold Nat.lt in Hp.
  destruct (decide (length q <= 95)%nat); [rewrite take_ge in Heq by lia; congruence|].
  apply (f_equal length) in Heq. rewrite length_take in Heq. lia.
Qed.

Section stranger.

Context {E : Type} `{VfsLaws E}.

#[local] Abbreviation V := (M (vfs E)).

Context (p : list Z) (f : file).
Context (Htmp : starts p (text "/tmp/") = true) (Hshort : Nat.lt (length p) 95).

(** Somebody else: not root and not the owner. *)
Record stranger (e : E) : Prop := { not_root : auth_is_root e = false; not_owner : f_uid f <> auth_getuid e }.

(** The numbers of the groups a user can be a member of besides the main one,
    each with its bit in the account's set. *)
Definition group_bits : list (Z * Z) :=
  [(0, 0); (10, 1); (100, 2); (101, 3); (102, 4); (103, 5); (104, 6); (105, 7); (106, 8); (107, 9)].

(** The user is in the file's group. *)
Definition in_group (e : E) : bool :=
  (f_gid f =? auth_getgid e) || existsb (fun '(g, i) => (g =? f_gid f) && Z.testbit (auth_getgroups e) i) group_bits.

(** Whether the mode gives the user the right of bit [i]: 0 to execute, 1 to
    write, 2 to read. *)
Definition right_to (i : Z) (e : E) : bool := Z.testbit (f_mode f) (if in_group e then i + 3 else i).

(** As far as the file's rights go, two users are the same. *)
Definition like (e0 e : E) : Prop := stranger e /\ in_group e = in_group e0.

Lemma like_account e0 e e' : account e' = account e -> like e0 e -> like e0 e'.
Proof.
  unfold account. intros [= H1 H2 H3 H4] [[? ?] Hg]. split; [constructor; congruence|]. rewrite <- Hg. unfold in_group. by rewrite H3, H4.
Qed.

Lemma land_single x i : 0 <= i -> z2b (Z.land (Z.shiftl 1 i) x) = Z.testbit x i.
Proof.
  intros Hi. unfold z2b. rewrite Z.land_comm, Z.shiftl_1_l.
  assert (Z.land x (2 ^ i) = if Z.testbit x i then 2 ^ i else 0) as ->.
  { apply Z.bits_inj'. intros j Hj. rewrite Z.land_spec, Z.pow2_bits_eqb by lia. destruct (Z.eqb_spec i j) as [->|Hne].
    - rewrite andb_true_r. destruct (Z.testbit x j) eqn:Ej; [by rewrite Z.pow2_bits_true|by rewrite Z.bits_0].
    - rewrite andb_false_r. destruct (Z.testbit x i); [by rewrite Z.pow2_bits_false by lia|by rewrite Z.bits_0]. }
  destruct (Z.testbit x i); [|done]. by rewrite (proj2 (Z.eqb_neq _ _)) by (apply Z.pow_nonzero; lia).
Qed.

(** The code's mask of a group is the bit of the table. *)
Lemma gid_group_bit g x :
  z2b (Z.land (gid_group g) x) = existsb (fun '(k, i) => (k =? g) && Z.testbit x i) group_bits.
Proof.
  destruct (decide (In g (map fst group_bits))) as [Hin|Hout].
  - cbn [map fst group_bits In] in Hin.
    repeat (destruct Hin as [<-|Hin];
      [match goal with |- z2b (Z.land (gid_group ?k) _) = _ => let v := eval vm_compute in (Z.log2 (gid_group k)) in
         change (gid_group k) with (Z.shiftl 1 v); rewrite land_single by lia end;
       cbn [existsb group_bits Z.eqb Pos.eqb andb orb]; by rewrite ?orb_false_r|]).
    done.
  - assert (existsb (fun '(k, i) => (k =? g) && Z.testbit x i) group_bits = false) as ->.
    { apply not_true_iff_false. rewrite existsb_exists. intros ([k i] & Hki & [Hk _]%andb_prop). apply Z.eqb_eq in Hk as ->.
      apply Hout, in_map_iff. by exists (g, i). }
    assert (gid_group g = 0) as ->; [|done]. unfold gid_group. cbn [map fst group_bits In] in Hout.
    rewrite !(proj2 (Z.eqb_neq _ _)) by (intros ->; apply Hout; auto 12).
    destruct ((101 <=? g) && (g <=? 107)) eqn:Er; [|done]. breflect. exfalso. apply Hout.
    assert (g = 101 \/ g = 102 \/ g = 103 \/ g = 104 \/ g = 105 \/ g = 106 \/ g = 107) by lia.
    intuition (subst; auto 12).
Qed.

Context (e0 : E).

Definition inv (s : vfs E) : Prop := like e0 (venv s) /\ holds p f (vtmp s).

Lemma stat_file s :
  holds p f (vtmp s) ->
  stat_raw p s = Ok (Some (Stat (length (f_data f)) (f_mode f) (f_uid f) (f_gid f) VFS_TYPE_FILE VFS_TMPFS)).
Proof.
  intros Ht. unfold stat_raw.
  rewrite !(starts_among p (text "/tmp/")) by (done || by vm_compute).
  rewrite !(starts_equal p (text "/tmp/")) by (done || by vm_compute). rewrite Htmp. unfold tmpfs_stat.
  destruct (holds_find p f _ Ht) as (x&->&<-). done.
Qed.

Lemma land_access x i : 0 <= i -> (Z.land x (2 ^ i) =? 2 ^ i) = Z.testbit x i.
Proof.
  intros Hi. rewrite <- (land_single x i Hi), Z.shiftl_1_l, (Z.land_comm (2 ^ i)). unfold z2b.
  assert (Hc : Z.land x (2 ^ i) = 0 \/ Z.land x (2 ^ i) = 2 ^ i).
  { destruct (Z.testbit x i) eqn:Ei; [right|left]; apply Z.bits_inj'; intros j Hj;
      rewrite Z.land_spec, ?Z.bits_0, Z.pow2_bits_eqb by lia; destruct (Z.eqb_spec i j) as [->|]; rewrite ?Ei, ?andb_true_r, ?andb_false_r; done. }
  assert (2 ^ i <> 0) by (apply Z.pow_nonzero; lia).
  destruct Hc as [-> | ->]; [by rewrite (proj2 (Z.eqb_neq 0 (2 ^ i)))|by rewrite Z.eqb_refl, (proj2 (Z.eqb_neq _ _))].
Qed.

(** The bits for the group or for others decide. *)
Lemma stranger_allowed i s : 0 <= i -> inv s -> vfs_check_permission p (2 ^ i) s = Ok (right_to i e0).
Proof.
  intros Hi [[[Hr Ho] Hg] Ht]. unfold vfs_check_permission. rewrite Hr, stat_file by done. cbn [obind]. unfold mode_allows.
  cbn [st_uid st_gid st_mode]. rewrite gid_group_bit. fold (in_group (venv s)). rewrite Hg, (proj2 (Z.eqb_neq _ _) Ho).
  unfold right_to. destruct (in_group e0); rewrite land_access by done; [|done]. by rewrite Z.shiftr_spec.
Qed.

(** Paths on which the owner look-up stays inside the string. *)
Definition path_ok (q : list Z) : Prop := starts q (text "/mnt/os64/") = true -> (12 <= length q)%nat.

Lemma starts_length q r : starts q r = true -> (length r <= length q)%nat.
Proof.
  revert q. induction r as [|c r IH]; intros [|x q]; cbn [starts length]; try done; try lia.
  intros [_ Hs]%andb_prop. apply IH in Hs. lia.
Qed.

Lemma home_owner_returns q (e : E) : path_ok q -> exists o, home_owner q e = Ok o.
Proof.
  intros Hq. unfold home_owner, advance. destruct (starts q (text "/home/")) eqn:Hh.
  - apply starts_length in Hh. change (length (text "/home/")) with 6%nat in Hh. rewrite (proj2 (Nat.leb_le _ _)) by lia. by eexists.
  - destruct (starts q (text "/mnt/os64/")) eqn:Hm; [|by eexists]. apply Hq in Hm.
    rewrite (proj2 (Nat.leb_le _ _)) by lia. by eexists.
Qed.

(** Splits a program that only decides. *)
Ltac returns :=
  repeat match goal with
  | |- exists o, Ok ?x = Ok o => by exists x
  | |- exists o, (if ?b then _ else _) = Ok o => destruct b
  | |- exists o, match ?x with _ => _ end = Ok o => destruct x
  end.

Lemma stat_home_returns q (e : E) : path_ok q -> exists o, stat_home q e = Ok o.
Proof. intros Hq. unfold stat_home. destruct (home_owner_returns q e Hq) as [o ->]. cbn [obind]. returns. Qed.

Lemma stat_returns q (s : vfs E) : path_ok q -> exists o, stat_raw q s = Ok o.
Proof.
  intros Hq. unfold stat_raw. destruct (stat_home_returns q (venv s) Hq) as [o Ho]. rewrite Ho.
  assert (Hh : exists o', (if starts q (text "/home/") || starts q (text "/mnt/os64/") then Ok o else Ok None) = Ok o')
    by (destruct (_ || _); by eexists).
  destruct Hh as [o' ->]. cbn [obind]. returns.
Qed.

Lemma check_returns q access (s : vfs E) : path_ok q -> exists b, vfs_check_permission q access s = Ok b.
Proof.
  intros Hq. unfold vfs_check_permission. destruct (auth_is_root _); [by eexists|].
  destruct (stat_returns q s Hq) as [[st|] ->]; cbn [obind]; [by eexists|].
  destruct (home_owner_returns q (venv s) Hq) as [[[o ?]|] ->]; cbn [obind]; returns.
Qed.

(** ** Programs that return and leave the file alone *)

Definition steps {A} (m : V A) : Prop := forall s, inv s -> exists a s', m s = Ok (a, s') /\ inv s'.

Lemma steps_ret {A} (a : A) : steps (ret a).
Proof. intros s Hs. by exists a, s. Qed.

Lemma steps_bind {A B} (m : V A) (k : A -> V B) : steps m -> (forall a, steps (k a)) -> steps (bind m k).
Proof. intros Hm Hk s Hs. unfold bind. destruct (Hm s Hs) as (a&s1&->&Hs1). by apply Hk. Qed.

Lemma steps_get {A} (k : vfs E -> V A) : (forall s, inv s -> steps (k s)) -> steps (let! s := get in k s).
Proof. intros Hk s Hs. exact (Hk s Hs s Hs). Qed.

Lemma steps_lift {A B} (o : outcome A) (k : A -> V B) : (exists a, o = Ok a) -> (forall a, steps (k a)) -> steps (let! a := lift_v o in k a).
Proof. intros [a ->] Hk s Hs. exact (Hk a s Hs). Qed.

Lemma steps_env {A} (g : E -> A * E) : (forall e, account (snd (g e)) = account e) -> steps (in_env g).
Proof.
  intros Hg s [Hst Ht]. unfold in_env. specialize (Hg (venv s)). destruct (g (venv s)) as [a e]. cbn [snd] in Hg.
  eexists a, _. split; [done|]. split; [by eapply like_account|done].
Qed.

Lemma steps_tmp {A} (g : list node_t -> A * list node_t) :
  (forall t, holds p f t -> holds p f (snd (g t))) -> steps (in_tmp g).
Proof.
  intros Hg s [Hst Ht]. unfold in_tmp. specialize (Hg _ Ht). destruct (g (vtmp s)) as [a t]. by eexists a, _.
Qed.

Lemma steps_if {A} (b : bool) (m1 m2 : V A) : steps m1 -> steps m2 -> steps (if b then m1 else m2).
Proof. by destruct b. Qed.

Lemma steps_allowed q access : path_ok q -> steps (allowed q access).
Proof.
  intros Hq. apply steps_get. intros s Hs s1 Hs1. unfold lift_v. destruct (check_returns q access s Hq) as [b ->].
  by exists b, s1.
Qed.

(** A program that asks for permission first, and goes on with another file only
    when the stranger was denied. *)
Lemma steps_guard {A} q i (k : bool -> V A) :
  path_ok q -> 0 <= i -> right_to i e0 = false -> steps (k false) -> (q <> p -> steps (k true)) ->
  steps (let! ok := allowed q (2 ^ i) in k ok).
Proof.
  intros Hq Hi Hno Hf Ht s Hs. unfold allowed. unfold bind at 1, bind at 1, get, lift_v. destruct (decide (q = p)) as [->|Hne].
  - rewrite stranger_allowed, Hno by done. cbn [obind]. by apply Hf.
  - destruct (check_returns q (2 ^ i) s Hq) as [b ->]. cbn [obind]. destruct b; [by apply Ht|by apply Hf].
Qed.

Create HintDb vfs.
#[local] Hint Resolve steps_ret steps_allowed : vfs.
#[local] Hint Resolve keep_varfs_store keep_varfs_remove keep_varfs_chmod keep_varfs_chown keep_disk_store keep_disk_remove
  keep_random_read keep_random_mix : vfs.
#[local] Hint Extern 2 (steps (in_env _)) => apply steps_env; intros ?; eauto with vfs : vfs.

(** One statement. *)
Ltac vstep :=
  match goal with
  | |- steps (let! s := get in _) => apply steps_get; intros ? ?
  | |- steps (let! a := lift_v _ in _) => apply steps_lift; [by apply stat_returns|intros ?]
  | |- steps (bind _ _) => apply steps_bind; [|intros ?]
  | |- steps (if _ then _ else _) => apply steps_if
  | |- steps (match ?o with _ => _ end) => destruct o
  | |- steps _ => solve [auto with vfs]
  end.

Lemma steps_read q cap : path_ok q -> steps (vfs_read q cap).
Proof. intros Hq. unfold vfs_read, read_checked, vfs_read_raw, vfs_stat_path. repeat vstep. Qed.

Lemma steps_stat q : path_ok q -> steps (vfs_stat_path q).
Proof. intros Hq. unfold vfs_stat_path. repeat vstep. Qed.

Lemma steps_readdir q i : path_ok q -> steps (vfs_readdir q i).
Proof. intros Hq. unfold vfs_readdir, vfs_readdir_raw. repeat vstep. Qed.

Lemma steps_write q d : path_ok q -> right_to 1 e0 = false -> steps (vfs_write q d).
Proof.
  intros Hq Hw. unfold vfs_write. apply (steps_guard q 1); [done|done|done|apply steps_ret|]. intros Hne. cbn [negb].
  unfold vfs_write_raw. repeat vstep. apply steps_tmp. intros t Ht. by apply holds_store.
Qed.

Lemma steps_remove q : path_ok q -> right_to 1 e0 = false -> steps (vfs_remove q).
Proof.
  intros Hq Hw. unfold vfs_remove. apply (steps_guard q 1); [done|done|done|apply steps_ret|]. intros Hne. cbn [negb].
  unfold vfs_remove_raw. repeat vstep. apply steps_tmp. intros t Ht. apply holds_update; [done|done|]. auto.
Qed.

Lemma steps_chmod q m : path_ok q -> steps (vfs_chmod q m).
Proof.
  intros Hq. unfold vfs_chmod. apply steps_get. intros s Hs. destruct (decide (q = p)) as [->|Hne].
  - destruct Hs as [Hst Ht]. rewrite (stat_file s Ht). intros s1 Hs1. cbn. destruct Hst as [[Hr Ho] _].
    rewrite Hr, (proj2 (Z.eqb_neq _ _)) by done. cbn. by exists false, s1.
  - repeat vstep. apply steps_tmp. intros t Ht. apply holds_update; [done|done|]. auto.
Qed.

Lemma steps_chown q u g su sg : path_ok q -> steps (vfs_chown q u g su sg).
Proof.
  intros Hq. unfold vfs_chown. apply steps_get. intros s [[Hst _] _]. rewrite (not_root _ Hst). cbn [negb]. apply steps_ret.
Qed.

End stranger.

(** ** Calls of a user *)

Inductive vfs_call :=
| Read (q : list Z) (cap : nat)
| Write (q d : list Z)
| Remove (q : list Z)
| Chmod (q : list Z) (m : Z)
| Chown (q : list Z) (u g : Z) (su sg : bool)
| StatPath (q : list Z)
| ReadDir (q : list Z) (i : nat).

Definition call_path (c : vfs_call) : list Z :=
  match c with Read q _ | Write q _ | Remove q | Chmod q _ | Chown q _ _ _ _ | StatPath q | ReadDir q _ => q end.

Definition run_call {E} `{VfsEnv E} (c : vfs_call) : M (vfs E) unit :=
  match c with
  | Read q cap => vfs_read q cap ;; ret tt
  | Write q d => vfs_write q d ;; ret tt
  | Remove q => vfs_remove q ;; ret tt
  | Chmod q m => vfs_chmod q m ;; ret tt
  | Chown q u g su sg => vfs_chown q u g su sg ;; ret tt
  | StatPath q => vfs_stat_path q ;; ret tt
  | ReadDir q i => vfs_readdir q i ;; ret tt
  end.

(** C19. A file is safe from other users.  Take a temporary file with a path of
    fewer than 95 characters and a user who is neither root nor its owner: a
    member of its group or not, in which case the bits of its mode for the group
    or for others say what the user may do.  When they do not let the user write,
    then whatever calls that user makes, on whatever paths (of the mounted home
    disk, at least two characters long below it), every call returns and the file
    keeps its contents, mode, owner and group.  Reading it then gives its contents
    when the user may read and the buffer is large enough, and nothing when the
    user may not. *)
Theorem stranger_cannot_change {E} `{VfsLaws E} (p : list Z) (f : file) (calls : list vfs_call) (s : vfs E) (cap : nat) :
  starts p (text "/tmp/") = true -> Nat.lt (length p) 95 -> stranger f (venv s) -> holds p f (vtmp s) ->
  right_to f 1 (venv s) = false -> Forall (fun c => path_ok (call_path c)) calls ->
  exists s', each calls run_call s = Ok (tt, s') /\ holds p f (vtmp s') /\
    tmpfs_stat p (vtmp s') = Some (length (f_data f), f_mode f, f_uid f, f_gid f) /\
    exists r, vfs_read p cap s' = Ok (r, s') /\
      (right_to f 2 (venv s) = false -> r = None) /\
      (right_to f 2 (venv s) = true -> (length (f_data f) <= cap)%nat -> exists st, r = Some (f_data f, st)).
Proof.
  intros Htmp Hp Hst Hf Hw Hc.
  assert (Hrun : steps p f (venv s) (each calls run_call)).
  { induction Hc as [|c calls Hq _ IH]; [apply steps_ret|]. apply steps_bind; [|done].
    destruct c; cbn [run_call call_path] in *; (apply steps_bind; [|intros _; apply steps_ret]);
      auto using steps_read, steps_write, steps_remove, steps_chmod, steps_chown, steps_stat, steps_readdir. }
  destruct (Hrun s (conj (conj Hst eq_refl) Hf)) as ([]&s'&Hr&Hs'). exists s'. split; [done|]. pose proof Hs' as [_ Ht]. split; [done|].
  destruct (holds_find p f _ Ht) as (x&Hx&Hfx). split; [unfold tmpfs_stat; by rewrite Hx, <- Hfx|].
  pose proof (stranger_allowed p f Htmp Hp (venv s) 2 s' ltac:(lia) Hs') as Ha. change (2 ^ 2) with VFS_ACCESS_READ in Ha.
  unfold vfs_read, allowed. unfold bind at 1, bind at 1, get, lift_v. rewrite Ha. cbn [obind].
  destruct (right_to f 2 (venv s)) eqn:Er; cbn [negb]; [|by exists None].
  unfold bind at 1. rewrite (starts_proc p Htmp), Htmp. unfold read_checked, tmpfs_load. rewrite Hx.
  assert (n_data x = f_data f) as -> by (by rewrite <- Hfx). destruct (Nat.ltb_spec cap (length (f_data f))) as [Hlt|Hle].
  { exists None. split; [done|]. split; [done|]. intros _ Hle. lia. }
  unfold vfs_stat_path, allowed, bind, get, lift_v, ret. rewrite (stat_file p f Htmp s' Ht). cbn [obind]. rewrite Ha. cbn [obind].
  eexists. split; [done|]. split; [done|]. intros _ _. by eexists.
Qed.

(** ** A machine for the witness: two users and no files but temporary ones *)

Record users := Users { me : Z }.

#[export] Instance users_env : VfsEnv users := {
  auth_is_root u := me u =? 0; auth_getuid u := me u; auth_getgid _ := 100; auth_getgroups _ := AUTH_GROUP_USERS;
  auth_current_role _ := AUTH_STANDARD; auth_umask _ := 0x12;
  auth_lookup n _ := if bool_decide (n = text "bob") then Some (1001, 100) else None;
  varfs_type _ := text "ext4"; varfs_paths _ := [];
  varfs_stat _ _ := None; varfs_load _ _ _ := None;
  varfs_store _ _ e := (false, e); varfs_remove _ e := (false, e); varfs_chmod _ _ e := (false, e);
  varfs_chown _ _ _ _ _ e := (false, e);
  disk_files _ := []; disk_load _ _ := None; disk_store _ _ e := (false, e); disk_remove _ e := (false, e);
  fs_files _ := []; fs_find _ _ := None; procfs_names _ := []; procfs_read _ _ _ := None; random_read _ e := (None, e); random_mix _ e := (false, e)
}.

#[export] Instance users_laws : VfsLaws users.
Proof. by constructor. Defined.

(** Two ordinary users share the group 100: one's file lets the group read. *)
Definition note : file := File [115; 51] 0x1a0 1000 100.
Definition note_path : list Z := text "/tmp/key".
Definition with_note : list node_t := Node note_path [115; 51] 0x1a0 1000 100 :: replicate 31 no_node.

Lemma stranger_witness :
  exists s', each [Write note_path [0]; Remove note_path; Chmod note_path 0x1ff; Write (text "/tmp/x") [1; 2]; ReadDir (text "/tmp") 0] run_call
    (VFS (Users 1001) with_note) = Ok (tt, s') /\ holds note_path note (vtmp s') /\
    exists st, vfs_read note_path 100 s' = Ok (Some ([115; 51], st), s').
Proof.
  destruct (stranger_cannot_change note_path note
    [Write note_path [0]; Remove note_path; Chmod note_path 0x1ff; Write (text "/tmp/x") [1; 2]; ReadDir (text "/tmp") 0]
    (VFS (Users 1001) with_note) 100) as (s'&Hrun&Hh&_&r&Hread&_&Hyes).
  - reflexivity.
  - vm_compute. lia.
  - constructor; vm_compute; congruence.
  - exists [], (Node note_path [115; 51] 0x1a0 1000 100), (replicate 31 no_node). split_and!; [reflexivity|constructor|reflexivity|reflexivity].
  - reflexivity.
  - repeat (apply Forall_cons; split; [intros Hs; vm_compute in Hs; discriminate|]). constructor.
  - exists s'. split; [exact Hrun|]. split; [exact Hh|]. destruct Hyes as [st ->]; [reflexivity|cbn; lia|]. exists st. exact Hread.
Defined.

(** Below /mnt/os64 the owner is looked up two characters too far: a directory
    named xxbob belongs to bob, bob's own to nobody, and the mount point with a
    slash is read past its end. *)
Lemma home_owner_skips :
  home_owner (text "/mnt/os64/xxbob/f") (Users 1001) = Ok (Some (1001, 100)) /\
  home_owner (text "/mnt/os64/bob/f") (Users 1001) = Ok None /\
  home_owner (text "/mnt/os64/") (Users 1001) = Undefined.
Proof. vm_compute. done. Qed.
