(* ===== verification/Elf.v ===== *)
(** * The program loader (src/kernel/core/elf.c)

    The headers are read from the image; a read outside it is [Undefined].  The
    memory programs are loaded to is a function from addresses to bytes, and does
    not hold the image; it is part of every result, the errors included, because
    segments are copied before later ones are looked at.  The program itself is a
    parameter: the loader ends by calling it, and it may change the memory. *)

From stdpp Require Import base numbers list.
From Stdlib Require Import ZArith Lia.
From S2P Require Import Prelude.

(** The fields the loader uses. *)
Record ehdr_t := Ehdr { e_ident : list Z; e_type : Z; e_machine : Z; e_entry : Z; e_phoff : Z; e_phentsize : Z; e_phnum : Z }.
Record phdr_t := Phdr { ph_type : Z; ph_offset : Z; ph_vaddr : Z; ph_filesz : Z; ph_memsz : Z }.

Definition SIZEOF_EHDR : Z := 64.
Definition SIZEOF_PHDR : Z := 56.

(** [k] bytes at [off], least significant first. *)
Definition field (img : list Z) (off : Z) (k : nat) : outcome Z :=
  if (0 <=? off) && (off + Z.of_nat k <=? Z.of_nat (length img))
  then Ok (foldr (fun b v => b + 256 * v) 0 (take k (drop (Z.to_nat off) img))) else Undefined.

Definition read_ehdr (img : list Z) : outcome ehdr_t :=
  do type <- field img 16 2; do machine <- field img 18 2; do entry <- field img 24 8; do phoff <- field img 32 8;
  do phentsize <- field img 54 2; do phnum <- field img 56 2;
  Ok (Ehdr (take 5 img) type machine entry phoff phentsize phnum).

Definition read_phdr (img : list Z) (off : Z) : outcome phdr_t :=
  do type <- field img off 4; do offset <- field img (off + 8) 8; do vaddr <- field img (off + 16) 8;
  do filesz <- field img (off + 32) 8; do memsz <- field img (off + 40) 8;
  Ok (Phdr type offset vaddr filesz memsz).

Definition APP_START : Z := 0x800000.
Definition APP_END : Z := 0x1000000.

(** The bytes of the file, then zeroes; addresses are 64 bits wide. *)
Definition load_segment (img : list Z) (ph : phdr_t) (m : memory) : outcome memory :=
  if (ph_filesz ph =? 0) || (ph_offset ph + ph_filesz ph <=? Z.of_nat (length img)) then
    Ok (fun a =>
      let n := u64 (a - ph_vaddr ph) in
      if n <? ph_filesz ph then nth (Z.to_nat (ph_offset ph + n)) img 0 else if n <? ph_memsz ph then 0 else m a)
  else Undefined.

(** The memory, and the error code when the loop returns one. *)
Fixpoint load_segments (n : nat) (i : Z) (img : list Z) (h : ehdr_t) (m : memory) : outcome (memory * option Z) :=
  match n with
  | O => Ok (m, None)
  | S n =>
    do ph <- read_phdr img (u64 (e_phoff h + i * e_phentsize h));
    if negb (ph_type ph =? 1) then load_segments n (i + 1) img h m else
    if (Z.of_nat (length img) <? u64 (ph_offset ph + ph_filesz ph)) || (ph_memsz ph <? ph_filesz ph)
       || (ph_vaddr ph <? APP_START) || (APP_END <? u64 (ph_vaddr ph + ph_memsz ph)) then Ok (m, Some (-4)) else
    do m <- load_segment img ph m;
    load_segments n (i + 1) img h m
  end.

(** The memory, and the error code or the entry point. *)
Definition elf_load (img : list Z) (m : memory) : outcome (memory * (Z + Z)) :=
  let size := Z.of_nat (length img) in
  if size <? SIZEOF_EHDR then Ok (m, inl (-1)) else
  do h <- read_ehdr img;
  if negb (bool_decide (e_ident h = [0x7f; 69; 76; 70; 2])) || negb (e_machine h =? 62) || negb (e_type h =? 2) then Ok (m, inl (-2)) else
  if (size <? u64 (e_phoff h + e_phnum h * e_phentsize h)) || (e_phentsize h <? SIZEOF_PHDR) then Ok (m, inl (-3)) else
  do '(m, r) <- load_segments (Z.to_nat (e_phnum h)) 0 img h m;
  match r with
  | Some code => Ok (m, inl code)
  | None => if (e_entry h <? APP_START) || (APP_END <=? e_entry h) then Ok (m, inl (-5)) else Ok (m, inr (e_entry h))
  end.

(** [program] is what runs at an entry point. *)
Definition elf_execute (program : Z -> memory -> memory * Z) (img : list Z) (m : memory) : outcome (memory * Z) :=
  do '(m, r) <- elf_load img m;
  Ok (match r with inl code => (m, code) | inr entry => program entry m end).

(** ** Loading stays in the program's memory *)

Definition bytes (img : list Z) : Prop := Forall (fun b => 0 <= b < 256) img.

Lemma field_ok img off k : 0 <= off -> off + Z.of_nat k <= Z.of_nat (length img) -> bytes img ->
  exists v, field img off k = Ok v /\ 0 <= v < 256 ^ Z.of_nat k.
Proof.
  intros H0 Hk Hb. unfold field. rewrite (proj2 (Z.leb_le _ _)), (proj2 (Z.leb_le _ _)) by lia. cbn [andb].
  eexists. split; [done|]. set (l := take k (drop (Z.to_nat off) img)).
  assert (Hl : bytes l) by (apply Forall_take, Forall_drop, Hb).
  assert (Hlen : length l = k) by (unfold l; rewrite length_take, length_drop; lia).
  clearbody l. rewrite <- Hlen. clear -Hl. induction Hl as [|b l Hb _ IH]; cbn [foldr length]; [lia|].
  rewrite Nat2Z.inj_succ, Z.pow_succ_r by lia. lia.
Qed.

Record phdr_range (ph : phdr_t) : Prop := {
  r_offset : 0 <= ph_offset ph < 2 ^ 64; r_vaddr : 0 <= ph_vaddr ph < 2 ^ 64;
  r_filesz : 0 <= ph_filesz ph < 2 ^ 64; r_memsz : 0 <= ph_memsz ph < 2 ^ 64
}.

Lemma read_phdr_ok img off : 0 <= off -> off + 56 <= Z.of_nat (length img) -> bytes img ->
  exists ph, read_phdr img off = Ok ph /\ phdr_range ph.
Proof.
  intros H0 Hk Hb. unfold read_phdr.
  destruct (field_ok img off 4) as (v0&->&_); [lia..|done|]. destruct (field_ok img (off + 8) 8) as (v1&->&?); [lia..|done|].
  destruct (field_ok img (off + 16) 8) as (v2&->&?); [lia..|done|]. destruct (field_ok img (off + 32) 8) as (v3&->&?); [lia..|done|].
  destruct (field_ok img (off + 40) 8) as (v4&->&?); [lia..|done|]. cbn [obind]. eexists. split; [done|]. by constructor.
Qed.

(** The sums the loader compares do not wrap. *)
Definition plain_phdr (ph : phdr_t) : Prop :=
  ph_offset ph + ph_filesz ph < 2 ^ 64 /\ ph_vaddr ph + ph_memsz ph < 2 ^ 64.

Definition plain_image (img : list Z) (h : ehdr_t) : Prop :=
  e_phoff h + e_phnum h * e_phentsize h < 2 ^ 64 /\
  forall i ph, 0 <= i < e_phnum h -> read_phdr img (e_phoff h + i * e_phentsize h) = Ok ph -> plain_phdr ph.

Definition in_app (a : Z) : Prop := APP_START <= a < APP_END.

Definition confined (m m' : memory) : Prop := forall a, 0 <= a < 2 ^ 64 -> ~ in_app a -> m' a = m a.

(** ** What loading means *)

(** A program for this machine. *)
Definition elf64 (h : ehdr_t) : Prop := e_ident h = [0x7f; 69; 76; 70; 2] /\ e_machine h = 62 /\ e_type h = 2.

(** The table of segments lies in the image. *)
Definition table_ok (img : list Z) (h : ehdr_t) : Prop :=
  e_phoff h + e_phnum h * e_phentsize h <= Z.of_nat (length img) /\ SIZEOF_PHDR <= e_phentsize h.

(** [phs] are the headers from the [i]th on. *)
Definition headers_from (i : Z) (img : list Z) (h : ehdr_t) (phs : list phdr_t) : Prop :=
  i + Z.of_nat (length phs) = e_phnum h /\
  forall k ph, phs !! k = Some ph -> read_phdr img (e_phoff h + (i + Z.of_nat k) * e_phentsize h) = Ok ph.

Definition loadable (ph : phdr_t) : Prop := ph_type ph = 1.

#[export] Instance loadable_dec ph : Decision (loadable ph).
Proof. unfold loadable. apply _. Defined.

(** A segment whose bytes are in the image and whose place is in the memory of
    programs. *)
Definition fits (img : list Z) (ph : phdr_t) : Prop :=
  ph_offset ph + ph_filesz ph <= Z.of_nat (length img) /\ ph_filesz ph <= ph_memsz ph /\
  APP_START <= ph_vaddr ph /\ ph_vaddr ph + ph_memsz ph <= APP_END.

(** The byte a segment puts at an address: the file's, then zeroes. *)
Definition segment_byte (img : list Z) (ph : phdr_t) (a : Z) : option Z :=
  let n := a - ph_vaddr ph in
  if (0 <=? n) && (n <? ph_filesz ph) then Some (nth (Z.to_nat (ph_offset ph + n)) img 0)
  else if (0 <=? n) && (n <? ph_memsz ph) then Some 0 else None.

(** The memory with these segments put in one after the other. *)
Definition with_segments (img : list Z) (phs : list phdr_t) (m : memory) (a : Z) : Z :=
  fold_left (fun v ph => default v (segment_byte img ph a)) phs (m a).

Definition holds_segments (img : list Z) (phs : list phdr_t) (m m' : memory) : Prop :=
  forall a, 0 <= a < 2 ^ 64 -> m' a = with_segments img (filter loadable phs) m a.

(** What a call of the loader may do, by the first thing that is wrong. *)
Inductive elf_outcome (img : list Z) (m : memory) : memory -> Z + Z -> Prop :=
| TooShort : Z.of_nat (length img) < SIZEOF_EHDR -> elf_outcome img m m (inl (-1))
| NotElf h : read_ehdr img = Ok h -> ~ elf64 h -> elf_outcome img m m (inl (-2))
| BadTable h : read_ehdr img = Ok h -> elf64 h -> ~ table_ok img h -> elf_outcome img m m (inl (-3))
| BadSegment h before ph after m' :
    read_ehdr img = Ok h -> elf64 h -> table_ok img h -> headers_from 0 img h (before ++ ph :: after) ->
    Forall (fits img) (filter loadable before) -> loadable ph -> ~ fits img ph ->
    holds_segments img before m m' -> elf_outcome img m m' (inl (-4))
| BadEntry h phs m' :
    read_ehdr img = Ok h -> elf64 h -> table_ok img h -> headers_from 0 img h phs -> Forall (fits img) (filter loadable phs) ->
    holds_segments img phs m m' -> ~ in_app (e_entry h) -> elf_outcome img m m' (inl (-5))
| Loaded h phs m' :
    read_ehdr img = Ok h -> elf64 h -> table_ok img h -> headers_from 0 img h phs -> Forall (fits img) (filter loadable phs) ->
    holds_segments img phs m m' -> in_app (e_entry h) -> elf_outcome img m m' (inr (e_entry h)).

Lemma load_segment_spec img ph m :
  phdr_range ph -> plain_phdr ph -> fits img ph ->
  exists m', load_segment img ph m = Ok m' /\ forall a, 0 <= a < 2 ^ 64 -> m' a = default (m a) (segment_byte img ph a).
Proof.
  intros [] [] (Hf & Hm & Hv & He). unfold load_segment. rewrite (proj2 (Z.leb_le _ _) Hf), orb_true_r.
  eexists. split; [done|]. intros a Ha. cbv beta zeta. unfold segment_byte, APP_START, APP_END in *. cbv zeta.
  destruct (Z.leb_spec 0 (a - ph_vaddr ph)) as [Hge|Hlt]; cbn [andb].
  - rewrite u64_small by lia. destruct (a - ph_vaddr ph <? ph_filesz ph); [done|]. by destruct (a - ph_vaddr ph <? ph_memsz ph).
  - assert (u64 (a - ph_vaddr ph) = a - ph_vaddr ph + 2 ^ 64) as -> by (unfold u64; rewrite <- (Z.mod_add _ 1), Z.mod_small by lia; lia).
    rewrite !(proj2 (Z.ltb_ge _ _)) by lia. done.
Qed.

(** Segments that fit change nothing outside the memory of programs. *)
Lemma with_segments_confined img phs m a :
  Forall (fits img) phs -> 0 <= a < 2 ^ 64 -> ~ in_app a -> with_segments img phs m a = m a.
Proof.
  intros Hf Ha Hn. unfold with_segments. generalize (m a). induction Hf as [|ph phs (H1 & H2 & H3 & H4) _ IH]; intros v; [done|].
  cbn [fold_left]. assert (segment_byte img ph a = None) as ->; [|apply IH].
  unfold segment_byte. cbv zeta. unfold in_app in Hn.
  destruct (Z.leb_spec 0 (a - ph_vaddr ph)); [|done]. cbn [andb]. by rewrite !(proj2 (Z.ltb_ge _ _)) by lia.
Qed.

Section headers.
Context (img : list Z) (h : ehdr_t) (Hb : bytes img) (Hpl : plain_image img h) (Ho : 0 <= e_phoff h) (Ht : table_ok img h).

(** The [i]th header lies in the image. *)
Lemma header_place i : 0 <= i < e_phnum h ->
  0 <= e_phoff h + i * e_phentsize h < 2 ^ 64 /\ e_phoff h + i * e_phentsize h + 56 <= Z.of_nat (length img).
Proof.
  intros Hi. destruct Ht as [Hl Hs], Hpl as [Hw _]. unfold SIZEOF_PHDR in Hs.
  assert ((i + 1) * e_phentsize h <= e_phnum h * e_phentsize h) by (apply Z.mul_le_mono_nonneg_r; lia). lia.
Qed.

Lemma header_reads i : 0 <= i < e_phnum h ->
  exists ph, read_phdr img (e_phoff h + i * e_phentsize h) = Ok ph /\ phdr_range ph /\ plain_phdr ph.
Proof.
  intros Hi. destruct (header_place i Hi) as [[H0 _] H1]. destruct (read_phdr_ok img _ H0 H1 Hb) as (ph & Hr & Hg).
  exists ph. split_and!; [done|done|]. destruct Hpl as [_ Hp]. eapply Hp; [exact Hi|exact Hr].
Qed.

Lemma headers_exist n i : 0 <= i -> i + Z.of_nat n = e_phnum h -> exists phs, headers_from i img h phs /\ length phs = n.
Proof.
  revert i. induction n as [|n IH]; intros i Hi Hn.
  { exists []. split; [split; [cbn; lia|done]|done]. }
  destruct (header_reads i) as (ph & Hr & _); [lia|]. destruct (IH (i + 1)) as (phs & [Hl Hphs] & Hlen); [lia..|].
  exists (ph :: phs). split; [|cbn; lia]. split; [cbn [length]; lia|]. intros [|k] x Hx.
  - injection Hx as <-. by replace (i + Z.of_nat 0) with i by lia.
  - replace (i + Z.of_nat (S k)) with (i + 1 + Z.of_nat k) by lia. by apply Hphs.
Qed.

(** What the loop does with the headers that are left. *)
Inductive loop_outcome (phs : list phdr_t) (m : memory) : memory -> option Z -> Prop :=
| LoopDone m' : Forall (fits img) (filter loadable phs) -> holds_segments img phs m m' -> loop_outcome phs m m' None
| LoopStops before ph after m' :
    phs = before ++ ph :: after -> Forall (fits img) (filter loadable before) -> loadable ph -> ~ fits img ph ->
    holds_segments img before m m' -> loop_outcome phs m m' (Some (-4)).

Lemma loop_skip ph phs m m' r : ~ loadable ph -> loop_outcome phs m m' r -> loop_outcome (ph :: phs) m m' r.
Proof.
  intros Hn [m1 Hf Hm|before x after m1 -> Hf Hx Hnx Hm].
  - constructor; [|unfold holds_segments]; by rewrite filter_cons_False.
  - apply (LoopStops _ _ (ph :: before) x after); [done| |done|done|unfold holds_segments]; by rewrite filter_cons_False.
Qed.

Lemma with_segments_cons ph phs m m1 a :
  m1 a = default (m a) (segment_byte img ph a) -> with_segments img (ph :: phs) m a = with_segments img phs m1 a.
Proof. intros E. unfold with_segments. cbn [fold_left]. by rewrite E. Qed.

Lemma loop_load ph phs m m1 m' r :
  loadable ph -> fits img ph -> (forall a, 0 <= a < 2 ^ 64 -> m1 a = default (m a) (segment_byte img ph a)) ->
  loop_outcome phs m1 m' r -> loop_outcome (ph :: phs) m m' r.
Proof.
  intros Hl Hfit Hm1 [m2 Hf Hm|before x after m2 -> Hf Hx Hnx Hm].
  - constructor; [rewrite filter_cons_True by done; by constructor|].
    intros a Ha. rewrite filter_cons_True, (with_segments_cons ph _ m m1) by auto. by apply Hm.
  - apply (LoopStops _ _ (ph :: before) x after); [done|rewrite filter_cons_True by done; by constructor|done|done|].
    intros a Ha. rewrite filter_cons_True, (with_segments_cons ph _ m m1) by auto. by apply Hm.
Qed.

Lemma load_segments_spec phs i m :
  0 <= i -> headers_from i img h phs ->
  exists m' r, load_segments (length phs) i img h m = Ok (m', r) /\ loop_outcome phs m m' r.
Proof.
  revert i m. induction phs as [|ph phs IH]; intros i m Hi [Hl Hphs]; cbn [length load_segments].
  { exists m, None. split; [done|]. constructor; [constructor|done]. }
  cbn [length] in Hl. destruct (header_place i) as [Hp _]; [lia|]. rewrite u64_small by lia.
  destruct (header_reads i) as (x & Hr & Hg & Hx); [lia|]. pose proof (Hphs 0%nat ph eq_refl) as Hr'.
  replace (i + Z.of_nat 0) with i in Hr' by lia. rewrite Hr in Hr'. injection Hr' as ->. rewrite Hr. cbn [obind].
  assert (Hrest : headers_from (i + 1) img h phs).
  { split; [lia|]. intros k y Hy. replace (i + 1 + Z.of_nat k) with (i + Z.of_nat (S k)) by lia. by apply Hphs. }
  destruct (Z.eqb_spec (ph_type ph) 1) as [Hty|Hty]; cbn [negb]; cycle 1.
  { destruct (IH (i + 1) m ltac:(lia) Hrest) as (m' & r & -> & Ho'). exists m', r. split; [done|]. by apply loop_skip. }
  pose proof Hg as []. pose proof Hx as []. rewrite !u64_small by lia. destruct (_ || _ || _ || _) eqn:Hc.
  - exists m, (Some (-4)). split; [done|]. apply (LoopStops _ _ [] ph phs); [done|constructor|done| |done].
    intros (F1 & F2 & F3 & F4). rewrite !(proj2 (Z.ltb_ge _ _)) in Hc by lia. done.
  - breflect. assert (Hfit : fits img ph) by (split_and!; lia).
    destruct (load_segment_spec img ph m Hg Hx Hfit) as (m1 & -> & Hm1). cbn [obind].
    destruct (IH (i + 1) m1 ltac:(lia) Hrest) as (m' & r & -> & Ho'). exists m', r. split; [done|]. by apply (loop_load ph phs m m1).
Qed.

End headers.

Lemma read_ehdr_ok img : bytes img -> SIZEOF_EHDR <= Z.of_nat (length img) ->
  exists h, read_ehdr img = Ok h /\ 0 <= e_phoff h /\ 0 <= e_phentsize h /\ 0 <= e_phnum h.
Proof.
  unfold SIZEOF_EHDR. intros Hb Hsz. unfold read_ehdr.
  destruct (field_ok img 16 2) as (v0&->&_); [lia..|done|]. destruct (field_ok img 18 2) as (v1&->&_); [lia..|done|].
  destruct (field_ok img 24 8) as (v2&->&_); [lia..|done|]. destruct (field_ok img 32 8) as (v3&->&?); [lia..|done|].
  destruct (field_ok img 54 2) as (v4&->&?); [lia..|done|]. destruct (field_ok img 56 2) as (v5&->&?); [lia..|done|].
  cbn [obind]. eexists. split; [done|]. cbn. lia.
Qed.

Lemma elf_outcome_confined img m m' r : elf_outcome img m m' r -> confined m m'.
Proof.
  intros [| | |h before ph after m1 _ _ _ _ Hf _ _ Hm|h phs m1 _ _ _ _ Hf Hm _|h phs m1 _ _ _ _ Hf Hm _] a Ha Hn; try done;
    rewrite Hm by done; by apply with_segments_confined.
Qed.

Lemma elf_load_outcome img m :
  bytes img -> (forall h, read_ehdr img = Ok h -> plain_image img h) ->
  exists m' r, elf_load img m = Ok (m', r) /\ elf_outcome img m m' r.
Proof.
  intros Hb Hpl. unfold elf_load. destruct (Z.ltb_spec (Z.of_nat (length img)) SIZEOF_EHDR) as [Hs|Hs].
  { exists m, (inl (-1)). split; [done|]. by constructor. }
  destruct (read_ehdr_ok img Hb Hs) as (h & Hh & Ho & He & Hn). rewrite Hh. cbn [obind].
  destruct (_ || _ || _) eqn:Hid.
  { exists m, (inl (-2)). split; [done|]. apply (NotElf _ _ h); [done|]. intros (E1 & E2 & E3).
    rewrite E1, E2, E3, bool_decide_true in Hid by done. done. }
  rewrite !orb_false_iff, !negb_false_iff, bool_decide_eq_true, !Z.eqb_eq in Hid. destruct Hid as [[I1 I2] I3].
  assert (elf64 h) as Hid by done. pose proof (Hpl h Hh) as Hp. pose proof Hp as [Hw _].
  rewrite u64_small by lia. destruct (_ || _) eqn:Hc.
  { exists m, (inl (-3)). split; [done|]. apply (BadTable _ _ h); [done|done|]. intros [T1 T2].
    rewrite !(proj2 (Z.ltb_ge _ _)) in Hc by lia. done. }
  breflect. assert (Ht : table_ok img h) by (split; lia).
  destruct (headers_exist img h Hb Hp Ho Ht (Z.to_nat (e_phnum h)) 0) as (phs & Hphs & Hlen); [lia..|].
  destruct (load_segments_spec img h Hb Hp Ho Ht phs 0 m) as (m' & r & E & Hr); [lia|done|]. rewrite <- Hlen, E. cbn [obind].
  destruct Hr as [m1 Hf Hm|before ph after m1 -> Hf Hl Hnf Hm].
  - destruct (_ || _) eqn:Hent; eexists _, _; (split; [done|]).
    + apply (BadEntry _ _ h phs); try done. unfold in_app. intros [H1 H2]. rewrite (proj2 (Z.ltb_ge _ _)), (proj2 (Z.leb_gt _ _)) in Hent by lia. done.
    + breflect. apply (Loaded _ _ h phs); try done.
  - eexists _, _. split; [done|]. by apply (BadSegment _ _ h before ph after).
Qed.

(** C38. Loading a program does what its headers say and stays in the memory of
    programs.  For every image whose header sums do not wrap at 64 bits, the
    loader returns without reading outside the image, and its result is the first
    of these that applies: -1 for an image shorter than a header, -2 for one that
    is not a 64-bit x86 executable, -3 for a segment table outside the image, -4
    at the first loadable segment that is not in the image or not between 8 and
    16 megabytes, -5 for an entry point outside that range, and otherwise the
    program runs from its entry point.  The memory then holds the loadable
    segments that were passed, in order, each as the bytes of the file followed
    by zeroes, and nothing else has changed; in every case, the errors included,
    no byte outside the memory of programs has. *)
Theorem elf_load_confined (program : Z -> memory -> memory * Z) (img : list Z) (m : memory) :
  bytes img -> (forall h, read_ehdr img = Ok h -> plain_image img h) ->
  exists m' r, elf_load img m = Ok (m', r) /\ elf_outcome img m m' r /\ confined m m' /\
    elf_execute program img m = Ok (match r with inl code => (m', code) | inr entry => program entry m' end).
Proof.
  intros Hb Hpl. destruct (elf_load_outcome img m Hb Hpl) as (m' & r & E & Ho). exists m', r. split; [done|]. split; [done|].
  split; [by eapply elf_outcome_confined|]. unfold elf_execute. by rewrite E.
Qed.

(** A header whose sum wraps is accepted: this segment of the first bytes of the
    image covers all addresses from 8 megabytes up and passes every test. *)
Definition wrapping_phdr : phdr_t := Phdr 1 0 APP_START 0 (2 ^ 64 - APP_START).

Lemma wrapping_accepted :
  ((64 <? u64 (ph_offset wrapping_phdr + ph_filesz wrapping_phdr)) || (ph_memsz wrapping_phdr <? ph_filesz wrapping_phdr)
   || (ph_vaddr wrapping_phdr <? APP_START) || (APP_END <? u64 (ph_vaddr wrapping_phdr + ph_memsz wrapping_phdr))) = false /\
  forall m, exists m', load_segment (replicate 64 0) wrapping_phdr m = Ok m' /\ m' APP_END = 0 /\ m' (2 ^ 63) = 0.
Proof. split; [reflexivity|]. intros m. eexists. split; [reflexivity|]. split; vm_compute; reflexivity. Qed.

(** An image with one segment of eight bytes, of which the file has four. *)
Definition little (k : nat) (v : Z) : list Z := map (fun i => v / 256 ^ Z.of_nat i mod 256) (seq 0 k).

Definition demo_elf : list Z :=
  [0x7f; 69; 76; 70; 2] ++ replicate 11 0 ++ little 2 2 ++ little 2 62 ++ little 4 1 ++ little 8 APP_START ++ little 8 64
  ++ little 8 0 ++ little 4 0 ++ little 2 64 ++ little 2 56 ++ little 2 1 ++ replicate 6 0
  ++ little 4 1 ++ little 4 5 ++ little 8 120 ++ little 8 APP_START ++ little 8 0 ++ little 8 4 ++ little 8 8 ++ little 8 16
  ++ [0x90; 0x90; 0xc3; 0xcc].

Lemma elf_witness :
  exists m' r, elf_load demo_elf (fun _ => 7) = Ok (m', r) /\ elf_outcome demo_elf (fun _ => 7) m' r /\
    confined (fun _ => 7) m' /\ r = inr APP_START /\
    map m' [APP_START - 1; APP_START; APP_START + 2; APP_START + 5; APP_START + 8] = [7; 0x90; 0xc3; 0; 7].
Proof.
  destruct (elf_load_confined (fun _ m => (m, 0)) demo_elf (fun _ => 7)) as (m' & r & E & Ho & Hc & _).
  - unfold bytes. apply Forall_forall. intros x Hx. assert (forallb (fun b => (0 <=? b) && (b <? 256)) demo_elf = true) as Hall by reflexivity.
    rewrite forallb_forall in Hall. apply list_elem_of_In in Hx. apply Hall in Hx. breflect. lia.
  - intros h Hh. vm_compute in Hh. injection Hh as <-. split; [vm_compute; reflexivity|]. intros i ph Hi Hr.
    cbn [e_phnum] in Hi. assert (i = 0) as -> by lia. vm_compute in Hr. injection Hr as <-. split; vm_compute; reflexivity.
  - exists m', r. split; [exact E|]. split; [exact Ho|]. split; [exact Hc|].
    assert (match elf_load demo_elf (fun _ => 7) with
      | Ok (x, inr e) => e = APP_START /\ map x [APP_START - 1; APP_START; APP_START + 2; APP_START + 5; APP_START + 8] = [7; 0x90; 0xc3; 0; 7]
      | _ => False
      end) as Hv by (vm_compute; split; reflexivity).
    rewrite E in Hv. destruct r as [c|e]; [destruct Hv|]. destruct Hv as [-> Hv]. split; [reflexivity|exact Hv].
Defined.
