(* ===== verification/Ramdisk.v ===== *)
(** * The initial ram disk (src/kernel/fs/fs.c)

    A tar archive in memory: finding the [n]th file and the file of a path, and
    that the files of an archive written as tar writes it are found. *)

From stdpp Require Import base numbers list strings.
From Stdlib Require Import ZArith Lia.
From S2P Require Import Prelude.

(** A file: its name, where its data starts in the archive, its size and type. *)
Record tar_file := TarFile { tf_name : list Z; tf_data : nat; tf_size : nat; tf_type : Z }.

(** Offsets of the fields in a header. *)
Definition SIZE_FIELD : nat := 124.
Definition TYPE_FIELD : nat := 156.

Fixpoint skip_zeroes (s : list Z) : list Z :=
  match s with c :: s' => if (c =? 32) || (c =? 48) then skip_zeroes s' else s | [] => [] end.

Fixpoint octal_value (s : list Z) (v : Z) : Z :=
  match s with c :: s => if (48 <=? c) && (c <=? 55) then octal_value s (u64 (v * 8 + (c - 48))) else v | [] => v end.

Definition octal (s : list Z) : Z := octal_value (skip_zeroes s) 0.

Fixpoint skip_slash (p : list Z) : list Z :=
  match p with c :: p' => if c =? 47 then skip_slash p' else p | [] => [] end.

Definition skip_dot (p : list Z) : list Z :=
  match p with a :: b :: p' => if (a =? 46) && (b =? 47) then p' else p | _ => p end.

(** The parts of two strings after their common beginning. *)
Fixpoint after_common (a b : list Z) : list Z * list Z :=
  match a, b with x :: a', y :: b' => if x =? y then after_common a' b' else (a, b) | _, _ => (a, b) end.

Definition path_eq (a b : list Z) : bool :=
  let '(a, b) := after_common (skip_dot (skip_slash a)) (skip_slash b) in
  match skip_slash a, skip_slash b with [], [] => true | _, _ => false end.

(** The state is the archive between the two pointers; mounting replaces it. *)
Definition fs_mount (img mounted : list Z) : list Z := img.

(** The header at [p]; [None] at the end of the archive. *)
Definition header_at (img : list Z) (p : nat) : option tar_file :=
  if negb (Nat.leb (p + 512) (length img)) then None else
  if default 0 (img !! p) =? 0 then None else
  let type := default 0 (img !! (p + TYPE_FIELD)%nat) in
  Some (TarFile (cstring (drop p img)) (p + 512) (Z.to_nat (octal (take 12 (drop (p + SIZE_FIELD) img))))
          (if type =? 0 then 48 else type)).

(** Data takes whole sectors. *)
Definition rounded (n : nat) : nat := (Nat.div (n + 511) 512 * 512)%nat.

(** Every step goes at least a sector on. *)
Fixpoint fs_at_from (fuel : nat) (img : list Z) (p wanted : nat) : outcome (option tar_file) :=
  match fuel with
  | O => OutOfFuel
  | S fuel =>
    match header_at img p with
    | None => Ok None
    | Some f => match wanted with
                | O => Ok (Some f)
                | S wanted => fs_at_from fuel img (tf_data f + rounded (tf_size f)) wanted
                end
    end
  end.

Definition fs_fuel (img : list Z) : nat := S (Nat.div (length img) 512).
Definition fs_at (img : list Z) (wanted : nat) : outcome (option tar_file) := fs_at_from (fs_fuel img) img 0 wanted.

Fixpoint count_from (fuel : nat) (img : list Z) (n : nat) : outcome nat :=
  match fuel with
  | O => OutOfFuel
  | S fuel => do f <- fs_at img n; match f with Some _ => count_from fuel img (S n) | None => Ok n end
  end.

Definition fs_count (img : list Z) : outcome nat := count_from (fs_fuel img) img 0.

Fixpoint find_from (fuel : nat) (img p : list Z) (i : nat) : outcome (option tar_file) :=
  match fuel with
  | O => OutOfFuel
  | S fuel =>
    do f <- fs_at img i;
    match f with Some f => if path_eq (tf_name f) p then Ok (Some f) else find_from fuel img p (S i) | None => Ok None end
  end.

Definition fs_find (img p : list Z) : outcome (option tar_file) := find_from (fs_fuel img) img p 0.

(** ** The loops end *)

Lemma header_inside img p f : header_at img p = Some f -> (p + 512 <= length img)%nat /\ tf_data f = (p + 512)%nat.
Proof.
  unfold header_at. destruct (Nat.leb_spec (p + 512) (length img)); cbn [negb]; [|done].
  destruct (_ =? 0); [done|]. by intros [= <-].
Qed.

Lemma fs_at_returns fuel img p w :
  (1 <= fuel)%nat -> (length img < p + 512 * fuel)%nat -> exists r, fs_at_from fuel img p w = Ok r.
Proof.
  revert p w. induction fuel as [|fuel IH]; intros p w H1 Hf; [lia|]. cbn [fs_at_from].
  destruct (header_at img p) as [f|] eqn:E; [|by eexists]. apply header_inside in E as [Hi Hd].
  destruct w as [|w]; [by eexists|]. apply IH; lia.
Qed.

Lemma fs_at_bound fuel img p w f : fs_at_from fuel img p w = Ok (Some f) -> (p + 512 * (w + 1) <= length img)%nat.
Proof.
  revert p w. induction fuel as [|fuel IH]; intros p w; cbn [fs_at_from]; [done|].
  destruct (header_at img p) as [h|] eqn:E; [|done]. apply header_inside in E as [Hi Hd].
  destruct w as [|w]; [lia|]. intros Hr%IH. lia.
Qed.

Lemma fuel_enough img : (length img < 512 * fs_fuel img)%nat.
Proof. unfold fs_fuel. pose proof (Nat.div_mod_eq (length img) 512). pose proof (Nat.mod_upper_bound (length img) 512). lia. Qed.

Lemma fs_at_total img w : exists r, fs_at img w = Ok r.
Proof. apply fs_at_returns; [unfold fs_fuel; lia|]. pose proof (fuel_enough img). lia. Qed.

(** The [i]th file needs [i + 1] headers, so the searches end on any archive. *)
Lemma fs_at_none img i : (length img < 512 * (i + 1))%nat -> fs_at img i = Ok None.
Proof.
  intros Hi. destruct (fs_at_total img i) as [[f|] E]; [|done]. pose proof E as Hb. unfold fs_at in Hb. apply fs_at_bound in Hb. lia.
Qed.

Lemma count_from_total fuel img n : (1 <= fuel)%nat -> (length img < 512 * (n + fuel))%nat -> exists r, count_from fuel img n = Ok r.
Proof.
  revert n. induction fuel as [|fuel IH]; intros n H1 Hf; [lia|]. cbn [count_from].
  destruct fuel as [|fuel]; [rewrite fs_at_none by lia; by eexists|].
  destruct (fs_at_total img n) as [[f|] ->]; cbn [obind]; [apply IH; lia|by eexists].
Qed.

Lemma find_from_total fuel img p i : (1 <= fuel)%nat -> (length img < 512 * (i + fuel))%nat -> exists r, find_from fuel img p i = Ok r.
Proof.
  revert i. induction fuel as [|fuel IH]; intros i H1 Hf; [lia|]. cbn [find_from].
  destruct fuel as [|fuel]; [rewrite fs_at_none by lia; by eexists|].
  destruct (fs_at_total img i) as [[f|] ->]; cbn [obind]; [|by eexists]. destruct (path_eq _ _); [by eexists|]. apply IH; lia.
Qed.

Lemma fs_count_total img : exists r, fs_count img = Ok r.
Proof. apply count_from_total; [unfold fs_fuel; lia|]. pose proof (fuel_enough img). lia. Qed.

Lemma fs_find_total img p : exists r, fs_find img p = Ok r.
Proof. apply find_from_total; [unfold fs_fuel; lia|]. pose proof (fuel_enough img). lia. Qed.

(** ** Paths *)

Definition slashes (k : nat) : list Z := replicate k 47.

(** No slash at either end. *)
Definition trimmed (c : list Z) : Prop := head c <> Some 47 /\ last c <> Some 47.

(** When a name of the archive and a path mean the same file: the path is [c]
    between slashes, and the name is [c] between slashes too, or [c] behind the
    ./ that tar writes; that ./ is never part of a name. *)
Definition same_path (name path : list Z) : Prop :=
  exists c i j k l, trimmed c /\ path = slashes i ++ c ++ slashes j /\
    (name = slashes k ++ text "./" ++ c ++ slashes l \/
     name = slashes k ++ c ++ slashes l /\ take 2 (c ++ slashes l) <> text "./").

Lemma skip_slash_slashes k s : skip_slash (slashes k ++ s) = skip_slash s.
Proof. by induction k. Qed.

Lemma skip_slash_all k : skip_slash (slashes k) = [].
Proof. by induction k. Qed.

Lemma skip_slash_none s : head s <> Some 47 -> skip_slash s = s.
Proof. destruct s as [|c s]; [done|]. cbn. destruct (Z.eqb_spec c 47) as [->|]; done. Qed.

Lemma skip_slash_split s : exists k, s = slashes k ++ skip_slash s /\ head (skip_slash s) <> Some 47.
Proof.
  induction s as [|c s (k&E&Hh)]; [by exists 0%nat|]. cbn [skip_slash]. destruct (Z.eqb_spec c 47) as [->|Hc].
  - exists (S k). split; [|done]. exact (f_equal (cons 47) E).
  - exists 0%nat. split; [done|]. by intros [= ->].
Qed.

Lemma skip_slash_nil s : skip_slash s = [] -> exists k, s = slashes k.
Proof. intros E. destruct (skip_slash_split s) as (k&Hs&_). exists k. by rewrite Hs, E, app_nil_r at 1. Qed.

Lemma trailing_slashes s : exists c k, s = c ++ slashes k /\ last c <> Some 47.
Proof.
  destruct (skip_slash_split (reverse s)) as (k&E&Hh). exists (reverse (skip_slash (reverse s))), k.
  rewrite last_reverse. split; [|done]. apply (f_equal reverse) in E. rewrite reverse_involutive, reverse_app in E. unfold slashes in E. by rewrite reverse_replicate in E.
Qed.

Lemma after_common_split a b : exists c, a = c ++ fst (after_common a b) /\ b = c ++ snd (after_common a b).
Proof.
  revert b. induction a as [|x a IH]; intros b; [by exists []|]. destruct b as [|y b]; [by exists []|]. cbn [after_common].
  destruct (Z.eqb_spec x y) as [->|]; [|by exists []]. destruct (IH b) as (c&E1&E2). exists (y :: c). cbn. by rewrite <- E1, <- E2.
Qed.

Lemma after_common_app c a b : after_common (c ++ a) (c ++ b) = after_common a b.
Proof. induction c as [|x c IH]; [done|]. cbn. by rewrite Z.eqb_refl. Qed.

Lemma after_common_slashes l j : exists l' j', after_common (slashes l) (slashes j) = (slashes l', slashes j').
Proof.
  revert j. induction l as [|l IH]; intros j; [by exists 0%nat, j|]. destruct j as [|j]; [by exists (S l), 0%nat|]. apply IH.
Qed.

(** The middle part of a string between slashes, once the first ones are gone. *)
Lemma skip_slash_middle k c l : head c <> Some 47 -> exists l', skip_slash (slashes k ++ c ++ slashes l) = c ++ slashes l'.
Proof.
  intros Hc. rewrite skip_slash_slashes. destruct c as [|x c]; [exists 0%nat; apply skip_slash_all|].
  exists l. by apply skip_slash_none.
Qed.

Lemma skip_dot_yes s : skip_dot (text "./" ++ s) = s.
Proof. done. Qed.

Lemma skip_dot_no s : take 2 s <> text "./" -> skip_dot s = s.
Proof.
  intros Hs. destruct s as [|a [|b s]]; [done..|]. cbn [skip_dot]. destruct (Z.eqb_spec a 46) as [->|]; [|done].
  destruct (Z.eqb_spec b 47) as [->|]; [|done]. by destruct Hs.
Qed.

Lemma skip_dot_cases s : s = text "./" ++ skip_dot s \/ take 2 s <> text "./" /\ skip_dot s = s.
Proof. destruct (decide (take 2 s = text "./")) as [E|E]; [left|right; by rewrite skip_dot_no]. destruct s as [|a [|b s]]; try done. by injection E as -> ->. Qed.

(** What the comparison makes of two strings without slashes in front. *)
Lemma compare_common a b :
  head b <> Some 47 ->
  (let '(a, b) := after_common a b in match skip_slash a, skip_slash b with [], [] => true | _, _ => false end) = true <->
  exists c l j, trimmed c /\ a = c ++ slashes l /\ b = c ++ slashes j.
Proof.
  intros Hb. split.
  - destruct (after_common_split a b) as (c&Ha&Hb'). destruct (after_common a b) as [a' b']. cbn [fst snd] in *.
    destruct (skip_slash a') eqn:Ea; [|done]. destruct (skip_slash b') eqn:Eb; [|done]. intros _.
    apply skip_slash_nil in Ea as [l ->]. apply skip_slash_nil in Eb as [j ->].
    destruct (trailing_slashes c) as (c'&m&->&Hc'). exists c', (m + l)%nat, (m + j)%nat. unfold slashes. rewrite !replicate_add, !app_assoc.
    split; [|done]. split; [|done]. subst b. destruct c'; [done|]. exact Hb.
  - intros (c&l&j&_&->&->). rewrite after_common_app. destruct (after_common_slashes l j) as (l'&j'&->). by rewrite !skip_slash_all.
Qed.

Lemma path_eq_spec name path : path_eq name path = true <-> same_path name path.
Proof.
  unfold path_eq. destruct (skip_slash_split path) as (i&Ep&Hp). rewrite compare_common by done.
  destruct (skip_slash_split name) as (k&En&Hn). split.
  - intros (c&l&j&Hc&Ea&Eb). exists c, i, j, k, l. split; [done|]. split; [by rewrite Ep, Eb at 1|].
    destruct (skip_dot_cases (skip_slash name)) as [Ed|[Hd Ed]]; [left|right]; rewrite <- Ea.
    + by rewrite En, Ed at 1.
    + rewrite Ed. split; [done|]. exact Hd.
  - intros (c&i'&j&k'&l&Hc&->&Hname). destruct (skip_slash_middle i' c j) as [j' ->]; [apply Hc|].
    destruct Hname as [->|[-> Hd]].
    + exists c, l, j'. split_and!; [done| |done]. by rewrite skip_slash_slashes, (skip_slash_none (text "./" ++ _)).
    + destruct (skip_slash_middle k' c l) as [l' Es]; [apply Hc|]. exists c, l', j'. rewrite Es. split_and!; [done| |done].
      apply skip_dot_no. destruct c as [|x c]; [by destruct l' as [|[]]|].
      rewrite skip_slash_slashes, skip_slash_none in Es by apply Hc. by rewrite <- Es.
Qed.

(** The search gives the first file that matches. *)
Lemma find_from_spec fuel img p i l :
  (forall j, fs_at img (i + j) = Ok (l !! j)) -> (length l < fuel)%nat ->
  find_from fuel img p i = Ok (snd <$> list_find (fun f => path_eq (tf_name f) p = true) l).
Proof.
  revert i l. induction fuel as [|fuel IH]; intros i l Hat Hf; [lia|]. cbn [find_from].
  pose proof (Hat 0%nat) as H0. rewrite Nat.add_0_r in H0. rewrite H0. cbn [obind].
  destruct l as [|f l]; cbn [lookup list_lookup]; [done|]. cbn [list_find].
  destruct (path_eq (tf_name f) p) eqn:E; [by rewrite decide_True|]. rewrite decide_False by done.
  rewrite (IH (S i) l).
  - by destruct (list_find _ l) as [[j x]|].
  - intros j. specialize (Hat (S j)). by replace (i + S j)%nat with (S i + j)%nat in Hat by lia.
  - cbn [length] in Hf. lia.
Qed.

Lemma count_from_spec fuel img i l :
  (forall j, fs_at img (i + j) = Ok (l !! j)) -> (length l < fuel)%nat -> count_from fuel img i = Ok (i + length l)%nat.
Proof.
  revert i l. induction fuel as [|fuel IH]; intros i l Hat Hf; [lia|]. cbn [count_from].
  pose proof (Hat 0%nat) as H0. rewrite Nat.add_0_r in H0. rewrite H0. cbn [obind].
  destruct l as [|f l]; cbn [lookup list_lookup length] in *; [by rewrite Nat.add_0_r|]. rewrite (IH (S i) l).
  - f_equal. lia.
  - intros j. specialize (Hat (S j)). by replace (i + S j)%nat with (S i + j)%nat in Hat by lia.
  - lia.
Qed.

(** ** Archives as tar writes them *)

Record entry_t := Entry { en_name : list Z; en_type : Z; en_data : list Z }.

Record proper_entry (e : entry_t) : Prop := {
  pe_name : en_name e <> []; pe_chars : is_cstr (en_name e); pe_length : (length (en_name e) <= 99)%nat;
  pe_type : 0 < en_type e < 256; pe_size : Z.of_nat (length (en_data e)) < 8 ^ 11
}.

(** [k] octal digits, most significant first. *)
Fixpoint octal_digits (k : nat) (v : Z) : list Z :=
  match k with O => [] | S k => octal_digits k (v / 8) ++ [48 + v mod 8] end.

Definition tar_header (e : entry_t) : list Z :=
  en_name e ++ replicate (124 - length (en_name e)) 0 ++ octal_digits 11 (Z.of_nat (length (en_data e))) ++ [0]
  ++ replicate 20 0 ++ [en_type e] ++ replicate 355 0.

Definition tar_entry (e : entry_t) : list Z :=
  tar_header e ++ en_data e ++ replicate (rounded (length (en_data e)) - length (en_data e)) 0.

Definition archive (l : list entry_t) : list Z := concat (map tar_entry l) ++ replicate 512 0.

Lemma octal_digits_length k v : length (octal_digits k v) = k.
Proof. revert v. induction k as [|k IH]; intros v; cbn [octal_digits]; [done|]. rewrite length_app, IH. cbn. lia. Qed.

Lemma octal_digits_range k v : Forall (fun c => 48 <= c <= 55) (octal_digits k v).
Proof.
  revert v. induction k as [|k IH]; intros v; cbn [octal_digits]; [constructor|]. apply Forall_app. split; [apply IH|].
  constructor; [|constructor]. pose proof (Z.mod_pos_bound v 8). lia.
Qed.

(** The value of digits read from the left. *)
Definition digits_value (s : list Z) (v : Z) : Z := fold_left (fun v c => v * 8 + (c - 48)) s v.

Lemma digits_value_app s t v : digits_value (s ++ t) v = digits_value t (digits_value s v).
Proof. apply fold_left_app. Qed.

Lemma digits_value_bound s v :
  Forall (fun c => 48 <= c <= 55) s -> 0 <= v -> v <= digits_value s v < (v + 1) * 8 ^ Z.of_nat (length s).
Proof.
  intros Hs. revert v. induction Hs as [|c s Hc _ IH]; intros v Hv; [cbn; lia|]. cbn [digits_value fold_left length].
  fold (digits_value s (v * 8 + (c - 48))). specialize (IH (v * 8 + (c - 48)) ltac:(lia)).
  rewrite Nat2Z.inj_succ, Z.pow_succ_r by lia. assert (0 < 8 ^ Z.of_nat (length s)) by (apply Z.pow_pos_nonneg; lia). nia.
Qed.

Lemma octal_value_digits s rest v :
  Forall (fun c => 48 <= c <= 55) s -> 0 <= v -> (v + 1) * 8 ^ Z.of_nat (length s) <= 2 ^ 64 ->
  octal_value (s ++ 0 :: rest) v = digits_value s v.
Proof.
  intros Hs. revert v. induction Hs as [|c s Hc Hs IH]; intros v Hv Hb; cbn [octal_value app]; [done|].
  rewrite (proj2 (Z.leb_le _ _)), (proj2 (Z.leb_le _ _)) by lia. cbn [andb digits_value fold_left].
  cbn [length] in Hb. rewrite Nat2Z.inj_succ, Z.pow_succ_r in Hb by lia.
  assert (0 < 8 ^ Z.of_nat (length s)) by (apply Z.pow_pos_nonneg; lia).
  assert (v * 8 + (c - 48) < 2 ^ 64) by nia. rewrite u64_small by lia. apply IH; [lia|nia].
Qed.

(** Leading zeroes do not matter. *)
Lemma skip_zeroes_value s rest :
  Forall (fun c => 48 <= c <= 55) s ->
  exists s', skip_zeroes (s ++ 0 :: rest) = s' ++ 0 :: rest /\ Forall (fun c => 48 <= c <= 55) s' /\
    (length s' <= length s)%nat /\ digits_value s' 0 = digits_value s 0.
Proof.
  induction 1 as [|c s Hc Hs IH]; [by exists []|]. cbn [skip_zeroes app]. destruct (Z.eqb_spec c 48) as [->|Hne].
  - rewrite orb_true_r. destruct IH as (s'&->&Hs'&Hl&Hv). exists s'. cbn [length]. split_and!; [done|done|lia|by rewrite Hv].
  - rewrite (proj2 (Z.eqb_neq c 32)) by lia. cbn [orb]. exists (c :: s). split_and!; try done. by constructor.
Qed.

Lemma octal_digits_value k v : 0 <= v < 8 ^ Z.of_nat k -> digits_value (octal_digits k v) 0 = v.
Proof.
  revert v. induction k as [|k IH]; intros v Hv; [cbn in *; lia|]. cbn [octal_digits]. rewrite digits_value_app.
  rewrite Nat2Z.inj_succ, Z.pow_succ_r in Hv by lia.
  rewrite IH by (split; [apply Z.div_pos|apply Z.div_lt_upper_bound]; lia). cbn [digits_value fold_left].
  pose proof (Z.div_mod v 8). lia.
Qed.

Lemma octal_roundtrip v : 0 <= v < 8 ^ 11 -> octal (octal_digits 11 v ++ [0]) = v.
Proof.
  intros Hv. unfold octal. destruct (skip_zeroes_value (octal_digits 11 v) [] (octal_digits_range 11 v)) as (s&->&Hs&Hl&Hd).
  rewrite octal_digits_length in Hl. rewrite octal_value_digits; [|done|lia|].
  - rewrite Hd. apply octal_digits_value. done.
  - rewrite Z.add_0_l, Z.mul_1_l. transitivity (8 ^ 11); [apply Z.pow_le_mono_r; lia|]. vm_compute. congruence.
Qed.

(** ** The files of an archive *)

Lemma drop_past {A} (pre l : list A) k n : length pre = n -> drop (n + k) (pre ++ l) = drop k l.
Proof. intros <-. induction pre as [|x pre IH]; [done|exact IH]. Qed.

Lemma lookup_past {A} (pre l : list A) k n : length pre = n -> (pre ++ l) !! (n + k)%nat = l !! k.
Proof. intros <-. induction pre as [|x pre IH]; [done|exact IH]. Qed.

Lemma tar_header_length e : proper_entry e -> length (tar_header e) = 512%nat.
Proof.
  intros []. unfold tar_header. rewrite !length_app, !length_replicate, octal_digits_length. cbn [length]. lia.
Qed.

Lemma rounded_ge n : (n <= rounded n)%nat.
Proof.
  unfold rounded. pose proof (Nat.div_mod_eq (n + 511) 512). pose proof (Nat.mod_upper_bound (n + 511) 512). lia.
Qed.

Lemma tar_entry_length e : proper_entry e -> length (tar_entry e) = (512 + rounded (length (en_data e)))%nat.
Proof.
  intros He. unfold tar_entry. rewrite !length_app, length_replicate, tar_header_length by done.
  pose proof (rounded_ge (length (en_data e))). lia.
Qed.

Definition found (off : nat) (e : entry_t) : tar_file :=
  TarFile (en_name e) (off + 512) (length (en_data e)) (en_type e).

Lemma header_of pre e rest :
  proper_entry e -> header_at (pre ++ tar_entry e ++ rest) (length pre) = Some (found (length pre) e).
Proof.
  intros He. pose proof (tar_header_length e He) as Hlen. destruct He as [Hn Hc Hl Ht Hs].
  unfold header_at, tar_entry. rewrite <- app_assoc. set (tail := (_ ++ _) ++ rest).
  assert (Hfit : (length pre + 512 <= length (pre ++ tar_header e ++ tail))%nat) by (rewrite !length_app; lia).
  rewrite (proj2 (Nat.leb_le _ _) Hfit). cbn [negb].
  assert (Hfirst : (default 0 ((pre ++ tar_header e ++ tail) !! length pre) =? 0) = false).
  { rewrite <- (Nat.add_0_r (length pre)) at 1. rewrite (lookup_past pre) by done. unfold tar_header.
    destruct (en_name e) as [|c n]; [done|]. cbn. apply Forall_cons in Hc as [Hc _]. apply Z.eqb_neq. lia. }
  rewrite Hfirst. set (z := octal_digits 11 (Z.of_nat (length (en_data e)))).
  assert (Htype : default 0 ((pre ++ tar_header e ++ tail) !! (length pre + TYPE_FIELD)%nat) = en_type e).
  { rewrite (lookup_past pre) by done. unfold tar_header. fold z.
    assert (Hz : length z = 11%nat) by apply octal_digits_length.
    transitivity (default 0 (((en_name e ++ replicate (124 - length (en_name e)) 0 ++ z ++ [0] ++ replicate 20 0)
      ++ en_type e :: (replicate 355 0 ++ tail)) !! TYPE_FIELD)); [by rewrite <- !app_assoc|].
    rewrite list_lookup_middle; [done|]. rewrite !length_app, !length_replicate, Hz. cbn [length]. unfold TYPE_FIELD. lia. }
  assert (Hname : cstring (drop (length pre) (pre ++ tar_header e ++ tail)) = en_name e).
  { rewrite drop_app_length. unfold tar_header. rewrite <- !app_assoc.
    replace (124 - length (en_name e))%nat with (S (123 - length (en_name e))) by lia. cbn [replicate app].
    by apply cstring_app_nul. }
  assert (Hsize : take 12 (drop (length pre + SIZE_FIELD) (pre ++ tar_header e ++ tail)) = z ++ [0]).
  { rewrite (drop_past pre) by done. unfold tar_header. fold z. rewrite <- !app_assoc, (app_assoc (en_name e)), drop_app_length'.
    2:{ rewrite length_app, length_replicate. unfold SIZE_FIELD. lia. }
    rewrite (app_assoc z), take_app_length'; [done|]. rewrite length_app. unfold z. by rewrite octal_digits_length. }
  rewrite Htype, Hname, Hsize. unfold z. rewrite octal_roundtrip by lia. rewrite Nat2Z.id.
  rewrite (proj2 (Z.eqb_neq _ _)) by lia. done.
Qed.

(** Where the entries of an archive are. *)
Fixpoint offsets (off : nat) (l : list entry_t) : list tar_file :=
  match l with [] => [] | e :: l => found off e :: offsets (off + 512 + rounded (length (en_data e))) l end.

Lemma offsets_length off l : length (offsets off l) = length l.
Proof. revert off. induction l as [|e l IH]; intros off; cbn; [done|]. by rewrite IH. Qed.

Lemma fs_at_archive fuel pre l w :
  Forall proper_entry l -> (1 <= fuel)%nat -> (length (archive l) < 512 * fuel)%nat ->
  fs_at_from fuel (pre ++ archive l) (length pre) w = Ok (offsets (length pre) l !! w).
Proof.
  intros Hl. revert fuel pre w. induction Hl as [|e l He Hl IH]; intros fuel pre w H1 Hf; (destruct fuel as [|fuel]; [lia|]); cbn [fs_at_from].
  - assert (Hend : header_at (pre ++ archive []) (length pre) = None).
    { unfold header_at. destruct (negb _); [done|]. rewrite <- (Nat.add_0_r (length pre)) at 1. by rewrite (lookup_past pre). }
    by rewrite Hend.
  - unfold archive in *. cbn [map concat] in *. rewrite <- app_assoc in *. rewrite header_of by done.
    destruct w as [|w]; [done|]. cbn [found tf_data tf_size offsets lookup list_lookup].
    specialize (IH fuel (pre ++ tar_entry e) w). rewrite !length_app, tar_entry_length, <- app_assoc in IH by done.
    rewrite length_app, tar_entry_length in Hf by done. replace (length pre + 512 + rounded (length (en_data e)))%nat
      with (length pre + (512 + rounded (length (en_data e))))%nat by lia.
    apply IH; rewrite !length_app, length_replicate in *; lia.
Qed.

Lemma archive_data off pre l i e f :
  Forall proper_entry l -> length pre = off -> l !! i = Some e -> offsets off l !! i = Some f ->
  tf_name f = en_name e /\ tf_type f = en_type e /\ take (tf_size f) (drop (tf_data f) (pre ++ archive l)) = en_data e.
Proof.
  intros Hl. revert off pre i. induction Hl as [|x l Hx Hl IH]; intros off pre i Hp; [done|].
  unfold archive in *. cbn [map concat offsets]. rewrite <- app_assoc. destruct i as [|i].
  - intros [= ->] [= <-]. split_and!; try done. cbn [found tf_data tf_size].
    rewrite (drop_past pre) by done. unfold tar_entry. rewrite <- !app_assoc.
    rewrite (drop_app_length' (tar_header e)) by (symmetry; by apply tar_header_length). apply take_app_length.
  - cbn [lookup list_lookup]. intros Hi Ho. specialize (IH _ (pre ++ tar_entry x) i eq_refl Hi).
    rewrite length_app, tar_entry_length, <- app_assoc in IH by done. subst off.
    replace (length pre + 512 + rounded (length (en_data x)))%nat with (length pre + (512 + rounded (length (en_data x))))%nat in Ho by lia.
    by apply IH.
Qed.

Lemma archive_room l : Forall proper_entry l -> (512 * length l < length (archive l))%nat.
Proof.
  induction 1 as [|e l He _ IH]; [unfold archive; cbn [map concat app]; rewrite length_replicate; cbn; lia|].
  unfold archive in *. cbn [map concat length]. rewrite !length_app, tar_entry_length, length_replicate in * by done. lia.
Qed.

(** The first file of [fs] the path means, if there is one. *)
Definition first_match (fs : list tar_file) (p : list Z) (r : option tar_file) : Prop :=
  match r with
  | Some f => exists i, fs !! i = Some f /\ same_path (tf_name f) p /\
                forall j g, (j < i)%nat -> fs !! j = Some g -> ~ same_path (tf_name g) p
  | None => forall j g, fs !! j = Some g -> ~ same_path (tf_name g) p
  end.

Lemma list_find_first fs p : first_match fs p (snd <$> list_find (fun f => path_eq (tf_name f) p = true) fs).
Proof.
  destruct (list_find _ fs) as [[i f]|] eqn:E; cbn.
  - apply list_find_Some in E as (Hi&Hm&Hb). exists i. split; [done|]. split; [by apply path_eq_spec|].
    intros j g Hj Hg Hs. eapply Hb; [exact Hg|exact Hj|]. by apply path_eq_spec.
  - apply list_find_None in E. intros j g Hg Hs. rewrite Forall_lookup in E. eapply E; [exact Hg|]. by apply path_eq_spec.
Qed.



(** A path that is only the beginning of a name, or that ends inside a
    component, does not match. *)
Lemma no_prefix_match :
  path_eq (text "etc/motd2") (text "/etc/motd") = false /\ path_eq (text "etc/motd") (text "/etc") = false.
Proof. split; reflexivity. Qed.

(** The size of a file is not compared with the archive: an archive that was cut
    off after a header still gives a file, whose data lies outside. *)
Lemma data_outside :
  exists img f, fs_at img 0 = Ok (Some f) /\ (length img < tf_data f + tf_size f)%nat.
Proof.
  exists (take 512 (archive [Entry (text "a") 48 (text "hello")])), (TarFile (text "a") 512 5 48).
  split; [vm_compute; reflexivity|vm_compute; lia].
Qed.
