(* ===== verification/Crypto.v ===== *)
(** * Password hashing (src/kernel/security/crypto.c)

    SHA-256 with a streaming buffer, HMAC and PBKDF2, as the account database
    and the package manager use them, and the standards they implement:
    FIPS 180-4, RFC 2104 and RFC 8018.  The claim [pbkdf2_sha256_correct] is
    that the code computes the function of the standards.  Bytes are numbers
    below 256, words numbers below 2^32. *)

From stdpp Require Import base numbers list strings.
From Equations Require Import Equations.
From Stdlib Require Import ZArith Lia.
From S2P Require Import Prelude.

(** The eight words of the chaining value. *)
Record words := Words { wa : Z; wb : Z; wc : Z; wd : Z; we : Z; wf : Z; wg : Z; wh : Z }.

(** ** The code *)

(** [sha_t] *)
Record sha_t := Sha { sh : words; sbits : Z; sb : list Z; sn : nat }.

Definition k : list Z :=
  [1116352408; 1899447441; 3049323471; 3921009573; 961987163; 1508970993; 2453635748;
   2870763221; 3624381080; 310598401; 607225278; 1426881987; 1925078388; 2162078206;
   2614888103; 3248222580; 3835390401; 4022224774; 264347078; 604807628; 770255983;
   1249150122; 1555081692; 1996064986; 2554220882; 2821834349; 2952996808; 3210313671;
   3336571891; 3584528711; 113926993; 338241895; 666307205; 773529912; 1294757372;
   1396182291; 1695183700; 1986661051; 2177026350; 2456956037; 2730485921; 2820302411;
   3259730800; 3345764771; 3516065817; 3600352804; 4094571909; 275423344; 430227734;
   506948616; 659060556; 883997877; 958139571; 1322822218; 1537002063; 1747873779;
   1955562222; 2024104815; 2227730452; 2361852424; 2428436474; 2756734187; 3204031479;
   3329325298].

Definition rr (x n : Z) : Z := Z.lor (Z.shiftr x n) (u32 (Z.shiftl x (32 - n))).

Definition init : sha_t :=
  Sha (Words 1779033703 3144134277 1013904242 2773480762
         1359893119 2600822924 528734635 1541459225) 0 (replicate 64 0) 0.

(** The four bytes of a word, most significant first. *)
Definition load (p : list Z) (i : nat) : Z :=
  Z.lor (Z.lor (Z.lor (Z.shiftl (nth (i * 4) p 0) 24) (Z.shiftl (nth (i * 4 + 1) p 0) 16))
               (Z.shiftl (nth (i * 4 + 2) p 0) 8)) (nth (i * 4 + 3) p 0).

(** One turn of the loop that extends [w]. *)
Definition extend (w : list Z) (i : nat) : list Z :=
  let x := nth (i - 15) w 0 in
  let y := nth (i - 2) w 0 in
  let a := Z.lxor (Z.lxor (rr x 7) (rr x 18)) (Z.shiftr x 3) in
  let b := Z.lxor (Z.lxor (rr y 17) (rr y 19)) (Z.shiftr y 10) in
  w ++ [u32 (nth (i - 16) w 0 + a + nth (i - 7) w 0 + b)].

Definition expand (p : list Z) : list Z := fold_left extend (seq 16 48) (map (load p) (seq 0 16)).

(** One turn of the loop over the 64 rounds. *)
Definition step (w : list Z) (s : words) (i : nat) : words :=
  let '(Words a b c d e f g h) := s in
  let s1 := Z.lxor (Z.lxor (rr e 6) (rr e 11)) (rr e 25) in
  let ch := Z.lxor (Z.land e f) (Z.land (Z.lnot e) g) in
  let t1 := u32 (h + s1 + ch + nth i k 0 + nth i w 0) in
  let s0 := Z.lxor (Z.lxor (rr a 2) (rr a 13)) (rr a 22) in
  let maj := Z.lxor (Z.lxor (Z.land a b) (Z.land a c)) (Z.land b c) in
  let t2 := u32 (s0 + maj) in
  Words (u32 (t1 + t2)) a b c (u32 (d + t1)) e f g.

Definition add_words (s t : words) : words :=
  Words (u32 (wa s + wa t)) (u32 (wb s + wb t)) (u32 (wc s + wc t)) (u32 (wd s + wd t))
        (u32 (we s + we t)) (u32 (wf s + wf t)) (u32 (wg s + wg t)) (u32 (wh s + wh t)).

Definition block (s : words) (p : list Z) : words :=
  add_words s (fold_left (step (expand p)) (seq 0 64) s).

(** [for (i = 0; i < |xs|; i++) b[n + i] = xs[i];] *)
Definition put (b : list Z) (n : nat) (xs : list Z) : list Z := take n b ++ xs ++ drop (n + length xs) b.

(** The loop of [update]; each turn takes at least one byte. *)
Fixpoint update_loop (fuel : nat) (s : sha_t) (p : list Z) : sha_t :=
  match fuel, p with
  | S fuel, _ :: _ =>
      let x := Nat.min (64 - sn s) (length p) in
      let b := put (sb s) (sn s) (take x p) in
      let n := (sn s + x)%nat in
      let s := if Nat.eqb n 64 then Sha (block (sh s) b) (sbits s) b 0 else Sha (sh s) (sbits s) b n in
      update_loop fuel s (drop x p)
  | _, _ => s
  end.

Definition update (s : sha_t) (p : list Z) : sha_t :=
  update_loop (length p) (Sha (sh s) (u64 (sbits s + Z.of_nat (length p) * 8)) (sb s) (sn s)) p.

(** [while (s->n < m) s->b[s->n++] = 0;] *)
Definition zero_to (m : nat) (b : list Z) (n : nat) : list Z := put b n (replicate (m - n) 0).

Definition be (n : nat) (v : Z) : list Z :=
  map (fun i => u8 (Z.shiftr v (Z.of_nat (n - 1 - i) * 8))) (seq 0 n).

Definition digest (s : words) : list Z :=
  be 4 (wa s) ++ be 4 (wb s) ++ be 4 (wc s) ++ be 4 (wd s)
  ++ be 4 (we s) ++ be 4 (wf s) ++ be 4 (wg s) ++ be 4 (wh s).

Definition final (s : sha_t) : list Z :=
  let bits := sbits s in
  let b := put (sb s) (sn s) [0x80] in
  let n := S (sn s) in
  let '(h, b, n) := if Nat.ltb 56 n then let b := zero_to 64 b n in (block (sh s) b, b, 0%nat) else (sh s, b, n) in
  let b := zero_to 56 b n in
  let b := put b 56 (be 8 bits) in
  digest (block h b).

Definition crypto_sha256 (data : list Z) : list Z := final (update init data).

Definition hmac (key msg : list Z) : list Z :=
  let k0 := replicate 64 0 in
  let k0 := if Nat.ltb 64 (length key) then put k0 0 (final (update init key)) else put k0 0 key in
  let k0 := map (fun x => Z.lxor x 0x36) k0 in
  let inner := final (update (update init k0) msg) in
  let k0 := map (fun x => Z.lxor x (Z.lxor 0x36 0x5c)) k0 in
  final (update (update init k0) inner).

Definition xor_into (out u : list Z) : list Z := zip_with Z.lxor out u.

(** [for (r = 1; r < rounds; r++)], on [out] and [u]. *)
Fixpoint pbkdf2_loop (n : nat) (p out u : list Z) : list Z :=
  match n with
  | O => out
  | S n => let u := hmac p u in pbkdf2_loop n p (xor_into out u) u
  end.

Definition pbkdf2_sha256 (p salt : list Z) (rounds : Z) : list Z :=
  let sn := Nat.min (length salt) 64 in
  let msg := take sn salt ++ [0; 0; 0; 1] in
  let u := hmac p msg in
  pbkdf2_loop (Z.to_nat (rounds - 1)) p u u.

(** ** The standards *)

Module Fips.

(** The largest [r] below 2^40 whose [n]-th power is at most [x], bit by bit. *)
Definition root (n x : Z) : Z :=
  fold_left (fun r i => let r' := r + 2 ^ Z.of_nat (39 - i) in if r' ^ n <=? x then r' else r) (seq 0 40) 0.

(** The first 32 bits of the fractional part of the [n]-th root of [p]. *)
Definition root_fraction (n p : Z) : Z := root n (p * 2 ^ (32 * n)) mod 2 ^ 32.

Definition is_prime (p : nat) : bool := forallb (fun d => negb (Nat.eqb (p mod d) 0)) (seq 2 (p - 2)).
Definition primes : list Z := map Z.of_nat (List.filter is_prime (seq 2 311)).

(** FIPS 180-4, sections 4.2.2 and 5.3.3: the constants are fractions of the
    cube roots of the first 64 primes and of the square roots of the first 8. *)
Definition K (t : nat) : Z := nth t (map (root_fraction 3) (take 64 primes)) 0.
Definition H0 : words :=
  match map (root_fraction 2) (take 8 primes) with
  | [a; b; c; d; e; f; g; h] => Words a b c d e f g h
  | _ => Words 0 0 0 0 0 0 0 0
  end.

(** Rotation of a 32-bit word by [n] places to the right. *)
Definition ROTR (n x : Z) : Z := x / 2 ^ n + (x mod 2 ^ n) * 2 ^ (32 - n).
Definition SHR (n x : Z) : Z := x / 2 ^ n.

Definition Ch (x y z : Z) : Z := Z.lxor (Z.land x y) (Z.ldiff z x).
Definition Maj (x y z : Z) : Z := Z.lxor (Z.lxor (Z.land x y) (Z.land x z)) (Z.land y z).
Definition Sigma0 (x : Z) : Z := Z.lxor (Z.lxor (ROTR 2 x) (ROTR 13 x)) (ROTR 22 x).
Definition Sigma1 (x : Z) : Z := Z.lxor (Z.lxor (ROTR 6 x) (ROTR 11 x)) (ROTR 25 x).
Definition sigma0 (x : Z) : Z := Z.lxor (Z.lxor (ROTR 7 x) (ROTR 18 x)) (SHR 3 x).
Definition sigma1 (x : Z) : Z := Z.lxor (Z.lxor (ROTR 17 x) (ROTR 19 x)) (SHR 10 x).

(** Big-endian numbers. *)
Definition number (bs : list Z) : Z := fold_left (fun v b => v * 256 + b) bs 0.

(** The words of a 64-byte message block. *)
Definition word (M : list Z) (t : nat) : Z := number (take 4 (drop (4 * t) M)).

(** The message schedule, section 6.2.2. *)
Equations? W (M : list Z) (t : nat) : Z by wf t lt :=
  W M t with Nat.lt_dec t 16%nat => {
  | left _ => word M t
  | right _ => u32 (sigma1 (W M (t - 2)%nat) + W M (t - 7)%nat + sigma0 (W M (t - 15)%nat) + W M (t - 16)%nat) }.
Proof. all: lia. Qed.

Definition round (M : list Z) (s : words) (t : nat) : words :=
  let '(Words a b c d e f g h) := s in
  let T1 := u32 (h + Sigma1 e + Ch e f g + K t + W M t) in
  let T2 := u32 (Sigma0 a + Maj a b c) in
  Words (u32 (T1 + T2)) a b c (u32 (d + T1)) e f g.

Definition compress (s : words) (M : list Z) : words := add_words s (fold_left (round M) (seq 0 64) s).

(** Sections 5.1.1 and 5.2.1: a one bit, zeros and the length in bits. *)
Definition pad (m : list Z) : list Z :=
  m ++ 0x80 :: replicate (Z.to_nat ((55 - Z.of_nat (length m)) mod 64)) 0
  ++ be 8 (8 * Z.of_nat (length m)).

(** The chaining value after the whole blocks of [m]. *)
Definition hash_blocks (m : list Z) : words :=
  fold_left (fun s i => compress s (take 64 (drop (64 * i) m))) (seq 0 (length m / 64)) H0.

Definition SHA256 (m : list Z) : list Z := digest (hash_blocks (pad m)).

(** RFC 2104, with a block of 64 bytes. *)
Definition xor_all (l : list Z) (v : Z) : list Z := map (Z.lxor v) l.
Definition block_key (key : list Z) : list Z :=
  let key := if Nat.leb (length key) 64 then key else SHA256 key in
  key ++ replicate (64 - length key) 0.
Definition HMAC (key m : list Z) : list Z :=
  SHA256 (xor_all (block_key key) 0x5c ++ SHA256 (xor_all (block_key key) 0x36 ++ m)).

(** RFC 8018, section 5.2, for the first 32 bytes of key: the exclusive or of
    [U 0], ..., [U (c - 1)] (U_1 to U_c of the RFC). *)
Fixpoint U (p salt : list Z) (i : nat) : list Z :=
  match i with
  | O => HMAC p (salt ++ be 4 1)
  | S i => HMAC p (U p salt i)
  end.
Definition PBKDF2 (p salt : list Z) (c : nat) : list Z :=
  fold_left (zip_with Z.lxor) (map (U p salt) (seq 1 (c - 1))) (U p salt 0).

End Fips.

(** ** The block function *)

Definition words_ok (s : words) : Prop :=
  is_u32 (wa s) /\ is_u32 (wb s) /\ is_u32 (wc s) /\ is_u32 (wd s) /\
  is_u32 (we s) /\ is_u32 (wf s) /\ is_u32 (wg s) /\ is_u32 (wh s).

Definition bytes (l : list Z) : Prop := Forall is_u8 l.

Lemma u32_range (x : Z) : is_u32 (u32 x).
Proof. apply Z.mod_pos_bound. lia. Qed.

#[local] Hint Resolve u32_range : core.

(** The constants of the code are those of the standard. *)
Lemma k_spec (t : nat) : nth t k 0 = Fips.K t.
Proof. unfold Fips.K. by replace (map _ _) with k by (by vm_compute). Qed.

Lemma init_spec : sh init = Fips.H0.
Proof. by vm_compute. Qed.

Lemma rr_spec (x n : Z) : is_u32 x -> 0 < n < 32 -> rr x n = Fips.ROTR n x.
Proof.
  intros Hx Hn. unfold rr, Fips.ROTR. rewrite Z.shiftr_div_pow2 by lia.
  unfold u32. rewrite Z.shiftl_mul_pow2 by lia.
  replace (2 ^ 32) with (2 ^ n * 2 ^ (32 - n)) by (rewrite <- Z.pow_add_r by lia; f_equal; lia).
  rewrite Z.mul_mod_distr_r by (apply Z.pow_nonzero; lia).
  rewrite <- Z.shiftl_mul_pow2 by lia. rewrite lor_shift.
  - by rewrite Z.shiftl_mul_pow2 by lia.
  - split; [apply Z.div_pos; unfold is_u32 in Hx; lia|]. apply Z.div_lt_upper_bound; [lia|].
    rewrite <- Z.pow_add_r by lia. replace (n + (32 - n)) with 32 by lia. apply Hx.
  - lia.
Qed.

Lemma shiftr_spec (x n : Z) : 0 <= n -> Z.shiftr x n = Fips.SHR n x.
Proof. apply Z.shiftr_div_pow2. Qed.

(** ** The message schedule *)

Lemma load_spec (p : list Z) (t : nat) :
  bytes p -> length p = 64%nat -> (t < 16)%nat -> load p t = Fips.word p t /\ is_u32 (load p t).
Proof.
  intros Hp Hl Ht. unfold Fips.word, load.
  assert (forall j, (j < 64)%nat -> is_u8 (nth j p 0)) as Hb.
  { intros j Hj. apply (proj1 (List.Forall_nth _ _) Hp). lia. }
  assert (forall j, (j < 64)%nat -> drop j p = nth j p 0 :: drop (S j) p) as Hd.
  { intros j Hj. apply drop_S. rewrite nth_lookup. destruct (lookup_lt_is_Some_2 p j) as [x Hx]; [lia|]. by rewrite Hx. }
  replace (4 * t)%nat with (t * 4)%nat by lia.
  rewrite (Hd (t * 4)%nat), (Hd (S (t * 4))), (Hd (S (S (t * 4)))), (Hd (S (S (S (t * 4))))) by lia.
  cbn [take Fips.number fold_left].
  replace (t * 4 + 1)%nat with (S (t * 4)) by lia. replace (t * 4 + 2)%nat with (S (S (t * 4))) by lia.
  replace (t * 4 + 3)%nat with (S (S (S (t * 4)))) by lia.
  pose proof (Hb (t * 4)%nat ltac:(lia)) as H0. pose proof (Hb (S (t * 4)) ltac:(lia)) as H1.
  pose proof (Hb (S (S (t * 4))) ltac:(lia)) as H2. pose proof (Hb (S (S (S (t * 4)))) ltac:(lia)) as H3.
  generalize dependent (nth (t * 4) p 0). generalize dependent (nth (S (t * 4)) p 0).
  generalize dependent (nth (S (S (t * 4))) p 0). generalize dependent (nth (S (S (S (t * 4)))) p 0).
  unfold is_u8, Fips.number. cbn [fold_left]. intros d Hd' c Hc b Hb' a Ha.
  rewrite (Z.lor_comm (Z.shiftl a 24)), (Z.shiftl_mul_pow2 b 16) by lia.
  rewrite (lor_shift (b * 2 ^ 16) a 24) by lia.
  rewrite (Z.lor_comm (_ + _) (Z.shiftl c 8)), (Z.shiftl_mul_pow2 c 8) by lia.
  replace (b * 2 ^ 16 + a * 2 ^ 24) with (Z.shiftl (b + a * 2 ^ 8) 16) by (rewrite Z.shiftl_mul_pow2 by lia; lia).
  rewrite (lor_shift (c * 2 ^ 8)) by lia.
  replace (c * 2 ^ 8 + (b + a * 2 ^ 8) * 2 ^ 16) with (Z.shiftl (c + (b + a * 2 ^ 8) * 2 ^ 8) 8)
    by (rewrite Z.shiftl_mul_pow2 by lia; lia).
  rewrite Z.lor_comm, lor_shift by lia. rewrite take_0. cbn [fold_left]. unfold is_u32. lia.
Qed.

(** [w] holds the first words of the schedule. *)
Definition scheduled (p w : list Z) : Prop :=
  forall t, (t < length w)%nat -> nth t w 0 = Fips.W p t /\ is_u32 (nth t w 0).

Lemma extend_scheduled (p w : list Z) (i : nat) :
  scheduled p w -> length w = i -> (16 <= i)%nat -> scheduled p (extend w i).
Proof.
  intros Hw Hl Hi t Ht. unfold extend in *. rewrite length_app in Ht. cbn [length] in Ht.
  destruct (decide (t < length w)%nat) as [Hlt|Hge].
  { rewrite app_nth1 by done. by apply Hw. }
  replace t with (length w) by lia. rewrite app_nth2, Nat.sub_diag by lia. cbn [nth].
  split; [|done]. rewrite Fips.W_equation_1. unfold Fips.W_unfold_clause_1. rewrite Hl.
  destruct (Nat.lt_dec i 16%nat) as [?|_]; [lia|].
  destruct (Hw (i - 15)%nat ltac:(lia)) as [E15 R15], (Hw (i - 2)%nat ltac:(lia)) as [E2 R2].
  destruct (Hw (i - 7)%nat ltac:(lia)) as [E7 _], (Hw (i - 16)%nat ltac:(lia)) as [E16 _].
  rewrite !rr_spec, !shiftr_spec by (done || lia). rewrite E15, E2, E7, E16.
  unfold Fips.sigma0, Fips.sigma1. f_equal. lia.
Qed.

Lemma expand_spec (p : list Z) :
  bytes p -> length p = 64%nat -> scheduled p (expand p) /\ length (expand p) = 64%nat.
Proof.
  intros Hp Hl. unfold expand.
  assert (scheduled p (map (load p) (seq 0 16))) as H0.
  { intros t Ht. rewrite length_map, length_seq in Ht.
    rewrite (nth_indep _ _ (load p 0)) by (by rewrite length_map, length_seq).
    rewrite map_nth, seq_nth by done. cbn [Nat.add].
    rewrite Fips.W_equation_1. unfold Fips.W_unfold_clause_1.
    destruct (Nat.lt_dec t 16%nat); [by apply load_spec|lia]. }
  assert (forall n w, scheduled p w -> (16 <= length w)%nat ->
    scheduled p (fold_left extend (seq (length w) n) w) /\
    length (fold_left extend (seq (length w) n) w) = (length w + n)%nat) as Hind.
  { induction n as [|n IH]; intros w Hw Hlw; cbn [seq fold_left]; [split; [done|lia]|].
    assert (length (extend w (length w)) = S (length w)) as Hle
      by (unfold extend; rewrite length_app; cbn [length]; lia).
    destruct (IH (extend w (length w))) as [H1 H2]; [by apply extend_scheduled|lia|].
    rewrite Hle in H1, H2. split; [done|lia]. }
  apply (Hind 48%nat (map (load p) (seq 0 16))); [done|]. by rewrite length_map, length_seq.
Qed.

Lemma step_spec (p : list Z) (s : words) (i : nat) :
  bytes p -> length p = 64%nat -> words_ok s -> (i < 64)%nat ->
  step (expand p) s i = Fips.round p s i /\ words_ok (step (expand p) s i).
Proof.
  intros Hp Hl Hs Hi. destruct (expand_spec p Hp Hl) as [Hw Hlw].
  destruct (Hw i ltac:(lia)) as [Ew _]. destruct s as [a b c d e f g h].
  destruct Hs as (Ra & Rb & Rc & Rd & Re & Rf & Rg & Rh). cbn [wa wb wc wd we wf wg wh] in *.
  clear Hw Hlw. unfold step, Fips.round. split.
  - rewrite !rr_spec, k_spec, Ew by (done || lia). unfold Fips.Sigma0, Fips.Sigma1, Fips.Ch, Fips.Maj.
    by rewrite Z.ldiff_land, (Z.land_comm g).
  - unfold words_ok. cbn [wa wb wc wd we wf wg wh]. auto 10.
Qed.

Lemma block_spec (s : words) (p : list Z) :
  bytes p -> length p = 64%nat -> words_ok s ->
  block s p = Fips.compress s p /\ words_ok (block s p).
Proof.
  intros Hp Hl Hs. split.
  - unfold block, Fips.compress. f_equal.
    assert (forall l s, words_ok s -> Forall (fun i => i < 64)%nat l ->
      fold_left (step (expand p)) l s = fold_left (Fips.round p) l s) as Hind.
    { induction l as [|i l IH]; intros s' Hs' Hl'; [done|]. apply Forall_cons in Hl' as [Hi Hl'].
      destruct (step_spec p s' i) as [E R]; [done..|]. cbn [fold_left]. rewrite IH, E by done. done. }
    apply Hind; [done|]. apply List.Forall_forall. intros i Hi%in_seq. lia.
  - unfold block, words_ok, add_words. cbn [wa wb wc wd we wf wg wh]. auto 10.
Qed.

(** ** The streaming buffer *)

#[local] Opaque Fips.compress block Fips.H0.

Lemma hash_blocks_app (m b : list Z) :
  (length m mod 64 = 0)%nat -> length b = 64%nat ->
  Fips.hash_blocks (m ++ b) = Fips.compress (Fips.hash_blocks m) b.
Proof.
  intros Hm Hb. unfold Fips.hash_blocks. rewrite length_app, Hb.
  assert (length m = 64 * (length m / 64))%nat as E.
  { pose proof (Nat.div_mod (length m) 64). lia. }
  change (length m + 64)%nat with (length m + 1 * 64)%nat. rewrite Nat.div_add by lia.
  rewrite seq_app, fold_left_app. cbn [seq fold_left Nat.add].
  rewrite (drop_app_length' m b) by lia. rewrite (take_ge b) by lia. apply (f_equal (fun s => Fips.compress s b)).
  assert (forall l s, Forall (fun i => i < length m / 64)%nat l ->
    fold_left (fun s i => Fips.compress s (take 64 (drop (64 * i) (m ++ b)))) l s
    = fold_left (fun s i => Fips.compress s (take 64 (drop (64 * i) m))) l s) as Hind.
  { induction l as [|i l IH]; intros s Hl; [done|]. apply Forall_cons in Hl as [Hi Hl].
    cbn [fold_left]. rewrite IH, drop_app_le, take_app_le by (done || rewrite ?length_drop; lia). done. }
  apply Hind, List.Forall_forall. intros i Hi%in_seq. lia.
Qed.

(** The state of [s] after the message [m]. *)
Definition absorbed (s : sha_t) (m : list Z) : Prop :=
  exists m1 r, m = m1 ++ r /\ (length m1 mod 64 = 0)%nat /\ length r = sn s /\ (sn s < 64)%nat /\
    sh s = Fips.hash_blocks m1 /\ words_ok (sh s) /\ take (sn s) (sb s) = r /\ length (sb s) = 64%nat /\
    bytes m.

Lemma length_put (b xs : list Z) (n : nat) : (n + length xs <= length b)%nat -> length (put b n xs) = length b.
Proof. intros. unfold put. rewrite !length_app, length_take, length_drop. lia. Qed.

Lemma take_put (b xs : list Z) (n : nat) :
  (n <= length b)%nat -> take (n + length xs) (put b n xs) = take n b ++ xs.
Proof.
  intros. unfold put. rewrite app_assoc. apply take_app_length'. rewrite length_app, length_take. lia.
Qed.

Lemma absorb_step (s : sha_t) (m q : list Z) (bits : Z) :
  absorbed s m -> (sn s + length q <= 64)%nat -> bytes q ->
  let b := put (sb s) (sn s) q in
  let n := (sn s + length q)%nat in
  absorbed (if Nat.eqb n 64 then Sha (block (sh s) b) bits b 0 else Sha (sh s) bits b n) (m ++ q).
Proof.
  intros (m1 & r & -> & Hm1 & Hr & Hn & Hh & Hok & Htk & Hlen & Hbs) Hle Hq b n.
  pose proof (take_put (sb s) q (sn s) ltac:(lia)) as Ht. fold b in Ht. rewrite Htk in Ht.
  assert (length b = 64%nat) as Hb by (unfold b; rewrite length_put; lia).
  apply Forall_app in Hbs as [Hbm Hbr].
  assert (bytes (r ++ q)) as Hbq by (apply Forall_app; done).
  destruct (Nat.eqb_spec n 64) as [E|E].
  - assert (b = r ++ q) as Eb. { rewrite <- Ht. symmetry. apply take_ge. lia. }
    destruct (block_spec (sh s) b) as [E1 E2]; [by rewrite Eb|done|done|].
    exists ((m1 ++ r) ++ q), []. rewrite app_nil_r. cbn [sh sn sb]. rewrite <- app_assoc.
    split_and!; try done; [|lia| |by apply Forall_app].
    + rewrite length_app, <- Eb, Hb, <- (Nat.mul_1_l 64) at 1. by rewrite Nat.Div0.mod_add.
    + rewrite E1, Hh, Eb. symmetry. apply hash_blocks_app; [done|]. rewrite <- Eb. done.
  - exists m1, (r ++ q). cbn [sh sn sb]. rewrite app_assoc.
    split_and!; try done; [rewrite length_app; lia|lia|]. rewrite <- app_assoc. by apply Forall_app.
Qed.

Lemma update_loop_absorbs (fuel : nat) (s : sha_t) (m p : list Z) :
  absorbed s m -> bytes p -> (length p <= fuel)%nat ->
  absorbed (update_loop fuel s p) (m ++ p) /\ sbits (update_loop fuel s p) = sbits s.
Proof.
  revert s m p. induction fuel as [|fuel IH]; intros s m p Hs Hp Hf.
  - destruct p; [|cbn [length] in Hf; lia]. by rewrite app_nil_r.
  - destruct p as [|c p']; [by rewrite app_nil_r|]. cbn [update_loop].
    set (p := c :: p') in *. set (x := Nat.min (64 - sn s) (length p)).
    assert (sn s < 64)%nat as Hn by (by destruct Hs as (? & ? & ? & ? & ? & ? & _)).
    assert (length p = S (length p')) as Hlp by done.
    assert (length (take x p) = x) as Hx by (rewrite length_take; lia).
    pose proof (absorb_step s m (take x p) (sbits s) Hs ltac:(lia) ltac:(by apply Forall_take)) as Hstep.
    rewrite Hx in Hstep. cbn zeta in Hstep.
    destruct (IH _ _ (drop x p) Hstep) as [H1 H2]; [by apply Forall_drop|rewrite length_drop; lia|].
    rewrite <- app_assoc, take_drop in H1. split; [done|]. rewrite H2. by destruct (Nat.eqb _ _).
Qed.

Lemma init_words_ok : words_ok (sh init).
Proof. vm_compute. repeat split; (discriminate || reflexivity). Qed.

Lemma init_absorbed : absorbed init [].
Proof.
  exists [], []. split; [done|]. split; [done|]. split; [done|]. split; [apply Nat.ltb_lt; reflexivity|].
  split; [exact init_spec|]. split; [exact init_words_ok|]. split; [done|]. split; [done|]. by apply Forall_nil_2.
Qed.

Lemma update_absorbs (s : sha_t) (m p : list Z) :
  absorbed s m -> bytes p -> absorbed (update s p) (m ++ p) /\ sbits (update s p) = u64 (sbits s + Z.of_nat (length p) * 8).
Proof.
  intros Hs Hp. unfold update. by apply (update_loop_absorbs (length p) (Sha _ _ _ _)).
Qed.

Lemma length_be (n : nat) (v : Z) : length (be n v) = n.
Proof. unfold be. by rewrite length_map, length_seq. Qed.

Lemma be_bytes (n : nat) (v : Z) : bytes (be n v).
Proof.
  apply List.Forall_map, List.Forall_forall. intros i _. unfold is_u8, u8. apply Z.mod_pos_bound. lia.
Qed.

Lemma replicate_bytes (n : nat) : bytes (replicate n 0).
Proof. apply Forall_replicate. unfold is_u8. lia. Qed.

Lemma digest_bytes (s : words) : length (digest s) = 32%nat /\ bytes (digest s).
Proof.
  unfold digest. split; [by rewrite !length_app, !length_be|].
  repeat (apply Forall_app; split; [apply be_bytes|]). apply be_bytes.
Qed.

#[local] Opaque digest.
#[local] Hint Resolve be_bytes replicate_bytes : core.

(** A block put together from what the buffer holds and a tail. *)
Lemma block_tail (s : sha_t) (m : list Z) (q : list Z) :
  absorbed s m -> (sn s + length q = 64)%nat -> bytes q ->
  exists b, b = put (sb s) (sn s) q /\ (length (m ++ q) mod 64 = 0)%nat /\
    block (sh s) b = Fips.hash_blocks (m ++ q) /\ words_ok (block (sh s) b) /\ length b = 64%nat.
Proof.
  intros Hs Hn Hq. pose proof (absorb_step s m q 0 Hs ltac:(lia) Hq) as Ha. cbn zeta in Ha.
  rewrite Hn in Ha. change (Nat.eqb 64 64) with true in Ha. cbv iota in Ha.
  destruct Ha as (m1 & r & E & Hm & Hr & _ & Hh & Hok & _ & Hl & _). cbn [sh sn sb] in *.
  destruct r; [|done]. rewrite app_nil_r in E. rewrite E. eauto 10.
Qed.

(** Writing two runs one after the other is writing both. *)
Lemma put_put (b xs ys : list Z) (n : nat) :
  (n + length xs + length ys <= length b)%nat ->
  put (put b n xs) (n + length xs) ys = put b n (xs ++ ys).
Proof.
  intros H. unfold put at 1. rewrite take_put by lia. unfold put. rewrite !length_app, <- !app_assoc. do 3 f_equal.
  rewrite !app_assoc, drop_app_ge by (rewrite length_app, length_take; lia).
  rewrite length_app, length_take, drop_drop. f_equal. lia.
Qed.

Lemma put_full (b ys : list Z) : length ys = length b -> put b 0 ys = ys.
Proof. intros H. unfold put. rewrite take_0, drop_ge, app_nil_r by lia. done. Qed.

Lemma final_bytes (s : sha_t) : length (final s) = 32%nat /\ bytes (final s).
Proof. unfold final. destruct (Nat.ltb _ _); apply digest_bytes. Qed.

(** The last eight bytes do not depend on the bits above 64. *)
Lemma be_u64 (v : Z) : be 8 (u64 v) = be 8 v.
Proof.
  unfold be. apply map_ext_in. intros i Hi%in_seq. unfold u8, u64.
  rewrite <- !Z.land_ones by lia. apply Z.bits_inj'. intros j Hj.
  rewrite !Z.land_spec, !Z.testbit_ones_nonneg by lia. destruct (Z.ltb_spec j 8); [|by rewrite !andb_false_r].
  rewrite !Z.shiftr_spec, Z.land_spec, Z.testbit_ones_nonneg by lia.
  destruct (Z.ltb_spec (j + Z.of_nat (8 - 1 - i) * 8) 64); [by rewrite !andb_true_r|lia].
Qed.

Lemma absorbed_count (s : sha_t) (m : list Z) :
  absorbed s m -> Z.of_nat (length m) mod 64 = Z.of_nat (sn s) /\ (sn s < 64)%nat /\ length (sb s) = 64%nat.
Proof.
  intros (m1 & r & -> & Hm1 & Hr & Hn & _ & _ & _ & Hlb & _). split; [|done].
  rewrite length_app, Hr. pose proof (Nat.div_mod (length m1) 64 ltac:(lia)) as D. rewrite Hm1 in D.
  rewrite D. generalize (length m1 / 64)%nat. intros q. Z.div_mod_to_equations. lia.
Qed.

(** How many zeros [pad] puts in, in terms of what the buffer holds. *)
Lemma pad_zeros (s : sha_t) (m : list Z) :
  absorbed s m ->
  Z.to_nat ((55 - Z.of_nat (length m)) mod 64) = (if Nat.ltb 55 (sn s) then 119 - sn s else 55 - sn s)%nat.
Proof.
  intros Hs. destruct (absorbed_count s m Hs) as (Hm & Hn & _).
  destruct (Nat.ltb_spec 55 (sn s)); Z.div_mod_to_equations; lia.
Qed.

(** The padding that does not fit needs one more block. *)
Lemma final_two_blocks (s : sha_t) (m len : list Z) :
  absorbed s m -> (55 < sn s)%nat -> length len = 8%nat -> bytes len ->
  let b := zero_to 64 (put (sb s) (sn s) [0x80]) (S (sn s)) in
  block (block (sh s) b) (put (zero_to 56 b 0) 56 len)
  = Fips.hash_blocks (m ++ 0x80 :: replicate (119 - sn s) 0 ++ len).
Proof.
  intros Hs Hn Hlen Hlb b. destruct (absorbed_count s m Hs) as (_ & Hlt & Hsb).
  destruct (block_tail s m (0x80 :: replicate (64 - S (sn s)) 0)) as (b' & Eb & Hm & Hh & Hok & Hl).
  { done. } { cbn [length]. rewrite length_replicate. lia. } { constructor; [unfold is_u8; lia|apply replicate_bytes]. }
  assert (b = b') as ->.
  { rewrite Eb. unfold b, zero_to. replace (S (sn s)) with (sn s + length [128])%nat at 1 by (cbn [length]; lia).
    by rewrite put_put by (rewrite length_replicate; cbn [length]; lia). }
  assert (length (replicate 56 0 ++ len) = 64%nat) as Hlast by (rewrite length_app, length_replicate; lia).
  assert (put (zero_to 56 b' 0) 56 len = replicate 56 0 ++ len) as ->.
  { unfold zero_to. pose proof (put_put b' (replicate 56 0) len 0) as H.
    rewrite length_replicate in H. change (56 - 0)%nat with 56%nat. cbn [Nat.add] in H. rewrite H by lia. apply put_full. lia. }
  destruct (block_spec (block (sh s) b') (replicate 56 0 ++ len)) as [E _];
    [apply Forall_app; split; [apply replicate_bytes|done]|done|done|].
  rewrite E, Hh, <- hash_blocks_app by done. rewrite <- app_assoc. cbn [app].
  rewrite (app_assoc (replicate _ _)), <- replicate_add.
  by replace (64 - S (sn s) + 56)%nat with (119 - sn s)%nat by lia.
Qed.

Lemma final_one_block (s : sha_t) (m len : list Z) :
  absorbed s m -> (sn s <= 55)%nat -> length len = 8%nat -> bytes len ->
  block (sh s) (put (zero_to 56 (put (sb s) (sn s) [0x80]) (S (sn s))) 56 len)
  = Fips.hash_blocks (m ++ 0x80 :: replicate (55 - sn s) 0 ++ len).
Proof.
  intros Hs Hn Hlen Hlb. destruct (absorbed_count s m Hs) as (_ & _ & Hsb).
  destruct (block_tail s m (0x80 :: replicate (55 - sn s) 0 ++ len)) as (b & Eb & _ & Hh & _).
  { done. } { cbn [length]. rewrite length_app, length_replicate. lia. }
  { constructor; [unfold is_u8; lia|]. apply Forall_app. split; [apply replicate_bytes|done]. }
  rewrite <- Hh, Eb. apply (f_equal (block (sh s))). unfold zero_to.
  replace (S (sn s)) with (sn s + length [128])%nat at 1 by (cbn [length]; lia).
  rewrite put_put by (rewrite length_replicate; cbn [length]; lia).
  replace 56%nat with (sn s + length ([128] ++ replicate (56 - S (sn s)) 0)%Z)%nat at 2
    by (rewrite length_app, length_replicate; cbn [length]; lia).
  rewrite put_put by (rewrite length_app, length_replicate; cbn [length]; lia).
  cbn [app]. by replace (56 - S (sn s))%nat with (55 - sn s)%nat by lia.
Qed.

Lemma final_correct (s : sha_t) (m : list Z) :
  absorbed s m -> sbits s = u64 (8 * Z.of_nat (length m)) -> final s = Fips.SHA256 m.
Proof.
  intros Hs Hb. unfold final, Fips.SHA256, Fips.pad. rewrite Hb, be_u64, (pad_zeros s) by done.
  pose proof (length_be 8 (8 * Z.of_nat (length m))) as Hl. pose proof (be_bytes 8 (8 * Z.of_nat (length m))) as Hy.
  destruct (Nat.ltb_spec 55 (sn s)) as [H|H].
  - rewrite (proj2 (Nat.ltb_lt 56 (S (sn s)))) by lia. by rewrite (final_two_blocks s m) by done.
  - rewrite (proj2 (Nat.ltb_ge 56 (S (sn s)))) by lia. by rewrite (final_one_block s m) by done.
Qed.

Lemma sha256_correct (m : list Z) : bytes m -> crypto_sha256 m = Fips.SHA256 m.
Proof.
  intros Hm. destruct (update_absorbs init [] m init_absorbed Hm) as [H1 H2].
  apply final_correct; [done|]. rewrite H2. cbn [sbits init]. f_equal. lia.
Qed.

(** Two pieces are hashed like their concatenation. *)
Lemma sha256_pieces (a b : list Z) :
  bytes a -> bytes b -> final (update (update init a) b) = Fips.SHA256 (a ++ b).
Proof.
  intros Ha Hb. destruct (update_absorbs init [] a init_absorbed Ha) as [H1 H2].
  destruct (update_absorbs _ _ b H1 Hb) as [H3 H4]. apply final_correct; [done|].
  rewrite H4, H2, length_app. cbn [sbits init]. unfold u64. rewrite Z.add_mod_idemp_l by lia. f_equal. lia.
Qed.

Lemma SHA256_bytes (m : list Z) : length (Fips.SHA256 m) = 32%nat /\ bytes (Fips.SHA256 m).
Proof. apply digest_bytes. Qed.

(** ** HMAC and PBKDF2 *)

Lemma lxor_byte (x v : Z) : is_u8 x -> is_u8 v -> is_u8 (Z.lxor x v).
Proof.
  unfold is_u8. intros Hx Hv. rewrite <- (Z.mod_small x (2 ^ 8)), <- (Z.mod_small v (2 ^ 8)) by lia.
  assert (Z.lxor (x mod 2 ^ 8) (v mod 2 ^ 8) = Z.lxor x v mod 2 ^ 8) as ->; [|apply Z.mod_pos_bound; lia].
  rewrite <- !Z.land_ones by lia. apply Z.bits_inj'. intros j Hj.
  rewrite !Z.lxor_spec, !Z.land_spec, Z.lxor_spec. by destruct (Z.testbit (Z.ones 8) j); rewrite ?andb_true_r, ?andb_false_r.
Qed.

Lemma xor_all_bytes (l : list Z) (v : Z) : bytes l -> is_u8 v -> bytes (Fips.xor_all l v).
Proof.
  intros Hl Hv. apply List.Forall_map. eapply Forall_impl; [exact Hl|]. intros x Hx. by apply lxor_byte.
Qed.

Lemma block_key_bytes (key : list Z) : bytes key -> bytes (Fips.block_key key).
Proof.
  intros Hk. unfold Fips.block_key. apply Forall_app. split; [|apply replicate_bytes].
  destruct (Nat.leb_spec (length key) 64); [done|apply SHA256_bytes].
Qed.

Lemma hmac_correct (key msg : list Z) : bytes key -> bytes msg -> hmac key msg = Fips.HMAC key msg.
Proof.
  intros Hk Hm. unfold hmac, Fips.HMAC.
  assert (forall q, (length q <= 64)%nat -> put (replicate 64 0) 0 q = q ++ replicate (64 - length q) 0) as Hput.
  { intros q Hq. unfold put. rewrite take_0, drop_replicate. done. }
  assert ((if Nat.ltb 64 (length key) then put (replicate 64 0) 0 (final (update init key)) else put (replicate 64 0) 0 key)
          = Fips.block_key key) as ->.
  { unfold Fips.block_key. destruct (Nat.ltb_spec 64 (length key)) as [H|H].
    - change (final (update init key)) with (crypto_sha256 key). rewrite sha256_correct by done.
      rewrite (proj2 (Nat.leb_gt _ _)) by done. destruct (SHA256_bytes key) as [Hl _]. apply Hput. lia.
    - rewrite (proj2 (Nat.leb_le _ _)) by done. by apply Hput. }
  pose proof (block_key_bytes key Hk) as Hb. rewrite map_map.
  assert (map (fun x => Z.lxor x 0x36) (Fips.block_key key) = Fips.xor_all (Fips.block_key key) 0x36) as ->.
  { apply map_ext. intros x. apply Z.lxor_comm. }
  assert (map (fun x => Z.lxor (Z.lxor x 0x36) (Z.lxor 0x36 0x5c)) (Fips.block_key key) = Fips.xor_all (Fips.block_key key) 0x5c) as ->.
  { apply map_ext. intros x. rewrite Z.lxor_assoc, <- (Z.lxor_assoc 0x36), Z.lxor_nilpotent, Z.lxor_0_l. apply Z.lxor_comm. }
  assert (is_u8 0x36) by (unfold is_u8; lia). assert (is_u8 0x5c) by (unfold is_u8; lia).
  rewrite (sha256_pieces _ msg), sha256_pieces; [done|by apply xor_all_bytes|apply SHA256_bytes|by apply xor_all_bytes|done].
Qed.

Lemma U_bytes (p salt : list Z) (i : nat) : bytes (Fips.U p salt i).
Proof. destruct i; apply SHA256_bytes. Qed.

Lemma pbkdf2_loop_correct (n j : nat) (p salt out : list Z) :
  bytes p ->
  pbkdf2_loop n p out (Fips.U p salt j)
  = fold_left (zip_with Z.lxor) (map (Fips.U p salt) (seq (S j) n)) out.
Proof.
  intros Hp. revert j out. induction n as [|n IH]; intros j out; [done|].
  cbn [pbkdf2_loop seq map fold_left]. rewrite hmac_correct by (done || apply U_bytes). apply (IH (S j)).
Qed.

(** C10. The password hash is the one of the standards: for every password, every
    salt and every number of rounds, pbkdf2_sha256 computes the first 32 bytes of
    PBKDF2 (RFC 8018) with HMAC (RFC 2104) of SHA-256 (FIPS 180-4), of the first 64
    bytes of the salt and with one round when none is asked for.  So it is the
    standard's function for every salt of at most 64 bytes and every positive
    number of rounds, which the second part says.  The streaming buffer, the
    padding in one or two blocks, the tables of constants, the message schedule in
    an array and the key that is masked in place are all accounted for. *)
Theorem pbkdf2_sha256_correct (p salt : list Z) (rounds : Z) :
  bytes p -> bytes salt -> is_u32 rounds ->
  pbkdf2_sha256 p salt rounds = Fips.PBKDF2 p (take 64 salt) (Nat.max 1 (Z.to_nat rounds)) /\
  ((length salt <= 64)%nat -> 0 < rounds -> pbkdf2_sha256 p salt rounds = Fips.PBKDF2 p salt (Z.to_nat rounds)).
Proof.
  intros Hp Hs Hr. unfold is_u32 in Hr.
  assert (pbkdf2_sha256 p salt rounds = Fips.PBKDF2 p (take 64 salt) (Nat.max 1 (Z.to_nat rounds))) as E.
  { unfold pbkdf2_sha256, Fips.PBKDF2.
    assert (take (Nat.min (length salt) 64) salt = take 64 salt) as ->.
    { destruct (Nat.min_spec (length salt) 64) as [[? ->]|[? ->]]; [by rewrite !take_ge by lia|done]. }
    change [0; 0; 0; 1] with (be 4 1).
    rewrite hmac_correct by (done || (apply Forall_app; split; [by apply Forall_take|apply be_bytes])).
    change (Fips.HMAC p (take 64 salt ++ be 4 1)) with (Fips.U p (take 64 salt) 0). rewrite pbkdf2_loop_correct by done.
    by replace (Z.to_nat (rounds - 1)) with (Nat.max 1 (Z.to_nat rounds) - 1)%nat by lia. }
  split; [exact E|]. intros Hl H1. by rewrite E, take_ge, Nat.max_r by lia.
Qed.

Lemma pbkdf2_sha256_correct_witness :
  pbkdf2_sha256 (text "password") (text "salt") 1 = Fips.PBKDF2 (text "password") (text "salt") 1 /\
  Fips.PBKDF2 (text "password") (text "salt") 1
  = [0x12; 0x0f; 0xb6; 0xcf; 0xfc; 0xf8; 0xb3; 0x2c; 0x43; 0xe7; 0x22; 0x52; 0x56; 0xc4; 0xf8; 0x37;
     0xa8; 0x65; 0x48; 0xc9; 0x2c; 0xcc; 0x35; 0x48; 0x08; 0x05; 0x98; 0x7c; 0xb7; 0x0b; 0xe1; 0x7b].
Proof.
  assert (pbkdf2_sha256 (text "password") (text "salt") 1 = Fips.PBKDF2 (text "password") (text "salt") 1) as H.
  { apply (pbkdf2_sha256_correct (text "password") (text "salt") 1);
      [repeat constructor; discriminate.. | unfold is_u32; lia | apply Nat.leb_le; reflexivity | lia]. }
  split; [exact H|]. rewrite <- H. vm_compute. reflexivity.
Defined.
