(* ===== verification/Auth.v ===== *)
(** * User accounts (src/kernel/security/auth.c)

    The account table, password checks, roles and groups, and the two files it
    is saved in.  The table is the list of the records in use ([users] is its
    length); character arrays are buffers of their size.  Texts from files are
    byte lists; an export function is given the capacity of its buffer and
    returns what it wrote, [None] standing for its result 0. *)

From stdpp Require Import base numbers list strings.
From Stdlib Require Import ZArith Lia.
From S2P Require Import Prelude Crypto.

(** ** Data *)

Definition AUTH_ROOT : Z := 0.
Definition AUTH_ADMIN : Z := 1.
Definition AUTH_POWER : Z := 2.
Definition AUTH_STANDARD : Z := 3.
Definition AUTH_GUEST : Z := 4.

Definition AUTH_GROUP_ROOT : Z := Z.shiftl 1 0.
Definition AUTH_GROUP_ADMIN : Z := Z.shiftl 1 1.
Definition AUTH_GROUP_USERS : Z := Z.shiftl 1 2.
Definition AUTH_GROUP_DEVELOPERS : Z := Z.shiftl 1 3.
Definition AUTH_GROUP_OPERATORS : Z := Z.shiftl 1 4.
Definition AUTH_GROUP_NETWORK : Z := Z.shiftl 1 5.
Definition AUTH_GROUP_STORAGE : Z := Z.shiftl 1 8.
Definition AUTH_GROUP_WHEEL : Z := Z.shiftl 1 9.

(** [record_t]; a role read from a file can be any number. *)
Record record_t := Account {
  a_user : list Z; a_salt : list Z; a_hash : list Z; a_locked : bool;
  a_uid : Z; a_gid : Z; a_role : Z; a_groups : Z
}.

Record auth := Auth { records : list record_t; current : nat; current_umask : Z }.

Definition users (a : auth) : nat := length (records a).
Definition name (r : record_t) : list Z := cstring (a_user r).
Definition salt (r : record_t) : list Z := cstring (a_salt r).

(** A string written to the start of a buffer, with its terminator. *)
Definition strput (buf s : list Z) : list Z := s ++ 0 :: drop (S (length s)) buf.

(** A cleared record with the first fifteen characters of a name. *)
Definition named (u : list Z) : record_t :=
  Account (strput (replicate 16 0) (take 15 u)) (replicate 32 0) (replicate 32 0) false 0 0 0 0.

Fixpoint eq (a b : list Z) : bool :=
  match a, b with
  | [], [] => true
  | x :: a, y :: b => (x =? y) && eq a b
  | _, _ => false
  end.

Definition hex (c : Z) : Z :=
  if (48 <=? c) && (c <=? 57) then c - 48
  else if (97 <=? c) && (c <=? 102) then c - 97 + 10
  else if (65 <=? c) && (c <=? 70) then c - 65 + 10
  else -1.

Definition with_ids (uid gid role groups : Z) (r : record_t) : record_t :=
  Account (a_user r) (a_salt r) (a_hash r) (a_locked r) uid gid role groups.

Definition defaults (index : nat) (r : record_t) : record_t :=
  if eq (name r) (text "root")
  then with_ids 0 0 AUTH_ROOT (Z.lor (Z.lor (Z.lor (Z.lor AUTH_GROUP_ROOT AUTH_GROUP_ADMIN) AUTH_GROUP_WHEEL)
                                     AUTH_GROUP_STORAGE) AUTH_GROUP_NETWORK) r
  else if eq (name r) (text "nobody") then with_ids 65534 65534 AUTH_GUEST 0 r
  else with_ids (u16 (1000 + Z.of_nat index)) 100 AUTH_STANDARD AUTH_GROUP_USERS r.

(** The index of the first record with this name. *)
Fixpoint find (u : list Z) (l : list record_t) : option nat :=
  match l with
  | [] => None
  | r :: l => if eq u (name r) then Some 0%nat else option_map S (find u l)
  end.

Definition salt_of (user : list Z) : list Z := text "os64-user-" ++ take (31 - 10) user.

Definition hash_password (p : list Z) (r : record_t) : record_t :=
  let s := salt_of (name r) in
  Account (a_user r) (strput (a_salt r) s) (pbkdf2_sha256 p s 10000) false
          (a_uid r) (a_gid r) (a_role r) (a_groups r).

(** ** Loading the shadow file *)

(** What precedes the first [c], and the rest from it on. *)
Fixpoint before (c : Z) (l : list Z) : list Z * list Z :=
  match l with
  | [] => ([], [])
  | x :: l' => if x =? c then ([], l) else let '(p, q) := before c l' in (x :: p, q)
  end.

Definition shadow_prefix : list Z := text "$pbkdf2-sha256$10000$".

(** [for (i = 0; prefix[i]; i++) if (c >= end || d[c++] != prefix[i]) return 0;] *)
Fixpoint skip_prefix (p l : list Z) : option (list Z) :=
  match p, l with
  | [], _ => Some l
  | x :: p, y :: l => if y =? x then skip_prefix p l else None
  | _ :: _, [] => None
  end.

(** [while (c < end && d[c] != '$' && s < n)] *)
Fixpoint take_salt (n : nat) (l : list Z) : list Z * list Z :=
  match n, l with
  | S n, x :: l' => if x =? 36 then ([], l) else let '(p, q) := take_salt n l' in (x :: p, q)
  | _, _ => ([], l)
  end.

Fixpoint hex_bytes (n : nat) (l : list Z) : option (list Z) :=
  match n with
  | O => Some []
  | S n =>
    match l with
    | x :: y :: l =>
      if (hex x <? 0) || (hex y <? 0) then None
      else match hex_bytes n l with
           | Some h => Some (u8 (Z.lor (Z.shiftl (hex x) 4) (hex y)) :: h)
           | None => None
           end
    | _ => None
    end
  end.

(** The record of a line, for the next index of the table. *)
Definition parse_line (line : list Z) (index : nat) : option record_t :=
  if Nat.leb 16 index then None else
  let '(u, rest) := before 58 line in
  match u, rest with
  | [], _ | _, [] => None
  | _ :: _, _ :: rest =>
    let r := defaults index (named u) in
    match rest with
    | 33 :: _ => Some (Account (a_user r) (a_salt r) (a_hash r) true (a_uid r) (a_gid r) (a_role r) (a_groups r))
    | _ =>
      match skip_prefix shadow_prefix rest with
      | None => None
      | Some rest =>
        let '(s, rest) := take_salt 31 rest in
        match rest with
        | 36 :: rest =>
          match hex_bytes 32 rest with
          | Some h => Some (Account (a_user r) (strput (a_salt r) s) h false (a_uid r) (a_gid r) (a_role r) (a_groups r))
          | None => None
          end
        | _ => None
        end
      end
    end
  end.

(** The lines of a text; a last line may lack its newline. *)
Fixpoint lines (d : list Z) : list (list Z) :=
  match d with
  | [] => []
  | c :: d => if c =? 10 then [] :: lines d
              else match lines d with [] => [[c]] | l :: ls => (c :: l) :: ls end
  end.

Fixpoint load_lines (ls : list (list Z)) (rs : list record_t) : bool * list record_t :=
  match ls with
  | [] => (true, rs)
  | l :: ls =>
    match l with
    | [] => load_lines ls rs
    | c :: _ =>
      if c =? 35 then load_lines ls rs
      else match parse_line l (length rs) with
           | Some r => load_lines ls (rs ++ [r])
           | None => (false, rs)
           end
    end
  end.

Definition auth_select (u : list Z) (a : auth) : bool * auth :=
  match find u (records a) with
  | None => (false, a)
  | Some i =>
    let umask := match records a !! i with
                 | Some r => if a_role r =? AUTH_GUEST then 0x3f else 0x12
                 | None => current_umask a
                 end in
    (true, Auth (records a) i umask)
  end.

Definition auth_load (d : list Z) (a : auth) : bool * auth :=
  match load_lines (lines d) [] with
  | (false, rs) => (false, Auth rs 0 (current_umask a))
  | (true, rs) =>
    let '(_, a) := auth_select (text "root") (Auth rs 0 (current_umask a)) in
    (Nat.ltb 0 (users a), a)
  end.

(** ** Checking and changing accounts *)

Definition account (u : list Z) (a : auth) : option record_t :=
  match find u (records a) with Some i => records a !! i | None => None end.

(** The comparison loop: [diff |= got[n] ^ r->hash[n]]. *)
Definition hash_diff (got h : list Z) : Z := fold_left Z.lor (zip_with Z.lxor got h) 0.

Definition auth_check (u p : list Z) (a : auth) : bool :=
  match account u a with
  | None => false
  | Some r => if a_locked r then false
              else hash_diff (pbkdf2_sha256 p (salt r) 10000) (a_hash r) =? 0
  end.

Definition auth_nologin (u : list Z) (a : auth) : bool :=
  match account u a with None => true | Some r => a_locked r end.

Definition with_records (rs : list record_t) (a : auth) : auth := Auth rs (current a) (current_umask a).

(** The role given to a new account, and its groups. *)
Definition grant (role : Z) (r : record_t) : record_t :=
  let g := a_groups r in
  if role =? AUTH_ADMIN
  then with_ids (a_uid r) (a_gid r) role
         (Z.lor g (Z.lor (Z.lor (Z.lor AUTH_GROUP_ADMIN AUTH_GROUP_WHEEL) AUTH_GROUP_NETWORK) AUTH_GROUP_OPERATORS)) r
  else if role =? AUTH_POWER
  then with_ids (a_uid r) (a_gid r) role (Z.lor g (Z.lor AUTH_GROUP_DEVELOPERS AUTH_GROUP_OPERATORS)) r
  else if role =? AUTH_GUEST then with_ids (a_uid r) 65534 role 0 r
  else with_ids (a_uid r) (a_gid r) role g r.

Definition new_account (u p : list Z) (role : Z) (index : nat) : record_t :=
  hash_password p (grant role (defaults index (named u))).

Definition auth_add_role (u p : list Z) (role : Z) (a : auth) : bool * auth :=
  match find u (records a) with
  | Some _ => (false, a)
  | None =>
    if Nat.leb 16 (users a) || (role <? AUTH_ROOT) || (AUTH_GUEST <? role) then (false, a)
    else (true, with_records (records a ++ [new_account u p role (users a)]) a)
  end.

Definition auth_add (u p : list Z) (a : auth) : bool * auth := auth_add_role u p AUTH_STANDARD a.

Definition auth_delete (u : list Z) (a : auth) : bool * auth :=
  match find u (records a) with
  | None => (false, a)
  | Some i =>
    match records a !! i with
    | None => (false, a)
    | Some r =>
      if a_uid r =? 0 then (false, a)
      else let rs := delete i (records a) in
           (true, Auth rs (if Nat.leb (length rs) (current a) then 0%nat else current a) (current_umask a))
    end
  end.

(** A change of the account of a name, if there is one that [ok] allows. *)
Definition update_account (u : list Z) (ok : record_t -> bool) (f : record_t -> record_t) (a : auth) : bool * auth :=
  match find u (records a) with
  | None => (false, a)
  | Some i =>
    match records a !! i with
    | None => (false, a)
    | Some r => if ok r then (true, with_records (<[i := f r]> (records a)) a) else (false, a)
    end
  end.

Definition auth_set_password (u p : list Z) (a : auth) : bool * auth :=
  update_account u (fun _ => true) (hash_password p) a.

Definition auth_set_role (u : list Z) (role : Z) (a : auth) : bool * auth :=
  update_account u (fun r => negb (a_uid r =? 0) && negb (role =? AUTH_ROOT))
                 (fun r => with_ids (a_uid r) (a_gid r) role (a_groups r) r) a.

Definition auth_set_groups (u : list Z) (g : Z) (a : auth) : bool * auth :=
  update_account u (fun r => negb (a_uid r =? 0))
                 (fun r => with_ids (a_uid r) (a_gid r) (a_role r) (Z.lor g AUTH_GROUP_USERS) r) a.

Fixpoint find_uid (uid : Z) (l : list record_t) : option record_t :=
  match l with [] => None | r :: l => if a_uid r =? uid then Some r else find_uid uid l end.

Definition auth_select_uid (uid : Z) (a : auth) : bool * auth :=
  match find_uid uid (records a) with Some r => auth_select (name r) a | None => (false, a) end.

(** ** The current account *)

Definition whoami (a : auth) : option record_t := records a !! current a.

Definition auth_current_user (a : auth) : list Z := match whoami a with Some r => name r | None => text "nobody" end.
Definition auth_getuid (a : auth) : Z := match whoami a with Some r => a_uid r | None => 65534 end.
Definition auth_getgid (a : auth) : Z := match whoami a with Some r => a_gid r | None => 65534 end.
Definition auth_getgroups (a : auth) : Z := match whoami a with Some r => a_groups r | None => 0 end.
Definition auth_current_role (a : auth) : Z := match whoami a with Some r => a_role r | None => AUTH_GUEST end.
Definition auth_is_root (a : auth) : bool := auth_getuid a =? 0.
Definition auth_has_group (g : Z) (a : auth) : bool := z2b (Z.land (auth_getgroups a) g).
Definition auth_is_admin (a : auth) : bool :=
  auth_is_root a || (auth_current_role a =? AUTH_ADMIN) || auth_has_group AUTH_GROUP_ADMIN a.
Definition auth_lookup (u : list Z) (a : auth) : option (Z * Z * Z * Z) :=
  match account u a with Some r => Some (a_uid r, a_gid r, a_role r, a_groups r) | None => None end.

Definition auth_role_name (r : Z) : list Z :=
  if r =? AUTH_ROOT then text "root" else if r =? AUTH_ADMIN then text "administrator"
  else if r =? AUTH_POWER then text "power" else if r =? AUTH_STANDARD then text "standard" else text "guest".

Definition group_names : list (list Z) :=
  map text ["root"; "admin"; "users"; "developers"; "operators"; "network"; "audio"; "video"; "storage"; "wheel"]%string.

Definition auth_group_from_name (n : list Z) : Z :=
  let fix go i l := match l with [] => 0 | g :: l => if eq n g then Z.shiftl 1 i else go (i + 1) l end in
  go 0 group_names.

Definition auth_group_name (i : Z) : option (list Z) := if i <? 10 then group_names !! Z.to_nat i else None.
Definition auth_umask (a : auth) : Z := current_umask a.
Definition auth_set_umask (m : Z) (a : auth) : auth := Auth (records a) (current a) (Z.land m 0x1ff).

(** ** Saving *)

(** [if (n >= cap) return 0; d[n++] = c;] *)
Definition put1 (cap : nat) (c : Z) (out : list Z) : option (list Z) :=
  if Nat.leb cap (length out) then None else Some (out ++ [c]).

(** [if (n + 2 > cap) return 0; d[n++] = c; d[n++] = e;] *)
Definition put2 (cap : nat) (c e : Z) (out : list Z) : option (list Z) :=
  if Nat.ltb cap (length out + 2) then None else Some (out ++ [c; e]).

Fixpoint put_all (cap : nat) (s out : list Z) : option (list Z) :=
  match s with [] => Some out | c :: s => out ← put1 cap c out; put_all cap s out end.

Definition hex_digit (v : Z) : Z := nth (Z.to_nat v) (text "0123456789abcdef") 0.

Fixpoint put_hex (cap : nat) (h out : list Z) : option (list Z) :=
  match h with
  | [] => Some out
  | b :: h => out ← put2 cap (hex_digit (Z.shiftr b 4)) (hex_digit (Z.land b 15)) out; put_hex cap h out
  end.

Definition export_record (cap : nat) (r : record_t) (out : list Z) : option (list Z) :=
  out ← put_all cap (name r) out;
  out ← put1 cap 58 out;
  if a_locked r then put2 cap 33 10 out else
  out ← put_all cap shadow_prefix out;
  out ← put_all cap (salt r) out;
  out ← put1 cap 36 out;
  out ← put_hex cap (a_hash r) out;
  put1 cap 10 out.

Fixpoint export_all (f : record_t -> list Z -> option (list Z)) (l : list record_t) (out : list Z) : option (list Z) :=
  match l with [] => Some out | r :: l => out ← f r out; export_all f l out end.

Definition auth_export_shadow (cap : nat) (a : auth) : option (list Z) :=
  export_all (export_record cap) (records a) [].

Definition putnum (cap : nat) (v : Z) (out : list Z) : option (list Z) := put_all cap (decimal v) out.

Definition export_account (cap : nat) (r : record_t) (out : list Z) : option (list Z) :=
  out ← put_all cap (name r) out;
  out ← put1 cap 58 out;
  out ← putnum cap (a_uid r) out;
  out ← put1 cap 58 out;
  out ← putnum cap (a_gid r) out;
  out ← put1 cap 58 out;
  out ← putnum cap (u32 (a_role r)) out;
  out ← put1 cap 58 out;
  out ← putnum cap (a_groups r) out;
  put1 cap 10 out.

Definition auth_export_accounts (cap : nat) (a : auth) : option (list Z) :=
  export_all (export_account cap) (records a) [].

(** ** Loading the accounts file *)

Fixpoint number (l : list Z) (v : Z) : Z * list Z :=
  match l with
  | c :: l' => if (48 <=? c) && (c <=? 57) then number l' (u32 (v * 10 + c - 48)) else (v, l)
  | [] => (v, [])
  end.

(** [while (at < n && d[at] != ':' && d[at] != '\n') at++;] *)
Fixpoint before2 (c e : Z) (l : list Z) : list Z * list Z :=
  match l with
  | [] => ([], [])
  | x :: l' => if (x =? c) || (x =? e) then ([], l) else let '(p, q) := before2 c e l' in (x :: p, q)
  end.

(** [while (at < n && d[at++] != '\n');] *)
Definition skip_line (l : list Z) : list Z := drop 1 (snd (before 10 l)).

(** The four numbers of an account, each stored as soon as it is read. *)
Definition load_fields (d : list Z) (r : record_t) : option (list Z) * record_t :=
  let '(v, d) := number d 0 in
  let r := with_ids (u16 v) (a_gid r) (a_role r) (a_groups r) r in
  match d with
  | 58 :: d =>
    let '(v, d) := number d 0 in
    let r := with_ids (a_uid r) (u16 v) (a_role r) (a_groups r) r in
    match d with
    | 58 :: d =>
      let '(v, d) := number d 0 in
      let r := with_ids (a_uid r) (a_gid r) v (a_groups r) r in
      match d with
      | 58 :: d =>
        let '(v, d) := number d 0 in
        (Some (skip_line d), with_ids (a_uid r) (a_gid r) (a_role r) v r)
      | _ => (None, r)
      end
    | _ => (None, r)
    end
  | _ => (None, r)
  end.

(** Every turn reads at least one byte. *)
Fixpoint load_accounts_loop (fuel : nat) (d : list Z) (rs : list record_t) : bool * list record_t :=
  match fuel, d with
  | S fuel, _ :: _ =>
    let '(u, d) := before2 58 10 d in
    match d with
    | 58 :: d =>
      match find (cstring (take 15 u)) rs with
      | None => load_accounts_loop fuel (skip_line d) rs
      | Some i =>
        match rs !! i with
        | None => (false, rs)
        | Some r =>
          let '(rest, r) := load_fields d r in
          match rest with
          | Some d => load_accounts_loop fuel d (<[i := r]> rs)
          | None => (false, <[i := r]> rs)
          end
        end
      end
    | _ => (false, rs)
    end
  | _, _ => (true, rs)
  end.

Definition auth_load_accounts (d : list Z) (a : auth) : bool * auth :=
  let '(ok, rs) := load_accounts_loop (length d) d (records a) in (ok, with_records rs a).
