(* ===== verification/AuthTheorems.v ===== *)
(** * Properties of the account database

    What the two account files hold, that loading them restores the table, and
    the invariant of the table under the operations of Auth.v. *)

From stdpp Require Import base numbers list strings.
From Stdlib Require Import ZArith Lia.
From S2P Require Import Prelude Crypto Auth.

(** ** Hashes *)

Lemma hmac_digest (key msg : list Z) : length (hmac key msg) = 32%nat /\ bytes (hmac key msg).
Proof. apply final_bytes. Qed.

Lemma pbkdf2_loop_bytes (k : nat) (p out u : list Z) :
  length out = 32%nat -> bytes out ->
  length (pbkdf2_loop k p out u) = 32%nat /\ bytes (pbkdf2_loop k p out u).
Proof.
  revert out u. induction k as [|k IH]; intros out u Hl Hb; cbn [pbkdf2_loop]; [done|].
  destruct (hmac_digest p u) as [H1 H2]. apply IH; unfold xor_into.
  - rewrite length_zip_with. lia.
  - apply Forall_forall. intros x Hx. apply elem_of_lookup_zip_with in Hx as (i & y & z & -> & Hy & Hz).
    apply lxor_byte; [by eapply Forall_lookup_1 in Hb|by eapply Forall_lookup_1 in H2].
Qed.

Lemma pbkdf2_bytes (p s : list Z) (n : Z) :
  length (pbkdf2_sha256 p s n) = 32%nat /\ bytes (pbkdf2_sha256 p s n).
Proof. apply pbkdf2_loop_bytes; apply hmac_digest. Qed.

#[local] Opaque pbkdf2_sha256.

(** ** Well-formed accounts *)

Definition name_char (c : Z) : Prop := 0 < c < 256 /\ c <> 58 /\ c <> 10 /\ c <> 36 /\ c <> 35.
Definition salt_char (c : Z) : Prop := 0 < c < 256 /\ c <> 36 /\ c <> 10.

Definition username (u : list Z) : Prop := u <> [] /\ (length u <= 15)%nat /\ Forall name_char u.

Definition secret_ok (r : record_t) : Prop :=
  (length (salt r) <= 31)%nat /\ Forall salt_char (salt r) /\ length (a_hash r) = 32%nat /\ bytes (a_hash r).

Definition account_ok (r : record_t) : Prop :=
  username (name r) /\ (a_locked r = false -> secret_ok r) /\
  is_u16 (a_uid r) /\ is_u16 (a_gid r) /\ is_u32 (a_role r) /\ is_u32 (a_groups r).

Definition accounts_ok (rs : list record_t) : Prop :=
  Forall account_ok rs /\ NoDup (map name rs) /\ (length rs <= 16)%nat.

(** ** Names *)

Lemma eq_spec (a b : list Z) : Auth.eq a b = true <-> a = b.
Proof.
  revert b. induction a as [|x a IH]; intros [|y b]; cbn; try done.
  rewrite andb_true_iff, Z.eqb_eq, IH. naive_solver.
Qed.

Lemma find_some (u : list Z) (l : list record_t) (i : nat) :
  find u l = Some i -> exists r, l !! i = Some r /\ name r = u.
Proof.
  revert i. induction l as [|r l IH]; intros i; cbn; [done|].
  destruct (Auth.eq u (name r)) eqn:E.
  - apply eq_spec in E. intros [= <-]. eauto.
  - destruct (find u l); [|done]. intros [= <-]. cbn. eauto.
Qed.

Lemma find_missing (u : list Z) (l : list record_t) : find u l = None <-> u ∉ map name l.
Proof.
  induction l as [|r l IH]; cbn; [split; [intros _; apply not_elem_of_nil|done]|].
  rewrite not_elem_of_cons, <- IH. destruct (Auth.eq u (name r)) eqn:E.
  - apply eq_spec in E. naive_solver.
  - assert (u <> name r). { intros ->. by rewrite (proj2 (eq_spec _ _)) in E. }
    destruct (find u l); naive_solver.
Qed.

Lemma find_app (u : list Z) (l l' : list record_t) :
  u ∉ map name l -> find u (l ++ l') = option_map (Nat.add (length l)) (find u l').
Proof.
  induction l as [|r l IH]; cbn; intros H; [by destruct (find u l')|].
  apply not_elem_of_cons in H as [Hr Hl]. destruct (Auth.eq u (name r)) eqn:E; [by apply eq_spec in E|].
  rewrite IH by done. by destruct (find u l').
Qed.

Lemma find_head (r : record_t) (l : list record_t) : find (name r) (r :: l) = Some 0%nat.
Proof. cbn. by rewrite (proj2 (eq_spec _ _)). Qed.

Lemma cstring_strput (buf s : list Z) : is_cstr s -> cstring (strput buf s) = s.
Proof. apply cstring_app_nul. Qed.

Lemma cstr_of_name (u : list Z) : Forall name_char u -> is_cstr u.
Proof. intros H. eapply Forall_impl; [exact H|]. unfold name_char. intros; lia. Qed.

(** ** What is written *)

Lemma put1_ok (cap : nat) (c : Z) (out : list Z) : (length out < cap)%nat -> put1 cap c out = Some (out ++ [c]).
Proof. intros H. unfold put1. by rewrite (proj2 (Nat.leb_gt _ _)). Qed.

Lemma put_all_ok (cap : nat) (s out : list Z) :
  (length out + length s <= cap)%nat -> put_all cap s out = Some (out ++ s).
Proof.
  revert out. induction s as [|c s IH]; intros out H; cbn [put_all length] in *; [by rewrite app_nil_r|].
  rewrite put1_ok by lia. cbn [mbind option_bind].
  rewrite IH by (rewrite length_app; cbn [length]; lia). by rewrite <- app_assoc.
Qed.

(** Two hexadecimal digits per byte. *)
Definition hex_text (h : list Z) : list Z :=
  concat (map (fun b => [hex_digit (Z.shiftr b 4); hex_digit (Z.land b 15)]) h).

Lemma length_hex_text (h : list Z) : length (hex_text h) = (2 * length h)%nat.
Proof. unfold hex_text. induction h; cbn [map concat app length] in *; lia. Qed.

Lemma put_hex_ok (cap : nat) (h out : list Z) :
  (length out + 2 * length h <= cap)%nat -> put_hex cap h out = Some (out ++ hex_text h).
Proof.
  revert out. induction h as [|b h IH]; intros out H; cbn [put_hex length] in *; [by rewrite app_nil_r|].
  unfold put2. rewrite (proj2 (Nat.ltb_ge _ _)) by lia. cbn [mbind option_bind].
  rewrite IH by (rewrite length_app; cbn [length]; lia). unfold hex_text. cbn [map concat app]. by rewrite <- app_assoc.
Qed.

(** A line of the shadow file without its newline, and one of the accounts file. *)
Definition shadow_line (r : record_t) : list Z :=
  name r ++ 58 :: if a_locked r then [33] else shadow_prefix ++ salt r ++ 36 :: hex_text (a_hash r).

Definition account_line (r : record_t) : list Z :=
  name r ++ 58 :: decimal (a_uid r) ++ 58 :: decimal (a_gid r) ++ 58 :: decimal (a_role r) ++ 58 :: decimal (a_groups r).

Ltac grow := repeat (progress (rewrite ?length_app; cbn [length])).

(** Brings concatenations into their right-nested form. *)
Ltac flat := repeat (progress (rewrite <- ?app_assoc; cbn [app])).

Lemma shadow_line_length (r : record_t) : account_ok r -> (length (shadow_line r) <= 133)%nat.
Proof.
  intros ((_ & Hn & _) & Hs & _). unfold shadow_line. destruct (a_locked r); grow; [lia|].
  destruct (Hs eq_refl) as (Hl & _ & Hh & _). rewrite length_hex_text. change (length shadow_prefix) with 21%nat. lia.
Qed.

Lemma export_record_ok (cap : nat) (r : record_t) (out : list Z) :
  (length out + length (shadow_line r) < cap)%nat ->
  export_record cap r out = Some (out ++ shadow_line r ++ [10]).
Proof.
  unfold shadow_line, export_record. intros H. rewrite length_app in H. cbn [length] in H.
  rewrite put_all_ok by (destruct (a_locked r); grow; lia). cbn [mbind option_bind].
  rewrite put1_ok by (grow; lia). cbn [mbind option_bind]. destruct (a_locked r).
  - unfold put2. cbn [length] in H. rewrite (proj2 (Nat.ltb_ge _ _)) by (grow; lia).
    by rewrite <- !app_assoc.
  - rewrite !length_app in H. cbn [length] in H. rewrite length_hex_text in H.
    rewrite put_all_ok by (grow; lia). cbn [mbind option_bind].
    rewrite put_all_ok by (grow; lia). cbn [mbind option_bind].
    rewrite put1_ok by (grow; lia). cbn [mbind option_bind].
    rewrite put_hex_ok by (grow; lia). cbn [mbind option_bind].
    rewrite put1_ok by (grow; rewrite length_hex_text; lia). by flat.
Qed.

Lemma decimal_length (k : nat) (n : Z) : (0 < k)%nat -> 0 <= n < 10 ^ Z.of_nat k -> (length (decimal n) <= k)%nat.
Proof.
  intros Hk Hn. unfold decimal. destruct (n =? 0); [cbn; lia|]. rewrite length_rev. by apply digits_rev_small.
Qed.

Lemma account_line_length (r : record_t) : account_ok r -> (length (account_line r) <= 49)%nat.
Proof.
  intros ((_ & Hn & _) & _ & Hu & Hg & Hr & Hs). unfold account_line. grow.
  unfold is_u16, is_u32 in *.
  assert (forall n, 0 <= n < 2 ^ 16 -> (length (decimal n) <= 5)%nat) as H5.
  { intros n Hn'. apply decimal_length; [lia|]. change (10 ^ Z.of_nat 5) with 100000. lia. }
  assert (forall n, 0 <= n < 2 ^ 32 -> (length (decimal n) <= 10)%nat) as H10.
  { intros n Hn'. apply decimal_length; [lia|]. change (10 ^ Z.of_nat 10) with 10000000000. lia. }
  pose proof (H5 _ Hu). pose proof (H5 _ Hg). pose proof (H10 _ Hr). pose proof (H10 _ Hs). lia.
Qed.

Lemma export_account_ok (cap : nat) (r : record_t) (out : list Z) :
  is_u32 (a_role r) -> (length out + length (account_line r) < cap)%nat ->
  export_account cap r out = Some (out ++ account_line r ++ [10]).
Proof.
  unfold account_line, export_account, putnum. intros Hr H. rewrite (u32_small (a_role r)) by done.
  rewrite length_app in H. cbn [length] in H. rewrite length_app in H. cbn [length] in H.
  rewrite length_app in H. cbn [length] in H. rewrite length_app in H. cbn [length] in H.
  do 4 (rewrite put_all_ok by (grow; lia); cbn [mbind option_bind]; rewrite put1_ok by (grow; lia); cbn [mbind option_bind]).
  rewrite put_all_ok by (grow; lia). cbn [mbind option_bind]. rewrite put1_ok by (grow; lia). by flat.
Qed.

(** The text of a list of lines. *)
Definition unlines (ls : list (list Z)) : list Z := concat (map (fun l => l ++ [10]) ls).

Lemma export_all_ok (f : record_t -> list Z -> option (list Z)) (line : record_t -> list Z) (m cap : nat)
    (l : list record_t) (out : list Z) :
  (forall r out, account_ok r -> (length out + length (line r) < cap)%nat -> f r out = Some (out ++ line r ++ [10])) ->
  (forall r, account_ok r -> (length (line r) <= m)%nat) ->
  Forall account_ok l -> (length out + length l * (m + 1) <= cap)%nat ->
  export_all f l out = Some (out ++ unlines (map line l)).
Proof.
  intros Hf Hm Hl. revert out. induction Hl as [|r l Hr Hl IH]; intros out Hc; [by rewrite app_nil_r|].
  cbn [length] in Hc. pose proof (Hm r Hr). cbn [export_all]. rewrite Hf by (done || lia). cbn [mbind option_bind].
  rewrite IH by (rewrite !length_app; cbn [length]; lia). unfold unlines. cbn [map concat]. by flat.
Qed.

(** Both files fit a page for every table. *)
Lemma export_shadow_ok (a : auth) :
  accounts_ok (records a) -> auth_export_shadow 4096 a = Some (unlines (map shadow_line (records a))).
Proof.
  intros (Hok & _ & Hl). apply (export_all_ok (export_record 4096) shadow_line 133 4096 _ []); [intros; by apply export_record_ok|apply shadow_line_length|done|].
  cbn [length]. lia.
Qed.

Lemma export_accounts_ok (a : auth) :
  accounts_ok (records a) -> auth_export_accounts 4096 a = Some (unlines (map account_line (records a))).
Proof.
  intros (Hok & _ & Hl). apply (export_all_ok (export_account 4096) account_line 49 4096 _ []); [|apply account_line_length|done|cbn [length]; lia].
  intros r out Hr. apply export_account_ok, Hr.
Qed.

(** ** What is read back *)

Lemma before_app (c : Z) (p q : list Z) : Forall (fun x => x <> c) p -> before c (p ++ c :: q) = (p, c :: q).
Proof.
  induction 1 as [|x p Hx Hp IH]; cbn; [by rewrite Z.eqb_refl|].
  rewrite (proj2 (Z.eqb_neq x c)) by done. by rewrite IH.
Qed.

Lemma before2_app (p q : list Z) : Forall name_char p -> before2 58 10 (p ++ 58 :: q) = (p, 58 :: q).
Proof.
  induction 1 as [|x p Hx Hp IH]; cbn; [done|]. unfold name_char in Hx.
  rewrite (proj2 (Z.eqb_neq x 58)), (proj2 (Z.eqb_neq x 10)) by lia. cbn. by rewrite IH.
Qed.

Lemma skip_prefix_app (p q : list Z) : skip_prefix p (p ++ q) = Some q.
Proof. induction p as [|x p IH]; cbn; [done|]. by rewrite Z.eqb_refl. Qed.

Lemma take_salt_app (n : nat) (s q : list Z) :
  Forall salt_char s -> (length s <= n)%nat -> take_salt n (s ++ 36 :: q) = (s, 36 :: q).
Proof.
  intros Hs. revert n. induction Hs as [|x s Hx Hs IH]; intros n Hn; cbn [length] in Hn.
  - by destruct n.
  - destruct n as [|n]; [lia|]. cbn. unfold salt_char in Hx.
    rewrite (proj2 (Z.eqb_neq x 36)) by lia. rewrite IH by lia. done.
Qed.

Lemma hex_digits (b : Z) :
  is_u8 b -> 0 <= hex (hex_digit (Z.shiftr b 4)) /\ 0 <= hex (hex_digit (Z.land b 15)) /\
  u8 (Z.lor (Z.shiftl (hex (hex_digit (Z.shiftr b 4))) 4) (hex (hex_digit (Z.land b 15)))) = b.
Proof.
  intros Hb. pose (check b := (0 <=? hex (hex_digit (Z.shiftr b 4))) && (0 <=? hex (hex_digit (Z.land b 15))) &&
    (u8 (Z.lor (Z.shiftl (hex (hex_digit (Z.shiftr b 4))) 4) (hex (hex_digit (Z.land b 15)))) =? b)).
  assert (forallb check (seqZ 0 256) = true) as H by (by vm_compute).
  rewrite forallb_forall in H. specialize (H b). unfold check in H.
  assert (In b (seqZ 0 256)) as Hin by (apply list_elem_of_In, elem_of_seqZ; unfold is_u8 in Hb; lia).
  specialize (H Hin). breflect. done.
Qed.

Lemma hex_bytes_text (h q : list Z) : bytes h -> hex_bytes (length h) (hex_text h ++ q) = Some h.
Proof.
  induction 1 as [|b h Hb Hh IH]; [done|]. cbn [length hex_bytes hex_text map concat app].
  destruct (hex_digits b Hb) as (H1 & H2 & H3).
  rewrite (proj2 (Z.ltb_ge _ _)), (proj2 (Z.ltb_ge _ _)) by done. cbn [orb].
  unfold hex_text in IH. cbn [app] in *. rewrite IH, H3. done.
Qed.

(** What a record looks like once it has been saved and loaded: the buffers are
    cleared behind their strings, and a locked account has no password. *)
Definition saved (r : record_t) : record_t :=
  Account (strput (replicate 16 0) (name r))
          (if a_locked r then replicate 32 0 else strput (replicate 32 0) (salt r))
          (if a_locked r then replicate 32 0 else a_hash r) (a_locked r)
          (a_uid r) (a_gid r) (a_role r) (a_groups r).

(** The record read from the shadow file alone has other numbers. *)
Definition same_but_ids (r s : record_t) : Prop :=
  exists uid gid role groups, r = with_ids uid gid role groups s.

Lemma parse_shadow_line (r : record_t) (index : nat) :
  account_ok r -> (index < 16)%nat ->
  exists s, parse_line (shadow_line r) index = Some s /\ same_but_ids s (saved r).
Proof.
  intros ((Hne & Hlen & Hch) & Hsec & _) Hi. unfold parse_line, shadow_line.
  rewrite (proj2 (Nat.leb_gt _ _)) by done.
  rewrite before_app by (eapply Forall_impl; [exact Hch|]; unfold name_char; intros; lia).
  destruct (name r) as [|c u] eqn:En; [done|]. rewrite <- En in *. set (z := named (name r)).
  assert (a_user z = strput (replicate 16 0) (name r)) as Hz by (cbn; by rewrite take_ge by lia).
  assert (exists uid gid role groups, defaults index z = with_ids uid gid role groups z) as (uid & gid & role & groups & ->).
  { unfold defaults. destruct (Auth.eq _ _); [eauto 10|]. destruct (Auth.eq _ _); eauto 10. }
  unfold saved, same_but_ids. rewrite <- Hz. destruct (a_locked r).
  - eexists. split; [done|]. by exists uid, gid, role, groups.
  - destruct (Hsec eq_refl) as (Hsl & Hsc & Hhl & Hhb).
    assert (exists q, shadow_prefix ++ salt r ++ 36 :: hex_text (a_hash r) = 36 :: q) as [q Hq] by (by eexists).
    rewrite Hq. cbv iota beta. rewrite <- Hq, skip_prefix_app, take_salt_app by done.
    pose proof (hex_bytes_text (a_hash r) [] Hhb) as Hx. rewrite Hhl, app_nil_r in Hx. rewrite Hx.
    eexists. split; [done|]. by exists uid, gid, role, groups.
Qed.

Lemma lines_app (l d : list Z) : Forall (fun x => x <> 10) l -> lines (l ++ 10 :: d) = l :: lines d.
Proof.
  induction 1 as [|x l Hx Hl IH]; cbn; [done|]. rewrite (proj2 (Z.eqb_neq x 10)) by done. by rewrite IH.
Qed.

Lemma lines_unlines (ls : list (list Z)) :
  Forall (Forall (fun x => x <> 10)) ls -> lines (unlines ls) = ls.
Proof.
  induction 1 as [|l ls Hl Hls IH]; [done|]. unfold unlines in *. cbn [map concat].
  rewrite <- app_assoc. cbn [app]. by rewrite lines_app, IH.
Qed.

Lemma shadow_line_chars (r : record_t) : account_ok r -> Forall (fun x => x <> 10) (shadow_line r).
Proof.
  intros ((_ & _ & Hch) & Hsec & _). unfold shadow_line. apply Forall_app. split.
  { eapply Forall_impl; [exact Hch|]. unfold name_char. intros; lia. }
  constructor; [lia|]. destruct (a_locked r); [by repeat constructor|].
  destruct (Hsec eq_refl) as (_ & Hsc & _ & Hhb). apply Forall_app. split; [by repeat constructor|].
  apply Forall_app. split; [eapply Forall_impl; [exact Hsc|]; unfold salt_char; intros; lia|].
  constructor; [lia|]. unfold hex_text. clear -Hhb. induction Hhb as [|b h Hb Hh IH]; [by constructor|].
  destruct (hex_digits b Hb) as (H1 & H2 & _). cbn [map concat app].
  constructor; [|constructor; [|done]]; intros E; rewrite E in *; by compute in H1, H2.
Qed.

Lemma load_shadow_lines (l : list record_t) (done' : list record_t) :
  Forall account_ok l -> (length done' + length l <= 16)%nat ->
  exists s, load_lines (map shadow_line l) done' = (true, done' ++ s) /\
            Forall2 (fun s r => same_but_ids s (saved r)) s l.
Proof.
  intros Hl. revert done'. induction Hl as [|r l Hr Hl IH]; intros done' Hn; cbn [map load_lines length] in *.
  { exists []. rewrite app_nil_r. by split; [|constructor]. }
  destruct (parse_shadow_line r (length done')) as (s & Es & Hs); [done|lia|].
  destruct (IH (done' ++ [s])) as (ss & E & F); [rewrite length_app; cbn [length]; lia|].
  exists (s :: ss). split; [|by constructor]. rewrite Es, E, <- app_assoc.
  pose proof Hr as ((Hne & _ & Hch) & _). unfold shadow_line.
  destruct (name r) as [|c u]; [done|]. cbn [app]. apply Forall_cons in Hch as [Hc _]. unfold name_char in Hc.
  by rewrite (proj2 (Z.eqb_neq c 35)) by lia.
Qed.

Lemma decimal_digits (n : Z) : 0 <= n -> Forall (fun d => 48 <= d <= 57) (decimal n).
Proof.
  intros Hn. unfold decimal. destruct (n =? 0); [by repeat constructor|]. by apply Forall_rev, digits_rev_range.
Qed.

Lemma number_digits (ds q : list Z) (v : Z) :
  Forall (fun d => 48 <= d <= 57) ds -> (match q with c :: _ => c < 48 \/ 57 < c | [] => True end) ->
  number (ds ++ q) (u32 v) = (u32 (fold_left (fun acc d => acc * 10 + (d - 48)) ds v), q).
Proof.
  intros Hds Hq. revert v. induction Hds as [|d ds Hd Hds IH]; intros v; cbn [app fold_left].
  - destruct q as [|c q]; [done|]. cbn [number].
    destruct (48 <=? c) eqn:E1, (c <=? 57) eqn:E2; breflect; try done. lia.
  - cbn [number]. rewrite (proj2 (Z.leb_le _ _)), (proj2 (Z.leb_le _ _)) by lia. cbn [andb].
    rewrite <- IH. f_equal. unfold u32. rewrite <- Z.add_sub_assoc, Z.add_mod, Z.mul_mod_idemp_l, <- Z.add_mod by lia. done.
Qed.

Lemma number_decimal (n : Z) (q : list Z) :
  is_u32 n -> (match q with c :: _ => c < 48 \/ 57 < c | [] => True end) -> number (decimal n ++ q) 0 = (n, q).
Proof.
  intros Hn Hq. unfold is_u32 in Hn. rewrite (number_digits _ _ 0) by (done || apply decimal_digits; lia).
  fold (decimal_value (decimal n)). rewrite decimal_roundtrip by (unfold is_u64; lia). by rewrite u32_small.
Qed.

Lemma load_fields_line (r s : record_t) (d : list Z) :
  account_ok r -> same_but_ids s (saved r) ->
  load_fields (decimal (a_uid r) ++ 58 :: decimal (a_gid r) ++ 58 :: decimal (a_role r) ++ 58 :: decimal (a_groups r) ++ 10 :: d) s
  = (Some d, saved r).
Proof.
  intros (_ & _ & Hu & Hg & Hr & Hs) (uid & gid & role & groups & ->). unfold load_fields.
  assert (is_u32 (a_uid r)) by (unfold is_u16, is_u32 in *; lia).
  assert (is_u32 (a_gid r)) by (unfold is_u16, is_u32 in *; lia).
  do 4 rewrite number_decimal by (done || lia). unfold skip_line. cbn.
  unfold u16. by rewrite !Z.mod_small.
Qed.

Lemma name_strput (u : list Z) : Forall name_char u -> cstring (strput (replicate 16 0) u) = u.
Proof. intros H. by apply cstring_strput, cstr_of_name. Qed.

Lemma name_named (u : list Z) : username u -> name (named u) = u.
Proof. intros (_ & Hl & Hch). unfold name. cbn [named a_user]. rewrite take_ge by lia. by apply name_strput. Qed.

Lemma saved_name (r s : record_t) : account_ok r -> same_but_ids s (saved r) -> name s = name r.
Proof.
  intros ((_ & _ & Hch) & _) (uid & gid & role & groups & ->). by apply name_strput.
Qed.

Lemma saved_names (l s : list record_t) :
  Forall account_ok l -> Forall2 (fun s r => same_but_ids s (saved r)) s l -> map name s = map name l.
Proof.
  intros Hl H. induction H as [|s r ss rs Hs Hss IH]; [done|]. apply Forall_cons in Hl as [Hr Hl].
  cbn [map]. rewrite (saved_name r s), IH by done. done.
Qed.

Lemma cstring_name (u : list Z) : Forall name_char u -> cstring u = u.
Proof.
  induction 1 as [|x u Hx Hu IH]; [done|]. cbn. unfold name_char in Hx.
  rewrite (proj2 (Z.eqb_neq x 0)) by lia. by rewrite IH.
Qed.

(** One turn of the loop on the line of the account it comes to next. *)
Lemma load_account_step (fuel : nat) (r s : record_t) (done' ss : list record_t) (d : list Z) :
  account_ok r -> same_but_ids s (saved r) -> name r ∉ map name done' ->
  load_accounts_loop (S fuel) ((account_line r ++ [10]) ++ d) (done' ++ s :: ss)
  = load_accounts_loop fuel d ((done' ++ [saved r]) ++ ss).
Proof.
  intros Hr Hs Hnew. pose proof Hr as ((Hne & Hlen & Hch) & _). unfold account_line. flat.
  match goal with |- load_accounts_loop _ ?t _ = _ => assert (exists c q, t = c :: q) as (c & q & E) end.
  { destruct (name r); [done|]. by eexists _, _. }
  rewrite E. cbn [load_accounts_loop]. rewrite <- E, before2_app, take_ge, cstring_name by (done || lia).
  rewrite <- (saved_name r s) by done. rewrite find_app, find_head; cbn [option_map].
  2:{ by rewrite (saved_name r s). }
  rewrite Nat.add_0_r, lookup_app_r, Nat.sub_diag by lia. cbn [lookup list_lookup].
  rewrite load_fields_line by done. by rewrite insert_app_r_alt, Nat.sub_diag by lia.
Qed.

Lemma load_account_lines (l s done' : list record_t) (fuel : nat) :
  Forall account_ok l -> Forall2 (fun s r => same_but_ids s (saved r)) s l ->
  NoDup (map name done' ++ map name l) -> (length (unlines (map account_line l)) <= fuel)%nat ->
  load_accounts_loop fuel (unlines (map account_line l)) (done' ++ s) = (true, done' ++ map saved l).
Proof.
  intros Hl Hs. revert done' fuel. induction Hs as [|s r ss rs Hs Hss IH]; intros done' fuel Hnd Hf.
  { by destruct fuel. }
  apply Forall_cons in Hl as [Hr Hl]. unfold unlines in *. cbn [map concat] in *.
  rewrite !length_app in Hf. destruct fuel as [|fuel]; [cbn [length] in Hf; lia|].
  rewrite load_account_step by (done || (apply NoDup_app in Hnd as (_ & Hd & _); intros H; apply (Hd _ H); left)).
  rewrite IH; [by rewrite <- app_assoc|done| |cbn [length] in Hf; lia].
  rewrite map_app, <- app_assoc. cbn [map app].
  rewrite (saved_name r (saved r)); [done|done|]. by exists (a_uid r), (a_gid r), (a_role r), (a_groups r).
Qed.

(** ** The round trip *)

Lemma saved_salt (r : record_t) : account_ok r -> a_locked r = false -> salt (saved r) = salt r.
Proof.
  intros (_ & Hsec & _) Hl. destruct (Hsec Hl) as (_ & Hsc & _). unfold salt at 1. cbn [saved a_salt]. rewrite Hl.
  apply cstring_strput. eapply Forall_impl; [exact Hsc|]. unfold salt_char. intros; lia.
Qed.

Lemma find_saved (u : list Z) (l : list record_t) :
  Forall account_ok l -> find u (map saved l) = find u l.
Proof.
  induction 1 as [|r l Hr Hl IH]; [done|]. cbn [map find]. rewrite IH.
  rewrite (saved_name r (saved r)); [done|done|]. by exists (a_uid r), (a_gid r), (a_role r), (a_groups r).
Qed.

Lemma account_saved (u : list Z) (a c : auth) :
  Forall account_ok (records a) -> records c = map saved (records a) ->
  account u c = option_map saved (account u a).
Proof.
  intros Ha Hc. unfold account. rewrite Hc, find_saved by done.
  destruct (find u (records a)); [|done]. by rewrite list_lookup_fmap.
Qed.

(** C6. Accounts survive a restart: the shadow and accounts files that
    persist_accounts writes fit their page, and loading them at the next start
    restores every account: its name, numbers, role, groups and lock, and the
    answers of auth_check for every user and password.  The table may hold up to
    sixteen accounts with distinct names of at most fifteen characters. *)
Theorem accounts_survive_restart (a fresh : auth) :
  accounts_ok (records a) -> records a <> [] ->
  exists shadow accounts b c,
    auth_export_shadow 4096 a = Some shadow /\ auth_export_accounts 4096 a = Some accounts /\
    auth_load shadow fresh = (true, b) /\ auth_load_accounts accounts b = (true, c) /\
    records c = map saved (records a) /\
    (forall u, auth_lookup u c = auth_lookup u a) /\
    (forall u, auth_nologin u c = auth_nologin u a) /\
    (forall u p, auth_check u p c = auth_check u p a).
Proof.
  intros Ha Hne. pose proof Ha as (Hok & Hnd & Hl).
  destruct (load_shadow_lines (records a) [] Hok) as (s & E & Hs); [cbn [length]; lia|]. cbn [app] in E.
  set (b := snd (auth_select (text "root") (Auth s 0 (current_umask fresh)))).
  assert (records b = s) as Hb by (unfold b, auth_select; by destruct (find _ _)).
  assert (length s = length (records a)) as Hls by (eapply Forall2_length; done).
  exists (unlines (map shadow_line (records a))), (unlines (map account_line (records a))), b,
    (with_records (map saved (records a)) b).
  split; [by apply export_shadow_ok|]. split; [by apply export_accounts_ok|]. split.
  { unfold auth_load. rewrite lines_unlines, E.
    2:{ apply List.Forall_map. eapply Forall_impl; [exact Hok|]. apply shadow_line_chars. }
    fold b. destruct (auth_select _ _) as [ok b'] eqn:Eb. cbn in b. subst b. f_equal.
    unfold users. rewrite Hb, Hls. destruct (records a); [done|]. done. }
  split.
  { unfold auth_load_accounts. rewrite Hb.
    pose proof (load_account_lines (records a) s [] (length (unlines (map account_line (records a))))) as H.
    cbn [map app] in H. by rewrite H. }
  split; [done|].
  set (c := with_records _ _). assert (forall u, account u c = option_map saved (account u a)) as Hacc
    by (intros; by apply account_saved).
  assert (forall u r, account u a = Some r -> account_ok r) as Hin.
  { intros u r H. unfold account in H. destruct (find u _); [|done]. by eapply Forall_lookup_1. }
  split; [|split]; intros u.
  - unfold auth_lookup. rewrite Hacc. by destruct (account u a).
  - unfold auth_nologin. rewrite Hacc. by destruct (account u a).
  - intros p. unfold auth_check. rewrite Hacc. destruct (account u a) as [r|] eqn:Er; cbn [option_map]; [|reflexivity].
    cbn [saved a_locked a_hash]. destruct (a_locked r) eqn:El; [reflexivity|].
    rewrite saved_salt by (exact El || exact (Hin _ _ Er)). reflexivity.
Qed.

(** ** The table under the operations *)

Lemma hash_diff_zero (x y : list Z) : length x = length y -> hash_diff x y = 0 <-> x = y.
Proof.
  intros Hl. unfold hash_diff.
  assert (forall l v, fold_left Z.lor l v = 0 <-> v = 0 /\ Forall (fun z => z = 0) l) as H.
  { induction l as [|z l IH]; intros v; cbn [fold_left]; [by rewrite Forall_nil; tauto|].
    rewrite IH, Z.lor_eq_0_iff, Forall_cons. tauto. }
  rewrite H. split.
  - intros [_ HF]. revert y Hl HF. induction x as [|c x IH]; intros [|d y] Hl HF; try done.
    cbn [zip_with] in HF. apply Forall_cons in HF as [H1 H2]. apply Z.lxor_eq in H1 as ->. f_equal. apply IH; [|done].
    cbn [length] in Hl. lia.
  - intros ->. split; [done|]. clear. induction y as [|c y IH]; [by constructor|].
    cbn [zip_with]. constructor; [apply Z.lxor_nilpotent|done].
Qed.

Lemma salt_of_ok (u : list Z) : username u ->
  (length (salt_of u) <= 31)%nat /\ Forall salt_char (salt_of u) /\ is_cstr (salt_of u).
Proof.
  intros (_ & Hl & Hch). unfold salt_of.
  assert (Forall salt_char (text "os64-user-" ++ take 21 u)) as H.
  { apply Forall_app. split; [by repeat constructor|]. apply Forall_take. eapply Forall_impl; [exact Hch|].
    unfold name_char, salt_char. intros; lia. }
  split; [|split; [done|]].
  - change (31 - 10)%nat with 21%nat. rewrite length_app, length_take. change (length (text "os64-user-")) with 10%nat. lia.
  - eapply Forall_impl; [exact H|]. unfold salt_char. intros; lia.
Qed.

Lemma hash_password_ok (p : list Z) (r : record_t) :
  account_ok r -> account_ok (hash_password p r) /\ name (hash_password p r) = name r /\
  salt (hash_password p r) = salt_of (name r) /\ a_hash (hash_password p r) = pbkdf2_sha256 p (salt_of (name r)) 10000.
Proof.
  intros (Hn & _ & Hr). destruct (salt_of_ok (name r) Hn) as (H1 & H2 & H3).
  assert (salt (hash_password p r) = salt_of (name r)) as Hs by (by apply cstring_strput).
  split_and!; [|done..]. split; [done|]. split; [|done]. intros _. unfold secret_ok. rewrite Hs.
  exact (conj H1 (conj H2 (pbkdf2_bytes _ _ _))).
Qed.

Lemma ids_ok (index : nat) (r : record_t) :
  username (name r) -> is_u16 (a_uid (defaults index r)) /\ is_u16 (a_gid (defaults index r)) /\
  is_u32 (a_groups (defaults index r)) /\ name (defaults index r) = name r.
Proof.
  intros _. unfold defaults. destruct (Auth.eq _ _); [by vm_compute|]. destruct (Auth.eq _ _); [by vm_compute|].
  cbn [with_ids a_uid a_gid a_groups name]. split; [unfold is_u16, u16; apply Z.mod_pos_bound; lia|by vm_compute].
Qed.

Lemma grant_ok (role : Z) (r : record_t) :
  is_u16 (a_uid r) -> is_u16 (a_gid r) -> is_u32 (a_groups r) -> is_u32 role ->
  let s := grant role r in
  a_uid s = a_uid r /\ is_u16 (a_gid s) /\ is_u32 (a_role s) /\ is_u32 (a_groups s) /\ name s = name r.
Proof.
  intros Hu Hg Hs Hr. cbn zeta.
  assert (forall x, is_u32 x -> is_u32 (Z.lor (a_groups r) x)) as Hlor.
  { intros x Hx. unfold is_u32 in *. split; [apply Z.lor_nonneg; lia|].
    destruct (Z.eq_dec (Z.lor (a_groups r) x) 0) as [->|Hne]; [lia|].
    apply Z.log2_lt_pow2; [pose proof (proj2 (Z.lor_nonneg (a_groups r) x)); lia|].
    rewrite Z.log2_lor by lia. apply Z.max_lub_lt.
    - destruct (Z.eq_dec (a_groups r) 0) as [->|]; [done|]. apply Z.log2_lt_pow2; lia.
    - destruct (Z.eq_dec x 0) as [->|]; [done|]. apply Z.log2_lt_pow2; lia. }
  unfold grant. destruct (role =? AUTH_ADMIN) eqn:E1; [split_and!; try done; by apply Hlor|].
  destruct (role =? AUTH_POWER) eqn:E2; [split_and!; try done; by apply Hlor|].
  destruct (role =? AUTH_GUEST) eqn:E3; split_and!; done.
Qed.

Lemma new_account_ok (u p : list Z) (role : Z) (index : nat) :
  username u -> is_u32 role ->
  let r := new_account u p role index in
  account_ok r /\ name r = u /\ salt r = salt_of u /\ a_hash r = pbkdf2_sha256 p (salt_of u) 10000 /\ a_locked r = false.
Proof.
  intros Hu Hr. cbn zeta. unfold new_account. set (z := named u). assert (name z = u) as Hz by (by apply name_named).
  destruct (ids_ok index z) as (H1 & H2 & H3 & H4); [by rewrite Hz|].
  destruct (grant_ok role (defaults index z) H1 H2 H3 Hr) as (G1 & G2 & G3 & G4 & G5).
  set (g := grant role (defaults index z)) in *. assert (name g = u) as Hg by congruence.
  assert (a_locked g = false) as Hlock.
  { unfold g, grant, defaults. by repeat (match goal with |- context[if ?b then _ else _] => destruct b end). }
  assert (salt_of u = salt_of (name g)) as -> by (by rewrite Hg).
  assert (account_ok (hash_password p g)) as Hok.
  { destruct (salt_of_ok u Hu) as (S1 & S2 & S3). split; [by rewrite <- Hg in Hu|]. split; [|rewrite <- G1 in H1; done].
    intros _. unfold secret_ok. replace (salt (hash_password p g)) with (salt_of u).
    - exact (conj S1 (conj S2 (pbkdf2_bytes _ _ _))).
    - symmetry. rewrite <- Hg. apply cstring_strput. by rewrite Hg. }
  split; [done|]. split; [done|]. split; [|done]. apply cstring_strput. rewrite Hg. by apply salt_of_ok.
Qed.

Lemma update_account_ok (u : list Z) (ok : record_t -> bool) (f : record_t -> record_t) (a : auth) :
  accounts_ok (records a) ->
  (forall r, account_ok r -> ok r = true -> account_ok (f r) /\ name (f r) = name r) ->
  let a' := snd (update_account u ok f a) in
  accounts_ok (records a') /\ map name (records a') = map name (records a) /\ current a' = current a /\
  forall i, option_map name (records a !! i) <> Some u -> records a' !! i = records a !! i.
Proof.
  intros (Hok & Hnd & Hl) Hf. cbn zeta. unfold update_account.
  destruct (find u (records a)) as [i|] eqn:E; [|by unfold accounts_ok].
  destruct (find_some _ _ _ E) as (r & Hr & Hu). rewrite Hr. destruct (ok r) eqn:Eo; [|by unfold accounts_ok].
  cbn [snd records with_records]. assert (account_ok r) as Hrok by (by eapply Forall_lookup_1).
  destruct (Hf r Hrok Eo) as [H1 H2].
  assert (map name (<[i:=f r]> (records a)) = map name (records a)) as Hmap.
  { rewrite list_fmap_insert, H2. apply list_insert_id. by rewrite list_lookup_fmap, Hr. }
  split_and!; [|done|done|].
  - split; [by apply Forall_insert|]. split; [by rewrite Hmap|by rewrite length_insert].
  - intros j Hj. rewrite list_lookup_insert_ne; [done|]. intros ->. rewrite Hr in Hj. cbn in Hj. congruence.
Qed.

(** ** Sequences of operations *)

Inductive auth_op :=
| Add (u p : list Z) (role : Z)
| Delete (u : list Z)
| SetPassword (u p : list Z)
| SetRole (u : list Z) (role : Z)
| SetGroups (u : list Z) (g : Z)
| Select (u : list Z).

Definition run_op (o : auth_op) (a : auth) : auth :=
  match o with
  | Add u p role => snd (auth_add_role u p role a)
  | Delete u => snd (auth_delete u a)
  | SetPassword u p => snd (auth_set_password u p a)
  | SetRole u role => snd (auth_set_role u role a)
  | SetGroups u g => snd (auth_set_groups u g a)
  | Select u => snd (auth_select u a)
  end.

(** The commands check the names of new accounts. *)
Definition op_valid (o : auth_op) : Prop :=
  match o with
  | Add u _ _ => username u
  | SetRole _ role => is_u32 role
  | SetGroups _ g => is_u32 g
  | _ => True
  end.

Definition has_root (rs : list record_t) : Prop := exists r, r ∈ rs /\ name r = text "root" /\ a_uid r = 0.

Lemma names_has_root (rs rs' : list record_t) :
  has_root rs -> (forall r, r ∈ rs -> a_uid r = 0 -> exists r', r' ∈ rs' /\ name r' = name r /\ a_uid r' = 0) -> has_root rs'.
Proof. intros (r & Hr & Hn & Hu) H. destruct (H r Hr Hu) as (r' & H1 & H2 & H3). exists r'. by rewrite H2. Qed.

Lemma delete_ok (u : list Z) (a : auth) :
  accounts_ok (records a) -> has_root (records a) ->
  accounts_ok (records (snd (auth_delete u a))) /\ has_root (records (snd (auth_delete u a))).
Proof.
  intros (Hok & Hnd & Hl) Hroot. unfold auth_delete.
  destruct (find u (records a)) as [i|] eqn:E; [|done]. destruct (find_some _ _ _ E) as (r & Hr & Hu). rewrite Hr.
  destruct (Z.eqb_spec (a_uid r) 0) as [H0|H0]; [done|]. cbn [snd records]. split; [split_and!|].
  - rewrite delete_take_drop. apply Forall_app. split; [by apply Forall_take|by apply Forall_drop].
  - rewrite delete_take_drop, map_app. rewrite <- (take_drop_middle _ _ _ Hr), map_app in Hnd. cbn [map] in Hnd.
    apply NoDup_app in Hnd as (H1 & H2 & H3). apply NoDup_cons in H3 as [H3 H4]. apply NoDup_app.
    split; [done|]. split; [|done]. intros x Hx Hx'. apply (H2 x Hx). by right.
  - rewrite length_delete by eauto. lia.
  - eapply names_has_root; [exact Hroot|]. intros s Hs Hs0. exists s. split; [|done].
    rewrite delete_take_drop. rewrite <- (take_drop_middle _ _ _ Hr) in Hs.
    apply elem_of_app in Hs as [Hs|Hs]; [apply elem_of_app; by left|].
    apply elem_of_cons in Hs as [->|Hs]; [done|]. apply elem_of_app. by right.
Qed.

Lemma add_ok (u p : list Z) (role : Z) (a : auth) :
  username u -> accounts_ok (records a) -> has_root (records a) ->
  accounts_ok (records (snd (auth_add_role u p role a))) /\ has_root (records (snd (auth_add_role u p role a))).
Proof.
  intros Hu (Hok & Hnd & Hl) Hroot. unfold auth_add_role. destruct (find u (records a)) eqn:E; [done|].
  destruct (Nat.leb 16 (users a) || (role <? AUTH_ROOT) || (AUTH_GUEST <? role)) eqn:Eb; [done|].
  cbn [snd records with_records]. unfold AUTH_ROOT, AUTH_GUEST, users in Eb. breflect.
  match goal with H : Nat.leb _ _ = false |- _ => apply Nat.leb_gt in H end.
  destruct (new_account_ok u p role (users a) Hu) as (A1 & A2 & _); [unfold is_u32; lia|].
  split; [split_and!|].
  - apply Forall_app. split; [done|]. by constructor.
  - rewrite map_app. cbn [map]. rewrite A2. apply NoDup_app. split; [done|].
    split; [|apply NoDup_singleton]. intros x Hx ->%list_elem_of_singleton. by apply find_missing in E.
  - rewrite length_app. cbn [length]. lia.
  - eapply names_has_root; [exact Hroot|]. intros s Hs Hs0. exists s. split; [|done]. apply elem_of_app. by left.
Qed.

Lemma find_names (u : list Z) (l l' : list record_t) : map name l = map name l' -> find u l = find u l'.
Proof.
  revert l'. induction l as [|r l IH]; intros [|r' l'] H; try done. cbn in H. injection H as H1 H2.
  cbn. by rewrite H1, (IH l').
Qed.

Lemma update_has_root (u : list Z) (ok : record_t -> bool) (f : record_t -> record_t) (a : auth) :
  (forall r, ok r = true -> a_uid (f r) = a_uid r /\ name (f r) = name r) ->
  has_root (records a) -> has_root (records (snd (update_account u ok f a))).
Proof.
  intros Hf Hroot. unfold update_account. destruct (find u (records a)) as [i|]; [|done].
  destruct (records a !! i) as [r|] eqn:Er; [|done]. destruct (ok r) eqn:Eo; [|done].
  cbn [snd records with_records]. destruct (Hf r Eo) as [Hu Hn].
  eapply names_has_root; [exact Hroot|]. intros s [j Hj]%list_elem_of_lookup H0.
  destruct (decide (i = j)) as [->|Hne].
  - exists (f r). assert (r = s) as <- by congruence. split; [|by rewrite Hu].
    apply list_elem_of_lookup. exists j. apply list_lookup_insert_eq. by eapply lookup_lt_Some.
  - exists s. split; [|done]. apply list_elem_of_lookup. exists j. by rewrite list_lookup_insert_ne.
Qed.

Lemma lor_u32 (x y : Z) : is_u32 x -> is_u32 y -> is_u32 (Z.lor x y).
Proof.
  unfold is_u32. intros Hx Hy. rewrite <- (Z.mod_small x (2 ^ 32)), <- (Z.mod_small y (2 ^ 32)) by lia.
  assert (Z.lor (x mod 2 ^ 32) (y mod 2 ^ 32) = Z.lor x y mod 2 ^ 32) as ->; [|apply Z.mod_pos_bound; lia].
  rewrite <- !Z.land_ones by lia. by rewrite Z.land_lor_distr_l.
Qed.

Lemma run_op_ok (o : auth_op) (a : auth) :
  op_valid o -> accounts_ok (records a) -> has_root (records a) ->
  accounts_ok (records (run_op o a)) /\ has_root (records (run_op o a)).
Proof.
  intros Hv Ha Hr. destruct o as [u p role|u|u p|u role|u g|u]; cbn [run_op op_valid] in *.
  - by apply add_ok.
  - by apply delete_ok.
  - split; [|by apply update_has_root]. apply update_account_ok; [done|].
    intros r Hok _. destruct (hash_password_ok p r Hok) as (H1 & H2 & _). done.
  - split; [|by apply update_has_root]. apply update_account_ok; [done|].
    intros r (Hn & Hsec & Hu & Hg & _ & Hs) _. done.
  - split; [|by apply update_has_root]. apply update_account_ok; [done|].
    intros r (Hn & Hsec & Hu & Hg & Hro & Hs) _. split; [|done]. split_and!; try done. by apply lor_u32.
  - unfold auth_select. by destruct (find _ _).
Qed.

(** C27. The account table stays well formed: starting from a well-formed table
    with a root account, every sequence of account operations (adding accounts
    under valid names, deleting, changing passwords, roles and groups, switching
    users) leaves at most sixteen accounts with distinct names that the files can
    hold, and the root account with user number 0 among them. *)
Theorem accounts_invariant (ops : list auth_op) (a : auth) :
  Forall op_valid ops -> accounts_ok (records a) -> has_root (records a) ->
  let a' := fold_left (fun a o => run_op o a) ops a in
  accounts_ok (records a') /\ has_root (records a').
Proof.
  intros Hv. revert a. induction Hv as [|o ops Ho Hv IH]; intros a Ha Hr; cbn [fold_left]; [done|].
  destruct (run_op_ok o a Ho Ha Hr). by apply IH.
Qed.

(** ** Passwords *)

Lemma auth_check_account (u q : list Z) (a : auth) (r : record_t) :
  account u a = Some r -> a_locked r = false -> length (a_hash r) = 32%nat ->
  auth_check u q a = true <-> pbkdf2_sha256 q (salt r) 10000 = a_hash r.
Proof.
  intros Hr Hl Hh. unfold auth_check. rewrite Hr, Hl, Z.eqb_eq. apply hash_diff_zero.
  rewrite Hh. apply pbkdf2_bytes.
Qed.

Lemma account_lookup (u : list Z) (a : auth) (i : nat) (r : record_t) :
  find u (records a) = Some i -> records a !! i = Some r -> account u a = Some r.
Proof. intros H1 H2. unfold account. by rewrite H1. Qed.

(** A password that was set, and the answers for everybody else. *)
Definition password_set (u p : list Z) (a a' : auth) : Prop :=
  (forall q, auth_check u q a' = true <-> pbkdf2_sha256 q (salt_of u) 10000 = pbkdf2_sha256 p (salt_of u) 10000) /\
  (forall v q, v <> u -> auth_check v q a' = auth_check v q a).

Lemma set_password_correct (u p : list Z) (a : auth) :
  accounts_ok (records a) -> fst (auth_set_password u p a) = true ->
  password_set u p a (snd (auth_set_password u p a)).
Proof.
  intros Ha Hok. pose proof Ha as (HF & _ & _).
  destruct (update_account_ok u (fun _ => true) (hash_password p) a Ha) as (_ & Hmap & _ & Hoth).
  { intros r Hr _. destruct (hash_password_ok p r Hr) as (H1 & H2 & _). done. }
  unfold auth_set_password in *. set (a' := snd (update_account _ _ _ a)) in *.
  destruct (find u (records a)) as [i|] eqn:E; [|by unfold update_account in Hok; rewrite E in Hok].
  destruct (find_some _ _ _ E) as (r & Hr & Hu). assert (account_ok r) as Hrok by (by eapply Forall_lookup_1).
  destruct (hash_password_ok p r Hrok) as (H1 & H2 & H3 & H4). split.
  - intros q. assert (account u a' = Some (hash_password p r)) as Hacc.
    { apply account_lookup with i; [by rewrite (find_names _ _ _ Hmap)|]. unfold a', update_account. rewrite E, Hr.
      apply list_lookup_insert_eq. by eapply lookup_lt_Some. }
    rewrite (auth_check_account _ _ _ _ Hacc); [by rewrite H3, H4, Hu|done|]. rewrite H4. apply pbkdf2_bytes.
  - intros v q Hv. unfold auth_check, account. rewrite (find_names v _ _ Hmap).
    destruct (find v (records a)) as [j|] eqn:Ej; [|done]. destruct (find_some _ _ _ Ej) as (s & Hs & Hsv).
    rewrite Hoth; [done|]. rewrite Hs. cbn. congruence.
Qed.

Lemma find_app_old (u : list Z) (l l' : list record_t) (i : nat) :
  find u l = Some i -> find u (l ++ l') = Some i.
Proof.
  revert i. induction l as [|r l IH]; intros i; cbn; [done|]. destruct (Auth.eq u (name r)); [done|].
  destruct (find u l) as [j|]; [|done]. intros [= <-]. by rewrite (IH j).
Qed.

Lemma add_role_correct (u p : list Z) (role : Z) (a : auth) :
  username u -> fst (auth_add_role u p role a) = true ->
  password_set u p a (snd (auth_add_role u p role a)).
Proof.
  intros Hu Hok. unfold auth_add_role in *. destruct (find u (records a)) eqn:E; [done|].
  destruct (Nat.leb 16 (users a) || (role <? AUTH_ROOT) || (AUTH_GUEST <? role)) eqn:Eb; [done|].
  unfold AUTH_ROOT, AUTH_GUEST in Eb. breflect. cbn [snd].
  destruct (new_account_ok u p role (users a) Hu) as (A1 & A2 & A3 & A4 & A5); [unfold is_u32; lia|].
  set (r := new_account u p role (users a)) in *. set (a' := with_records _ a).
  assert (forall v, v <> u -> account v a' = account v a) as Hoth.
  { intros v Hv. unfold account, a'. cbn [records with_records]. destruct (find v (records a)) as [j|] eqn:Ej.
    - rewrite (find_app_old _ _ _ _ Ej). destruct (find_some _ _ _ Ej) as (s & Hs & _).
      by rewrite lookup_app_l by (by eapply lookup_lt_Some).
    - rewrite find_app by (by apply find_missing). cbn [find option_map].
      destruct (Auth.eq v (name r)) eqn:Er; [apply eq_spec in Er; congruence|done]. }
  split.
  - intros q. assert (account u a' = Some r) as Hacc.
    { apply account_lookup with (length (records a)).
      - unfold a'. cbn [records with_records]. rewrite find_app by (by apply find_missing).
        rewrite <- A2, find_head. cbn. f_equal. lia.
      - unfold a'. cbn [records with_records]. by rewrite lookup_app_r, Nat.sub_diag by lia. }
    rewrite (auth_check_account _ _ _ _ Hacc); [by rewrite A3, A4|done|]. rewrite A4. apply pbkdf2_bytes.
  - intros v q Hv. unfold auth_check. by rewrite Hoth.
Qed.

(** C37. Setting a password does what it should: when auth_set_password or
    auth_add_role succeeds, exactly the passwords with the same hash as the given
    one are accepted for that user afterwards, and the answers of auth_check for
    every other user are unchanged.  A locked account and an unknown name are
    refused whatever the password. *)
Theorem passwords_set (u p : list Z) (role : Z) (a : auth) :
  accounts_ok (records a) -> username u ->
  (fst (auth_set_password u p a) = true -> password_set u p a (snd (auth_set_password u p a))) /\
  (fst (auth_add_role u p role a) = true -> password_set u p a (snd (auth_add_role u p role a))) /\
  (auth_nologin u a = true -> auth_check u p a = false).
Proof.
  intros Ha Hu. split; [by apply set_password_correct|]. split; [by apply add_role_correct|].
  unfold auth_nologin, auth_check. destruct (account u a) as [r|]; [|done]. by intros ->.
Qed.

(** ** Examples *)

(** A table with root, a locked account, a user and an administrator. *)
Definition sample_account (u : string) (index : nat) (locked : bool) (role : Z) : record_t :=
  let r := grant role (defaults index (named (text u))) in
  Account (a_user r) (strput (a_salt r) (salt_of (text u))) (replicate 32 7) locked (a_uid r) (a_gid r) (a_role r) (a_groups r).

Definition sample : auth :=
  Auth [sample_account "root" 0 false AUTH_ROOT; sample_account "alice" 1 false AUTH_STANDARD;
        sample_account "bob" 2 false AUTH_ADMIN] 2 0x12.

Lemma username_dec (u : list Z) :
  negb (Nat.eqb (length u) 0) && Nat.leb (length u) 15 &&
  forallb (fun c => (0 <? c) && (c <? 256) && negb (c =? 58) && negb (c =? 10) && negb (c =? 36) && negb (c =? 35)) u = true ->
  username u.
Proof.
  intros H. breflect. match goal with H : forallb _ _ = true |- _ => rename H into Hf end.
  rewrite forallb_forall in Hf. split; [by destruct u|]. split; [by apply Nat.leb_le|].
  apply List.Forall_forall. intros c Hc. specialize (Hf c Hc). breflect. unfold name_char. lia.
Qed.

Lemma sample_account_ok (u : string) (index : nat) (locked : bool) (role : Z) :
  username (text u) -> is_u32 role -> account_ok (sample_account u index locked role) /\
  name (sample_account u index locked role) = text u.
Proof.
  intros Hu Hr. unfold sample_account. set (z := named (text u)). assert (name z = text u) as Hz by (by apply name_named).
  destruct (ids_ok index z) as (H1 & H2 & H3 & H4); [by rewrite Hz|].
  destruct (grant_ok role (defaults index z) H1 H2 H3 Hr) as (G1 & G2 & G3 & G4 & G5).
  destruct (salt_of_ok (text u) Hu) as (S1 & S2 & S3).
  set (g := grant role (defaults index z)) in *. assert (name g = text u) as Hg by congruence.
  split; [|done]. split; [by rewrite <- Hg in Hu|]. split; [|split; [by rewrite <- G1 in H1|done]].
  intros _. unfold secret_ok, salt. cbn [a_salt a_hash]. rewrite cstring_strput by done.
  split_and!; try done. by repeat constructor.
Qed.

Lemma sample_ok : accounts_ok (records sample) /\ has_root (records sample).
Proof.
  assert (forall u, username (text u) -> forall i l r, is_u32 r -> account_ok (sample_account u i l r)) as H
    by (intros; by apply sample_account_ok).
  split; [split_and!|].
  - repeat (apply Forall_cons; split; [apply H; [by apply username_dec|by vm_compute]|]). by apply Forall_nil.
  - apply (bool_decide_unpack (NoDup (map name (records sample)))). by vm_compute.
  - cbn. lia.
  - exists (sample_account "root" 0 false AUTH_ROOT). split; [left|by vm_compute].
Qed.

Lemma accounts_survive_restart_witness :
  exists shadow accounts b c,
    auth_export_shadow 4096 sample = Some shadow /\ auth_export_accounts 4096 sample = Some accounts /\
    auth_load shadow sample = (true, b) /\ auth_load_accounts accounts b = (true, c) /\
    records c = map saved (records sample) /\
    (forall u, auth_lookup u c = auth_lookup u sample) /\
    (forall u, auth_nologin u c = auth_nologin u sample) /\
    (forall u p, auth_check u p c = auth_check u p sample).
Proof. apply (accounts_survive_restart sample sample); [apply sample_ok|discriminate]. Defined.

Lemma accounts_invariant_witness :
  let a' := fold_left (fun a o => run_op o a)
              [Delete (text "alice"); Add (text "carol") (text "secret12") AUTH_POWER; SetRole (text "bob") AUTH_GUEST] sample in
  accounts_ok (records a') /\ has_root (records a').
Proof.
  apply (accounts_invariant [Delete (text "alice"); Add (text "carol") (text "secret12") AUTH_POWER; SetRole (text "bob") AUTH_GUEST] sample);
    [|apply sample_ok|apply sample_ok].
  apply Forall_cons; split; [exact I|]. apply Forall_cons; split; [apply username_dec; reflexivity|].
  apply Forall_cons; split; [split; [discriminate|reflexivity]|]. apply Forall_nil_2.
Defined.

Lemma passwords_set_witness :
  password_set (text "alice") (text "new password") sample
    (snd (auth_set_password (text "alice") (text "new password") sample)).
Proof.
  destruct (passwords_set (text "alice") (text "new password") AUTH_STANDARD sample) as (H & _ & _);
    [apply sample_ok|apply username_dec; reflexivity|]. apply H. reflexivity.
Defined.

(** An administrator who deletes an account listed before their own becomes
    another user: here root, since the session keeps the index of the record. *)
Lemma delete_moves_session :
  auth_current_user sample = text "bob" /\ auth_getuid sample = 1002 /\
  let a := snd (auth_delete (text "alice") sample) in
  auth_current_user a = text "root" /\ auth_is_root a = true.
Proof. by vm_compute. Qed.

(** A new account gets the number of an existing one after a deletion. *)
Lemma uid_reused (p : list Z) :
  let a := snd (auth_add_role (text "carol") p AUTH_STANDARD (snd (auth_delete (text "alice") sample))) in
  option_map a_uid (account (text "bob") a) = Some 1002 /\ option_map a_uid (account (text "carol") a) = Some 1002.
Proof. split; reflexivity. Qed.

(** Taking the administrator role away leaves the group that grants its rights. *)
Lemma demoted_still_admin :
  let a := snd (auth_set_role (text "bob") AUTH_STANDARD sample) in
  auth_current_role a = AUTH_STANDARD /\ auth_is_admin a = true.
Proof. by vm_compute. Qed.
