(* ===== verification/Session.v ===== *)
(** * The session and the account commands (src/kernel/core/kernel.c)

    The shell's current user, the commands that manage accounts (mkuser, useradd,
    userdel, usermod, passwd, su, login, logout, sudo, id, groups, umask) and the
    check every command passes first.  A command reads the characters [input]
    returns from [keys]; when they run out it is still waiting, [OutOfFuel].  The
    file systems the account files and home directories are stored in are the
    interface [AccountStore]. *)

From stdpp Require Import base numbers list strings.
From Stdlib Require Import ZArith Lia.
From S2P Require Import Prelude Effects Crypto Auth AuthTheorems.

Class AccountStore (E : Type) := {
  varfs_store : list Z -> list Z -> E -> bool * E;
  varfs_chmod : list Z -> Z -> E -> bool * E;
  varfs_chown : list Z -> Z -> Z -> bool -> bool -> E -> bool * E;
  varfs_sync : E -> bool * E;
  varfs_mounted : E -> bool;
  disk_mounted : E -> bool;
  disk_sync : E -> bool * E;
  disk_create : list Z -> E -> bool * E;
  log_submit : list Z -> list Z -> E -> bool * E;
  is_service : list Z -> E -> bool;
  timed_monotonic_ns : E -> Z
}.

Record session (E : Type) := Session {
  acc : auth;
  current_user : list Z;
  last_status : Z;
  sudo_cached_uid : Z;
  sudo_cache_until : Z;
  cwd : list Z;
  active_command : list Z;
  keys : list Z;
  screen : list Z;
  store : E
}.
Arguments Session {E}. Arguments acc {E}. Arguments current_user {E}. Arguments last_status {E}.
Arguments sudo_cached_uid {E}. Arguments sudo_cache_until {E}.
Arguments cwd {E}. Arguments active_command {E}.
Arguments keys {E}. Arguments screen {E}. Arguments store {E}.

Section Session.
Context {E : Type} `{AccountStore E}.

Local Abbreviation S := (session E).

Definition with_acc (a : auth) (s : S) : S :=
  Session a (current_user s) (last_status s) (sudo_cached_uid s) (sudo_cache_until s) (cwd s) (active_command s) (keys s) (screen s) (store s).
Definition with_user (u : list Z) (s : S) : S :=
  Session (acc s) u (last_status s) (sudo_cached_uid s) (sudo_cache_until s) (cwd s) (active_command s) (keys s) (screen s) (store s).
Definition with_status (n : Z) (s : S) : S :=
  Session (acc s) (current_user s) n (sudo_cached_uid s) (sudo_cache_until s) (cwd s) (active_command s) (keys s) (screen s) (store s).
Definition with_sudo (uid until : Z) (s : S) : S :=
  Session (acc s) (current_user s) (last_status s) uid until (cwd s) (active_command s) (keys s) (screen s) (store s).
Definition with_cwd (d : list Z) (s : S) : S :=
  Session (acc s) (current_user s) (last_status s) (sudo_cached_uid s) (sudo_cache_until s) d (active_command s) (keys s) (screen s) (store s).
Definition with_active (n : list Z) (s : S) : S :=
  Session (acc s) (current_user s) (last_status s) (sudo_cached_uid s) (sudo_cache_until s) (cwd s) n (keys s) (screen s) (store s).
Definition with_keys (k : list Z) (s : S) : S :=
  Session (acc s) (current_user s) (last_status s) (sudo_cached_uid s) (sudo_cache_until s) (cwd s) (active_command s) k (screen s) (store s).
Definition with_screen (t : list Z) (s : S) : S :=
  Session (acc s) (current_user s) (last_status s) (sudo_cached_uid s) (sudo_cache_until s) (cwd s) (active_command s) (keys s) t (store s).
Definition with_store (e : E) (s : S) : S :=
  Session (acc s) (current_user s) (last_status s) (sudo_cached_uid s) (sudo_cache_until s) (cwd s) (active_command s) (keys s) (screen s) e.

(** ** Output, input and words *)

Definition P (t : list Z) : M S unit := modify (fun s => with_screen (screen s ++ t) s).
Definition say (t : string) : M S unit := P (text t).

(** A newline at the end of a message. *)
Definition line (t : string) : M S unit := say t ;; P [10].
Definition fail_line (t : string) (n : Z) : M S unit := line t ;; modify (with_status n).

(** An operation on the accounts or on the file systems, with its result. *)
Definition on_acc (f : auth -> bool * auth) : M S bool :=
  let! s := get in let '(ok, a) := f (acc s) in modify (with_acc a) ;; ret ok.
Definition on_store (f : E -> bool * E) : M S bool :=
  let! s := get in let '(ok, e) := f (store s) in modify (with_store e) ;; ret ok.

Fixpoint skip_spaces (a : list Z) : list Z :=
  match a with c :: a' => if c =? 32 then skip_spaces a' else a | [] => [] end.

(** The characters before a blank, at most [limit], and the rest. *)
Fixpoint word (limit : nat) (a : list Z) : list Z * list Z :=
  match limit, a with
  | Datatypes.S n, c :: a' => if c =? 32 then ([], a) else let '(w, r) := word n a' in (c :: w, r)
  | _, _ => ([], a)
  end.

Fixpoint starts (s p : list Z) : option (list Z) :=
  match p, s with
  | [], _ => Some s
  | c :: p, x :: s => if x =? c then starts s p else None
  | _ :: _, [] => None
  end.

(** What has been typed up to the newline, with backspaces, at most [cap - 1]
    characters; the rest of the input.  The text is kept in reverse. *)
Fixpoint secret (cap : nat) (ks acc : list Z) : option (list Z * list Z) :=
  match ks with
  | [] => None
  | c :: ks =>
    if c =? 10 then Some (rev acc, ks)
    else match acc with
         | x :: acc' =>
           if (c =? 8) || (c =? 127) then secret cap ks acc'
           else secret cap ks (if (32 <=? c) && (c <=? 126) && Nat.ltb (length acc + 1) cap then c :: acc else acc)
         | [] => secret cap ks (if (32 <=? c) && (c <=? 126) && Nat.ltb 1 cap then [c] else [])
         end
  end.

Definition read_secret (prompt : string) (cap : nat) : M S (list Z) :=
  say prompt ;;
  let! s := get in
  match secret cap (keys s) [] with
  | None => out_of_fuel
  | Some (p, ks) => modify (with_keys ks) ;; P [10] ;; ret p
  end.

(** ** Helpers of the commands *)

Definition set_session_user (u : list Z) : M S unit :=
  let! ok := on_acc (auth_select u) in
  if ok then modify (with_user (take 15 u)) else ret tt.

Definition save (path : string) (d : option (list Z)) : M S bool :=
  match d with
  | None | Some [] => ret false
  | Some d =>
    let! ok := on_store (varfs_store (text path) d) in
    if ok then let! _ := on_store (varfs_chmod (text path) 0x180) in
               let! _ := on_store (varfs_chown (text path) 0 0 true true) in ret true
    else ret false
  end.

Definition persist_accounts : M S bool :=
  let! s := get in
  let! ok := save "/var/lib/os64/shadow" (auth_export_shadow 4096 (acc s)) in
  if ok then
    let! ok := save "/var/lib/os64/accounts" (auth_export_accounts 4096 (acc s)) in
    if ok then on_store varfs_sync else ret false
  else ret false.

Definition require_admin (cmd : string) : M S bool :=
  let! s := get in
  if auth_is_admin (acc s) then ret true
  else say cmd ;; fail_line ": permission denied" 77 ;; ret false.

Definition octal_mode (s : list Z) : option Z :=
  let fix go n v s :=
    match n, s with
    | Datatypes.S n, c :: s' => if (48 <=? c) && (c <=? 55) then go n (Z.shiftl v 3 + (c - 48)) s' else (v, s)
    | _, _ => (v, s)
    end in
  let '(v, rest) := go 4%nat 0 s in
  match s, rest with
  | _ :: _, [] => if 0x1ff <? v then None else Some v
  | _, _ => None
  end.

(** The first word, cut to fit its buffer, and what follows; both must be there. *)
Definition split_two (a : list Z) (cap : nat) : option (list Z * list Z) :=
  let '(w, r) := word (length a) (skip_spaces a) in
  match take (pred cap) w, skip_spaces r with
  | (_ :: _) as w, (_ :: _) as r => Some (w, r)
  | _, _ => None
  end.

Definition parse_role (s : list Z) : option Z :=
  if Auth.eq s (text "administrator") || Auth.eq s (text "admin") then Some AUTH_ADMIN
  else if Auth.eq s (text "power") then Some AUTH_POWER
  else if Auth.eq s (text "standard") || Auth.eq s (text "user") then Some AUTH_STANDARD
  else if Auth.eq s (text "guest") then Some AUTH_GUEST
  else None.

Definition valid_username (u : list Z) : bool :=
  forallb (fun c => ((97 <=? c) && (c <=? 122)) || ((48 <=? c) && (c <=? 57)) || (c =? 95)) u
  && Nat.leb (length u) 15 && Nat.leb 3 (length u).

(** ** The commands *)

(** The role given with -r, and the rest of the line; [None] when the command
    has been refused. *)
Definition useradd_role (a : list Z) : M S (option (Z * list Z)) :=
  let a := skip_spaces a in
  match starts a (text "-r ") with
  | None => ret (Some (AUTH_STANDARD, a))
  | Some a =>
    let '(r, a) := word 19 a in
    let! s := get in
    match parse_role r with
    | Some role =>
      if (role =? AUTH_ADMIN) && negb (auth_is_root (acc s))
      then fail_line "useradd: invalid or unauthorized role" 1 ;; ret None
      else ret (Some (role, skip_spaces a))
    | None => fail_line "useradd: invalid or unauthorized role" 1 ;; ret None
    end
  end.

Definition c_useradd (a : list Z) : M S unit :=
  let! admin := require_admin "useradd" in
  if negb admin then ret tt else
  let! r := useradd_role a in
  match r with
  | None => ret tt
  | Some (role, a) =>
    let '(user, _) := word 15 a in
    if negb (valid_username user) then fail_line "useradd: invalid username" 2 else
    let! p1 := read_secret "New password: " 64 in
    if Nat.ltb (length p1) 8 then fail_line "useradd: password must contain at least 8 characters" 1 else
    let! p2 := read_secret "Retype password: " 64 in
    if negb (Auth.eq p1 p2) then fail_line "useradd: passwords do not match" 1 else
    let! ok := on_acc (auth_add_role user p1 role) in
    let! ok := if ok then on_store (disk_create user) else ret false in
    let! ok := if ok then persist_accounts else ret false in
    if negb ok then fail_line "useradd: could not create account" 1 else
    say "useradd: created " ;; P user ;; say " (" ;; P (auth_role_name role) ;; line ")"
  end.

(** mkuser takes the first fifteen characters of the name and asks once; it
    leaves the status alone, and of the account files it stores the shadow. *)
Definition c_mkuser (a : list Z) : M S unit :=
  let '(user, _) := word 15 (skip_spaces a) in
  if negb (forallb (fun c => ((97 <=? c) && (c <=? 122)) || ((48 <=? c) && (c <=? 57)) || (c =? 95)) user)
  then line "mkuser: invalid username" else
  if Nat.ltb (length user) 3 then line "mkuser: username must contain at least 3 characters" else
  let! s := get in
  if negb (varfs_mounted (store s)) || negb (disk_mounted (store s)) then line "mkuser: /home and /var must be mounted" else
  let! pass := read_secret "New password: " 64 in
  if Nat.ltb (length pass) 8 then line "mkuser: password must contain at least 8 characters" else
  let! ok := on_acc (auth_add user pass) in
  if negb ok then line "mkuser: account already exists or table is full" else
  let! s := get in
  let! ok := match auth_export_shadow 4096 (acc s) with
             | None | Some [] => ret false
             | Some d => on_store (varfs_store (text "/var/lib/os64/shadow") d)
             end in
  let! ok := if ok then on_store (disk_create user) else ret false in
  let! ok := if ok then on_store disk_sync else ret false in
  if negb ok then line "mkuser: failed to persist account" else
  say "Created account " ;; P user ;; say " with /home/" ;; P user ;; P [10].

Definition c_userdel (a : list Z) : M S unit :=
  let! admin := require_admin "userdel" in
  if negb admin then ret tt else
  let a := skip_spaces a in
  let! s := get in
  let! ok := match a with
             | [] => ret false
             | _ => if Auth.eq a (text "root") || Auth.eq a (current_user s) then ret false
                    else on_acc (auth_delete a)
             end in
  let! ok := if ok then persist_accounts else ret false in
  if negb ok then fail_line "userdel: cannot remove account" 1
  else line "userdel: account removed; home retained".

Definition c_usermod (a : list Z) : M S unit :=
  let! admin := require_admin "usermod" in
  if negb admin then ret tt else
  match starts (skip_spaces a) (text "-r ") with
  | None => fail_line "usermod: usage: usermod -r ROLE USER" 2
  | Some a =>
    match split_two a 20 with
    | None => modify (with_status 2)
    | Some (role_name, user) =>
      let! s := get in
      let! ok := match parse_role role_name with
                 | Some role => if (role =? AUTH_ADMIN) && negb (auth_is_root (acc s)) then ret false
                                else on_acc (auth_set_role user role)
                 | None => ret false
                 end in
      let! ok := if ok then persist_accounts else ret false in
      if ok then ret tt else fail_line "usermod: failed" 1
    end
  end.

Definition c_passwd (a : list Z) : M S unit :=
  let! s := get in
  let user := match skip_spaces a with [] => current_user s | a => a end in
  let own := Auth.eq user (current_user s) in
  if negb own && negb (auth_is_admin (acc s)) then fail_line "passwd: permission denied" 77 else
  let! ok := if negb (auth_is_root (acc s)) && own
             then let! old := read_secret "Current password: " 64 in ret (auth_check user old (acc s))
             else ret true in
  if negb ok then fail_line "passwd: Authentication failure" 1 else
  let! p1 := read_secret "New password: " 64 in
  if Nat.ltb (length p1) 8 then fail_line "passwd: password too short" 1 else
  let! p2 := read_secret "Retype password: " 64 in
  let! ok := if Auth.eq p1 p2 then on_acc (auth_set_password user p1) else ret false in
  let! ok := if ok then persist_accounts else ret false in
  if ok then line "passwd: password updated successfully" else fail_line "passwd: password unchanged" 1.

Definition c_groups : M S unit :=
  let! s := get in
  let g := auth_getgroups (acc s) in
  each (seqZ 0 10) (fun i => when (z2b (Z.land g (Z.shiftl 1 i)))
                               (P (default [] (auth_group_name i)) ;; P [32])) ;;
  P [10].

Definition c_id : M S unit :=
  let! s := get in
  let a := acc s in
  say "uid=" ;; P (decimal (auth_getuid a)) ;; say "(" ;; P (auth_current_user a) ;;
  say ") gid=" ;; P (decimal (auth_getgid a)) ;;
  say " role=" ;; P (auth_role_name (auth_current_role a)) ;; say " groups=" ;; c_groups.

Definition c_who : M S unit := let! s := get in P (auth_current_user (acc s)) ;; line " console  active".

Definition print_octal (v : Z) : M S unit :=
  P [48; 48 + Z.land (Z.shiftr v 6) 7; 48 + Z.land (Z.shiftr v 3) 7; 48 + Z.land v 7; 10].

Definition c_umask (a : list Z) : M S unit :=
  let! s := get in
  match skip_spaces a with
  | [] => print_octal (auth_umask (acc s))
  | a => match octal_mode a with
         | None => fail_line "umask: invalid mask" 2
         | Some m => modify (fun s => with_acc (auth_set_umask m (acc s)) s)
         end
  end.

Definition c_su (a : list Z) : M S unit :=
  let '(user, _) := word 15 (skip_spaces a) in
  let! s := get in
  match user with
  | [] => line "su: missing user"
  | _ =>
    if auth_nologin user (acc s) then fail_line "su: account is not available" 1 else
    let! ok := if auth_is_root (acc s) then ret true
               else let! p := read_secret "Password: " 64 in ret (auth_check user p (acc s)) in
    if negb ok then fail_line "su: Authentication failure" 1 else
    set_session_user user ;; say "Switched user to " ;;
    let! s := get in P (current_user s) ;; P [10]
  end.

Definition c_login (a : list Z) : M S unit := c_su a.

Definition c_logout : M S unit :=
  let! s := get in
  when (auth_current_role (acc s) =? AUTH_GUEST) (line "Guest session data discarded.") ;;
  set_session_user (text "nobody") ;; modify (with_cwd [47]) ;;
  line "Logged out. Use login USER to start a session.".

(** The password question of sudo, skipped for root and for five minutes after
    the last right answer. *)
Definition sudo_allowed (original : list Z) (uid now : Z) : M S bool :=
  let! s := get in
  if negb (auth_is_root (acc s)) && (negb (sudo_cached_uid s =? uid) || (sudo_cache_until s <=? now)) then
    let! p := read_secret "[sudo] password: " 64 in
    if negb (auth_check original p (acc s)) then
      let! _ := on_store (log_submit (text "security") (text "failed sudo authentication")) in
      fail_line "sudo: authentication failure" 1 ;; ret false
    else modify (with_sudo uid (u64 (now + 300000000000))) ;; ret true
  else ret true.

Definition c_sudo (dispatch : list Z -> list Z -> M S Z) (a : list Z) : M S unit :=
  let! s := get in
  match skip_spaces a with
  | [] => fail_line "sudo: missing command" 2
  | a =>
    if negb (auth_is_root (acc s)) && negb (auth_is_admin (acc s)) && negb (auth_has_group AUTH_GROUP_WHEEL (acc s))
    then fail_line "sudo: user is not allowed to execute commands as root" 77 else
    let original := take 15 (current_user s) in
    let! ok := sudo_allowed original (auth_getuid (acc s)) (timed_monotonic_ns (store s)) in
    if negb ok then ret tt else
    let '(cmd, a) := word 15 a in
    let! _ := on_store (log_submit (text "security") (text "sudo command executed")) in
    set_session_user (text "root") ;;
    let! rc := dispatch cmd (skip_spaces a) in
    set_session_user original ;; modify (with_status rc)
  end.

(** ** Running a command *)

Definition is_name (n : list Z) (l : list string) : bool := existsb (fun t => Auth.eq n (text t)) l.

Definition command_authorized (n a : list Z) : M S bool :=
  let a := skip_spaces a in
  let! s := get in
  let allowed :=
    if is_name n ["install"; "format"; "reboot"; "shutdown"; "halt"; "chown"]%string then auth_is_root (acc s)
    else if is_name n ["useradd"; "userdel"; "usermod"; "mkuser"; "mount"; "chgrp"]%string then auth_is_admin (acc s)
    else if is_service n (store s) && negb (Nat.eqb (length a) 0) && negb (Auth.eq a (text "status")) then auth_is_admin (acc s)
    else if is_name n ["install-apps"]%string
            || (is_name n ["pm"]%string && (bool_decide (is_Some (starts a (text "install "))) ||
                  bool_decide (is_Some (starts a (text "remove "))) || Auth.eq a (text "update")))
    then auth_is_admin (acc s) || (auth_current_role (acc s) =? AUTH_POWER)
    else true in
  if allowed then ret true
  else P n ;; fail_line ": permission denied" 77 ;; ret false.

(** The account commands of the command table; [None] for the others. *)
Definition account_command (dispatch : list Z -> list Z -> M S Z) (n args : list Z) : option (M S unit) :=
  if is_name n ["mkuser"]%string then Some (c_mkuser args)
  else if is_name n ["useradd"]%string then Some (c_useradd args)
  else if is_name n ["userdel"]%string then Some (c_userdel args)
  else if is_name n ["usermod"]%string then Some (c_usermod args)
  else if is_name n ["passwd"]%string then Some (c_passwd args)
  else if is_name n ["su"]%string then Some (c_su args)
  else if is_name n ["login"]%string then Some (c_login args)
  else if is_name n ["logout"]%string then Some c_logout
  else if is_name n ["sudo"]%string then Some (c_sudo dispatch args)
  else if is_name n ["id"]%string then Some c_id
  else if is_name n ["groups"]%string then Some c_groups
  else if is_name n ["who"]%string then Some c_who
  else if is_name n ["umask"]%string then Some (c_umask args)
  else None.

(** The operands shown by --help, first match first. *)
Definition usage_table : list (list string * string) :=
  [(["cp"; "mv"], " SOURCE DEST");
   (["cd"; "cat"; "xxd"; "hexdump"; "touch"; "mkdir"; "rm"; "nano"; "su"], " OPERAND");
   (["install-apps"], " PROGRAM [NAME]"); (["pm"], " COMMAND [PACKAGE]"); (["install"], " /dev/sda");
   (["ping"], " HOST"); (["nslookup"; "host"], " NAME"); (["curl"], " [-L] [-l] URL"); (["browser"], " URL");
   (["lspci"], " [-n]"); (["ip"], " route"); (["fill"], " [-b|-a]");
   (["dd"], " if=FILE of=FILE [bs=N] [count=N]"); (["head"; "tail"], " [-n LINES] FILE");
   (["wc"], " [-l|-w|-c] FILE"); (["stat"; "basename"; "dirname"], " FILE"); (["truncate"], " -s SIZE FILE");
   (["time"; "ntp"], " [--sync|--status]")]%string.

(** ... and those that come after the services. *)
Definition usage_table_2 : list (list string * string) :=
  [(["display"], " [status|modes|mode WIDTHxHEIGHT]"); (["format"], " [/dev/sda]");
   (["ls"; "find"], " [PATH]"); (["echo"], " [TEXT ...]")]%string.

Fixpoint usage_of (n : list Z) (t : list (list string * string)) : option (list Z) :=
  match t with
  | [] => None
  | (names, u) :: t => if is_name n names then Some (text u) else usage_of n t
  end.

Definition command_usage (n : list Z) : M S unit :=
  say "Usage: " ;; P n ;;
  let! s := get in
  P (match usage_of n usage_table with
     | Some u => u
     | None => if is_service n (store s) then text " [start|stop|restart|status]"
               else default [] (usage_of n usage_table_2)
     end) ;;
  P [10] ;; line "Common options: -h, --help, --version".

(** The commands that are not about accounts, and the version the build sets. *)
Variable other_command : list Z -> list Z -> M S Z.
Variable version : list Z.

(** One command; [dispatch] is what sudo runs. *)
Definition dispatch_with (dispatch : list Z -> list Z -> M S Z) (n args : list Z) : M S Z :=
  (if is_name n ["status"]%string then ret tt else modify (with_status 0)) ;;
  let! ok := command_authorized n args in
  let! s := get in
  if negb ok then ret (last_status s) else
  modify (with_active (take 15 n)) ;;
  let a := skip_spaces args in
  if is_name n ["pstore"; "panic"; "tty"; "ntp"; "pm"; "install"]%string then other_command n args
  else if (Auth.eq a (text "-h") && negb (is_name n ["free"]%string)) || Auth.eq a (text "--help")
  then command_usage n ;; ret 0
  else if Auth.eq a (text "--version") then P n ;; P version ;; P [10] ;; ret 0
  else
    match account_command dispatch n args with
    | Some m => m ;; let! s := get in ret (last_status s)
    | None => other_command n args
    end.

(** Nested uses of sudo shorten the line, so its length is fuel enough. *)
Fixpoint abi_dispatch (fuel : nat) (n args : list Z) : M S Z :=
  match fuel with
  | O => dispatch_with (fun _ _ => out_of_fuel) n args
  | Datatypes.S fuel => dispatch_with (abi_dispatch fuel) n args
  end.

End Session.
