(* ===== verification/SessionTheorems.v ===== *)
(** * What an ordinary user can do with the account commands

    A frame argument over Session.v: the commands that write to the screen or to
    the files leave accounts and session alone, and the few that do not are
    guarded by a password or by the administrator's rights. *)

From stdpp Require Import base numbers list strings.
From Stdlib Require Import ZArith Lia.
From S2P Require Import Prelude Effects Crypto Auth AuthTheorems Session.

#[local] Opaque pbkdf2_sha256.

Lemma check_selects (u p : list Z) (a : auth) : auth_check u p a = true -> fst (auth_select u a) = true.
Proof. unfold auth_check, account, auth_select. by destruct (find u (records a)). Qed.

#[local] Opaque auth_check.

Lemma bind_inv {S A B} (m : M S A) (f : A -> M S B) (s : S) (r : B * S) :
  bind m f s = Ok r -> exists a s1, m s = Ok (a, s1) /\ f a s1 = Ok r.
Proof. unfold bind. destruct (m s) as [[a s1]| |]; try done. eauto. Qed.

Section Session.
Context {E : Type} `{AccountStore E}.

Local Abbreviation S := (session E).

(** Accounts, current user, and the input that is left are the same. *)
Definition same (s s' : S) : Prop :=
  records (acc s') = records (acc s) /\ current (acc s') = current (acc s) /\
  current_user s' = current_user s.

Definition frame {A} (m : M S A) : Prop := forall s a s', m s = Ok (a, s') -> same s s' /\ acc s' = acc s.

Lemma frame_ret {A} (a : A) : frame (ret a).
Proof. intros s a' s' [= <- <-]. done. Qed.

Lemma frame_get : frame get.
Proof. intros s a s' [= <- <-]. done. Qed.

Lemma frame_modify (f : S -> S) :
  (forall s, acc (f s) = acc s /\ current_user (f s) = current_user s) -> frame (modify f).
Proof. intros Hf s a s' [= <- <-]. destruct (Hf s) as [H1 H2]. split; [|done]. unfold same. by rewrite H1, H2. Qed.

Lemma frame_bind {A B} (m : M S A) (f : A -> M S B) : frame m -> (forall a, frame (f a)) -> frame (bind m f).
Proof.
  intros Hm Hf s b s' (a & s1 & H1 & H2)%bind_inv. destruct (Hm _ _ _ H1) as [(R1 & R2 & R3) R4].
  destruct (Hf _ _ _ _ H2) as [(T1 & T2 & T3) T4]. split; [split_and!|]; congruence.
Qed.

Lemma frame_none {A} : frame (out_of_fuel : M S A).
Proof. done. Qed.

Lemma frame_store (f : E -> bool * E) : frame (on_store f).
Proof.
  intros s a s' H1. unfold on_store, get, bind in H1. destruct (f (store s)) as [ok e].
  injection H1 as <- <-. done.
Qed.

Lemma frame_each {A} (l : list A) (f : A -> M S unit) : (forall a, frame (f a)) -> frame (each l f).
Proof. intros Hf. induction l as [|a l IH]; cbn [each]; [apply frame_ret|]. by apply frame_bind. Qed.

(** Proves that a command which only prints, asks and saves is framed. *)
Ltac framed :=
  repeat match goal with
  | |- frame (bind _ _) => apply frame_bind; [|intros]
  | |- frame (ret _) => apply frame_ret
  | |- frame get => apply frame_get
  | |- frame (modify _) => apply frame_modify; intros; split; reflexivity
  | |- frame out_of_fuel => apply frame_none
  | |- frame (on_store _) => apply frame_store
  | |- frame (each _ _) => apply frame_each; intros
  | |- frame (when ?b _) => unfold when; destruct b
  | |- frame (match ?x with _ => _ end) => destruct x
  end.

Lemma frame_P (t : list Z) : frame (P t). Proof. unfold P. framed. Qed.
Lemma frame_line (t : string) : frame (line t). Proof. unfold line, say. framed; apply frame_P. Qed.
Lemma frame_fail (t : string) (n : Z) : frame (fail_line t n).
Proof. unfold fail_line. framed. apply frame_line. Qed.

Lemma frame_secret (prompt : string) (cap : nat) : frame (read_secret prompt cap).
Proof. unfold read_secret, say. framed; apply frame_P. Qed.

Lemma frame_save (path : string) (d : option (list Z)) : frame (save path d).
Proof. unfold save. framed. Qed.

Lemma frame_persist : frame persist_accounts.
Proof. unfold persist_accounts. framed; apply frame_save. Qed.

Lemma frame_require (cmd : string) : frame (require_admin cmd).
Proof. unfold require_admin, say. framed; [apply frame_P|apply frame_fail]. Qed.

Lemma frame_authorized (n a : list Z) : frame (command_authorized n a).
Proof. unfold command_authorized. framed; [apply frame_P|apply frame_fail]. Qed.

Lemma frame_usage (n : list Z) : frame (command_usage n).
Proof. unfold command_usage, say. framed; first [apply frame_P|apply frame_line]. Qed.

Lemma frame_groups : frame c_groups.
Proof. unfold c_groups. framed; apply frame_P. Qed.

Lemma frame_id : frame c_id.
Proof. unfold c_id, say. framed; first [apply frame_P|apply frame_groups]. Qed.

Lemma frame_who : frame c_who.
Proof. unfold c_who. framed; first [apply frame_P|apply frame_line]. Qed.

(** What read_secret returns is what was typed. *)
Lemma read_secret_typed (prompt : string) (cap : nat) (s s' : S) (p : list Z) :
  read_secret prompt cap s = Ok (p, s') -> secret cap (keys s) [] = Some (p, keys s').
Proof.
  unfold read_secret. intros (a & s1 & H1 & H2)%bind_inv. injection H1 as <- <-.
  apply bind_inv in H2 as (a & s1 & [= <- <-] & H2).
  change (keys (with_screen (screen s ++ text prompt) s)) with (keys s) in H2.
  destruct (secret cap (keys s) []) as [[q ks]|]; [|done]. injection H2 as <- <-. done.
Qed.

Lemma on_acc_eq (f : auth -> bool * auth) (s : S) :
  on_acc f s = Ok (fst (f (acc s)), with_acc (snd (f (acc s))) s).
Proof. unfold on_acc, get, bind. by destruct (f (acc s)). Qed.

(** An ordinary user: no administrator and no right to use sudo. *)
Definition ordinary (s : S) : Prop :=
  auth_is_admin (acc s) = false /\ auth_has_group AUTH_GROUP_WHEEL (acc s) = false.

(** What a command of an ordinary user may have done. *)
Inductive confined (s s' : S) : Prop :=
| NoChange : same s s' -> confined s s'
| OwnPassword (old new rest : list Z) :
    secret 64 (keys s) [] = Some (old, rest) -> auth_check (current_user s) old (acc s) = true ->
    acc s' = snd (auth_set_password (current_user s) new (acc s)) -> current_user s' = current_user s -> confined s s'
| SwitchedUser (u p rest : list Z) :
    secret 64 (keys s) [] = Some (p, rest) -> auth_check u p (acc s) = true ->
    acc s' = snd (auth_select u (acc s)) -> current_user s' = take 15 u -> confined s s'
| LoggedOut :
    acc s' = snd (auth_select (text "nobody") (acc s)) ->
    (current_user s' = text "nobody" \/ auth_select (text "nobody") (acc s) = (false, acc s)) -> confined s s'.

(** The argument of a command only matters up to a frame before and after it. *)
Lemma confined_frame (s0 s s' s1 : S) :
  acc s0 = acc s -> current_user s0 = current_user s -> keys s0 = keys s ->
  same s' s1 -> acc s1 = acc s' -> confined s s' -> confined s0 s1.
Proof.
  intros E1 E2 E3 (_ & _ & F3) F4 [(H1 & H2 & H3)|old new rest H1 H2 H3 H4|u p rest H1 H2 H3 H4|H1 H2].
  - apply NoChange. split_and!; congruence.
  - apply (OwnPassword _ _ old new rest); rewrite ?E1, ?E2, ?E3, ?F4, ?F3; congruence.
  - apply (SwitchedUser _ _ u p rest); rewrite ?E1, ?E2, ?E3, ?F4, ?F3; congruence.
  - apply LoggedOut; rewrite ?E1, ?F4, ?F3; done.
Qed.

Lemma frame_confined {A} (m : M S A) (s s' : S) (a : A) : frame m -> m s = Ok (a, s') -> confined s s'.
Proof. intros Hm Hr. apply NoChange. by apply Hm in Hr as [? _]. Qed.

(** The commands for administrators refuse. *)
Lemma require_refuses (cmd : string) (s s' : S) (ok : bool) :
  auth_is_admin (acc s) = false -> require_admin cmd s = Ok (ok, s') -> ok = false.
Proof.
  unfold require_admin. intros Ha (a & s1 & [= <- <-] & H2)%bind_inv. rewrite Ha in H2.
  apply bind_inv in H2 as (? & ? & _ & H2). apply bind_inv in H2 as (? & ? & _ & H2). by injection H2.
Qed.

Lemma admin_only (cmd : string) (k : bool -> M S unit) (s s' : S) :
  auth_is_admin (acc s) = false -> (forall s, k false s = Ok (tt, s)) ->
  bind (require_admin cmd) k s = Ok (tt, s') -> confined s s'.
Proof.
  intros Ha Hk (ok & s1 & H1 & H2)%bind_inv. rewrite (require_refuses _ _ _ _ Ha H1), Hk in H2.
  injection H2 as <-. eapply frame_confined; [apply frame_require|done].
Qed.

Lemma is_root_admin (a : auth) : auth_is_admin a = false -> auth_is_root a = false.
Proof. unfold auth_is_admin. intros Hf. by destruct (auth_is_root a). Qed.

Lemma after_frame {A} (m : M S A) (s s' s1 : S) (a : A) :
  confined s s' -> frame m -> m s' = Ok (a, s1) -> confined s s1.
Proof. intros Hc Hm Hr. destruct (Hm _ _ _ Hr). by eapply confined_frame. Qed.

Lemma su_confined (args : list Z) (s s' : S) :
  auth_is_admin (acc s) = false -> c_su args s = Ok (tt, s') -> confined s s'.
Proof.
  intros Ha. unfold c_su. destruct (word 15 (skip_spaces args)) as [user rest] eqn:Ew.
  intros (a & s1 & [= <- <-] & H2)%bind_inv. destruct user as [|c u] eqn:Eu.
  { eapply frame_confined; [apply frame_line|done]. }
  rewrite <- Eu in *. destruct (auth_nologin user (acc s)); [eapply frame_confined; [apply frame_fail|done]|].
  rewrite (is_root_admin _ Ha) in H2. apply bind_inv in H2 as (ok & s2 & H1 & H2).
  apply bind_inv in H1 as (p & s3 & H1 & [= <- <-]).
  destruct (frame_secret _ _ _ _ _ H1) as [(_ & _ & F3) F4]. pose proof (read_secret_typed _ _ _ _ _ H1) as Ht.
  destruct (auth_check user p (acc s)) eqn:Ec.
  2:{ eapply after_frame; [|apply frame_fail|exact H2]. apply NoChange. split_and!; congruence. }
  apply bind_inv in H2 as (? & s4 & H3 & H2). unfold set_session_user in H3.
  apply bind_inv in H3 as (ok & s5 & H3 & H4). rewrite on_acc_eq, F4 in H3.
  rewrite (check_selects _ _ _ Ec) in H3. injection H3 as <- <-. injection H4 as _ <-.
  eapply after_frame; [| |exact H2].
  - eapply (SwitchedUser _ _ user p); [exact Ht|exact Ec|done|done].
  - unfold say. framed; apply frame_P.
Qed.

Lemma passwd_confined (args : list Z) (s s' : S) :
  auth_is_admin (acc s) = false -> c_passwd args s = Ok (tt, s') -> confined s s'.
Proof.
  intros Ha. unfold c_passwd. intros (a & s1 & [= <- <-] & H2)%bind_inv.
  set (user := match skip_spaces args with [] => current_user s | _ => _ end) in H2. cbv zeta in H2.
  rewrite Ha, (is_root_admin _ Ha) in H2. destruct (Auth.eq user (current_user s)) eqn:Eo; cbn [negb andb] in H2.
  2:{ eapply frame_confined; [apply frame_fail|done]. }
  apply eq_spec in Eo. apply bind_inv in H2 as (ok & s2 & H1 & H2).
  apply bind_inv in H1 as (old & s3 & H1 & [= <- <-]).
  destruct (frame_secret _ _ _ _ _ H1) as [(F1 & F2 & F3) F4]. pose proof (read_secret_typed _ _ _ _ _ H1) as Ht.
  assert (confined s s3) as Hc by (apply NoChange; split_and!; congruence).
  destruct (auth_check user old (acc s)) eqn:Ec; cbn [negb] in H2; [|by eapply after_frame; [|apply frame_fail|]].
  apply bind_inv in H2 as (p1 & s4 & H3 & H2). destruct (frame_secret _ _ _ _ _ H3) as [(G1 & G2 & G3) G4].
  assert (confined s s4) as Hc4 by (by eapply after_frame; [|apply frame_secret|]).
  destruct (Nat.ltb (length p1) 8); [by eapply after_frame; [|apply frame_fail|]|].
  apply bind_inv in H2 as (p2 & s5 & H5 & H2). destruct (frame_secret _ _ _ _ _ H5) as [(I1 & I2 & I3) I4].
  assert (confined s s5) as Hc5 by (by eapply after_frame; [|apply frame_secret|]).
  destruct (Auth.eq p1 p2).
  - apply bind_inv in H2 as (ok & s6 & H6 & H2). rewrite on_acc_eq in H6. injection H6 as _ <-.
    eapply after_frame; [| |exact H2].
    + apply (OwnPassword _ _ old p1 (keys s3)); [done|by rewrite <- Eo| |cbn; congruence].
      cbn [acc with_acc]. by rewrite I4, G4, F4, Eo.
    + framed; first [apply frame_persist|apply frame_line|apply frame_fail].
  - eapply after_frame; [exact Hc5| |exact H2]. framed; first [apply frame_fail|apply frame_line|apply frame_persist].
Qed.

Lemma logout_confined (s s' : S) : c_logout s = Ok (tt, s') -> confined s s'.
Proof.
  unfold c_logout. intros (a & s1 & [= <- <-] & H2)%bind_inv. apply bind_inv in H2 as (? & s2 & H1 & H2).
  assert (frame (when (auth_current_role (acc s) =? AUTH_GUEST) (line "Guest session data discarded."))) as Hf
    by (unfold when; framed; apply frame_line).
  destruct (Hf _ _ _ H1) as [(F1 & F2 & F3) F4].
  apply bind_inv in H2 as (? & s3 & H3 & H2). unfold set_session_user in H3.
  apply bind_inv in H3 as (ok & s4 & H3 & H4). rewrite on_acc_eq, F4 in H3. injection H3 as <- <-.
  eapply after_frame; [|framed; apply frame_line|exact H2]. unfold auth_select in *.
  destruct (find (text "nobody") (records (acc s))) as [i|] eqn:En; cbn [fst snd] in *; injection H4 as _ <-.
  - apply LoggedOut; unfold auth_select; rewrite En; [done|]. by left.
  - apply LoggedOut; unfold auth_select; rewrite En; [done|]. by right.
Qed.

Lemma umask_confined (args : list Z) (s s' : S) : c_umask args s = Ok (tt, s') -> confined s s'.
Proof.
  unfold c_umask. intros (a & s1 & [= <- <-] & H2)%bind_inv. destruct (skip_spaces args) as [|c a] eqn:Ea.
  { eapply frame_confined; [apply frame_P|done]. }
  destruct (octal_mode (c :: a)); [|eapply frame_confined; [apply frame_fail|done]].
  injection H2 as <-. by apply NoChange.
Qed.

Lemma sudo_refused (dispatch : list Z -> list Z -> M S Z) (args : list Z) (s s' : S) :
  ordinary s -> c_sudo dispatch args s = Ok (tt, s') -> confined s s'.
Proof.
  intros [Ha Hw]. unfold c_sudo. intros (a & s1 & [= <- <-] & H2)%bind_inv.
  rewrite Ha, Hw, (is_root_admin _ Ha) in H2. cbn [negb andb] in H2.
  destruct (skip_spaces args); (eapply frame_confined; [apply frame_fail|exact H2]).
Qed.

(** mkuser has no check of its own: it relies on command_authorized. *)
Lemma account_command_confined (dispatch : list Z -> list Z -> M S Z) (n args : list Z) (m : M S unit) (s s' : S) :
  ordinary s -> is_name n ["mkuser"]%string = false ->
  account_command dispatch n args = Some m -> m s = Ok (tt, s') -> confined s s'.
Proof.
  intros Ho Hmk. pose proof Ho as [Ha _]. unfold account_command. rewrite Hmk.
  repeat match goal with |- (if ?b then _ else _) = _ -> _ => destruct b end; intros [= <-] Hr.
  - unfold c_useradd in Hr. eapply admin_only; [exact Ha| |exact Hr]; reflexivity.
  - unfold c_userdel in Hr. eapply admin_only; [exact Ha| |exact Hr]; reflexivity.
  - unfold c_usermod in Hr. eapply admin_only; [exact Ha| |exact Hr]; reflexivity.
  - by eapply passwd_confined.
  - by eapply su_confined.
  - by eapply su_confined.
  - by eapply logout_confined.
  - by eapply sudo_refused.
  - eapply frame_confined; [apply frame_id|done].
  - eapply frame_confined; [apply frame_groups|done].
  - eapply frame_confined; [apply frame_who|done].
  - by eapply umask_confined.
Qed.

(** ** Running a command *)

Variable other_command : list Z -> list Z -> M S Z.
Variable version : list Z.

Definition account_names : list string :=
  ["mkuser"; "useradd"; "userdel"; "usermod"; "passwd"; "su"; "login"; "logout"; "sudo"; "id"; "groups"; "who"; "umask"]%string.

Lemma account_name_command (dispatch : list Z -> list Z -> M S Z) (n args : list Z) :
  is_name n account_names = true ->
  is_name n ["pstore"; "panic"; "tty"; "ntp"; "pm"; "install"]%string = false /\
  exists m, account_command dispatch n args = Some m.
Proof.
  unfold is_name at 1, account_names. intros [t [Ht He]]%existsb_exists. apply eq_spec in He as ->.
  repeat (destruct Ht as [<-|Ht]; [split; [reflexivity|eexists; reflexivity]|]). done.
Qed.

(** A command that is let through has not changed anything yet. *)
Lemma authorized_allows (n a : list Z) (s s' : S) : command_authorized n a s = Ok (true, s') -> s' = s.
Proof.
  unfold command_authorized. intros (x & s1 & [= <- <-] & H2)%bind_inv.
  match type of H2 with (if ?b then _ else _) _ = _ => destruct b end; [by injection H2|].
  apply bind_inv in H2 as (? & ? & _ & H2). by apply bind_inv in H2 as (? & ? & _ & H2).
Qed.

(** The commands whose only check is here are refused. *)
Lemma authorized_refuses (n a : list Z) (s s' : S) (ok : bool) :
  auth_is_admin (acc s) = false -> is_name n ["mkuser"]%string = true -> command_authorized n a s = Ok (ok, s') -> ok = false.
Proof.
  unfold is_name at 1. cbn [existsb]. rewrite orb_false_r. intros Ha Hn%eq_spec. subst n. unfold command_authorized.
  intros (x & s1 & [= <- <-] & H2)%bind_inv.
  change (is_name (text "mkuser") ["install"; "format"; "reboot"; "shutdown"; "halt"; "chown"]%string) with false in H2.
  change (is_name (text "mkuser") ["useradd"; "userdel"; "usermod"; "mkuser"; "mount"; "chgrp"]%string) with true in H2.
  cbv iota zeta in H2. rewrite Ha in H2.
  apply bind_inv in H2 as (? & ? & _ & H2). apply bind_inv in H2 as (? & ? & _ & H2). by injection H2.
Qed.

(** C31. An ordinary user stays confined: whatever account command (mkuser,
    useradd, userdel, usermod, passwd, su, login, logout, sudo, id, groups, who,
    umask) a user who is neither administrator nor in the wheel group runs and
    whatever is typed, the accounts and the session are unchanged except in three
    ways: the password of the user's own account after the current one has been
    typed, a switch to an account whose password has been typed, or a logout. *)
Theorem ordinary_user_confined (fuel : nat) (n args : list Z) (s s' : S) (rc : Z) :
  ordinary s -> is_name n account_names = true ->
  abi_dispatch other_command version fuel n args s = Ok (rc, s') -> confined s s'.
Proof.
  intros Ho Hn Hr.
  assert (exists dispatch, dispatch_with other_command version dispatch n args s = Ok (rc, s')) as [dispatch Hd]
    by (destruct fuel; eexists; exact Hr).
  clear Hr. unfold dispatch_with in Hd.
  destruct (account_name_command dispatch n args Hn) as [Hsp [m Hm]]. rewrite Hsp, Hm in Hd.
  apply bind_inv in Hd as (? & s1 & H1 & Hd). apply bind_inv in Hd as (ok & s2 & H2 & Hd).
  apply bind_inv in Hd as (? & s3 & [= <- <-] & Hd).
  assert (acc s1 = acc s /\ current_user s1 = current_user s /\ keys s1 = keys s) as (E1 & E2 & E3)
    by (destruct (is_name n ["status"]%string); by injection H1 as _ <-).
  assert (same s1 s1) as Hs1 by done.
  apply (confined_frame s s1 s' s'); [done..|]. clear H1. destruct ok; cbn [negb] in Hd.
  2:{ eapply after_frame; [|apply frame_ret|exact Hd]. eapply frame_confined; [apply frame_authorized|exact H2]. }
  assert (is_name n ["mkuser"]%string = false) as Hmk.
  { destruct (is_name n ["mkuser"]%string) eqn:Ek; [|done]. apply (authorized_refuses n args) in H2; [done| |done]. rewrite E1. apply Ho. }
  apply authorized_allows in H2 as ->. apply bind_inv in Hd as (? & s4 & [= _ <-] & Hd).
  eapply (confined_frame s1 (with_active (take 15 n) s1) s' s'); [done..|].
  destruct (_ || _); [eapply frame_confined; [|exact Hd]; framed; apply frame_usage|].
  destruct (Auth.eq _ _); [eapply frame_confined; [|exact Hd]; framed; apply frame_P|].
  apply bind_inv in Hd as ([] & s5 & H5 & Hd).
  eapply after_frame; [| |exact Hd]; [|framed]. eapply account_command_confined; [|exact Hmk|exact Hm|exact H5].
  unfold ordinary in *. cbn [acc with_active]. by rewrite E1.
Qed.

End Session.

(** ** Examples *)

(** File systems that accept everything. *)
#[export] Instance happy_store : AccountStore unit := {
  varfs_store _ _ e := (true, e); varfs_chmod _ _ e := (true, e); varfs_chown _ _ _ _ _ e := (true, e);
  varfs_sync e := (true, e); varfs_mounted _ := true; disk_mounted _ := true; disk_sync e := (true, e); disk_create _ e := (true, e); log_submit _ _ e := (true, e);
  is_service _ _ := false; timed_monotonic_ns _ := 0
}.

Definition session_of (u : string) (i : nat) : session unit :=
  Session (Auth (records sample) i 0x12) (text u) 0 65535 0 (text "/") [] [] [] tt.

Lemma ordinary_user_confined_witness :
  exists s', abi_dispatch (fun _ _ => ret 126) [] 9 (text "passwd") (text "bob") (session_of "alice" 1) = Ok (77, s') /\
             confined (session_of "alice" 1) s'.
Proof.
  destruct (abi_dispatch (fun _ _ => ret 126) [] 9 (text "passwd") (text "bob") (session_of "alice" 1)) as [[rc s']| |] eqn:Er;
    [|vm_compute in Er; discriminate..].
  exists s'. assert (rc = 77) as -> by (vm_compute in Er; injection Er; congruence). split; [reflexivity|].
  apply (ordinary_user_confined (fun _ _ => ret 126) [] 9 (text "passwd") (text "bob") (session_of "alice" 1) s' 77);
    [split; reflexivity|reflexivity|exact Er].
Defined.

(** An ordinary user's mkuser is refused before anything is asked. *)
Lemma mkuser_refused :
  exists s', abi_dispatch (fun _ _ => ret 126) [] 9 (text "mkuser") (text "carol") (session_of "alice" 1) = Ok (77, s') /\
             acc s' = acc (session_of "alice" 1).
Proof. eexists. split; vm_compute; reflexivity. Qed.

(** An administrator who removes an account created before their own is root
    afterwards, without having typed a password. *)
Lemma userdel_makes_root :
  exists s', abi_dispatch (fun _ _ => ret 126) [] 9 (text "userdel") (text "alice") (session_of "bob" 2) = Ok (0, s') /\
             auth_is_root (acc (session_of "bob" 2)) = false /\ auth_is_root (acc s') = true.
Proof. eexists. split; [vm_compute; reflexivity|]. by vm_compute. Qed.

(** An administrator whose role is taken away by root still passes the check of
    the administrator commands. *)
Lemma usermod_leaves_admin :
  exists s', abi_dispatch (fun _ _ => ret 126) [] 9 (text "usermod") (text "-r user bob") (session_of "root" 0) = Ok (0, s') /\
             auth_is_admin (snd (auth_select (text "bob") (acc s'))) = true.
Proof. eexists. split; [vm_compute; reflexivity|]. by vm_compute. Qed.
