(* ===== verification/Pstore.v ===== *)
(** * The persistent crash record (src/kernel/core/pstore.c)

    One sector outside the file systems keeps the reason of the last panic and
    the end of the log.  The disk (src/kernel/drivers/disk/disk.c) is the
    interface [RecordDisk], with what the record relies on in [RecordDiskLaws]. *)

From stdpp Require Import base numbers list strings.
From Stdlib Require Import ZArith Lia Ascii.
From S2P Require Import Prelude Effects.

Class RecordDisk (D : Type) := {
  disk_read : Z -> D -> option (list Z) * D;
  disk_write : Z -> list Z -> D -> bool * D;
  disk_sync : D -> bool * D;
  disk_mounted : D -> bool;
  disk_store : list Z -> list Z -> D -> bool * D;
  disk_remove : list Z -> D -> bool * D
}.

Definition PSTORE_LBA : Z := 2039.
Definition PSTORE_MAGIC : Z := 0x52545350.

(** Sectors have 512 bytes; what is written is read back; files are stored
    elsewhere. *)
Class RecordDiskLaws (D : Type) `{RecordDisk D} (sector : D -> Z -> list Z) := {
  read_law : forall l d x d', disk_read l d = (Some x, d') -> x = sector d l /\ forall k, sector d' k = sector d k;
  write_law : forall l x d d', length x = 512%nat -> disk_write l x d = (true, d') -> sector d' l = x;
  sync_law : forall d b d', disk_sync d = (b, d') -> sector d' PSTORE_LBA = sector d PSTORE_LBA;
  store_law : forall n x d b d', disk_store n x d = (b, d') -> sector d' PSTORE_LBA = sector d PSTORE_LBA;
  remove_law : forall n d b d', disk_remove n d = (b, d') -> sector d' PSTORE_LBA = sector d PSTORE_LBA
}.

Record pstore (D : Type) := PStore { record : list Z; valid : bool; disk : D }.
Arguments PStore {D}. Arguments record {D}. Arguments valid {D}. Arguments disk {D}.

(** ** Bytes of the record *)

Definition get32 (o : nat) (r : list Z) : Z :=
  Z.lor (Z.lor (Z.lor (nth o r 0) (Z.shiftl (nth (o + 1) r 0) 8)) (Z.shiftl (nth (o + 2) r 0) 16))
        (Z.shiftl (nth (o + 3) r 0) 24).

Definition put32 (o : nat) (v : Z) (r : list Z) : list Z :=
  <[(o + 3)%nat := u8 (Z.shiftr v 24)]> (<[(o + 2)%nat := u8 (Z.shiftr v 16)]>
    (<[(o + 1)%nat := u8 (Z.shiftr v 8)]> (<[o := u8 v]> r))).

(** The 32-bit FNV-1a hash. *)
Definition checksum (p : list Z) : Z :=
  fold_left (fun h b => u32 (Z.lxor h b * 16777619)) p 2166136261.

(** [while (... && n < 496) record[16 + n++] = *s++;] *)
Fixpoint append (s : list Z) (n : nat) (r : list Z) : nat * list Z :=
  match s with
  | [] => (n, r)
  | c :: s => if Nat.ltb n 496 then append s (S n) (<[(16 + n)%nat := u8 c]> r) else (n, r)
  end.

Section Pstore.
Context {D : Type} `{RecordDisk D}.

(** ** Operations *)

Definition on_disk {A} (f : D -> A * D) : M (pstore D) A :=
  let! s := get in let '(a, d) := f (disk s) in modify (fun s => PStore (record s) (valid s) d) ;; ret a.
Definition set_record (r : list Z) : M (pstore D) unit := modify (fun s => PStore r (valid s) (disk s)).
Definition set_valid (b : bool) : M (pstore D) unit := modify (fun s => PStore (record s) b (disk s)).

Definition record_ok (r : list Z) : bool :=
  (get32 0 r =? PSTORE_MAGIC) && (get32 4 r <=? 496) &&
  (get32 8 r =? checksum (take (Z.to_nat (get32 4 r)) (drop 16 r))).

Definition pstore_init : M (pstore D) unit :=
  set_valid false ;;
  let! r := on_disk (disk_read PSTORE_LBA) in
  match r with
  | None => ret tt
  | Some r => set_record r ;; if record_ok r then set_valid true else ret tt
  end.

(** The record of a panic: the text and its length, magic and checksum. *)
Definition panic_record (reason log : list Z) : list Z :=
  let '(n, r) := append (text "OS64 panic: ") 0 (replicate 512 0) in
  let '(n, r) := append reason n r in
  let '(n, r) := append [10] n r in
  let '(n, r) := append log n r in
  let r := put32 4 (Z.of_nat n) (put32 0 PSTORE_MAGIC r) in
  put32 8 (checksum (take n (drop 16 r))) r.

(** A null [reason] is the empty one. *)
Definition pstore_write_panic (reason log : list Z) : M (pstore D) bool :=
  set_record (panic_record reason log) ;;
  let! s := get in
  let! ok := on_disk (disk_write PSTORE_LBA (record s)) in
  let! ok := if ok then on_disk disk_sync else ret false in
  if negb ok then ret false else
  set_valid true ;;
  let! s := get in
  (if disk_mounted (disk s)
   then let! _ := on_disk (disk_store (text "PANIC.FLG") (text "panic" ++ [10])) in
        let! _ := on_disk disk_sync in ret tt
   else ret tt) ;;
  ret true.

(** [None] is the result 0. *)
Definition pstore_read (cap : nat) (s : pstore D) : option (list Z) :=
  if negb (valid s) || Nat.eqb cap 0 then None
  else let n := Z.to_nat (get32 4 (record s)) in
       Some (take (Nat.min n cap) (drop 16 (record s))).

Definition pstore_clear : M (pstore D) bool :=
  set_record (replicate 512 0) ;;
  let! s := get in
  let! ok := on_disk (disk_write PSTORE_LBA (record s)) in
  let! ok := if ok then on_disk disk_sync else ret false in
  if negb ok then ret false else
  let! s := get in
  (if disk_mounted (disk s) then let! _ := on_disk (disk_remove (text "PANIC.FLG")) in ret tt else ret tt) ;;
  set_valid false ;; ret true.

Definition pstore_present (s : pstore D) : bool := valid s.

End Pstore.

(** ** The record on the disk *)

Definition panic_text (reason log : list Z) : list Z :=
  take 496 (text "OS64 panic: " ++ reason ++ [10] ++ log).

(** A record that holds [t] so far. *)
Definition holding (t : list Z) : list Z := replicate 16 0 ++ t ++ replicate (496 - length t) 0.

Lemma insert_holding (t : list Z) (c : Z) :
  (length t < 496)%nat -> <[(16 + length t)%nat := c]> (holding t) = holding (t ++ [c]).
Proof.
  intros Hl. unfold holding. rewrite insert_app_r_alt by (rewrite length_replicate; lia).
  rewrite length_replicate, insert_app_r_alt by lia.
  replace (16 + length t - 16 - length t)%nat with 0%nat by lia. rewrite length_app. cbn [length].
  replace (496 - length t)%nat with (S (496 - (length t + 1))) by lia. cbn [replicate insert list_insert].
  by rewrite <- app_assoc.
Qed.

Lemma append_holding (s t : list Z) :
  Forall is_u8 s -> (length t <= 496)%nat ->
  append s (length t) (holding t) = (length (take 496 (t ++ s)), holding (take 496 (t ++ s))).
Proof.
  intros Hs. revert t. induction Hs as [|c s Hc Hs IH]; intros t Ht; cbn [append].
  - rewrite app_nil_r, take_ge by done. done.
  - destruct (Nat.ltb_spec (length t) 496).
    + rewrite u8_small, insert_holding by done. replace (S (length t)) with (length (t ++ [c])) by (rewrite length_app; cbn [length]; lia).
      rewrite IH by (rewrite length_app; cbn [length]; lia). by rewrite <- app_assoc.
    + rewrite take_app_le, take_ge by lia. done.
Qed.

Lemma take_append (t s : list Z) : take 496 (take 496 t ++ s) = take 496 (t ++ s).
Proof.
  destruct (Nat.le_gt_cases (length t) 496); [by rewrite (take_ge t)|].
  rewrite !take_app_le by (rewrite ?length_take; lia). rewrite take_take. f_equal. 
Qed.

Lemma length_put32 (o : nat) (v : Z) (r : list Z) : length (put32 o v r) = length r.
Proof. unfold put32. by rewrite !length_insert. Qed.

Lemma get32_put32 (o : nat) (v : Z) (r : list Z) :
  is_u32 v -> (o + 4 <= length r)%nat -> get32 o (put32 o v r) = v.
Proof.
  intros Hv Hl. unfold get32, put32.
  assert (forall i x (l : list Z), (i < length l)%nat -> nth i (<[i:=x]> l) 0 = x) as Heq.
  { intros i x l Hi. apply nth_lookup_Some. by apply list_lookup_insert_eq. }
  assert (forall i j x (l : list Z), i <> j -> nth i (<[j:=x]> l) 0 = nth i l 0) as Hne.
  { intros i j x l Hij. rewrite !nth_lookup. by rewrite list_lookup_insert_ne. }
  rewrite !(Hne o), (Heq o) by lia. rewrite !(Hne (o + 1)%nat), (Heq (o + 1)%nat) by (rewrite ?length_insert; lia).
  rewrite !(Hne (o + 2)%nat), (Heq (o + 2)%nat) by (rewrite ?length_insert; lia).
  rewrite (Heq (o + 3)%nat) by (rewrite ?length_insert; lia).
  unfold u8. rewrite !Z.shiftr_div_pow2 by lia. unfold is_u32 in Hv.
  rewrite (lor_shift (v mod 2 ^ 8)) by (try (apply Z.mod_pos_bound; lia); lia).
  rewrite (lor_shift (v mod 2 ^ 8 + _) _ 16) by (Z.div_mod_to_equations; lia).
  rewrite (lor_shift (v mod 2 ^ 8 + _ + _) _ 24) by (Z.div_mod_to_equations; lia).
  Z.div_mod_to_equations. lia.
Qed.

Lemma get32_other (o o' : nat) (v : Z) (r : list Z) :
  (o + 4 <= o' \/ o' + 4 <= o)%nat -> get32 o (put32 o' v r) = get32 o r.
Proof.
  intros Ho. unfold get32, put32.
  assert (forall i j x (l : list Z), i <> j -> nth i (<[j:=x]> l) 0 = nth i l 0) as Hne.
  { intros i j x l Hij. rewrite !nth_lookup. by rewrite list_lookup_insert_ne. }
  by rewrite !Hne by lia.
Qed.

Lemma drop_put32 (o : nat) (v : Z) (r : list Z) : (o + 4 <= 16)%nat -> drop 16 (put32 o v r) = drop 16 r.
Proof. intros. unfold put32. by rewrite !drop_insert_lt by lia. Qed.

Lemma checksum_u32 (p : list Z) : is_u32 (checksum p).
Proof.
  unfold checksum.
  assert (is_u32 2166136261) as H by (unfold is_u32; lia). revert H. generalize 2166136261.
  induction p as [|b p IH]; intros h Hh; cbn [fold_left]; [done|]. apply IH. apply Z.mod_pos_bound. lia.
Qed.

Lemma text_u8 (t : string) : Forall is_u8 (text t).
Proof.
  unfold text. apply List.Forall_map, List.Forall_forall. intros a _. unfold byte_of_ascii, is_u8.
  pose proof (N_ascii_bounded a). lia.
Qed.

(** The record is accepted, and holds the text. *)
Lemma panic_record_spec (reason log : list Z) :
  Forall is_u8 reason -> Forall is_u8 log ->
  let r := panic_record reason log in
  record_ok r = true /\ get32 4 r = Z.of_nat (length (panic_text reason log)) /\
  take (length (panic_text reason log)) (drop 16 r) = panic_text reason log /\ length r = 512%nat.
Proof.
  intros Hr Hl. cbn zeta. unfold panic_record.
  pose proof (append_holding (text "OS64 panic: ") [] (text_u8 _) ltac:(cbn [length]; lia)) as H0.
  change (holding []) with (replicate 512 0) in H0. cbn [length app] in H0. rewrite H0. clear H0.
  rewrite append_holding by (done || (rewrite length_take; lia)). rewrite take_append.
  rewrite append_holding by ((constructor; [unfold is_u8; lia|done]) || (rewrite length_take; lia)). rewrite take_append.
  rewrite append_holding by (done || (rewrite length_take; lia)). rewrite take_append. cbn [app].
  rewrite <- !app_assoc. fold (panic_text reason log).
  assert (length (panic_text reason log) <= 496)%nat as Ht by (unfold panic_text; rewrite length_take; lia).
  generalize dependent (panic_text reason log). intros t Ht.
  assert (length (holding t) = 512%nat) as Hlen by (unfold holding; rewrite !length_app, !length_replicate; lia).
  assert (take (length t) (drop 16 (holding t)) = t) as Htext.
  { unfold holding. rewrite drop_app_length' by (by rewrite length_replicate). by apply take_app_length'. }
  unfold record_ok. rewrite !drop_put32 by lia.
  rewrite (get32_other 0 8), (get32_other 4 8), (get32_other 0 4) by lia.
  rewrite !get32_put32 by (rewrite ?length_put32; try apply checksum_u32; unfold is_u32, PSTORE_MAGIC; lia).
  rewrite Nat2Z.id, Htext, !length_put32, Z.eqb_refl, Z.eqb_refl. rewrite (proj2 (Z.leb_le _ _)) by lia. done.
Qed.

Section Laws.
Context {D : Type} (sector : D -> Z -> list Z) `{RecordDiskLaws D sector}.

Lemma on_disk_eq {A} (f : D -> A * D) (s : pstore D) :
  on_disk f s = Ok (fst (f (disk s)), PStore (record s) (valid s) (snd (f (disk s)))).
Proof. unfold on_disk, get, bind. by destruct (f (disk s)). Qed.

Lemma sync_sector (d : D) : sector (snd (disk_sync d)) PSTORE_LBA = sector d PSTORE_LBA.
Proof. destruct (disk_sync d) as [b d'] eqn:Es. by apply sync_law in Es. Qed.

(** A write that is reported as done has put the record in its sector. *)
Lemma write_panic_sector (reason log : list Z) (s s' : pstore D) :
  length (panic_record reason log) = 512%nat -> pstore_write_panic reason log s = Ok (true, s') -> sector (disk s') PSTORE_LBA = panic_record reason log.
Proof.
  intros Hlen. unfold pstore_write_panic, set_record, set_valid, get, modify, ret. unfold bind at 1. cbn [disk record valid].
  unfold bind at 1. unfold bind at 1. rewrite on_disk_eq. cbn [disk record valid].
  destruct (disk_write PSTORE_LBA (panic_record reason log) (disk s)) as [ok d1] eqn:Ew. cbn [fst snd].
  destruct ok; [|done]. apply (write_law _ _ _ _ Hlen) in Ew. unfold bind at 1. rewrite on_disk_eq. cbn [disk record valid].
  pose proof (sync_sector d1) as Hs. destruct (disk_sync d1) as [ok d2]. cbn [fst snd] in *.
  destruct ok; [|done]. cbn [negb]. unfold bind at 1. cbn [disk record valid]. unfold bind at 1. cbn [disk record valid].
  destruct (disk_mounted d2); [|intros [= <-]; cbn [disk]; congruence].
  unfold bind at 1. unfold bind at 1. rewrite on_disk_eq. cbn [disk record valid].
  destruct (disk_store _ _ d2) as [b d3] eqn:Est. cbn [fst snd]. apply store_law in Est.
  unfold bind at 1. rewrite on_disk_eq. cbn [disk record valid]. pose proof (sync_sector d3).
  intros [= <-]. cbn [disk]. congruence.
Qed.

Lemma clear_sector (s s' : pstore D) :
  pstore_clear s = Ok (true, s') -> sector (disk s') PSTORE_LBA = replicate 512 0.
Proof.
  unfold pstore_clear, set_record, set_valid, get, modify, ret. unfold bind at 1. cbn [disk record valid].
  unfold bind at 1. unfold bind at 1. rewrite on_disk_eq. cbn [disk record valid].
  destruct (disk_write PSTORE_LBA (replicate 512 0) (disk s)) as [ok d1] eqn:Ew. cbn [fst snd].
  destruct ok; [|done]. apply (write_law _ _ _ _ (length_replicate 512 0)) in Ew. unfold bind at 1. rewrite on_disk_eq. cbn [disk record valid].
  pose proof (sync_sector d1) as Hs. destruct (disk_sync d1) as [ok d2]. cbn [fst snd] in *.
  destruct ok; [|done]. cbn [negb]. unfold bind at 1. cbn [disk record valid]. unfold bind at 1.
  destruct (disk_mounted d2); [|intros [= <-]; cbn [disk]; congruence].
  unfold bind at 1. rewrite on_disk_eq. cbn [disk record valid].
  destruct (disk_remove _ d2) as [b d3] eqn:Est. cbn [fst snd]. apply remove_law in Est.
  intros [= <-]. cbn [disk]. congruence.
Qed.

(** What the next start finds. *)
Lemma init_reads (r0 : list Z) (v0 : bool) (d : D) :
  fst (disk_read PSTORE_LBA d) <> None ->
  exists d', pstore_init (PStore r0 v0 d) = Ok (tt, PStore (sector d PSTORE_LBA) (record_ok (sector d PSTORE_LBA)) d').
Proof.
  intros Hr. unfold pstore_init, set_valid, set_record. unfold bind at 1, modify at 1. cbn [disk record valid].
  unfold bind at 1. rewrite on_disk_eq. cbn [disk record valid].
  destruct (disk_read PSTORE_LBA d) as [[x|] d'] eqn:Ed; [|done]. cbn [fst snd].
  apply read_law in Ed as [-> _]. exists d'. unfold bind, modify, ret. cbn [disk record valid].
  by destruct (record_ok _).
Qed.

(** C22. The crash record survives the restart: once pstore_write_panic has
    reported success, the next start accepts the record and pstore_read returns the
    panic text (prefix, reason, newline, log, cut at 496 bytes) up to the size of
    the caller's buffer, whatever the log and the reason; after a successful
    pstore_clear the next start finds no record, and a sector is accepted only with
    the right magic number, length and checksum. *)
Theorem panic_record_survives (reason log : list Z) (s s' : pstore D) (r0 : list Z) (v0 : bool) (cap : nat) :
  Forall is_u8 reason -> Forall is_u8 log -> (0 < cap)%nat ->
  fst (disk_read PSTORE_LBA (disk s')) <> None ->
  exists d t, pstore_init (PStore r0 v0 (disk s')) = Ok (tt, t) /\
    t = PStore (sector (disk s') PSTORE_LBA) (record_ok (sector (disk s') PSTORE_LBA)) d /\
    (pstore_write_panic reason log s = Ok (true, s') ->
       pstore_present t = true /\ pstore_read cap t = Some (take cap (panic_text reason log))) /\
    (pstore_clear s = Ok (true, s') -> pstore_present t = false /\ pstore_read cap t = None).
Proof.
  intros Hr Hl Hc Hd. destruct (init_reads r0 v0 (disk s') Hd) as [d Hi]. exists d. eexists. split; [exact Hi|].
  split; [done|]. unfold pstore_present, pstore_read. cbn [valid record]. split.
  - destruct (panic_record_spec reason log Hr Hl) as (H1 & H2 & H3 & H4). intros ->%write_panic_sector; [|done].
    rewrite H1. split; [done|]. cbn [negb]. rewrite (proj2 (Nat.eqb_neq cap 0)) by lia. cbn [orb].
    rewrite H2, Nat2Z.id, Nat.min_comm, <- take_take, H3. done.
  - intros ->%clear_sector. by vm_compute.
Qed.

End Laws.

(** A disk whose sectors are a function. *)
Definition ram_disk : Type := Z -> list Z.

#[export] Instance ram_record_disk : RecordDisk ram_disk := {
  disk_read l d := (Some (take 512 (d l ++ replicate 512 0)), d);
  disk_write l x d := (true, fun k => if k =? l then x else d k);
  disk_sync d := (true, d); disk_mounted _ := true;
  disk_store _ _ d := (true, d); disk_remove _ d := (true, d)
}.

Definition ram_sector (d : ram_disk) (l : Z) : list Z := take 512 (d l ++ replicate 512 0).

#[export] Instance ram_record_laws : RecordDiskLaws ram_disk ram_sector.
Proof.
  split; cbn; try (by intros; simplify_eq).
  intros l x d d' Hx [= <-]. unfold ram_sector. rewrite Z.eqb_refl. by apply take_app_length'.
Qed.

Lemma panic_record_survives_witness :
  exists t, pstore_present t = true /\
    pstore_read 64 (t : pstore ram_disk) = Some (text "OS64 panic: PAGE_FAULT" ++ [10] ++ text "heap ready").
Proof.
  pose (s := PStore [] false (fun _ => []) : pstore ram_disk).
  destruct (pstore_write_panic (text "PAGE_FAULT") (text "heap ready") s) as [[ok s']| |] eqn:Ew; [|discriminate..].
  assert (ok = true) as -> by (injection Ew; congruence).
  destruct (panic_record_survives ram_sector (text "PAGE_FAULT") (text "heap ready") s s' [] false 64)
    as (d & t & _ & _ & Hw & _); [apply text_u8|apply text_u8|lia|injection Ew as <-; discriminate|].
  exists t. exact (Hw Ew).
Defined.
