(* ===== verification/Bootopts.v ===== *)
(** * Boot options (src/kernel/core/bootopts.c)

    The command line and the initial ram disk are found in the Multiboot2
    information, and the boot mode in the words of the command line.  Pointers
    into the boot information are addresses; 0 is the null pointer. *)

From stdpp Require Import base numbers list strings.
From Stdlib Require Import ZArith Lia.
From S2P Require Import Prelude Multiboot.

(** ** The command line *)

Fixpoint skip_blanks (l : list Z) : list Z :=
  match l with c :: l' => if c =? 32 then skip_blanks l' else l | [] => [] end.

Fixpoint skip_word (l : list Z) : list Z :=
  match l with c :: l' => if c =? 32 then l else skip_word l' | [] => [] end.

(** [while (s[j] && line[i + j] == s[j]) j++;] and the test behind it: the
    whole of [s] is there, followed by a blank or the end. *)
Fixpoint word_is (s l : list Z) : bool :=
  match s, l with
  | [], [] => true
  | [], c :: _ => c =? 32
  | x :: s, c :: l => (c =? x) && word_is s l
  | _ :: _, [] => false
  end.

(** Every turn of the loop passes at least one character. *)
Fixpoint token_loop (fuel : nat) (s l : list Z) : bool :=
  match fuel, l with
  | S fuel, _ :: _ =>
    let l := skip_blanks l in
    if word_is s l then true else token_loop fuel s (skip_word l)
  | _, _ => false
  end.

Definition token (line s : list Z) : bool := token_loop (length line) s line.

Definition has (line : list Z) (s : string) : bool := token line (text s).

Definition bootopts_recovery (line : list Z) : bool := has line "bootmode=recovery" || has line "mode=recovery" || has line "single".
Definition bootopts_debug (line : list Z) : bool := has line "bootmode=debug" || has line "mode=debug" || has line "loglevel=debug".
Definition bootopts_cli (line : list Z) : bool := has line "bootmode=cli" || has line "mode=cli".
Definition bootopts_desktop (line : list Z) : bool := has line "bootmode=desktop" || has line "mode=desktop".
Definition bootopts_serial (line : list Z) : bool := has line "console=serial".

Definition bootopts_mode (line : list Z) : string :=
  if has line "bootmode=recovery" || has line "mode=recovery" || has line "single" then "Recovery"
  else if has line "bootmode=debug" || has line "mode=debug" then "Debug"
  else if has line "bootmode=cli" || has line "mode=cli" then "CLI"
  else if has line "bootmode=desktop" || has line "mode=desktop" then "Desktop"
  else "Normal".

(** ** The boot information *)

Record bootopts := Bootopts { line_at : Z; initrd_start : Z; initrd_end : Z }.

(** The effect of one tag of this type and size at [a]. *)
Definition boot_tag (m : memory) (a type size : Z) (b : bootopts) : bootopts :=
  if (type =? 1) && (8 <? size) then Bootopts (a + 8) (initrd_start b) (initrd_end b)
  else if (type =? 3) && (16 <=? size) && (initrd_start b =? 0)
  then Bootopts (line_at b) (rd32 m (a + 8)) (rd32 m (a + 12))
  else b.

Fixpoint boot_loop (fuel : nat) (m : memory) (p total off : Z) (b : bootopts) : outcome bootopts :=
  match fuel with
  | O => OutOfFuel
  | S fuel =>
    if negb (u32 (off + 8) <=? total) then Ok b else
    let type := rd32 m (p + off) in
    let size := rd32 m (p + off + 4) in
    let b := boot_tag m (p + off) type size b in
    if size <? 8 then Ok b
    else boot_loop fuel m p total (u32 (off + Z.land (u32 (size + 7)) (Z.lnot 7))) b
  end.

Definition bootopts_init (fuel : nat) (m : memory) (address : Z) : outcome bootopts :=
  if address =? 0 then Ok (Bootopts 0 0 0)
  else boot_loop fuel m address (rd32 m address) 8 (Bootopts 0 0 0).

(** The text [line] points to: the empty one unless a tag set it. *)
Fixpoint string_at (fuel : nat) (m : memory) (a : Z) : list Z :=
  match fuel with
  | O => []
  | S fuel => if m a =? 0 then [] else m a :: string_at fuel m (a + 1)
  end.

Definition bootopts_command_line (fuel : nat) (m : memory) (b : bootopts) : list Z :=
  if line_at b =? 0 then [] else string_at fuel m (line_at b).

(** ** Words *)

(** The words of a line: the longest runs without blanks. *)
Fixpoint words (l : list Z) : list (list Z) :=
  match l with
  | [] => []
  | c :: l =>
    if c =? 32 then words l
    else match l with
         | [] => [[c]]
         | d :: _ => if d =? 32 then [c] :: words l
                     else match words l with w :: ws => (c :: w) :: ws | [] => [[c]] end
         end
  end.

Definition is_word (s : list Z) : Prop := s <> [] /\ Forall (fun c => c <> 32) s.

Lemma skip_blanks_words (l : list Z) : words (skip_blanks l) = words l.
Proof.
  induction l as [|c l IH]; [done|]. cbn [skip_blanks]. destruct (Z.eqb_spec c 32) as [->|Hc]; [by rewrite IH|done].
Qed.

Lemma skip_blanks_head (l : list Z) : match skip_blanks l with c :: _ => c <> 32 | [] => True end.
Proof. induction l as [|c l IH]; cbn; [done|]. by destruct (Z.eqb_spec c 32). Qed.

(** A line that starts with a word. *)
Lemma words_first (w l : list Z) :
  is_word w -> match l with c :: _ => c = 32 | [] => True end -> words (w ++ l) = w :: words l.
Proof.
  intros [Hne Hw] Hl. induction Hw as [|c w Hc Hw IH]; [done|]. cbn [app words].
  rewrite (proj2 (Z.eqb_neq c 32)) by done. destruct w as [|d w].
  - destruct l as [|d l]; [done|]. cbn [app]. subst d. by rewrite Z.eqb_refl.
  - cbn [app] in *. apply Forall_cons in Hw as [Hd Hw]. rewrite (proj2 (Z.eqb_neq d 32)) by done.
    by rewrite IH.
Qed.

Lemma split_word (l : list Z) :
  match l with c :: _ => c <> 32 | [] => False end ->
  exists w, is_word w /\ l = w ++ skip_word l /\ match skip_word l with c :: _ => c = 32 | [] => True end.
Proof.
  induction l as [|c l IH]; [done|]. intros Hc. cbn [skip_word]. rewrite (proj2 (Z.eqb_neq c 32)) by done.
  destruct l as [|d l].
  - exists [c]. split; [|done]. split; [done|]. by repeat constructor.
  - destruct (decide (d = 32)) as [->|Hd].
    + exists [c]. split; [|done]. split; [done|]. by repeat constructor.
    + destruct (IH Hd) as (w & [Hne Hw] & E & H). exists (c :: w). split; [split; [done|by constructor]|].
      split; [|done]. cbn [app]. by rewrite <- E.
Qed.

Lemma word_is_spec (s w l : list Z) :
  is_word w -> is_word s -> match l with c :: _ => c = 32 | [] => True end ->
  word_is s (w ++ l) = true <-> s = w.
Proof.
  intros [_ Hw] [_ Hs] Hl. revert s Hs. induction Hw as [|c w Hc Hw IH]; intros s Hs.
  - cbn [app]. destruct s as [|x s]; [split; [done|]|].
    + destruct l as [|c l]; [done|]. subst. by cbn.
    + split; [|done]. destruct l as [|c l]; [done|]. subst. cbn [word_is]. apply Forall_cons in Hs as [Hx _].
      rewrite (proj2 (Z.eqb_neq 32 x)) by done. done.
  - destruct s as [|x s]; cbn [app word_is].
    + rewrite Z.eqb_eq. naive_solver.
    + apply Forall_cons in Hs as [Hx Hs]. rewrite andb_true_iff, Z.eqb_eq, (IH s Hs). naive_solver.
Qed.

Lemma length_skip_blanks (l : list Z) : (length (skip_blanks l) <= length l)%nat.
Proof. induction l as [|c l IH]; cbn; [lia|]. destruct (c =? 32); cbn; lia. Qed.

Lemma token_loop_words (fuel : nat) (s l : list Z) :
  is_word s -> (length l <= fuel)%nat -> token_loop fuel s l = true <-> s ∈ words l.
Proof.
  intros Hs. revert l. induction fuel as [|fuel IH]; intros l Hf.
  { destruct l; [|cbn [length] in Hf; lia]. cbn. split; [done|]. by intros ?%elem_of_nil. }
  destruct l as [|c l0] eqn:El; [cbn; split; [done|by intros ?%elem_of_nil]|]. rewrite <- El in *.
  assert (token_loop (S fuel) s l = if word_is s (skip_blanks l) then true else token_loop fuel s (skip_word (skip_blanks l))) as ->
    by (by rewrite El).
  rewrite <- (skip_blanks_words l). pose proof (skip_blanks_head l) as Hh. pose proof (length_skip_blanks l) as Hlen.
  destruct (skip_blanks l) as [|d r] eqn:Er.
  { cbn [skip_word words]. destruct Hs as [Hne _]. destruct s; [done|]. cbn. rewrite IH by (cbn [length]; lia). done. }
  destruct (split_word (d :: r) Hh) as (w & Hw & E & Ht).
  rewrite E at 1 2. rewrite words_first, elem_of_cons by done.
  destruct (word_is s (w ++ skip_word (d :: r))) eqn:Ew.
  - apply word_is_spec in Ew; [|done..]. tauto.
  - rewrite IH.
    + assert (s <> w) by (intros ->; by rewrite (proj2 (word_is_spec w w _ Hw Hw Ht)) in Ew). tauto.
    + assert (length w <> 0%nat) by (destruct Hw as [Hne _]; by destruct w).
      pose proof (f_equal length E) as El'. rewrite length_app in El'. lia.
Qed.

(** ** Reading a well-formed boot information *)

(** The effect of the tags from address [a] on. *)
Fixpoint boot_tags (a : Z) (ts : list mb_tag) (b : bootopts) : bootopts :=
  match ts with
  | [] => b
  | t :: ts =>
    let b := match t with
             | TModule s e _ => if initrd_start b =? 0 then Bootopts (line_at b) s e else b
             | TOther 1 (_ :: _) => Bootopts (a + 8) (initrd_start b) (initrd_end b)
             | _ => b
             end in
    boot_tags (a + blen (enc_tag t)) ts b
  end.

Lemma boot_tag_spec (m : memory) (a : Z) (t : mb_tag) (b : bootopts) :
  tag_ok t -> holds m (a + 8) (tag_body t) ->
  boot_tag m a (tag_type t) (tag_size t) b
  = match t with
    | TModule s e _ => if initrd_start b =? 0 then Bootopts (line_at b) s e else b
    | TOther 1 (_ :: _) => Bootopts (a + 8) (initrd_start b) (initrd_end b)
    | _ => b
    end.
Proof.
  intros Hok Hb. unfold boot_tag, tag_size. destruct t as [es v entries|s e name|ty payload].
  - done.
  - cbn [tag_type tag_body] in *. change (3 =? 1) with false. change (3 =? 3) with true.
    cbn [andb]. rewrite !blen_app in *. change (blen (le32 _)) with 4.
    pose proof (blen_nonneg name). change (blen [0]) with 1. change (blen (le32 e)) with 4.
    rewrite (proj2 (Z.leb_le _ _)) by lia.
    apply holds_app in Hb as [H1 Hb]. change (blen (le32 _)) with 4 in Hb. apply holds_app in Hb as [H2 _].
    destruct Hok as (Hs & He & _). replace (a + 12) with (a + 8 + 4) by lia.
    rewrite (rd32_holds _ _ _ H1), (rd32_holds _ _ _ H2) by done. done.
  - cbn [tag_type tag_body] in *. destruct Hok as (Hty & _ & H3). rewrite (proj2 (Z.eqb_neq ty 3)) by done. cbn [andb].
    destruct payload as [|c payload].
    + change (8 + blen []) with 8. rewrite andb_false_r. by destruct ty as [|[]|].
    + unfold blen. cbn [length]. rewrite (proj2 (Z.ltb_lt _ _)) by lia. rewrite andb_true_r.
      destruct (Z.eqb_spec ty 1) as [->|Hne]; [done|]. by destruct ty as [|[]|].
Qed.

Lemma boot_loop_tags (ts : list mb_tag) (fuel : nat) (m : memory) (p off : Z) (b : bootopts) :
  holds m (p + off) (enc_tags ts ++ end_tag) -> Forall tag_ok ts -> 8 <= off ->
  off + blen (enc_tags ts) + 16 < 2 ^ 32 -> (length ts + 2 <= fuel)%nat ->
  boot_loop fuel m p (off + blen (enc_tags ts) + 8) off b = Ok (boot_tags (p + off) ts b).
Proof.
  intros Hh Hok. revert fuel off b Hh. induction Hok as [|t ts Ht Hok IH]; intros fuel off b Hh Hoff Hlt Hf.
  - destruct fuel as [|[|fuel]]; [cbn [length] in Hf; lia..|]. change (blen (enc_tags [])) with 0 in *.
    cbn [app enc_tags map concat] in Hh. apply holds_app in Hh as [H1 H2]. change (blen (le32 0)) with 4 in H2.
    cbn [boot_loop boot_tags]. rewrite (u32_small (off + 8)), (proj2 (Z.leb_le (off + 8) _)) by lia. cbn [negb].
    rewrite (rd32_holds _ _ _ H1), (rd32_holds _ _ _ H2) by (unfold is_u32; lia).
    change (8 <? 8) with false. cbv iota. change (Z.land (u32 (8 + 7)) (Z.lnot 7)) with 8.
    rewrite (u32_small (off + 8)), (u32_small (off + 8 + 8)) by lia.
    rewrite (proj2 (Z.leb_gt (off + 8 + 8) _)) by lia. done.
  - destruct fuel as [|fuel]; [lia|]. rewrite enc_tags_cons in *. pose proof (blen_nonneg (enc_tags ts)).
    pose proof (tag_size_pos t) as Hsz. destruct (enc_tag_length t) as [Hel _].
    assert (tag_size t <= blen (enc_tag t)) by (rewrite Hel; pose proof (Z.mod_pos_bound (- tag_size t) 8); lia).
    unfold enc_tags in Hh. cbn [map concat] in Hh. rewrite <- app_assoc in Hh. fold (enc_tags ts) in Hh.
    destruct (tag_header _ _ _ _ Hh) as (H1 & H2 & H3 & H4); [by apply tag_type_u32|unfold is_u32; lia|].
    cbn [boot_loop]. rewrite u32_small, (proj2 (Z.leb_le _ _)) by lia. cbn [negb].
    rewrite H1, H2, boot_tag_spec by done. rewrite (proj2 (Z.ltb_ge _ _)) by lia.
    rewrite round8, <- Hel, u32_small by lia.
    rewrite <- Z.add_assoc in H4.
    replace (off + (blen (enc_tag t) + blen (enc_tags ts)) + 8) with (off + blen (enc_tag t) + blen (enc_tags ts) + 8) by lia.
    rewrite IH by (done || (cbn [length] in Hf; lia)). cbn [boot_tags]. by rewrite Z.add_assoc.
Qed.

Lemma string_at_holds (m : memory) (a : Z) (s rest : list Z) :
  is_cstr s -> holds m a (s ++ 0 :: rest) -> string_at (S (length s)) m a = s.
Proof.
  intros Hs. revert a. induction Hs as [|c s Hc Hs IH]; intros a Hh.
  - cbn in *. destruct Hh as [-> _]. done.
  - cbn [app holds] in Hh. destruct Hh as [Ha Hh]. cbn [length string_at] in *. rewrite Ha.
    rewrite (proj2 (Z.eqb_neq c 0)) by lia. by rewrite IH.
Qed.

(** Tags that are not command lines leave the line alone, and modules behind the
    first leave the ram disk alone. *)
Definition plain (t : mb_tag) : Prop :=
  match t with TModule s _ _ => s <> 0 | TOther ty _ => ty <> 1 | TMemoryMap _ _ _ => True end.

Fixpoint first_module (ts : list mb_tag) : Z * Z :=
  match ts with [] => (0, 0) | TModule s e _ :: _ => (s, e) | _ :: ts => first_module ts end.

Lemma boot_tags_plain (ts : list mb_tag) (a : Z) (b : bootopts) :
  Forall plain ts -> (initrd_start b = 0 -> initrd_end b = 0) ->
  boot_tags a ts b
  = Bootopts (line_at b) (if initrd_start b =? 0 then fst (first_module ts) else initrd_start b)
             (if initrd_start b =? 0 then snd (first_module ts) else initrd_end b).
Proof.
  intros Hts. revert a b. induction Hts as [|t ts Ht Hts IH]; intros a [l s e] Hb; cbn [initrd_start initrd_end line_at] in *.
  - cbn. destruct (Z.eqb_spec s 0) as [->|]; [by rewrite Hb|done].
  - cbn [boot_tags]. destruct t as [es v entries|s' e' name|ty payload]; cbn [plain first_module] in *.
    + by rewrite IH.
    + cbn [initrd_start]. destruct (Z.eqb_spec s 0) as [->|Hs].
      * rewrite IH by (cbn; lia). cbn [initrd_start initrd_end line_at fst snd]. by rewrite (proj2 (Z.eqb_neq s' 0)).
      * rewrite IH by done. cbn [initrd_start initrd_end line_at]. by rewrite (proj2 (Z.eqb_neq s 0)).
    + destruct ty as [|[q|q|]|q]; try done; by rewrite IH.
Qed.

Lemma boot_tags_app (ts ts' : list mb_tag) (a : Z) (b : bootopts) :
  boot_tags a (ts ++ ts') b = boot_tags (a + blen (enc_tags ts)) ts' (boot_tags a ts b).
Proof.
  revert a b. induction ts as [|t ts IH]; intros a b.
  - cbn [app boot_tags]. change (blen (enc_tags [])) with 0. by rewrite Z.add_0_r.
  - cbn [app boot_tags]. rewrite IH, enc_tags_cons. by rewrite Z.add_assoc.
Qed.

Lemma first_module_app (ts ts' : list mb_tag) :
  Forall plain ts -> first_module (ts ++ ts') = if fst (first_module ts) =? 0 then first_module ts' else first_module ts.
Proof.
  induction 1 as [|t ts Ht Hts IH]; [done|]. destruct t; cbn [app first_module plain] in *; try done.
  cbn [fst]. by rewrite (proj2 (Z.eqb_neq _ 0)).
Qed.

Lemma first_module_zero (ts : list mb_tag) : Forall plain ts -> fst (first_module ts) = 0 -> first_module ts = (0, 0).
Proof. induction 1 as [|t ts Ht Hts IH]; [done|]. destruct t; cbn [first_module plain] in *; try done. Qed.

Lemma enc_tags_app (ts ts' : list mb_tag) : enc_tags (ts ++ ts') = enc_tags ts ++ enc_tags ts'.
Proof. unfold enc_tags. by rewrite map_app, concat_app. Qed.

(** The state after tags with one command line. *)
Lemma boot_tags_line (a : Z) (ts1 ts2 : list mb_tag) (cmd : list Z) :
  Forall plain ts1 -> Forall plain ts2 ->
  boot_tags a (ts1 ++ TOther 1 (cmd ++ [0]) :: ts2) (Bootopts 0 0 0)
  = Bootopts (a + blen (enc_tags ts1) + 8) (fst (first_module (ts1 ++ ts2))) (snd (first_module (ts1 ++ ts2))).
Proof.
  intros Hp1 Hp2. rewrite boot_tags_app, (boot_tags_plain ts1) by done. cbn [line_at initrd_start initrd_end].
  change (0 =? 0) with true. cbv iota. cbn [boot_tags].
  destruct (cmd ++ [0]) as [|c0 q] eqn:Ec; [by destruct cmd|]. rewrite <- Ec. cbn [initrd_start initrd_end].
  rewrite boot_tags_plain; cbn [line_at initrd_start initrd_end]; [|done|].
  - rewrite first_module_app by done. by destruct (fst (first_module ts1) =? 0).
  - intros H. by rewrite (first_module_zero ts1).
Qed.

(** Where the command line lies in memory. *)
Lemma command_line_at (m : memory) (a : Z) (ts1 ts2 : list mb_tag) (cmd : list Z) :
  let ts := ts1 ++ TOther 1 (cmd ++ [0]) :: ts2 in
  holds m a (enc_tags ts ++ end_tag) -> blen (enc_tags ts) < 2 ^ 32 -> is_cstr cmd ->
  string_at (S (length cmd)) m (a + blen (enc_tags ts1) + 8) = cmd.
Proof.
  intros ts Hh Hlt Hcmd. unfold ts in *. rewrite enc_tags_app, <- app_assoc in Hh.
  rewrite enc_tags_app, blen_app, enc_tags_cons in Hlt. apply holds_app in Hh as [_ Hh].
  change (enc_tags (TOther 1 (cmd ++ [0]) :: ts2)) with (enc_tag (TOther 1 (cmd ++ [0])) ++ enc_tags ts2) in Hh.
  rewrite <- app_assoc in Hh. pose proof (blen_nonneg (enc_tags ts1)). pose proof (blen_nonneg (enc_tags ts2)).
  destruct (enc_tag_length (TOther 1 (cmd ++ [0]))) as [Hel _].
  pose proof (tag_size_pos (TOther 1 (cmd ++ [0]))). pose proof (Z.mod_pos_bound (- tag_size (TOther 1 (cmd ++ [0]))) 8).
  destruct (tag_header _ _ _ _ Hh) as (_ & _ & H3 & _); [unfold is_u32; cbn; lia|unfold is_u32; lia|].
  by apply (string_at_holds m _ cmd []).
Qed.

Lemma text_is_word (t : string) : bool_decide (text t <> [] /\ Forall (fun c => c <> 32) (text t)) = true -> is_word (text t).
Proof. apply bool_decide_eq_true. Qed.

(** One of these words is on the line. *)
Definition says (cmd : list Z) (l : list string) : Prop := exists t, In t l /\ text t ∈ words cmd.

Definition recovery_words : list string := ["bootmode=recovery"; "mode=recovery"; "single"]%string.
Definition debug_words : list string := ["bootmode=debug"; "mode=debug"]%string.
Definition cli_words : list string := ["bootmode=cli"; "mode=cli"]%string.
Definition desktop_words : list string := ["bootmode=desktop"; "mode=desktop"]%string.

(** The first group of words that is on the line names the mode. *)
Definition mode_says (cmd : list Z) (mode : string) : Prop :=
  (says cmd recovery_words /\ mode = "Recovery"%string) \/
  (~ says cmd recovery_words /\ says cmd debug_words /\ mode = "Debug"%string) \/
  (~ says cmd recovery_words /\ ~ says cmd debug_words /\ says cmd cli_words /\ mode = "CLI"%string) \/
  (~ says cmd recovery_words /\ ~ says cmd debug_words /\ ~ says cmd cli_words /\ says cmd desktop_words /\ mode = "Desktop"%string) \/
  (~ says cmd recovery_words /\ ~ says cmd debug_words /\ ~ says cmd cli_words /\ ~ says cmd desktop_words /\ mode = "Normal"%string).

Lemma token_words (cmd s : list Z) : is_word s -> token cmd s = true <-> s ∈ words cmd.
Proof. intros. by apply token_loop_words. Qed.

Lemma has_says (cmd : list Z) (l : list string) :
  forallb (fun t => bool_decide (text t <> [] /\ Forall (fun c => c <> 32) (text t))) l = true ->
  existsb (has cmd) l = true <-> says cmd l.
Proof.
  intros Hl. rewrite existsb_exists. rewrite forallb_forall in Hl. unfold says, has.
  split; intros (t & Ht & H); exists t; (split; [done|]); apply token_words; try done; by apply text_is_word, Hl.
Qed.

Lemma mode_correct (cmd : list Z) : mode_says cmd (bootopts_mode cmd).
Proof.
  unfold mode_says, bootopts_mode.
  pose proof (has_says cmd recovery_words ltac:(by vm_compute)) as H1. pose proof (has_says cmd debug_words ltac:(by vm_compute)) as H2.
  pose proof (has_says cmd cli_words ltac:(by vm_compute)) as H3. pose proof (has_says cmd desktop_words ltac:(by vm_compute)) as H4.
  cbn [existsb recovery_words debug_words cli_words desktop_words] in H1, H2, H3, H4. rewrite !orb_false_r in H1, H2, H3, H4.
  rewrite !orb_assoc in H1. destruct (has cmd "bootmode=recovery" || has cmd "mode=recovery" || has cmd "single").
  { left. split; [by apply H1|done]. }
  assert (~ says cmd recovery_words) as N1 by (intros H%H1; discriminate). right.
  destruct (has cmd "bootmode=debug" || has cmd "mode=debug"); [left; split_and!; [done|by apply H2|done]|].
  assert (~ says cmd debug_words) as N2 by (intros H%H2; discriminate). right.
  destruct (has cmd "bootmode=cli" || has cmd "mode=cli"); [left; split_and!; [done..|by apply H3|done]|].
  assert (~ says cmd cli_words) as N3 by (intros H%H3; discriminate). right.
  destruct (has cmd "bootmode=desktop" || has cmd "mode=desktop"); [left; split_and!; [done..|by apply H4|done]|].
  assert (~ says cmd desktop_words) as N4 by (intros H%H4; discriminate). right. done.
Qed.

(** The questions the kernel asks. *)
Lemma options_correct (cmd : list Z) :
  (bootopts_recovery cmd = true <-> says cmd recovery_words) /\
  (bootopts_debug cmd = true <-> says cmd (debug_words ++ ["loglevel=debug"]%string)) /\
  (bootopts_cli cmd = true <-> says cmd cli_words) /\
  (bootopts_desktop cmd = true <-> says cmd desktop_words) /\
  (bootopts_serial cmd = true <-> says cmd ["console=serial"]%string).
Proof.
  unfold bootopts_recovery, bootopts_debug, bootopts_cli, bootopts_desktop, bootopts_serial.
  rewrite <- !has_says by (by vm_compute).
  cbn [existsb app recovery_words debug_words cli_words desktop_words]. by rewrite !orb_false_r, !orb_assoc.
Qed.

(** C5. Boot options are read as given: for every well-formed boot information
    with one command line (whatever other tags it has, a frame buffer among
    them; no module at address 0), bootopts_init returns, finds that command line
    and the first module as the initial ram disk.  An option counts exactly when
    it is one of the blank-separated words of the line; the mode is the first of
    recovery, debug, CLI and desktop that one of its words asks for, normal when
    none does, and the questions for each mode and for the serial console are
    answered by those words. *)
Theorem boot_options_correct (m : memory) (base : Z) (ts1 ts2 : list mb_tag) (cmd : list Z) :
  let ts := ts1 ++ TOther 1 (cmd ++ [0]) :: ts2 in
  base <> 0 -> 0 <= base -> holds m base (enc_info ts) -> 24 + blen (enc_tags ts) < 2 ^ 32 ->
  Forall tag_ok (ts1 ++ ts2) -> Forall plain (ts1 ++ ts2) -> is_cstr cmd ->
  exists b,
    bootopts_init (length ts + 2) m base = Ok b /\
    bootopts_command_line (S (length cmd)) m b = cmd /\
    (initrd_start b, initrd_end b) = first_module (ts1 ++ ts2) /\
    (forall s, is_word s -> token cmd s = true <-> s ∈ words cmd) /\
    mode_says cmd (bootopts_mode cmd) /\
    (bootopts_recovery cmd = true <-> says cmd recovery_words) /\
    (bootopts_debug cmd = true <-> says cmd (debug_words ++ ["loglevel=debug"]%string)) /\
    (bootopts_cli cmd = true <-> says cmd cli_words) /\
    (bootopts_desktop cmd = true <-> says cmd desktop_words) /\
    (bootopts_serial cmd = true <-> says cmd ["console=serial"]%string).
Proof.
  intros ts Hb0 Hb Hh Hlt Hok Hpl Hcmd. apply Forall_app in Hok as [Hok1 Hok2]. apply Forall_app in Hpl as [Hp1 Hp2].
  destruct (enc_info_total m base ts Hh ltac:(lia)) as [Htot Htags].
  assert (Forall tag_ok ts) as Hokt by (apply Forall_app; split; [done|]; constructor; [cbn; lia|done]).
  exists (boot_tags (base + 8) ts (Bootopts 0 0 0)).
  pose proof (boot_tags_line (base + 8) ts1 ts2 cmd Hp1 Hp2) as Eb. fold ts in Eb.
  split; [|split; [|split; [|split; [apply token_words|split; [apply mode_correct|apply options_correct]]]]].
  - unfold bootopts_init. rewrite (proj2 (Z.eqb_neq base 0)), Htot by done.
    replace (16 + blen (enc_tags ts)) with (8 + blen (enc_tags ts) + 8) by lia. apply boot_loop_tags; (done || lia).
  - rewrite Eb. unfold bootopts_command_line. cbn [line_at]. pose proof (blen_nonneg (enc_tags ts1)).
    rewrite (proj2 (Z.eqb_neq _ 0)) by lia. apply (command_line_at m (base + 8) ts1 ts2 cmd); [done|fold ts; lia|done].
  - rewrite Eb. cbn. by destruct (first_module (ts1 ++ ts2)).
Qed.

Lemma boot_options_correct_witness :
  let ts := [TModule 0x200000 0x300000 (text "initrd")] ++ TOther 1 (text "quiet mode=recovery" ++ [0]) :: [TOther 8 (replicate 30 0)] in
  let m := fun a => nth (Z.to_nat (a - 4096)) (enc_info ts) 0 in
  exists b, bootopts_init (length ts + 2) m 4096 = Ok b /\ initrd_start b = 0x200000 /\
            bootopts_mode (bootopts_command_line 20 m b) = "Recovery"%string.
Proof.
  intros ts m.
  destruct (boot_options_correct m 4096 [TModule 0x200000 0x300000 (text "initrd")] [TOther 8 (replicate 30 0)] (text "quiet mode=recovery"))
    as (b & H1 & H2 & H3 & _).
  - lia.
  - lia.
  - vm_compute. repeat split.
  - vm_compute. reflexivity.
  - repeat constructor; vm_compute; congruence.
  - repeat constructor; vm_compute; congruence.
  - apply text_is_cstr_dec. vm_compute. reflexivity.
  - exists b. split; [exact H1|]. split; [injection H3 as H3 _; exact H3|].
    change 20%nat with (S (length (text "quiet mode=recovery"))). rewrite H2. vm_compute. reflexivity.
Defined.
