(* ===== verification/Tty.v ===== *)
(** * Desktop terminals (src/kernel/core/tty.c)

    A terminal window keeps an input line with a cursor and the last lines of its
    output, in buffers of [TTY_LINE_LENGTH] characters.  A store outside a buffer
    is [Undefined].  The specification is a text with a cursor, and the list of all
    the lines ever written. *)

From stdpp Require Import base numbers list strings.
From Stdlib Require Import ZArith Lia.
From S2P Require Import Prelude Buffer.

Definition TTY_LINE_LENGTH : nat := 80.
Definition TTY_SCROLLBACK : nat := 64.

Record tty_t := Tty { input : list Z; tlength : nat; cursor : nat; lines : list (list Z); line_count : nat }.

(** ** Operations *)

(** [copy]: the string, cut to the buffer, and its terminator. *)
Definition copy (d s : list Z) (cap : nat) : list Z :=
  let s := take (cap - 1) s in s ++ 0 :: drop (S (length s)) d.

Definition tty_init (t : tty_t) : tty_t := Tty (<[0%nat := 0]> (input t)) 0 0 (lines t) 0.
Definition tty_clear (t : tty_t) : tty_t := Tty (input t) (tlength t) (cursor t) (lines t) 0.

(** [copy(lines[i - 1], lines[i], TTY_LINE_LENGTH)] for each [i]. *)
Definition scroll_lines (ls : list (list Z)) : list (list Z) :=
  fold_left (fun ls i => <[(i - 1)%nat := copy (nth (i - 1) ls []) (cstring (nth i ls [])) TTY_LINE_LENGTH]> ls)
            (seq 1 (TTY_SCROLLBACK - 1)) ls.

Definition tty_write_line (s : list Z) (t : tty_t) : outcome tty_t :=
  let '(ls, n) := if Nat.eqb (line_count t) TTY_SCROLLBACK then (scroll_lines (lines t), (line_count t - 1)%nat)
                  else (lines t, line_count t) in
  match ls !! n with
  | Some d => Ok (Tty (input t) (tlength t) (cursor t) (<[n := copy d s TTY_LINE_LENGTH]> ls) (n + 1))
  | None => Undefined
  end.

(** Stores in the last line, which has [n] characters. *)
Definition in_last_line (f : nat -> list Z -> outcome (list Z)) (t : tty_t) : outcome tty_t :=
  let i := (line_count t - 1)%nat in
  match lines t !! i with
  | Some l => do l <- f (length (take (TTY_LINE_LENGTH - 1) (cstring l))) l;
              Ok (Tty (input t) (tlength t) (cursor t) (<[i := l]> (lines t)) (line_count t))
  | None => Undefined
  end.

Definition last_length (t : tty_t) : nat :=
  length (take (TTY_LINE_LENGTH - 1) (cstring (nth (line_count t - 1) (lines t) []))).

Definition tty_write_char (c : Z) (t : tty_t) : outcome tty_t :=
  do t <- (if Nat.eqb (line_count t) 0 then tty_write_line [] t else Ok t);
  if c =? 13 then Ok t else
  if c =? 10 then tty_write_line [] t else
  if c =? 8 then in_last_line (fun n l => if Nat.eqb n 0 then Ok l else wr (n - 1) 0 l) t else
  do t <- (if Nat.leb TTY_LINE_LENGTH (last_length t + 1) then tty_write_line [] t else Ok t);
  in_last_line (fun n l => do l <- wr n c l; wr (n + 1) 0 l) t.

(** A finished command is cut to the caller's buffer of [cap] characters. *)
Definition tty_input_key (key : Z) (cap : nat) (t : tty_t) : outcome (option (list Z) * tty_t) :=
  if key =? 10 then
    do b <- wr 0 0 (input t);
    Ok (Some (take (cap - 1) (cstring (input t))), Tty b 0 0 (lines t) (line_count t))
  else if ((key =? 8) || (key =? 127)) && Nat.ltb 0 (cursor t) then
    let c := (cursor t - 1)%nat in
    do b <- shift_left (tlength t - c) c (input t);
    Ok (None, Tty b (tlength t - 1) c (lines t) (line_count t))
  else if (key =? 0x13) && Nat.ltb 0 (cursor t) then Ok (None, Tty (input t) (tlength t) (cursor t - 1) (lines t) (line_count t))
  else if (key =? 0x14) && Nat.ltb (cursor t) (tlength t) then Ok (None, Tty (input t) (tlength t) (cursor t + 1) (lines t) (line_count t))
  else if (32 <=? key) && (key <? 127) && Nat.ltb (tlength t + 1) TTY_LINE_LENGTH then
    do b <- shift_right (tlength t + 1 - cursor t) (cursor t) (input t);
    do b <- wr (cursor t) key b;
    Ok (None, Tty b (tlength t + 1) (cursor t + 1) (lines t) (line_count t))
  else Ok (None, t).

(** ** Specification *)

(** A text with a cursor, and all the lines of output since the last clear. *)
Record term := Term { before_cursor : list Z; after_cursor : list Z; output : list (list Z) }.

Definition line_room : nat := TTY_LINE_LENGTH - 1.

Definition spec_key (key : Z) (cap : nat) (x : term) : option (list Z) * term :=
  let '(Term b a o) := x in
  if key =? 10 then (Some (take (cap - 1) (b ++ a)), Term [] [] o)
  else if ((key =? 8) || (key =? 127)) && negb (Nat.eqb (length b) 0) then (None, Term (removelast b) a o)
  else if (key =? 0x13) && negb (Nat.eqb (length b) 0) then (None, Term (removelast b) (List.last b 0 :: a) o)
  else match a with
       | c :: a' =>
         if key =? 0x14 then (None, Term (b ++ [c]) a' o)
         else if (32 <=? key) && (key <? 127) && Nat.ltb (length b + length a) line_room
              then (None, Term (b ++ [key]) a o) else (None, x)
       | [] => if (32 <=? key) && (key <? 127) && Nat.ltb (length b + length a) line_room
               then (None, Term (b ++ [key]) a o) else (None, x)
       end.

(** The output: the last line of [o] is being written. *)
Definition spec_char (c : Z) (o : list (list Z)) : list (list Z) :=
  let o := match o with [] => [[]] | _ => o end in
  let front := removelast o in
  let l := List.last o [] in
  if c =? 13 then o
  else if c =? 10 then o ++ [[]]
  else if c =? 8 then front ++ [removelast l]
  else if Nat.leb line_room (length l) then o ++ [[c]] else front ++ [l ++ [c]].

(** The terminal holds the text and the last lines of the output. *)
Record represents (t : tty_t) (x : term) : Prop := {
  rep_input : exists rest, input t = before_cursor x ++ after_cursor x ++ 0 :: rest /\ length (input t) = TTY_LINE_LENGTH;
  rep_text : is_cstr (before_cursor x ++ after_cursor x);
  rep_length : tlength t = (length (before_cursor x) + length (after_cursor x))%nat;
  rep_cursor : cursor t = length (before_cursor x);
  rep_rows : length (lines t) = TTY_SCROLLBACK /\ Forall (fun l => length l = TTY_LINE_LENGTH) (lines t);
  rep_out : Forall (fun l => is_cstr l /\ (length l <= line_room)%nat) (output x);
  rep_count : line_count t = Nat.min TTY_SCROLLBACK (length (output x));
  rep_lines : take (line_count t) (map cstring (lines t)) = drop (length (output x) - line_count t) (output x)
}.

(** ** The input line *)

Lemma cstring_text (b a rest : list Z) : is_cstr (b ++ a) -> cstring (b ++ a ++ 0 :: rest) = b ++ a.
Proof. intros H. rewrite app_assoc. by apply cstring_app_nul. Qed.

Lemma snoc_inv (b : list Z) : b <> [] -> b = removelast b ++ [List.last b 0].
Proof. apply app_removelast_last. Qed.

(** A state with another input line and the same output. *)
Lemma represents_input (t : tty_t) (b a o : list _) (buf rest : list Z) (b' a' : list Z) :
  represents t (Term b a o) -> buf = b' ++ a' ++ 0 :: rest -> length buf = TTY_LINE_LENGTH -> is_cstr (b' ++ a') ->
  represents (Tty buf (length b' + length a') (length b') (lines t) (line_count t)) (Term b' a' o).
Proof. intros [H1 H2 H3 H4 H5 H6 H7 H8] Hb Hl Hc. split; cbn in *; eauto. Qed.

Lemma is_cstr_app (a b : list Z) : is_cstr (a ++ b) <-> is_cstr a /\ is_cstr b.
Proof. apply Forall_app. Qed.

(** What [represents] says of the input line. *)
Lemma input_shape (t : tty_t) (b a : list Z) (o : list (list Z)) :
  represents t (Term b a o) ->
  exists rest, input t = b ++ a ++ 0 :: rest /\ (length b + length a + S (length rest) = TTY_LINE_LENGTH)%nat /\
    is_cstr b /\ is_cstr a /\ tlength t = (length b + length a)%nat /\ cursor t = length b.
Proof.
  intros [(rest & Hin & Hlen) Hc Hl Hcur _ _ _ _]. cbn [before_cursor after_cursor] in *.
  apply is_cstr_app in Hc as [Hcb Hca]. exists rest. split_and!; try done.
  rewrite Hin, !length_app in Hlen. cbn [length] in Hlen. lia.
Qed.

Lemma enter_spec (cap : nat) (t : tty_t) (b a : list Z) (o : list (list Z)) :
  represents t (Term b a o) ->
  exists t', tty_input_key 10 cap t = Ok (Some (take (cap - 1) (b ++ a)), t') /\ represents t' (Term [] [] o).
Proof.
  intros Hr. destruct (input_shape _ _ _ _ Hr) as (rest & Hin & Hlen & Hcb & Hca & _ & _).
  unfold tty_input_key. cbn [Z.eqb Pos.eqb]. destruct (input t) as [|c buf] eqn:Ei; [by destruct b, a|].
  unfold wr. cbn [length Nat.ltb Nat.leb obind insert list_insert].
  assert (cstring (c :: buf) = b ++ a) as -> by (rewrite Hin; apply cstring_text; by apply is_cstr_app).
  eexists. split; [done|]. apply (represents_input t b a o (0 :: buf) buf [] []); [done|done| |by constructor].
  pose proof (f_equal length Hin) as Hl. rewrite !length_app in Hl. cbn [length] in *. lia.
Qed.

(** The text before the cursor without its last character. *)
Lemma split_last (b : list Z) : Nat.eqb (length b) 0 = false ->
  exists b' c, b = b' ++ [c] /\ removelast b = b' /\ List.last b 0 = c.
Proof.
  intros Hb. exists (removelast b), (List.last b 0). split; [|done]. apply snoc_inv. by destruct b.
Qed.

Lemma backspace_spec (cap : nat) (key : Z) (t : tty_t) (b a : list Z) (c : Z) (o : list (list Z)) :
  (key =? 8) || (key =? 127) = true -> represents t (Term (b ++ [c]) a o) ->
  exists t', tty_input_key key cap t = Ok (None, t') /\ represents t' (Term b a o).
Proof.
  intros Hk Hr. destruct (input_shape _ _ _ _ Hr) as (rest & Hin & Hlen & Hcb & Hca & Hl & Hcur).
  rewrite length_app in *. cbn [length] in *. unfold tty_input_key. rewrite Hl, Hcur, Hk.
  assert (key =? 10 = false) as -> by (destruct (key =? 10) eqn:E; [|done]; breflect; by subst).
  rewrite (proj2 (Nat.ltb_lt 0 (length b + 1))) by lia. cbn [andb].
  replace (length b + 1 - 1)%nat with (length b) by lia.
  replace (length b + 1 + length a - length b)%nat with (S (length a)) by lia.
  rewrite Hin, <- app_assoc. cbn [app]. rewrite remove_char. cbn [obind]. eexists. split; [done|].
  replace (length b + 1 + length a - 1)%nat with (length b + length a)%nat by lia.
  apply is_cstr_app in Hcb as [Hcb _].
  apply (represents_input t (b ++ [c]) a o _ (0 :: rest) b a); [done|done| |by apply is_cstr_app].
  rewrite !length_app. cbn [length]. lia.
Qed.

Lemma left_spec (cap : nat) (t : tty_t) (b a : list Z) (c : Z) (o : list (list Z)) :
  represents t (Term (b ++ [c]) a o) ->
  exists t', tty_input_key 0x13 cap t = Ok (None, t') /\ represents t' (Term b (c :: a) o).
Proof.
  intros Hr. destruct (input_shape _ _ _ _ Hr) as (rest & Hin & Hlen & Hcb & Hca & Hl & Hcur).
  rewrite length_app in *. cbn [length] in *. unfold tty_input_key. cbn [Z.eqb Pos.eqb orb andb]. rewrite Hl, Hcur.
  rewrite (proj2 (Nat.ltb_lt 0 (length b + 1))) by lia. eexists. split; [done|].
  replace (length b + 1 - 1)%nat with (length b) by lia.
  replace (length b + 1 + length a)%nat with (length b + length (c :: a))%nat by (cbn [length]; lia).
  apply (represents_input t (b ++ [c]) a o (input t) rest b (c :: a)); [done|by rewrite Hin, <- app_assoc| |].
  - rewrite Hin, !length_app. cbn [length]. lia.
  - apply is_cstr_app in Hcb as [H1 H2]. apply is_cstr_app. split; [done|]. apply (is_cstr_app [c] a). done.
Qed.

Lemma right_spec (cap : nat) (t : tty_t) (b a : list Z) (c : Z) (o : list (list Z)) :
  represents t (Term b (c :: a) o) ->
  exists t', tty_input_key 0x14 cap t = Ok (None, t') /\ represents t' (Term (b ++ [c]) a o).
Proof.
  intros Hr. destruct (input_shape _ _ _ _ Hr) as (rest & Hin & Hlen & Hcb & Hca & Hl & Hcur).
  unfold tty_input_key. cbn [Z.eqb Pos.eqb orb andb]. rewrite Hl, Hcur. cbn [length] in *.
  rewrite (proj2 (Nat.ltb_lt (length b) _)) by lia. eexists. split; [done|].
  replace (length b + 1)%nat with (length (b ++ [c])) by (rewrite length_app; done).
  replace (length b + S (length a))%nat with (length (b ++ [c]) + length a)%nat by (rewrite length_app; cbn [length]; lia).
  apply (represents_input t b (c :: a) o (input t) rest (b ++ [c]) a); [done|by rewrite Hin, <- app_assoc| |].
  - rewrite Hin, !length_app. cbn [length]. lia.
  - apply (is_cstr_app [c] a) in Hca as [H1 H2]. apply is_cstr_app. split; [by apply is_cstr_app|done].
Qed.

(** The keys that are left: printable ones, and the rest, which do nothing. *)
Lemma other_key_spec (key : Z) (cap : nat) (t : tty_t) (b a : list Z) (o : list (list Z)) :
  represents t (Term b a o) -> key <> 10 -> (((key =? 8) || (key =? 127)) && Nat.ltb 0 (cursor t)) = false ->
  ((key =? 0x13) && Nat.ltb 0 (cursor t)) = false -> ((key =? 0x14) && Nat.ltb (cursor t) (tlength t)) = false ->
  exists t', tty_input_key key cap t = Ok (None, t') /\
    represents t' (if (32 <=? key) && (key <? 127) && Nat.ltb (length b + length a) line_room
                   then Term (b ++ [key]) a o else Term b a o).
Proof.
  intros Hr H10 H8 H13 H14. destruct (input_shape _ _ _ _ Hr) as (rest & Hin & Hlen & Hcb & Hca & Hl & Hcur).
  unfold tty_input_key. rewrite (proj2 (Z.eqb_neq key 10)), H8, H13, H14 by done. rewrite Hl, Hcur.
  assert (Nat.ltb (length b + length a + 1) TTY_LINE_LENGTH = Nat.ltb (length b + length a) line_room) as ->.
  { unfold line_room, TTY_LINE_LENGTH. destruct (Nat.ltb_spec (length b + length a + 1) 80), (Nat.ltb_spec (length b + length a) (80 - 1)); lia || done. }
  destruct ((32 <=? key) && (key <? 127) && Nat.ltb (length b + length a) line_room) eqn:E; [|eauto].
  breflect. match goal with H : Nat.ltb _ _ = true |- _ => apply Nat.ltb_lt in H; unfold line_room, TTY_LINE_LENGTH in * end.
  destruct rest as [|y rest]; [cbn [length] in Hlen; lia|].
  pose proof (insert_char b (a ++ [0]) y rest key) as Hi. rewrite length_app, <- app_assoc in Hi. cbn [length app] in Hi.
  replace (length b + length a + 1 - length b)%nat with (length a + 1)%nat by lia. rewrite Hin.
  apply obind_ok in Hi as (buf & E1 & E2). rewrite E1. cbn [obind]. rewrite E2. cbn [obind]. eexists. split; [done|].
  replace (length b + 1)%nat with (length (b ++ [key])) by (rewrite length_app; done).
  replace (length b + length a + 1)%nat with (length (b ++ [key]) + length a)%nat by (rewrite length_app; cbn [length]; lia).
  apply (represents_input t b a o _ rest (b ++ [key]) a); [done|by rewrite <- !app_assoc| |].
  - repeat (progress (rewrite ?length_app; cbn [length])). cbn [length] in Hlen. unfold TTY_LINE_LENGTH in *. lia.
  - apply is_cstr_app. split; [apply is_cstr_app; split; [done|]|done]. repeat constructor; lia.
Qed.

Lemma input_key_spec (key : Z) (cap : nat) (t : tty_t) (x : term) :
  represents t x ->
  exists t', tty_input_key key cap t = Ok (fst (spec_key key cap x), t') /\ represents t' (snd (spec_key key cap x)).
Proof.
  intros Hr. destruct x as [b a o]. unfold spec_key. destruct (input_shape _ _ _ _ Hr) as (_ & _ & _ & _ & _ & Hl & Hcur).
  destruct (Z.eqb_spec key 10) as [->|H10]; [by apply enter_spec|].
  assert (Nat.ltb 0 (cursor t) = negb (Nat.eqb (length b) 0)) as Eb by (rewrite Hcur; by destruct b).
  destruct (((key =? 8) || (key =? 127)) && negb (Nat.eqb (length b) 0)) eqn:E8.
  { apply andb_true_iff in E8 as [Hk Hb]. destruct (split_last b) as (b' & c & -> & -> & _); [by apply negb_true_iff|].
    by apply (backspace_spec cap key t b' a c). }
  destruct ((key =? 0x13) && negb (Nat.eqb (length b) 0)) eqn:E13.
  { apply andb_true_iff in E13 as [Hk%Z.eqb_eq Hb]. destruct (split_last b) as (b' & c & -> & -> & ->); [by apply negb_true_iff|].
    subst key. by apply (left_spec cap t b' a c). }
  assert (forall r : bool, ((key =? 0x14) && Nat.ltb (cursor t) (tlength t)) = false ->
    exists t', tty_input_key key cap t = Ok (fst (if (32 <=? key) && (key <? 127) && Nat.ltb (length b + length a) line_room
                 then (None, Term (b ++ [key]) a o) else (@None (list Z), Term b a o)), t') /\
      represents t' (snd (if (32 <=? key) && (key <? 127) && Nat.ltb (length b + length a) line_room
                 then (None, Term (b ++ [key]) a o) else (@None (list Z), Term b a o)))) as Hoth.
  { intros _ H14. destruct (other_key_spec key cap t b a o Hr H10) as (t' & H1 & H2); [by rewrite Eb|by rewrite Eb|done|].
    exists t'. by destruct ((32 <=? key) && (key <? 127) && Nat.ltb (length b + length a) line_room). }
  destruct a as [|c a].
  - apply (Hoth true). rewrite Hl, Hcur. cbn [length]. rewrite Nat.add_0_r, Nat.ltb_irrefl. apply andb_false_r.
  - destruct (Z.eqb_spec key 0x14) as [->|H14]; [by apply right_spec|]. by apply (Hoth true).
Qed.

(** ** The output *)

Definition row_ok (l : list Z) : Prop := length l = TTY_LINE_LENGTH.

Lemma copy_row_ok (d s : list Z) : row_ok d -> row_ok (copy d s TTY_LINE_LENGTH).
Proof.
  unfold row_ok, copy, TTY_LINE_LENGTH. intros Hd. rewrite length_app. cbn [length].
  rewrite length_drop, length_take. lia.
Qed.

Lemma copy_string (d s : list Z) : is_cstr s -> cstring (copy d s TTY_LINE_LENGTH) = take line_room s.
Proof. intros Hs. unfold copy. apply cstring_app_nul. by apply Forall_take. Qed.

(** The rows after [k] turns of the scrolling loop. *)
Lemma scroll_turns (k : nat) (ls : list (list Z)) :
  Forall row_ok ls -> (k < length ls)%nat -> Forall (fun l => is_cstr (cstring l) /\ (length (cstring l) <= line_room)%nat) ls ->
  let ls' := fold_left (fun ls i => <[(i - 1)%nat := copy (nth (i - 1) ls []) (cstring (nth i ls [])) TTY_LINE_LENGTH]> ls)
                       (seq 1 k) ls in
  Forall row_ok ls' /\ length ls' = length ls /\
  (forall j, (k <= j)%nat -> ls' !! j = ls !! j) /\ (forall j, (j < k)%nat -> map cstring ls' !! j = map cstring ls !! S j).
Proof.
  intros Hrow Hk Hstr. cbn zeta. induction k as [|k IH]; [split_and!; try done; lia|].
  rewrite seq_S, fold_left_app. cbn [fold_left Nat.add].
  destruct (IH ltac:(lia)) as (H1 & H2 & H3 & H4). set (l := fold_left _ (seq 1 k) ls) in *.
  replace (S k - 1)%nat with k by lia.
  destruct (lookup_lt_is_Some_2 ls k ltac:(lia)) as [x Hx]. destruct (lookup_lt_is_Some_2 ls (S k) ltac:(lia)) as [y Hy].
  assert (nth k l [] = x) as -> by (apply nth_lookup_Some; by rewrite H3 by lia).
  assert (nth (S k) l [] = y) as -> by (apply nth_lookup_Some; by rewrite H3 by lia).
  destruct (Forall_lookup_1 _ _ _ _ Hstr Hy) as [Yc Yl].
  split_and!; [apply Forall_insert; [done|apply copy_row_ok; by eapply Forall_lookup_1 in Hx]|by rewrite length_insert| |].
  - intros j Hj. rewrite list_lookup_insert_ne by lia. apply H3. lia.
  - intros j Hj. destruct (decide (j = k)) as [->|Hne].
    + rewrite !list_lookup_fmap, list_lookup_insert_eq, Hy by (rewrite H2; lia). cbn [fmap option_fmap option_map].
      by rewrite copy_string, take_ge by done.
    + rewrite list_lookup_fmap, list_lookup_insert_ne, <- list_lookup_fmap by lia. apply H4. lia.
Qed.

Lemma scroll_lines_spec (ls : list (list Z)) :
  Forall row_ok ls -> length ls = TTY_SCROLLBACK -> Forall (fun l => is_cstr (cstring l) /\ (length (cstring l) <= line_room)%nat) ls ->
  Forall row_ok (scroll_lines ls) /\ length (scroll_lines ls) = TTY_SCROLLBACK /\
  take (TTY_SCROLLBACK - 1) (map cstring (scroll_lines ls)) = drop 1 (map cstring ls).
Proof.
  intros Hrow Hl Hstr. destruct (scroll_turns (TTY_SCROLLBACK - 1) ls Hrow) as (H1 & H2 & _ & H4); [rewrite Hl; unfold TTY_SCROLLBACK; lia|done|].
  split; [done|]. split; [by rewrite <- Hl|]. apply list_eq. intros j.
  rewrite lookup_drop. destruct (decide (j < TTY_SCROLLBACK - 1)%nat) as [Hj|Hj].
  - rewrite lookup_take_lt by done. by apply H4.
  - rewrite lookup_take_ge by lia. symmetry. apply lookup_ge_None_2. rewrite length_map, Hl. lia.
Qed.

(** The strings of the rows in use. *)
Lemma used_rows (t : tty_t) (x : term) (i : nat) (l : list Z) :
  represents t x -> (i < line_count t)%nat -> lines t !! i = Some l ->
  output x !! (length (output x) - line_count t + i)%nat = Some (cstring l) /\ is_cstr (cstring l) /\ (length (cstring l) <= line_room)%nat.
Proof.
  intros Hr Hi Hl. pose proof (rep_lines _ _ Hr) as Hd. apply (f_equal (lookup i)) in Hd.
  rewrite lookup_take_lt, list_lookup_fmap, Hl, lookup_drop in Hd by done. cbn in Hd.
  split; [done|]. apply (Forall_lookup_1 _ _ _ _ (rep_out _ _ Hr) (eq_sym Hd)).
Qed.

(** A new last line in row [n] of rows whose first [n] hold the end of [o]. *)
Lemma append_row (ls : list (list Z)) (n : nat) (o : list (list Z)) (row : list Z) :
  take n (map cstring ls) = drop (length o - n) o -> (n <= length o)%nat -> (n < length ls)%nat ->
  take (n + 1) (map cstring (<[n := row]> ls)) = drop (length o + 1 - (n + 1)) (o ++ [cstring row]).
Proof.
  intros Ht Hn Hl. rewrite Nat.add_1_r, (take_S_r _ _ (cstring row)).
  2:{ by rewrite list_lookup_fmap, list_lookup_insert_eq. }
  rewrite list_fmap_insert, take_insert_ge by lia. change (cstring <$> ls) with (map cstring ls). rewrite Ht.
  replace (length o + 1 - S n)%nat with (length o - n)%nat by lia. by rewrite drop_app_le by lia.
Qed.

Lemma write_line_spec (s : list Z) (t : tty_t) (b a : list Z) (o : list (list Z)) :
  represents t (Term b a o) -> is_cstr s ->
  exists t', tty_write_line s t = Ok t' /\ represents t' (Term b a (o ++ [take line_room s])) /\ (0 < line_count t')%nat.
Proof.
  intros Hr Hs. pose proof Hr as [H1 H2 H3 H4 [H5 H5'] H6 H7 H8]. cbn [before_cursor after_cursor output] in *.
  assert (Forall (fun l => is_cstr l /\ (length l <= line_room)%nat) (o ++ [take line_room s])) as Ho.
  { apply Forall_app. split; [done|]. constructor; [|done]. split; [by apply Forall_take|]. rewrite length_take. lia. }
  unfold tty_write_line. destruct (Nat.eqb_spec (line_count t) TTY_SCROLLBACK) as [Hf|Hf].
  - destruct (scroll_lines_spec (lines t)) as (S1 & S2 & S3); [done|done| |].
    { apply Forall_lookup_2. intros i l Hl. apply (used_rows t (Term b a o) i l Hr); [|done].
      rewrite Hf, <- H5. by eapply lookup_lt_Some. }
    rewrite Hf. destruct (lookup_lt_is_Some_2 (scroll_lines (lines t)) (TTY_SCROLLBACK - 1)) as [d Hd]; [rewrite S2; unfold TTY_SCROLLBACK; lia|].
    rewrite Hd. eexists. split; [done|]. split; [|cbn; lia].
    assert (TTY_SCROLLBACK <= length o)%nat as Hlen by (rewrite H7 in Hf; unfold TTY_SCROLLBACK in *; lia).
    split; cbn [input tlength cursor lines line_count before_cursor after_cursor output]; try done.
    + split; [by rewrite length_insert|]. apply Forall_insert; [done|]. apply copy_row_ok. by eapply Forall_lookup_1 in Hd.
    + rewrite length_app. cbn [length]. unfold TTY_SCROLLBACK in *. lia.
    + rewrite length_app. cbn [length]. rewrite <- (copy_string d s Hs). apply append_row; [|unfold TTY_SCROLLBACK in *; lia|rewrite S2; unfold TTY_SCROLLBACK; lia].
      rewrite S3, <- (take_ge (map cstring (lines t)) TTY_SCROLLBACK) by (rewrite length_map, H5; done).
      rewrite Hf in H8. rewrite H8, drop_drop. f_equal. unfold TTY_SCROLLBACK in *. lia.
  - assert (line_count t = length o) as Hc by (rewrite H7; rewrite H7 in Hf; lia).
    assert (length o < TTY_SCROLLBACK)%nat as Hlt by (rewrite H7 in Hf; unfold TTY_SCROLLBACK in *; lia).
    destruct (lookup_lt_is_Some_2 (lines t) (line_count t)) as [d Hd]; [rewrite H5; lia|].
    rewrite Hd. eexists. split; [done|]. split; [|cbn; lia].
    split; cbn [input tlength cursor lines line_count before_cursor after_cursor output]; try done.
    + split; [by rewrite length_insert|]. apply Forall_insert; [done|]. apply copy_row_ok. by eapply Forall_lookup_1 in Hd.
    + rewrite length_app. cbn [length]. lia.
    + rewrite length_app. cbn [length]. rewrite <- (copy_string d s Hs). apply append_row; [done|lia|lia].
Qed.

(** The row that holds the last line. *)
Lemma last_row (t : tty_t) (b a : list Z) (o : list (list Z)) (l : list Z) :
  represents t (Term b a (o ++ [l])) ->
  exists row, lines t !! (line_count t - 1)%nat = Some row /\ row_ok row /\ cstring row = l /\
    is_cstr l /\ (length l <= line_room)%nat /\ (0 < line_count t)%nat.
Proof.
  intros Hr. pose proof Hr as [_ _ _ _ [H5 H5'] H6 H7 H8]. cbn [output] in *. rewrite length_app in H7. cbn [length] in H7.
  assert (0 < line_count t)%nat as Hc by (rewrite H7; unfold TTY_SCROLLBACK; lia).
  destruct (lookup_lt_is_Some_2 (lines t) (line_count t - 1)) as [row Hrow]; [rewrite H5; unfold TTY_SCROLLBACK in *; lia|].
  destruct (used_rows t _ (line_count t - 1) row Hr ltac:(lia) Hrow) as (U1 & U2 & U3). cbn [output] in U1.
  exists row. rewrite length_app in U1. cbn [length] in U1.
  rewrite lookup_app_r in U1 by (unfold TTY_SCROLLBACK in *; lia).
  replace (length o + 1 - line_count t + (line_count t - 1) - length o)%nat with 0%nat in U1 by (unfold TTY_SCROLLBACK in *; lia).
  injection U1 as ->. split_and!; try done. by eapply Forall_lookup_1 in Hrow.
Qed.

Lemma replace_last (t : tty_t) (b a : list Z) (o : list (list Z)) (l row : list Z) :
  represents t (Term b a (o ++ [l])) -> row_ok row -> is_cstr (cstring row) -> (length (cstring row) <= line_room)%nat ->
  represents (Tty (input t) (tlength t) (cursor t) (<[(line_count t - 1)%nat := row]> (lines t)) (line_count t))
             (Term b a (o ++ [cstring row])).
Proof.
  intros Hr Hrow Hc Hl. destruct (last_row _ _ _ _ _ Hr) as (old & Hold & _ & _ & _ & _ & Hcount).
  destruct Hr as [H1 H2 H3 H4 [H5 H5'] H6 H7 H8]. cbn [before_cursor after_cursor output] in *.
  rewrite length_app in *. cbn [length] in *. apply Forall_app in H6 as [H6 _].
  split; cbn [input tlength cursor lines line_count before_cursor after_cursor output]; try done.
  - split; [by rewrite length_insert|]. by apply Forall_insert.
  - apply Forall_app. split; [done|]. by constructor.
  - rewrite length_app. done.
  - rewrite length_app. cbn [length]. pose proof (append_row (lines t) (line_count t - 1) o row) as Ha.
    replace (line_count t - 1 + 1)%nat with (line_count t) in Ha by lia. apply Ha; [|unfold TTY_SCROLLBACK in *; lia|rewrite H5; unfold TTY_SCROLLBACK in *; lia].
    apply (f_equal (take (line_count t - 1))) in H8. rewrite take_take, Nat.min_l in H8 by lia. rewrite H8.
    rewrite drop_app_le by (unfold TTY_SCROLLBACK in *; lia). rewrite take_app_length' by (rewrite length_drop; unfold TTY_SCROLLBACK in *; lia).
    f_equal. lia.
Qed.

Lemma wr_row (n : nat) (v : Z) (l : list Z) : row_ok l -> (n < TTY_LINE_LENGTH)%nat -> wr n v l = Ok (<[n := v]> l) /\ row_ok (<[n := v]> l).
Proof. unfold row_ok. intros Hl Hn. unfold wr. rewrite (proj2 (Nat.ltb_lt _ _)) by lia. by rewrite length_insert. Qed.

(** The string of a row, its terminator and what is behind it. *)
Lemma row_shape (row : list Z) (l : list Z) : row_ok row -> cstring row = l -> (length l <= line_room)%nat ->
  exists rest, row = l ++ 0 :: rest.
Proof.
  unfold row_ok, line_room, TTY_LINE_LENGTH. intros Hr Hl. assert ((length l < length row)%nat -> exists rest, row = l ++ 0 :: rest) as H.
  { clear Hr. revert l Hl. induction row as [|c row IH]; intros l Hl Hlt; [cbn [length] in Hlt; lia|]. cbn in Hl.
    destruct (Z.eqb_spec c 0) as [->|Hc]; [subst; by exists row|]. subst l. cbn [length] in Hlt.
    destruct (IH _ eq_refl ltac:(lia)) as [rest E]. exists rest. cbn [app]. by rewrite <- E. }
  intros. apply H. lia.
Qed.

Lemma erase_last_spec (t : tty_t) (b a : list Z) (o : list (list Z)) (l : list Z) :
  represents t (Term b a (o ++ [l])) ->
  exists t', in_last_line (fun n r => if Nat.eqb n 0 then Ok r else wr (n - 1) 0 r) t = Ok t' /\
    represents t' (Term b a (o ++ [removelast l])).
Proof.
  intros Hr. destruct (last_row _ _ _ _ _ Hr) as (row & Hrow & Hok & Hs & Hc & Hl & _).
  unfold in_last_line. rewrite Hrow, Hs, take_ge by done.
  destruct (Nat.eqb_spec (length l) 0) as [E|E].
  - destruct l; [|done]. cbn [obind]. eexists. split; [done|]. cbn [removelast]. rewrite <- Hs.
    apply (replace_last t b a o []); rewrite ?Hs; done.
  - destruct (row_shape row l Hok Hs Hl) as [rest Er].
    destruct (wr_row (length l - 1) 0 row Hok) as [W1 W2]; [unfold line_room, TTY_LINE_LENGTH in *; lia|].
    rewrite W1. cbn [obind]. eexists. split; [done|].
    destruct (split_last l) as (q & x & -> & -> & _); [by apply Nat.eqb_neq|]. apply is_cstr_app in Hc as [Hc _].
    rewrite length_app in *. cbn [length] in *. replace (length q + 1 - 1)%nat with (length q) in * by lia.
    assert (cstring (<[length q:=0]> row) = q) as Ec.
    { rewrite Er, <- app_assoc. cbn [app]. rewrite insert_app_r_alt, Nat.sub_diag by lia.
      cbn [insert list_insert]. by apply cstring_app_nul. }
    rewrite <- Ec at 2. apply (replace_last t b a o (q ++ [x])); [done|done|by rewrite Ec|rewrite Ec; lia].
Qed.

Lemma append_last_spec (c : Z) (t : tty_t) (b a : list Z) (o : list (list Z)) (l : list Z) :
  represents t (Term b a (o ++ [l])) -> 0 < c < 256 -> (length l < line_room)%nat ->
  exists t', in_last_line (fun n r => do r <- wr n c r; wr (n + 1) 0 r) t = Ok t' /\ represents t' (Term b a (o ++ [l ++ [c]])).
Proof.
  intros Hr Hc Hlt. destruct (last_row _ _ _ _ _ Hr) as (row & Hrow & Hok & Hs & Hcl & Hl & _).
  unfold in_last_line. rewrite Hrow, Hs, take_ge by done. destruct (row_shape row l Hok Hs Hl) as [rest Er].
  destruct (wr_row (length l) c row Hok) as [W1 W2]; [unfold line_room, TTY_LINE_LENGTH in *; lia|].
  destruct (wr_row (length l + 1) 0 _ W2) as [W3 W4]; [unfold line_room, TTY_LINE_LENGTH in *; lia|].
  rewrite W1. cbn [obind]. rewrite W3. cbn [obind]. eexists. split; [done|].
  assert (exists y rest', rest = y :: rest') as (y & rest' & ->).
  { unfold row_ok, line_room, TTY_LINE_LENGTH in *. rewrite Er, length_app in Hok. cbn [length] in Hok. destruct rest; [cbn [length] in Hok; lia|eauto]. }
  assert (cstring (<[(length l + 1)%nat:=0]> (<[length l:=c]> row)) = l ++ [c]) as Ec.
  { rewrite Er, insert_app_r_alt, Nat.sub_diag by lia. cbn [insert list_insert].
    rewrite insert_app_r_alt by lia. replace (length l + 1 - length l)%nat with 1%nat by lia. cbn [insert list_insert].
    change (l ++ c :: 0 :: rest') with (l ++ [c] ++ 0 :: rest'). rewrite app_assoc. apply cstring_app_nul.
    apply is_cstr_app. split; [done|]. by constructor. }
  rewrite <- Ec. apply (replace_last t b a o l); [done|done|rewrite Ec|rewrite Ec].
  - apply is_cstr_app. split; [done|]. by constructor.
  - rewrite length_app. cbn [length]. unfold line_room, TTY_LINE_LENGTH in *. lia.
Qed.

Lemma last_length_spec (t : tty_t) (b a : list Z) (o : list (list Z)) (l : list Z) :
  represents t (Term b a (o ++ [l])) -> last_length t = length l.
Proof.
  intros Hr. destruct (last_row _ _ _ _ _ Hr) as (row & Hrow & _ & Hs & _ & Hl & _).
  unfold last_length. rewrite (nth_lookup_Some _ _ _ _ Hrow), Hs, take_ge by done. done.
Qed.

Lemma write_char_spec (c : Z) (t : tty_t) (b a : list Z) (o : list (list Z)) :
  represents t (Term b a o) -> 0 < c < 256 ->
  exists t', tty_write_char c t = Ok t' /\ represents t' (Term b a (spec_char c o)).
Proof.
  intros Hr Hc. unfold tty_write_char, spec_char.
  assert (exists t1 o1 l, (if Nat.eqb (line_count t) 0 then tty_write_line [] t else Ok t) = Ok t1 /\
    represents t1 (Term b a (o1 ++ [l])) /\ match o with [] => [[]] | _ => o end = o1 ++ [l]) as (t1 & o1 & l & E1 & H1 & ->).
  { pose proof (rep_count _ _ Hr) as Hn. cbn [output] in Hn. destruct o as [|l0 o].
    - rewrite Hn. cbn [length Nat.min Nat.eqb TTY_SCROLLBACK].
      destruct (write_line_spec [] t b a [] Hr) as (t' & E & H & _); [by constructor|]. exists t', [], []. done.
    - cbn [length Nat.min TTY_SCROLLBACK] in Hn. rewrite Hn. cbn [Nat.eqb].
      exists t, (removelast (l0 :: o)), (List.last (l0 :: o) []).
      rewrite <- (app_removelast_last []) by done. done. }
  rewrite E1. cbn [obind]. rewrite removelast_last, last_last.
  destruct (c =? 13) eqn:E13; [eauto|]. destruct (c =? 10) eqn:E10.
  { destruct (write_line_spec [] t1 b a _ H1) as (t' & E & H & _); [by constructor|]. eauto. }
  destruct (c =? 8) eqn:E8; [by apply erase_last_spec|]. rewrite (last_length_spec _ _ _ _ _ H1).
  replace (Nat.leb TTY_LINE_LENGTH (length l + 1)) with (Nat.leb line_room (length l)).
  2:{ unfold line_room, TTY_LINE_LENGTH. destruct (Nat.leb_spec (80 - 1) (length l)), (Nat.leb_spec 80 (length l + 1)); lia || done. }
  destruct (Nat.leb_spec line_room (length l)).
  - destruct (write_line_spec [] t1 b a _ H1) as (t' & E & H' & _); [by constructor|]. rewrite E. cbn [obind].
    apply (append_last_spec c t' b a (o1 ++ [l]) []); [done|done|]. cbn [length]. unfold line_room, TTY_LINE_LENGTH. lia.
  - cbn [obind]. by apply append_last_spec.
Qed.

(** ** Every use of a terminal *)

Inductive tty_op :=
| Key (key : Z) (cap : nat)
| WriteChar (c : Z)
| WriteLine (s : list Z)
| ClearLines.

Definition op_ok (o : tty_op) : Prop :=
  match o with WriteChar c => 0 < c < 256 | WriteLine s => is_cstr s | _ => True end.

Definition run_tty (o : tty_op) (t : tty_t) : outcome (option (list Z) * tty_t) :=
  match o with
  | Key k cap => tty_input_key k cap t
  | WriteChar c => do t <- tty_write_char c t; Ok (None, t)
  | WriteLine s => do t <- tty_write_line s t; Ok (None, t)
  | ClearLines => Ok (None, tty_clear t)
  end.

Definition run_term (o : tty_op) (x : term) : option (list Z) * term :=
  let '(Term b a out) := x in
  match o with
  | Key k cap => spec_key k cap x
  | WriteChar c => (None, Term b a (spec_char c out))
  | WriteLine s => (None, Term b a (out ++ [take line_room s]))
  | ClearLines => (None, Term b a [])
  end.

(** The commands entered, and the state afterwards. *)
Fixpoint run_all (ops : list tty_op) (t : tty_t) : outcome (list (option (list Z)) * tty_t) :=
  match ops with
  | [] => Ok ([], t)
  | o :: ops => do '(r, t) <- run_tty o t; do '(rs, t) <- run_all ops t; Ok (r :: rs, t)
  end.

Fixpoint spec_all (ops : list tty_op) (x : term) : list (option (list Z)) * term :=
  match ops with
  | [] => ([], x)
  | o :: ops => let '(r, x) := run_term o x in let '(rs, x) := spec_all ops x in (r :: rs, x)
  end.

Lemma run_tty_spec (o : tty_op) (t : tty_t) (x : term) :
  represents t x -> op_ok o ->
  exists t', run_tty o t = Ok (fst (run_term o x), t') /\ represents t' (snd (run_term o x)).
Proof.
  intros Hr Ho. destruct x as [b a out]. destruct o as [k cap|c|s|]; cbn [run_tty run_term op_ok fst snd] in *.
  - by apply input_key_spec.
  - destruct (write_char_spec c t b a out Hr Ho) as (t' & E & H). rewrite E. cbn [obind]. eauto.
  - destruct (write_line_spec s t b a out Hr Ho) as (t' & E & H & _). rewrite E. cbn [obind]. eauto.
  - eexists. split; [done|]. destruct Hr as [H1 H2 H3 H4 H5 H6 H7 H8]. by split.
Qed.

(** C15. A terminal window does what a terminal should: from a freshly initialised
    terminal, whatever its memory held before, every sequence of keys and writes
    returns without touching memory outside the buffers; the commands it hands out
    are the text with the edits applied, cut to the caller's buffer; and the lines
    kept are the last 64 of everything written since the last clear, broken at 79
    characters, with backspaces applied. *)
Theorem tty_refines (ops : list tty_op) (t : tty_t) :
  length (input t) = TTY_LINE_LENGTH -> length (lines t) = TTY_SCROLLBACK -> Forall row_ok (lines t) -> Forall op_ok ops ->
  exists t', run_all ops (tty_init t) = Ok (fst (spec_all ops (Term [] [] [])), t') /\
    let x := snd (spec_all ops (Term [] [] [])) in
    cstring (input t') = before_cursor x ++ after_cursor x /\ cursor t' = length (before_cursor x) /\
    take (line_count t') (map cstring (lines t')) = drop (length (output x) - TTY_SCROLLBACK) (output x).
Proof.
  intros Hi Hl Hrows Hops.
  assert (represents (tty_init t) (Term [] [] [])) as Hr.
  { split; cbn [tty_init input tlength cursor lines line_count before_cursor after_cursor output]; try done; [|by constructor].
    exists (drop 1 (input t)). rewrite length_insert. split; [|done]. destruct (input t); [done|]. done. }
  revert Hr. generalize (tty_init t) (Term [] [] []). clear t Hi Hl Hrows.
  induction Hops as [|o ops Ho Hops IH]; intros t x Hr.
  - exists t. split; [done|]. cbn [spec_all snd]. destruct x as [b a out].
    destruct (input_shape _ _ _ _ Hr) as (rest & Hin & _ & Hcb & Hca & _ & Hcur).
    pose proof (rep_lines _ _ Hr) as H8. pose proof (rep_count _ _ Hr) as H7. cbn [output before_cursor after_cursor] in *.
    split_and!; [rewrite Hin; apply cstring_text; by apply is_cstr_app|done|]. rewrite H8. f_equal. lia.
  - destruct (run_tty_spec o t x Hr Ho) as (t1 & E1 & H1). cbn [run_all spec_all]. rewrite E1. cbn [obind].
    destruct (run_term o x) as [r x1]. cbn [fst snd] in *. destruct (IH t1 x1 H1) as (t' & E2 & H2).
    rewrite E2. cbn [obind]. exists t'. destruct (spec_all ops x1) as [rs x2]. done.
Qed.

Lemma tty_refines_witness :
  let t := Tty (replicate 80 255) 7 9 (replicate 64 (replicate 80 65)) 3 in
  let ops := [WriteLine (text "OS64 Terminal"); Key 108 80; Key 115 80; Key 0x13 80; Key 97 80; WriteChar 62; Key 8 80; Key 10 80] in
  exists t', run_all ops (tty_init t) = Ok (fst (spec_all ops (Term [] [] [])), t') /\
    let x := snd (spec_all ops (Term [] [] [])) in
    cstring (input t') = before_cursor x ++ after_cursor x /\ cursor t' = length (before_cursor x) /\
    take (line_count t') (map cstring (lines t')) = drop (length (output x) - TTY_SCROLLBACK) (output x).
Proof.
  intros t ops. apply (tty_refines ops t); [reflexivity|reflexivity| |].
  - apply Forall_replicate. reflexivity.
  - repeat (apply Forall_cons; split; [first [exact I | cbn [op_ok]; lia | apply text_is_cstr_dec; vm_compute; reflexivity]|]).
    apply Forall_nil_2.
Defined.
