(* ===== verification/Keyboard.v ===== *)
(** * The keyboard decoder (src/kernel/drivers/keyboard/keyboard.c)

    Scan codes of set 1, read through the PS/2 driver of Ps2.v, become characters
    and key codes.  Results are of type [char], which is signed. *)

From stdpp Require Import base numbers list strings.
From Stdlib Require Import ZArith Lia.
From S2P Require Import Prelude Effects Ports Ps2.

Record flags := Flags { shift : bool; ctrl : bool; alt : bool; caps : bool; extended : bool }.

Record keyboard (D : Type) := Keyboard { kps2 : ps2 D; kflags : flags; ready : bool }.
Arguments Keyboard {D}. Arguments kps2 {D}. Arguments kflags {D}. Arguments ready {D}.

(** ** Tables *)

Definition entry (t : list (Z * Z)) (s : Z) : Z :=
  match List.find (fun p => fst p =? s) t with Some p => snd p | None => 0 end.

Definition normal : list (Z * Z) :=
  [(1, 27); (2, 49); (3, 50); (4, 51); (5, 52); (6, 53); (7, 54); (8, 55); (9, 56); (10, 57); (11, 48); (12, 45);
   (13, 61); (14, 8); (15, 9); (26, 91); (27, 93); (28, 10); (39, 59); (40, 39); (41, 96); (43, 92); (51, 44);
   (52, 46); (53, 47); (57, 32)].

Definition shifted : list (Z * Z) :=
  [(2, 33); (3, 64); (4, 35); (5, 36); (6, 37); (7, 94); (8, 38); (9, 42); (10, 40); (11, 41); (12, 95); (13, 43);
   (26, 123); (27, 125); (39, 58); (40, 34); (41, 126); (43, 124); (51, 60); (52, 62); (53, 63); (57, 32)].

Definition q : list Z := text "qwertyuiop".
Definition a : list Z := text "asdfghjkl".
Definition z : list Z := text "zxcvbnm".

Definition letter (k : flags) (lower : Z) : Z :=
  if xorb (caps k) (shift k) then lower - 97 + 65 else lower.

(** ** Decoding *)

Definition extended_key (s : Z) : Z :=
  if s =? 72 then 0x11 else if s =? 80 then 0x12 else if s =? 75 then 0x13 else if s =? 77 then 0x14
  else if s =? 71 then s8 0x91 else if s =? 79 then s8 0x92 else if s =? 73 then s8 0x93 else if s =? 81 then s8 0x94
  else if s =? 82 then s8 0x95 else if s =? 83 then s8 0x96 else 0.

Definition value (k : flags) (s : Z) : Z :=
  if (16 <=? s) && (s <=? 25) then letter k (nth (Z.to_nat (s - 16)) q 0)
  else if (30 <=? s) && (s <=? 38) then letter k (nth (Z.to_nat (s - 30)) a 0)
  else if (44 <=? s) && (s <=? 50) then letter k (nth (Z.to_nat (s - 44)) z 0)
  else if shift k then entry shifted s else entry normal s.

(** What keyboard_poll does with the byte [b] it has read. *)
Definition decode (b : Z) (k : flags) : Z * flags :=
  if b =? 0xe0 then (0, Flags (shift k) (ctrl k) (alt k) (caps k) true) else
  let released := z2b (Z.land b 0x80) in
  let s := Z.land b 0x7f in
  if (s =? 42) || (s =? 54) then (0, Flags (negb released) (ctrl k) (alt k) (caps k) (extended k)) else
  if s =? 29 then (0, Flags (shift k) (negb released) (alt k) (caps k) (extended k)) else
  if s =? 56 then (0, Flags (shift k) (ctrl k) (negb released) (caps k) (extended k)) else
  if (s =? 58) && negb released then (0, Flags (shift k) (ctrl k) (alt k) (negb (caps k)) (extended k)) else
  if released then (0, Flags (shift k) (ctrl k) (alt k) (caps k) false) else
  if extended k then (extended_key s, Flags (shift k) (ctrl k) (alt k) (caps k) false) else
  if (59 <=? s) && (s <=? 68) then (s8 (0x80 + s - 58), k) else
  if (s =? 15) && shift k then (s8 0x8f, k) else
  let v := value k s in
  if ctrl k && (97 <=? v) && (v <=? 122) then (v - 97 + 1, k) else
  if alt k && z2b v then (s8 (Z.lor (u8 v) 0x80), k) else
  (v, k).

Section driver.
Context {D : Type} `{Ports D}.

Definition on_ps2 {A} (m : M (ps2 D) A) : M (keyboard D) A :=
  fun s => match m (kps2 s) with
           | Ok (x, p) => Ok (x, Keyboard p (kflags s) (ready s))
           | Undefined => Undefined
           | OutOfFuel => OutOfFuel
           end.

Definition released_all : flags := Flags false false false false false.

Definition keyboard_init : M (keyboard D) bool :=
  modify (fun s => Keyboard (kps2 s) released_all false) ;;
  let! ok := on_ps2 ps2_controller_init in
  let! ok := if ok then on_ps2 ps2_keyboard_initialize else ret false in
  if ok then modify (fun s => Keyboard (kps2 s) (kflags s) true) ;; ret true else ret false.

Definition keyboard_poll : M (keyboard D) Z :=
  let! s := get in
  if negb (ready s) then ret 0 else
  let! ok := on_ps2 ps2_data_available in
  if negb ok then ret 0 else
  let! b := on_ps2 ps2_read_data in
  let! s := get in
  let '(c, k) := decode b (kflags s) in
  modify (fun s => Keyboard (kps2 s) k (ready s)) ;; ret c.

(** ** Typing *)

(** A keyboard's bytes, as the controller delivers them: the status says that
    there is one and that it is not from the mouse, and each read takes it. *)
Class KeyWire := {
  kbytes : D -> list Z;
  key_status : forall d b l, kbytes d = b :: l -> exists v, inb PS2_STATUS_PORT d = (v, d) /\ Z.land (u8 v) 0x01 <> 0 /\ Z.land (u8 v) 0x20 = 0;
  key_data : forall d b l, kbytes d = b :: l -> exists v d', inb PS2_DATA_PORT d = (v, d') /\ u8 v = b /\ kbytes d' = l
}.

(** The characters [n] polls return; 0 means that there is none. *)
Fixpoint poll_keys (n : nat) : M (keyboard D) (list Z) :=
  match n with
  | O => ret []
  | S n => let! c := keyboard_poll in let! l := poll_keys n in ret (if c =? 0 then l else c :: l)
  end.

Fixpoint decode_all (bs : list Z) (k : flags) : list Z * flags :=
  match bs with
  | [] => ([], k)
  | b :: bs => let '(c, k) := decode b k in let '(l, k) := decode_all bs k in (if c =? 0 then l else c :: l, k)
  end.

Context `{!KeyWire}.

Lemma poll_decodes (s : keyboard D) (b : Z) (l : list Z) :
  ready s = true -> controller_ok (kps2 s) = true -> kbytes (ps2_dev (kps2 s)) = b :: l ->
  exists s', keyboard_poll s = Ok (fst (decode b (kflags s)), s') /\ kflags s' = snd (decode b (kflags s)) /\
    ready s' = true /\ controller_ok (kps2 s') = true /\ kbytes (ps2_dev (kps2 s')) = l.
Proof.
  intros Hr Hc Hk. destruct (key_status _ _ _ Hk) as (v & Hv & H1 & H2).
  destruct (key_data _ _ _ Hk) as (w & d' & Hw & Eb & Hl).
  assert (ps2_data_available (kps2 s) = Ok (true, on_dev (ps2_dev (kps2 s)) (kps2 s))) as Ha.
  { unfold ps2_data_available, port_in, bind, get, ret. rewrite Hv. cbn [controller_ok on_dev]. rewrite Hc.
    by rewrite (proj2 (Z.eqb_neq _ 0) H1), (proj2 (Z.eqb_eq _ 0) H2). }
  assert (on_dev (ps2_dev (kps2 s)) (kps2 s) = kps2 s) as Eid by (unfold on_dev; by destruct (kps2 s)).
  rewrite Eid in Ha. unfold keyboard_poll, bind at 1, get. rewrite Hr. cbn [negb].
  unfold bind at 1, on_ps2 at 1. rewrite Ha. cbn [negb]. unfold bind at 1, on_ps2 at 1. cbn [kps2].
  unfold ps2_read_data, bind at 1. rewrite Ha. unfold port_in. rewrite Hw, Eb. unfold bind, get. cbn [kflags].
  destruct (decode b (kflags s)) as [c k]. eexists. split; [done|]. cbn. done.
Qed.

Lemma polls_decode (bs rest : list Z) (s : keyboard D) :
  ready s = true -> controller_ok (kps2 s) = true -> kbytes (ps2_dev (kps2 s)) = bs ++ rest ->
  exists s', poll_keys (length bs) s = Ok (fst (decode_all bs (kflags s)), s') /\ kflags s' = snd (decode_all bs (kflags s)) /\
    kbytes (ps2_dev (kps2 s')) = rest.
Proof.
  revert s. induction bs as [|b bs IH]; intros s Hr Hc Hk; [by exists s|]. cbn [length poll_keys decode_all].
  destruct (poll_decodes s b (bs ++ rest) Hr Hc Hk) as (s1 & E1 & K1 & R1 & C1 & B1).
  destruct (IH s1 R1 C1 B1) as (s2 & E2 & K2 & B2). unfold bind. rewrite E1, E2.
  destruct (decode b (kflags s)) as [c k]. cbn [fst snd] in *. rewrite K1 in *.
  destruct (decode_all bs k) as [l k2]. cbn [fst snd] in *. exists s2. done.
Qed.

End driver.

(** ** The keyboard of a user *)

(** The legends of the keys, by the scan code of the first of each row. *)
Definition legends : list (Z * list Z * list Z) :=
  [(2, text "1234567890-=", text "!@#$%^&*()_+"); (16, text "qwertyuiop[]", text "QWERTYUIOP{}");
   (30, text "asdfghjkl;'`", text "ASDFGHJKL:" ++ [34] ++ text "~"); (43, [92], text "|");
   (44, text "zxcvbnm,./", text "ZXCVBNM<>?"); (57, text " ", text " ")].

Fixpoint legend_in (s : Z) (t : list (Z * list Z * list Z)) : option (Z * Z) :=
  match t with
  | [] => None
  | (first, lo, up) :: t =>
    if (first <=? s) && (s <? first + Z.of_nat (length lo))
    then Some (nth (Z.to_nat (s - first)) lo 0, nth (Z.to_nat (s - first)) up 0)
    else legend_in s t
  end.

(** The two characters on a key. *)
Definition legend (s : Z) : Z * Z := default (0, 0) (legend_in s legends).

(** The keys: those with characters on them and the silent ones by their scan
    code, the silent ones with a prefix too; the others by name. *)
Inductive key :=
| Legend (s : Z)
| Escape | Backspace | Tab | Enter
| Function (n : Z)
| Navigation (s : Z)
| Silent (s : Z)
| SilentExtended (s : Z).

Definition navigation : list (Z * Z) :=
  [(72, 0x11); (80, 0x12); (75, 0x13); (77, 0x14); (71, 0x91); (79, 0x92); (73, 0x93); (81, 0x94); (82, 0x95); (83, 0x96)].

(** Silent are the number pad, num lock, scroll lock, F11 and F12; with a prefix
    the pad's enter and slash, and the three keys of other systems. *)
Definition all_keys : list key :=
  map Legend (concat (map (fun '(s, lo, _) => seqZ s (Z.of_nat (length lo))) legends))
  ++ [Escape; Backspace; Tab; Enter] ++ map Function (seqZ 1 10) ++ map (fun p => Navigation (fst p)) navigation
  ++ map Silent (55 :: 69 :: 70 :: seqZ 71 13 ++ [87; 88]) ++ map SilentExtended [28; 53; 91; 92; 93].

Definition scan_codes (k : key) : list Z * Z :=
  match k with
  | Legend s => ([], s)
  | Escape => ([], 1) | Backspace => ([], 14) | Tab => ([], 15) | Enter => ([], 28)
  | Function n => ([], 58 + n)
  | Navigation s => ([0xe0], s)
  | Silent s => ([], s)
  | SilentExtended s => ([0xe0], s)
  end.

(** What a user does: keys go down and up in any order, and so do either shift
    key, the left control and alt keys and caps lock. *)
Inductive event :=
| Key (k : key) (down : bool)
| Shift (other down : bool)
| Ctrl (down : bool)
| Alt (down : bool)
| CapsLock (down : bool).

Definition code (s : Z) (down : bool) : Z := if down then s else s + 0x80.

Definition wire (e : event) : list Z :=
  match e with
  | Key k down => let '(prefix, s) := scan_codes k in prefix ++ [code s down]
  | Shift other down => [code (if other then 54 else 42) down]
  | Ctrl down => [code 29 down]
  | Alt down => [code 56 down]
  | CapsLock down => [code 58 down]
  end.

(** The modifiers in force: shift, control and alt from a press to the next
    release, caps lock from one press to the next. *)
Record mods := Mods { m_shift : bool; m_ctrl : bool; m_alt : bool; m_caps : bool }.

Definition press (e : event) (m : mods) : mods :=
  match e with
  | Key _ _ => m
  | Shift _ down => Mods down (m_ctrl m) (m_alt m) (m_caps m)
  | Ctrl down => Mods (m_shift m) down (m_alt m) (m_caps m)
  | Alt down => Mods (m_shift m) (m_ctrl m) down (m_caps m)
  | CapsLock down => Mods (m_shift m) (m_ctrl m) (m_alt m) (xorb down (m_caps m))
  end.

Definition is_letter (c : Z) : bool := (97 <=? c) && (c <=? 122).

(** The character of a key before control and alt: caps lock is for letters
    only; escape, backspace and enter have none with shift. *)
Definition plain_character (k : key) (m : mods) : option Z :=
  match k with
  | Legend s => let '(lo, up) := legend s in
                Some (if (if is_letter lo then xorb (m_caps m) (m_shift m) else m_shift m) then up else lo)
  | Escape => if m_shift m then None else Some 27
  | Backspace => if m_shift m then None else Some 8
  | Tab => if m_shift m then None else Some 9
  | Enter => if m_shift m then None else Some 10
  | _ => None
  end.

(** Control turns a small letter into a control character; otherwise alt sets
    the highest bit. *)
Definition modified (m : mods) (c : Z) : Z :=
  if m_ctrl m && is_letter c then c - 96 else if m_alt m then s8 (c + 0x80) else c.

Definition typed (e : event) (m : mods) : list Z :=
  match e with
  | Key (Function n) true => [s8 (0x80 + n)]
  | Key (Navigation s) true => [s8 (entry navigation s)]
  | Key Tab true => [if m_shift m then s8 0x8f else modified m 9]
  | Key k true => match plain_character k m with Some c => [modified m c] | None => [] end
  | _ => []
  end.

Fixpoint typed_all (es : list event) (m : mods) : list Z :=
  match es with [] => [] | e :: es => typed e m ++ typed_all es (press e m) end.

Definition pressed_all (es : list event) (m : mods) : mods := fold_left (fun m e => press e m) es m.

Definition wire_all (es : list event) : list Z := concat (map wire es).

Definition event_ok (e : event) : Prop := match e with Key k _ => k ∈ all_keys | _ => True end.

Definition flags_of (m : mods) : flags := Flags (m_shift m) (m_ctrl m) (m_alt m) (m_caps m) false.

(** Every event in every state, by running through them. *)
Definition bools : list bool := [false; true].

Definition all_mods : list mods :=
  concat (map (fun s => concat (map (fun c => concat (map (fun a => map (Mods s c a) bools) bools)) bools)) bools).

Definition all_events : list event :=
  concat (map (fun k => map (Key k) bools) all_keys) ++ concat (map (fun r => map (Shift r) bools) bools)
  ++ map Ctrl bools ++ map Alt bools ++ map CapsLock bools.

#[export] Instance flags_eq_dec : EqDecision flags.
Proof. solve_decision. Defined.

Definition event_check (e : event) : bool :=
  forallb (fun m => bool_decide (decode_all (wire e) (flags_of m) = (typed e m, flags_of (press e m)))) all_mods.

Lemma events_checked : forallb event_check all_events = true.
Proof. vm_compute. reflexivity. Qed.

Lemma bool_listed (b : bool) : b ∈ bools.
Proof. destruct b; [right; left|left]. Qed.

Lemma mods_listed (m : mods) : In m all_mods.
Proof. destruct m as [[] [] [] []]; cbn; auto 20. Qed.

Lemma event_listed (e : event) : event_ok e -> e ∈ all_events.
Proof.
  unfold all_events. rewrite !elem_of_app. intros Hk.
  assert (forall A (f : bool -> A) b, f b ∈ map f bools) as Hb by (intros A f b; apply list_elem_of_fmap; exists b; split; [done|apply bool_listed]).
  assert (forall A B (f : A -> bool -> B) l x b, x ∈ l -> f x b ∈ concat (map (fun x => map (f x) bools) l)) as Hc.
  { intros A B f l x b Hx. apply list_elem_of_In, in_concat. exists (map (f x) bools). split.
    - apply in_map_iff. exists x. split; [done|]. by apply list_elem_of_In.
    - apply list_elem_of_In, Hb. }
  destruct e as [k d|r d|d|d|d]; [left; by apply Hc|right; left; apply Hc, bool_listed|do 2 right; left; apply Hb
    |do 3 right; left; apply Hb|do 4 right; apply Hb].
Qed.

Lemma event_decodes (e : event) (m : mods) :
  event_ok e -> decode_all (wire e) (flags_of m) = (typed e m, flags_of (press e m)).
Proof.
  intros He. pose proof events_checked as Hall. rewrite forallb_forall in Hall.
  specialize (Hall e (proj1 (list_elem_of_In _ _) (event_listed e He))). unfold event_check in Hall. rewrite forallb_forall in Hall.
  specialize (Hall m (mods_listed m)). by apply bool_decide_eq_true in Hall.
Qed.

Lemma decode_all_app (x y : list Z) (k : flags) :
  decode_all (x ++ y) k = let '(l, k) := decode_all x k in let '(m, k) := decode_all y k in (l ++ m, k).
Proof.
  revert k. induction x as [|b x IH]; intros k; cbn [app decode_all]; [by destruct (decode_all y k)|].
  destruct (decode b k) as [c k1]. rewrite IH. destruct (decode_all x k1) as [l k2]. destruct (decode_all y k2) as [m k3].
  by destruct (c =? 0).
Qed.

Lemma events_decode (es : list event) (m : mods) :
  Forall event_ok es -> decode_all (wire_all es) (flags_of m) = (typed_all es m, flags_of (pressed_all es m)).
Proof.
  intros Hes. revert m. induction Hes as [|e es He Hes IH]; intros m; [done|]. cbn [wire_all map concat typed_all pressed_all fold_left].
  fold (wire_all es). rewrite decode_all_app, event_decodes by done. by rewrite IH.
Qed.


(** A controller with a queue of keyboard bytes. *)
Record byte_queue := Queue { queued : list Z }.

#[export] Instance queue_keyboard : Ports byte_queue := {
  inb p d := if p =? PS2_STATUS_PORT then (match queued d with [] => 0 | _ => 1 end, d)
             else (default 0 (head (queued d)), Queue (drop 1 (queued d)));
  outb _ _ d := d;
  inw _ d := (0, d);
  outw _ _ d := d
}.

#[export] Instance queue_key_wire : KeyWire (D := byte_queue).
Proof.
  refine {| kbytes d := map u8 (queued d) |}.
  - intros [[|x l']] b l Hb; [done|]. exists 1. done.
  - intros [[|x l']] b l Hb; [done|]. cbn in Hb. injection Hb as <- <-. by exists x, (Queue l').
Defined.

(** Shift held over two letters, caps lock, control and c, cursor up, enter. *)
Definition demo_events : list event :=
  [Shift true true; Key (Legend 35) true; Key (Legend 35) false; Key (Legend 2) true; Shift true false; CapsLock true; CapsLock false;
   Key (Legend 23) true; Key (Legend 3) true; CapsLock true; Ctrl true; Key (Legend 46) true; Ctrl false; Key (Navigation 72) true; Key Enter true].


(** Shift with enter, backspace or escape types nothing, and one shift key
    released ends shift while the other is still held. *)
Lemma shift_gaps :
  fst (decode_all [42; 28; 28 + 0x80] released_all) = [] /\
  fst (decode_all [42; 54; 54 + 0x80; 30] released_all) = [97].
Proof. split; vm_compute; reflexivity. Qed.

(** The right control key sends a prefix that is not taken back: the letter
    pressed with it is lost, where the left key gives the control character. *)
Lemma right_control_swallows :
  fst (decode_all [0xe0; 29; 46; 46 + 0x80; 0xe0; 29 + 0x80] released_all) = [] /\
  fst (decode_all [29; 46; 46 + 0x80; 29 + 0x80] released_all) = [3].
Proof. split; vm_compute; reflexivity. Qed.

(** After it, the 8 of the number pad is taken for the cursor key. *)
Lemma right_control_leaves_prefix :
  extended (snd (decode_all [0xe0; 29; 0xe0; 29 + 0x80] released_all)) = true.
Proof. vm_compute. reflexivity. Qed.
