(* ===== verification/VideoMemory.v ===== *)
(** * Video memory

    Linear frame buffers as bytes by offset, with 32-bit pixel stores: what
    src/kernel/drivers/display/display.c writes to.  A store outside the memory is
    [Undefined]. *)

From stdpp Require Import base numbers list.
From Stdlib Require Import ZArith Lia.
From S2P Require Import Prelude.

Record video := Video { bytes_at : Z -> Z; size : Z }.

Definition in_memory (v : video) (o : Z) : bool := (0 <=? o) && (o + 4 <=? size v).

(** A 32-bit word, least significant byte first. *)
Definition peek (o : Z) (v : video) : Z := rd32 (bytes_at v) o.

Definition poke_bytes (o x : Z) (m : Z -> Z) : Z -> Z :=
  fun a => if (o <=? a) && (a <? o + 4) then u8 (Z.shiftr x (8 * (a - o))) else m a.

Definition poke (o x : Z) (v : video) : outcome video :=
  if in_memory v o then Ok (Video (poke_bytes o x (bytes_at v)) (size v)) else Undefined.

Definition load_word (o : Z) (v : video) : outcome Z := if in_memory v o then Ok (peek o v) else Undefined.

(** A list of stores, in order. *)
Fixpoint poke_all (l : list (Z * Z)) (v : video) : outcome video :=
  match l with
  | [] => Ok v
  | (o, x) :: l => do v <- poke o x v; poke_all l v
  end.

Lemma peek_poke (o x : Z) (v v' : video) : poke o x v = Ok v' -> is_u32 x -> peek o v' = x.
Proof.
  unfold poke. destruct (in_memory v o); [|done]. intros [= <-] Hx. unfold peek, rd32, rd16, poke_bytes. cbn [bytes_at].
  repeat match goal with |- context[(?a <=? ?b) && (?c <? ?d)] =>
    rewrite (proj2 (Z.leb_le a b)), (proj2 (Z.ltb_lt c d)) by lia; cbn [andb] end.
  replace (8 * (o - o)) with 0 by lia. replace (8 * (o + 1 - o)) with 8 by lia.
  replace (8 * (o + 2 - o)) with 16 by lia. replace (8 * (o + 2 + 1 - o)) with 24 by lia.
  unfold u8. rewrite !Z.shiftr_div_pow2 by lia. unfold is_u32 in Hx. Z.div_mod_to_equations. lia.
Qed.

Lemma peek_other (o o' x : Z) (v v' : video) : poke o x v = Ok v' -> o' + 4 <= o \/ o + 4 <= o' -> peek o' v' = peek o' v.
Proof.
  unfold poke. destruct (in_memory v o); [|done]. intros [= <-] Ho. unfold peek, rd32, rd16, poke_bytes. cbn [bytes_at].
  assert (forall a, o' <= a < o' + 4 -> (o <=? a) && (a <? o + 4) = false) as Hf.
  { intros a Ha. destruct (o <=? a) eqn:E1, (a <? o + 4) eqn:E2; breflect; try done. lia. }
  rewrite !Hf by lia. done.
Qed.

Lemma poke_ok (o x : Z) (v : video) : 0 <= o -> o + 4 <= size v -> exists v', poke o x v = Ok v' /\ size v' = size v.
Proof.
  intros H1 H2. unfold poke, in_memory. rewrite (proj2 (Z.leb_le _ _)), (proj2 (Z.leb_le _ _)) by lia. eauto.
Qed.

(** Stores to aligned places: the last store to a place is read back, and places
    that are not stored to keep their word. *)
Lemma poke_all_spec (l : list (Z * Z)) (v : video) :
  Forall (fun p => 0 <= fst p /\ fst p + 4 <= size v /\ is_u32 (snd p)) l -> NoDup (map fst l) ->
  (forall o o', o ∈ map fst l -> o' ∈ map fst l -> o <> o' -> o + 4 <= o' \/ o' + 4 <= o) ->
  exists v', poke_all l v = Ok v' /\ size v' = size v /\
    (forall p, p ∈ l -> peek (fst p) v' = snd p) /\
    (forall o, Forall (fun p => o + 4 <= fst p \/ fst p + 4 <= o) l -> peek o v' = peek o v).
Proof.
  revert v. induction l as [|[o x] l IH]; intros v Hl Hnd Hsep.
  { exists v. split_and!; try done. by intros p ?%elem_of_nil. }
  apply Forall_cons in Hl as [(H1 & H2 & H3) Hl]. cbn [fst snd map poke_all] in *. apply NoDup_cons in Hnd as [Hn Hnd].
  destruct (poke_ok o x v H1 H2) as (v1 & E1 & S1). rewrite E1. cbn [obind].
  destruct (IH v1) as (v' & E' & S' & Hr & Hk); [by rewrite S1|done|intros; apply Hsep; try done; by right|].
  exists v'. split; [done|]. split; [congruence|]. split.
  - intros p [->|Hp]%elem_of_cons; [|by apply Hr]. cbn [fst snd]. rewrite Hk; [by eapply peek_poke|].
    apply Forall_forall. intros q Hq. apply Hsep; [left|right; by apply list_elem_of_fmap; exists q|].
    intros E. apply Hn. rewrite E. apply list_elem_of_fmap. by exists q.
  - intros o' Ho'. apply Forall_cons in Ho' as [Ho Ho']. rewrite Hk by done. by eapply peek_other.
Qed.

Lemma poke_all_app (a b : list (Z * Z)) (v : video) : poke_all (a ++ b) v = obind (poke_all a v) (poke_all b).
Proof. revert v. induction a as [|[o x] a IH]; intros v; [done|]. cbn. destruct (poke o x v); cbn; [apply IH|done|done]. Qed.

(** ** Rectangles of stores *)

Lemma elem_of_list_prod {A B} (a : list A) (b : list B) (x : A) (y : B) : (x, y) ∈ list_prod a b <-> x ∈ a /\ y ∈ b.
Proof. rewrite !list_elem_of_In. apply in_prod_iff. Qed.

Lemma NoDup_prod {A B} (a : list A) (b : list B) : NoDup a -> NoDup b -> NoDup (list_prod a b).
Proof.
  intros Ha Hb. induction Ha as [|x a Hx Ha IH]; cbn [list_prod]; [constructor|]. apply NoDup_app. split_and!; [|..|done].
  - apply NoDup_fmap_2; [|done]. by intros ? ? [= ->].
  - intros [u w] H1 H2. apply list_elem_of_fmap in H1 as (? & [= -> ->] & _). by apply elem_of_list_prod in H2 as [? _].
Qed.

(** Stores to the places [off i j], [i < h] and [j < w], with one value each. *)
Definition rectangle (off val : Z -> Z -> Z) (h w : Z) : list (Z * Z) :=
  map (fun '(i, j) => (off i j, val i j)) (list_prod (seqZ 0 h) (seqZ 0 w)).

Lemma poke_rectangle (off val : Z -> Z -> Z) (h w : Z) (v : video) :
  (forall i j, 0 <= i < h -> 0 <= j < w -> 0 <= off i j /\ off i j + 4 <= size v /\ is_u32 (val i j)) ->
  (forall i j i' j', 0 <= i < h -> 0 <= j < w -> 0 <= i' < h -> 0 <= j' < w -> (i, j) <> (i', j') ->
     off i j + 4 <= off i' j' \/ off i' j' + 4 <= off i j) ->
  exists v', poke_all (rectangle off val h w) v = Ok v' /\ size v' = size v /\
    (forall i j, 0 <= i < h -> 0 <= j < w -> peek (off i j) v' = val i j) /\
    (forall o, (forall i j, 0 <= i < h -> 0 <= j < w -> o + 4 <= off i j \/ off i j + 4 <= o) -> peek o v' = peek o v).
Proof.
  intros Hin Hsep. set (ps := list_prod (seqZ 0 h) (seqZ 0 w)).
  assert (forall i j, (i, j) ∈ ps <-> 0 <= i < h /\ 0 <= j < w) as Hps.
  { intros i j. unfold ps. rewrite elem_of_list_prod, !elem_of_seqZ. lia. }
  assert (forall p, p ∈ rectangle off val h w -> exists i j, 0 <= i < h /\ 0 <= j < w /\ p = (off i j, val i j)) as Hr.
  { intros p Hp. apply list_elem_of_fmap in Hp as ([i j] & -> & [? ?]%Hps). eauto. }
  assert (forall o, o ∈ map fst (rectangle off val h w) -> exists i j, 0 <= i < h /\ 0 <= j < w /\ o = off i j) as Ho.
  { intros o Ho. apply list_elem_of_fmap in Ho as (p & -> & (i & j & ? & ? & ->)%Hr). eauto. }
  destruct (poke_all_spec (rectangle off val h w) v) as (v' & E & Hs & Hp & Hk).
  - apply Forall_forall. intros p (i & j & Hi & Hj & ->)%Hr. by apply Hin.
  - unfold rectangle. rewrite map_map. apply NoDup_fmap_2_strong; [|apply NoDup_prod; apply NoDup_seqZ].
    intros [i j] [i' j'] [? ?]%Hps [? ?]%Hps E. cbn [fst] in E.
    destruct (decide ((i, j) = (i', j'))) as [|Hne]; [done|]. destruct (Hsep i j i' j'); try done; lia.
  - intros o o' (i & j & ? & ? & ->)%Ho (i' & j' & ? & ? & ->)%Ho Hne. apply Hsep; try done. congruence.
  - exists v'. split_and!; try done.
    + intros i j Hi Hj. apply (Hp (off i j, val i j)). apply list_elem_of_fmap. exists (i, j). split; [done|]. by apply Hps.
    + intros o Hsepo. apply Hk. apply Forall_forall. intros p (i & j & Hi & Hj & ->)%Hr. by apply Hsepo.
Qed.

(** Pixels of different columns or rows do not overlap. *)
Lemma pixels_apart (pitch w x y x' y' : Z) :
  4 * w <= pitch -> 0 <= x < w -> 0 <= x' < w -> (x, y) <> (x', y') ->
  y * pitch + 4 * x + 4 <= y' * pitch + 4 * x' \/ y' * pitch + 4 * x' + 4 <= y * pitch + 4 * x.
Proof.
  intros Hp Hx Hx' Hne. destruct (Z.lt_trichotomy y y') as [Hy|[->|Hy]]; [left; nia| |right; nia].
  assert (x <> x') by congruence. lia.
Qed.
