(* ===== verification/FbDisplay.v ===== *)
(** * The kernel's display (src/kernel/drivers/display/display.c, bochs_vbe.c)

    A grid of character cells shown either in the VGA text buffer or, drawn with
    the console font, in a linear frame buffer, with a blinking block cursor, and
    copied to a serial terminal.  Stores outside the array of cells, the text
    buffer or the frame buffer are [Undefined].  The sink that captures output is
    the list of characters it has been given. *)

From stdpp Require Import base numbers list strings.
From Stdlib Require Import ZArith Lia.
From S2P Require Import Prelude Effects Ports Font VideoMemory.

Definition VGA_WIDTH : Z := 80.
Definition VGA_HEIGHT : Z := 25.
Definition FONT_WIDTH : Z := 8.
Definition FONT_HEIGHT : Z := 16.
Definition CELL_WIDTH : Z := 9.
Definition CELL_HEIGHT : Z := 17.
Definition MAX_WIDTH : Z := 216.
Definition MAX_HEIGHT : Z := 64.
Definition COM1 : Z := 0x3f8.

(** ** State *)

(** [framebuffer] is the address of the frame buffer, 0 in text mode. *)
Record geometry := Geometry {
  width : Z; height : Z; framebuffer : Z; fb_pitch : Z; fb_width : Z; fb_height : Z
}.

Record pen := Pen { row : Z; col : Z; color : Z; fg : Z; bold : Z }.

Record cursor := Cursor {
  cursor_x : Z; cursor_y : Z; cursor_blink_ns : Z; cursor_visible : bool; cursor_full_block : bool; cursor_drawn : bool
}.

Record line_state := Line { serial_present : bool; serial_cells_enabled : bool; initialized : bool; characters : Z }.

Record display (D : Type) := Display {
  dev : D; geo : geometry; pn : pen; cur : cursor; lst : line_state;
  cells : list Z; vga : list Z; font_memory : list Z; vram : video; output_sink : option (list Z)
}.
Arguments Display {D}. Arguments dev {D}. Arguments geo {D}. Arguments pn {D}. Arguments cur {D}. Arguments lst {D}.
Arguments cells {D}. Arguments vga {D}. Arguments font_memory {D}.
Arguments vram {D}. Arguments output_sink {D}.

Definition palette : list Z :=
  [0x000000; 0x0000aa; 0x00aa00; 0x00aaaa; 0xaa0000; 0xaa00aa; 0xaa5500; 0xaaaaaa;
   0x555555; 0x5555ff; 0x55ff55; 0x55ffff; 0xff5555; 0xff55ff; 0xffff55; 0xffffff].

Definition colour (i : Z) : Z := nth (Z.to_nat i) palette 0.

(** ** Glyphs *)

(** The strokes of a line-drawing character: left, right, up, down, double. *)
Definition box_strokes (c : Z) : option (bool * bool * bool * bool * bool) :=
  match c with
  | 179 => Some (false, false, true, true, false) | 196 => Some (true, true, false, false, false)
  | 218 => Some (false, true, false, true, false) | 191 => Some (true, false, false, true, false)
  | 192 => Some (false, true, true, false, false) | 217 => Some (true, false, true, false, false)
  | 195 => Some (false, true, true, true, false) | 180 => Some (true, false, true, true, false)
  | 194 => Some (true, true, false, true, false) | 193 => Some (true, true, true, false, false)
  | 197 => Some (true, true, true, true, false)
  | 186 => Some (false, false, true, true, true) | 205 => Some (true, true, false, false, true)
  | 201 => Some (false, true, false, true, true) | 187 => Some (true, false, false, true, true)
  | 200 => Some (false, true, true, false, true) | 188 => Some (true, false, true, false, true)
  | 204 => Some (false, true, true, true, true) | 185 => Some (true, false, true, true, true)
  | 203 => Some (true, true, false, true, true) | 202 => Some (true, true, true, false, true)
  | 206 => Some (true, true, true, true, true)
  | _ => None
  end.

Definition bit_if (b : bool) (v bits : Z) : Z := if b then Z.lor bits v else bits.

Definition box_row (c y : Z) : Z :=
  match box_strokes c with
  | Some (lf, rt, up, down, dbl) =>
    let mid := 7 in
    let vertical := (up && (y <=? mid)) || (down && (mid <=? y)) in
    if dbl then
      let bits := bit_if vertical 0x24 0 in
      if (lf || rt) && ((y =? 6) || (y =? 9)) then bit_if rt 0x1f (bit_if lf 0xf0 bits) else bits
    else
      let bits := bit_if vertical 0x10 0 in
      if y =? mid then bit_if rt 0x1f (bit_if lf 0xf0 bits) else bits
  | None =>
    if c =? 219 then 0xff
    else if c =? 178 then if z2b (Z.land y 1) then 0xaa else 0x55
    else if c =? 177 then if z2b (Z.land y 1) then 0x88 else 0x22
    else if c =? 176 then if z2b (Z.land y 3) then 0 else 0x22
    else 0
  end.

Definition glyph_row (c y : Z) : Z :=
  if c <? 128 then nth (Z.to_nat (c * FONT_HEIGHT + y)) os64_font8x16 0 else box_row c y.

(** Code points and the characters they are shown with. *)
Definition box_codes : list (Z * Z) :=
  [(0x2502, 179); (0x2524, 180); (0x2563, 185); (0x2551, 186); (0x2557, 187); (0x255d, 188); (0x2510, 191);
   (0x2514, 192); (0x2534, 193); (0x252c, 194); (0x251c, 195); (0x2500, 196); (0x253c, 197); (0x255a, 200);
   (0x2554, 201); (0x2569, 202); (0x2566, 203); (0x2560, 204); (0x2550, 205); (0x256c, 206); (0x2518, 217);
   (0x250c, 218); (0x2588, 219); (0x2591, 176); (0x2592, 177); (0x2593, 178)].

Definition display_codepoint_glyph (u : Z) : Z :=
  match List.find (fun p => fst p =? u) box_codes with
  | Some p => snd p
  | None => if u <? 128 then u else 63
  end.

Section driver.
Context {D : Type} `{Ports D}.

Local Abbreviation S := (display D).
Local Abbreviation P := (M (display D)).

Definition with_dev (d : D) (s : S) : S := Display d (geo s) (pn s) (cur s) (lst s) (cells s) (vga s) (font_memory s) (vram s) (output_sink s).
Definition with_geo (g : geometry) (s : S) : S := Display (dev s) g (pn s) (cur s) (lst s) (cells s) (vga s) (font_memory s) (vram s) (output_sink s).
Definition with_pen (p : pen) (s : S) : S := Display (dev s) (geo s) p (cur s) (lst s) (cells s) (vga s) (font_memory s) (vram s) (output_sink s).
Definition with_cur (c : cursor) (s : S) : S := Display (dev s) (geo s) (pn s) c (lst s) (cells s) (vga s) (font_memory s) (vram s) (output_sink s).
Definition with_lst (l : line_state) (s : S) : S := Display (dev s) (geo s) (pn s) (cur s) l (cells s) (vga s) (font_memory s) (vram s) (output_sink s).
Definition with_cells (c : list Z) (s : S) : S := Display (dev s) (geo s) (pn s) (cur s) (lst s) c (vga s) (font_memory s) (vram s) (output_sink s).
Definition with_vga (v : list Z) (s : S) : S := Display (dev s) (geo s) (pn s) (cur s) (lst s) (cells s) v (font_memory s) (vram s) (output_sink s).
Definition with_font (f : list Z) (s : S) : S := Display (dev s) (geo s) (pn s) (cur s) (lst s) (cells s) (vga s) f (vram s) (output_sink s).
Definition with_vram (v : video) (s : S) : S := Display (dev s) (geo s) (pn s) (cur s) (lst s) (cells s) (vga s) (font_memory s) v (output_sink s).
Definition with_sink (o : option (list Z)) (s : S) : S := Display (dev s) (geo s) (pn s) (cur s) (lst s) (cells s) (vga s) (font_memory s) (vram s) o.

Definition at_position (y x : Z) (p : pen) : pen := Pen y x (color p) (fg p) (bold p).
Definition cursor_at (x y : Z) (c : cursor) : cursor :=
  Cursor x y (cursor_blink_ns c) (cursor_visible c) (cursor_full_block c) (cursor_drawn c).
Definition drawn (b : bool) (c : cursor) : cursor :=
  Cursor (cursor_x c) (cursor_y c) (cursor_blink_ns c) (cursor_visible c) (cursor_full_block c) b.
Definition blinked (ns : Z) (c : cursor) : cursor :=
  Cursor (cursor_x c) (cursor_y c) ns (cursor_visible c) (cursor_full_block c) (cursor_drawn c).
Definition move_to (y x : Z) : P unit := modify (fun s => with_pen (at_position y x (pn s)) s).

Definition port_in (port : Z) : P Z := fun s => let '(v, d) := inb port (dev s) in Ok (u8 v, with_dev d s).
Definition port_out (port v : Z) : P unit := modify (fun s => with_dev (outb port (u8 v) (dev s)) s).

(** ** Cells *)

Definition set_word (i v : Z) (l : list Z) : outcome (list Z) :=
  if (0 <=? i) && (i <? Z.of_nat (length l)) then Ok (<[Z.to_nat i := v]> l) else Undefined.

Definition lift {A} (f : S -> outcome A) : P A := fun s => do a <- f s; Ok (a, s).

Definition cell_index (x y : Z) : Z := y * MAX_WIDTH + x.
Definition cell_word (ch attribute : Z) : Z := u16 (Z.lor (Z.shiftl attribute 8) ch).

Definition get_cell (x y : Z) : P Z :=
  lift (fun s => of_option (cells s !! Z.to_nat (cell_index x y))).

(** The stores of the two loops of [framebuffer_cell]: rows from top to bottom,
    pixels from left to right. *)
Definition cell_pixel (ch attribute py px : Z) : Z :=
  let bits := if py <? FONT_HEIGHT then glyph_row ch py else 0 in
  if (px <? FONT_WIDTH) && z2b (Z.land bits (Z.shiftr 0x80 px))
  then colour (Z.land attribute 15) else colour (Z.land (Z.shiftr attribute 4) 15).

Definition pixel_offset (g : geometry) (x y py px : Z) : Z :=
  (y * CELL_HEIGHT + py) * fb_pitch g + x * CELL_WIDTH * 4 + px * 4.

Definition cell_stores (g : geometry) (x y ch attribute : Z) : list (Z * Z) :=
  map (fun '(py, px) => (pixel_offset g x y py px, cell_pixel ch attribute py px))
      (list_prod (seqZ 0 CELL_HEIGHT) (seqZ 0 CELL_WIDTH)).

Definition framebuffer_cell (x y ch attribute : Z) : P unit :=
  let! s := get in
  if framebuffer (geo s) =? 0 then ret tt else
  let! v := lift (fun s => poke_all (cell_stores (geo s) x y ch attribute) (vram s)) in
  modify (with_vram v).

Definition render_cell (x y ch attribute : Z) : P unit :=
  let! s := get in
  if (width (geo s) <=? x) || (height (geo s) <=? y) then ret tt else
  let! c := lift (fun s => set_word (cell_index x y) (cell_word ch attribute) (cells s)) in
  modify (with_cells c) ;;
  if framebuffer (geo s) =? 0 then
    let! v := lift (fun s => set_word (y * VGA_WIDTH + x) (cell_word ch attribute) (vga s)) in modify (with_vga v)
  else framebuffer_cell x y ch attribute.

Definition off_screen (s : S) : bool :=
  (width (geo s) <=? cursor_x (cur s)) || (height (geo s) <=? cursor_y (cur s)).

Definition cursor_restore : P unit :=
  let! s := get in
  let c := cur s in
  if (framebuffer (geo s) =? 0) || negb (cursor_drawn c) || off_screen s then ret tt else
  let! cell := get_cell (cursor_x c) (cursor_y c) in
  framebuffer_cell (cursor_x c) (cursor_y c) (u8 cell) (u8 (Z.shiftr cell 8)) ;;
  modify (fun s => with_cur (drawn false (cur s)) s).

(** The attribute of the cell under the cursor. *)
Definition inverted (full_block : bool) (attribute : Z) : Z :=
  if full_block then u8 (Z.lor (Z.shiftl (Z.land attribute 0x0f) 4) (Z.land (Z.shiftr attribute 4) 0x0f))
  else u8 (Z.lor (Z.land attribute 0xf0) 15).

Definition cursor_draw : P unit :=
  let! s := get in
  let c := cur s in
  if (framebuffer (geo s) =? 0) || negb (cursor_visible c) || cursor_drawn c || off_screen s then ret tt else
  let! cell := get_cell (cursor_x c) (cursor_y c) in
  framebuffer_cell (cursor_x c) (cursor_y c) (u8 cell) (inverted (cursor_full_block c) (u8 (Z.shiftr cell 8))) ;;
  modify (fun s => with_cur (drawn true (cur s)) s).

(** ** The serial line *)

Fixpoint serial_wait (n : nat) (c : Z) : P unit :=
  match n with
  | O => ret tt
  | Datatypes.S n => let! st := port_in (COM1 + 5) in
                     if z2b (Z.land st 0x20) then port_out COM1 c else serial_wait n c
  end.

Definition serial_put (c : Z) : P unit :=
  let! s := get in if serial_present (lst s) then serial_wait (Z.to_nat 1000000) (u8 c) else ret tt.
Definition serial_raw (s : list Z) : P unit := each s serial_put.
Definition serial_number (n : Z) : P unit := serial_raw (decimal n).

Definition ESC : list Z := [27].

Definition cursor_vga : P unit :=
  let! s := get in
  if negb (framebuffer (geo s) =? 0) then ret tt else
  let p := u16 (row (pn s) * VGA_WIDTH + col (pn s)) in
  port_out 0x3d4 14 ;; port_out 0x3d5 (Z.shiftr p 8) ;; port_out 0x3d4 15 ;; port_out 0x3d5 p.

(** The line number 176 to 218 of the code page and its code point. *)
Definition serial_codes : list (Z * Z) :=
  [(0x2502, 179); (0x2524, 180); (0x2561, 181); (0x2562, 182); (0x2556, 183); (0x2555, 184); (0x2563, 185); (0x2551, 186);
   (0x2557, 187); (0x255d, 188); (0x255c, 189); (0x255b, 190); (0x2510, 191); (0x2514, 192); (0x2534, 193); (0x252c, 194);
   (0x251c, 195); (0x2500, 196); (0x253c, 197); (0x255e, 198); (0x255f, 199); (0x255a, 200); (0x2554, 201); (0x2569, 202);
   (0x2566, 203); (0x2560, 204); (0x2550, 205); (0x256c, 206); (0x2567, 207)].

Definition cell_unicode (ch : Z) : Z :=
  let u := match List.find (fun p => snd p =? ch) serial_codes with Some p => fst p | None => 0 end in
  if ch =? 217 then 0x2518 else if ch =? 218 then 0x250c else if ch =? 219 then 0x2588
  else if ch =? 176 then 0x2591 else if ch =? 177 then 0x2592 else if ch =? 178 then 0x2593 else u.

(** What is sent for a cell: the character, or three bytes of UTF-8. *)
Definition serial_bytes (ch : Z) : list Z :=
  let u := cell_unicode ch in
  if u =? 0 then [if ch <? 128 then ch else 63]
  else [u8 (Z.lor 0xe0 (Z.shiftr u 12)); u8 (Z.lor 0x80 (Z.land (Z.shiftr u 6) 63)); u8 (Z.lor 0x80 (Z.land u 63))].

Definition serial_cell (ch : Z) : P unit := serial_raw (serial_bytes ch).

(** ** Text *)

(** One turn of the first loop of [scroll]: a cell moves up. *)
Definition move_up (y x : Z) : P unit :=
  let! v := get_cell x y in
  let! c := lift (fun s => set_word (cell_index x (y - 1)) v (cells s)) in
  modify (with_cells c) ;;
  render_cell x (y - 1) (u8 v) (u8 (Z.shiftr v 8)).

Definition scroll : P unit :=
  let! s := get in
  let w := width (geo s) in let h := height (geo s) in
  if row (pn s) <? h then ret tt else
  each (seqZ 1 (h - 1)) (fun y => each (seqZ 0 w) (move_up y)) ;;
  each (seqZ 0 w) (fun x => render_cell x (h - 1) 32 (color (pn s))) ;;
  move_to (h - 1) (col (pn s)).

Definition sgr_code (f : Z) : string :=
  match f with 1 => "34m" | 2 => "32m" | 3 => "36m" | 4 => "31m" | 6 => "33m" | _ => "37m" end.

Definition pen_apply (p : pen) : pen :=
  Pen (row p) (col p) (u8 (Z.lor (fg p) (if z2b (bold p) then 8 else 0))) (fg p) (bold p).

Definition apply : P unit :=
  modify (fun s => with_pen (pen_apply (pn s)) s) ;;
  let! s := get in
  serial_raw (27 :: text "[0;") ;;
  when (z2b (bold (pn s))) (serial_raw (text "1;")) ;;
  serial_raw (text (sgr_code (fg (pn s)))).

Definition display_output_sink (sink : option (list Z)) : P unit := modify (with_sink sink).

(** Is all of [s] at the start of the text? *)
Fixpoint tag (p s : list Z) : bool :=
  match s, p with
  | [], _ => true
  | x :: s, y :: p => (y =? x) && tag p s
  | _ :: _, [] => false
  end.

Definition set_pen (f b : Z) : P unit :=
  modify (fun s => with_pen (Pen (row (pn s)) (col (pn s)) (color (pn s)) f b) s).

Definition display_color (c : Z) : P unit :=
  set_pen (u8 (Z.land c 7)) (if z2b (Z.land c 8) then 1 else 0) ;; apply.

Definition count_character : P unit :=
  modify (fun s => let l := lst s in
    with_lst (Line (serial_present l) (serial_cells_enabled l) (initialized l) (u64 (characters l + 1))) s).

Definition cursor_to_pen : P unit := modify (fun s => with_cur (cursor_at (col (pn s)) (row (pn s)) (cur s)) s).

(** The three branches of [display_putc]: a new line, a backspace, a character. *)
Definition put_character (p : pen) (w c : Z) : P unit :=
  let r := row p in let k := col p in
  if c =? 10 then move_to (r + 1) 0 ;; serial_put 13 ;; serial_put 10
  else if c =? 8 then
    if k =? 0 then ret tt
    else move_to r (k - 1) ;; render_cell (k - 1) r 32 (color p) ;; serial_raw [8; 32; 8]
  else
    render_cell k r (u8 c) (color p) ;;
    move_to r (k + 1) ;;
    serial_put c ;;
    when (k + 1 =? w) (move_to (r + 1) 0).

Definition display_putc (c : Z) : P unit :=
  let! s := get in
  match output_sink s with
  | Some l =>
    count_character ;; modify (with_sink (Some (l ++ [c]))) ;;
    serial_put (if c =? 10 then 13 else c) ;; when (c =? 10) (serial_put 10)
  | None =>
    cursor_restore ;;
    count_character ;;
    put_character (pn s) (width (geo s)) c ;;
    scroll ;; cursor_to_pen ;; cursor_draw ;; cursor_vga
  end.

Definition display_puts (t : list Z) : P unit := each t display_putc.
Definition display_number (n : Z) : P unit := each (decimal n) display_putc.

Definition display_clear : P unit :=
  let! s := get in
  each (seqZ 0 (height (geo s))) (fun y => each (seqZ 0 (width (geo s))) (fun x => render_cell x y 32 (color (pn s)))) ;;
  move_to 0 0 ;; cursor_vga ;;
  serial_raw (27 :: text "[2J" ++ 27 :: text "[H").

(** Every turn passes at least one character of the text. *)
Fixpoint styled_loop (fuel : nat) (t : list Z) : P unit :=
  match fuel with
  | O => match t with [] => ret tt | _ => out_of_fuel end
  | Datatypes.S fuel =>
    match t with
    | [] => ret tt
    | c :: rest =>
      let pick (f b : option Z) (k : nat) : P unit :=
        let! s := get in
        set_pen (default (fg (pn s)) f) (default (bold (pn s)) b) ;; apply ;; styled_loop fuel (drop k t) in
      if tag t (text "(bold)") then pick None (Some 1) 6%nat
      else if tag t (text "(/bold)") then pick None (Some 0) 7%nat
      else if tag t (text "(green)") then pick (Some 2) None 7%nat
      else if tag t (text "(yellow)") then pick (Some 6) None 8%nat
      else if tag t (text "(white)") then pick (Some 7) None 7%nat
      else if tag t (text "(reset)") then pick (Some 7) (Some 0) 7%nat
      else display_putc c ;; styled_loop fuel rest
    end
  end.

Definition display_styled (t : list Z) : P unit := styled_loop (length t) t ;; set_pen 7 0 ;; apply.

(** ** Cells and the cursor *)

Definition display_cell (x y : Z) : P Z :=
  let! s := get in if (x <? width (geo s)) && (y <? height (geo s)) then get_cell x y else ret 0.

Definition ansi : list Z := [0; 4; 2; 6; 1; 5; 3; 7].
Definition ansi_colour (i : Z) : Z := nth (Z.to_nat i) ansi 0.

Definition display_set_cell (x y ch attribute : Z) : P unit :=
  let! s := get in
  if (width (geo s) <=? x) || (height (geo s) <=? y) then ret tt else
  render_cell x y ch attribute ;;
  when (serial_present (lst s) && serial_cells_enabled (lst s))
    (serial_raw (27 :: text "[") ;; serial_number (y + 1) ;; serial_put 59 ;; serial_number (x + 1) ;;
     serial_raw (text "H" ++ 27 :: text "[") ;;
     serial_number ((if z2b (Z.land attribute 8) then 90 else 30) + ansi_colour (Z.land attribute 7)) ;;
     serial_put 59 ;; serial_number (40 + ansi_colour (Z.land (Z.shiftr attribute 4) 7)) ;; serial_put 109 ;;
     serial_cell ch).

Definition display_serial_cells (enabled : bool) : P unit :=
  modify (fun s => let l := lst s in with_lst (Line (serial_present l) enabled (initialized l) (characters l)) s).

Definition display_serial_clear : P unit := serial_raw (27 :: text "[2J" ++ 27 :: text "[H").

(** The pen and the cursor at cell number [p], counted along the rows. *)
Definition cursor_step (p : Z) (code : string) : P unit :=
  let! s := get in
  let w := width (geo s) in
  cursor_restore ;; move_to (p / w) (p mod w) ;; cursor_to_pen ;; cursor_draw ;;
  serial_raw (27 :: text code) ;; cursor_vga.

Definition pen_cell (s : S) : Z := row (pn s) * width (geo s) + col (pn s).

Definition display_cursor_left : P unit :=
  let! s := get in
  if pen_cell s =? 0 then ret tt else cursor_step (pen_cell s - 1) "[D".

Definition display_cursor_right : P unit :=
  let! s := get in
  if pen_cell s + 1 <? width (geo s) * height (geo s) then cursor_step (pen_cell s + 1) "[C" else ret tt.

Definition display_cursor_set (x y : Z) (visible full_block : bool) : P unit :=
  let! s := get in
  let x := if width (geo s) <=? x then width (geo s) - 1 else x in
  let y := if height (geo s) <=? y then height (geo s) - 1 else y in
  cursor_restore ;;
  move_to y x ;;
  modify (fun s => with_cur (Cursor x y 0 visible full_block (cursor_drawn (cur s))) s) ;;
  (if negb (framebuffer (geo s) =? 0) then cursor_draw
   else port_out 0x3d4 0x0a ;;
        port_out 0x3d5 (if visible then if full_block then 0 else 0x0e else 0x20) ;;
        port_out 0x3d4 0x0b ;; port_out 0x3d5 0x0f ;; cursor_vga) ;;
  when (serial_present (lst s)) (serial_raw (27 :: text (if visible then "[?25h" else "[?25l"))).

Definition set_blink (ns : Z) : P unit := modify (fun s => with_cur (blinked ns (cur s)) s).

Definition display_cursor_tick (monotonic_ns : Z) : P unit :=
  let! s := get in
  let c := cur s in
  if (framebuffer (geo s) =? 0) || negb (cursor_visible c) then ret tt
  else if cursor_blink_ns c =? 0 then set_blink monotonic_ns
  else if u64 (monotonic_ns - cursor_blink_ns c) <? 500000000 then ret tt
  else (if cursor_drawn c then cursor_restore else cursor_draw) ;; set_blink monotonic_ns.

Definition display_cursor_activity (monotonic_ns : Z) : P unit :=
  let! s := get in
  if (framebuffer (geo s) =? 0) || negb (cursor_visible (cur s)) then ret tt
  else when (cursor_drawn (cur s)) cursor_restore ;; cursor_draw ;; set_blink monotonic_ns.

Definition display_position : P (Z * Z) := let! s := get in ret (col (pn s), row (pn s)).
Definition display_characters : P Z := let! s := get in ret (characters (lst s)).
Definition display_serial_available : P bool := let! s := get in ret (serial_present (lst s)).
Definition display_ready : P bool := let! s := get in ret (initialized (lst s)).
Definition display_width : P Z := let! s := get in ret (width (geo s)).
Definition display_height : P Z := let! s := get in ret (height (geo s)).
Definition display_framebuffer_active : P bool := let! s := get in ret (negb (framebuffer (geo s) =? 0)).
Definition display_pixel_width : P Z := let! s := get in ret (if framebuffer (geo s) =? 0 then 720 else fb_width (geo s)).
Definition display_pixel_height : P Z := let! s := get in ret (if framebuffer (geo s) =? 0 then 400 else fb_height (geo s)).

(** ** Pixels *)

Definition no_pixel (g : geometry) (x y : Z) : bool := (framebuffer g =? 0) || (fb_width g <=? x) || (fb_height g <=? y).

(** The offset of a pixel; the row's offset is computed in 32 bits. *)
Definition pixel_at (g : geometry) (x y : Z) : Z := u32 (y * fb_pitch g) + 4 * x.

Definition display_graphics_get_pixel (x y : Z) : P Z :=
  let! s := get in if no_pixel (geo s) x y then ret 0 else lift (fun s => load_word (pixel_at (geo s) x y) (vram s)).

Definition store_pixels (l : list (Z * Z)) : P unit :=
  let! v := lift (fun s => poke_all l (vram s)) in modify (with_vram v).

Definition display_graphics_put_pixel (x y value : Z) : P unit :=
  let! s := get in if no_pixel (geo s) x y then ret tt else store_pixels [(pixel_at (geo s) x y, u32 value)].

(** The stores of a filled rectangle. *)
Definition fill_stores (g : geometry) (x y w h value : Z) : list (Z * Z) :=
  map (fun '(yy, xx) => (pixel_at g (x + xx) (y + yy), value)) (list_prod (seqZ 0 h) (seqZ 0 w)).

Definition display_graphics_fill (x y w h value : Z) : P unit :=
  let! s := get in
  let g := geo s in
  if no_pixel g x y then ret tt else
  let w := if fb_width g - x <? w then fb_width g - x else w in
  let h := if fb_height g - y <? h then fb_height g - y else h in
  store_pixels (fill_stores g x y w h (u32 value)).

Definition glyph_bit (ch gx gy : Z) : bool := z2b (Z.land (glyph_row ch gy) (Z.shiftr 0x80 gx)).

Fixpoint text_loop (x y : Z) (t : list Z) (foreground background scale : Z) : P unit :=
  match t with
  | [] => ret tt
  | ch :: t =>
    each (seqZ 0 FONT_HEIGHT) (fun gy => each (seqZ 0 FONT_WIDTH) (fun gx =>
      display_graphics_fill (u32 (x + gx * scale)) (u32 (y + gy * scale)) scale scale
        (if glyph_bit ch gx gy then foreground else background))) ;;
    text_loop (u32 (x + FONT_WIDTH * scale)) y t foreground background scale
  end.

Definition display_graphics_text (x y : Z) (t : list Z) (foreground background scale : Z) : P unit :=
  let! s := get in
  if framebuffer (geo s) =? 0 then ret tt
  else text_loop x y t foreground background (if scale =? 0 then 1 else scale).

(** ** Modes (bochs_vbe.c) *)

Definition VBE_INDEX : Z := 0x1ce.
Definition VBE_DATA : Z := 0x1cf.

Definition word_in (port : Z) : P Z := fun s => let '(v, d) := inw port (dev s) in Ok (u16 v, with_dev d s).
Definition word_out (port v : Z) : P unit := modify (fun s => with_dev (outw port (u16 v) (dev s)) s).

Definition read_reg (index : Z) : P Z := word_out VBE_INDEX index ;; word_in VBE_DATA.
Definition write_reg (index value : Z) : P unit := word_out VBE_INDEX index ;; word_out VBE_DATA value.

Definition bochs_vbe_available : P bool := let! id := read_reg 0 in ret ((0xb0c0 <=? id) && (id <=? 0xb0c5)).

Definition bochs_vbe_set_mode (w h bpp : Z) : P bool :=
  let! available := bochs_vbe_available in
  if negb available || negb (bpp =? 32) || (w <? 640) || (h <? 400) || (1920 <? w) || (1200 <? h) then ret false else
  write_reg 4 0 ;; write_reg 1 w ;; write_reg 2 h ;; write_reg 3 bpp ;; write_reg 6 w ;;
  write_reg 4 (Z.lor (Z.lor 0x01 0x40) 0x80) ;;
  let! x := read_reg 1 in if negb (x =? w) then ret false else
  let! y := read_reg 2 in if negb (y =? h) then ret false else
  let! b := read_reg 3 in ret (b =? bpp).

Definition display_mode_supported : P bool :=
  let! s := get in if framebuffer (geo s) =? 0 then ret false else bochs_vbe_available.

Definition text_geometry (base pitch w h : Z) : geometry :=
  Geometry (Z.min MAX_WIDTH (w / CELL_WIDTH)) (Z.min MAX_HEIGHT (h / CELL_HEIGHT)) base pitch w h.

Definition display_set_mode (new_width new_height : Z) : P bool :=
  let! s := get in
  if (framebuffer (geo s) =? 0) || (1920 <? new_width) || (1200 <? new_height) then ret false else
  let! ok := bochs_vbe_set_mode (u16 new_width) (u16 new_height) 32 in
  if negb ok then ret false else
  cursor_restore ;;
  modify (fun s => with_geo (text_geometry (framebuffer (geo s)) (u32 (new_width * 4)) new_width new_height) s) ;;
  move_to 0 0 ;;
  modify (fun s => with_cur (drawn false (cursor_at 0 0 (cur s))) s) ;;
  let! s := get in
  store_pixels (fill_stores (geo s) 0 0 (fb_width (geo s)) (fb_height (geo s)) (colour (Z.land (Z.shiftr (color (pn s)) 4) 15))) ;;
  display_clear ;; ret true.

(** ** Start-up *)

Definition vga_register (port index value : Z) : P unit := port_out port index ;; port_out (port + 1) value.

Definition font_byte (ch y : Z) : Z :=
  if y <? FONT_HEIGHT then if ch <? 128 then nth (Z.to_nat (ch * FONT_HEIGHT + y)) os64_font8x16 0 else box_row ch y else 0.

Definition font_store (ch y : Z) : P unit :=
  let! f := lift (fun s => set_word (ch * 32 + y) (font_byte ch y) (font_memory s)) in modify (with_font f).

Definition vga_load_font : P unit :=
  each [(0x3c4, 0x00, 0x01); (0x3c4, 0x02, 0x04); (0x3c4, 0x04, 0x07); (0x3c4, 0x00, 0x03);
        (0x3ce, 0x04, 0x02); (0x3ce, 0x05, 0x00); (0x3ce, 0x06, 0x00)] (fun '(p, i, v) => vga_register p i v) ;;
  each (seqZ 0 256) (fun ch => each (seqZ 0 32) (font_store ch)) ;;
  each [(0x3c4, 0x00, 0x01); (0x3c4, 0x02, 0x03); (0x3c4, 0x04, 0x03); (0x3c4, 0x00, 0x03);
        (0x3ce, 0x04, 0x00); (0x3ce, 0x05, 0x10); (0x3ce, 0x06, 0x0e)] (fun '(p, i, v) => vga_register p i v).

(** The frame buffer the boot loader describes: the first tag of type 8 for
    32-bit direct colour below 4 GiB. *)
Definition framebuffer_tag (m : memory) (a type size : Z) : option geometry :=
  if (type =? 8) && (38 <=? size) then
    let base := rd64 m (a + 8) in
    let pitch := rd32 m (a + 16) in let w := rd32 m (a + 20) in let h := rd32 m (a + 24) in
    if (m (a + 29) =? 1) && (m (a + 28) =? 32) && (base <? 2 ^ 32) && (640 <=? w) && (400 <=? h)
    then Some (text_geometry base pitch w h) else None
  else None.

Fixpoint info_loop (fuel : nat) (m : memory) (p total off : Z) (g : geometry) : outcome geometry :=
  match fuel with
  | O => OutOfFuel
  | Datatypes.S fuel =>
    if negb (u32 (off + 8) <=? total) then Ok g else
    let type := rd32 m (p + off) in
    let size := rd32 m (p + off + 4) in
    if size <? 8 then Ok g else
    match framebuffer_tag m (p + off) type size with
    | Some g => Ok g
    | None => info_loop fuel m p total (u32 (off + Z.land (u32 (size + 7)) (Z.lnot 7))) g
    end
  end.

Definition framebuffer_info (fuel : nat) (m : memory) (address : Z) (g : geometry) : outcome geometry :=
  if address =? 0 then Ok g else info_loop fuel m address (rd32 m address) 8 g.

Definition set_serial (b : bool) : P unit :=
  modify (fun s => let l := lst s in with_lst (Line b (serial_cells_enabled l) (initialized l) (characters l)) s).
Definition set_initialized (b : bool) : P unit :=
  modify (fun s => let l := lst s in with_lst (Line (serial_present l) (serial_cells_enabled l) b (characters l)) s).

(** The calls of exceptions_init (the interrupt table) and ofp_init (empty) at the end
    do not touch the display. *)
Definition display_init (fuel : nat) (m : memory) (address : Z) : P unit :=
  modify (fun s => with_lst (Line false (serial_cells_enabled (lst s)) false 0) s) ;;
  modify (with_sink None) ;;
  modify (with_cur (Cursor 0 0 0 false false false)) ;;
  let! g := lift (fun s => let g := geo s in
    framebuffer_info fuel m address (Geometry (width g) (height g) 0 (fb_pitch g) (fb_width g) (fb_height g))) in
  modify (with_geo g) ;;
  when (framebuffer g =? 0) vga_load_font ;;
  port_out (COM1 + 1) 0 ;; port_out (COM1 + 3) 0x80 ;; port_out COM1 3 ;; port_out (COM1 + 1) 0 ;;
  port_out (COM1 + 3) 3 ;; port_out (COM1 + 2) 0xc7 ;; port_out (COM1 + 4) 0x0b ;;
  let! st := port_in (COM1 + 5) in
  when (negb (st =? 0xff)) (set_serial true) ;;
  display_clear ;; set_initialized true.

End driver.
