(* ===== verification/FbScreen.v ===== *)
(** * What the display shows

    The relation between the display's state and an abstract grid of cell
    words: the array of cells holds the grid, and the text buffer or the pixels
    of the frame buffer show it, except for the cell under the drawn cursor.
    Every painting operation of FbDisplay.v keeps the relation. *)

From stdpp Require Import base numbers list strings.
From Stdlib Require Import ZArith Lia.
From S2P Require Import Prelude Effects Ports Font VideoMemory FbDisplay.

(** ** Loops *)

Lemma each_app {T A} (f : A -> M T unit) (a b : list A) (s : T) :
  each (a ++ b) f s = match each a f s with Ok (_, s) => each b f s | Undefined => Undefined | OutOfFuel => OutOfFuel end.
Proof.
  revert s. induction a as [|x a IH]; intros s; [done|]. cbn [app each]. unfold bind. destruct (f x s) as [[[] s1]| |]; [apply IH|done..].
Qed.

(** Nested loops are one loop over the pairs. *)
Lemma each_each {T A B} (f : A -> B -> M T unit) (la : list A) (lb : list B) (s : T) :
  each la (fun a => each lb (f a)) s = each (list_prod la lb) (fun '(a, b) => f a b) s.
Proof.
  revert s. induction la as [|a la IH]; intros s; [done|]. cbn [list_prod each]. rewrite each_app. unfold bind.
  assert (forall s, each (map (fun b => (a, b)) lb) (fun '(a, b) => f a b) s = each lb (f a) s) as ->.
  { clear. induction lb as [|b lb IHb]; intros s0; [done|]. cbn [map each]. unfold bind.
    destruct (f a b s0) as [[[] s1]| |]; [apply IHb|done..]. }
  destruct (each lb (f a) s) as [[[] s1]| |]; [apply IH|done..].
Qed.

Section screen.
Context {D : Type} `{Ports D}.

Local Abbreviation S := (display D).
Local Abbreviation P := (M (display D)).

Implicit Types (s : S) (g : Z -> Z -> Z).

(** ** Geometry *)

Record geometry_ok (s : S) : Prop := {
  width_ok : 1 <= width (geo s) <= MAX_WIDTH;
  height_ok : 1 <= height (geo s) <= MAX_HEIGHT;
  cells_ok : length (cells s) = Z.to_nat (MAX_WIDTH * MAX_HEIGHT);
  text_ok : framebuffer (geo s) = 0 ->
    width (geo s) = VGA_WIDTH /\ height (geo s) = VGA_HEIGHT /\ VGA_WIDTH * VGA_HEIGHT <= Z.of_nat (length (vga s));
  pixels_ok : framebuffer (geo s) <> 0 ->
    width (geo s) * CELL_WIDTH <= fb_width (geo s) /\ height (geo s) * CELL_HEIGHT <= fb_height (geo s) /\
    4 * fb_width (geo s) <= fb_pitch (geo s) /\ fb_height (geo s) * fb_pitch (geo s) <= size (vram s)
}.

Definition in_grid s (x y : Z) : Prop := 0 <= x < width (geo s) /\ 0 <= y < height (geo s).

Record cursor_ok (s : S) : Prop := {
  cursor_nonneg : 0 <= cursor_x (cur s) /\ 0 <= cursor_y (cur s);
  drawn_in_grid : cursor_drawn (cur s) = true -> in_grid s (cursor_x (cur s)) (cursor_y (cur s));
  drawn_graphics : framebuffer (geo s) = 0 -> cursor_drawn (cur s) = false
}.

Definition pen_ok s : Prop := in_grid s (col (pn s)) (row (pn s)) /\ is_u8 (color (pn s)).

(** ** The picture *)

(** The screen shows this character with this attribute in a cell. *)
Definition shows s (x y ch attribute : Z) : Prop :=
  if framebuffer (geo s) =? 0 then vga s !! Z.to_nat (y * VGA_WIDTH + x) = Some (cell_word ch attribute)
  else forall py px, 0 <= py < CELL_HEIGHT -> 0 <= px < CELL_WIDTH ->
       peek (pixel_offset (geo s) x y py px) (vram s) = cell_pixel ch attribute py px.

Definition word_char (w : Z) : Z := u8 w.
Definition word_attribute (w : Z) : Z := u8 (Z.shiftr w 8).

Definition shows_word s (x y w : Z) : Prop := shows s x y (word_char w) (word_attribute w).

Definition cursor_shown s (x y w : Z) : Prop :=
  cursor_drawn (cur s) = true /\ x = cursor_x (cur s) /\ y = cursor_y (cur s) /\
  shows s x y (word_char w) (inverted (cursor_full_block (cur s)) (word_attribute w)).

(** The cells of [Q] hold the grid and are shown. *)
Definition picture_on (Q : Z -> Z -> Prop) s g : Prop :=
  forall x y, in_grid s x y -> Q x y ->
  cells s !! Z.to_nat (cell_index x y) = Some (g x y) /\ is_u16 (g x y) /\
  (shows_word s x y (g x y) \/ cursor_shown s x y (g x y)).

Definition everywhere (x y : Z) : Prop := True.
Definition picture s g : Prop := picture_on everywhere s g.

Definition put (x y w : Z) g : Z -> Z -> Z := fun x' y' => if (x' =? x) && (y' =? y) then w else g x' y'.

Definition same_in s g g' : Prop := forall x y, in_grid s x y -> g x y = g' x y.

(** What painting leaves alone. *)
Record painted (s s' : S) : Prop := {
  painted_dev : dev s' = dev s; painted_geo : geo s' = geo s; painted_pn : pn s' = pn s; painted_cur : cur s' = cur s;
  painted_lst : lst s' = lst s; painted_sink : output_sink s' = output_sink s; painted_font : font_memory s' = font_memory s;
  painted_cells : length (cells s') = length (cells s); painted_vga : length (vga s') = length (vga s);
  painted_size : size (vram s') = size (vram s)
}.

Lemma painted_refl s : painted s s.
Proof. by constructor. Qed.

Lemma painted_trans s1 s2 s3 : painted s1 s2 -> painted s2 s3 -> painted s1 s3.
Proof. intros [] []. constructor; congruence. Qed.

Lemma geometry_painted s s' : painted s s' -> geometry_ok s -> geometry_ok s'.
Proof.
  intros [_ Eg _ _ _ _ _ Ec Ev Es] [Hw Hh Hc Ht Hp]. constructor; rewrite ?Eg, ?Ec, ?Ev, ?Es; done.
Qed.

Lemma in_grid_painted s s' x y : painted s s' -> in_grid s' x y <-> in_grid s x y.
Proof. intros Hp. unfold in_grid. by rewrite (painted_geo _ _ Hp). Qed.

(** ** Words *)

Lemma cell_word_u16 (ch attribute : Z) : is_u16 (cell_word ch attribute).
Proof. unfold cell_word, is_u16, u16. apply Z.mod_pos_bound. lia. Qed.

Lemma cell_word_sum (ch attribute : Z) : is_u8 ch -> is_u8 attribute -> cell_word ch attribute = ch + attribute * 256.
Proof.
  unfold is_u8. intros Hc Ha. unfold cell_word. rewrite Z.lor_comm, (lor_shift ch attribute 8) by lia.
  unfold u16. apply Z.mod_small. change (2 ^ 8) with 256. lia.
Qed.

Lemma cell_word_parts (ch attribute : Z) :
  is_u8 ch -> is_u8 attribute ->
  word_char (cell_word ch attribute) = ch /\ word_attribute (cell_word ch attribute) = attribute.
Proof.
  unfold is_u8. intros Hc Ha. rewrite cell_word_sum by done. unfold word_char, word_attribute, u8.
  rewrite Z.shiftr_div_pow2 by lia. change (2 ^ 8) with 256. split; Z.div_mod_to_equations; lia.
Qed.

Lemma word_parts_ok (w : Z) : is_u8 (word_char w) /\ is_u8 (word_attribute w).
Proof. unfold is_u8, word_char, word_attribute, u8. split; apply Z.mod_pos_bound; lia. Qed.

Lemma word_of_parts (w : Z) : is_u16 w -> cell_word (word_char w) (word_attribute w) = w.
Proof.
  intros Hw. rewrite cell_word_sum by apply word_parts_ok. unfold word_char, word_attribute, u8, is_u16 in *.
  rewrite Z.shiftr_div_pow2 by lia. change (2 ^ 8) with 256. Z.div_mod_to_equations; lia.
Qed.

Lemma colour_u32 (i : Z) : is_u32 (colour i).
Proof.
  unfold colour. assert (Forall is_u32 palette) as Hp by (unfold palette, is_u32; repeat constructor; lia).
  destruct (nth_in_or_default (Z.to_nat i) palette 0) as [Hi| ->]; [|unfold is_u32; lia].
  by apply (proj1 (Forall_forall _ _) Hp), list_elem_of_In.
Qed.

Lemma cell_pixel_u32 (ch attribute py px : Z) : is_u32 (cell_pixel ch attribute py px).
Proof. unfold cell_pixel. destruct (_ && _); apply colour_u32. Qed.

(** ** Painting one cell *)

Lemma pixel_offset_alt (gm : geometry) (x y py px : Z) :
  pixel_offset gm x y py px = (y * CELL_HEIGHT + py) * fb_pitch gm + 4 * (x * CELL_WIDTH + px).
Proof. unfold pixel_offset. lia. Qed.

(** Pixels of cells lie in the frame buffer and apart from each other. *)
Lemma cell_pixel_place s x y py px :
  geometry_ok s -> framebuffer (geo s) <> 0 -> in_grid s x y -> 0 <= py < CELL_HEIGHT -> 0 <= px < CELL_WIDTH ->
  0 <= x * CELL_WIDTH + px < fb_width (geo s) /\ 0 <= y * CELL_HEIGHT + py < fb_height (geo s) /\
  0 <= pixel_offset (geo s) x y py px /\ pixel_offset (geo s) x y py px + 4 <= size (vram s).
Proof.
  intros Hg Hf [Hx Hy] Hpy Hpx. destruct (pixels_ok _ Hg Hf) as (H1 & H2 & H3 & H4). rewrite pixel_offset_alt.
  unfold CELL_WIDTH, CELL_HEIGHT in *. set (X := x * 9 + px) in *. set (Y := y * 17 + py) in *.
  assert (0 <= X < fb_width (geo s)) by lia. assert (0 <= Y < fb_height (geo s)) by lia.
  split_and!; try lia; nia.
Qed.

Lemma cell_pixels_apart s x y py px x' y' py' px' :
  geometry_ok s -> framebuffer (geo s) <> 0 -> in_grid s x y -> in_grid s x' y' ->
  0 <= py < CELL_HEIGHT -> 0 <= px < CELL_WIDTH -> 0 <= py' < CELL_HEIGHT -> 0 <= px' < CELL_WIDTH ->
  (x, y, py, px) <> (x', y', py', px') ->
  pixel_offset (geo s) x y py px + 4 <= pixel_offset (geo s) x' y' py' px'
  \/ pixel_offset (geo s) x' y' py' px' + 4 <= pixel_offset (geo s) x y py px.
Proof.
  intros Hg Hf Hi Hi' ? ? ? ? Hne.
  destruct (cell_pixel_place s x y py px) as (Ha & _); [done..|].
  destruct (cell_pixel_place s x' y' py' px') as (Hb & _); [done..|].
  destruct (pixels_ok _ Hg Hf) as (_ & _ & Hp & _). rewrite !pixel_offset_alt.
  eapply pixels_apart; [exact Hp|lia|lia|]. intros [= E1 E2]. apply Hne. unfold CELL_WIDTH, CELL_HEIGHT in *.
  f_equal; [f_equal; [f_equal|]|]; lia.
Qed.

Lemma framebuffer_cell_ok s x y ch attribute :
  geometry_ok s -> framebuffer (geo s) <> 0 -> in_grid s x y ->
  exists v, framebuffer_cell x y ch attribute s = Ok (tt, with_vram v s) /\ size v = size (vram s) /\
    (forall py px, 0 <= py < CELL_HEIGHT -> 0 <= px < CELL_WIDTH ->
       peek (pixel_offset (geo s) x y py px) v = cell_pixel ch attribute py px) /\
    (forall x' y' py px, in_grid s x' y' -> (x', y') <> (x, y) -> 0 <= py < CELL_HEIGHT -> 0 <= px < CELL_WIDTH ->
       peek (pixel_offset (geo s) x' y' py px) v = peek (pixel_offset (geo s) x' y' py px) (vram s)).
Proof.
  intros Hg Hf Hi.
  destruct (poke_rectangle (pixel_offset (geo s) x y) (cell_pixel ch attribute) CELL_HEIGHT CELL_WIDTH (vram s))
    as (v & E & Hs & Hr & Hk).
  - intros i j Hpi Hpj. destruct (cell_pixel_place s x y i j) as (_ & _ & ? & ?); [done..|].
    split_and!; [done..|]. apply cell_pixel_u32.
  - intros i j i' j' ? ? ? ? Hne. apply cell_pixels_apart; try done. congruence.
  - exists v. split_and!; try done.
    + unfold framebuffer_cell, bind, get, lift. rewrite (proj2 (Z.eqb_neq _ 0)) by done. cbv iota.
      change (cell_stores (geo s) x y ch attribute) with (rectangle (pixel_offset (geo s) x y) (cell_pixel ch attribute) CELL_HEIGHT CELL_WIDTH).
      by rewrite E.
    + intros x' y' py px Hi' Hne ? ?. apply Hk. intros i j ? ?. apply cell_pixels_apart; try done. congruence.
Qed.

Lemma set_word_ok (i v : Z) (l : list Z) :
  0 <= i < Z.of_nat (length l) -> set_word i v l = Ok (<[Z.to_nat i := v]> l).
Proof. intros Hi. unfold set_word. rewrite (proj2 (Z.leb_le _ _)), (proj2 (Z.ltb_lt _ _)) by lia. done. Qed.

Lemma cell_index_ok s x y : geometry_ok s -> in_grid s x y -> 0 <= cell_index x y < Z.of_nat (length (cells s)).
Proof.
  intros Hg [Hx Hy]. rewrite (cells_ok _ Hg). pose proof (width_ok _ Hg). pose proof (height_ok _ Hg).
  unfold cell_index, MAX_WIDTH, MAX_HEIGHT in *. lia.
Qed.

Lemma cell_index_inj s x y x' y' :
  geometry_ok s -> in_grid s x y -> in_grid s x' y' -> Z.to_nat (cell_index x y) = Z.to_nat (cell_index x' y') -> (x, y) = (x', y').
Proof.
  intros Hg [Hx Hy] [Hx' Hy'] E. pose proof (width_ok _ Hg). unfold cell_index, MAX_WIDTH in *. f_equal; lia.
Qed.

Lemma vga_index_ok s x y :
  geometry_ok s -> framebuffer (geo s) = 0 -> in_grid s x y -> 0 <= y * VGA_WIDTH + x < Z.of_nat (length (vga s)).
Proof.
  intros Hg Hf [Hx Hy]. destruct (text_ok _ Hg Hf) as (E1 & E2 & Hl). rewrite E1, E2 in *.
  unfold VGA_WIDTH, VGA_HEIGHT in *. lia.
Qed.

(** The screen after the cell was stored and before it is drawn. *)
Lemma render_cell_unfold s x y ch attribute :
  geometry_ok s -> in_grid s x y ->
  render_cell x y ch attribute s =
  let s1 := with_cells (<[Z.to_nat (cell_index x y) := cell_word ch attribute]> (cells s)) s in
  if framebuffer (geo s) =? 0 then Ok (tt, with_vga (<[Z.to_nat (y * VGA_WIDTH + x) := cell_word ch attribute]> (vga s)) s1)
  else framebuffer_cell x y ch attribute s1.
Proof.
  intros Hg Hi. pose proof Hi as [Hx Hy]. unfold render_cell, bind, get, lift, ret, modify.
  rewrite (proj2 (Z.leb_gt _ _)), (proj2 (Z.leb_gt _ _)) by lia. cbn [orb].
  rewrite set_word_ok by (by apply cell_index_ok). cbn [obind].
  destruct (framebuffer (geo s) =? 0) eqn:Ef; [|done]. cbn [vga with_cells].
  rewrite set_word_ok by (apply vga_index_ok; [done|by apply Z.eqb_eq|done]). done.
Qed.

(** Drawing a cell keeps what the others show. *)
Lemma render_cell_draws s x y ch attribute :
  geometry_ok s -> in_grid s x y ->
  exists s', render_cell x y ch attribute s = Ok (tt, s') /\ painted s s' /\
    cells s' = <[Z.to_nat (cell_index x y) := cell_word ch attribute]> (cells s) /\
    shows s' x y ch attribute /\
    (forall x' y' ch' a', in_grid s x' y' -> (x', y') <> (x, y) -> shows s x' y' ch' a' -> shows s' x' y' ch' a').
Proof.
  intros Hg Hi. rewrite render_cell_unfold by done. cbv zeta. set (c := <[_ := _]> (cells s)).
  assert (painted s (with_cells c s)) as Hp1 by (constructor; try done; apply length_insert).
  destruct (Z.eqb_spec (framebuffer (geo s)) 0) as [Ef|Ef].
  - eexists. split; [done|]. split_and!.
    + constructor; try done; cbn; apply length_insert.
    + done.
    + unfold shows. cbn [geo with_vga with_cells vga]. rewrite (proj2 (Z.eqb_eq _ _)) by done.
      apply list_lookup_insert_eq. pose proof (vga_index_ok s x y Hg Ef Hi). lia.
    + intros x' y' ch' a' Hi' Hne. unfold shows. cbn [geo with_vga with_cells vga]. rewrite (proj2 (Z.eqb_eq _ _)) by done.
      rewrite list_lookup_insert_ne; [done|]. intros E. apply Hne.
      destruct (text_ok _ Hg Ef) as (E1 & _). destruct Hi as [Hx Hy], Hi' as [Hx' Hy']. rewrite E1 in *.
      unfold VGA_WIDTH in *. f_equal; lia.
  - destruct (framebuffer_cell_ok (with_cells c s) x y ch attribute) as (v & E & Hs & Hr & Hk);
      [by apply (geometry_painted s)|done|done|].
    exists (with_vram v (with_cells c s)). split; [done|]. split_and!.
    + constructor; try done. cbn. apply length_insert.
    + done.
    + unfold shows. cbn [geo with_vram with_cells vram]. rewrite (proj2 (Z.eqb_neq _ _)) by done. exact Hr.
    + intros x' y' ch' a' Hi' Hne Hsh. unfold shows in *. cbn [geo with_vram with_cells vram].
      rewrite (proj2 (Z.eqb_neq _ _)) in * by done. intros py px Hpy Hpx. rewrite <- Hsh by done. by apply Hk.
Qed.

Lemma put_same x y w g : put x y w g x y = w.
Proof. unfold put. by rewrite !Z.eqb_refl. Qed.

Lemma put_other x y w g x' y' : (x', y') <> (x, y) -> put x y w g x' y' = g x' y'.
Proof.
  intros Hne. unfold put. destruct (Z.eqb_spec x' x) as [->|], (Z.eqb_spec y' y) as [->|]; cbn [andb]; done.
Qed.

Lemma render_cell_picture (Q : Z -> Z -> Prop) s g x y ch attribute :
  geometry_ok s -> in_grid s x y -> is_u8 ch -> is_u8 attribute -> picture_on Q s g ->
  exists s', render_cell x y ch attribute s = Ok (tt, s') /\ painted s s' /\
    picture_on (fun x' y' => Q x' y' \/ (x', y') = (x, y)) s' (put x y (cell_word ch attribute) g).
Proof.
  intros Hg Hi Hc Ha Hpic. destruct (render_cell_draws s x y ch attribute) as (s' & E & Hp & Ec & Hsh & Hk); [done..|].
  exists s'. split; [done|]. split; [done|]. intros x' y' Hi' HQ. rewrite (in_grid_painted _ _ _ _ Hp) in Hi'. rewrite Ec.
  destruct (decide ((x', y') = (x, y))) as [[= -> ->]|Hne].
  - rewrite put_same. split_and!; [|apply cell_word_u16|].
    + apply list_lookup_insert_eq. pose proof (cell_index_ok s x y Hg Hi). lia.
    + left. unfold shows_word. destruct (cell_word_parts ch attribute) as [-> ->]; done.
  - rewrite put_other by done. destruct HQ as [HQ|?]; [|done].
    destruct (Hpic x' y' Hi' HQ) as (H1 & H2 & H3). split_and!; [|done|].
    + rewrite list_lookup_insert_ne; [done|]. intros E'. apply Hne. symmetry. by apply (cell_index_inj s).
    + destruct H3 as [H3|(H3 & H4 & H5 & H6)]; [left; by apply Hk|right].
      unfold cursor_shown. rewrite (painted_cur _ _ Hp). split_and!; try done. by apply Hk.
Qed.

(** ** Painting many cells *)

Lemma picture_on_weaken (Q Q' : Z -> Z -> Prop) s g g' :
  picture_on Q s g -> (forall x y, in_grid s x y -> Q' x y -> Q x y /\ g' x y = g x y) -> picture_on Q' s g'.
Proof. intros Hp Hq x y Hi HQ. destruct (Hq x y Hi HQ) as [HQ' ->]. by apply Hp. Qed.

Lemma picture_same s g g' : picture s g -> same_in s g' g -> picture s g'.
Proof. intros Hp He. eapply picture_on_weaken; [exact Hp|]. intros x y Hi _. split; [done|]. by apply He. Qed.

Definition fill (l : list (Z * Z)) (w : Z) g : Z -> Z -> Z := fun x y => if bool_decide ((x, y) ∈ l) then w else g x y.

Lemma paint_all {A} (pos : A -> Z * Z) (f : A -> P unit) (l : list A) (Q : Z -> Z -> Prop) s g ch attribute :
  (forall a, f a = render_cell (fst (pos a)) (snd (pos a)) ch attribute) ->
  geometry_ok s -> is_u8 ch -> is_u8 attribute -> (forall a, a ∈ l -> in_grid s (fst (pos a)) (snd (pos a))) ->
  picture_on Q s g ->
  exists s', each l f s = Ok (tt, s') /\ painted s s' /\
    picture_on (fun x y => Q x y \/ (x, y) ∈ map pos l) s' (fill (map pos l) (cell_word ch attribute) g).
Proof.
  intros Hf Hg Hc Ha. revert Q s g Hg. induction l as [|a l IH]; intros Q s g Hg Hl Hpic.
  { exists s. split_and!; [done|apply painted_refl|]. eapply picture_on_weaken; [exact Hpic|]. intros x y _ [HQ|HQ]; [|by apply elem_of_nil in HQ].
    split; [done|]. unfold fill. by rewrite bool_decide_eq_false_2 by apply not_elem_of_nil. }
  cbn [each map]. unfold bind. rewrite Hf.
  destruct (render_cell_picture Q s g (fst (pos a)) (snd (pos a)) ch attribute) as (s1 & -> & Hp1 & Hpic1); [done|apply Hl; by left|done..|].
  assert (forall b, b ∈ l -> in_grid s1 (fst (pos b)) (snd (pos b))) as Hl1.
  { intros b Hb. rewrite (in_grid_painted s s1) by done. apply Hl. by right. }
  destruct (IH _ _ _ (geometry_painted _ _ Hp1 Hg) Hl1 Hpic1) as (s2 & -> & Hp2 & Hpic2).
  exists s2. split; [done|]. split; [by eapply painted_trans|]. eapply picture_on_weaken; [exact Hpic2|].
  intros x y _ HQ. cbn. rewrite elem_of_cons in HQ. split; [destruct (pos a); cbn; naive_solver|].
  unfold fill. destruct (decide ((x, y) ∈ map pos l)) as [Hin|Hin].
  - rewrite !bool_decide_eq_true_2 by (done || by right). done.
  - rewrite (bool_decide_eq_false_2 ((x, y) ∈ map pos l)) by done.
    destruct (decide ((x, y) = pos a)) as [E|E].
    + rewrite bool_decide_eq_true_2 by (rewrite E; by left). rewrite <- E. cbn [fst snd]. by rewrite put_same.
    + rewrite bool_decide_eq_false_2 by (by rewrite elem_of_cons; intros [|]). rewrite put_other; [done|]. by destruct (pos a).
Qed.

(** ** Scrolling *)

Definition step_up g (p : Z * Z) : Z -> Z -> Z := put (snd p) (fst p - 1) (g (snd p) (fst p)) g.
Definition moves (l : list (Z * Z)) g : Z -> Z -> Z := fold_left step_up l g.

Lemma move_up_picture s g y x :
  geometry_ok s -> picture s g -> in_grid s x y -> in_grid s x (y - 1) ->
  exists s', move_up y x s = Ok (tt, s') /\ painted s s' /\ picture s' (step_up g (y, x)).
Proof.
  intros Hg Hpic Hi Hi'. destruct (Hpic x y Hi) as (Ec & Hw & _); [done|].
  unfold move_up, get_cell, lift, bind, modify. rewrite Ec. cbn [of_option obind].
  rewrite set_word_ok by (by apply cell_index_ok). cbn [obind].
  set (c := <[_ := _]> (cells s)). assert (painted s (with_cells c s)) as Hp by (constructor; try done; apply length_insert).
  destruct (render_cell_picture (fun x' y' => (x', y') <> (x, y - 1)) (with_cells c s) g x (y - 1)
              (word_char (g x y)) (word_attribute (g x y))) as (s' & E & Hp' & Hpic');
    [by apply (geometry_painted s)|done|apply word_parts_ok|apply word_parts_ok|..].
  { intros x' y' Hin Hne. destruct (Hpic x' y' Hin) as (H1 & H2 & H3); [done|]. split_and!; [|done|done].
    cbn [cells with_cells]. unfold c. rewrite list_lookup_insert_ne; [done|]. intros E. apply Hne. symmetry. by apply (cell_index_inj s). }
  exists s'. split; [exact E|]. split; [by eapply painted_trans|]. rewrite word_of_parts in Hpic' by done.
  eapply picture_on_weaken; [exact Hpic'|]. intros x' y' _ _. split; [|done].
  destruct (decide ((x', y') = (x, y - 1))); [by right|by left].
Qed.

Lemma moves_picture (l : list (Z * Z)) s g :
  geometry_ok s -> picture s g -> (forall y x, (y, x) ∈ l -> in_grid s x y /\ in_grid s x (y - 1)) ->
  exists s', each l (fun '(y, x) => move_up y x) s = Ok (tt, s') /\ painted s s' /\ picture s' (moves l g).
Proof.
  revert s g. induction l as [|[y x] l IH]; intros s g Hg Hpic Hl.
  { exists s. split_and!; [done|apply painted_refl|done]. }
  destruct (Hl y x) as [Hi Hi']; [by left|]. cbn [each]. unfold bind.
  destruct (move_up_picture s g y x) as (s1 & -> & Hp1 & Hpic1); [done..|].
  destruct (IH s1 _ (geometry_painted _ _ Hp1 Hg) Hpic1) as (s2 & E & Hp2 & Hpic2).
  { intros y' x' Hin. rewrite !(in_grid_painted s s1) by done. apply Hl. by right. }
  exists s2. split; [done|]. split; [by eapply painted_trans|done].
Qed.

Lemma moves_row (y : Z) (n : nat) (a : Z) g x' y' :
  moves (map (pair y) (seqZ a (Z.of_nat n))) g x' y'
  = if (a <=? x') && (x' <? a + Z.of_nat n) && (y' =? y - 1) then g x' y else g x' y'.
Proof.
  revert a g. induction n as [|n IH]; intros a g.
  { destruct ((a <=? x') && (x' <? a + Z.of_nat 0)) eqn:E; breflect; [lia|done]. }
  rewrite seqZ_cons by lia. cbn [map moves fold_left]. fold (moves (map (pair y) (seqZ (Z.succ a) (Z.pred (Z.of_nat (Datatypes.S n))))) (step_up g (y, a))).
  replace (Z.pred (Z.of_nat (Datatypes.S n))) with (Z.of_nat n) by lia. rewrite IH. unfold step_up, put. cbn [fst snd].
  destruct (Z.eqb_spec x' a) as [->|Hx].
  - rewrite (proj2 (Z.leb_gt (Z.succ a) a)), (proj2 (Z.leb_le a a)), (proj2 (Z.ltb_lt a (a + Z.of_nat (Datatypes.S n)))) by lia. cbn [andb].
    by destruct (y' =? y - 1).
  - cbn [andb].
    replace ((Z.succ a <=? x') && (x' <? Z.succ a + Z.of_nat n)) with ((a <=? x') && (x' <? a + Z.of_nat (Datatypes.S n))); [done|].
    apply eq_true_iff_eq. rewrite !andb_true_iff, !Z.leb_le, !Z.ltb_lt. lia.
Qed.

(** Moving the rows from [a] on up, top row first. *)
Lemma moves_rows (w : Z) (n : nat) (a : Z) g x' y' :
  0 <= w -> 0 <= x' < w ->
  moves (list_prod (seqZ a (Z.of_nat n)) (seqZ 0 w)) g x' y'
  = if (a - 1 <=? y') && (y' <? a - 1 + Z.of_nat n) then g x' (y' + 1) else g x' y'.
Proof.
  intros Hw Hx. revert a g. induction n as [|n IH]; intros a g.
  { destruct ((a - 1 <=? y') && (y' <? a - 1 + Z.of_nat 0)) eqn:E; breflect; [lia|done]. }
  rewrite seqZ_cons by lia. cbn [list_prod]. unfold moves. rewrite fold_left_app.
  replace (Z.pred (Z.of_nat (Datatypes.S n))) with (Z.of_nat n) by lia.
  fold (moves (map (fun y => (a, y)) (seqZ 0 w)) g).
  fold (moves (list_prod (seqZ (Z.succ a) (Z.of_nat n)) (seqZ 0 w)) (moves (map (fun y => (a, y)) (seqZ 0 w)) g)).
  rewrite IH. change (map (fun y => (a, y)) (seqZ 0 w)) with (map (pair a) (seqZ 0 w)).
  rewrite <- (Z2Nat.id w) by done. rewrite !moves_row, (Z2Nat.id w) by done.
  rewrite (proj2 (Z.leb_le 0 x')), (proj2 (Z.ltb_lt x' _)) by lia. cbn [andb].
  destruct (Z.succ a - 1 <=? y') eqn:E1, (y' <? Z.succ a - 1 + Z.of_nat n) eqn:E2,
    (a - 1 <=? y') eqn:E3, (y' <? a - 1 + Z.of_nat (Datatypes.S n)) eqn:E4, (y' =? a - 1) eqn:E5,
    (y' + 1 =? a - 1) eqn:E6; breflect; cbn [andb]; try lia; try done; f_equal; lia.
Qed.

(** The abstract effect of scrolling one line. *)
Definition scrolled (h blank : Z) g : Z -> Z -> Z := fun x y => if y =? h - 1 then blank else g x (y + 1).

Lemma scroll_picture s g :
  geometry_ok s -> picture s g -> is_u8 (color (pn s)) -> height (geo s) <= row (pn s) ->
  exists s', scroll s = Ok (tt, with_pen (at_position (height (geo s) - 1) (col (pn s)) (pn s)) s') /\ painted s s' /\
    picture s' (scrolled (height (geo s)) (cell_word 32 (color (pn s))) g).
Proof.
  intros Hg Hpic Hc Hr. unfold scroll, bind, get. rewrite (proj2 (Z.ltb_ge _ _)) by done.
  pose proof (width_ok _ Hg) as Hw. pose proof (height_ok _ Hg) as Hh. rewrite each_each.
  destruct (moves_picture (list_prod (seqZ 1 (height (geo s) - 1)) (seqZ 0 (width (geo s)))) s g) as (s1 & -> & Hp1 & Hpic1); [done..| |].
  { intros y x Hin. apply elem_of_list_prod in Hin as [Hy%elem_of_seqZ Hx%elem_of_seqZ]. unfold in_grid. lia. }
  destruct (paint_all (fun x => (x, height (geo s) - 1)) (fun x => render_cell x (height (geo s) - 1) 32 (color (pn s)))
              (seqZ 0 (width (geo s))) everywhere s1 (moves (list_prod (seqZ 1 (height (geo s) - 1)) (seqZ 0 (width (geo s)))) g)
              32 (color (pn s))) as (s2 & E2 & Hp2 & Hpic2);
    [done|by apply (geometry_painted s)|by unfold is_u8|done| |done|].
  { intros x Hx%elem_of_seqZ. rewrite (in_grid_painted s s1) by done. unfold in_grid. cbn [fst snd]. lia. }
  rewrite E2. exists s2. pose proof (painted_trans _ _ _ Hp1 Hp2) as Hp. split; [|split; [done|]].
  - unfold move_to, modify. by rewrite (painted_pn _ _ Hp).
  - eapply picture_on_weaken; [exact Hpic2|]. intros x y Hi _. rewrite (in_grid_painted s s2) in Hi by done. destruct Hi as [Hx Hy].
    split; [by left|]. unfold scrolled, fill.
    assert ((x, y) ∈ map (fun x => (x, height (geo s) - 1)) (seqZ 0 (width (geo s))) <-> y = height (geo s) - 1) as Hin.
    { rewrite list_elem_of_fmap. setoid_rewrite elem_of_seqZ. split; [by intros (? & [= -> ->] & _)|intros ->; exists x; split; [done|lia]]. }
    pose proof (moves_rows (width (geo s)) (Z.to_nat (height (geo s) - 1)) 1 g x y) as Em. rewrite Z2Nat.id in Em by lia.
    rewrite (bool_decide_ext _ _ Hin), Em by lia. destruct (Z.eqb_spec y (height (geo s) - 1)) as [->|Hne].
    + by rewrite bool_decide_eq_true_2.
    + rewrite bool_decide_eq_false_2 by done. rewrite (proj2 (Z.leb_le _ _)), (proj2 (Z.ltb_lt _ _)) by lia. done.
Qed.

(** ** Clearing *)

(** Clearing paints every cell, whatever was on the screen before. *)
Lemma clear_picture s :
  geometry_ok s -> is_u8 (color (pn s)) ->
  exists s', each (seqZ 0 (height (geo s))) (fun y => each (seqZ 0 (width (geo s))) (fun x => render_cell x y 32 (color (pn s)))) s
             = Ok (tt, s') /\ painted s s' /\ picture s' (fun _ _ => cell_word 32 (color (pn s))).
Proof.
  intros Hg Hc. rewrite each_each. set (w := cell_word 32 (color (pn s))).
  destruct (paint_all (fun p : Z * Z => (snd p, fst p)) (fun '(y, x) => render_cell x y 32 (color (pn s)))
              (list_prod (seqZ 0 (height (geo s))) (seqZ 0 (width (geo s)))) (fun _ _ => False) s (fun _ _ => w)
              32 (color (pn s))) as (s' & E & Hp & Hpic); [by intros []|done|by unfold is_u8|done| |by intros ? ? _ []|].
  { intros [y x] [Hy%elem_of_seqZ Hx%elem_of_seqZ]%elem_of_list_prod. unfold in_grid. cbn [fst snd]. lia. }
  exists s'. split; [done|]. split; [done|]. eapply picture_on_weaken; [exact Hpic|].
  intros x y Hi _. rewrite (in_grid_painted s s') in Hi by done. destruct Hi as [Hx Hy]. split.
  - right. apply list_elem_of_fmap. exists (y, x). split; [done|]. apply elem_of_list_prod. rewrite !elem_of_seqZ. lia.
  - unfold fill. by destruct (bool_decide _).
Qed.

(** ** The cursor *)

Lemma drawn_same (c : cursor) : drawn (cursor_drawn c) c = c.
Proof. by destruct c. Qed.

Lemma with_same s : with_cur (cur s) (with_vram (vram s) s) = s.
Proof. by destruct s. Qed.

Lemma off_screen_grid s : 0 <= cursor_x (cur s) /\ 0 <= cursor_y (cur s) ->
  off_screen s = false <-> in_grid s (cursor_x (cur s)) (cursor_y (cur s)).
Proof. intros Hn. unfold off_screen, in_grid. rewrite orb_false_iff, !Z.leb_gt. lia. Qed.

(** Painting the cell under the cursor. *)
Lemma cursor_cell_picture s g (b : bool) a :
  geometry_ok s -> picture s g -> framebuffer (geo s) <> 0 -> in_grid s (cursor_x (cur s)) (cursor_y (cur s)) ->
  let w := g (cursor_x (cur s)) (cursor_y (cur s)) in
  a = (if b then inverted (cursor_full_block (cur s)) (word_attribute w) else word_attribute w) ->
  exists v, framebuffer_cell (cursor_x (cur s)) (cursor_y (cur s)) (word_char w) a s = Ok (tt, with_vram v s) /\
    size v = size (vram s) /\ picture (with_cur (drawn b (cur s)) (with_vram v s)) g.
Proof.
  intros Hg Hpic Hf Hi w Ea.
  destruct (framebuffer_cell_ok s (cursor_x (cur s)) (cursor_y (cur s)) (word_char w) a) as (v & E & Hs & Hr & Hk); [done..|].
  exists v. split; [done|]. split; [done|]. intros x y Hin _. destruct (Hpic x y Hin) as (H1 & H2 & H3); [done|].
  split; [done|]. split; [done|]. unfold shows_word, cursor_shown, shows in *. cbn [geo vram with_cur with_vram cur drawn cursor_drawn cursor_x cursor_y cursor_full_block] in *.
  rewrite (proj2 (Z.eqb_neq _ _)) in * by done.
  destruct (decide ((x, y) = (cursor_x (cur s), cursor_y (cur s)))) as [[= -> ->]|Hne].
  - destruct b; [right|left]; rewrite Ea in Hr; [split_and!; done|done].
  - left. destruct H3 as [H3|(_ & -> & -> & _)]; [|done]. intros py px Hpy Hpx. rewrite <- H3 by done. by apply Hk.
Qed.

Lemma cursor_restore_ok s g :
  geometry_ok s -> cursor_ok s -> picture s g ->
  exists v, cursor_restore s = Ok (tt, with_cur (drawn false (cur s)) (with_vram v s)) /\ size v = size (vram s) /\
    picture (with_cur (drawn false (cur s)) (with_vram v s)) g.
Proof.
  intros Hg [Hn Hd Ht] Hpic. unfold cursor_restore, bind, get. destruct ((framebuffer (geo s) =? 0) || negb (cursor_drawn (cur s)) || off_screen s) eqn:E.
  - assert (cursor_drawn (cur s) = false) as Ed.
    { destruct (cursor_drawn (cur s)) eqn:Ed; [|done]. apply orb_true_iff in E as [[Ef|?]%orb_true_iff|Eo]; [|done|].
      - apply Z.eqb_eq in Ef. specialize (Ht Ef). congruence.
      - by rewrite (proj2 (off_screen_grid s Hn) (Hd eq_refl)) in Eo. }
    assert (drawn false (cur s) = cur s) as -> by (rewrite <- Ed; apply drawn_same).
    exists (vram s). by rewrite with_same.
  - apply orb_false_iff in E as [[Ef Ed]%orb_false_iff Eo]. apply Z.eqb_neq in Ef. apply (off_screen_grid s Hn) in Eo.
    destruct (Hpic _ _ Eo) as (Ec & _ & _); [done|]. unfold get_cell, lift. rewrite Ec. cbn [of_option obind].
    destruct (cursor_cell_picture s g false (word_attribute (g (cursor_x (cur s)) (cursor_y (cur s))))) as (v & E & Hs & Hp); [done..|].
    unfold word_char, word_attribute in E. rewrite E. by exists v.
Qed.

Lemma cursor_draw_ok s g :
  geometry_ok s -> cursor_ok s -> picture s g ->
  exists v b, cursor_draw s = Ok (tt, with_cur (drawn b (cur s)) (with_vram v s)) /\ size v = size (vram s) /\
    cursor_ok (with_cur (drawn b (cur s)) (with_vram v s)) /\ picture (with_cur (drawn b (cur s)) (with_vram v s)) g.
Proof.
  intros Hg Hcu Hpic. pose proof Hcu as [Hn Hd Ht]. unfold cursor_draw, bind, get.
  destruct ((framebuffer (geo s) =? 0) || negb (cursor_visible (cur s)) || cursor_drawn (cur s) || off_screen s) eqn:E.
  - exists (vram s), (cursor_drawn (cur s)). rewrite drawn_same, with_same. done.
  - apply orb_false_iff in E as [[[Ef Ev]%orb_false_iff Ed]%orb_false_iff Eo]. apply Z.eqb_neq in Ef. apply (off_screen_grid s Hn) in Eo.
    destruct (Hpic _ _ Eo) as (Ec & _ & _); [done|]. unfold get_cell, lift. rewrite Ec. cbn [of_option obind].
    destruct (cursor_cell_picture s g true (inverted (cursor_full_block (cur s)) (word_attribute (g (cursor_x (cur s)) (cursor_y (cur s))))))
      as (v & E & Hs & Hp); [done..|].
    unfold word_char, word_attribute in E. rewrite E. exists v, true. split_and!; try done.
Qed.

Lemma picture_move_cursor s g c : cursor_drawn (cur s) = false -> picture s g -> picture (with_cur c s) g.
Proof.
  intros Ed Hp x y Hi _. destruct (Hp x y Hi) as (H1 & H2 & [H3|(H3 & _)]); [done| |congruence]. split_and!; try done. by left.
Qed.

(** ** Output that leaves the screen alone *)

(** Ports and the serial line. *)
Definition quiet (m : P unit) : Prop := forall s, exists d, m s = Ok (tt, with_dev d s).

Lemma quiet_ret : quiet (ret tt).
Proof. intros s. exists (dev s). by destruct s. Qed.

Lemma quiet_seq (m k : P unit) : quiet m -> quiet k -> quiet (m ;; k).
Proof.
  intros Hm Hk s. unfold bind. destruct (Hm s) as [d ->]. destruct (Hk (with_dev d s)) as [d' ->]. by exists d'.
Qed.

Lemma quiet_get (f : S -> P unit) : (forall s, quiet (f s)) -> quiet (let! s := get in f s).
Proof. intros Hf s. apply Hf. Qed.

Lemma quiet_if (b : bool) (m k : P unit) : quiet m -> quiet k -> quiet (if b then m else k).
Proof. by destruct b. Qed.

Lemma quiet_port_out (p v : Z) : quiet (port_out p v).
Proof. intros s. by eexists. Qed.

Lemma quiet_serial_wait (n : nat) (c : Z) : quiet (serial_wait n c).
Proof.
  induction n as [|n IH]; [apply quiet_ret|]. intros s. cbn [serial_wait]. unfold bind, port_in.
  destruct (inb (COM1 + 5) (dev s)) as [st d]. destruct (z2b (Z.land (u8 st) 32)); [by eexists|].
  destruct (IH (with_dev d s)) as [d' ->]. by exists d'.
Qed.

Lemma quiet_serial_put (c : Z) : quiet (serial_put c).
Proof. apply quiet_get. intros s. apply quiet_if; [apply quiet_serial_wait|apply quiet_ret]. Qed.

Lemma quiet_each {A} (f : A -> P unit) (l : list A) : (forall a, quiet (f a)) -> quiet (each l f).
Proof. intros Hf. induction l; [apply quiet_ret|]. by apply quiet_seq. Qed.

Lemma quiet_serial_raw (l : list Z) : quiet (serial_raw l).
Proof. apply quiet_each, quiet_serial_put. Qed.

Lemma quiet_cursor_vga : quiet cursor_vga.
Proof.
  apply quiet_get. intros s. apply quiet_if; [apply quiet_ret|]. repeat apply quiet_seq; apply quiet_port_out.
Qed.

End screen.

Create HintDb quiet.
#[export] Hint Resolve quiet_ret quiet_seq quiet_if quiet_port_out quiet_serial_put quiet_serial_raw quiet_cursor_vga : quiet.
