(* ===== verification/FbTheorems.v ===== *)
(** * The display refines an abstract terminal

    The abstract terminal is a grid of cell words and a pen; each operation of
    FbDisplay.v is one step of it, and the screen always shows the grid. *)

From stdpp Require Import base numbers list strings.
From Stdlib Require Import ZArith Lia.
From S2P Require Import Prelude Effects Ports Multiboot Font VideoMemory FbDisplay FbScreen.

(** ** The abstract terminal *)

Record terminal := Terminal { t_grid : Z -> Z -> Z; t_pen : pen }.

Inductive call :=
| Putc (c : Z)
| Color (c : Z)
| Clear
| SetCell (x y ch attribute : Z)
| CursorSet (x y : Z) (visible full_block : bool)
| CursorLeft
| CursorRight
| CursorTick (ns : Z)
| CursorActivity (ns : Z)
| Styled (t : list Z).

Definition goto (y x : Z) (t : terminal) : terminal := Terminal (t_grid t) (at_position y x (t_pen t)).
Definition write (x y w : Z) (t : terminal) : terminal := Terminal (put x y w (t_grid t)) (t_pen t).
Definition blank (t : terminal) : Z := cell_word 32 (color (t_pen t)).

(** Scrolling one line once the pen has left the last row. *)
Definition feed (h : Z) (t : terminal) : terminal :=
  if row (t_pen t) <? h then t
  else goto (h - 1) (col (t_pen t)) (Terminal (scrolled h (blank t) (t_grid t)) (t_pen t)).

Definition type_char (w c : Z) (t : terminal) : terminal :=
  let r := row (t_pen t) in let k := col (t_pen t) in
  if c =? 10 then goto (r + 1) 0 t
  else if c =? 8 then if k =? 0 then t else goto r (k - 1) (write (k - 1) r (blank t) t)
  else let t := write k r (cell_word (u8 c) (color (t_pen t))) t in
       if k + 1 =? w then goto (r + 1) 0 t else goto r (k + 1) t.

Definition style (f b : Z) (t : terminal) : terminal :=
  let p := t_pen t in Terminal (t_grid t) (pen_apply (Pen (row p) (col p) (color p) f b)).

(** The cell number [p] along the rows. *)
Definition seek (w p : Z) (t : terminal) : terminal := goto (p / w) (p mod w) t.

Fixpoint style_text (fuel : nat) (w h : Z) (l : list Z) (t : terminal) : terminal :=
  match fuel, l with
  | S fuel, c :: rest =>
    let p := t_pen t in
    if tag l (text "(bold)") then style_text fuel w h (drop 6 l) (style (fg p) 1 t)
    else if tag l (text "(/bold)") then style_text fuel w h (drop 7 l) (style (fg p) 0 t)
    else if tag l (text "(green)") then style_text fuel w h (drop 7 l) (style 2 (bold p) t)
    else if tag l (text "(yellow)") then style_text fuel w h (drop 8 l) (style 6 (bold p) t)
    else if tag l (text "(white)") then style_text fuel w h (drop 7 l) (style 7 (bold p) t)
    else if tag l (text "(reset)") then style_text fuel w h (drop 7 l) (style 7 0 t)
    else style_text fuel w h rest (feed h (type_char w c t))
  | _, _ => t
  end.

Definition clamp (n x : Z) : Z := if n <=? x then n - 1 else x.

Definition terminal_step (w h : Z) (c : call) (t : terminal) : terminal :=
  let p := t_pen t in
  match c with
  | Putc c => feed h (type_char w c t)
  | Color c => style (c mod 8) (if Z.testbit c 3 then 1 else 0) t
  | Clear => goto 0 0 (Terminal (fun _ _ => blank t) p)
  | SetCell x y ch a => if (x <? w) && (y <? h) then write x y (cell_word ch a) t else t
  | CursorSet x y _ _ => goto (clamp h y) (clamp w x) t
  | CursorLeft => if row p * w + col p =? 0 then t else seek w (row p * w + col p - 1) t
  | CursorRight => if row p * w + col p + 1 <? w * h then seek w (row p * w + col p + 1) t else t
  | CursorTick _ | CursorActivity _ => t
  | Styled l => style 7 0 (style_text (length l) w h l t)
  end.

Definition call_ok (c : call) : Prop :=
  match c with
  | Putc c => is_u8 c
  | Color c => is_u8 c
  | SetCell x y ch a => 0 <= x /\ 0 <= y /\ is_u8 ch /\ is_u8 a
  | CursorSet x y _ _ => 0 <= x /\ 0 <= y
  | CursorTick ns | CursorActivity ns => is_u64 ns
  | Styled l => Forall is_u8 l
  | Clear | CursorLeft | CursorRight => True
  end.

Section theorems.
Context {D : Type} `{Ports D}.

Local Abbreviation S := (display D).
Local Abbreviation P := (M (display D)).

Implicit Types (s : S) (t : terminal) (gm : geometry).

Definition run_call (c : call) : P unit :=
  match c with
  | Putc c => display_putc c
  | Color c => display_color c
  | Clear => display_clear
  | SetCell x y ch a => display_set_cell x y ch a
  | CursorSet x y v f => display_cursor_set x y v f
  | CursorLeft => display_cursor_left
  | CursorRight => display_cursor_right
  | CursorTick ns => display_cursor_tick ns
  | CursorActivity ns => display_cursor_activity ns
  | Styled l => display_styled l
  end.

(** ** The relation *)

Definition coherent s g : Prop := geometry_ok s /\ cursor_ok s /\ picture s g.

Lemma coherent_alike s s' g :
  geo s' = geo s -> cur s' = cur s -> cells s' = cells s -> vga s' = vga s -> vram s' = vram s ->
  coherent s g -> coherent s' g.
Proof.
  destruct s, s'. cbn. intros -> -> -> -> -> (Hg & Hc & Hp).
  split_and!; [by destruct Hg; constructor|by destruct Hc; constructor|exact Hp].
Qed.

(** The display in this geometry shows this terminal. *)
Record shows_terminal gm s t : Prop := {
  st_geo : geo s = gm;
  st_coherent : coherent s (t_grid t);
  st_pen : pn s = t_pen t;
  st_sink : output_sink s = None
}.

Definition pen_in gm (p : pen) : Prop :=
  0 <= row p < height gm /\ 0 <= col p < width gm /\ is_u8 (color p) /\ is_u8 (fg p).

Definition undrawn s : Prop := cursor_drawn (cur s) = false.

(** [m] takes a terminal shown to another one shown, and does not draw the cursor. *)
Definition draws gm (m : P unit) t t' : Prop :=
  forall s, shows_terminal gm s t -> undrawn s -> exists s', m s = Ok (tt, s') /\ shows_terminal gm s' t' /\ undrawn s'.

Lemma draws_seq gm (m k : P unit) t t1 t2 : draws gm m t t1 -> draws gm k t1 t2 -> draws gm (m ;; k) t t2.
Proof.
  intros Hm Hk s Hs Hu. destruct (Hm s Hs Hu) as (s1 & E1 & Hs1 & Hu1). unfold bind. rewrite E1. by apply Hk.
Qed.

Lemma draws_nothing gm t : draws gm (ret tt) t t.
Proof. intros s Hs Hu. by exists s. Qed.

Lemma shows_dev gm s t d : shows_terminal gm s t -> shows_terminal gm (with_dev d s) t.
Proof. intros [H1 H2 H3 H4]. constructor; try done. by apply (coherent_alike s). Qed.

Lemma draws_quiet gm (m : P unit) t : quiet m -> draws gm m t t.
Proof. intros Hm s Hs Hu. destruct (Hm s) as [d E]. exists (with_dev d s). split; [done|]. split; [by apply shows_dev|done]. Qed.

Lemma draws_move gm y x t : draws gm (move_to y x) t (goto y x t).
Proof.
  intros s [H1 H2 H3 H4] Hu. eexists. split; [reflexivity|]. split; [|done]. constructor; try done.
  - by apply (coherent_alike s).
  - cbn. by rewrite H3.
Qed.

Lemma draws_count gm t : draws gm count_character t t.
Proof.
  intros s [H1 H2 H3 H4] Hu. eexists. split; [reflexivity|]. split; [|done]. constructor; try done. by apply (coherent_alike s).
Qed.

Lemma painted_coherent s s' g g' : painted s s' -> coherent s g -> picture s' g' -> coherent s' g'.
Proof.
  intros Hp (Hg & [Hn Hd Ht] & _) Hpic. split_and!; [by apply (geometry_painted s)| |done].
  constructor; unfold in_grid; rewrite ?(painted_cur _ _ Hp), ?(painted_geo _ _ Hp); done.
Qed.

Lemma painted_shows gm s s' t g : shows_terminal gm s t -> painted s s' -> picture s' g -> shows_terminal gm s' (Terminal g (t_pen t)).
Proof.
  intros [H1 H2 H3 H4] Hp Hpic. constructor.
  - by rewrite (painted_geo _ _ Hp).
  - by eapply painted_coherent.
  - by rewrite (painted_pn _ _ Hp).
  - by rewrite (painted_sink _ _ Hp).
Qed.

Lemma draws_render gm x y ch a t :
  0 <= x < width gm -> 0 <= y < height gm -> is_u8 ch -> is_u8 a ->
  forall s, shows_terminal gm s t ->
  exists s', render_cell x y ch a s = Ok (tt, s') /\ shows_terminal gm s' (write x y (cell_word ch a) t) /\ cur s' = cur s.
Proof.
  intros Hx Hy Hc Ha s Hs. pose proof Hs as [Eg (Hg & _ & Hpic) _ _].
  destruct (render_cell_picture everywhere s (t_grid t) x y ch a) as (s' & E & Hp & Hpic'); [done|unfold in_grid; by rewrite Eg|done..|].
  exists s'. split; [done|]. split; [|apply (painted_cur _ _ Hp)]. apply (painted_shows gm s); [done..|].
  eapply picture_on_weaken; [exact Hpic'|]. intros; split; [by left|done].
Qed.

Lemma draws_cell gm x y ch a t :
  0 <= x < width gm -> 0 <= y < height gm -> is_u8 ch -> is_u8 a -> draws gm (render_cell x y ch a) t (write x y (cell_word ch a) t).
Proof.
  intros Hx Hy Hc Ha s Hs Hu. destruct (draws_render gm x y ch a t Hx Hy Hc Ha s Hs) as (s' & E & Hs' & Ec).
  exists s'. split; [done|]. split; [done|]. unfold undrawn. by rewrite Ec.
Qed.

(** ** Characters *)

Lemma u8_range (c : Z) : is_u8 (u8 c).
Proof. unfold is_u8, u8. apply Z.mod_pos_bound. lia. Qed.

Lemma u8_32 : is_u8 32.
Proof. unfold is_u8. lia. Qed.

Lemma draws_character gm c t : pen_in gm (t_pen t) -> draws gm (put_character (t_pen t) (width gm) c) t (type_char (width gm) c t).
Proof.
  intros (Hr & Hk & Hc & _). unfold put_character, type_char, when. destruct (c =? 10); [|destruct (c =? 8); [destruct (Z.eqb_spec (col (t_pen t)) 0)|]].
  - eapply draws_seq; [apply draws_move|]. apply draws_quiet; auto with quiet.
  - apply draws_nothing.
  - eapply draws_seq; [apply draws_move|]. eapply draws_seq; [apply draws_cell; [lia|done|apply u8_32|done]|].
    apply draws_quiet; auto with quiet.
  - eapply draws_seq; [apply draws_cell; [done|done|apply u8_range|done]|]. eapply draws_seq; [apply draws_move|].
    eapply draws_seq; [apply draws_quiet; auto with quiet|]. destruct (col (t_pen t) + 1 =? width gm); [|apply draws_nothing].
    match goal with |- draws _ _ ?t0 _ => exact (draws_move gm _ 0 t0) end.
Qed.

(** The pen after a character: at most one row below the screen. *)
Lemma type_char_pen gm c t :
  pen_in gm (t_pen t) -> let p := t_pen (type_char (width gm) c t) in
  0 <= row p <= height gm /\ 0 <= col p < width gm /\ color p = color (t_pen t) /\ fg p = fg (t_pen t) /\ bold p = bold (t_pen t).
Proof.
  intros (Hr & Hk & _). unfold type_char. destruct (c =? 10); [cbn; lia|]. destruct (c =? 8).
  - destruct (Z.eqb_spec (col (t_pen t)) 0); cbn; lia.
  - destruct (Z.eqb_spec (col (t_pen t) + 1) (width gm)); cbn; lia.
Qed.

Lemma draws_scroll gm t :
  is_u8 (color (t_pen t)) -> draws gm scroll t (feed (height gm) t).
Proof.
  intros Hc s Hs Hu. pose proof Hs as [Eg (Hg & Hcu & Hpic) Ep Esk]. unfold feed. destruct (Z.ltb_spec (row (t_pen t)) (height gm)) as [Hlt|Hge].
  - exists s. split; [|done]. unfold scroll, bind, get. rewrite Ep, Eg, (proj2 (Z.ltb_lt _ _)) by done. done.
  - destruct (scroll_picture s (t_grid t)) as (s' & E & Hp & Hpic'); [done|done|by rewrite Ep|by rewrite Ep, Eg|].
    eexists. split; [exact E|]. split; [|unfold undrawn; cbn; by rewrite (painted_cur _ _ Hp)].
    rewrite Eg, Ep in *. constructor.
    + cbn. by rewrite (painted_geo _ _ Hp).
    + apply (coherent_alike s'); try done. by eapply painted_coherent.
    + done.
    + cbn. by rewrite (painted_sink _ _ Hp).
Qed.

(** ** The cursor *)

Lemma restore_shows gm s t :
  shows_terminal gm s t -> exists s', cursor_restore s = Ok (tt, s') /\ shows_terminal gm s' t /\ cur s' = drawn false (cur s) /\ size (vram s') = size (vram s).
Proof.
  intros [Eg (Hg & [Hn Hd Ht] & Hpic) Ep Esk]. destruct (cursor_restore_ok s (t_grid t)) as (v & E & Hs & Hpic'); [done..|].
  eexists. split; [exact E|]. split; [|done]. constructor; try done. split_and!; [|by constructor|exact Hpic'].
  destruct Hg as [H1 H2 H3 H4 H5]. constructor; try done. cbn. by rewrite Hs.
Qed.

Lemma draw_shows gm s t :
  shows_terminal gm s t -> exists s', cursor_draw s = Ok (tt, s') /\ shows_terminal gm s' t /\ lst s' = lst s.
Proof.
  intros [Eg (Hg & Hcu & Hpic) Ep Esk]. destruct (cursor_draw_ok s (t_grid t)) as (v & b & E & Hs & Hcu' & Hpic'); [done..|].
  eexists. split; [exact E|]. split; [|done]. constructor; try done. split_and!; [|exact Hcu'|exact Hpic'].
  destruct Hg as [H1 H2 H3 H4 H5]. constructor; try done. cbn. by rewrite Hs.
Qed.

(** Moving the cursor that is not drawn. *)
Lemma place_shows gm s t c :
  shows_terminal gm s t -> undrawn s -> cursor_drawn c = false -> 0 <= cursor_x c -> 0 <= cursor_y c ->
  shows_terminal gm (with_cur c s) t.
Proof.
  intros [Eg (Hg & Hcu & Hpic) Ep Esk] Hu Hd Hx Hy. constructor; try done.
  split_and!; [by destruct Hg; constructor| |by apply picture_move_cursor]. constructor; cbn; [done|by rewrite Hd|done].
Qed.

Lemma draws_to_pen gm t : 0 <= row (t_pen t) -> 0 <= col (t_pen t) -> draws gm cursor_to_pen t t.
Proof.
  intros Hr Hc s Hs Hu. eexists. split; [reflexivity|]. split; [|done]. apply place_shows; [done..|exact Hu| |]; cbn; by rewrite (st_pen _ _ _ Hs).
Qed.

(** ** Operations *)

(** [m] is the step from [t] to [t'], whatever the cursor. *)
Definition steps gm (m : P unit) t t' : Prop :=
  forall s, shows_terminal gm s t -> exists s', m s = Ok (tt, s') /\ shows_terminal gm s' t'.

Lemma steps_seq gm (m k : P unit) t t1 t2 : steps gm m t t1 -> steps gm k t1 t2 -> steps gm (m ;; k) t t2.
Proof. intros Hm Hk s Hs. destruct (Hm s Hs) as (s1 & E1 & Hs1). unfold bind. rewrite E1. by apply Hk. Qed.

Lemma steps_nothing gm t : steps gm (ret tt) t t.
Proof. intros s Hs. by exists s. Qed.

Lemma steps_reading gm (f : S -> P unit) t t' :
  (forall s, shows_terminal gm s t -> steps gm (f s) t t') -> steps gm (let! s := get in f s) t t'.
Proof. intros Hf s Hs. by apply Hf. Qed.

Lemma steps_quiet gm (m : P unit) t : quiet m -> steps gm m t t.
Proof. intros Hm s Hs. destruct (Hm s) as [d E]. exists (with_dev d s). split; [done|]. by apply shows_dev. Qed.

Lemma steps_draw gm t : steps gm cursor_draw t t.
Proof. intros s Hs. destruct (draw_shows gm s t Hs) as (s' & E & Hs' & _). eauto. Qed.

Lemma steps_restore gm t : steps gm cursor_restore t t.
Proof. intros s Hs. destruct (restore_shows gm s t Hs) as (s' & E & Hs' & _). eauto. Qed.

(** As [steps], while the cursor is off the screen. *)
Definition under gm (m : P unit) t t' : Prop :=
  forall s, shows_terminal gm s t -> undrawn s -> exists s', m s = Ok (tt, s') /\ shows_terminal gm s' t'.

Lemma under_seq gm (m k : P unit) t t1 t2 : draws gm m t t1 -> under gm k t1 t2 -> under gm (m ;; k) t t2.
Proof. intros Hm Hk s Hs Hu. destruct (Hm s Hs Hu) as (s1 & E1 & Hs1 & Hu1). unfold bind. rewrite E1. by apply Hk. Qed.

Lemma under_steps gm (m : P unit) t t' : steps gm m t t' -> under gm m t t'.
Proof. intros Hm s Hs _. by apply Hm. Qed.

Lemma steps_under gm (k : P unit) t t' : under gm k t t' -> steps gm (cursor_restore ;; k) t t'.
Proof.
  intros Hk s Hs. destruct (restore_shows gm s t Hs) as (s1 & E1 & Hs1 & Ec & _). unfold bind. rewrite E1.
  apply Hk; [done|]. unfold undrawn. by rewrite Ec.
Qed.

Lemma feed_pen gm t :
  1 <= height gm -> 0 <= row (t_pen t) <= height gm -> let p := t_pen (feed (height gm) t) in
  0 <= row p < height gm /\ col p = col (t_pen t) /\ color p = color (t_pen t) /\ fg p = fg (t_pen t) /\ bold p = bold (t_pen t).
Proof. intros Hh Hr. unfold feed. destruct (Z.ltb_spec (row (t_pen t)) (height gm)); cbn; lia. Qed.

Definition sizes gm : Prop := 1 <= width gm <= MAX_WIDTH /\ 1 <= height gm <= MAX_HEIGHT.

Lemma shows_sizes gm s t : shows_terminal gm s t -> sizes gm.
Proof. intros [<- (Hg & _) _ _]. split; [apply (width_ok _ Hg)|apply (height_ok _ Hg)]. Qed.

Lemma putc_pen gm c t : sizes gm -> pen_in gm (t_pen t) -> pen_in gm (t_pen (feed (height gm) (type_char (width gm) c t))).
Proof.
  intros [_ Hh] Hp. pose proof Hp as (_ & _ & Hc & Hf). destruct (type_char_pen gm c t Hp) as (Hr & Hk & E1 & E2 & _).
  destruct (feed_pen gm (type_char (width gm) c t)) as (Hr' & E3 & E4 & E5 & _); [lia|done|]. unfold pen_in.
  rewrite E3, E4, E5, E1, E2. done.
Qed.

Lemma steps_putc gm c t : pen_in gm (t_pen t) -> steps gm (display_putc c) t (terminal_step (width gm) (height gm) (Putc c) t).
Proof.
  intros Hp. apply steps_reading. intros s Hs. rewrite (st_sink _ _ _ Hs), (st_pen _ _ _ Hs), (st_geo _ _ _ Hs).
  pose proof (shows_sizes _ _ _ Hs) as Hsz. destruct (type_char_pen gm c t Hp) as (Hr & Hk & Ec & _).
  apply steps_under. eapply under_seq; [apply draws_count|]. eapply under_seq; [by apply draws_character|].
  eapply under_seq; [apply draws_scroll; rewrite Ec; apply Hp|].
  destruct (feed_pen gm (type_char (width gm) c t)) as (Hr' & Hc' & _); [apply Hsz|done|].
  eapply under_seq; [apply draws_to_pen; [apply Hr'|rewrite Hc'; apply Hk]|]. apply under_steps.
  eapply steps_seq; [apply steps_draw|]. apply steps_quiet; auto with quiet.
Qed.

Lemma steps_apply gm t : steps gm apply t (Terminal (t_grid t) (pen_apply (t_pen t))).
Proof.
  unfold apply. eapply steps_seq with (t1 := Terminal (t_grid t) (pen_apply (t_pen t))).
  - intros s [H1 H2 H3 H4]. eexists. split; [reflexivity|]. constructor; try done; [by apply (coherent_alike s)|cbn; by rewrite H3].
  - apply steps_quiet. apply quiet_get. intros s. unfold when. auto with quiet.
Qed.

Lemma steps_style gm f b t : steps gm (set_pen f b ;; apply) t (style f b t).
Proof.
  set (t1 := Terminal (t_grid t) (Pen (row (t_pen t)) (col (t_pen t)) (color (t_pen t)) f b)).
  eapply steps_seq; [|exact (steps_apply gm t1)].
  intros s [H1 H2 H3 H4]. eexists. split; [reflexivity|]. constructor; try done; [by apply (coherent_alike s)|cbn; by rewrite H3].
Qed.

Lemma z2b_testbit (c : Z) : z2b (Z.land c 8) = Z.testbit c 3.
Proof.
  change 8 with (2 ^ 3). unfold z2b. destruct (Z.testbit c 3) eqn:E.
  - apply negb_true_iff, Z.eqb_neq. intros E'. pose proof (f_equal (fun x => Z.testbit x 3) E') as E2. cbv beta in E2.
    rewrite Z.land_spec, E, Z.bits_0, Z.pow2_bits_true in E2 by lia. done.
  - apply negb_false_iff, Z.eqb_eq. apply Z.bits_inj'. intros i Hi. rewrite Z.land_spec, Z.bits_0.
    destruct (decide (i = 3)) as [->|]; [by rewrite E|]. rewrite Z.pow2_bits_false by done. apply andb_false_r.
Qed.

Lemma steps_color gm c t : is_u8 c -> steps gm (display_color c) t (terminal_step (width gm) (height gm) (Color c) t).
Proof.
  intros Hc. unfold display_color, terminal_step. rewrite z2b_testbit. change 7 with (Z.ones 3). rewrite Z.land_ones by lia. change (2 ^ 3) with 8.
  assert (u8 (c mod 8) = c mod 8) as -> by (unfold u8; apply Z.mod_small; Z.div_mod_to_equations; lia). apply steps_style.
Qed.

(** Clearing shows a blank screen, whatever was shown before. *)
Lemma clear_shows gm s :
  geo s = gm -> geometry_ok s -> cursor_ok s -> is_u8 (color (pn s)) -> output_sink s = None ->
  exists s', display_clear s = Ok (tt, s') /\ lst s' = lst s /\ font_memory s' = font_memory s /\
    shows_terminal gm s' (Terminal (fun _ _ => cell_word 32 (color (pn s))) (at_position 0 0 (pn s))).
Proof.
  intros Eg Hg Hcu Hc Hk. destruct (clear_picture s Hg Hc) as (s1 & E1 & Hp & Hpic).
  unfold display_clear. unfold bind at 1. unfold get. unfold bind at 1. rewrite E1.
  assert (coherent s1 (fun _ _ => cell_word 32 (color (pn s)))) as Hco.
  { split_and!; [by apply (geometry_painted s)| |done]. destruct Hcu as [Hn Hd Ht].
    constructor; unfold in_grid; rewrite ?(painted_cur _ _ Hp), ?(painted_geo _ _ Hp); done. }
  assert (shows_terminal gm (with_pen (at_position 0 0 (pn s1)) s1) (Terminal (fun _ _ => cell_word 32 (color (pn s))) (at_position 0 0 (pn s)))) as Hs.
  { constructor; [by rewrite <- Eg; apply (painted_geo _ _ Hp)|by apply (coherent_alike s1)|cbn; by rewrite (painted_pn _ _ Hp)|cbn; by rewrite (painted_sink _ _ Hp)]. }
  assert (quiet (cursor_vga ;; serial_raw (27 :: text "[2J" ++ 27 :: text "[H"))) as Hq by auto with quiet.
  destruct (Hq (with_pen (at_position 0 0 (pn s1)) s1)) as [d Ed]. unfold move_to, modify, bind at 1. rewrite Ed.
  eexists. split; [reflexivity|]. cbn [lst font_memory with_dev with_pen].
  split; [apply (painted_lst _ _ Hp)|]. split; [apply (painted_font _ _ Hp)|]. by apply shows_dev.
Qed.

Lemma steps_clear gm t : is_u8 (color (t_pen t)) -> steps gm display_clear t (terminal_step (width gm) (height gm) Clear t).
Proof.
  intros Hc s [Eg (Hg & Hcu & _) Ep Ek]. destruct (clear_shows gm s) as (s' & E & _ & _ & Hs'); [done..|by rewrite Ep|done|].
  rewrite Ep in Hs'. eauto.
Qed.

Lemma steps_set_cell gm x y ch a t :
  0 <= x -> 0 <= y -> is_u8 ch -> is_u8 a ->
  steps gm (display_set_cell x y ch a) t (terminal_step (width gm) (height gm) (SetCell x y ch a) t).
Proof.
  intros Hx Hy Hc Ha. apply steps_reading. intros s Hs. rewrite (st_geo _ _ _ Hs). cbn [terminal_step].
  destruct (Z.ltb_spec x (width gm)) as [Hxw|Hxw], (Z.ltb_spec y (height gm)) as [Hyh|Hyh]; cbn [andb].
  2-4: rewrite ?(proj2 (Z.leb_le (width gm) x)), ?(proj2 (Z.leb_le (height gm) y)), ?orb_true_r by lia; apply steps_nothing.
  rewrite (proj2 (Z.leb_gt (width gm) x)), (proj2 (Z.leb_gt (height gm) y)) by lia. cbn [orb].
  eapply steps_seq.
  - intros s1 Hs1. destruct (draws_render gm x y ch a t) with (5 := Hs1) as (s2 & E & Hs2 & _); [done..|]. by exists s2.
  - apply steps_quiet. unfold when, serial_number, serial_cell. apply quiet_if; [|apply quiet_ret].
    repeat apply quiet_seq; auto with quiet.
Qed.

Lemma clamp_range (n x : Z) : 1 <= n -> 0 <= x -> 0 <= clamp n x < n.
Proof. intros Hn Hx. unfold clamp. destruct (Z.leb_spec n x); lia. Qed.

Lemma draws_place gm x y v f t :
  0 <= x -> 0 <= y -> draws gm (modify (fun s => with_cur (Cursor x y 0 v f (cursor_drawn (cur s))) s)) t t.
Proof. intros Hx Hy s Hs Hu. eexists. split; [reflexivity|]. split; [by apply place_shows|exact Hu]. Qed.

Lemma steps_cursor_set gm x y v f t :
  0 <= x -> 0 <= y -> steps gm (display_cursor_set x y v f) t (terminal_step (width gm) (height gm) (CursorSet x y v f) t).
Proof.
  intros Hx Hy. apply steps_reading. intros s Hs. rewrite (st_geo _ _ _ Hs). destruct (shows_sizes _ _ _ Hs) as [Hw Hh].
  fold (clamp (width gm) x) (clamp (height gm) y). pose proof (clamp_range (width gm) x). pose proof (clamp_range (height gm) y).
  apply steps_under. eapply under_seq; [apply draws_move|]. eapply under_seq; [apply draws_place; lia|]. apply under_steps.
  eapply steps_seq with (t1 := goto (clamp (height gm) y) (clamp (width gm) x) t).
  - destruct (negb (framebuffer gm =? 0)); [apply steps_draw|]. apply steps_quiet. auto 6 with quiet.
  - apply steps_quiet. unfold when. auto with quiet.
Qed.

Lemma steps_cursor_step gm p code t :
  0 <= p -> steps gm (cursor_step p code) t (seek (width gm) p t).
Proof.
  intros Hp. apply steps_reading. intros s Hs. rewrite (st_geo _ _ _ Hs). destruct (shows_sizes _ _ _ Hs) as [Hw Hh].
  assert (0 <= p / width gm) by (apply Z.div_pos; lia). pose proof (Z.mod_pos_bound p (width gm)).
  apply steps_under. eapply under_seq; [apply draws_move|]. eapply under_seq; [apply draws_to_pen; cbn; lia|]. apply under_steps.
  eapply steps_seq; [apply steps_draw|]. apply steps_quiet. auto with quiet.
Qed.

Lemma steps_cursor_left gm t : pen_in gm (t_pen t) -> steps gm display_cursor_left t (terminal_step (width gm) (height gm) CursorLeft t).
Proof.
  intros (Hr & Hc & _). apply steps_reading. intros s Hs. cbn [terminal_step]. unfold pen_cell. rewrite (st_geo _ _ _ Hs), (st_pen _ _ _ Hs).
  destruct (Z.eqb_spec (row (t_pen t) * width gm + col (t_pen t)) 0) as [E|E]; [apply steps_nothing|]. apply steps_cursor_step. nia.
Qed.

Lemma steps_cursor_right gm t : pen_in gm (t_pen t) -> steps gm display_cursor_right t (terminal_step (width gm) (height gm) CursorRight t).
Proof.
  intros (Hr & Hc & _). apply steps_reading. intros s Hs. cbn [terminal_step]. unfold pen_cell. rewrite (st_geo _ _ _ Hs), (st_pen _ _ _ Hs).
  destruct (row (t_pen t) * width gm + col (t_pen t) + 1 <? width gm * height gm); [|apply steps_nothing]. apply steps_cursor_step. nia.
Qed.

Lemma steps_blink gm ns t : steps gm (set_blink ns) t t.
Proof.
  intros s [H1 (Hg & [Hn Hd Ht] & Hpic) H3 H4]. eexists. split; [reflexivity|]. constructor; try done.
  split_and!; [by destruct Hg; constructor|by constructor|exact Hpic].
Qed.

Lemma steps_tick gm ns t : steps gm (display_cursor_tick ns) t t.
Proof.
  apply steps_reading. intros s Hs. destruct (_ || _); [apply steps_nothing|]. destruct (_ =? 0); [apply steps_blink|].
  destruct (_ <? _); [apply steps_nothing|]. eapply steps_seq; [|apply steps_blink]. destruct (cursor_drawn _); [apply steps_restore|apply steps_draw].
Qed.

Lemma steps_activity gm ns t : steps gm (display_cursor_activity ns) t t.
Proof.
  apply steps_reading. intros s Hs. destruct (_ || _); [apply steps_nothing|].
  eapply steps_seq with (t1 := t); [unfold when; destruct (cursor_drawn _); [apply steps_restore|apply steps_nothing]|].
  eapply steps_seq; [apply steps_draw|apply steps_blink].
Qed.

(** ** Styled text *)

Lemma style_pen gm f b t : pen_in gm (t_pen t) -> is_u8 f -> pen_in gm (t_pen (style f b t)).
Proof. intros (Hr & Hc & _ & _) Hf. unfold pen_in. cbn. split_and!; try done; try lia; apply u8_range. Qed.

Lemma steps_pick gm (f b : option Z) (k : P unit) t t' :
  steps gm k (style (default (fg (t_pen t)) f) (default (bold (t_pen t)) b) t) t' ->
  steps gm (let! s := get in set_pen (default (fg (pn s)) f) (default (bold (pn s)) b) ;; apply ;; k) t t'.
Proof.
  intros Hk. apply steps_reading. intros s Hs. rewrite (st_pen _ _ _ Hs).
  intros s1 Hs1. destruct (steps_style gm (default (fg (t_pen t)) f) (default (bold (t_pen t)) b) t s1 Hs1) as (s2 & E & Hs2).
  destruct (Hk s2 Hs2) as (s3 & E3 & Hs3). exists s3. split; [|done]. unfold bind in *.
  destruct (set_pen _ _ s1) as [[[] sa]| |]; [|done..]. by rewrite E.
Qed.

Lemma is_u8_small (f : Z) : 0 <= f <= 7 -> is_u8 f.
Proof. unfold is_u8. lia. Qed.

Lemma steps_styled_loop gm (fuel : nat) (l : list Z) t :
  sizes gm -> (length l <= fuel)%nat -> pen_in gm (t_pen t) ->
  steps gm (styled_loop fuel l) t (style_text fuel (width gm) (height gm) l t) /\
  pen_in gm (t_pen (style_text fuel (width gm) (height gm) l t)).
Proof.
  intros Hsz. revert l t. induction fuel as [|fuel IH]; intros l t Hl Hp.
  { destruct l; [|cbn in Hl; lia]. split; [apply steps_nothing|done]. }
  destruct l as [|c l]; [split; [apply steps_nothing|done]|]. cbn [length] in Hl.
  assert (forall k f b, (1 <= k)%nat -> is_u8 (default (fg (t_pen t)) f) ->
    let t' := style (default (fg (t_pen t)) f) (default (bold (t_pen t)) b) t in
    steps gm (let! s := get in set_pen (default (fg (pn s)) f) (default (bold (pn s)) b) ;; apply ;; styled_loop fuel (drop k (c :: l)))
      t (style_text fuel (width gm) (height gm) (drop k (c :: l)) t') /\
    pen_in gm (t_pen (style_text fuel (width gm) (height gm) (drop k (c :: l)) t'))) as Hpick.
  { intros k f b Hk Hf t'. destruct (IH (drop k (c :: l)) t') as [H1 H2]; [rewrite length_drop; cbn [length]; lia|by apply style_pen|].
    split; [by apply steps_pick|done]. }
  assert (is_u8 (fg (t_pen t))) as Hfg by apply Hp.
  cbn [styled_loop style_text]. cbv zeta.
  destruct (tag (c :: l) (text "(bold)")); [apply (Hpick 6%nat None (Some 1)); [lia|done]|].
  destruct (tag (c :: l) (text "(/bold)")); [apply (Hpick 7%nat None (Some 0)); [lia|done]|].
  destruct (tag (c :: l) (text "(green)")); [apply (Hpick 7%nat (Some 2) None); [lia|by apply is_u8_small]|].
  destruct (tag (c :: l) (text "(yellow)")); [apply (Hpick 8%nat (Some 6) None); [lia|by apply is_u8_small]|].
  destruct (tag (c :: l) (text "(white)")); [apply (Hpick 7%nat (Some 7) None); [lia|by apply is_u8_small]|].
  destruct (tag (c :: l) (text "(reset)")); [apply (Hpick 7%nat (Some 7) (Some 0)); [lia|by apply is_u8_small]|].
  destruct (IH l (feed (height gm) (type_char (width gm) c t))) as [H1 H2]; [lia|by apply putc_pen|].
  split; [|done]. eapply steps_seq; [by apply steps_putc|done].
Qed.

(** ** The refinement *)

Lemma seek_range gm p : sizes gm -> 0 <= p < width gm * height gm -> 0 <= p / width gm < height gm /\ 0 <= p mod width gm < width gm.
Proof.
  intros [Hw Hh] Hp. split; [|apply Z.mod_pos_bound; lia]. split; [apply Z.div_pos; lia|]. apply Z.div_lt_upper_bound; lia.
Qed.

(** One operation. *)
Lemma call_steps gm c t :
  sizes gm -> call_ok c -> pen_in gm (t_pen t) ->
  steps gm (run_call c) t (terminal_step (width gm) (height gm) c t) /\
  pen_in gm (t_pen (terminal_step (width gm) (height gm) c t)).
Proof.
  intros Hsz Hc Hp. pose proof Hp as (Hr & Hk & Hcol & Hfg). pose proof Hsz as [Hw Hh]. destruct c; cbn [run_call call_ok] in *.
  - split; [by apply steps_putc|by apply putc_pen].
  - split; [by apply steps_color|]. apply style_pen; [done|]. apply is_u8_small. pose proof (Z.mod_pos_bound c 8). lia.
  - split; [by apply steps_clear|]. unfold pen_in. cbn. split_and!; try done; lia.
  - split; [apply steps_set_cell; apply Hc|]. cbn [terminal_step]. by destruct (_ && _).
  - split; [apply steps_cursor_set; apply Hc|]. unfold pen_in. cbn [terminal_step goto t_pen at_position row col color fg].
    split_and!; try done; apply clamp_range; lia.
  - split; [by apply steps_cursor_left|]. cbn [terminal_step]. destruct (Z.eqb_spec (row (t_pen t) * width gm + col (t_pen t)) 0); [done|].
    destruct (seek_range gm (row (t_pen t) * width gm + col (t_pen t) - 1)); [done|nia|]. by unfold pen_in.
  - split; [by apply steps_cursor_right|]. cbn [terminal_step].
    destruct (Z.ltb_spec (row (t_pen t) * width gm + col (t_pen t) + 1) (width gm * height gm)); [|done].
    destruct (seek_range gm (row (t_pen t) * width gm + col (t_pen t) + 1)); [done|nia|]. by unfold pen_in.
  - split; [apply steps_tick|done].
  - split; [apply steps_activity|done].
  - destruct (steps_styled_loop gm (length t0) t0 t) as [H1 H2]; [done|lia|done|]. split.
    + eapply steps_seq; [exact H1|apply steps_style].
    + apply style_pen; [done|by apply is_u8_small].
Qed.

Definition run_calls (cs : list call) : P unit := each cs run_call.
Definition terminal_run (w h : Z) (cs : list call) t : terminal := fold_left (fun t c => terminal_step w h c t) cs t.

(** C4. Refinement: a display that shows a terminal still shows one after any
    sequence of characters, styled text, colours, cell writes, clears, cursor
    moves and cursor ticks, and it is the abstract terminal's: new lines,
    backspaces, wrapping and scrolling change the grid as they should, every
    operation returns, no store leaves the array of cells, the text buffer or
    the frame buffer, the pixels (or the text buffer) show the grid in every
    cell but the one under the drawn cursor, and the pen stays on the screen. *)
Theorem display_refines gm (cs : list call) s t :
  shows_terminal gm s t -> pen_in gm (t_pen t) -> Forall call_ok cs ->
  exists s', run_calls cs s = Ok (tt, s') /\ shows_terminal gm s' (terminal_run (width gm) (height gm) cs t) /\
    pen_in gm (t_pen (terminal_run (width gm) (height gm) cs t)).
Proof.
  intros Hs Hp Hcs. pose proof (shows_sizes _ _ _ Hs) as Hsz. revert s t Hs Hp. induction Hcs as [|c cs Hc Hcs IH]; intros s t Hs Hp.
  - exists s. by split_and!.
  - destruct (call_steps gm c t Hsz Hc Hp) as [Hst Hp']. destruct (Hst s Hs) as (s1 & E1 & Hs1).
    destruct (IH s1 _ Hs1 Hp') as (s2 & E2 & Hs2 & Hp2). exists s2. split; [|done]. cbn [run_calls each]. unfold bind. by rewrite E1.
Qed.
End theorems.

(** ** An example *)

(** A machine without a serial port. *)
#[export] Instance no_serial : Ports unit := {
  inb _ d := (255, d); outb _ _ d := d; inw _ d := (0, d); outw _ _ d := d
}.

(** A black frame buffer of 640 by 400 pixels. *)
Definition example_geometry : geometry := text_geometry 0xfd000000 2560 640 400.

Definition example_display : display unit :=
  Display tt example_geometry (Pen 0 0 7 7 0) (Cursor 0 0 0 true true false) (Line false true true 0)
    (replicate (Z.to_nat (MAX_WIDTH * MAX_HEIGHT)) 0) [] [] (Video (fun _ => 0) (640 * 400 * 4)) None.

Definition example_terminal : terminal := Terminal (fun _ _ => 0) (Pen 0 0 7 7 0).

Lemma black_cell (py px : Z) : cell_pixel 0 0 py px = 0.
Proof. unfold cell_pixel. by destruct (_ && _). Qed.

Lemma example_shows : shows_terminal example_geometry example_display example_terminal.
Proof.
  constructor; try done. split_and!.
  - constructor; [by vm_compute|by vm_compute|apply length_replicate|done|]. intros _. by vm_compute.
  - constructor; cbn; [lia|done|done].
  - intros x y [Hx Hy] _. split_and!.
    + cbn [cells example_display]. apply lookup_replicate_2. unfold cell_index, MAX_WIDTH, MAX_HEIGHT.
      change (width (geo example_display)) with 71 in Hx. change (height (geo example_display)) with 23 in Hy. lia.
    + done.
    + left. unfold shows_word, shows. change (framebuffer (geo example_display) =? 0) with false. cbv iota.
      intros py px _ _. change (word_char (t_grid example_terminal x y)) with 0.
      change (word_attribute (t_grid example_terminal x y)) with 0. by rewrite black_cell.
Qed.

Definition example_calls : list call :=
  [CursorSet 0 0 true true; Styled (text "(green)ok(reset)"); Putc 10; SetCell 3 4 196 0x1f; CursorLeft; CursorTick 1; Clear].

Lemma display_refines_witness :
  exists s', run_calls example_calls example_display = Ok (tt, s') /\
    shows_terminal example_geometry s' (terminal_run 71 23 example_calls example_terminal).
Proof.
  destruct (display_refines example_geometry example_calls example_display example_terminal) as (s' & E & Hs & _).
  - exact example_shows.
  - unfold pen_in, is_u8. change (height example_geometry) with 23. change (width example_geometry) with 71. cbn. lia.
  - unfold example_calls, call_ok, is_u8, is_u64. repeat constructor; try lia; vm_compute; repeat constructor; done.
  - exists s'. split; [exact E|exact Hs].
Defined.
