(* ===== verification/FbBoot.v ===== *)
(** * Starting the display and changing its mode

    The display comes up from the boot loader's description with a blank screen
    in either mode, and a mode change leaves a blank screen of the new size:
    the states FbTheorems.v starts from. *)

From stdpp Require Import base numbers list strings.
From Stdlib Require Import ZArith Lia.
From S2P Require Import Prelude Effects Ports Multiboot Font VideoMemory FbDisplay FbScreen FbTheorems.

(** ** The boot information *)

(** The frame buffer tag of the Multiboot2 specification; the description of
    the colours that follows depends on the kind. *)
Record fb_description := FbDescription { d_base : Z; d_pitch : Z; d_width : Z; d_height : Z; d_bpp : Z; d_kind : Z; d_fields : list Z }.

Definition fb_payload (f : fb_description) : list Z :=
  le64 (d_base f) ++ le32 (d_pitch f) ++ le32 (d_width f) ++ le32 (d_height f) ++ [d_bpp f; d_kind f; 0; 0] ++ d_fields f.

Definition fb_tag (f : fb_description) : mb_tag := TOther 8 (fb_payload f).

Definition description_ok (f : fb_description) : Prop :=
  is_u64 (d_base f) /\ is_u32 (d_pitch f) /\ is_u32 (d_width f) /\ is_u32 (d_height f).

(** What the driver can use: direct colour with its six bytes of positions and
    sizes, 32 bits per pixel, below 4 GiB and not too small. *)
Definition usable (f : fb_description) : bool :=
  (6 <=? blen (d_fields f)) && (d_kind f =? 1) && (d_bpp f =? 32) && (d_base f <? 2 ^ 32) && (640 <=? d_width f) && (400 <=? d_height f).

Definition description_geometry (f : fb_description) : geometry := text_geometry (d_base f) (d_pitch f) (d_width f) (d_height f).

Lemma fb_tag_size (f : fb_description) : tag_size (fb_tag f) = 32 + blen (d_fields f).
Proof.
  unfold tag_size, fb_tag, fb_payload. cbn [tag_body]. rewrite !blen_app.
  change (blen (le64 _)) with 8. change (blen (le32 _)) with 4. change (blen [_; _; _; _]) with 4. lia.
Qed.

Lemma framebuffer_tag_reads (m : memory) (a : Z) (f : fb_description) :
  description_ok f -> holds m (a + 8) (fb_payload f) ->
  framebuffer_tag m a 8 (32 + blen (d_fields f)) = if usable f then Some (description_geometry f) else None.
Proof.
  intros (Hb & Hp & Hw & Hh) H. unfold fb_payload in H.
  apply holds_app in H as [H1 H]. change (blen (le64 _)) with 8 in H. replace (a + 8 + 8) with (a + 16) in H by lia.
  apply holds_app in H as [H2 H]. change (blen (le32 _)) with 4 in H. replace (a + 16 + 4) with (a + 20) in H by lia.
  apply holds_app in H as [H3 H]. change (blen (le32 _)) with 4 in H. replace (a + 20 + 4) with (a + 24) in H by lia.
  apply holds_app in H as [H4 H]. change (blen (le32 _)) with 4 in H. replace (a + 24 + 4) with (a + 28) in H by lia.
  cbn [app holds] in H. destruct H as (H5 & H6 & _). replace (a + 28 + 1) with (a + 29) in H6 by lia.
  unfold framebuffer_tag, usable. change (8 =? 8) with true. cbn [andb].
  assert ((38 <=? 32 + blen (d_fields f)) = (6 <=? blen (d_fields f))) as -> by (apply eq_true_iff_eq; rewrite !Z.leb_le; lia).
  destruct (6 <=? blen (d_fields f)); [|done]. cbv zeta. cbn [andb].
  by rewrite (rd64_holds _ _ _ H1), (rd32_holds _ _ _ H2), (rd32_holds _ _ _ H3), (rd32_holds _ _ _ H4), H5, H6.
Qed.

(** Boot information: descriptions of frame buffers among other tags.  A tag of
    the frame buffer's type that is too short for one is another tag. *)
Inductive boot_item := Plain (t : mb_tag) | Frame (f : fb_description).

Definition item_tag (i : boot_item) : mb_tag := match i with Plain t => t | Frame f => fb_tag f end.

Definition item_ok (i : boot_item) : Prop :=
  match i with Plain t => tag_ok t /\ (tag_type t = 8 -> tag_size t < 32) | Frame f => description_ok f end.

Definition item_tags (l : list boot_item) : list mb_tag := map item_tag l.

(** The first description the driver can use. *)
Fixpoint chosen (l : list boot_item) : option fb_description :=
  match l with
  | [] => None
  | Frame f :: l => if usable f then Some f else chosen l
  | Plain _ :: l => chosen l
  end.

Lemma item_tag_reads (m : memory) (a : Z) (i : boot_item) :
  item_ok i -> holds m (a + 8) (tag_body (item_tag i)) ->
  framebuffer_tag m a (tag_type (item_tag i)) (tag_size (item_tag i))
  = match chosen [i] with Some f => Some (description_geometry f) | None => None end.
Proof.
  destruct i as [t|f]; cbn [item_tag item_ok chosen]; intros Hi Hm.
  - destruct Hi as [_ Hs]. unfold framebuffer_tag. destruct (Z.eqb_spec (tag_type t) 8) as [E|]; [|done].
    cbn [andb]. by rewrite (proj2 (Z.leb_gt _ _)) by (specialize (Hs E); lia).
  - rewrite fb_tag_size. change (tag_type (fb_tag f)) with 8. rewrite framebuffer_tag_reads by done. by destruct (usable f).
Qed.

Lemma item_type_u32 (i : boot_item) : item_ok i -> is_u32 (tag_type (item_tag i)).
Proof. destruct i as [t|f]; cbn [item_tag item_ok]; [intros [Ht _]; by apply tag_type_u32|]. intros _. unfold is_u32. cbn. lia. Qed.

(** The loop stops at the first description that can be used, or at the end. *)
Lemma info_loop_reads (l : list boot_item) (fuel : nat) (m : memory) (p off : Z) (g : geometry) :
  holds m (p + off) (enc_tags (item_tags l) ++ end_tag) -> Forall item_ok l -> 8 <= off ->
  off + blen (enc_tags (item_tags l)) + 8 < 2 ^ 32 - 8 -> (length l + 2 <= fuel)%nat ->
  info_loop fuel m p (off + blen (enc_tags (item_tags l)) + 8) off g
  = Ok (match chosen l with Some f => description_geometry f | None => g end).
Proof.
  intros Hh Hok. revert fuel off Hh. induction Hok as [|i l Hi Hok IH]; intros fuel off Hh Hoff Hlt Hf.
  - destruct fuel as [|[|fuel]]; [cbn [length] in Hf; lia..|]. change (blen (enc_tags (item_tags []))) with 0 in *.
    cbn [item_tags map enc_tags concat app chosen] in *. unfold end_tag in Hh. apply holds_app in Hh as [H3 H4]. change (blen (le32 _)) with 4 in H4.
    cbn [info_loop]. rewrite u32_small, (proj2 (Z.leb_le (off + 8) _)) by lia. cbn [negb].
    rewrite (rd32_holds _ _ _ H3), (rd32_holds _ _ _ H4) by (unfold is_u32; lia). change (8 <? 8) with false. cbv iota.
    change (framebuffer_tag m _ 0 8) with (@None geometry). cbv iota. change (Z.land (u32 (8 + 7)) (Z.lnot 7)) with 8.
    rewrite !u32_small by (rewrite ?u32_small; lia). by rewrite (proj2 (Z.leb_gt _ _)) by lia.
  - destruct fuel as [|fuel]; [lia|]. cbn [item_tags map] in *. fold (item_tags l) in *. rewrite enc_tags_cons in *.
    pose proof (blen_nonneg (enc_tags (item_tags l))). set (t := item_tag i) in *.
    pose proof (tag_size_pos t) as Hsz. destruct (enc_tag_length t) as [Hel _].
    assert (tag_size t <= blen (enc_tag t)) by (rewrite Hel; pose proof (Z.mod_pos_bound (- tag_size t) 8); lia).
    unfold enc_tags in Hh. cbn [map concat] in Hh. rewrite <- app_assoc in Hh. fold (enc_tags (item_tags l)) in Hh.
    destruct (tag_header _ _ _ _ Hh) as (H1 & H2 & H3 & H4); [by apply item_type_u32|unfold is_u32; lia|].
    cbn [info_loop]. rewrite u32_small, (proj2 (Z.leb_le _ _)) by lia. cbn [negb].
    rewrite H1, H2, (proj2 (Z.ltb_ge _ _)) by lia. pose proof (item_tag_reads m (p + off) i Hi H3) as Er. fold t in Er. rewrite Er.
    destruct (chosen [i]) as [f|] eqn:Ec.
    + assert (chosen (i :: l) = Some f) as ->; [|done]. destruct i as [x|x]; cbn [chosen] in *; [done|]. by destruct (usable x).
    + assert (chosen (i :: l) = chosen l) as -> by (destruct i as [x|x]; cbn [chosen] in *; [done|]; by destruct (usable x)).
      rewrite round8, <- Hel, u32_small by lia. rewrite <- Z.add_assoc in H4.
      replace (off + (blen (enc_tag t) + blen (enc_tags (item_tags l))) + 8) with (off + blen (enc_tag t) + blen (enc_tags (item_tags l)) + 8) by lia.
      apply IH; [done|lia|lia|]. cbn [length] in Hf. lia.
Qed.

Lemma framebuffer_info_reads (l : list boot_item) (fuel : nat) (m : memory) (a : Z) (g : geometry) :
  holds m a (enc_info (item_tags l)) -> a <> 0 -> blen (enc_info (item_tags l)) < 2 ^ 32 - 16 -> Forall item_ok l ->
  (length l + 2 <= fuel)%nat ->
  framebuffer_info fuel m a g = Ok (match chosen l with Some f => description_geometry f | None => g end).
Proof.
  intros Hm Ha Hlt Hok Hf. unfold framebuffer_info. rewrite (proj2 (Z.eqb_neq a 0)) by done.
  assert (blen (enc_info (item_tags l)) = 16 + blen (enc_tags (item_tags l))) as El.
  { unfold enc_info. rewrite !blen_app. change (blen (le32 _)) with 4. change (blen end_tag) with 8. lia. }
  pose proof (blen_nonneg (enc_tags (item_tags l))). destruct (enc_info_total m a (item_tags l) Hm) as [-> Hm']; [lia|].
  replace (16 + blen (enc_tags (item_tags l))) with (8 + blen (enc_tags (item_tags l)) + 8) by lia.
  apply info_loop_reads; (done || lia).
Qed.

Section boot.
Context {D : Type} `{Ports D}.

Local Abbreviation S := (display D).
Local Abbreviation P := (M (display D)).

Implicit Types (s : S) (gm : geometry).

(** ** The text font *)

Lemma font_stores (l : list (Z * Z)) s :
  (forall p, p ∈ l -> 0 <= fst p * 32 + snd p < Z.of_nat (length (font_memory s)) /\ 0 <= snd p < 32) ->
  exists f, each l (fun '(ch, y) => font_store ch y) s = Ok (tt, with_font f s) /\ length f = length (font_memory s) /\
    (forall ch y, 0 <= y < 32 -> 0 <= ch -> (ch, y) ∈ l \/ font_memory s !! Z.to_nat (ch * 32 + y) = Some (font_byte ch y) ->
       f !! Z.to_nat (ch * 32 + y) = Some (font_byte ch y)).
Proof.
  revert s. induction l as [|[c z] l IH]; intros s Hl.
  { exists (font_memory s). split_and!; [by destruct s|done|]. by intros ch y _ _ [?%elem_of_nil|]. }
  destruct (Hl (c, z)) as [Hi Hz]; [by left|]. cbn [fst snd] in *. cbn [each]. unfold font_store at 1, bind, lift, modify. cbn [fst snd].
  rewrite set_word_ok by done. cbn [obind].
  set (f1 := <[Z.to_nat (c * 32 + z) := font_byte c z]> (font_memory s)).
  destruct (IH (with_font f1 s)) as (f & E & Hlen & Hf).
  { intros p Hp. cbn [font_memory with_font]. unfold f1. rewrite length_insert. apply Hl. by right. }
  exists f. split; [exact E|]. cbn [font_memory with_font] in *. unfold f1 in *. rewrite length_insert in Hlen. split; [done|].
  intros ch y Hy Hch Hor. apply Hf; [done..|]. destruct (decide ((ch, y) = (c, z))) as [[= -> ->]|Hne].
  - right. apply list_lookup_insert_eq. lia.
  - destruct Hor as [[?|?]%elem_of_cons|E1]; [done|by left|right]. rewrite list_lookup_insert_ne; [done|].
    intros E2. apply Hne. f_equal; lia.
Qed.

Definition font_loaded (f : list Z) : Prop :=
  forall ch y, 0 <= ch < 256 -> 0 <= y < 32 -> f !! Z.to_nat (ch * 32 + y) = Some (if y <? FONT_HEIGHT then glyph_row ch y else 0).

Lemma quiet_registers (l : list (Z * Z * Z)) : quiet (each l (fun '(p, i, v) => vga_register p i v)).
Proof. apply quiet_each. intros [[p i] v]. unfold vga_register. auto with quiet. Qed.

(** The text buffer shows the glyphs of the frame buffer's font. *)
Lemma vga_load_font_ok s :
  Z.of_nat (length (font_memory s)) >= 8192 ->
  exists d f, vga_load_font s = Ok (tt, with_dev d (with_font f s)) /\ font_loaded f.
Proof.
  intros Hlen. unfold vga_load_font. set (l1 := [_; _; _; _; _; _; _]). set (l2 := (0x3c4, 0x00, 0x01) :: _).
  unfold bind at 1. destruct (quiet_registers l1 s) as [d1 E1]. rewrite E1. unfold bind at 1. rewrite each_each.
  destruct (font_stores (list_prod (seqZ 0 256) (seqZ 0 32)) (with_dev d1 s)) as (f & E & _ & Hf).
  { intros [c z] [Hc%elem_of_seqZ Hz%elem_of_seqZ]%elem_of_list_prod. cbn [fst snd font_memory with_dev]. lia. }
  rewrite E. destruct (quiet_registers l2 (with_font f (with_dev d1 s))) as [d2 E2]. rewrite E2.
  exists d2, f. split; [done|]. intros ch y Hch Hy. rewrite (Hf ch y Hy); [|lia|left; apply elem_of_list_prod; rewrite !elem_of_seqZ; lia].
  unfold font_byte, glyph_row. done.
Qed.

(** ** Start-up *)

(** The state before start-up: the memory is there, everything else as at power-on. *)
Record machine_ok s : Prop := {
  mo_cells : length (cells s) = Z.to_nat (MAX_WIDTH * MAX_HEIGHT);
  mo_vga : VGA_WIDTH * VGA_HEIGHT <= Z.of_nat (length (vga s));
  mo_font : Z.of_nat (length (font_memory s)) >= 8192;
  mo_text : width (geo s) = VGA_WIDTH /\ height (geo s) = VGA_HEIGHT;
  mo_color : is_u8 (color (pn s)) /\ is_u8 (fg (pn s))
}.

(** The frame buffer fits in the video memory. *)
Definition fits (f : fb_description) s : Prop :=
  0 < d_base f /\ 4 * d_width f <= d_pitch f /\ d_height f * d_pitch f <= size (vram s).

Lemma text_geometry_sizes (base pitch w h : Z) :
  640 <= w -> 400 <= h -> let g := text_geometry base pitch w h in
  71 <= width g <= MAX_WIDTH /\ 23 <= height g <= MAX_HEIGHT /\ width g * CELL_WIDTH <= w /\ height g * CELL_HEIGHT <= h.
Proof.
  intros Hw Hh. cbn. unfold MAX_WIDTH, MAX_HEIGHT, CELL_WIDTH, CELL_HEIGHT.
  split_and!; Z.div_mod_to_equations; lia.
Qed.

Lemma usable_sizes (f : fb_description) : usable f = true -> 640 <= d_width f /\ 400 <= d_height f /\ d_base f < 2 ^ 32.
Proof. unfold usable. rewrite !andb_true_iff, !Z.leb_le, Z.ltb_lt. lia. Qed.

Definition text_mode s : geometry :=
  Geometry VGA_WIDTH VGA_HEIGHT 0 (fb_pitch (geo s)) (fb_width (geo s)) (fb_height (geo s)).

(** The geometry the display comes up with. *)
Definition boot_geometry (fb : option fb_description) s : geometry :=
  match fb with Some f => description_geometry f | None => text_mode s end.

Lemma boot_geometry_ok fb s s' :
  machine_ok s -> (forall f, fb = Some f -> usable f = true /\ fits f s) ->
  geo s' = boot_geometry fb s -> length (cells s') = length (cells s) -> length (vga s') = length (vga s) -> size (vram s') = size (vram s) ->
  geometry_ok s'.
Proof.
  intros [Hc Hv Hf Ht _] Hfb Eg Ec Ev Es. destruct fb as [f|]; cbn [boot_geometry] in Eg.
  - destruct (Hfb f eq_refl) as (Hu & Hb & Hp & Hs). apply usable_sizes in Hu as (Hw & Hh & _).
    destruct (text_geometry_sizes (d_base f) (d_pitch f) (d_width f) (d_height f) Hw Hh) as (H1 & H2 & H3 & H4).
    fold (description_geometry f) in *. constructor; rewrite ?Eg, ?Ec, ?Es; [lia|lia|done|cbn; lia|].
    intros _. split_and!; done.
  - constructor; rewrite ?Eg, ?Ec, ?Ev; cbn; try done; unfold VGA_WIDTH, VGA_HEIGHT, MAX_WIDTH, MAX_HEIGHT in *; lia.
Qed.

(** Everything behind the boot information and the font. *)
Lemma setup_then_clear s :
  geometry_ok s -> cursor_ok s -> is_u8 (color (pn s)) -> output_sink s = None ->
  exists s', (port_out (COM1 + 1) 0 ;; port_out (COM1 + 3) 0x80 ;; port_out COM1 3 ;; port_out (COM1 + 1) 0 ;;
     port_out (COM1 + 3) 3 ;; port_out (COM1 + 2) 0xc7 ;; port_out (COM1 + 4) 0x0b ;;
     let! st := port_in (COM1 + 5) in
     when (negb (st =? 0xff)) (set_serial true) ;; display_clear ;; set_initialized true) s = Ok (tt, s') /\
    initialized (lst s') = true /\ characters (lst s') = characters (lst s) /\ font_memory s' = font_memory s /\
    shows_terminal (geo s) s' (Terminal (fun _ _ => cell_word 32 (color (pn s))) (at_position 0 0 (pn s))).
Proof.
  intros Hg Hcu Hc Hk. unfold bind at 1 2 3 4 5 6 7 8. unfold port_out at 1 2 3 4 5 6 7, modify, port_in.
  destruct (inb _ _) as [st d].
  match goal with |- context[with_dev d ?x] => set (s1 := with_dev d x) end.
  assert (exists l, when (negb (u8 st =? 255)) (set_serial true) s1 = Ok (tt, with_lst l s1) /\ characters l = characters (lst s)) as (l & E & El).
  { unfold when. destruct (negb _); [by eexists|]. exists (lst s1). by split; [destruct s1|]. }
  unfold bind at 1. rewrite E. assert (geometry_ok (with_lst l s1)) as Hg1 by (destruct Hg; by constructor).
  assert (cursor_ok (with_lst l s1)) as Hcu1 by (destruct Hcu; by constructor).
  destruct (clear_shows (geo s) (with_lst l s1) eq_refl Hg1 Hcu1 Hc Hk) as (s2 & E2 & El2 & Ef2 & Hs2).
  unfold bind. rewrite E2. unfold set_initialized, modify. eexists. split; [reflexivity|].
  cbn [lst with_lst initialized characters font_memory]. rewrite El2, Ef2. split_and!; try done.
  destruct Hs2 as [A B C F]. constructor; try done. by apply (coherent_alike s2).
Qed.

Lemma with_same_font s : with_dev (dev s) (with_font (font_memory s) s) = s.
Proof. by destruct s. Qed.

(** What is chosen can be used. *)
Lemma chosen_usable l f : chosen l = Some f -> usable f = true.
Proof. induction l as [|[t|x] l IH]; cbn [chosen]; [done|done|]. destruct (usable x) eqn:E; [by intros [= <-]|done]. Qed.


(** ** Pixels *)

(** The frame buffer lies in the video memory, which 32-bit offsets reach. *)
Definition frame_ok s : Prop :=
  framebuffer (geo s) <> 0 /\ 4 * fb_width (geo s) <= fb_pitch (geo s) /\
  fb_height (geo s) * fb_pitch (geo s) <= size (vram s) /\ fb_height (geo s) * fb_pitch (geo s) < 2 ^ 32.

Definition pixel s (x y : Z) : Z := peek (y * fb_pitch (geo s) + 4 * x) (vram s).
Definition on_frame s (x y : Z) : Prop := 0 <= x < fb_width (geo s) /\ 0 <= y < fb_height (geo s).

Lemma pixel_at_exact s x y : frame_ok s -> on_frame s x y -> pixel_at (geo s) x y = y * fb_pitch (geo s) + 4 * x.
Proof. intros (_ & H1 & _ & H2) [Hx Hy]. unfold pixel_at. rewrite u32_small; [done|]. nia. Qed.

Lemma pixel_place s x y : frame_ok s -> on_frame s x y ->
  0 <= y * fb_pitch (geo s) + 4 * x /\ y * fb_pitch (geo s) + 4 * x + 4 <= size (vram s).
Proof. intros (_ & H1 & H2 & _) [Hx Hy]. split; [nia|]. assert ((y + 1) * fb_pitch (geo s) <= fb_height (geo s) * fb_pitch (geo s)) by nia. nia. Qed.

(** Storing a rectangle of one colour. *)
Lemma store_rectangle s x y w h value :
  frame_ok s -> 0 <= x -> 0 <= y -> 0 <= w -> 0 <= h -> x + w <= fb_width (geo s) -> y + h <= fb_height (geo s) -> is_u32 value ->
  exists v, store_pixels (fill_stores (geo s) x y w h value) s = Ok (tt, with_vram v s) /\ size v = size (vram s) /\
    forall x' y', on_frame s x' y' ->
      pixel (with_vram v s) x' y' = if (x <=? x') && (x' <? x + w) && (y <=? y') && (y' <? y + h) then value else pixel s x' y'.
Proof.
  intros Hf Hx Hy Hw Hh Hxw Hyh Hv.
  assert (forall i j, 0 <= i < h -> 0 <= j < w -> on_frame s (x + j) (y + i)) as Hon by (unfold on_frame; lia).
  pose proof Hf as (_ & Hp & _).
  destruct (poke_rectangle (fun i j => pixel_at (geo s) (x + j) (y + i)) (fun _ _ => value) h w (vram s)) as (v & E & Hs & Hr & Hk).
  - intros i j Hi Hj. rewrite pixel_at_exact by auto. by destruct (pixel_place s (x + j) (y + i) Hf (Hon i j Hi Hj)).
  - intros i j i' j' Hi Hj Hi' Hj' Hne. rewrite !pixel_at_exact by auto.
    eapply pixels_apart; [exact Hp|apply (Hon i j); done|apply (Hon i' j'); done|]. intros [= ? ?]. apply Hne. f_equal; lia.
  - exists v. split; [|split; [done|]].
    + unfold store_pixels, bind, lift, modify.
      change (fill_stores (geo s) x y w h value) with (rectangle (fun i j => pixel_at (geo s) (x + j) (y + i)) (fun _ _ => value) h w).
      by rewrite E.
    + intros x' y' Hon'. unfold pixel. cbn [geo with_vram vram].
      destruct ((x <=? x') && (x' <? x + w) && (y <=? y') && (y' <? y + h)) eqn:Ein; breflect.
      * rewrite <- (Hr (y' - y) (x' - x)), pixel_at_exact; [f_equal; lia|done|apply Hon; lia|lia|lia].
      * apply Hk. intros i j Hi Hj. rewrite pixel_at_exact by auto. eapply pixels_apart; [exact Hp|apply Hon'|apply (Hon i j); done|].
        intros [= -> ->]. assert (in_rect : (x <=? x + j) && (x + j <? x + w) && (y <=? y + i) && (y + i <? y + h) = true)
          by (rewrite !andb_true_iff, !Z.leb_le, !Z.ltb_lt; lia). congruence.
Qed.

(** A filled rectangle is clipped to the frame and changes nothing else. *)
Lemma graphics_fill_correct s x y w h value :
  frame_ok s -> is_u32 x -> is_u32 y -> is_u32 w -> is_u32 h ->
  exists s', display_graphics_fill x y w h value s = Ok (tt, s') /\
    geo s' = geo s /\ cells s' = cells s /\ pn s' = pn s /\ cur s' = cur s /\ size (vram s') = size (vram s) /\
    forall x' y', on_frame s x' y' ->
      pixel s' x' y' = if (x <=? x') && (x' <? x + w) && (y <=? y') && (y' <? y + h) then u32 value else pixel s x' y'.
Proof.
  intros Hf Hx Hy Hw Hh. unfold is_u32 in *. unfold display_graphics_fill, bind, get, no_pixel. pose proof Hf as (Hb & _).
  rewrite (proj2 (Z.eqb_neq _ _)) by done. cbn [orb].
  destruct (Z.leb_spec (fb_width (geo s)) x) as [Hxw|Hxw], (Z.leb_spec (fb_height (geo s)) y) as [Hyh|Hyh]; cbn [orb].
  1-3: exists s; split_and!; try done; intros x' y' [Hx' Hy'];
       (destruct ((x <=? x') && (x' <? x + w) && (y <=? y') && (y' <? y + h)) eqn:Ein; [breflect; lia|done]).
  set (w' := if fb_width (geo s) - x <? w then fb_width (geo s) - x else w).
  set (h' := if fb_height (geo s) - y <? h then fb_height (geo s) - y else h).
  assert (0 <= w' /\ x + w' <= fb_width (geo s) /\ (w' = w \/ w' = fb_width (geo s) - x /\ w' < w)) as (Hw0 & Hw1 & Hw2) by (unfold w'; destruct (Z.ltb_spec (fb_width (geo s) - x) w); lia).
  assert (0 <= h' /\ y + h' <= fb_height (geo s) /\ (h' = h \/ h' = fb_height (geo s) - y /\ h' < h)) as (Hh0 & Hh1 & Hh2) by (unfold h'; destruct (Z.ltb_spec (fb_height (geo s) - y) h); lia).
  destruct (store_rectangle s x y w' h' (u32 value)) as (v & E & Hs & Hr); [done|lia..|apply Z.mod_pos_bound; lia|].
  exists (with_vram v s). split_and!; try done. intros x' y' Hon. rewrite Hr by done. destruct Hon as [Hx' Hy'].
  replace (x' <? x + w') with (x' <? x + w) by (apply eq_true_iff_eq; rewrite !Z.ltb_lt; lia).
  replace (y' <? y + h') with (y' <? y + h) by (apply eq_true_iff_eq; rewrite !Z.ltb_lt; lia). done.
Qed.

(** ** Changing the mode *)

(** Registers of the adapter are read and written through the ports. *)
Definition asks {A} (m : P A) : Prop := forall s, exists r d, m s = Ok (r, with_dev d s).

Lemma asks_bind {A B} (m : P A) (f : A -> P B) : asks m -> (forall a, asks (f a)) -> asks (bind m f).
Proof.
  intros Hm Hf s. destruct (Hm s) as (r & d & E). unfold bind. rewrite E. destruct (Hf r (with_dev d s)) as (r' & d' & ->). by exists r', d'.
Qed.

Lemma asks_ret {A} (a : A) : asks (ret a : P A).
Proof. intros s. exists a, (dev s). by destruct s. Qed.

Lemma asks_read (i : Z) : asks (read_reg i).
Proof.
  intros s. unfold read_reg, word_out, word_in, bind, modify. destruct (inw _ _) as [v d]. by exists (u16 v), d.
Qed.

Lemma asks_write (i v : Z) : asks (write_reg i v).
Proof. intros s. by eexists _, _. Qed.

Lemma asks_if {A} (b : bool) (m k : P A) : asks m -> asks k -> asks (if b then m else k).
Proof. by destruct b. Qed.

Lemma asks_available : asks bochs_vbe_available.
Proof. apply asks_bind; [apply asks_read|]. intros id. apply asks_ret. Qed.

(** A mode is only set when it is one the driver allows. *)
Lemma set_mode_answers (w h : Z) s :
  exists (ok : bool) d, bochs_vbe_set_mode w h 32 s = Ok (ok, with_dev d s) /\ (ok = true -> 640 <= w <= 1920 /\ 400 <= h <= 1200).
Proof.
  unfold bochs_vbe_set_mode. unfold bind at 1. destruct (asks_available s) as (av & d & ->).
  destruct (negb av || negb (32 =? 32) || (w <? 640) || (h <? 400) || (1920 <? w) || (1200 <? h)) eqn:E.
  { exists false, d. done. }
  rewrite !orb_false_iff, !Z.ltb_ge in E.
  match goal with |- exists ok d', ?m (with_dev d s) = _ /\ _ => assert (asks m) as Hm end.
  { repeat first [apply asks_bind; [first [apply asks_write|apply asks_read]|intros ?]|apply asks_if; [apply asks_ret|]|apply asks_ret]. }
  destruct (Hm (with_dev d s)) as (ok & d' & ->). exists ok, d'. split; [done|]. lia.
Qed.

(** A mode change either is refused and leaves the screen as it was, or shows
    a blank screen in a geometry within the driver's limits. *)
Theorem set_mode_repaints gm (w h : Z) s (t : terminal) :
  shows_terminal gm s t -> pen_in gm (t_pen t) -> is_u32 w -> is_u32 h -> 1920 * 1200 * 4 <= size (vram s) ->
  exists (ok : bool) s', display_set_mode w h s = Ok (ok, s') /\
    if ok then
      640 <= w <= 1920 /\ 400 <= h <= 1200 /\
      (let gm' := text_geometry (framebuffer gm) (4 * w) w h in
       let t' := Terminal (fun _ _ => blank t) (at_position 0 0 (t_pen t)) in
       shows_terminal gm' s' t' /\ pen_in gm' (t_pen t'))
    else shows_terminal gm s' t.
Proof.
  intros Hs Hp Hw Hh Hv. unfold is_u32 in *. unfold display_set_mode. unfold bind at 1, get. rewrite (st_geo _ _ _ Hs).
  destruct (Z.eqb_spec (framebuffer gm) 0) as [Ef|Ef]; [by exists false, s|]. cbn [orb].
  destruct (Z.ltb_spec 1920 w) as [|Hw']; [by exists false, s|]. destruct (Z.ltb_spec 1200 h) as [|Hh']; [by exists false, s|]. cbn [orb].
  assert (u16 w = w /\ u16 h = h) as [-> ->] by (unfold u16; rewrite !Z.mod_small by lia; done).
  unfold bind at 1. destruct (set_mode_answers w h s) as (ok & d & -> & Hok). destruct ok; cbn [negb]; [|exists false; eexists; split; [done|by apply shows_dev]].
  destruct (Hok eq_refl) as [Hw2 Hh2]. clear Hok.
  destruct (restore_shows gm (with_dev d s) t) as (s1 & E1 & Hs1 & Ec1 & Hsz); [by apply shows_dev|]. unfold bind at 1. rewrite E1.
  assert (u32 (w * 4) = 4 * w) as -> by (rewrite u32_small; lia). unfold bind at 1, modify at 1.
  unfold bind at 1, move_to, modify at 1. unfold bind at 1, modify at 1. unfold bind at 1, get.
  set (gm' := text_geometry (framebuffer (geo s1)) (4 * w) w h).
  match goal with |- context[bind (store_pixels _) _ ?x] => set (s2 := x) end.
  assert (size (vram s2) = size (vram s)) as Hs2 by exact Hsz. assert (geo s2 = gm') as Eg2 by done. pose proof (st_geo _ _ _ Hs1) as Eg1.
  destruct (text_geometry_sizes (framebuffer (geo s1)) (4 * w) w h) as (G1 & G2 & G3 & G4); [lia..|]. fold gm' in G1, G2, G3, G4.
  assert (frame_ok s2) as Hf2.
  { unfold frame_ok. rewrite Hs2. change (geo s2) with gm'. cbn [gm' text_geometry framebuffer fb_width fb_pitch fb_height]. rewrite Eg1. split_and!; [done|nia..]. }
  unfold bind at 1.
  destruct (store_rectangle s2 0 0 (fb_width (geo s2)) (fb_height (geo s2)) (colour (Z.land (Z.shiftr (color (pn s2)) 4) 15)))
    as (v & E3 & Hsv & _); [done|rewrite ?Eg2; cbn; lia..|apply colour_u32|]. rewrite E3.
  destruct (clear_shows gm' (with_vram v s2)) as (s3 & E4 & _ & _ & Hs3); [done| | | |by apply (st_sink _ _ _ Hs1)|].
  - destruct Hs1 as [_ (Hg1 & _) _ _]. destruct Hf2 as (F1 & F2 & F3 & _). constructor; try done.
    + change (geo (with_vram v s2)) with gm'. lia.
    + change (geo (with_vram v s2)) with gm'. lia.
    + apply (cells_ok _ Hg1).
    + intros _. split_and!; [exact G3|exact G4|exact F2|]. cbn [vram with_vram]. rewrite Hsv. exact F3.
  - constructor; cbn; [lia|done|done].
  - cbn. rewrite (st_pen _ _ _ Hs1). apply Hp.
  - unfold bind. rewrite E4. exists true, s3. split; [done|]. split; [done|]. split; [done|].
    assert (pn (with_vram v s2) = at_position 0 0 (t_pen t)) as Ep by (cbn; by rewrite (st_pen _ _ _ Hs1)).
    rewrite Ep in Hs3. unfold gm' in Hs3. rewrite Eg1 in Hs3. split; [exact Hs3|].
    pose proof (shows_sizes _ _ _ Hs3) as [? ?]. destruct Hp as (_ & _ & ? & ?). unfold pen_in. cbn [t_pen at_position row col color fg].
    split_and!; try done; lia.
Qed.
End boot.

(** ** An example *)

Definition example_description : fb_description := FbDescription 0xfd000000 2560 640 400 32 1 [16; 8; 8; 8; 0; 8].

Definition example_machine : display unit :=
  Display tt (Geometry VGA_WIDTH VGA_HEIGHT 0 0 0 0) (Pen 0 0 7 7 0) (Cursor 0 0 0 false false false) (Line false true false 0)
    (replicate (Z.to_nat (MAX_WIDTH * MAX_HEIGHT)) 0) (replicate 2000 0) (replicate (Z.to_nat 8192) 0) (Video (fun _ => 0) (640 * 400 * 4)) None.

(** A text mode first, which the driver passes over. *)
Definition example_items : list boot_item :=
  [Plain (TModule 1 2 []); Frame (FbDescription 0xb8000 160 80 25 16 2 []); Frame example_description].

Definition example_memory : memory := fun a => nth (Z.to_nat (a - 4096)) (enc_info (item_tags example_items)) 0.

