(* ===== verification/Ansi.v ===== *)
(** * The escape-sequence terminal (src/kernel/drivers/display/ansi_terminal.c)

    Bytes are decoded (UTF-8, control characters, escape sequences) into a back
    buffer of code points with attributes; flushing draws the cells that differ
    from the front buffer.  The display is FbDisplay.v's. *)

From stdpp Require Import base numbers list strings.
From Stdlib Require Import ZArith Lia.
From S2P Require Import Prelude Effects Ports VideoMemory FbDisplay.

Definition MW : Z := 216.
Definition MH : Z := 64.

Record cell := Cell { cp : Z; attr_of : Z }.

(** ** State *)

Record position := Position { arow : Z; acol : Z; saved_row : Z; saved_col : Z; scroll_top : Z; scroll_bottom : Z }.
Record look := Look { afg : Z; abg : Z; abold : bool }.
Record parser := Parser {
  state : Z; private_mode : bool; params : list Z; param_value : Z; utf8_left : Z; utf8_cp : Z
}.

(** [params] holds the [param_count] parameters in use. *)
Record ansi := Ansi {
  awidth : Z; aheight : Z; pos : position; lk : look; ps : parser;
  cursor_on : bool; ainitialized : bool; dirty : bool; front : list cell; back : list cell
}.

Record console (D : Type) := Console { an : ansi; dp : display D }.
Arguments Console {D}. Arguments an {D}. Arguments dp {D}.

Definition with_pos (p : position) (a : ansi) : ansi :=
  Ansi (awidth a) (aheight a) p (lk a) (ps a) (cursor_on a) (ainitialized a) (dirty a) (front a) (back a).
Definition with_look (l : look) (a : ansi) : ansi :=
  Ansi (awidth a) (aheight a) (pos a) l (ps a) (cursor_on a) (ainitialized a) (dirty a) (front a) (back a).
Definition with_parser (p : parser) (a : ansi) : ansi :=
  Ansi (awidth a) (aheight a) (pos a) (lk a) p (cursor_on a) (ainitialized a) (dirty a) (front a) (back a).
Definition with_cursor_on (b : bool) (a : ansi) : ansi :=
  Ansi (awidth a) (aheight a) (pos a) (lk a) (ps a) b (ainitialized a) (dirty a) (front a) (back a).
Definition with_dirty (b : bool) (a : ansi) : ansi :=
  Ansi (awidth a) (aheight a) (pos a) (lk a) (ps a) (cursor_on a) (ainitialized a) b (front a) (back a).
Definition with_back (b : list cell) (a : ansi) : ansi :=
  Ansi (awidth a) (aheight a) (pos a) (lk a) (ps a) (cursor_on a) (ainitialized a) (dirty a) (front a) b.
Definition with_front (f : list cell) (a : ansi) : ansi :=
  Ansi (awidth a) (aheight a) (pos a) (lk a) (ps a) (cursor_on a) (ainitialized a) (dirty a) f (back a).

Definition at_row_col (r c : Z) (p : position) : position :=
  Position r c (saved_row p) (saved_col p) (scroll_top p) (scroll_bottom p).

Local Abbreviation A := (M ansi).

Definition go (r c : Z) : A unit := modify (fun a => with_pos (at_row_col r c (pos a)) a).

Definition cp437 (u : Z) : Z :=
  match List.find (fun p => fst p =? u) box_codes with
  | Some p => snd p
  | None => if u <? 128 then u8 u else 63
  end.

(** ** The back buffer *)

Definition attr (l : look) : Z :=
  u8 (Z.lor (Z.lor (Z.shiftl (Z.land (abg l) 15) 4) (Z.land (afg l) 7)) (if abold l || (8 <=? afg l) then 8 else 0)).

Definition store (i : Z) (c : cell) : A unit := fun a =>
  if (0 <=? i) && (i <? Z.of_nat (length (back a))) then Ok (tt, with_back (<[Z.to_nat i := c]> (back a)) a) else Undefined.

Definition load (i : Z) : A cell := fun a =>
  match back a !! Z.to_nat i with Some c => if 0 <=? i then Ok (c, a) else Undefined | None => Undefined end.

Definition index (x y : Z) : Z := y * MW + x.

Definition mark (x y code : Z) : A unit :=
  let! a := get in
  if (awidth a <=? x) || (aheight a <=? y) then ret tt
  else store (index x y) (Cell code (attr (lk a))) ;; modify (with_dirty true).

Definition copy_up (y x : Z) : A unit := let! c := load (index x y) in store (index x (y - 1)) c.

Definition ascroll : A unit :=
  let! a := get in
  let p := pos a in
  if arow p <=? scroll_bottom p then ret tt else
  each (seqZ (scroll_top p + 1) (scroll_bottom p - scroll_top p)) (fun y => each (seqZ 0 (awidth a)) (copy_up y)) ;;
  each (seqZ 0 (awidth a)) (fun x => store (index x (scroll_bottom p)) (Cell 32 (attr (lk a)))) ;;
  go (scroll_bottom p) (acol p) ;; modify (with_dirty true).

Definition emit (code : Z) : A unit :=
  let! a := get in
  let r := arow (pos a) in let c := acol (pos a) in
  if code =? 13 then go r 0
  else if code =? 10 then go (r + 1) 0 ;; ascroll
  else if code =? 8 then if c =? 0 then ret tt else go r (c - 1)
  else if code =? 9 then
    let n := Z.land (u32 (c + 8)) (Z.lnot 7) in
    let e := Z.max c (Z.min n (awidth a)) in
    each (seqZ c (e - c)) (fun x => mark x r 32) ;; go r e
  else if code <? 32 then ret tt
  else
    mark c r code ;;
    if awidth a <=? c + 1 then go (r + 1) 0 ;; ascroll else go r (c + 1).

(** ** Control sequences *)

Definition parameter (p : parser) (i : nat) (fallback : Z) : Z :=
  match params p !! i with Some v => if v =? 0 then fallback else v | None => fallback end.

Definition erase_line (mode : Z) : A unit :=
  let! a := get in
  let c := acol (pos a) in
  let first := if mode =? 2 then 0 else if mode =? 1 then 0 else c in
  let last := if mode =? 2 then awidth a else if mode =? 0 then awidth a else c + 1 in
  each (seqZ first (Z.min last (awidth a) - first)) (fun x => mark x (arow (pos a)) 32).

Definition erase_rows (first last : Z) : A unit :=
  let! a := get in each (seqZ first (last - first)) (fun y => each (seqZ 0 (awidth a)) (fun x => mark x y 32)).

Definition erase_screen (mode : Z) : A unit :=
  let! a := get in
  if (mode =? 2) || (mode =? 3) then erase_rows 0 (aheight a) ;; go 0 0
  else if mode =? 0 then erase_line 0 ;; erase_rows (arow (pos a) + 1) (aheight a)
  else erase_line 1 ;; erase_rows 0 (arow (pos a)).

Definition mapped (c : Z) : Z := if c <? 16 then c else if 232 <=? c then if 244 <=? c then 15 else 8 else 7.

Definition within (lo hi v : Z) : bool := (lo <=? v) && (v <=? hi).

Fixpoint sgr_loop (l : list Z) (k : look) : look :=
  match l with
  | [] => k
  | v :: l' =>
    if v =? 0 then sgr_loop l' (Look 7 0 false)
    else if v =? 1 then sgr_loop l' (Look (afg k) (abg k) true)
    else if v =? 22 then sgr_loop l' (Look (afg k) (abg k) false)
    else if within 30 37 v then sgr_loop l' (Look (v - 30) (abg k) (abold k))
    else if within 90 97 v then sgr_loop l' (Look (v - 90 + 8) (abg k) (abold k))
    else if within 40 47 v then sgr_loop l' (Look (afg k) (v - 40) (abold k))
    else if within 100 107 v then sgr_loop l' (Look (afg k) (v - 100 + 8) (abold k))
    else if v =? 39 then sgr_loop l' (Look 7 (abg k) (abold k))
    else if v =? 49 then sgr_loop l' (Look (afg k) 0 (abold k))
    else match l' with
         | five :: c :: rest =>
           if ((v =? 38) || (v =? 48)) && (five =? 5)
           then sgr_loop rest (if v =? 38 then Look (mapped (u8 c)) (abg k) (abold k) else Look (afg k) (mapped (u8 c)) (abold k))
           else sgr_loop l' k
         | _ => sgr_loop l' k
         end
  end.

Definition sgr (l : list Z) (k : look) : look := match l with [] => Look 7 0 false | _ => sgr_loop l k end.

Definition push_param (p : parser) : list Z :=
  if (length (params p) <? 8)%nat then params p ++ [param_value p] else params p.

(** Scrolling regions. *)
Definition set_region (p : parser) (h : Z) (q : position) : position :=
  let top := parameter p 0 1 - 1 in
  let bottom := u32 (parameter p 1 h - 1) in
  let '(top, bottom) := if (h <=? top) || (h <=? bottom) || (bottom <=? top) then (0, h - 1) else (top, bottom) in
  Position top 0 (saved_row q) (saved_col q) top bottom.

(** The effect of the final character. *)
Definition csi_final (final : Z) (p : parser) : A unit :=
  let! a := get in
  let q := pos a in
  let r := arow q in let c := acol q in
  match final with
  | 109 => modify (with_look (sgr (params p) (lk a)))
  | 72 | 102 => go (parameter p 0 1 - 1) (parameter p 1 1 - 1)
  | 65 => let n := parameter p 0 1 in go (if n <? r then r - n else 0) c
  | 66 => go (u32 (r + parameter p 0 1)) c
  | 67 => go r (u32 (c + parameter p 0 1))
  | 68 => let n := parameter p 0 1 in go r (if n <? c then c - n else 0)
  | 74 => erase_screen (parameter p 0 0)
  | 75 => erase_line (parameter p 0 0)
  | 115 => modify (with_pos (Position r c r c (scroll_top q) (scroll_bottom q)))
  | 117 => go (saved_row q) (saved_col q)
  | 114 => modify (with_pos (set_region p (aheight a) q))
  | 104 => when (private_mode p && (parameter p 0 0 =? 25)) (modify (with_cursor_on true))
  | 108 => when (private_mode p && (parameter p 0 0 =? 25)) (modify (with_cursor_on false))
  | _ => ret tt
  end.

Definition csi (final : Z) : A unit :=
  let! a := get in
  let p := ps a in
  let p := Parser (state p) (private_mode p) (push_param p) (param_value p) (utf8_left p) (utf8_cp p) in
  csi_final final p ;;
  let! a := get in
  let r := arow (pos a) in let c := acol (pos a) in
  go (if aheight a <=? r then aheight a - 1 else r) (if awidth a <=? c then awidth a - 1 else c) ;;
  modify (with_parser (Parser 0 false [] 0 (utf8_left p) (utf8_cp p))).

(** ** Bytes *)

Definition set_parser (p : parser) : A unit := modify (with_parser p).
Definition utf8_start (p : parser) (code left : Z) : parser :=
  Parser (state p) (private_mode p) (params p) (param_value p) left code.

(** A byte outside escape sequences and not a continuation. *)
Definition lead_byte (b : Z) : A unit :=
  let! a := get in
  let p := ps a in
  if b <? 0x80 then emit b
  else if Z.land b 0xe0 =? 0xc0 then set_parser (utf8_start p (Z.land b 31) 1)
  else if Z.land b 0xf0 =? 0xe0 then set_parser (utf8_start p (Z.land b 15) 2)
  else if Z.land b 0xf8 =? 0xf0 then set_parser (utf8_start p (Z.land b 7) 3)
  else emit 63.

Definition text_byte (b : Z) : A unit :=
  let! a := get in
  let p := ps a in
  if b =? 0x1b then set_parser (Parser 1 (private_mode p) (params p) (param_value p) (utf8_left p) (utf8_cp p))
  else if utf8_left p =? 0 then lead_byte b
  else if negb (Z.land b 0xc0 =? 0x80) then set_parser (utf8_start p (utf8_cp p) 0) ;; emit 63 ;; lead_byte b
  else
    let code := Z.lor (u32 (Z.shiftl (utf8_cp p) 6)) (Z.land b 63) in
    set_parser (utf8_start p code (utf8_left p - 1)) ;;
    if utf8_left p - 1 =? 0 then emit code else ret tt.

Definition put_byte (b : Z) : A unit :=
  let! a := get in
  let p := ps a in
  if state p =? 1 then
    if b =? 91 then set_parser (Parser 2 false [] 0 (utf8_left p) (utf8_cp p))
    else set_parser (Parser 0 (private_mode p) (params p) (param_value p) (utf8_left p) (utf8_cp p))
  else if state p =? 2 then
    if b =? 63 then set_parser (Parser 2 true (params p) (param_value p) (utf8_left p) (utf8_cp p))
    else if within 48 57 b then
      set_parser (Parser 2 (private_mode p) (params p) (u32 (param_value p * 10 + (b - 48))) (utf8_left p) (utf8_cp p))
    else if b =? 59 then set_parser (Parser 2 (private_mode p) (push_param p) 0 (utf8_left p) (utf8_cp p))
    else csi b
  else text_byte b.

(** ** Drawing *)

Record box_glyphs := BoxGlyphs { hz : Z; vt : Z; tl : Z; tr : Z; bl : Z; br : Z }.
Definition glyphs_of (dbl : bool) : box_glyphs :=
  if dbl then BoxGlyphs 0x2550 0x2551 0x2554 0x2557 0x255a 0x255d else BoxGlyphs 0x2500 0x2502 0x250c 0x2510 0x2514 0x2518.

Definition ansi_draw_box (x y w h : Z) (dbl : bool) : A unit :=
  if (w <? 2) || (h <? 2) then ret tt else
  let g := glyphs_of dbl in
  let right := u32 (x + w - 1) in let bottom := u32 (y + h - 1) in
  each (seqZ 1 (w - 2)) (fun i => mark (u32 (x + i)) y (hz g) ;; mark (u32 (x + i)) bottom (hz g)) ;;
  each (seqZ 1 (h - 2)) (fun i => mark x (u32 (y + i)) (vt g) ;; mark right (u32 (y + i)) (vt g)) ;;
  mark x y (tl g) ;; mark right y (tr g) ;; mark x bottom (bl g) ;; mark right bottom (br g).

Fixpoint draw_title (x y i w : Z) (t : list Z) : A unit :=
  match t with
  | [] => ret tt
  | c :: t => if i + 3 <? w then mark (u32 (x + 2 + i)) y c ;; draw_title x y (i + 1) w t else ret tt
  end.

Definition ansi_draw_panel (x y w h : Z) (t : option (list Z)) : A unit :=
  ansi_draw_box x y w h false ;; match t with Some t => draw_title x y 0 w t | None => ret tt end.

Definition ansi_draw_progress (x y w percent : Z) : A unit :=
  let percent := Z.min percent 100 in
  let filled := u32 (w * percent) / 100 in
  each (seqZ 0 w) (fun i => mark (u32 (x + i)) y (if i <? filled then 0x2588 else 0x2591)).

Definition ansi_set_fg (c : Z) : A unit := modify (fun a => with_look (Look (Z.land c 15) (abg (lk a)) (abold (lk a))) a).
Definition ansi_set_bg (c : Z) : A unit := modify (fun a => with_look (Look (afg (lk a)) (Z.land c 15) (abold (lk a))) a).

(** ** The display *)

Section console.
Context {D : Type} `{Ports D}.

Local Abbreviation C := (M (console D)).

Definition on_ansi {R} (m : M ansi R) : C R := fun s => do r <- m (an s); Ok (fst r, Console (snd r) (dp s)).
Definition on_display {R} (m : M (display D) R) : C R := fun s => do r <- m (dp s); Ok (fst r, Console (an s) (snd r)).

Definition set_cell (l : list cell) (i : Z) (c : cell) : outcome (list cell) :=
  if (0 <=? i) && (i <? Z.of_nat (length l)) then Ok (<[Z.to_nat i := c]> l) else Undefined.

(** One turn of the loops of [ansi_init]. *)
Definition fetch_cell (y x : Z) : C unit :=
  let! v := on_display (display_cell x y) in
  let c := Cell (u8 v) (u8 (Z.shiftr v 8)) in
  on_ansi (store (index x y) c ;;
           fun a => do f <- set_cell (front a) (index x y) c; Ok (tt, with_front f a)).

Definition ansi_init : C unit :=
  let! w := on_display display_width in
  let! h := on_display display_height in
  let w := Z.min w MW in let h := Z.min h MH in
  on_ansi (modify (fun a => Ansi w h (pos a) (lk a) (ps a) (cursor_on a) (ainitialized a) (dirty a) (front a) (back a))) ;;
  each (seqZ 0 h) (fun y => each (seqZ 0 w) (fetch_cell y)) ;;
  on_ansi (modify (fun a =>
    Ansi w h (Position 0 0 0 0 0 (if h =? 0 then 0 else h - 1)) (Look 7 0 false)
      (Parser 0 false (params (ps a)) (param_value (ps a)) 0 (utf8_cp (ps a))) true true false (front a) (back a))).

Definition ansi_reset : C unit := ansi_init.

Definition need_init : C unit := let! s := get in if ainitialized (an s) then ret tt else ansi_init.

Definition ansi_putchar (b : Z) : C unit := need_init ;; on_ansi (put_byte b).

(** One turn of the loops of [ansi_flush]. *)
Definition flush_cell (y x : Z) : C unit :=
  let! b := on_ansi (load (index x y)) in
  let! s := get in
  match front (an s) !! Z.to_nat (index x y) with
  | None => undefined
  | Some f =>
    if (cp f =? cp b) && (attr_of f =? attr_of b) then ret tt else
    on_display (display_set_cell x y (cp437 (cp b)) (attr_of b)) ;;
    on_ansi (fun a => do f <- set_cell (front a) (index x y) b; Ok (tt, with_front f a))
  end.

Definition ansi_flush : C unit :=
  let! s := get in
  let a := an s in
  if negb (ainitialized a) || negb (dirty a) then ret tt else
  each (seqZ 0 (aheight a)) (fun y => each (seqZ 0 (awidth a)) (flush_cell y)) ;;
  on_display (display_cursor_set (acol (pos a)) (arow (pos a)) (cursor_on a) true) ;;
  on_ansi (modify (with_dirty false)).

Definition ansi_write (t : option (list Z)) : C unit :=
  match t with None => ret tt | Some t => each t ansi_putchar ;; ansi_flush end.

Definition ansi_move_cursor (r c : Z) : C unit :=
  need_init ;;
  on_ansi (let! a := get in go (if r <? aheight a then r else aheight a - 1) (if c <? awidth a then c else awidth a - 1)).

Definition ansi_clear : C unit := need_init ;; on_ansi (erase_screen 2).

End console.
