(* ===== verification/AnsiTheorems.v ===== *)
(** * What the escape-sequence terminal guarantees

    Whatever bytes arrive, the buffers of Ansi.v are only used inside, the cursor
    stays on the screen and the parser within its limits; after a flush the
    display shows the back buffer. *)

From stdpp Require Import base numbers list strings.
From Stdlib Require Import ZArith Lia.
From S2P Require Import Prelude Effects Ports VideoMemory FbDisplay FbScreen FbTheorems Ansi.

Local Abbreviation A := (M ansi).

Implicit Types (a : ansi).

(** ** The invariant *)

Definition cell_ok (c : cell) : Prop := is_u32 (cp c) /\ is_u8 (attr_of c).

Definition parser_ok (p : parser) : Prop :=
  (length (params p) <= 8)%nat /\ Forall is_u32 (params p) /\ is_u32 (param_value p) /\ 0 <= utf8_left p <= 3 /\ is_u32 (utf8_cp p).

Record core a : Prop := {
  core_width : 1 <= awidth a <= MW;
  core_height : 1 <= aheight a <= MH;
  core_back : length (back a) = Z.to_nat (MW * MH);
  core_front : length (front a) = Z.to_nat (MW * MH);
  core_cells : Forall cell_ok (back a);
  core_parser : parser_ok (ps a);
  core_saved : 0 <= saved_row (pos a) /\ 0 <= saved_col (pos a);
  core_region : 0 <= scroll_top (pos a) <= scroll_bottom (pos a) /\ scroll_bottom (pos a) < aheight a
}.

(** The column may be one past the last: a tabulator stops there. *)
Definition placed a : Prop := 0 <= arow (pos a) < aheight a /\ 0 <= acol (pos a) <= awidth a.

(** What every operation on the back buffer leaves alone; when the terminal is
    not marked dirty, the buffer did not change. *)
Record tame a a' : Prop := {
  tame_width : awidth a' = awidth a; tame_height : aheight a' = aheight a; tame_front : front a' = front a;
  tame_init : ainitialized a' = ainitialized a; tame_dirty : dirty a' = false -> dirty a = false /\ back a' = back a
}.

Lemma tame_refl a : tame a a.
Proof. by constructor. Qed.

Lemma tame_trans a1 a2 a3 : tame a1 a2 -> tame a2 a3 -> tame a1 a3.
Proof.
  intros [H1 H2 H3 H4 H5] [K1 K2 K3 K4 K5]. constructor; try congruence.
  intros Hd. destruct (K5 Hd) as [Hd2 E2]. destruct (H5 Hd2) as [Hd1 E1]. split; congruence.
Qed.

(** ** Painting *)

(** [m] changes cells only. *)
Definition same_rest a a' : Prop := pos a' = pos a /\ lk a' = lk a /\ ps a' = ps a /\ cursor_on a' = cursor_on a.

Definition paints (m : A unit) : Prop :=
  forall a, core a -> exists a', m a = Ok (tt, a') /\ core a' /\ tame a a' /\ same_rest a a'.

Lemma paints_seq (m k : A unit) : paints m -> paints k -> paints (m ;; k).
Proof.
  intros Hm Hk a Ha. destruct (Hm a Ha) as (a1 & E1 & Ha1 & T1 & R1). destruct (Hk a1 Ha1) as (a2 & E2 & Ha2 & T2 & R2).
  exists a2. unfold bind. rewrite E1. split; [done|]. split; [done|]. split; [by eapply tame_trans|]. unfold same_rest in *. intuition congruence.
Qed.

Lemma paints_ret : paints (ret tt).
Proof. intros a Ha. exists a. split_and!; try done; apply tame_refl. Qed.

Lemma paints_each {B} (f : B -> A unit) (l : list B) : (forall b, b ∈ l -> paints (f b)) -> paints (each l f).
Proof.
  induction l as [|b l IH]; intros Hf; [apply paints_ret|]. apply paints_seq; [apply Hf; by left|]. apply IH. intros c Hc. apply Hf. by right.
Qed.

Lemma attr_u8 (l : look) : is_u8 (attr l).
Proof. apply u8_range. Qed.

(** A store inside the array; marking dirty is left to the caller. *)
Lemma store_core a x y c :
  core a -> 0 <= x < awidth a -> 0 <= y < aheight a -> cell_ok c ->
  store (index x y) c a = Ok (tt, with_back (<[Z.to_nat (index x y) := c]> (back a)) a) /\
  core (with_back (<[Z.to_nat (index x y) := c]> (back a)) a).
Proof.
  intros [Hw Hh Hb Hf Hc Hp Hs Hr] Hx Hy Hok. unfold store, index, MW, MH in *. rewrite Hb.
  rewrite (proj2 (Z.leb_le _ _)), (proj2 (Z.ltb_lt _ _)) by lia. split; [done|].
  constructor; cbn; try done; [by rewrite length_insert|by apply Forall_insert].
Qed.

Lemma paints_mark (x y code : Z) : 0 <= x -> 0 <= y -> is_u32 code -> paints (mark x y code).
Proof.
  intros Hx Hy Hc a Ha. unfold mark, bind, get. destruct (Z.leb_spec (awidth a) x) as [|Hxw]; [apply (paints_ret a Ha)|].
  destruct (Z.leb_spec (aheight a) y) as [|Hyh]; [apply (paints_ret a Ha)|]. cbn [orb].
  destruct (store_core a x y (Cell code (attr (lk a)))) as [E Hcore]; [done|lia|lia|split; [done|apply attr_u8]|].
  rewrite E. eexists. split; [reflexivity|]. split; [by destruct Hcore; constructor|]. by split.
Qed.

Lemma u32_32 : is_u32 32.
Proof. unfold is_u32. lia. Qed.

Lemma paints_row (r : Z) (first n : Z) : 0 <= r -> 0 <= first -> paints (each (seqZ first n) (fun x => mark x r 32)).
Proof. intros Hr Hf. apply paints_each. intros x Hx%elem_of_seqZ. apply paints_mark; [lia|done|apply u32_32]. Qed.

Lemma paints_rows (first last : Z) : 0 <= first -> paints (erase_rows first last).
Proof.
  intros Hf a Ha. unfold erase_rows. unfold bind, get.
  assert (paints (each (seqZ first (last - first)) (fun y => each (seqZ 0 (awidth a)) (fun x => mark x y 32)))) as Hp; [|by apply Hp].
  apply paints_each. intros y Hy%elem_of_seqZ. apply paints_row; lia.
Qed.

Lemma paints_erase_line (mode : Z) a : core a -> placed a ->
  exists a', erase_line mode a = Ok (tt, a') /\ core a' /\ tame a a' /\ same_rest a a'.
Proof.
  intros Ha [Hr Hc]. unfold erase_line, bind, get. apply paints_row; [lia| |done]. destruct (mode =? 2), (mode =? 1); lia.
Qed.

(** ** Scrolling *)

(** Stores to the back buffer alone, in a terminal of this size. *)
Definition stores (w h : Z) (m : A unit) : Prop :=
  forall a, core a -> awidth a = w -> aheight a = h -> exists b, m a = Ok (tt, with_back b a) /\ core (with_back b a).

Lemma stores_each {B} w h (f : B -> A unit) (l : list B) : (forall b, b ∈ l -> stores w h (f b)) -> stores w h (each l f).
Proof.
  induction l as [|b l IH]; intros Hf a Ha Hw Hh.
  { exists (back a). assert (with_back (back a) a = a) as -> by by destruct a. done. }
  destruct (Hf b) with (a := a) as (b1 & E1 & Ha1); [by left|done..|]. cbn [each]. unfold bind. rewrite E1.
  destruct (IH) with (a := with_back b1 a) as (b2 & E2 & Ha2); [intros c Hc; apply Hf; by right|done..|]. by exists b2.
Qed.

Lemma stores_copy_up w h (y x : Z) : 0 <= x < w -> 1 <= y < h -> stores w h (copy_up y x).
Proof.
  intros Hx Hy a Ha <- <-. pose proof Ha as [Hw Hh Hb _ Hc _ _ _]. unfold copy_up, bind, load, index, MW, MH in *.
  destruct (lookup_lt_is_Some_2 (back a) (Z.to_nat (y * 216 + x))) as [c Ec]; [lia|]. rewrite Ec, (proj2 (Z.leb_le _ _)) by lia.
  destruct (store_core a x (y - 1) c) as [E Hk]; [done|lia|lia|by apply (Forall_lookup_1 _ _ _ _ Hc Ec)|]. eauto.
Qed.

Lemma stores_blank w h (x y : Z) (k : look) : 0 <= x < w -> 0 <= y < h -> stores w h (store (index x y) (Cell 32 (attr k))).
Proof.
  intros Hx Hy a Ha <- <-. destruct (store_core a x y (Cell 32 (attr k))) as [E Hk]; [done|lia|lia|split; [apply u32_32|apply attr_u8]|]. eauto.
Qed.

Definition below a : Prop := 0 <= arow (pos a) <= aheight a /\ 0 <= acol (pos a) <= awidth a.

Lemma core_moved a p b :
  core a -> saved_row p = saved_row (pos a) -> saved_col p = saved_col (pos a) -> scroll_top p = scroll_top (pos a) ->
  scroll_bottom p = scroll_bottom (pos a) -> core (with_dirty b (with_pos p a)).
Proof. intros [] ? ? ? ?. constructor; cbn; congruence || done. Qed.

Lemma ascroll_ok a :
  core a -> below a -> exists a', ascroll a = Ok (tt, a') /\ core a' /\ placed a' /\ tame a a' /\ ps a' = ps a /\ lk a' = lk a /\ cursor_on a' = cursor_on a.
Proof.
  intros Ha [Hr Hc]. pose proof Ha as [Hw Hh _ _ _ _ _ Hreg]. unfold ascroll, bind, get.
  destruct (Z.leb_spec (arow (pos a)) (scroll_bottom (pos a))) as [Hle|Hgt].
  { exists a. split_and!; try done; try apply tame_refl. unfold placed. lia. }
  assert (stores (awidth a) (aheight a) (each (seqZ (scroll_top (pos a) + 1) (scroll_bottom (pos a) - scroll_top (pos a)))
            (fun y => each (seqZ 0 (awidth a)) (copy_up y)))) as Hs1.
  { apply stores_each. intros y Hy%elem_of_seqZ. apply stores_each. intros x Hx%elem_of_seqZ. apply stores_copy_up; lia. }
  assert (stores (awidth a) (aheight a) (each (seqZ 0 (awidth a)) (fun x => store (index x (scroll_bottom (pos a))) (Cell 32 (attr (lk a)))))) as Hs2.
  { apply stores_each. intros x Hx%elem_of_seqZ. apply stores_blank; lia. }
  destruct (Hs1 a Ha eq_refl eq_refl) as (b1 & -> & Ha1). destruct (Hs2 _ Ha1 eq_refl eq_refl) as (b2 & -> & Ha2).
  unfold go, modify. eexists. split; [reflexivity|]. split_and!; try done.
  - apply (core_moved _ _ true Ha2); done.
  - unfold placed. cbn. lia.
Qed.

(** ** Characters and control sequences *)

(** [m] runs from every state of the invariant to one of it. *)
Definition does (m : A unit) : Prop :=
  forall a, core a -> placed a -> exists a', m a = Ok (tt, a') /\ core a' /\ placed a' /\ tame a a'.

Lemma does_seq (m k : A unit) : does m -> does k -> does (m ;; k).
Proof.
  intros Hm Hk a Ha Hp. destruct (Hm a Ha Hp) as (a1 & E1 & Ha1 & Hp1 & T1). destruct (Hk a1 Ha1 Hp1) as (a2 & E2 & Ha2 & Hp2 & T2).
  exists a2. unfold bind. rewrite E1. split_and!; try done. by eapply tame_trans.
Qed.

Lemma does_ret : does (ret tt).
Proof. intros a Ha Hp. exists a. split_and!; try done; apply tame_refl. Qed.

Lemma does_get (f : ansi -> A unit) :
  (forall a, core a -> placed a -> exists a', f a a = Ok (tt, a') /\ core a' /\ placed a' /\ tame a a') -> does (let! a := get in f a).
Proof. intros Hf a Ha Hp. by apply Hf. Qed.

Lemma paints_does (m : A unit) : paints m -> does m.
Proof.
  intros Hm a Ha Hp. destruct (Hm a Ha) as (a' & E & Ha' & T & R & _). exists a'. split_and!; try done.
  unfold placed. rewrite R, (tame_width _ _ T), (tame_height _ _ T). done.
Qed.

Lemma core_go a r c : core a -> core (with_pos (at_row_col r c (pos a)) a).
Proof. intros []. by constructor. Qed.

Lemma tame_go a p : tame a (with_pos p a).
Proof. by constructor. Qed.

Lemma go_ok a r c : core a -> 0 <= r < aheight a -> 0 <= c <= awidth a ->
  exists a', go r c a = Ok (tt, a') /\ core a' /\ placed a' /\ tame a a'.
Proof. intros Ha Hr Hc. eexists. split; [reflexivity|]. split_and!; [by apply core_go|by unfold placed|apply tame_go]. Qed.

(** The cursor moves to the next line. *)
Lemma new_line_ok a r c : core a -> 0 <= r <= aheight a -> 0 <= c <= awidth a ->
  exists a', (go r c ;; ascroll) a = Ok (tt, a') /\ core a' /\ placed a' /\ tame a a'.
Proof.
  intros Ha Hr Hc. unfold bind, go, modify. destruct (ascroll_ok (with_pos (at_row_col r c (pos a)) a)) as (a' & E & H1 & H2 & H3 & _);
    [by apply core_go|by unfold below|]. exists a'. split_and!; try done. eapply tame_trans; [apply tame_go|done].
Qed.

Lemma does_emit (code : Z) : is_u32 code -> does (emit code).
Proof.
  intros Hcode. apply does_get. intros a Ha [Hr Hc]. pose proof Ha as [Hw Hh _ _ _ _ _ _]. cbv zeta.
  destruct (code =? 13); [apply go_ok; lia || done|]. destruct (code =? 10); [apply new_line_ok; lia || done|].
  destruct (code =? 8); [destruct (Z.eqb_spec (acol (pos a)) 0); [by apply does_ret|apply go_ok; lia || done]|].
  destruct (code =? 9).
  { set (e := Z.max _ _). assert (acol (pos a) <= e <= awidth a) by (unfold e; lia).
    assert (paints (each (seqZ (acol (pos a)) (e - acol (pos a))) (fun x => mark x (arow (pos a)) 32))) as Hp by (apply paints_row; lia).
    destruct (Hp a Ha) as (a1 & E1 & Ha1 & T1 & R1 & _). unfold bind. rewrite E1.
    destruct (go_ok a1 (arow (pos a)) e) as (a2 & E2 & Ha2 & Hp2 & T2); [done|rewrite ?(tame_height _ _ T1), ?(tame_width _ _ T1); lia..|].
    exists a2. split_and!; try done. by eapply tame_trans. }
  destruct (code <? 32); [by apply does_ret|].
  destruct (paints_mark (acol (pos a)) (arow (pos a)) code ltac:(lia) ltac:(lia) Hcode a Ha) as (a1 & E1 & Ha1 & T1 & R1 & _).
  unfold bind at 1. rewrite E1. pose proof (tame_height _ _ T1) as Eh. pose proof (tame_width _ _ T1) as Ew.
  destruct (Z.leb_spec (awidth a) (acol (pos a) + 1)).
  - destruct (new_line_ok a1 (arow (pos a) + 1) 0) as (a2 & E2 & Ha2 & Hp2 & T2); [done|lia..|]. exists a2. split_and!; try done. by eapply tame_trans.
  - destruct (go_ok a1 (arow (pos a)) (acol (pos a) + 1)) as (a2 & E2 & Ha2 & Hp2 & T2); [done|lia..|]. exists a2. split_and!; try done. by eapply tame_trans.
Qed.

Lemma parameter_range (p : parser) (i : nat) (fallback : Z) :
  parser_ok p -> 0 <= fallback < 2 ^ 32 -> 0 <= parameter p i fallback < 2 ^ 32 /\ (fallback <> 0 -> parameter p i fallback <> 0).
Proof.
  intros (_ & Hp & _) Hf. unfold parameter. destruct (params p !! i) as [v|] eqn:E; [|done].
  pose proof (Forall_lookup_1 _ _ _ _ Hp E) as Hv. unfold is_u32 in Hv. destruct (Z.eqb_spec v 0); [done|]. lia.
Qed.

(** The state after the final character, before the cursor is brought back to the screen. *)
Definition loose a : Prop := 0 <= arow (pos a) /\ 0 <= acol (pos a).

Definition finishes (m : A unit) a : Prop := exists a', m a = Ok (tt, a') /\ core a' /\ loose a' /\ tame a a'.

Lemma go_finishes a r c : core a -> 0 <= r -> 0 <= c -> finishes (go r c) a.
Proof. intros Ha Hr Hc. eexists. split; [reflexivity|]. split_and!; [by apply core_go|by unfold loose|apply tame_go]. Qed.

Lemma does_finishes (m : A unit) a : does m -> core a -> placed a -> finishes m a.
Proof.
  intros Hm Ha Hp. destruct (Hm a Ha Hp) as (a' & E & Ha' & Hp' & T). exists a'. split_and!; try done. unfold placed, loose in *. lia.
Qed.

Lemma erase_line_does (mode : Z) : does (erase_line mode).
Proof.
  intros a Ha Hp. destruct (paints_erase_line mode a Ha Hp) as (a' & E & Ha' & T & R & _). exists a'. split_and!; try done.
  unfold placed. rewrite R, (tame_width _ _ T), (tame_height _ _ T). done.
Qed.

Lemma erase_screen_does (mode : Z) : does (erase_screen mode).
Proof.
  intros a Ha Hp. pose proof Hp as [Hr Hc]. unfold erase_screen. unfold bind at 1, get. destruct ((mode =? 2) || (mode =? 3)).
  - assert (does (erase_rows 0 (aheight a) ;; go 0 0)) as Hd; [|by apply Hd]. apply does_seq; [apply paints_does, paints_rows; lia|].
    intros a1 Ha1 _. pose proof (core_height _ Ha1). pose proof (core_width _ Ha1). apply go_ok; [done|lia..].
  - destruct (mode =? 0).
    + assert (does (erase_line 0 ;; erase_rows (arow (pos a) + 1) (aheight a))) as Hd; [|by apply Hd].
      apply does_seq; [apply erase_line_does|]. apply paints_does, paints_rows. lia.
    + assert (does (erase_line 1 ;; erase_rows 0 (arow (pos a)))) as Hd; [|by apply Hd].
      apply does_seq; [apply erase_line_does|]. apply paints_does, paints_rows. lia.
Qed.

Lemma csi_final_ok (final : Z) (p : parser) a : core a -> placed a -> parser_ok p -> finishes (csi_final final p) a.
Proof.
  intros Ha Hp Hpar. pose proof Hp as [Hr Hc]. pose proof Ha as [Hw Hh _ _ _ _ Hsv Hreg].
  assert (forall i f, 0 <= f < 2 ^ 32 -> 0 <= parameter p i f < 2 ^ 32 /\ (f <> 0 -> parameter p i f <> 0)) as Hparam by (intros; by apply parameter_range).
  assert (forall k, finishes (modify (with_look k)) a) as Hlook.
  { intros k. eexists. split; [reflexivity|]. split_and!; [by destruct Ha; constructor|unfold loose; cbn; lia|by constructor]. }
  assert (forall b, finishes (modify (with_cursor_on b)) a) as Hcur.
  { intros b. eexists. split; [reflexivity|]. split_and!; [by destruct Ha; constructor|unfold loose; cbn; lia|by constructor]. }
  assert (finishes (ret tt) a) as Hret by (apply does_finishes; [apply does_ret|done..]).
  assert (finishes (modify (with_pos (Position (arow (pos a)) (acol (pos a)) (arow (pos a)) (acol (pos a)) (scroll_top (pos a)) (scroll_bottom (pos a))))) a) as Hsave.
  { eexists. split; [reflexivity|]. split_and!; [destruct Ha; constructor; cbn; try done; lia|unfold loose; cbn; lia|apply tame_go]. }
  assert (finishes (modify (with_pos (set_region p (aheight a) (pos a)))) a) as Hregion.
  { unfold MH in *. destruct (Hparam 0%nat 1 ltac:(lia)) as [H1 H2]. eexists. split; [reflexivity|].
    assert (0 <= u32 (parameter p 1 (aheight a) - 1)) by (apply Z.mod_pos_bound; lia).
    unfold set_region. destruct ((aheight a <=? parameter p 0 1 - 1) || (aheight a <=? u32 (parameter p 1 (aheight a) - 1)) ||
      (u32 (parameter p 1 (aheight a) - 1) <=? parameter p 0 1 - 1)) eqn:E.
    - split_and!; [destruct Ha; constructor; cbn; try done; lia|unfold loose; cbn; lia|apply tame_go].
    - rewrite !orb_false_iff, !Z.leb_gt in E. split_and!; [destruct Ha; constructor; cbn; try done; lia|unfold loose; cbn; lia|apply tame_go]. }
  destruct (Hparam 0%nat 1 ltac:(lia)) as [P0 P0']. destruct (Hparam 1%nat 1 ltac:(lia)) as [P1 P1'].
  assert (forall x, 0 <= u32 x) as Hu by (intros; apply Z.mod_pos_bound; lia).
  unfold csi_final. unfold finishes, bind at 1, get.
  destruct final as [|q|q]; try exact Hret.
  repeat (destruct q as [q|q|]; try exact Hret; try apply Hlook; try exact Hsave; try exact Hregion;
    try (unfold when; destruct (_ && _); [apply Hcur|exact Hret]);
    try (apply does_finishes; [apply erase_screen_does|done..]); try (apply does_finishes; [apply erase_line_does|done..])).
  all: apply go_finishes; try done; try lia; try apply Hu.
  all: match goal with |- context[if ?b then _ else _] => destruct b eqn:?; lia end.
Qed.

Lemma push_param_ok (p : parser) : parser_ok p -> (length (push_param p) <= 8)%nat /\ Forall is_u32 (push_param p).
Proof.
  intros (Hl & Hf & Hv & _). unfold push_param. destruct (Nat.ltb_spec (length (params p)) 8); [|done].
  split; [rewrite length_app; cbn; lia|]. apply Forall_app. split; [done|]. by constructor.
Qed.

Lemma set_parser_ok a (p : parser) : core a -> placed a -> parser_ok p ->
  exists a', set_parser p a = Ok (tt, a') /\ core a' /\ placed a' /\ tame a a'.
Proof. intros Ha Hp Hk. eexists. split; [reflexivity|]. split_and!; [destruct Ha; constructor; done|exact Hp|by constructor]. Qed.

Lemma does_csi (final : Z) : does (csi final).
Proof.
  apply does_get. intros a Ha Hp. cbv zeta. pose proof (core_parser _ Ha) as Hpar. destruct (push_param_ok _ Hpar) as [Hl Hf].
  set (p := Parser _ _ _ _ _ _). assert (parser_ok p) as Hpk by (destruct Hpar as (_ & _ & ? & ? & ?); unfold parser_ok, p; cbn; tauto).
  unfold bind at 1. destruct (csi_final_ok final p a Ha Hp Hpk) as (a1 & -> & Ha1 & [Hr1 Hc1] & T1).
  unfold bind, get. pose proof (core_height _ Ha1). pose proof (core_width _ Ha1).
  set (r := if aheight a1 <=? arow (pos a1) then aheight a1 - 1 else arow (pos a1)).
  set (c := if awidth a1 <=? acol (pos a1) then awidth a1 - 1 else acol (pos a1)).
  destruct (go_ok a1 r c) as (a2 & -> & Ha2 & Hp2 & T2); [done|unfold r; destruct (Z.leb_spec (aheight a1) (arow (pos a1))); lia|
    unfold c; destruct (Z.leb_spec (awidth a1) (acol (pos a1))); lia|].
  destruct (set_parser_ok a2 (Parser 0 false [] 0 (utf8_left p) (utf8_cp p))) as (a3 & E3 & Ha3 & Hp3 & T3); [done|done| |].
  { destruct Hpar as (_ & _ & ? & ? & ?). split_and!; cbn; try done; lia. }
  exists a3. split_and!; try done. eapply tame_trans; [done|]. by eapply tame_trans.
Qed.

Lemma does_set_parser (f : ansi -> parser) : (forall a, core a -> parser_ok (f a)) -> does (let! a := get in set_parser (f a)).
Proof. intros Hf. apply does_get. intros a Ha Hp. apply set_parser_ok; auto. Qed.

Lemma land_bound (b k : Z) : 0 <= k -> 0 <= Z.land b (Z.ones k) < 2 ^ k.
Proof. intros Hk. rewrite Z.land_ones by done. apply Z.mod_pos_bound. lia. Qed.

Lemma u63 : is_u32 63.
Proof. unfold is_u32. lia. Qed.

Lemma utf8_start_ok (p : parser) (code left : Z) : parser_ok p -> is_u32 code -> 0 <= left <= 3 -> parser_ok (utf8_start p code left).
Proof. intros (? & ? & ? & _ & _) Hc Hl. unfold parser_ok. cbn. tauto. Qed.

Lemma does_lead_byte (b : Z) : is_u8 b -> does (lead_byte b).
Proof.
  unfold is_u8. intros Hb. apply does_get. intros a Ha Hp. pose proof (core_parser _ Ha) as Hpar. cbv zeta.
  assert (forall k n, 0 <= k < 32 -> 0 <= n <= 3 -> parser_ok (utf8_start (ps a) (Z.land b (Z.ones k)) n)) as Hs.
  { intros k n Hk Hn. apply utf8_start_ok; [done| |done]. pose proof (land_bound b k). unfold is_u32.
    pose proof (Z.pow_le_mono_r 2 k 32). lia. }
  destruct (b <? 128); [apply does_emit; [unfold is_u32; lia|done..]|].
  destruct (Z.land b 0xe0 =? 0xc0); [apply set_parser_ok; try done; by apply (Hs 5)|].
  destruct (Z.land b 0xf0 =? 0xe0); [apply set_parser_ok; try done; by apply (Hs 4)|].
  destruct (Z.land b 0xf8 =? 0xf0); [apply set_parser_ok; try done; by apply (Hs 3)|]. apply does_emit; [apply u63|done..].
Qed.

Lemma lor_six_u32 (x y : Z) : is_u32 x -> 0 <= y < 64 -> is_u32 (Z.lor x y).
Proof.
  unfold is_u32. intros Hx Hy. split; [apply Z.lor_nonneg; lia|]. destruct (Z.eq_dec (Z.lor x y) 0) as [->|Hne]; [lia|].
  apply Z.log2_lt_pow2; [assert (0 <= Z.lor x y) by (apply Z.lor_nonneg; lia); lia|]. rewrite Z.log2_lor by lia.
  apply Z.max_lub_lt; [destruct (Z.eq_dec x 0) as [->|]; [cbn; lia|apply Z.log2_lt_pow2; lia]|].
  destruct (Z.eq_dec y 0) as [->|]; [cbn; lia|]. apply Z.log2_lt_pow2; lia.
Qed.

Lemma does_text_byte (b : Z) : is_u8 b -> does (text_byte b).
Proof.
  intros Hb. apply does_get. intros a Ha Hp. pose proof (core_parser _ Ha) as Hpar. pose proof Hpar as (P1 & P2 & P3 & P4 & P5). cbv zeta.
  destruct (b =? 0x1b); [apply set_parser_ok; try done; unfold parser_ok; cbn; auto 8|].
  destruct (Z.eqb_spec (utf8_left (ps a)) 0); [by apply does_lead_byte|]. destruct (negb _).
  - unfold bind at 1. destruct (set_parser_ok a (utf8_start (ps a) (utf8_cp (ps a)) 0)) as (a1 & -> & Ha1 & Hp1 & T1); [done|done|by apply utf8_start_ok|].
    destruct (does_seq (emit 63) (lead_byte b) (does_emit 63 u63) (does_lead_byte b Hb) a1 Ha1 Hp1) as (a2 & E2 & Ha2 & Hp2 & T2).
    exists a2. split_and!; try done. by eapply tame_trans.
  - set (code := Z.lor _ _). assert (is_u32 code) as Hcode.
    { apply lor_six_u32; [apply Z.mod_pos_bound; lia|]. pose proof (land_bound b 6). change (Z.ones 6) with 63 in *. lia. }
    unfold bind. destruct (set_parser_ok a (utf8_start (ps a) code (utf8_left (ps a) - 1))) as (a1 & -> & Ha1 & Hp1 & T1); [done|done|apply utf8_start_ok; try done; lia|].
    destruct (_ =? 0); [|by exists a1]. destruct (does_emit code Hcode a1 Ha1 Hp1) as (a2 & E2 & Ha2 & Hp2 & T2).
    exists a2. split_and!; try done. by eapply tame_trans.
Qed.

Lemma does_put_byte (b : Z) : is_u8 b -> does (put_byte b).
Proof.
  intros Hb. apply does_get. intros a Ha Hp. pose proof (core_parser _ Ha) as Hpar. pose proof Hpar as (P1 & P2 & P3 & P4 & P5). cbv zeta.
  assert (is_u32 0) by (unfold is_u32; lia). assert (forall x, is_u32 (u32 x)) by (intros; apply Z.mod_pos_bound; lia).
  destruct (push_param_ok _ Hpar) as [Hl Hf].
  destruct (state (ps a) =? 1); [destruct (b =? 91); apply set_parser_ok; try done; split_and!; cbn; try done; lia|].
  destruct (state (ps a) =? 2); [|by apply does_text_byte]. destruct (b =? 63); [apply set_parser_ok; try done; unfold parser_ok; cbn; auto 8|].
  destruct (within 48 57 b); [apply set_parser_ok; try done; unfold parser_ok; cbn; auto 8|].
  destruct (b =? 59); [apply set_parser_ok; try done; unfold parser_ok; cbn; auto 8|]. by apply does_csi.
Qed.

(** ** The display *)

Lemma cp437_ascii (u : Z) : 0 <= u < 128 -> cp437 u = u.
Proof.
  intros Hu. unfold cp437. assert (List.find (fun p => fst p =? u) box_codes = None) as ->.
  { destruct (List.find _ box_codes) as [p|] eqn:E; [|done]. apply find_some in E as [E Eu]. apply Z.eqb_eq in Eu.
    assert (Forall (fun p => 128 <= fst p) box_codes) as Hb by (unfold box_codes; repeat constructor; cbn; lia).
    rewrite Forall_forall in Hb. specialize (Hb p (proj2 (list_elem_of_In _ _) E)). cbn in Hb. lia. }
  rewrite (proj2 (Z.ltb_lt _ _)) by lia. unfold u8. apply Z.mod_small. lia.
Qed.

Lemma cp437_u8 (u : Z) : is_u8 (cp437 u).
Proof.
  unfold cp437. destruct (List.find _ box_codes) as [p|] eqn:E.
  - apply find_some in E as [E _]. assert (Forall (fun p => is_u8 (snd p)) box_codes) as Hb by (unfold box_codes, is_u8; repeat constructor; cbn; lia).
    rewrite Forall_forall in Hb. apply Hb. by apply list_elem_of_In.
  - destruct (u <? 128); [apply u8_range|unfold is_u8; lia].
Qed.

Section console.
Context {D : Type} `{Ports D}.

Implicit Types (s : console D) (t : terminal) (gm : geometry).

Definition on_screen gm (x y : Z) : Prop := 0 <= x < width gm /\ 0 <= y < height gm.
Definition image (c : cell) : Z := cell_word (cp437 (cp c)) (attr_of c).

(** The display shows the front buffer. *)
Definition mirrored gm a t : Prop :=
  forall x y, on_screen gm x y -> exists f, front a !! Z.to_nat (index x y) = Some f /\ t_grid t x y = image f.

Definition synced (Q : Z -> Z -> Prop) gm a : Prop :=
  forall x y, on_screen gm x y -> Q x y -> front a !! Z.to_nat (index x y) = back a !! Z.to_nat (index x y).

Record in_step gm s t : Prop := {
  is_shown : shows_terminal gm (dp s) t;
  is_pen : pen_in gm (t_pen t);
  is_core : core (an s);
  is_placed : placed (an s);
  is_size : awidth (an s) = width gm /\ aheight (an s) = height gm;
  is_init : ainitialized (an s) = true;
  is_mirrored : mirrored gm (an s) t;
  is_clean : dirty (an s) = false -> synced everywhere gm (an s)
}.

Lemma index_range gm x y : sizes gm -> on_screen gm x y -> 0 <= index x y < MW * MH.
Proof. intros [Hw Hh] [Hx Hy]. unfold index, MW, MH, MAX_WIDTH, MAX_HEIGHT in *. lia. Qed.

Lemma index_inj gm x y x' y' :
  sizes gm -> on_screen gm x y -> on_screen gm x' y' -> Z.to_nat (index x y) = Z.to_nat (index x' y') -> (x, y) = (x', y').
Proof. intros [Hw _] [Hx Hy] [Hx' Hy'] E. unfold index, MW, MAX_WIDTH in *. f_equal; lia. Qed.

(** *** Flushing *)

Definition flushes gm (l : list (Z * Z)) : Prop := forall p, p ∈ l -> on_screen gm (snd p) (fst p).

Lemma flush_cell_ok gm s t y x :
  shows_terminal gm (dp s) t -> core (an s) -> mirrored gm (an s) t -> on_screen gm x y ->
  exists f d w, flush_cell y x s = Ok (tt, Console (with_front f (an s)) d) /\ length f = length (front (an s)) /\
    f !! Z.to_nat (index x y) = back (an s) !! Z.to_nat (index x y) /\
    (forall x' y', on_screen gm x' y' -> (x', y') <> (x, y) -> f !! Z.to_nat (index x' y') = front (an s) !! Z.to_nat (index x' y')) /\
    shows_terminal gm d (write x y w t) /\ mirrored gm (with_front f (an s)) (write x y w t).
Proof.
  intros Hs Hc Hm Hon. pose proof (shows_sizes _ _ _ Hs) as Hsz. pose proof (index_range gm x y Hsz Hon) as Hi.
  pose proof Hc as [_ _ Hb Hf Hcells _ _ _].
  destruct (lookup_lt_is_Some_2 (back (an s)) (Z.to_nat (index x y))) as [b Eb]; [lia|].
  destruct (Hm x y Hon) as (f0 & Ef0 & Eg). pose proof (Forall_lookup_1 _ _ _ _ Hcells Eb) as [Hcp Hat].
  unfold flush_cell, on_ansi, load. unfold bind at 1. rewrite Eb, (proj2 (Z.leb_le 0 _)) by lia. cbn [obind fst snd].
  unfold bind at 1, get. cbn [an]. rewrite Ef0.
  destruct ((cp f0 =? cp b) && (attr_of f0 =? attr_of b)) eqn:E.
  - breflect. assert (f0 = b) as -> by (destruct f0, b; cbn in *; congruence).
    exists (front (an s)), (dp s), (t_grid t x y). assert (with_front (front (an s)) (an s) = an s) as -> by by destruct (an s).
    split; [done|]. split; [done|]. split; [exact Ef0|]. split; [done|].
    assert (forall x' y', t_grid (write x y (t_grid t x y) t) x' y' = t_grid t x' y') as Ew.
    { intros x' y'. cbn. unfold put. destruct (Z.eqb_spec x' x) as [->|], (Z.eqb_spec y' y) as [->|]; done. }
    split.
    + destruct Hs as [A1 (A2 & A3 & A4) A5 A6]. constructor; try done. split_and!; try done. eapply picture_same; [exact A4|]. intros ? ? _. apply Ew.
    + intros x' y' Hon'. rewrite Ew. by apply Hm.
  - destruct Hon as [Hx Hy]. destruct (steps_set_cell gm x y (cp437 (cp b)) (attr_of b) t) with (s := dp s) as (d & Ed & Hd);
      [lia|lia|apply cp437_u8|done|done|].
    cbn [terminal_step] in Hd. rewrite (proj2 (Z.ltb_lt x _)), (proj2 (Z.ltb_lt y _)) in Hd by lia. cbn [andb] in Hd.
    unfold bind, on_display. cbn [an dp]. rewrite Ed. cbn [obind fst snd an dp]. unfold set_cell.
    rewrite (proj2 (Z.leb_le 0 _)), (proj2 (Z.ltb_lt _ _)) by lia. cbn [andb obind fst snd].
    exists (<[Z.to_nat (index x y) := b]> (front (an s))), d, (cell_word (cp437 (cp b)) (attr_of b)).
    split; [by destruct (an s)|]. split; [apply length_insert|]. split; [apply list_lookup_insert_eq; lia|].
    assert (forall x' y', on_screen gm x' y' -> (x', y') <> (x, y) -> <[Z.to_nat (index x y) := b]> (front (an s)) !! Z.to_nat (index x' y') = front (an s) !! Z.to_nat (index x' y')) as Hne.
    { intros x' y' Hon' Hn. rewrite list_lookup_insert_ne; [done|]. intros E'. apply Hn. symmetry. by apply (index_inj gm). }
    split; [done|]. split; [done|]. intros x' y' Hon'. cbn [front with_front write t_grid].
    destruct (decide ((x', y') = (x, y))) as [[= -> ->]|Hn].
    + exists b. split; [apply list_lookup_insert_eq; lia|]. by rewrite put_same.
    + rewrite Hne, put_other by done. by apply Hm.
Qed.

Lemma flush_loop gm (l : list (Z * Z)) s t (Q : Z -> Z -> Prop) :
  shows_terminal gm (dp s) t -> core (an s) -> mirrored gm (an s) t -> (forall y x, (y, x) ∈ l -> on_screen gm x y) -> synced Q gm (an s) ->
  exists f d t', each l (fun '(y, x) => flush_cell y x) s = Ok (tt, Console (with_front f (an s)) d) /\
    shows_terminal gm d t' /\ t_pen t' = t_pen t /\ core (with_front f (an s)) /\ mirrored gm (with_front f (an s)) t' /\
    synced (fun x y => Q x y \/ (y, x) ∈ l) gm (with_front f (an s)).
Proof.
  revert s t Q. induction l as [|[y x] l IH]; intros s t Q Hs Hc Hm Hl Hq.
  { exists (front (an s)), (dp s), t. assert (with_front (front (an s)) (an s) = an s) as -> by by destruct (an s).
    split_and!; try done; [by destruct s|]. intros x y Hon [HQ|HQ]; [by apply Hq|by apply elem_of_nil in HQ]. }
  destruct (flush_cell_ok gm s t y x) as (f & d & w & E & Hlen & Hxy & Hne & Hd & Hm'); [done..|apply Hl; by left|].
  cbn [each]. unfold bind. rewrite E. set (s1 := Console (with_front f (an s)) d).
  assert (core (an s1)) as Hc1 by (destruct Hc; constructor; try done; cbn; congruence).
  destruct (IH s1 (write x y w t) (fun x' y' => Q x' y' \/ (x', y') = (x, y))) as (f2 & d2 & t2 & E2 & H1 & H2 & H3 & H4 & H5);
    [done|done|done|intros y' x' Hin; apply Hl; by right| |].
  { intros x' y' Hon HQ. cbn [an s1 front back with_front]. destruct (decide ((x', y') = (x, y))) as [[= -> ->]|Hn]; [done|].
    rewrite Hne by done. apply Hq; [done|]. by destruct HQ. }
  exists f2, d2, t2. split; [exact E2|]. split_and!; try done. intros x' y' Hon HQ. apply H5; [done|].
  destruct HQ as [HQ|[[= -> ->]|HQ]%elem_of_cons]; auto.
Qed.

(** The cursor the display shows. *)
Definition cursor_of gm a (p : pen) : pen := at_position (clamp (height gm) (arow (pos a))) (clamp (width gm) (acol (pos a))) p.

Lemma flush_ok gm s t :
  in_step gm s t ->
  exists s' t', ansi_flush s = Ok (tt, s') /\ in_step gm s' t' /\ synced everywhere gm (an s') /\
    back (an s') = back (an s) /\ pos (an s') = pos (an s) /\
    (if dirty (an s) then t_pen t' = cursor_of gm (an s) (t_pen t) else t' = t).
Proof.
  intros Hst. pose proof Hst as [Hs Hp Hc Hpl [Ew Eh] Hin Hm Hcl]. pose proof (shows_sizes _ _ _ Hs) as [Hw Hh].
  unfold ansi_flush. unfold bind at 1, get. rewrite Hin. destruct (dirty (an s)) eqn:Ed; cbn [negb orb].
  2:{ exists s, t. split_and!; try done. by apply Hcl. }
  unfold bind at 1. rewrite each_each. rewrite Ew, Eh.
  destruct (flush_loop gm (list_prod (seqZ 0 (height gm)) (seqZ 0 (width gm))) s t (fun _ _ => False)) as (f & d & t' & -> & H1 & H2 & H3 & H4 & H5).
  - done.
  - done.
  - done.
  - intros y x [Hy%elem_of_seqZ Hx%elem_of_seqZ]%elem_of_list_prod. unfold on_screen. lia.
  - by intros ? ? _ [].
  - destruct Hpl as [Hr Hk]. unfold bind, on_display. cbn [an dp].
    destruct (steps_cursor_set gm (acol (pos (an s))) (arow (pos (an s))) (cursor_on (an s)) true t') with (s := d) as (d' & -> & Hd'); [lia|lia|done|].
    cbn [obind fst snd an dp]. eexists _, _. split; [reflexivity|]. cbn [an dp].
    assert (synced everywhere gm (with_dirty false (with_front f (an s)))) as Hsy.
    { intros x y Hon _. apply (H5 x y Hon). right. apply elem_of_list_prod. rewrite !elem_of_seqZ. unfold on_screen in Hon. lia. }
    split; [|split; [exact Hsy|split; [done|split; [done|]]]].
    + constructor; cbn [an dp]; try done.
      * destruct Hp as (_ & _ & ? & ?). unfold pen_in. cbn [terminal_step goto t_pen at_position row col color fg]. rewrite H2.
        split_and!; try done; apply clamp_range; lia.
      * by destruct H3; constructor.
    + cbn. rewrite H2. done.
Qed.

(** *** Starting *)

(** The terminal's memory before its first use. *)
Definition fresh a : Prop :=
  length (back a) = Z.to_nat (MW * MH) /\ length (front a) = Z.to_nat (MW * MH) /\ Forall cell_ok (back a) /\ parser_ok (ps a).

Definition word_cell (w : Z) : cell := Cell (u8 w) (u8 (Z.shiftr w 8)).

Lemma word_cell_ok (w : Z) : cell_ok (word_cell w).
Proof. split; [|apply u8_range]. pose proof (u8_range w). unfold is_u8, is_u32 in *. cbn. lia. Qed.

(** Both buffers hold the display's cell. *)
Definition fetched (Q : Z -> Z -> Prop) gm a t : Prop :=
  forall x y, on_screen gm x y -> Q x y ->
  back a !! Z.to_nat (index x y) = Some (word_cell (t_grid t x y)) /\ front a !! Z.to_nat (index x y) = Some (word_cell (t_grid t x y)).

Lemma display_cell_reads gm (d : display D) t x y :
  shows_terminal gm d t -> on_screen gm x y -> display_cell x y d = Ok (t_grid t x y, d).
Proof.
  intros [Eg (_ & _ & Hpic) _ _] [Hx Hy]. destruct (Hpic x y) as (Ec & _); [unfold in_grid; by rewrite Eg|done|].
  unfold display_cell, bind, get. rewrite Eg, (proj2 (Z.ltb_lt _ _)), (proj2 (Z.ltb_lt _ _)) by lia. cbn [andb].
  unfold get_cell, lift. by rewrite Ec.
Qed.

Lemma fetch_loop gm (l : list (Z * Z)) s t (Q : Z -> Z -> Prop) :
  shows_terminal gm (dp s) t -> fresh (an s) -> (forall y x, (y, x) ∈ l -> on_screen gm x y) -> fetched Q gm (an s) t ->
  exists f b, each l (fun '(y, x) => fetch_cell y x) s = Ok (tt, Console (with_front f (with_back b (an s))) (dp s)) /\
    fresh (with_front f (with_back b (an s))) /\ fetched (fun x y => Q x y \/ (y, x) ∈ l) gm (with_front f (with_back b (an s))) t.
Proof.
  intros Hs. revert s Hs Q. induction l as [|[y x] l IH]; intros s Hs Q Hf Hl Hq.
  { exists (front (an s)), (back (an s)). assert (with_front (front (an s)) (with_back (back (an s)) (an s)) = an s) as -> by by destruct (an s).
    split_and!; try done; [by destruct s|]. intros x y Hon [HQ|HQ]; [by apply Hq|by apply elem_of_nil in HQ]. }
  assert (on_screen gm x y) as Hon by (apply Hl; by left). pose proof (shows_sizes _ _ _ Hs) as Hsz. pose proof (index_range gm x y Hsz Hon) as Hi.
  pose proof Hf as (F1 & F2 & F3 & F4). cbn [each]. unfold fetch_cell at 1, on_display, on_ansi. unfold bind at 1 2.
  rewrite (display_cell_reads gm _ t) by done. cbn [obind fst snd an dp]. unfold bind at 1, store, set_cell.
  fold (word_cell (t_grid t x y)). set (c := word_cell (t_grid t x y)). set (i := Z.to_nat (index x y)).
  rewrite (proj2 (Z.leb_le 0 _)), (proj2 (Z.ltb_lt _ _)) by lia. cbn [andb obind fst snd front with_back].
  rewrite (proj2 (Z.ltb_lt _ _)) by lia. cbn [obind fst snd].
  set (s1 := Console (with_front (<[i := c]> (front (an s))) (with_back (<[i := c]> (back (an s))) (an s))) (dp s)).
  assert (fresh (an s1)) as Hf1.
  { split_and!; cbn; rewrite ?length_insert; try done. apply Forall_insert; [done|apply word_cell_ok]. }
  destruct (IH s1 Hs (fun x' y' => Q x' y' \/ (x', y') = (x, y))) as (f & b & E & Hf2 & Hq2); [done|intros y' x' Hin; apply Hl; by right| |].
  { intros x' y' Hon' HQ. cbn [an s1 back front with_front with_back]. destruct (decide ((x', y') = (x, y))) as [[= -> ->]|Hn].
    - unfold i. rewrite !list_lookup_insert_eq by lia. done.
    - unfold i. rewrite !list_lookup_insert_ne; [apply Hq; [done|by destruct HQ]|..]; intros E; apply Hn; symmetry; by apply (index_inj gm). }
  exists f, b. split; [exact E|]. split; [exact Hf2|]. intros x' y' Hon' HQ. apply Hq2; [done|].
  destruct HQ as [HQ|[[= -> ->]|HQ]%elem_of_cons]; auto.
Qed.

Definition ascii_screen gm t : Prop := forall x y, on_screen gm x y -> is_u16 (t_grid t x y) /\ u8 (t_grid t x y) < 128.

Lemma image_of_word (w : Z) : is_u16 w -> u8 w < 128 -> image (word_cell w) = w.
Proof.
  intros Hw Ha. unfold image, word_cell. cbn [cp attr_of]. rewrite cp437_ascii by (pose proof (u8_range w); unfold is_u8 in *; lia).
  apply (word_of_parts w Hw).
Qed.

Lemma ansi_init_ok gm s t :
  shows_terminal gm (dp s) t -> pen_in gm (t_pen t) -> fresh (an s) -> ascii_screen gm t ->
  exists s', ansi_init s = Ok (tt, s') /\ in_step gm s' t /\ dirty (an s') = false.
Proof.
  intros Hs Hp Hf Ha. pose proof (shows_sizes _ _ _ Hs) as [Hw Hh]. unfold ansi_init, on_display, display_width, display_height.
  unfold bind at 1. unfold bind at 1, get, ret. cbn [obind fst snd an dp]. unfold bind at 1. unfold bind at 1. cbn [obind fst snd an dp].
  rewrite (st_geo _ _ _ Hs).
  assert (Z.min (width gm) MW = width gm) as -> by (unfold MW, MAX_WIDTH in *; lia).
  assert (Z.min (height gm) MH = height gm) as -> by (unfold MH, MAX_HEIGHT in *; lia).
  unfold bind at 1, on_ansi at 1, modify at 1. cbn [obind fst snd an dp]. set (s1 := Console _ (dp s)). unfold bind at 1. rewrite each_each.
  destruct (fetch_loop gm (list_prod (seqZ 0 (height gm)) (seqZ 0 (width gm))) s1 t (fun _ _ => False)) as (f & b & -> & (F1 & F2 & F3 & F4) & Hq).
  - done.
  - exact Hf.
  - intros y x [Hy%elem_of_seqZ Hx%elem_of_seqZ]%elem_of_list_prod. unfold on_screen. lia.
  - by intros ? ? _ [].
  - assert (fetched everywhere gm (with_front f (with_back b (an s1))) t) as Hq'.
    { intros x y Hon _. apply (Hq x y Hon). right. apply elem_of_list_prod. rewrite !elem_of_seqZ. unfold on_screen in Hon. lia. }
    unfold on_ansi, modify. cbn [obind fst snd an dp]. eexists. split; [reflexivity|].
    rewrite (proj2 (Z.eqb_neq (height gm) 0)) by lia. split; [|done]. constructor; cbn [an dp]; try done.
    + unfold MW, MH, MAX_WIDTH, MAX_HEIGHT in *. constructor; cbn; try done; try lia.
      destruct F4 as (? & ? & ? & ? & ?). unfold parser_ok. cbn. split_and!; try done; lia.
    + unfold placed. cbn. lia.
    + intros x y Hon. destruct (Hq' x y Hon) as [_ E]; [done|]. exists (word_cell (t_grid t x y)). split; [exact E|].
      destruct (Ha x y Hon). by rewrite image_of_word.
    + intros _ x y Hon _. destruct (Hq' x y Hon) as [E1 E2]; [done|]. cbn [front back an] in *. congruence.
Qed.

(** *** Writing *)

Lemma putchar_ok gm s t b :
  in_step gm s t -> is_u8 b -> exists s', ansi_putchar b s = Ok (tt, s') /\ in_step gm s' t.
Proof.
  intros [Hs Hp Hc Hpl [Ew Eh] Hin Hm Hcl] Hb. unfold ansi_putchar, need_init. unfold bind at 1. unfold bind at 1, get. rewrite Hin.
  unfold ret, on_ansi. destruct (does_put_byte b Hb (an s) Hc Hpl) as (a' & -> & Hc' & Hpl' & [T1 T2 T3 T4 T5]). cbn [obind fst snd].
  eexists. split; [reflexivity|]. constructor; cbn [an dp]; try done; try congruence.
  - split; congruence.
  - intros x y Hon. rewrite T3. by apply Hm.
  - intros Hd x y Hon _. destruct (T5 Hd) as [Hd0 Eb]. rewrite T3, Eb. by apply Hcl.
Qed.

Lemma putchars_ok gm s t (l : list Z) :
  in_step gm s t -> Forall is_u8 l -> exists s', each l ansi_putchar s = Ok (tt, s') /\ in_step gm s' t.
Proof.
  intros Hs Hl. revert s Hs. induction Hl as [|b l Hb Hl IH]; intros s Hs; [by exists s|].
  destruct (putchar_ok gm s t b Hs Hb) as (s1 & E1 & Hs1). cbn [each]. unfold bind. rewrite E1. by apply IH.
Qed.

(** What a flushed terminal shows. *)
Definition shows_back gm s t : Prop :=
  forall x y, on_screen gm x y -> exists c, back (an s) !! Z.to_nat (index x y) = Some c /\ t_grid t x y = image c.

Lemma write_ok gm s t (l : list Z) :
  in_step gm s t -> Forall is_u8 l ->
  exists s' t', ansi_write (Some l) s = Ok (tt, s') /\ in_step gm s' t' /\ shows_back gm s' t'.
Proof.
  intros Hs Hl. destruct (putchars_ok gm s t l Hs Hl) as (s1 & E1 & Hs1). destruct (flush_ok gm s1 t Hs1) as (s2 & t2 & E2 & Hs2 & Hsy & _).
  exists s2, t2. unfold ansi_write, bind. rewrite E1. split; [done|]. split; [done|].
  intros x y Hon. destruct (is_mirrored _ _ _ Hs2 x y Hon) as (f & Ef & Eg). exists f. split; [|done]. rewrite <- (Hsy x y Hon); done.
Qed.

Lemma writes_ok gm s t (texts : list (list Z)) :
  in_step gm s t -> shows_back gm s t -> Forall (Forall is_u8) texts ->
  exists s' t', each texts (fun l => ansi_write (Some l)) s = Ok (tt, s') /\ in_step gm s' t' /\ shows_back gm s' t'.
Proof.
  intros Hs Hb Hl. revert s t Hs Hb. induction Hl as [|l texts Hl Hls IH]; intros s t Hs Hb; [by exists s, t|].
  destruct (write_ok gm s t l Hs Hl) as (s1 & t1 & E1 & Hs1 & Hb1). cbn [each]. unfold bind. rewrite E1. by apply IH with t1.
Qed.

(** C33. Any bytes written to the escape-sequence terminal, text or garbage:
    started on a display that shows plain text, every sequence of writes
    returns without leaving the buffers or the parameter array, the cursor
    stays within the screen (or one past the last column), the scrolling region
    and the parser within their limits, and after each write the display shows
    every cell of the back buffer, box-drawing code points as their code-page
    glyphs, with the pixels or text buffer to match. *)
Theorem ansi_writes_shown gm s t (texts : list (list Z)) :
  shows_terminal gm (dp s) t -> pen_in gm (t_pen t) -> fresh (an s) -> ascii_screen gm t -> Forall (Forall is_u8) texts ->
  exists s' t', (ansi_reset ;; each texts (fun l => ansi_write (Some l))) s = Ok (tt, s') /\
    shows_terminal gm (dp s') t' /\ core (an s') /\ placed (an s') /\ shows_back gm s' t'.
Proof.
  intros Hs Hp Hf Ha Hl. destruct (ansi_init_ok gm s t) as (s1 & E1 & Hs1 & Hd); [done..|].
  assert (shows_back gm s1 t) as Hb1.
  { intros x y Hon. destruct (is_mirrored _ _ _ Hs1 x y Hon) as (f & Ef & Eg). exists f. split; [|done].
    rewrite <- (is_clean _ _ _ Hs1 Hd x y Hon); done. }
  destruct (writes_ok gm s1 t texts Hs1 Hb1 Hl) as (s2 & t2 & E2 & [] & Hb2). exists s2, t2. unfold bind, ansi_reset. rewrite E1. done.
Qed.
End console.

(** *** An example *)

Definition example_ansi : ansi :=
  Ansi 0 0 (Position 0 0 0 0 0 0) (Look 7 0 false) (Parser 0 false [] 0 0 0) true false false
    (replicate (Z.to_nat (MW * MH)) (Cell 0 0)) (replicate (Z.to_nat (MW * MH)) (Cell 0 0)).

Definition example_texts : list (list Z) := [27 :: text "[31mred" ++ [226; 148; 128; 255; 27] ++ text "[2;5Hx" ++ [9; 10]].

Lemma ansi_writes_shown_witness :
  exists s' t', (ansi_reset ;; each example_texts (fun l => ansi_write (Some l))) (Console example_ansi example_display) = Ok (tt, s') /\
    shows_terminal example_geometry (dp s') t'.
Proof.
  destruct (ansi_writes_shown example_geometry (Console example_ansi example_display) example_terminal example_texts) as (s' & t' & E & Hs & _).
  - exact example_shows.
  - unfold pen_in, is_u8. change (height example_geometry) with 23. change (width example_geometry) with 71. cbn. lia.
  - split_and!; [apply length_replicate|apply length_replicate| |].
    + apply Forall_replicate. split; unfold is_u32, is_u8; cbn; lia.
    + unfold parser_ok, is_u32. cbn. split_and!; first [apply Forall_nil_2|lia].
  - intros x y _. change (t_grid example_terminal x y) with 0. unfold is_u16. split; [lia|]. by vm_compute.
  - vm_compute. repeat constructor; done.
  - exists s', t'. split; [exact E|exact Hs].
Defined.

(** ** Behaviour to know about *)

(** A character written behind a tabulator that stops at the right edge is lost:
    the column is one past the last, where [mark] draws nothing. *)
Lemma tab_loses_character :
  let a := with_pos (Position 0 64 0 0 0 22) (Ansi 71 23 (Position 0 0 0 0 0 22) (Look 7 0 false) (Parser 0 false [] 0 0 0) true true false
             (replicate (Z.to_nat (MW * MH)) (Cell 32 7)) (replicate (Z.to_nat (MW * MH)) (Cell 32 7))) in
  exists a', (emit 9 ;; emit 120) a = Ok (tt, a') /\ arow (pos a') = 1 /\ acol (pos a') = 0 /\ forallb (fun c => cp c =? 32) (back a') = true.
Proof. eexists. split; [vm_compute; reflexivity|]. vm_compute. done. Qed.

(** Moving the cursor or hiding it changes nothing on the display: [ansi_flush]
    does nothing unless a cell was marked. *)
Lemma cursor_move_not_shown :
  let s := Console (with_pos (Position 0 0 0 0 0 22) (Ansi 71 23 (Position 0 0 0 0 0 22) (Look 7 0 false) (Parser 0 false [] 0 0 0) true true false
             (replicate (Z.to_nat (MW * MH)) (Cell 0 0)) (replicate (Z.to_nat (MW * MH)) (Cell 0 0)))) example_display in
  exists s', ansi_write (Some (27 :: text "[5;9H")) s = Ok (tt, s') /\ arow (pos (an s')) = 4 /\ acol (pos (an s')) = 8 /\ dp s' = dp s.
Proof. eexists. split; [vm_compute; reflexivity|]. vm_compute. done. Qed.

(** A box-drawing character that is on the screen when the terminal starts is
    taken for a code point; drawn again, it is a question mark. *)
Lemma box_turns_question : image (word_cell (cell_word 196 7)) = cell_word 63 7.
Proof. by vm_compute. Qed.

(** What the driver sends over the serial line for a cell, read back by the same
    terminal, is the code point: for every printable ASCII character and every
    box-drawing code point the driver has a glyph for. *)
Definition blank_ansi : ansi :=
  Ansi 80 25 (Position 0 0 0 0 0 24) (Look 7 0 false) (Parser 0 false [] 0 0 0) true true false
    (replicate (Z.to_nat (MW * MH)) (Cell 32 7)) (replicate (Z.to_nat (MW * MH)) (Cell 32 7)).

Definition reads_back (u : Z) : bool :=
  match each (serial_bytes (display_codepoint_glyph u)) put_byte blank_ansi with
  | Ok (_, a) => match back a !! 0%nat with Some c => (cp c =? u) && (acol (pos a) =? 1) | None => false end
  | _ => false
  end.

Lemma serial_image_decodes : forallb reads_back (seqZ 32 95 ++ map fst box_codes) = true.
Proof. by vm_compute. Qed.
