(* ===== verification/Ext2.v ===== *)
(** * The ext2 file system (src/kernel/fs/ext2.c)

    One block group of 4 KiB blocks on the data partition.  A block is the list
    of its 4096 bytes and an inode the 128 bytes of its packed structure.  The
    sectors are those of the interface [Disk], as src/kernel/drivers/disk/disk.c
    offers them. *)

From stdpp Require Import base numbers list strings.
From Stdlib Require Import ZArith Lia.
From S2P Require Import Prelude Effects Mini64Fat.

Definition VAR_START : Z := 131072.
Definition VAR_SECTORS : Z := 131072.

Definition BS : Z := 4096.
Definition SECTORS_PER_BLOCK : Z := 8.
Definition INODES : Z := 8192.
Definition INODE_SIZE : Z := 128.
Definition BLOCK_BITMAP : Z := 2.
Definition INODE_BITMAP : Z := 3.
Definition INODE_TABLE : Z := 4.
Definition INODE_TABLE_BLOCKS : Z := 256.
Definition FIRST_DATA : Z := 260.
Definition ROOT_INO : Z := 2.
Definition EXT2_MAGIC : Z := 0xef53.
Definition EXT2_DIR : Z := 0x4000.
Definition EXT2_FILE : Z := 0x8000.
Definition INDIRECT_ENTRIES : Z := BS / 4.
Definition MAX_FILE_BLOCKS : Z := 12 + INDIRECT_ENTRIES.
Definition MAX_FILE_SIZE : Z := MAX_FILE_BLOCKS * BS.

Record ext2 (D : Type) := Ext2 { dk : D; base : Z; blocks : Z; mounted : bool }.
Arguments Ext2 {D}. Arguments dk {D}. Arguments base {D}. Arguments blocks {D}. Arguments mounted {D}.

(** ** Inodes *)

Definition inode_t : Type := list Z.

Definition i_mode (i : inode_t) : Z := r16 i 0.
Definition i_uid (i : inode_t) : Z := r16 i 2.
Definition i_size (i : inode_t) : Z := r32 i 4.
Definition i_gid (i : inode_t) : Z := r16 i 24.
Definition i_links (i : inode_t) : Z := r16 i 26.
Definition i_blocks (i : inode_t) : Z := r32 i 28.
Definition block_field (k : nat) : nat := (40 + 4 * k)%nat.
Definition i_block (k : nat) (i : inode_t) : Z := r32 i (block_field k).

Definition set_mode (v : Z) (i : inode_t) : inode_t := w16 0 v i.
Definition set_uid (v : Z) (i : inode_t) : inode_t := w16 2 v i.
Definition set_size (v : Z) (i : inode_t) : inode_t := w32 4 v i.
Definition set_gid (v : Z) (i : inode_t) : inode_t := w16 24 v i.
Definition set_links (v : Z) (i : inode_t) : inode_t := w16 26 v i.
Definition set_blocks (v : Z) (i : inode_t) : inode_t := w32 28 v i.
Definition set_block (k : nat) (v : Z) (i : inode_t) : inode_t := w32 (block_field k) v i.
Definition clear_blocks (i : inode_t) : inode_t := fold_left (fun i k => set_block k 0 i) (seq 0 15) i.
Definition zero_inode : inode_t := zero 128.

Definition is_dir (i : inode_t) : bool := z2b (Z.land (i_mode i) EXT2_DIR).

(** ** Directory blocks *)

Definition ideal (n : Z) : Z := Z.land (8 + n + 3) (Z.lnot 3).

(** [eqn(a, b + o, n)]: reading past the block is undefined. *)
Fixpoint eqn (a b : list Z) : outcome bool :=
  match a, b with
  | [], _ => Ok true
  | x :: a, y :: b => if x =? y then eqn a b else Ok false
  | _ :: _, [] => Undefined
  end.

Definition rec_ino (b : list Z) (p : Z) : Z := r32 b (Z.to_nat p).
Definition rec_len (b : list Z) (p : Z) : Z := r16 b (Z.to_nat p + 4).
Definition name_len (b : list Z) (p : Z) : Z := byte_at b (Z.to_nat p + 6).
Definition name_from (b : list Z) (p : Z) : list Z := drop (Z.to_nat p + 8) b.

(** Records are at least 8 bytes long, so a block has at most 512. *)
Definition RECORDS : nat := 513.

Fixpoint find_record (fuel : nat) (b name : list Z) (p : Z) : outcome (option Z) :=
  match fuel with
  | O => OutOfFuel
  | S fuel =>
    if negb (p + 8 <=? BS) then Ok None else
    let n := rec_ino b p in
    let len := rec_len b p in
    if (len <? 8) || (BS <? p + len) then Ok None else
    do same <- (if negb (n =? 0) && (name_len b p =? Z.of_nat (length name)) then eqn name (name_from b p) else Ok false);
    if same then Ok (Some n) else find_record fuel b name (p + len)
  end.

(** The block with a new record behind the first one with room for it. *)
Definition split_record (b name : list Z) (ino type p : Z) : list Z :=
  let len := rec_len b p in
  let used := ideal (name_len b p) in
  let b := w16 (Z.to_nat p + 4) used b in
  let q := Z.to_nat (p + used) in
  wtext (q + 8) name (w8 (q + 7) type (w8 (q + 6) (Z.of_nat (length name)) (w16 (q + 4) (len - used) (w32 q ino b)))).

Fixpoint add_record (fuel : nat) (b name : list Z) (ino type p : Z) : outcome (option (list Z)) :=
  match fuel with
  | O => OutOfFuel
  | S fuel =>
    if negb (p + 8 <=? BS) then Ok None else
    let len := rec_len b p in
    if (len <? 8) || (BS <? p + len) then Ok None else
    if negb (rec_ino b p =? 0) && (ideal (name_len b p) + ideal (Z.of_nat (length name)) <=? len)
    then Ok (Some (split_record b name ino type p))
    else add_record fuel b name ino type (p + len)
  end.

(** Taking a record out: its length is added to the one before.  The loop does
    not check the lengths: a length of 0 never ends it, and a record that starts
    in the last bytes is read past the block. *)
Fixpoint drop_record (fuel : nat) (b : list Z) (ino pos prev : Z) : outcome (option (list Z)) :=
  match fuel with
  | O => OutOfFuel
  | S fuel =>
    if negb (pos <? BS) then Ok None
    else if BS <? pos + 6 then Undefined else
    let len := rec_len b pos in
    if rec_ino b pos =? ino then
      Ok (Some (if z2b pos then w16 (Z.to_nat prev + 4) (rec_len b prev + len) b else w32 (Z.to_nat pos) 0 b))
    else drop_record fuel b ino (pos + len) pos
  end.

(** The first block of a directory. *)
Definition first_records (ino parent : Z) : list Z :=
  let b := w8 8 46 (w8 7 2 (w8 6 1 (w16 4 12 (w32 0 ino (zero (Z.to_nat BS)))))) in
  w8 21 46 (w8 20 46 (w8 19 2 (w8 18 2 (w16 16 (BS - 12) (w32 12 parent b))))).

Section ext2.
Context {D : Type} `{Disk D}.

Local Abbreviation E := (M (ext2 D)).

Definition on_disk {A} (f : D -> A * D) : E A :=
  fun s => let '(a, d) := f (dk s) in Ok (a, Ext2 d (base s) (blocks s) (mounted s)).
Definition set_mounted (b : bool) : E unit := modify (fun s => Ext2 (dk s) (base s) (blocks s) b).
Definition set_volume : E unit := modify (fun s => Ext2 (dk s) VAR_START (VAR_SECTORS / SECTORS_PER_BLOCK) (mounted s)).

(** ** Blocks *)

Definition block_lba (bs n : Z) (i : Z) : Z := u32 (bs + n * 8 + i).

Fixpoint read_sectors (k : nat) (n i : Z) : E (option (list Z)) :=
  match k with
  | O => ret (Some [])
  | S k =>
    let! s := get in
    let! r := on_disk (blk_read (block_lba (base s) n i)) in
    match r with
    | None => ret None
    | Some x => let! r := read_sectors k n (i + 1) in ret (option_map (app x) r)
    end
  end.

Definition bread (n : Z) : E (option (list Z)) :=
  let! s := get in if blocks s <=? n then ret None else read_sectors 8 n 0.

Fixpoint write_sectors (k : nat) (n i : Z) (b : list Z) : E bool :=
  match k with
  | O => ret true
  | S k =>
    let! s := get in
    let! ok := on_disk (blk_write (block_lba (base s) n i) (take 512 b)) in
    if ok then write_sectors k n (i + 1) (drop 512 b) else ret false
  end.

Definition bwrite (n : Z) (b : list Z) : E bool :=
  let! s := get in if blocks s <=? n then ret false else write_sectors 8 n 0 b.

(** Early return of 0 when a step fails. *)
Definition orelse {A B} (z : B) (m : E (option A)) (f : A -> E B) : E B :=
  let! r := m in match r with Some a => f a | None => ret z end.
Definition provided {B} (z : B) (m : E bool) (k : E B) : E B := let! ok := m in if ok then k else ret z.

Definition disk_sync : E bool := on_disk blk_flush.

Definition inode_block (ino : Z) : Z := INODE_TABLE + (ino - 1) * INODE_SIZE / BS.
Definition inode_offset (ino : Z) : nat := Z.to_nat ((ino - 1) * INODE_SIZE mod BS).

Definition inode_get (ino : Z) : E (option inode_t) :=
  if (ino =? 0) || (INODES <? ino) then ret None
  else orelse None (bread (inode_block ino)) (fun b => ret (Some (take 128 (drop (inode_offset ino) b)))).

Definition inode_put (ino : Z) (i : inode_t) : E bool :=
  orelse false (bread (inode_block ino)) (fun b => bwrite (inode_block ino) (wtext (inode_offset ino) i b)).

Definition add16 (o : nat) (d : Z) (b : list Z) : list Z := w16 o (r16 b o + d) b.
Definition add32 (o : nat) (d : Z) (b : list Z) : list Z := w32 o (r32 b o + d) b.

Definition counters (db di dd : Z) : E bool :=
  orelse false (bread 0) (fun b =>
  provided false (bwrite 0 (add32 1040 di (add32 1036 db b)))
  (orelse false (bread 1) (fun b => bwrite 1 (add16 16 dd (add16 14 di (add16 12 db b)))))).

(** ** Bitmaps *)

Definition bit_set (b : list Z) (i : Z) : bool := z2b (Z.land (byte_at b (Z.to_nat (Z.shiftr i 3))) (Z.shiftl 1 (Z.land i 7))).
Definition mark_bit (i : Z) (b : list Z) : list Z :=
  w8 (Z.to_nat (Z.shiftr i 3)) (Z.lor (byte_at b (Z.to_nat (Z.shiftr i 3))) (Z.shiftl 1 (Z.land i 7))) b.
Definition clear_bit (i : Z) (b : list Z) : list Z :=
  w8 (Z.to_nat (Z.shiftr i 3)) (Z.land (byte_at b (Z.to_nat (Z.shiftr i 3))) (u8 (Z.lnot (Z.shiftl 1 (Z.land i 7))))) b.

Fixpoint first_clear (n : nat) (i : Z) (b : list Z) : option Z :=
  match n with
  | O => None
  | S n => if bit_set b i then first_clear n (i + 1) b else Some i
  end.

Definition alloc_bit (bitmap first limit : Z) (inode : bool) : E Z :=
  orelse 0 (bread bitmap) (fun b =>
  match first_clear (Z.to_nat (limit - first)) first b with
  | None => ret 0
  | Some i =>
    provided 0 (bwrite bitmap (mark_bit i b))
      (provided 0 (counters (if inode then 0 else -1) (if inode then -1 else 0) 0) (ret (i + 1)))
  end).

Definition free_bit (bitmap number : Z) (inode : bool) : E bool :=
  if number =? 0 then ret false else
  orelse false (bread bitmap) (fun b =>
  if BS <=? Z.shiftr (number - 1) 3 then undefined else
  provided false (bwrite bitmap (clear_bit (number - 1) b)) (counters (if inode then 0 else 1) (if inode then 1 else 0) 0)).

Definition alloc_block : E Z :=
  let! s := get in
  let! n := alloc_bit BLOCK_BITMAP (FIRST_DATA + 1) (blocks s) false in
  ret (if n =? 0 then 0 else n - 1).
Definition alloc_inode : E Z := alloc_bit INODE_BITMAP 10 INODES true.

(** ** Directories *)

Definition pure {A} (o : outcome A) : E A := fun s => do a <- o; Ok (a, s).

(** The inode number under a name, 0 when there is none. *)
Definition dir_find (dir : Z) (name : list Z) : E (option Z) :=
  orelse None (inode_get dir) (fun i =>
  if negb (is_dir i) || (i_block 0 i =? 0) then ret None else
  orelse None (bread (i_block 0 i)) (fun b => pure (find_record RECORDS b name 0))).

Definition dir_add (dir : Z) (name : list Z) (ino type : Z) : E bool :=
  let len := Z.of_nat (length name) in
  if (len =? 0) || (255 <? len) then ret false else
  orelse false (inode_get dir) (fun i =>
  if i_block 0 i =? 0 then ret false else
  orelse false (bread (i_block 0 i)) (fun b =>
  let! r := pure (add_record RECORDS b name ino type 0) in
  match r with Some b => bwrite (i_block 0 i) b | None => ret false end)).

Definition dir_inode (blk : Z) : inode_t :=
  set_block 0 blk (set_blocks 8 (set_size BS (set_links 2 (set_mode (Z.lor EXT2_DIR 0x1ed) zero_inode)))).

Definition make_dir (parent : Z) (name : list Z) : E (option Z) :=
  let! ino := alloc_inode in
  let! blk := alloc_block in
  if (ino =? 0) || (blk =? 0) then ret None else
  provided None (bwrite blk (first_records ino parent))
  (provided None (inode_put ino (dir_inode blk))
  (provided None (dir_add parent name ino 2)
  (provided None (counters 0 0 1)
  (let! r := inode_get parent in
   match r with
   | Some p => let! ok := inode_put parent (set_links (i_links p + 1) p) in ret (Some ino)
   | None => ret (Some ino)
   end)))).

Fixpoint skip_slashes (p : list Z) : list Z := match p with c :: q => if c =? 47 then skip_slashes q else p | [] => [] end.
Fixpoint component (p : list Z) : list Z := match p with c :: q => if c =? 47 then [] else c :: component q | [] => [] end.
Fixpoint after (p : list Z) : list Z := match p with c :: q => if c =? 47 then p else after q | [] => [] end.

(** Where a path leads: the directory and name of its last component (none for
    the root), and the inode under it, 0 when there is none. *)
Record place := Place { parent : option (Z * list Z); found : Z }.

(** [leaf] tells whether the caller has a buffer of 256 characters for the name. *)
Fixpoint walk_from (fuel : nat) (cur : Z) (p : list Z) (create leaf : bool) : E (option place) :=
  match fuel with
  | O => out_of_fuel
  | S fuel =>
    let name := component p in
    let rest := skip_slashes (after p) in
    match rest with
    | [] =>
      if leaf && (256 <=? length name)%nat then undefined else
      let! q := dir_find cur name in
      ret (Some (Place (Some (cur, name)) (default 0 q)))
    | _ =>
      let! q := dir_find cur name in
      match q with
      | Some next => walk_from fuel next rest create leaf
      | None =>
        if create then
          let! r := make_dir cur name in
          match r with Some next => walk_from fuel next rest create leaf | None => ret None end
        else ret None
      end
    end
  end.

Definition walk (path : list Z) (create leaf : bool) : E (option place) :=
  match skip_slashes path with
  | [] => ret (Some (Place None ROOT_INO))
  | p => walk_from (length p) ROOT_INO p create leaf
  end.

(** ** The volume *)

Definition ext2_probe : E bool :=
  set_volume ;;
  let! r := bread 0 in
  ret match r with
      | Some b => (r16 b 1080 =? EXT2_MAGIC) && (r32 b 1048 =? 2) && (r16 b 1112 =? INODE_SIZE)
      | None => false
      end.

Definition super_block (n : Z) : list Z :=
  w32 1120 2 (w16 1112 INODE_SIZE (w32 1108 11 (w32 1100 1 (w16 1084 1 (w16 1082 1 (w16 1080 EXT2_MAGIC
  (w32 1064 INODES (w32 1060 32768 (w32 1056 32768 (w32 1052 2 (w32 1048 2 (w32 1044 0 (w32 1040 (INODES - 10)
  (w32 1036 (n - (FIRST_DATA + 1)) (w32 1028 n (w32 1024 INODES (zero (Z.to_nat BS)))))))))))))))))).

Definition group_block (n : Z) : list Z :=
  w16 16 1 (w16 14 (INODES - 10) (w16 12 (n - FIRST_DATA - 1)
  (w32 8 INODE_TABLE (w32 4 INODE_BITMAP (w32 0 BLOCK_BITMAP (zero (Z.to_nat BS))))))).

(** A bitmap with the first bits and those from [n] on set. *)
Definition mark_bits (l : list Z) (b : list Z) : list Z := fold_left (fun b i => mark_bit i b) l b.
Definition new_bitmap (used n : Z) : list Z :=
  mark_bits (seqZ n (32768 - n)) (mark_bits (seqZ 0 used) (zero (Z.to_nat BS))).

Fixpoint write_all (l : list Z) (b : list Z) : E bool :=
  match l with [] => ret true | n :: l => provided false (bwrite n b) (write_all l b) end.

Definition root_inode : inode_t :=
  set_block 0 FIRST_DATA (set_blocks 8 (set_links 2 (set_size BS (set_mode (Z.lor EXT2_DIR 0x1ed) zero_inode)))).

Definition ext2_format : E bool :=
  set_volume ;;
  let! s := get in
  let n := blocks s in
  if (n <=? FIRST_DATA + 1) || (32768 <? n) then ret false else
  provided false (bwrite 0 (super_block n))
  (provided false (bwrite 1 (group_block n))
  (provided false (bwrite BLOCK_BITMAP (new_bitmap (FIRST_DATA + 1) n))
  (provided false (bwrite INODE_BITMAP (new_bitmap 10 INODES))
  (provided false (write_all (map (Z.add INODE_TABLE) (seqZ 0 INODE_TABLE_BLOCKS)) (zero (Z.to_nat BS)))
  (provided false (inode_put ROOT_INO root_inode)
  (let! ok := bwrite FIRST_DATA (first_records ROOT_INO ROOT_INO) in
   let! ok := (if ok then disk_sync else ret false) in
   set_mounted ok ;; ret ok)))))).

Definition ext2_mount : E bool := let! ok := ext2_probe in set_mounted ok ;; ret ok.
Definition ext2_mounted : E bool := let! s := get in ret (mounted s).

(** ** Blocks of a file *)

Definition file_block (i : inode_t) (index : Z) : E Z :=
  if index <? 12 then ret (i_block (Z.to_nat index) i)
  else if (MAX_FILE_BLOCKS <=? index) || (i_block 12 i =? 0) then ret 0
  else orelse 0 (bread (i_block 12 i)) (fun b => ret (r32 b (Z.to_nat ((index - 12) * 4)))).

(** Freeing a list of block numbers, zeros left out; true when all went well. *)
Fixpoint free_blocks (l : list Z) : E bool :=
  match l with
  | [] => ret true
  | b :: l =>
    let! ok := (if b =? 0 then ret true else free_bit BLOCK_BITMAP (u32 (b + 1)) false) in
    let! rest := free_blocks l in
    ret (ok && rest)
  end.

Definition entries (b : list Z) : list Z := map (fun k => r32 b (4 * k)) (seq 0 (Z.to_nat INDIRECT_ENTRIES)).
Definition direct (i : inode_t) : list Z := map (fun k => i_block k i) (seq 0 12).

Definition release_blocks (i : inode_t) : E bool :=
  let! ok := free_blocks (direct i) in
  if i_block 12 i =? 0 then ret ok else
  let! r := bread (i_block 12 i) in
  let! ok1 := match r with Some b => free_blocks (entries b) | None => ret false end in
  let! ok2 := free_bit BLOCK_BITMAP (u32 (i_block 12 i + 1)) false in
  ret (ok && ok1 && ok2).

(** The inode after the loop, and whether it came to the end. *)
Definition back_out (i : inode_t) : E (inode_t * bool) :=
  release_blocks i ;; ret (set_blocks 0 (clear_blocks i), false).

Fixpoint write_loop (fuel : nat) (i : inode_t) (indirect data : list Z) (index : Z) : E (inode_t * bool) :=
  match data with
  | [] => ret (i, true)
  | _ =>
    match fuel with
    | O => out_of_fuel
    | S fuel =>
      let! blk := alloc_block in
      if blk =? 0 then back_out i else
      let contents := take (Z.to_nat BS) data ++ zero (Z.to_nat BS - length data) in
      let finish (i : inode_t) (indirect : list Z) : E (inode_t * bool) :=
        let i := set_blocks (i_blocks i + 8) i in
        let! ok := bwrite blk contents in
        if ok then write_loop fuel i indirect (drop (Z.to_nat BS) data) (index + 1) else back_out i in
      if index <? 12 then finish (set_block (Z.to_nat index) blk i) indirect else
      let with_entry (i : inode_t) : E (inode_t * bool) :=
        let indirect := w32 (Z.to_nat ((index - 12) * 4)) blk indirect in
        let! ok := bwrite (i_block 12 i) indirect in
        if ok then finish i indirect else back_out i in
      if negb (i_block 12 i =? 0) then with_entry i else
      let! ind := alloc_block in
      let i := set_block 12 ind i in
      if ind =? 0 then free_bit BLOCK_BITMAP (u32 (blk + 1)) false ;; back_out i else
      let i := set_blocks (i_blocks i + 8) i in
      let! ok := bwrite ind indirect in
      if ok then with_entry i else back_out i
    end
  end.

Definition write_new_blocks (i : inode_t) (data : list Z) : E (inode_t * bool) :=
  write_loop (length data) i (zero (Z.to_nat BS)) data 0.

(** ** Files *)

Definition new_file (mode uid gid : Z) : inode_t :=
  set_links 1 (set_gid gid (set_uid uid (set_mode (Z.lor EXT2_FILE (Z.land mode 0x1ff)) zero_inode))).

(** Storing the data under an inode that exists or was just allocated. *)
Definition store_inode (par : option (Z * list Z)) (ino : Z) (old : option inode_t) (next : inode_t) (data : list Z) : E bool :=
  let drop_new : E unit := match old with None => free_bit INODE_BITMAP ino true ;; ret tt | Some _ => ret tt end in
  let next := set_blocks 0 (set_size (Z.of_nat (length data)) next) in
  let! '(next, ok) := write_new_blocks next data in
  if negb ok then drop_new ;; ret false else
  let! ok := inode_put ino next in
  if negb ok then release_blocks next ;; drop_new ;; ret false else
  match old with
  | Some i => release_blocks i ;; disk_sync
  | None =>
    match par with
    | None => undefined
    | Some (dir, name) =>
      let! ok := dir_add dir name ino 1 in
      if ok then disk_sync
      else release_blocks next ;; inode_put ino zero_inode ;; free_bit INODE_BITMAP ino true ;; ret false
    end
  end.

Definition ext2_store (path data : list Z) (mode uid gid : Z) : E bool :=
  let! s := get in
  if negb (mounted s) || (MAX_FILE_SIZE <? Z.of_nat (length data)) then ret false else
  orelse false (walk path true true) (fun pl =>
  if negb (found pl =? 0) then
    orelse false (inode_get (found pl)) (fun i =>
    if is_dir i then ret false else store_inode (parent pl) (found pl) (Some i) (clear_blocks i) data)
  else
    let! ino := alloc_inode in
    if ino =? 0 then ret false else store_inode (parent pl) ino None (new_file mode uid gid) data).

Definition locate (path : list Z) : E (option Z) :=
  orelse None (walk path false false) (fun pl => ret (if found pl =? 0 then None else Some (found pl))).

(** Reading blocks until the size is reached. *)
Fixpoint read_loop (fuel : nat) (i : inode_t) (index at_ : Z) : E (option (list Z)) :=
  if negb (at_ <? i_size i) then ret (Some []) else
  match fuel with
  | O => out_of_fuel
  | S fuel =>
    let! blk := file_block i index in
    if blk =? 0 then ret None else
    orelse None (bread blk) (fun b =>
    let part := take (Z.to_nat (i_size i - at_)) b in
    let! r := read_loop fuel i (index + 1) (at_ + Z.of_nat (length part)) in
    ret (option_map (app part) r))
  end.

Definition ext2_load (path : list Z) (cap : Z) : E (option (list Z)) :=
  let! s := get in
  if negb (mounted s) then ret None else
  orelse None (locate path) (fun ino =>
  orelse None (inode_get ino) (fun i =>
  if is_dir i || (cap <? i_size i) || (MAX_FILE_SIZE <? i_size i) then ret None
  else read_loop (Z.to_nat MAX_FILE_BLOCKS) i 0 0)).

Definition ext2_stat (path : list Z) : E (option (Z * Z * Z * Z)) :=
  let! s := get in
  if negb (mounted s) then ret None else
  orelse None (locate path) (fun ino =>
  orelse None (inode_get ino) (fun i => ret (Some (i_size i, Z.land (i_mode i) 0x1ff, i_uid i, i_gid i)))).

Definition update_inode (path : list Z) (f : inode_t -> inode_t) : E bool :=
  orelse false (locate path) (fun ino =>
  orelse false (inode_get ino) (fun i => provided false (inode_put ino (f i)) disk_sync)).

Definition ext2_chmod (path : list Z) (m : Z) : E bool :=
  update_inode path (fun i => set_mode (Z.lor (Z.land (i_mode i) 0xf000) (Z.land m 0x1ff)) i).
Definition ext2_chown (path : list Z) (u g : Z) (su sg : bool) : E bool :=
  update_inode path (fun i => let i := if su then set_uid u i else i in if sg then set_gid g i else i).

Definition ext2_remove (path : list Z) : E bool :=
  orelse false (walk path false true) (fun pl =>
  if found pl =? 0 then ret false else
  orelse false (inode_get (found pl)) (fun i =>
  if is_dir i then ret false else
  match parent pl with
  | None => undefined
  | Some (dir, _) =>
    orelse false (inode_get dir) (fun di =>
    orelse false (bread (i_block 0 di)) (fun b =>
    let! r := pure (drop_record RECORDS b (found pl) 0 0) in
    let! written := match r with Some b => bwrite (i_block 0 di) b | None => ret true end in
    if negb written then ret false else
    let! ok := release_blocks i in
    if negb ok then ret false else
    provided false (inode_put (found pl) zero_inode)
    (provided false (free_bit INODE_BITMAP (found pl) true) disk_sync)))
  end)).

(** ** Listing *)

(** A path of at most 95 characters: the prefix, a slash and the name. *)
Definition join (prefix name : list Z) : list Z :=
  let p := take 95 prefix in
  let p := if (length p <? 95)%nat then p ++ [47] else p in
  p ++ take (95 - length p) name.

(** The name bytes the loop reads; past the block they are undefined. *)
Definition entry_name (b prefix : list Z) (p : Z) : outcome (list Z) :=
  let k := Nat.min (Z.to_nat (name_len b p)) (95 - Nat.min 95 (S (length (take 95 prefix)))) in
  if BS <? p + 8 + Z.of_nat k then Undefined else Ok (take k (name_from b p)).

Definition dot_name (b : list Z) (p : Z) : outcome bool :=
  let c i := byte_at b (Z.to_nat p + 8 + i) in
  if name_len b p =? 1 then if BS <? p + 9 then Undefined else Ok (c 0%nat =? 46)
  else if name_len b p =? 2 then if BS <? p + 10 then Undefined else Ok ((c 0%nat =? 46) && (c 1%nat =? 46))
  else Ok false.

(** The files still to pass, and the file found with its size. *)
Definition listed : Type := Z * option (list Z * option Z).

Fixpoint enumerate_block (fuel : nat) (sub : Z -> list Z -> Z -> E listed) (b prefix : list Z) (p wanted : Z) : E listed :=
  match fuel with
  | O => out_of_fuel
  | S fuel =>
    if negb (p <? BS) then ret (wanted, None)
    else if BS <? p + 8 then undefined else
    let ino := rec_ino b p in
    let len := rec_len b p in
    if len <? 8 then ret (wanted, None) else
    let next := enumerate_block fuel sub b prefix (p + len) in
    if (ino =? 0) || (name_len b p =? 0) then next wanted else
    let! dots := pure (dot_name b p) in
    if dots then next wanted else
    let! name := pure (entry_name b prefix p) in
    let path := join prefix name in
    if byte_at b (Z.to_nat p + 7) =? 2 then
      let! '(wanted, r) := sub ino path wanted in
      match r with Some _ => ret (wanted, r) | None => next wanted end
    else if wanted =? 0 then
      let! i := inode_get ino in ret (wanted, Some (path, option_map i_size i))
    else next (wanted - 1)
  end.

(** [depth] bounds the nesting of directories. *)
Fixpoint enumerate (depth : nat) (dir : Z) (prefix : list Z) (wanted : Z) : E listed :=
  match depth with
  | O => out_of_fuel
  | S depth =>
    orelse (wanted, None) (inode_get dir) (fun i =>
    orelse (wanted, None) (bread (i_block 0 i)) (fun b =>
    enumerate_block RECORDS (enumerate depth) b prefix 0 wanted))
  end.

Definition ext2_at (depth : nat) (index cap : Z) : E (option (list Z * option Z)) :=
  let! s := get in
  if negb (mounted s) || (cap =? 0) then ret None else
  let! '(_, r) := enumerate depth ROOT_INO [] index in
  ret (option_map (fun '(p, n) => (take (Z.to_nat (cap - 1)) p, n)) r).

Definition ext2_sync : E bool := disk_sync.
Definition ext2_unmount : E unit := ext2_sync ;; set_mounted false.

Definition count_bits (b : list Z) (l : list Z) : Z := Z.of_nat (length (List.filter (bit_set b) l)).

Definition ext2_check : E (option (Z * Z)) :=
  provided None ext2_probe
  (let! s := get in
   orelse None (bread BLOCK_BITMAP) (fun bm =>
   orelse None (bread INODE_BITMAP) (fun im =>
   ret (Some (count_bits im (seqZ 10 (INODES - 10)), count_bits bm (seqZ 0 (blocks s))))))).

End ext2.
