(* ===== verification/Ext2Blocks.v ===== *)
(** * The blocks of an ext2 volume: lemmas

    On a working disk (the laws [DiskLaws]) the volume is a function from block
    numbers to contents, and each operation below the directories has an effect
    on it.  Of blocks 0 and 1, which count what is free, only the marks by which a
    volume is recognised are kept; sectors outside the partition are not
    touched. *)

From stdpp Require Import base numbers list strings.
From Stdlib Require Import ZArith Lia.
From S2P Require Import Prelude Effects Ports Mini64Ata Mini64Fat Mini64FatProof Ext2.

Definition NB : Z := 16384.

Definition block_ok (b : list Z) : Prop := length b = 4096%nat /\ Forall is_u8 b.

Definition block_of (w : Z -> list Z) (n : Z) : list Z := concat (map (fun i => w (VAR_START + n * 8 + i)) (seqZ 0 8)).

Definition bset (n : Z) (b : list Z) (B : Z -> list Z) : Z -> list Z := fun k => if k =? n then b else B k.

Lemma bset_eq n b B : bset n b B n = b.
Proof. unfold bset. by rewrite Z.eqb_refl. Qed.

Lemma bset_ne n b B k : k <> n -> bset n b B k = B k.
Proof. intros. unfold bset. by rewrite (proj2 (Z.eqb_neq _ _)). Qed.

(** ** Sectors and blocks *)

Lemma concat_length_512 (l : list (list Z)) : Forall sector_ok l -> length (concat l) = (512 * length l)%nat /\ Forall is_u8 (concat l).
Proof.
  induction 1 as [|x l [Hx Hb] Hl [IH1 IH2]]; [done|]. cbn [concat]. split; [rewrite length_app, Hx, IH1; cbn [length]; lia|]. by apply Forall_app.
Qed.

Lemma block_of_ok w n : (forall l, sector_ok (w l)) -> block_ok (block_of w n).
Proof.
  intros Hw. unfold block_of. destruct (concat_length_512 (map (fun i => w (VAR_START + n * 8 + i)) (seqZ 0 8))) as [H1 H2].
  - apply Forall_forall. intros x Hx. apply list_elem_of_fmap in Hx as (i & -> & _). apply Hw.
  - split; [|done]. rewrite H1. by rewrite length_map.
Qed.

(** The sectors of a buffer, in order. *)
Lemma chunks (k : nat) (i : Z) (b : list Z) (w : Z -> list Z) :
  length b = (512 * k)%nat ->
  (forall j, 0 <= j < Z.of_nat k -> w (i + j) = take 512 (drop (Z.to_nat (512 * j)) b)) ->
  concat (map w (seqZ i (Z.of_nat k))) = b.
Proof.
  revert i b. induction k as [|k IH]; intros i b Hl Hw; [by destruct b|]. rewrite seqZ_cons by lia. cbn [map concat].
  replace (Z.pred (Z.of_nat (S k))) with (Z.of_nat k) by lia. rewrite (IH (Z.succ i) (drop 512 b)).
  - specialize (Hw 0 ltac:(lia)). rewrite Z.add_0_r in Hw. rewrite Hw. apply take_drop.
  - rewrite length_drop. lia.
  - intros j Hj. replace (Z.succ i + j) with (i + (j + 1)) by lia. rewrite Hw by lia. rewrite drop_drop. f_equal. f_equal. lia.
Qed.

(** ** Bytes of blocks *)

Lemma w8_block o v b : block_ok b -> block_ok (w8 o v b).
Proof. intros [? ?]. split; [by rewrite w8_length|by apply w8_bytes]. Qed.
Lemma w16_block o v b : block_ok b -> block_ok (w16 o v b).
Proof. intros [? ?]. split; [by rewrite w16_length|by apply w16_bytes]. Qed.
Lemma w32_block o v b : block_ok b -> block_ok (w32 o v b).
Proof. intros [? ?]. split; [by rewrite w32_length|by apply w32_bytes]. Qed.
Lemma zero_block : block_ok (zero (Z.to_nat BS)).
Proof. split; [apply length_replicate|]. apply Forall_replicate. unfold is_u8. lia. Qed.
#[local] Hint Resolve w8_block w16_block w32_block zero_block : os64.

Lemma wtext_length o l b : length (wtext o l b) = length b.
Proof. revert o b. induction l as [|c l IH]; intros o b; [done|]. cbn [wtext]. by rewrite IH, length_insert. Qed.

Lemma wtext_bytes o l b : Forall is_u8 l -> Forall is_u8 b -> Forall is_u8 (wtext o l b).
Proof. intros Hl. revert o b. induction Hl as [|c l Hc Hl IH]; intros o b Hb; [done|]. cbn [wtext]. apply IH. by apply Forall_insert. Qed.

Lemma wtext_block o l b : Forall is_u8 l -> block_ok b -> block_ok (wtext o l b).
Proof. intros Hl [? ?]. split; [by rewrite wtext_length|by apply wtext_bytes]. Qed.
#[local] Hint Resolve wtext_block : os64.

Lemma byte_at_insert o c b k : (o < length b)%nat -> byte_at (<[o := c]> b) k = if decide (k = o) then c else byte_at b k.
Proof.
  intros Ho. unfold byte_at. rewrite !nth_lookup. case_decide as Heq; [subst; by rewrite list_lookup_insert_eq|by rewrite list_lookup_insert_ne].
Qed.

Lemma byte_at_wtext o l b k :
  (o + length l <= length b)%nat ->
  byte_at (wtext o l b) k = if decide (o <= k < o + length l)%nat then nth (k - o) l 0 else byte_at b k.
Proof.
  revert o b. induction l as [|c l IH]; intros o b Hl; cbn [length] in *.
  { rewrite decide_False by lia. done. }
  cbn [wtext]. rewrite IH, byte_at_insert by (rewrite ?length_insert; lia).
  destruct (decide (k = o)) as [->|Hne].
  - rewrite decide_False, (decide_True (P := (o <= o < o + S (length l))%nat)) by lia. by rewrite Nat.sub_diag.
  - repeat case_decide; try lia; try done. by replace (k - o)%nat with (S (k - (o + 1))) by lia.
Qed.

(** ** Bitmaps *)

Lemma bit_set_testbit b i : 0 <= i -> bit_set b i = Z.testbit (byte_at b (Z.to_nat (i / 8))) (i mod 8).
Proof.
  intros Hi. unfold bit_set. change 7 with (Z.ones 3). rewrite Z.land_ones, Z.shiftr_div_pow2 by lia. change (2 ^ 3) with 8.
  set (x := byte_at b _). pose proof (Z.mod_pos_bound i 8). rewrite Z.shiftl_1_l. unfold z2b. destruct (Z.testbit x (i mod 8)) eqn:Et.
  - apply negb_true_iff, Z.eqb_neq. intros E. pose proof (f_equal (fun y => Z.testbit y (i mod 8)) E) as E2. cbv beta in E2.
    rewrite Z.land_spec, Et, Z.bits_0, Z.pow2_bits_true in E2 by lia. done.
  - apply negb_false_iff, Z.eqb_eq. apply Z.bits_inj'. intros k Hk. rewrite Z.land_spec, Z.bits_0.
    destruct (decide (k = i mod 8)) as [->|]; [by rewrite Et|]. rewrite Z.pow2_bits_false by lia. apply andb_false_r.
Qed.

Lemma testbit_u8 x k : 0 <= k < 8 -> Z.testbit (u8 x) k = Z.testbit x k.
Proof. intros Hk. unfold u8. rewrite <- Z.land_ones by lia. rewrite Z.land_spec, Z.ones_spec_low by lia. apply andb_true_r. Qed.

Lemma bit_place i j : 0 <= i -> 0 <= j -> Z.to_nat (j / 8) = Z.to_nat (i / 8) -> j mod 8 = i mod 8 -> j = i.
Proof. intros. Z.div_mod_to_equations. lia. Qed.

Lemma bit_set_mark b i j : 0 <= i < 32768 -> 0 <= j -> block_ok b -> bit_set (mark_bit i b) j = (j =? i) || bit_set b j.
Proof.
  intros Hi Hj [Hl _]. rewrite !bit_set_testbit by lia. unfold mark_bit. change 7 with (Z.ones 3). rewrite Z.land_ones, Z.shiftr_div_pow2 by lia.
  change (2 ^ 3) with 8. rewrite byte_at_w8 by (rewrite Hl; apply Nat2Z.inj_lt; rewrite Z2Nat.id; Z.div_mod_to_equations; lia).
  pose proof (Z.mod_pos_bound i 8). pose proof (Z.mod_pos_bound j 8). case_decide as Heq.
  - rewrite testbit_u8, Z.lor_spec, Z.shiftl_1_l by lia. rewrite Heq. destruct (Z.eqb_spec j i) as [->|Hne].
    + rewrite Z.pow2_bits_true by lia. by rewrite orb_true_r.
    + rewrite Z.pow2_bits_false, orb_false_r; [done|]. intros E. apply Hne. apply bit_place; done || lia.
  - destruct (Z.eqb_spec j i) as [->|]; done.
Qed.

Lemma bit_set_clear b i j : 0 <= i < 32768 -> 0 <= j -> block_ok b -> bit_set (clear_bit i b) j = negb (j =? i) && bit_set b j.
Proof.
  intros Hi Hj [Hl _]. rewrite !bit_set_testbit by lia. unfold clear_bit. change 7 with (Z.ones 3). rewrite Z.land_ones, Z.shiftr_div_pow2 by lia.
  change (2 ^ 3) with 8. rewrite byte_at_w8 by (rewrite Hl; apply Nat2Z.inj_lt; rewrite Z2Nat.id; Z.div_mod_to_equations; lia).
  pose proof (Z.mod_pos_bound i 8). pose proof (Z.mod_pos_bound j 8). case_decide as Heq.
  - rewrite testbit_u8, Z.land_spec, testbit_u8, Z.lnot_spec, Z.shiftl_1_l by lia. rewrite Heq. destruct (Z.eqb_spec j i) as [->|Hne].
    + rewrite Z.pow2_bits_true by lia. apply andb_false_r.
    + rewrite Z.pow2_bits_false; [apply andb_true_r|]. intros E. apply Hne. apply bit_place; done || lia.
  - destruct (Z.eqb_spec j i) as [->|]; [done|]. done.
Qed.

Lemma u8_lor x y : u8 (Z.lor (u8 x) y) = u8 (Z.lor x y).
Proof.
  unfold u8. rewrite <- !(Z.land_ones _ 8) by lia. apply Z.bits_inj'. intros k Hk. rewrite !Z.land_spec, !Z.lor_spec, Z.land_spec.
  destruct (Z.testbit (Z.ones 8) k); [by rewrite !andb_true_r|by rewrite !andb_false_r].
Qed.

Lemma bytes_ext (b b' : list Z) : length b = length b' -> (forall k, byte_at b k = byte_at b' k) -> b = b'.
Proof. intros Hl Hk. apply (nth_ext _ _ 0 0); [done|]. intros k _. apply Hk. Qed.

Lemma mark_comm i j b : 0 <= i < 32768 -> 0 <= j < 32768 -> block_ok b -> mark_bit i (mark_bit j b) = mark_bit j (mark_bit i b).
Proof.
  intros Hi Hj [Hl _]. assert (forall k, 0 <= k < 32768 -> (Z.to_nat (Z.shiftr k 3) < 4096)%nat) as Hlt.
  { intros k Hk. rewrite Z.shiftr_div_pow2 by lia. change (2 ^ 3) with 8. Z.div_mod_to_equations. lia. }
  pose proof (Hlt i Hi). pose proof (Hlt j Hj). unfold mark_bit. apply bytes_ext; [by rewrite !w8_length|]. intros k.
  rewrite !byte_at_w8 by (rewrite ?w8_length; lia). repeat case_decide; subst; try congruence; try done.
  rewrite !u8_lor. f_equal. rewrite <- !Z.lor_assoc. repeat match goal with E : Z.to_nat _ = _ |- _ => rewrite E in * end. f_equal. apply Z.lor_comm.
Qed.

Lemma mark_block i b : block_ok b -> block_ok (mark_bit i b).
Proof. apply w8_block. Qed.
Lemma clear_block i b : block_ok b -> block_ok (clear_bit i b).
Proof. apply w8_block. Qed.
#[local] Hint Resolve mark_block clear_block : os64.

Lemma first_clear_some (n : nat) i b j :
  first_clear n i b = Some j -> i <= j < i + Z.of_nat n /\ bit_set b j = false.
Proof.
  revert i. induction n as [|n IH]; intros i; [done|]. cbn [first_clear]. destruct (bit_set b i) eqn:E.
  - intros Hf. apply IH in Hf. split; [lia|apply Hf].
  - intros [= <-]. split; [lia|done].
Qed.

Lemma first_clear_none (n : nat) i b :
  first_clear n i b = None -> forall j, i <= j < i + Z.of_nat n -> bit_set b j = true.
Proof.
  revert i. induction n as [|n IH]; intros i; [intros _ j Hj; lia|]. cbn [first_clear]. destruct (bit_set b i) eqn:E; [|done].
  intros Hf j Hj. destruct (decide (j = i)) as [->|]; [done|]. apply (IH (i + 1) Hf). lia.
Qed.

(** ** Inodes *)

Definition inode B (ino : Z) : inode_t := take 128 (drop (inode_offset ino) (B (inode_block ino))).

Definition put_inode (ino : Z) (i : inode_t) (B : Z -> list Z) : Z -> list Z := bset (inode_block ino) (wtext (inode_offset ino) i (B (inode_block ino))) B.

Definition ino_ok (ino : Z) : Prop := 1 <= ino <= INODES.
Definition inode_ok (i : inode_t) : Prop := length i = 128%nat /\ Forall is_u8 i.

Lemma inode_place ino : ino_ok ino ->
  INODE_TABLE <= inode_block ino < FIRST_DATA /\ (inode_offset ino + 128 <= 4096)%nat.
Proof.
  unfold ino_ok, inode_block, inode_offset, INODES, INODE_TABLE, INODE_SIZE, BS, FIRST_DATA. intros Hi.
  assert ((ino - 1) * 128 mod 4096 = 128 * ((ino - 1) mod 32)) as ->.
  { replace 4096 with (32 * 128) by lia. rewrite Z.mul_mod_distr_r by lia. lia. }
  split; [Z.div_mod_to_equations; lia|]. pose proof (Z.mod_pos_bound (ino - 1) 32). lia.
Qed.

(** Different inodes of a block lie apart. *)
Lemma inode_apart ino ino' : ino_ok ino -> ino_ok ino' -> ino <> ino' -> inode_block ino = inode_block ino' ->
  (inode_offset ino + 128 <= inode_offset ino')%nat \/ (inode_offset ino' + 128 <= inode_offset ino)%nat.
Proof.
  unfold ino_ok, inode_block, inode_offset, INODES, INODE_TABLE, INODE_SIZE, BS. intros Hi Hi' Hne Hb.
  assert (forall k, k * 128 mod 4096 = 128 * (k mod 32)) as Hm.
  { intros k. replace 4096 with (32 * 128) by lia. rewrite Z.mul_mod_distr_r by lia. lia. }
  assert (forall k, k * 128 / 4096 = k / 32) as Hd.
  { intros k. replace 4096 with (32 * 128) by lia. rewrite Z.div_mul_cancel_r by lia. done. }
  rewrite !Hm. rewrite !Hd in Hb. pose proof (Z.mod_pos_bound (ino - 1) 32). pose proof (Z.mod_pos_bound (ino' - 1) 32).
  assert ((ino - 1) mod 32 <> (ino' - 1) mod 32) by (Z.div_mod_to_equations; lia). lia.
Qed.

Lemma slice_ext (o n : nat) (b b' : list Z) :
  length b = length b' -> (o + n <= length b)%nat -> (forall k, (o <= k < o + n)%nat -> byte_at b k = byte_at b' k) -> take n (drop o b) = take n (drop o b').
Proof.
  intros Hl Ho Hk. apply list_eq. intros k. destruct (decide (k < n)%nat) as [Hn|Hn].
  - rewrite !lookup_take_lt, !lookup_drop by done. specialize (Hk (o + k)%nat ltac:(lia)). unfold byte_at in Hk. rewrite !nth_lookup in Hk.
    destruct (lookup_lt_is_Some_2 b (o + k)) as [x Ex]; [lia|]. destruct (lookup_lt_is_Some_2 b' (o + k)) as [y Ey]; [lia|].
    rewrite Ex, Ey in *. cbn in Hk. congruence.
  - rewrite !lookup_take_ge by lia. done.
Qed.

Lemma inode_bytes B ino k : block_ok (B (inode_block ino)) -> ino_ok ino -> (k < 128)%nat ->
  byte_at (inode B ino) k = byte_at (B (inode_block ino)) (inode_offset ino + k).
Proof.
  intros [Hl _] Hi Hk. unfold inode, byte_at. rewrite !nth_lookup, lookup_take_lt, lookup_drop by done. done.
Qed.

Lemma inode_image_ok B ino : block_ok (B (inode_block ino)) -> ino_ok ino -> inode_ok (inode B ino).
Proof.
  intros [Hl Hu] Hi. pose proof (inode_place ino Hi). unfold inode. split; [rewrite length_take, length_drop; lia|].
  by apply Forall_take, Forall_drop.
Qed.

Lemma inode_put_same B ino i : block_ok (B (inode_block ino)) -> ino_ok ino -> length i = 128%nat -> inode (put_inode ino i B) ino = i.
Proof.
  intros [Hl _] Hi Hi'. destruct (inode_place ino Hi) as [_ Ho]. unfold inode, put_inode. rewrite bset_eq.
  apply list_eq. intros k. destruct (decide (k < 128)%nat) as [Hk|Hk].
  - rewrite lookup_take_lt, lookup_drop by done.
    pose proof (byte_at_wtext (inode_offset ino) i (B (inode_block ino)) (inode_offset ino + k) ltac:(lia)) as E.
    rewrite decide_True in E by lia. replace (inode_offset ino + k - inode_offset ino)%nat with k in E by lia.
    unfold byte_at in E. rewrite !nth_lookup in E. destruct (lookup_lt_is_Some_2 i k) as [x Ex]; [lia|].
    destruct (lookup_lt_is_Some_2 (wtext (inode_offset ino) i (B (inode_block ino))) (inode_offset ino + k)) as [y Ey]; [rewrite wtext_length; lia|].
    rewrite Ex, Ey in *. cbn in E. congruence.
  - rewrite lookup_take_ge by lia. symmetry. apply lookup_ge_None_2. lia.
Qed.

Lemma inode_put_other B ino ino' i :
  block_ok (B (inode_block ino)) -> ino_ok ino -> ino_ok ino' -> ino <> ino' -> length i = 128%nat -> inode (put_inode ino i B) ino' = inode B ino'.
Proof.
  intros [Hl _] Hi Hi' Hne Hlen. destruct (inode_place ino Hi) as [_ Ho]. destruct (inode_place ino' Hi') as [_ Ho'].
  unfold inode, put_inode. destruct (decide (inode_block ino' = inode_block ino)) as [Eb|Eb].
  - rewrite Eb, bset_eq. apply slice_ext; [by rewrite wtext_length|rewrite wtext_length; lia|]. intros k Hk.
    rewrite byte_at_wtext by lia. rewrite decide_False; [done|]. pose proof (inode_apart ino ino' Hi Hi' Hne (eq_sym Eb)). lia.
  - by rewrite bset_ne.
Qed.

(** The fields of the superblock that tell the kind of a volume: magic number,
    block size, inode size and feature words. *)
Definition marks_of (b : list Z) : list Z := [r16 b 1080; r32 b 1048; r16 b 1112; r32 b 1116; r32 b 1120].

(** Whether the volume is mounted, and its marks. *)
Record standing := Standing { up : bool; marks : list Z }.

(** The counters are not among the marks. *)
Lemma marks_add32 o d b : block_ok b -> (o = 1036 \/ o = 1040)%nat -> marks_of (add32 o d b) = marks_of b.
Proof.
  intros [Hl _] Ho. unfold marks_of, add32. rewrite !r32_w32_ne by lia.
  assert (forall p, (1048 <= p)%nat -> r16 (w32 o (r32 b o + d) b) p = r16 b p) as Hr; [|by rewrite !Hr by lia].
  intros p Hp. unfold w32. by rewrite !r16_w16_ne by (rewrite ?w16_length; lia).
Qed.

Section runs.
Context {D : Type} `{DiskLaws D} (W0 : Z -> list Z) (mt : standing).

Local Abbreviation E := (M (ext2 D)).

Implicit Types (B : Z -> list Z) (s : ext2 D).

Definition inside (l : Z) : Prop := VAR_START <= l < VAR_START + NB * 8.

(** The volume holds [B]; [mt] tells whether it is mounted and its marks. *)
Record at_ B s : Prop := {
  at_good : good (dk s);
  at_base : base s = VAR_START;
  at_blocks : blocks s = NB;
  at_mounted : mounted s = up mt;
  at_marks : marks_of (block_of (view (dk s)) 0) = marks mt;
  at_view : forall n, 2 <= n < NB -> block_of (view (dk s)) n = B n;
  at_outside : forall l, ~ inside l -> view (dk s) l = W0 l
}.

Definition runs {A} B (m : E A) (a : A) B' : Prop := forall s, at_ B s -> exists s', m s = Ok (a, s') /\ at_ B' s'.

Lemma runs_return {A} B (a : A) : runs B (ret a) a B.
Proof. intros s Hs. by exists s. Qed.

Lemma runs_then {A C} B (m : E A) a B1 (f : A -> E C) c B2 : runs B m a B1 -> runs B1 (f a) c B2 -> runs B (bind m f) c B2.
Proof.
  intros Hm Hf s Hs. destruct (Hm s Hs) as (s1 & E1 & H1). destruct (Hf s1 H1) as (s2 & E2 & H2). exists s2. unfold bind. by rewrite E1.
Qed.

Lemma runs_orelse {A C} B (z : C) (m : E (option A)) a B1 (f : A -> E C) c B2 :
  runs B m (Some a) B1 -> runs B1 (f a) c B2 -> runs B (orelse z m f) c B2.
Proof. intros Hm Hf. unfold orelse. eapply runs_then; [exact Hm|exact Hf]. Qed.

Lemma runs_provided {C} B (z : C) (m : E bool) B1 (k : E C) c B2 : runs B m true B1 -> runs B1 k c B2 -> runs B (provided z m k) c B2.
Proof. intros Hm Hk. unfold provided. eapply runs_then; [exact Hm|exact Hk]. Qed.

Lemma runs_get {C} B (f : ext2 D -> E C) c B2 : (forall s, at_ B s -> runs B (f s) c B2) -> runs B (bind get f) c B2.
Proof. intros Hf s Hs. by apply Hf. Qed.

Lemma runs_same {A} B B1 (m : E A) a B' : (forall n, 2 <= n < NB -> B1 n = B n) -> runs B1 m a B' -> runs B m a B'.
Proof. intros He Hm s [H1 H2 H3 H4 Hm0 H5 H6]. apply Hm. constructor; try done. intros n Hn. by rewrite He, H5. Qed.

Lemma runs_result {A} B (m : E A) a B' B1 : runs B m a B' -> (forall n, 2 <= n < NB -> B1 n = B' n) -> runs B m a B1.
Proof.
  intros Hm He s Hs. destruct (Hm s Hs) as (s' & Em & [H1 H2 H3 H4 Hm0 H5 H6]). exists s'. split; [done|]. constructor; try done.
  intros n Hn. by rewrite He, H5.
Qed.

Lemma at_sector_ok B s : at_ B s -> forall l, sector_ok (view (dk s) l).
Proof. intros Hs l. apply view_ok, (at_good _ _ Hs). Qed.

Lemma at_ok B s n : at_ B s -> 2 <= n < NB -> block_ok (B n).
Proof. intros Hs Hn. rewrite <- (at_view _ _ Hs n Hn). apply block_of_ok, (at_sector_ok _ _ Hs). Qed.

(** Facts about the contents may be used while running. *)
Lemma runs_ok {A} B (m : E A) a B' : ((forall n, 2 <= n < NB -> block_ok (B n)) -> runs B m a B') -> runs B m a B'.
Proof. intros Hm s Hs. apply Hm; [|done]. intros n Hn. by apply (at_ok B s). Qed.

Lemma block_lba_value n i : 0 <= n < NB -> 0 <= i < 8 -> block_lba VAR_START n i = VAR_START + n * 8 + i /\ 0 <= VAR_START + n * 8 + i < 2 ^ 28.
Proof. intros Hn Hi. unfold block_lba, VAR_START, NB in *. split; [apply u32_small|]; lia. Qed.

(** Reading does not change the volume. *)
Lemma read_sectors_ok (k : nat) n i s :
  good (dk s) -> base s = VAR_START -> 0 <= n < NB -> 0 <= i -> i + Z.of_nat k <= 8 ->
  exists d, read_sectors k n i s = Ok (Some (concat (map (fun j => view (dk s) (VAR_START + n * 8 + j)) (seqZ i (Z.of_nat k)))), Ext2 d (base s) (blocks s) (mounted s))
    /\ good d /\ view d = view (dk s).
Proof.
  revert i s. induction k as [|k IH]; intros i s Hg Hb Hn Hi Hk.
  { exists (dk s). split; [by destruct s|done]. }
  destruct (block_lba_value n i) as [El Hl]; [lia|lia|].
  destruct (read_law (dk s) (VAR_START + n * 8 + i) Hg Hl) as (d1 & E1 & V1 & G1).
  cbn [read_sectors]. unfold bind at 1, get. unfold bind at 1, on_disk. rewrite Hb, El, E1.
  set (s1 := Ext2 d1 VAR_START (blocks s) (mounted s)). destruct (IH (i + 1) s1) as (d2 & E2 & G2 & V2); [done|done|done|lia|lia|].
  unfold bind. rewrite E2. exists d2. cbn [dk s1] in *. rewrite V1 in *. split; [|done]. rewrite (seqZ_cons i) by lia. cbn [map concat option_map base blocks mounted s1].
  replace (Z.pred (Z.of_nat (S k))) with (Z.of_nat k) by lia. replace (Z.succ i) with (i + 1) by lia. done.
Qed.

Lemma bread_at B s n : at_ B s -> 0 <= n < NB -> exists s', bread n s = Ok (Some (block_of (view (dk s)) n), s') /\ at_ B s'.
Proof.
  intros [H1 H2 H3 H4 Hm0 H5 H6] Hn. unfold bread, bind, get. rewrite H3, (proj2 (Z.leb_gt _ _)) by lia.
  destruct (read_sectors_ok 8 n 0 s) as (d & E & G & V); [done|done|done|lia|lia|]. rewrite E. eexists. split; [reflexivity|].
  constructor; cbn; try done; rewrite V; done.
Qed.

Lemma runs_bread B n : 2 <= n < NB -> runs B (bread n) (Some (B n)) B.
Proof.
  intros Hn s Hs. destruct (bread_at B s n Hs) as (s' & E & Hs'); [lia|]. exists s'. by rewrite (at_view _ _ Hs) in E by done.
Qed.

Lemma write_sectors_ok (k : nat) n i b s :
  good (dk s) -> base s = VAR_START -> 0 <= n < NB -> 0 <= i -> i + Z.of_nat k <= 8 -> length b = (512 * k)%nat -> Forall is_u8 b ->
  exists d, write_sectors k n i b s = Ok (true, Ext2 d (base s) (blocks s) (mounted s)) /\ good d /\
    (forall j, 0 <= j < Z.of_nat k -> view d (VAR_START + n * 8 + (i + j)) = take 512 (drop (Z.to_nat (512 * j)) b)) /\
    (forall l, l < VAR_START + n * 8 + i \/ VAR_START + n * 8 + i + Z.of_nat k <= l -> view d l = view (dk s) l).
Proof.
  revert i b s. induction k as [|k IH]; intros i b s Hg Hb Hn Hi Hk Hl Hu.
  { exists (dk s). split; [by destruct s|]. split; [done|]. split; [lia|done]. }
  destruct (block_lba_value n i) as [El Hla]; [lia|lia|].
  assert (sector_ok (take 512 b)) as Hs by (split; [rewrite length_take; lia|by apply Forall_take]).
  destruct (write_law (dk s) (VAR_START + n * 8 + i) (take 512 b) Hg Hla Hs) as (d1 & E1 & V1 & G1).
  cbn [write_sectors]. unfold bind at 1, get. unfold bind at 1, on_disk. rewrite Hb, El, E1.
  set (s1 := Ext2 d1 VAR_START (blocks s) (mounted s)).
  destruct (IH (i + 1) (drop 512 b) s1) as (d2 & E2 & G2 & V2 & K2); [done|done|done|lia|lia|rewrite length_drop; lia|by apply Forall_drop|].
  rewrite E2. exists d2. split; [done|]. split; [done|]. cbn [dk s1] in *. rewrite V1 in K2. split.
  - intros j Hj. destruct (decide (j = 0)) as [->|Hne].
    + rewrite K2 by lia. rewrite Z.add_0_r, set_sector_eq. done.
    + replace (i + j) with (i + 1 + (j - 1)) by lia. rewrite V2 by lia. rewrite drop_drop. f_equal. f_equal. lia.
  - intros l Hor. rewrite K2 by lia. apply set_sector_ne. lia.
Qed.

(** Writing any block: what it does to the volume. *)
Lemma bwrite_at B s n b : at_ B s -> 0 <= n < NB -> block_ok b -> (n = 0 -> marks_of b = marks mt) -> exists s', bwrite n b s = Ok (true, s') /\ at_ (bset n b B) s'.
Proof.
  intros [H1 H2 H3 H4 Hm0 H5 H6] Hn [Hl Hu] Hmk. unfold bwrite, bind, get. rewrite H3, (proj2 (Z.leb_gt _ _)) by lia.
  destruct (write_sectors_ok 8 n 0 b s) as (d & E & G & V & K); [done|done|done|lia|lia|done|done|]. rewrite E.
  eexists. split; [reflexivity|]. constructor; cbn [dk base blocks mounted]; try done.
  - destruct (decide (n = 0)) as [->|Hne].
    + rewrite <- Hmk by done. f_equal. apply (chunks 8 0 b (fun i => view d (VAR_START + 0 * 8 + i)) Hl). intros j Hj. by apply V.
    + rewrite <- Hm0. f_equal. unfold block_of. f_equal. apply map_ext_in. intros i Hi. apply list_elem_of_In, elem_of_seqZ in Hi. apply K. lia.
  - intros m Hm. unfold block_of. destruct (decide (m = n)) as [->|Hne].
    + rewrite bset_eq. apply (chunks 8 0 b (fun i => view d (VAR_START + n * 8 + i)) Hl). intros j Hj. by apply V.
    + rewrite bset_ne, <- H5 by done. unfold block_of. f_equal. apply map_ext_in. intros i Hi. apply list_elem_of_In, elem_of_seqZ in Hi.
      apply K. lia.
  - intros l Hl'. rewrite K, H6 by (unfold inside in *; lia || done). done.
Qed.

Lemma runs_bwrite B n b : 2 <= n < NB -> block_ok b -> runs B (bwrite n b) true (bset n b B).
Proof. intros Hn Hb s Hs. apply bwrite_at; [done|lia|done|lia]. Qed.

Lemma runs_sync B : runs B disk_sync true B.
Proof.
  intros s [H1 H2 H3 H4 Hm0 H5 H6]. destruct (flush_law (dk s) H1) as (d & E & V & G). unfold disk_sync, on_disk. rewrite E.
  eexists. split; [reflexivity|]. constructor; cbn; try done; rewrite V; done.
Qed.

Lemma runs_counters B db di dd : runs B (counters db di dd) true B.
Proof.
  intros s Hs. unfold counters, orelse, provided, bind. destruct (bread_at B s 0 Hs) as (s1 & E1 & H1); [done|]. rewrite E1.
  pose proof (block_of_ok _ 0 (at_sector_ok B s Hs)) as Hb0.
  destruct (bwrite_at B s1 0 (add32 1040 di (add32 1036 db (block_of (view (dk s)) 0))) H1) as (s2 & E2 & H2); [done|unfold add32; auto with os64| |].
  { intros _. rewrite !marks_add32 by (auto; unfold add32; auto with os64). apply (at_marks _ _ Hs). }
  rewrite E2.
  destruct (bread_at _ s2 1 H2) as (s3 & E3 & H3); [done|]. rewrite E3. pose proof (block_of_ok _ 1 (at_sector_ok _ s2 H2)) as Hb1.
  destruct (bwrite_at _ s3 1 (add16 16 dd (add16 14 di (add16 12 db (block_of (view (dk s2)) 1)))) H3) as (s4 & E4 & H4); [done|unfold add16; auto with os64|done|].
  exists s4. split; [done|]. destruct H4 as [A1 A2 A3 A4 Am A5 A6]. constructor; try done.
  intros n Hn. rewrite A5 by done. rewrite !bset_ne by lia. done.
Qed.

Lemma runs_inode_get B ino : ino_ok ino -> runs B (inode_get ino) (Some (inode B ino)) B.
Proof.
  intros Hi. pose proof (inode_place ino Hi) as [Hb _]. unfold ino_ok, INODE_TABLE, FIRST_DATA, NB in *. unfold inode_get.
  rewrite (proj2 (Z.eqb_neq _ _)), (proj2 (Z.ltb_ge _ _)) by lia. cbn [orb]. eapply runs_orelse; [apply runs_bread; unfold NB; lia|apply runs_return].
Qed.

Lemma runs_inode_put B ino i : ino_ok ino -> Forall is_u8 i -> runs B (inode_put ino i) true (put_inode ino i B).
Proof.
  intros Hi Hu. pose proof (inode_place ino Hi) as [Hb _]. unfold INODE_TABLE, FIRST_DATA in *. apply runs_ok. intros Hok. unfold inode_put.
  eapply runs_orelse; [apply runs_bread; unfold NB; lia|]. apply runs_bwrite; [unfold NB; lia|]. apply wtext_block; [done|]. apply Hok. unfold NB. lia.
Qed.

(** Taking a bit: the first clear one. *)
Lemma runs_alloc_bit B bm first limit inode :
  2 <= bm < NB -> 0 <= first -> limit <= 32768 ->
  exists r B', runs B (alloc_bit bm first limit inode) r B' /\
    (r = 0 /\ B' = B /\ (forall j, first <= j < limit -> bit_set (B bm) j = true) \/
     exists j, r = j + 1 /\ first <= j < limit /\ bit_set (B bm) j = false /\ B' = bset bm (mark_bit j (B bm)) B).
Proof.
  intros Hbm Hf Hl. unfold alloc_bit. destruct (first_clear (Z.to_nat (limit - first)) first (B bm)) as [j|] eqn:E.
  - pose proof (first_clear_some _ _ _ _ E) as [Hj Hc]. exists (j + 1), (bset bm (mark_bit j (B bm)) B). split; [|right; exists j; split_and!; try done; lia].
    apply runs_ok. intros Hok. eapply runs_orelse; [by apply runs_bread|]. rewrite E. eapply runs_provided; [apply runs_bwrite; [done|]; apply mark_block, Hok; done|].
    eapply runs_provided; [apply runs_counters|apply runs_return].
  - exists 0, B. split; [eapply runs_orelse; [by apply runs_bread|]; rewrite E; apply runs_return|]. left. split_and!; try done.
    intros k Hk. apply (first_clear_none _ _ _ E). lia.
Qed.

Lemma runs_free_bit B bm number inode :
  2 <= bm < NB -> 1 <= number <= 32768 -> runs B (free_bit bm number inode) true (bset bm (clear_bit (number - 1) (B bm)) B).
Proof.
  intros Hbm Hn. unfold free_bit. rewrite (proj2 (Z.eqb_neq _ _)) by lia. apply runs_ok. intros Hok.
  eapply runs_orelse; [by apply runs_bread|]. rewrite (proj2 (Z.leb_gt _ _)) by (rewrite Z.shiftr_div_pow2 by lia; unfold BS; change (2 ^ 3) with 8; Z.div_mod_to_equations; lia).
  eapply runs_provided; [apply runs_bwrite; [done|]; apply clear_block, Hok; done|]. apply runs_counters.
Qed.
End runs.

#[export] Hint Resolve w8_block w16_block w32_block zero_block wtext_block mark_block clear_block : os64.
