(* ===== verification/Ext2Dir.v ===== *)
(** * Directory blocks: lemmas

    A well-formed directory block is a chain of records that ends with the
    block; looking up a name, adding a record and removing one are operations
    on the list of its entries. *)

From stdpp Require Import base numbers list strings.
From Stdlib Require Import ZArith Lia.
From S2P Require Import Prelude Effects Mini64Fat Mini64FatProof Ext2 Ext2Blocks.

Implicit Types (b name : list Z) (p : Z).

Definition rec_name b p : list Z := take (Z.to_nat (name_len b p)) (name_from b p).

Lemma ideal_value n : 0 <= n -> ideal n = n + 11 - (n + 11) mod 4.
Proof.
  intros Hn. unfold ideal. replace (8 + n + 3) with (n + 11) by lia. change 3 with (2 ^ 2 - 1). rewrite land_lnot_ones by lia. done.
Qed.

Lemma ideal_range n : 0 <= n -> n + 8 <= ideal n <= n + 11.
Proof. intros Hn. rewrite ideal_value by done. pose proof (Z.mod_pos_bound (n + 11) 4). lia. Qed.

(** The entries of the records from position [p] on. *)
Inductive records b : Z -> list (Z * list Z) -> Prop :=
| records_end : records b BS []
| records_next p l :
    0 <= p -> 8 <= rec_len b p -> ideal (name_len b p) <= rec_len b p -> p + rec_len b p <= BS ->
    records b (p + rec_len b p) l -> records b p ((rec_ino b p, rec_name b p) :: l).

Fixpoint assoc name (l : list (Z * list Z)) : option Z :=
  match l with
  | [] => None
  | (n, nm) :: l => if negb (n =? 0) && bool_decide (nm = name) then Some n else assoc name l
  end.

Lemma records_bound b p l : records b p l -> p <= BS /\ (0 <= p)%Z.
Proof. induction 1; [unfold BS; lia|]. lia. Qed.

Lemma name_len_range b p : Forall is_u8 b -> 0 <= name_len b p < 256.
Proof. intros Hb. unfold name_len. apply (byte_at_range b _ Hb). Qed.

(** ** Looking up *)

Lemma eqn_ok a b : (length a <= length b)%nat -> eqn a b = Ok (bool_decide (take (length a) b = a)).
Proof.
  revert b. induction a as [|x a IH]; intros b Hl; [by destruct b|]. destruct b as [|y b]; cbn [length] in Hl; [lia|].
  cbn [eqn length take]. destruct (Z.eqb_spec x y) as [->|Hne].
  - rewrite IH by lia. f_equal. apply bool_decide_ext. split; congruence.
  - rewrite bool_decide_eq_false_2; [done|]. congruence.
Qed.

Lemma find_record_ok b name (fuel : nat) p l :
  records b p l -> block_ok b -> (Z.to_nat ((BS - p) / 8) < fuel)%nat -> find_record fuel b name p = Ok (assoc name l).
Proof.
  intros Hr [Hl Hu]. revert fuel. induction Hr as [|p l Hp H8 Hi Hb Hr IH]; intros fuel Hf; (destruct fuel as [|fuel]; [lia|]).
  { done. }
  pose proof (name_len_range b p Hu) as Hn. pose proof (ideal_range (name_len b p)) as Hid.
  cbn [find_record assoc]. unfold BS in *. rewrite (proj2 (Z.leb_le _ _)), (proj2 (Z.ltb_ge _ _)), (proj2 (Z.ltb_ge _ _)) by lia. cbn [negb orb].
  destruct (rec_ino b p =? 0); cbn [negb andb obind].
  { apply IH. apply Nat2Z.inj_lt. rewrite Z2Nat.id by (apply Z.div_pos; lia). apply Nat2Z.inj_lt in Hf. rewrite Z2Nat.id in Hf by (apply Z.div_pos; lia).
    Z.div_mod_to_equations; lia. }
  assert (length (name_from b p) = Z.to_nat (4096 - p - 8)) as Hlen by (unfold name_from; rewrite length_drop, Hl; lia).
  assert (length (rec_name b p) = Z.to_nat (name_len b p)) as Hrn by (unfold rec_name; rewrite length_take, Hlen; lia).
  assert (find_record fuel b name (p + rec_len b p) = Ok (assoc name l)) as IH'.
  { apply IH. apply Nat2Z.inj_lt. rewrite Z2Nat.id by (apply Z.div_pos; lia). apply Nat2Z.inj_lt in Hf. rewrite Z2Nat.id in Hf by (apply Z.div_pos; lia).
    Z.div_mod_to_equations; lia. }
  destruct (Z.eqb_spec (name_len b p) (Z.of_nat (length name))) as [En|En].
  - rewrite eqn_ok by lia. unfold rec_name. rewrite En, Nat2Z.id. cbn [obind]. case_bool_decide; [done|exact IH'].
  - cbn [obind]. rewrite bool_decide_eq_false_2; [exact IH'|]. intros <-. lia.
Qed.

(** ** Fields and bytes *)

Lemma r16_ext b b' o : byte_at b o = byte_at b' o -> byte_at b (o + 1) = byte_at b' (o + 1) -> r16 b o = r16 b' o.
Proof. intros E1 E2. unfold r16. by rewrite E1, E2. Qed.

Lemma r32_ext b b' o : (forall k, (o <= k < o + 4)%nat -> byte_at b k = byte_at b' k) -> r32 b o = r32 b' o.
Proof. intros E. unfold r32. rewrite (r16_ext b b' o), (r16_ext b b' (o + 2)); [done|apply E; lia..]. Qed.

(** Blocks that agree on a range of bytes. *)
Definition agree (lo hi : Z) b b' : Prop := length b' = length b /\ forall k, lo <= Z.of_nat k < hi -> byte_at b' k = byte_at b k.

Lemma agree_weaken lo hi lo' hi' b b' : agree lo hi b b' -> lo <= lo' -> hi' <= hi -> agree lo' hi' b b'.
Proof. intros [Hl Hk] ? ?. split; [done|]. intros k ?. apply Hk. lia. Qed.

Lemma header_agree b b' p :
  0 <= p -> agree p (p + 8) b b' -> rec_ino b' p = rec_ino b p /\ rec_len b' p = rec_len b p /\ name_len b' p = name_len b p.
Proof.
  intros Hp [_ Hk]. unfold rec_ino, rec_len, name_len. split_and!.
  - apply r32_ext. intros k Hk'. apply Hk. lia.
  - apply r16_ext; apply Hk; lia.
  - apply Hk. lia.
Qed.

Lemma name_agree b b' p n :
  0 <= p -> p + 8 + Z.of_nat n <= Z.of_nat (length b) -> agree (p + 8) (p + 8 + Z.of_nat n) b b' -> take n (name_from b' p) = take n (name_from b p).
Proof.
  intros Hp Hn [Hl Hk]. unfold name_from. apply slice_ext; [done|lia|]. intros k Hk'. apply Hk. lia.
Qed.

(** One record in front of a chain. *)
Lemma records_cons_agree b b' p l :
  block_ok b -> 0 <= p -> 8 <= rec_len b p -> ideal (name_len b p) <= rec_len b p -> p + rec_len b p <= BS ->
  agree p (p + rec_len b p) b b' -> records b' (p + rec_len b p) l -> records b' p ((rec_ino b p, rec_name b p) :: l).
Proof.
  intros [Hl Hu] Hp H8 Hi Hb Ha Hr. destruct (header_agree b b' p Hp) as (E1 & E2 & E3); [eapply agree_weaken; [exact Ha|lia|lia]|].
  pose proof (name_len_range b p Hu). pose proof (ideal_range (name_len b p)).
  assert (rec_name b' p = rec_name b p) as E4.
  { unfold rec_name. rewrite E3. unfold BS in *. apply name_agree; [done|lia|]. eapply agree_weaken; [exact Ha|lia|lia]. }
  rewrite <- E1, <- E4. apply records_next; rewrite ?E2, ?E3; done.
Qed.

Lemma records_agree b b' p l : block_ok b -> agree p BS b b' -> records b p l -> records b' p l.
Proof.
  intros Hb Ha Hr. induction Hr as [|p l Hp H8 Hi Hle Hr IH]; [constructor|].
  apply records_cons_agree; try done; [eapply agree_weaken; [exact Ha|lia|lia]|]. apply IH. eapply agree_weaken; [exact Ha|lia|lia].
Qed.

(** ** Adding a record *)

Lemma split_record_bytes b name ino type p k :
  block_ok b -> 0 <= p -> Forall is_u8 name -> let used := ideal (name_len b p) in
  p + used + 8 + Z.of_nat (length name) <= BS ->
  (Z.of_nat k < p + 4 \/ p + 6 <= Z.of_nat k < p + used \/ p + used + 8 + Z.of_nat (length name) <= Z.of_nat k) ->
  byte_at (split_record b name ino type p) k = byte_at b k.
Proof.
  intros [Hl Hu] Hp Hn used Hle Hk. unfold split_record. fold used. pose proof (name_len_range b p Hu) as Hnl.
  pose proof (ideal_range (name_len b p) ltac:(lia)) as Hid. fold used in Hid. unfold BS in *. remember (Z.to_nat (p + used)) as q eqn:Eq.
  rewrite byte_at_wtext by (rewrite !w8_length, !w16_length, !w32_length, ?w16_length; lia). rewrite decide_False by lia.
  rewrite !byte_at_w8 by (rewrite ?w8_length, ?w16_length, ?w32_length, ?w16_length; lia). rewrite !decide_False by lia.
  rewrite byte_at_w16_ne by (rewrite ?w32_length, ?w16_length; lia).
  unfold w32. rewrite !byte_at_w16_ne by (rewrite ?w16_length; lia). done.
Qed.

Section split.
Context (b name : list Z) (ino type p : Z).

Let len := rec_len b p.
Let used := ideal (name_len b p).
Let q := p + used.
Let b' := split_record b name ino type p.

Hypothesis Hb : block_ok b.
Hypothesis Hp : 0 <= p.
Hypothesis Hname : Forall is_u8 name.
Hypothesis Hino : 0 <= ino < 2 ^ 32.
Hypothesis Hlen : (length name < 256)%nat.
Hypothesis Hroom : used + ideal (Z.of_nat (length name)) <= len.
Hypothesis Hin : p + len <= BS.

Lemma split_sizes : 8 <= used < 268 /\ Z.of_nat (length name) + 8 <= ideal (Z.of_nat (length name)) /\ 0 <= len < 2 ^ 16 /\ length b = 4096%nat.
Proof.
  destruct Hb as [Hl Hu]. pose proof (name_len_range b p Hu). unfold used. pose proof (ideal_range (name_len b p)).
  pose proof (ideal_range (Z.of_nat (length name))). pose proof (r16_range b (Z.to_nat p + 4) Hu). unfold len, rec_len. lia.
Qed.

Lemma split_block : block_ok b'.
Proof. unfold b', split_record. auto 10 with os64. Qed.

Lemma split_agree lo hi : hi <= p + 4 \/ p + 6 <= lo /\ hi <= q \/ p + len <= lo -> agree lo hi b b'.
Proof.
  intros Hor. pose proof split_sizes. split; [rewrite (proj1 split_block); lia|]. intros k Hk.
  unfold b'. apply split_record_bytes; try done; fold used; unfold q in *; lia.
Qed.

Lemma split_first : rec_ino b' p = rec_ino b p /\ rec_len b' p = used /\ name_len b' p = name_len b p /\ rec_name b' p = rec_name b p.
Proof.
  pose proof split_sizes as (H1 & H2 & H3 & H4). destruct Hb as [_ Hu]. pose proof (name_len_range b p Hu). pose proof (ideal_range (name_len b p)) as Hid. fold used in Hid.
  assert (name_len b' p = name_len b p) as E3.
  { unfold name_len. apply (proj2 (split_agree (p + 6) q ltac:(lia))). unfold q. lia. }
  split_and!; [| |done|].
  - unfold rec_ino. apply r32_ext. intros k Hk. apply (proj2 (split_agree p (p + 4) ltac:(lia))). lia.
  - unfold rec_len, b', split_record. fold used len. unfold BS in *. remember (Z.to_nat (p + used)) as qn eqn:Eq.
    transitivity (r16 (w16 (Z.to_nat p + 4) used b) (Z.to_nat p + 4)).
    + assert (forall k, (k < qn)%nat -> byte_at (wtext (qn + 8) name (w8 (qn + 7) type (w8 (qn + 6) (Z.of_nat (length name)) (w16 (qn + 4) (len - used) (w32 qn ino (w16 (Z.to_nat p + 4) used b)))))) k
        = byte_at (w16 (Z.to_nat p + 4) used b) k) as Hlow.
      { intros k Hk. rewrite byte_at_wtext by (rewrite !w8_length, !w16_length, !w32_length, ?w16_length; lia). rewrite decide_False by lia.
        rewrite !byte_at_w8 by (rewrite ?w8_length, ?w16_length, ?w32_length, ?w16_length; lia). rewrite !decide_False by lia.
        rewrite byte_at_w16_ne by (rewrite ?w32_length, ?w16_length; lia). unfold w32. rewrite !byte_at_w16_ne by (rewrite ?w16_length; lia). done. }
      apply r16_ext; apply Hlow; lia.
    + rewrite r16_w16 by (done || lia). apply Z.mod_small. lia.
  - unfold rec_name. rewrite E3. unfold BS in *. apply name_agree; [done|lia|]. eapply agree_weaken; [apply (split_agree (p + 6) q); lia|lia|unfold q; lia].
Qed.

Lemma split_second : rec_ino b' q = ino /\ rec_len b' q = len - used /\ name_len b' q = Z.of_nat (length name) /\ rec_name b' q = name.
Proof.
  pose proof split_sizes as (H1 & H2 & H3 & H4). destruct Hb as [_ Hu].
  unfold rec_name, rec_ino, rec_len, name_len, name_from, b', split_record. fold used len q. unfold BS in *.
  assert (p + used = q) as Hq by done. remember (Z.to_nat q) as qn eqn:Eq.
  set (b1 := w16 (Z.to_nat p + 4) used b). assert (block_ok b1) as [L1 U1] by (unfold b1; auto with os64).
  set (b2 := w32 qn ino b1). assert (block_ok b2) as [L2 U2] by (unfold b2; apply w32_block; done).
  set (b3 := w16 (qn + 4) (len - used) b2). assert (block_ok b3) as [L3 U3] by (unfold b3; apply w16_block; done).
  set (b4 := w8 (qn + 7) type (w8 (qn + 6) (Z.of_nat (length name)) b3)). assert (block_ok b4) as [L4 U4] by (unfold b4; by apply w8_block, w8_block).
  assert (forall k, (k < qn + 8)%nat -> byte_at (wtext (qn + 8) name b4) k = byte_at b4 k) as Hw.
  { intros k Hk. rewrite byte_at_wtext by lia. rewrite decide_False by lia. done. }
  assert (forall k, (k < qn + 6)%nat -> byte_at b4 k = byte_at b3 k) as H4'.
  { intros k Hk. unfold b4. rewrite !byte_at_w8 by (rewrite ?w8_length; lia). by rewrite !decide_False by lia. }
  assert (byte_at (wtext (qn + 8) name b4) (qn + 6) = Z.of_nat (length name)) as En.
  { rewrite Hw by lia. unfold b4. rewrite !byte_at_w8 by (rewrite ?w8_length; lia). rewrite decide_False, decide_True by lia. unfold u8. apply Z.mod_small. lia. }
  split_and!; [| |done|].
  - rewrite (r32_ext _ b2); [unfold b2; rewrite r32_w32 by (done || lia); by apply Z.mod_small|].
    intros k Hk. rewrite Hw, H4' by lia. unfold b3. by rewrite byte_at_w16_ne by lia.
  - rewrite (r16_ext _ b3); [unfold b3; rewrite r16_w16 by (done || lia); apply Z.mod_small; lia|rewrite Hw, H4' by lia; done|rewrite Hw, H4' by lia; done].
  - rewrite En, Nat2Z.id. apply list_eq. intros k. destruct (decide (k < length name)%nat) as [Hk|Hk].
    + rewrite lookup_take_lt, lookup_drop by done. pose proof (byte_at_wtext (qn + 8) name b4 (qn + 8 + k) ltac:(lia)) as E. rewrite decide_True in E by lia.
      replace (qn + 8 + k - (qn + 8))%nat with k in E by lia. unfold byte_at in E. rewrite !nth_lookup in E.
      destruct (lookup_lt_is_Some_2 name k Hk) as [x Ex]. destruct (lookup_lt_is_Some_2 (wtext (qn + 8) name b4) (qn + 8 + k)) as [y Ey]; [rewrite wtext_length; lia|].
      rewrite Ex, Ey in *. cbn in E. congruence.
    + rewrite lookup_take_ge by lia. symmetry. apply lookup_ge_None_2. lia.
Qed.

Lemma split_records l : records b (p + len) l -> 8 <= len -> records b' p ((rec_ino b p, rec_name b p) :: (ino, name) :: l).
Proof.
  intros Hr H8. pose proof split_sizes as (H1 & H2 & H3 & H4). destruct split_first as (A1 & A2 & A3 & A4). destruct split_second as (C1 & C2 & C3 & C4).
  rewrite <- A1, <- A4, <- C1, <- C4. apply records_next; rewrite ?A2, ?A3; fold used; [done|lia|lia|lia|]. fold q.
  assert (0 <= q) by (unfold q; lia). apply records_next; rewrite ?C2, ?C3; [done|lia|lia|unfold q; lia|].
  replace (q + (len - used)) with (p + len) by (unfold q; lia). apply (records_agree b); [done| |done]. apply split_agree. lia.
Qed.
End split.

Lemma add_record_ok b name ino type (fuel : nat) p l :
  records b p l -> block_ok b -> Forall is_u8 name -> 0 <= ino < 2 ^ 32 -> (length name < 256)%nat -> (Z.to_nat ((BS - p) / 8) < fuel)%nat ->
  exists r, add_record fuel b name ino type p = Ok r /\
    match r with
    | None => True
    | Some b' => block_ok b' /\ agree 0 p b b' /\ exists l1 l2, l = l1 ++ l2 /\ records b' p (l1 ++ (ino, name) :: l2)
    end.
Proof.
  intros Hr Hb Hnm Hino Hlen. revert fuel. induction Hr as [|p l Hp H8 Hi Hle Hr IH]; intros fuel Hf; (destruct fuel as [|fuel]; [lia|]).
  { by exists None. }
  pose proof (records_bound _ _ _ Hr) as [Hpb _]. cbn [add_record]. unfold BS in *.
  rewrite (proj2 (Z.leb_le _ _)), (proj2 (Z.ltb_ge _ _)), (proj2 (Z.ltb_ge _ _)) by lia. cbn [negb orb].
  destruct (negb (rec_ino b p =? 0) && (ideal (name_len b p) + ideal (Z.of_nat (length name)) <=? rec_len b p)) eqn:E.
  - apply andb_true_iff in E as [_ E]. apply Z.leb_le in E. eexists. split; [done|]. split; [|split].
    + by apply split_block.
    + apply split_agree; try done. lia.
    + exists [(rec_ino b p, rec_name b p)], l. split; [done|]. by apply split_records.
  - destruct (IH fuel) as (r & Er & Hres).
    { apply Nat2Z.inj_lt. rewrite Z2Nat.id by (apply Z.div_pos; lia). apply Nat2Z.inj_lt in Hf. rewrite Z2Nat.id in Hf by (apply Z.div_pos; lia). Z.div_mod_to_equations; lia. }
    exists r. split; [done|]. destruct r as [b'|]; [|done]. destruct Hres as (Hb' & Ha & l1 & l2 & -> & Hr'). split; [done|]. split.
    + eapply agree_weaken; [exact Ha|lia|lia].
    + exists ((rec_ino b p, rec_name b p) :: l1), l2. split; [done|]. cbn [app]. apply records_cons_agree; try done. eapply agree_weaken; [exact Ha|lia|lia].
Qed.

(** What adding does to lookups. *)
Lemma assoc_insert name name' ino (l1 l2 : list (Z * list Z)) :
  assoc name (l1 ++ l2) = None -> ino <> 0 ->
  assoc name' (l1 ++ (ino, name) :: l2) = if bool_decide (name' = name) then Some ino else assoc name' (l1 ++ l2).
Proof.
  intros Hn Hi. induction l1 as [|[n nm] l1 IH]; cbn [app assoc] in *.
  - rewrite (proj2 (Z.eqb_neq _ _)) by done. cbn [negb andb]. rewrite (bool_decide_ext (name = name') (name' = name)) by (split; congruence). by case_bool_decide.
  - destruct (negb (n =? 0) && bool_decide (nm = name)) eqn:E; [done|]. rewrite IH by done.
    destruct (negb (n =? 0)) eqn:En; cbn [andb] in *; [|done]. destruct (bool_decide (nm = name')) eqn:E'; [|done].
    apply bool_decide_eq_true in E' as ->. apply bool_decide_eq_false in E. by rewrite bool_decide_eq_false_2.
Qed.
