(* ===== verification/Ext2Files.v ===== *)
(** * Blocks of files: lemmas

    Allocating, writing, releasing and reading the blocks of a file: which
    blocks an inode owns, what a store adds to them, and what a load reads. *)

From stdpp Require Import base numbers list strings.
From Stdlib Require Import ZArith Lia.
From S2P Require Import Prelude Effects Mini64Fat Mini64FatProof Ext2 Ext2Blocks Ext2Dir.

Implicit Types (B : Z -> list Z) (i : inode_t) (bl new l : list Z).

Definition blocks_ok B : Prop := forall n, 2 <= n < NB -> block_ok (B n).

Definition bused B (n : Z) : bool := bit_set (B BLOCK_BITMAP) n.
Definition iused B (ino : Z) : bool := bit_set (B INODE_BITMAP) (ino - 1).

Definition nz l : list Z := List.filter (fun x => negb (x =? 0)) l.

(** The blocks an inode owns: data blocks and the indirect block. *)
Definition owned B i : list Z :=
  nz (direct i) ++ (if i_block 12 i =? 0 then [] else i_block 12 i :: nz (entries (B (i_block 12 i)))).

Lemma elem_of_nz x l : x ∈ nz l <-> x ∈ l /\ x <> 0.
Proof. unfold nz. rewrite !list_elem_of_In, filter_In. rewrite negb_true_iff, Z.eqb_neq. done. Qed.

Lemma nz_app l l' : nz (l ++ l') = nz l ++ nz l'.
Proof. apply List.filter_app. Qed.

Lemma nz_all l : Forall (fun x => x <> 0) l -> nz l = l.
Proof. induction 1 as [|x l Hx Hl IH]; [done|]. cbn. rewrite (proj2 (Z.eqb_neq _ _)) by done. cbn. by f_equal. Qed.

Lemma nz_zeros n : nz (replicate n 0) = [].
Proof. by induction n. Qed.

(** ** Fields of inodes and of indirect blocks *)

Lemma i_block_set k j v i : (k < 15)%nat -> (j < 15)%nat -> inode_ok i -> is_u32 v -> i_block j (set_block k v i) = if decide (j = k) then v else i_block j i.
Proof.
  intros Hk Hj [Hl Hu] Hv. unfold i_block, set_block, block_field. case_decide as E.
  - subst. rewrite r32_w32 by (done || lia). by apply Z.mod_small.
  - apply r32_w32_ne; lia.
Qed.

Lemma i_block_blocks k v i : (k < 15)%nat -> inode_ok i -> i_block k (set_blocks v i) = i_block k i.
Proof. intros Hk [Hl Hu]. unfold i_block, set_blocks, block_field. apply r32_w32_ne; lia. Qed.

Lemma set_block_ok k v i : inode_ok i -> inode_ok (set_block k v i).
Proof. intros [? ?]. split; [unfold set_block; by rewrite w32_length|by apply w32_bytes]. Qed.

Lemma set_blocks_ok v i : inode_ok i -> inode_ok (set_blocks v i).
Proof. intros [? ?]. split; [unfold set_blocks; by rewrite w32_length|by apply w32_bytes]. Qed.

(** The fields in front of the block list: mode, owner, size, times, links. *)
Definition same_meta i i' : Prop := forall o, (o < 28)%nat -> byte_at i' o = byte_at i o.

Lemma meta_set_block k v i : (k < 15)%nat -> inode_ok i -> same_meta i (set_block k v i).
Proof. intros Hk [Hl _] o Ho. unfold set_block, w32, block_field. by rewrite !byte_at_w16_ne by (rewrite ?w16_length; lia). Qed.

Lemma meta_set_blocks v i : inode_ok i -> same_meta i (set_blocks v i).
Proof. intros [Hl _] o Ho. unfold set_blocks, w32. by rewrite !byte_at_w16_ne by (rewrite ?w16_length; lia). Qed.

Lemma meta_trans i1 i2 i3 : same_meta i1 i2 -> same_meta i2 i3 -> same_meta i1 i3.
Proof. intros H1 H2 o Ho. by rewrite H2, H1. Qed.

Lemma meta_size i i' : same_meta i i' -> i_size i' = i_size i.
Proof. intros Hm. apply r32_ext. intros k Hk. apply Hm. lia. Qed.

Lemma meta_mode i i' : same_meta i i' -> i_mode i' = i_mode i.
Proof. intros Hm. apply r16_ext; apply Hm; lia. Qed.

Lemma lookup_map_seq {A} (f : nat -> A) (n k : nat) : map f (seq 0 n) !! k = if decide (k < n)%nat then Some (f k) else None.
Proof.
  change (map f (seq 0 n)) with (f <$> seq 0 n). rewrite list_lookup_fmap. case_decide; [by rewrite lookup_seq_lt|by rewrite lookup_seq_ge by lia].
Qed.

Lemma direct_set k v i : (k < 12)%nat -> inode_ok i -> is_u32 v -> direct (set_block k v i) = <[k := v]> (direct i).
Proof.
  intros Hk Hi Hv. apply list_eq. intros j. unfold direct. rewrite lookup_map_seq. destruct (decide (j = k)) as [->|Hne].
  - rewrite list_lookup_insert_eq by (rewrite length_map, length_seq; lia). rewrite decide_True by lia. rewrite i_block_set, decide_True by (done || lia). done.
  - rewrite list_lookup_insert_ne, lookup_map_seq by done. case_decide; [|done]. rewrite i_block_set, decide_False by (done || lia). done.
Qed.

Lemma direct_ext i i' : (forall k, (k < 12)%nat -> i_block k i' = i_block k i) -> direct i' = direct i.
Proof. intros Hk. unfold direct. apply map_ext_in. intros k Hin. apply in_seq in Hin. apply Hk. lia. Qed.

Lemma entries_set k v b : (k < 1024)%nat -> block_ok b -> is_u32 v -> entries (w32 (4 * k) v b) = <[k := v]> (entries b).
Proof.
  intros Hk [Hl Hu] Hv. assert (Z.to_nat INDIRECT_ENTRIES = 1024%nat) as En by done.
  apply list_eq. intros j. unfold entries. rewrite En, lookup_map_seq. destruct (decide (j = k)) as [->|Hne].
  - rewrite list_lookup_insert_eq by (rewrite length_map, length_seq; lia). rewrite decide_True by lia. rewrite r32_w32 by (done || lia). f_equal. by apply Z.mod_small.
  - rewrite list_lookup_insert_ne, lookup_map_seq by done. case_decide; [|done]. by rewrite r32_w32_ne by lia.
Qed.

Lemma zero_bytes n o : byte_at (zero n) o = 0.
Proof. unfold byte_at, zero. rewrite nth_lookup. destruct (replicate n 0 !! o) eqn:E; [|done]. by apply lookup_replicate in E as [-> _]. Qed.

Lemma zero_fields n o : r16 (zero n) o = 0 /\ r32 (zero n) o = 0.
Proof. unfold r32, r16. by rewrite !zero_bytes. Qed.

Lemma entries_zero : entries (zero (Z.to_nat BS)) = replicate 1024 0.
Proof.
  apply list_eq. intros j. unfold entries. change (Z.to_nat INDIRECT_ENTRIES) with 1024%nat. rewrite lookup_map_seq.
  case_decide; [|symmetry; apply lookup_replicate_None; lia]. rewrite lookup_replicate_2 by lia. by rewrite (proj2 (zero_fields _ _)).
Qed.

Lemma insert_pad l v (n : nat) : <[length l := v]> (l ++ replicate (S n) 0) = (l ++ [v]) ++ replicate n 0.
Proof. rewrite insert_app_r_alt by lia. rewrite Nat.sub_diag. cbn [replicate list_insert insert]. by rewrite <- app_assoc. Qed.

(** ** Clearing bits *)

Definition clear_bits l b : list Z := fold_left (fun b n => clear_bit n b) l b.

Lemma clear_bits_ok l b : block_ok b -> block_ok (clear_bits l b).
Proof. revert b. induction l as [|n l IH]; intros b Hb; [done|]. apply IH. by apply clear_block. Qed.

Lemma bit_set_clear_bits l b j :
  Forall (fun n => 0 <= n < 32768) l -> 0 <= j -> block_ok b -> bit_set (clear_bits l b) j = bit_set b j && negb (bool_decide (j ∈ l)).
Proof.
  intros Hl Hj. revert b. induction Hl as [|n l Hn Hl IH]; intros b Hb.
  { cbn. by rewrite andb_true_r. }
  cbn [clear_bits fold_left]. fold (clear_bits l (clear_bit n b)). rewrite IH by (by apply clear_block). rewrite bit_set_clear by done.
  destruct (Z.eqb_spec j n) as [->|Hne]; cbn [negb andb].
  - rewrite bool_decide_eq_true_2 by (by left). by rewrite andb_false_r.
  - f_equal. f_equal. apply bool_decide_ext. rewrite elem_of_cons. naive_solver.
Qed.

(** ** What an operation has allocated *)

(** [B] is [B0] with the blocks [new] taken and written to. *)
Record grows B0 new B : Prop := {
  g_same : forall n, 3 <= n < NB -> n ∉ new -> B n = B0 n;
  g_used : forall n, 0 <= n < NB -> bused B n = bused B0 n || bool_decide (n ∈ new);
  g_new : forall n, n ∈ new -> FIRST_DATA < n < NB /\ bused B0 n = false;
  g_nodup : NoDup new;
  g_ok : blocks_ok B
}.

(** The blocks have been given back: as [B0] but for the contents of free blocks. *)
Record undone B0 new B : Prop := {
  u_same : forall n, 3 <= n < NB -> n ∉ new -> B n = B0 n;
  u_used : forall n, 0 <= n < NB -> bused B n = bused B0 n;
  u_new : forall n, n ∈ new -> FIRST_DATA < n < NB /\ bused B0 n = false;
  u_ok : blocks_ok B
}.

Lemma bset_ok n b B : blocks_ok B -> block_ok b -> blocks_ok (bset n b B).
Proof. intros HB Hb k Hk. unfold bset. destruct (k =? n); [done|by apply HB]. Qed.

Lemma grows_refl B : blocks_ok B -> grows B [] B.
Proof.
  intros HB. constructor; try done; [|by intros n ?%elem_of_nil|constructor].
  intros n _. rewrite bool_decide_eq_false_2 by apply not_elem_of_nil. by rewrite orb_false_r.
Qed.

Lemma grows_alloc B0 new B r :
  grows B0 new B -> FIRST_DATA < r < NB -> bused B r = false -> grows B0 (r :: new) (bset BLOCK_BITMAP (mark_bit r (B BLOCK_BITMAP)) B).
Proof.
  intros [Hs Hu Hn Hd Hok] Hr Hf. unfold FIRST_DATA, NB, BLOCK_BITMAP in *. assert (block_ok (B 2)) as H2 by (apply Hok; unfold NB; lia).
  assert (r ∉ new /\ bused B0 r = false) as [Hrn Hr0].
  { rewrite Hu in Hf by lia. apply orb_false_iff in Hf as [? ?%bool_decide_eq_false]. done. }
  constructor.
  - intros n Hn' Hni. rewrite bset_ne by lia. apply Hs; [exact Hn'|]. intros ?. apply Hni. by right.
  - intros n Hn'. unfold bused in *. rewrite bset_eq. rewrite bit_set_mark by (done || lia). rewrite Hu by done.
    rewrite (bool_decide_ext (n ∈ r :: new) (n = r \/ n ∈ new)) by apply elem_of_cons. unfold BLOCK_BITMAP.
    destruct (Z.eqb_spec n r) as [->|Hne]; cbn [orb].
    + rewrite (bool_decide_eq_true_2 (r = r \/ r ∈ new)) by (by left). by rewrite orb_true_r.
    + f_equal. apply bool_decide_ext. naive_solver.
  - intros n [->|Hin]%elem_of_cons; [done|by apply Hn].
  - by constructor.
  - by apply bset_ok, mark_block.
Qed.

Lemma grows_write B0 new B n b : grows B0 new B -> n ∈ new -> block_ok b -> grows B0 new (bset n b B).
Proof.
  intros [Hs Hu Hn Hd Hok] Hin Hb. destruct (Hn n Hin) as [Hr _]. unfold FIRST_DATA, NB, BLOCK_BITMAP in *. constructor; try done.
  - intros k Hk Hni. rewrite bset_ne by (intros ->; done). by apply Hs.
  - intros k Hk. unfold bused in *. rewrite bset_ne by (unfold BLOCK_BITMAP; lia). by apply Hu.
  - by apply bset_ok.
Qed.

(** Giving back some of the blocks. *)
Lemma grows_free B0 new B l :
  grows B0 new B -> (forall n, n ∈ l <-> n ∈ new) -> undone B0 new (bset BLOCK_BITMAP (clear_bits l (B BLOCK_BITMAP)) B).
Proof.
  intros [Hs Hu Hn Hd Hok] Hl. unfold FIRST_DATA, NB, BLOCK_BITMAP in *. assert (block_ok (B 2)) as H2 by (apply Hok; unfold NB; lia).
  constructor; try done.
  - intros n Hn' Hni. rewrite bset_ne by lia. by apply Hs.
  - intros n Hn'. unfold bused in *. rewrite bset_eq, bit_set_clear_bits; [|apply Forall_forall; intros x Hx%Hl%Hn; lia|lia|done].
    rewrite Hu by done. rewrite (bool_decide_ext _ _ (Hl n)). destruct (decide (n ∈ new)) as [Hin|Hin].
    + rewrite bool_decide_eq_true_2 by done. destruct (Hn n Hin) as [_ ->]. done.
    + rewrite bool_decide_eq_false_2 by done. by rewrite orb_false_r, andb_true_r.
  - apply bset_ok; [done|]. by apply clear_bits_ok.
Qed.


(** ** Counting free blocks *)

Definition data_blocks : list Z := seqZ (FIRST_DATA + 1) (NB - (FIRST_DATA + 1)).

Definition free B : nat := length (List.filter (fun n => negb (bused B n)) data_blocks).

Lemma grows_free_count B0 new B : grows B0 new B -> (free B + length new)%nat = free B0.
Proof.
  intros [Hs Hu Hn Hd Hok]. unfold free. set (L := data_blocks).
  assert (forall n, n ∈ L <-> FIRST_DATA < n < NB) as HL by (intros n; unfold L, data_blocks; rewrite elem_of_seqZ; unfold FIRST_DATA, NB; lia).
  assert (forall f, NoDup (List.filter f L)) as Hnd by (intros f; apply NoDup_ListNoDup, List.NoDup_filter, NoDup_ListNoDup, NoDup_seqZ).
  rewrite (Permutation_length (l := List.filter (fun n => negb (bused B0 n)) L) (l' := List.filter (fun n => negb (bused B n)) L ++ new)); [by rewrite length_app|].
  apply NoDup_Permutation; [apply Hnd|apply NoDup_app; split_and!; [apply Hnd| |done]|].
  - intros n [_ Hf]%list_elem_of_In%filter_In Hin. apply negb_true_iff in Hf. destruct (Hn n Hin) as [Hr _]. unfold FIRST_DATA in *. rewrite Hu in Hf by lia.
    rewrite bool_decide_eq_true_2 in Hf by done. by rewrite orb_true_r in Hf.
  - intros n. rewrite elem_of_app, !list_elem_of_In, !filter_In, <- !list_elem_of_In, !negb_true_iff. split.
    + intros [Hin Hf]. destruct (decide (n ∈ new)) as [|Hni]; [by right|left]. split; [done|]. apply HL in Hin. unfold FIRST_DATA in *.
      rewrite Hu by lia. rewrite Hf, bool_decide_eq_false_2 by done. done.
    + intros [[Hin Hf]|Hin]; [|destruct (Hn n Hin) as [Hr Hf]; split; [by apply HL|done]]. split; [done|]. apply HL in Hin. unfold FIRST_DATA in *.
      rewrite Hu in Hf by lia. by apply orb_false_iff in Hf as [? _].
Qed.

Lemma free_none B : (forall n, FIRST_DATA < n < NB -> bused B n = true) -> free B = 0%nat.
Proof.
  intros Ha. unfold free. destruct (List.filter _ _) as [|n l] eqn:E; [done|]. assert (In n (n :: l)) as Hin by by left.
  rewrite <- E in Hin. apply filter_In in Hin as [Hin Hf]. apply list_elem_of_In in Hin. unfold data_blocks in Hin. apply elem_of_seqZ in Hin.
  rewrite Ha in Hf; [done|]. unfold FIRST_DATA, NB in *. lia.
Qed.

(** The blocks that hold a number of bytes. *)
Definition blocks_of (size : Z) : nat := Z.to_nat ((size + 4095) / 4096).

(** ** The layout of a file *)

(** The blocks [bl] in order: twelve direct ones, the rest in the indirect block [x]. *)
Definition tail_entries bl : list Z := drop 12 bl ++ replicate (1024 - (length bl - 12)) 0.

Record layout B i bl : Prop := {
  lay_direct : direct i = take 12 bl ++ replicate (12 - length bl) 0;
  lay_indirect : i_block 12 i <> 0 -> entries (B (i_block 12 i)) = tail_entries bl;
  lay_many : (12 < length bl)%nat -> i_block 12 i <> 0;
  lay_max : (length bl <= 1036)%nat
}.

Definition indirect_of i : list Z := nz [i_block 12 i].

Lemma indirect_of_zero i : i_block 12 i = 0 -> indirect_of i = [].
Proof. unfold indirect_of. by intros ->. Qed.

Lemma indirect_of_nonzero i : i_block 12 i <> 0 -> indirect_of i = [i_block 12 i].
Proof. intros Hne. unfold indirect_of. apply nz_all. by repeat constructor. Qed.

Lemma layout_owned B i bl :
  layout B i bl -> Forall (fun x => x <> 0) bl -> forall n, n ∈ owned B i <-> n ∈ indirect_of i ++ bl.
Proof.
  intros [H1 H2 H3 _] Hnz n. unfold owned.
  rewrite H1, nz_app, nz_zeros, app_nil_r, (nz_all (take 12 bl)) by (by apply Forall_take).
  assert (n ∈ bl <-> n ∈ take 12 bl \/ n ∈ drop 12 bl) as Hbl by (by rewrite <- elem_of_app, take_drop).
  rewrite !elem_of_app, Hbl. destruct (Z.eqb_spec (i_block 12 i) 0) as [E|E].
  - rewrite (drop_ge bl 12) by (destruct (decide (12 < length bl)%nat); [by apply H3 in E|lia]). rewrite indirect_of_zero, elem_of_nil by done. tauto.
  - rewrite H2 by done. unfold tail_entries. rewrite nz_app, nz_zeros, app_nil_r, (nz_all (drop 12 bl)) by (by apply Forall_drop).
    rewrite indirect_of_nonzero, !elem_of_cons, elem_of_nil by done. tauto.
Qed.

Lemma tail_entries_snoc bl v :
  (12 <= length bl < 1036)%nat -> <[(length bl - 12)%nat := v]> (tail_entries bl) = tail_entries (bl ++ [v]).
Proof.
  intros Hl. unfold tail_entries. rewrite drop_app_le by lia. rewrite length_app. cbn [length].
  replace (1024 - (length bl - 12))%nat with (S (1024 - (length bl + 1 - 12))) by lia.
  replace (length bl - 12)%nat with (length (drop 12 bl)) at 1 by (rewrite length_drop; lia). apply insert_pad.
Qed.

(** ** Writing *)

(** A store in progress: the blocks [bl] have been written, [new] is all that was taken. *)
Record writing B0 new B i ind bl : Prop := {
  wr_grows : grows B0 new B;
  wr_inode : inode_ok i;
  wr_layout : layout B i bl;
  wr_new : new ≡ₚ indirect_of i ++ bl;
  wr_ind : block_ok ind /\ entries ind = tail_entries bl
}.

Lemma writing_nonzero B0 new B i ind bl : writing B0 new B i ind bl -> Forall (fun x => x <> 0) bl.
Proof.
  intros [Hg _ _ Hn _]. apply Forall_forall. intros x Hx. assert (x ∈ new) as Hin by (rewrite Hn; apply elem_of_app; by right).
  destruct (g_new _ _ _ Hg x Hin) as [? _]. unfold FIRST_DATA in *. lia.
Qed.

Definition taken r B : Z -> list Z := bset BLOCK_BITMAP (mark_bit r (B BLOCK_BITMAP)) B.

Definition fresh B r : Prop := FIRST_DATA < r < NB /\ bused B r = false.

Lemma fresh_not_new B0 new B r : grows B0 new B -> fresh B r -> r ∉ new.
Proof.
  intros Hg [Hr Hf] Hin. rewrite (g_used _ _ _ Hg) in Hf by (unfold FIRST_DATA in *; lia).
  rewrite bool_decide_eq_true_2 in Hf by done. by rewrite orb_true_r in Hf.
Qed.

(** Contents of the blocks written so far survive taking and writing a fresh one. *)
Lemma taken_same B r c n : FIRST_DATA < n -> n <> r -> bset r c (taken r B) n = B n.
Proof. unfold FIRST_DATA. intros Hn Hne. rewrite bset_ne by done. unfold taken. apply bset_ne. unfold BLOCK_BITMAP. lia. Qed.

Lemma new_high B0 new B n : grows B0 new B -> n ∈ new -> FIRST_DATA < n.
Proof. intros Hg Hn. apply (g_new _ _ _ Hg n Hn). Qed.

Lemma is_u32_block r : FIRST_DATA < r < NB -> is_u32 r.
Proof. unfold FIRST_DATA, NB, is_u32. lia. Qed.

Lemma indirect_same i i' : i_block 12 i' = i_block 12 i -> indirect_of i' = indirect_of i.
Proof. unfold indirect_of. by intros ->. Qed.

(** One more direct block. *)
Lemma writing_direct B0 new B i ind bl r c n :
  writing B0 new B i ind bl -> fresh B r -> (length bl < 12)%nat -> i_block 12 i = 0 -> block_ok c ->
  writing B0 (r :: new) (bset r c (taken r B)) (set_blocks n (set_block (length bl) r i)) ind (bl ++ [r]).
Proof.
  intros [Hg Hi [L1 L2 L3 L4] Hn [Hind He]] [Hr Hf] Hl H12 Hc. pose proof (is_u32_block r Hr) as Hru.
  assert (inode_ok (set_block (length bl) r i)) as Hi1 by by apply set_block_ok.
  assert (i_block 12 (set_blocks n (set_block (length bl) r i)) = 0) as E12.
  { rewrite i_block_blocks by (done || lia). rewrite i_block_set by (done || lia). rewrite decide_False by lia. done. }
  constructor.
  - apply grows_write; [by apply grows_alloc|by left|done].
  - by apply set_blocks_ok.
  - constructor.
    + rewrite (direct_ext (set_block (length bl) r i)) by (intros k Hk; by apply i_block_blocks; [lia|]).
      rewrite direct_set, L1 by (done || lia). rewrite (take_ge bl), (take_ge (bl ++ [r])) by (rewrite ?length_app; cbn [length]; lia).
      rewrite length_app. cbn [length]. replace (12 - length bl)%nat with (S (12 - (length bl + 1))) by lia. apply insert_pad.
    + intros Hne. by rewrite E12 in Hne.
    + rewrite length_app. cbn [length]. lia.
    + rewrite length_app. cbn [length]. lia.
  - rewrite (indirect_same i) by (by rewrite E12, H12). rewrite Hn, app_assoc. by rewrite <- Permutation_cons_append.
  - split; [done|]. rewrite He. unfold tail_entries. rewrite length_app. cbn [length]. rewrite !drop_ge by (rewrite ?length_app; cbn [length]; lia).
    f_equal. f_equal. lia.
Qed.

(** The indirect block is taken. *)
Lemma writing_indirect B0 new B i ind bl r n :
  writing B0 new B i ind bl -> fresh B r -> (12 <= length bl)%nat -> i_block 12 i = 0 ->
  writing B0 (r :: new) (bset r ind (taken r B)) (set_blocks n (set_block 12 r i)) ind bl.
Proof.
  intros [Hg Hi [L1 L2 L3 L4] Hn [Hind He]] [Hr Hf] Hl H12. pose proof (is_u32_block r Hr) as Hru.
  assert (inode_ok (set_block 12 r i)) as Hi1 by by apply set_block_ok.
  assert (i_block 12 (set_blocks n (set_block 12 r i)) = r) as E12.
  { rewrite i_block_blocks by (done || lia). rewrite i_block_set by (done || lia). by rewrite decide_True. }
  constructor.
  - apply grows_write; [by apply grows_alloc|by left|done].
  - by apply set_blocks_ok.
  - constructor; [|intros _; rewrite E12, bset_eq; done|rewrite E12; unfold FIRST_DATA in *; lia|done].
    rewrite <- L1. apply direct_ext. intros k Hk. rewrite i_block_blocks, i_block_set, decide_False by (done || lia). done.
  - unfold indirect_of. rewrite E12. cbn [nz List.filter]. rewrite (proj2 (Z.eqb_neq _ _)) by (unfold FIRST_DATA in *; lia). cbn [negb app].
    rewrite Hn. unfold indirect_of. by rewrite H12.
  - done.
Qed.

(** One more block behind the indirect one. *)
Lemma writing_entry B0 new B i ind bl r c n :
  writing B0 new B i ind bl -> fresh B r -> (12 <= length bl < 1036)%nat -> i_block 12 i <> 0 -> block_ok c ->
  let ind' := w32 (4 * (length bl - 12)) r ind in
  writing B0 (r :: new) (bset r c (bset (i_block 12 i) ind' (taken r B))) (set_blocks n i) ind' (bl ++ [r]).
Proof.
  intros [Hg Hi [L1 L2 L3 L4] Hn [Hind He]] Hfr Hl H12 Hc ind'. pose proof Hfr as [Hr Hf]. pose proof (is_u32_block r Hr) as Hru.
  assert (block_ok ind') as Hind' by (by apply w32_block).
  assert (entries ind' = tail_entries (bl ++ [r])) as He'.
  { unfold ind'. rewrite entries_set by (done || lia). rewrite He. apply tail_entries_snoc. lia. }
  assert (i_block 12 i ∈ new) as Hin.
  { rewrite Hn. apply elem_of_app. left. apply elem_of_nz. split; [by left|done]. }
  assert (i_block 12 i <> r) as Hne by (intros <-; by apply (fresh_not_new B0 new B (i_block 12 i))).
  assert (i_block 12 (set_blocks n i) = i_block 12 i) as E12 by (by apply i_block_blocks; [lia|]).
  constructor.
  - apply grows_write; [|by left|done]. apply grows_write; [by apply grows_alloc|by right|done].
  - by apply set_blocks_ok.
  - constructor; [| |by rewrite E12|rewrite length_app; cbn [length]; lia].
    + rewrite (direct_ext i) by (intros k Hk; by apply i_block_blocks; [lia|]). rewrite L1, length_app. cbn [length].
      rewrite take_app_le by lia. f_equal. f_equal. lia.
    + intros _. rewrite E12, bset_ne, bset_eq by done. done.
  - rewrite (indirect_same i) by done. rewrite Hn, app_assoc. by rewrite <- Permutation_cons_append.
  - done.
Qed.

Definition contents B bl : list Z := concat (map B bl).

Definition chunk (data : list Z) : list Z := take (Z.to_nat BS) data ++ zero (Z.to_nat BS - length data).

Lemma chunk_ok data : Forall is_u8 data -> block_ok (chunk data).
Proof.
  intros Hd. change (Z.to_nat BS) with 4096%nat. unfold chunk, zero. change (Z.to_nat BS) with 4096%nat. split.
  - rewrite length_app, length_take, length_replicate. lia.
  - apply Forall_app. split; [by apply Forall_take|]. apply Forall_replicate. unfold is_u8. lia.
Qed.

(** The chunk and the rest are the data, padded when the chunk is the last. *)
Lemma chunk_rest data n : exists k, chunk data ++ drop (Z.to_nat BS) data ++ replicate n 0 = data ++ replicate k 0.
Proof.
  unfold chunk, zero. destruct (decide (length data <= Z.to_nat BS)%nat) as [Hl|Hl].
  - exists (Z.to_nat BS - length data + n)%nat. rewrite take_ge, drop_ge by done. by rewrite replicate_add, <- !app_assoc.
  - exists n. replace (Z.to_nat BS - length data)%nat with 0%nat by lia. cbn [replicate]. rewrite app_nil_r, app_assoc. by rewrite take_drop.
Qed.

(** Contents: a written block and the ones before it. *)
Lemma contents_snoc B B' bl r c :
  B' r = c -> (forall n, n ∈ bl -> B' n = B n) -> contents B' (bl ++ [r]) = contents B bl ++ c.
Proof.
  intros Hr Hs. unfold contents. rewrite map_app, concat_app. cbn [map concat]. rewrite app_nil_r, Hr. f_equal. f_equal.
  apply map_ext_in. intros n Hn. apply Hs. by apply list_elem_of_In.
Qed.

Section runs.
Context {D : Type} `{DiskLaws D} (W0 : Z -> list Z) (mt : standing).

Local Abbreviation E := (M (ext2 D)).
Local Abbreviation runs := (runs W0 mt).

Lemma runs_alloc_block B :
  exists r B', runs B alloc_block r B' /\
    (r = 0 /\ B' = B /\ free B = 0%nat \/ FIRST_DATA < r < NB /\ bused B r = false /\ B' = bset BLOCK_BITMAP (mark_bit r (B BLOCK_BITMAP)) B).
Proof.
  destruct (runs_alloc_bit W0 mt B BLOCK_BITMAP (FIRST_DATA + 1) NB false) as (r & B' & Hr & Hc); [by unfold BLOCK_BITMAP, NB|unfold FIRST_DATA; lia|unfold NB; lia|].
  exists (if r =? 0 then 0 else r - 1), B'. split.
  - unfold alloc_block. apply runs_get. intros s Hs. rewrite (at_blocks _ _ _ _ Hs). eapply runs_then; [exact Hr|apply runs_return].
  - destruct Hc as [(-> & -> & Ha)|(j & -> & Hj & Hb & ->)]; [left; split_and!; try done; apply free_none; intros n Hn; apply Ha; lia|right]. unfold FIRST_DATA in *. rewrite (proj2 (Z.eqb_neq _ _)) by lia.
    replace (j + 1 - 1) with j by lia. unfold bused. split; [lia|]. done.
Qed.

Lemma bset_bset n b b' B k : bset n b' (bset n b B) k = bset n b' B k.
Proof. unfold bset. by destruct (k =? n). Qed.

Lemma runs_free_blocks l B :
  Forall (fun x => 0 <= x < 32768) l -> runs B (free_blocks l) true (bset BLOCK_BITMAP (clear_bits (nz l) (B BLOCK_BITMAP)) B).
Proof.
  intros Hl. revert B. induction Hl as [|x l Hx Hl IH]; intros B; cbn [free_blocks].
  { eapply runs_result; [apply runs_return|]. intros n _. unfold bset. by destruct (Z.eqb_spec n BLOCK_BITMAP) as [->|]. }
  destruct (Z.eqb_spec x 0) as [->|Hne].
  - eapply runs_then; [apply runs_return|]. eapply runs_then; [apply IH|]. apply runs_return.
  - rewrite u32_small by lia. eapply runs_then; [apply runs_free_bit; [by unfold BLOCK_BITMAP, NB|lia]|]. eapply runs_then; [apply IH|]. eapply runs_result; [apply runs_return|].
    intros n _. rewrite bset_bset, bset_eq. cbn [nz List.filter]. rewrite (proj2 (Z.eqb_neq _ _)) by done. cbn [negb clear_bits fold_left].
    by replace (x + 1 - 1) with x by lia.
Qed.

(** Numbers that are blocks of a list without its zeros. *)
Lemma nz_range l (P : Z -> Prop) : P 0 -> (forall n, n ∈ nz l -> P n) -> Forall P l.
Proof.
  intros Hz Hl. apply Forall_forall. intros x Hx. destruct (decide (x = 0)) as [->|Hne]; [done|]. apply Hl. by apply elem_of_nz.
Qed.

Lemma clear_bits_app l l' b : clear_bits (l ++ l') b = clear_bits l' (clear_bits l b).
Proof. apply fold_left_app. Qed.

(** Releasing clears the bits of the blocks the inode owns (in some order). *)
Lemma runs_release B i :
  (forall n, n ∈ owned B i -> FIRST_DATA <= n < NB) ->
  exists l, (forall n, n ∈ l <-> n ∈ owned B i) /\ runs B (release_blocks i) true (bset BLOCK_BITMAP (clear_bits l (B BLOCK_BITMAP)) B).
Proof.
  intros Hin. unfold release_blocks, owned, FIRST_DATA, NB in *. assert (Forall (fun x => 0 <= x < 32768) (direct i)) as Hdir.
  { apply nz_range; [lia|]. intros n Hn. assert (260 <= n < 16384); [|lia]. apply Hin. apply elem_of_app. by left. }
  destruct (Z.eqb_spec (i_block 12 i) 0) as [E|E].
  - exists (nz (direct i)). split; [intros n; by rewrite app_nil_r|]. eapply runs_then; [by apply runs_free_blocks|apply runs_return].
  - set (b12 := B (i_block 12 i)) in *. exists (nz (direct i) ++ nz (entries b12) ++ [i_block 12 i]). split.
    { intros n. rewrite !elem_of_app, !elem_of_cons, elem_of_nil. tauto. }
    assert (260 <= i_block 12 i < 16384) as H12 by (apply Hin, elem_of_app; right; by left).
    eapply runs_then; [by apply runs_free_blocks|]. eapply runs_then; [apply runs_bread; unfold NB; lia|]. rewrite bset_ne by (unfold BLOCK_BITMAP; lia). fold b12.
    eapply runs_then; [apply runs_free_blocks; apply nz_range; [lia|]; intros n Hn; assert (260 <= n < 16384); [apply Hin, elem_of_app; right; by right|lia]|].
    rewrite u32_small by lia. eapply runs_then; [apply runs_free_bit; [by unfold BLOCK_BITMAP, NB|lia]|]. eapply runs_result; [apply runs_return|].
    intros n _. rewrite !bset_bset, !bset_eq. rewrite !clear_bits_app. cbn [clear_bits fold_left]. by replace (i_block 12 i + 1 - 1) with (i_block 12 i) by lia.
Qed.

(** ** Running with a result to be described *)

Definition yields {A} B (m : E A) (P : A -> (Z -> list Z) -> Prop) : Prop := exists a B', runs B m a B' /\ P a B'.

Lemma yields_ret {A} B (a : A) (P : A -> (Z -> list Z) -> Prop) : P a B -> yields B (ret a) P.
Proof. intros HP. exists a, B. split; [apply runs_return|done]. Qed.

Lemma yields_run {A C} B (m : E A) a B1 (f : A -> E C) P : runs B m a B1 -> yields B1 (f a) P -> yields B (bind m f) P.
Proof. intros Hm (c & B2 & Hf & HP). exists c, B2. split; [by eapply runs_then|done]. Qed.

Lemma yields_bind {A C} B (m : E A) (f : A -> E C) P Q : yields B m P -> (forall a B1, P a B1 -> yields B1 (f a) Q) -> yields B (bind m f) Q.
Proof. intros (a & B1 & Hm & HP) Hf. eapply yields_run; [exact Hm|by apply Hf]. Qed.

Lemma yields_mono {A} B (m : E A) (P Q : A -> (Z -> list Z) -> Prop) : yields B m P -> (forall a B1, P a B1 -> Q a B1) -> yields B m Q.
Proof. intros (a & B1 & Hm & HP) Hf. exists a, B1. split; [done|by apply Hf]. Qed.

Lemma yields_get {C} B (f : ext2 D -> E C) P (c : E C) : (forall s, at_ W0 mt B s -> f s = c) -> yields B c P -> yields B (bind get f) P.
Proof. intros Hf (a & B1 & Hm & HP). exists a, B1. split; [|done]. apply runs_get. intros s Hs. by rewrite Hf. Qed.

(** ** Writing the blocks of a file *)

Lemma writing_indirect_range B0 new B i ind bl : writing B0 new B i ind bl -> i_block 12 i = 0 \/ FIRST_DATA < i_block 12 i < NB.
Proof.
  intros Hw. destruct (decide (i_block 12 i = 0)) as [E|E]; [by left|right]. apply (g_new _ _ _ (wr_grows _ _ _ _ _ _ Hw)).
  rewrite (wr_new _ _ _ _ _ _ Hw), indirect_of_nonzero by done. by left.
Qed.

Lemma writing_owned B0 new B i ind bl n : writing B0 new B i ind bl -> n ∈ owned B i <-> n ∈ new.
Proof.
  intros Hw. rewrite (layout_owned B i bl (wr_layout _ _ _ _ _ _ Hw) (writing_nonzero _ _ _ _ _ _ Hw)). by rewrite (wr_new _ _ _ _ _ _ Hw).
Qed.

Lemma writing_in B0 new B i ind bl n : writing B0 new B i ind bl -> n ∈ owned B i -> FIRST_DATA <= n < NB.
Proof.
  intros Hw Hn. rewrite (writing_owned _ _ _ _ _ _ _ Hw) in Hn. destruct (g_new _ _ _ (wr_grows _ _ _ _ _ _ Hw) n Hn) as [Hr _]. lia.
Qed.

Definition backed_out B0 (r : inode_t * bool) B' : Prop := r.2 = false /\ exists new, undone B0 new B'.

Lemma back_out_ok B0 new B i ind bl : writing B0 new B i ind bl -> yields B (back_out i) (backed_out B0).
Proof.
  intros Hw. destruct (runs_release B i) as (l & Hl & Hr); [intros n; by eapply writing_in|].
  unfold back_out. eapply yields_run; [exact Hr|]. apply yields_ret. split; [done|]. exists new. apply grows_free; [apply Hw|].
  intros n. rewrite Hl. by eapply writing_owned.
Qed.

(** A block was taken and no indirect block is left for it. *)
Lemma no_indirect_ok B0 new B i ind bl r :
  writing B0 new B i ind bl -> fresh B r -> i_block 12 i = 0 ->
  yields (taken r B) (free_bit BLOCK_BITMAP (u32 (r + 1)) false ;; back_out (set_block 12 0 i)) (backed_out B0).
Proof.
  intros Hw [Hr Hf] H12. pose proof Hr as Hr'. unfold FIRST_DATA in Hr'. assert (inode_ok i) as Hi by apply Hw.
  assert (i_block 12 (set_block 12 0 i) = 0) as E12 by (rewrite i_block_set by (done || unfold is_u32; lia); by rewrite decide_True).
  assert (direct (set_block 12 0 i) = direct i) as Ed.
  { apply direct_ext. intros k Hk. rewrite i_block_set by (done || unfold is_u32; lia). by rewrite decide_False by lia. }
  unfold NB in Hr'. rewrite u32_small by lia. eapply yields_run; [apply runs_free_bit; [by unfold BLOCK_BITMAP, NB|lia]|]. replace (r + 1 - 1) with r by lia.
  set (B2 := bset BLOCK_BITMAP _ _). destruct (runs_release B2 (set_block 12 0 i)) as (l & Hl & Hrl).
  { intros n. unfold owned. rewrite E12, Ed. intros Hn. apply (writing_in _ _ _ _ _ _ n Hw). unfold owned. by rewrite H12. }
  unfold back_out. eapply yields_run; [exact Hrl|]. eexists _, _. split.
  { eapply runs_result; [apply runs_return|]. instantiate (1 := bset BLOCK_BITMAP (clear_bits (r :: l) (taken r B BLOCK_BITMAP)) (taken r B)).
    intros n _. unfold B2. rewrite bset_bset, bset_eq. done. }
  split; [done|]. exists (r :: new). apply grows_free; [apply grows_alloc; [apply Hw|done|done]|]. intros n.
  rewrite !elem_of_cons, Hl, <- (writing_owned _ _ _ _ _ _ n Hw). unfold owned. by rewrite E12, Ed, H12.
Qed.

(** At the head of the loop the indirect block is there when it is needed. *)
Definition head i bl : Prop := (length bl <= 12)%nat /\ i_block 12 i = 0 \/ (12 < length bl)%nat /\ i_block 12 i <> 0.

(** What the loop has done when it ends; it stops early when there are no more than [need] free blocks. *)
Definition wrote B0 i (goal : list Z) (need : nat) (r : inode_t * bool) B' : Prop :=
  if r.2 then exists new ind bl n, writing B0 new B' r.1 ind bl /\ same_meta i r.1 /\ contents B' bl = goal ++ replicate n 0
  else (free B0 <= need)%nat /\ exists new, undone B0 new B'.

Lemma backed_out_wrote B0 i goal need r B' : (free B0 <= need)%nat -> backed_out B0 r B' -> wrote B0 i goal need r B'.
Proof. intros Hf [E Hu]. unfold wrote. by rewrite E. Qed.

Lemma wrote_meta B0 i i' goal need r B' : same_meta i i' -> wrote B0 i' goal need r B' -> wrote B0 i goal need r B'.
Proof.
  intros Hm. unfold wrote. destruct r.2; [|done]. intros (new & ind & bl & n & Hw & Hm' & Hc). exists new, ind, bl, n. split_and!; try done.
  by eapply meta_trans.
Qed.

(** The step of the loop, with its continuations named. *)
Definition write_finish (fuel : nat) (blk : Z) (data : list Z) (index : Z) (i : inode_t) (ind : list Z) : E (inode_t * bool) :=
  let i := set_blocks (i_blocks i + 8) i in
  let! ok := bwrite blk (chunk data) in
  if ok then write_loop fuel i ind (drop (Z.to_nat BS) data) (index + 1) else back_out i.

Definition write_entry (fuel : nat) (blk : Z) (data : list Z) (index : Z) (i : inode_t) (ind : list Z) : E (inode_t * bool) :=
  let ind := w32 (Z.to_nat ((index - 12) * 4)) blk ind in
  let! ok := bwrite (i_block 12 i) ind in
  if ok then write_finish fuel blk data index i ind else back_out i.

Lemma write_loop_step (fuel : nat) i ind data index : data <> [] ->
  write_loop (S fuel) i ind data index =
    let! blk := alloc_block in
    if blk =? 0 then back_out i else
    if index <? 12 then write_finish fuel blk data index (set_block (Z.to_nat index) blk i) ind else
    if negb (i_block 12 i =? 0) then write_entry fuel blk data index i ind else
    let! x := alloc_block in
    let i := set_block 12 x i in
    if x =? 0 then free_bit BLOCK_BITMAP (u32 (blk + 1)) false ;; back_out i else
    let i := set_blocks (i_blocks i + 8) i in
    let! ok := bwrite x ind in
    if ok then write_entry fuel blk data index i ind else back_out i.
Proof. by destruct data. Qed.

Definition loop_ok (fuel : nat) : Prop := forall B0 new B i ind bl data,
  writing B0 new B i ind bl -> head i bl -> Forall is_u8 data -> (length data <= fuel)%nat -> (length data <= 4096 * (1036 - length bl))%nat ->
  yields B (write_loop fuel i ind data (Z.of_nat (length bl))) (wrote B0 i (contents B bl ++ data) (length bl + blocks_of (Z.of_nat (length data)))).

Lemma finish_ok (fuel : nat) B0 new B B1 i i1 ind bl r data :
  loop_ok fuel -> let i2 := set_blocks (i_blocks i1 + 8) i1 in
  writing B0 new (bset r (chunk data) B1) i2 ind (bl ++ [r]) -> (forall n, n ∈ bl -> bset r (chunk data) B1 n = B n) ->
  head i2 (bl ++ [r]) -> same_meta i i2 -> Forall is_u8 data -> data <> [] ->
  (length data <= S fuel)%nat -> (length data <= 4096 * (1036 - length bl))%nat ->
  yields B1 (write_finish fuel r data (Z.of_nat (length bl)) i1 ind) (wrote B0 i (contents B bl ++ data) (length bl + blocks_of (Z.of_nat (length data)))).
Proof.
  intros IH i2 Hw Hs Hh Hm Hd Hne Hf Hmax. assert (FIRST_DATA < r < NB) as Hr.
  { apply (g_new _ _ _ (wr_grows _ _ _ _ _ _ Hw)). rewrite (wr_new _ _ _ _ _ _ Hw), !elem_of_app. right. right. by left. }
  unfold FIRST_DATA in Hr. destruct data as [|c data]; [done|]. unfold write_finish. fold i2.
  eapply yields_run; [apply runs_bwrite; [lia|by apply chunk_ok]|]. change (Z.to_nat BS) with 4096%nat.
  replace (Z.of_nat (length bl) + 1) with (Z.of_nat (length (bl ++ [r]))) by (rewrite length_app; cbn [length]; lia).
  eapply yields_mono; [apply (IH B0 new); [done|done|by apply Forall_drop| |]|].
  - rewrite length_drop. cbn [length] in *. lia.
  - rewrite length_drop, length_app. cbn [length] in *. lia.
  - intros res B' Hres. apply (wrote_meta _ _ i2); [done|]. unfold wrote in *. destruct res.2.
    2: { destruct Hres as [Hneed Hun]. split; [|done]. rewrite length_drop, length_app in Hneed. cbn [length] in *. unfold blocks_of in *. clear -Hneed.
      etransitivity; [exact Hneed|]. destruct (decide (S (length data) <= 4096)%nat); Z.div_mod_to_equations; lia. }
    destruct Hres as (new' & ind' & bl' & n & Hw' & Hm' & Hc). destruct (chunk_rest (c :: data) n) as [k Hk].
    exists new', ind', bl', k. split_and!; try done. rewrite Hc. rewrite (contents_snoc B _ bl r (chunk (c :: data))); [|apply bset_eq|done].
    rewrite <- !app_assoc. f_equal. exact Hk.
Qed.

Lemma yields_same {A} B B1 (m : E A) P : (forall n, 2 <= n < NB -> B1 n = B n) -> yields B1 m P -> yields B m P.
Proof. intros He (a & B' & Hm & HP). exists a, B'. split; [by eapply runs_same|done]. Qed.

Lemma entry_ok (fuel : nat) B0 new B i i1 ind bl r data :
  loop_ok fuel -> writing B0 new B i1 ind bl -> fresh B r -> (12 <= length bl < 1036)%nat -> i_block 12 i1 <> 0 -> same_meta i i1 ->
  Forall is_u8 data -> data <> [] -> (length data <= S fuel)%nat -> (length data <= 4096 * (1036 - length bl))%nat ->
  yields (taken r B) (write_entry fuel r data (Z.of_nat (length bl)) i1 ind) (wrote B0 i (contents B bl ++ data) (length bl + blocks_of (Z.of_nat (length data)))).
Proof.
  intros IH Hw Hfr Hl H12 Hm Hd Hne Hf Hmax. assert (inode_ok i1) as Hi by apply Hw.
  pose proof (writing_entry _ _ _ _ _ _ r (chunk data) (i_blocks i1 + 8) Hw Hfr Hl H12 (chunk_ok _ Hd)) as Hw'.
  destruct (writing_indirect_range _ _ _ _ _ _ Hw) as [?|Hx]; [done|]. unfold FIRST_DATA in Hx. unfold write_entry.
  replace (Z.to_nat ((Z.of_nat (length bl) - 12) * 4)) with (4 * (length bl - 12))%nat by lia. cbv zeta in Hw'. set (ind' := w32 _ _ ind) in *.
  eapply yields_run; [apply runs_bwrite; [lia|apply Hw']|]. eapply finish_ok; [done|exact Hw'| | |eapply meta_trans; [exact Hm|by apply meta_set_blocks]|done..].
  - intros n Hn. pose proof (wr_grows _ _ _ _ _ _ Hw) as Hg. pose proof (wr_new _ _ _ _ _ _ Hw) as Hp. rewrite indirect_of_nonzero in Hp by done.
    assert (n ∈ new) as Hin by (rewrite Hp; by right). pose proof (new_high _ _ _ _ Hg Hin) as Hhi. unfold FIRST_DATA in Hhi.
    rewrite bset_ne by (intros ->; by apply (fresh_not_new _ _ _ _ Hg Hfr)). rewrite bset_ne; [unfold taken; apply bset_ne; unfold BLOCK_BITMAP; lia|].
    intros ->. pose proof (g_nodup _ _ _ Hg) as Hnd. rewrite Hp in Hnd. cbn [app] in Hnd. by apply NoDup_cons in Hnd as [? _].
  - right. rewrite length_app, i_block_blocks by (done || lia). cbn [length]. split; [lia|done].
Qed.

Lemma alloc_block_ok B : yields B alloc_block (fun r B' => r = 0 /\ B' = B /\ free B = 0%nat \/ fresh B r /\ B' = taken r B).
Proof.
  destruct (runs_alloc_block B) as (r & B' & Hr & Hc). exists r, B'. split; [done|]. destruct Hc as [?|(? & ? & ?)]; [by left|right].
  unfold fresh, taken. done.
Qed.

(** Taking two blocks in either order. *)
Lemma taken_comm r x b B n : fresh B r -> fresh B x -> r <> x -> block_ok (B BLOCK_BITMAP) -> bset x b (taken x (taken r B)) n = taken r (bset x b (taken x B)) n.
Proof.
  intros [Hr _] [Hx _] Hne Hok. unfold FIRST_DATA, NB, BLOCK_BITMAP in *. unfold taken, BLOCK_BITMAP.
  destruct (decide (n = x)) as [->|Hx']; [rewrite bset_eq, bset_ne, bset_eq by lia; done|]. rewrite bset_ne by done.
  destruct (decide (n = 2)) as [->|H2]; [|by rewrite !bset_ne by done]. rewrite !bset_eq, (bset_ne x) by lia. rewrite bset_eq. apply mark_comm; (done || lia).
Qed.

Lemma fresh_taken B r x : block_ok (B BLOCK_BITMAP) -> fresh B r -> fresh (taken r B) x -> fresh B x /\ r <> x.
Proof.
  intros Hok [Hr Hf] [Hx Hfx]. unfold FIRST_DATA, NB in *. unfold taken, bused in Hfx. rewrite bset_eq, bit_set_mark in Hfx by (done || lia).
  apply orb_false_iff in Hfx as [?%Z.eqb_neq ?]. split; [|done]. done.
Qed.

Lemma taken_fresh B r x b : block_ok (B BLOCK_BITMAP) -> fresh B r -> fresh B x -> r <> x -> fresh (bset x b (taken x B)) r.
Proof.
  intros Hok [Hr Hf] [Hx Hfx] Hne. unfold FIRST_DATA, NB in *. split; [done|]. unfold taken, bused. rewrite bset_ne by (unfold BLOCK_BITMAP; lia).
  rewrite bset_eq, bit_set_mark by (done || lia). rewrite (proj2 (Z.eqb_neq _ _)) by lia. exact Hf.
Qed.

Lemma write_loop_ok (fuel : nat) : loop_ok fuel.
Proof.
  assert (forall i, same_meta i i) as Hrefl by (by intros i o Ho).
  induction fuel as [|fuel IH]; intros B0 new B i ind bl data Hw Hh Hd Hf Hmax; (destruct (decide (data = [])) as [->|Hne]; [|try (destruct data; cbn [length] in Hf; [done|lia])]).
  1, 2: apply yields_ret; exists new, ind, bl, 0%nat; split_and!; [done|done|cbn [replicate]; by rewrite !app_nil_r].
  assert (inode_ok i) as Hi by apply Hw. assert (length bl < 1036)%nat as Hbl by (destruct data; cbn [length] in *; [done|lia]).
  assert (block_ok (B BLOCK_BITMAP)) as Hbm by (apply (g_ok _ _ _ (wr_grows _ _ _ _ _ _ Hw)); by unfold BLOCK_BITMAP, NB).
  pose proof (grows_free_count _ _ _ (wr_grows _ _ _ _ _ _ Hw)) as Hcount. pose proof (Permutation_length (wr_new _ _ _ _ _ _ Hw)) as Hnew. rewrite length_app in Hnew.
  assert (length (indirect_of i) <= 1)%nat as Hone by (unfold indirect_of, nz; cbn [List.filter]; destruct (negb _); cbn; lia).
  assert (1 <= blocks_of (Z.of_nat (length data)))%nat as Hmore by (unfold blocks_of; destruct data; cbn [length]; [done|Z.div_mod_to_equations; lia]).
  rewrite write_loop_step by done. eapply yields_bind; [apply alloc_block_ok|]. intros r B1 [(-> & -> & Hfull)|[Hfr ->]].
  { eapply yields_mono; [by eapply back_out_ok|]. intros res B'. apply backed_out_wrote. lia. }
  pose proof Hfr as [Hr _]. pose proof (is_u32_block r Hr) as Hru. unfold FIRST_DATA in Hr. rewrite (proj2 (Z.eqb_neq r 0)) by lia.
  destruct (Z.ltb_spec (Z.of_nat (length bl)) 12) as [Hlt|Hge].
  - destruct Hh as [[_ H12]|[? _]]; [|lia]. rewrite Nat2Z.id. apply (finish_ok _ _ (r :: new)); try done.
    + apply writing_direct; try done; [lia|by apply chunk_ok].
    + intros n Hn. assert (n ∈ new) as Hin by (rewrite (wr_new _ _ _ _ _ _ Hw); apply elem_of_app; by right). pose proof (wr_grows _ _ _ _ _ _ Hw) as Hg.
      apply taken_same; [by eapply new_high|]. intros ->. by apply (fresh_not_new _ _ _ _ Hg Hfr).
    + left. rewrite length_app, i_block_blocks, i_block_set by (done || lia || by apply set_block_ok). rewrite decide_False by lia. cbn [length]. split; [lia|done].
    + apply (meta_trans _ (set_block (length bl) r i)); [apply meta_set_block; [|done]; lia|by apply meta_set_blocks, set_block_ok].
  - destruct (Z.eqb_spec (i_block 12 i) 0) as [H12|H12]; cbn [negb]; [|apply (entry_ok _ _ new); try done; lia].
    eapply yields_bind; [apply alloc_block_ok|]. intros x B2 [(-> & -> & Hfull)|[Hfx ->]].
    { eapply yields_mono; [by eapply no_indirect_ok|]. intros res B'. apply backed_out_wrote.
      pose proof (grows_free_count _ _ _ (grows_alloc _ _ _ r (wr_grows _ _ _ _ _ _ Hw) (proj1 Hfr) (proj2 Hfr))) as Hc. fold (taken r B) in Hc.
      cbn [length] in Hc. rewrite (indirect_of_zero i H12) in Hnew. cbn [length] in Hnew. lia. }
    destruct (fresh_taken _ _ _ Hbm Hfr Hfx) as [Hx Hrx]. pose proof Hx as [Hxr _]. pose proof (is_u32_block x Hxr) as Hxu. unfold FIRST_DATA in Hxr. rewrite (proj2 (Z.eqb_neq x 0)) by lia.
    pose proof (writing_indirect _ _ _ _ _ _ x (i_blocks (set_block 12 x i) + 8) Hw Hx ltac:(lia) H12) as Hw'.
    eapply yields_run; [apply runs_bwrite; [lia|apply Hw']|]. eapply yields_same; [intros n _; symmetry; by apply taken_comm|].
    assert (contents B bl = contents (bset x ind (taken x B)) bl) as ->.
    { unfold contents. f_equal. apply map_ext_in. intros n Hn%list_elem_of_In. symmetry. pose proof (wr_grows _ _ _ _ _ _ Hw) as Hg.
      assert (n ∈ new) as Hin by (rewrite (wr_new _ _ _ _ _ _ Hw); apply elem_of_app; by right).
      apply taken_same; [by eapply new_high|]. intros ->. by apply (fresh_not_new _ _ _ _ Hg Hx). }
    apply (entry_ok _ _ (x :: new)); try done; [by apply taken_fresh|lia| |].
    + rewrite i_block_blocks, i_block_set by (done || lia || by apply set_block_ok). rewrite decide_True by done. lia.
    + apply (meta_trans _ (set_block 12 x i)); [apply meta_set_block; [|done]; lia|by apply meta_set_blocks, set_block_ok].
Qed.

Lemma writing_start B i : blocks_ok B -> inode_ok i -> (forall k, (k < 13)%nat -> i_block k i = 0) -> writing B [] B i (zero (Z.to_nat BS)) [].
Proof.
  intros HB Hi Hz. constructor; [by apply grows_refl|done| |by rewrite indirect_of_zero by (apply Hz; lia)|split; [apply zero_block|by rewrite entries_zero]].
  constructor; cbn [length]; [|rewrite Hz by lia; done|lia|lia].
  unfold direct. rewrite (map_ext_in _ (fun _ => 0)) by (intros k Hk%in_seq; apply Hz; lia). done.
Qed.

Lemma write_new_blocks_ok B i data :
  blocks_ok B -> inode_ok i -> (forall k, (k < 13)%nat -> i_block k i = 0) -> Forall is_u8 data -> (length data <= 4096 * 1036)%nat ->
  yields B (write_new_blocks i data) (wrote B i data (blocks_of (Z.of_nat (length data)))).
Proof.
  intros HB Hi Hz Hd Hl. apply (write_loop_ok (length data) B [] B i (zero (Z.to_nat BS)) [] data); [by apply writing_start|left; split; [cbn; lia|apply Hz; lia]|done|done|].
  cbn [length]. lia.
Qed.
End runs.
