(* ===== verification/Ext2Tree.v ===== *)
(** * Files and directories of a volume: lemmas

    What the blocks of a volume mean: the data of a file, the inode under a
    name and under a path; the invariant of a volume, and how the changes an
    operation makes to blocks and inodes act on all of these. *)

From stdpp Require Import base numbers list strings.
From Stdlib Require Import ZArith Lia.
From S2P Require Import Prelude Effects Mini64Fat Mini64FatProof Ext2 Ext2Blocks Ext2Dir Ext2Files.

Implicit Types (B : Z -> list Z) (i : inode_t) (bl name p : list Z) (ino : Z) (l : list (Z * list Z)).

(** ** The data of a file *)

Definition block_at B i (k : nat) : Z :=
  if (k <? 12)%nat then i_block k i else if i_block 12 i =? 0 then 0 else nth (k - 12) (entries (B (i_block 12 i))) 0.

Fixpoint read_blocks (n : nat) B i (k : nat) : option (list Z) :=
  match n with
  | O => Some []
  | S n => if block_at B i k =? 0 then None else option_map (app (B (block_at B i k))) (read_blocks n B i (S k))
  end.

Definition file_data B i : option (list Z) := option_map (take (Z.to_nat (i_size i))) (read_blocks (blocks_of (i_size i)) B i 0).

Lemma nth_entries b (k : nat) : nth k (entries b) 0 = if decide (k < 1024)%nat then r32 b (4 * k) else 0.
Proof.
  unfold entries. change (Z.to_nat INDIRECT_ENTRIES) with 1024%nat. rewrite nth_lookup, lookup_map_seq. by case_decide.
Qed.

Lemma block_at_owned B i (k : nat) : block_at B i k <> 0 -> block_at B i k ∈ owned B i.
Proof.
  unfold block_at, owned. intros Hne. rewrite elem_of_app. destruct (Nat.ltb_spec k 12) as [Hk|Hk].
  - left. apply elem_of_nz. split; [|done]. unfold direct. apply list_elem_of_fmap. exists k. split; [done|]. apply elem_of_seq. lia.
  - destruct (Z.eqb_spec (i_block 12 i) 0) as [E|E]; [done|]. right. right. apply elem_of_nz. split; [|done].
    rewrite nth_lookup in *. destruct (entries _ !! _) eqn:El; [|done]. by eapply list_elem_of_lookup_2.
Qed.

Lemma indirect_owned B i : i_block 12 i <> 0 -> i_block 12 i ∈ owned B i.
Proof. intros Hne. unfold owned. rewrite (proj2 (Z.eqb_neq _ _)) by done. apply elem_of_app. right. by left. Qed.

Lemma first_owned B i : i_block 0 i <> 0 -> i_block 0 i ∈ owned B i.
Proof. intros Hne. by apply (block_at_owned B i 0). Qed.

(** Only the blocks an inode owns matter. *)
Lemma block_at_same B B' i (k : nat) : (forall n, n ∈ owned B i -> B' n = B n) -> block_at B' i k = block_at B i k.
Proof.
  intros Hs. unfold block_at. destruct (k <? 12)%nat; [done|]. destruct (Z.eqb_spec (i_block 12 i) 0) as [|E]; [done|].
  by rewrite (Hs (i_block 12 i)) by by apply indirect_owned.
Qed.

Lemma owned_same B B' i : (forall n, n ∈ owned B i -> B' n = B n) -> owned B' i = owned B i.
Proof.
  intros Hs. unfold owned. destruct (Z.eqb_spec (i_block 12 i) 0) as [|E]; [done|]. by rewrite (Hs (i_block 12 i)) by by apply indirect_owned.
Qed.

Lemma read_blocks_same (n : nat) B B' i (k : nat) : (forall n, n ∈ owned B i -> B' n = B n) -> read_blocks n B' i k = read_blocks n B i k.
Proof.
  intros Hs. revert k. induction n as [|n IH]; intros k; [done|]. cbn [read_blocks]. rewrite (block_at_same B B') by done.
  destruct (Z.eqb_spec (block_at B i k) 0) as [|E]; [done|]. rewrite IH, (Hs (block_at B i k)) by by apply block_at_owned. done.
Qed.

Lemma file_data_same B B' i : (forall n, n ∈ owned B i -> B' n = B n) -> file_data B' i = file_data B i.
Proof. intros Hs. unfold file_data. by rewrite (read_blocks_same _ B B'). Qed.

(** The data of a file that was laid out. *)
Lemma layout_block B i bl (k : nat) : layout B i bl -> (k < length bl)%nat -> block_at B i k = nth k bl 0.
Proof.
  intros [H1 H2 H3 H4] Hk. unfold block_at. destruct (Nat.ltb_spec k 12) as [Hlt|Hge].
  - pose proof (f_equal (lookup k) H1) as E. unfold direct in E. rewrite lookup_map_seq, decide_True in E by lia.
    rewrite lookup_app_l, lookup_take_lt in E by (rewrite ?length_take; lia). rewrite nth_lookup, <- E. done.
  - rewrite (proj2 (Z.eqb_neq _ _)) by (apply H3; lia). rewrite H2 by (apply H3; lia). unfold tail_entries.
    rewrite !nth_lookup, lookup_app_l, lookup_drop by (rewrite length_drop; lia). do 2 f_equal. lia.
Qed.

Lemma layout_read (n : nat) B i bl (k : nat) :
  layout B i bl -> Forall (fun x => x <> 0) bl -> (k + n <= length bl)%nat -> read_blocks n B i k = Some (contents B (take n (drop k bl))).
Proof.
  intros Hl Hnz. revert k. induction n as [|n IH]; intros k Hk; [done|]. cbn [read_blocks]. rewrite (layout_block B i bl) by (done || lia).
  destruct (lookup_lt_is_Some_2 bl k) as [x Hx]; [lia|]. rewrite nth_lookup, Hx. cbn [default from_option]. unfold id.
  rewrite (proj2 (Z.eqb_neq x 0)) by exact (Forall_lookup_1 _ _ _ _ Hnz Hx). rewrite IH by lia. cbn [option_map]. f_equal.
  rewrite (drop_S bl x k Hx). done.
Qed.

Lemma contents_length B bl : Forall (fun n => length (B n) = 4096%nat) bl -> length (contents B bl) = (4096 * length bl)%nat.
Proof. unfold contents. induction 1 as [|x bl Hx Hbl IH]; [done|]. cbn [map concat length]. rewrite length_app, Hx, IH. lia. Qed.

Lemma layout_data B i bl data (n : nat) :
  layout B i bl -> Forall (fun x => x <> 0) bl -> Forall (fun x => length (B x) = 4096%nat) bl ->
  contents B bl = data ++ replicate n 0 -> i_size i = Z.of_nat (length data) -> file_data B i = Some data.
Proof.
  intros Hl Hnz H4 Hc Hs. unfold file_data, blocks_of. rewrite Hs. pose proof (f_equal length Hc) as Hlen.
  rewrite contents_length, length_app, length_replicate in Hlen by done. set (m := Z.to_nat ((Z.of_nat (length data) + 4095) / 4096)).
  assert (m <= length bl /\ length data <= 4096 * m)%nat as [Hm Hd] by (unfold m; split; Z.div_mod_to_equations; lia).
  rewrite (layout_read m B i bl 0) by (done || lia). cbn [option_map]. rewrite drop_0, Nat2Z.id. f_equal.
  assert (contents B bl = contents B (take m bl) ++ contents B (drop m bl)) as Ec.
  { unfold contents. by rewrite <- concat_app, <- map_app, take_drop. }
  rewrite <- (take_app_le (contents B (take m bl)) (contents B (drop m bl))).
  - by rewrite <- Ec, Hc, take_app_length.
  - rewrite contents_length, length_take by (by apply Forall_take). lia.
Qed.

(** ** Names and paths *)

Definition dir_block B d : list Z := B (i_block 0 (inode B d)).

Definition find_name B d name : option Z :=
  if negb (is_dir (inode B d)) || (i_block 0 (inode B d) =? 0) then None
  else match find_record RECORDS (dir_block B d) name 0 with Ok r => r | _ => None end.

Fixpoint resolve (fuel : nat) B (cur : Z) p : option Z :=
  match fuel with
  | O => None
  | S fuel =>
    match skip_slashes (after p) with
    | [] => find_name B cur (component p)
    | rest => match find_name B cur (component p) with Some next => resolve fuel B next rest | None => None end
    end
  end.

(** The inode a path leads to. *)
Definition lookup_path B (path : list Z) : option Z :=
  match skip_slashes path with [] => Some ROOT_INO | p => resolve (length p) B ROOT_INO p end.

(** ** The invariant of a volume *)

(** A directory has one block, a chain of records for inodes in use. *)
Record dir_ok B d : Prop := {
  dir_one : i_block 12 (inode B d) = 0;
  dir_first : i_block 0 (inode B d) <> 0;
  dir_records : exists l, records (dir_block B d) 0 l /\ Forall (fun e => e.1 <> 0 -> ino_ok e.1 /\ iused B e.1 = true) l
}.

Record fs_ok B : Prop := {
  fs_blocks : blocks_ok B;
  fs_owned : forall ino n, ino_ok ino -> n ∈ owned B (inode B ino) -> FIRST_DATA <= n < NB /\ bused B n = true;
  fs_apart : forall ino ino' n, ino_ok ino -> ino_ok ino' -> ino <> ino' -> n ∈ owned B (inode B ino) -> n ∉ owned B (inode B ino');
  fs_free : forall ino, ino_ok ino -> iused B ino = false -> inode B ino = zero_inode;
  fs_dirs : forall ino, ino_ok ino -> is_dir (inode B ino) = true -> dir_ok B ino;
  fs_root : is_dir (inode B ROOT_INO) = true /\ iused B ROOT_INO = true
}.

(** [B'] keeps what was in [B]: every name, every directory and every file but those in [X]. *)
Record keeps (X : Z -> Prop) B B' : Prop := {
  k_find : forall d name n, ino_ok d -> find_name B d name = Some n -> find_name B' d name = Some n;
  k_dir : forall ino, ino_ok ino -> is_dir (inode B ino) = true -> is_dir (inode B' ino) = true;
  k_used : forall ino, ino_ok ino -> iused B ino = true -> iused B' ino = true;
  k_file : forall ino, ino_ok ino -> iused B ino = true -> is_dir (inode B ino) = false -> ~ X ino ->
    inode B' ino = inode B ino /\ file_data B' (inode B ino) = file_data B (inode B ino)
}.

Definition none (ino : Z) : Prop := False.

Lemma keeps_trans X B1 B2 B3 : keeps X B1 B2 -> keeps X B2 B3 -> keeps X B1 B3.
Proof.
  intros [F1 D1 U1 K1] [F2 D2 U2 K2]. constructor; [by auto..|]. intros ino Hi Hu Hd Hx. destruct (K1 ino Hi Hu Hd Hx) as [E1 E2].
  destruct (K2 ino Hi (U1 ino Hi Hu)) as [E3 E4]; [by rewrite E1|done|]. rewrite E1 in E3, E4. by rewrite E3, E4, E2.
Qed.

Lemma keeps_weaken (X Y : Z -> Prop) B B' : keeps X B B' -> (forall ino, X ino -> Y ino) -> keeps Y B B'.
Proof. intros [F1 D1 U1 K1] Hxy. constructor; auto. Qed.

Lemma keeps_refl X B : keeps X B B.
Proof. by constructor. Qed.

(** Looking a name up. *)
Lemma find_name_assoc B d name l :
  is_dir (inode B d) = true -> i_block 0 (inode B d) <> 0 -> block_ok (dir_block B d) -> records (dir_block B d) 0 l -> find_name B d name = assoc name l.
Proof.
  intros Hd Hz Hb Hr. unfold find_name. rewrite Hd, (proj2 (Z.eqb_neq _ _)) by done. cbn [negb orb].
  by rewrite (find_record_ok _ name RECORDS 0 l Hr Hb) by (unfold RECORDS; vm_compute; lia).
Qed.

Lemma assoc_in name l n : assoc name l = Some n -> n <> 0 /\ exists nm, (n, nm) ∈ l.
Proof.
  induction l as [|[m nm] l IH]; [done|]. cbn [assoc]. destruct (negb (m =? 0) && bool_decide (nm = name)) eqn:E.
  - intros [= ->]. apply andb_true_iff in E as [?%negb_true_iff%Z.eqb_neq _]. split; [done|]. exists nm. by left.
  - intros Ha. destruct (IH Ha) as [? [nm' ?]]. split; [done|]. exists nm'. by right.
Qed.

Lemma dir_block_ok B d : fs_ok B -> ino_ok d -> is_dir (inode B d) = true -> block_ok (dir_block B d) /\ FIRST_DATA <= i_block 0 (inode B d) < NB.
Proof.
  intros Hfs Hd Hdir. destruct (fs_owned _ Hfs d (i_block 0 (inode B d)) Hd) as [Hr _].
  { apply first_owned. by apply (fs_dirs _ Hfs). }
  split; [|done]. apply (fs_blocks _ Hfs). unfold FIRST_DATA in Hr. lia.
Qed.

Lemma find_name_ok B d name n : fs_ok B -> ino_ok d -> find_name B d name = Some n -> n <> 0 /\ ino_ok n /\ iused B n = true.
Proof.
  intros Hfs Hd Hf. assert (is_dir (inode B d) = true) as Hdir by (unfold find_name in Hf; by destruct (is_dir (inode B d))).
  destruct (fs_dirs _ Hfs d Hd Hdir) as [_ Hz (l & Hr & Hl)]. rewrite (find_name_assoc B d name l) in Hf; try done; [|by apply dir_block_ok].
  apply assoc_in in Hf as [Hn [nm Hin]]. split; [done|]. rewrite Forall_forall in Hl. by apply (Hl _ Hin).
Qed.

(** ** Changing one inode *)

(** [B'] is [B] but for the inode [ino] and its blocks. *)
Record replaces B ino B' : Prop := {
  re_blocks : blocks_ok B';
  re_ino : ino_ok ino /\ iused B' ino = true;
  re_others : forall j, ino_ok j -> j <> ino -> inode B' j = inode B j;
  re_used : forall j, ino_ok j -> iused B j = true -> iused B' j = true;
  re_same : forall j n, ino_ok j -> j <> ino -> n ∈ owned B (inode B j) -> B' n = B n /\ bused B' n = true;
  re_owned : forall n, n ∈ owned B' (inode B' ino) ->
    FIRST_DATA <= n < NB /\ bused B' n = true /\ forall j, ino_ok j -> j <> ino -> n ∉ owned B (inode B j);
  re_dir : is_dir (inode B' ino) = true -> dir_ok B' ino;
  re_kept : is_dir (inode B ino) = true ->
    is_dir (inode B' ino) = true /\ forall name n, find_name B ino name = Some n -> find_name B' ino name = Some n
}.

Section replaces.
Context B ino B' (Hfs : fs_ok B) (Hre : replaces B ino B').

Lemma other_owned j : ino_ok j -> j <> ino -> owned B' (inode B' j) = owned B (inode B j).
Proof. intros Hj Hne. rewrite (re_others _ _ _ Hre j Hj Hne). apply owned_same. intros n Hn. by apply (re_same _ _ _ Hre j). Qed.

Lemma other_dir j : ino_ok j -> j <> ino -> is_dir (inode B j) = true -> dir_block B' j = dir_block B j.
Proof.
  intros Hj Hne Hd. unfold dir_block. rewrite (re_others _ _ _ Hre j Hj Hne). apply (re_same _ _ _ Hre j); [done|done|].
  apply first_owned. by apply (fs_dirs _ Hfs).
Qed.

Lemma other_find j name : ino_ok j -> j <> ino -> find_name B' j name = find_name B j name.
Proof.
  intros Hj Hne. unfold find_name. destruct (is_dir (inode B j)) eqn:Hd; rewrite (re_others _ _ _ Hre j Hj Hne), Hd; cbn [negb orb]; [|done].
  by rewrite (other_dir j).
Qed.

Lemma replaces_ok : fs_ok B'.
Proof.
  destruct (re_ino _ _ _ Hre) as [Hi Hu]. constructor.
  - apply (re_blocks _ _ _ Hre).
  - intros j n Hj Hn. destruct (decide (j = ino)) as [->|Hne]; [by destruct (re_owned _ _ _ Hre n Hn) as (? & ? & _)|].
    rewrite (other_owned j Hj Hne) in Hn. split; [by apply (fs_owned _ Hfs j)|by apply (re_same _ _ _ Hre j)].
  - intros j j' n Hj Hj' Hne Hn Hn'. destruct (decide (j = ino)) as [->|H1]; [|destruct (decide (j' = ino)) as [->|H2]].
    + rewrite (other_owned j' Hj') in Hn' by done. destruct (re_owned _ _ _ Hre n Hn) as (_ & _ & Ho). by apply (Ho j').
    + rewrite (other_owned j Hj) in Hn by done. destruct (re_owned _ _ _ Hre n Hn') as (_ & _ & Ho). by apply (Ho j).
    + rewrite (other_owned j Hj), (other_owned j' Hj') in * by done. by apply (fs_apart _ Hfs j j' n).
  - intros j Hj Hf. destruct (decide (j = ino)) as [->|Hne]; [congruence|]. rewrite (re_others _ _ _ Hre) by done. apply (fs_free _ Hfs); [done|].
    destruct (iused B j) eqn:E; [|done]. by rewrite (re_used _ _ _ Hre) in Hf.
  - intros j Hj Hd. destruct (decide (j = ino)) as [->|Hne]; [by apply (re_dir _ _ _ Hre)|].
    rewrite (re_others _ _ _ Hre) in Hd by done. destruct (fs_dirs _ Hfs j Hj Hd) as [H1 H2 (l & H3 & H4)].
    constructor; rewrite ?(re_others _ _ _ Hre) by done; [done|done|]. exists l. rewrite (other_dir j) by done. split; [done|].
    eapply Forall_impl; [exact H4|]. intros e He Hz. destruct (He Hz) as [? ?]. split; [done|]. by apply (re_used _ _ _ Hre).
  - destruct (fs_root _ Hfs) as [H1 H2]. assert (ino_ok ROOT_INO) as Hroot by done. split; [|by apply (re_used _ _ _ Hre)].
    destruct (decide (ROOT_INO = ino)) as [E|E]; [rewrite E in *; by apply (re_kept _ _ _ Hre)|by rewrite (re_others _ _ _ Hre)].
Qed.

Lemma replaces_keeps : keeps (eq ino) B B'.
Proof.
  constructor.
  - intros d name n Hd Hf. destruct (decide (d = ino)) as [->|Hne]; [|by rewrite other_find].
    apply (re_kept _ _ _ Hre); [|done]. unfold find_name in Hf. by destruct (is_dir (inode B ino)).
  - intros j Hj Hd. destruct (decide (j = ino)) as [->|Hne]; [by apply (re_kept _ _ _ Hre)|by rewrite (re_others _ _ _ Hre)].
  - apply (re_used _ _ _ Hre).
  - intros j Hj Hu Hd Hx. assert (j <> ino) as Hne by congruence. split; [by apply (re_others _ _ _ Hre)|].
    apply file_data_same. intros n Hn. by apply (re_same _ _ _ Hre j).
Qed.
End replaces.

(** No file is lost when the inode was a directory or not in use. *)
Lemma replaces_keeps_none B ino B' : fs_ok B -> replaces B ino B' -> iused B ino = false \/ is_dir (inode B ino) = true -> keeps none B B'.
Proof.
  intros Hfs Hre Hor. destruct (replaces_keeps B ino B' Hfs Hre) as [F D U K]. constructor; try done.
  intros j Hj Hu Hd _. apply K; try done. intros <-. destruct Hor; congruence.
Qed.

(** ** Changing no inode but those in [X] *)

Record frames (X : Z -> Prop) B B' : Prop := {
  fr_blocks : blocks_ok B';
  fr_inodes : forall j, ino_ok j -> ~ X j -> inode B' j = inode B j;
  fr_used : forall j, ino_ok j -> iused B j = true -> iused B' j = true;
  fr_same : forall j n, ino_ok j -> n ∈ owned B (inode B j) -> B' n = B n /\ bused B' n = true
}.

Lemma frames_replaces B B' : fs_ok B -> frames none B B' -> replaces B ROOT_INO B'.
Proof.
  intros Hfs [H1 H2' H3 H4]. assert (ino_ok ROOT_INO) as Hroot by done. destruct (fs_root _ Hfs) as [Hd Hu].
  assert (forall j, ino_ok j -> inode B' j = inode B j) as H2 by (intros j Hj; apply H2'; [done|intros []]).
  destruct (fs_dirs _ Hfs _ Hroot Hd) as [D1 D2 (l & D3 & D4)].
  assert (dir_block B' ROOT_INO = dir_block B ROOT_INO) as Eb.
  { unfold dir_block. rewrite H2 by done. apply (H4 ROOT_INO); [done|]. by apply first_owned. }
  constructor; try done.
  - split; [done|]. by apply H3.
  - intros j Hj _. by apply H2.
  - intros j n Hj _. by apply H4.
  - rewrite H2 by done. rewrite (owned_same B B') by (intros n Hn; by apply (H4 ROOT_INO)). intros n Hn.
    destruct (fs_owned _ Hfs _ n Hroot Hn) as [? _]. split; [done|]. split; [by apply (H4 ROOT_INO)|]. intros j Hj Hne. by apply (fs_apart _ Hfs ROOT_INO j).
  - intros _. constructor; rewrite ?H2 by done; [done|done|]. exists l. rewrite Eb. split; [done|]. eapply Forall_impl; [exact D4|].
    intros e He Hz. destruct (He Hz). split; [done|]. by apply H3.
  - intros _. rewrite H2 by done. split; [done|]. intros name n. unfold find_name. by rewrite H2, Eb.
Qed.

Lemma frames_ok B B' : fs_ok B -> frames none B B' -> fs_ok B' /\ keeps none B B'.
Proof.
  intros Hfs Hf. pose proof (frames_replaces B B' Hfs Hf) as Hre. split; [by eapply replaces_ok|]. eapply replaces_keeps_none; [done|done|].
  right. apply (fs_root _ Hfs).
Qed.

Lemma inode_frame B B' j : ino_ok j -> (forall n, INODE_TABLE <= n < FIRST_DATA -> B' n = B n) -> inode B' j = inode B j.
Proof. intros Hj Hs. unfold inode. rewrite Hs; [done|]. by apply inode_place. Qed.

Section frames.
Context (X : Z -> Prop) B B1 (Hfs : fs_ok B) (Hfr : frames X B B1).

Lemma fr_range j n : ino_ok j -> n ∈ owned B (inode B j) -> FIRST_DATA <= n < NB.
Proof. intros Hj Hn. by apply (fs_owned _ Hfs j). Qed.

(** Taking blocks and giving them back. *)
Lemma fr_step (new : list Z) B2 :
  blocks_ok B2 -> (forall n, 3 <= n < NB -> n ∉ new -> B2 n = B1 n) -> (forall n, n ∈ new -> FIRST_DATA < n < NB /\ bused B1 n = false) ->
  (forall n, 0 <= n < NB -> bused B1 n = true -> bused B2 n = true) -> frames X B B2.
Proof.
  intros Hok Hs Hn Hu. destruct Hfr as [H1 H2 H3 H4]. unfold FIRST_DATA, NB in *.
  assert (forall n, 3 <= n < FIRST_DATA -> B2 n = B1 n) as Hlow.
  { unfold FIRST_DATA. intros n Hr. apply Hs; [lia|]. intros [? _]%Hn. lia. }
  constructor; try done.
  - intros j Hj Hx. rewrite <- H2 by done. apply inode_frame; [done|]. intros n Hr. apply Hlow. unfold INODE_TABLE in Hr. lia.
  - intros j Hj Hu'. unfold iused. rewrite Hlow by (unfold INODE_BITMAP, FIRST_DATA; lia). by apply H3.
  - intros j n Hj Hno. destruct (H4 j n Hj Hno) as [E1 E2]. pose proof (fr_range j n Hj Hno) as Hr. unfold FIRST_DATA, NB in Hr. split.
    + rewrite <- E1. apply Hs; [lia|]. intros [_ ?]%Hn. congruence.
    + apply Hu; [lia|done].
Qed.

Lemma fr_grows (new : list Z) B2 : grows B1 new B2 -> frames X B B2.
Proof. intros [Hs Hu Hn Hd Hok]. apply (fr_step new); try done. intros n Hr E. by rewrite Hu, E. Qed.

Lemma fr_undone (new : list Z) B2 : undone B1 new B2 -> frames X B B2.
Proof. intros [Hs Hu Hn Hok]. apply (fr_step new); try done. intros n Hr E. by rewrite Hu. Qed.

(** The bitmap of inodes. *)
Lemma fr_inode_bit b :
  block_ok b -> (forall j, ino_ok j -> iused B j = true -> bit_set b (j - 1) = true) -> frames X B (bset INODE_BITMAP b B1).
Proof.
  intros Hb Hu. destruct Hfr as [H1 H2 H3 H4]. unfold INODE_BITMAP. constructor.
  - by apply bset_ok.
  - intros j Hj Hx. rewrite <- H2 by done. apply inode_frame; [done|]. intros n Hr. apply bset_ne. unfold INODE_TABLE in Hr. lia.
  - intros j Hj Hu'. unfold iused, INODE_BITMAP. rewrite bset_eq. by apply Hu.
  - intros j n Hj Hno. pose proof (fr_range j n Hj Hno) as Hr. unfold FIRST_DATA in Hr. rewrite bset_ne by lia. unfold bused, BLOCK_BITMAP.
    rewrite bset_ne by lia. by apply (H4 j).
Qed.

Lemma fr_bitmap_ok : block_ok (B1 INODE_BITMAP).
Proof. apply (fr_blocks _ _ _ Hfr). by unfold INODE_BITMAP, NB. Qed.

Lemma ino_bit j : ino_ok j -> 0 <= j - 1 < 32768.
Proof. unfold ino_ok, INODES. lia. Qed.

Lemma fr_mark ino : ino_ok ino -> frames X B (bset INODE_BITMAP (mark_bit (ino - 1) (B1 INODE_BITMAP)) B1).
Proof.
  intros Hi. pose proof fr_bitmap_ok as Hb. apply fr_inode_bit; [by apply mark_block|]. intros j Hj Hu. pose proof (ino_bit _ Hi). pose proof (ino_bit _ Hj).
  rewrite bit_set_mark by (done || lia). apply orb_true_iff. right. by apply (fr_used _ _ _ Hfr).
Qed.

Lemma fr_unmark ino : ino_ok ino -> iused B ino = false -> frames X B (bset INODE_BITMAP (clear_bit (ino - 1) (B1 INODE_BITMAP)) B1).
Proof.
  intros Hi Hf. pose proof fr_bitmap_ok as Hb. apply fr_inode_bit; [by apply clear_block|]. intros j Hj Hu. pose proof (ino_bit _ Hi). pose proof (ino_bit _ Hj).
  rewrite bit_set_clear by (done || lia). rewrite (proj2 (Z.eqb_neq _ _)); [by apply (fr_used _ _ _ Hfr)|]. intros E. assert (j = ino) by lia. congruence.
Qed.

(** The bitmap of blocks, for blocks nobody owns. *)
Lemma fr_clear (l : list Z) :
  (forall n, n ∈ l -> FIRST_DATA <= n < NB /\ forall j, ino_ok j -> n ∉ owned B (inode B j)) ->
  frames X B (bset BLOCK_BITMAP (clear_bits l (B1 BLOCK_BITMAP)) B1).
Proof.
  intros Hl. destruct Hfr as [H1 H2 H3 H4]. unfold BLOCK_BITMAP. assert (block_ok (B1 2)) as Hb by (apply H1; by unfold NB). constructor.
  - apply bset_ok; [done|]. by apply clear_bits_ok.
  - intros j Hj Hx. rewrite <- H2 by done. apply inode_frame; [done|]. intros n Hr. apply bset_ne. unfold INODE_TABLE in Hr. lia.
  - intros j Hj Hu. unfold iused, INODE_BITMAP. rewrite bset_ne by lia. by apply H3.
  - intros j n Hj Hno. pose proof (fr_range j n Hj Hno) as Hr. unfold FIRST_DATA, NB in *. rewrite bset_ne by lia. destruct (H4 j n Hj Hno) as [E1 E2].
    split; [done|]. unfold bused, BLOCK_BITMAP in *. rewrite bset_eq, bit_set_clear_bits; [|apply Forall_forall; intros x [? _]%Hl; lia|lia|done].
    rewrite E2, bool_decide_eq_false_2; [done|]. intros [_ Ho]%Hl. by apply (Ho j).
Qed.

Lemma fr_put ino i : ino_ok ino -> inode_ok i -> X ino -> frames X B (put_inode ino i B1).
Proof.
  intros Hi [Hil Hiu] Hx. destruct Hfr as [H1 H2 H3 H4]. destruct (inode_place ino Hi) as [Hr _]. unfold INODE_TABLE, FIRST_DATA in Hr.
  assert (block_ok (B1 (inode_block ino))) as Hb by (apply H1; unfold NB; lia). constructor.
  - apply bset_ok; [done|]. by apply wtext_block.
  - intros j Hj Hne. rewrite inode_put_other; [by apply H2|done|done|done|intros ->; done|done].
  - intros j Hj Hu. unfold iused, INODE_BITMAP, put_inode. rewrite bset_ne by lia. by apply H3.
  - intros j n Hj Hno. pose proof (fr_range j n Hj Hno) as Hr'. unfold FIRST_DATA in *. unfold put_inode, bused, BLOCK_BITMAP.
    rewrite !bset_ne by lia. by apply (H4 j).
Qed.
End frames.

Lemma frames_refl X B : fs_ok B -> frames X B B.
Proof. intros Hfs. constructor; [apply Hfs|done|done|]. intros j n Hj Hn. split; [done|]. by apply (fs_owned _ Hfs j). Qed.

Lemma frames_weaken (X Y : Z -> Prop) B B' : frames X B B' -> (forall j, X j -> Y j) -> frames Y B B'.
Proof. intros [H1 H2 H3 H4] Hxy. constructor; auto. Qed.

Lemma frames_back ino B B' : frames (eq ino) B B' -> inode B' ino = inode B ino -> frames none B B'.
Proof.
  intros [H1 H2 H3 H4] E. constructor; try done. intros j Hj _. destruct (decide (ino = j)) as [->|Hne]; [done|]. by apply H2.
Qed.

(** Paths keep leading where they led. *)
Lemma keeps_resolve X B B' (fuel : nat) cur p n : fs_ok B -> keeps X B B' -> ino_ok cur -> resolve fuel B cur p = Some n -> resolve fuel B' cur p = Some n.
Proof.
  intros Hfs Hk. revert cur p. induction fuel as [|fuel IH]; intros cur p Hc; [done|]. cbn [resolve].
  destruct (skip_slashes (after p)) as [|c rest]; [by apply (k_find _ _ _ Hk)|].
  destruct (find_name B cur (component p)) as [next|] eqn:E; [|done]. rewrite (k_find _ _ _ Hk _ _ _ Hc E). apply IH. by eapply find_name_ok.
Qed.

Lemma keeps_path X B B' path n : fs_ok B -> keeps X B B' -> lookup_path B path = Some n -> lookup_path B' path = Some n.
Proof. intros Hfs Hk. unfold lookup_path. destruct (skip_slashes path); [done|]. by apply (keeps_resolve X). Qed.

(** ** Storing an inode *)

Record inode_fits B ino i : Prop := {
  fit_ok : inode_ok i;
  fit_owned : forall n, n ∈ owned B i ->
    FIRST_DATA <= n < NB /\ bused B n = true /\ forall j, ino_ok j -> j <> ino -> n ∉ owned B (inode B j);
  fit_dir : is_dir i = true -> i_block 12 i = 0 /\ i_block 0 i <> 0 /\
    exists l, records (B (i_block 0 i)) 0 l /\ Forall (fun e => e.1 <> 0 -> ino_ok e.1 /\ iused B e.1 = true) l;
  fit_kept : is_dir (inode B ino) = true -> is_dir i = true /\ i_block 0 i = i_block 0 (inode B ino)
}.

Lemma put_low B ino i n : ino_ok ino -> n < INODE_TABLE \/ FIRST_DATA <= n -> put_inode ino i B n = B n.
Proof. intros Hi Hor. destruct (inode_place ino Hi) as [Hr _]. unfold put_inode. apply bset_ne. lia. Qed.

Lemma put_replaces B ino i : fs_ok B -> ino_ok ino -> iused B ino = true -> inode_fits B ino i -> replaces B ino (put_inode ino i B).
Proof.
  intros Hfs Hi Hu [[Hl Hb] Ho Hd Hk]. assert (frames (eq ino) B (put_inode ino i B)) as [F1 F2 F3 F4] by (apply fr_put; [done|by apply frames_refl|done|done|done]).
  assert (block_ok (B (inode_block ino))) as Hib.
  { apply (fs_blocks _ Hfs). destruct (inode_place ino Hi) as [Hr _]. unfold INODE_TABLE, FIRST_DATA, NB in *. lia. }
  assert (inode (put_inode ino i B) ino = i) as E by (by apply inode_put_same).
  assert (forall n, n ∈ owned B i -> put_inode ino i B n = B n) as Hs by (intros n Hn; apply put_low; [done|]; right; by apply Ho).
  assert (i_block 0 i <> 0 -> put_inode ino i B (i_block 0 i) = B (i_block 0 i)) as H0 by (intros Hz; by apply Hs, first_owned).
  constructor; try done.
  - split; [done|]. by apply F3.
  - intros j Hj Hne. by apply F2; [|congruence].
  - intros j n Hj _. by apply F4.
  - rewrite E, (owned_same B) by done. intros n Hn. destruct (Ho n Hn) as (H1 & H2 & H3). split_and!; [lia|lia| |done].
    unfold bused. rewrite put_low; [done|done|]. left. by unfold BLOCK_BITMAP, INODE_TABLE.
  - rewrite E. intros Hdi. destruct (Hd Hdi) as (H1 & H2 & l & H3 & H4). constructor; rewrite ?E; try done. exists l. unfold dir_block. rewrite E, H0 by done. split; [done|].
    eapply Forall_impl; [exact H4|]. intros e He Hz. destruct (He Hz). split; [done|]. by apply F3.
  - intros Hdi. destruct (Hk Hdi) as [H1 H2]. rewrite E. split; [done|]. intros name n. unfold find_name, dir_block. rewrite E, Hdi, H1, H2. cbn [negb orb].
    destruct (Z.eqb_spec (i_block 0 (inode B ino)) 0) as [|Hz]; [done|]. by rewrite <- H2, H0, H2 by congruence.
Qed.

(** ** Adding a name *)

Lemma add_replaces B d name n b l1 l2 :
  fs_ok B -> ino_ok d -> is_dir (inode B d) = true -> iused B d = true -> ino_ok n -> iused B n = true -> find_name B d name = None ->
  records (dir_block B d) 0 (l1 ++ l2) -> block_ok b -> records b 0 (l1 ++ (n, name) :: l2) ->
  let B' := bset (i_block 0 (inode B d)) b B in
  Forall (fun e => e.1 <> 0 -> ino_ok e.1 /\ iused B e.1 = true) (l1 ++ l2) ->
  replaces B d B' /\ inode B' d = inode B d /\ find_name B' d name = Some n.
Proof.
  intros Hfs Hd Hdir Hud Hn Hun Hnone Hr Hb Hr' B' Hl. destruct (fs_dirs _ Hfs d Hd Hdir) as [D1 D2 _]. destruct (dir_block_ok B d Hfs Hd Hdir) as [Hdb Hrg].
  unfold FIRST_DATA, NB in Hrg. set (x := i_block 0 (inode B d)) in *.
  assert (forall k, k < FIRST_DATA -> B' k = B k) as Hlow by (unfold FIRST_DATA; intros k Hk; unfold B'; apply bset_ne; lia).
  assert (forall j, ino_ok j -> inode B' j = inode B j) as Hin by (intros j Hj; apply inode_frame; [done|]; intros k Hk; apply Hlow; lia).
  assert (x ∈ owned B (inode B d)) as Hxo by by apply first_owned.
  assert (forall j k, ino_ok j -> j <> d -> k ∈ owned B (inode B j) -> B' k = B k) as Hoth.
  { intros j k Hj Hne Hk. unfold B'. apply bset_ne. intros ->. by apply (fs_apart _ Hfs j d x). }
  assert (owned B' (inode B d) = owned B (inode B d)) as Eo by (unfold owned; by rewrite D1).
  assert (forall k, bused B' k = bused B k) as Hbu by (intros k; unfold bused; by rewrite Hlow by (unfold BLOCK_BITMAP, FIRST_DATA; lia)).
  assert (forall k, iused B' k = iused B k) as Hiu by (intros k; unfold iused; by rewrite Hlow by (unfold INODE_BITMAP, FIRST_DATA; lia)).
  assert (dir_block B' d = b) as Edb by (unfold dir_block; rewrite Hin by done; unfold B'; apply bset_eq).
  assert (forall name', find_name B' d name' = if bool_decide (name' = name) then Some n else find_name B d name') as Hfind.
  { intros name'. rewrite (find_name_assoc B' d name' (l1 ++ (n, name) :: l2)) by (rewrite ?Hin, ?Edb; done).
    rewrite (find_name_assoc B d name' (l1 ++ l2)) by done. apply assoc_insert; [|unfold ino_ok in Hn; lia].
    by rewrite (find_name_assoc B d name (l1 ++ l2)) in Hnone. }
  split; [|split; [by apply Hin|rewrite Hfind; by rewrite bool_decide_eq_true_2]]. constructor.
  - apply bset_ok; [apply Hfs|done].
  - by rewrite Hiu.
  - intros j Hj _. by apply Hin.
  - intros j Hj. by rewrite Hiu.
  - intros j k Hj Hne Hk. rewrite Hbu. split; [by apply (Hoth j)|by apply (fs_owned _ Hfs j)].
  - rewrite Hin, Eo by done. intros k Hk. rewrite Hbu. destruct (fs_owned _ Hfs d k Hd Hk) as [? ?]. split_and!; try done; try lia.
    intros j Hj Hne. by apply (fs_apart _ Hfs d j).
  - intros _. constructor; rewrite ?Hin by done; try done. exists (l1 ++ (n, name) :: l2). rewrite Edb. split; [done|].
    apply Forall_app in Hl as [? ?]. apply Forall_app. split; [|constructor]; [|by cbn; rewrite Hiu|]; (eapply Forall_impl; [done|]); intros e He Hz; by rewrite Hiu; apply He.
  - intros _. rewrite Hin by done. split; [done|]. intros name' m Hf. rewrite Hfind. case_bool_decide; [congruence|done].
Qed.

(** ** Blocks that were taken belong to nobody yet *)

Lemma frames_owned X B B' j : frames X B B' -> ino_ok j -> ~ X j -> owned B' (inode B' j) = owned B (inode B j).
Proof. intros Hf Hj Hx. rewrite (fr_inodes _ _ _ Hf) by done. apply owned_same. intros n Hn. by apply (fr_same _ _ _ Hf j). Qed.

Lemma frames_find B B' j name : fs_ok B -> frames none B B' -> ino_ok j -> find_name B' j name = find_name B j name.
Proof.
  intros Hfs Hf Hj. unfold find_name, dir_block. rewrite (fr_inodes _ _ _ Hf) by (done || intros []). destruct (is_dir (inode B j)) eqn:Hd; cbn [negb orb]; [|done].
  destruct (Z.eqb_spec (i_block 0 (inode B j)) 0) as [|Hz]; [done|]. destruct (fr_same _ _ _ Hf j (i_block 0 (inode B j)) Hj) as [-> _]; [by apply first_owned|done].
Qed.

Lemma grows_unowned B (new : list Z) B' n j : fs_ok B -> grows B new B' -> n ∈ new -> ino_ok j -> n ∉ owned B' (inode B' j).
Proof.
  intros Hfs Hg Hn Hj Hno. assert (frames none B B') as Hf by (eapply fr_grows; [done|by apply frames_refl|done]).
  rewrite (frames_owned none B B') in Hno by (done || intros []). destruct (fs_owned _ Hfs j n Hj Hno) as [_ Hu]. destruct (g_new _ _ _ Hg n Hn) as [_ ?]. congruence.
Qed.

Lemma grows_used B (new : list Z) B' n : grows B new B' -> n ∈ new -> FIRST_DATA <= n < NB /\ bused B' n = true.
Proof.
  intros Hg Hn. destruct (g_new _ _ _ Hg n Hn) as [Hr _]. unfold FIRST_DATA in *. split; [lia|]. rewrite (g_used _ _ _ Hg) by lia.
  rewrite bool_decide_eq_true_2 by done. apply orb_true_r.
Qed.

Lemma frames_dir_block B B' j : fs_ok B -> frames none B B' -> ino_ok j -> is_dir (inode B j) = true -> dir_block B' j = dir_block B j.
Proof.
  intros Hfs Hf Hj Hd. unfold dir_block. rewrite (fr_inodes _ _ _ Hf) by (done || intros []). apply (fr_same _ _ _ Hf j); [done|]. apply first_owned. by apply (fs_dirs _ Hfs).
Qed.
