(* ===== verification/Ext2Ops.v ===== *)
(** * The operations on a volume that satisfies the invariant: lemmas

    Directories are searched and extended, paths are walked with and without
    creating directories, files are read: each operation returns, and what it
    does to names and files is stated by [keeps] and [find_name]. *)

From stdpp Require Import base numbers list strings.
From Stdlib Require Import ZArith Lia.
From S2P Require Import Prelude Effects Mini64Fat Mini64FatProof Ext2 Ext2Blocks Ext2Dir Ext2Files Ext2Tree.

Implicit Types (B : Z -> list Z) (i : inode_t) (bl name p : list Z) (ino : Z) (l : list (Z * list Z)).

(** ** The first block of a directory *)

Lemma r16_w8_ne o o' v b : o' <> o -> (o' + 1)%nat <> o -> (o < length b)%nat -> r16 (w8 o v b) o' = r16 b o'.
Proof. intros H1 H2 Hl. apply r16_ext; rewrite byte_at_w8 by done; by rewrite decide_False by done. Qed.

Lemma r32_w8_ne o o' v b : (o < o' \/ o' + 4 <= o)%nat -> (o < length b)%nat -> r32 (w8 o v b) o' = r32 b o'.
Proof. intros Ho Hl. apply r32_ext. intros k Hk. rewrite byte_at_w8 by done. rewrite decide_False by lia. done. Qed.

Lemma r32_w16_ne o o' v b : (o + 2 <= o' \/ o' + 4 <= o)%nat -> (o + 2 <= length b)%nat -> r32 (w16 o v b) o' = r32 b o'.
Proof. intros Ho Hl. apply r32_ext. intros k Hk. by rewrite byte_at_w16_ne by lia. Qed.

Lemma byte_at_w32_ne o v b k : (k < o \/ o + 4 <= k)%nat -> (o + 4 <= length b)%nat -> byte_at (w32 o v b) k = byte_at b k.
Proof. intros Ho Hl. unfold w32. by rewrite !byte_at_w16_ne by (rewrite ?w16_length; lia). Qed.

Lemma r16_w32_ne o o' v b : (o + 4 <= o' \/ o' + 2 <= o)%nat -> (o + 4 <= length b)%nat -> r16 (w32 o v b) o' = r16 b o'.
Proof. intros Ho Hl. apply r16_ext; apply byte_at_w32_ne; lia. Qed.

Lemma first_records_block ino par : block_ok (first_records ino par).
Proof. unfold first_records. auto 15 with os64. Qed.

(** Side conditions about the bytes of a block built from zeros. *)
Ltac in_block :=
  lazymatch goal with
  | |- Forall is_u8 _ => repeat first [apply w8_bytes | apply w16_bytes | apply w32_bytes]; apply zero_block
  | _ => autorewrite with bytes; change (length (zero (Z.to_nat BS))) with 4096%nat; lia
  end.

Ltac byte_of := rewrite ?byte_at_w8 by in_block; rewrite ?decide_False by lia; rewrite ?decide_True by lia.

Lemma first_records_fields ino par : is_u32 ino -> is_u32 par -> let b := first_records ino par in
  (rec_ino b 0 = ino /\ rec_len b 0 = 12 /\ name_len b 0 = 1) /\ rec_ino b 12 = par /\ rec_len b 12 = 4084 /\ name_len b 12 = 2.
Proof.
  intros Hi Hp b. unfold rec_ino, rec_len, name_len, b, first_records. change (Z.to_nat 0) with 0%nat. change (Z.to_nat 12) with 12%nat. cbn [Nat.add].
  split_and!.
  - rewrite !r32_w8_ne, r32_w16_ne, r32_w32_ne, !r32_w8_ne, r32_w16_ne, r32_w32 by in_block. by apply Z.mod_small.
  - rewrite !r16_w8_ne, r16_w16_ne, r16_w32_ne, !r16_w8_ne, r16_w16 by in_block. done.
  - byte_of. rewrite byte_at_w16_ne, byte_at_w32_ne by in_block. byte_of. done.
  - rewrite !r32_w8_ne, r32_w16_ne, r32_w32 by in_block. by apply Z.mod_small.
  - rewrite !r16_w8_ne, r16_w16 by in_block. done.
  - byte_of. done.
Qed.

Lemma take_bytes b (o : nat) : (o + 2 <= length b)%nat -> take 2 (drop o b) = [byte_at b o; byte_at b (o + 1)] /\ take 1 (drop o b) = [byte_at b o].
Proof.
  intros Hl. destruct (lookup_lt_is_Some_2 b o) as [x Hx]; [lia|]. destruct (lookup_lt_is_Some_2 b (o + 1)) as [y Hy]; [lia|].
  unfold byte_at. rewrite !nth_lookup, Hx, Hy. rewrite (drop_S b x o Hx), (drop_S b y (S o)) by (by rewrite <- Nat.add_1_r). done.
Qed.

(** The names [.] and [..]. *)
Definition dots name : bool := bool_decide (name = [46]) || bool_decide (name = [46; 46]).

Lemma first_records_ok ino par : is_u32 ino -> is_u32 par -> records (first_records ino par) 0 [(ino, [46]); (par, [46; 46])].
Proof.
  intros Hi Hp. destruct (first_records_fields ino par Hi Hp) as ((E1 & E2 & E3) & E4 & E5 & E6). destruct (first_records_block ino par) as [Hl _].
  set (b := first_records ino par) in *. assert (byte_at b 8 = 46 /\ byte_at b 20 = 46 /\ byte_at b 21 = 46) as (B1 & B2 & B3).
  { unfold b, first_records. split_and!; byte_of; done. }
  assert (rec_name b 0 = [46]) as N1.
  { unfold rec_name. rewrite E3. change (take 1 (drop 8 b) = [46]). rewrite (proj2 (take_bytes b 8 ltac:(lia))). by rewrite B1. }
  assert (rec_name b 12 = [46; 46]) as N2.
  { unfold rec_name. rewrite E6. change (take 2 (drop 20 b) = [46; 46]). rewrite (proj1 (take_bytes b 20 ltac:(lia))). change (20 + 1)%nat with 21%nat. by rewrite B2, B3. }
  assert ([(ino, [46]); (par, [46; 46])] = [(rec_ino b 0, rec_name b 0); (rec_ino b 12, rec_name b 12)]) as -> by (by rewrite E1, E4, N1, N2).
  apply records_next; rewrite ?E2, ?E3; try done. change (0 + 12) with 12.
  apply records_next; rewrite ?E5, ?E6; try done. constructor.
Qed.

(** ** Inodes as they are built *)

Lemma zero_inode_ok : inode_ok zero_inode.
Proof. split; [done|]. apply Forall_replicate. unfold is_u8. lia. Qed.

Lemma zero_inode_fields : is_dir zero_inode = false /\ forall B, owned B zero_inode = [].
Proof. by split. Qed.

Lemma clear_blocks_ok i : inode_ok i -> inode_ok (clear_blocks i) /\ same_meta i (clear_blocks i) /\ forall k, (k < 15)%nat -> i_block k (clear_blocks i) = 0.
Proof.
  intros Hi. unfold clear_blocks.
  assert (forall ks : list nat, Forall (fun k => k < 15)%nat ks -> forall i, inode_ok i -> let i' := fold_left (fun i k => set_block k 0 i) ks i in
    inode_ok i' /\ same_meta i i' /\ forall k, (k < 15)%nat -> i_block k i' = if decide (k ∈ ks) then 0 else i_block k i) as Hg.
  { intros ks Hks. induction Hks as [|k ks Hk Hks IH]; intros i0 Hi0; [done|]. cbn [fold_left]. destruct (IH (set_block k 0 i0)) as (H1 & H2 & H3); [by apply set_block_ok|].
    split; [done|]. split; [eapply meta_trans; [by apply meta_set_block|done]|]. intros j Hj. rewrite H3 by done.
    destruct (decide (j ∈ ks)) as [Hin|Hin]; [by rewrite decide_True by (by right)|]. rewrite i_block_set by (done || unfold is_u32; lia).
    destruct (decide (j = k)) as [->|Hne]; [by rewrite decide_True by (by left)|]. rewrite decide_False; [done|]. intros [?|?]%elem_of_cons; done. }
  destruct (Hg (seq 0 15)) with (i := i) as (H1 & H2 & H3); [|done|].
  { apply Forall_forall. intros k Hk%elem_of_seq. lia. }
  split; [done|]. split; [done|]. intros k Hk. rewrite H3 by done. rewrite decide_True; [done|]. apply elem_of_seq. lia.
Qed.

(** What a store starts with: no blocks, and the size of the data. *)
Lemma start_inode i n : inode_ok i -> (forall k, (k < 15)%nat -> i_block k i = 0) -> is_u32 n ->
  let i' := set_blocks 0 (set_size n i) in
  inode_ok i' /\ (forall k, (k < 15)%nat -> i_block k i' = 0) /\ i_size i' = n /\ i_mode i' = i_mode i /\ i_uid i' = i_uid i /\ i_gid i' = i_gid i.
Proof.
  intros [Hl Hu] Hk Hn i'. assert (inode_ok (set_size n i)) as Hs by (split; [unfold set_size; by rewrite w32_length|by apply w32_bytes]).
  split; [by apply set_blocks_ok|]. unfold i'. split.
  { intros k Hlt. rewrite i_block_blocks by done. unfold i_block, set_size, block_field. rewrite r32_w32_ne by lia. by apply Hk. }
  destruct Hs as [Hl' _]. unfold i_size, i_mode, i_uid, i_gid, set_blocks. split_and!.
  - rewrite r32_w32_ne by lia. unfold set_size. rewrite r32_w32 by (done || lia). by apply Z.mod_small.
  - rewrite r16_w32_ne by lia. unfold set_size. by rewrite r16_w32_ne by lia.
  - rewrite r16_w32_ne by lia. unfold set_size. by rewrite r16_w32_ne by lia.
  - rewrite r16_w32_ne by lia. unfold set_size. by rewrite r16_w32_ne by lia.
Qed.

Lemma file_mode m : Z.lor EXT2_FILE (Z.land m 0x1ff) = 0x8000 + m mod 512 /\ 0 <= m mod 512 < 512.
Proof.
  unfold EXT2_FILE. change 0x1ff with (Z.ones 9). rewrite Z.land_ones by lia. change (2 ^ 9) with 512. pose proof (Z.mod_pos_bound m 512).
  split; [|lia]. rewrite Z.lor_comm. change 0x8000 with (Z.shiftl 1 15) at 1. rewrite lor_shift by lia. lia.
Qed.

Lemma not_dir_mode i x : i_mode i = 0x8000 + x -> 0 <= x < 512 -> is_dir i = false.
Proof.
  intros E Hx. unfold is_dir. rewrite E. unfold z2b. apply negb_false_iff, Z.eqb_eq. apply Z.bits_inj'. intros k Hk. rewrite Z.land_spec, Z.bits_0.
  change EXT2_DIR with (2 ^ 14). destruct (decide (k = 14)) as [->|Hne]; [|rewrite (Z.pow2_bits_false 14) by lia; apply andb_false_r].
  rewrite andb_false_iff. left. apply Z.testbit_false; [lia|]. change (2 ^ 14) with 16384. Z.div_mod_to_equations. lia.
Qed.

Lemma new_file_ok m u g :
  let i := new_file m u g in
  inode_ok i /\ (forall k, (k < 15)%nat -> i_block k i = 0) /\ is_dir i = false /\
  i_mode i = 0x8000 + m mod 512 /\ i_uid i = u mod 2 ^ 16 /\ i_gid i = g mod 2 ^ 16.
Proof.
  intros i. destruct zero_inode_ok as [Hl Hu]. destruct (file_mode m) as [Em Hm].
  assert (i_mode i = 0x8000 + m mod 512) as E.
  { unfold i, i_mode, new_file, set_links, set_gid, set_uid, set_mode. rewrite !r16_w16_ne by (autorewrite with bytes; lia).
    rewrite r16_w16 by (done || lia). rewrite Em. apply Z.mod_small. lia. }
  split; [|split; [|split; [by eapply not_dir_mode|split; [done|split]]]].
  - split; [done|]. unfold i, new_file, set_links, set_gid, set_uid, set_mode. by repeat apply w16_bytes.
  - intros k Hk. unfold i, i_block, block_field, new_file, set_links, set_gid, set_uid, set_mode.
    rewrite !r32_w16_ne by (autorewrite with bytes; lia). apply zero_fields.
  - unfold i, i_uid, new_file, set_links, set_gid, set_uid, set_mode. rewrite !r16_w16_ne by (autorewrite with bytes; lia).
    apply r16_w16; [autorewrite with bytes; lia|by apply w16_bytes].
  - unfold i, i_gid, new_file, set_links, set_gid, set_uid, set_mode. rewrite !r16_w16_ne by (autorewrite with bytes; lia).
    apply r16_w16; [autorewrite with bytes; lia|by repeat apply w16_bytes].
Qed.

Lemma dir_inode_ok r : is_u32 r -> let i := dir_inode r in
  inode_ok i /\ is_dir i = true /\ i_block 0 i = r /\ i_block 12 i = 0 /\ direct i = r :: replicate 11 0.
Proof.
  intros Hr i. unfold i, dir_inode. set (i0 := set_blocks 8 _). assert (inode_ok i0) as Hi by (split; [done|]; unfold i0, set_blocks, set_size, set_links, set_mode; do 2 apply w32_bytes; do 2 apply w16_bytes; apply zero_inode_ok).
  split; [by apply set_block_ok|]. split; [unfold is_dir; rewrite (meta_mode i0) by (by apply meta_set_block; [lia|]); by vm_compute|].
  rewrite !i_block_set by (done || lia). split; [done|]. split; [by vm_compute|]. rewrite direct_set by (done || lia).
  assert (direct i0 = replicate 12 0) as -> by (by vm_compute). done.
Qed.

Lemma set_links_fields v i : inode_ok i ->
  inode_ok (set_links v i) /\ is_dir (set_links v i) = is_dir i /\ (forall k, (k < 15)%nat -> i_block k (set_links v i) = i_block k i) /\
  forall B, owned B (set_links v i) = owned B i.
Proof.
  intros [Hl Hu]. assert (forall k, (k < 15)%nat -> i_block k (set_links v i) = i_block k i) as Hk.
  { intros k Hk. unfold i_block, set_links, block_field. apply r32_w16_ne; lia. }
  split; [split; [unfold set_links; by rewrite w16_length|by apply w16_bytes]|]. split; [|split; [done|]].
  - unfold is_dir, i_mode, set_links. by rewrite r16_w16_ne by lia.
  - intros B. unfold owned. rewrite Hk, (direct_ext i) by (lia || (intros k Hlt; apply Hk; lia)). done.
Qed.

(** The inode of a new directory. *)
Lemma dir_fits B ino par r :
  fs_ok B -> ino_ok ino -> ino_ok par -> iused B ino = true -> iused B par = true -> is_dir (inode B ino) = false ->
  FIRST_DATA < r < NB -> bused B r = true -> (forall j, ino_ok j -> r ∉ owned B (inode B j)) -> B r = first_records ino par ->
  inode_fits B ino (dir_inode r).
Proof.
  intros Hfs Hi Hp Hui Hup Hnd Hr Hbr Hno Hb. destruct (dir_inode_ok r (is_u32_block r Hr)) as (H1 & H2 & H3 & H4 & H5). unfold FIRST_DATA in Hr.
  assert (forall ino, ino_ok ino -> is_u32 ino) as Hu32 by (unfold ino_ok, INODES, is_u32; lia). constructor; [done| | |by rewrite Hnd].
  - intros n Hn. unfold owned in Hn. rewrite H4, H5 in Hn. cbn [nz List.filter] in Hn. rewrite (proj2 (Z.eqb_neq _ _)) in Hn by lia. cbn in Hn.
    apply elem_of_cons in Hn as [->|Hn]; [|by apply elem_of_nil in Hn]. unfold FIRST_DATA. split_and!; [lia|lia|done|]. intros j Hj _. by apply Hno.
  - intros _. split; [done|]. split; [lia|]. rewrite H3, Hb. 
    eexists. split; [by apply first_records_ok; apply Hu32|]. rewrite !Forall_cons, Forall_nil. done.
Qed.

(** ** Paths *)

(** A path from its first component on. *)
Definition word p : Prop := match p with c :: _ => c <> 47 | [] => False end.

Lemma skip_word p : skip_slashes p = [] \/ word (skip_slashes p).
Proof. induction p as [|c p IH]; [by left|]. cbn [skip_slashes]. destruct (Z.eqb_spec c 47) as [|Hne]; [done|by right]. Qed.

Lemma skip_length p : (length (skip_slashes p) <= length p)%nat.
Proof. induction p as [|c p IH]; [done|]. cbn [skip_slashes length]. destruct (c =? 47); cbn [length]; lia. Qed.

Lemma after_length p : (length (after p) <= length p)%nat.
Proof. induction p as [|c p IH]; [done|]. cbn [after length]. destruct (c =? 47); cbn [length]; lia. Qed.

Lemma rest_shorter p : word p -> (length (skip_slashes (after p)) < length p)%nat.
Proof.
  destruct p as [|c p]; [done|]. intros Hc. cbn in Hc. cbn [after length]. rewrite (proj2 (Z.eqb_neq _ _)) by done.
  pose proof (skip_length (after p)). pose proof (after_length p). lia.
Qed.

Lemma path_bytes p : Forall is_u8 p -> Forall is_u8 (component p) /\ Forall is_u8 (skip_slashes (after p)).
Proof.
  intros Hp. split.
  - induction Hp as [|c p Hc Hp IH]; [done|]. cbn [component]. destruct (c =? 47); [done|by constructor].
  - assert (Forall is_u8 (after p)) as Ha by (induction Hp as [|c p Hc Hp IH]; [done|]; cbn [after]; destruct (c =? 47); [by constructor|done]).
    induction Ha as [|c q Hc Hq IH]; [done|]. cbn [skip_slashes]. destruct (c =? 47); [done|by constructor].
Qed.

(** No component of the path is [.] or [..]. *)
Fixpoint no_dots (fuel : nat) p : bool :=
  match fuel with
  | O => true
  | S fuel => negb (dots (component p)) && match skip_slashes (after p) with [] => true | rest => no_dots fuel rest end
  end.

(** Nothing but directories on the way to the last component; behind the part
    of the path that exists, no dots. *)
Fixpoint clear_way (fuel : nat) B cur p : bool :=
  match fuel with
  | O => true
  | S fuel =>
    is_dir (inode B cur) &&
    match skip_slashes (after p) with
    | [] => true
    | rest => match find_name B cur (component p) with Some next => clear_way fuel B next rest | None => no_dots fuel rest end
    end
  end.

Fixpoint leaf_of (fuel : nat) p : list Z :=
  match fuel with O => [] | S fuel => match skip_slashes (after p) with [] => component p | rest => leaf_of fuel rest end end.

Lemma no_dots_clear (fuel : nat) B cur p :
  is_dir (inode B cur) = true -> (forall nm, dots nm = false -> find_name B cur nm = None) -> no_dots fuel p = true -> clear_way fuel B cur p = true.
Proof.
  intros Hd Hn. destruct fuel as [|fuel]; [done|]. cbn [no_dots clear_way]. rewrite Hd. intros [Hc%negb_true_iff Hr]%andb_true_iff. cbn [andb].
  by rewrite Hn.
Qed.

Lemma no_dots_nothing (fuel : nat) B cur p :
  (forall nm, dots nm = false -> find_name B cur nm = None) -> no_dots fuel p = true -> resolve fuel B cur p = None.
Proof.
  intros Hn. destruct fuel as [|fuel]; [done|]. cbn [no_dots resolve]. intros [Hc%negb_true_iff _]%andb_true_iff. rewrite Hn by done.
  by destruct (skip_slashes (after p)).
Qed.

(** ** Room for a name and for an inode *)

Definition dir_room b name : bool :=
  negb (length name =? 0)%nat && (length name <=? 255)%nat && match add_record RECORDS b name 0 0 0 with Ok (Some _) => true | _ => false end.

Lemma add_record_room (fuel : nat) b name ino type ino' type' (p : Z) :
  match add_record fuel b name ino type p, add_record fuel b name ino' type' p with
  | Ok (Some _), Ok (Some _) | Ok None, Ok None | Undefined, Undefined | OutOfFuel, OutOfFuel => True
  | _, _ => False
  end.
Proof.
  revert p. induction fuel as [|fuel IH]; intros p; cbn [add_record]; [done|]. destruct (negb (p + 8 <=? BS)); [done|].
  destruct ((rec_len b p <? 8) || (BS <? p + rec_len b p)); [done|].
  destruct (negb (rec_ino b p =? 0) && (ideal (name_len b p) + ideal (Z.of_nat (length name)) <=? rec_len b p)); [done|apply IH].
Qed.

Definition inode_left B : bool := existsb (fun j => negb (iused B j)) (seqZ 11 (INODES - 10)).

(** The directory and the name a path ends with, when the directory is there. *)
Fixpoint parent_from (fuel : nat) B cur p : option (Z * list Z) :=
  match fuel with
  | O => None
  | S fuel =>
    match skip_slashes (after p) with
    | [] => Some (cur, component p)
    | rest => match find_name B cur (component p) with Some next => parent_from fuel B next rest | None => None end
    end
  end.

Section ops.
Context {D : Type} `{DiskLaws D} (W0 : Z -> list Z) (mt : standing).

Local Abbreviation E := (M (ext2 D)).
Local Abbreviation runs := (runs W0 mt).
Local Abbreviation yields := (yields W0 mt).

Lemma runs_pure {A} B (o : outcome A) a : o = Ok a -> runs B (pure o) a B.
Proof. intros -> s Hs. by exists s. Qed.

(** ** Directories *)

Lemma find_record_total B d name : fs_ok B -> ino_ok d -> is_dir (inode B d) = true ->
  find_record RECORDS (dir_block B d) name 0 = Ok (find_name B d name).
Proof.
  intros Hfs Hd Hdir. destruct (fs_dirs _ Hfs d Hd Hdir) as [_ Hz (l & Hr & _)]. destruct (dir_block_ok B d Hfs Hd Hdir) as [Hb _].
  rewrite (find_name_assoc B d name l) by done. apply find_record_ok; [done|done|]. vm_compute. lia.
Qed.

Lemma runs_dir_find B d name : fs_ok B -> ino_ok d -> runs B (dir_find d name) (find_name B d name) B.
Proof.
  intros Hfs Hd. unfold dir_find. eapply runs_orelse; [by apply runs_inode_get|].
  destruct (is_dir (inode B d)) eqn:Hdir; [|unfold find_name; rewrite Hdir; apply runs_return].
  destruct (fs_dirs _ Hfs d Hd Hdir) as [_ Hz _]. rewrite (proj2 (Z.eqb_neq _ _)) by done. cbn [negb orb].
  destruct (dir_block_ok B d Hfs Hd Hdir) as [_ Hr]. unfold FIRST_DATA in Hr. eapply runs_orelse; [apply runs_bread; lia|].
  apply runs_pure. by apply find_record_total.
Qed.

(** Adding a name: it is there afterwards, or nothing has changed. *)
Definition added B d name n (ok : bool) B' : Prop :=
  if ok then replaces B d B' /\ inode B' d = inode B d /\ find_name B' d name = Some n else B' = B /\ dir_room (dir_block B d) name = false.

Lemma dir_add_ok B d name n type :
  fs_ok B -> ino_ok d -> is_dir (inode B d) = true -> iused B d = true -> ino_ok n -> iused B n = true -> find_name B d name = None -> Forall is_u8 name ->
  yields B (dir_add d name n type) (added B d name n).
Proof.
  intros Hfs Hd Hdir Hud Hn Hun Hnone Hnm. unfold dir_add. destruct ((Z.of_nat (length name) =? 0) || (255 <? Z.of_nat (length name))) eqn:El.
  { apply yields_ret. split; [done|]. unfold dir_room. apply orb_true_iff in El as [El%Z.eqb_eq|El%Z.ltb_lt]; [by rewrite (proj2 (Nat.eqb_eq _ _)) by lia|].
    rewrite (proj2 (Nat.leb_gt _ _)) by lia. by rewrite andb_false_r. }
  apply orb_false_iff in El as [_ El%Z.ltb_ge]. destruct (fs_dirs _ Hfs d Hd Hdir) as [_ Hz (l & Hr & Hl)]. destruct (dir_block_ok B d Hfs Hd Hdir) as [Hb Hrg].
  eapply yields_run; [by apply runs_inode_get|]. cbv beta iota. rewrite (proj2 (Z.eqb_neq _ _)) by done. unfold FIRST_DATA in Hrg.
  eapply yields_run; [apply runs_bread; lia|]. cbv beta iota.
  destruct (add_record_ok (dir_block B d) name n type RECORDS 0 l) as (r & Er & Hres); try done; [unfold ino_ok, INODES in Hn; lia|lia|vm_compute; lia|].
  eapply yields_run; [by apply runs_pure|]. destruct r as [b|].
  2: { apply yields_ret. split; [done|]. unfold dir_room. pose proof (add_record_room RECORDS (dir_block B d) name n type 0 0 0) as Hroom. rewrite Er in Hroom.
    destruct (add_record RECORDS (dir_block B d) name 0 0 0) as [[?|]| |]; try done; by rewrite andb_false_r. }
  destruct Hres as (Hb' & _ & l1 & l2 & -> & Hr').
  eexists true, _. split; [by apply runs_bwrite; [lia|]|]. by eapply add_replaces.
Qed.

(** ** New directories *)

Lemma alloc_inode_ok B : yields B alloc_inode (fun r B' =>
  r = 0 /\ B' = B /\ inode_left B = false \/ ino_ok r /\ iused B r = false /\ B' = bset INODE_BITMAP (mark_bit (r - 1) (B INODE_BITMAP)) B).
Proof.
  destruct (runs_alloc_bit W0 mt B INODE_BITMAP 10 INODES true) as (r & B' & Hr & Hc); [by unfold INODE_BITMAP, NB|lia|by unfold INODES|].
  exists r, B'. split; [exact Hr|]. destruct Hc as [(-> & -> & Ha)|(j & -> & Hj & Hb & ->)].
  { left. split_and!; try done. unfold inode_left. apply not_true_iff_false. intros (j & Hj & Hf)%existsb_exists. apply list_elem_of_In, elem_of_seqZ in Hj.
    unfold iused in Hf. rewrite Ha in Hf by lia. done. }
  right. unfold ino_ok, iused.
  replace (j + 1 - 1) with j by lia. split; [lia|]. done.
Qed.

Lemma marked_used B r : blocks_ok B -> ino_ok r -> iused (bset INODE_BITMAP (mark_bit (r - 1) (B INODE_BITMAP)) B) r = true.
Proof.
  intros HB Hr. unfold iused. rewrite bset_eq. pose proof (ino_bit r Hr). rewrite bit_set_mark by (lia || apply HB; by unfold INODE_BITMAP, NB).
  by rewrite Z.eqb_refl.
Qed.

(** An inode that was free has no claim on files. *)
Lemma keeps_fresh ino B B' : keeps (eq ino) B B' -> iused B ino = false -> keeps none B B'.
Proof. intros [F D' U K] Hf. constructor; try done. intros j Hj Hu Hd _. apply K; try done. intros <-. congruence. Qed.

(** After an operation that may fail: the invariant, and everything kept. *)
Definition kept B B' : Prop := fs_ok B' /\ keeps none B B'.

Lemma kept_trans B1 B2 B3 : kept B1 B2 -> kept B2 B3 -> kept B1 B3.
Proof. intros [_ H1] [H2 H3]. split; [done|by eapply keeps_trans]. Qed.

Lemma put_links_kept B d v : fs_ok B -> ino_ok d -> is_dir (inode B d) = true -> iused B d = true ->
  let B' := put_inode d (set_links v (inode B d)) B in kept B B' /\ forall j name, ino_ok j -> j <> d -> find_name B' j name = find_name B j name.
Proof.
  intros Hfs Hd Hdir Hu B'. assert (inode_ok (inode B d)) as Hi.
  { apply inode_image_ok; [|done]. apply (fs_blocks _ Hfs). destruct (inode_place d Hd) as [Hr _]. unfold INODE_TABLE, FIRST_DATA, NB in *. lia. }
  destruct (set_links_fields v _ Hi) as (H1 & H2 & H3 & H4). destruct (fs_dirs _ Hfs d Hd Hdir) as [D1 D2 D3].
  assert (replaces B d B') as Hre.
  { apply put_replaces; try done. constructor; [done| |rewrite H2, !H3 by lia; done|rewrite H2, !H3 by lia; done].
    rewrite H4. intros n Hn. destruct (fs_owned _ Hfs d n Hd Hn). split_and!; try lia; try done. intros j Hj Hne. by apply (fs_apart _ Hfs d j). }
  split; [split; [by eapply replaces_ok|]; eapply replaces_keeps_none; [done|done|by right]|].
  intros j name Hj Hne. by apply (other_find B d B').
Qed.

(** Making the directory, up to its entry in the parent. *)
Lemma new_dir_kept B par ino r :
  fs_ok B -> ino_ok par -> iused B par = true -> ino_ok ino -> iused B ino = false ->
  let B1 := bset INODE_BITMAP (mark_bit (ino - 1) (B INODE_BITMAP)) B in fresh B1 r ->
  let B3 := put_inode ino (dir_inode r) (bset r (first_records ino par) (taken r B1)) in
  kept B B3 /\ iused B3 ino = true /\ is_dir (inode B3 ino) = true /\
  (forall name, find_name B3 par name = find_name B par name) /\ forall name, dots name = false -> find_name B3 ino name = None.
Proof.
  intros Hfs Hp Hup Hi Hfree B1 Hfr B3. assert (frames none B B1) as F1 by (apply fr_mark; [done|by apply frames_refl|done]).
  destruct (frames_ok B B1 Hfs F1) as [Hfs1 K1]. pose proof Hfr as [Hr Hru]. set (Bm := bset r (first_records ino par) (taken r B1)) in *.
  assert (grows B1 [r] Bm) as Hg by (apply grows_write; [apply grows_alloc; [apply grows_refl, Hfs1|done|done]|by left|apply first_records_block]).
  assert (frames none B1 Bm) as F2 by (eapply fr_grows; [done|by apply frames_refl|done]). destruct (frames_ok B1 Bm Hfs1 F2) as [Hfsm K2].
  assert (iused B1 ino = true) as Hu1 by (apply marked_used; [apply Hfs|done]).
  assert (inode Bm ino = zero_inode) as Ez by (rewrite (fr_inodes _ _ _ F2), (fr_inodes _ _ _ F1) by (done || intros []); by apply (fs_free _ Hfs)).
  assert (iused Bm ino = true /\ iused Bm par = true) as [Hum Hpm] by (split; apply (k_used _ _ _ K2); try done; by apply (k_used _ _ _ K1)).
  destruct (grows_used _ _ _ r Hg) as [_ Hbr]; [by left|].
  assert (replaces Bm ino B3) as Hre.
  { apply put_replaces; try done. apply (dir_fits Bm ino par r); try done; [by rewrite Ez|intros j Hj; eapply grows_unowned; [|exact Hg|by left|]; done|apply bset_eq]. }
  assert (fs_ok B3) as Hfs3 by by eapply replaces_ok. pose proof (replaces_keeps _ _ _ Hfsm Hre) as K3. split; [split; [done|]|].
  { apply (keeps_fresh ino); [|done]. eapply keeps_trans; [|exact K3]. eapply keeps_trans; (eapply keeps_weaken; [done|intros ? []]). }
  assert (inode B3 ino = dir_inode r) as E3.
  { apply inode_put_same; [|done|done]. apply Hfsm. destruct (inode_place ino Hi) as [? _]. unfold INODE_TABLE, FIRST_DATA, NB in *. lia. }
  destruct (dir_inode_ok r (is_u32_block r Hr)) as (I1 & I2 & I3 & _). split; [by apply (re_ino _ _ _ Hre)|]. split_and!.
  - by rewrite E3.
  - intros name. rewrite (other_find Bm ino B3), (frames_find B1 Bm), (frames_find B B1) by (done || congruence). done.
  - intros name Hnd. unfold FIRST_DATA in Hr. assert (dir_block B3 ino = first_records ino par) as Eb.
    { unfold dir_block. rewrite E3, I3. unfold B3. rewrite put_low by (done || unfold FIRST_DATA; lia). apply bset_eq. }
    assert (forall ino, ino_ok ino -> is_u32 ino) as Hu32 by (unfold ino_ok, INODES, is_u32; lia).
    rewrite (find_name_assoc B3 ino name [(ino, [46]); (par, [46; 46])]); [|by rewrite E3|rewrite E3, I3; lia|rewrite Eb; apply first_records_block|rewrite Eb; apply first_records_ok; by apply Hu32].
    unfold dots in Hnd. apply orb_false_iff in Hnd as [?%bool_decide_eq_false ?%bool_decide_eq_false]. cbn [assoc].
    rewrite !bool_decide_eq_false_2 by congruence. by rewrite !andb_false_r.
Qed.

Lemma taken_kept B r : fs_ok B -> fresh B r -> kept B (taken r B).
Proof.
  intros Hfs [Hr Hf]. apply frames_ok; [done|]. eapply fr_grows; [done|by apply frames_refl|]. apply grows_alloc; [apply grows_refl, Hfs|done|done].
Qed.

Lemma kept_refl B : fs_ok B -> kept B B.
Proof. intros Hfs. split; [done|apply keeps_refl]. Qed.

Lemma make_dir_ok B par name :
  fs_ok B -> ino_ok par -> is_dir (inode B par) = true -> iused B par = true -> find_name B par name = None -> Forall is_u8 name ->
  yields B (make_dir par name) (fun r B' => kept B B' /\
    match r with
    | Some n => find_name B' par name = Some n /\ is_dir (inode B' n) = true /\ forall nm, dots nm = false -> find_name B' n nm = None
    | None => True
    end).
Proof.
  intros Hfs Hp Hdir Hup Hnone Hnm. unfold make_dir. eapply yields_bind; [apply alloc_inode_ok|]. intros ino B1 [(-> & -> & _)|(Hi & Hfree & HB1)].
  { eapply yields_bind; [apply alloc_block_ok|]. intros r B2 Hr. cbn [Z.eqb orb]. apply yields_ret. split; [|done].
    destruct Hr as [(_ & -> & _)|[Hfr ->]]; [by apply kept_refl|by apply taken_kept]. }
  assert (frames none B B1) as F1 by (subst; apply fr_mark; [done|by apply frames_refl|done]). destruct (frames_ok B B1 Hfs F1) as [Hfs1 K1].
  rewrite (proj2 (Z.eqb_neq ino 0)) by (unfold ino_ok in Hi; lia). eapply yields_bind; [apply alloc_block_ok|]. intros r B2 [(-> & -> & _)|[Hfr ->]]; [by apply yields_ret|].
  pose proof Hfr as [Hr _]. pose proof Hr as Hr'. unfold FIRST_DATA in Hr'. rewrite (proj2 (Z.eqb_neq r 0)) by lia. cbn [orb].
  destruct (dir_inode_ok r (is_u32_block r Hr)) as ([_ Hub] & _). rewrite HB1 in Hfr.
  destruct (new_dir_kept B par ino r Hfs Hp Hup Hi Hfree Hfr) as (K3 & Hu3 & Hd3 & Hf3 & He3). rewrite <- HB1 in K3, Hu3, Hd3, Hf3, He3.
  eapply yields_run; [apply runs_bwrite; [lia|apply first_records_block]|]. cbv beta iota.
  eapply yields_run; [apply runs_inode_put; [done|exact Hub]|]. cbv beta iota. set (B3 := put_inode ino _ _) in *. destruct K3 as [Hfs3 K3].
  eapply yields_bind.
  { apply dir_add_ok; [done|done|by apply (k_dir _ _ _ K3)|by apply (k_used _ _ _ K3)|done|done|by rewrite Hf3|done]. }
  intros ok B4 Hadd. destruct ok; [|destruct Hadd as [-> _]; by apply yields_ret]. destruct Hadd as (Hre & Ein & Hfound).
  assert (is_dir (inode B3 par) = true) as Hdir3 by by apply (k_dir _ _ _ K3).
  assert (kept B3 B4) as [Hfs4 K4] by (split; [by eapply replaces_ok|eapply replaces_keeps_none; [done|done|by right]]).
  eapply yields_run; [apply runs_counters|]. cbv beta iota. eapply yields_run; [by apply runs_inode_get|]. cbv beta iota.
  assert (inode_ok (inode B4 par)) as Hip.
  { apply inode_image_ok; [|done]. apply (fs_blocks _ Hfs4). destruct (inode_place par Hp) as [? _]. unfold INODE_TABLE, FIRST_DATA, NB in *. lia. }
  eapply yields_run; [apply runs_inode_put; [done|apply (set_links_fields (i_links (inode B4 par) + 1) _ Hip)]|].
  destruct (put_links_kept B4 par (i_links (inode B4 par) + 1)) as [[Hfs5 K5] Ho5]; [done|done|by rewrite Ein|by apply (k_used _ _ _ K4), (k_used _ _ _ K3)|].
  apply yields_ret. split; [split; [done|]; by eapply keeps_trans; [eapply keeps_trans|]|].
  split; [by apply (k_find _ _ _ K5)|]. split; [by apply (k_dir _ _ _ K5), (k_dir _ _ _ K4)|]. intros nm Hnd. assert (ino <> par) by congruence.
  rewrite Ho5, (other_find B3 par B4) by done. by apply He3.
Qed.

(** ** Walking *)

Definition found_of (o : option place) : option Z :=
  match o with Some pl => if found pl =? 0 then None else Some (found pl) | None => None end.

Lemma runs_walk_from (fuel : nat) B cur p : fs_ok B -> ino_ok cur -> word p -> (length p <= fuel)%nat ->
  exists o, runs B (walk_from fuel cur p false false) o B /\ found_of o = resolve fuel B cur p.
Proof.
  intros Hfs. revert cur p. induction fuel as [|fuel IH]; intros cur p Hc Hw Hl; [destruct p; cbn [length] in Hl; [done|lia]|]. pose proof (rest_shorter p Hw) as Hsh.
  cbn [walk_from resolve andb]. destruct (skip_word (after p)) as [Er|Hwr].
  - rewrite Er. eexists. split; [eapply runs_then; [by apply runs_dir_find|apply runs_return]|]. cbn [found_of found].
    destruct (find_name B cur (component p)) as [n|] eqn:Ef; [|done]. cbn. destruct (find_name_ok B cur _ n Hfs Hc Ef) as [Hn _]. by rewrite (proj2 (Z.eqb_neq _ _)).
  - destruct (skip_slashes (after p)) as [|c rest] eqn:Er; [done|]. pose proof (runs_dir_find B cur (component p) Hfs Hc) as Hrun.
    destruct (find_name B cur (component p)) as [n|] eqn:Ef.
    + destruct (find_name_ok B cur _ n Hfs Hc Ef) as (_ & Hn & _). destruct (IH n (c :: rest) Hn Hwr) as (o & Ho & Eo); [lia|]. exists o. split; [|done].
      eapply runs_then; [exact Hrun|exact Ho].
    + exists None. split; [|done]. eapply runs_then; [exact Hrun|apply runs_return].
Qed.

Lemma runs_locate B path : fs_ok B -> runs B (locate path) (lookup_path B path) B.
Proof.
  intros Hfs. unfold locate, walk, lookup_path. destruct (skip_word path) as [Er|Hw].
  - rewrite Er. unfold orelse. eapply runs_then; [apply runs_return|]. apply runs_return.
  - destruct (skip_slashes path) as [|c p] eqn:Er; [done|].
    destruct (runs_walk_from (length (c :: p)) B ROOT_INO (c :: p)) as (o & Ho & <-); [done|done|done|done|]. unfold orelse. eapply runs_then; [exact Ho|].
    destruct o as [pl|]; apply runs_return.
Qed.

(** Where a path that may be extended leads. *)
Definition arrives (fuel : nat) B cur p (r : option place) B' : Prop :=
  kept B B' /\ (parent_from fuel B cur p <> None -> B' = B /\ exists n, r = Some (Place (parent_from fuel B cur p) n)) /\
  match r with
  | None => True
  | Some pl => exists d name, parent pl = Some (d, name) /\ found pl = default 0 (find_name B' d name) /\
      ino_ok d /\ is_dir (inode B' d) = true /\ iused B' d = true /\ Forall is_u8 name /\
      find_name B' d name = resolve fuel B cur p /\
      forall X B2, keeps X B' B2 -> resolve fuel B2 cur p = find_name B2 d name
  end.

Lemma walk_create_ok (fuel : nat) B cur p :
  fs_ok B -> ino_ok cur -> iused B cur = true -> word p -> (length p <= fuel)%nat -> Forall is_u8 p ->
  clear_way fuel B cur p = true -> (length (leaf_of fuel p) < 256)%nat ->
  yields B (walk_from fuel cur p true true) (arrives fuel B cur p).
Proof.
  revert B cur p. induction fuel as [|fuel IH]; intros B cur p Hfs Hc Hu Hw Hl Hb Hway Hleaf; [destruct p; cbn [length] in Hl; [done|lia]|].
  pose proof (rest_shorter p Hw) as Hsh. destruct (path_bytes p Hb) as [Hbc Hbr]. cbn [clear_way leaf_of] in Hway, Hleaf. apply andb_true_iff in Hway as [Hdir Hway].
  unfold arrives. cbn [walk_from resolve andb]. destruct (skip_word (after p)) as [Er|Hwr].
  - rewrite Er in *. rewrite (proj2 (Nat.leb_gt _ _)) by done. eapply yields_run; [by apply runs_dir_find|]. apply yields_ret.
    split; [by apply kept_refl|]. cbn [parent_from]. rewrite Er. split; [intros _; split; [done|by eexists]|]. exists cur, (component p). split_and!; try done.
  - destruct (skip_slashes (after p)) as [|c rest] eqn:Er; [done|]. eapply yields_run; [by apply runs_dir_find|].
    destruct (find_name B cur (component p)) as [n|] eqn:Ef.
    + destruct (find_name_ok B cur _ n Hfs Hc Ef) as (_ & Hn & Hun). eapply yields_mono; [apply (IH B n (c :: rest)); try done; lia|].
      intros r B' (Hk & Hpar & Hr). split; [done|]. cbn [parent_from]. rewrite Er, Ef. split; [done|]. destruct r as [pl|]; [|done]. destruct Hr as (d & name & E1 & E2 & H3 & H4 & H5 & H6 & H7 & H8).
      exists d, name. split_and!; try done. intros X B2 HK.
      rewrite (k_find _ _ _ HK cur (component p) n Hc); [by apply (H8 X)|]. by apply (k_find _ _ _ (proj2 Hk)).
    + eapply yields_bind; [by apply make_dir_ok|]. intros r B1 [Hk1 Hr]. cbn [parent_from]. rewrite Er, Ef. destruct r as [n|]; [|by apply yields_ret].
      destruct Hr as (Hf1 & Hd1 & He1). pose proof Hk1 as [Hfs1 K1]. destruct (find_name_ok B1 cur _ n Hfs1 Hc Hf1) as (_ & Hn & Hun).
      eapply yields_mono; [apply (IH B1 n (c :: rest)); try done; [lia|by apply no_dots_clear]|].
      intros r B' (Hk & _ & Hr). split; [by eapply kept_trans|]. split; [done|]. destruct r as [pl|]; [|done]. destruct Hr as (d & name & E1 & E2 & H3 & H4 & H5 & H6 & H7 & H8).
      exists d, name. split_and!; try done; [by rewrite H7, no_dots_nothing|]. intros X B2 HK.
      rewrite (k_find _ _ _ HK cur (component p) n Hc); [by apply (H8 X)|]. by apply (k_find _ _ _ (proj2 Hk)).
Qed.

(** ** Reading *)

Definition blocks_in B i : Prop := forall n, n ∈ owned B i -> FIRST_DATA <= n < NB.

Lemma runs_file_block B i (k : nat) : blocks_in B i -> (k < 1036)%nat -> runs B (file_block i (Z.of_nat k)) (block_at B i k) B.
Proof.
  intros Hin Hk. unfold file_block, block_at. destruct (Nat.ltb_spec k 12) as [Hlt|Hge].
  - rewrite (proj2 (Z.ltb_lt _ _)) by lia. rewrite Nat2Z.id. apply runs_return.
  - rewrite (proj2 (Z.ltb_ge _ _)), (proj2 (Z.leb_gt _ _)) by (change MAX_FILE_BLOCKS with 1036; lia). cbn [orb].
    destruct (Z.eqb_spec (i_block 12 i) 0) as [|Hz]; [apply runs_return|]. pose proof (Hin _ (indirect_owned B i Hz)) as Hr. unfold FIRST_DATA in Hr.
    eapply runs_orelse; [apply runs_bread; lia|]. rewrite nth_entries, decide_True by lia.
    replace (Z.to_nat ((Z.of_nat k - 12) * 4)) with (4 * (k - 12))%nat by lia. apply runs_return.
Qed.

Lemma runs_read_loop (n fuel : nat) B i (k : nat) at_ :
  blocks_ok B -> blocks_in B i -> (n <= fuel)%nat -> (k + n <= 1036)%nat ->
  (n = 0%nat /\ i_size i <= at_ \/ at_ = 4096 * Z.of_nat k /\ 4096 * (Z.of_nat n - 1) < i_size i - at_ <= 4096 * Z.of_nat n) ->
  runs B (read_loop fuel i (Z.of_nat k) at_) (option_map (take (Z.to_nat (i_size i - at_))) (read_blocks n B i k)) B.
Proof.
  intros HB Hin. revert fuel k at_. induction n as [|n IH]; intros fuel k at_ Hf Hk Hat.
  { cbn [read_blocks option_map]. rewrite take_nil. destruct fuel; cbn [read_loop]; rewrite (proj2 (Z.ltb_ge _ _)) by lia; apply runs_return. }
  destruct fuel as [|fuel]; [lia|]. destruct Hat as [[? _]|[Hat Hs]]; [done|]. cbn [read_loop read_blocks]. rewrite (proj2 (Z.ltb_lt _ _)) by lia. cbn [negb].
  eapply runs_then; [apply runs_file_block; [done|lia]|]. destruct (Z.eqb_spec (block_at B i k) 0) as [|Hz]; [apply runs_return|].
  pose proof (Hin _ (block_at_owned B i k Hz)) as Hr. unfold FIRST_DATA in Hr. destruct (HB (block_at B i k)) as [Hl _]; [lia|].
  eapply runs_orelse; [apply runs_bread; lia|]. set (b := B (block_at B i k)) in *. set (m := Z.to_nat (i_size i - at_)).
  assert (length (take m b) = Nat.min m 4096) as Hp by (rewrite length_take; lia). eapply runs_then.
  - replace (Z.of_nat k + 1) with (Z.of_nat (S k)) by lia. apply IH; [lia|lia|]. rewrite Hp. unfold m. destruct n; [left|right]; lia.
  - eapply runs_result; [|by intros]. destruct (read_blocks n B i (S k)) as [x|]; cbn [option_map]; [|apply runs_return].
    replace (Z.to_nat (i_size i - (at_ + Z.of_nat (length (take m b))))) with (m - length b)%nat by (rewrite Hp, Hl; unfold m; lia).
    rewrite take_app. apply runs_return.
Qed.

Lemma inode_ok_at B j : fs_ok B -> ino_ok j -> inode_ok (inode B j).
Proof.
  intros Hfs Hj. apply inode_image_ok; [|done]. apply (fs_blocks _ Hfs). destruct (inode_place j Hj) as [? _]. unfold INODE_TABLE, FIRST_DATA, NB in *. lia.
Qed.

Lemma runs_read_file B j : fs_ok B -> ino_ok j -> i_size (inode B j) <= MAX_FILE_SIZE ->
  runs B (read_loop (Z.to_nat MAX_FILE_BLOCKS) (inode B j) 0 0) (file_data B (inode B j)) B.
Proof.
  intros Hfs Hj Hs. destruct (inode_ok_at B j Hfs Hj) as [_ Hu]. assert (0 <= i_size (inode B j)) as Hpos by apply (r32_range _ 4 Hu).
  change MAX_FILE_SIZE with (1036 * 4096) in Hs. change (Z.to_nat MAX_FILE_BLOCKS) with 1036%nat. unfold file_data, blocks_of.
  set (size := i_size (inode B j)) in *. replace (take (Z.to_nat size)) with (take (A := Z) (Z.to_nat (size - 0))) by (by rewrite Z.sub_0_r).
  apply (runs_read_loop (Z.to_nat ((size + 4095) / 4096)) 1036 B (inode B j) 0 0); fold size; [apply Hfs|intros n Hn; by apply (fs_owned _ Hfs j)|..].
  - Z.div_mod_to_equations. lia.
  - Z.div_mod_to_equations. lia.
  - right. split; [done|]. Z.div_mod_to_equations. lia.
Qed.

(** What a load returns. *)
Definition load_of B path cap : option (list Z) :=
  match lookup_path B path with
  | None => None
  | Some ino => let i := inode B ino in if is_dir i || (cap <? i_size i) || (MAX_FILE_SIZE <? i_size i) then None else file_data B i
  end.

Lemma resolve_ok (fuel : nat) B cur p n : fs_ok B -> ino_ok cur -> resolve fuel B cur p = Some n -> ino_ok n /\ iused B n = true.
Proof.
  intros Hfs. revert cur p. induction fuel as [|fuel IH]; intros cur p Hc; [done|]. cbn [resolve].
  destruct (skip_slashes (after p)); [by apply find_name_ok|]. destruct (find_name B cur (component p)) as [m|] eqn:E; [|done].
  apply IH. by eapply find_name_ok.
Qed.

Lemma lookup_path_ok B path n : fs_ok B -> lookup_path B path = Some n -> ino_ok n /\ iused B n = true.
Proof.
  intros Hfs. unfold lookup_path. destruct (skip_slashes path); [intros [= <-]; split; [done|by apply (fs_root _ Hfs)]|by apply resolve_ok].
Qed.

Lemma runs_load B path cap : fs_ok B -> up mt = true -> runs B (ext2_load path cap) (load_of B path cap) B.
Proof.
  intros Hfs Hmt. unfold ext2_load, load_of. apply runs_get. intros s Hs. assert (mounted s = true) as -> by (by rewrite (at_mounted _ _ _ _ Hs)). cbn [negb].
  pose proof (runs_locate B path Hfs) as Hrun. destruct (lookup_path B path) as [j|] eqn:El; [|unfold orelse; eapply runs_then; [exact Hrun|apply runs_return]].
  destruct (lookup_path_ok B path j Hfs El) as [Hj _]. eapply runs_orelse; [exact Hrun|]. eapply runs_orelse; [by apply runs_inode_get|].
  destruct (is_dir (inode B j) || (cap <? i_size (inode B j)) || (MAX_FILE_SIZE <? i_size (inode B j))) eqn:E; [apply runs_return|].
  apply orb_false_iff in E as [_ E%Z.ltb_ge]. by apply runs_read_file.
Qed.
End ops.
