(* ===== verification/Ext2Store.v ===== *)
(** * Storing files: lemmas

    The blocks of a file are written before its inode, the inode before its
    name; a store that fails on the way leaves every file as it was. *)

From stdpp Require Import base numbers list strings.
From Stdlib Require Import ZArith Lia.
From S2P Require Import Prelude Effects Mini64Fat Mini64FatProof Ext2 Ext2Blocks Ext2Dir Ext2Files Ext2Tree Ext2Ops.

Implicit Types (B : Z -> list Z) (i : inode_t) (bl name p data : list Z) (ino : Z).

(** ** A file that was written *)

Lemma writing_fits B new B1 i ind bl ino :
  fs_ok B -> writing B new B1 i ind bl -> ino_ok ino -> is_dir i = false -> is_dir (inode B ino) = false -> inode_fits B1 ino i.
Proof.
  intros Hfs Hw Hi Hd Hdi. pose proof (wr_grows _ _ _ _ _ _ Hw) as Hg. assert (frames none B B1) as Hf by (eapply fr_grows; [done|by apply frames_refl|done]).
  constructor; [apply Hw| |by rewrite Hd|rewrite (fr_inodes _ _ _ Hf) by (done || intros []); by rewrite Hdi].
  intros n Hn. rewrite (writing_owned _ _ _ _ _ _ _ Hw) in Hn. destruct (grows_used _ _ _ n Hg Hn) as [? ?]. split_and!; try done; try lia.
  intros j Hj _. by eapply grows_unowned.
Qed.

Lemma writing_data B new B1 i ind bl data (n : nat) :
  writing B new B1 i ind bl -> contents B1 bl = data ++ replicate n 0 -> i_size i = Z.of_nat (length data) -> file_data B1 i = Some data.
Proof.
  intros Hw Hc Hs. apply (layout_data B1 i bl data n); try done; [apply Hw|by eapply writing_nonzero|]. apply Forall_forall. intros x Hx.
  pose proof (wr_grows _ _ _ _ _ _ Hw) as Hg. assert (x ∈ new) as Hin by (rewrite (wr_new _ _ _ _ _ _ Hw); apply elem_of_app; by right).
  destruct (g_new _ _ _ Hg x Hin) as [Hr _]. unfold FIRST_DATA in Hr. apply (g_ok _ _ _ Hg). lia.
Qed.

(** The inode and the data it stands for. *)
Record holds B ino data (mode uid gid : Z) : Prop := {
  h_file : is_dir (inode B ino) = false;
  h_size : i_size (inode B ino) = Z.of_nat (length data);
  h_data : file_data B (inode B ino) = Some data;
  h_meta : i_mode (inode B ino) = mode /\ i_uid (inode B ino) = uid /\ i_gid (inode B ino) = gid
}.

(** What the inode says before its blocks are written. *)
Definition prepared i (n : nat) (mode uid gid : Z) : Prop :=
  inode_ok i /\ (forall k, (k < 15)%nat -> i_block k i = 0) /\ is_dir i = false /\ i_size i = Z.of_nat n /\ i_mode i = mode /\ i_uid i = uid /\ i_gid i = gid.

Lemma meta_fields i i' : same_meta i i' -> i_size i' = i_size i /\ i_mode i' = i_mode i /\ i_uid i' = i_uid i /\ i_gid i' = i_gid i /\ is_dir i' = is_dir i.
Proof.
  intros Hm. pose proof (meta_mode _ _ Hm) as Em. unfold is_dir. rewrite Em. split_and!; [by apply meta_size|done| | |done]; apply r16_ext; apply Hm; lia.
Qed.

(** The inode goes to the disk. *)
Lemma written_put B new B1 i i' ind bl data (n : nat) ino mode uid gid :
  fs_ok B -> writing B new B1 i' ind bl -> same_meta i i' -> contents B1 bl = data ++ replicate n 0 -> prepared i (length data) mode uid gid ->
  ino_ok ino -> iused B ino = true -> is_dir (inode B ino) = false ->
  let B2 := put_inode ino i' B1 in
  replaces B1 ino B2 /\ fs_ok B1 /\ fs_ok B2 /\ keeps none B B1 /\ keeps (eq ino) B B2 /\ inode B2 ino = i' /\ holds B2 ino data mode uid gid.
Proof.
  intros Hfs Hw Hm Hc (Hi & _ & Hd & Hs & M1 & M2 & M3) Hino Hu Hdi B2. pose proof (wr_grows _ _ _ _ _ _ Hw) as Hg.
  assert (frames none B B1) as Hf by (eapply fr_grows; [done|by apply frames_refl|done]). destruct (frames_ok B B1 Hfs Hf) as [Hfs1 K1].
  destruct (meta_fields _ _ Hm) as (E1 & E2 & E3 & E4 & E5). assert (inode_fits B1 ino i') as Hfit by (apply (writing_fits B new B1 i' ind bl); try done; by rewrite E5).
  assert (replaces B1 ino B2) as Hre by (apply put_replaces; try done; by apply (k_used _ _ _ K1)).
  assert (inode B2 ino = i') as E.
  { apply inode_put_same; [|done|apply Hfit]. apply (fs_blocks _ Hfs1). destruct (inode_place ino Hino) as [? _]. unfold INODE_TABLE, FIRST_DATA, NB in *. lia. }
  split; [done|]. split; [done|]. split; [by eapply replaces_ok|]. split; [done|]. split.
  { eapply keeps_trans; [eapply keeps_weaken; [exact K1|intros ? []]|by apply replaces_keeps]. }
  split; [done|]. constructor; rewrite E; [by rewrite E5|by rewrite E1| |by rewrite E2, E3, E4].
  rewrite (file_data_same B1); [eapply writing_data; try done; by rewrite E1|]. intros k Hk. apply put_low; [done|]. right. by apply Hfit.
Qed.

Lemma old_owned B new B1 i' ind bl ino :
  fs_ok B -> writing B new B1 i' ind bl -> ino_ok ino -> owned (put_inode ino i' B1) (inode B ino) = owned B (inode B ino).
Proof.
  intros Hfs Hw Hino. assert (frames none B B1) as Hf by (eapply fr_grows; [done|by apply frames_refl|apply Hw]).
  apply owned_same. intros n Hn. destruct (fs_owned _ Hfs ino n Hino Hn) as [Hr _]. rewrite put_low by (done || lia). by apply (fr_same _ _ _ Hf ino).
Qed.

(** The blocks of the old inode belong to nobody once it is replaced. *)
Lemma old_blocks_free B new B1 i' ind bl ino l :
  fs_ok B -> writing B new B1 i' ind bl -> ino_ok ino -> let B2 := put_inode ino i' B1 in
  replaces B1 ino B2 -> fs_ok B2 -> inode B2 ino = i' -> (forall n, n ∈ l <-> n ∈ owned B2 (inode B ino)) ->
  frames none B2 (bset BLOCK_BITMAP (clear_bits l (B2 BLOCK_BITMAP)) B2).
Proof.
  intros Hfs Hw Hino B2 Hre Hfs2 E Hl. pose proof (wr_grows _ _ _ _ _ _ Hw) as Hg.
  assert (frames none B B1) as Hf by (eapply fr_grows; [done|by apply frames_refl|done]).
  assert (owned B2 (inode B ino) = owned B (inode B ino)) as Eo by by eapply old_owned.
  apply fr_clear; [done|by apply frames_refl|]. intros n Hn. rewrite Hl, Eo in Hn. destruct (fs_owned _ Hfs ino n Hino Hn) as [Hr Hu]. split; [done|].
  intros j Hj Hno. destruct (decide (j = ino)) as [->|Hne].
  - rewrite E in Hno. assert (owned B2 i' = owned B1 i') as E2.
    { apply owned_same. intros k Hk. rewrite (writing_owned _ _ _ _ _ _ _ Hw) in Hk. apply put_low; [done|]. right. by apply (grows_used _ _ _ k Hg). }
    rewrite E2, (writing_owned _ _ _ _ _ _ _ Hw) in Hno. destruct (g_new _ _ _ Hg n Hno) as [_ ?]. congruence.
  - rewrite (other_owned B1 ino B2 Hre j Hj Hne), (frames_owned none B B1) in Hno by (done || intros []). by apply (fs_apart _ Hfs ino j n).
Qed.

(** A new file that got no name is taken back. *)
Lemma taken_back B new B2 i ind bl ino l :
  fs_ok B -> ino_ok ino -> iused B ino = false -> let B1 := bset INODE_BITMAP (mark_bit (ino - 1) (B INODE_BITMAP)) B in
  writing B1 new B2 i ind bl -> (forall n, n ∈ l <-> n ∈ new) ->
  let B3 := put_inode ino i B2 in let B4 := bset BLOCK_BITMAP (clear_bits l (B3 BLOCK_BITMAP)) B3 in
  let B5 := put_inode ino zero_inode B4 in
  frames none B (bset INODE_BITMAP (clear_bit (ino - 1) (B5 INODE_BITMAP)) B5).
Proof.
  intros Hfs Hi Hfree B1 Hw Hl B3 B4 B5. pose proof (wr_grows _ _ _ _ _ _ Hw) as Hg.
  assert (frames (eq ino) B B1) as F1 by (apply fr_mark; [done|by apply frames_refl|done]).
  assert (frames (eq ino) B B2) as F2 by (by eapply fr_grows).
  assert (frames (eq ino) B B3) as F3 by (apply fr_put; try done; apply Hw).
  assert (frames (eq ino) B B4) as F4.
  { apply fr_clear; [done|done|]. intros n Hn%Hl. destruct (g_new _ _ _ Hg n Hn) as [Hr Hu]. unfold FIRST_DATA in *. split; [lia|].
    intros j Hj Hno. destruct (fs_owned _ Hfs j n Hj Hno) as [_ Hu']. unfold bused, B1 in Hu. rewrite bset_ne in Hu by done. unfold bused in Hu'. congruence. }
  assert (frames (eq ino) B B5) as F5 by (apply fr_put; try done; apply zero_inode_ok).
  apply (frames_back ino); [by apply fr_unmark|]. rewrite (fs_free _ Hfs) by done. rewrite (inode_frame B5) by (done || (intros n Hn; apply bset_ne; unfold INODE_TABLE, INODE_BITMAP in *; lia)).
  apply inode_put_same; [|done|done]. apply (fr_blocks _ _ _ F4). destruct (inode_place ino Hi) as [? _]. unfold INODE_TABLE, FIRST_DATA, NB in *. lia.
Qed.

Definition clear_path B path : bool := match skip_slashes path with [] => true | p => clear_way (length p) B ROOT_INO p end.

(** There is room for the data under a name of a directory. *)
Definition room_in B d name data : bool :=
  (length data <=? 4096 * 1036)%nat && (blocks_of (Z.of_nat (length data)) <? free B)%nat &&
  match find_name B d name with
  | Some ino => negb (is_dir (inode B ino))
  | None => inode_left B && dir_room (dir_block B d) name
  end.

(** The directory of a path is there, and has room. *)
Definition room_for B path data : bool :=
  match parent_from (length (skip_slashes path)) B ROOT_INO (skip_slashes path) with
  | None => false
  | Some (d, name) => room_in B d name data
  end.

Definition leaf_name (path : list Z) : list Z := match skip_slashes path with [] => [] | p => leaf_of (length p) p end.

(** ** What storing under a path does *)

(** The data is under the path, in the file that was there or in a new one. *)
Definition stored B path data (m u g : Z) B' : Prop :=
  exists ino, fs_ok B' /\ keeps (eq ino) B B' /\ lookup_path B' path = Some ino /\
    match lookup_path B path with
    | Some n => n = ino /\ holds B' ino data (i_mode (inode B ino)) (i_uid (inode B ino)) (i_gid (inode B ino))
    | None => iused B ino = false /\ holds B' ino data (0x8000 + m mod 512) (u mod 2 ^ 16) (g mod 2 ^ 16)
    end.

Section store.
Context {D : Type} `{DiskLaws D} (W0 : Z -> list Z) (mt : standing).

Local Abbreviation E := (M (ext2 D)).
Local Abbreviation runs := (runs W0 mt).
Local Abbreviation yields := (yields W0 mt).

(** After a store: the data is there, or everything is as it was. *)
Definition stores B ino data mode uid gid (ok : bool) B' : Prop :=
  if ok then fs_ok B' /\ keeps (eq ino) B B' /\ iused B' ino = true /\ holds B' ino data mode uid gid else kept B B'.

Lemma writing_release B new B1 i ind bl B2 :
  writing B new B1 i ind bl -> (forall n, n ∈ new -> B2 n = B1 n) ->
  exists l, (forall n, n ∈ l <-> n ∈ new) /\ runs B2 (release_blocks i) true (bset BLOCK_BITMAP (clear_bits l (B2 BLOCK_BITMAP)) B2).
Proof.
  intros Hw Hs. destruct (runs_release W0 mt B2 i) as (l & Hl & Hr).
  { intros n. rewrite (owned_same B1 B2); [by eapply writing_in|]. intros k Hk. apply Hs. by rewrite (writing_owned _ _ _ _ _ _ _ Hw) in Hk. }
  exists l. split; [|done].
  intros n. rewrite Hl, (owned_same B1 B2); [by eapply writing_owned|]. intros k Hk. apply Hs. by rewrite (writing_owned _ _ _ _ _ _ _ Hw) in Hk.
Qed.

Lemma store_existing B par ino data :
  fs_ok B -> ino_ok ino -> iused B ino = true -> is_dir (inode B ino) = false -> Forall is_u8 data -> (length data <= 4096 * 1036)%nat ->
  let old := inode B ino in
  yields B (store_inode par ino (Some old) (clear_blocks old) data) (fun ok B' =>
    stores B ino data (i_mode old) (i_uid old) (i_gid old) ok B' /\ (ok = false -> (free B <= blocks_of (Z.of_nat (length data)))%nat)).
Proof.
  intros Hfs Hi Hu Hd Hdata Hlen old. pose proof (inode_ok_at B ino Hfs Hi) as Hold. fold old in Hold.
  destruct (clear_blocks_ok old Hold) as (C1 & C2 & C3). destruct (meta_fields _ _ C2) as (_ & M1 & M2 & M3 & M4).
  unfold store_inode. set (next := set_blocks 0 _).
  assert (is_u32 (Z.of_nat (length data))) as Hsz by (unfold is_u32; lia). destruct (start_inode (clear_blocks old) _ C1 C3 Hsz) as (S1 & S2 & S3 & S4 & S5 & S6).
  assert (prepared next (length data) (i_mode old) (i_uid old) (i_gid old)) as Hprep.
  { unfold prepared. fold next in S1, S2, S3, S4, S5, S6. split_and!; try done; try congruence. unfold is_dir. by rewrite S4, M1. }
  eapply yields_bind; [apply (write_new_blocks_ok W0 mt B next data); [apply Hfs|done|intros k Hk; apply S2; lia|done|done]|].
  intros [i' ok] B1 Hwr. unfold wrote in Hwr. cbn [fst snd] in Hwr. destruct ok; cbn [negb].
  2: { destruct Hwr as [Hfull [new Hun]]. eapply yields_run; [apply runs_return|]. apply yields_ret. split; [|done]. apply frames_ok; [done|]. eapply fr_undone; [done|by apply frames_refl|done]. }
  destruct Hwr as (new & ind & bl & n & Hw & Hm & Hc).
  destruct (written_put B new B1 next i' ind bl data n ino _ _ _ Hfs Hw Hm Hc Hprep Hi Hu Hd) as (Hre & Hfs1 & Hfs2 & K1 & K2 & E2 & Hh).
  eapply yields_run; [apply runs_inode_put; [done|apply Hw]|]. cbn [negb]. set (B2 := put_inode ino i' B1) in *.
  destruct (runs_release W0 mt B2 old) as (l & Hl & Hr).
  { intros k Hk. assert (owned B2 old = owned B (inode B ino)) as Eo by (by eapply old_owned). rewrite Eo in Hk. by apply (fs_owned _ Hfs ino). }
  eapply yields_run; [exact Hr|]. eexists true, _. split; [apply runs_sync|]. split; [|discriminate].
  destruct (frames_ok B2 _ Hfs2 (old_blocks_free B new B1 i' ind bl ino l Hfs Hw Hi Hre Hfs2 E2 Hl)) as [Hfs3 K3].
  set (B3 := bset _ _ _) in *. assert (iused B2 ino = true) as Hu2 by (by apply (k_used _ _ _ K2)). destruct Hh as [H1 H2 H3 H4].
  destruct (k_file _ _ _ K3 ino Hi Hu2 H1) as [F1 F2]; [intros []|]. split; [done|]. split; [eapply keeps_trans; [exact K2|]; eapply keeps_weaken; [exact K3|intros ? []]|].
  split; [by apply (k_used _ _ _ K3)|]. by constructor; rewrite F1; try done; rewrite F2.
Qed.

Lemma store_new B d name ino data m u g :
  fs_ok B -> ino_ok d -> is_dir (inode B d) = true -> iused B d = true -> find_name B d name = None -> Forall is_u8 name ->
  ino_ok ino -> iused B ino = false -> Forall is_u8 data -> (length data <= 4096 * 1036)%nat ->
  yields (bset INODE_BITMAP (mark_bit (ino - 1) (B INODE_BITMAP)) B) (store_inode (Some (d, name)) ino None (new_file m u g) data)
    (fun ok B' => stores B ino data (0x8000 + m mod 512) (u mod 2 ^ 16) (g mod 2 ^ 16) ok B' /\ (ok = true -> find_name B' d name = Some ino) /\
      (ok = false -> (free B <= blocks_of (Z.of_nat (length data)))%nat \/ dir_room (dir_block B d) name = false)).
Proof.
  intros Hfs Hd Hdir Hud Hnone Hnm Hi Hfree Hdata Hlen. set (B1 := bset INODE_BITMAP _ B).
  assert (frames none B B1) as F1 by (apply fr_mark; [done|by apply frames_refl|done]). destruct (frames_ok B B1 Hfs F1) as [Hfs1 K1].
  assert (iused B1 ino = true) as Hu1 by (apply marked_used; [apply Hfs|done]).
  assert (inode B1 ino = zero_inode) as Ez by (rewrite (fr_inodes _ _ _ F1) by (done || intros []); by apply (fs_free _ Hfs)).
  destruct (new_file_ok m u g) as (N1 & N2 & N3 & N4 & N5 & N6). unfold store_inode. set (next := set_blocks 0 _).
  assert (is_u32 (Z.of_nat (length data))) as Hsz by (unfold is_u32; lia). destruct (start_inode (new_file m u g) _ N1 N2 Hsz) as (S1 & S2 & S3 & S4 & S5 & S6).
  assert (prepared next (length data) (0x8000 + m mod 512) (u mod 2 ^ 16) (g mod 2 ^ 16)) as Hprep.
  { unfold prepared. fold next in S1, S2, S3, S4, S5, S6. split_and!; try done; congruence. }
  eapply yields_bind; [apply (write_new_blocks_ok W0 mt B1 next data); [apply Hfs1|done|intros k Hk; apply S2; lia|done|done]|].
  assert (1 <= ino <= 32768) as Hpos by (unfold ino_ok, INODES in Hi; lia). assert (2 <= INODE_BITMAP < NB) as Hib by (by unfold INODE_BITMAP, NB).
  intros [i' ok] B2 Hwr. unfold wrote in Hwr. cbn [fst snd] in Hwr. destruct ok; cbn [negb].
  2: { destruct Hwr as [Hfull [new Hun]]. eapply yields_run; [eapply runs_then; [by apply runs_free_bit|apply runs_return]|]. apply yields_ret.
    split; [|split; [done|intros _; left; unfold free, bused in *; unfold B1 in Hfull; rewrite bset_ne in Hfull by done; exact Hfull]].
    apply frames_ok; [done|]. apply fr_unmark; try done. by eapply fr_undone. }
  destruct Hwr as (new & ind & bl & n & Hw & Hm & Hc).
  destruct (written_put B1 new B2 next i' ind bl data n ino _ _ _ Hfs1 Hw Hm Hc Hprep Hi Hu1) as (Hre & Hfs2 & Hfs3 & K2 & K3 & E3 & Hh); [by rewrite Ez|].
  eapply yields_run; [apply runs_inode_put; [done|apply Hw]|]. cbn [negb]. set (B3 := put_inode ino i' B2) in *.
  assert (keeps none B B3) as K by (apply (keeps_fresh ino); [|done]; eapply keeps_trans; [eapply keeps_weaken; [exact K1|intros ? []]|exact K3]).
  assert (frames none B1 B2) as F2 by (eapply fr_grows; [done|by apply frames_refl|apply Hw]). assert (d <> ino) as Hne by congruence.
  eapply yields_bind.
  { apply (dir_add_ok W0 mt B3 d name ino); try done; [by apply (k_dir _ _ _ K)|by apply (k_used _ _ _ K)|by apply (k_used _ _ _ K3)|].
    by rewrite (other_find B2 ino B3), (frames_find B1 B2), (frames_find B B1). }
  intros ok B4 Hadd. destruct ok.
  - destruct Hadd as (Hre4 & _ & Hfound). assert (is_dir (inode B3 d) = true) as Hdir3 by by apply (k_dir _ _ _ K).
    assert (keeps none B3 B4) as K4 by (eapply replaces_keeps_none; [done|done|by right]). eexists true, _. split; [apply runs_sync|]. split; [|done].
    destruct Hh as [H1 H2 H3 H4]. assert (iused B3 ino = true) as Hu3 by (by apply (k_used _ _ _ K3)). destruct (k_file _ _ _ K4 ino Hi Hu3 H1) as [G1 G2]; [intros []|].
    split; [by eapply replaces_ok|]. split; [eapply keeps_weaken; [by eapply keeps_trans|intros ? []]|]. split; [by apply (k_used _ _ _ K4)|].
    by constructor; rewrite G1; try done; rewrite G2.
  - destruct Hadd as [-> Hroom]. destruct (writing_release B1 new B2 i' ind bl B3 Hw) as (l & Hl & Hr).
    { intros k Hk. apply put_low; [done|]. right. by apply (grows_used _ _ _ k (wr_grows _ _ _ _ _ _ Hw)). }
    eapply yields_run; [exact Hr|]. eapply yields_run; [apply runs_inode_put; [done|apply zero_inode_ok]|].
    eapply yields_run; [by apply runs_free_bit|]. apply yields_ret. split; [apply frames_ok; [done|]; by eapply taken_back|].
    split; [done|]. intros _. right. rewrite <- (frames_dir_block B B1 d), <- (frames_dir_block B1 B2 d), <- (other_dir B2 ino B3 Hfs2 Hre d); try done.
    + apply (k_dir _ _ _ K2 d); [done|]. by apply (k_dir _ _ _ K1).
    + by apply (k_dir _ _ _ K1).
Qed.

(** Storing once the directory is known. *)
Lemma store_there B d name path data m u g :
  fs_ok B -> ino_ok d -> is_dir (inode B d) = true -> iused B d = true -> Forall is_u8 name -> Forall is_u8 data -> (length data <= 4096 * 1036)%nat ->
  lookup_path B path = find_name B d name ->
  (forall X B2 n, keeps X B B2 -> find_name B2 d name = Some n -> lookup_path B2 path = Some n) ->
  yields B
    (if negb (default 0 (find_name B d name) =? 0) then
       orelse false (inode_get (default 0 (find_name B d name))) (fun i =>
       if is_dir i then ret false else store_inode (Some (d, name)) (default 0 (find_name B d name)) (Some i) (clear_blocks i) data)
     else
       let! ino := alloc_inode in
       if ino =? 0 then ret false else store_inode (Some (d, name)) ino None (new_file m u g) data)
    (fun ok B' => if ok then stored B path data m u g B' else kept B B' /\ room_in B d name data = false).
Proof.
  intros Hfs Hd Hdir Hud Hnm Hdata Hlen El Hpath. unfold stored, room_in. rewrite El. rewrite (proj2 (Nat.leb_le _ _)) by done. cbn [andb].
  destruct (find_name B d name) as [ino|] eqn:Ef; cbn [default from_option].
  - destruct (find_name_ok B d name ino Hfs Hd Ef) as (Hz & Hi & Hu). unfold id. rewrite (proj2 (Z.eqb_neq _ _)) by done. cbn [negb].
    eapply yields_run; [by apply runs_inode_get|]. cbv beta iota. destruct (is_dir (inode B ino)) eqn:Hdi.
    { apply yields_ret. split; [by apply kept_refl|]. cbn [negb]. by rewrite andb_false_r. }
    eapply yields_mono; [by apply store_existing|]. intros ok B' [Hs Hfull]. destruct ok.
    + destruct Hs as (Hfs' & K' & Hu' & Hh). exists ino. split; [done|]. split; [done|]. split; [apply (Hpath (eq ino)); [done|by apply (k_find _ _ _ K')]|]. done.
    + split; [exact Hs|]. rewrite (proj2 (Nat.ltb_ge _ _)) by (by apply Hfull). done.
  - cbn [Z.eqb negb]. eapply yields_bind; [apply alloc_inode_ok|]. intros ino B2 [(-> & -> & Hleft)|(Hi & Hfree & ->)].
    { apply yields_ret. split; [by apply kept_refl|]. rewrite Hleft. by rewrite andb_false_r. }
    rewrite (proj2 (Z.eqb_neq ino 0)) by (unfold ino_ok in Hi; lia). eapply yields_mono; [by apply (store_new B d name ino data m u g)|].
    intros ok B' (Hs & Hf & Hfull). destruct ok.
    + destruct Hs as (Hfs' & K' & Hu' & Hh). exists ino. split; [done|]. split; [done|]. split; [by apply (Hpath (eq ino)); [|apply Hf]|done].
    + split; [exact Hs|]. destruct (Hfull eq_refl) as [Hc| ->]; [by rewrite (proj2 (Nat.ltb_ge _ _))|by rewrite !andb_false_r].
Qed.

(** Directories made on the way change nothing of what was there. *)
Lemma stored_later B B1 path data m u g B' :
  fs_ok B -> kept B B1 -> lookup_path B path = lookup_path B1 path -> stored B1 path data m u g B' -> stored B path data m u g B'.
Proof.
  intros Hfs [Hfs1 K1] El (ino & Hfs' & K' & Hl & Hm). exists ino. split; [done|]. split; [eapply keeps_trans; [eapply keeps_weaken; [exact K1|intros ? []]|done]|].
  split; [done|]. rewrite El. destruct (lookup_path B1 path) as [n|]; destruct Hm as [Hn Hh].
  - subst n. split; [done|]. destruct (lookup_path_ok B path ino Hfs El) as [Hi Hu].
    assert (is_dir (inode B1 ino) = false \/ is_dir (inode B1 ino) = true) as [Hd1|Hd1] by (destruct (is_dir (inode B1 ino)); auto).
    + assert (is_dir (inode B ino) = false) as Hdb by (destruct (is_dir (inode B ino)) eqn:Edb; [|done]; by rewrite (k_dir _ _ _ K1) in Hd1).
      destruct (k_file _ _ _ K1 ino Hi Hu Hdb) as [Ei _]; [intros []|]. by rewrite <- Ei.
    + pose proof (h_file _ _ _ _ _ _ Hh) as Hf. by rewrite (k_dir _ _ _ K') in Hf.
  - split; [|done]. destruct (iused B ino) eqn:Eu; [|done]. destruct (decide (ino_ok ino)) as [Hi|Hi].
    + by rewrite (k_used _ _ _ K1) in Hn.
    + by destruct (lookup_path_ok B' path ino Hfs' Hl).
Qed.

Lemma store_at B path p data m u g :
  skip_slashes path = p -> word p -> fs_ok B -> Forall is_u8 p -> Forall is_u8 data -> (length data <= 4096 * 1036)%nat ->
  clear_way (length p) B ROOT_INO p = true -> (length (leaf_of (length p) p) < 256)%nat ->
  yields B
    (orelse false (walk path true true) (fun pl =>
     if negb (found pl =? 0) then
       orelse false (inode_get (found pl)) (fun i =>
       if is_dir i then ret false else store_inode (parent pl) (found pl) (Some i) (clear_blocks i) data)
     else
       let! ino := alloc_inode in
       if ino =? 0 then ret false else store_inode (parent pl) ino None (new_file m u g) data))
    (fun ok B' => if ok then stored B path data m u g B' else kept B B' /\ room_for B path data = false).
Proof.
  intros Ep Hw Hfs Hb Hdata Hlen Hway Hleaf. assert (ino_ok ROOT_INO) as Hroot by done. destruct (fs_root _ Hfs) as [_ Hur].
  assert (forall B, lookup_path B path = resolve (length p) B ROOT_INO p) as El by (intros B'; unfold lookup_path; rewrite Ep; by destruct p).
  assert (walk path true true = walk_from (length p) ROOT_INO p true true :> E (option place)) as -> by (unfold walk; rewrite Ep; by destruct p).
  unfold orelse at 1. eapply yields_bind; [by apply walk_create_ok|]. intros r B1 (Hk & Hpar & Hr). pose proof Hk as [Hfs1 K1]. unfold room_for. rewrite Ep.
  destruct r as [pl|]; [|apply yields_ret; split; [done|]; destruct (parent_from _ B ROOT_INO p); [by destruct Hpar as [_ [n ?]]|done]].
  destruct Hr as (d & name & E1 & E2 & Hd & Hdir & Hud & Hnm & Hres & Hlater). rewrite E1, E2.
  assert (lookup_path B1 path = find_name B1 d name) as El1 by (rewrite El; apply (Hlater none), keeps_refl).
  eapply yields_mono; [apply (store_there B1 d name path data m u g); try done; intros X B2 n HK Hf; rewrite El; by rewrite (Hlater X)|].
  intros ok B' Hp. destruct ok; [eapply stored_later; try done; by rewrite El1, El, Hres|]. destruct Hp as [Hp Hroom]. split; [by eapply kept_trans|].
  destruct (parent_from (length p) B ROOT_INO p) as [[d0 name0]|] eqn:Epar; [|done]. destruct Hpar as [-> [n [= ->]]]; [done|]. cbn [parent] in E1. by injection E1 as -> ->.
Qed.

Lemma ext2_store_ok B path data m u g :
  up mt = true -> fs_ok B -> Forall is_u8 path -> Forall is_u8 data -> clear_path B path = true -> (length (leaf_name path) < 256)%nat ->
  yields B (ext2_store path data m u g) (fun ok B' => if ok then stored B path data m u g B' else kept B B' /\ room_for B path data = false).
Proof.
  intros Hmt Hfs Hb Hdata Hway Hleaf. unfold ext2_store.
  assert (Forall is_u8 (skip_slashes path)) as Hbp.
  { clear -Hb. induction Hb as [|c q Hc Hq IH]; [done|]. cbn [skip_slashes]. destruct (c =? 47); [done|by constructor]. }
  eapply yields_get; [intros s Hs; assert (mounted s = true) as -> by (by rewrite (at_mounted _ _ _ _ Hs)); reflexivity|]. cbn [negb orb].
  destruct (Z.ltb_spec MAX_FILE_SIZE (Z.of_nat (length data))) as [Hlen|Hlen]; change MAX_FILE_SIZE with (1036 * 4096) in Hlen.
  { apply yields_ret. split; [by apply kept_refl|]. unfold room_for, room_in. rewrite (proj2 (Nat.leb_gt _ _)) by lia. by destruct (parent_from _ _ _ _) as [[??]|]. }
  unfold clear_path, leaf_name in *. destruct (skip_word path) as [Er|Hw].
  - unfold walk. rewrite Er. eapply yields_run; [apply runs_return|]. cbn [found Z.eqb negb]. change (ROOT_INO =? 0) with false. cbn [negb].
    eapply yields_run; [by apply runs_inode_get|]. cbv beta iota. rewrite (proj1 (fs_root _ Hfs)). apply yields_ret. split; [by apply kept_refl|].
    unfold room_for. by rewrite Er.
  - apply (store_at B path (skip_slashes path)); try done; [lia|by destruct (skip_slashes path)|by destruct (skip_slashes path)].
Qed.
End store.
