(* ===== verification/KernelDisk.v ===== *)
(** * The kernel's disk driver (src/kernel/drivers/disk/disk.c, lines 15 to 17 and 24)

    Programmed I/O on the primary ATA channel, as in the rescue system, with
    four reads of the alternate status after a drive is selected and a flag
    [dirty] in place of a count of writes.  The polling loops and the loops over
    the words of a sector are those of [Mini64Ata].  On the drive of that file
    the driver is a disk as the file systems expect it: the instance of
    [DiskLaws]. *)

From stdpp Require Import base numbers list.
From Stdlib Require Import ZArith Lia.
From S2P Require Import Prelude Ports Mini64Ata Mini64Fat Mini64FatProof.

Record disk (D : Type) := Disk_ { channel : D; dirty : bool }.
Arguments Disk_ {D}. Arguments channel {D}. Arguments dirty {D}.

Section driver.
Context {D : Type} `{Ports D}.

Definition ready (d : D) : bool * D := wait_ready POLLS d.
Definition data_ready (d : D) : bool * D := wait_data POLLS d.

(** [for (int i = 0; i < 4; i++) inb(0x3f6);] *)
Fixpoint settle (n : nat) (d : D) : D :=
  match n with O => d | S n => let '(_, d) := inb 0x3F6 d in settle n d end.

Definition select (lba cmd : Z) (d : D) : bool * D :=
  let '(ok, d) := ready d in
  if negb ok then (false, d) else
  let d := outb 0x1F6 (u8 (Z.lor 0xE0 (Z.land (Z.shiftr lba 24) 15))) d in
  let d := settle 4 d in
  let d := outb 0x1F2 1 d in
  let d := outb 0x1F3 (u8 lba) d in
  let d := outb 0x1F4 (u8 (Z.shiftr lba 8)) d in
  let d := outb 0x1F5 (u8 (Z.shiftr lba 16)) d in
  let d := outb 0x1F7 cmd d in
  (true, d).

Definition disk_read (lba : Z) (k : disk D) : option (list Z) * disk D :=
  let '(ok, d) := select lba 0x20 (channel k) in
  if negb ok then (None, Disk_ d (dirty k)) else
  let '(ok, d) := data_ready d in
  if negb ok then (None, Disk_ d (dirty k)) else
  let '(ws, d) := read_words 256 d in
  (Some (bytes_of_words ws), Disk_ d (dirty k)).

Definition disk_write (lba : Z) (buf : list Z) (k : disk D) : bool * disk D :=
  let '(ok, d) := select lba 0x30 (channel k) in
  if negb ok then (false, Disk_ d (dirty k)) else
  let '(ok, d) := data_ready d in
  if negb ok then (false, Disk_ d (dirty k)) else
  let d := write_words 256 buf d in
  let '(ok, d) := ready d in
  (ok, Disk_ d true).

Definition disk_sync (k : disk D) : bool * disk D :=
  if negb (dirty k) then (true, k) else
  let '(ok, d) := ready (channel k) in
  if negb ok then (false, Disk_ d (dirty k)) else
  let d := outb 0x1F7 0xE7 d in
  let '(ok, d) := ready d in
  if negb ok then (false, Disk_ d (dirty k)) else
  (true, Disk_ d false).

End driver.

#[export] Instance kernel_disk {D : Type} `{Ports D} : Disk (disk D) := {
  blk_read := disk_read; blk_write := disk_write; blk_flush := disk_sync
}.

(** ** On a drive *)

#[local] Opaque POLLS.
#[local] Hint Resolve polls_pos polls_enough : os64.

Lemma select_command lba cmd (d : drive) :
  (busy d < POLLS)%nat ->
  exists d', select lba cmd d = (true, command cmd d') /\ addressed d' = lba mod 2 ^ 28 /\
    sectors d' = sectors d /\ latency d' = latency d /\ identity d' = identity d.
Proof.
  intros Hb. unfold select, ready. rewrite wait_ready_settles by done. cbn [negb].
  eexists. split; [cbn; reflexivity|]. split_and!; try reflexivity. unfold addressed. cbn. apply addressed_select.
Qed.

Definition image (k : disk drive) : Z -> list Z := sectors (channel k).

Lemma kernel_read_ok lba (k : disk drive) :
  idle (channel k) ->
  exists k', disk_read lba k = (Some (image k (lba mod 2 ^ 28)), k') /\ image k' = image k /\ idle (channel k').
Proof.
  intros [Hp Hb Hl Hs Hi]. unfold disk_read. destruct (select_command lba 0x20 (channel k) Hb) as (d&->&Ha&Hse&Hla&Hid0). cbn [negb].
  unfold data_ready. rewrite wait_data_settles by (cbn; congruence || lia). cbn [negb].
  set (d1 := settled _). destruct (Hs (lba mod 2 ^ 28)) as [Hlen Hu8].
  assert (ph d1 = DataIn (words_of_bytes (sectors (channel k) (lba mod 2 ^ 28)))) as Hph1 by (cbn; by rewrite Hse, Ha).
  assert (length (words_of_bytes (sectors (channel k) (lba mod 2 ^ 28))) = 256%nat) as H256 by (rewrite words_length, Hlen; reflexivity).
  rewrite <- H256, (read_words_all _ d1 Hph1) by (intros Hn; rewrite Hn in H256; done).
  rewrite bytes_words by (done || (exists 256%nat; by rewrite Hlen)).
  eexists. split_and!; [done|exact Hse|]. apply idle_intro; cbn; rewrite ?Hla, ?Hse, ?Hid0; auto with os64.
Qed.

Lemma kernel_write_ok lba b (k : disk drive) :
  idle (channel k) -> sector_ok b ->
  exists k', disk_write lba b k = (true, k') /\ image k' = set_sector (lba mod 2 ^ 28) b (image k) /\ idle (channel k') /\ dirty k' = true.
Proof.
  intros [Hp Hb Hl Hs Hi] [Hlen Hu8]. unfold disk_write. destruct (select_command lba 0x30 (channel k) Hb) as (d&->&Ha&Hse&Hla&Hid0). cbn [negb].
  unfold data_ready. rewrite wait_data_settles by (cbn; congruence || lia). cbn [negb].
  rewrite (write_words_all b 256 _ (lba mod 2 ^ 28) []); [|cbn; by rewrite Ha|by intros ->|done|by rewrite Hlen|by rewrite Hlen].
  unfold ready. rewrite wait_ready_settles by (cbn; lia). eexists. split_and!; [done|cbn; by rewrite Hse| |done].
  apply idle_intro; cbn; rewrite ?Hla, ?Hid0; auto with os64. intros l. rewrite Hse. unfold set_sector. destruct (l =? _); [done|apply Hs].
Qed.

Lemma kernel_sync_ok (k : disk drive) :
  idle (channel k) -> exists k', disk_sync k = (true, k') /\ image k' = image k /\ idle (channel k') /\ dirty k' = false.
Proof.
  intros [Hp Hb Hl Hs Hi]. unfold disk_sync. destruct (dirty k) eqn:Hd; cbn [negb]; [|by exists k].
  unfold ready. rewrite wait_ready_settles by done. cbn [negb]. rewrite wait_ready_settles by done. cbn [negb].
  eexists. split_and!; [done..| |done]. apply idle_intro; cbn; auto with os64.
Qed.

#[export] Instance kernel_disk_laws : DiskLaws (disk drive).
Proof.
  refine {| view := image; good := fun k => idle (channel k) |}.
  - intros k lba Hk. apply Hk.
  - intros k lba Hk Hl. destruct (kernel_read_ok lba k Hk) as (k'&Hr&?&?). rewrite Z.mod_small in Hr by lia. by exists k'.
  - intros k lba b Hk Hl Hb. destruct (kernel_write_ok lba b k Hk Hb) as (k'&?&Hw&?&_). rewrite Z.mod_small in Hw by lia. by exists k'.
  - intros k Hk. destruct (kernel_sync_ok k Hk) as (k'&?&?&?&_). by exists k'.
Defined.

Definition blank : disk drive := Disk_ blank_drive false.

Lemma blank_idle : idle (channel blank).
Proof. apply blank_disk_ok. Qed.
