(* ===== verification/Ext2Theorems.v ===== *)
(** * The ext2 file system: what its operations promise

    Formatting gives an empty volume that satisfies the invariant; a store
    keeps the invariant and the data it stored is what a load returns, with
    every other file as it was, also when the store fails. *)

From stdpp Require Import base numbers list strings.
From Stdlib Require Import ZArith Lia.
From S2P Require Import Prelude Effects Ports Mini64Ata Mini64Fat Mini64FatProof.
From S2P Require Import KernelDisk Ext2 Ext2Blocks Ext2Dir Ext2Files Ext2Tree Ext2Ops Ext2Store.

Implicit Types (B : Z -> list Z) (path data : list Z) (ino : Z).

(** ** The formatted volume *)

Lemma mark_bits_ok (l : list Z) b : block_ok b -> block_ok (mark_bits l b).
Proof. revert b. induction l as [|n l IH]; intros b Hb; [done|]. apply IH. by apply mark_block. Qed.

Lemma bit_set_mark_bits (l : list Z) b j :
  Forall (fun n => 0 <= n < 32768) l -> 0 <= j -> block_ok b -> bit_set (mark_bits l b) j = bool_decide (j ∈ l) || bit_set b j.
Proof.
  intros Hl Hj. revert b. induction Hl as [|n l Hn Hl IH]; intros b Hb; [done|].
  unfold mark_bits. cbn [fold_left]. fold (mark_bits l (mark_bit n b)). rewrite IH by (by apply mark_block). rewrite bit_set_mark by done.
  rewrite (bool_decide_ext (j ∈ n :: l) (j = n \/ j ∈ l)) by apply elem_of_cons. destruct (Z.eqb_spec j n) as [->|Hne]; cbn [orb].
  - rewrite orb_true_r. by rewrite bool_decide_eq_true_2 by (by left).
  - f_equal. apply bool_decide_ext. split; [by right|by intros [?|?]].
Qed.

Lemma new_bitmap_ok used n : 0 <= used -> used <= n <= 32768 -> block_ok (new_bitmap used n) /\ forall j, 0 <= j < used -> bit_set (new_bitmap used n) j = true.
Proof.
  intros Hu Hn. unfold new_bitmap. assert (block_ok (mark_bits (seqZ 0 used) (zero (Z.to_nat BS)))) as Hb by apply mark_bits_ok, zero_block.
  split; [by apply mark_bits_ok|]. intros j Hj. rewrite bit_set_mark_bits; [|apply Forall_forall; intros x Hx%elem_of_seqZ; lia|lia|done].
  rewrite bit_set_mark_bits; [|apply Forall_forall; intros x Hx%elem_of_seqZ; lia|lia|apply zero_block].
  rewrite (bool_decide_eq_true_2 (j ∈ seqZ 0 used)) by (apply elem_of_seqZ; lia). apply orb_true_r.
Qed.

Lemma bit_set_zero j : bit_set (zero (Z.to_nat BS)) j = false.
Proof. unfold bit_set. by rewrite zero_bytes, Z.land_0_l. Qed.

Lemma new_bitmap_clear used n j : 0 <= used -> n <= 32768 -> used <= j < n -> bit_set (new_bitmap used n) j = false.
Proof.
  intros Hu Hn Hj. unfold new_bitmap. assert (block_ok (mark_bits (seqZ 0 used) (zero (Z.to_nat BS)))) as Hb by apply mark_bits_ok, zero_block.
  rewrite bit_set_mark_bits; [|apply Forall_forall; intros x Hx%elem_of_seqZ; lia|lia|done].
  rewrite bit_set_mark_bits; [|apply Forall_forall; intros x Hx%elem_of_seqZ; lia|lia|apply zero_block].
  rewrite bit_set_zero, !bool_decide_eq_false_2 by (rewrite elem_of_seqZ; lia). done.
Qed.

#[local] Opaque new_bitmap.

Lemma filter_all {A} (f : A -> bool) l : (forall x, In x l -> f x = true) -> List.filter f l = l.
Proof. induction l as [|x l IH]; intros Ha; [done|]. cbn. rewrite Ha by (by left). f_equal. apply IH. intros y Hy. apply Ha. by right. Qed.

(** The root directory has room for every name that fits. *)
Lemma first_room ino par name : is_u32 ino -> is_u32 par -> ino <> 0 -> par <> 0 -> (1 <= length name <= 255)%nat -> dir_room (first_records ino par) name = true.
Proof.
  intros Hi Hp Hiz Hpz Hl. destruct (first_records_fields ino par Hi Hp) as ((E1 & E2 & E3) & E4 & E5 & E6). unfold dir_room.
  rewrite (proj2 (Nat.eqb_neq _ _)), (proj2 (Nat.leb_le _ _)) by lia. cbn [negb andb]. set (b := first_records ino par) in *.
  pose proof (ideal_range (Z.of_nat (length name)) ltac:(lia)) as Hid. assert (exists f, RECORDS = S (S f)) as [f ->] by (by exists 511%nat). clearbody b. cbn [add_record].
  rewrite E1, E2, E3. change (ideal 1) with 12. rewrite (proj2 (Z.leb_gt (12 + _) 12)) by lia. rewrite andb_false_r. 
  change (negb (0 + 8 <=? BS)) with false. change ((12 <? 8) || (BS <? 0 + 12)) with false. cbv iota. change (0 + 12) with 12. rewrite E4, E5, E6. change (ideal 2) with 12. rewrite (proj2 (Z.eqb_neq par 0)), (proj2 (Z.leb_le (12 + _) 4084)) by lia.
  change (negb (12 + 8 <=? BS)) with false. change ((4084 <? 8) || (BS <? 12 + 4084)) with false. reflexivity.
Qed.

Definition tables B : Z -> list Z := fun n => if (INODE_TABLE <=? n) && (n <? FIRST_DATA) then zero (Z.to_nat BS) else B n.

Definition formatted B : Z -> list Z :=
  bset FIRST_DATA (first_records ROOT_INO ROOT_INO)
    (put_inode ROOT_INO root_inode (tables (bset INODE_BITMAP (new_bitmap 10 INODES) (bset BLOCK_BITMAP (new_bitmap (FIRST_DATA + 1) NB) B)))).

Lemma root_inode_ok : inode_ok root_inode /\ is_dir root_inode = true /\ i_block 0 root_inode = FIRST_DATA /\ i_block 12 root_inode = 0 /\ forall B, owned B root_inode = [FIRST_DATA].
Proof. split; [split; [done|]|split_and!; try by vm_compute]. by repeat constructor. Qed.

(** A volume with nothing but its root directory. *)
Lemma empty_ok F :
  blocks_ok F -> (forall j, ino_ok j -> inode F j = if decide (j = ROOT_INO) then root_inode else zero_inode) -> iused F ROOT_INO = true ->
  bused F FIRST_DATA = true -> records (dir_block F ROOT_INO) 0 [(ROOT_INO, [46]); (ROOT_INO, [46; 46])] -> fs_ok F.
Proof.
  intros Hb Hino Hu Hbu Hr. destruct root_inode_ok as (R1 & R2 & R3 & R4 & R5). assert (ino_ok ROOT_INO) as Hroot by done.
  assert (inode F ROOT_INO = root_inode) as Er by (rewrite Hino by done; by rewrite decide_True).
  assert (forall j n, ino_ok j -> n ∈ owned F (inode F j) -> j = ROOT_INO /\ n = FIRST_DATA) as Ho.
  { intros j n Hj. rewrite Hino by done. case_decide as E.
    - rewrite R5. intros Hn%list_elem_of_singleton. split; assumption.
    - rewrite (proj2 zero_inode_fields). intros Hn. exfalso. exact (not_elem_of_nil n Hn). }
  constructor; [done| | | | |by rewrite Er].
  - intros j n Hj Hn. destruct (Ho j n Hj Hn) as [_ ->]. split; [by unfold FIRST_DATA, NB|done].
  - intros j j' n Hj Hj' Hne Hn Hn'. destruct (Ho j n Hj Hn) as [-> _]. destruct (Ho j' n Hj' Hn') as [-> _]. congruence.
  - intros j Hj Hf. rewrite Hino by done. case_decide; [congruence|done].
  - intros j Hj Hd. assert (j = ROOT_INO) as ->.
    { rewrite Hino in Hd by done. case_decide; [done|]. rewrite (proj1 zero_inode_fields) in Hd. discriminate. }
    constructor; rewrite ?Er; [done|rewrite R3; by unfold FIRST_DATA|]. eexists. split; [exact Hr|]. rewrite !Forall_cons, Forall_nil. done.
Qed.

Section formatted.
Context B (HB : blocks_ok B).

Let F := formatted B.

Lemma formatted_low n : 2 <= n < INODE_TABLE -> F n = if n =? INODE_BITMAP then new_bitmap 10 INODES else new_bitmap (FIRST_DATA + 1) NB.
Proof.
  unfold INODE_TABLE. intros Hn. unfold F, formatted. rewrite bset_ne by (unfold FIRST_DATA; lia). rewrite put_low by (done || unfold INODE_TABLE; lia).
  unfold tables. rewrite (proj2 (Z.leb_gt _ _)) by (unfold INODE_TABLE; lia). cbn [andb]. unfold bset, INODE_BITMAP, BLOCK_BITMAP.
  destruct (Z.eqb_spec n 3); [reflexivity|]. rewrite (proj2 (Z.eqb_eq n 2)) by lia. reflexivity.
Qed.

Lemma table_zero n : INODE_TABLE <= n < FIRST_DATA -> forall B', tables B' n = zero (Z.to_nat BS).
Proof. intros Hn B'. unfold tables. by rewrite (proj2 (Z.leb_le _ _)), (proj2 (Z.ltb_lt _ _)) by lia. Qed.

Lemma formatted_inode j : ino_ok j -> inode F j = if decide (j = ROOT_INO) then root_inode else zero_inode.
Proof.
  intros Hj. assert (ino_ok ROOT_INO) as Hr by done. unfold F, formatted. set (T := tables _).
  assert (block_ok (T (inode_block ROOT_INO))) as Hb by (unfold T; rewrite table_zero by (by apply inode_place); apply zero_block).
  rewrite (inode_frame (put_inode ROOT_INO root_inode T)) by (done || (intros n Hn; apply bset_ne; lia)).
  case_decide as E; [subst; by apply inode_put_same|]. rewrite inode_put_other by done.
  unfold inode, T. rewrite table_zero by (by apply inode_place). destruct (inode_place j Hj) as [_ Ho]. unfold zero_inode, zero, BS.
  rewrite drop_replicate, take_replicate. f_equal. lia.
Qed.

Lemma formatted_unused n : FIRST_DATA < n < NB -> bused F n = false.
Proof.
  intros Hn. unfold bused. rewrite formatted_low by (by unfold BLOCK_BITMAP, INODE_TABLE). change (BLOCK_BITMAP =? INODE_BITMAP) with false. cbv iota.
  apply new_bitmap_clear; [unfold FIRST_DATA; lia|unfold NB; lia|unfold FIRST_DATA, NB in *; lia].
Qed.

Lemma formatted_free : free F = Z.to_nat (NB - (FIRST_DATA + 1)).
Proof.
  unfold free. rewrite filter_all; [unfold data_blocks; by rewrite length_seqZ|]. intros n Hn%list_elem_of_In. unfold data_blocks in Hn. apply elem_of_seqZ in Hn.
  rewrite formatted_unused; [reflexivity|unfold FIRST_DATA, NB in *; lia].
Qed.

Lemma formatted_inodes j : 1 <= j <= INODES -> iused F j = (j <=? 10).
Proof.
  intros Hj. unfold iused. rewrite formatted_low by (by unfold INODE_BITMAP, INODE_TABLE). rewrite Z.eqb_refl. unfold INODES in *. destruct (Z.leb_spec j 10).
  - apply (proj2 (new_bitmap_ok 10 8192 ltac:(lia) ltac:(lia))). lia.
  - apply new_bitmap_clear; lia.
Qed.

Lemma formatted_root : F FIRST_DATA = first_records ROOT_INO ROOT_INO.
Proof. apply bset_eq. Qed.

Lemma formatted_records : records (dir_block F ROOT_INO) 0 [(ROOT_INO, [46]); (ROOT_INO, [46; 46])].
Proof.
  unfold dir_block. rewrite formatted_inode, decide_True by done. destruct root_inode_ok as (_ & _ & -> & _). rewrite formatted_root.
  apply first_records_ok; by unfold is_u32, ROOT_INO.
Qed.

Lemma formatted_blocks : blocks_ok F.
Proof.
  assert (forall n, INODE_TABLE <= n < FIRST_DATA -> block_ok (tables B n)) as Ht by (intros n Hn; rewrite table_zero by done; apply zero_block).
  apply bset_ok; [|apply first_records_block]. apply bset_ok.
  - intros n Hn. unfold tables. destruct ((INODE_TABLE <=? n) && (n <? FIRST_DATA)); [apply zero_block|].
    apply bset_ok; [apply bset_ok; [done|]| |done]; apply (fun used n Hu Hn => proj1 (new_bitmap_ok used n Hu Hn)); unfold INODES, FIRST_DATA, NB; lia.
  - apply wtext_block; [apply root_inode_ok|]. rewrite table_zero by (by apply inode_place). apply zero_block.
Qed.

Lemma formatted_ok : fs_ok F.
Proof.
  apply empty_ok.
  - apply formatted_blocks.
  - apply formatted_inode.
  - rewrite formatted_inodes; [reflexivity|unfold ROOT_INO, INODES; lia].
  - unfold bused. rewrite formatted_low by (by unfold BLOCK_BITMAP, INODE_TABLE). change (BLOCK_BITMAP =? INODE_BITMAP) with false. cbv iota.
    apply (proj2 (new_bitmap_ok (FIRST_DATA + 1) NB ltac:(unfold FIRST_DATA; lia) ltac:(unfold FIRST_DATA, NB; lia))). unfold FIRST_DATA. lia.
  - apply formatted_records.
Qed.

Lemma formatted_dir : dir_block F ROOT_INO = first_records ROOT_INO ROOT_INO.
Proof. unfold dir_block. rewrite formatted_inode, decide_True by done. destruct root_inode_ok as (_ & _ & -> & _). apply formatted_root. Qed.

Lemma formatted_names nm : dots nm = false -> find_name F ROOT_INO nm = None.
Proof.
  intros Hnm. pose proof formatted_ok as Hfs. assert (ino_ok ROOT_INO) as Hroot by done. destruct (fs_root _ Hfs) as [Hdir _].
  destruct (fs_dirs _ Hfs _ Hroot Hdir) as [_ Hz _]. destruct (dir_block_ok _ _ Hfs Hroot Hdir) as [Hb _].
  rewrite (find_name_assoc _ _ nm _ Hdir Hz Hb formatted_records). unfold dots in Hnm. apply orb_false_iff in Hnm as [?%bool_decide_eq_false ?%bool_decide_eq_false].
  cbn [assoc]. rewrite !bool_decide_eq_false_2 by congruence. reflexivity.
Qed.
End formatted.

(** A volume without files, with room in its root directory. *)
Record empty_volume B : Prop := {
  ev_ok : fs_ok B;
  ev_names : forall nm, dots nm = false -> find_name B ROOT_INO nm = None;
  ev_free : (1036 < free B)%nat;
  ev_left : inode_left B = true;
  ev_root : dir_block B ROOT_INO = first_records ROOT_INO ROOT_INO
}.

Lemma formatted_empty B : blocks_ok B -> empty_volume (formatted B).
Proof.
  intros HB. constructor; [by apply formatted_ok|by apply formatted_names| | |apply formatted_dir].
  - rewrite formatted_free. unfold NB, FIRST_DATA. lia.
  - unfold inode_left. apply existsb_exists. exists 11. split; [apply list_elem_of_In, elem_of_seqZ; unfold INODES; lia|].
    rewrite formatted_inodes; [reflexivity|unfold INODES; lia].
Qed.


Section format.
Context {D : Type} `{DiskLaws D} (W0 : Z -> list Z) (mt : standing).

Local Abbreviation E := (M (ext2 D)).
Local Abbreviation runs := (runs W0 mt).

(** Running to a mounted volume. *)
Definition mounts {A} B (m : E A) (a : A) B' : Prop := forall s, at_ W0 mt B s -> exists s', m s = Ok (a, s') /\ at_ W0 (Standing true (marks mt)) B' s'.

Lemma mounts_bind {A C} B (m : E A) a B1 (f : A -> E C) c B2 : runs B m a B1 -> mounts B1 (f a) c B2 -> mounts B (bind m f) c B2.
Proof.
  intros Hm Hf s Hs. destruct (Hm s Hs) as (s1 & E1 & H1). destruct (Hf s1 H1) as (s2 & E2 & H2). exists s2. unfold bind. by rewrite E1.
Qed.

Lemma mounts_last B : mounts B (set_mounted true ;; ret true) true B.
Proof. intros s [H1 H2 H3 H4 Hm H5 H6]. eexists. split; [reflexivity|]. by constructor. Qed.

Lemma runs_bwrite_group B b : block_ok b -> runs B (bwrite 1 b) true B.
Proof.
  intros Hb s Hs. destruct (bwrite_at W0 mt B s 1 b Hs) as (s' & E & [H1 H2 H3 H4 Hm H5 H6]); [unfold NB; lia|done|done|]. exists s'. split; [done|].
  constructor; try done. intros k Hk. rewrite H5 by done. apply bset_ne. lia.
Qed.

Lemma runs_write_all (l : list Z) B b : Forall (fun n => 2 <= n < NB) l -> block_ok b -> runs B (write_all l b) true (fun n => if bool_decide (n ∈ l) then b else B n).
Proof.
  intros Hl Hb. revert B. induction Hl as [|n l Hn Hl IH]; intros B.
  { eapply runs_result; [apply runs_return|]. intros n _. by rewrite bool_decide_eq_false_2 by apply not_elem_of_nil. }
  cbn [write_all]. eapply runs_provided; [by apply runs_bwrite|]. eapply runs_result; [apply IH|]. intros k _. cbv beta. unfold bset.
  destruct (decide (k ∈ l)) as [Hin|Hin]; [by rewrite !bool_decide_eq_true_2 by (done || by right)|]. rewrite (bool_decide_eq_false_2 _ Hin).
  destruct (Z.eqb_spec k n) as [->|Hne]; [by rewrite bool_decide_eq_true_2 by (by left)|]. rewrite bool_decide_eq_false_2; [done|]. intros [?|?]%elem_of_cons; done.
Qed.

Lemma runs_tables B : runs B (write_all (map (Z.add INODE_TABLE) (seqZ 0 INODE_TABLE_BLOCKS)) (zero (Z.to_nat BS))) true (tables B).
Proof.
  assert (forall n, n ∈ map (Z.add INODE_TABLE) (seqZ 0 INODE_TABLE_BLOCKS) <-> INODE_TABLE <= n < FIRST_DATA) as Hin.
  { intros n. rewrite list_elem_of_fmap. unfold INODE_TABLE, FIRST_DATA, INODE_TABLE_BLOCKS. split.
    - intros (k & -> & Hk%elem_of_seqZ). lia.
    - intros Hn. exists (n - 4). rewrite elem_of_seqZ. lia. }
  eapply runs_result; [apply runs_write_all; [|apply zero_block]|].
  - apply Forall_forall. intros n Hn%Hin. unfold INODE_TABLE, FIRST_DATA, NB in *. lia.
  - intros n _. unfold tables. rewrite (bool_decide_ext _ _ (Hin n)). case_bool_decide as E.
    + by rewrite (proj2 (Z.leb_le _ _)), (proj2 (Z.ltb_lt _ _)) by lia.
    + destruct (Z.leb_spec INODE_TABLE n), (Z.ltb_spec n FIRST_DATA); cbn [andb]; try reflexivity. lia.
Qed.

Lemma mounts_format B :
  mounts B (provided false (bwrite 1 (group_block NB))
   (provided false (bwrite BLOCK_BITMAP (new_bitmap (FIRST_DATA + 1) NB))
   (provided false (bwrite INODE_BITMAP (new_bitmap 10 INODES))
   (provided false (write_all (map (Z.add INODE_TABLE) (seqZ 0 INODE_TABLE_BLOCKS)) (zero (Z.to_nat BS)))
   (provided false (inode_put ROOT_INO root_inode)
   (let! ok := bwrite FIRST_DATA (first_records ROOT_INO ROOT_INO) in
    let! ok := (if ok then disk_sync else ret false) in
    set_mounted ok ;; ret ok)))))) true (formatted B).
Proof.
  destruct (new_bitmap_ok 10 INODES) as [Hb1 _]; [lia|unfold INODES; lia|]. destruct (new_bitmap_ok (FIRST_DATA + 1) NB) as [Hb2 _]; [unfold FIRST_DATA; lia|unfold FIRST_DATA, NB; lia|].
  unfold provided. eapply mounts_bind; [apply runs_bwrite_group; unfold group_block; repeat first [apply w32_block | apply w16_block]; apply zero_block|]. eapply mounts_bind; [apply runs_bwrite; [by unfold BLOCK_BITMAP, NB|exact Hb2]|].
  eapply mounts_bind; [apply runs_bwrite; [by unfold INODE_BITMAP, NB|exact Hb1]|]. eapply mounts_bind; [apply runs_tables|].
  eapply mounts_bind; [apply runs_inode_put; [by unfold ino_ok|apply root_inode_ok]|]. eapply mounts_bind; [apply runs_bwrite; [by unfold FIRST_DATA, NB|apply first_records_block]|].
  eapply mounts_bind; [apply runs_sync|]. apply mounts_last.
Qed.

(** Writing the superblock sets the marks. *)
Lemma super_at B (s : ext2 D) b : at_ W0 mt B s -> block_ok b -> exists s', bwrite 0 b s = Ok (true, s') /\ at_ W0 (Standing (up mt) (marks_of b)) B s'.
Proof.
  intros [H1 H2 H3 H4 Hm H5 H6] [Hl Hu]. unfold bwrite, bind, get. rewrite H3, (proj2 (Z.leb_gt _ _)) by (unfold NB; lia).
  destruct (write_sectors_ok 8 0 0 b s) as (d & E & G & V & K); [done|done|unfold NB; lia|lia|lia|done|done|]. rewrite E.
  eexists. split; [reflexivity|]. constructor; cbn [dk base blocks mounted]; try done.
  - cbn [marks]. f_equal. apply (chunks 8 0 b (fun i => view d (VAR_START + 0 * 8 + i)) Hl). intros j Hj. by apply V.
  - intros m Hn. rewrite <- H5 by done. unfold block_of. f_equal. apply map_ext_in. intros i Hi. apply list_elem_of_In, elem_of_seqZ in Hi. apply K. lia.
  - intros l Hl'. rewrite K, H6 by (unfold inside in *; unfold NB in *; lia || done). done.
Qed.
End format.

Lemma super_block_ok : block_ok (super_block NB).
Proof. unfold super_block. repeat first [apply w32_block | apply w16_block]. apply zero_block. Qed.

(** A volume that ext2_probe accepts. *)
Definition recognised (k : list Z) : bool := (nth 0 k 0 =? EXT2_MAGIC) && (nth 1 k 0 =? 2) && (nth 2 k 0 =? INODE_SIZE).

Definition ext2_marks : list Z := [EXT2_MAGIC; 2; INODE_SIZE; 0; 2].

Lemma super_marks : marks_of (super_block NB) = ext2_marks.
Proof. by vm_compute. Qed.

Section theorems.
Context {D : Type} `{DiskLaws D}.

Local Abbreviation at_ := (at_ (D := D)).

(** ** Loads and stats on a volume *)

Lemma load_value W0 k B (s : ext2 D) path cap :
  at_ W0 (Standing true k) B s -> fs_ok B -> exists s', ext2_load path cap s = Ok (load_of B path cap, s') /\ at_ W0 (Standing true k) B s'.
Proof. intros Hs Hfs. by apply (runs_load W0 (Standing true k) B path cap Hfs). Qed.

Definition stat_of B path : option (Z * Z * Z * Z) :=
  match lookup_path B path with
  | None => None
  | Some ino => let i := inode B ino in Some (i_size i, Z.land (i_mode i) 0x1ff, i_uid i, i_gid i)
  end.

Lemma stat_value W0 k B (s : ext2 D) path :
  at_ W0 (Standing true k) B s -> fs_ok B -> exists s', ext2_stat path s = Ok (stat_of B path, s') /\ at_ W0 (Standing true k) B s'.
Proof.
  intros Hs Hfs. revert s Hs. fold (runs W0 (Standing true k) B (ext2_stat path) (stat_of B path) B). unfold ext2_stat, stat_of.
  apply runs_get. intros s Hs. rewrite (at_mounted _ _ _ _ Hs). cbn [up negb]. pose proof (runs_locate W0 (Standing true k) B path Hfs) as Hrun.
  destruct (lookup_path B path) as [j|] eqn:El; [|unfold orelse; eapply runs_then; [exact Hrun|apply runs_return]].
  destruct (lookup_path_ok B path j Hfs El) as [Hj _]. eapply runs_orelse; [exact Hrun|]. eapply runs_orelse; [by apply runs_inode_get|]. apply runs_return.
Qed.

Lemma load_kept (X : Z -> Prop) B B1 q cap d :
  fs_ok B -> keeps X B B1 -> (forall ino, lookup_path B q = Some ino -> ~ X ino) -> load_of B q cap = Some d -> load_of B1 q cap = Some d.
Proof.
  intros Hfs Hk Hx. unfold load_of. destruct (lookup_path B q) as [j|] eqn:El; [|discriminate]. rewrite (keeps_path X B B1 q j Hfs Hk El).
  destruct (lookup_path_ok B q j Hfs El) as [Hj Hu]. destruct (is_dir (inode B j)) eqn:Hd; cbn [orb]; [discriminate|].
  destruct (k_file _ _ _ Hk j Hj Hu Hd) as [-> ->]; [by apply Hx|]. by rewrite Hd.
Qed.

Lemma load_held B path data m u g ino cap :
  lookup_path B path = Some ino -> holds B ino data m u g -> Z.of_nat (length data) <= cap -> (length data <= 4096 * 1036)%nat -> load_of B path cap = Some data.
Proof.
  intros El [H1 H2 H3 _] Hcap Hlen. unfold load_of. rewrite El, H1, H2. rewrite (proj2 (Z.ltb_ge cap _)) by done.
  rewrite (proj2 (Z.ltb_ge MAX_FILE_SIZE _)) by (change MAX_FILE_SIZE with (1036 * 4096); lia). exact H3.
Qed.

Lemma file_mode_stat x : 0 <= x < 512 -> Z.land (0x8000 + x) 0x1ff = x.
Proof. intros Hx. change 0x1ff with (Z.ones 9). rewrite Z.land_ones by lia. change (2 ^ 9) with 512. Z.div_mod_to_equations. lia. Qed.

Lemma stat_stored B path data m u g B1 :
  stored B path data m u g B1 ->
  stat_of B1 path = Some match stat_of B path with
    | Some (_, m0, u0, g0) => (Z.of_nat (length data), m0, u0, g0)
    | None => (Z.of_nat (length data), m mod 512, u mod 2 ^ 16, g mod 2 ^ 16)
    end.
Proof.
  intros (ino & _ & _ & El & Hm). unfold stat_of. rewrite El. destruct (lookup_path B path) as [n|].
  - destruct Hm as [-> [_ -> _ (-> & -> & ->)]]. done.
  - destruct Hm as [_ [_ -> _ (-> & -> & ->)]]. by rewrite file_mode_stat by (apply Z.mod_pos_bound; lia).
Qed.

(** After a restart only the disk is left: the volume is found on it. *)
Lemma mount_at W0 c B (s : ext2 D) bs n mt :
  at_ W0 c B s -> recognised (marks c) = true ->
  exists s', ext2_mount (Ext2 (dk s) bs n mt) = Ok (true, s') /\ at_ W0 (Standing true (marks c)) B s'.
Proof.
  intros [H1 H2 H3 H4 Hm H5 H6] Hr. set (s0 := Ext2 (dk s) VAR_START NB mt).
  assert (at_ W0 (Standing mt (marks c)) B s0) as Hs0 by (by constructor). destruct (bread_at _ _ B s0 0 Hs0) as (s1 & E1 & [A1 A2 A3 A4 Am A5 A6]); [by unfold NB|].
  assert (ext2_probe (Ext2 (dk s) bs n mt) = Ok (true, s1)) as Ep.
  { unfold ext2_probe, bind, set_volume, modify. change (Ext2 _ VAR_START (VAR_SECTORS / SECTORS_PER_BLOCK) _) with s0. rewrite E1.
    rewrite <- Hm in Hr. unfold ret. f_equal. f_equal. exact Hr. }
  unfold ext2_mount, bind. rewrite Ep. eexists. split; [reflexivity|]. by constructor.
Qed.


(** Formatting: the volume is mounted and has the root directory only. *)
Lemma format_value (s : ext2 D) :
  good (dk s) -> exists s1 B0, blocks_ok B0 /\ ext2_format s = Ok (true, s1) /\ at_ (view (dk s)) (Standing true ext2_marks) (formatted B0) s1.
Proof.
  intros Hg. set (s0 := Ext2 (dk s) VAR_START NB (mounted s)). set (B0 := block_of (view (dk s))).
  assert (at_ (view (dk s)) (Standing (mounted s) (marks_of (B0 0))) B0 s0) as Hs0 by (by constructor).
  assert (blocks_ok B0) as HB0 by (intros n _; apply block_of_ok; intros l; by apply view_ok).
  destruct (super_at _ _ B0 s0 (super_block NB) Hs0 super_block_ok) as (s2 & E2 & Hs2). rewrite super_marks in Hs2.
  destruct (mounts_format _ _ B0 s2 Hs2) as (s1 & E1 & Hs1). exists s1, B0. split; [done|]. split; [|done].
  unfold ext2_format, bind at 1, set_volume, modify. unfold bind at 1, get. cbn [blocks dk mounted].
  change (VAR_SECTORS / SECTORS_PER_BLOCK) with NB. change ((NB <=? FIRST_DATA + 1) || (32768 <? NB)) with false. cbv iota.
  unfold provided at 1, bind at 1. fold s0. rewrite E2. exact E1.
Qed.

Lemma empty_clear B path : empty_volume B -> no_dots (length (skip_slashes path)) (skip_slashes path) = true -> clear_path B path = true.
Proof.
  intros [Hfs Hfind _ _ _] Hnd. unfold clear_path. destruct (skip_slashes path) as [|c p]; [reflexivity|]. apply no_dots_clear; [apply (fs_root _ Hfs)|done|done].
Qed.

Lemma empty_lookup B path : empty_volume B -> skip_slashes path <> [] -> no_dots (length (skip_slashes path)) (skip_slashes path) = true -> lookup_path B path = None.
Proof. intros [_ Hfind _ _ _] Hne Hnd. unfold lookup_path. destruct (skip_slashes path) as [|c p]; [congruence|]. by apply no_dots_nothing. Qed.

(** A name by itself. *)
Lemma name_path name : 47 ∉ name -> name <> [] -> skip_slashes (47 :: name) = name /\ component name = name /\ after name = [].
Proof.
  intros Hn Hz. split; [destruct name as [|c name]; [done|]; cbn; rewrite (proj2 (Z.eqb_neq c 47)); [done|intros ->; apply Hn; by left]|]. clear Hz.
  induction name as [|c name IH]; [done|]. cbn [component after]. rewrite not_elem_of_cons in Hn. destruct Hn as [Hc Hn]. rewrite (proj2 (Z.eqb_neq c 47)) by congruence.
  destruct (IH Hn) as [-> ->]. done.
Qed.

Lemma empty_room B name data :
  empty_volume B -> (1 <= length name <= 255)%nat -> 47 ∉ name -> dots name = false -> (length data <= 4096 * 1036)%nat -> room_for B (47 :: name) data = true.
Proof.
  intros [_ Hfind Hfree Hleft Hb] Hl Hs Hd Hdata. destruct (name_path name Hs) as (E1 & E2 & E3); [by intros ->; cbn in Hl; lia|]. unfold room_for. rewrite E1.
  destruct name as [|c name]; [cbn in Hl; lia|]. cbn [length parent_from]. rewrite E3, E2. cbn [skip_slashes]. unfold room_in. rewrite Hfind, Hleft, Hb by done.
  rewrite first_room by (done || by unfold is_u32, ROOT_INO). rewrite (proj2 (Nat.leb_le _ _)) by done. rewrite (proj2 (Nat.ltb_lt _ _)); [done|].
  unfold blocks_of. Z.div_mod_to_equations. lia.
Qed.

(** Adding a name does not look at the type of the inode: under a regular file
    whose first block reads as records, the record goes into the file's data. *)
Lemma dir_add_into_file W0 c B f name n type b :
  ino_ok f -> is_dir (inode B f) = false -> let x := i_block 0 (inode B f) in FIRST_DATA <= x < NB -> (1 <= length name <= 255)%nat ->
  add_record RECORDS (B x) name n type 0 = Ok (Some b) -> block_ok b -> runs (D := D) W0 c B (dir_add f name n type) true (bset x b B).
Proof.
  intros Hf _ x Hx Hl Ha Hb. unfold FIRST_DATA in Hx. unfold dir_add. rewrite (proj2 (Z.eqb_neq _ 0)), (proj2 (Z.ltb_ge 255 _)) by lia. cbn [orb].
  eapply runs_orelse; [by apply runs_inode_get|]. fold x. rewrite (proj2 (Z.eqb_neq x 0)) by lia. eapply runs_orelse; [apply runs_bread; lia|].
  eapply runs_then; [apply runs_pure; exact Ha|]. apply runs_bwrite; [lia|done].
Qed.
End theorems.

(** The search for the record of a removed file goes by the lengths it reads:
    a length of 0 is never left. *)
Lemma remove_never_ends (fuel : nat) ino : ino <> 0 -> drop_record fuel (zero (Z.to_nat BS)) ino 0 0 = OutOfFuel.
Proof.
  intros Hi. induction fuel as [|fuel IH]; [done|]. cbn [drop_record]. unfold rec_ino, rec_len. rewrite (proj2 (zero_fields _ _)), (proj1 (zero_fields _ _)).
  rewrite (proj2 (Z.eqb_neq 0 ino)) by congruence. exact IH.
Qed.

(** ** On the kernel's disk driver *)

Definition blank_volume : ext2 (disk drive) := Ext2 blank 0 0 false.

