(* ===== verification/Varfs.v ===== *)
(** * The data partition (src/kernel/fs/varfs.c and ext_variant.c)

    /var is an ext2 volume that is marked as ext3 or ext4 and then carries a
    journal inode.  Formatting it at any level gives a volume that satisfies the
    invariant of the ext2 operations, the journal included, and mounting it finds
    the level again. *)

From stdpp Require Import base numbers list strings.
From Stdlib Require Import ZArith Lia.
From S2P Require Import Prelude Effects Ports Mini64Ata Mini64Fat Mini64FatProof.
From S2P Require Import KernelDisk Ext2 Ext2Blocks Ext2Dir Ext2Files Ext2Tree Ext2Ops Ext2Store Ext2Theorems.

Definition JOURNAL_FIRST : Z := 261.
Definition JOURNAL_BLOCKS : Z := 1024.
Definition JOURNAL_INDIRECT : Z := 1285.

Record varfs (D : Type) := Varfs { vol : ext2 D; current : Z }.
Arguments Varfs {D}. Arguments vol {D}. Arguments current {D}.

Definition be32 (o : nat) (v : Z) (b : list Z) : list Z :=
  w8 (o + 3) v (w8 (o + 2) (Z.shiftr v 8) (w8 (o + 1) (Z.shiftr v 16) (w8 o (Z.shiftr v 24) b))).

(** Inode 8, at [b + 7 * 128]. *)
Definition journal_inode : inode_t :=
  let i := w32 28 ((JOURNAL_BLOCKS + 1) * 8) (w16 26 1 (w32 4 (JOURNAL_BLOCKS * BS) (w16 0 0x8180 zero_inode))) in
  let i := fold_left (fun i n => w32 (40 + n * 4) (JOURNAL_FIRST + Z.of_nat n) i) (seq 0 12) i in
  w32 88 JOURNAL_INDIRECT i.

Definition journal_entries : list Z :=
  fold_left (fun b n => w32 (n * 4) (JOURNAL_FIRST + 12 + Z.of_nat n) b) (seq 0 (Z.to_nat (JOURNAL_BLOCKS - 12))) (zero (Z.to_nat BS)).

Definition journal_super : list Z :=
  be32 28 0 (be32 24 1 (be32 20 1 (be32 16 JOURNAL_BLOCKS (be32 12 BS (be32 8 0 (be32 4 4 (be32 0 0xc03b3998 (zero (Z.to_nat BS))))))))).

Section varfs.
Context {D : Type} `{Disk D}.

Local Abbreviation E := (M (ext2 D)).
Local Abbreviation V := (M (varfs D)).

(** The blocks of the partition, whatever is mounted. *)
Fixpoint rd_sectors (k : nat) (n i : Z) : E (option (list Z)) :=
  match k with
  | O => ret (Some [])
  | S k =>
    let! r := on_disk (blk_read (u32 (VAR_START + n * 8 + i))) in
    match r with
    | None => ret None
    | Some x => let! r := rd_sectors k n (i + 1) in ret (option_map (app x) r)
    end
  end.
Definition rd (n : Z) : E (option (list Z)) := rd_sectors 8 n 0.

Fixpoint wr_sectors (k : nat) (n i : Z) (b : list Z) : E bool :=
  match k with
  | O => ret true
  | S k =>
    let! ok := on_disk (blk_write (u32 (VAR_START + n * 8 + i)) (take 512 b)) in
    if ok then wr_sectors k n (i + 1) (drop 512 b) else ret false
  end.
Definition wr (n : Z) (b : list Z) : E bool := wr_sectors 8 n 0 b.

Fixpoint wr_all (l : list Z) (b : list Z) : E bool :=
  match l with [] => ret true | n :: l => provided false (wr n b) (wr_all l b) end.

Definition journal_marked (b : list Z) : list Z :=
  w32 1248 8 (w32 1116 (Z.lor (r32 b 1116) 4) (w32 1036 (r32 b 1036 - (JOURNAL_BLOCKS + 1)) b)).

Definition add_journal : E bool :=
  orelse false (rd 2) (fun b =>
  provided false (wr 2 (mark_bits (seqZ JOURNAL_FIRST (JOURNAL_INDIRECT - JOURNAL_FIRST + 1)) b))
  (orelse false (rd 0) (fun b =>
  provided false (wr 0 (journal_marked b))
  (orelse false (rd 1) (fun b =>
  provided false (wr 1 (w16 12 (r16 b 12 - (JOURNAL_BLOCKS + 1)) b))
  (orelse false (rd 4) (fun b =>
  provided false (wr 4 (wtext (7 * 128) journal_inode b))
  (provided false (wr JOURNAL_INDIRECT journal_entries)
  (provided false (wr JOURNAL_FIRST journal_super)
  (provided false (wr_all (seqZ (JOURNAL_FIRST + 1) (JOURNAL_BLOCKS - 1)) (zero (Z.to_nat BS)))
  disk_sync)))))))))).

Definition on_vol {A} (m : E A) : V A := fun s => do r <- m (vol s); let '(a, v) := r in Ok (a, Varfs v (current s)).
Definition set_current (level : Z) : V unit := modify (fun s => Varfs (vol s) level).

Definition ext4_marked (b : list Z) : list Z := w32 1120 (Z.lor (r32 b 1120) 0x40) b.

Definition mark_ext4 : E bool :=
  orelse false (rd 0) (fun b => provided false (wr 0 (ext4_marked b)) disk_sync).

Definition ext_variant_format (level : Z) : V bool :=
  if (level <? 2) || (4 <? level) then ret false else
  let! ok := on_vol ext2_format in
  if negb ok then ret false else
  let! ok := (if 3 <=? level then on_vol add_journal else ret true) in
  if negb ok then ret false else
  let! ok := (if level =? 4 then on_vol mark_ext4 else ret true) in
  if negb ok then ret false else
  set_current level ;; ret true.

Definition level_of (b : list Z) : Z :=
  if z2b (Z.land (r32 b 1120) 0x40) then 4 else if z2b (Z.land (r32 b 1116) 4) then 3 else 2.

Definition ext_variant_detect : V Z :=
  let! r := on_vol (rd 0) in
  match r with
  | None => ret 0
  | Some b => if negb (r16 b 1080 =? 0xef53) then ret 0 else set_current (level_of b) ;; ret (level_of b)
  end.

Definition ext_variant_name : V (list Z) :=
  let! s := get in ret (text (if current s =? 4 then "ext4" else if current s =? 3 then "ext3" else "ext2")).

(** ** The operations on /var *)

Definition varfs_probe : V bool := on_vol ext2_probe.
Definition varfs_format : V bool := ext_variant_format 4.
Definition varfs_format_level (l : Z) : V bool := ext_variant_format l.
Definition varfs_mount : V bool :=
  let! ok := on_vol ext2_mount in when ok (ext_variant_detect ;; ret tt) ;; ret ok.
Definition varfs_type : V (list Z) := ext_variant_name.
Definition varfs_mounted : V bool := on_vol ext2_mounted.

(** The mask, user and group are those of the session. *)
Definition varfs_store (umask uid gid : Z) (p d : list Z) : V bool :=
  on_vol (ext2_store p d (u16 (Z.land 0x1b6 (Z.lnot umask))) uid gid).
Definition varfs_load (p : list Z) (c : Z) : V (option (list Z)) := on_vol (ext2_load p c).
Definition varfs_stat (p : list Z) : V (option (Z * Z * Z * Z)) := on_vol (ext2_stat p).
Definition varfs_chmod (p : list Z) (m : Z) : V bool := on_vol (ext2_chmod p m).
Definition varfs_chown (p : list Z) (u g : Z) (su sg : bool) : V bool := on_vol (ext2_chown p u g su sg).
Definition varfs_remove (p : list Z) : V bool := on_vol (ext2_remove p).
Definition varfs_at (depth : nat) (i c : Z) : V (option (list Z * option Z)) := on_vol (ext2_at depth i c).
Definition varfs_sync : V bool := on_vol ext2_sync.
Definition varfs_unmount : V unit := on_vol ext2_unmount.
Definition varfs_check : V (option (Z * Z)) := on_vol ext2_check.
End varfs.

Implicit Types (B : Z -> list Z).

(** ** The journal on the volume *)

Definition journal_list : list Z := seqZ JOURNAL_FIRST (JOURNAL_INDIRECT - JOURNAL_FIRST + 1).

(** The blocks of the journal taken and filled, its inode stored. *)
Definition grown B : Z -> list Z := fun n =>
  if n =? BLOCK_BITMAP then mark_bits journal_list (B BLOCK_BITMAP)
  else if n =? JOURNAL_INDIRECT then journal_entries
  else if n =? JOURNAL_FIRST then journal_super
  else if (JOURNAL_FIRST <? n) && (n <? JOURNAL_INDIRECT) then zero (Z.to_nat BS) else B n.

Definition journaled B : Z -> list Z := put_inode 8 journal_inode (grown B).

Lemma journal_inode_ok : inode_ok journal_inode /\ is_dir journal_inode = false /\ i_block 12 journal_inode = JOURNAL_INDIRECT /\ direct journal_inode = seqZ JOURNAL_FIRST 12.
Proof. split; [split; [done|by repeat constructor]|]. split_and!; by vm_compute. Qed.

Lemma journal_entries_ok : block_ok journal_entries.
Proof.
  unfold journal_entries. assert (forall l b, block_ok b -> block_ok (fold_left (fun b n => w32 (n * 4) (JOURNAL_FIRST + 12 + Z.of_nat n) b) l b)) as Hg.
  { induction l as [|n l IH]; intros b Hb; [done|]. apply IH. by apply w32_block. }
  apply Hg, zero_block.
Qed.

Lemma journal_super_ok : block_ok journal_super.
Proof. unfold journal_super, be32. repeat apply w8_block. apply zero_block. Qed.

Lemma journal_entries_value : nz (entries journal_entries) = seqZ (JOURNAL_FIRST + 12) 1012.
Proof. by vm_compute. Qed.

Lemma elem_of_journal n : n ∈ journal_list <-> JOURNAL_FIRST <= n <= JOURNAL_INDIRECT.
Proof. unfold journal_list. rewrite elem_of_seqZ. unfold JOURNAL_FIRST, JOURNAL_INDIRECT. lia. Qed.

Section journal.
Context B (Hfs : fs_ok B) (Hunused : forall n, FIRST_DATA < n < NB -> bused B n = false) (H8 : iused B 8 = true) (Hnd : is_dir (inode B 8) = false).

Lemma grown_grows : grows B journal_list (grown B).
Proof.
  assert (block_ok (B 2)) as H2 by (apply (fs_blocks _ Hfs); by unfold NB). unfold grown. constructor.
  - intros n Hn Hni. rewrite elem_of_journal in Hni. unfold JOURNAL_FIRST, JOURNAL_INDIRECT, BLOCK_BITMAP in *.
    rewrite (proj2 (Z.eqb_neq n 2)), (proj2 (Z.eqb_neq n 1285)), (proj2 (Z.eqb_neq n 261)) by lia.
    destruct (Z.ltb_spec 261 n), (Z.ltb_spec n 1285); cbn [andb]; try reflexivity. lia.
  - intros n Hn. unfold bused. rewrite Z.eqb_refl. rewrite bit_set_mark_bits; [apply orb_comm| |lia|done].
    apply Forall_forall. intros x Hx%elem_of_journal. unfold JOURNAL_FIRST, JOURNAL_INDIRECT in Hx. lia.
  - intros n Hn%elem_of_journal. unfold JOURNAL_FIRST, JOURNAL_INDIRECT, FIRST_DATA, NB in *. split; [lia|]. apply Hunused. unfold FIRST_DATA, NB. lia.
  - apply NoDup_seqZ.
  - intros n Hn. destruct (n =? BLOCK_BITMAP); [by apply mark_bits_ok|]. destruct (n =? JOURNAL_INDIRECT); [apply journal_entries_ok|].
    destruct (n =? JOURNAL_FIRST); [apply journal_super_ok|]. destruct ((JOURNAL_FIRST <? n) && (n <? JOURNAL_INDIRECT)); [apply zero_block|by apply (fs_blocks _ Hfs)].
Qed.

Lemma journal_owned n : n ∈ owned (grown B) journal_inode -> n ∈ journal_list.
Proof.
  destruct journal_inode_ok as (_ & _ & E12 & Ed). unfold owned. rewrite E12, Ed. change (JOURNAL_INDIRECT =? 0) with false. cbv iota.
  change (grown B JOURNAL_INDIRECT) with journal_entries. rewrite journal_entries_value, elem_of_journal, elem_of_app, elem_of_cons, elem_of_nz, !elem_of_seqZ.
  unfold JOURNAL_FIRST, JOURNAL_INDIRECT. lia.
Qed.

Lemma journal_fits : inode_fits (grown B) 8 journal_inode.
Proof.
  pose proof grown_grows as Hg. destruct journal_inode_ok as (Hi & Hd & _). assert (frames none B (grown B)) as Hf by (eapply fr_grows; [done|by apply frames_refl|done]).
  constructor; [done| |by rewrite Hd|].
  - intros n Hn%journal_owned. destruct (grows_used _ _ _ n Hg Hn) as [Hr Hu]. split; [exact Hr|]. split; [exact Hu|]. intros j Hj _. by eapply grows_unowned.
  - rewrite (fr_inodes _ _ _ Hf), Hnd; [discriminate|by unfold ino_ok, INODES|intros []].
Qed.

Lemma journaled_ok :
  fs_ok (journaled B) /\ (forall nm, find_name (journaled B) ROOT_INO nm = find_name B ROOT_INO nm) /\ dir_block (journaled B) ROOT_INO = dir_block B ROOT_INO /\
  (free (journaled B) + 1025)%nat = free B /\ inode_left (journaled B) = inode_left B.
Proof.
  pose proof grown_grows as Hg. assert (frames none B (grown B)) as Hf by (eapply fr_grows; [done|by apply frames_refl|done]).
  destruct (frames_ok B _ Hfs Hf) as [Hfs1 K1]. assert (ino_ok 8) as Hi by (by unfold ino_ok, INODES). assert (ino_ok ROOT_INO) as Hroot by done.
  assert (replaces (grown B) 8 (journaled B)) as Hre by (apply put_replaces; [done|done|by apply (k_used _ _ _ K1)|apply journal_fits]).
  assert (ROOT_INO <> 8) as Hne by done. destruct (fs_root _ Hfs) as [Hdir _]. split; [by eapply replaces_ok|]. split_and!.
  - intros nm. by rewrite (other_find (grown B) 8), (frames_find B).
  - rewrite (other_dir (grown B) 8), (frames_dir_block B) by (done || by apply (k_dir _ _ _ K1)). done.
  - assert (free (journaled B) = free (grown B)) as ->.
    { unfold free, bused, journaled. rewrite put_low by (done || (left; by unfold BLOCK_BITMAP, INODE_TABLE)). reflexivity. }
    assert (length journal_list = 1025%nat) as El by (unfold journal_list; rewrite length_seqZ; reflexivity).
    rewrite <- El. apply (grows_free_count _ _ _ Hg).
  - unfold inode_left, iused, journaled. rewrite put_low by (done || (left; by unfold INODE_BITMAP, INODE_TABLE)).
    rewrite (g_same _ _ _ Hg); [reflexivity|by unfold INODE_BITMAP, NB|]. rewrite elem_of_journal. unfold INODE_BITMAP, JOURNAL_FIRST. lia.
Qed.
End journal.

Lemma journaled_empty B : blocks_ok B -> empty_volume (journaled (formatted B)).
Proof.
  intros HB. pose proof (formatted_empty B HB) as [Hfs Hn Hf Hl Hr]. pose proof (formatted_free B) as Hc.
  assert (iused (formatted B) 8 = true) as H8 by (rewrite formatted_inodes by (unfold INODES; lia); reflexivity).
  assert (ino_ok 8) as Hi by (unfold ino_ok, INODES; lia). pose proof (formatted_inode B 8 Hi) as E.
  destruct (decide (8 = ROOT_INO)) as [Hx|_]; [discriminate Hx|].
  assert (is_dir (inode (formatted B) 8) = false) as Hd by (rewrite E; apply zero_inode_fields). clear E.
  pose proof (formatted_unused B) as Hu. generalize dependent (formatted B). clear B HB. intros B. intros.
  destruct (journaled_ok B Hfs Hu H8 Hd) as (J1 & J2 & J3 & J4 & J5). constructor; [assumption|intros nm Hnm; rewrite J2; apply Hn; assumption| |rewrite J5; assumption|rewrite J3; assumption].
  unfold NB, FIRST_DATA in Hc. lia.
Qed.

Section run.
Context {D : Type} `{DiskLaws D} (W0 : Z -> list Z).

Local Abbreviation E := (M (ext2 D)).

(** ** Blocks by number *)

Lemma rd_sectors_eq (k : nat) n i (s : ext2 D) : base s = VAR_START -> rd_sectors k n i s = read_sectors k n i s.
Proof.
  revert i s. induction k as [|k IH]; intros i s Hb; [done|]. cbn [rd_sectors read_sectors]. unfold bind at 1 3, get. unfold bind at 1 2, on_disk, block_lba. rewrite Hb.
  destruct (blk_read (u32 (VAR_START + n * 8 + i)) (dk s)) as [[x|] d]; [|done]. unfold bind. by rewrite IH.
Qed.

Lemma wr_sectors_eq (k : nat) n i b (s : ext2 D) : base s = VAR_START -> wr_sectors k n i b s = write_sectors k n i b s.
Proof.
  revert i b s. induction k as [|k IH]; intros i b s Hb; [done|]. cbn [wr_sectors write_sectors]. unfold bind at 2, get. unfold bind, on_disk, block_lba. rewrite Hb.
  destruct (blk_write (u32 (VAR_START + n * 8 + i)) (take 512 b) (dk s)) as [[] d]; [|done]. by rewrite IH.
Qed.

Lemma rd_eq c B (s : ext2 D) n : at_ W0 c B s -> 0 <= n < NB -> rd n s = bread n s.
Proof.
  intros [_ Hb Hbl _ _ _ _] Hn. unfold rd, bread, bind, get. rewrite Hbl, (proj2 (Z.leb_gt _ _)) by lia. by apply rd_sectors_eq.
Qed.

Lemma wr_eq c B (s : ext2 D) n b : at_ W0 c B s -> 0 <= n < NB -> wr n b s = bwrite n b s.
Proof.
  intros [_ Hb Hbl _ _ _ _] Hn. unfold wr, bwrite, bind, get. rewrite Hbl, (proj2 (Z.leb_gt _ _)) by lia. by apply wr_sectors_eq.
Qed.

Lemma runs_rd c B n : 2 <= n < NB -> runs (D := D) W0 c B (rd n) (Some (B n)) B.
Proof. intros Hn s Hs. rewrite (rd_eq c B) by (done || lia). by apply (runs_bread W0 c B n Hn). Qed.

Lemma runs_wr c B n b : 2 <= n < NB -> block_ok b -> runs (D := D) W0 c B (wr n b) true (bset n b B).
Proof. intros Hn Hb s Hs. rewrite (wr_eq c B) by (done || lia). by apply (runs_bwrite W0 c B n b Hn Hb). Qed.

Lemma runs_wr_all c B (l : list Z) b :
  Forall (fun n => 2 <= n < NB) l -> block_ok b -> runs (D := D) W0 c B (wr_all l b) true (fun n => if bool_decide (n ∈ l) then b else B n).
Proof.
  intros Hl Hb s Hs. destruct (runs_write_all W0 c l B b Hl Hb s Hs) as (s' & E & Hs'). exists s'. split; [|done]. rewrite <- E. clear E Hs' s'.
  revert B s Hs. induction Hl as [|n l Hn Hl IH]; intros B s Hs; [done|]. cbn [wr_all write_all]. unfold provided, bind. rewrite (wr_eq c B) by (done || lia).
  destruct (runs_bwrite W0 c B n b Hn Hb s Hs) as (s1 & -> & Hs1). by apply (IH (bset n b B)).
Qed.

(** The superblock: the marks are kept but for the feature words. *)
Lemma rd_super c B (s : ext2 D) : at_ W0 c B s -> exists s' b, rd 0 s = Ok (Some b, s') /\ at_ W0 c B s' /\ block_ok b /\ marks_of b = marks c.
Proof.
  intros Hs. destruct (bread_at W0 c B s 0 Hs) as (s' & E & Hs'); [by unfold NB|]. exists s', (block_of (view (dk s)) 0).
  rewrite (rd_eq c B) by (done || by unfold NB). split; [done|]. split; [done|]. split; [apply block_of_ok; by apply (at_sector_ok W0 c B)|apply (at_marks _ _ _ _ Hs)].
Qed.

Lemma wr_super c B (s : ext2 D) b : at_ W0 c B s -> block_ok b -> exists s', wr 0 b s = Ok (true, s') /\ at_ W0 (Standing (up c) (marks_of b)) B s'.
Proof. intros Hs Hb. rewrite (wr_eq c B) by (done || by unfold NB). by apply super_at. Qed.

(** Groups of descriptors are not part of the view. *)
Lemma runs_rd_wr_group c B (f : list Z -> list Z) (m : E bool) B' :
  (forall b, block_ok b -> block_ok (f b)) -> runs W0 c B m true B' ->
  runs W0 c B (orelse false (rd 1) (fun b => provided false (wr 1 (f b)) m)) true B'.
Proof.
  intros Hf Hm s Hs. destruct (bread_at W0 c B s 1 Hs) as (s1 & E1 & H1); [by unfold NB|]. unfold orelse, bind. rewrite (rd_eq c B) by (done || by unfold NB). rewrite E1.
  destruct (runs_bwrite_group W0 c B (f (block_of (view (dk s)) 1)) ) with (s := s1) as (s2 & E2 & H2); [apply Hf, block_of_ok; by apply (at_sector_ok W0 c B)|done|].
  unfold provided, bind. rewrite (wr_eq c B) by (done || by unfold NB). rewrite E2. by apply Hm.
Qed.

(** ** Adding the journal *)

Lemma runs_journal_rest c B :
  let B1 := bset 2 (mark_bits journal_list (B 2)) B in
  runs W0 c B1
    (orelse false (rd 1) (fun b =>
     provided false (wr 1 (w16 12 (r16 b 12 - (JOURNAL_BLOCKS + 1)) b))
     (orelse false (rd 4) (fun b =>
     provided false (wr 4 (wtext (7 * 128) journal_inode b))
     (provided false (wr JOURNAL_INDIRECT journal_entries)
     (provided false (wr JOURNAL_FIRST journal_super)
     (provided false (wr_all (seqZ (JOURNAL_FIRST + 1) (JOURNAL_BLOCKS - 1)) (zero (Z.to_nat BS)))
     disk_sync))))))) true (journaled B).
Proof.
  intros B1. apply runs_rd_wr_group; [intros b Hb; by apply w16_block|]. apply runs_ok. intros Hok.
  eapply runs_orelse; [apply runs_rd; unfold NB; lia|].
  eapply runs_provided; [apply runs_wr; [unfold NB; lia|apply wtext_block; [apply journal_inode_ok|apply Hok; unfold NB; lia]]|].
  eapply runs_provided; [apply runs_wr; [unfold JOURNAL_INDIRECT, NB; lia|apply journal_entries_ok]|].
  eapply runs_provided; [apply runs_wr; [unfold JOURNAL_FIRST, NB; lia|apply journal_super_ok]|].
  eapply runs_provided; [apply runs_wr_all; [apply Forall_forall; intros n Hn%elem_of_seqZ; unfold JOURNAL_FIRST, JOURNAL_BLOCKS, NB in *; lia|apply zero_block]|].
  eapply runs_result; [apply runs_sync|]. intros n _. unfold journaled, put_inode, B1. change (inode_block 8) with 4. change (inode_offset 8) with (7 * 128)%nat.
  change (grown B 4) with (B 4). rewrite (bset_ne 2) by lia. unfold bset, grown, BLOCK_BITMAP.
  assert (n ∈ seqZ (JOURNAL_FIRST + 1) (JOURNAL_BLOCKS - 1) <-> JOURNAL_FIRST < n < JOURNAL_INDIRECT) as Hin.
  { rewrite elem_of_seqZ. unfold JOURNAL_FIRST, JOURNAL_BLOCKS, JOURNAL_INDIRECT. lia. }
  rewrite (bool_decide_ext _ _ Hin). unfold JOURNAL_FIRST, JOURNAL_INDIRECT in *. case_bool_decide as Hr.
  - rewrite (proj2 (Z.eqb_neq n 4)), (proj2 (Z.eqb_neq n 2)), (proj2 (Z.eqb_neq n 1285)), (proj2 (Z.eqb_neq n 261)) by lia.
    rewrite (proj2 (Z.ltb_lt _ _)), (proj2 (Z.ltb_lt _ _)) by lia. reflexivity.
  - destruct (Z.eqb_spec n 4) as [->|]; [reflexivity|]. destruct (Z.eqb_spec n 261) as [->|]; [reflexivity|]. destruct (Z.eqb_spec n 1285) as [->|]; [reflexivity|].
    destruct (Z.eqb_spec n 2); [reflexivity|]. destruct (Z.ltb_spec 261 n), (Z.ltb_spec n 1285); cbn [andb]; try reflexivity. lia.
Qed.

Definition ext3_marks : list Z := [EXT2_MAGIC; 2; INODE_SIZE; 4; 2].
Definition ext4_marks : list Z := [EXT2_MAGIC; 2; INODE_SIZE; 4; 0x42].

(** A field next to one that is written. *)
Lemma r32_beside o o' v b : block_ok b -> (o' + 4 <= o \/ o + 4 <= o')%nat -> (o + 4 <= 4096)%nat -> r32 (w32 o v b) o' = r32 b o'.
Proof. intros [Hl _] Hne Ho. apply r32_w32_ne; lia. Qed.

Lemma r16_beside o o' v b : block_ok b -> (o' + 2 <= o \/ o + 4 <= o')%nat -> (o + 4 <= 4096)%nat -> r16 (w32 o v b) o' = r16 b o'.
Proof. intros [Hl _] Hne Ho. apply r16_w32_ne; lia. Qed.

Lemma marks_written b v1 v2 v3 :
  block_ok b -> let b1 := w32 1036 v1 b in let b2 := w32 1116 v2 b1 in let b3 := w32 1248 v3 b2 in
  marks_of b3 = [r16 b 1080; r32 b 1048; r16 b 1112; v2 mod 2 ^ 32; r32 b 1120] /\ block_ok b3.
Proof.
  intros Hb b1 b2 b3. assert (block_ok b1) as Hb1 by by apply w32_block. assert (block_ok b2) as Hb2 by by apply w32_block.
  split; [|by apply w32_block]. unfold marks_of, b3. rewrite !r16_beside, !r32_beside by (done || lia). unfold b2.
  rewrite !r16_beside, (r32_beside 1116 1048), (r32_beside 1116 1120) by (done || lia). rewrite r32_w32 by (apply Hb1 || (rewrite (proj1 Hb1); lia)).
  unfold b1. rewrite !r16_beside, !r32_beside by (done || lia). reflexivity.
Qed.

Lemma journal_marks b : block_ok b -> marks_of b = ext2_marks -> marks_of (journal_marked b) = ext3_marks /\ block_ok (journal_marked b).
Proof.
  intros Hb Hm. unfold marks_of in Hm. injection Hm as M1 M2 M3 M4 M5. unfold journal_marked. rewrite M4.
  destruct (marks_written b (r32 b 1036 - (JOURNAL_BLOCKS + 1)) (Z.lor 0 4) 8 Hb) as [-> Hb3]. split; [|exact Hb3]. rewrite M1, M2, M3, M5. reflexivity.
Qed.

Lemma fourth_marks b : block_ok b -> marks_of b = ext3_marks -> marks_of (ext4_marked b) = ext4_marks /\ block_ok (ext4_marked b).
Proof.
  intros Hb Hm. unfold marks_of in Hm. injection Hm as M1 M2 M3 M4 M5. unfold ext4_marked. rewrite M5. split; [|by apply w32_block]. unfold marks_of.
  assert (r16 (w32 1120 (Z.lor 2 64) b) 1080 = r16 b 1080) as -> by (apply r16_beside; (done || lia)).
  assert (r16 (w32 1120 (Z.lor 2 64) b) 1112 = r16 b 1112) as -> by (apply r16_beside; (done || lia)).
  assert (r32 (w32 1120 (Z.lor 2 64) b) 1048 = r32 b 1048) as -> by (apply r32_beside; (done || lia)).
  assert (r32 (w32 1120 (Z.lor 2 64) b) 1116 = r32 b 1116) as -> by (apply r32_beside; (done || lia)).
  assert (r32 (w32 1120 (Z.lor 2 64) b) 1120 = 0x42) as -> by (rewrite r32_w32 by (apply Hb || (rewrite (proj1 Hb); lia)); reflexivity).
  rewrite M1, M2, M3, M4. reflexivity.
Qed.

Lemma add_journal_at u B (s : ext2 D) :
  at_ W0 (Standing u ext2_marks) B s -> exists s', add_journal s = Ok (true, s') /\ at_ W0 (Standing u ext3_marks) (journaled B) s'.
Proof.
  intros Hs. unfold add_journal, orelse at 1, bind at 1. destruct (runs_rd (Standing u ext2_marks) B 2 ltac:(unfold NB; lia) s Hs) as (s1 & -> & H1).
  assert (block_ok (B 2)) as Hb2 by (apply (at_ok W0 _ B s 2 Hs); unfold NB; lia). unfold provided at 1, bind at 1. fold journal_list.
  destruct (runs_wr (Standing u ext2_marks) B 2 (mark_bits journal_list (B 2)) ltac:(unfold NB; lia) (mark_bits_ok _ _ Hb2) s1 H1) as (s2 & -> & H2).
  unfold orelse at 1, bind at 1. destruct (rd_super _ _ s2 H2) as (s3 & b & -> & H3 & Hb & Hm). destruct (journal_marks b Hb Hm) as [Hm' Hb'].
  unfold provided at 1, bind at 1. destruct (wr_super _ _ s3 (journal_marked b) H3 Hb') as (s4 & -> & H4). rewrite Hm' in H4.
  exact (runs_journal_rest (Standing u ext3_marks) B s4 H4).
Qed.

Lemma mark_ext4_at u B (s : ext2 D) :
  at_ W0 (Standing u ext3_marks) B s -> exists s', mark_ext4 s = Ok (true, s') /\ at_ W0 (Standing u ext4_marks) B s'.
Proof.
  intros Hs. unfold mark_ext4, orelse, bind. destruct (rd_super _ _ s Hs) as (s1 & b & -> & H1 & Hb & Hm). destruct (fourth_marks b Hb Hm) as [Hm' Hb'].
  unfold provided, bind. destruct (wr_super _ _ s1 (ext4_marked b) H1 Hb') as (s2 & -> & H2). rewrite Hm' in H2. by apply (runs_sync W0 _ B).
Qed.
End run.

Section theorems.
Context {D : Type} `{DiskLaws D}.

Definition level_marks (level : Z) : list Z := if level =? 2 then ext2_marks else if level =? 3 then ext3_marks else ext4_marks.

Lemma on_vol_ok {A} (m : M (ext2 D) A) a v (s : varfs D) : m (vol s) = Ok (a, v) -> on_vol m s = Ok (a, Varfs v (current s)).
Proof. intros Hm. unfold on_vol. by rewrite Hm. Qed.

Lemma format_level_at level (s : varfs D) :
  good (dk (vol s)) -> 2 <= level <= 4 ->
  exists s1 B, varfs_format_level level s = Ok (true, s1) /\ current s1 = level /\ empty_volume B /\
    at_ (view (dk (vol s))) (Standing true (level_marks level)) B (vol s1).
Proof.
  intros Hg Hl. unfold varfs_format_level, ext_variant_format. rewrite (proj2 (Z.ltb_ge level 2)), (proj2 (Z.ltb_ge 4 level)) by lia. cbn [orb].
  destruct (format_value (vol s) Hg) as (v1 & B0 & HB0 & E1 & H1). unfold bind at 1. rewrite (on_vol_ok _ _ _ _ E1). cbn [negb]. unfold level_marks.
  assert (level = 2 \/ level = 3 \/ level = 4) as [->|[->| ->]] by lia; unfold bind; cbn [Z.leb Z.eqb Pos.eqb Z.compare Pos.compare Pos.compare_cont].
  - eexists _, (formatted B0). split; [reflexivity|]. split; [reflexivity|]. split; [by apply formatted_empty|exact H1].
  - destruct (add_journal_at _ _ _ v1 H1) as (v2 & E2 & H2). rewrite (on_vol_ok _ _ _ (Varfs v1 (current s)) E2).
    eexists _, (journaled (formatted B0)). split; [reflexivity|]. split; [reflexivity|]. split; [by apply journaled_empty|exact H2].
  - destruct (add_journal_at _ _ _ v1 H1) as (v2 & E2 & H2). rewrite (on_vol_ok _ _ _ (Varfs v1 (current s)) E2). cbn [negb].
    destruct (mark_ext4_at _ _ _ v2 H2) as (v3 & E3 & H3). rewrite (on_vol_ok _ _ _ (Varfs v2 _) E3).
    eexists _, (journaled (formatted B0)). split; [reflexivity|]. split; [reflexivity|]. split; [by apply journaled_empty|exact H3].
Qed.

(** Mounting after a restart finds the volume and its level. *)
Lemma varfs_mount_at W0 level B (v : ext2 D) bs n mt c :
  at_ W0 (Standing true (level_marks level)) B v -> 2 <= level <= 4 ->
  exists s2, varfs_mount (Varfs (Ext2 (dk v) bs n mt) c) = Ok (true, s2) /\ current s2 = level /\ at_ W0 (Standing true (level_marks level)) B (vol s2).
Proof.
  intros Hv Hl. assert (recognised (level_marks level) = true) as Hr by (unfold level_marks; by destruct (level =? 2), (level =? 3)).
  destruct (mount_at W0 _ B v bs n mt Hv Hr) as (v1 & E1 & H1). destruct (rd_super W0 _ B v1 H1) as (v2 & b & E2 & H2 & _ & Hm). cbn [marks] in *.
  unfold varfs_mount, bind at 1. rewrite (on_vol_ok _ _ _ (Varfs _ c) E1). unfold when, bind, ext_variant_detect, bind. rewrite (on_vol_ok _ _ _ (Varfs v1 _) E2).
  unfold marks_of in Hm. assert (level = 2 \/ level = 3 \/ level = 4) as [->|[->| ->]] by lia; injection Hm as M1 M2 M3 M4 M5;
    rewrite M1; (eexists; split; [reflexivity|]); (split; [cbn [current]; unfold level_of; rewrite M4, M5; reflexivity|exact H2]).
Qed.

Lemma leaf_name_root name : 47 ∉ name -> name <> [] -> leaf_name (47 :: name) = name.
Proof.
  intros Hn Hz. destruct (name_path name Hn Hz) as (E1 & E2 & E3). unfold leaf_name. rewrite E1. destruct name as [|c name]; [done|]. cbn [length leaf_of]. by rewrite E3.
Qed.

Lemma no_dots_root name : 47 ∉ name -> name <> [] -> dots name = false -> no_dots (length (skip_slashes (47 :: name))) (skip_slashes (47 :: name)) = true.
Proof.
  intros Hn Hz Hd. destruct (name_path name Hn Hz) as (E1 & E2 & E3). rewrite E1. destruct name as [|c name]; [done|]. cbn [length no_dots]. by rewrite E3, E2, Hd.
Qed.

(** Storing into the root directory of an empty volume. *)
Lemma store_first W0 k B (v : ext2 D) name data m u g :
  at_ W0 (Standing true k) B v -> empty_volume B -> (1 <= length name <= 255)%nat -> 47 ∉ name -> dots name = false -> Forall is_u8 name -> Forall is_u8 data ->
  (length data <= 4096 * 1036)%nat ->
  exists v1 v2, ext2_store (47 :: name) data m u g v = Ok (true, v1) /\ ext2_load (47 :: name) (Z.of_nat (length data)) v1 = Ok (Some data, v2).
Proof.
  intros Hv Hev Hl Hs Hd Hn Hdata Hlen. assert (name <> []) as Hz by (intros ->; cbn in Hl; lia).
  destruct (ext2_store_ok W0 (Standing true k) B (47 :: name) data m u g) as (ok & B1 & Hrun & Hpost); try done.
  - apply Hev.
  - constructor; [unfold is_u8; lia|done].
  - apply empty_clear; [done|by apply no_dots_root].
  - rewrite leaf_name_root by done. lia.
  - destruct (Hrun v Hv) as (v1 & E1 & Hv1). destruct ok; [|destruct Hpost as [_ Hno]; by rewrite empty_room in Hno].
    destruct Hpost as (ino & Hfs1 & _ & El & Hm). destruct (load_value W0 k B1 v1 (47 :: name) (Z.of_nat (length data)) Hv1 Hfs1) as (v2 & E2 & _).
    exists v1, v2. split; [done|]. rewrite E2. do 2 f_equal.
    destruct (lookup_path B (47 :: name)); destruct Hm as [_ Hh]; (eapply load_held; [done|exact Hh|lia|done]).
Qed.

(** C32. Formatting the data partition as ext2, ext3 or ext4 returns true.  The
    volume is mounted, satisfies the invariant of the file operations, the
    journal included, and is empty: no path leads to a file.  Any file of at most
    1036 blocks can be stored in its root directory and is loaded back.  After a
    restart the volume mounts and the same level is found.  No sector outside the
    partition has changed. *)
Theorem varfs_formats level (s : varfs D) :
  good (dk (vol s)) -> 2 <= level <= 4 ->
  exists s1 k B, varfs_format_level level s = Ok (true, s1) /\ current s1 = level /\
    at_ (view (dk (vol s))) (Standing true k) B (vol s1) /\ recognised k = true /\ fs_ok B /\
    (forall path cap, skip_slashes path <> [] -> no_dots (length (skip_slashes path)) (skip_slashes path) = true ->
      exists s2, varfs_load path cap s1 = Ok (None, s2)) /\
    (forall name data umask uid gid,
      (1 <= length name <= 255)%nat -> 47 ∉ name -> dots name = false -> Forall is_u8 name -> Forall is_u8 data -> (length data <= 4096 * 1036)%nat ->
      exists s2 s3, varfs_store umask uid gid (47 :: name) data s1 = Ok (true, s2) /\
        varfs_load (47 :: name) (Z.of_nat (length data)) s2 = Ok (Some data, s3)) /\
    forall bs n mt c, exists s2, varfs_mount (Varfs (Ext2 (dk (vol s1)) bs n mt) c) = Ok (true, s2) /\ current s2 = level /\
      at_ (view (dk (vol s))) (Standing true k) B (vol s2).
Proof.
  intros Hg Hl. destruct (format_level_at level s Hg Hl) as (s1 & B & E1 & Ec & Hev & H1). exists s1, (level_marks level), B.
  split; [done|]. split; [done|]. split; [done|]. split; [unfold level_marks; by destruct (level =? 2), (level =? 3)|]. split; [apply Hev|]. split_and!.
  - intros path cap Hne Hnd. destruct (load_value _ _ B (vol s1) path cap H1 (ev_ok _ Hev)) as (v2 & E2 & _). unfold load_of in E2. rewrite empty_lookup in E2 by done.
    eexists. by apply on_vol_ok.
  - intros name data umask uid gid H2 H3 H4 H5 H6 H7.
    destruct (store_first _ _ B (vol s1) name data (u16 (Z.land 0x1b6 (Z.lnot umask))) uid gid H1 Hev H2 H3 H4 H5 H6 H7) as (v2 & v3 & E2 & E3).
    eexists _, _. split; [apply on_vol_ok; exact E2|]. by apply on_vol_ok.
  - intros bs n mt c. by apply varfs_mount_at.
Qed.
End theorems.

(** The partition of a blank disk as ext4. *)
Lemma varfs_formats_witness :
  exists s1 s2 s3, varfs_format_level 4 (Varfs blank_volume 0) = Ok (true, s1) /\ varfs_store 0x12 0 0 (text "/log") (text "first entry") s1 = Ok (true, s2) /\
    varfs_load (text "/log") 11 s2 = Ok (Some (text "first entry"), s3).
Proof.
  destruct (varfs_formats 4 (Varfs blank_volume 0)) as (s1 & k & B & E1 & _ & _ & _ & _ & _ & Hstore & _).
  - exact blank_idle.
  - lia.
  - destruct (Hstore (text "log") (text "first entry") 0x12 0 0) as (s2 & s3 & E2 & E3).
    + cbn. lia.
    + intros Hin%list_elem_of_In. vm_compute in Hin. repeat (destruct Hin as [Hin|Hin]; [discriminate Hin|]). exact Hin.
    + reflexivity.
    + vm_compute. repeat constructor; discriminate.
    + vm_compute. repeat constructor; discriminate.
    + change (length (text "first entry")) with 11%nat. lia.
    + exists s1, s2, s3. split; [exact E1|]. split; [exact E2|exact E3].
Defined.
